(* ===== verification/_CoqProject ===== *)
-Q . S2P
Prelude.v
Cache.v
Layout.v
BfsUtil.v
CoreTypes.v
FlexBuffer.v
Base64.v
SecAssoc.v
Wire.v
BlockLayer.v
BlockCache.v
FsLayer.v
BlockStore.v
Volume.v
SecBlock.v
SecStore.v
Instances.v
FsAlloc.v
Acl.v
FsDir.v
FsDirSpec.v
FsFile.v
FsOps.v
FsOpsSpec.v
FsCreate.v
FsRemove.v
Mkfs.v
SecVolume.v
Server.v
NetDevice.v
Client.v
ClientCache.v
Rpc.v
NetDeviceSpec.v
RpcSpec.v
Remote.v
RemoteCache.v
RemoteFaults.v
RemoteDir.v
Ext4Dev.v
Ext4Spec.v
Ext4Refine.v
Ext4Life.v
Ext4Ops.v
Ext4OpsSpec.v
Ext4Data.v
Ext4Instances.v
Ext4OpsInstances.v
FsInstances.v
MkfsInstances.v
RemoteInstances.v
CacheInstances.v
NetDeviceInstances.v
RegExp.v
BfsLog.v
RegExpSpec.v
RegExpPrint.v
CfgParser.v
CfgItem.v
FlexTest.v
CfgTokens.v
CfgParse.v
CfgLoad.v
CfgQuery.v
Startup.v
StartupSpec.v
StartupVolume.v
StartupClient.v
StartupInstances.v
