(* ===== verification/Prelude.v ===== *)
(** * A verification development of the Blind File System (BFS)

    BFS is a file system whose storage is not trusted.  A server keeps a volume
    on a set of block devices; every block is sealed with authenticated
    encryption under a per-block IV kept in metadata blocks, and a Merkle tree
    over the tags of all blocks detects replay.  The development follows the
    sources under [src/src], in the build without SGX, from the bytes of a device
    block up to the calls of a client on the other side of the network, and from
    the text of the configuration file to the running processes.  The file system
    is modelled with the settings of [config/bfs_system_config.cfg]
    ([cache_enabled] false, [merkle_tree] true).  Of its two backends, the whole
    system is put together with the own one; the one that uses the lwext4 library,
    which this file selects, is modelled by itself.

    ** Parts, from the bottom up

    - [Prelude]: machine integers with their wrap-around, byte lists with bounded
      access (reading outside a buffer is [None], in handlers [Crash]), the
      little-endian fields of serialized objects, and the monad [M S A] of all
      stateful code: [Ok a s], [Throw e s] (a C++ exception, with the state it
      leaves) and [Crash] (an assertion, [abort] or undefined behaviour).
    - [Cache] ([bfs_utils/bfs_cache.cpp]): the circular list and the map of
      [BfsCache], node by node.  The list is proved to behave as a bounded queue
      on the uses that are [safe]; at every capacity from 3 on there are sequences
      outside them that read freed memory ([cache_use_after_free]).
    - [Layout] ([bfs_core.h], [bfs_common.h]): constants and regions of a volume.
    - [BfsUtil] ([bfs_utils/bfs_util.cpp]): bitmaps, paths, time comparison.
    - [Base64] ([bfs_utils/bfs_base64.cpp]): the encoder and decoder.
    - [CoreTypes] ([bfs_core.cpp], [bfs_core.h]): superblock, inode bitmap, inode,
      directory entry, indirect block, open file: setters, [serialize],
      [deserialize].
    - [FlexBuffer] ([bfsFlexibleBuffer.cpp], [bfs_block.cpp]): buffers with room at
      both ends.
    - [SecAssoc] ([bfsCryptoKey.cpp], [bfsSecAssociation.cpp]): sealing and opening.
      The cipher of libgcrypt is a parameter: the class [Cipher] holds its operations
      and [CipherLaws] what the code relies on.
    - [BlockLayer] ([bfsDeviceStorage.cpp], [bfsLocalDevice.cpp],
      [bfsVertBlockCluster.cpp], [bfsBlockLayer.cpp]): devices, the cluster that
      puts their blocks end to end, the block cache (as an interface) and the
      choice of the allocation discipline.  [BlockCache]: the cluster with the
      cache of the repository, whose list holds pointers to block objects.
    - [FsLayer] ([bfs_fs_layer.cpp]): IV and MAC of each block in the metadata
      blocks, the Merkle tree.
    - [SecBlock], [SecStore] ([BfsHandle::read_blk], [BfsHandle::write_blk]): the
      sealed block store, its invariant, and its behaviour under attack.
    - [BlockStore]: the interface between the file system and its blocks, a class
      of operations and a class of laws.  [SecStore] and [Instances] discharge it
      with the sealed store; [FsInstances] with a map held in memory, on which the
      handlers are evaluated.  The theorems on the file system are proved against
      the interface.
    - [FsAlloc], [FsDir], [FsDirSpec], [FsFile], [FsOps], [FsOpsSpec], [FsCreate],
      [FsRemove] ([bfs_core.cpp]): inode and block allocation, directories and
      path lookup, file data, the handlers, and their specifications.  [Acl]
      ([bfs_acl.cpp], [bfs_usr.cpp]) holds the users and permission tests.
    - [Volume]: the interface of a volume that can be formatted, on top of
      [BlockStore]; [Mkfs] ([BfsHandle::mkfs], [BfsHandle::mount]) is proved
      against it and [SecVolume] discharges it with the sealed store.
    - [Wire] ([bfs_rawnet.cpp], [bfsNetworkConnection.cpp], the stream operators of
      [bfsFlexibleBuffer.h]): bytes over sockets whose kernel moves any number of
      bytes per call, framed messages, typed fields.
    - [Server] ([bfs_server_ecalls.cpp], worker loop of [bfs_server.cpp]): users and
      associations of the connections, opening and dispatch of requests, the
      handlers, sealing of responses.
    - [Client], [ClientCache] ([bfs_client.cpp]): the client's requests, and its
      write-back cache of file data in local files.  The cache reaches the server
      through the class [Remote] with its laws [RemoteLaws].
    - [Rpc], [RpcSpec], [Remote], [RemoteCache], [RemoteFaults], [RemoteDir]: client
      and server joined by the network, calls ([rpc]) and sessions, the listing of
      directories, and what goes wrong in them.
    - [NetDevice], [NetDeviceSpec] ([bfsDeviceLayer.cpp], [bfsRemoteDevice.cpp],
      [bfsNetworkDevice.cpp]): the packets of the device protocol, the device as
      the block layer sees it, the process with the storage, and the two joined
      ([exchange]).
    - [Ext4Dev], [Ext4Spec], [Ext4Refine], [Ext4Life]
      ([bfs_core_ext4_helpers.cpp], [bfs_fs_layer.cpp]): the block device that the
      lwext4 library works on, with ranges of sealed blocks, its own layout of the
      metadata and a tree that is updated once per range; its invariant, programs
      on it, closing and opening it.
    - [Ext4Ops], [Ext4OpsSpec], [Ext4Data] ([bfs_core_ext4_helpers.cpp]): the
      functions [__do_lwext4_...] that the server calls, the table of open files
      and its lock.  The library is a parameter, the class [Lwext4]; [QuietLib]
      says that its calls end and [Lwext4Laws] what it does with file data.
    - [RegExp], [RegExpSpec], [RegExpPrint] ([bfsRegExpression.cpp]): the parser of
      expressions, the automaton and its matcher; the language of an expression.
    - [CfgParser], [CfgItem] ([bfsCfgParser.cpp], [bfsCfgParserSymbol.cpp],
      [bfsCfgItem.cpp], [bfsCfgStore.cpp], [bfsConfigLayer.cpp]): tokenizer,
      recursive parser, the tree of items and the queries on it.  [CfgTokens],
      [CfgParse], [CfgLoad], [CfgQuery] hold the reference definitions of tokens,
      derivations, configurations and paths, and the proofs.
    - [BfsLog] ([bfs_log.cpp]): the table of log levels and the entries.
    - [FlexTest] ([bfs_util.cpp], [bfsFlexibleBuffer.h], [bfsFlexibleBuffer.cpp]):
      random values, typed headers and trailers, and the unit test of the buffers.
    - [Startup], [StartupSpec], [StartupVolume], [StartupClient] (the [...LayerInit]
      functions, [bfs_server.cpp], [enclave_init], [BfsClient::init]): the layers
      brought up from the configuration, in server and client, down to the cluster
      of devices and the keys; what they come up as.
    - [Instances], [FsInstances], [MkfsInstances], [RemoteInstances],
      [CacheInstances], [NetDeviceInstances], [Ext4Instances], [Ext4OpsInstances],
      [StartupInstances]: concrete ciphers, volumes, clients, servers, devices, a
      small library behind the lwext4 backend and the shipped configuration file,
      at which the theorems are applied.

    ** What the theorems show

    - The sealed store behaves as a map from block numbers to blocks; a read that
      succeeds on tampered devices returns the block last written unless a MAC
      forgery or a hash collision was exhibited ([secblock_refines_map],
      [read_blk_authentic]).  The cluster below it returns what a map returns,
      without the cache, and with [BfsCache] as long as no write is to the oldest
      of several blocks in it ([cluster_refines_map]).
    - On every block store that meets the interface: allocation, inode table,
      directory lookup, listing and insertion, path resolution, creating,
      opening, writing, reading, closing and removing files do what they should,
      with frame conditions on the inodes, entries and blocks not concerned; files
      are removed with inode numbers below 32768 only, since the code misses the
      other blocks of the bitmap ([bfs_unlink_spec]).
    - A raw volume can be formatted and mounted, and then files can be created,
      written at any offset up to the largest size and read back, on the sealed
      store as well ([mkfs_mount_fresh], [encrypted_create_write_read]).
    - A call of a client has the effect of the operation on the server and returns
      its value, whatever the cuts of the byte stream, writes apart: a short write
      is a failure for the client, and one that was denied is a success
      ([remote_call_is_local]); from the connection on, files can be formatted,
      created, written and read, through the cache too
      ([cached_data_reaches_volume]), and a directory is listed as it is on the
      server, with times that nobody set ([remote_directory_listed]).  A message that is not authentic changes
      nothing ([inauthentic_request_refused]).
    - A remote device gives the results of a local one for any sequence of
      operations within the device ([remote_device_is_local]).
    - The device under lwext4 behaves as a map of blocks, from its first opening
      over closing and opening again ([ext4_session_refines_map]), as long as ranges
      of several blocks are read where they were written, and the blocks do not have their metadata
      next to the root hash ([last_blocks_unreadable] is what happens to these);
      tampering with the storage is detected ([ext4_read_authentic]).  With any
      library, the operations on valid handles keep the table of open files in
      order, and use no open file that was freed but in the last log message of a
      release ([lwext4_handles_typed]); with one that keeps its promises, data that
      is written is read back ([lwext4_write_read]).
    - Every text that spells a configuration within the depth of the parser is
      loaded as its items, and loading any other text ends with a parser error or
      with the use of a null tree ([load_configuration], [load_ends]); a query by a
      tag finds the item of the path ([configured_item_found]).  The matcher ends
      on every text and accepts the language of the expression, and nothing more
      unless a group that may be skipped starts with a repetition
      ([regexp_match_decides]); printed expressions parse back
      ([regexp_print_parse]).
    - From a text that describes a system, the server comes up with its cluster,
      key and settings ([configured_startup]); with a client started from the same
      text, a volume is formatted and mounted and a file is created, written and
      read back over the network ([configured_system]).
    - The unit test of the flexible buffers passes for all random values
      ([flexBufferUTest_passes]).
    - Serialized objects, sealed buffers and encoded strings are read back as they
      were written; flexible buffers behave as byte queues; address translation
      and the volume layout are bijective and in bounds.
    - Where the code does not do what it means to, a theorem states what it does
      on a concrete or general input (for example [replay_accepted_on_retry],
      [rename_loses_file], [cache_use_after_free], [forged_response_deadlocks],
      [sparse_flush_sends_zeros], [inauthentic_packet_ends_device],
      [mixed_read_loses_block], [invalid_handle_deadlocks], [lwext4_stale_read]).

    ** Fuel and bounds

    Loops over a counter are structural on the number of rounds left.  [walk] gets
    the length of the path, each round consumes a byte, and [walk_fuel_enough]
    shows that more changes nothing; the loops of the Merkle tree go up one level
    per round and get 65 rounds, more than the levels of a tree with 64-bit
    indices.  A write through lwext4 calls itself once, to fill a gap, and gets two
    rounds; the listing of a directory ends when the library has no more entries,
    and its fuel is a parameter.  The loops over short reads and writes get one round per byte.  The
    loop of a flush over dirty chunks gets more rounds than the file has chunks
    ([cached_write_back] ends within them), and running out of them stands for a
    loop that does not end ([flush_past_end_hangs]).  The recursive parser gets
    two rounds more than the depth at which the code itself gives up; the
    tokenizer one round per byte; the matcher one per pair of a position and a
    state ([match_fuel]), which bounds the nesting of its calls; the unit test as
    many rounds as its iterations and the pops that can remain.  The theorems show
    that these are enough.  Integers are [Z] with the wrap written
    out where the C++ type wraps.

    ** Not modelled

    The caches of inodes and entries in [BfsHandle] (off in the shipped
    configuration; objects read from the volume are then local values, and object
    locks have no effect), the lwext4 library (a submodule) and the test of
    files on it, the start and main loop of FUSE, the dispatcher that accepts
    connections and starts workers, floating-point values of the configuration,
    printing and freeing of grammars, MD5, the random expressions
    of the unit test of regular expressions and the other tests and benchmarks,
    measurements, and the SGX bridges. *)

From stdpp Require Export base gmap list strings.
From coqutil Require Export Byte Word.LittleEndianList.
From Stdlib Require Export ZArith Lia.

#[global] Set Default Goal Selector "!".
#[global] Open Scope Z_scope.

(** ** Machine integers *)

(** Unsigned wrap-around at the widths the sources use. *)
Definition u8 (z : Z) : Z := z mod 2 ^ 8.
Definition u32 (z : Z) : Z := z mod 2 ^ 32.
Definition u64 (z : Z) : Z := z mod 2 ^ 64.

(** [fits n z]: [z] is representable in [n] unsigned bytes. *)
Definition fits (n : nat) (z : Z) : Prop := 0 <= z < 2 ^ (8 * Z.of_nat n).

#[export] Instance fits_dec n z : Decision (fits n z).
Proof. unfold fits. apply _. Defined.

Lemma fits_u64 z : fits 8 z <-> 0 <= z < 2 ^ 64.
Proof. done. Qed.

Lemma fits_u32 z : fits 4 z <-> 0 <= z < 2 ^ 32.
Proof. done. Qed.

Lemma u64_small z : 0 <= z < 2 ^ 64 -> u64 z = z.
Proof. apply Z.mod_small. Qed.

Lemma u32_small z : 0 <= z < 2 ^ 32 -> u32 z = z.
Proof. apply Z.mod_small. Qed.

Lemma u64_bound z : 0 <= u64 z < 2 ^ 64.
Proof. apply Z.mod_pos_bound. lia. Qed.

Lemma u32_bound z : 0 <= u32 z < 2 ^ 32.
Proof. apply Z.mod_pos_bound. lia. Qed.

Lemma le_combine_le_split n z : fits n z -> le_combine (le_split n z) = z.
Proof.
  intros H. rewrite le_combine_split, Z.mul_comm. by apply Z.mod_small.
Qed.

Lemma le_combine_fits bs : fits (length bs) (le_combine bs).
Proof. apply le_combine_bound. Qed.

#[global] Arguments le_split : simpl never.

(** ** Bytes *)

Abbreviation byte := Init.Byte.byte.
Abbreviation bytes := (list Init.Byte.byte).

#[export] Instance byte_eq_dec : EqDecision byte := Byte.byte_eq_dec.
#[export] Instance byte_countable : Countable byte :=
  inj_countable Stdlib.Strings.Byte.to_N Stdlib.Strings.Byte.of_N Stdlib.Strings.Byte.of_to_N.

(** The value of a byte as an [unsigned char], and back with truncation. *)
Abbreviation b2z := byte.unsigned.
Abbreviation z2b := byte.of_Z.

Lemma b2z_range b : 0 <= b2z b < 256.
Proof. pose proof (byte.unsigned_range b). lia. Qed.

Lemma b2z_z2b z : 0 <= z < 256 -> b2z (z2b z) = z.
Proof. intros H. rewrite byte.unsigned_of_Z. unfold byte.wrap. by apply Z.mod_small. Qed.

Lemma z2b_b2z b : z2b (b2z b) = b.
Proof. apply byte.of_Z_unsigned. Qed.

Lemma b2z_inj a b : b2z a = b2z b -> a = b.
Proof. intros H. by rewrite <-(z2b_b2z a), H, z2b_b2z. Qed.

(** Length of a list in [Z]. *)
Definition zlen {A} (l : list A) : Z := Z.of_nat (length l).

Lemma zlen_nonneg {A} (l : list A) : 0 <= zlen l.
Proof. unfold zlen. lia. Qed.

Lemma zlen_nil {A} : zlen (@nil A) = 0.
Proof. done. Qed.

Lemma zlen_cons {A} (x : A) l : zlen (x :: l) = 1 + zlen l.
Proof. unfold zlen. cbn. lia. Qed.

Lemma zlen_app {A} (l k : list A) : zlen (l ++ k) = zlen l + zlen k.
Proof. unfold zlen. rewrite length_app. lia. Qed.

Lemma zlen_le_split n z : zlen (le_split n z) = Z.of_nat n.
Proof. unfold zlen. by rewrite length_le_split. Qed.

Lemma zlen_replicate {A} n (x : A) : zlen (replicate n x) = Z.of_nat n.
Proof. unfold zlen. by rewrite length_replicate. Qed.

(** A zeroed buffer of [n] bytes. *)
Definition zeros (n : Z) : bytes := replicate (Z.to_nat n) Byte.x00.

Lemma zlen_zeros n : 0 <= n -> zlen (zeros n) = n.
Proof. intros. unfold zeros. rewrite zlen_replicate. lia. Qed.

(** ** Buffers

    [mem_get off n buf] and [mem_set off d buf] are [memcpy] out of and into a
    buffer.  An access outside the allocation is [None]: the sources have
    undefined behaviour there. *)
Definition mem_get (off n : Z) (buf : bytes) : option bytes :=
  if decide (0 <= off /\ 0 <= n /\ off + n <= zlen buf)
  then Some (take (Z.to_nat n) (drop (Z.to_nat off) buf)) else None.

Definition mem_set (off : Z) (d buf : bytes) : option bytes :=
  if decide (0 <= off /\ off + zlen d <= zlen buf)
  then Some (take (Z.to_nat off) buf ++ d ++ drop (Z.to_nat (off + zlen d)) buf)
  else None.

Section buffers.
Implicit Types (buf d : bytes) (off n : Z).

Lemma mem_get_Some off n buf d :
  mem_get off n buf = Some d ->
  0 <= off /\ 0 <= n /\ off + n <= zlen buf /\ zlen d = n /\
  d = take (Z.to_nat n) (drop (Z.to_nat off) buf).
Proof.
  unfold mem_get. destruct (decide _) as [(?&?&?)|]; intros; simplify_eq.
  repeat split; try done.
  unfold zlen in *. rewrite length_take, length_drop. lia.
Qed.

Lemma mem_get_is_Some off n buf :
  0 <= off -> 0 <= n -> off + n <= zlen buf -> exists d, mem_get off n buf = Some d.
Proof. intros. unfold mem_get. rewrite decide_True by done. eauto. Qed.

Lemma mem_set_Some off d buf buf' :
  mem_set off d buf = Some buf' ->
  0 <= off /\ off + zlen d <= zlen buf /\
  buf' = take (Z.to_nat off) buf ++ d ++ drop (Z.to_nat (off + zlen d)) buf.
Proof. unfold mem_set. destruct (decide _) as [[??]|]; naive_solver. Qed.

Lemma mem_set_is_Some off d buf :
  0 <= off -> off + zlen d <= zlen buf -> exists buf', mem_set off d buf = Some buf'.
Proof. intros. unfold mem_set. rewrite decide_True by done. eauto. Qed.

Lemma mem_set_zlen off d buf buf' :
  mem_set off d buf = Some buf' -> zlen buf' = zlen buf.
Proof.
  intros (? & ? & ->)%mem_set_Some. rewrite !zlen_app.
  unfold zlen in *. rewrite length_take, length_drop. lia.
Qed.

(** Element-wise view: the bytes of an update. *)
Lemma mem_set_lookup off d buf buf' i :
  mem_set off d buf = Some buf' ->
  buf' !! i =
    if decide (off <= Z.of_nat i < off + zlen d)
    then d !! Z.to_nat (Z.of_nat i - off) else buf !! i.
Proof.
  intros (? & ? & ->)%mem_set_Some. unfold zlen in *.
  case_decide.
  - rewrite lookup_app_r by (rewrite length_take; lia).
    rewrite length_take, lookup_app_l by lia. f_equal. lia.
  - destruct (decide (Z.of_nat i < off)).
    + rewrite lookup_app_l by (rewrite length_take; lia).
      apply lookup_take_lt. lia.
    + rewrite lookup_app_r by (rewrite length_take; lia).
      rewrite length_take, lookup_app_r by lia.
      rewrite lookup_drop. f_equal. lia.
Qed.

Lemma mem_get_lookup off n buf d i :
  mem_get off n buf = Some d -> Z.of_nat i < n -> d !! i = buf !! (Z.to_nat off + i)%nat.
Proof.
  intros (?&?&?&?&->)%mem_get_Some ?.
  rewrite lookup_take_lt by lia. by rewrite lookup_drop.
Qed.

Lemma mem_get_ext off n buf buf' :
  zlen buf = zlen buf' ->
  (forall i, off <= Z.of_nat i < off + n -> buf !! i = buf' !! i) ->
  mem_get off n buf = mem_get off n buf'.
Proof.
  intros Hlen Hext. unfold mem_get. rewrite Hlen. case_decide; [|done]. f_equal.
  apply list_eq. intros i. destruct (decide (Z.of_nat i < n)).
  - rewrite !lookup_take_lt, !lookup_drop by lia. apply Hext. lia.
  - rewrite !lookup_take_ge by lia. done.
Qed.

Lemma mem_get_set_eq off d buf buf' :
  mem_set off d buf = Some buf' -> mem_get off (zlen d) buf' = Some d.
Proof.
  intros H. pose proof (mem_set_zlen _ _ _ _ H) as Hl.
  pose proof (mem_set_Some _ _ _ _ H) as (? & ? & ->).
  unfold mem_get. pose proof (zlen_nonneg d).
  rewrite decide_True by lia. f_equal.
  rewrite drop_app_length'; [|unfold zlen in *; rewrite length_take; lia].
  unfold zlen. rewrite Nat2Z.id. by rewrite take_app_length.
Qed.

Lemma mem_get_set_ne off d buf buf' off' n :
  mem_set off d buf = Some buf' ->
  off' + n <= off \/ off + zlen d <= off' ->
  mem_get off' n buf' = mem_get off' n buf.
Proof.
  intros H Hd. apply mem_get_ext; [by eapply mem_set_zlen|].
  intros i Hi. rewrite (mem_set_lookup _ _ _ _ _ H).
  rewrite decide_False by lia. done.
Qed.

(** A read that falls inside what was just written. *)
Lemma mem_get_set_in off d buf buf' off' n :
  mem_set off d buf = Some buf' ->
  off <= off' -> 0 <= n -> off' + n <= off + zlen d ->
  mem_get off' n buf' = mem_get (off' - off) n d.
Proof.
  intros H ???. pose proof (mem_set_zlen _ _ _ _ H).
  pose proof (mem_set_Some _ _ _ _ H) as (? & ? & _).
  unfold mem_get. rewrite !decide_True by lia. f_equal.
  apply list_eq. intros i. destruct (decide (Z.of_nat i < n)).
  - rewrite !lookup_take_lt, !lookup_drop by lia.
    rewrite (mem_set_lookup _ _ _ _ _ H), decide_True by lia. f_equal. lia.
  - by rewrite !lookup_take_ge by lia.
Qed.

Lemma mem_set_intro off d buf buf' :
  0 <= off -> off + zlen d <= zlen buf ->
  (forall i, buf' !! i =
     if decide (off <= Z.of_nat i < off + zlen d)
     then d !! Z.to_nat (Z.of_nat i - off) else buf !! i) ->
  mem_set off d buf = Some buf'.
Proof.
  intros Ho Hl Hx. destruct (mem_set_is_Some off d buf Ho Hl) as [b2 Hb2].
  rewrite Hb2. f_equal. apply list_eq. intros i.
  by rewrite Hx, (mem_set_lookup _ _ _ _ i Hb2).
Qed.

Lemma mem_set_app off d1 d2 buf buf1 :
  mem_set off d1 buf = Some buf1 ->
  mem_set (off + zlen d1) d2 buf1 = mem_set off (d1 ++ d2) buf.
Proof.
  intros H. pose proof (mem_set_zlen _ _ _ _ H) as Hl.
  pose proof (mem_set_Some _ _ _ _ H) as (? & ? & _).
  pose proof (zlen_nonneg d1). pose proof (zlen_nonneg d2).
  destruct (decide (off + zlen d1 + zlen d2 <= zlen buf)).
  - destruct (mem_set_is_Some (off + zlen d1) d2 buf1) as [b2 Hb2]; [lia..|].
    rewrite Hb2. symmetry. apply mem_set_intro; [lia|rewrite zlen_app; lia|].
    intros i. rewrite (mem_set_lookup _ _ _ _ i Hb2), (mem_set_lookup _ _ _ _ i H).
    rewrite zlen_app. unfold zlen in *. repeat case_decide; try lia; try done.
    + rewrite lookup_app_r by lia. f_equal. lia.
    + by rewrite lookup_app_l by lia.
  - unfold mem_set. rewrite !decide_False; [done|rewrite zlen_app; lia|lia].
Qed.

Lemma mem_get_split off n1 n2 buf d1 d2 :
  mem_get off n1 buf = Some d1 -> mem_get (off + n1) n2 buf = Some d2 ->
  mem_get off (n1 + n2) buf = Some (d1 ++ d2).
Proof.
  intros (?&?&?&?&->)%mem_get_Some (?&?&?&?&->)%mem_get_Some.
  unfold mem_get. rewrite decide_True by lia. f_equal.
  rewrite Z2Nat.inj_add, <-take_take_drop by lia. f_equal.
  rewrite drop_drop. repeat f_equal. lia.
Qed.
End buffers.

(** ** Field-by-field serialization

    [put_le n x] is [memcpy(&buf[off], &x, n); off += n] on a little-endian
    machine; the cursor is the buffer with the running offset.  [get_le] is the
    inverse copy. *)
Definition put_le (n : nat) (x : Z) (c : bytes * Z) : option (bytes * Z) :=
  b ← mem_set c.2 (le_split n x) c.1; Some (b, c.2 + Z.of_nat n).

Definition put_raw (d : bytes) (c : bytes * Z) : option (bytes * Z) :=
  b ← mem_set c.2 d c.1; Some (b, c.2 + zlen d).

Definition get_le (n : nat) (buf : bytes) (off : Z) : option (Z * Z) :=
  d ← mem_get off (Z.of_nat n) buf; Some (le_combine d, off + Z.of_nat n).

(** The loop form: a list of (width, value) fields. *)
Fixpoint put_fields (fs : list (nat * Z)) (c : bytes * Z) : option (bytes * Z) :=
  match fs with
  | [] => Some c
  | (n, x) :: fs => c' ← put_le n x c; put_fields fs c'
  end.

Fixpoint get_fields (ns : list nat) (buf : bytes) (off : Z) : option (list Z * Z) :=
  match ns with
  | [] => Some ([], off)
  | n :: ns =>
      '(x, off) ← get_le n buf off;
      '(xs, off) ← get_fields ns buf off;
      Some (x :: xs, off)
  end.

Definition encode_fields (fs : list (nat * Z)) : bytes :=
  concat ((fun f => le_split f.1 f.2) <$> fs).

Section fields.
Implicit Types (buf : bytes) (off : Z) (fs : list (nat * Z)).

Lemma put_le_raw n x c : put_le n x c = put_raw (le_split n x) c.
Proof. unfold put_le, put_raw. by rewrite zlen_le_split. Qed.

Lemma encode_fields_cons n x fs :
  encode_fields ((n, x) :: fs) = le_split n x ++ encode_fields fs.
Proof. done. Qed.

(** Writing the fields one after the other is one copy of their encoding. *)
Lemma put_fields_spec fs buf off :
  0 <= off <= zlen buf ->
  put_fields fs (buf, off) = put_raw (encode_fields fs) (buf, off).
Proof.
  revert buf off. induction fs as [|[n x] fs IH]; intros buf off Hoff.
  - unfold put_raw, encode_fields. simpl.
    destruct (mem_set_is_Some off [] buf) as [b Hb]; [lia|rewrite zlen_nil; lia|].
    rewrite Hb. simpl. rewrite zlen_nil, Z.add_0_r. do 2 f_equal.
    apply list_eq. intros i. rewrite (mem_set_lookup _ _ _ _ i Hb).
    rewrite zlen_nil, decide_False by lia. done.
  - simpl. unfold put_le, put_raw. simpl.
    rewrite encode_fields_cons.
    destruct (mem_set off (le_split n x) buf) as [b|] eqn:Hb; simpl.
    + pose proof (mem_set_Some _ _ _ _ Hb) as (?&Hl&_).
      rewrite zlen_le_split in Hl. pose proof (mem_set_zlen _ _ _ _ Hb).
      rewrite IH by lia. unfold put_raw. simpl.
      rewrite <-(zlen_le_split n x), (mem_set_app _ _ _ _ _ Hb), zlen_app.
      rewrite zlen_le_split, Z.add_assoc. done.
    + pose proof (zlen_nonneg (encode_fields fs)).
      unfold mem_set in *. rewrite zlen_app.
      repeat case_decide; try done. lia.
Qed.

(** One step of reading back a concatenation of fields. *)
Lemma get_le_step n x rest buf off m :
  mem_get off m buf = Some (le_split n x ++ rest) -> fits n x ->
  get_le n buf off = Some (x, off + Z.of_nat n) /\
  mem_get (off + Z.of_nat n) (zlen rest) buf = Some rest.
Proof.
  intros (Ho&Hm&Hle&Hlen&Heq)%mem_get_Some Hf.
  rewrite zlen_app, zlen_le_split in Hlen. pose proof (zlen_nonneg rest).
  assert (mem_get off (Z.of_nat n) buf = Some (le_split n x)) as H1.
  { unfold mem_get. rewrite decide_True by lia. f_equal.
    apply (f_equal (take n)) in Heq.
    rewrite take_app_length' in Heq by (symmetry; apply length_le_split).
    rewrite Heq, take_take. f_equal. lia. }
  assert (mem_get (off + Z.of_nat n) (zlen rest) buf = Some rest) as H2.
  { unfold mem_get. rewrite decide_True by lia. f_equal.
    apply (f_equal (drop n)) in Heq.
    rewrite drop_app_length' in Heq by (symmetry; apply length_le_split).
    etransitivity; [|symmetry; exact Heq].
    rewrite skipn_firstn_comm, drop_drop. f_equal; [lia|f_equal; lia]. }
  unfold get_le. rewrite H1. simpl. by rewrite le_combine_le_split.
Qed.

Lemma get_le_last n x buf off m :
  mem_get off m buf = Some (le_split n x) -> fits n x ->
  get_le n buf off = Some (x, off + Z.of_nat n).
Proof.
  intros H. rewrite <-(app_nil_r (le_split n x)) in H. intros.
  by eapply get_le_step.
Qed.

Lemma get_fields_spec fs buf off m :
  mem_get off m buf = Some (encode_fields fs) -> Forall (fun f => fits f.1 f.2) fs ->
  get_fields fs.*1 buf off = Some (fs.*2, off + zlen (encode_fields fs)).
Proof.
  revert off m. induction fs as [|[n x] fs IH]; intros off m Hm Hf.
  - simpl. by rewrite Z.add_0_r.
  - apply Forall_cons in Hf as [Hx Hf]. rewrite encode_fields_cons in Hm |- *.
    destruct (get_le_step _ _ _ _ _ _ Hm Hx) as [Hg Hr].
    cbn [fmap list_fmap fst snd get_fields]. rewrite Hg. cbn [mbind option_bind].
    rewrite (IH _ _ Hr Hf). cbn [mbind option_bind].
    rewrite zlen_app, zlen_le_split, Z.add_assoc. done.
Qed.

Lemma get_le_is_Some n buf off :
  0 <= off -> off + Z.of_nat n <= zlen buf ->
  exists x, get_le n buf off = Some (x, off + Z.of_nat n) /\ fits n x.
Proof.
  intros. destruct (mem_get_is_Some off (Z.of_nat n) buf) as [d Hd]; [lia..|].
  exists (le_combine d). unfold get_le. rewrite Hd. split; [done|].
  apply mem_get_Some in Hd as (?&?&?&Hn&_). unfold zlen in Hn.
  replace n with (length d) by lia. apply le_combine_fits.
Qed.

Lemma get_le_ext n buf buf' off :
  mem_get off (Z.of_nat n) buf = mem_get off (Z.of_nat n) buf' ->
  get_le n buf off = get_le n buf' off.
Proof. unfold get_le. by intros ->. Qed.

(** Reading fields only looks at the bytes they span. *)
Lemma get_fields_ext ns buf buf' off :
  zlen buf = zlen buf' ->
  (forall i, off <= Z.of_nat i < off + foldr (fun n z => Z.of_nat n + z) 0 ns ->
     buf !! i = buf' !! i) ->
  get_fields ns buf off = get_fields ns buf' off.
Proof.
  intros Hl. revert off. induction ns as [|n ns IH]; intros off Hx; [done|].
  cbn [foldr] in Hx. cbn [get_fields].
  assert (0 <= foldr (fun n z => Z.of_nat n + z) 0 ns) as Hpos.
  { clear. induction ns; simpl; lia. }
  rewrite (get_le_ext n buf buf') by (apply mem_get_ext; [done|intros; apply Hx; lia]).
  destruct (get_le n buf' off) as [[x off']|] eqn:Hg; [|done].
  cbn [mbind option_bind]. rewrite IH; [done|].
  unfold get_le in Hg. destruct (mem_get _ _ _); simplify_eq/=.
  intros i Hi. apply Hx. lia.
Qed.
End fields.

(** ** Outcomes

    A run of the program returns a value, throws a C++ exception (the state
    reached is kept: a handler continues from it), or dies. *)
Inductive exn :=
  | BfsServerError (msg : string)
  | BfsClientRequestFailedError (msg : string)
  | BfsAccessDeniedError (msg : string)
  | bfsBlockError (msg : string)
  | bfsDeviceError (msg : string)
  | bfsCryptoError (msg : string)
  | bfsUtilError (msg : string)
  | bfsRegExpressionError (msg : string)
  | bfsCfgParserError (msg : string)
  | bfsCfgError (msg : string)
  | std_runtime_error (msg : string)
  | std_invalid_argument
  | std_out_of_range.

Inductive crash :=
  | Abort_called         (* abort() *)
  | Assertion_failed     (* assert(...) *)
  | Deadlocked           (* waits for a mutex it holds itself *)
  | Undefined_behaviour  (* access outside an object, NULL or dangling pointer *)
  | Out_of_fuel.         (* the bound of the model, never reached: see the
                            termination theorems *)

#[export] Instance exn_eq_dec : EqDecision exn.
Proof. solve_decision. Defined.
#[export] Instance crash_eq_dec : EqDecision crash.
Proof. solve_decision. Defined.

Inductive outcome (S A : Type) :=
  | Ok (a : A) (s : S)
  | Throw (e : exn) (s : S)
  | Crash (c : crash).
Arguments Ok {S A}.
Arguments Throw {S A}.
Arguments Crash {S A}.

(** The program monad: state passing with exceptions and crashes. *)
Definition M (S A : Type) : Type := S -> outcome S A.

#[export] Instance M_ret S : MRet (M S) := fun A a s => Ok a s.
#[export] Instance M_bind S : MBind (M S) := fun A B k c s =>
  match c s with
  | Ok a s => k a s
  | Throw e s => Throw e s
  | Crash c => Crash c
  end.

Section monad.
Context {S : Type}.

Definition throw {A} (e : exn) : M S A := fun s => Throw e s.
Definition die {A} (c : crash) : M S A := fun s => Crash c.
Definition get : M S S := fun s => Ok s s.
Definition gets {A} (f : S -> A) : M S A := fun s => Ok (f s) s.
Definition modify (f : S -> S) : M S () := fun s => Ok () (f s).
Definition assert_ (b : bool) : M S () := if b then mret () else die Assertion_failed.

(** [catch c h]: run [c]; [h] says what an exception becomes ([None] is no
    matching handler). *)
Definition catch {A} (c : M S A) (h : exn -> option (M S A)) : M S A := fun s =>
  match c s with
  | Throw e s' => match h e with Some k => k s' | None => Throw e s' end
  | r => r
  end.

(** An undefined access is a crash. *)
Definition of_opt {A} (o : option A) : M S A :=
  match o with Some a => mret a | None => die Undefined_behaviour end.

(** [vector::at]: checked access. *)
Definition vec_at {A} (l : list A) (i : Z) : M S A :=
  match (if decide (0 <= i) then l !! Z.to_nat i else None) with
  | Some a => mret a
  | None => throw std_out_of_range
  end.

Lemma bind_Ok {A B} (c : M S A) (k : A -> M S B) s a s' :
  c s = Ok a s' -> (c ≫= k) s = k a s'.
Proof. unfold mbind, M_bind. by intros ->. Qed.

Lemma bind_Throw {A B} (c : M S A) (k : A -> M S B) s e s' :
  c s = Throw e s' -> (c ≫= k) s = Throw e s'.
Proof. unfold mbind, M_bind. by intros ->. Qed.

Lemma bind_Crash {A B} (c : M S A) (k : A -> M S B) s x :
  c s = Crash x -> (c ≫= k) s = Crash x.
Proof. unfold mbind, M_bind. by intros ->. Qed.

Lemma bind_Ok_inv {A B} (c : M S A) (k : A -> M S B) s b s' :
  (c ≫= k) s = Ok b s' -> exists a s1, c s = Ok a s1 /\ k a s1 = Ok b s'.
Proof. unfold mbind, M_bind. destruct (c s); naive_solver. Qed.

(** Steps that never fail. *)
Lemma bind_gets {A B} (f : S -> A) (k : A -> M S B) s : (gets f ≫= k) s = k (f s) s.
Proof. done. Qed.
Lemma bind_get {B} (k : S -> M S B) s : (get ≫= k) s = k s s.
Proof. done. Qed.
Lemma bind_modify {B} (f : S -> S) (k : () -> M S B) s : (modify f ≫= k) s = k () (f s).
Proof. done. Qed.
Lemma bind_ret {A B} (a : A) (k : A -> M S B) s : (mret a ≫= k) s = k a s.
Proof. done. Qed.
Lemma bind_of_opt {A B} (a : A) (k : A -> M S B) s : (of_opt (Some a) ≫= k) s = k a s.
Proof. done. Qed.
Lemma bind_assoc {A B D} (m : M S A) (k1 : A -> M S B) (k2 : B -> M S D) s :
  ((m ≫= k1) ≫= k2) s = (m ≫= fun a => k1 a ≫= k2) s.
Proof. unfold mbind, M_bind. by destruct (m s). Qed.
Lemma bind_assert {B} (b : bool) (k : () -> M S B) s : b = true -> (assert_ b ≫= k) s = k () s.
Proof. by intros ->. Qed.

Lemma catch_Ok {A} (c : M S A) h s a s' : c s = Ok a s' -> catch c h s = Ok a s'.
Proof. unfold catch. by intros ->. Qed.

Lemma vec_at_Ok {A} (l : list A) (i : Z) a s :
  0 <= i -> l !! Z.to_nat i = Some a -> vec_at l i s = Ok a s.
Proof. intros ? Hl. unfold vec_at. rewrite decide_True, Hl by done. done. Qed.

Lemma of_opt_Ok {A} (o : option A) a s : o = Some a -> of_opt o s = Ok a s.
Proof. by intros ->. Qed.
End monad.

(** ** Invariants

    [safe P m Q]: from a state with [P] the run [m] ends in one with [P],
    returning or throwing, and what it returns has [Q]. *)
Definition safe {S A} (P : S -> Prop) (m : M S A) (Q : A -> Prop) : Prop :=
  forall s, P s -> match m s with Ok a s' => P s' /\ Q a | Throw _ s' => P s' | Crash _ => True end.

Section safe.
Context {S : Type} (P : S -> Prop).

Lemma safe_ret {A} (a : A) (Q : A -> Prop) : Q a -> safe P (mret a) Q.
Proof. by intros ??. Qed.
Lemma safe_throw {A} e (Q : A -> Prop) : safe P (throw e) Q.
Proof. by intros ??. Qed.
Lemma safe_die {A} x (Q : A -> Prop) : safe P (die x) Q.
Proof. by intros ??. Qed.
Lemma safe_get (Q : S -> Prop) : (forall s, P s -> Q s) -> safe P get Q.
Proof. intros HQ s Hs. split; [done|by apply HQ]. Qed.
Lemma safe_gets {A} (f : S -> A) (Q : A -> Prop) : (forall s, P s -> Q (f s)) -> safe P (gets f) Q.
Proof. intros HQ s Hs. split; [done|by apply HQ]. Qed.
Lemma safe_modify (f : S -> S) (Q : () -> Prop) : (forall s, P s -> P (f s)) -> Q () -> safe P (modify f) Q.
Proof. intros Hf HQ s Hs. split; [by apply Hf|done]. Qed.
Lemma safe_bind {A B} (m : M S A) (k : A -> M S B) (R : A -> Prop) (Q : B -> Prop) :
  safe P m R -> (forall a, R a -> safe P (k a) Q) -> safe P (m ≫= k) Q.
Proof.
  intros Hm Hk s Hs. specialize (Hm s Hs). unfold mbind, M_bind. destruct (m s) as [a s'|e s'|x]; [|done..].
  destruct Hm as [Hs' Ha]. by apply Hk.
Qed.
Lemma safe_weaken {A} (m : M S A) (R Q : A -> Prop) : safe P m R -> (forall a, R a -> Q a) -> safe P m Q.
Proof. intros Hm HQ s Hs. specialize (Hm s Hs). destruct (m s); naive_solver. Qed.
End safe.

Create HintDb safe.
#[export] Hint Resolve safe_ret safe_throw safe_die safe_get safe_gets safe_modify : safe.

Lemma some_bind {A B} (f : A -> option B) a : Some a ≫= f = f a.
Proof. done. Qed.

(** ** Automation *)

Create HintDb bfs discriminated.
#[export] Hint Resolve zlen_nonneg u64_bound u32_bound : bfs.
#[export] Hint Resolve mem_set_zlen : bfs.

(** A decidable statement about concrete values, by evaluation. *)
Ltac vm_decide := apply (bool_decide_unpack _); vm_compute; exact I.

(** Split a monadic run known to return into its steps. *)
Ltac run_inv :=
  repeat match goal with
  | H : (_ ≫= _) _ = Ok _ _ |- _ =>
      let a := fresh "a" in let s := fresh "s" in
      let H1 := fresh "Hrun" in let H2 := fresh "Hrun" in
      apply bind_Ok_inv in H as (a & s & H1 & H2)
  | H : mret _ _ = Ok _ _ |- _ => unfold mret, M_ret in H; simplify_eq
  | H : throw _ _ = Ok _ _ |- _ => discriminate H
  | H : die _ _ = Ok _ _ |- _ => discriminate H
  | H : gets _ _ = Ok _ _ |- _ => unfold gets in H; simplify_eq
  | H : modify _ _ = Ok _ _ |- _ => unfold modify in H; simplify_eq
  end.

(** Run the leading steps that never fail. *)
Ltac msteps :=
  repeat first [ rewrite bind_gets | rewrite bind_get | rewrite bind_modify | rewrite bind_ret
               | rewrite bind_of_opt | rewrite bind_assoc ]; cbn beta.

(** Run one step whose outcome is [H]. *)
Ltac mrun H := rewrite (bind_Ok _ _ _ _ _ H); cbn beta.

(** Case analysis on every boolean test and [decide] in a hypothesis. *)
Ltac cases_in H :=
  repeat match type of H with
  | context [if ?b then _ else _] => destruct b eqn:?; try discriminate H
  | context [match ?x with _ => _ end] => destruct x eqn:?; try discriminate H
  end.

(** Read back one field after the other from [H : mem_get off m b = Some enc],
    [enc] a concatenation of little-endian fields. *)
Ltac get_fields_from H :=
  repeat (
    apply get_le_step in H;
    [ let Hg := fresh "Hg" in destruct H as [Hg H]; rewrite Hg; clear Hg; simpl
    | first [ assumption | by eauto | done ] ]).

(** Expose the fields of [H : mem_get off m b = Some (encode_fields fs)]. *)
Ltac split_fields H :=
  cbn [fmap list_fmap app] in H; rewrite ?encode_fields_cons in H.

(** Break a [Forall] over an explicit list into its members. *)
Ltac inv_forall :=
  repeat match goal with
  | H : Forall _ (_ :: _) |- _ => apply Forall_cons in H as [? H]; simpl in *
  | H : Forall _ [] |- _ => clear H
  end.
