(* ===== verification/Cache.v ===== *)
(** * [BfsCache]: the bounded cache behind blocks, inodes and entries

    Models [bfs_utils/bfs_cache.cpp]: a doubly linked list in order of use with
    a hash map from keys to its nodes.  The list is modelled in memory, one map
    per field of [cacheTableValue], because what the code does depends on
    pointers that it does not keep up to date: appending a node never sets the
    [prev] field of the head.  Nodes are never freed; their keys are, and a read
    of a deleted key is undefined.

    A cache is used with one type of keys (integers for blocks and inodes,
    strings for entries): [K].  Values are pointers ([V]).  The locks of the
    cache and of its objects are not modelled. *)
From S2P Require Import Prelude.

Module Cache.

Abbreviation loc := nat.

(** An [int] is incremented below its largest value only. *)
Definition INT_MAX : Z := 2 ^ 31 - 1.

Section cache.
Context {K : Type} `{Countable K} {V : Type} `{EqDecision V}.

(** ** State *)
Record t := mk {
  maxsize : Z;
  size : Z;
  vclock : Z;
  accesses : Z;
  hits : Z;
  table : option loc;
  table_end : option loc;
  table_map : gmap K loc;
  (* the nodes: [key] (with its age), [value], [next], [prev] *)
  nd_key : gmap loc (K * Z);
  nd_value : gmap loc V;
  nd_next : gmap loc loc;
  nd_prev : gmap loc loc;
  nd_count : loc
}.

Definition ctor (maxsz : Z) : t := mk maxsz 0 0 0 0 None None ∅ ∅ ∅ ∅ ∅ 0%nat.

Definition set_size (x : Z) (c : t) : t :=
  mk (maxsize c) x (vclock c) (accesses c) (hits c) (table c) (table_end c) (table_map c)
    (nd_key c) (nd_value c) (nd_next c) (nd_prev c) (nd_count c).
Definition set_vclock (x : Z) (c : t) : t :=
  mk (maxsize c) (size c) x (accesses c) (hits c) (table c) (table_end c) (table_map c)
    (nd_key c) (nd_value c) (nd_next c) (nd_prev c) (nd_count c).
Definition set_stats (x y : Z) (c : t) : t :=
  mk (maxsize c) (size c) (vclock c) x y (table c) (table_end c) (table_map c)
    (nd_key c) (nd_value c) (nd_next c) (nd_prev c) (nd_count c).
Definition set_ends (x y : option loc) (c : t) : t :=
  mk (maxsize c) (size c) (vclock c) (accesses c) (hits c) x y (table_map c)
    (nd_key c) (nd_value c) (nd_next c) (nd_prev c) (nd_count c).
Definition set_map (x : gmap K loc) (c : t) : t :=
  mk (maxsize c) (size c) (vclock c) (accesses c) (hits c) (table c) (table_end c) x
    (nd_key c) (nd_value c) (nd_next c) (nd_prev c) (nd_count c).
Definition set_keys (x : gmap loc (K * Z)) (c : t) : t :=
  mk (maxsize c) (size c) (vclock c) (accesses c) (hits c) (table c) (table_end c) (table_map c)
    x (nd_value c) (nd_next c) (nd_prev c) (nd_count c).
Definition set_values (x : gmap loc V) (c : t) : t :=
  mk (maxsize c) (size c) (vclock c) (accesses c) (hits c) (table c) (table_end c) (table_map c)
    (nd_key c) x (nd_next c) (nd_prev c) (nd_count c).
Definition set_links (x y : gmap loc loc) (c : t) : t :=
  mk (maxsize c) (size c) (vclock c) (accesses c) (hits c) (table c) (table_end c) (table_map c)
    (nd_key c) (nd_value c) x y (nd_count c).
Definition set_max_sz (x : Z) (c : t) : t :=
  mk x (size c) (vclock c) (accesses c) (hits c) (table c) (table_end c) (table_map c)
    (nd_key c) (nd_value c) (nd_next c) (nd_prev c) (nd_count c).

(** ** Fields of a node *)
Definition key_of (l : loc) : M t (K * Z) := fun c => of_opt (nd_key c !! l) c.
Definition value_of (l : loc) : M t V := fun c => of_opt (nd_value c !! l) c.
Definition next_of (l : loc) : M t loc := fun c => of_opt (nd_next c !! l) c.
Definition prev_of (l : loc) : M t loc := fun c => of_opt (nd_prev c !! l) c.

Definition setAge (l : loc) (age : Z) : M t () :=
  '(k, _) ← key_of l; modify (fun c => set_keys (<[l := (k, age)]> (nd_key c)) c).
Definition delete_key (l : loc) : M t () :=
  _ ← key_of l; modify (fun c => set_keys (delete l (nd_key c)) c).
Definition set_value (l : loc) (v : V) : M t () :=
  _ ← value_of l; modify (fun c => set_values (<[l := v]> (nd_value c)) c).
Definition set_next (l x : loc) : M t () :=
  _ ← value_of l; modify (fun c => set_links (<[l := x]> (nd_next c)) (nd_prev c) c).
Definition set_prev (l x : loc) : M t () :=
  _ ← value_of l; modify (fun c => set_links (nd_next c) (<[l := x]> (nd_prev c)) c).

(** [new cacheTableValue] with a duplicate of the key. *)
Definition new_node (k : K) (age : Z) (v : V) : M t loc := fun c =>
  let l := nd_count c in
  Ok l (mk (maxsize c) (size c) (vclock c) (accesses c) (hits c) (table c) (table_end c) (table_map c)
          (<[l := (k, age)]> (nd_key c)) (<[l := v]> (nd_value c)) (nd_next c) (nd_prev c) (S l)).

Definition incr (x : Z) : M t Z := if x <? INT_MAX then mret (x + 1) else die Undefined_behaviour.

Definition tick : M t () := n ← gets vclock; n ← incr n; modify (set_vclock n).

(** ** Operations *)
Definition find (k : K) : M t (option loc) :=
  a ← gets accesses; a ← incr a;
  modify (fun c => set_stats a (hits c) c) ;;
  ends ← gets (fun c => (table c, table_end c));
  match ends with
  | (Some _, Some _) =>
      m ← gets table_map;
      match m !! k with
      | Some l => h ← gets hits; h ← incr h; modify (set_stats a h) ;; mret (Some l)
      | None => mret None
      end
  | _ => mret None
  end.

(** Take [ptr] out of the chain: its neighbours are linked to each other. *)
Definition unlink (ptr : loc) : M t () :=
  p ← prev_of ptr; n ← next_of ptr; set_next p n ;;
  n ← next_of ptr; p ← prev_of ptr; set_prev n p.

Definition remove (ptr : loc) : M t loc :=
  ends ← gets (fun c => (table c, table_end c));
  match ends with
  | (Some hd, Some tl) =>
      '(k, _) ← key_of ptr;
      m ← gets table_map;
      match m !! k with
      | None => die Abort_called
      | Some _ =>
          modify (set_map (delete k m)) ;;
          delete_key ptr ;;
          sz ← gets size;
          (if sz =? 1 then modify (set_ends None None)
           else
             (if decide (ptr = hd) then n ← next_of hd; modify (set_ends (Some n) (Some tl))
              else if decide (ptr = tl) then p ← prev_of tl; modify (set_ends (Some hd) (Some p))
              else mret ()) ;;
             unlink ptr) ;;
          modify (set_size (sz - 1)) ;;
          mret ptr
      end
  | _ => throw (bfsUtilError "Pointer bad in cache remove")
  end.

(** A new node at the back of the list. *)
Definition append (k : K) (v : V) : M t () :=
  age ← gets vclock;
  ptr ← new_node k age v;
  ends ← gets (fun c => (table c, table_end c));
  match ends with
  | (None, None) =>
      modify (set_ends (Some ptr) (Some ptr)) ;; set_prev ptr ptr ;; set_next ptr ptr
  | (Some hd, Some tl) =>
      set_prev ptr tl ;; set_next ptr hd ;; set_next tl ptr ;;
      modify (set_ends (Some hd) (Some ptr))
  | _ => die Abort_called
  end ;;
  modify (fun c => set_map (<[k := ptr]> (table_map c)) c) ;;
  sz ← gets size; sz ← incr sz; modify (set_size sz).

(** Move a node that is in the list to its back. *)
Definition move_to_back (ptr : loc) : M t () :=
  ends ← gets (fun c => (table c, table_end c));
  match ends with
  | (Some hd, Some tl) =>
      sz ← gets size;
      if 1 <? sz then
        if decide (ptr = tl) then mret ()
        else
          (if decide (ptr = hd) then n ← next_of hd; modify (set_ends (Some n) (Some tl)) else mret ()) ;;
          unlink ptr ;;
          set_prev ptr tl ;;
          hd' ← gets table; hd' ← of_opt hd'; set_next ptr hd' ;;
          set_next tl ptr ;;
          modify (set_ends (Some hd') (Some ptr))
      else mret ()
  | _ => throw (bfsUtilError "Cache in inconsistent state")
  end.

Definition insertCache (k : K) (val : V) : M t V :=
  r ← find k;
  ret ←
    match r with
    | None =>
        full ← gets (fun c => maxsize c <=? size c);
        ret ←
          (if (full : bool) then
             ends ← gets (fun c => (table c, table_end c));
             match ends with
             | (Some hd, Some _) => _ ← key_of hd; v ← value_of hd; remove hd ;; mret v
             | _ => throw (bfsUtilError "Cache in inconsistent state")
             end
           else mret val);
        append k val ;; mret ret
    | Some ptr =>
        n ← gets vclock;
        setAge ptr n ;;
        old ← value_of ptr;
        ret ← (if decide (val = old) then mret val
               else set_value ptr val ;; modify (fun c => set_map (<[k := ptr]> (table_map c)) c) ;; mret old);
        move_to_back ptr ;; mret ret
    end;
  tick ;; mret ret.

Definition checkCache (k : K) (pop : bool) : M t (option V) :=
  r ← find k;
  match r with
  | None => mret None
  | Some ptr =>
      n ← gets vclock;
      setAge ptr n ;;
      tick ;;
      (if pop then remove ptr ;; mret () else mret ()) ;;
      v ← value_of ptr; mret (Some v)
  end.

(** ** Sequences of operations *)
Inductive op := Insert (k : K) (v : V) | Check (k : K) | Pop (k : K).

Definition exec (o : op) : M t (option V) :=
  match o with
  | Insert k v => r ← insertCache k v; mret (Some r)
  | Check k => checkCache k false
  | Pop k => checkCache k true
  end.

Fixpoint exec_all (os : list op) : M t (list (option V)) :=
  match os with
  | [] => mret []
  | o :: os => r ← exec o; rs ← exec_all os; mret (r :: rs)
  end.

(** ** What the cache promises: a queue of entries, the next to be evicted first *)
Fixpoint qlookup (k : K) (q : list (K * V)) : option V :=
  match q with
  | [] => None
  | (k', v) :: q => if decide (k' = k) then Some v else qlookup k q
  end.

Definition qwithout (k : K) (q : list (K * V)) : list (K * V) := filter (fun e => e.1 <> k) q.

Definition spec (cap : Z) (o : op) (q : list (K * V)) : option V * list (K * V) :=
  match o with
  | Check k => (qlookup k q, q)
  | Pop k => (qlookup k q, qwithout k q)
  | Insert k v =>
      match qlookup k q with
      | Some old => (Some old, qwithout k q ++ [(k, v)])
      | None =>
          if decide (Z.of_nat (length q) < cap) then (Some v, q ++ [(k, v)])
          else (snd <$> head q, tail q ++ [(k, v)])
      end
  end.

Fixpoint spec_all (cap : Z) (os : list op) (q : list (K * V)) : list (option V) * list (K * V) :=
  match os with
  | [] => ([], q)
  | o :: os =>
      let '(r, q) := spec cap o q in let '(rs, q) := spec_all cap os q in (r :: rs, q)
  end.

(** The uses after which the missing update of [prev] cannot be seen: the
    oldest of several entries is not inserted again, and the newest of several
    entries is not popped. *)
Definition safe (o : op) (q : list (K * V)) : Prop :=
  match o with
  | Check _ => True
  | Pop k => (length q <= 1)%nat \/ fst <$> last q <> Some k
  | Insert k _ => (length q <= 1)%nat \/ fst <$> head q <> Some k
  end.

Fixpoint safe_all (cap : Z) (os : list op) (q : list (K * V)) : Prop :=
  match os with
  | [] => True
  | o :: os => safe o q /\ safe_all cap os (spec cap o q).2
  end.

(** ** Representation *)

(** [linked nx pv ls]: the nodes [ls] point to each other. *)
Fixpoint linked (nx pv : gmap loc loc) (ls : list loc) : Prop :=
  match ls with
  | a :: ((b :: _) as r) => nx !! a = Some b /\ pv !! b = Some a /\ linked nx pv r
  | _ => True
  end.

Lemma linked_app nx pv l1 l2 :
  linked nx pv (l1 ++ l2) <->
  linked nx pv l1 /\ linked nx pv l2 /\
  forall a b, last l1 = Some a -> head l2 = Some b -> nx !! a = Some b /\ pv !! b = Some a.
Proof.
  induction l1 as [|a l1 IH]; cbn [app linked last]; [naive_solver|].
  destruct l1 as [|a' l1]; cbn [app] in *.
  - destruct l2 as [|b l2]; cbn; naive_solver.
  - change (linked nx pv (a' :: l1 ++ l2)) with (linked nx pv ((a' :: l1) ++ l2)). cbn [linked last] in *. naive_solver.
Qed.

Lemma last_In (l : list loc) a : last l = Some a -> a ∈ l.
Proof. intros Hl. apply last_Some in Hl as [l' ->]. set_solver. Qed.

Lemma last_mid (l1 l2 : list loc) a b : last (l1 ++ a :: b :: l2) = last (b :: l2).
Proof.
  change (a :: b :: l2) with ([a] ++ b :: l2). rewrite !last_app.
  destruct (last (b :: l2)) eqn:Hl; [done|by apply last_None in Hl].
Qed.

Lemma last_app_cons (l1 l2 : list loc) b : last (l1 ++ b :: l2) = last (b :: l2).
Proof. rewrite last_app. destruct (last (b :: l2)) eqn:Hl; [done|by apply last_None in Hl]. Qed.

Lemma head_In {A} (l : list A) a : head l = Some a -> a ∈ l.
Proof. destruct l; cbn; intros; simplify_eq. left. Qed.

Lemma linked_next nx pv ls l x : NoDup ls -> (l ∈ ls -> last ls = Some l) ->
  linked nx pv ls -> linked (<[l := x]> nx) pv ls.
Proof.
  induction ls as [|a ls IH]; [done|]. intros Hnd Hl Hk. destruct ls as [|b ls]; [done|].
  apply NoDup_cons in Hnd as [Ha Hnd]. destruct Hk as (?&?&?). cbn [linked]. split_and!; [|done|].
  - rewrite lookup_insert_ne; [done|]. intros ->. apply Ha, last_In. by rewrite <-Hl by left.
  - apply IH; [done| |done]. intros Hin. rewrite <-Hl by (by right). done.
Qed.

Lemma linked_prev nx pv ls l x : NoDup ls -> (l ∈ ls -> head ls = Some l) ->
  linked nx pv ls -> linked nx (<[l := x]> pv) ls.
Proof.
  intros Hnd Hl. destruct ls as [|a ls]; [done|]. assert (l ∉ ls) as Hn.
  { intros Hin. apply NoDup_cons in Hnd as [Ha _]. specialize (Hl ltac:(by right)). cbn in Hl. by simplify_eq. }
  clear Hl Hnd. revert a. induction ls as [|b ls IH]; [done|]. intros a (?&?&?). cbn [linked]. split_and!; [done| |].
  - rewrite lookup_insert_ne; [done|]. set_solver.
  - apply IH; set_solver.
Qed.

(** Taking out an interior node, adding a node at the back. *)
Lemma linked_unlink nx pv g1 m g2 a b : NoDup (g1 ++ m :: g2) -> last g1 = Some a -> head g2 = Some b ->
  linked nx pv (g1 ++ m :: g2) -> linked (<[a := b]> nx) (<[b := a]> pv) (g1 ++ g2).
Proof.
  intros Hnd Ha Hb Hk. pose proof (last_In _ _ Ha) as Hia. pose proof (head_In _ _ Hb) as Hib.
  apply linked_app in Hk as (H1&H2&_). change (m :: g2) with ([m] ++ g2) in H2. apply linked_app in H2 as (_&H2&_).
  apply NoDup_app in Hnd as (Hn1&Hd&[_ Hn2]%NoDup_cons). apply linked_app. split_and!.
  - apply linked_prev; [done| |]. { intros Hin. destruct (Hd b Hin). by right. }
    apply linked_next; [done| |done]. intros _. done.
  - apply linked_prev; [done|done|]. apply linked_next; [done| |done]. intros Hin. destruct (Hd a Hia). by right.
  - intros a' b' Ha' Hb'. simplify_eq. by rewrite !lookup_insert_eq.
Qed.

Lemma linked_snoc nx pv ls tl m x : NoDup ls -> last ls = Some tl -> m ∉ ls ->
  linked nx pv ls -> linked (<[tl := m]> (<[m := x]> nx)) (<[m := tl]> pv) (ls ++ [m]).
Proof.
  intros Hnd Hl Hm Hk. apply linked_app. split_and!; [|done|].
  - apply linked_prev; [done|done|]. apply linked_next; [done|done|]. by apply linked_next.
  - intros a b Ha [= <-]. simplify_eq. by rewrite !lookup_insert_eq.
Qed.

(** Every node made so far has its fields, which point to nodes. *)
Definition links_ok (vals : gmap loc V) (nx pv : gmap loc loc) (n : loc) : Prop :=
  forall l, (l < n)%nat -> is_Some (vals !! l) /\
    (exists x, nx !! l = Some x /\ (x < n)%nat) /\ (exists x, pv !! l = Some x /\ (x < n)%nat).

Lemma links_ok_next vals nx pv n a b : links_ok vals nx pv n -> (b < n)%nat -> links_ok vals (<[a := b]> nx) pv n.
Proof.
  intros Hk Hb l Hl. destruct (Hk l Hl) as (?&?&?). split_and!; [done| |done].
  destruct (decide (l = a)) as [->|]; [rewrite lookup_insert_eq; eauto|by rewrite lookup_insert_ne].
Qed.

Lemma links_ok_prev vals nx pv n a b : links_ok vals nx pv n -> (b < n)%nat -> links_ok vals nx (<[a := b]> pv) n.
Proof.
  intros Hk Hb l Hl. destruct (Hk l Hl) as (?&?&?). split_and!; [done|done|].
  destruct (decide (l = a)) as [->|]; [rewrite lookup_insert_eq; eauto|by rewrite lookup_insert_ne].
Qed.

Lemma links_ok_value vals nx pv n a v : links_ok vals nx pv n -> links_ok (<[a := v]> vals) nx pv n.
Proof.
  intros Hk l Hl. destruct (Hk l Hl) as (?&?&?). split_and!; [|done|done].
  destruct (decide (l = a)) as [->|]; [rewrite lookup_insert_eq; eauto|by rewrite lookup_insert_ne].
Qed.

(** The nodes [ls] form the list: they point to each other, and the [prev] of
    the head is a node outside the rest of the list. *)
Record chain (nx pv : gmap loc loc) (ls : list loc) : Prop := {
  chain_nodup : NoDup ls;
  chain_linked : linked nx pv ls;
  chain_head hd r : ls = hd :: r -> exists p, pv !! hd = Some p /\ p ∉ r
}.

(** A cache whose list holds the entries [g] (with their nodes), oldest first. *)
Record rep (c : t) (g : list (loc * (K * V))) : Prop := {
  rep_keys : NoDup g.*2.*1;
  rep_node l k v : (l, (k, v)) ∈ g -> (exists age, nd_key c !! l = Some (k, age)) /\ nd_value c !! l = Some v;
  rep_map k l : table_map c !! k = Some l <-> exists v, (l, (k, v)) ∈ g;
  rep_table : table c = head g.*1;
  rep_end : table_end c = last g.*1;
  rep_size : size c = zlen g;
  rep_chain : chain (nd_next c) (nd_prev c) g.*1;
  rep_links : links_ok (nd_value c) (nd_next c) (nd_prev c) (nd_count c);
  rep_in l : l ∈ g.*1 -> (l < nd_count c)%nat
}.

(** What the counters leave for [n] more operations. *)
Definition budget (c : t) (n : Z) : Prop :=
  1 <= maxsize c <= INT_MAX /\ vclock c + n <= INT_MAX /\ accesses c + n <= INT_MAX /\ hits c + n <= INT_MAX.

Lemma ctor_rep cap : rep (ctor cap) [].
Proof.
  split; cbn; try done; try (by constructor).
  - by intros ??? ?%elem_of_nil.
  - intros k l. split; [done|]. by intros [? ?%elem_of_nil].
  - split; [by constructor|done|done].
  - intros l Hl. lia.
  - by intros ? ?%elem_of_nil.
Qed.

(** Entries by key. *)
Lemma split_key k (g : list (loc * (K * V))) :
  (qlookup k g.*2 = None /\ k ∉ g.*2.*1) \/
  exists g1 l v g2, g = g1 ++ (l, (k, v)) :: g2 /\ qlookup k g.*2 = Some v.
Proof.
  induction g as [|[l [k' v]] g IH]; [left; split; [done|by intros ?%elem_of_nil]|]. cbn.
  destruct (decide (k' = k)) as [->|Hne]; [right; by exists [], l, v, g|].
  destruct IH as [[Hl Hn]|(g1&l'&v'&g2&->&Hq)]; [left; split; [done|set_solver]|].
  right. by exists ((l, (k', v)) :: g1), l', v', g2.
Qed.

Lemma qwithout_none k (q : list (K * V)) : k ∉ q.*1 -> qwithout k q = q.
Proof.
  unfold qwithout. induction q as [|e q IH]; [done|]. cbn [fmap list_fmap]. intros Hq.
  rewrite filter_cons_True by (intros <-; apply Hq; left). f_equal. apply IH. set_solver.
Qed.

Lemma qwithout_split k v (q1 q2 : list (K * V)) : NoDup (q1 ++ (k, v) :: q2).*1 ->
  qwithout k (q1 ++ (k, v) :: q2) = q1 ++ q2.
Proof.
  rewrite fmap_app. intros (_&Hd&Hn)%NoDup_app. cbn in Hn. apply NoDup_cons in Hn as [Hn _].
  pose proof (qwithout_none k q2 Hn) as H2. assert (k ∉ q1.*1) as H1%qwithout_none by (intros Hin; apply (Hd k Hin); left).
  unfold qwithout in *. rewrite filter_app, filter_cons_False by (intros Hk; by apply Hk). by rewrite H1, H2.
Qed.

(** ** The operations on a represented cache *)
Lemma incr_Ok x (c : t) : x < INT_MAX -> incr x c = Ok (x + 1) c.
Proof. intros. unfold incr. destruct (Z.ltb_spec x INT_MAX); [done|lia]. Qed.

Lemma key_of_Ok (c : t) l x : nd_key c !! l = Some x -> key_of l c = Ok x c.
Proof. intros Hl. unfold key_of. by rewrite Hl. Qed.

Lemma value_of_Ok (c : t) l x : nd_value c !! l = Some x -> value_of l c = Ok x c.
Proof. intros Hl. unfold value_of. by rewrite Hl. Qed.

Lemma next_of_Ok (c : t) l x : nd_next c !! l = Some x -> next_of l c = Ok x c.
Proof. intros Hl. unfold next_of. by rewrite Hl. Qed.

Lemma set_next_Ok (c : t) l x : is_Some (nd_value c !! l) ->
  set_next l x c = Ok () (set_links (<[l := x]> (nd_next c)) (nd_prev c) c).
Proof. intros [v Hv]. unfold set_next. by mrun (value_of_Ok c l v Hv). Qed.

Lemma set_prev_Ok (c : t) l x : is_Some (nd_value c !! l) ->
  set_prev l x c = Ok () (set_links (nd_next c) (<[l := x]> (nd_prev c)) c).
Proof. intros [v Hv]. unfold set_prev. by mrun (value_of_Ok c l v Hv). Qed.

Lemma rep_ends c g : rep c g ->
  (g = [] /\ table c = None /\ table_end c = None) \/
  exists hd tl, head g.*1 = Some hd /\ last g.*1 = Some tl /\ table c = Some hd /\ table_end c = Some tl.
Proof.
  intros Hr. rewrite (rep_table _ _ Hr), (rep_end _ _ Hr). destruct g as [|e g]; [by left|right].
  destruct (last (e :: g).*1) as [tl|] eqn:Hl; [by exists e.1, tl|]. by apply last_None in Hl.
Qed.

Lemma rep_stats c g a h : rep c g -> rep (set_stats a h c) g.
Proof. by intros []. Qed.

Lemma rep_vclock c g n : rep c g -> rep (set_vclock n c) g.
Proof. by intros []. Qed.

Definition same_counters (c c' : t) : Prop :=
  maxsize c' = maxsize c /\ vclock c' = vclock c /\ accesses c' = accesses c /\ hits c' = hits c.

Lemma find_Ok c g k n : rep c g -> budget c (n + 1) -> 0 <= n ->
  exists c', rep c' g /\ maxsize c' = maxsize c /\ vclock c' = vclock c /\
    accesses c' + n <= INT_MAX /\ hits c' + n <= INT_MAX /\
    ((qlookup k g.*2 = None /\ k ∉ g.*2.*1 /\ find k c = Ok None c') \/
     exists g1 l v g2, g = g1 ++ (l, (k, v)) :: g2 /\ qlookup k g.*2 = Some v /\ find k c = Ok (Some l) c').
Proof.
  intros Hr (Hm&Hv&Ha&Hh) Hn. unfold find. rewrite bind_gets. cbn beta.
  setoid_rewrite (bind_Ok _ _ c _ _ (incr_Ok (accesses c) c ltac:(lia))). setoid_rewrite bind_modify.
  pose (c1 := set_stats (accesses c + 1) (hits c) c). pose (c2 := set_stats (accesses c + 1) (hits c + 1) c).
  destruct (split_key k g) as [[Hq Hk]|(g1&l&v&g2&Hg&Hq)].
  - exists c1. split_and!; [by apply rep_stats|done|done|cbn; lia|cbn; lia|]. left. split_and!; [done|done|].
    assert (table_map c !! k = None) as Hmap.
    { destruct (table_map c !! k) as [l|] eqn:Hl; [|done]. apply (rep_map _ _ Hr) in Hl as [v Hin].
      exfalso. apply Hk. apply list_elem_of_fmap. exists (k, v). split; [done|]. apply list_elem_of_fmap. by exists (l, (k, v)). }
    cbn. unfold gets, mbind, M_bind. cbn. destruct (table c), (table_end c); cbn; by rewrite ?Hmap.
  - exists c2. split_and!; [by apply rep_stats|done|done|cbn; lia|cbn; lia|]. right. exists g1, l, v, g2. split_and!; [done|done|].
    assert (table_map c !! k = Some l) as Hmap.
    { apply (rep_map _ _ Hr). exists v. subst g. set_solver. }
    destruct (rep_ends _ _ Hr) as [(->&_)|(hd&tl&_&_&Ht&He)]; [by destruct g1|].
    cbn. unfold gets, mbind, M_bind. cbn. rewrite Ht, He. cbn. rewrite Hmap. rewrite (incr_Ok (hits c)) by lia. done.
Qed.

Lemma unlink_Ok c m p n : nd_prev c !! m = Some p -> nd_next c !! m = Some n ->
  is_Some (nd_value c !! p) -> is_Some (nd_value c !! n) ->
  unlink m c = Ok () (set_links (<[p := n]> (nd_next c)) (<[n := p]> (nd_prev c)) c).
Proof.
  intros Hp Hn [vp Hvp] [vn Hvn]. unfold unlink, prev_of, next_of, set_next, set_prev, value_of, mbind, M_bind. cbn.
  rewrite Hp. cbn. rewrite Hn. cbn. rewrite Hvp. cbn.
  assert (<[p := n]> (nd_next c) !! m = Some n) as ->.
  { destruct (decide (m = p)) as [->|]; [by rewrite lookup_insert_eq|by rewrite lookup_insert_ne]. }
  cbn. rewrite Hp. cbn. rewrite Hvn. done.
Qed.

(** Unlinking a node that is not the only one nor the last. *)
Lemma chain_unlink nx pv g1 m b g2 p : chain nx pv (g1 ++ m :: b :: g2) -> pv !! m = Some p ->
  nx !! m = Some b /\ chain (<[p := b]> nx) (<[b := p]> pv) (g1 ++ b :: g2).
Proof.
  intros [Hnd Hk Hh] Hp. pose proof Hk as Hk'. apply linked_app in Hk' as (H1&(Hnx&Hpv&H2)&Hj). split; [done|].
  pose proof Hnd as Hnd'. apply NoDup_app in Hnd' as (Hn1&Hd&[Hm Hn2]%NoDup_cons).
  assert (NoDup (g1 ++ b :: g2)) as Hnd2.
  { apply NoDup_app. split_and!; [done| |done]. intros x Hx Hin. destruct (Hd x Hx). by right. }
  destruct (last g1) as [a|] eqn:Ha.
  - destruct (Hj a m eq_refl eq_refl) as [_ Hpa]. simplify_eq. split; [done| |].
    + by eapply linked_unlink.
    + intros hd r Hg. destruct g1 as [|x g1]; [done|]. injection Hg as -> <-.
      destruct (Hh hd (g1 ++ m :: b :: g2) eq_refl) as (q&Hq&Hqr). exists q. split; [|set_solver].
      rewrite lookup_insert_ne; [done|]. intros ->. apply (Hd hd); [left|right; left].
  - apply last_None in Ha as ->. cbn in *. destruct (Hh m (b :: g2) eq_refl) as (q&Hq&Hqr). simplify_eq. split; [done| |].
    + apply linked_prev; [done|done|]. by apply linked_next.
    + intros hd r [= <- <-]. exists p. rewrite lookup_insert_eq. split; [done|set_solver].
Qed.

(** The entries without one of them, whatever happens to the links. *)
Lemma rep_drop c c' g1 l k v g2 : rep c (g1 ++ (l, (k, v)) :: g2) ->
  nd_key c' = delete l (nd_key c) -> nd_value c' = nd_value c -> table_map c' = delete k (table_map c) ->
  size c' = size c - 1 -> nd_count c' = nd_count c ->
  table c' = head (g1 ++ g2).*1 -> table_end c' = last (g1 ++ g2).*1 ->
  chain (nd_next c') (nd_prev c') (g1 ++ g2).*1 -> links_ok (nd_value c) (nd_next c') (nd_prev c') (nd_count c) ->
  rep c' (g1 ++ g2).
Proof.
  intros Hr Hkey Hval Hmap Hsz Hcnt Ht He Hch Hlk. pose proof (rep_keys _ _ Hr) as Hks.
  pose proof (chain_nodup _ _ _ (rep_chain _ _ Hr)) as Hls. rewrite !fmap_app in Hks. rewrite fmap_app in Hls. cbn [fmap list_fmap fst] in Hks, Hls.
  apply NoDup_app in Hks as (Hk1&Hkd&[Hkn Hk2]%NoDup_cons). apply NoDup_app in Hls as (Hl1&Hld&[Hln Hl2]%NoDup_cons).
  assert (forall x y z, (x, (y, z)) ∈ g1 ++ g2 -> x <> l /\ y <> k /\ (x, (y, z)) ∈ g1 ++ (l, (k, v)) :: g2) as Hin.
  { intros x y z Hx. split_and!; [| |set_solver]; intros ->; apply elem_of_app in Hx as [Hx|Hx].
    - apply (Hld l); [by apply list_elem_of_fmap; exists (l, (y, z))|left].
    - apply Hln. by apply list_elem_of_fmap; exists (l, (y, z)).
    - apply (Hkd k); [|left]. apply list_elem_of_fmap. exists (k, z). split; [done|]. by apply list_elem_of_fmap; exists (x, (k, z)).
    - apply Hkn. apply list_elem_of_fmap. exists (k, z). split; [done|]. by apply list_elem_of_fmap; exists (x, (k, z)). }
  split; rewrite ?Hval, ?Hcnt; try done.
  - rewrite !fmap_app. apply NoDup_app. split_and!; [done| |done]. intros x Hx Hx2. destruct (Hkd x Hx). by right.
  - intros x y z Hx. destruct (Hin _ _ _ Hx) as (?&?&Hx'). rewrite Hkey, lookup_delete_ne by done. by apply (rep_node _ _ Hr).
  - intros y x. rewrite Hmap, lookup_delete_Some, (rep_map _ _ Hr). split.
    + intros (Hne&z&Hx). exists z. apply elem_of_app in Hx as [Hx|Hx]; [set_solver|].
      apply elem_of_cons in Hx as [Hx|Hx]; [simplify_eq|set_solver].
    + intros [z Hx]. destruct (Hin _ _ _ Hx) as (?&?&?). by eauto.
  - rewrite Hsz, (rep_size _ _ Hr), !zlen_app. unfold zlen. cbn [length]. lia.
  - intros x Hx. apply (rep_in _ _ Hr). rewrite fmap_app in *. cbn. set_solver.
Qed.

(** [remove] behind the deletion of the key. *)
Definition remove_rest (hd tl l : loc) : M t loc :=
  sz ← gets size;
  (if sz =? 1 then modify (set_ends None None)
   else
     (if decide (l = hd) then n ← next_of hd; modify (set_ends (Some n) (Some tl))
      else if decide (l = tl) then p ← prev_of tl; modify (set_ends (Some hd) (Some p))
      else mret ()) ;;
     unlink l) ;;
  modify (set_size (sz - 1)) ;; mret l.

Definition without_key (l : loc) (k : K) (c : t) : t := set_keys (delete l (nd_key c)) (set_map (delete k (table_map c)) c).

Lemma remove_start c g1 l k v g2 hd tl : rep c (g1 ++ (l, (k, v)) :: g2) -> table c = Some hd -> table_end c = Some tl ->
  remove l c = remove_rest hd tl l (without_key l k c).
Proof.
  intros Hr Ht He. assert ((l, (k, v)) ∈ g1 ++ (l, (k, v)) :: g2) as Hin by set_solver.
  destruct (rep_node _ _ Hr _ _ _ Hin) as [[age Hkey] Hv].
  assert (table_map c !! k = Some l) as Hmap by (apply (rep_map _ _ Hr); eauto).
  unfold remove, remove_rest. msteps. rewrite Ht, He.
  mrun (key_of_Ok c _ _ Hkey). msteps. rewrite Hmap. msteps. unfold delete_key. rewrite bind_assoc.
  by mrun (key_of_Ok (set_map (delete k (table_map c)) c) _ _ Hkey).
Qed.

(** The places of the first and the last node around one in front of another. *)
Lemma ends_before c g1 l k v b e g2 hd tl : rep c (g1 ++ (l, (k, v)) :: (b, e) :: g2) ->
  head (g1 ++ (l, (k, v)) :: (b, e) :: g2).*1 = Some hd -> last (g1 ++ (l, (k, v)) :: (b, e) :: g2).*1 = Some tl ->
  b <> l /\ l <> tl /\ head (g1 ++ (b, e) :: g2).*1 = Some (if decide (l = hd) then b else hd) /\
   last (g1 ++ (b, e) :: g2).*1 = Some tl.
Proof.
  intros Hr Hhd Htl. pose proof (chain_nodup _ _ _ (rep_chain _ _ Hr)) as Hnd.
  rewrite !fmap_app in *. cbn [fmap list_fmap fst] in *.
  rewrite last_app in Htl |- *. rewrite last_cons in Htl.
  destruct (last (b :: g2.*1)) as [x|] eqn:Hl2; [|by apply last_None in Hl2]. simplify_eq.
  pose proof Hnd as Hnd'. apply NoDup_app in Hnd' as (_&Hd&[Hn _]%NoDup_cons). split_and!; [|intros ->; by apply Hn, last_In| |done].
  - intros ->. apply Hn. left.
  - destruct g1 as [|[x ?] g1]; cbn in *; simplify_eq; [by rewrite decide_True|].
    rewrite decide_False; [done|]. intros ->. apply (Hd hd); left.
Qed.

Lemma remove_inner c g1 l k v b e g2 hd tl : rep c (g1 ++ (l, (k, v)) :: (b, e) :: g2) -> table c = Some hd -> table_end c = Some tl ->
  exists c', remove_rest hd tl l (without_key l k c) = Ok l c' /\ rep c' (g1 ++ (b, e) :: g2) /\ same_counters c c' /\ nd_value c' = nd_value c.
Proof.
  intros Hr Ht He. pose proof (rep_chain _ _ Hr) as Hch. pose proof (rep_links _ _ Hr) as Hlks.
  destruct (ends_before c g1 l k v b e g2 hd tl Hr) as (Hbl&Hltl&Hhd'&Htl'); [by rewrite <-(rep_table _ _ Hr)|by rewrite <-(rep_end _ _ Hr)|].
  rewrite fmap_app in Hch. cbn [fmap list_fmap fst] in Hch.
  assert (l < nd_count c /\ b < nd_count c)%nat as [Hl Hb] by (split; apply (rep_in _ _ Hr); rewrite fmap_app; cbn; set_solver).
  destruct (Hlks l Hl) as (_&_&p&Hp&Hpl). destruct (chain_unlink _ _ _ _ _ _ _ Hch Hp) as [Hn Hch'].
  set (hd' := if decide (l = hd) then b else hd) in *. set (c1 := without_key l k c).
  exists (set_size (size c - 1) (set_links (<[p := b]> (nd_next c)) (<[b := p]> (nd_prev c)) (set_ends (Some hd') (Some tl) c1))).
  split_and!; [|eapply (rep_drop c); [exact Hr|done|done|done|done|done|exact (eq_sym Hhd')|exact (eq_sym Htl')| |]|done|done].
  - unfold remove_rest. msteps. change (size c1) with (size c).
    replace (size c =? 1) with false by (symmetry; apply Z.eqb_neq; rewrite (rep_size _ _ Hr), zlen_app; unfold zlen; cbn [length]; lia).
    assert (forall x, unlink l (set_ends x (Some tl) c1) =
      Ok () (set_links (<[p := b]> (nd_next c)) (<[b := p]> (nd_prev c)) (set_ends x (Some tl) c1))) as Hun.
    { intros x. apply (unlink_Ok (set_ends x (Some tl) c1)); [done|done| |]; by apply Hlks. }
    unfold hd'. destruct (decide (l = hd)) as [<-|Hne].
    + rewrite bind_assoc. rewrite bind_assoc. mrun (next_of_Ok c1 _ _ Hn). rewrite bind_modify. by mrun (Hun (Some b)).
    + rewrite decide_False by done. msteps.
      assert (set_ends (Some hd) (Some tl) c1 = c1) as Hc1 by (unfold c1, without_key, set_ends, set_keys, set_map; cbn; by rewrite Ht, He).
      specialize (Hun (Some hd)). rewrite Hc1 in Hun. rewrite Hc1. by mrun Hun.
  - rewrite fmap_app. exact Hch'.
  - apply links_ok_prev; [|done]. by apply links_ok_next.
Qed.

Lemma remove_Ok c g1 l k v g2 : rep c (g1 ++ (l, (k, v)) :: g2) -> (g1 = [] \/ g2 <> []) ->
  exists c', remove l c = Ok l c' /\ rep c' (g1 ++ g2) /\ same_counters c c' /\ nd_value c' = nd_value c.
Proof.
  intros Hr Hpos. destruct (rep_ends _ _ Hr) as [(Hg&_)|(hd&tl&_&_&Ht&He)]; [by destruct g1|].
  rewrite (remove_start c g1 l k v g2 hd tl Hr Ht He). destruct g2 as [|[b e] g2]; [|by apply (remove_inner c g1 l k v)].
  destruct Hpos as [->|]; [|done]. exists (set_size 0 (set_ends None None (without_key l k c))). split; [|split; [|done]].
  - unfold remove_rest. msteps. change (size (without_key l k c)) with (size c). by rewrite (rep_size _ _ Hr).
  - eapply (rep_drop c _ [] l k v []); [exact Hr|done|done|done| |done|done|done| |exact (rep_links _ _ Hr)].
    + by rewrite (rep_size _ _ Hr).
    + split; [by constructor|done|done].
Qed.

(** A node at the back that the head does not point to. *)
Lemma chain_snoc nx pv ls tl m x : chain nx pv ls -> last ls = Some tl -> m ∉ ls ->
  (forall hd, head ls = Some hd -> pv !! hd <> Some m) ->
  chain (<[tl := m]> (<[m := x]> nx)) (<[m := tl]> pv) (ls ++ [m]).
Proof.
  intros [Hnd Hk Hh] Hl Hm Hp. split.
  - apply NoDup_app. split_and!; [done| |apply NoDup_singleton]. set_solver.
  - by apply linked_snoc.
  - intros hd r Hr. destruct ls as [|a ls]; [done|]. injection Hr as -> <-.
    destruct (Hh hd ls eq_refl) as (p&Hpp&Hpr). exists p. split; [rewrite lookup_insert_ne by set_solver; done|].
    specialize (Hp hd eq_refl). rewrite elem_of_app, list_elem_of_singleton. intros [?| ->]; [done|]. by apply Hp.
Qed.

(** The entries with a new one at the back, whatever happens to the links. *)
Lemma rep_add c c' g l k v age : rep c g -> k ∉ g.*2.*1 -> l ∉ g.*1 -> (l < nd_count c')%nat -> (nd_count c <= nd_count c')%nat ->
  nd_key c' = <[l := (k, age)]> (nd_key c) -> nd_value c' = <[l := v]> (nd_value c) ->
  table_map c' = <[k := l]> (table_map c) -> size c' = size c + 1 ->
  table c' = head (g ++ [(l, (k, v))]).*1 -> table_end c' = Some l ->
  chain (nd_next c') (nd_prev c') (g ++ [(l, (k, v))]).*1 ->
  links_ok (nd_value c') (nd_next c') (nd_prev c') (nd_count c') ->
  rep c' (g ++ [(l, (k, v))]).
Proof.
  intros Hr Hk Hl Hlt Hcnt Hkey Hval Hmap Hsz Ht He Hch Hlk.
  assert (forall x y z, (x, (y, z)) ∈ g -> x <> l /\ y <> k) as Hin.
  { intros x y z Hx. split; intros ->; [apply Hl|apply Hk].
    - by apply list_elem_of_fmap; exists (l, (y, z)).
    - apply list_elem_of_fmap. exists (k, z). split; [done|]. by apply list_elem_of_fmap; exists (x, (k, z)). }
  split; try done.
  - rewrite !fmap_app. apply NoDup_app. split_and!; [by apply rep_keys in Hr| |apply NoDup_singleton]. set_solver.
  - intros x y z. rewrite elem_of_app, list_elem_of_singleton, Hkey, Hval. intros [Hx|Hx].
    + destruct (Hin _ _ _ Hx). rewrite !lookup_insert_ne by done. by apply (rep_node _ _ Hr).
    + simplify_eq. rewrite !lookup_insert_eq. eauto.
  - intros y x. rewrite Hmap, lookup_insert_Some, (rep_map _ _ Hr). setoid_rewrite elem_of_app.
    setoid_rewrite list_elem_of_singleton. split.
    + intros [[<- <-]|(?&z&?)]; eauto.
    + intros (z&[Hx|Hx]); [|simplify_eq; by left]. right. split; [|by eauto]. intros ->. by destruct (Hin _ _ _ Hx).
  - rewrite He, fmap_app. cbn [fmap list_fmap fst]. by rewrite last_snoc.
  - rewrite Hsz, (rep_size _ _ Hr), zlen_app. done.
  - intros x. rewrite fmap_app, elem_of_app. cbn. rewrite list_elem_of_singleton. intros [Hx| ->]; [|done].
    pose proof (rep_in _ _ Hr x Hx). lia.
Qed.

(** A new node [l] with its links. *)
Lemma links_ok_new vals nx pv nx' pv' l v a b :
  links_ok vals nx pv l -> nx' !! l = Some a -> (a <= l)%nat -> pv' !! l = Some b -> (b <= l)%nat ->
  (forall x y, (x < l)%nat -> nx !! x = Some y -> nx' !! x = Some y \/ nx' !! x = Some l) ->
  (forall x y, (x < l)%nat -> pv !! x = Some y -> pv' !! x = Some y \/ pv' !! x = Some l) ->
  links_ok (<[l := v]> vals) nx' pv' (S l).
Proof.
  intros Hold Ha Hal Hb Hbl Hnx Hpv x Hx. destruct (decide (x = l)) as [->|].
  - rewrite lookup_insert_eq. split_and!; [by eexists|exists a; split; [done|lia]|exists b; split; [done|lia]].
  - rewrite lookup_insert_ne by done. destruct (Hold x) as (?&(y&Hy&?)&(z&Hz&?)); [lia|]. split_and!; [done| |].
    + destruct (Hnx x y) as [?|?]; [lia|done|exists y|exists l]; (split; [done|lia]).
    + destruct (Hpv x z) as [?|?]; [lia|done|exists z|exists l]; (split; [done|lia]).
Qed.

(** [append] once the node is there. *)
Definition append_link (l : loc) : M t () :=
  c ← get;
  match (table c, table_end c) with
  | (None, None) => modify (set_ends (Some l) (Some l)) ;; set_prev l l ;; set_next l l
  | (Some hd, Some tl) => set_prev l tl ;; set_next l hd ;; set_next tl l ;; modify (set_ends (Some hd) (Some l))
  | _ => die Abort_called
  end.

Definition with_node (k : K) (v : V) (c : t) : t :=
  let l := nd_count c in
  mk (maxsize c) (size c) (vclock c) (accesses c) (hits c) (table c) (table_end c) (table_map c)
    (<[l := (k, vclock c)]> (nd_key c)) (<[l := v]> (nd_value c)) (nd_next c) (nd_prev c) (S l).

Lemma append_link_Ok c g k v : rep c g -> let l := nd_count c in
  exists nx pv, append_link l (with_node k v c) =
      Ok () (set_links nx pv (set_ends (head (g ++ [(l, (k, v))]).*1) (Some l) (with_node k v c))) /\
    chain nx pv (g ++ [(l, (k, v))]).*1 /\ links_ok (nd_value (with_node k v c)) nx pv (S l).
Proof.
  intros Hr l. set (c1 := with_node k v c). pose proof (rep_links _ _ Hr) as Hold.
  assert (l ∉ g.*1) as Hl by (intros Hin%(rep_in _ _ Hr); unfold l in Hin; lia).
  assert (forall x, (x <= l)%nat -> is_Some (nd_value c1 !! x)) as Hal.
  { intros x Hx. cbn. destruct (decide (x = l)) as [->|]; [rewrite lookup_insert_eq; eauto|].
    rewrite lookup_insert_ne by done. apply Hold. unfold l in *. lia. }
  unfold append_link. rewrite bind_get. cbn [table table_end c1 with_node].
  destruct (rep_ends _ _ Hr) as [(->&Ht&He)|(hd&tl&Hhd&Htl&Ht&He)]; rewrite Ht, He.
  - exists (<[l := l]> (nd_next c)), (<[l := l]> (nd_prev c)). split_and!.
    + msteps. mrun (set_prev_Ok (set_ends (Some l) (Some l) c1) l l (Hal l ltac:(lia))).
      rewrite set_next_Ok by (apply Hal; lia). done.
    + split; [apply NoDup_singleton|done|]. intros hd r [= <- <-]. exists l. rewrite lookup_insert_eq. split; [done|]. by intros ?%elem_of_nil.
    + eapply links_ok_new; [exact Hold|by rewrite lookup_insert_eq|lia|by rewrite lookup_insert_eq|lia|..];
        intros x y Hx ?; left; by rewrite lookup_insert_ne by lia.
  - assert (tl < l)%nat as Htll by (by apply (rep_in _ _ Hr), last_In).
    assert (hd < l)%nat as Hhdl by (by apply (rep_in _ _ Hr), head_In).
    exists (<[tl := l]> (<[l := hd]> (nd_next c))), (<[l := tl]> (nd_prev c)). split_and!.
    + mrun (set_prev_Ok c1 l tl (Hal l ltac:(lia))).
      set (c2 := set_links _ _ c1). mrun (set_next_Ok c2 l hd (Hal l ltac:(lia))).
      set (c3 := set_links _ _ c2). mrun (set_next_Ok c3 tl l (Hal tl ltac:(lia))).
      destruct g as [|[??] g]; [done|]. cbn in Hhd. simplify_eq. done.
    + rewrite fmap_app. apply chain_snoc; [by apply rep_chain|done|done|]. intros hd' Hhd' Hpv. cbn in Hpv. simplify_eq.
      destruct (Hold hd Hhdl) as (_&_&(z&Hz&Hzl)). assert (z = l) as -> by congruence. unfold l in Hzl. lia.
    + eapply links_ok_new; [exact Hold|rewrite lookup_insert_ne, lookup_insert_eq by lia; reflexivity|lia|by rewrite lookup_insert_eq|lia|..];
        intros x y Hx ?.
      * destruct (decide (x = tl)) as [->|]; [right; by rewrite lookup_insert_eq|left; by rewrite !lookup_insert_ne by lia].
      * left. by rewrite lookup_insert_ne by lia.
Qed.

Lemma append_Ok c g k v : rep c g -> k ∉ g.*2.*1 -> zlen g < INT_MAX ->
  exists c' l, append k v c = Ok () c' /\ rep c' (g ++ [(l, (k, v))]) /\ same_counters c c'.
Proof.
  intros Hr Hk Hsz. set (l := nd_count c). destruct (append_link_Ok c g k v Hr) as (nx&pv&Hrun&Hch&Hlk). fold l in Hrun, Hch, Hlk.
  eexists _, l. split_and!.
  - unfold append. msteps. unfold new_node, mbind at 1, M_bind at 1. fold l. unfold append_link in Hrun. rewrite bind_get in Hrun.
    msteps. cbn [table table_end with_node] in *. rewrite (bind_Ok _ _ _ _ _ Hrun). msteps. cbn [size set_map set_links set_ends with_node].
    rewrite (rep_size _ _ Hr). mrun (incr_Ok (zlen g) (set_map (<[k := l]> (table_map c))
      (set_links nx pv (set_ends (head (g ++ [(l, (k, v))]).*1) (Some l) (with_node k v c)))) Hsz). reflexivity.
  - assert (l ∉ g.*1) as Hl by (intros Hin%(rep_in _ _ Hr); unfold l in Hin; lia).
    eapply (rep_add c); [done|done|done| | |done|done|done| |done|done|done|done]; cbn; [unfold l; lia..|].
    by rewrite (rep_size _ _ Hr).
  - done.
Qed.

(** The same entries in another order. *)
Lemma rep_perm c c' g g' : rep c g -> g' ≡ₚ g ->
  nd_key c' = nd_key c -> nd_value c' = nd_value c -> table_map c' = table_map c -> size c' = size c ->
  nd_count c' = nd_count c -> table c' = head g'.*1 -> table_end c' = last g'.*1 ->
  chain (nd_next c') (nd_prev c') g'.*1 -> links_ok (nd_value c) (nd_next c') (nd_prev c') (nd_count c) ->
  rep c' g'.
Proof.
  intros Hr Hp Hkey Hval Hmap Hsz Hcnt Ht He Hch Hlk. split; rewrite ?Hkey, ?Hval, ?Hcnt; try done.
  - rewrite Hp. by apply rep_keys in Hr.
  - intros l k v. rewrite Hp. apply (rep_node _ _ Hr).
  - intros k l. rewrite Hmap, (rep_map _ _ Hr). by setoid_rewrite Hp.
  - rewrite Hsz, (rep_size _ _ Hr). unfold zlen. by rewrite Hp.
  - intros l. rewrite Hp. apply (rep_in _ _ Hr).
Qed.

Lemma move_to_back_Ok c g1 l k v g2 : rep c (g1 ++ (l, (k, v)) :: g2) -> (g1 <> [] \/ g2 = []) ->
  exists c', move_to_back l c = Ok () c' /\ rep c' ((g1 ++ g2) ++ [(l, (k, v))]) /\ same_counters c c'.
Proof.
  intros Hr Hpos. pose proof (rep_chain _ _ Hr) as Hch.
  destruct (rep_ends _ _ Hr) as [(Hg&_)|(hd&tl&Hhd&Htl&Ht&He)]; [by destruct g1|].
  assert (forall x, x ∈ (g1 ++ (l, (k, v)) :: g2).*1 -> is_Some (nd_value c !! x)) as Hal.
  { intros x Hx. by apply (rep_links _ _ Hr), (rep_in _ _ Hr). }
  unfold move_to_back. rewrite bind_gets, Ht, He. cbn beta iota. rewrite bind_gets.
  destruct g2 as [|[b e] g2].
  { rewrite app_nil_r. exists c. split; [|done]. rewrite fmap_app in Htl. cbn [fmap list_fmap fst] in Htl.
    rewrite last_snoc in Htl. simplify_eq. rewrite decide_True by done. by destruct (1 <? size c). }
  destruct Hpos as [Hg1|]; [|done]. destruct g1 as [|[a ea] g1]; [done|]. cbn in Hhd. simplify_eq. clear Hg1.
  rewrite !fmap_app in *. cbn [fmap list_fmap fst] in *.
  replace (1 <? size c) with true by (symmetry; apply Z.ltb_lt; rewrite (rep_size _ _ Hr), zlen_app; unfold zlen; cbn [length]; lia).
  pose proof (chain_nodup _ _ _ Hch) as Hnd. apply NoDup_app in Hnd as (_&Hd&[Hnl _]%NoDup_cons).
  rewrite last_mid in Htl. assert (l <> tl) as Hlt by (intros ->; by apply Hnl, last_In).
  assert (l <> hd) as Hlh by (intros ->; apply (Hd hd); left).
  destruct (rep_links _ _ Hr l) as (_&_&p&Hp&_); [apply (rep_in _ _ Hr); rewrite fmap_app; cbn; set_solver|].
  assert (p ∈ hd :: g1.*1) as Hpin.
  { destruct Hch as [_ Hk _]. apply linked_app in Hk as (_&_&Hj).
    destruct (last (hd :: g1.*1)) as [q|] eqn:Hq; [|by apply last_None in Hq].
    destruct (Hj q l eq_refl eq_refl) as [_ Hq']. simplify_eq. by apply last_In. }
  destruct (chain_unlink _ _ _ _ _ _ _ Hch Hp) as [Hn Hch'].
  assert (forall x, x ∈ hd :: g1.*1 ++ l :: b :: g2.*1 -> (x < nd_count c)%nat) as Hin.
  { intros x Hx. apply (rep_in _ _ Hr). rewrite fmap_app. exact Hx. }
  exists (set_ends (Some hd) (Some l) (set_links (<[tl := l]> (<[l := hd]> (<[p := b]> (nd_next c))))
    (<[l := tl]> (<[b := p]> (nd_prev c))) c)). split_and!.
  - rewrite decide_False, decide_False by done. rewrite bind_ret.
    mrun (unlink_Ok c l p b Hp Hn (Hal p ltac:(set_solver)) (Hal b ltac:(set_solver))).
    set (c2 := set_links _ _ c). mrun (set_prev_Ok c2 l tl (Hal l ltac:(set_solver))). rewrite bind_gets. cbn [table c2 set_links].
    rewrite Ht, bind_of_opt. set (c3 := set_links _ _ c2). mrun (set_next_Ok c3 l hd (Hal l ltac:(set_solver))).
    set (c4 := set_links _ _ c3). assert (tl ∈ b :: g2.*1) by (by apply last_In).
    mrun (set_next_Ok c4 tl l (Hal tl ltac:(set_solver))). done.
  - eapply (rep_perm c); [exact Hr| |done..| | |].
    + rewrite <-app_assoc. apply Permutation_app_head. by rewrite Permutation_app_comm.
    + rewrite !fmap_app. cbn [fmap list_fmap fst]. by rewrite last_snoc.
    + rewrite !fmap_app. apply chain_snoc; [exact Hch'| |set_solver|].
      * cbn [fmap list_fmap fst]. rewrite (last_app_cons (hd :: g1.*1) g2.*1 b). exact Htl.
      * intros hd' [= <-]. rewrite lookup_insert_ne by (intros ->; apply (Hd hd); [left|right; left]).
        destruct Hch as [_ _ Hh]. destruct (Hh hd _ eq_refl) as (q&Hq&Hqr). set_solver.
    + assert (tl ∈ b :: g2.*1) by (by apply last_In).
      apply links_ok_prev; [|apply Hin; set_solver]. apply links_ok_next; [|apply Hin; set_solver].
      apply links_ok_prev; [|apply Hin; set_solver]. apply links_ok_next; [|apply Hin; set_solver].
      apply links_ok_next; [exact (rep_links _ _ Hr)|apply Hin; set_solver].
  - done.
Qed.

(** A new age and a new value for one entry. *)
Lemma rep_touch c g1 l k old v g2 age : rep c (g1 ++ (l, (k, old)) :: g2) ->
  rep (set_values (<[l := v]> (nd_value c)) (set_keys (<[l := (k, age)]> (nd_key c)) c)) (g1 ++ (l, (k, v)) :: g2).
Proof.
  intros Hr. pose proof (chain_nodup _ _ _ (rep_chain _ _ Hr)) as Hls. rewrite fmap_app in Hls. cbn [fmap list_fmap fst] in Hls.
  apply NoDup_app in Hls as (_&Hd&[Hl _]%NoDup_cons).
  assert (forall y z w, (y, (z, w)) ∈ g1 ++ g2 -> y <> l) as Hne.
  { intros y z w Hy ->. apply elem_of_app in Hy as [Hy|Hy]; [apply (Hd l); [|left]|apply Hl];
      by apply list_elem_of_fmap; exists (l, (z, w)). }
  assert ((g1 ++ (l, (k, v)) :: g2).*1 = (g1 ++ (l, (k, old)) :: g2).*1) as H1 by (by rewrite !fmap_app).
  assert ((g1 ++ (l, (k, v)) :: g2).*2.*1 = (g1 ++ (l, (k, old)) :: g2).*2.*1) as H2 by (by rewrite !fmap_app).
  destruct Hr as [Hks Hnode Hmap Ht He Hsz Hch Hlk Hin]. split; rewrite ?H1, ?H2; try done.
  - intros y z w Hy. apply elem_of_app in Hy as [Hy|Hy].
    + pose proof (Hne y z w ltac:(set_solver)). cbn. rewrite !lookup_insert_ne by done. apply Hnode. set_solver.
    + apply elem_of_cons in Hy as [Hy|Hy].
      * simplify_eq. cbn. rewrite !lookup_insert_eq. eauto.
      * pose proof (Hne y z w ltac:(set_solver)). cbn. rewrite !lookup_insert_ne by done. apply Hnode. set_solver.
  - intros z y. cbn [table_map set_values set_keys]. rewrite Hmap. split; intros [w Hw].
    + apply elem_of_app in Hw as [Hw|[Hw|Hw]%elem_of_cons]; [exists w; set_solver|simplify_eq; exists v; set_solver|exists w; set_solver].
    + apply elem_of_app in Hw as [Hw|[Hw|Hw]%elem_of_cons]; [exists w; set_solver|simplify_eq; exists old; set_solver|exists w; set_solver].
  - cbn [size set_values set_keys]. rewrite Hsz, !zlen_app. done.
  - cbn. by apply links_ok_value.
Qed.

Lemma setAge_Ok c l k a age : nd_key c !! l = Some (k, a) ->
  setAge l age c = Ok () (set_keys (<[l := (k, age)]> (nd_key c)) c).
Proof. intros Hk. unfold setAge. by mrun (key_of_Ok c l _ Hk). Qed.

Lemma rep_found c g1 l k v g2 : rep c (g1 ++ (l, (k, v)) :: g2) ->
  (exists a, nd_key c !! l = Some (k, a)) /\ nd_value c !! l = Some v /\ table_map c !! k = Some l.
Proof.
  intros Hr. assert ((l, (k, v)) ∈ g1 ++ (l, (k, v)) :: g2) as Hin by set_solver.
  destruct (rep_node _ _ Hr _ _ _ Hin) as [? ?]. split_and!; [done|done|]. apply (rep_map _ _ Hr). eauto.
Qed.

Lemma tick_Ok (c : t) : vclock c < INT_MAX -> tick c = Ok () (set_vclock (vclock c + 1) c).
Proof. intros Hv. unfold tick. rewrite bind_gets. by mrun (incr_Ok (vclock c) c Hv). Qed.

(** An insertion that finds its key. *)
Lemma update_Ok c g1 l k old v g2 : rep c (g1 ++ (l, (k, old)) :: g2) -> (g1 <> [] \/ g2 = []) ->
  exists c', (n ← gets vclock; setAge l n ;; old ← value_of l;
       ret ← (if decide (v = old) then mret v
              else set_value l v ;; modify (fun c => set_map (<[k := l]> (table_map c)) c) ;; mret old);
       move_to_back l ;; mret ret) c = Ok old c' /\
    rep c' ((g1 ++ g2) ++ [(l, (k, v))]) /\ same_counters c c'.
Proof.
  intros Hr Hpos. destruct (rep_found _ _ _ _ _ _ Hr) as ((a&Hk)&Hv&Hm).
  pose proof (rep_touch c g1 l k old v g2 (vclock c) Hr) as Hr2.
  rewrite bind_gets. mrun (setAge_Ok c l k a (vclock c) Hk). set (c1 := set_keys _ c) in *.
  destruct (move_to_back_Ok _ _ _ _ _ _ Hr2 Hpos) as (c'&Hmv&Hr'&Hs).
  mrun (value_of_Ok c1 l old Hv). exists c'. split; [|done].
  destruct (decide (v = old)) as [->|Hne].
  - rewrite bind_ret. replace (set_values _ c1) with c1 in Hmv; [by mrun Hmv|].
    unfold set_values. rewrite insert_id by exact Hv. done.
  - rewrite bind_assoc. unfold set_value. rewrite bind_assoc. mrun (value_of_Ok c1 l old Hv). msteps.
    cbn [table_map set_values set_keys c1]. rewrite insert_id by done.
    replace (set_map (table_map c) _) with (set_values (<[l := v]> (nd_value c)) c1); [by mrun Hmv|].
    done.
Qed.

(** An insertion that does not find its key. *)
Lemma evict_Ok c g k v : rep c g -> k ∉ g.*2.*1 -> 1 <= maxsize c <= INT_MAX -> zlen g <= maxsize c ->
  exists c' l, (full ← gets (fun c => maxsize c <=? size c);
      ret ← (if (full : bool) then
               ends ← gets (fun c => (table c, table_end c));
               match ends with
               | (Some hd, Some _) => _ ← key_of hd; v ← value_of hd; remove hd ;; mret v
               | _ => throw (bfsUtilError "Cache in inconsistent state")
               end
             else mret v);
      append k v ;; mret ret) c =
    Ok (if decide (zlen g < maxsize c) then v else from_option snd v (head g.*2)) c' /\
    rep c' ((if decide (zlen g < maxsize c) then g else tail g) ++ [(l, (k, v))]) /\ same_counters c c'.
Proof.
  intros Hr Hk Hm Hle. rewrite bind_gets, (rep_size _ _ Hr). case_decide as Hlt.
  - destruct (append_Ok c g k v Hr Hk) as (c'&l&Ha&Hr'&Hs); [lia|]. exists c', l. split; [|done].
    replace (maxsize c <=? zlen g) with false by (symmetry; apply Z.leb_gt; lia). rewrite bind_ret. by mrun Ha.
  - replace (maxsize c <=? zlen g) with true by (symmetry; apply Z.leb_le; lia).
    destruct g as [|[h [k0 v0]] g]; [unfold zlen in *; cbn in *; lia|].
    destruct (remove_Ok c [] h k0 v0 g Hr (or_introl eq_refl)) as (c1&Hrm&Hr1&Hs1&_). cbn [app] in Hr1.
    destruct (append_Ok c1 g k v Hr1) as (c'&l&Ha&Hr'&Hs'); [set_solver|unfold zlen in *; cbn [length] in *; lia|].
    destruct (rep_found c [] h k0 v0 g Hr) as ((a&Hkk)&Hv&_). exists c', l. split_and!; [|exact Hr'|].
    + rewrite bind_assoc, bind_gets. destruct (rep_ends _ _ Hr) as [(?&_)|(hd&tl&Hhd&_&Ht&He)]; [done|].
      cbn in Hhd. simplify_eq. rewrite Ht, He. rewrite bind_assoc. mrun (key_of_Ok c hd _ Hkk).
      rewrite bind_assoc. mrun (value_of_Ok c hd _ Hv). rewrite bind_assoc. mrun Hrm. rewrite bind_ret. by mrun Ha.
    + destruct Hs1 as (?&?&?&?), Hs' as (?&?&?&?). repeat split; congruence.
Qed.

Lemma fits_spec cap o (q : list (K * V)) : 1 <= cap -> zlen q <= cap -> zlen (spec cap o q).2 <= cap.
Proof.
  intros Hc Hq. assert (forall k (q0 : list (K * V)), zlen (qwithout k q0) <= zlen q0) as Hw.
  { intros k q0. unfold zlen, qwithout. pose proof (length_filter (fun e : K * V => e.1 <> k) q0). lia. }
  destruct o as [k v|k|k]; cbn; [|done|specialize (Hw k q); lia].
  destruct (qlookup k q) as [old|] eqn:Hk; cbn.
  - assert (zlen (qwithout k q) < zlen q) as Hlt; [|rewrite zlen_app; unfold zlen in *; cbn [length]; lia].
    clear Hq. induction q as [|[k' v'] q IH]; [done|]. cbn in Hk. unfold qwithout. case_decide as Hd.
    + rewrite filter_cons_False by (cbn; tauto). specialize (Hw k q). unfold qwithout, zlen in *. cbn [length]. lia.
    + rewrite filter_cons_True by done. specialize (IH Hk). unfold qwithout, zlen in *. cbn [length]. lia.
  - case_decide; cbn; rewrite zlen_app; unfold zlen in *; cbn [length]; [lia|]. destruct q; cbn [tail length] in *; lia.
Qed.

(** What is left of the budget after a lookup. *)
Definition spent (c c1 : t) (n : Z) : Prop :=
  maxsize c1 = maxsize c /\ vclock c1 = vclock c /\ accesses c1 + n <= INT_MAX /\ hits c1 + n <= INT_MAX.

Lemma spent_budget c c1 n : budget c (n + 1) -> spent c c1 n -> budget c1 n.
Proof. unfold budget. intros (?&?&_) (->&->&?&?). split_and!; (done || lia). Qed.

Lemma ticked c c1 c2 n : budget c (n + 1) -> 0 <= n -> spent c c1 n -> same_counters c1 c2 ->
  let c3 := set_vclock (vclock c2 + 1) c2 in tick c2 = Ok () c3 /\ budget c3 n /\ maxsize c3 = maxsize c.
Proof.
  intros (Hm&Hv&_&_) Hn (H1&H2&H3&H4) (E1&E2&E3&E4) c3. rewrite tick_Ok by lia. unfold budget, c3. cbn.
  rewrite E1, E2, E3, E4, H1, H2. split_and!; try done; lia.
Qed.

(** An entry that was found gets the present age. *)
Lemma touch_Ok c c1 g1 l k v g2 n :
  rep c1 (g1 ++ (l, (k, v)) :: g2) -> budget c (n + 1) -> 0 <= n -> spent c c1 n ->
  exists c2 c3, setAge l (vclock c1) c1 = Ok () c2 /\ tick c2 = Ok () c3 /\ rep c3 (g1 ++ (l, (k, v)) :: g2) /\
    nd_value c3 !! l = Some v /\ budget c3 n /\ maxsize c3 = maxsize c.
Proof.
  intros Hr Hb Hn Hsp. destruct (rep_found _ _ _ _ _ _ Hr) as ((a&Hkk)&Hvv&_).
  pose proof (rep_touch c1 g1 l k v v g2 (vclock c1) Hr) as Hr2. rewrite insert_id in Hr2 by done.
  eexists _, _. split; [exact (setAge_Ok c1 l k a (vclock c1) Hkk)|]. set (c2 := set_keys _ c1) in *.
  destruct (ticked c c1 c2 n Hb Hn Hsp) as (Htk&Hb'&Hm'); [done|]. split_and!; [exact Htk|by apply rep_vclock|done..].
Qed.

Lemma qwithout_entry (g1 g2 : list (loc * (K * V))) l k v c :
  rep c (g1 ++ (l, (k, v)) :: g2) -> qwithout k (g1 ++ (l, (k, v)) :: g2).*2 = (g1 ++ g2).*2.
Proof.
  intros Hr. rewrite (fmap_app _ g1 (_ :: g2)). cbn [fmap list_fmap snd].
  rewrite qwithout_split by (rewrite <-(fmap_cons snd (l, (k, v))), <-fmap_app; apply (rep_keys _ _ Hr)). by rewrite !fmap_app.
Qed.

Lemma exec_Ok c g o n : rep c g -> budget c (n + 1) -> 0 <= n -> zlen g <= maxsize c -> safe o g.*2 ->
  exists c' g', exec o c = Ok (spec (maxsize c) o g.*2).1 c' /\ rep c' g' /\ g'.*2 = (spec (maxsize c) o g.*2).2 /\
    budget c' n /\ maxsize c' = maxsize c.
Proof.
  intros Hr Hb Hn Hle Hsafe. pose proof Hb as (Hm&Hv&_&_).
  destruct o as [k v|k|k]; cbn [exec spec safe] in *;
    destruct (find_Ok c g k n Hr Hb Hn) as (c1&Hr1&Hm1&Hv1&Ha1&Hh1&[(Hq&Hk&Hf)|(g1&l&old&g2&->&Hq&Hf)]);
    assert (spent c c1 n) as Hsp by done; rewrite Hq; unfold insertCache, checkCache; rewrite ?bind_assoc; mrun Hf.
  - destruct (evict_Ok c1 g k v Hr1 Hk) as (c2&l&He&Hr2&Hs2); [by rewrite Hm1|by rewrite Hm1|].
    destruct (ticked c c1 c2 n Hb Hn Hsp Hs2) as (Htk&Hb'&Hm'). rewrite Hm1 in *.
    replace (Z.of_nat (length g.*2)) with (zlen g) by (unfold zlen; by rewrite length_fmap).
    eexists _, _. split; [rewrite bind_assoc; mrun He; rewrite bind_assoc; mrun Htk|split; [by apply rep_vclock, Hr2|split; [|done]]].
    + case_decide; [reflexivity|]. destruct g; [unfold zlen in *; cbn in *; lia|reflexivity].
    + rewrite fmap_app. case_decide; [done|]. by destruct g.
  - destruct (update_Ok c1 g1 l k old v g2 Hr1) as (c2&He&Hr2&Hs2).
    { destruct g1; [right|by left]. cbn in Hsafe. destruct Hsafe as [Hs|Hs]; [|done]. destruct g2; [done|cbn in Hs; lia]. }
    destruct (ticked c c1 c2 n Hb Hn Hsp Hs2) as (Htk&Hb'&Hm').
    eexists _, _. split; [rewrite bind_assoc; mrun He; rewrite bind_assoc; mrun Htk; reflexivity|].
    split; [by apply rep_vclock|]. split; [|done]. cbn [snd]. by rewrite (qwithout_entry _ _ _ _ _ _ Hr), (fmap_app snd (g1 ++ g2)).
  - exists c1, g. split_and!; try done. by eapply spent_budget.
  - destruct (touch_Ok c c1 g1 l k old g2 n Hr1 Hb Hn Hsp) as (c2&c3&Hage&Htk&Hr3&Hv3&Hb'&Hm').
    rewrite bind_gets. mrun Hage. mrun Htk. rewrite bind_ret. exists c3, (g1 ++ (l, (k, old)) :: g2).
    split; [|split_and!; done]. by mrun (value_of_Ok c3 l old Hv3).
  - exists c1, g. split_and!; try done; [by rewrite qwithout_none|by eapply spent_budget].
  - destruct (touch_Ok c c1 g1 l k old g2 n Hr1 Hb Hn Hsp) as (c2&c3&Hage&Htk&Hr3&Hv3&Hb'&Hm').
    rewrite bind_gets. mrun Hage. mrun Htk.
    destruct (remove_Ok c3 g1 l k old g2 Hr3) as (c4&Hrm&Hr4&(E1&E2&E3&E4)&Hv4).
    { destruct g2; [left|by right]. destruct Hsafe as [Hs|Hs].
      - rewrite length_fmap, length_app in Hs. cbn [length] in Hs. destruct g1; [done|cbn in Hs; lia].
      - rewrite fmap_app in Hs. cbn [fmap list_fmap] in Hs. rewrite last_snoc in Hs. done. }
    rewrite bind_assoc. mrun Hrm. rewrite bind_ret. exists c4, (g1 ++ g2). split_and!; [|done| | |by rewrite E1].
    + by mrun (value_of_Ok c4 l old ltac:(by rewrite Hv4)).
    + cbn [snd]. by rewrite (qwithout_entry _ _ _ _ _ _ Hr).
    + unfold budget in *. by rewrite E1, E2, E3, E4.
Qed.

(** C26. Any sequence of lookups, insertions and removals that keeps to [safe] uses
    behaves as the queue: the results are those of the queue, in particular an
    insertion into a full cache returns the oldest entry, for write-back, and
    nothing else is lost. *)
Theorem cache_refines_queue cap os :
  1 <= cap <= INT_MAX -> zlen os <= INT_MAX -> safe_all cap os [] ->
  exists c g, exec_all os (ctor cap) = Ok (spec_all cap os []).1 c /\ rep c g /\ g.*2 = (spec_all cap os []).2 /\
    zlen g <= cap.
Proof.
  intros Hcap Hlen Hsafe.
  enough (forall c g, rep c g -> budget c (zlen os) -> zlen g <= maxsize c -> safe_all (maxsize c) os g.*2 ->
    exists c' g', exec_all os c = Ok (spec_all (maxsize c) os g.*2).1 c' /\ rep c' g' /\
      g'.*2 = (spec_all (maxsize c) os g.*2).2 /\ zlen g' <= maxsize c) as Hgen.
  { apply (Hgen (ctor cap) []); [apply ctor_rep| |unfold zlen; cbn [length ctor maxsize]; lia|done].
    unfold budget. cbn [maxsize vclock accesses hits ctor]. lia. }
  clear cap Hcap Hlen Hsafe. induction os as [|o os IH]; intros c g Hr Hb Hle Hsafe; [by exists c, g|].
  destruct Hsafe as [Hso Hsafe]. rewrite zlen_cons, Z.add_comm in Hb.
  destruct (exec_Ok c g o (zlen os)) as (c1&g1&He&Hr1&Hg1&Hb1&Hm1); [done|done|apply zlen_nonneg|done|done|].
  destruct (IH c1 g1) as (c2&g2&He2&Hr2&Hg2&Hle2).
  - done.
  - done.
  - rewrite Hm1. unfold zlen. rewrite <-(length_fmap snd g1), Hg1. apply fits_spec; [apply Hb|].
    unfold zlen in *. by rewrite length_fmap.
  - by rewrite Hm1, Hg1.
  - rewrite Hm1, Hg1 in *. exists c2, g2. cbn [exec_all spec_all]. destruct (spec (maxsize c) o g.*2) as [r q].
    cbn [fst snd] in *. destruct (spec_all (maxsize c) os q) as [rs q'] eqn:Hsp. mrun He. mrun He2. done.
Qed.

End cache.
Arguments t : clear implicits.
Arguments t K {_ _} V.
Arguments op : clear implicits.

(** A sequence in which the cache of two entries writes back the oldest one. *)
Definition sample : list (op nat nat) := [Insert 1 10; Insert 2 20; Check 1; Insert 2 21; Insert 3 30; Pop 2]%nat.

Lemma cache_refines_queue_witness :
  exists c, exec_all sample (ctor 2) =
    Ok [Some 10; Some 20; Some 10; Some 20; Some 10; Some 21]%nat c.
Proof.
  destruct (cache_refines_queue 2 sample) as (c&g&He&_); [unfold INT_MAX; lia|vm_decide| |exists c; exact He].
  repeat split; vm_decide.
Defined.

(** ** The oldest entry inserted again

    Appending a node leaves the [prev] of the head as it was. *)
Section stale_prev.
Context {K : Type} `{Countable K} {V : Type} `{EqDecision V}.
Abbreviation cache := (t K V).

(** Evaluation of the operations on a state given by its fields. *)
Ltac lookups := repeat first
  [ rewrite lookup_insert_eq | rewrite lookup_insert_ne by (done || lia) | rewrite lookup_empty
  | rewrite lookup_delete_eq | rewrite lookup_delete_ne by (done || lia)
  | match goal with H : ?m !! ?k = _ |- context [?m !! ?k] => rewrite H end ].
Ltac tests := repeat match goal with
  | |- context [Z.ltb ?x ?y] => first [rewrite (proj2 (Z.ltb_lt x y)) by lia | rewrite (proj2 (Z.ltb_ge x y)) by lia]
  | |- context [Z.leb ?x ?y] => first [rewrite (proj2 (Z.leb_le x y)) by lia | rewrite (proj2 (Z.leb_gt x y)) by lia]
  | |- context [Z.eqb ?x ?y] => first [rewrite (proj2 (Z.eqb_eq x y)) by lia | rewrite (proj2 (Z.eqb_neq x y)) by lia]
  | |- context [@decide (?x = ?y) ?i] =>
      first [rewrite (decide_True (P := x = y)) by (done || lia) | rewrite (decide_False (P := x = y)) by (done || lia)]
  end.
Ltac evaluate := repeat (progress (
  cbv beta iota zeta delta [exec insertCache find unlink remove append move_to_back setAge delete_key set_value
    set_next set_prev new_node incr tick key_of value_of next_of prev_of
    mbind M_bind gets get modify mret M_ret of_opt die throw ctor
    maxsize size vclock accesses hits table table_end table_map nd_key nd_value nd_next nd_prev nd_count
    set_size set_vclock set_stats set_ends set_map set_keys set_values set_links fst snd andb]; lookups; tests)).

(** The list after its head was relinked through the stale [prev]: the head,
    the first node, points to itself, while other nodes follow it. *)
Record looped (c : cache) (seen : list K) (n : Z) : Prop := {
  lp_head : table c = Some 0%nat;
  lp_links : nd_next c !! 0%nat = Some 0%nat /\ nd_prev c !! 0%nat = Some 0%nat;
  lp_value : is_Some (nd_value c !! 0%nat);
  lp_tail : exists tl, table_end c = Some tl /\ (0 < tl < nd_count c)%nat /\ is_Some (nd_value c !! tl);
  lp_seen : forall k, k ∉ seen -> table_map c !! k = None;
  lp_size : size c = n /\ 2 <= n < INT_MAX;
  lp_counters : vclock c < INT_MAX /\ accesses c = vclock c
}.

(** The key of the head. *)
Definition head_key (c : cache) (a : K) : Prop :=
  table_map c !! a = Some 0%nat /\ exists age, nd_key c !! 0%nat = Some (a, age).

Lemma looped_fill c seen n a k v : looped c seen n -> head_key c a -> a ∈ seen -> k ∉ seen -> n < maxsize c ->
  n + 1 < INT_MAX -> vclock c + 1 < INT_MAX ->
  exists c', exec (Insert k v) c = Ok (Some v) c' /\ looped c' (k :: seen) (n + 1) /\ head_key c' a /\
    maxsize c' = maxsize c /\ vclock c' = vclock c + 1.
Proof.
  intros [Hh [Hn Hp] [v0 Hv] (tl&Htl&Hne&[w Hw]) Hs [<- Hz] [Hk1 Hk2]] [Hm [age Hag]] Ha Hnew Hlt H1 H2.
  pose proof (Hs k Hnew) as Hk0. assert (k <> a) by set_solver.
  destruct c. cbn in *. subst. evaluate. eexists. split; [reflexivity|split; [split|unfold head_key]]; cbn; lookups; eauto.
  - eexists. split; [done|]. split; [lia|]. lookups. eauto.
  - intros k' Hk'. rewrite lookup_insert_ne by set_solver. apply Hs. set_solver.
  - lia.
Qed.

Lemma looped_evict c seen n a k v : looped c seen n -> head_key c a -> a ∈ seen -> k ∉ seen -> n = maxsize c -> vclock c + 1 < INT_MAX ->
  exists r c', exec (Insert k v) c = Ok r c' /\ looped c' (k :: seen) n /\ nd_key c' !! 0%nat = None /\
    maxsize c' = maxsize c /\ vclock c' = vclock c + 1.
Proof.
  intros [Hh [Hn Hp] [v0 Hv] (tl&Htl&Hne&[w Hw]) Hs [<- Hz] [Hk1 Hk2]] [Hm [age Hag]] Ha Hnew Hlt H1.
  pose proof (Hs k Hnew) as Hk0. assert (k <> a) by set_solver.
  destruct c. cbn in *. subst. evaluate. eexists _, _. split; [reflexivity|split; [split|]]; cbn; lookups; eauto.
  - eexists. split; [done|]. split; [lia|]. lookups. eauto.
  - intros k' Hk'. rewrite lookup_insert_ne by set_solver. destruct (decide (k' = a)) as [->|]; lookups; [done|]. apply Hs. set_solver.
  - lia.
Qed.

(** A head whose key was deleted: to make room its key is read. *)
Lemma looped_crash c seen n k v : looped c seen n -> nd_key c !! 0%nat = None -> k ∉ seen -> n = maxsize c ->
  exec (Insert k v) c = Crash Undefined_behaviour.
Proof.
  intros [Hh [Hn Hp] [v0 Hv] (tl&Htl&Hne&[w Hw]) Hs [<- Hz] [Hk1 Hk2]] Hag Hnew Hlt.
  pose proof (Hs k Hnew) as Hk0. destruct c. cbn in *. subst. by evaluate.
Qed.

(** Insertions of a list of entries. *)
Definition inserts (es : list (K * V)) : list (op K V) := (fun '(k, v) => Insert k v) <$> es.

Lemma looped_fill_all es c seen n a : looped c seen n -> head_key c a -> a ∈ seen ->
  NoDup es.*1 -> (forall k, k ∈ es.*1 -> k ∉ seen) -> n + zlen es <= maxsize c ->
  n + zlen es < INT_MAX -> vclock c + zlen es < INT_MAX ->
  exists rs c', exec_all (inserts es) c = Ok rs c' /\ looped c' (reverse es.*1 ++ seen) (n + zlen es) /\ head_key c' a /\
    maxsize c' = maxsize c /\ vclock c' = vclock c + zlen es.
Proof.
  revert c seen n. induction es as [|[k v] es IH]; intros c seen n Hl Hh Ha Hnd Hnew Hn Hi Hv.
  { exists [], c. change (zlen []) with 0. rewrite !Z.add_0_r. done. }
  cbn [fmap list_fmap fst] in Hnd, Hnew. apply NoDup_cons in Hnd as [Hk Hnd].
  rewrite zlen_cons in *. pose proof (zlen_nonneg es).
  destruct (looped_fill c seen n a k v) as (c1&He&Hl1&Hh1&Hm1&Hv1); [done|done|done|set_solver|lia..|].
  destruct (IH c1 (k :: seen) (n + 1)) as (rs&c2&He2&Hl2&Hh2&Hm2&Hv2); [done|done|set_solver|done|set_solver|lia..|].
  exists (Some v :: rs), c2. cbn [inserts fmap list_fmap exec_all]. mrun He. mrun He2.
  cbn [fmap list_fmap fst]. rewrite reverse_cons, <-app_assoc. cbn [app].
  rewrite Z.add_assoc. split_and!; [done|done|done|congruence|lia].
Qed.

Lemma exec_all_app_Ok os1 os2 (c : cache) rs1 c1 rs2 c2 : exec_all os1 c = Ok rs1 c1 ->
  exec_all os2 c1 = Ok rs2 c2 -> exec_all (os1 ++ os2) c = Ok (rs1 ++ rs2) c2.
Proof.
  revert c rs1. induction os1 as [|o os1 IH]; intros c rs1 H1 H2; [injection H1 as <- <-; done|].
  cbn [exec_all app] in *. apply bind_Ok_inv in H1 as (r&c'&Ho&H1). apply bind_Ok_inv in H1 as (rs&c''&Hos&H1).
  injection H1 as <- <-. mrun Ho. rewrite (bind_Ok _ _ _ _ _ (IH _ _ Hos H2)). done.
Qed.

Lemma exec_all_snoc_Crash os o (c : cache) rs c1 x : exec_all os c = Ok rs c1 ->
  exec o c1 = Crash x -> exec_all (os ++ [o]) c = Crash x.
Proof.
  revert c rs. induction os as [|o' os IH]; intros c rs H1 H2; cbn [exec_all app] in *.
  { injection H1 as <- <-. unfold mbind, M_bind. by rewrite H2. }
  apply bind_Ok_inv in H1 as (r&c'&Ho&H1). apply bind_Ok_inv in H1 as (rs'&c''&Hos&H1).
  injection H1 as <- <-. mrun Ho. unfold mbind at 1, M_bind at 1. by rewrite (IH _ _ Hos H2).
Qed.

Lemma exec_cons_Ok o os (c : cache) r c1 rs c2 : exec o c = Ok r c1 ->
  exec_all os c1 = Ok rs c2 -> exec_all (o :: os) c = Ok (r :: rs) c2.
Proof. intros H1 H2. cbn [exec_all]. mrun H1. by mrun H2. Qed.

(** Twice the oldest entry: the head becomes its own successor. *)
Lemma loop_made cap a b d v1 v2 v3 v4 v5 : NoDup [a; b; d] -> 3 <= cap ->
  exists rs c, exec_all (inserts [(a, v1); (b, v2); (a, v3); (d, v4); (b, v5)]) (ctor cap) = Ok rs c /\
    looped c [a; b; d] 3 /\ head_key c a /\ maxsize c = cap /\ vclock c = 5.
Proof.
  intros Hnd Hcap. assert (INT_MAX = 2147483647) by reflexivity. repeat (apply NoDup_cons in Hnd as [? Hnd]).
  assert (a <> b /\ a <> d /\ b <> d /\ b <> a /\ d <> a /\ d <> b) as (?&?&?&?&?&?).
  { split_and!; intros ->; set_solver. }
  destruct (decide (v3 = v1)) as [->|Hv3], (decide (v5 = v2)) as [->|Hv5]; unfold inserts; cbn [fmap list_fmap].
  all: eexists _, _; split;
    [do 5 (eapply exec_cons_Ok; [evaluate; reflexivity|]); reflexivity|].
  all: split; [split; cbn|split; [split; [|eexists]|split]; cbn]; lookups; eauto; try lia.
  all: try (eexists; split; [done|split; [lia|lookups; eauto]]; done).
  all: intros k Hk; repeat (rewrite lookup_insert_ne by set_solver); apply lookup_empty.
Qed.

Lemma fresh_keys (seen ks : list K) k k' : NoDup (seen ++ ks ++ [k; k']) ->
  NoDup seen /\ NoDup ks /\ (forall x, x ∈ ks -> x ∉ seen) /\
  k ∉ reverse ks ++ seen /\ k' ∉ k :: reverse ks ++ seen.
Proof.
  intros (Hs&Hsk&Hk)%NoDup_app. apply NoDup_app in Hk as (Hks&Hkk&Hk).
  apply NoDup_cons in Hk as [Hne _]. split_and!; [done|done|set_solver..].
Qed.

(** C35. In a cache of any capacity from 3 on: insert [a] and [b], [a] again,
    [d], [b] again, each time the oldest entry.  The list is corrupted: the
    head [a] points to itself.  Once new entries have filled the cache and one
    more has evicted [a], the cache still has the node of [a] as its head, and
    the next insertion of a new entry reads the key of [a], which was deleted. *)
Theorem cache_use_after_free cap a b d v1 v2 v3 v4 v5 es k v k' v' :
  3 <= cap -> cap + 5 < INT_MAX -> NoDup (a :: b :: d :: es.*1 ++ [k; k']) -> zlen es = cap - 3 ->
  let os := [Insert a v1; Insert b v2; Insert a v3; Insert d v4; Insert b v5] ++ inserts es ++ [Insert k v] in
  (exists rs c, exec_all os (ctor cap) = Ok rs c) /\
  exec_all (os ++ [Insert k' v']) (ctor cap) = Crash Undefined_behaviour.
Proof.
  intros Hcap Hmax Hnd Hes.
  destruct (fresh_keys [a; b; d] es.*1 k k' Hnd) as (Hn1&Hn2&Hn3&Hn4&Hn5).
  destruct (loop_made cap a b d v1 v2 v3 v4 v5) as (rs1&c1&E1&L1&K1&M1&T1); [done|done|].
  destruct (looped_fill_all es c1 [a; b; d] 3 a) as (rs2&c2&E2&L2&K2&M2&T2);
    [done|done|set_solver|done|done|lia|lia|lia|].
  destruct (looped_evict c2 (reverse es.*1 ++ [a; b; d]) (3 + zlen es) a k v) as (r&c3&E3&L3&K3&M3&T3).
  { done. } { done. } { apply elem_of_app. right. left. } { done. } { lia. } { lia. }
  intros os. assert (exec_all os (ctor cap) = Ok (rs1 ++ rs2 ++ [r]) c3) as Eos.
  { eapply exec_all_app_Ok; [exact E1|]. eapply exec_all_app_Ok; [exact E2|]. by eapply exec_cons_Ok. }
  split; [by eexists _, _|]. eapply exec_all_snoc_Crash; [exact Eos|].
  eapply looped_crash; [exact L3|done|done|lia].
Qed.
End stale_prev.

Lemma cache_use_after_free_witness :
  exec_all [Insert 1 10; Insert 2 20; Insert 1 11; Insert 3 30; Insert 2 21; Insert 4 40; Insert 5 50]%nat (ctor 3)
    = Crash Undefined_behaviour.
Proof.
  destruct (cache_use_after_free 3 1 2 3 10 20 11 30 21 [] 4 40 5 50)%nat as [_ He]; [lia|unfold INT_MAX; lia|vm_decide|done|exact He].
Defined.

End Cache.
