(* ===== verification/Layout.v ===== *)
(** * On-device layout: the constants of [bfs_common.h] and [bfs_core.h]

    The number of blocks of the cluster is the parameter [NUM_BLOCKS] of every
    definition that depends on the device; the cipher is AES128-GCM with a
    12-byte IV and a 16-byte tag, the tree hash HMAC-SHA256 (32 bytes). *)
From S2P Require Import Prelude.

(** ** Sizes *)
Definition BLK_SZ : Z := 4096.
Definition BLK_SZ_BITS : Z := BLK_SZ * 8.

(** [getIVlen], [getMACsize], [getHMACsize] and [getBlocksize] of the key. *)
Definition BFS_IV_LEN : Z := 12.
Definition BFS_MAC_LEN : Z := 16.
Definition BFS_HMAC_LEN : Z := 32.
Definition BFS_CIPHER_BLK : Z := 16.

(** Number of (IV, MAC) pairs in a metadata block. *)
Definition META_PER_BLK : Z := BLK_SZ / (BFS_IV_LEN + BFS_MAC_LEN).
Definition BLK_META_BLK_LOC (b : Z) : Z := b / META_PER_BLK.
Definition BLK_META_BLK_IDX_LOC (b : Z) : Z := b mod META_PER_BLK.

Definition BFS_SB_MAGIC : Z := 0xABCDABCDABCDABCD.
Definition NUM_INODES : Z := 100000.
Definition SB_REL_START_BLK_NUM : Z := 0.
Definition MT_REL_START_BLK_NUM : Z := SB_REL_START_BLK_NUM + 1.
Definition MAX_FILE_NAME_LEN : Z := 255.
Definition MAX_OPEN_FILES : Z := 1000000.
Definition START_FD : Z := 3.

(** File system states. *)
Definition UNINITIALIZED : Z := 0.
Definition INITIALIZED : Z := 1.
Definition FORMATTING : Z := 2.
Definition FORMATTED : Z := 3.
Definition MOUNTED : Z := 4.
Definition CORRUPTED : Z := 5.

(** ** Reserved inodes and the layout macros of [bfs_core.h] *)
Definition NULL_INO : Z := 0.
Definition ROOT_INO : Z := 2.
Definition IBITMAP_INO : Z := 4.
Definition ITABLE_INO : Z := 6.
Definition JOURNAL_INO : Z := 7.
Definition FIRST_UNRESERVED_INO : Z := 8.

Definition NUM_DIRECT_BLOCKS : Z := 12.
Definition NUM_INODE_IBLKS : Z := NUM_DIRECT_BLOCKS + 1.
Definition SB_SZ : Z := BLK_SZ.
Definition NUM_IBITMAP_BLOCKS : Z := (NUM_INODES - 1) / BLK_SZ_BITS + 1.
Definition INODE_SZ : Z := 256.
Definition NUM_INODES_PER_BLOCK : Z := BLK_SZ / INODE_SZ.
Definition NUM_UNRES_INODES : Z := NUM_INODES - FIRST_UNRESERVED_INO.
Definition NUM_ITAB_BLOCKS : Z := (NUM_INODES - 1) / NUM_INODES_PER_BLOCK + 1.
Definition DIRENT_SZ : Z := MAX_FILE_NAME_LEN + 8.
Definition NUM_DIRENTS_PER_BLOCK : Z := BLK_SZ / DIRENT_SZ.
Definition NUM_BLKS_PER_IB : Z := BLK_SZ / 8.

Definition IBM_REL_START_BLK_NUM : Z := MT_REL_START_BLK_NUM + 1.
Definition ITAB_REL_START_BLK_NUM : Z := IBM_REL_START_BLK_NUM + NUM_IBITMAP_BLOCKS.
Definition METADATA_REL_START_BLK_NUM : Z := ITAB_REL_START_BLK_NUM + NUM_ITAB_BLOCKS.

Definition IBM_ABSOLUTE_BLK_LOC (ino : Z) : Z := IBM_REL_START_BLK_NUM + ino / BLK_SZ_BITS.
Definition ITAB_ABSOLUTE_BLK_LOC (ino : Z) : Z :=
  ITAB_REL_START_BLK_NUM + ino / NUM_INODES_PER_BLOCK.
Definition ITAB_ABSOLUTE_BLK_OFF (ino : Z) : Z := (ino mod NUM_INODES_PER_BLOCK) * INODE_SZ.
Definition DENTRY_ABSOLUTE_BLK_OFF (idx : Z) : Z := idx * DIRENT_SZ.

Section geometry.
Context (NUM_BLOCKS : Z).

Definition NUM_META_BLOCKS : Z := NUM_BLOCKS / META_PER_BLK + 1.
Definition DATA_REL_START_BLK_NUM : Z := METADATA_REL_START_BLK_NUM + NUM_META_BLOCKS.
Definition NUM_DATA_BLOCKS : Z :=
  NUM_BLOCKS - NUM_IBITMAP_BLOCKS - NUM_ITAB_BLOCKS - NUM_META_BLOCKS - 1 - 1.
End geometry.

(** ** File types *)
Definition BFS__S_IFMT : Z := 0xF000.
Definition BFS__S_IFDIR : Z := 0x4000.
Definition BFS__S_IFREG : Z := 0x8000.
Definition BFS__S_ISDIR (mode : Z) : bool := Z.land mode BFS__S_IFMT =? BFS__S_IFDIR.
Definition BFS__S_ISREG (mode : Z) : bool := Z.land mode BFS__S_IFMT =? BFS__S_IFREG.

(** ** Automation: unfold the macros, then compute the constants *)
Create HintDb layout discriminated.
#[export] Hint Unfold BLK_META_BLK_LOC BLK_META_BLK_IDX_LOC IBM_ABSOLUTE_BLK_LOC
  ITAB_ABSOLUTE_BLK_LOC ITAB_ABSOLUTE_BLK_OFF DENTRY_ABSOLUTE_BLK_OFF
  DATA_REL_START_BLK_NUM NUM_DATA_BLOCKS NUM_META_BLOCKS : layout.

Ltac layout_constants :=
  change BLK_SZ with 4096 in *; change BLK_SZ_BITS with 32768 in *;
  change BFS_IV_LEN with 12 in *; change BFS_MAC_LEN with 16 in *;
  change BFS_HMAC_LEN with 32 in *; change META_PER_BLK with 146 in *;
  change NUM_INODES with 100000 in *; change SB_REL_START_BLK_NUM with 0 in *;
  change MT_REL_START_BLK_NUM with 1 in *; change MAX_FILE_NAME_LEN with 255 in *;
  change NUM_IBITMAP_BLOCKS with 4 in *; change INODE_SZ with 256 in *;
  change NUM_INODES_PER_BLOCK with 16 in *; change NUM_ITAB_BLOCKS with 6250 in *;
  change DIRENT_SZ with 263 in *; change NUM_DIRENTS_PER_BLOCK with 15 in *;
  change NUM_BLKS_PER_IB with 512 in *; change IBM_REL_START_BLK_NUM with 2 in *;
  change ITAB_REL_START_BLK_NUM with 6 in *;
  change METADATA_REL_START_BLK_NUM with 6256 in *;
  change NUM_DIRECT_BLOCKS with 12 in *; change NUM_INODE_IBLKS with 13 in *;
  change ROOT_INO with 2 in *; change NULL_INO with 0 in *;
  change FIRST_UNRESERVED_INO with 8 in *; change NUM_UNRES_INODES with 99992 in *;
  change SB_SZ with 4096 in *; change START_FD with 3 in *.

(** Linear arithmetic over the layout constants, with division and modulo. *)
Ltac layout_lia :=
  autounfold with layout in *; layout_constants;
  Z.to_euclidean_division_equations; lia.

(** ** The values the sources compute *)
Lemma layout_values :
  META_PER_BLK = 146 /\ NUM_IBITMAP_BLOCKS = 4 /\ NUM_ITAB_BLOCKS = 6250 /\
  IBM_REL_START_BLK_NUM = 2 /\ ITAB_REL_START_BLK_NUM = 6 /\
  METADATA_REL_START_BLK_NUM = 6256 /\ NUM_DIRENTS_PER_BLOCK = 15 /\
  NUM_BLKS_PER_IB = 512 /\ NUM_INODES_PER_BLOCK = 16.
Proof. done. Qed.

(** The data region is exactly the blocks from [DATA_REL_START_BLK_NUM] to
    the end of the cluster, and the four metadata regions before it are in
    order, each ending where the next starts. *)
Theorem layout_partition (NB : Z) :
  SB_REL_START_BLK_NUM < MT_REL_START_BLK_NUM < IBM_REL_START_BLK_NUM /\
  IBM_REL_START_BLK_NUM + NUM_IBITMAP_BLOCKS = ITAB_REL_START_BLK_NUM /\
  ITAB_REL_START_BLK_NUM + NUM_ITAB_BLOCKS = METADATA_REL_START_BLK_NUM /\
  METADATA_REL_START_BLK_NUM + NUM_META_BLOCKS NB = DATA_REL_START_BLK_NUM NB /\
  DATA_REL_START_BLK_NUM NB + NUM_DATA_BLOCKS NB = NB.
Proof. layout_lia. Qed.

(** The bytes of the inode table an inode number owns. *)
Definition itab_slot (ino : Z) (blk off : Z) : Prop :=
  blk = ITAB_ABSOLUTE_BLK_LOC ino /\
  ITAB_ABSOLUTE_BLK_OFF ino <= off < ITAB_ABSOLUTE_BLK_OFF ino + INODE_SZ.

Lemma itab_loc_range ino :
  0 <= ino < NUM_INODES ->
  ITAB_REL_START_BLK_NUM <= ITAB_ABSOLUTE_BLK_LOC ino < METADATA_REL_START_BLK_NUM /\
  0 <= ITAB_ABSOLUTE_BLK_OFF ino /\ ITAB_ABSOLUTE_BLK_OFF ino + INODE_SZ <= BLK_SZ.
Proof. intros. layout_lia. Qed.

Lemma itab_slot_disjoint i j blk off :
  0 <= i -> 0 <= j -> itab_slot i blk off -> itab_slot j blk off -> i = j.
Proof. unfold itab_slot. intros. layout_lia. Qed.

Lemma itab_same_blk i j :
  0 <= i -> 0 <= j -> i <> j -> ITAB_ABSOLUTE_BLK_LOC i = ITAB_ABSOLUTE_BLK_LOC j ->
  ITAB_ABSOLUTE_BLK_OFF i + INODE_SZ <= ITAB_ABSOLUTE_BLK_OFF j \/
  ITAB_ABSOLUTE_BLK_OFF j + INODE_SZ <= ITAB_ABSOLUTE_BLK_OFF i.
Proof. intros. layout_lia. Qed.

(** The offset, inside its metadata block, of the IV and MAC of block [b]. *)
Definition meta_off (b : Z) : Z := BLK_META_BLK_IDX_LOC b * (BFS_IV_LEN + BFS_MAC_LEN).

Lemma meta_loc_range NB b :
  0 <= b < NB ->
  METADATA_REL_START_BLK_NUM <= METADATA_REL_START_BLK_NUM + BLK_META_BLK_LOC b
    < DATA_REL_START_BLK_NUM NB /\
  0 <= meta_off b /\ meta_off b + (BFS_IV_LEN + BFS_MAC_LEN) <= BLK_SZ.
Proof. intros. unfold meta_off. layout_lia. Qed.

Lemma meta_same_blk i j :
  0 <= i -> 0 <= j -> i <> j -> BLK_META_BLK_LOC i = BLK_META_BLK_LOC j ->
  meta_off i + (BFS_IV_LEN + BFS_MAC_LEN) <= meta_off j \/
  meta_off j + (BFS_IV_LEN + BFS_MAC_LEN) <= meta_off i.
Proof. intros. unfold meta_off. layout_lia. Qed.

Lemma dentry_off_range idx :
  0 <= idx < NUM_DIRENTS_PER_BLOCK ->
  0 <= DENTRY_ABSOLUTE_BLK_OFF idx /\ DENTRY_ABSOLUTE_BLK_OFF idx + DIRENT_SZ <= BLK_SZ.
Proof. intros. layout_lia. Qed.
