(* ===== verification/BfsUtil.v ===== *)
(** * Utility routines of [bfs_util.cpp]: bitmaps, path names, time stamps *)
From S2P Require Import Prelude.
From coqutil Require Import Z.prove_Zeq_bitwise.

(** ** Bitmap operations

    The byte is [nr >> 3], the bit inside it [nr & 7].  An index outside the
    buffer is [None] (the sources do not check it). *)
Definition bfs_set_bit (nr : Z) (addr : bytes) : option bytes :=
  let i := Z.to_nat (Z.shiftr nr 3) in
  let shift := u8 (Z.land nr 7) in
  let mask := u8 (Z.shiftl 1 shift) in
  b ← addr !! i; Some (<[i := z2b (Z.lor (b2z b) mask)]> addr).

Definition bfs_clear_bit (nr : Z) (addr : bytes) : option bytes :=
  let i := Z.to_nat (Z.shiftr nr 3) in
  let shift := u8 (Z.land nr 7) in
  let mask := u8 (Z.shiftl 1 shift) in
  b ← addr !! i; Some (<[i := z2b (Z.land (b2z b) (u8 (Z.lnot mask)))]> addr).

Definition bfs_test_bit (nr : Z) (addr : bytes) : option bool :=
  let i := Z.to_nat (Z.shiftr nr 3) in
  let mask := Z.shiftl 1 (Z.land nr 7) in
  b ← addr !! i; Some (negb (Z.land mask (b2z b) =? 0)).

(** ** C strings and path names *)

(** The bytes up to the terminator: what [strlen] and [std::string(char * )] see. *)
Fixpoint c_str (s : bytes) : bytes :=
  match s with
  | [] => []
  | b :: s => if decide (b = Byte.x00) then [] else b :: c_str s
  end.

Definition slash : byte := Byte.x2f.

(** [strrchr(s, '/')] as an index. *)
Fixpoint strrchr_from (s : bytes) (i : Z) (last : option Z) : option Z :=
  match s with
  | [] => last
  | b :: s => strrchr_from s (i + 1) (if decide (b = slash) then Some i else last)
  end.
Definition strrchr_slash (s : bytes) : option Z := strrchr_from s 0 None.

Definition bfs_strdup (s : bytes) : bytes := c_str s.

Definition bfs_basename (path : bytes) : bytes :=
  match strrchr_slash path with
  | Some p => drop (Z.to_nat (p + 1)) path
  | None => path
  end.

(** The argument is cut in place at its last slash; the root keeps its slash. *)
Definition bfs_dirname (path : bytes) : bytes :=
  match strrchr_slash path with
  | None => [Byte.x2e]
  | Some p =>
      let fname := p + 1 - 1 in
      if fname =? 0 then [slash] else take (Z.to_nat fname) path
  end.

(** ** Time stamps: [struct timeval] as (seconds, microseconds) *)
Definition compareTimes (tm1 tm2 : Z * Z) : Z :=
  if tm2.2 <? tm1.2
  then (tm2.1 - tm1.1 - 1) * 1000000 + ((tm2.2 + 1000000) - tm1.2)
  else (tm2.1 - tm1.1) * 1000000 + (tm2.2 - tm1.2).

(** ** Properties of the bitmap *)

Section bitmap.
Implicit Types (addr : bytes) (nr k : Z).

Lemma mask_testbit k j : 0 <= k < 8 -> 0 <= j -> Z.testbit (u8 (Z.shiftl 1 (u8 k))) j = bool_decide (j = k).
Proof.
  intros Hk Hj. unfold u8. rewrite (Z.mod_small k) by lia.
  rewrite Z.shiftl_1_l, Z.mod_small.
  - rewrite Z.pow2_bits_eqb by lia. case_bool_decide; [apply Z.eqb_eq|apply Z.eqb_neq]; lia.
  - pose proof (Z.pow_lt_mono_r 2 k 8). lia.
Qed.

Lemma test_mask k b : 0 <= k -> negb (Z.land (Z.shiftl 1 k) b =? 0) = Z.testbit b k.
Proof.
  intros Hk. rewrite Z.shiftl_1_l. destruct (Z.testbit b k) eqn:Hb.
  - apply negb_true_iff, Z.eqb_neq. intros H0. apply (f_equal (fun z => Z.testbit z k)) in H0.
    rewrite Z.land_spec, Z.pow2_bits_true, Hb, Z.bits_0 in H0 by lia. done.
  - apply negb_false_iff, Z.eqb_eq, Z.bits_inj'. intros j Hj.
    rewrite Z.land_spec, Z.bits_0, Z.pow2_bits_eqb by lia.
    destruct (Z.eqb_spec k j); subst; rewrite ?Hb; done.
Qed.

Lemma bit_addr_inj nr nr' :
  0 <= nr -> 0 <= nr' ->
  Z.to_nat (Z.shiftr nr 3) = Z.to_nat (Z.shiftr nr' 3) -> Z.land nr 7 = Z.land nr' 7 -> nr = nr'.
Proof.
  rewrite !Z.shiftr_div_pow2 by lia. change 7 with (Z.ones 3).
  rewrite !Z.land_ones by lia. change (2 ^ 3) with 8. intros ?? H1 H2.
  Z.to_euclidean_division_equations. lia.
Qed.

Lemma bit_pos nr : 0 <= Z.land nr 7 < 8.
Proof.
  change 7 with (Z.ones 3). rewrite Z.land_ones by lia.
  apply Z.mod_pos_bound. lia.
Qed.

Lemma byte_or_bits b k j :
  0 <= k < 8 -> 0 <= j < 8 ->
  Z.testbit (b2z (z2b (Z.lor (b2z b) (u8 (Z.shiftl 1 (u8 k)))))) j
  = bool_decide (j = k) || Z.testbit (b2z b) j.
Proof.
  intros. rewrite byte.unsigned_of_Z. unfold byte.wrap.
  rewrite Z.mod_pow2_bits_low, Z.lor_spec, mask_testbit by lia. apply orb_comm.
Qed.

Lemma byte_and_bits b k j :
  0 <= k < 8 -> 0 <= j < 8 ->
  Z.testbit (b2z (z2b (Z.land (b2z b) (u8 (Z.lnot (u8 (Z.shiftl 1 (u8 k)))))))) j
  = negb (bool_decide (j = k)) && Z.testbit (b2z b) j.
Proof.
  intros. rewrite byte.unsigned_of_Z. unfold byte.wrap.
  rewrite Z.mod_pow2_bits_low, Z.land_spec by lia. unfold u8 at 1.
  rewrite Z.mod_pow2_bits_low, Z.lnot_spec, mask_testbit by lia. apply andb_comm.
Qed.

Lemma bfs_test_bit_testbit nr addr :
  bfs_test_bit nr addr =
    b ← addr !! Z.to_nat (Z.shiftr nr 3); Some (Z.testbit (b2z b) (Z.land nr 7)).
Proof.
  unfold bfs_test_bit. destruct (addr !! _); simpl; [|done].
  pose proof (bit_pos nr). by rewrite test_mask by lia.
Qed.

(** Setting a bit sets that bit and no other. *)
Lemma bfs_test_set nr nr' addr addr' :
  0 <= nr -> 0 <= nr' -> bfs_set_bit nr addr = Some addr' ->
  bfs_test_bit nr' addr' = if decide (nr' = nr) then Some true else bfs_test_bit nr' addr.
Proof.
  intros Hn Hn' Hs. unfold bfs_set_bit in Hs.
  destruct (addr !! _) as [b|] eqn:Hb; simplify_eq/=.
  rewrite !bfs_test_bit_testbit. pose proof (bit_pos nr). pose proof (bit_pos nr').
  apply lookup_lt_Some in Hb as Hlt.
  destruct (decide (Z.to_nat (Z.shiftr nr' 3) = Z.to_nat (Z.shiftr nr 3))) as [He|Hne].
  - rewrite He, Hb, list_lookup_insert_eq by lia. simpl. rewrite byte_or_bits by lia.
    case_decide; [subst; by rewrite bool_decide_true|].
    rewrite bool_decide_false; [done|]. intros ?. by apply (bit_addr_inj nr' nr) in He.
  - rewrite list_lookup_insert_ne by done. rewrite decide_False; [done|]. by intros ->.
Qed.

Lemma bfs_test_clear nr nr' addr addr' :
  0 <= nr -> 0 <= nr' -> bfs_clear_bit nr addr = Some addr' ->
  bfs_test_bit nr' addr' = if decide (nr' = nr) then Some false else bfs_test_bit nr' addr.
Proof.
  intros Hn Hn' Hs. unfold bfs_clear_bit in Hs.
  destruct (addr !! _) as [b|] eqn:Hb; simplify_eq/=.
  rewrite !bfs_test_bit_testbit. pose proof (bit_pos nr). pose proof (bit_pos nr').
  apply lookup_lt_Some in Hb as Hlt.
  destruct (decide (Z.to_nat (Z.shiftr nr' 3) = Z.to_nat (Z.shiftr nr 3))) as [He|Hne].
  - rewrite He, Hb, list_lookup_insert_eq by lia. simpl. rewrite byte_and_bits by lia.
    case_decide; [subst; by rewrite bool_decide_true|].
    rewrite bool_decide_false; [done|]. intros ?. by apply (bit_addr_inj nr' nr) in He.
  - rewrite list_lookup_insert_ne by done. rewrite decide_False; [done|]. by intros ->.
Qed.

(** The byte that holds bit [nr] is inside a buffer of enough bytes. *)
Lemma bit_byte_lookup nr addr :
  0 <= nr < 8 * zlen addr -> exists b, addr !! Z.to_nat (Z.shiftr nr 3) = Some b.
Proof.
  intros H. apply lookup_lt_is_Some_2. rewrite Z.shiftr_div_pow2 by lia.
  unfold zlen in H. Z.to_euclidean_division_equations. lia.
Qed.

Lemma bfs_set_bit_is_Some nr addr :
  0 <= nr < 8 * zlen addr -> exists addr', bfs_set_bit nr addr = Some addr' /\ zlen addr' = zlen addr.
Proof.
  intros [b Hb]%bit_byte_lookup. unfold bfs_set_bit, zlen. rewrite Hb. simpl.
  eexists. split; [done|]. by rewrite length_insert.
Qed.

Lemma bfs_clear_bit_is_Some nr addr :
  0 <= nr < 8 * zlen addr -> exists addr', bfs_clear_bit nr addr = Some addr' /\ zlen addr' = zlen addr.
Proof.
  intros [b Hb]%bit_byte_lookup. unfold bfs_clear_bit, zlen. rewrite Hb. simpl.
  eexists. split; [done|]. by rewrite length_insert.
Qed.

Lemma bfs_test_bit_is_Some nr addr :
  0 <= nr < 8 * zlen addr -> exists b, bfs_test_bit nr addr = Some b.
Proof.
  intros [b Hb]%bit_byte_lookup. unfold bfs_test_bit. rewrite Hb. simpl. eauto.
Qed.

(** Set and clear are inverse on a clear bit. *)
Lemma bfs_clear_set nr addr addr' :
  0 <= nr -> bfs_set_bit nr addr = Some addr' -> bfs_test_bit nr addr = Some false ->
  bfs_clear_bit nr addr' = Some addr.
Proof.
  intros Hn Hs Ht. rewrite bfs_test_bit_testbit in Ht. unfold bfs_set_bit in Hs.
  destruct (addr !! _) as [b|] eqn:Hb; simplify_eq/=.
  apply lookup_lt_Some in Hb as Hlt. unfold bfs_clear_bit.
  rewrite list_lookup_insert_eq by lia. simpl. rewrite list_insert_insert_eq.
  f_equal. apply list_insert_id. rewrite Hb. f_equal. apply b2z_inj.
  pose proof (bit_pos nr).
  apply Z.bits_inj'. intros j Hj. destruct (decide (j < 8)).
  - rewrite byte_and_bits, byte_or_bits by lia. case_bool_decide; subst; simpl; done.
  - pose proof (byte.unsigned_range b). pose proof (byte.unsigned_range
      (z2b (Z.land (b2z (z2b (Z.lor (b2z b) (u8 (Z.shiftl 1 (u8 (Z.land nr 7)))))))
              (u8 (Z.lnot (u8 (Z.shiftl 1 (u8 (Z.land nr 7)))))))))  as Hr.
    rewrite !(testbit_above (p := 8)); try lia; done.
Qed.
End bitmap.

(** ** Properties of path names *)

Section paths.
Implicit Types (p d base : bytes).

Lemma strrchr_from_app s1 s2 i last :
  strrchr_from (s1 ++ s2) i last = strrchr_from s2 (i + zlen s1) (strrchr_from s1 i last).
Proof.
  revert i last. induction s1 as [|b s1 IH]; intros i last; simpl.
  - by rewrite zlen_nil, Z.add_0_r.
  - rewrite IH. f_equal. unfold zlen. simpl. lia.
Qed.

Lemma strrchr_from_none s i last : slash ∉ s -> strrchr_from s i last = last.
Proof.
  revert i last. induction s as [|b s IH]; intros i last Hn; simpl; [done|].
  apply not_elem_of_cons in Hn as [Hb Hs]. rewrite IH by done. by rewrite decide_False.
Qed.

(** A path is its directory, a slash and its last component. *)
Lemma strrchr_slash_split d base :
  slash ∉ base -> strrchr_slash (d ++ slash :: base) = Some (zlen d).
Proof.
  intros Hb. unfold strrchr_slash. rewrite strrchr_from_app. simpl.
  by rewrite strrchr_from_none.
Qed.

Lemma bfs_basename_split d base :
  slash ∉ base -> bfs_basename (d ++ slash :: base) = base.
Proof.
  intros Hb. unfold bfs_basename. rewrite strrchr_slash_split by done.
  rewrite drop_app_ge by (unfold zlen; lia).
  replace (Z.to_nat (zlen d + 1) - length d)%nat with 1%nat by (unfold zlen; lia). done.
Qed.

Lemma bfs_dirname_split d base :
  slash ∉ base ->
  bfs_dirname (d ++ slash :: base) = if decide (d = []) then [slash] else d.
Proof.
  intros Hb. unfold bfs_dirname. rewrite strrchr_slash_split by done.
  rewrite Z.add_simpl_r. destruct d as [|b d]; [done|].
  rewrite decide_False by done.
  destruct (Z.eqb_spec (zlen (b :: d)) 0) as [H|_]; [unfold zlen in H; simpl in H; lia|].
  unfold zlen. rewrite Nat2Z.id. apply take_app_length.
Qed.

(** A string without a terminator inside is copied whole. *)
Lemma c_str_id s : Byte.x00 ∉ s -> c_str s = s.
Proof.
  induction s as [|b s IH]; intros Hn; [done|]. apply not_elem_of_cons in Hn as [Hb Hs].
  cbn [c_str]. by rewrite decide_False, IH by done.
Qed.

Lemma compareTimes_spec s1 us1 s2 us2 :
  compareTimes (s1, us1) (s2, us2) = (s2 * 1000000 + us2) - (s1 * 1000000 + us1).
Proof. unfold compareTimes. simpl. destruct (us2 <? us1); lia. Qed.
End paths.
