(* ===== verification/CoreTypes.v ===== *)
(** * On-device structures of [bfs_core.cpp]

    [SuperBlock], [IBitMap], [Inode], [DirEntry], [IndirectBlock] and
    [OpenFile]: their fields, setters and [serialize]/[deserialize] methods.
    A block buffer is the byte list of a [VBfsBlock]; an access outside it is a
    crash, an [assert] that fails is a crash. *)
From S2P Require Import Prelude Layout BfsUtil.

(** ** SuperBlock *)
Module SuperBlock.

Record t := mk {
  magic : Z;
  blk_sz : Z;
  ino_sz : Z;
  no_blocks : Z;
  no_dblocks : Z;
  no_inodes : Z;
  no_dblocks_free : Z;
  no_inodes_free : Z;
  first_data_blk_loc : Z;
  next_vbid : Z;
  root_ino : Z;
  ibm_ino : Z;
  itab_ino : Z;
  journal_ino : Z;
  first_unresv_ino : Z;
  state : Z;
  dirty : bool
}.

#[export] Instance t_eq_dec : EqDecision t.
Proof. solve_decision. Defined.

(** The constructor leaves [no_dblocks] uninitialised: the value is an argument. *)
Definition ctor (uninit : Z) : t := {|
  magic := 0; blk_sz := 0; ino_sz := 0; no_blocks := 0; no_dblocks := uninit;
  no_inodes := 0; no_dblocks_free := 0; no_inodes_free := 0; first_data_blk_loc := 0;
  next_vbid := 0; root_ino := 0; ibm_ino := 0; itab_ino := 0; journal_ino := 0;
  first_unresv_ino := 0; state := 0; dirty := true |}.

Definition set_magic (m : Z) (s : t) : t := {|
  magic := m; blk_sz := blk_sz s; ino_sz := ino_sz s; no_blocks := no_blocks s;
  no_dblocks := no_dblocks s; no_inodes := no_inodes s;
  no_dblocks_free := no_dblocks_free s; no_inodes_free := no_inodes_free s;
  first_data_blk_loc := first_data_blk_loc s; next_vbid := next_vbid s;
  root_ino := root_ino s; ibm_ino := ibm_ino s; itab_ino := itab_ino s;
  journal_ino := journal_ino s; first_unresv_ino := first_unresv_ino s;
  state := state s; dirty := true |}.

(** [a] and [b] are [uint32_t] parameters stored into 64-bit fields. *)
Definition set_sb_params (a b c d e i j k : Z) (s : t) : t := {|
  magic := magic s; blk_sz := u32 a; ino_sz := u32 b; no_blocks := c;
  no_dblocks := d; no_inodes := e; no_dblocks_free := i; no_inodes_free := j;
  first_data_blk_loc := k; next_vbid := k;
  root_ino := root_ino s; ibm_ino := ibm_ino s; itab_ino := itab_ino s;
  journal_ino := journal_ino s; first_unresv_ino := first_unresv_ino s;
  state := state s; dirty := true |}.

(** The block and inode counters, which the allocators update. *)
Definition set_counters (dfree ifree nvbid : Z) (d : bool) (s : t) : t := {|
  magic := magic s; blk_sz := blk_sz s; ino_sz := ino_sz s; no_blocks := no_blocks s;
  no_dblocks := no_dblocks s; no_inodes := no_inodes s;
  no_dblocks_free := dfree; no_inodes_free := ifree;
  first_data_blk_loc := first_data_blk_loc s; next_vbid := nvbid;
  root_ino := root_ino s; ibm_ino := ibm_ino s; itab_ino := itab_ino s;
  journal_ino := journal_ino s; first_unresv_ino := first_unresv_ino s;
  state := state s; dirty := d |}.

Definition set_no_inodes_free (f : Z) (s : t) : t :=
  set_counters (no_dblocks_free s) f (next_vbid s) true s.

Definition set_reserved_inos (a c d e f : Z) (s : t) : t := {|
  magic := magic s; blk_sz := blk_sz s; ino_sz := ino_sz s; no_blocks := no_blocks s;
  no_dblocks := no_dblocks s; no_inodes := no_inodes s;
  no_dblocks_free := no_dblocks_free s; no_inodes_free := no_inodes_free s;
  first_data_blk_loc := first_data_blk_loc s; next_vbid := next_vbid s;
  root_ino := a; ibm_ino := c; itab_ino := d; journal_ino := e; first_unresv_ino := f;
  state := state s; dirty := true |}.

Definition set_state (x : Z) (s : t) : t := {|
  magic := magic s; blk_sz := blk_sz s; ino_sz := ino_sz s; no_blocks := no_blocks s;
  no_dblocks := no_dblocks s; no_inodes := no_inodes s;
  no_dblocks_free := no_dblocks_free s; no_inodes_free := no_inodes_free s;
  first_data_blk_loc := first_data_blk_loc s; next_vbid := next_vbid s;
  root_ino := root_ino s; ibm_ino := ibm_ino s; itab_ino := itab_ino s;
  journal_ino := journal_ino s; first_unresv_ino := first_unresv_ino s;
  state := u32 x; dirty := true |}.

Definition set_dirty (d : bool) (s : t) : t :=
  set_counters (no_dblocks_free s) (no_inodes_free s) (next_vbid s) d s.

(** Field by field, in the order of the source. *)
Definition serialize (s : t) (b : bytes) (off_start : Z) : option (bytes * Z) :=
  c ← put_le 8 (magic s) (b, off_start);
  c ← put_le 8 (blk_sz s) c;
  c ← put_le 8 (ino_sz s) c;
  c ← put_le 8 (no_blocks s) c;
  c ← put_le 8 (no_dblocks s) c;
  c ← put_le 8 (no_inodes s) c;
  c ← put_le 8 (no_dblocks_free s) c;
  c ← put_le 8 (no_inodes_free s) c;
  c ← put_le 8 (first_data_blk_loc s) c;
  c ← put_le 8 (next_vbid s) c;
  c ← put_le 8 (root_ino s) c;
  c ← put_le 8 (ibm_ino s) c;
  c ← put_le 8 (itab_ino s) c;
  c ← put_le 8 (journal_ino s) c;
  c ← put_le 8 (first_unresv_ino s) c;
  c ← put_le 8 (state s) c;
  Some (c.1, c.2 - off_start).

Definition deserialize (b : bytes) (off_start : Z) : option (t * Z) :=
  '(magic, off) ← get_le 8 b off_start;
  '(blk_sz, off) ← get_le 8 b off;
  '(ino_sz, off) ← get_le 8 b off;
  '(no_blocks, off) ← get_le 8 b off;
  '(no_dblocks, off) ← get_le 8 b off;
  '(no_inodes, off) ← get_le 8 b off;
  '(no_dblocks_free, off) ← get_le 8 b off;
  '(no_inodes_free, off) ← get_le 8 b off;
  '(first_data_blk_loc, off) ← get_le 8 b off;
  '(next_vbid, off) ← get_le 8 b off;
  '(root_ino, off) ← get_le 8 b off;
  '(ibm_ino, off) ← get_le 8 b off;
  '(itab_ino, off) ← get_le 8 b off;
  '(journal_ino, off) ← get_le 8 b off;
  '(first_unresv_ino, off) ← get_le 8 b off;
  '(state, off) ← get_le 8 b off;
  Some (mk magic blk_sz ino_sz no_blocks no_dblocks no_inodes no_dblocks_free
          no_inodes_free first_data_blk_loc next_vbid root_ino ibm_ino itab_ino
          journal_ino first_unresv_ino state false,
        off - off_start).

(** The counter returned is the old [next_vbid]; [None] is the returned 0. *)
Definition alloc_blk (s : t) : Z * t :=
  if no_dblocks_free s =? 0 then (0, s)
  else (next_vbid s,
        set_counters (u64 (no_dblocks_free s - 1)) (no_inodes_free s)
          (u64 (next_vbid s + 1)) (dirty s) s).

(** [bfsBlockLayer::deallocBlock] does nothing and succeeds; the result is
    whether [BFS_SUCCESS] is returned. *)
Definition dealloc_blk (NUM_BLOCKS : Z) (b : Z) (s : t) : bool * t :=
  if (b <=? DATA_REL_START_BLK_NUM NUM_BLOCKS) || (no_dblocks_free s =? no_dblocks s)
  then (false, s)
  else (true, set_counters (u64 (no_dblocks_free s + 1)) (no_inodes_free s)
                (next_vbid s) (dirty s) s).

(** The fields in their on-device order. *)
Definition fields (s : t) : list (nat * Z) :=
  (fun v => (8%nat, v)) <$>
  [magic s; blk_sz s; ino_sz s; no_blocks s; no_dblocks s; no_inodes s;
   no_dblocks_free s; no_inodes_free s; first_data_blk_loc s; next_vbid s;
   root_ino s; ibm_ino s; itab_ino s; journal_ino s; first_unresv_ino s; state s].

(** Every field fits its C type. *)
Definition wf (s : t) : Prop := Forall (fun f => fits f.1 f.2) (fields s).

#[export] Instance wf_dec s : Decision (wf s).
Proof. unfold wf. apply _. Defined.

Lemma sb_serialize_fields s b off :
  serialize s b off = c ← put_fields (fields s) (b, off); Some (c.1, c.2 - off).
Proof.
  unfold serialize, fields. simpl.
  do 16 (destruct (put_le _ _ _); simpl; [|done]). done.
Qed.

Lemma sb_fields_zlen s : zlen (encode_fields (fields s)) = 128.
Proof. done. Qed.

Lemma sb_serialize_mem_set s b off :
  0 <= off <= zlen b ->
  serialize s b off =
    b' ← mem_set off (encode_fields (fields s)) b; Some (b', 128).
Proof.
  intros. rewrite sb_serialize_fields, put_fields_spec by done. unfold put_raw. simpl.
  destruct (mem_set _ _ _); simpl; [|done]. rewrite sb_fields_zlen. do 2 f_equal. lia.
Qed.

Lemma sb_deserialize_get_fields b off0 :
  deserialize b off0 =
    '(vs, off) ← get_fields (replicate 16 8%nat) b off0;
    match vs with
    | [v0; v1; v2; v3; v4; v5; v6; v7; v8; v9; v10; v11; v12; v13; v14; v15] =>
        Some (mk v0 v1 v2 v3 v4 v5 v6 v7 v8 v9 v10 v11 v12 v13 v14 v15 false, off - off0)
    | _ => None
    end.
Proof.
  unfold deserialize. cbn [replicate get_fields].
  do 16 (destruct (get_le _ _ _) as [[? ?]|]; cbn [mbind option_bind]; [|done]). done.
Qed.

Lemma sb_deserialize_fields s b off :
  wf s -> mem_get off 128 b = Some (encode_fields (fields s)) ->
  deserialize b off = Some (set_dirty false s, 128).
Proof.
  intros Hwf H. rewrite sb_deserialize_get_fields.
  change (replicate 16 8%nat) with (fields s).*1.
  rewrite (get_fields_spec _ _ _ _ H Hwf), sb_fields_zlen.
  cbn [fields fmap list_fmap snd mbind option_bind].
  rewrite Z.add_simpl_l. by destruct s.
Qed.

Lemma sb_serialize_is_Some s b off :
  0 <= off -> off + 128 <= zlen b ->
  exists b', serialize s b off = Some (b', 128) /\ zlen b' = zlen b /\
    mem_get off 128 b' = Some (encode_fields (fields s)).
Proof.
  intros. rewrite sb_serialize_mem_set by lia.
  destruct (mem_set_is_Some off (encode_fields (fields s)) b) as [b' Hb'];
    [lia|rewrite sb_fields_zlen; lia|].
  exists b'. rewrite Hb'. split_and!; [done|eauto with bfs|].
  rewrite <-(sb_fields_zlen s). by eapply mem_get_set_eq.
Qed.

(** Writing the superblock into a block and reading it back at the same offset
    gives every field, the dirty flag reset, and touches no other byte. *)
Theorem superblock_roundtrip s b off :
  wf s -> 0 <= off -> off + 128 <= zlen b ->
  exists b', serialize s b off = Some (b', 128) /\
    deserialize b' off = Some (set_dirty false s, 128) /\
    forall i, Z.of_nat i < off \/ off + 128 <= Z.of_nat i -> b' !! i = b !! i.
Proof.
  intros Hwf ??. destruct (sb_serialize_is_Some s b off) as (b' & Hs & _ & Hg); [lia..|].
  exists b'. split_and!; [done|by apply sb_deserialize_fields|]. intros i Hi.
  rewrite sb_serialize_mem_set in Hs by lia.
  destruct (mem_set _ _ _) as [b''|] eqn:Hm; simplify_eq/=.
  rewrite (mem_set_lookup _ _ _ _ i Hm), sb_fields_zlen, decide_False by lia. done.
Qed.

End SuperBlock.

(** ** IBitMap: the in-memory bitmap blocks *)
Module IBitMap.

Definition t := list bytes.

Definition append_ibm_blk (b : bytes) (m : t) : t := m ++ [b].

(** [ibm_blks[b / BLK_SZ_BITS]] is unchecked: outside the vector is undefined. *)
Definition set_bit (b : Z) (m : t) : option t :=
  blk ← m !! Z.to_nat (b / BLK_SZ_BITS);
  blk' ← bfs_set_bit (b mod BLK_SZ_BITS) blk;
  Some (<[Z.to_nat (b / BLK_SZ_BITS) := blk']> m).

Definition clear_bit (b : Z) (m : t) : option t :=
  blk ← m !! Z.to_nat (b / BLK_SZ_BITS);
  blk' ← bfs_clear_bit (b mod BLK_SZ_BITS) blk;
  Some (<[Z.to_nat (b / BLK_SZ_BITS) := blk']> m).

End IBitMap.

(** ** Inode *)
Module Inode.

Record t := mk {
  i_no : Z;
  uid : Z;
  mode : Z;
  ref_cnt : Z;
  atime : Z;
  mtime : Z;
  ctime : Z;
  size : Z;
  i_links_count : Z;
  i_blks : list Z;
  dirty : bool
}.

#[export] Instance t_eq_dec : EqDecision t.
Proof. solve_decision. Defined.

Definition zero_blks : list Z := replicate (Z.to_nat NUM_INODE_IBLKS) 0.

Definition ctor (_i_no _uid _mode _ref_cnt _atime _mtime _ctime _size _links : Z) : t :=
  mk _i_no _uid _mode _ref_cnt _atime _mtime _ctime _size _links zero_blks true.

Definition default : t := ctor 0 0 0 0 0 0 0 0 0.

(** [clear] keeps [uid] and [dirty]. *)
Definition clear (i : t) : t := mk 0 (uid i) 0 0 0 0 0 0 0 zero_blks (dirty i).

Definition set_i_no x i :=
  mk x (uid i) (mode i) (ref_cnt i) (atime i) (mtime i) (ctime i) (size i)
    (i_links_count i) (i_blks i) true.
Definition set_uid x i :=
  mk (i_no i) x (mode i) (ref_cnt i) (atime i) (mtime i) (ctime i) (size i)
    (i_links_count i) (i_blks i) true.
Definition set_mode x i :=
  mk (i_no i) (uid i) x (ref_cnt i) (atime i) (mtime i) (ctime i) (size i)
    (i_links_count i) (i_blks i) true.
Definition set_ref_cnt x i :=
  mk (i_no i) (uid i) (mode i) x (atime i) (mtime i) (ctime i) (size i)
    (i_links_count i) (i_blks i) true.
Definition set_atime x i :=
  mk (i_no i) (uid i) (mode i) (ref_cnt i) x (mtime i) (ctime i) (size i)
    (i_links_count i) (i_blks i) true.
Definition set_mtime x i :=
  mk (i_no i) (uid i) (mode i) (ref_cnt i) (atime i) x (ctime i) (size i)
    (i_links_count i) (i_blks i) true.
Definition set_ctime x i :=
  mk (i_no i) (uid i) (mode i) (ref_cnt i) (atime i) (mtime i) x (size i)
    (i_links_count i) (i_blks i) true.
Definition set_size x i :=
  mk (i_no i) (uid i) (mode i) (ref_cnt i) (atime i) (mtime i) (ctime i) x
    (i_links_count i) (i_blks i) true.
Definition set_i_links x i :=
  mk (i_no i) (uid i) (mode i) (ref_cnt i) (atime i) (mtime i) (ctime i) (size i)
    x (i_blks i) true.
Definition set_dirty x i :=
  mk (i_no i) (uid i) (mode i) (ref_cnt i) (atime i) (mtime i) (ctime i) (size i)
    (i_links_count i) (i_blks i) x.

(** [i_blks.at(idx) = vbid]; [None] is the [std::out_of_range] it throws. *)
Definition set_i_blk (idx vbid : Z) (i : t) : option t :=
  if decide (0 <= idx < zlen (i_blks i)) then
    Some (mk (i_no i) (uid i) (mode i) (ref_cnt i) (atime i) (mtime i) (ctime i)
            (size i) (i_links_count i) (<[Z.to_nat idx := vbid]> (i_blks i)) true)
  else None.

(** [None]: a failing [assert] or a copy outside the block. *)
Definition serialize (i : t) (b : bytes) (off_start : Z) : option (bytes * Z) :=
  c ← put_le 8 (i_no i) (b, off_start);
  c ← put_le 4 (uid i) c;
  c ← put_le 4 (mode i) c;
  c ← put_le 8 (ref_cnt i) c;
  c ← put_le 8 (atime i) c;
  c ← put_le 8 (mtime i) c;
  c ← put_le 8 (ctime i) c;
  c ← put_le 8 (size i) c;
  c ← put_le 8 (i_links_count i) c;
  if bool_decide (zlen (i_blks i) = NUM_INODE_IBLKS) then
    c ← put_fields (pair 8%nat <$> take (Z.to_nat NUM_DIRECT_BLOCKS) (i_blks i)) c;
    last ← i_blks i !! Z.to_nat NUM_DIRECT_BLOCKS;
    c ← put_le 8 last c;
    Some (c.1, c.2 - off_start)
  else None.

Definition deserialize (b : bytes) (off_start : Z) : option (t * Z) :=
  '(i_no, off) ← get_le 8 b off_start;
  '(uid, off) ← get_le 4 b off;
  '(mode, off) ← get_le 4 b off;
  '(ref_cnt, off) ← get_le 8 b off;
  '(atime, off) ← get_le 8 b off;
  '(mtime, off) ← get_le 8 b off;
  '(ctime, off) ← get_le 8 b off;
  '(size, off) ← get_le 8 b off;
  '(i_links_count, off) ← get_le 8 b off;
  '(blks, off) ← get_fields (replicate (Z.to_nat NUM_DIRECT_BLOCKS) 8%nat) b off;
  '(vbid, off) ← get_le 8 b off;
  let i_blks := blks ++ [vbid] in
  if bool_decide (zlen i_blks = NUM_INODE_IBLKS) then
    Some (mk i_no uid mode ref_cnt atime mtime ctime size i_links_count i_blks false,
          off - off_start)
  else None.

(** The fields in their on-device order. *)
Definition fields (i : t) : list (nat * Z) :=
  [(8%nat, i_no i); (4%nat, uid i); (4%nat, mode i); (8%nat, ref_cnt i);
   (8%nat, atime i); (8%nat, mtime i); (8%nat, ctime i); (8%nat, size i);
   (8%nat, i_links_count i)] ++ (pair 8%nat <$> i_blks i).

(** An inode in memory: every field fits its C type and there are
    [NUM_INODE_IBLKS] block ids. *)
Definition wf (i : t) : Prop :=
  zlen (i_blks i) = NUM_INODE_IBLKS /\ Forall (fun f => fits f.1 f.2) (fields i).

#[export] Instance wf_dec i : Decision (wf i).
Proof. unfold wf. apply _. Defined.

(** The thirteen block ids, one by one. *)
Lemma blks_13 (l : list Z) :
  zlen l = NUM_INODE_IBLKS ->
  exists b0 b1 b2 b3 b4 b5 b6 b7 b8 b9 b10 b11 b12,
    l = [b0; b1; b2; b3; b4; b5; b6; b7; b8; b9; b10; b11; b12].
Proof.
  intros H. unfold zlen in H. change NUM_INODE_IBLKS with 13 in H.
  do 13 (destruct l as [|? l]; [simpl in H; lia|]).
  destruct l; [|simpl in H; lia]. by repeat eexists.
Qed.

Lemma inode_fields_zlen i : zlen (i_blks i) = NUM_INODE_IBLKS -> zlen (encode_fields (fields i)) = 168.
Proof.
  intros H. destruct (blks_13 _ H) as (?&?&?&?&?&?&?&?&?&?&?&?&?&Hb).
  unfold fields. rewrite Hb. done.
Qed.

Lemma inode_serialize_fields i b off :
  zlen (i_blks i) = NUM_INODE_IBLKS ->
  serialize i b off = c ← put_fields (fields i) (b, off); Some (c.1, c.2 - off).
Proof.
  intros H. unfold serialize, fields. rewrite bool_decide_true by done.
  destruct (blks_13 _ H) as (?&?&?&?&?&?&?&?&?&?&?&?&?&->).
  change (Z.to_nat NUM_DIRECT_BLOCKS) with 12%nat.
  cbn [take fmap list_fmap app lookup list_lookup put_fields].
  do 9 (destruct (put_le _ _ _); cbn [mbind option_bind]; [|done]).
  do 13 (destruct (put_le _ _ _); cbn [mbind option_bind]; [|done]). done.
Qed.

Lemma inode_serialize_mem_set i b off :
  zlen (i_blks i) = NUM_INODE_IBLKS -> 0 <= off <= zlen b ->
  serialize i b off = b' ← mem_set off (encode_fields (fields i)) b; Some (b', 168).
Proof.
  intros H ?. rewrite inode_serialize_fields, put_fields_spec by done. unfold put_raw. simpl.
  destruct (mem_set _ _ _); simpl; [|done]. rewrite inode_fields_zlen by done. do 2 f_equal. lia.
Qed.

Lemma inode_deserialize_get_fields b off0 :
  deserialize b off0 =
    '(vs, off) ← get_fields ([8; 4; 4; 8; 8; 8; 8; 8; 8] ++ replicate 13 8)%nat b off0;
    match vs with
    | v0 :: v1 :: v2 :: v3 :: v4 :: v5 :: v6 :: v7 :: v8 :: blks =>
        Some (mk v0 v1 v2 v3 v4 v5 v6 v7 v8 blks false, off - off0)
    | _ => None
    end.
Proof.
  unfold deserialize. change (Z.to_nat NUM_DIRECT_BLOCKS) with 12%nat.
  cbn [replicate get_fields app].
  do 9 (destruct (get_le _ _ _) as [[? ?]|]; cbn [mbind option_bind]; [|done]).
  do 13 (destruct (get_le _ _ _) as [[? ?]|]; cbn [mbind option_bind]; [|done]). done.
Qed.

Lemma inode_deserialize_fields i b off :
  wf i -> mem_get off 168 b = Some (encode_fields (fields i)) ->
  deserialize b off = Some (set_dirty false i, 168).
Proof.
  intros [Hl Hwf] H. rewrite inode_deserialize_get_fields.
  replace ([8; 4; 4; 8; 8; 8; 8; 8; 8] ++ replicate 13 8)%nat with (fields i).*1.
  2:{ unfold fields. by destruct (blks_13 _ Hl) as (?&?&?&?&?&?&?&?&?&?&?&?&?&->). }
  rewrite (get_fields_spec _ _ _ _ H Hwf), inode_fields_zlen by done.
  cbn [fields fmap list_fmap snd app mbind option_bind].
  rewrite Z.add_simpl_l, <-list_fmap_compose. unfold compose. simpl.
  rewrite list_fmap_id. by destruct i.
Qed.

Lemma inode_serialize_is_Some i b off :
  wf i -> 0 <= off -> off + 168 <= zlen b ->
  exists b', serialize i b off = Some (b', 168) /\
    mem_set off (encode_fields (fields i)) b = Some b' /\ zlen b' = zlen b /\
    mem_get off 168 b' = Some (encode_fields (fields i)).
Proof.
  intros [Hl _] ??. rewrite inode_serialize_mem_set by (done || lia).
  destruct (mem_set_is_Some off (encode_fields (fields i)) b) as [b' Hb'];
    [lia|rewrite inode_fields_zlen by done; lia|].
  exists b'. rewrite Hb'. split_and!; [done|done|eauto with bfs|].
  rewrite <-(inode_fields_zlen i) by done. by eapply mem_get_set_eq.
Qed.

(** An inode written into a table block is read back whole, and the inodes in
    the block's other slots keep their bytes. *)
Theorem inode_roundtrip i b off :
  wf i -> 0 <= off -> off + 168 <= zlen b ->
  exists b', serialize i b off = Some (b', 168) /\
    deserialize b' off = Some (set_dirty false i, 168) /\
    forall off', 0 <= off' -> off' + 168 <= off \/ off + 168 <= off' ->
      deserialize b' off' = deserialize b off'.
Proof.
  intros Hwf ??. destruct (inode_serialize_is_Some i b off) as (b' & Hs & Hm & Hz & Hg); [done|lia..|].
  exists b'. split_and!; [done|by apply inode_deserialize_fields|].
  intros off' ? Hd. rewrite !inode_deserialize_get_fields.
  rewrite (get_fields_ext _ b' b); [done|done|].
  intros j Hj. destruct Hwf. cbn in Hj.
  rewrite (mem_set_lookup _ _ _ _ j Hm), inode_fields_zlen, decide_False by (done || lia). done.
Qed.

End Inode.

(** ** DirEntry *)
Module DirEntry.

Record t := mk {
  de_name : bytes;
  ino : Z;
  blk_loc : Z;
  blk_idx_loc : Z;
  e_mode : Z;
  e_size : Z;
  atime : Z;
  mtime : Z;
  ctime : Z;
  dirty : bool
}.

#[export] Instance t_eq_dec : EqDecision t.
Proof. solve_decision. Defined.

Definition ctor (n : bytes) (i b_loc idx m s at_ mt ct : Z) : t :=
  mk n i b_loc idx m s at_ mt ct true.

(** The defaults of the declaration: [UINT64_MAX] for the two locations. *)
Definition default : t := ctor [] 0 (2 ^ 64 - 1) (2 ^ 64 - 1) 0 0 0 0 0.

Definition set_de_name x d :=
  mk x (ino d) (blk_loc d) (blk_idx_loc d) (e_mode d) (e_size d) (atime d) (mtime d) (ctime d) true.
Definition set_ino x d :=
  mk (de_name d) x (blk_loc d) (blk_idx_loc d) (e_mode d) (e_size d) (atime d) (mtime d) (ctime d) true.
Definition set_blk_loc x d :=
  mk (de_name d) (ino d) x (blk_idx_loc d) (e_mode d) (e_size d) (atime d) (mtime d) (ctime d) true.
Definition set_blk_idx_loc x d :=
  mk (de_name d) (ino d) (blk_loc d) x (e_mode d) (e_size d) (atime d) (mtime d) (ctime d) true.

(** The inode number, the name, and NUL bytes up to [DIRENT_SZ].  [None]: a
    failing [assert] or a copy outside the block. *)
Definition serialize (d : t) (b : bytes) (off_start : Z) : option (bytes * Z) :=
  c ← put_le 8 (ino d) (b, off_start);
  if bool_decide (zlen (de_name d) + 1 <= MAX_FILE_NAME_LEN) &&
     bool_decide (8 + zlen (de_name d) + 1 <= DIRENT_SZ) then
    c ← put_raw (de_name d) c;
    c ← put_raw (zeros (DIRENT_SZ - (c.2 - off_start))) c;
    Some (c.1, c.2 - off_start)
  else None.

(** [std::string(p)] reads up to the first NUL of the 255-byte array [p]; with
    no NUL in it the read leaves the array.  The locations are kept. *)
Definition deserialize (self : t) (b : bytes) (off_start : Z) : option (t * Z) :=
  '(ino, off) ← get_le 8 b off_start;
  p ← mem_get off MAX_FILE_NAME_LEN b;
  if bool_decide (Byte.x00 ∈ p) then
    Some (mk (c_str p) ino (blk_loc self) (blk_idx_loc self) (e_mode self) (e_size self)
            (atime self) (mtime self) (ctime self) false,
          off + MAX_FILE_NAME_LEN - off_start)
  else None.

(** A name the on-device format holds. *)
Definition name_ok (n : bytes) : Prop := (Byte.x00 ∉ n) /\ zlen n + 1 <= MAX_FILE_NAME_LEN.

Definition wf (d : t) : Prop := fits 8 (ino d) /\ name_ok (de_name d).

#[export] Instance wf_dec d : Decision (wf d).
Proof. unfold wf, name_ok. apply _. Defined.

(** The bytes of an entry. *)
Definition encode (d : t) : bytes :=
  le_split 8 (ino d) ++ de_name d ++ zeros (DIRENT_SZ - 8 - zlen (de_name d)).

Lemma de_encode_zlen d : wf d -> zlen (encode d) = DIRENT_SZ.
Proof.
  intros [_ [_ ?]]. unfold encode. rewrite !zlen_app, zlen_le_split, zlen_zeros; layout_lia.
Qed.

Lemma de_serialize_mem_set d b off :
  wf d -> 0 <= off -> off + DIRENT_SZ <= zlen b ->
  exists b', serialize d b off = Some (b', DIRENT_SZ) /\ mem_set off (encode d) b = Some b'.
Proof.
  intros [Hi [Hz Hn]] Ho Hb. pose proof (zlen_nonneg (de_name d)) as Hp.
  assert (zlen (zeros (DIRENT_SZ - 8 - zlen (de_name d))) = DIRENT_SZ - 8 - zlen (de_name d))
    as Hpad by (apply zlen_zeros; layout_lia).
  assert (DIRENT_SZ = 263) as HD by done. assert (MAX_FILE_NAME_LEN = 255) as HM by done.
  destruct (mem_set_is_Some off (le_split 8 (ino d)) b) as [b1 H1]; [lia|rewrite zlen_le_split; lia|].
  pose proof (mem_set_zlen _ _ _ _ H1).
  destruct (mem_set_is_Some (off + 8) (de_name d) b1) as [b2 H2]; [lia..|].
  pose proof (mem_set_zlen _ _ _ _ H2).
  destruct (mem_set_is_Some (off + 8 + zlen (de_name d))
              (zeros (DIRENT_SZ - 8 - zlen (de_name d))) b2) as [b3 H3]; [lia..|].
  exists b3. split.
  - unfold serialize, put_le, put_raw. cbn [fst snd]. rewrite H1. cbn [mbind option_bind fst snd].
    rewrite !bool_decide_true by lia. cbn [andb]. change (Z.of_nat 8) with 8. rewrite H2.
    cbn [mbind option_bind fst snd].
    replace (DIRENT_SZ - (off + 8 + zlen (de_name d) - off))
      with (DIRENT_SZ - 8 - zlen (de_name d)) by lia.
    rewrite H3. cbn [mbind option_bind fst snd]. rewrite Hpad. do 2 f_equal. lia.
  - unfold encode. rewrite <-(mem_set_app _ _ _ _ _ H1), zlen_le_split.
    change (Z.of_nat 8) with 8. by rewrite <-(mem_set_app _ _ _ _ _ H2).
Qed.

Lemma c_str_app s r : Byte.x00 ∉ s -> c_str (s ++ Byte.x00 :: r) = s.
Proof.
  induction s as [|x s IH]; intros Hn; simpl; [done|].
  apply not_elem_of_cons in Hn as [? ?]. rewrite decide_False by done. f_equal. auto.
Qed.

Lemma deserialize_encode self d b off :
  wf d -> mem_get off DIRENT_SZ b = Some (encode d) ->
  deserialize self b off =
    Some (mk (de_name d) (ino d) (blk_loc self) (blk_idx_loc self) (e_mode self) (e_size self)
            (atime self) (mtime self) (ctime self) false, DIRENT_SZ).
Proof.
  intros [Hi [Hz Hn]] H. unfold deserialize.
  destruct (get_le_step _ _ _ _ _ _ H Hi) as [-> Hr]. cbn [mbind option_bind].
  pose proof (zlen_nonneg (de_name d)) as Hp.
  assert (zlen (de_name d ++ zeros (DIRENT_SZ - 8 - zlen (de_name d))) = MAX_FILE_NAME_LEN) as Hl
    by (rewrite zlen_app, zlen_zeros; layout_lia).
  rewrite Hl in Hr. rewrite Hr. cbn [mbind option_bind].
  assert (exists r, zeros (DIRENT_SZ - 8 - zlen (de_name d)) = Byte.x00 :: r) as [r Hzr].
  { unfold zeros. destruct (Z.to_nat _) as [|k] eqn:Hk; [layout_lia|]. by exists (replicate k Byte.x00). }
  rewrite Hzr, bool_decide_true by set_solver. rewrite c_str_app by done.
  do 2 f_equal. layout_lia.
Qed.

(** A directory entry written at its slot is read back with the same inode
    number and name, whatever was there before. *)
Theorem direntry_roundtrip d self b off :
  wf d -> 0 <= off -> off + DIRENT_SZ <= zlen b ->
  exists b' d', serialize d b off = Some (b', DIRENT_SZ) /\
    deserialize self b' off = Some (d', DIRENT_SZ) /\
    de_name d' = de_name d /\ ino d' = ino d /\
    blk_loc d' = blk_loc self /\ blk_idx_loc d' = blk_idx_loc self /\ dirty d' = false.
Proof.
  intros Hwf ??. destruct (de_serialize_mem_set d b off) as (b' & Hs & Hm); [done|lia..|].
  pose proof (mem_get_set_eq _ _ _ _ Hm) as Hg. rewrite de_encode_zlen in Hg by done.
  do 2 eexists. split; [done|]. rewrite (deserialize_encode _ _ _ _ Hwf Hg). done.
Qed.

(** A name of 255 bytes or more does not fit: the [assert] stops the program
    before the entry is complete. *)
Theorem direntry_name_too_long d b off :
  MAX_FILE_NAME_LEN <= zlen (de_name d) -> serialize d b off = None.
Proof.
  intros. unfold serialize. destruct (put_le _ _ _); [|done]. simpl.
  rewrite bool_decide_false by lia. done.
Qed.

End DirEntry.

(** ** IndirectBlock *)
Module IndirectBlock.

(** The list of indirect data block ids. *)
Definition t := list Z.

Definition ctor : t := replicate (Z.to_nat NUM_BLKS_PER_IB) 0.

(** [indirect_locs.at(idx) = vbid]; [None] is the exception. *)
Definition set_indirect_loc (idx vbid : Z) (l : t) : option t :=
  if decide (0 <= idx < zlen l) then Some (<[Z.to_nat idx := vbid]> l) else None.

Definition serialize (l : t) (b : bytes) (off_start : Z) : option (bytes * Z) :=
  if bool_decide (zlen l <= NUM_BLKS_PER_IB) then
    c ← put_fields (pair 8%nat <$> l) (b, off_start);
    b' ← (if zlen l <? NUM_BLKS_PER_IB - 1 then mem_set c.2 (zeros 8) c.1 else Some c.1);
    Some (b', c.2 - off_start)
  else None.

Definition deserialize (b : bytes) (off_start : Z) : option (t * Z) :=
  '(l, off) ← get_fields (replicate (Z.to_nat NUM_BLKS_PER_IB) 8%nat) b off_start;
  if bool_decide (zlen l <= NUM_BLKS_PER_IB) then Some (l, off - off_start) else None.

Definition wf (l : t) : Prop := zlen l = NUM_BLKS_PER_IB /\ Forall (fits 8) l.

Lemma ind_encode_zlen (l : list Z) : zlen (encode_fields (pair 8%nat <$> l)) = 8 * zlen l.
Proof.
  induction l as [|x l IH]; [done|]. rewrite fmap_cons, encode_fields_cons, zlen_app, IH, zlen_le_split.
  unfold zlen. simpl length. lia.
Qed.

Lemma ind_roundtrip l b :
  wf l -> zlen b = BLK_SZ ->
  exists b', serialize l b 0 = Some (b', BLK_SZ) /\ zlen b' = BLK_SZ /\
    deserialize b' 0 = Some (l, BLK_SZ).
Proof.
  intros [Hl Hf] Hb. pose proof (ind_encode_zlen l) as He. rewrite Hl in He.
  destruct (mem_set_is_Some 0 (encode_fields (pair 8%nat <$> l)) b) as [b' Hm];
    [lia|rewrite He, Hb; layout_lia|].
  pose proof (mem_set_zlen _ _ _ _ Hm). pose proof (mem_get_set_eq _ _ _ _ Hm) as Hg.
  exists b'. split_and!.
  - unfold serialize. rewrite bool_decide_true, put_fields_spec by layout_lia.
    unfold put_raw. cbn [fst snd]. rewrite Hm. cbn [mbind option_bind fst snd].
    rewrite He, Hl. done.
  - congruence.
  - unfold deserialize.
    replace (replicate (Z.to_nat NUM_BLKS_PER_IB) 8%nat) with (pair 8%nat <$> l).*1.
    2:{ rewrite <-list_fmap_compose. rewrite <-Hl. unfold zlen. rewrite Nat2Z.id.
        clear. induction l as [|x l IH]; [done|]. cbn. by rewrite <-IH. }
    erewrite get_fields_spec by (done || by apply Forall_fmap; eapply Forall_impl).
    cbn [mbind option_bind]. rewrite <-list_fmap_compose, (list_fmap_ext _ id), list_fmap_id by done.
    rewrite bool_decide_true, He by lia. done.
Qed.

(** A full indirect block fills its device block exactly and is read back. *)
Theorem indirect_roundtrip l b :
  wf l -> zlen b = BLK_SZ ->
  exists b', serialize l b 0 = Some (b', BLK_SZ) /\ zlen b' = BLK_SZ /\
    deserialize b' 0 = Some (l, BLK_SZ).
Proof. apply ind_roundtrip. Qed.

End IndirectBlock.

(** ** OpenFile *)
Module OpenFile.
Record t := mk { ino : Z; offset : Z }.
#[export] Instance t_eq_dec : EqDecision t.
Proof. solve_decision. Defined.
Definition set_offset (o : Z) (f : t) : t := mk (ino f) o.
End OpenFile.
