(* ===== verification/FlexBuffer.v ===== *)
(** * [bfsFlexibleBuffer]: a buffer with room for headers and trailers

    Models [bfs_utils/bfsFlexibleBuffer.cpp] and the block constructors of
    [bfs_utils/bfs_block.cpp].  A [NULL] buffer is an empty allocation; lengths
    are 32-bit. *)
From S2P Require Import Prelude.

Module FlexBuffer.

Record t := mk {
  buffer : option bytes;
  allocation : Z;
  hlength : Z;
  length : Z;
  tlength : Z;
  burnOnFree : bool
}.

#[export] Instance t_eq_dec : EqDecision t.
Proof. solve_decision. Defined.

Definition BFSFLEXBUF_DEFAULT_PAD : Z := 32.

Definition empty : t := mk None 0 0 0 0 true.

Definition mem (s : t) : bytes := default [] (buffer s).

(** The bytes between header room and trailer room. *)
Definition content (s : t) : bytes :=
  take (Z.to_nat (length s)) (drop (Z.to_nat (hlength s)) (mem s)).

Definition burn : M t () := fun s =>
  Ok () (mk ((fun _ => zeros (allocation s)) <$> buffer s) (allocation s)
           (hlength s) (length s) (tlength s) (burnOnFree s)).

(** A copy into the buffer; outside the allocation it is undefined. *)
Definition store (off : Z) (dat : bytes) : M t () := fun s =>
  match mem_set off dat (mem s) with
  | Some b => Ok () (mk (match buffer s with Some _ => Some b | None => None end)
                       (allocation s) (hlength s) (length s) (tlength s) (burnOnFree s))
  | None => Crash Undefined_behaviour
  end.

Definition load (off n : Z) : M t bytes := fun s => of_opt (mem_get off n (mem s)) s.

Definition set_lens (h l tl : Z) : M t () := fun s =>
  Ok () (mk (buffer s) (allocation s) (u32 h) (u32 l) (u32 tl) (burnOnFree s)).

(** The re-centering branch moves the bounds but not the bytes; the growing
    branch copies [length] old bytes to offset [minhd] of the new buffer. *)
Definition resizeAllocation (minhd newlen mintl : Z) : M t Z := fun s =>
  let newsz := u32 (minhd + newlen + mintl) in
  if (minhd <=? hlength s) && (newlen =? length s) && (mintl <=? tlength s)
  then Ok (allocation s) s
  else if newsz <=? allocation s then
    let left := allocation s - newsz in
    (set_lens (minhd + left / 2 + left mod 2) newlen (mintl + left / 2) ;;
     mret (allocation s)) s
  else
    let newbuf := zeros newsz in
    let finish nb :=
      Ok newlen (mk (Some nb) newsz minhd newlen mintl (burnOnFree s)) in
    if 0 <? length s then
      match buffer s with
      | None => Throw (bfsUtilError "Flex buffer length>0, NULL buffer") s
      | Some b =>
          match mem_get (hlength s) (length s) b ≫= fun d => mem_set minhd d newbuf with
          | Some nb => finish nb
          | None => Crash Undefined_behaviour
          end
      end
    else finish newbuf.

Definition setData (dat : bytes) : M t Z :=
  s ← get;
  (if negb (zlen dat =? length s)
   then resizeAllocation (hlength s) (zlen dat) (tlength s) ;; mret () else mret ()) ;;
  s ← get;
  store (hlength s) dat ;;
  set_lens (hlength s) (zlen dat) (tlength s) ;;
  gets length.

Definition resetWithAlloc (sz : Z) (fill : byte) (hpadsz tpadsz : Z)
    (burn_on_reset : bool) : M t Z :=
  (if burn_on_reset then burn else mret ()) ;;
  s ← get;
  (if negb (length s =? sz) || (hlength s <? hpadsz) || (tlength s <? tpadsz)
   then resizeAllocation hpadsz sz tpadsz ;; mret () else mret ()) ;;
  s ← get;
  store (hlength s) (replicate (Z.to_nat sz) fill) ;;
  mret sz.

Definition addHeader (dat : bytes) : M t Z :=
  let len := zlen dat in
  s ← get;
  (if hlength s <? len
   then resizeAllocation (u32 (BFSFLEXBUF_DEFAULT_PAD + len)) (length s) (tlength s) ;; mret ()
   else mret ()) ;;
  s ← get;
  store (u32 (hlength s - len)) dat ;;
  set_lens (hlength s - len) (length s + len) (tlength s) ;;
  gets length.

(** The removed bytes are returned with the new length. *)
Definition removeHeader (len : Z) : M t (bytes * Z) :=
  s ← get;
  match buffer s with
  | None => throw (bfsUtilError "Flexible buffer remove header on NULL data")
  | Some _ =>
      if length s <? len then throw (bfsUtilError "Flexible buffer remove header underflow")
      else
        d ← load (hlength s) len;
        set_lens (hlength s + len) (length s - len) (tlength s) ;;
        l ← gets length; mret (d, l)
  end.

Definition addTrailer (dat : bytes) : M t Z :=
  let len := zlen dat in
  s ← get;
  (if tlength s <? len
   then resizeAllocation (hlength s) (length s) (u32 (len + BFSFLEXBUF_DEFAULT_PAD)) ;; mret ()
   else mret ()) ;;
  s ← get;
  store (u32 (hlength s + length s)) dat ;;
  set_lens (hlength s) (length s + len) (tlength s - len) ;;
  gets length.

Definition removeTrailer (len : Z) : M t (bytes * Z) :=
  s ← get;
  match buffer s with
  | None => throw (bfsUtilError "Flexible buffer remove header on NULL data")
  | Some _ =>
      if length s <? len then throw (bfsUtilError "Flexible buffer remove trailer underflow")
      else
        d ← load (u32 (hlength s + length s - len)) len;
        set_lens (hlength s) (length s - len) (tlength s + len) ;;
        l ← gets length; mret (d, l)
  end.

(** The attribute constructor ignores its padding arguments. *)
Definition ctor (dat : option bytes) : outcome t () :=
  match dat with
  | Some d => (setData d ;; mret ()) empty
  | None => Ok () empty
  end.

(** [VBfsBlock]/[PBfsBlock] constructors. *)
Definition block_ctor (dat : option bytes) (len hsz tsz : Z) : outcome t () :=
  match dat with
  | None =>
      if 0 <? u32 (len + hsz + tsz)
      then (resetWithAlloc len Byte.x00 hsz tsz false ;; mret ()) empty else Ok () empty
  | Some d => (resizeAllocation hsz len tsz ;; setData (take (Z.to_nat len) d) ;; mret ()) empty
  end.

(** ** Well-formedness *)
Definition wf (s : t) : Prop :=
  0 <= hlength s /\ 0 <= length s /\ 0 <= tlength s /\
  hlength s + length s + tlength s = allocation s /\
  allocation s < 2 ^ 32 /\ zlen (mem s) = allocation s /\
  (buffer s = None -> allocation s = 0).

#[export] Instance wf_dec s : Decision (wf s).
Proof. unfold wf. destruct (buffer s) eqn:?; apply _. Defined.

Lemma mem_get_content s :
  wf s -> mem_get (hlength s) (length s) (mem s) = Some (content s).
Proof. intros (?&?&?&?&?&?&?). unfold mem_get. by rewrite decide_True by lia. Qed.

Lemma content_zlen s : wf s -> zlen (content s) = length s.
Proof. intros Hw. apply mem_get_content, mem_get_Some in Hw. tauto. Qed.

Lemma content_intro s d :
  wf s -> mem_get (hlength s) (length s) (mem s) = Some d -> content s = d.
Proof. intros Hw H. rewrite mem_get_content in H by done. congruence. Qed.

(** A store inside the allocation succeeds and keeps the bounds. *)
Lemma store_ok s off d :
  wf s -> 0 <= off -> off + zlen d <= allocation s ->
  exists s', store off d s = Ok () s' /\ wf s' /\ mem_set off d (mem s) = Some (mem s') /\
    hlength s' = hlength s /\ length s' = length s /\ tlength s' = tlength s /\
    allocation s' = allocation s /\ burnOnFree s' = burnOnFree s /\
    (buffer s = None <-> buffer s' = None).
Proof.
  intros (?&?&?&?&?&Hz&Hn) Ho Hd. unfold store.
  destruct (mem_set_is_Some off d (mem s)) as [b Hb]; [lia..|]. rewrite Hb.
  pose proof (mem_set_zlen _ _ _ _ Hb) as Hl.
  assert (mem {| buffer := match buffer s with Some _ => Some b | None => None end;
    allocation := allocation s; hlength := hlength s; length := length s;
    tlength := tlength s; burnOnFree := burnOnFree s |} = b) as Hm.
  { unfold mem in *. cbn. destruct (buffer s); [done|]. cbn in *.
    destruct b; [done|]. unfold zlen in Hl. simpl in Hl. lia. }
  eexists. split; [done|]. unfold wf. rewrite Hm. cbn [buffer hlength length tlength allocation burnOnFree].
  split_and!; try done; try lia; destruct (buffer s); naive_solver.
Qed.

(** [resizeAllocation] on a well-formed buffer: the requested room is there
    afterwards, and when the buffer had to grow the data is kept. *)
Lemma resize_ok s h l tl :
  wf s -> 0 <= h -> 0 <= l -> 0 <= tl -> h + l + tl < 2 ^ 32 ->
  length s <= l + tl \/ h + l + tl <= allocation s ->
  exists r s', resizeAllocation h l tl s = Ok r s' /\ wf s' /\
    length s' = l /\ h <= hlength s' /\ tl <= tlength s' /\
    (allocation s < h + l + tl -> hlength s' = h /\ tlength s' = tl /\
       allocation s' = h + l + tl /\ (length s = l -> content s' = content s)) /\
    (h <= hlength s /\ l = length s /\ tl <= tlength s -> s' = s) /\
    (h + l + tl <= allocation s -> allocation s' = allocation s /\ buffer s' = buffer s) /\
    (0 < h + l + tl -> buffer s' <> None).
Proof.
  intros Hw ???? Hfit. pose proof Hw as (Hh&Hl&Ht&Hsum&Hal&Hmem&Hnull).
  unfold resizeAllocation. rewrite (u32_small (h + l + tl)) by lia.
  destruct ((h <=? hlength s) && (l =? length s) && (tl <=? tlength s)) eqn:He.
  { exists (allocation s), s. split_and!; try done; try lia.
    - intros ? Hb. specialize (Hnull Hb). lia. }
  destruct (h + l + tl <=? allocation s) eqn:Hle.
  - do 2 eexists. split; [reflexivity|].
    assert ((allocation s - (h + l + tl)) = 2 * ((allocation s - (h + l + tl)) / 2)
             + (allocation s - (h + l + tl)) mod 2) by (apply Z.div_mod; lia).
    pose proof (Z.mod_pos_bound (allocation s - (h + l + tl)) 2).
    pose proof (Z.div_pos (allocation s - (h + l + tl)) 2).
    unfold wf, mem in *. cbn. rewrite !u32_small by lia.
    split_and!; try done; try lia. intros ? Hb. specialize (Hnull Hb). lia.
  - destruct (0 <? length s) eqn:Hpos.
    + destruct (buffer s) as [b|] eqn:Hb; [|specialize (Hnull eq_refl); lia].
      pose proof (mem_get_content s Hw) as Hg. unfold mem in Hg. rewrite Hb in Hg. cbn in Hg.
      rewrite Hg. pose proof (content_zlen s Hw). cbn [mbind option_bind].
      destruct (mem_set_is_Some h (content s) (zeros (h + l + tl))) as [nb Hnb];
        [lia|rewrite zlen_zeros; lia|]. rewrite Hnb. do 2 eexists. split; [reflexivity|].
      assert (wf (mk (Some nb) (h + l + tl) h l tl (burnOnFree s))) as Hw'.
      { unfold wf, mem. cbn. split_and!; try done; try lia.
        rewrite (mem_set_zlen _ _ _ _ Hnb), zlen_zeros; lia. }
      split_and!; try done; cbn; try lia.
      intros _. split_and!; try done. intros Hll.
      apply content_intro; [done|]. unfold mem. cbn.
      rewrite <-Hll, <-(content_zlen s Hw). by eapply mem_get_set_eq.
    + do 2 eexists. split; [reflexivity|].
      assert (wf (mk (Some (zeros (h + l + tl))) (h + l + tl) h l tl (burnOnFree s))) as Hw'.
      { unfold wf, mem. cbn. split_and!; try done; try lia. rewrite zlen_zeros; lia. }
      split_and!; try done; cbn; try lia.
      intros _. split_and!; try done. intros Hll. assert (l = 0) as -> by lia.
      unfold content. cbn. by rewrite Hll.
Qed.

(** Well-formedness after moving the bounds inside the allocation. *)
Lemma set_lens_ok s h l tl :
  wf s -> 0 <= h -> 0 <= l -> 0 <= tl -> h + l + tl = allocation s ->
  exists s', set_lens h l tl s = Ok () s' /\ wf s' /\ mem s' = mem s /\ buffer s' = buffer s /\
    hlength s' = h /\ length s' = l /\ tlength s' = tl /\ allocation s' = allocation s.
Proof.
  intros (?&?&?&?&?&?&?) ????. eexists. split; [reflexivity|].
  unfold wf, mem. cbn. rewrite !u32_small by lia. split_and!; (done || lia).
Qed.

(** Run the steps of a method whose outcome is known. *)
Ltac step H := rewrite (bind_Ok _ _ _ _ _ H); cbn beta.

Lemma get_Ok (s : t) : get s = Ok s s.
Proof. done. Qed.

Lemma gets_Ok {A} (f : t -> A) s : gets f s = Ok (f s) s.
Proof. done. Qed.

Lemma load_Ok off n s d : mem_get off n (mem s) = Some d -> load off n s = Ok d s.
Proof. unfold load. by intros ->. Qed.

(** A conditional resize, as the mutators start with. *)
Lemma resize_if_ok s (c : bool) h l tl :
  wf s -> 0 <= h -> 0 <= l -> 0 <= tl -> h + l + tl < 2 ^ 32 ->
  (length s <= l + tl \/ h + l + tl <= allocation s) ->
  (c = false -> l = length s) ->
  exists s', (if c then resizeAllocation h l tl ;; mret () else mret ()) s = Ok () s' /\ wf s' /\
    length s' = l /\
    (c = true -> h <= hlength s' /\ tl <= tlength s' /\
       (allocation s < h + l + tl -> hlength s' = h /\ tlength s' = tl /\
          allocation s' = h + l + tl /\ (length s = l -> content s' = content s)) /\
       (h + l + tl <= allocation s -> allocation s' = allocation s)) /\
    (c = false -> s' = s).
Proof.
  intros Hw ????? Hc. destruct c.
  - destruct (resize_ok s h l tl) as (r&s'&Hr&Hw'&Hl&Hh&Ht&Hgrow&_&Hkeep&_); try done.
    exists s'. step Hr. split_and!; try done; intros _; split_and!; try done. intros Hle. by apply Hkeep.
  - exists s. split_and!; try done. rewrite Hc; done.
Qed.

Lemma setData_spec s dat :
  wf s -> hlength s + zlen dat + tlength s < 2 ^ 32 ->
  exists s', setData dat s = Ok (zlen dat) s' /\ wf s' /\ content s' = dat /\
    allocation s' = Z.max (allocation s) (hlength s + zlen dat + tlength s).
Proof.
  intros Hw Hsz. pose proof Hw as (?&?&?&?&?&?&Hnull). pose proof (zlen_nonneg dat).
  unfold setData. step (get_Ok s).
  destruct (resize_if_ok s (negb (zlen dat =? length s)) (hlength s) (zlen dat) (tlength s))
    as (s1&Hr&Hw1&Hl1&Hb1&Hb2); [done|lia..|].
  step Hr. step (get_Ok s1). pose proof Hw1 as (?&?&?&?&?&?&?).
  destruct (store_ok s1 (hlength s1) dat) as (s2&Hst&Hw2&Hm&Hh2&Hl2&Ht2&Ha2&_); [done|lia..|].
  step Hst.
  destruct (set_lens_ok s2 (hlength s1) (zlen dat) (tlength s1))
    as (s3&Hs3&Hw3&Hm3&_&Hh3&Hl3&_&Ha3); [done|lia..|].
  step Hs3. exists s3. unfold gets. rewrite Hl3. split_and!; try done.
  - apply content_intro; [done|]. rewrite Hh3, Hl3, Hm3. by eapply mem_get_set_eq.
  - destruct (Z.eqb_spec (zlen dat) (length s)); [rewrite (Hb2 eq_refl) in *; lia|].
    destruct (Hb1 eq_refl) as (_&_&Hg&Hk).
    destruct (Z.ltb_spec (allocation s) (hlength s + zlen dat + tlength s)) as [Hgr|Hle]; [|specialize (Hk Hle); lia].
    destruct (Hg Hgr) as (_&_&?&_). lia.
Qed.

(** Prepending always keeps the data: the resize it may trigger asks for more
    than the allocation, so the buffer grows instead of being re-centered. *)
Lemma addHeader_spec s dat :
  wf s -> allocation s + BFSFLEXBUF_DEFAULT_PAD + zlen dat < 2 ^ 32 ->
  exists s', addHeader dat s = Ok (zlen dat + length s) s' /\ wf s' /\
    content s' = dat ++ content s /\ (dat <> [] \/ buffer s <> None -> buffer s' <> None) /\
    allocation s <= allocation s' <= allocation s + BFSFLEXBUF_DEFAULT_PAD + zlen dat.
Proof.
  intros Hw Hsz. pose proof Hw as (?&?&?&?&?&?&Hnull). pose proof (zlen_nonneg dat).
  unfold BFSFLEXBUF_DEFAULT_PAD in *. unfold addHeader. step (get_Ok s).
  unfold BFSFLEXBUF_DEFAULT_PAD. rewrite (u32_small (32 + zlen dat)) by lia.
  destruct (resize_if_ok s (hlength s <? zlen dat) (32 + zlen dat) (length s) (tlength s))
    as (s1&Hr&Hw1&Hl1&Hb1&Hb2); [done|lia..|].
  assert (zlen dat <= hlength s1 /\ content s1 = content s /\
    allocation s <= allocation s1 <= allocation s + 32 + zlen dat) as (Hh1&Hc1&Ha1).
  { destruct (hlength s <? zlen dat) eqn:Hc; [|rewrite Hb2 by done; split_and!; (done || lia)].
    destruct (Hb1 eq_refl) as (?&?&Hg&_). destruct Hg as (?&?&?&Hcc); [lia|].
    split_and!; [lia|by apply Hcc|lia..]. }
  step Hr. step (get_Ok s1). pose proof Hw1 as (?&?&?&?&?&?&Hnull1).
  rewrite (u32_small (hlength s1 - zlen dat)) by lia.
  destruct (store_ok s1 (hlength s1 - zlen dat) dat) as (s2&Hst&Hw2&Hm&Hh2&Hl2&Ht2&Ha2&_&Hn2);
    [done|lia..|].
  step Hst.
  destruct (set_lens_ok s2 (hlength s1 - zlen dat) (length s1 + zlen dat) (tlength s1))
    as (s3&Hs3&Hw3&Hm3&Hn3&Hh3&Hl3&_&Ha3); [done|lia..|].
  step Hs3. exists s3. unfold gets. rewrite Hl3, Hl1. split_and!; [f_equal; lia|done| | |lia..].
  - apply content_intro; [done|]. rewrite Hh3, Hl3, Hm3, <-Hc1, Z.add_comm.
    apply mem_get_split; [by eapply mem_get_set_eq|].
    rewrite Z.sub_add, (mem_get_set_ne _ _ _ _ _ _ Hm) by lia. by apply mem_get_content.
  - rewrite Hn3. intros Hd Hb. apply Hn2 in Hb. apply Hnull1 in Hb as Hz.
    destruct Hd as [Hd|Hd].
    + destruct dat; [done|]. unfold zlen in *. simpl in *. lia.
    + apply Hd. destruct (hlength s <? zlen dat) eqn:Hc; [|rewrite Hb2 in Hb by done; done].
      destruct (Hb1 eq_refl) as (?&?&Hg&_). lia.
Qed.

Lemma addTrailer_spec s dat :
  wf s -> allocation s + BFSFLEXBUF_DEFAULT_PAD + zlen dat < 2 ^ 32 ->
  exists s', addTrailer dat s = Ok (length s + zlen dat) s' /\ wf s' /\
    content s' = content s ++ dat /\ (dat <> [] \/ buffer s <> None -> buffer s' <> None) /\
    allocation s <= allocation s' <= allocation s + BFSFLEXBUF_DEFAULT_PAD + zlen dat.
Proof.
  intros Hw Hsz. pose proof Hw as (?&?&?&?&?&?&Hnull). pose proof (zlen_nonneg dat).
  unfold BFSFLEXBUF_DEFAULT_PAD in *. unfold addTrailer. step (get_Ok s).
  unfold BFSFLEXBUF_DEFAULT_PAD. rewrite (u32_small (zlen dat + 32)) by lia.
  destruct (resize_if_ok s (tlength s <? zlen dat) (hlength s) (length s) (zlen dat + 32))
    as (s1&Hr&Hw1&Hl1&Hb1&Hb2); [done|lia..|].
  assert (zlen dat <= tlength s1 /\ content s1 = content s /\
    allocation s <= allocation s1 <= allocation s + 32 + zlen dat) as (Ht1&Hc1&Ha1).
  { destruct (tlength s <? zlen dat) eqn:Hc; [|rewrite Hb2 by done; split_and!; (done || lia)].
    destruct (Hb1 eq_refl) as (?&?&Hg&_). destruct Hg as (?&?&?&Hcc); [lia|].
    split_and!; [lia|by apply Hcc|lia..]. }
  step Hr. step (get_Ok s1). pose proof Hw1 as (?&?&?&?&?&?&Hnull1).
  rewrite (u32_small (hlength s1 + length s1)) by lia.
  destruct (store_ok s1 (hlength s1 + length s1) dat) as (s2&Hst&Hw2&Hm&Hh2&Hl2&Ht2&Ha2&_&Hn2);
    [done|lia..|].
  step Hst.
  destruct (set_lens_ok s2 (hlength s1) (length s1 + zlen dat) (tlength s1 - zlen dat))
    as (s3&Hs3&Hw3&Hm3&Hn3&Hh3&Hl3&_&Ha3); [done|lia..|].
  step Hs3. exists s3. unfold gets. rewrite Hl3, Hl1. split_and!; [done|done| | |lia..].
  - apply content_intro; [done|]. rewrite Hh3, Hl3, Hm3, <-Hc1.
    apply mem_get_split; [|by eapply mem_get_set_eq].
    rewrite (mem_get_set_ne _ _ _ _ _ _ Hm) by lia. by apply mem_get_content.
  - rewrite Hn3. intros Hd Hb. apply Hn2 in Hb. apply Hnull1 in Hb as Hz.
    destruct Hd as [Hd|Hd].
    + destruct dat; [done|]. unfold zlen in *. simpl in *. lia.
    + apply Hd. destruct (tlength s <? zlen dat) eqn:Hc; [|rewrite Hb2 in Hb by done; done].
      destruct (Hb1 eq_refl) as (?&?&Hg&_). lia.
Qed.

Lemma removeHeader_spec s len :
  wf s -> buffer s <> None -> 0 <= len <= length s ->
  exists s', removeHeader len s = Ok (take (Z.to_nat len) (content s), length s - len) s' /\
    wf s' /\ content s' = drop (Z.to_nat len) (content s) /\ buffer s' <> None /\
    allocation s' = allocation s.
Proof.
  intros Hw Hb Hlen. pose proof Hw as (?&?&?&?&?&?&_).
  unfold removeHeader. step (get_Ok s). destruct (buffer s) as [b|] eqn:Hbuf; [|done].
  destruct (length s <? len) eqn:?; [lia|].
  destruct (mem_get_is_Some (hlength s) len (mem s)) as [d Hd]; [lia..|].
  step (load_Ok _ _ _ _ Hd).
  destruct (set_lens_ok s (hlength s + len) (length s - len) (tlength s))
    as (s3&Hs3&Hw3&Hm3&Hn3&Hh3&Hl3&_&Ha3); [done|lia..|].
  step Hs3. step (gets_Ok length s3). rewrite Hl3. exists s3.
  apply mem_get_Some in Hd as (?&?&?&?&->). split_and!; [|done| |congruence|done].
  - unfold mret, M_ret, content. rewrite take_take. repeat f_equal. lia.
  - unfold content. rewrite Hh3, Hl3, Hm3, skipn_firstn_comm, drop_drop.
    f_equal; [lia|f_equal; lia].
Qed.

Lemma removeTrailer_spec s len :
  wf s -> buffer s <> None -> 0 <= len <= length s ->
  exists s', removeTrailer len s =
      Ok (drop (Z.to_nat (length s - len)) (content s), length s - len) s' /\
    wf s' /\ content s' = take (Z.to_nat (length s - len)) (content s) /\ buffer s' <> None /\
    allocation s' = allocation s.
Proof.
  intros Hw Hb Hlen. pose proof Hw as (?&?&?&?&?&?&_).
  unfold removeTrailer. step (get_Ok s). destruct (buffer s) as [b|] eqn:Hbuf; [|done].
  destruct (length s <? len) eqn:?; [lia|]. rewrite u32_small by lia.
  destruct (mem_get_is_Some (hlength s + length s - len) len (mem s)) as [d Hd]; [lia..|].
  step (load_Ok _ _ _ _ Hd).
  destruct (set_lens_ok s (hlength s) (length s - len) (tlength s + len))
    as (s3&Hs3&Hw3&Hm3&Hn3&Hh3&Hl3&_&Ha3); [done|lia..|].
  step Hs3. step (gets_Ok length s3). rewrite Hl3. exists s3.
  apply mem_get_Some in Hd as (?&?&?&?&->). split_and!; [|done| |congruence|done].
  - unfold mret, M_ret, content. rewrite skipn_firstn_comm, drop_drop.
    repeat f_equal; lia.
  - unfold content. rewrite Hh3, Hl3, Hm3, take_take. f_equal. lia.
Qed.

(** ** The buffer as a double-ended byte queue *)
Inductive op := PushFront (d : bytes) | PushBack (d : bytes) | PopFront (n : Z) | PopBack (n : Z).

(** The abstract queue: the bytes removed and the queue after; [None] is the
    underflow error. *)
Definition deque_step (o : op) (q : bytes) : option (bytes * bytes) :=
  match o with
  | PushFront d => Some ([], d ++ q)
  | PushBack d => Some ([], q ++ d)
  | PopFront n => if n <=? zlen q then Some (take (Z.to_nat n) q, drop (Z.to_nat n) q) else None
  | PopBack n =>
      let k := Z.to_nat (zlen q - n) in
      if n <=? zlen q then Some (drop k q, take k q) else None
  end.

Definition exec (o : op) : M t bytes :=
  match o with
  | PushFront d => addHeader d ;; mret []
  | PushBack d => addTrailer d ;; mret []
  | PopFront n => r ← removeHeader n; mret r.1
  | PopBack n => r ← removeTrailer n; mret r.1
  end.

Fixpoint deque_run (os : list op) (q : bytes) : option (list bytes * bytes) :=
  match os with
  | [] => Some ([], q)
  | o :: os =>
      '(d, q) ← deque_step o q;
      '(ds, q) ← deque_run os q;
      Some (d :: ds, q)
  end.

Fixpoint exec_all (os : list op) : M t (list bytes) :=
  match os with
  | [] => mret []
  | o :: os => d ← exec o; ds ← exec_all os; mret (d :: ds)
  end.

(** Room an operation may add to the allocation. *)
Definition op_cost (o : op) : Z :=
  match o with
  | PushFront d | PushBack d => BFSFLEXBUF_DEFAULT_PAD + zlen d
  | _ => 0
  end.

Definition op_ok (o : op) : Prop :=
  match o with PopFront n | PopBack n => 0 <= n | _ => True end.

Lemma exec_refines o s :
  wf s -> buffer s <> None -> op_ok o -> allocation s + op_cost o < 2 ^ 32 ->
  match deque_step o (content s) with
  | Some (d, q) => exists s', exec o s = Ok d s' /\ wf s' /\ buffer s' <> None /\
      content s' = q /\ allocation s' <= allocation s + op_cost o
  | None => exists m, exec o s = Throw (bfsUtilError m) s
  end.
Proof.
  intros Hw Hb Hok Hc. pose proof (content_zlen s Hw) as Hl.
  destruct o as [d|d|n|n]; cbn [deque_step op_cost op_ok exec] in *; rewrite ?Hl.
  - destruct (addHeader_spec s d) as (s'&Hr&?&?&Hn&?); [done|lia|].
    exists s'. step Hr. split_and!; [done|done|auto|done|lia].
  - destruct (addTrailer_spec s d) as (s'&Hr&?&?&Hn&?); [done|lia|].
    exists s'. step Hr. split_and!; [done|done|auto|done|lia].
  - destruct (n <=? length s) eqn:Hn.
    + destruct (removeHeader_spec s n) as (s'&Hr&?&?&?&?); [done|done|lia|].
      exists s'. step Hr. split_and!; (done || lia).
    + eexists. unfold removeHeader, get. destruct (buffer s) eqn:?; [|done].
      unfold mbind, M_bind. rewrite Heqo. destruct (length s <? n) eqn:?; [done|lia].
  - destruct (n <=? length s) eqn:Hn.
    + destruct (removeTrailer_spec s n) as (s'&Hr&?&?&?&?); [done|done|lia|].
      exists s'. step Hr. split_and!; (done || lia).
    + eexists. unfold removeTrailer, get. destruct (buffer s) eqn:?; [|done].
      unfold mbind, M_bind. rewrite Heqo. destruct (length s <? n) eqn:?; [done|lia].
Qed.

(** C33. Any sequence of header and trailer operations that the byte queue accepts
    runs without error, removes the same bytes and leaves the same content:
    no resize in between loses data. *)
Theorem flexbuffer_refines_deque os s ds q :
  wf s -> buffer s <> None -> Forall op_ok os ->
  allocation s + foldr (fun o z => op_cost o + z) 0 os < 2 ^ 32 ->
  deque_run os (content s) = Some (ds, q) ->
  exists s', exec_all os s = Ok ds s' /\ wf s' /\ content s' = q.
Proof.
  revert s ds. induction os as [|o os IH]; intros s ds Hw Hb Hok Hc Hd.
  - simplify_eq/=. by exists s.
  - apply Forall_cons in Hok as [Ho Hok]. cbn [foldr] in Hc.
    assert (0 <= foldr (fun o z => op_cost o + z) 0 os) as Hpos.
    { clear. induction os as [|o os IH]; cbn; [lia|].
      destruct o as [d|d| |]; cbn; try pose proof (zlen_nonneg d);
        unfold BFSFLEXBUF_DEFAULT_PAD; lia. }
    cbn [deque_run] in Hd. pose proof (exec_refines o s Hw Hb Ho ltac:(lia)) as He.
    destruct (deque_step o (content s)) as [[d q1]|]; [|done]. cbn [mbind option_bind] in Hd.
    destruct He as (s1&Hr&Hw1&Hb1&Hq1&Ha1). rewrite <-Hq1 in Hd.
    destruct (deque_run os (content s1)) as [[ds' q']|] eqn:Hd'; simplify_eq/=.
    destruct (IH s1 ds') as (s'&Hr'&?&?); try done; [lia|].
    exists s'. step Hr. by step Hr'.
Qed.

(** Removing more than there is throws and leaves the buffer as it was. *)
Theorem flexbuffer_underflow s n :
  wf s -> buffer s <> None -> length s < n ->
  removeHeader n s = Throw (bfsUtilError "Flexible buffer remove header underflow") s /\
  removeTrailer n s = Throw (bfsUtilError "Flexible buffer remove trailer underflow") s.
Proof.
  intros _ Hb Hn. unfold removeHeader, removeTrailer, get, mbind, M_bind.
  destruct (buffer s) eqn:?; [|done].
  destruct (length s <? n) eqn:?; [done|lia].
Qed.

(** A block object built from [len] bytes holds exactly them, with the
    requested header and trailer room. *)
Theorem block_ctor_content d hsz tsz :
  0 <= hsz -> 0 <= tsz -> hsz + zlen d + tsz < 2 ^ 32 ->
  exists s, block_ctor (Some d) (zlen d) hsz tsz = Ok () s /\ wf s /\ content s = d.
Proof.
  intros ???. pose proof (zlen_nonneg d).
  assert (wf empty) as Hw by done. unfold block_ctor.
  destruct (resize_ok empty hsz (zlen d) tsz) as (r&s1&Hr&Hw1&Hl1&Hh1&Ht1&Hg&_&Hle&_);
    [done|lia..|cbn; lia|]. cbn in Hg, Hle.
  step Hr. assert (hlength s1 + zlen d + tlength s1 < 2 ^ 32) as Hb.
  { destruct Hw1 as (?&?&?&?&?&?&?). lia. }
  destruct (setData_spec s1 d Hw1 Hb) as (s2&Hs2&Hw2&Hc2&_).
  unfold zlen. rewrite Nat2Z.id, firstn_all. exists s2. by step Hs2.
Qed.

(** [resetWithAlloc] can write outside the allocation it makes: the copy in
    [resizeAllocation] uses the old length with the new header size. *)
Theorem resetWithAlloc_overflow :
  exists s, wf s /\
    resetWithAlloc 10 Byte.x00 200 0 false s = Crash Undefined_behaviour.
Proof. exists (mk (Some (zeros 100)) 100 0 100 0 true). split; [|done]. by apply (bool_decide_unpack _). Qed.

End FlexBuffer.
