(* ===== verification/Base64.v ===== *)
(** * Base 64 encoding of buffers

    Models [bfs_utils/bfs_base64.cpp]: the two conversions between a flexible
    buffer and its base 64 text, with the errors of the decoder. *)
From S2P Require Import Prelude FlexBuffer.
From coqutil Require Import Z.bitblast.
From Stdlib Require Strings.String.
Import Init.Byte.
Import FlexBuffer.

Module Base64.

(** The digits of the alphabet as the C string literal. *)
Definition BASE64_DIGITS : bytes :=
  Eval vm_compute in
    String.list_byte_of_string "ABCDEFGHIJKLMNOPQRSTUVWXYZabcdefghijklmnopqrstuvwxyz0123456789+/".
Definition BASE64_LEGAL_CHARS : bytes :=
  Eval vm_compute in
    String.list_byte_of_string "ABCDEFGHIJKLMNOPQRSTUVWXYZabcdefghijklmnopqrstuvwxyz0123456789+/=".

Definition pad_char : byte := x3d.

(** [operator[]] of a constant string gives the terminating zero at its length. *)
Definition bfs_base64Encoding {S} (idx : Z) : M S byte :=
  if zlen BASE64_DIGITS <? idx
  then throw (bfsUtilError "Illegal base 64 encoded character")
  else mret (default x00 (BASE64_DIGITS !! Z.to_nat idx)).

(** The character classes of the C locale. *)
Definition between (lo hi c : byte) : bool := (b2z lo <=? b2z c) && (b2z c <=? b2z hi).

Definition bfs_fromB64Digit {S} (ch : byte) : M S Z :=
  if between x41 x5a ch then mret (b2z ch - b2z x41)
  else if between x61 x7a ch then mret (b2z ch - b2z x61 + 26)
  else if between x30 x39 ch then mret (b2z ch - b2z x30 + 52)
  else if decide (ch = x2b) then mret 62
  else if decide (ch = x2f) then mret 63
  else throw (bfsUtilError "Illegal base 64 encoding character").

(** ** Encoding *)

(** [while (nbuf.getLength() % 3 != 0) { nbuf.addTrailer(pad); padbytes++; }];
    three rounds are more than it takes. *)
Fixpoint pad_loop (fuel : nat) (padbytes : Z) : M t Z :=
  match fuel with
  | O => die Out_of_fuel
  | S fuel =>
      l ← gets length;
      if negb (l mod 3 =? 0) then addTrailer [x00] ;; pad_loop fuel (padbytes + 1)
      else mret padbytes
  end.

(** One round per three bytes of the padded copy; [idx + 3 >= length] when no
    byte is left after them. *)
Fixpoint encode_loop {S} (padbytes : Z) (buf : bytes) : M S bytes :=
  match buf with
  | c0 :: c1 :: c2 :: rest =>
      let a := b2z c0 in let b := b2z c1 in let c := b2z c2 in
      let last := match rest with [] => true | _ => false end in
      e1 ← bfs_base64Encoding (Z.shiftr a 2);
      e2 ← bfs_base64Encoding (Z.lor (Z.shiftl (Z.land a 3) 4) (Z.shiftr b 4));
      e3 ← (if (1 <? padbytes) && last then mret pad_char
            else bfs_base64Encoding (Z.lor (Z.shiftl (Z.land b 15) 2) (Z.shiftr c 6)));
      e4 ← (if (0 <? padbytes) && last then mret pad_char
            else bfs_base64Encoding (Z.land c 63));
      r ← encode_loop padbytes rest;
      mret (e1 :: e2 :: e3 :: e4 :: r)
  | _ => mret []
  end.

(** The local [nbuf] starts as an empty buffer and gets the data of [buf]. *)
Definition bfs_toBase64 : M t (bytes * Z) :=
  buf ← get;
  if length buf =? 0 then mret ([], 0)
  else
    dat ← load (hlength buf) (length buf);
    match (setData dat ;; pad_loop 3 0) empty with
    | Ok padbytes nbuf =>
        c ← of_opt (mem_get (hlength nbuf) (length nbuf) (mem nbuf));
        enc ← encode_loop padbytes c;
        mret (enc, zlen enc)
    | Throw e _ => throw e
    | Crash c => die c
    end.

(** ** Decoding *)
Definition put_char (bidx digit : Z) : M t () :=
  s ← get; store (hlength s + bidx) [z2b (u8 digit)].

(** One round per four characters; the length was checked to be a multiple of
    four.  An index is decoded only where the C++ expression evaluates it. *)
Fixpoint decode_loop (len bidx : Z) (enc : bytes) : M t () :=
  match enc with
  | c0 :: c1 :: c2 :: c3 :: rest =>
      d0 ← bfs_fromB64Digit c0; d1 ← bfs_fromB64Digit c1;
      put_char bidx (Z.lor (Z.shiftl d0 2) (Z.shiftr d1 4)) ;;
      let bidx := bidx + 1 in
      bidx ← (if bidx <? len then
        d1 ← bfs_fromB64Digit c1; d2 ← bfs_fromB64Digit c2;
        put_char bidx (Z.lor (Z.shiftl d1 4) (Z.shiftr d2 2)) ;; mret (bidx + 1)
      else mret bidx);
      bidx ← (if bidx <? len then
        d2 ← bfs_fromB64Digit c2; d3 ← bfs_fromB64Digit c3;
        put_char bidx (Z.lor (Z.shiftl d2 6) d3) ;; mret (bidx + 1)
      else mret bidx);
      decode_loop len bidx rest
  | _ => mret ()
  end.

Definition is_pad (c : option byte) : Z := if decide (c = Some pad_char) then 1 else 0.

(** The padding characters among the last two. *)
Definition pads (enc : bytes) : Z :=
  let n := List.length enc in is_pad (enc !! (n - 1)%nat) + is_pad (enc !! (n - 2)%nat).

(** The output length of a non-empty text. *)
Definition decoded_len (enc : bytes) : Z := u32 (u32 (zlen enc) / 4 * 3 - pads enc).

Definition bfs_fromBase64 (enc : bytes) : M t Z :=
  if decide (enc = []) then burn ;; mret 0
  else if negb (zlen enc mod 4 =? 0) then throw (bfsUtilError "Illegal base 64 encoded string, bad length")
  else if negb (forallb (fun c => bool_decide (c ∈ BASE64_LEGAL_CHARS)) enc)
  then throw (bfsUtilError "Illegal base 64 encoded string : ")
  else
    let len := decoded_len enc in
    resetWithAlloc len x00 BFSFLEXBUF_DEFAULT_PAD BFSFLEXBUF_DEFAULT_PAD false ;;
    decode_loop len 0 enc ;;
    gets length.

(** ** Reference encoding *)
Definition digit (v : Z) : byte := default x00 (BASE64_DIGITS !! Z.to_nat v).

(** RFC 4648 on the value of each group: the bits of three bytes in four digits,
    the last group padded. *)
Fixpoint rfc4648 (d : bytes) : bytes :=
  let g x y z := b2z x * 65536 + b2z y * 256 + b2z z in
  let dig k n := digit (n / 64 ^ k mod 64) in
  match d with
  | x :: y :: z :: r => let n := g x y z in dig 3 n :: dig 2 n :: dig 1 n :: dig 0 n :: rfc4648 r
  | [x; y] => let n := g x y x00 in [dig 3 n; dig 2 n; dig 1 n; pad_char]
  | [x] => let n := g x x00 x00 in [dig 3 n; dig 2 n; pad_char; pad_char]
  | [] => []
  end.

Lemma encoding_Ok {S} v (s : S) : 0 <= v < 64 -> bfs_base64Encoding v s = Ok (digit v) s.
Proof. intros. unfold bfs_base64Encoding. by rewrite (proj2 (Z.ltb_ge _ _)) by (change (zlen _) with 64; lia). Qed.

Lemma digits_Forall (P : Z -> Prop) : (forall n, (n < 64)%nat -> P (Z.of_nat n)) -> forall v, 0 <= v < 64 -> P v.
Proof. intros HP v ?. rewrite <-(Z2Nat.id v) by lia. apply HP. lia. Qed.

Lemma fromDigit_Ok {S} (s : S) : forall v, 0 <= v < 64 -> bfs_fromB64Digit (digit v) s = Ok v s.
Proof. apply digits_Forall. intros n Hn. do 64 (destruct n as [|n]; [reflexivity|]). lia. Qed.

Lemma digit_legal : forall v, 0 <= v < 64 -> digit v ∈ BASE64_LEGAL_CHARS /\ digit v <> pad_char.
Proof. apply digits_Forall. intros n Hn. do 64 (destruct n as [|n]; [vm_decide|]). lia. Qed.

Lemma lor_shiftl x y k : 0 <= k -> 0 <= y < 2 ^ k -> Z.lor (Z.shiftl x k) y = x * 2 ^ k + y.
Proof.
  intros Hk Hy. rewrite <-Z.shiftl_mul_pow2 by done. apply bitblast.Z.or_to_plus, Z.bits_inj'. intros n Hn.
  rewrite Z.land_spec, Z.shiftl_spec, Z.bits_0 by done. destruct (decide (n < k)).
  - by rewrite Z.testbit_neg_r by lia.
  - assert (Z.testbit y n = false) as ->; [|apply andb_false_r].
    destruct (decide (y = 0)) as [-> |]; [apply Z.bits_0|]. apply Z.bits_above_log2; [lia|].
    apply Z.log2_lt_pow2; [lia|]. eapply Z.lt_le_trans; [apply Hy|]. apply Z.pow_le_mono_r; lia.
Qed.

(** The shifts of the encoder are the digits of the group's value. *)
Lemma group_digits a b c : 0 <= a < 256 -> 0 <= b < 256 -> 0 <= c < 256 ->
  let n := a * 65536 + b * 256 + c in
  Z.shiftr a 2 = n / 64 ^ 3 mod 64 /\
  Z.lor (Z.shiftl (Z.land a 3) 4) (Z.shiftr b 4) = n / 64 ^ 2 mod 64 /\
  Z.lor (Z.shiftl (Z.land b 15) 2) (Z.shiftr c 6) = n / 64 ^ 1 mod 64 /\
  Z.land c 63 = n / 64 ^ 0 mod 64.
Proof.
  intros Ha Hb Hc n. subst n.
  change (Z.land a 3) with (Z.land a (Z.ones 2)). change (Z.land b 15) with (Z.land b (Z.ones 4)).
  change 63 with (Z.ones 6). rewrite !Z.land_ones, !Z.shiftr_div_pow2 by lia.
  rewrite !lor_shiftl by (try change (2 ^ 4) with 16; try change (2 ^ 2) with 4; try change (2^6) with 64; lia || (split; [apply Z.div_pos; lia|apply Z.div_lt_upper_bound; lia])).
  cbn [Z.pow Z.pow_pos Pos.iter Z.mul Pos.mul Pos.add]. split_and!; Z.to_euclidean_division_equations; lia.
Qed.

(** Induction in steps of a group. *)
Lemma group_ind (P : bytes -> Prop) :
  P [] -> (forall x, P [x]) -> (forall x y, P [x; y]) -> (forall x y z r, P r -> P (x :: y :: z :: r)) -> forall d, P d.
Proof.
  intros H0 H1 H2 H3 d. enough (P d /\ (forall x, P (x :: d)) /\ forall x y, P (x :: y :: d)) by tauto.
  induction d as [|c d (IH1&IH2&IH3)]; auto.
Qed.

(** The number of zero bytes the encoder appends. *)
Definition padding (d : bytes) : Z := (- zlen d) mod 3.

Lemma zlen_group {A} (x y z : A) r : zlen (x :: y :: z :: r) = zlen r + 3.
Proof. unfold zlen. cbn [List.length]. lia. Qed.

Lemma padding_group x y z r : padding (x :: y :: z :: r) = padding r.
Proof. unfold padding. rewrite zlen_group. Z.to_euclidean_division_equations; lia. Qed.

Lemma encode_loop_Ok {S} (s : S) d :
  encode_loop (padding d) (d ++ zeros (padding d)) s = Ok (rfc4648 d) s.
Proof.
  revert d. apply group_ind; [done| | |].
  3: { intros x y z r IH. rewrite padding_group. cbn [app encode_loop rfc4648].
    destruct (group_digits _ _ _ (b2z_range x) (b2z_range y) (b2z_range z)) as (E1&E2&E3&E4).
    rewrite E1, E2, E3, E4. rewrite !(bind_Ok _ _ _ _ _ (encoding_Ok _ _ (Z.mod_pos_bound _ 64 eq_refl))).
    assert (0 < padding r -> r <> []) as Hne by (intros Hp ->; by vm_compute in Hp).
    assert (forall k, 0 <= k -> (k <? padding r) && match r ++ zeros (padding r) with [] => true | _ :: _ => false end = false) as Hl.
    { intros k Hk. destruct (Z.ltb_spec k (padding r)); [|done]. by destruct r; [destruct Hne; [lia|]|]. }
    rewrite !Hl by lia. rewrite !(bind_Ok _ _ _ _ _ (encoding_Ok _ _ (Z.mod_pos_bound _ 64 eq_refl))). by mrun IH. }
  - intros x. change (padding [x]) with 2. change (zeros 2) with [x00; x00]. cbn [app encode_loop].
    destruct (group_digits _ _ _ (b2z_range x) (b2z_range x00) (b2z_range x00)) as (E1&E2&_&_).
    cbn [andb Z.ltb Z.compare Pos.compare Pos.compare_cont rfc4648]. rewrite E1, E2. by rewrite !(bind_Ok _ _ _ _ _ (encoding_Ok _ _ (Z.mod_pos_bound _ 64 eq_refl))).
  - intros x y. change (padding [x; y]) with 1. change (zeros 1) with [x00]. cbn [app encode_loop].
    destruct (group_digits _ _ _ (b2z_range x) (b2z_range y) (b2z_range x00)) as (E1&E2&E3&_).
    cbn [andb Z.ltb Z.compare Pos.compare Pos.compare_cont rfc4648]. rewrite E1, E2, E3. by rewrite !(bind_Ok _ _ _ _ _ (encoding_Ok _ _ (Z.mod_pos_bound _ 64 eq_refl))).
Qed.

(** The bits of the digits are those of the bytes. *)
Lemma group_bytes a b c : 0 <= a < 256 -> 0 <= b < 256 -> 0 <= c < 256 ->
  let n := a * 65536 + b * 256 + c in
  let d k := n / 64 ^ k mod 64 in
  u8 (Z.lor (Z.shiftl (d 3) 2) (Z.shiftr (d 2) 4)) = a /\
  u8 (Z.lor (Z.shiftl (d 2) 4) (Z.shiftr (d 1) 2)) = b /\
  u8 (Z.lor (Z.shiftl (d 1) 6) (d 0)) = c.
Proof.
  intros Ha Hb Hc n d. subst d n. cbn beta.
  rewrite !Z.shiftr_div_pow2 by lia.
  rewrite !lor_shiftl by (cbn [Z.pow Z.pow_pos Pos.iter Z.mul Pos.mul Pos.add]; Z.to_euclidean_division_equations; lia).
  unfold u8. cbn [Z.pow Z.pow_pos Pos.iter Z.mul Pos.mul Pos.add]. split_and!; Z.to_euclidean_division_equations; lia.
Qed.

Lemma store_app off d1 d2 s s1 :
  store off d1 s = Ok () s1 -> store (off + zlen d1) d2 s1 = store off (d1 ++ d2) s.
Proof.
  unfold store. destruct (mem_set off d1 (mem s)) as [b|] eqn:Hb; [|done]. intros [= <-].
  assert (mem (mk (match buffer s with Some _ => Some b | None => None end) (allocation s) (hlength s)
    (length s) (tlength s) (burnOnFree s)) = b) as ->.
  { unfold mem in *. cbn. destruct (buffer s); [done|]. cbn in *. apply mem_set_zlen in Hb. destruct b; [done|].
    unfold zlen in Hb. simpl in Hb. lia. }
  rewrite (mem_set_app _ _ d2 _ _ Hb). cbn. destruct (mem_set off (d1 ++ d2) (mem s)); [|done]. by destruct (buffer s).
Qed.

(** A byte is written inside the allocation. *)
Lemma put_char_Ok s bidx x v :
  wf s -> 0 <= bidx -> hlength s + bidx < allocation s -> u8 v = b2z x ->
  exists s', put_char bidx v s = Ok () s' /\ store (hlength s + bidx) [x] s = Ok () s' /\ wf s' /\
    hlength s' = hlength s /\ allocation s' = allocation s /\ length s' = length s.
Proof.
  intros Hw Hb Hal Hv. pose proof Hw as (?&_). unfold put_char. rewrite bind_get, Hv, z2b_b2z.
  destruct (store_ok s (hlength s + bidx) [x]) as (s'&Hs&Hw'&_&Hh&Hl&_&Ha&_); [done|lia|change (zlen [x]) with 1; lia|].
  by exists s'.
Qed.

Lemma digit_back {S B} n k (f : Z -> M S B) s : (bfs_fromB64Digit (digit (n / 64 ^ k mod 64)) ≫= f) s = f (n / 64 ^ k mod 64) s.
Proof. exact (bind_Ok _ f _ _ _ (fromDigit_Ok s _ (Z.mod_pos_bound _ 64 eq_refl))). Qed.

Lemma store_cons s bidx x d s1 :
  store (hlength s + bidx) [x] s = Ok () s1 -> hlength s1 = hlength s ->
  store (hlength s + bidx) (x :: d) s = store (hlength s1 + (bidx + 1)) d s1.
Proof. intros H ->. rewrite Z.add_assoc. symmetry. exact (store_app _ [x] d _ _ H). Qed.

(** Store one character after another. *)
Ltac put x s' :=
  match goal with |- context [(put_char ?b ?v ≫= _) ?s] =>
    destruct (put_char_Ok s b x v) as (s'&Hput&Hst&?&?&?&?); [done|lia|lia|assumption|mrun Hput; clear Hput; rewrite (store_cons _ _ _ _ _ Hst) by done; clear Hst]
  end.

Lemma decode_loop_Ok len d bidx s :
  wf s -> 0 <= bidx -> bidx + zlen d = len -> hlength s + len <= allocation s ->
  decode_loop len bidx (rfc4648 d) s = store (hlength s + bidx) d s.
Proof.
  assert (forall b s, wf s -> 0 <= b <= allocation s - hlength s -> Ok () s = store (hlength s + b) [] s) as Hdone.
  { clear. intros b s Hw Hb. pose proof Hw as (?&_). destruct (store_ok s (hlength s + b) []) as (s'&_&_&Hm&_); [done|lia|change (zlen []) with 0; lia|].
    unfold store. rewrite Hm. apply mem_set_Some in Hm as (_&_&->). change (zlen []) with 0.
    rewrite Z.add_0_r, app_nil_l, take_drop. destruct s as [[b'|]]; reflexivity. }
  intros Hw Hb Hlen Hal. revert d bidx s Hw Hb Hlen Hal. refine (group_ind _ _ _ _ _).
  - intros bidx s Hw Hb Hlen Hal. change (zlen []) with 0 in *. apply Hdone; [done|lia].
  - intros x bidx s Hw Hb Hlen Hal. change (zlen [x]) with 1 in *. cbn [rfc4648 decode_loop]. rewrite !digit_back.
    destruct (group_bytes _ _ _ (b2z_range x) (b2z_range x00) (b2z_range x00)) as (E1&_&_).
    put x s1. do 2 (rewrite ?bind_ret, (proj2 (Z.ltb_ge _ len)) by lia). rewrite !bind_ret. apply Hdone; [done|lia].
  - intros x y bidx s Hw Hb Hlen Hal. change (zlen [x; y]) with 2 in *. cbn [rfc4648 decode_loop]. rewrite !digit_back.
    destruct (group_bytes _ _ _ (b2z_range x) (b2z_range y) (b2z_range x00)) as (E1&E2&_).
    put x s1. rewrite (proj2 (Z.ltb_lt _ len)) by lia. rewrite !bind_assoc, !digit_back, !bind_assoc, digit_back, bind_assoc.
    put y s2. rewrite !bind_ret, !(proj2 (Z.ltb_ge _ len)) by lia. rewrite bind_ret. apply Hdone; [done|lia].
  - intros x y z r IH bidx s Hw Hb Hlen Hal. rewrite zlen_group in Hlen. pose proof (zlen_nonneg r).
    cbn [rfc4648 decode_loop]. rewrite !digit_back.
    destruct (group_bytes _ _ _ (b2z_range x) (b2z_range y) (b2z_range z)) as (E1&E2&E3).
    put x s1. rewrite (proj2 (Z.ltb_lt _ len)) by lia. rewrite !bind_assoc, !digit_back, !bind_assoc, digit_back, bind_assoc.
    put y s2. rewrite !bind_ret, !(proj2 (Z.ltb_lt _ len)) by lia. rewrite !bind_assoc, !digit_back, !bind_assoc, digit_back, bind_assoc.
    put z s3. rewrite !bind_ret. apply IH; [done|lia..].
Qed.

(** The padding loop ends and leaves the data followed by its padding. *)
Lemma pad_loop_Ok d s :
  wf s -> content s = d -> allocation s < 2 ^ 31 ->
  exists s', pad_loop 3 0 s = Ok (padding d) s' /\ wf s' /\ content s' = d ++ zeros (padding d).
Proof.
  intros Hw Hc Hal. pose proof (content_zlen s Hw) as Hl. rewrite Hc in Hl.
  enough (forall k fuel s d', wf s -> content s = d ++ zeros (Z.of_nat k) -> allocation s < 2 ^ 31 + 2 ^ 8 * Z.of_nat k ->
      Z.of_nat k <= padding d -> padding d < Z.of_nat k + Z.of_nat fuel ->
      d' = padding d -> exists s', pad_loop fuel (Z.of_nat k) s = Ok d' s' /\ wf s' /\ content s' = d ++ zeros (padding d)) as Hgen.
  { apply (Hgen 0%nat 3%nat); try done; [by rewrite app_nil_r|unfold padding; Z.to_euclidean_division_equations; lia..]. }
  clear s Hw Hc Hal Hl. intros k fuel s d'. revert k s. induction fuel as [|fuel IH]; intros k s Hw Hc Hal Hk Hf ->; [lia|].
  cbn [pad_loop]. rewrite bind_gets. pose proof (content_zlen s Hw) as Hl.
  rewrite Hc, zlen_app, zlen_zeros in Hl by lia. destruct (decide (Z.of_nat k = padding d)) as [E|Hne].
  - rewrite <-Hl, (proj2 (Z.eqb_eq _ 0)) by (unfold padding in *; Z.to_euclidean_division_equations; lia). cbn [negb].
    exists s. rewrite E in *. done.
  - rewrite <-Hl, (proj2 (Z.eqb_neq _ 0)) by (unfold padding in *; Z.to_euclidean_division_equations; lia). cbn [negb].
    assert (padding d < 3) by (unfold padding; Z.to_euclidean_division_equations; lia).
    destruct (addTrailer_spec s [x00]) as (s1&Ht&Hw1&Hc1&_&Ha1); [done|change (zlen [x00]) with 1; unfold BFSFLEXBUF_DEFAULT_PAD; lia|].
    mrun Ht. replace (Z.of_nat k + 1) with (Z.of_nat (S k)) by lia. apply IH; try done; [| |lia..].
    + rewrite Hc1, Hc, <-app_assoc. f_equal. unfold zeros. rewrite !Nat2Z.id. symmetry. apply (replicate_S_end k x00).
    + unfold BFSFLEXBUF_DEFAULT_PAD in Ha1. change (zlen [x00]) with 1 in Ha1. lia.
Qed.

Lemma pads_app k l : (2 <= List.length l)%nat -> pads (k ++ l) = pads l.
Proof. intros Hl. unfold pads. rewrite length_app, !lookup_app_r by lia. do 3 f_equal; lia. Qed.

Lemma is_pad_digit n k : is_pad (Some (digit (n / 64 ^ k mod 64))) = 0.
Proof.
  unfold is_pad. rewrite decide_False; [done|]. intros [= E]. by destruct (digit_legal _ (Z.mod_pos_bound (n / 64 ^ k) 64 eq_refl)).
Qed.

(** The texts the encoder makes are accepted by the decoder's checks. *)
Lemma rfc4648_shape d :
  zlen (rfc4648 d) = 4 * ((zlen d + 2) / 3) /\
  Forall (fun c => c ∈ BASE64_LEGAL_CHARS) (rfc4648 d) /\ (d <> [] -> pads (rfc4648 d) = padding d).
Proof.
  assert (pad_char ∈ BASE64_LEGAL_CHARS) as Hp by vm_decide.
  pose proof (fun n k => proj1 (digit_legal _ (Z.mod_pos_bound (n / 64 ^ k) 64 eq_refl))) as Hd.
  revert d. apply group_ind; [done|intros x|intros x y|intros x y z r (Hl&Hf&Hpd)].
  - split; [done|]. split; [cbn [rfc4648]; rewrite !Forall_cons, ?Forall_nil; split_and!; auto|]. intros _. unfold pads. cbn [rfc4648 List.length Nat.sub lookup list_lookup]. done.
  - split; [done|]. split; [cbn [rfc4648]; rewrite !Forall_cons, ?Forall_nil; split_and!; auto|]. intros _. unfold pads. cbn [rfc4648 List.length Nat.sub lookup list_lookup].
    by rewrite is_pad_digit.
  - cbn [rfc4648]. unfold zlen in *. cbn [List.length].
    split; [Z.to_euclidean_division_equations; lia|]. split; [cbn [rfc4648]; rewrite !Forall_cons, ?Forall_nil; split_and!; auto|]. intros _. rewrite padding_group.
    destruct (decide (r = [])) as [-> |Hr].
    + unfold pads. cbn [rfc4648 List.length Nat.sub lookup list_lookup]. by rewrite !is_pad_digit.
    + rewrite <-(Hpd Hr). apply (pads_app [_; _; _; _]). assert (0 < List.length r)%nat by (destruct r; [done|cbn; lia]).
      Z.to_euclidean_division_equations; lia.
Qed.

(** [resetWithAlloc] where the copy of [resizeAllocation] fits. *)
Lemma resetWithAlloc_Ok s sz h tl :
  wf s -> 0 <= sz -> 0 <= h -> 0 <= tl -> h + sz + tl < 2 ^ 32 ->
  length s <= sz + tl \/ h + sz + tl <= allocation s ->
  exists s', resetWithAlloc sz x00 h tl false s = Ok sz s' /\ wf s' /\ length s' = sz.
Proof.
  intros Hw ???? Hfit. unfold resetWithAlloc. rewrite bind_ret, bind_get.
  destruct (resize_if_ok s (negb (length s =? sz) || (hlength s <? h) || (tlength s <? tl)) h sz tl) as (s1&Hr&Hw1&Hl1&_); [done..|lia|].
  mrun Hr. rewrite bind_get. pose proof Hw1 as (?&?&?&?&_).
  destruct (store_ok s1 (hlength s1) (replicate (Z.to_nat sz) x00)) as (s2&Hs&Hw2&_&_&Hl2&_); [done|lia|rewrite zlen_replicate; lia|].
  mrun Hs. exists s2. by rewrite Hl2.
Qed.

(** The room the decoder's target needs; an empty buffer has it. *)
Definition can_hold (n : Z) (s : t) : Prop :=
  length s <= n + BFSFLEXBUF_DEFAULT_PAD \/ BFSFLEXBUF_DEFAULT_PAD + n + BFSFLEXBUF_DEFAULT_PAD <= allocation s.

(** [bfs_toBase64] computes the encoding of RFC 4648 without touching the
    buffer, and [bfs_fromBase64] of the text gives the bytes back. *)
Theorem base64_roundtrip buf tgt :
  wf buf -> wf tgt -> 0 < length buf < 2 ^ 30 -> can_hold (length buf) tgt ->
  bfs_toBase64 buf = Ok (rfc4648 (content buf), zlen (rfc4648 (content buf))) buf /\
  exists tgt', bfs_fromBase64 (rfc4648 (content buf)) tgt = Ok (length buf) tgt' /\
    wf tgt' /\ content tgt' = content buf.
Proof.
  intros Hw Hwt Hlen Hh. pose proof (content_zlen buf Hw) as Hl. set (d := content buf) in *.
  assert (d <> []) as Hne by (intros E; rewrite E in Hl; change (zlen []) with 0 in Hl; lia).
  destruct (rfc4648_shape d) as (Hel&Hleg&Hpd). specialize (Hpd Hne). split.
  - unfold bfs_toBase64. rewrite bind_get, (proj2 (Z.eqb_neq _ 0)) by lia.
    mrun (load_Ok _ _ _ _ (mem_get_content buf Hw)). fold d.
    destruct (setData_spec empty d) as (s1&Hs1&Hw1&Hc1&Ha1); [vm_decide|cbn [empty hlength tlength]; lia|].
    rewrite (bind_Ok _ _ _ _ _ Hs1).
    destruct (pad_loop_Ok d s1) as (s2&Hs2&Hw2&Hc2); [done|done| |].
    { rewrite Ha1; cbn [empty hlength tlength allocation]; lia. }
    rewrite Hs2, (mem_get_content s2 Hw2), bind_of_opt, Hc2. mrun (encode_loop_Ok buf d). done.
  - unfold bfs_fromBase64. rewrite decide_False by (intros E; rewrite E in Hel; unfold zlen in *; cbn in Hel; Z.to_euclidean_division_equations; lia).
    rewrite (proj2 (Z.eqb_eq _ 0)) by (rewrite Hel; Z.to_euclidean_division_equations; lia). cbn [negb].
    assert (forallb (fun c => bool_decide (c ∈ BASE64_LEGAL_CHARS)) (rfc4648 d) = true) as ->.
    { apply forallb_forall. intros c Hc. apply bool_decide_eq_true. rewrite Forall_forall in Hleg. apply Hleg. by apply list_elem_of_In. }
    cbn [negb]. assert (decoded_len (rfc4648 d) = length buf) as ->.
    { unfold decoded_len. rewrite Hpd, Hel. unfold padding. rewrite Hl, (u32_small (4 * _)) by (Z.to_euclidean_division_equations; lia).
      rewrite u32_small; Z.to_euclidean_division_equations; lia. }
    destruct (resetWithAlloc_Ok tgt (length buf) BFSFLEXBUF_DEFAULT_PAD BFSFLEXBUF_DEFAULT_PAD) as (t1&Ht1&Hwt1&Hlt1);
      [done|unfold BFSFLEXBUF_DEFAULT_PAD; lia..|exact Hh|].
    mrun Ht1. pose proof Hwt1 as (?&?&?&?&_). destruct (store_ok t1 (hlength t1 + 0) d) as (t2&Hst&Hwt2&Hm&Hhe&Hle&_); [done|lia..|].
    rewrite (bind_Ok _ _ _ () t2) by (rewrite decode_loop_Ok by (done || lia); exact Hst).
    exists t2. unfold gets. rewrite Hle, Hlt1. split_and!; [done..|]. apply content_intro; [done|].
    rewrite Hhe, Hle, Hlt1, <-Hl. rewrite Z.add_0_r in Hm. by eapply mem_get_set_eq.
Qed.

Lemma base64_roundtrip_witness :
  let buf := mk (Some [x66; x6f; x6f; x62]) 4 0 4 0 true in
  exists tgt, bfs_fromBase64 [x5a; x6d; x39; x76; x59; x67; x3d; x3d] empty = Ok 4 tgt /\ content tgt = content buf.
Proof.
  intros buf. destruct (base64_roundtrip buf empty) as (_&tgt&Hr&_&Hc); [vm_decide|vm_decide|subst buf; cbn [length]; lia|left; vm_decide|].
  exists tgt. split; [exact Hr|exact Hc].
Defined.

(** The decoder refuses a text whose length is not a multiple of four or that has
    a foreign character, and leaves the buffer; the empty text is decoded to as
    many zero bytes as the buffer held before. *)
Theorem base64_refuses enc s :
  (zlen enc mod 4 <> 0 \/ Exists (fun c => c ∉ BASE64_LEGAL_CHARS) enc ->
     exists m, bfs_fromBase64 enc s = Throw (bfsUtilError m) s) /\
  (wf s -> exists s', bfs_fromBase64 [] s = Ok 0 s' /\ content s' = zeros (length s)).
Proof.
  split.
  - intros Hbad. unfold bfs_fromBase64. rewrite decide_False; [|intros ->; destruct Hbad as [Hm|He]; [by vm_compute in Hm|inversion He]].
    destruct (Z.eqb_spec (zlen enc mod 4) 0); cbn [negb]; [|eexists; reflexivity].
    destruct Hbad as [|He]; [done|]. destruct (forallb _ enc) eqn:Hf; cbn [negb]; [|eexists; reflexivity].
    exfalso. rewrite forallb_forall in Hf. apply Exists_exists in He as (c&Hc&Hn). apply list_elem_of_In in Hc.
    apply Hf, bool_decide_eq_true in Hc. done.
  - intros (?&?&?&?&?&Hz&Hn). unfold bfs_fromBase64. rewrite decide_True by done. eexists. split; [reflexivity|].
    unfold content, mem. cbn. destruct (buffer s) as [b|] eqn:Hb; cbn.
    + unfold zeros. rewrite drop_replicate, take_replicate. f_equal. lia.
    + rewrite drop_nil, take_nil. assert (length s = 0) as -> by (specialize (Hn eq_refl); lia). done.
Qed.

Lemma base64_refuses_witness :
  exists s, bfs_fromBase64 [] (mk (Some [x01; x02; x03]) 3 0 3 0 true) = Ok 0 s /\ content s = [x00; x00; x00].
Proof. apply (base64_refuses [] (mk (Some [x01; x02; x03]) 3 0 3 0 true)). vm_decide. Defined.

End Base64.
