(* ===== verification/SecAssoc.v ===== *)
(** * Security associations

    Models [bfs_utils/bfsSecAssociation.cpp] and the key object of
    [bfs_utils/bfsCryptoKey.cpp] in the build without SGX: AES128-GCM and
    HMAC-SHA256 come from libgcrypt, which is the class [Cipher] with the
    documented behaviour [CipherLaws]; the random initialisation vector an
    operation draws is its argument. *)
From S2P Require Import Prelude Layout FlexBuffer.

(** ** The cipher library *)
Class Cipher := {
  gcm_encrypt : forall (key iv aad plain : bytes), bytes;
  gcm_decrypt : forall (key iv aad cipher : bytes), bytes;
  gcm_tag : forall (key iv aad cipher : bytes), bytes;
  hmac_sha256 : forall (key msg : bytes), bytes
}.

Class CipherLaws `{Cipher} : Prop := {
  decrypt_encrypt key iv aad p : gcm_decrypt key iv aad (gcm_encrypt key iv aad p) = p;
  encrypt_zlen key iv aad p : zlen (gcm_encrypt key iv aad p) = zlen p;
  decrypt_zlen key iv aad c : zlen (gcm_decrypt key iv aad c) = zlen c;
  tag_zlen key iv aad c : zlen (gcm_tag key iv aad c) = BFS_MAC_LEN;
  hmac_zlen key m : zlen (hmac_sha256 key m) = BFS_HMAC_LEN
}.

(** ** [bfsCryptoKey]: key data and the cipher handle's current tag *)
Module CryptoKey.
Section key.
Context `{Cipher}.

Record t := mk { keydat : bytes; cipherInitialized : bool; cur_tag : bytes }.

(** [gcry_cipher_setkey] uses the first 16 bytes of the key. *)
Definition cipher_key (k : t) : bytes := take 16 (keydat k).

Definition setKeyData (d : bytes) : t := mk d true [].

(** Encrypt (decrypt) and leave the tag in the handle. *)
Definition encryptData (k : t) (iv aad inp : bytes) : (bytes * t) + exn :=
  if cipherInitialized k then
    let c := gcm_encrypt (cipher_key k) iv aad inp in
    inl (c, mk (keydat k) true (gcm_tag (cipher_key k) iv aad c))
  else inr (bfsCryptoError "Attempting to encrypt using uninitialized crypto key, abort").

Definition decryptData (k : t) (iv aad inp : bytes) : (bytes * t) + exn :=
  if cipherInitialized k then
    inl (gcm_decrypt (cipher_key k) iv aad inp,
         mk (keydat k) true (gcm_tag (cipher_key k) iv aad inp))
  else inr (bfsCryptoError "Attempting to decrypt using uninitialized crypto key, abort").

(** [doMAC]: read the tag, or compare it. *)
Definition macData (k : t) : bytes + exn :=
  if cipherInitialized k then inl (cur_tag k)
  else inr (bfsCryptoError "Attempting to doMAC using uninitialized crypto key, abort").

Definition verifyMac (k : t) (macval : bytes) : () + exn :=
  if cipherInitialized k then
    if decide (macval = cur_tag k) then inl ()
    else inr (bfsCryptoError "gcrypt MAC verification failure: ")
  else inr (bfsCryptoError "Attempting to doMAC using uninitialized crypto key, abort").

(** [hmacData]: [len] bytes of each child, [mac_size] bytes of the result.
    [None]: a read outside a child's buffer. *)
Definition hmacData (k : t) (left right : bytes) (len : Z) : option bytes :=
  l ← mem_get 0 len left;
  r ← mem_get 0 len right;
  Some (hmac_sha256 (cipher_key k) (l ++ r)).

End key.
End CryptoKey.

(** ** [bfsSecAssociation] *)
Module SecAssoc.
Import FlexBuffer.
Section sa.
Context `{Cipher}.

(** The association's key and IV scratch buffer, with the two buffers a call
    works on ([buf] and, for the two-buffer calls, [out]). *)
Record st := mkst { saKey : option CryptoKey.t; iv : FlexBuffer.t; buf : FlexBuffer.t; out : FlexBuffer.t }.

Definition lift {A} (prj : st -> FlexBuffer.t) (upd : FlexBuffer.t -> st -> st)
    (m : M FlexBuffer.t A) : M st A := fun s =>
  match m (prj s) with
  | Ok a b => Ok a (upd b s)
  | Throw e b => Throw e (upd b s)
  | Crash c => Crash c
  end.

Definition on_iv {A} : M FlexBuffer.t A -> M st A :=
  lift iv (fun b s => mkst (saKey s) b (buf s) (out s)).
Definition on_buf {A} : M FlexBuffer.t A -> M st A :=
  lift buf (fun b s => mkst (saKey s) (iv s) b (out s)).
Definition on_out {A} : M FlexBuffer.t A -> M st A :=
  lift out (fun b s => mkst (saKey s) (iv s) (buf s) b).

Definition set_key (k : CryptoKey.t) : M st () :=
  modify (fun s => mkst (Some k) (iv s) (buf s) (out s)).

Definition of_sum {S A} (r : A + exn) : M S A :=
  match r with inl a => mret a | inr e => throw e end.

Definition the_key (msg : string) : M st CryptoKey.t :=
  k ← gets saKey;
  match k with Some k => mret k | None => throw (bfsCryptoError msg) end.

(** [size_t padsz] bytes, each of value [padsz]. *)
Definition pad_size (len : Z) : Z :=
  if len mod BFS_CIPHER_BLK =? 0 then BFS_CIPHER_BLK else BFS_CIPHER_BLK - len mod BFS_CIPHER_BLK.

Definition addPKCS7Padding : M FlexBuffer.t Z :=
  len ← gets length;
  let padsz := pad_size len in
  addTrailer (replicate (Z.to_nat padsz) (z2b padsz)) ;; mret padsz.

(** A [char] is signed: a last byte of 128 or more becomes a huge [size_t]. *)
Definition char_to_size (b : byte) : Z :=
  let z := b2z b in if z <? 128 then z else u64 (z - 256).

Definition removePKCS7Padding : M FlexBuffer.t Z :=
  s ← get;
  b ← load (hlength s + u32 (length s - 1)) 1;
  let padsz := char_to_size (default Byte.x00 (head b)) in
  if BFS_CIPHER_BLK <? padsz then throw (bfsCryptoError "Bad PKCS#7 padding")
  else removeTrailer padsz ;; mret padsz.

(** The whole data area, and an in-place overwrite of it. *)
Definition get_content : M FlexBuffer.t bytes := s ← get; load (hlength s) (length s).
Definition put_content (d : bytes) : M FlexBuffer.t () := s ← get; store (hlength s) d.

(** [macData]: room for the tag as a trailer, then the tag in it. *)
Definition macData_on (k : CryptoKey.t) : M FlexBuffer.t () :=
  s ← get;
  if length s <=? BFS_CIPHER_BLK then
    throw (bfsCryptoError "sec association failure short buffer on MAC (macData)")
  else
    let len := length s - BFS_IV_LEN in
    addTrailer (zeros BFS_MAC_LEN) ;;
    s ← get;
    tag ← of_sum (CryptoKey.macData k);
    store (hlength s + BFS_IV_LEN + len) tag.

(** In-place [encryptData]; [rnd] is what [get_random_data] produced. *)
Definition encryptData (aad : option bytes) (mac : bool) (rnd : bytes) : M st () :=
  k ← the_key "Attempting to encrypt using security with NULL key";
  on_buf addPKCS7Padding ;;
  on_iv (resetWithAlloc BFS_IV_LEN Byte.x00 BFSFLEXBUF_DEFAULT_PAD BFSFLEXBUF_DEFAULT_PAD false) ;;
  on_iv (put_content rnd) ;;
  p ← on_buf get_content;
  ck ← of_sum (CryptoKey.encryptData k rnd (default [] aad) p);
  set_key ck.2 ;;
  on_buf (put_content ck.1) ;;
  v ← on_iv get_content;
  on_buf (addHeader v) ;;
  if mac then on_buf (macData_on ck.2) else mret ().

(** Two-buffer [encryptData]: the ciphertext goes to [out], [buf] is restored. *)
Definition encryptData_out (aad : option bytes) (mac : bool) (rnd : bytes) : M st () :=
  k ← the_key "Attempting to encrypt using security with NULL key";
  on_buf addPKCS7Padding ;;
  n ← on_buf (gets length);
  on_out (resetWithAlloc n Byte.x00 BFSFLEXBUF_DEFAULT_PAD BFSFLEXBUF_DEFAULT_PAD false) ;;
  on_iv (resetWithAlloc BFS_IV_LEN Byte.x00 BFSFLEXBUF_DEFAULT_PAD BFSFLEXBUF_DEFAULT_PAD false) ;;
  on_iv (put_content rnd) ;;
  p ← on_buf get_content;
  ck ← of_sum (CryptoKey.encryptData k rnd (default [] aad) p);
  set_key ck.2 ;;
  on_out (put_content ck.1) ;;
  v ← on_iv get_content;
  on_out (addHeader v) ;;
  on_buf removePKCS7Padding ;;
  if mac then on_out (macData_on ck.2) else mret ().

(** Remove the tag and the IV and decrypt in place: the part of [decryptData]
    before the tag is checked. *)
Definition decrypt_raw (aad : option bytes) (mac : bool) : M st (option bytes * CryptoKey.t) :=
  k ← the_key "Attempting to decrypt using security with NULL key";
  tag ← (if mac then r ← on_buf (removeTrailer BFS_MAC_LEN); mret (Some r.1) else mret None);
  on_iv (resetWithAlloc BFS_IV_LEN Byte.x00 BFSFLEXBUF_DEFAULT_PAD BFSFLEXBUF_DEFAULT_PAD false) ;;
  v ← on_buf (removeHeader BFS_IV_LEN);
  on_iv (put_content v.1) ;;
  c ← on_buf get_content;
  pk ← of_sum (CryptoKey.decryptData k v.1 (default [] aad) c);
  set_key pk.2 ;;
  on_buf (put_content pk.1) ;;
  mret (tag, pk.2).

(** In-place [decryptData]; the tag removed is the result ([mac_out]). *)
Definition decryptData (aad : option bytes) (mac : bool) : M st (option bytes) :=
  tk ← decrypt_raw aad mac;
  (match tk.1 with Some t => of_sum (CryptoKey.verifyMac tk.2 t) | None => mret () end) ;;
  on_buf removePKCS7Padding ;;
  mret tk.1.

(** Two-buffer [decryptData]: the plaintext goes to [out]. *)
Definition decryptData_out (aad : option bytes) (mac : bool) : M st (option bytes) :=
  k ← the_key "Attempting to decrypt using security with NULL key";
  tag ← (if mac then r ← on_buf (removeTrailer BFS_MAC_LEN); mret (Some r.1) else mret None);
  on_iv (resetWithAlloc BFS_IV_LEN Byte.x00 BFSFLEXBUF_DEFAULT_PAD BFSFLEXBUF_DEFAULT_PAD false) ;;
  v ← on_buf (removeHeader BFS_IV_LEN);
  on_iv (put_content v.1) ;;
  c ← on_buf get_content;
  on_out (resetWithAlloc (zlen c) Byte.x00 BFSFLEXBUF_DEFAULT_PAD BFSFLEXBUF_DEFAULT_PAD false) ;;
  pk ← of_sum (CryptoKey.decryptData k v.1 (default [] aad) c);
  set_key pk.2 ;;
  on_out (put_content pk.1) ;;
  (match tag with Some t => of_sum (CryptoKey.verifyMac pk.2 t) | None => mret () end) ;;
  on_out removePKCS7Padding ;;
  mret tag.

(** The block calls: no padding, IV and tag outside the buffer.  The buffer's
    data area is a plain byte list here.  Result: ciphertext, IV, tag. *)
Definition encryptData2 (k : option CryptoKey.t) (aad b rnd : bytes) :
    (CryptoKey.t * bytes * bytes * bytes) + exn :=
  match k with
  | None => inr (bfsCryptoError "Attempting to encrypt using security with NULL key")
  | Some k =>
      match CryptoKey.encryptData k rnd aad b with
      | inr e => inr e
      | inl (c, k) =>
          match CryptoKey.macData k with
          | inl tag => inl (k, c, rnd, tag)
          | inr e => inr e
          end
      end
  end.

(** On a tag mismatch the exception leaves the decrypted bytes in the buffer. *)
Definition decryptData2 (k : option CryptoKey.t) (aad b iv mac : bytes) :
    (CryptoKey.t * bytes) + exn :=
  match k with
  | None => inr (bfsCryptoError "Attempting to decrypt using security with NULL key")
  | Some k =>
      match CryptoKey.decryptData k iv aad b with
      | inr e => inr e
      | inl (p, k) =>
          match CryptoKey.verifyMac k mac with
          | inl _ => inl (k, p)
          | inr e => inr e
          end
      end
  end.

(** ** Lemmas on the single-buffer steps *)
Lemma pad_size_range n : 1 <= pad_size n <= 16.
Proof.
  unfold pad_size, BFS_CIPHER_BLK. pose proof (Z.mod_pos_bound n 16).
  destruct (n mod 16 =? 0) eqn:?; lia.
Qed.

(** Data and padding fill at least one cipher block, and whole blocks. *)
Lemma pad_total n : 0 <= n -> 16 <= n + pad_size n /\ (n + pad_size n) mod BFS_CIPHER_BLK = 0.
Proof.
  intros. unfold pad_size, BFS_CIPHER_BLK.
  destruct (n mod 16 =? 0) eqn:?; Z.to_euclidean_division_equations; lia.
Qed.

Definition pad_bytes (n : Z) : bytes := replicate (Z.to_nat (pad_size n)) (z2b (pad_size n)).

Lemma pad_bytes_zlen n : zlen (pad_bytes n) = pad_size n.
Proof. pose proof (pad_size_range n). unfold pad_bytes. rewrite zlen_replicate. lia. Qed.

Lemma addPKCS7_spec s :
  wf s -> allocation s + 48 < 2 ^ 32 ->
  exists s', addPKCS7Padding s = Ok (pad_size (length s)) s' /\ wf s' /\
    content s' = content s ++ pad_bytes (length s) /\ buffer s' <> None /\
    allocation s' <= allocation s + 48.
Proof.
  intros Hw Ha. pose proof (pad_size_range (length s)). pose proof (pad_bytes_zlen (length s)) as Hp.
  destruct (addTrailer_spec s (pad_bytes (length s))) as (s'&Hr&?&?&Hn&?);
    [done|unfold BFSFLEXBUF_DEFAULT_PAD; lia|].
  exists s'. unfold addPKCS7Padding. step (gets_Ok length s). fold (pad_bytes (length s)).
  step Hr. split_and!; try done.
  - apply Hn. left. intros E. rewrite E in Hp. unfold zlen in Hp. simpl in Hp. lia.
  - unfold BFSFLEXBUF_DEFAULT_PAD in *. lia.
Qed.

Lemma char_to_size_small z : 0 <= z < 128 -> char_to_size (z2b z) = z.
Proof. intros. unfold char_to_size. rewrite b2z_z2b by lia. destruct (z <? 128) eqn:?; lia. Qed.

Lemma load_content s i n :
  wf s -> 0 <= i -> 0 <= n -> i + n <= length s ->
  load (hlength s + i) n s = Ok (take (Z.to_nat n) (drop (Z.to_nat i) (content s))) s.
Proof.
  intros Hw ???. apply load_Ok. pose proof Hw as (?&?&?&?&?&?&?).
  unfold mem_get. rewrite decide_True by lia. unfold content.
  rewrite skipn_firstn_comm, drop_drop, take_take. do 2 f_equal; [lia|f_equal; lia].
Qed.

Lemma removePKCS7_spec s p :
  wf s -> buffer s <> None -> content s = p ++ pad_bytes (zlen p) ->
  exists s', removePKCS7Padding s = Ok (pad_size (zlen p)) s' /\ wf s' /\ content s' = p /\
    buffer s' <> None /\ allocation s' = allocation s.
Proof.
  intros Hw Hb Hc. pose proof (pad_size_range (zlen p)). pose proof (zlen_nonneg p).
  pose proof (content_zlen s Hw) as Hl. rewrite Hc, zlen_app, pad_bytes_zlen in Hl.
  unfold removePKCS7Padding. step (get_Ok s). pose proof Hw as (?&?&?&?&?&?&?).
  rewrite u32_small by lia. step (load_content s (length s - 1) 1 Hw ltac:(lia) ltac:(lia) ltac:(lia)).
  assert (head (take (Z.to_nat 1) (drop (Z.to_nat (length s - 1)) (content s)))
          = Some (z2b (pad_size (zlen p)))) as ->.
  { rewrite head_lookup, lookup_take_lt, lookup_drop, Hc by lia.
    unfold zlen in *. rewrite lookup_app_r by lia. unfold pad_bytes.
    apply lookup_replicate_2. lia. }
  cbn [default from_option id]. rewrite char_to_size_small by lia.
  unfold BFS_CIPHER_BLK. destruct (16 <? pad_size (zlen p)) eqn:?; [lia|].
  destruct (removeTrailer_spec s (pad_size (zlen p))) as (s'&Hr&?&Hc'&?&?); [done|done|lia|].
  exists s'. step Hr. split_and!; try done. rewrite Hc', Hc. apply take_app_length'.
  unfold zlen in *. lia.
Qed.

Lemma get_content_spec s : wf s -> get_content s = Ok (content s) s.
Proof. intros Hw. unfold get_content. step (get_Ok s). by apply load_Ok, mem_get_content. Qed.

Lemma put_content_spec s d :
  wf s -> zlen d = length s ->
  exists s', put_content d s = Ok () s' /\ wf s' /\ content s' = d /\ length s' = length s /\
    allocation s' = allocation s /\ (buffer s <> None -> buffer s' <> None).
Proof.
  intros Hw Hd. unfold put_content. step (get_Ok s). pose proof Hw as (?&?&?&?&?&?&?).
  destruct (store_ok s (hlength s) d) as (s'&Hr&Hw'&Hm&Hh&Hl&?&?&?&Hn); [done|lia..|].
  exists s'. split_and!; try done; [|by rewrite <-Hn]. apply content_intro; [done|].
  rewrite Hh, Hl, <-Hd. by eapply mem_get_set_eq.
Qed.

Lemma reset_spec s sz fill hp tp :
  wf s -> 0 <= sz -> 0 <= hp -> 0 <= tp -> hp + sz + tp < 2 ^ 32 ->
  length s <= sz + tp \/ hp + sz + tp <= allocation s ->
  exists s', resetWithAlloc sz fill hp tp false s = Ok sz s' /\ wf s' /\
    content s' = replicate (Z.to_nat sz) fill /\ length s' = sz /\
    (0 < hp + sz + tp -> buffer s' <> None) /\ allocation s' < 2 ^ 32 /\
    hp + sz + tp <= allocation s' <= Z.max (allocation s) (hp + sz + tp).
Proof.
  intros Hw ????  Hfit. pose proof Hw as (?&?&?&?&?&?&?). unfold resetWithAlloc.
  step (eq_refl : (mret () : M t ()) s = Ok () s). step (get_Ok s).
  destruct (resize_ok s hp sz tp) as (r&s1&Hr&Hw1&Hl1&Hh1&Ht1&Hg1&Hs1&Hle1&Hn1); try done.
  set (c := negb (length s =? sz) || (hlength s <? hp) || (tlength s <? tp)).
  assert (exists s2, (if c then resizeAllocation hp sz tp ;; mret () else mret ()) s = Ok () s2 /\
    wf s2 /\ length s2 = sz /\ (0 < hp + sz + tp -> buffer s2 <> None) /\
    hp + sz + tp <= allocation s2 <= Z.max (allocation s) (hp + sz + tp))
    as (s2&Hr2&Hw2&Hl2&Hn2&Ha2).
  { destruct c eqn:Hc; unfold c in Hc.
    - exists s1. step Hr. split_and!; try done; destruct Hw1 as (?&?&?&?&?&?&?); [lia|].
      destruct (decide (hp + sz + tp <= allocation s)) as [Hle|Hgt];
        [destruct (Hle1 Hle)|destruct Hg1 as (?&?&?&?)]; lia.
    - exists s. assert (length s = sz) by lia. split_and!; try done; try lia. intros ? Hb.
      assert (allocation s = 0) by auto. lia. }
  step Hr2. step (get_Ok s2). pose proof Hw2 as (?&?&?&?&?&?&?).
  destruct (store_ok s2 (hlength s2) (replicate (Z.to_nat sz) fill))
    as (s3&Hr3&Hw3&Hm3&Hh3&Hl3&?&Ha3&?&Hn3); [done|lia|rewrite zlen_replicate; lia|].
  step Hr3. exists s3. split_and!; try done; [|lia|by rewrite <-Hn3|lia..].
  apply content_intro; [done|]. rewrite Hh3, Hl3, Hl2.
  pose proof (mem_get_set_eq _ _ _ _ Hm3) as Hg. rewrite zlen_replicate, Z2Nat.id in Hg by lia.
  exact Hg.
Qed.

(** A buffer between two uses as the target of a default reset: it is empty or
    was given room by an earlier one. *)
Definition roomy (b : t) : Prop := wf b /\ (length b = 0 \/ length b + 32 <= allocation b).

Lemma roomy_empty : roomy empty.
Proof. split; [done|by left]. Qed.

(** A buffer that can be reset to [n] bytes: its old data fits into what it is
    given, or it need not grow. *)
Definition room_for (n : Z) (b : t) : Prop := wf b /\ (length b <= n + 32 \/ n + 64 <= allocation b).

Lemma roomy_for n b : roomy b -> 0 <= n -> room_for n b.
Proof. intros [Hw Hr] Hn. split; [done|]. lia. Qed.

Lemma reset_default b n :
  room_for n b -> 0 <= n -> n + 64 < 2 ^ 32 ->
  exists b', resetWithAlloc n Byte.x00 BFSFLEXBUF_DEFAULT_PAD BFSFLEXBUF_DEFAULT_PAD false b = Ok n b' /\
    wf b' /\ length b' = n /\ content b' = zeros n /\ buffer b' <> None /\
    n + 64 <= allocation b' <= Z.max (allocation b) (n + 64).
Proof.
  intros [Hw Hr] ??. unfold BFSFLEXBUF_DEFAULT_PAD.
  destruct (reset_spec b n Byte.x00 32 32) as (b'&?&?&?&?&Hn&?&?); [done|lia..|].
  exists b'. split_and!; try done; [apply Hn|..]; lia.
Qed.

Lemma macData_on_spec s k :
  wf s -> buffer s <> None -> BFS_CIPHER_BLK < length s -> allocation s + 48 < 2 ^ 32 ->
  CryptoKey.cipherInitialized k = true -> zlen (CryptoKey.cur_tag k) = BFS_MAC_LEN ->
  exists s', macData_on k s = Ok () s' /\ wf s' /\ content s' = content s ++ CryptoKey.cur_tag k /\
    buffer s' <> None /\ allocation s <= allocation s' <= allocation s + 48.
Proof.
  intros Hw Hb Hlen Ha Hi Htag. unfold macData_on. step (get_Ok s).
  unfold BFS_CIPHER_BLK, BFS_MAC_LEN, BFS_IV_LEN in *.
  destruct (length s <=? 16) eqn:?; [lia|].
  destruct (addTrailer_spec s (zeros 16)) as (s1&Hr1&Hw1&Hc1&Hn1&Ha1);
    [done|rewrite zlen_zeros by lia; unfold BFSFLEXBUF_DEFAULT_PAD; lia|].
  step Hr1. step (get_Ok s1). unfold CryptoKey.macData. rewrite Hi. cbn [of_sum].
  step (eq_refl : (mret (CryptoKey.cur_tag k) : M t bytes) s1 = Ok (CryptoKey.cur_tag k) s1).
  pose proof (content_zlen s1 Hw1) as Hl1. rewrite Hc1, zlen_app, (content_zlen s Hw), zlen_zeros in Hl1 by lia.
  pose proof Hw1 as (?&?&?&?&?&?&?). pose proof Hw as (?&?&?&?&?&?&?).
  destruct (store_ok s1 (hlength s1 + 12 + (length s - 12)) (CryptoKey.cur_tag k))
    as (s2&Hr2&Hw2&Hm2&Hh2&Hl2&?&Ha2&?&Hn2); [done|lia|lia|].
  exists s2. rewrite zlen_zeros in Ha1 by lia. unfold BFSFLEXBUF_DEFAULT_PAD in Ha1.
  split_and!; try done; [|rewrite <-Hn2; auto|lia..].
  apply content_intro; [done|]. rewrite Hh2, Hl2, <-Hl1.
  apply mem_get_split.
  - rewrite (mem_get_set_ne _ _ _ _ _ _ Hm2) by lia.
    pose proof (mem_get_content s1 Hw1) as Hg. rewrite Hc1 in Hg.
    apply mem_get_Some in Hg as (?&?&?&Hz&Hg).
    unfold mem_get. rewrite decide_True by lia. f_equal.
    apply (f_equal (take (Z.to_nat (length s)))) in Hg.
    rewrite take_app_length', take_take in Hg.
    + rewrite Hg. f_equal. lia.
    + pose proof (content_zlen s Hw). unfold zlen in *. lia.
  - replace (hlength s1 + length s) with (hlength s1 + 12 + (length s - 12)) by lia.
    rewrite <-Htag. by eapply mem_get_set_eq.
Qed.

Lemma on_iv_Ok {A} (m : M t A) s a b :
  m (iv s) = Ok a b -> on_iv m s = Ok a (mkst (saKey s) b (buf s) (out s)).
Proof. unfold on_iv, lift. by intros ->. Qed.

Lemma on_buf_Ok {A} (m : M t A) s a b :
  m (buf s) = Ok a b -> on_buf m s = Ok a (mkst (saKey s) (iv s) b (out s)).
Proof. unfold on_buf, lift. by intros ->. Qed.

Lemma on_out_Ok {A} (m : M t A) s a b :
  m (out s) = Ok a b -> on_out m s = Ok a (mkst (saKey s) (iv s) (buf s) b).
Proof. unfold on_out, lift. by intros ->. Qed.

Lemma ret_Ok {S A} (a : A) (s : S) : (mret a : M S A) s = Ok a s.
Proof. done. Qed.

Lemma the_key_Ok msg s k : saKey s = Some k -> the_key msg s = Ok k s.
Proof. intros Hk. unfold the_key, gets, mbind, M_bind. by rewrite Hk. Qed.

Lemma set_key_Ok k s : set_key k s = Ok () (mkst (Some k) (iv s) (buf s) (out s)).
Proof. done. Qed.

(** The IV scratch buffer between calls. *)
Definition iv_ok (s : st) : Prop := wf (iv s) /\ length (iv s) <= 44.

(** Run one step on a component buffer, [H] its result there. *)
Ltac bstep H :=
  match goal with
  | |- context [(on_buf ?m ≫= ?k) ?st] => rewrite (bind_Ok (on_buf m) k st _ _ (on_buf_Ok m st _ _ H))
  | |- context [(on_iv ?m ≫= ?k) ?st] => rewrite (bind_Ok (on_iv m) k st _ _ (on_iv_Ok m st _ _ H))
  | |- context [(on_out ?m ≫= ?k) ?st] => rewrite (bind_Ok (on_out m) k st _ _ (on_out_Ok m st _ _ H))
  end; cbn beta; cbn [saKey iv buf out].

Ltac bclose H :=
  match goal with
  | |- on_buf ?m ?st = _ => exact (on_buf_Ok m st _ _ H)
  | |- on_out ?m ?st = _ => exact (on_out_Ok m st _ _ H)
  end.

Lemma iv_reset s :
  iv_ok s -> exists b, resetWithAlloc BFS_IV_LEN Byte.x00 BFSFLEXBUF_DEFAULT_PAD
      BFSFLEXBUF_DEFAULT_PAD false (iv s) = Ok BFS_IV_LEN b /\ wf b /\ length b = BFS_IV_LEN.
Proof.
  intros [Hw Hl]. unfold BFS_IV_LEN, BFSFLEXBUF_DEFAULT_PAD.
  destruct (reset_spec (iv s) 12 Byte.x00 32 32) as (b&Hr&Hwb&_&Hlb&_); [done|lia..|by exists b].
Qed.

Context {laws : CipherLaws}.

(** What [encryptData] leaves in the buffer: IV, ciphertext of the padded
    data, and the tag when asked for. *)
Definition sealed (k : CryptoKey.t) (aad rnd p : bytes) (mac : bool) : bytes :=
  let ck := CryptoKey.cipher_key k in
  let c := gcm_encrypt ck rnd aad (p ++ pad_bytes (zlen p)) in
  rnd ++ c ++ (if mac then gcm_tag ck rnd aad c else []).

Lemma encryptData_spec s k aad mac rnd :
  saKey s = Some k -> CryptoKey.cipherInitialized k = true -> zlen rnd = BFS_IV_LEN ->
  iv_ok s -> wf (buf s) -> allocation (buf s) + 200 < 2 ^ 32 ->
  exists s', encryptData aad mac rnd s = Ok () s' /\ iv_ok s' /\ wf (buf s') /\
    buffer (buf s') <> None /\
    content (buf s') = sealed k (default [] aad) rnd (content (buf s)) mac /\
    exists t, saKey s' = Some (CryptoKey.mk (CryptoKey.keydat k) true t).
Proof.
  intros Hk Hi Hrnd Hiv Hw Ha. unfold encryptData. step (the_key_Ok
    "Attempting to encrypt using security with NULL key" s k Hk).
  destruct (addPKCS7_spec (buf s)) as (b1&Hr1&Hw1&Hc1&Hn1&Ha1); [done|lia|]. bstep Hr1.
  destruct (iv_reset s Hiv) as (v1&Hv1&Hwv1&Hlv1). bstep Hv1.
  destruct (put_content_spec v1 rnd) as (v2&Hv2&Hwv2&Hcv2&Hlv2&_); [done|congruence|]. bstep Hv2.
  bstep (get_content_spec b1 Hw1).
  unfold CryptoKey.encryptData. rewrite Hi. cbn [of_sum]. rewrite (bind_Ok _ _ _ _ _ (ret_Ok _ _)).
  cbn [fst snd]. set (c := gcm_encrypt (CryptoKey.cipher_key k) rnd (default [] aad) (content b1)).
  rewrite (bind_Ok _ _ _ _ _ (set_key_Ok _ _)). cbn [saKey iv buf out].
  destruct (put_content_spec b1 c) as (b2&Hr2&Hw2&Hc2&Hl2&Ha2&Hn2);
    [done|unfold c; rewrite encrypt_zlen; by apply content_zlen|]. bstep Hr2.
  bstep (get_content_spec v2 Hwv2). rewrite Hcv2.
  destruct (addHeader_spec b2 rnd) as (b3&Hr3&Hw3&Hc3&Hn3&Ha3);
    [done|unfold BFSFLEXBUF_DEFAULT_PAD, BFS_IV_LEN in *; lia|]. bstep Hr3.
  assert (c = gcm_encrypt (CryptoKey.cipher_key k) rnd (default [] aad)
    (content (buf s) ++ pad_bytes (zlen (content (buf s))))) as Hc by
    (unfold c; by rewrite Hc1, content_zlen).
  unfold sealed. rewrite <-Hc. unfold iv_ok, BFS_IV_LEN, BFSFLEXBUF_DEFAULT_PAD in *.
  destruct mac.
  - destruct (macData_on_spec b3 {| CryptoKey.keydat := CryptoKey.keydat k;
        CryptoKey.cipherInitialized := true;
        CryptoKey.cur_tag := gcm_tag (CryptoKey.cipher_key k) rnd (default [] aad) c |})
      as (b4&Hr4&Hw4&Hc4&Hn4&_); [done|auto|..].
    + rewrite <-(content_zlen b3 Hw3), Hc3, zlen_app, Hrnd, Hc2.
      unfold c. rewrite encrypt_zlen, Hc1, zlen_app, pad_bytes_zlen.
      pose proof (zlen_nonneg (content (buf s))). rewrite <-(content_zlen _ Hw).
      pose proof (pad_total (zlen (content (buf s)))). unfold BFS_CIPHER_BLK. lia.
    + lia.
    + done.
    + apply tag_zlen.
    + eexists. split; [bclose Hr4|]. cbn [saKey iv buf out].
      split_and!; try done; [lia| |by eexists]. by rewrite Hc4, Hc3, Hc2, <-app_assoc.
  - eexists. split; [reflexivity|]. cbn [saKey iv buf out].
    split_and!; try done; [lia|auto| |by eexists]. by rewrite Hc3, Hc2, app_nil_r.
Qed.

(** Two buffers: the same bytes in [out], and [buf] as it was. *)
Lemma encryptData_out_spec s k aad rnd :
  saKey s = Some k -> CryptoKey.cipherInitialized k = true -> zlen rnd = BFS_IV_LEN ->
  iv_ok s -> wf (buf s) -> allocation (buf s) + 300 < 2 ^ 32 ->
  roomy (out s) -> allocation (out s) + 200 < 2 ^ 32 ->
  exists s', encryptData_out aad true rnd s = Ok () s' /\ iv_ok s' /\
    wf (buf s') /\ content (buf s') = content (buf s) /\ allocation (buf s') <= allocation (buf s) + 48 /\
    roomy (out s') /\ buffer (out s') <> None /\
    content (out s') = sealed k (default [] aad) rnd (content (buf s)) true /\
    allocation (out s') <= Z.max (allocation (out s)) (allocation (buf s) + 112) + 92 /\
    exists t, saKey s' = Some (CryptoKey.mk (CryptoKey.keydat k) true t).
Proof.
  intros Hk Hi Hrnd Hiv Hw Ha Hro Hao. unfold encryptData_out.
  step (the_key_Ok "Attempting to encrypt using security with NULL key" s k Hk).
  destruct (addPKCS7_spec (buf s)) as (b1&Hr1&Hw1&Hc1&Hn1&Ha1); [done|lia|]. bstep Hr1.
  bstep (gets_Ok length b1). pose proof Hw1 as (?&?&?&?&?&?&?).
  destruct (reset_default (out s) (length b1)) as (o1&Ho1&Hwo1&Hlo1&_&Hno1&Hao1); [apply roomy_for; [done|lia]|lia..|].
  bstep Ho1. destruct (iv_reset s Hiv) as (v1&Hv1&Hwv1&Hlv1). bstep Hv1.
  destruct (put_content_spec v1 rnd) as (v2&Hv2&Hwv2&Hcv2&Hlv2&_); [done|congruence|]. bstep Hv2.
  bstep (get_content_spec b1 Hw1).
  unfold CryptoKey.encryptData. rewrite Hi. cbn [of_sum]. rewrite (bind_Ok _ _ _ _ _ (ret_Ok _ _)).
  cbn [fst snd]. set (c := gcm_encrypt (CryptoKey.cipher_key k) rnd (default [] aad) (content b1)).
  rewrite (bind_Ok _ _ _ _ _ (set_key_Ok _ _)). cbn [saKey iv buf out].
  assert (zlen c = length b1) as Hzc by (unfold c; rewrite encrypt_zlen; by apply content_zlen).
  destruct (put_content_spec o1 c) as (o2&Ho2&Hwo2&Hco2&Hlo2&Hao2&Hno2); [done|congruence|]. bstep Ho2.
  bstep (get_content_spec v2 Hwv2). rewrite Hcv2.
  destruct (addHeader_spec o2 rnd) as (o3&Ho3&Hwo3&Hco3&Hno3&Hao3);
    [done|unfold BFSFLEXBUF_DEFAULT_PAD, BFS_IV_LEN in *; lia|]. bstep Ho3.
  destruct (removePKCS7_spec b1 (content (buf s))) as (b2&Hr2&Hw2&Hc2&Hn2&Ha2);
    [done|done|by rewrite Hc1, content_zlen|]. bstep Hr2.
  pose proof (content_zlen o3 Hwo3) as Hl3. rewrite Hco3, Hco2, zlen_app, Hrnd, Hzc in Hl3.
  assert (16 <= length b1) as Hl16.
  { rewrite <-(content_zlen _ Hw1), Hc1, zlen_app, pad_bytes_zlen, <-(content_zlen _ Hw).
    pose proof (zlen_nonneg (content (buf s))). pose proof (pad_total (zlen (content (buf s)))). lia. }
  unfold BFS_IV_LEN, BFSFLEXBUF_DEFAULT_PAD in *.
  destruct (macData_on_spec o3 {| CryptoKey.keydat := CryptoKey.keydat k;
      CryptoKey.cipherInitialized := true;
      CryptoKey.cur_tag := gcm_tag (CryptoKey.cipher_key k) rnd (default [] aad) c |})
    as (o4&Ho4&Hwo4&Hco4&Hno4&Hao4); [done|auto|unfold BFS_CIPHER_BLK; lia|lia|done|apply tag_zlen|].
  eexists. split; [bclose Ho4|]. cbn [saKey iv buf out]. unfold iv_ok. cbn [iv].
  assert (roomy o4) as Hro4.
  { split; [done|right]. rewrite <-(content_zlen o4), Hco4, zlen_app, (content_zlen o3) by done.
    cbn [CryptoKey.cur_tag]. rewrite tag_zlen. unfold BFS_MAC_LEN. lia. }
  assert (length v2 <= 44) by lia. assert (allocation b2 <= allocation (buf s) + 48) by lia.
  assert (allocation o4 <= Z.max (allocation (out s)) (allocation (buf s) + 112) + 92) by lia.
  assert (content o4 = sealed k (default [] aad) rnd (content (buf s)) true).
  { rewrite Hco4, Hco3, Hco2, <-app_assoc. unfold sealed, c. by rewrite Hc1, content_zlen. }
  naive_solver.
Qed.

Lemma decrypt_raw_spec s k aad mac v c t :
  saKey s = Some k -> CryptoKey.cipherInitialized k = true -> iv_ok s ->
  wf (buf s) -> buffer (buf s) <> None -> zlen v = BFS_IV_LEN -> zlen t = BFS_MAC_LEN ->
  content (buf s) = v ++ c ++ (if mac : bool then t else []) ->
  let ck := CryptoKey.cipher_key k in
  let k' := CryptoKey.mk (CryptoKey.keydat k) true (gcm_tag ck v (default [] aad) c) in
  exists s', decrypt_raw aad mac s = Ok (if mac then Some t else None, k') s' /\
    iv_ok s' /\ wf (buf s') /\ buffer (buf s') <> None /\ saKey s' = Some k' /\
    content (buf s') = gcm_decrypt ck v (default [] aad) c /\ allocation (buf s') = allocation (buf s).
Proof.
  intros Hk Hi Hiv Hw Hb Hv Ht Hc ck k'. unfold decrypt_raw.
  step (the_key_Ok "Attempting to decrypt using security with NULL key" s k Hk).
  pose proof (content_zlen _ Hw) as Hl. rewrite Hc, !zlen_app in Hl.
  pose proof (zlen_nonneg c). unfold BFS_MAC_LEN, BFS_IV_LEN in *.
  assert (exists b1, (if mac then r ← on_buf (removeTrailer 16); mret (Some r.1) else mret None) s
    = Ok (if mac then Some t else None) (mkst (saKey s) (iv s) b1 (out s)) /\ wf b1 /\
    buffer b1 <> None /\ content b1 = v ++ c /\ allocation b1 = allocation (buf s)) as (b1&Hr1&Hw1&Hn1&Hc1&Ha1).
  { destruct mac.
    - destruct (removeTrailer_spec (buf s) 16) as (b1&Hr1&Hw1&Hc1&Hn1&Ha1); [done|done|lia|].
      exists b1. bstep Hr1. cbn [fst]. rewrite Hc1, Hc, app_assoc, drop_app_length', take_app_length';
        [done|unfold zlen in *; rewrite length_app; lia..].
    - exists (buf s). rewrite app_nil_r in Hc. by destruct s. }
  step Hr1. destruct (iv_reset s Hiv) as (v1&Hv1&Hwv1&Hlv1). bstep Hv1.
  pose proof (content_zlen _ Hw1) as Hl1. rewrite Hc1, zlen_app in Hl1.
  destruct (removeHeader_spec b1 12) as (b2&Hr2&Hw2&Hc2&Hn2&Ha2); [done|done|lia|]. bstep Hr2.
  rewrite Hc1 in Hc2 |- *. rewrite drop_app_length' in Hc2 by (unfold zlen in *; lia).
  rewrite take_app_length' by (unfold zlen in *; lia). cbn [fst snd].
  destruct (put_content_spec v1 v) as (v2&Hv2&Hwv2&Hcv2&Hlv2&_); [done|by rewrite Hlv1|]. bstep Hv2.
  bstep (get_content_spec b2 Hw2). rewrite Hc2.
  unfold CryptoKey.decryptData. rewrite Hi. cbn [of_sum]. rewrite (bind_Ok _ _ _ _ _ (ret_Ok _ _)).
  cbn [fst snd]. rewrite (bind_Ok _ _ _ _ _ (set_key_Ok _ _)). cbn [saKey iv buf out].
  destruct (put_content_spec b2 (gcm_decrypt ck v (default [] aad) c)) as (b3&Hr3&Hw3&Hc3&_&Ha3&Hn3);
    [done|rewrite decrypt_zlen, <-(content_zlen _ Hw2), Hc2; done|]. bstep Hr3.
  eexists. split; [reflexivity|]. cbn [saKey iv buf out]. unfold iv_ok. cbn [iv].
  unfold BFS_IV_LEN in *. split_and!; try done; [lia|auto|congruence].
Qed.

(** The tag, the IV and the ciphertext in [out]: what [decryptData] has done
    before the tag is checked. *)
Lemma decryptData_out_steps s k aad v c t :
  saKey s = Some k -> CryptoKey.cipherInitialized k = true -> iv_ok s ->
  roomy (buf s) -> buffer (buf s) <> None -> zlen v = BFS_IV_LEN -> zlen t = BFS_MAC_LEN ->
  content (buf s) = v ++ c ++ t -> roomy (out s) -> allocation (buf s) + 64 < 2 ^ 32 ->
  let ck := CryptoKey.cipher_key k in
  let k' := CryptoKey.mk (CryptoKey.keydat k) true (gcm_tag ck v (default [] aad) c) in
  exists s', iv_ok s' /\ roomy (buf s') /\ buffer (buf s') <> None /\
    allocation (buf s') = allocation (buf s) /\ saKey s' = Some k' /\
    wf (out s') /\ buffer (out s') <> None /\ content (out s') = gcm_decrypt ck v (default [] aad) c /\
    zlen c + 64 <= allocation (out s') <= Z.max (allocation (out s)) (zlen c + 64) /\
    decryptData_out aad true s =
      ((of_sum (CryptoKey.verifyMac k' t)) ;; on_out removePKCS7Padding ;; mret (Some t)) s'.
Proof.
  intros Hk Hi Hiv [Hw Hrb] Hb Hv Ht Hc Hro Hal ck k'. unfold decryptData_out.
  step (the_key_Ok "Attempting to decrypt using security with NULL key" s k Hk).
  pose proof (content_zlen _ Hw) as Hl. rewrite Hc, !zlen_app in Hl.
  pose proof (zlen_nonneg c). unfold BFS_MAC_LEN, BFS_IV_LEN in *. pose proof Hw as (?&?&?&?&?&?&?).
  destruct (removeTrailer_spec (buf s) 16) as (b1&Hr1&Hw1&Hc1&Hn1&Ha1); [done|done|lia|].
  assert (content b1 = v ++ c /\ drop (Z.to_nat (length (buf s) - 16)) (content (buf s)) = t) as [Hcb1 Htag].
  { rewrite Hc1, Hc, app_assoc, drop_app_length', take_app_length';
      [done|unfold zlen in *; rewrite length_app; lia..]. }
  rewrite bind_assoc. bstep Hr1. cbn [fst]. rewrite Htag, bind_ret.
  destruct (iv_reset s Hiv) as (v1&Hv1&Hwv1&Hlv1). bstep Hv1.
  pose proof (content_zlen _ Hw1) as Hl1. rewrite Hcb1, zlen_app in Hl1.
  destruct (removeHeader_spec b1 12) as (b2&Hr2&Hw2&Hc2&Hn2&Ha2); [done|done|lia|]. bstep Hr2.
  rewrite Hcb1 in Hc2 |- *. rewrite drop_app_length' in Hc2 by (unfold zlen in *; lia).
  rewrite take_app_length' by (unfold zlen in *; lia). cbn [fst snd].
  destruct (put_content_spec v1 v) as (v2&Hv2&Hwv2&Hcv2&Hlv2&_); [done|by rewrite Hlv1|]. bstep Hv2.
  bstep (get_content_spec b2 Hw2). rewrite Hc2.
  pose proof (content_zlen _ Hw2) as Hl2. rewrite Hc2 in Hl2.
  destruct (reset_default (out s) (zlen c)) as (o1&Ho1&Hwo1&Hlo1&_&Hno1&Hao1); [apply roomy_for; [done|lia]|lia..|].
  bstep Ho1. unfold CryptoKey.decryptData. rewrite Hi. cbn [of_sum]. rewrite (bind_Ok _ _ _ _ _ (ret_Ok _ _)).
  cbn [fst snd]. rewrite (bind_Ok _ _ _ _ _ (set_key_Ok _ _)). cbn [saKey iv buf out].
  destruct (put_content_spec o1 (gcm_decrypt ck v (default [] aad) c)) as (o2&Ho2&Hwo2&Hco2&_&Hao2&Hno2);
    [done|by rewrite decrypt_zlen|]. bstep Ho2.
  eexists (mkst _ v2 b2 o2). cbn [saKey iv buf out]. unfold iv_ok. cbn [iv]. rewrite Hao2, Hlv2, Hlv1.
  unfold roomy, BFS_IV_LEN. split_and!; try done; try lia; auto.
Qed.

Lemma verifyMac_tag {S} k tag (s : S) :
  CryptoKey.cipherInitialized k = true -> tag = CryptoKey.cur_tag k ->
  of_sum (CryptoKey.verifyMac k tag) s = Ok () s.
Proof. intros Hi ->. unfold CryptoKey.verifyMac. rewrite Hi. by rewrite decide_True. Qed.

Lemma verifyMac_other {S} k tag (s : S) :
  CryptoKey.cipherInitialized k = true -> tag <> CryptoKey.cur_tag k ->
  of_sum (CryptoKey.verifyMac k tag) s = Throw (bfsCryptoError "gcrypt MAC verification failure: ") s.
Proof. intros Hi Hne. unfold CryptoKey.verifyMac. rewrite Hi. by rewrite decide_False. Qed.

Lemma decryptData_out_spec s k aad rnd p :
  saKey s = Some k -> CryptoKey.cipherInitialized k = true -> iv_ok s ->
  roomy (buf s) -> buffer (buf s) <> None -> zlen rnd = BFS_IV_LEN -> roomy (out s) ->
  content (buf s) = sealed k (default [] aad) rnd p true -> allocation (buf s) + 64 < 2 ^ 32 ->
  exists t s', decryptData_out aad true s = Ok t s' /\ iv_ok s' /\ roomy (buf s') /\
    allocation (buf s') = allocation (buf s) /\
    wf (out s') /\ buffer (out s') <> None /\ content (out s') = p /\
    allocation (out s') <= Z.max (allocation (out s)) (allocation (buf s) + 64) /\
    exists t, saKey s' = Some (CryptoKey.mk (CryptoKey.keydat k) true t).
Proof.
  intros Hk Hi Hiv Hrb Hn Hrnd Hro Hc Ha. unfold sealed in Hc.
  set (c := gcm_encrypt _ _ _ (p ++ _)) in *. set (t := gcm_tag _ _ _ c) in *.
  destruct (decryptData_out_steps s k aad rnd c t) as (s1&Hiv1&Hr1&Hn1&Ha1&Hk1&Hw1&Hno1&Hc1&Hal1&Hd);
    try done; [apply tag_zlen|].
  unfold c in Hc1. rewrite decrypt_encrypt in Hc1.
  destruct (removePKCS7_spec (out s1) p) as (o2&Hr2&Hw2&Hc2&Hn2&Ha2); try done.
  rewrite Hd. mrun (verifyMac_tag (CryptoKey.mk (CryptoKey.keydat k) true t) t s1 eq_refl eq_refl). bstep Hr2.
  do 2 eexists. split; [reflexivity|]. cbn [saKey iv buf out]. rewrite Ha2.
  assert (zlen c <= allocation (buf s)).
  { destruct Hrb as [Hw _]. pose proof (content_zlen _ Hw) as Hl. destruct Hw as (?&?&?&?&?&?&?).
    rewrite Hc, !zlen_app in Hl. pose proof (zlen_nonneg rnd). pose proof (zlen_nonneg t). lia. }
  split_and!; try done; [lia|by eexists].
Qed.

(** Another tag than that of IV, associated data and ciphertext is refused. *)
Lemma decryptData_out_rejects s k aad v c t :
  saKey s = Some k -> CryptoKey.cipherInitialized k = true -> iv_ok s ->
  roomy (buf s) -> buffer (buf s) <> None -> zlen v = BFS_IV_LEN -> zlen t = BFS_MAC_LEN ->
  content (buf s) = v ++ c ++ t -> roomy (out s) -> allocation (buf s) + 64 < 2 ^ 32 ->
  t <> gcm_tag (CryptoKey.cipher_key k) v (default [] aad) c ->
  exists s', decryptData_out aad true s = Throw (bfsCryptoError "gcrypt MAC verification failure: ") s' /\
    iv_ok s' /\ exists t, saKey s' = Some (CryptoKey.mk (CryptoKey.keydat k) true t).
Proof.
  intros Hk Hi Hiv Hrb Hn Hv Ht Hc Hro Ha Hne.
  destruct (decryptData_out_steps s k aad v c t) as (s1&Hiv1&_&_&_&Hk1&_&_&_&_&Hd); try done.
  exists s1. rewrite Hd. split_and!; [|done|by eexists].
  by apply bind_Throw, verifyMac_other.
Qed.

(** In place: the sealed data comes back. *)
Lemma decryptData_spec s k aad mac rnd p :
  saKey s = Some k -> CryptoKey.cipherInitialized k = true -> iv_ok s -> zlen rnd = BFS_IV_LEN ->
  wf (buf s) -> buffer (buf s) <> None -> content (buf s) = sealed k (default [] aad) rnd p mac ->
  exists t s', decryptData aad mac s = Ok t s' /\ iv_ok s' /\ wf (buf s') /\ buffer (buf s') <> None /\
    content (buf s') = p /\ allocation (buf s') = allocation (buf s) /\ exists t, saKey s' = Some (CryptoKey.mk (CryptoKey.keydat k) true t).
Proof.
  intros Hk Hi Hiv Hrnd Hw Hn Hc. unfold sealed in Hc.
  set (c := gcm_encrypt _ _ _ (p ++ _)) in *. set (t := gcm_tag _ _ _ c) in *.
  destruct (decrypt_raw_spec s k aad mac rnd c t) as (s2&Hd&Hiv2&Hw2&Hn2&Hk2&Hc2&Ha2);
    try done; [apply tag_zlen|].
  unfold c in Hc2. rewrite decrypt_encrypt in Hc2.
  destruct (removePKCS7_spec (buf s2) p) as (b3&Hr3&Hw3&Hc3&Hn3&Ha3); try done.
  unfold decryptData. rewrite (bind_Ok _ _ _ _ _ Hd). cbn [fst snd].
  set (m := match _ with Some _ => _ | None => _ end).
  assert (m s2 = Ok () s2) as Hver by (unfold m; destruct mac; [by apply verifyMac_tag|done]).
  rewrite (bind_Ok _ _ _ _ _ Hver). bstep Hr3. do 2 eexists. split; [reflexivity|].
  split_and!; try done; [cbn; congruence|by eexists].
Qed.

(** [decryptData] gives back what [encryptData] sealed, for every data, key,
    IV and associated data, with or without the tag. *)
Theorem sa_encrypt_decrypt s k aad mac rnd :
  saKey s = Some k -> CryptoKey.cipherInitialized k = true -> zlen rnd = BFS_IV_LEN ->
  iv_ok s -> wf (buf s) -> allocation (buf s) + 200 < 2 ^ 32 ->
  exists s1 s2 t, encryptData aad mac rnd s = Ok () s1 /\
    zlen (content (buf s1)) =
      BFS_IV_LEN + zlen (content (buf s)) + pad_size (zlen (content (buf s)))
      + (if mac then BFS_MAC_LEN else 0) /\
    decryptData aad mac s1 = Ok t s2 /\ content (buf s2) = content (buf s).
Proof.
  intros Hk Hi Hrnd Hiv Hw Ha.
  destruct (encryptData_spec s k aad mac rnd) as (s1&He&Hiv1&Hw1&Hn1&Hc1&t1&Hk1); try done.
  destruct (decryptData_spec s1 _ aad mac rnd (content (buf s)) Hk1) as (t&s2&Hd&_&_&_&Hc2&_); try done.
  exists s1, s2, t. split_and!; try done. rewrite Hc1. unfold sealed.
  rewrite !zlen_app, Hrnd, encrypt_zlen, zlen_app, pad_bytes_zlen.
  destruct mac; [rewrite tag_zlen|rewrite zlen_nil]; lia.
Qed.

Lemma decryptData_rejects s k aad v c t :
  saKey s = Some k -> CryptoKey.cipherInitialized k = true -> iv_ok s ->
  wf (buf s) -> buffer (buf s) <> None -> zlen v = BFS_IV_LEN -> zlen t = BFS_MAC_LEN ->
  content (buf s) = v ++ c ++ t ->
  t <> gcm_tag (CryptoKey.cipher_key k) v (default [] aad) c ->
  exists s', decryptData aad true s =
    Throw (bfsCryptoError "gcrypt MAC verification failure: ") s'.
Proof.
  intros Hk Hi Hiv Hw Hn Hv Ht Hc Hne.
  destruct (decrypt_raw_spec s k aad true v c t) as (s2&Hd&_); try done.
  exists s2. unfold decryptData. rewrite (bind_Ok _ _ _ _ _ Hd). cbn [fst snd].
  unfold CryptoKey.verifyMac. cbn [CryptoKey.cipherInitialized CryptoKey.cur_tag].
  by rewrite decide_False.
Qed.

(** A buffer whose tag is not the tag of its IV, associated data and
    ciphertext is refused. *)
Theorem sa_decrypt_rejects_bad_tag s k aad v c t :
  saKey s = Some k -> CryptoKey.cipherInitialized k = true -> iv_ok s ->
  wf (buf s) -> buffer (buf s) <> None -> zlen v = BFS_IV_LEN -> zlen t = BFS_MAC_LEN ->
  content (buf s) = v ++ c ++ t ->
  t <> gcm_tag (CryptoKey.cipher_key k) v (default [] aad) c ->
  exists s', decryptData aad true s =
    Throw (bfsCryptoError "gcrypt MAC verification failure: ") s'.
Proof. exact (decryptData_rejects s k aad v c t). Qed.

(** A last byte over the cipher block size is not PKCS#7 padding. *)
Theorem sa_bad_padding s b p :
  wf s -> content s = p ++ [b] -> 16 < b2z b ->
  removePKCS7Padding s = Throw (bfsCryptoError "Bad PKCS#7 padding") s.
Proof.
  intros Hw Hc Hb. pose proof (content_zlen s Hw) as Hl. rewrite Hc, zlen_app in Hl.
  change (zlen [b]) with 1 in Hl. pose proof (zlen_nonneg p).
  unfold removePKCS7Padding. step (get_Ok s). pose proof Hw as (?&?&?&?&?&?&?).
  rewrite u32_small by lia. step (load_content s (length s - 1) 1 Hw ltac:(lia) ltac:(lia) ltac:(lia)).
  rewrite Hc, drop_app_length' by (unfold zlen in *; lia). change (Z.to_nat 1) with 1%nat.
  cbn [take head default from_option id].
  assert (16 < char_to_size b) as Hs.
  { unfold char_to_size. pose proof (b2z_range b). destruct (b2z b <? 128) eqn:?; [lia|].
    unfold u64. rewrite <-(Z.mod_unique_pos (b2z b - 256) (2 ^ 64) (-1) (b2z b - 256 + 2 ^ 64)); lia. }
  unfold BFS_CIPHER_BLK. destruct (16 <? char_to_size b) eqn:?; [done|lia].
Qed.

(** ** The block calls *)
Lemma decryptData2_encryptData2 k aad b rnd k' c v tag :
  encryptData2 (Some k) aad b rnd = inl (k', c, v, tag) ->
  exists k'', decryptData2 (Some k') aad c v tag = inl (k'', b) /\ CryptoKey.keydat k'' = CryptoKey.keydat k.
Proof.
  unfold encryptData2, decryptData2, CryptoKey.encryptData, CryptoKey.macData.
  destruct (CryptoKey.cipherInitialized k) eqn:Hi; [|done]. cbn. intros [= <- <- <- <-].
  unfold CryptoKey.decryptData, CryptoKey.verifyMac, CryptoKey.cipher_key. cbn.
  rewrite decide_True by done. rewrite decrypt_encrypt. by eexists.
Qed.

End sa.
End SecAssoc.
