(* ===== verification/Wire.v ===== *)
(** * Messages on the wire

    The streaming operators of [bfsFlexibleBuffer] ([<<] puts an integer in
    front of the data, [>>] takes it off again), the byte transfer loops of
    [bfs_comms/bfs_rawnet.cpp], and the framed messages of
    [bfs_comms/bfsNetworkConnection.cpp] in the build without SGX.

    The kernel decides how many bytes a [read] or [write] on a socket moves:
    [kernel i] is its answer to the [i]-th call, negative for an error; a call
    that succeeds moves at least one byte while there are any. *)
From S2P Require Import Prelude Layout BfsUtil FlexBuffer SecAssoc.

(** ** Streaming operators *)
Module FlexStream.
Import FlexBuffer.

Definition push (n : nat) (x : Z) : M t () := addHeader (le_split n x) ;; mret ().

Definition pull (n : nat) : M t Z := r ← removeHeader (Z.of_nat n); mret (le_combine r.1).

(** A chain [b << x << y ...]: the last one ends up in front. *)
Fixpoint push_all (fs : list (nat * Z)) : M t () :=
  match fs with
  | [] => mret ()
  | (n, x) :: fs => push n x ;; push_all fs
  end.

(** The value of a signed integer of [n] bytes. *)
Definition signed (n : nat) (z : Z) : Z :=
  if z <? 2 ^ (8 * Z.of_nat n - 1) then z else z - 2 ^ (8 * Z.of_nat n).

Definition pull_int (n : nat) : M t Z := z ← pull n; mret (signed n z).

(** [std::string(b.getBuffer() + off)]: the bytes up to the first terminator,
    which may lie behind the data; without one in the allocation the read runs
    out of it. *)
Definition get_string (off : Z) : M t bytes :=
  s ← get;
  let m := drop (Z.to_nat (hlength s + off)) (mem s) in
  if decide (Byte.x00 ∈ m) then mret (c_str m) else die Undefined_behaviour.

(** Room the pushes may add to an allocation. *)
Fixpoint push_cost (fs : list (nat * Z)) : Z :=
  match fs with
  | [] => 0
  | (n, _) :: fs => BFSFLEXBUF_DEFAULT_PAD + Z.of_nat n + push_cost fs
  end.

Lemma push_cost_nonneg fs : 0 <= push_cost fs.
Proof. induction fs as [|[n x] fs IH]; cbn; unfold BFSFLEXBUF_DEFAULT_PAD; lia. Qed.

Lemma push_spec n x s :
  wf s -> allocation s + BFSFLEXBUF_DEFAULT_PAD + Z.of_nat n < 2 ^ 32 ->
  exists s', push n x s = Ok () s' /\ wf s' /\ content s' = le_split n x ++ content s /\
    (n <> 0%nat \/ buffer s <> None -> buffer s' <> None) /\
    allocation s' <= allocation s + BFSFLEXBUF_DEFAULT_PAD + Z.of_nat n.
Proof.
  intros Hw Ha. destruct (addHeader_spec s (le_split n x)) as (s'&Hr&Hw'&Hc&Hn&Hal);
    [done|by rewrite zlen_le_split|]. rewrite zlen_le_split in Hal.
  exists s'. unfold push. mrun Hr. split_and!; try done; [|lia].
  intros Hor. apply Hn. destruct Hor as [Hn0|]; [left|by right].
  intros E. apply (f_equal List.length) in E. rewrite length_le_split in E. done.
Qed.

Lemma push_all_spec fs s :
  wf s -> buffer s <> None -> allocation s + push_cost fs < 2 ^ 32 ->
  exists s', push_all fs s = Ok () s' /\ wf s' /\ buffer s' <> None /\
    content s' = encode_fields (reverse fs) ++ content s /\ allocation s' <= allocation s + push_cost fs.
Proof.
  revert s. induction fs as [|[n x] fs IH]; intros s Hw Hb Ha; cbn [push_all push_cost] in *.
  { exists s. split_and!; try done. lia. }
  pose proof (push_cost_nonneg fs).
  destruct (push_spec n x s) as (s1&Hr&Hw1&Hc1&Hn1&Ha1); [done|lia|]. mrun Hr.
  destruct (IH s1) as (s2&Hr2&Hw2&Hn2&Hc2&Ha2); [done|auto|lia|].
  exists s2. split_and!; try done; [|lia].
  rewrite Hc2, Hc1, reverse_cons. unfold encode_fields.
  rewrite fmap_app, concat_app. cbn. by rewrite app_nil_r, <-app_assoc.
Qed.

Lemma pull_spec n x q s :
  wf s -> buffer s <> None -> content s = le_split n x ++ q -> fits n x ->
  exists s', pull n s = Ok x s' /\ wf s' /\ buffer s' <> None /\ content s' = q /\
    allocation s' = allocation s.
Proof.
  intros Hw Hb Hc Hf. pose proof (content_zlen s Hw) as Hl.
  rewrite Hc, zlen_app, zlen_le_split in Hl. pose proof (zlen_nonneg q).
  destruct (removeHeader_spec s (Z.of_nat n)) as (s'&Hr&Hw'&Hc'&Hb'&Ha'); [done|done|lia|].
  exists s'. unfold pull. mrun Hr. rewrite Hc, Nat2Z.id in *. cbn [fst].
  rewrite take_app_length' by (by rewrite length_le_split).
  rewrite drop_app_length' in Hc' by (by rewrite length_le_split).
  rewrite le_combine_le_split by done. done.
Qed.

(** A signed value is stored by its residue and read back as itself. *)
Lemma le_split_wrap n z : le_split n (z mod 2 ^ (8 * Z.of_nat n)) = le_split n z.
Proof. rewrite Z.mul_comm. symmetry. apply le_split_mod. Qed.

Lemma signed_mod n z :
  (0 < n)%nat -> - 2 ^ (8 * Z.of_nat n - 1) <= z < 2 ^ (8 * Z.of_nat n - 1) ->
  signed n (z mod 2 ^ (8 * Z.of_nat n)) = z.
Proof.
  intros Hn Hz. unfold signed. replace (8 * Z.of_nat n) with (1 + (8 * Z.of_nat n - 1)) in * by lia.
  rewrite Z.add_simpl_l in *. rewrite Z.pow_add_r in * by lia. change (2 ^ 1) with 2 in *.
  set (p := 2 ^ (8 * Z.of_nat n - 1)) in *.
  destruct (Z_lt_le_dec z 0).
  - replace (z mod (2 * p)) with (z + 2 * p) by (apply Z.mod_unique_pos with (-1); lia).
    destruct (_ <? _) eqn:?; lia.
  - rewrite Z.mod_small by lia. destruct (_ <? _) eqn:?; lia.
Qed.

Lemma pull_int_spec n x q s :
  (0 < n)%nat -> wf s -> buffer s <> None -> content s = le_split n x ++ q ->
  - 2 ^ (8 * Z.of_nat n - 1) <= x < 2 ^ (8 * Z.of_nat n - 1) ->
  exists s', pull_int n s = Ok x s' /\ wf s' /\ buffer s' <> None /\ content s' = q /\
    allocation s' = allocation s.
Proof.
  intros Hn Hw Hb Hc Hx. rewrite <-le_split_wrap in Hc.
  destruct (pull_spec n (x mod 2 ^ (8 * Z.of_nat n)) q s) as (s'&Hr&Hrest); try done.
  { apply Z.mod_pos_bound. lia. }
  exists s'. unfold pull_int. mrun Hr. by rewrite signed_mod.
Qed.

(** Taking off more than there is throws. *)
Lemma pull_short n s :
  wf s -> buffer s <> None -> length s < Z.of_nat n ->
  pull n s = Throw (bfsUtilError "Flexible buffer remove header underflow") s.
Proof.
  intros _ Hb Hn. unfold pull. apply bind_Throw. unfold removeHeader.
  rewrite bind_get. destruct (buffer s); [|done]. destruct (_ <? _) eqn:?; [done|lia].
Qed.

Lemma c_str_cut s rest : Byte.x00 ∉ s -> c_str (s ++ Byte.x00 :: rest) = s.
Proof.
  induction s as [|b s IH]; intros Hs; cbn; [done|].
  apply not_elem_of_cons in Hs as [Hb Hs]. by rewrite decide_False, IH by done.
Qed.

(** A terminated string inside the data is read back. *)
Lemma get_string_spec s off d p rest :
  wf s -> zlen d = off -> content s = d ++ p ++ Byte.x00 :: rest -> Byte.x00 ∉ p ->
  get_string off s = Ok p s.
Proof.
  intros Hw Hd Hc Hp. unfold get_string. rewrite bind_get. pose proof Hw as (?&?&?&?&?&?&?).
  pose proof (zlen_nonneg d).
  assert (exists tl, drop (Z.to_nat (hlength s + off)) (mem s) = p ++ Byte.x00 :: tl) as [tl ->].
  { rewrite Z2Nat.inj_add, <-drop_drop by lia.
    rewrite <-(take_drop (Z.to_nat (length s)) (drop (Z.to_nat (hlength s)) (mem s))).
    fold (content s). rewrite Hc, <-!app_assoc, drop_app_length' by (unfold zlen in *; lia).
    rewrite <-app_comm_cons. by eexists. }
  rewrite decide_True by set_solver. by rewrite c_str_cut.
Qed.
End FlexStream.

(** ** Sockets *)
Module RawNet.

(** [inbox]: bytes the peer sent that were not read yet, followed by its
    closing; [outbox]: bytes taken over by the kernel; [calls]: system calls so
    far. *)
Record sock := mk { inbox : bytes; outbox : bytes; calls : nat }.

Section rawnet.
Context (kernel : nat -> Z).

(** Bytes the next system call on a request of [n] may move. *)
Definition grant (s : sock) (n : Z) : nat := Z.to_nat (Z.min n (Z.max 1 (kernel (calls s)))).

(** [read] and [write]; [None] is -1. *)
Definition sys_read (n : Z) : M sock (option bytes) := fun s =>
  if kernel (calls s) <? 0 then Ok None (mk (inbox s) (outbox s) (S (calls s)))
  else Ok (Some (take (grant s n) (inbox s))) (mk (drop (grant s n) (inbox s)) (outbox s) (S (calls s))).

Definition sys_write (d : bytes) : M sock (option Z) := fun s =>
  if kernel (calls s) <? 0 then Ok None (mk (inbox s) (outbox s) (S (calls s)))
  else let d := take (grant s (zlen d)) d in
       Ok (Some (zlen d)) (mk (inbox s) (outbox s ++ d) (S (calls s))).

(** The loops; each round moves at least one byte.  Result: the return code and
    the bytes that reached the buffer. *)
Fixpoint read_rounds (fuel : nat) (len : Z) (buf : bytes) : M sock (Z * bytes) :=
  match fuel with
  | O => die Out_of_fuel
  | S fuel =>
      if len <=? zlen buf then mret (len, buf)
      else
        r ← sys_read (len - zlen buf);
        match r with
        | None => mret (-1, buf)
        | Some [] => mret (0, buf)
        | Some d => read_rounds fuel len (buf ++ d)
        end
  end.

Fixpoint write_rounds (fuel : nat) (len : Z) (sent : Z) (buf : bytes) : M sock Z :=
  match fuel with
  | O => die Out_of_fuel
  | S fuel =>
      if len <=? sent then mret len
      else
        d ← of_opt (mem_get sent (len - sent) buf);
        r ← sys_write d;
        match r with
        | None => mret (-1)
        | Some sb => if sb =? 0 then mret 0 else write_rounds fuel len (sent + sb) buf
        end
  end.

(** The lengths are of type [int]. *)
Definition rawnet_read_bytes (len : Z) : M sock (Z * bytes) := read_rounds (S (Z.to_nat len)) len [].
Definition rawnet_send_bytes (len : Z) (buf : bytes) : M sock Z := write_rounds (S (Z.to_nat len)) len 0 buf.

Context (healthy : forall i, 0 <= kernel i).

(** Whatever the kernel grants in each round, [len] bytes that are there are
    read, and no more. *)
Lemma read_rounds_ok fuel len buf s :
  zlen buf <= len -> len <= zlen buf + zlen (inbox s) -> (Z.to_nat (len - zlen buf) < fuel)%nat ->
  exists c, read_rounds fuel len buf s =
    Ok (len, buf ++ take (Z.to_nat (len - zlen buf)) (inbox s))
       (mk (drop (Z.to_nat (len - zlen buf)) (inbox s)) (outbox s) c).
Proof.
  revert buf s. induction fuel as [|fuel IH]; intros buf s Hle Hin Hf; [lia|]. cbn [read_rounds].
  destruct (Z.leb_spec len (zlen buf)).
  { replace (len - zlen buf) with 0 by lia. exists (calls s). cbn. rewrite app_nil_r. by destruct s. }
  unfold sys_read. pose proof (healthy (calls s)). unfold mbind at 1, M_bind at 1.
  destruct (Z.ltb_spec (kernel (calls s)) 0); [lia|].
  set (g := grant s (len - zlen buf)).
  assert ((1 <= g)%nat /\ Z.of_nat g <= len - zlen buf) as [Hg1 Hg2] by (unfold g, grant; lia).
  assert (length (take g (inbox s)) = g) as Hlen by (rewrite length_take; unfold zlen in *; lia).
  destruct (take g (inbox s)) as [|b d] eqn:Hd; [cbn in Hlen; lia|]. rewrite <-Hd in *.
  destruct (IH (buf ++ take g (inbox s)) (mk (drop g (inbox s)) (outbox s) (S (calls s)))) as [c Hc];
    try (rewrite zlen_app; unfold zlen; cbn [inbox]; rewrite ?length_drop; unfold zlen in *; lia).
  exists c. rewrite Hc. cbn [inbox outbox].
  replace (len - zlen (buf ++ take g (inbox s))) with (len - zlen buf - Z.of_nat g)
    by (rewrite zlen_app; unfold zlen; lia).
  rewrite <-app_assoc, drop_drop.
  replace (Z.to_nat (len - zlen buf)) with (g + Z.to_nat (len - zlen buf - Z.of_nat g))%nat by lia.
  by rewrite <-take_take_drop.
Qed.

(** The peer closes before [len] bytes have come. *)
Lemma read_rounds_closed fuel len buf s :
  zlen buf + zlen (inbox s) < len -> (length (inbox s) < fuel)%nat ->
  exists c, read_rounds fuel len buf s = Ok (0, buf ++ inbox s) (mk [] (outbox s) c).
Proof.
  revert buf s. induction fuel as [|fuel IH]; intros buf s Hin Hf; [lia|]. cbn [read_rounds].
  pose proof (zlen_nonneg (inbox s)). destruct (Z.leb_spec len (zlen buf)); [lia|].
  unfold sys_read. pose proof (healthy (calls s)). unfold mbind at 1, M_bind at 1.
  destruct (Z.ltb_spec (kernel (calls s)) 0); [lia|].
  set (g := grant s (len - zlen buf)). assert ((1 <= g)%nat) as Hg by (unfold g, grant; lia).
  destruct (take g (inbox s)) as [|b d] eqn:Hd.
  { destruct (inbox s) as [|x l]; [|destruct g; [lia|done]].
    exists (S (calls s)). rewrite app_nil_r, drop_nil. done. }
  rewrite <-Hd. pose proof (f_equal List.length Hd) as Hl. cbn in Hl. rewrite length_take in Hl.
  destruct (IH (buf ++ take g (inbox s)) (mk (drop g (inbox s)) (outbox s) (S (calls s)))) as [c Hc].
  - rewrite zlen_app, <-Z.add_assoc, <-zlen_app. cbn [inbox]. by rewrite take_drop.
  - cbn [inbox]. rewrite length_drop. lia.
  - exists c. rewrite Hc. cbn [inbox outbox]. by rewrite <-app_assoc, take_drop.
Qed.

Lemma write_rounds_ok fuel len sent buf s :
  0 <= sent <= len -> len <= zlen buf -> (Z.to_nat (len - sent) < fuel)%nat ->
  exists c, write_rounds fuel len sent buf s =
    Ok len (mk (inbox s) (outbox s ++ take (Z.to_nat (len - sent)) (drop (Z.to_nat sent) buf)) c).
Proof.
  revert sent s. induction fuel as [|fuel IH]; intros sent s Hs Hb Hf; [lia|]. cbn [write_rounds].
  destruct (Z.leb_spec len sent).
  { replace (len - sent) with 0 by lia. exists (calls s). cbn. rewrite app_nil_r. by destruct s. }
  destruct (mem_get_is_Some sent (len - sent) buf) as [d Hd]; [lia..|].
  rewrite Hd, bind_of_opt. apply mem_get_Some in Hd as (_&_&_&Hz&Hd).
  unfold sys_write. pose proof (healthy (calls s)). unfold mbind at 1, M_bind at 1.
  destruct (Z.ltb_spec (kernel (calls s)) 0); [lia|].
  set (g := grant s (zlen d)).
  assert ((1 <= g)%nat /\ Z.of_nat g <= len - sent) as [Hg1 Hg2] by (unfold g, grant; lia).
  assert (zlen (take g d) = Z.of_nat g) as Hlen by (unfold zlen in *; rewrite length_take; lia).
  rewrite Hlen. destruct (Z.eqb_spec (Z.of_nat g) 0); [lia|].
  destruct (IH (sent + Z.of_nat g) (mk (inbox s) (outbox s ++ take g d) (S (calls s)))) as [c Hc]; [lia..|].
  exists c. rewrite Hc. cbn [inbox outbox]. rewrite Hd, <-app_assoc, take_take. do 3 f_equal.
  replace (g `min` Z.to_nat (len - sent))%nat with g by lia.
  replace (Z.to_nat (len - sent)) with (g + Z.to_nat (len - (sent + Z.of_nat g)))%nat by lia.
  rewrite <-take_take_drop, drop_drop. do 3 f_equal. lia.
Qed.
End rawnet.
End RawNet.

(** ** Connections *)
Module NetConn.
Import FlexBuffer FlexStream.

Inductive ch_state := SCH_INITIALIZED | SCH_CONNECTING | SCH_CONNECTED | SCH_CLOSED | SCH_ERRORED.

Record t := mk { socket : RawNet.sock; chState : ch_state }.

Definition set_state (x : ch_state) : M t () := modify (fun c => mk (socket c) x).

Definition on_sock {A} (m : M RawNet.sock A) : M t A := fun c =>
  match m (socket c) with
  | Ok a s => Ok a (mk s (chState c))
  | Throw e s => Throw e (mk s (chState c))
  | Crash x => Crash x
  end.

Section conn.
Context (kernel : nat -> Z).

(** Closed and failed transfers both give 0. *)
Definition note_ret (ret : Z) : M t Z :=
  if ret =? 0 then set_state SCH_CLOSED ;; mret 0
  else if ret <? 0 then set_state SCH_ERRORED ;; mret 0
  else mret ret.

Definition sendDataL (len : Z) (buf : bytes) : M t Z :=
  ret ← on_sock (RawNet.rawnet_send_bytes kernel (signed 4 len) buf);
  note_ret ret.

Definition recvDataL (len : Z) : M t (Z * bytes) :=
  '(ret, d) ← on_sock (RawNet.rawnet_read_bytes kernel (signed 4 len));
  ret ← note_ret ret;
  mret (ret, d).

(** The bytes of [htonl(len)], and [ntohl] of four bytes. *)
Definition net_len (len : Z) : bytes := reverse (le_split 4 len).
Definition host_len (d : bytes) : Z := le_combine (reverse d).

Definition sendPacketizedDataL (len : Z) (buf : bytes) : M t Z :=
  ret ← sendDataL 4 (net_len len);
  if negb (ret =? 4) then mret ret else sendDataL len buf.

Definition recvPacketizedDataL (len : Z) : M t (Z * bytes) :=
  '(ret, d) ← recvDataL 4;
  if negb (ret =? 4) then mret (ret, [])
  else if len <? host_len d then mret (-1, [])
  else recvDataL (host_len d).

(** [getLength()] bytes from [getBuffer()] on. *)
Definition sendBuffer (b : FlexBuffer.t) : M t Z :=
  ret ← on_sock (RawNet.rawnet_send_bytes kernel (signed 4 (length b)) (drop (Z.to_nat (hlength b)) (mem b)));
  note_ret ret.

Definition lift_buf {A} (m : M FlexBuffer.t A) (b : FlexBuffer.t) : M t (A * FlexBuffer.t) := fun c =>
  match m b with
  | Ok a b => Ok (a, b) c
  | Throw e _ => Throw e c
  | Crash x => Crash x
  end.

Definition recvBuffer (b : FlexBuffer.t) (len : Z) : M t (Z * FlexBuffer.t) :=
  '(_, b) ← lift_buf (resetWithAlloc len Byte.x00 BFSFLEXBUF_DEFAULT_PAD BFSFLEXBUF_DEFAULT_PAD false) b;
  '(ret, d) ← on_sock (RawNet.rawnet_read_bytes kernel (signed 4 len));
  '(_, b) ← lift_buf (store (hlength b) d) b;
  ret ← note_ret ret;
  mret (ret, b).

Definition sendPacketizedBuffer (b : FlexBuffer.t) : M t Z :=
  ret ← sendDataL 4 (net_len (length b));
  if negb (ret =? 4) then mret ret else sendBuffer b.

Definition recvPacketizedBuffer (b : FlexBuffer.t) : M t (Z * FlexBuffer.t) :=
  '(ret, d) ← recvDataL 4;
  if negb (ret =? 4) then mret (ret, b) else recvBuffer b (host_len d).

(** ** What is sent and received *)

(** A message as it travels. *)
Definition frame (m : bytes) : bytes := net_len (zlen m) ++ m.

Lemma host_net_len z : fits 4 z -> host_len (net_len z) = z.
Proof. intros Hz. unfold host_len, net_len. rewrite reverse_involutive. by apply le_combine_le_split. Qed.

Lemma net_len_zlen z : zlen (net_len z) = 4.
Proof. unfold zlen, net_len. by rewrite length_reverse, length_le_split. Qed.

Lemma signed4_small z : 0 <= z < 2 ^ 31 -> signed 4 z = z.
Proof. intros. unfold signed. change (8 * Z.of_nat 4 - 1) with 31. destruct (_ <? _) eqn:?; lia. Qed.

Lemma lift_buf_Ok {A} (m : M FlexBuffer.t A) b a b' c : m b = Ok a b' -> lift_buf m b c = Ok (a, b') c.
Proof. unfold lift_buf. by intros ->. Qed.

(** [c'] is [c] after bytes went in and out. *)
Definition moved (c c' : t) (inb outb : bytes) : Prop :=
  RawNet.inbox (socket c') = inb /\ RawNet.outbox (socket c') = outb /\ chState c' = chState c.

(** A sender's failure is never -1, the value its callers test for. *)
Lemma sendDataL_ret len buf c r c' : sendDataL len buf c = Ok r c' -> 0 <= r.
Proof.
  unfold sendDataL. intros (ret&c1&_&Hr)%bind_Ok_inv. unfold note_ret in Hr.
  destruct (Z.eqb_spec ret 0); [by run_inv|destruct (Z.ltb_spec ret 0); [by run_inv|]].
  unfold mret, M_ret in Hr. simplify_eq. lia.
Qed.

Lemma sendPacketizedDataL_ret len buf c r c' : sendPacketizedDataL len buf c = Ok r c' -> 0 <= r.
Proof.
  unfold sendPacketizedDataL. intros (ret&c1&H1&H2)%bind_Ok_inv. apply sendDataL_ret in H1.
  destruct (negb _); [by run_inv|by apply sendDataL_ret in H2].
Qed.

Context (healthy : forall i, 0 <= kernel i).

Lemma note_ret_pos r c : 0 < r -> note_ret r c = Ok r c.
Proof. intros. unfold note_ret. destruct (Z.eqb_spec r 0); [lia|]. destruct (Z.ltb_spec r 0); [lia|done]. Qed.

Lemma send_sock_ok len buf c :
  0 < len < 2 ^ 31 -> len <= zlen buf ->
  exists c', on_sock (RawNet.rawnet_send_bytes kernel (signed 4 len) buf) c = Ok len c' /\
    moved c c' (RawNet.inbox (socket c)) (RawNet.outbox (socket c) ++ take (Z.to_nat len) buf).
Proof.
  intros Hl Hb. rewrite signed4_small by lia. unfold on_sock, RawNet.rawnet_send_bytes.
  destruct (RawNet.write_rounds_ok kernel healthy (S (Z.to_nat len)) len 0 buf (socket c)) as [n Hn]; [lia..|].
  rewrite Hn. eexists. split; [reflexivity|]. unfold moved. cbn. by rewrite Z.sub_0_r.
Qed.

Lemma recv_sock_ok len d rest c :
  0 < len < 2 ^ 31 -> zlen d = len -> RawNet.inbox (socket c) = d ++ rest ->
  exists c', on_sock (RawNet.rawnet_read_bytes kernel (signed 4 len)) c = Ok (len, d) c' /\
    moved c c' rest (RawNet.outbox (socket c)).
Proof.
  intros Hl Hd Hin. rewrite signed4_small by lia. unfold on_sock, RawNet.rawnet_read_bytes.
  pose proof (zlen_nonneg rest).
  destruct (RawNet.read_rounds_ok kernel healthy (S (Z.to_nat len)) len [] (socket c)) as [n Hn];
    [rewrite zlen_nil; lia|rewrite Hin, zlen_nil, zlen_app; lia|rewrite zlen_nil; lia|].
  rewrite Hn, Hin, zlen_nil, Z.sub_0_r. eexists. unfold moved. cbn [app].
  rewrite take_app_length', drop_app_length' by (unfold zlen in *; lia). by split.
Qed.

Lemma sendDataL_ok len buf c :
  0 < len < 2 ^ 31 -> len <= zlen buf ->
  exists c', sendDataL len buf c = Ok len c' /\
    moved c c' (RawNet.inbox (socket c)) (RawNet.outbox (socket c) ++ take (Z.to_nat len) buf).
Proof.
  intros Hl Hb. destruct (send_sock_ok len buf c Hl Hb) as (c'&Hr&Hm). exists c'. unfold sendDataL.
  mrun Hr. by rewrite note_ret_pos by lia.
Qed.

Lemma recvDataL_ok len d rest c :
  0 < len < 2 ^ 31 -> zlen d = len -> RawNet.inbox (socket c) = d ++ rest ->
  exists c', recvDataL len c = Ok (len, d) c' /\ moved c c' rest (RawNet.outbox (socket c)).
Proof.
  intros Hl Hd Hin. destruct (recv_sock_ok len d rest c Hl Hd Hin) as (c'&Hr&Hm). exists c'.
  unfold recvDataL. mrun Hr. rewrite (bind_Ok _ _ _ _ _ (note_ret_pos len c' ltac:(lia))). done.
Qed.

Lemma sendPacketizedDataL_prefix len buf c :
  0 < len < 2 ^ 31 -> len <= zlen buf ->
  exists c', sendPacketizedDataL len buf c = Ok len c' /\
    moved c c' (RawNet.inbox (socket c))
      (RawNet.outbox (socket c) ++ net_len len ++ take (Z.to_nat len) buf).
Proof.
  intros Hl Hb. unfold sendPacketizedDataL.
  destruct (sendDataL_ok 4 (net_len len) c) as (c1&E1&Hi1&Ho1&Hs1); [lia|by rewrite net_len_zlen|].
  mrun E1. cbn [Z.eqb Pos.eqb negb]. destruct (sendDataL_ok len buf c1) as (c2&E2&Hi2&Ho2&Hs2); [done..|].
  exists c2. split; [exact E2|]. unfold moved. rewrite Hi2, Ho2, Hs2, Ho1, Hi1, Hs1, <-app_assoc.
  pose proof (net_len_zlen len). rewrite (take_ge (net_len len)) by (unfold zlen in *; lia). done.
Qed.

Lemma sendPacketizedDataL_ok m c :
  0 < zlen m < 2 ^ 31 ->
  exists c', sendPacketizedDataL (zlen m) m c = Ok (zlen m) c' /\
    moved c c' (RawNet.inbox (socket c)) (RawNet.outbox (socket c) ++ frame m).
Proof.
  intros Hl. destruct (sendPacketizedDataL_prefix (zlen m) m c) as (c'&Hr&Hm); [done|lia|].
  exists c'. split; [done|]. rewrite take_ge in Hm by (unfold zlen; lia). done.
Qed.

Lemma sendPacketizedBuffer_ok b c :
  wf b -> 0 < length b < 2 ^ 31 ->
  exists c', sendPacketizedBuffer b c = Ok (length b) c' /\
    moved c c' (RawNet.inbox (socket c)) (RawNet.outbox (socket c) ++ frame (content b)).
Proof.
  intros Hw Hl. unfold sendPacketizedBuffer.
  destruct (sendDataL_ok 4 (net_len (length b)) c) as (c1&E1&Hi1&Ho1&Hs1); [lia|by rewrite net_len_zlen|].
  mrun E1. cbn [Z.eqb Pos.eqb negb]. pose proof Hw as (?&?&?&?&?&?&?).
  destruct (send_sock_ok (length b) (drop (Z.to_nat (hlength b)) (mem b)) c1) as (c2&E2&Hi2&Ho2&Hs2);
    [lia|unfold zlen in *; rewrite length_drop; lia|].
  exists c2. unfold sendBuffer. mrun E2. rewrite note_ret_pos by lia. split; [done|].
  unfold moved. rewrite Hi2, Ho2, Hs2, Ho1, Hi1, Hs1, <-app_assoc. unfold frame.
  rewrite content_zlen by done. pose proof (net_len_zlen (length b)).
  rewrite take_ge by (unfold zlen in *; lia). done.
Qed.

Lemma recvPacketizedBuffer_fit b m rest c :
  SecAssoc.room_for (zlen m) b -> 0 < zlen m < 2 ^ 31 -> RawNet.inbox (socket c) = frame m ++ rest ->
  exists b' c', recvPacketizedBuffer b c = Ok (zlen m, b') c' /\
    moved c c' rest (RawNet.outbox (socket c)) /\ SecAssoc.roomy b' /\ buffer b' <> None /\
    content b' = m /\ allocation b' <= Z.max (allocation b) (zlen m + 64).
Proof.
  intros Hb Hl Hin. unfold recvPacketizedBuffer, frame in *. rewrite <-app_assoc in Hin.
  destruct (recvDataL_ok 4 _ _ c ltac:(lia) (net_len_zlen (zlen m)) Hin) as (c1&E1&Hi1&Ho1&Hs1).
  mrun E1. cbn [Z.eqb Pos.eqb negb]. rewrite host_net_len by (split; cbn; lia).
  destruct (SecAssoc.reset_default b (zlen m)) as (b1&Hr1&Hw1&Hl1&_&Hn1&Ha1); [done|lia..|].
  unfold recvBuffer. mrun (lift_buf_Ok _ _ _ _ c1 Hr1).
  destruct (recv_sock_ok (zlen m) m rest c1) as (c2&E2&Hi2&Ho2&Hs2); [lia|done|done|]. mrun E2.
  destruct (SecAssoc.put_content_spec b1 m) as (b2&Hr2&Hw2&Hc2&Hl2&Ha2&Hn2); [done|by rewrite Hl1|].
  unfold SecAssoc.put_content in Hr2. rewrite bind_get in Hr2.
  mrun (lift_buf_Ok _ _ _ _ c2 Hr2).
  rewrite (bind_Ok _ _ _ _ _ (note_ret_pos (zlen m) c2 ltac:(lia))).
  exists b2, c2. split; [done|]. unfold moved, SecAssoc.roomy.
  rewrite Hi2, Ho2, Hs2, Ho1, Hs1. split_and!; try done; [right; lia|auto|lia].
Qed.

Lemma recvPacketizedBuffer_ok b m rest c :
  SecAssoc.roomy b -> 0 < zlen m < 2 ^ 31 -> RawNet.inbox (socket c) = frame m ++ rest ->
  exists b' c', recvPacketizedBuffer b c = Ok (zlen m, b') c' /\
    moved c c' rest (RawNet.outbox (socket c)) /\ SecAssoc.roomy b' /\ buffer b' <> None /\
    content b' = m /\ allocation b' <= Z.max (allocation b) (zlen m + 64).
Proof. intros Hb Hl. apply recvPacketizedBuffer_fit; [|done]. apply SecAssoc.roomy_for; [done|lia]. Qed.

(** The peer closes inside a message. *)
Lemma recvPacketizedBuffer_closed b m d c :
  SecAssoc.roomy b -> 0 < zlen m < 2 ^ 31 -> d `prefix_of` frame m -> d <> frame m ->
  RawNet.inbox (socket c) = d ->
  exists b' c', recvPacketizedBuffer b c = Ok (0, b') c' /\ chState c' = SCH_CLOSED.
Proof.
  intros Hb Hl [rest Hpre] Hne Hin. unfold recvPacketizedBuffer. pose proof (net_len_zlen (zlen m)) as H4.
  assert (zlen d < 4 + zlen m) as Hdl.
  { assert (rest <> []) by (intros ->; by rewrite app_nil_r in Hpre). rewrite <-H4, <-zlen_app.
    fold (frame m). rewrite Hpre, zlen_app. destruct rest; [done|]. unfold zlen. cbn. lia. }
  destruct (Z_lt_le_dec (zlen d) 4) as [Hs|Hs].
  - unfold recvDataL, on_sock, RawNet.rawnet_read_bytes. rewrite (signed4_small 4) by lia.
    destruct (RawNet.read_rounds_closed kernel healthy (S (Z.to_nat 4)) 4 [] (socket c)) as [n Hn];
      [rewrite Hin, zlen_nil; lia|rewrite Hin; unfold zlen in *; lia|].
    rewrite !bind_assoc. unfold mbind at 1, M_bind at 1. rewrite Hn. by eexists _, _.
  - assert (exists l, d = net_len (zlen m) ++ l /\ zlen l < zlen m) as (l&->&Hll).
    { exists (drop 4 d). split; [|unfold zlen in *; rewrite length_drop; lia].
      rewrite <-(take_drop 4 d) at 1. f_equal. apply (f_equal (take 4)) in Hpre. unfold frame in Hpre.
      rewrite take_app_length', take_app_le in Hpre by (unfold zlen in *; lia). done. }
    destruct (recvDataL_ok 4 _ _ c ltac:(lia) H4 Hin) as (c1&E1&Hi1&Ho1&Hs1).
    mrun E1. cbn [Z.eqb Pos.eqb negb]. rewrite host_net_len by (split; cbn; lia).
    destruct (SecAssoc.reset_default b (zlen m)) as (b1&Hr1&Hw1&Hl1&_&Hn1&Ha1); [apply SecAssoc.roomy_for; [done|lia]|lia..|].
    unfold recvBuffer. mrun (lift_buf_Ok _ _ _ _ c1 Hr1).
    unfold on_sock, RawNet.rawnet_read_bytes. rewrite signed4_small by lia.
    destruct (RawNet.read_rounds_closed kernel healthy (S (Z.to_nat (zlen m))) (zlen m) [] (socket c1)) as [n Hn];
      [rewrite Hi1, zlen_nil; lia|rewrite Hi1; unfold zlen in *; lia|].
    unfold mbind at 1, M_bind at 1. rewrite Hn, Hi1. cbn [app].
    pose proof Hw1 as (?&?&?&?&?&?&?).
    destruct (store_ok b1 (hlength b1) l) as (b2&Hst&_); [done|lia|lia|].
    mrun (lift_buf_Ok _ _ _ _ (mk (RawNet.mk [] (RawNet.outbox (socket c1)) n) (chState c1)) Hst).
    by eexists _, _.
Qed.
End conn.

(** ** Sequences of messages *)
Fixpoint send_all (kernel : nat -> Z) (ms : list bytes) : M t () :=
  match ms with
  | [] => mret ()
  | m :: ms => sendPacketizedDataL kernel (zlen m) m ;; send_all kernel ms
  end.

(** One buffer for all messages, as in the loop of a server's connection. *)
Fixpoint recv_all (kernel : nat -> Z) (n : nat) (b : FlexBuffer.t) : M t (list bytes) :=
  match n with
  | O => mret []
  | S n =>
      '(_, b) ← recvPacketizedBuffer kernel b;
      ms ← recv_all kernel n b;
      mret (content b :: ms)
  end.

Lemma send_all_ok kernel ms c :
  (forall i, 0 <= kernel i) -> Forall (fun m => 0 < zlen m < 2 ^ 31) ms ->
  exists c', send_all kernel ms c = Ok () c' /\
    moved c c' (RawNet.inbox (socket c)) (RawNet.outbox (socket c) ++ concat (frame <$> ms)).
Proof.
  intros Hk. revert c. induction ms as [|m ms IH]; intros c Hms.
  { exists c. unfold moved. by rewrite app_nil_r. }
  apply Forall_cons in Hms as [Hm Hms]. cbn [send_all].
  destruct (sendPacketizedDataL_ok kernel Hk m c Hm) as (c1&E1&Hi1&Ho1&Hs1). mrun E1.
  destruct (IH c1 Hms) as (c2&E2&Hi2&Ho2&Hs2). exists c2. split; [done|].
  unfold moved. rewrite Hi2, Ho2, Hs2, Hi1, Ho1, Hs1, <-app_assoc. done.
Qed.

Lemma recv_all_ok kernel ms b rest c :
  (forall i, 0 <= kernel i) -> Forall (fun m => 0 < zlen m < 2 ^ 31) ms -> SecAssoc.roomy b ->
  RawNet.inbox (socket c) = concat (frame <$> ms) ++ rest ->
  exists c', recv_all kernel (List.length ms) b c = Ok ms c' /\ moved c c' rest (RawNet.outbox (socket c)).
Proof.
  intros Hk. revert b c. induction ms as [|m ms IH]; intros b c Hms Hb Hin; [by exists c|].
  apply Forall_cons in Hms as [Hm Hms]. cbn [recv_all List.length]. cbn in Hin. rewrite <-app_assoc in Hin.
  destruct (recvPacketizedBuffer_ok kernel Hk b m _ c Hb Hm Hin) as (b1&c1&E1&(Hi1&Ho1&Hs1)&Hb1&_&Hc1&_).
  mrun E1. destruct (IH b1 c1 Hms Hb1 Hi1) as (c2&E2&Hi2&Ho2&Hs2). mrun E2. rewrite Hc1.
  exists c2. split; [done|]. unfold moved. by rewrite Hi2, Ho2, Hs2, Ho1, Hs1.
Qed.

(** C14. Messages sent over a connection are received one by one, complete and in
    order, however the two kernels cut the byte stream, and the buffer that is
    used for all of them never mixes two messages up. *)
Theorem packet_stream_roundtrip ksend krecv ms (c1 c2 : t) b rest :
  (forall i, 0 <= ksend i) -> (forall i, 0 <= krecv i) ->
  Forall (fun m => 0 < zlen m < 2 ^ 31) ms -> SecAssoc.roomy b ->
  RawNet.outbox (socket c1) = [] ->
  exists c1', send_all ksend ms c1 = Ok () c1' /\
    (RawNet.inbox (socket c2) = RawNet.outbox (socket c1') ++ rest ->
     exists c2', recv_all krecv (List.length ms) b c2 = Ok ms c2' /\
       RawNet.inbox (socket c2') = rest /\ chState c2' = chState c2).
Proof.
  intros Hs Hr Hms Hb Ho. destruct (send_all_ok ksend ms c1 Hs Hms) as (c1'&E1&_&Ho1&_).
  exists c1'. split; [done|]. rewrite Ho1, Ho. intros Hin.
  destruct (recv_all_ok krecv ms b rest c2 Hr Hms Hb Hin) as (c2'&E2&Hi2&_&Hs2). by exists c2'.
Qed.

(** A message cut short by the peer is never taken for a complete one: the
    receiver gets 0 and the connection is marked closed. *)
Theorem packet_cut_short kernel b m d (c : t) :
  (forall i, 0 <= kernel i) -> SecAssoc.roomy b -> 0 < zlen m < 2 ^ 31 ->
  d `prefix_of` frame m -> d <> frame m -> RawNet.inbox (socket c) = d ->
  exists b' c', recvPacketizedBuffer kernel b c = Ok (0, b') c' /\ chState c' = SCH_CLOSED.
Proof. intros Hk. exact (recvPacketizedBuffer_closed kernel Hk b m d c). Qed.

(** Whatever the kernel answers, sending a framed message never returns -1;
    a failed transfer gives 0. *)
Theorem send_failure_is_zero kernel len buf (c c' : t) r :
  sendPacketizedDataL kernel len buf c = Ok r c' -> 0 <= r.
Proof. apply sendPacketizedDataL_ret. Qed.
End NetConn.

(** ** Message and operation types ([bfs_common.h]) *)
Module Msg.
Definition FROM_SERVER : Z := 0.
Definition TO_SERVER : Z := 1.
Definition CLIENT_GETATTR_OP : Z := 0.
Definition CLIENT_MKDIR_OP : Z := 1.
Definition CLIENT_UNLINK_OP : Z := 2.
Definition CLIENT_RMDIR_OP : Z := 3.
Definition CLIENT_RENAME_OP : Z := 4.
Definition CLIENT_OPEN_OP : Z := 5.
Definition CLIENT_READ_OP : Z := 6.
Definition CLIENT_WRITE_OP : Z := 7.
Definition CLIENT_RELEASE_OP : Z := 8.
Definition CLIENT_FSYNC_OP : Z := 9.
Definition CLIENT_OPENDIR_OP : Z := 10.
Definition CLIENT_READDIR_OP : Z := 11.
Definition CLIENT_INIT_OP : Z := 12.
Definition CLIENT_INIT_MKFS_OP : Z := 13.
Definition CLIENT_DESTROY_OP : Z := 14.
Definition CLIENT_CREATE_OP : Z := 15.
Definition CLIENT_CHMOD_OP : Z := 16.
Definition CLIENT_TRUNCATE_OP : Z := 17.

(** Return codes *)
Definition rc_success : Z := 0.
Definition rc_failure : Z := -1.
Definition EPERM : Z := 1.
Definition ENOENT : Z := 2.
End Msg.
