(* ===== verification/BlockLayer.v ===== *)
(** * Block devices, the virtual block cluster and the block layer

    Models [bfs_device/bfsDeviceStorage.cpp], [bfs_device/bfsLocalDevice.cpp/.h],
    [bfs_blk/bfsVertBlockCluster.cpp] and [bfs_blk/bfsBlockLayer.h/.cpp].

    A device's storage is the zero-filled memory map of its file, as a finite
    map of the blocks written so far.  The cluster's write-back block cache is
    the interface [BlkCache]: the laws it is used under are [BlkCacheLaws], and
    [BlockCache] has the cluster with the cache of the repository. *)
From S2P Require Import Prelude Layout.

(** Result codes of the layer. *)
Inductive bret := BFS_SUCCESS | BFS_SUCCESS_CACHE_HIT | BFS_FAILURE.
#[export] Instance bret_eq_dec : EqDecision bret.
Proof. solve_decision. Defined.

(** [op_flags_t] *)
Inductive op_flags := bfs_NONE | bfs_O_ASYNC | bfs_O_SYNC.
(** [flags & _bfs__O_SYNC] on the enumeration's values 0, 1, 2. *)
Definition is_sync (f : op_flags) : bool := match f with bfs_O_SYNC => true | _ => false end.

Definition zero_blk : bytes := zeros BLK_SZ.

(** ** [bfsDeviceStorage] *)
Module DeviceStorage.
Record t := mk { deviceID : Z; numBlocks : Z; blockStorage : option (gmap Z bytes) }.

(** The block id is the address; [None] is [NULL]. *)
Definition getBlockAddress (blkid : Z) (d : t) : option (gmap Z bytes) :=
  match blockStorage d with
  | None => None
  | Some m => if numBlocks d <=? blkid then None else Some m
  end.

Definition getBlock (blkid : Z) (d : t) : option bytes :=
  m ← getBlockAddress blkid d; Some (default zero_blk (m !! blkid)).

(** [memcpy(baddr, blk, BLK_SZ)]. *)
Definition putBlock (blkid : Z) (blk : bytes) (d : t) : option t :=
  m ← getBlockAddress blkid d;
  Some (mk (deviceID d) (numBlocks d) (Some (<[blkid := take (Z.to_nat BLK_SZ) blk]> m))).

(** What the device holds at a block id in range. *)
Definition content (blkid : Z) (d : t) : bytes :=
  default zero_blk (default ∅ (blockStorage d) !! blkid).
End DeviceStorage.

(** ** [bfsLocalDevice] *)
Module LocalDevice.
Record t := mk { deviceID : Z; numBlocks : Z; storage : option DeviceStorage.t }.

Definition bfsDeviceInitialize (d : t) : t :=
  mk (deviceID d) (numBlocks d)
    (Some (DeviceStorage.mk (deviceID d) (numBlocks d) (Some ∅))).

Definition bfsDeviceUninitialize (d : t) : t := mk (deviceID d) (numBlocks d) None.

(** [inl None] is the non-zero return code. *)
Definition getBlock (pbid : Z) (d : t) : option bytes + exn :=
  match storage d with
  | None => inr (bfsDeviceError "Using NULL storage device, failed")
  | Some s => inl (DeviceStorage.getBlock pbid s)
  end.

Definition putBlock (pbid : Z) (blk : bytes) (d : t) : option t + exn :=
  match storage d with
  | None => inr (bfsDeviceError "Using NULL storage device, failed")
  | Some s =>
      inl (s' ← DeviceStorage.putBlock pbid blk s; Some (mk (deviceID d) (numBlocks d) (Some s')))
  end.

(** The list versions stop at the first failure. *)
Fixpoint getBlocks (pbids : list Z) (d : t) : list bytes + exn :=
  match pbids with
  | [] => inl []
  | p :: ps =>
      match getBlock p d with
      | inr e => inr e
      | inl None => inr (bfsDeviceError "Failed putting block in local device")
      | inl (Some b) => match getBlocks ps d with inl bs => inl (b :: bs) | inr e => inr e end
      end
  end.

(** The device after the blocks put before the failure, if any. *)
Fixpoint putBlocks (blks : list (Z * bytes)) (d : t) : t * option exn :=
  match blks with
  | [] => (d, None)
  | (p, b) :: ps =>
      match putBlock p b d with
      | inr e => (d, Some e)
      | inl None => (d, Some (bfsDeviceError "Failed putting block in local device"))
      | inl (Some d') => putBlocks ps d'
      end
  end.

Definition content (blkid : Z) (d : t) : bytes :=
  match storage d with Some s => DeviceStorage.content blkid s | None => zero_blk end.

(** An initialised device: storage mapped, sized as announced. *)
Definition ready (d : t) : Prop :=
  0 <= numBlocks d /\
  match storage d with
  | Some s => DeviceStorage.numBlocks s = numBlocks d /\ is_Some (DeviceStorage.blockStorage s)
  | None => False
  end.
End LocalDevice.

(** ** The physical block object and the block cache interface *)
Record PBfsBlock := mkP { p_data : bytes; p_pbid : Z; p_rd : nat; p_dirty : bool }.

(** [checkCache] and [insertCache] on block numbers.  [insertCache] returns the
    displaced object, or the inserted one when nothing was displaced ([None]).
    [BlockCache] has the instance for [BfsCache]. *)
Class BlkCache (C : Type) := {
  c_check : Z -> M C (option PBfsBlock);
  c_insert : Z -> PBfsBlock -> M C (option PBfsBlock)
}.

(** What the cluster relies on: the cache is a bounded map; an insertion may
    displace one entry and returns it.  The queue of [BlockCache] keeps these
    laws; there [BfsCache] is shown to act as this queue, as long as no block is
    inserted again while it is the oldest of several. *)
Class BlkCacheLaws C `{BlkCache C} := {
  c_map : C -> gmap Z PBfsBlock;
  c_check_spec k c : exists c', c_check k c = Ok (c_map c !! k) c' /\ c_map c' = c_map c;
  c_insert_spec k o c :
    exists r c', c_insert k o c = Ok r c' /\
      match r with
      | None => c_map c !! k = None /\ c_map c' = <[k := o]> (c_map c)
      | Some e =>
          exists k', c_map c !! k' = Some e /\ c_map c' = <[k := o]> (delete k' (c_map c)) /\
            (k' <> k -> c_map c !! k = None)
      end
}.

(** ** [bfsVertBlockCluster] *)
Module VBC.

Inductive cluster_state := BFSBLK_UNINITIALIZED | BFSBLK_READY | BFSBLK_ERRORED.

Section vbc.
Context {C : Type} `{BlkCache C}.

Record alloc_entry := mkE { used : bool; device : Z; block : Z; timestamp : Z }.

Record t := mk {
  clusterState : cluster_state;
  maxBlockID : Z;
  devices : list LocalDevice.t;
  blkAllocTable : list alloc_entry;
  blk_cache : C
}.

Definition set_devices (ds : list LocalDevice.t) (s : t) : t :=
  mk (clusterState s) (maxBlockID s) ds (blkAllocTable s) (blk_cache s).
Definition set_cache (c : C) (s : t) : t :=
  mk (clusterState s) (maxBlockID s) (devices s) (blkAllocTable s) c.

Definition changeClusterState (st : cluster_state) (s : t) : t :=
  mk st (maxBlockID s) (devices s) (blkAllocTable s) (blk_cache s).

Definition bfsVertBlockClusterUninitialize (s : t) : t :=
  changeClusterState BFSBLK_UNINITIALIZED
    (mk (clusterState s) 0 [] [] (blk_cache s)).

Definition addBlockDevice (dev : LocalDevice.t) (s : t) : t :=
  mk (clusterState s) (u64 (maxBlockID s + LocalDevice.numBlocks dev)) (devices s ++ [dev])
    (blkAllocTable s ++ replicate (Z.to_nat (LocalDevice.numBlocks dev)) (mkE false 0 0 0))
    (blk_cache s).

(** The manifest is the list of discovered devices. *)
Definition bfsVertBlockClusterInitialize (manifest : list LocalDevice.t) (s : t) : bret * t :=
  match clusterState s with
  | BFSBLK_UNINITIALIZED =>
      (BFS_SUCCESS, changeClusterState BFSBLK_READY (foldl (fun s d => addBlockDevice d s) s manifest))
  | _ => (BFS_FAILURE, s)
  end.

Definition bfsClusterFactory (manifest : list LocalDevice.t) (c : C) : option t :=
  match bfsVertBlockClusterInitialize manifest (mk BFSBLK_UNINITIALIZED 0 [] [] c) with
  | (BFS_SUCCESS, s) => Some s
  | _ => None
  end.

(** The device (its index) and block of a virtual address, by a linear walk. *)
Fixpoint phy_walk (ds : list LocalDevice.t) (ix : nat) (saddr addr : Z) : option (nat * Z) :=
  match ds with
  | [] => None
  | d :: ds =>
      if addr <? u64 (saddr + LocalDevice.numBlocks d) then Some (ix, u64 (addr - saddr))
      else phy_walk ds (S ix) (u64 (saddr + LocalDevice.numBlocks d)) addr
  end.

Definition getPhyBlockAddr (addr : Z) : M t (nat * Z) := fun s =>
  match phy_walk (devices s) 0 0 addr with
  | Some r => Ok r s
  | None => Throw (bfsBlockError "Unmappable virtual block address") s
  end.

(** Virtual calls through the device pointer; a code other than 0 is [None]. *)
Definition dev_getBlock (ix : nat) (pbid : Z) : M t (option bytes) := fun s =>
  match devices s !! ix with
  | None => Crash Undefined_behaviour
  | Some d =>
      match LocalDevice.getBlock pbid d with inl r => Ok r s | inr e => Throw e s end
  end.

Definition dev_putBlock (ix : nat) (pbid : Z) (blk : bytes) : M t bool := fun s =>
  match devices s !! ix with
  | None => Crash Undefined_behaviour
  | Some d =>
      match LocalDevice.putBlock pbid blk d with
      | inl (Some d') => Ok true (set_devices (<[ix := d']> (devices s)) s)
      | inl None => Ok false s
      | inr e => Throw e s
      end
  end.

(** A dirty block that left the cache goes to its device. *)
Definition flush_blk (p : PBfsBlock) : M t () :=
  if p_dirty p then
    ok ← dev_putBlock (p_rd p) (p_pbid p) (p_data p);
    if (ok : bool) then mret () else die Abort_called
  else mret ().

Definition on_cache {A} (m : M C A) : M t A := fun s =>
  match m (blk_cache s) with
  | Ok a c => Ok a (set_cache c s)
  | Throw e c => Throw e (set_cache c s)
  | Crash e => Crash e
  end.

Definition cache_check (k : Z) : M t (option PBfsBlock) := on_cache (c_check k).
Definition cache_insert (k : Z) (o : PBfsBlock) : M t (option PBfsBlock) := on_cache (c_insert k o).

Section helpers.
Context (cache_enabled : bool).

(** Insert into the cache and flush what the insertion displaced. *)
Definition cache_put (vbid : Z) (pblk : PBfsBlock) : M t () :=
  if cache_enabled then
    old ← cache_insert vbid pblk;
    match old with Some o => flush_blk o | None => mret () end
  else mret ().

(** The block object and whether it came from the cache. *)
Definition readBlock_helper (vbid : Z) : M t (bret * option PBfsBlock) :=
  '(dev, pbid) ← getPhyBlockAddr vbid;
  obj ← (if cache_enabled then cache_check vbid else mret None);
  match obj with
  | Some p => mret (BFS_SUCCESS_CACHE_HIT, Some p)
  | None =>
      r ← dev_getBlock dev pbid;
      match r with
      | None => mret (BFS_FAILURE, None)
      | Some data =>
          let pblk := mkP data pbid dev false in
          cache_put vbid pblk ;;
          mret (BFS_SUCCESS, Some pblk)
      end
  end.

(** [insertCache] never returns [NULL], so a write is never reported as a hit. *)
Definition writeBlock_helper (vbid : Z) (data : bytes) (flags : op_flags) : M t bret :=
  '(dev, pbid) ← getPhyBlockAddr vbid;
  let pblk := mkP data pbid dev true in
  cache_put vbid pblk ;;
  if negb cache_enabled || is_sync flags then
    ok ← dev_putBlock dev pbid data;
    if (ok : bool) then mret BFS_SUCCESS else mret BFS_FAILURE
  else mret BFS_SUCCESS.

(** *** [bfsBlockLayer] *)
Definition readBlock (vbid : Z) : M t (bret * option bytes) :=
  r ← readBlock_helper vbid;
  match r with
  | (BFS_FAILURE, _) => mret (BFS_FAILURE, None)
  | (ret, Some p) => mret (ret, Some (p_data p))
  | (_, None) => die Undefined_behaviour
  end.

Definition writeBlock (vbid : Z) (buf : bytes) (flags : op_flags) : M t bret :=
  assert_ (bool_decide (zlen buf = BLK_SZ)) ;;
  writeBlock_helper vbid buf flags.

(** Nothing to do. *)
Definition deallocBlock (id : Z) : M t bret := mret BFS_SUCCESS.

End helpers.

(** [readBlocks]/[writeBlocks] first resolve every address, then make one list
    call per device (device order: the order of the cluster). *)
Fixpoint resolve (vbids : list Z) : M t (list (nat * Z)) :=
  match vbids with
  | [] => mret []
  | v :: vs => a ← getPhyBlockAddr v; l ← resolve vs; mret (a :: l)
  end.

Definition dev_getBlocks (ix : nat) (pbids : list Z) : M t (list bytes) := fun s =>
  match devices s !! ix with
  | None => Crash Undefined_behaviour
  | Some d => match LocalDevice.getBlocks pbids d with inl r => Ok r s | inr e => Throw e s end
  end.

Definition dev_putBlocks (ix : nat) (blks : list (Z * bytes)) : M t () := fun s =>
  match devices s !! ix with
  | None => Crash Undefined_behaviour
  | Some d =>
      let '(d', e) := LocalDevice.putBlocks blks d in
      let s' := set_devices (<[ix := d']> (devices s)) s in
      match e with None => Ok () s' | Some e => Throw e s' end
  end.

Definition on_device {A} (ix : nat) (l : list (nat * Z * A)) : list (Z * A) :=
  omap (fun '(d, p, a) => if decide (d = ix) then Some (p, a) else None) l.

Fixpoint put_devices (ixs : list nat) (l : list (nat * Z * bytes)) : M t () :=
  match ixs with
  | [] => mret ()
  | ix :: ixs =>
      match on_device ix l with
      | [] => put_devices ixs l
      | blks => dev_putBlocks ix blks ;; put_devices ixs l
      end
  end.

Definition writeBlocks (blks : list (Z * bytes)) : M t bret :=
  addrs ← resolve blks.*1;
  n ← gets (fun s => length (devices s));
  put_devices (seq 0 n) (zip addrs blks.*2) ;;
  mret BFS_SUCCESS.

(** Every block of the list, keyed by its address. *)
Fixpoint get_devices (ixs : list nat) (addrs : list (nat * Z)) : M t (list (nat * Z * bytes)) :=
  match ixs with
  | [] => mret []
  | ix :: ixs =>
      let pbids := (on_device ix ((fun a => (a, ())) <$> addrs)).*1 in
      bs ← (match pbids with [] => mret [] | _ => dev_getBlocks ix pbids end);
      rest ← get_devices ixs addrs;
      mret (zip (pair ix <$> pbids) bs ++ rest)
  end.

Definition readBlocks (vbids : list Z) : M t (list (option bytes)) :=
  addrs ← resolve vbids;
  n ← gets (fun s => length (devices s));
  got ← get_devices (seq 0 n) addrs;
  mret ((fun a => (fun x => x.2.2) <$> list_find (fun g => g.1 = a) got) <$> addrs).

(** *** Address translation *)
Definition total (ds : list LocalDevice.t) : Z := foldr (fun d z => LocalDevice.numBlocks d + z) 0 ds.

Lemma total_cons d ds : total (d :: ds) = LocalDevice.numBlocks d + total ds.
Proof. done. Qed.
Arguments total : simpl never.

Lemma total_nonneg ds : Forall LocalDevice.ready ds -> 0 <= total ds.
Proof. induction 1 as [|d ds [Hd _]]; [done|]. rewrite total_cons. lia. Qed.

Lemma phy_walk_ext ds ds' ix saddr addr :
  LocalDevice.numBlocks <$> ds = LocalDevice.numBlocks <$> ds' ->
  phy_walk ds ix saddr addr = phy_walk ds' ix saddr addr.
Proof.
  revert ds' ix saddr. induction ds as [|d ds IH]; intros [|d' ds'] ix saddr Hf; try done.
  cbn in Hf |- *. injection Hf as Hd Hds. rewrite Hd. case_match; [done|]. by apply IH.
Qed.

Lemma phy_walk_Some ds ix saddr addr j p :
  Forall LocalDevice.ready ds -> 0 <= saddr <= addr -> saddr + total ds < 2 ^ 64 ->
  phy_walk ds ix saddr addr = Some (j, p) ->
  exists n d, j = (ix + n)%nat /\ ds !! n = Some d /\ 0 <= p < LocalDevice.numBlocks d /\
    addr = saddr + total (take n ds) + p.
Proof.
  intros Hr. revert ix saddr. induction Hr as [|d ds Hd Hr IH]; intros ix saddr Ha Ht Hw; [done|].
  rewrite total_cons in Ht. cbn in Hw. pose proof (total_nonneg ds Hr). destruct Hd as [Hd _].
  rewrite (u64_small (saddr + _)) in Hw by lia.
  destruct (addr <? saddr + LocalDevice.numBlocks d) eqn:Hlt.
  - rewrite u64_small in Hw by lia. simplify_eq. exists 0%nat, d. change (total (take 0 _)) with 0.
    split_and!; (done || lia).
  - apply IH in Hw as (n&d'&->&?&?&?); [|lia..].
    exists (S n), d'. cbn. rewrite total_cons. split_and!; (done || lia).
Qed.

Lemma phy_walk_is_Some ds ix saddr addr :
  Forall LocalDevice.ready ds -> 0 <= saddr <= addr -> saddr + total ds < 2 ^ 64 ->
  is_Some (phy_walk ds ix saddr addr) <-> addr < saddr + total ds.
Proof.
  intros Hr. revert ix saddr. induction Hr as [|d ds Hd Hr IH]; intros ix saddr Ha Ht.
  { cbn. change (total []) with 0. split; [by intros []|lia]. }
  rewrite total_cons in Ht |- *. cbn. pose proof (total_nonneg ds Hr). destruct Hd as [Hd _]. rewrite (u64_small (saddr + _)) by lia.
  destruct (addr <? saddr + LocalDevice.numBlocks d) eqn:Hlt; [split; [lia|by eexists]|].
  rewrite IH by lia. lia.
Qed.

(** The cluster: every device initialised, addresses below 2^64. *)
Definition wf (s : t) : Prop :=
  Forall LocalDevice.ready (devices s) /\ total (devices s) < 2 ^ 64 /\
  maxBlockID s = total (devices s).

(** Two virtual addresses never share a device block. *)
Lemma phy_walk_inj ds a b r :
  Forall LocalDevice.ready ds -> total ds < 2 ^ 64 -> 0 <= a -> 0 <= b ->
  phy_walk ds 0 0 a = Some r -> phy_walk ds 0 0 b = Some r -> a = b.
Proof.
  intros Hr Ht ?? Ha Hb. destruct r as [j p].
  apply phy_walk_Some in Ha as (n&d&?&?&?&?); [|done|lia|lia].
  apply phy_walk_Some in Hb as (n'&d'&?&?&?&?); [|done|lia|lia].
  cbn in *. subst. lia.
Qed.

(** Address translation is a bijection between the virtual blocks and the
    blocks of the devices: defined exactly below [getMaxVertBlocNum], in range
    on its device, one-to-one. *)
Theorem getPhyBlockAddr_bijection s addr :
  wf s -> 0 <= addr ->
  (addr < maxBlockID s ->
     exists ix p d, getPhyBlockAddr addr s = Ok (ix, p) s /\ devices s !! ix = Some d /\
       0 <= p < LocalDevice.numBlocks d /\
       forall addr', 0 <= addr' -> getPhyBlockAddr addr' s = Ok (ix, p) s -> addr' = addr) /\
  (maxBlockID s <= addr ->
     getPhyBlockAddr addr s = Throw (bfsBlockError "Unmappable virtual block address") s).
Proof.
  intros (Hr&Ht&Hm) Ha. rewrite Hm. unfold getPhyBlockAddr.
  pose proof (phy_walk_is_Some (devices s) 0 0 addr Hr ltac:(lia) ltac:(lia)) as Hs. split.
  - intros Hlt. destruct Hs as [_ Hs]. destruct Hs as [[ix p] Hp]; [lia|]. rewrite Hp.
    destruct (phy_walk_Some (devices s) 0 0 addr ix p) as (n&d&->&?&?&?); [done|lia|lia|done|].
    exists n, p, d. split_and!; [done|done|lia|lia|]. intros addr' ? Hp'.
    destruct (phy_walk (devices s) 0 0 addr') as [r|] eqn:Hw; [|done]. simplify_eq.
    by eapply phy_walk_inj.
  - intros Hge. destruct (phy_walk _ _ _ _); [|done].
    assert (addr < 0 + total (devices s)) by (by apply Hs). lia.
Qed.

(** *** Reads and writes *)
Definition dcontent (ds : list LocalDevice.t) (a : nat * Z) : bytes :=
  match ds !! a.1 with Some d => LocalDevice.content a.2 d | None => zero_blk end.

(** The device blocks an address translation can produce. *)
Definition phys_ok (ds : list LocalDevice.t) (a : nat * Z) : Prop :=
  exists d, ds !! a.1 = Some d /\ LocalDevice.ready d /\ 0 <= a.2 < LocalDevice.numBlocks d.

Lemma LocalDevice_getBlock_ready d p :
  LocalDevice.ready d -> 0 <= p < LocalDevice.numBlocks d ->
  LocalDevice.getBlock p d = inl (Some (LocalDevice.content p d)).
Proof.
  intros [_ Hs] Hp. unfold LocalDevice.getBlock, LocalDevice.content.
  destruct (LocalDevice.storage d) as [st|]; [|done]. destruct Hs as [Hn [m Hm]].
  unfold DeviceStorage.getBlock, DeviceStorage.getBlockAddress, DeviceStorage.content.
  rewrite Hm, Hn. destruct (_ <=? p) eqn:?; [lia|]. done.
Qed.

Lemma LocalDevice_putBlock_ready d p b :
  LocalDevice.ready d -> 0 <= p < LocalDevice.numBlocks d -> zlen b = BLK_SZ ->
  exists d', LocalDevice.putBlock p b d = inl (Some d') /\ LocalDevice.ready d' /\
    LocalDevice.numBlocks d' = LocalDevice.numBlocks d /\
    forall q, LocalDevice.content q d' = if decide (q = p) then b else LocalDevice.content q d.
Proof.
  intros [Hpos Hs] Hp Hb. unfold LocalDevice.putBlock, LocalDevice.ready, LocalDevice.content.
  destruct (LocalDevice.storage d) as [st|] eqn:Hst; [|done]. destruct Hs as [Hn [m Hm]].
  unfold DeviceStorage.putBlock, DeviceStorage.getBlockAddress, DeviceStorage.content.
  rewrite Hm, Hn. destruct (_ <=? p) eqn:?; [lia|]. cbn.
  eexists. split; [done|]. cbn. split_and!; try done. intros q.
  rewrite take_ge by (unfold zlen in Hb; lia). case_decide; subst.
  - by rewrite lookup_insert_eq.
  - by rewrite lookup_insert_ne.
Qed.

(** A device write changes one block of the cluster. *)
Lemma dev_putBlock_spec s a b :
  phys_ok (devices s) a -> zlen b = BLK_SZ ->
  exists ds', dev_putBlock a.1 a.2 b s = Ok true (set_devices ds' s) /\
    LocalDevice.numBlocks <$> ds' = LocalDevice.numBlocks <$> devices s /\
    (Forall LocalDevice.ready (devices s) -> Forall LocalDevice.ready ds') /\
    forall a', phys_ok (devices s) a' ->
      dcontent ds' a' = if decide (a' = a) then b else dcontent (devices s) a'.
Proof.
  destruct a as [ix p]. intros (d&Hd&Hr&Hp) Hb. cbn in *.
  destruct (LocalDevice_putBlock_ready d p b Hr Hp Hb) as (d'&Hput&Hr'&Hn'&Hc').
  exists (<[ix := d']> (devices s)). unfold dev_putBlock. rewrite Hd, Hput. split_and!; [done|..].
  - rewrite list_fmap_insert. apply list_insert_id. by rewrite list_lookup_fmap, Hd, Hn'.
  - intros Hf. by apply Forall_insert.
  - intros [ix' q] _. unfold dcontent. cbn. destruct (decide (ix' = ix)) as [->|Hne].
    + rewrite list_lookup_insert_eq by (by eapply lookup_lt_Some). rewrite Hd, Hc'.
      repeat case_decide; (done || congruence).
    + rewrite list_lookup_insert_ne by done. rewrite decide_False by congruence. done.
Qed.

Context `{!BlkCacheLaws C}.

Definition cached (ce : bool) (s : t) : gmap Z PBfsBlock := if ce then c_map (blk_cache s) else ∅.

Definition phys (s : t) (k : Z) : option (nat * Z) := phy_walk (devices s) 0 0 k.

(** The block map the cluster stands for: the cached block, else the device's. *)
Definition vget (ce : bool) (s : t) (k : Z) : bytes :=
  match cached ce s !! k with
  | Some o => p_data o
  | None => match phys s k with Some a => dcontent (devices s) a | None => zero_blk end
  end.

(** Cached objects name the device block of their key; clean ones agree with
    the device. *)
Definition inv (ce : bool) (s : t) : Prop :=
  wf s /\ forall k o, cached ce s !! k = Some o ->
    0 <= k /\ phys s k = Some (p_rd o, p_pbid o) /\ (p_dirty o = true -> zlen (p_data o) = BLK_SZ) /\
    (p_dirty o = false -> p_data o = dcontent (devices s) (p_rd o, p_pbid o)).

Lemma phys_phys_ok s k a : wf s -> 0 <= k -> phys s k = Some a -> phys_ok (devices s) a.
Proof.
  intros (Hr&Ht&_) Hk Hp. destruct a as [ix p].
  apply phy_walk_Some in Hp as (n&d&->&Hd&?&?); [|done|lia..]. exists d. cbn.
  split_and!; [done|by eapply Forall_lookup_1|lia|lia].
Qed.

Lemma phys_is_Some s k : wf s -> 0 <= k < maxBlockID s -> is_Some (phys s k).
Proof.
  intros (Hr&Ht&Hm) Hk. apply phy_walk_is_Some; [done|lia|lia|lia].
Qed.

Lemma phys_set_cache s c k : phys (set_cache c s) k = phys s k.
Proof. done. Qed.

(** Replacing the devices by ones of the same sizes keeps the geometry. *)
Lemma wf_set_devices s ds :
  wf s -> LocalDevice.numBlocks <$> ds = LocalDevice.numBlocks <$> devices s ->
  (Forall LocalDevice.ready (devices s) -> Forall LocalDevice.ready ds) ->
  wf (set_devices ds s) /\ forall k, phys (set_devices ds s) k = phys s k.
Proof.
  intros (Hr&Ht&Hm) Hn Hrd.
  assert (total ds = total (devices s)) as Htot.
  { clear -Hn. revert Hn. generalize (devices s). induction ds as [|d ds IH]; intros [|d' ds'] Hn; try done.
    rewrite !total_cons. injection Hn as ? Hn. rewrite (IH _ Hn). lia. }
  split; [|intros k; by apply phy_walk_ext].
  split_and!; cbn; [auto|by rewrite Htot|by rewrite Htot].
Qed.

Lemma phys_inj s k k' a : wf s -> 0 <= k -> 0 <= k' -> phys s k = Some a -> phys s k' = Some a -> k = k'.
Proof. intros (Hr&Ht&_) ????. by eapply phy_walk_inj. Qed.

(** What [flush_blk] does to the devices. *)
Lemma flush_blk_spec s o :
  phys_ok (devices s) (p_rd o, p_pbid o) -> (p_dirty o = true -> zlen (p_data o) = BLK_SZ) ->
  (p_dirty o = false -> p_data o = dcontent (devices s) (p_rd o, p_pbid o)) ->
  exists ds', flush_blk o s = Ok () (set_devices ds' s) /\
    LocalDevice.numBlocks <$> ds' = LocalDevice.numBlocks <$> devices s /\
    (Forall LocalDevice.ready (devices s) -> Forall LocalDevice.ready ds') /\
    forall a, phys_ok (devices s) a ->
      dcontent ds' a = if decide (a = (p_rd o, p_pbid o)) then p_data o else dcontent (devices s) a.
Proof.
  intros Hp Hl Hclean. unfold flush_blk. destruct (p_dirty o).
  - destruct (dev_putBlock_spec s (p_rd o, p_pbid o) (p_data o) Hp (Hl eq_refl)) as (ds'&Hr&?&?&?).
    exists ds'. cbn in Hr. rewrite (bind_Ok _ _ _ _ _ Hr). done.
  - exists (devices s). split_and!; [by destruct s|done|done|]. intros a _.
    case_decide; subst; [|done]. by rewrite Hclean.
Qed.

(** One block inserted into the cache: its key now maps to it, every other
    block keeps its content whatever was displaced. *)
Lemma cache_put_spec ce s k o :
  inv ce s -> 0 <= k -> phys s k = Some (p_rd o, p_pbid o) ->
  (p_dirty o = true -> zlen (p_data o) = BLK_SZ) ->
  (p_dirty o = false -> cached ce s !! k = None /\ p_data o = dcontent (devices s) (p_rd o, p_pbid o)) ->
  exists s', cache_put ce k o s = Ok () s' /\ inv ce s' /\
    (forall k', phys s' k' = phys s k') /\ maxBlockID s' = maxBlockID s /\
    cached ce s' !! k = (if ce then Some o else None) /\
    (forall k', 0 <= k' -> k' <> k -> vget ce s' k' = vget ce s k') /\
    (ce = false -> s' = s).
Proof.
  intros Hinv Hk Hp Hl Hclean. destruct ce; [|by exists s]. unfold cache_put.
  pose proof Hinv as [Hw Hc]. unfold cached in Hc, Hclean |- *.
  unfold cache_insert, on_cache. destruct (c_insert_spec k o (blk_cache s)) as ([e|]&c'&Hins&Hi); cycle 1.
  - destruct Hi as [Hnone Hmap]. exists (set_cache c' s). unfold mbind, M_bind. rewrite Hins.
    split_and!; try done.
    + split; [done|]. intros k' o'. unfold cached. cbn. rewrite Hmap. intros [[<- <-]|[? Ho]]%lookup_insert_Some; [|by apply Hc].
      split_and!; try done. intros Hd. by apply Hclean.
    + cbn. by rewrite Hmap, lookup_insert_eq.
    + intros k' _ ?. unfold vget, cached. cbn. by rewrite Hmap, lookup_insert_ne.
  - destruct Hi as (k'&He&Hmap&Hne). destruct (Hc _ _ He) as (Hk'&Hpe&Hle&Hce).
    pose proof (phys_phys_ok _ _ _ Hw Hk' Hpe) as Hpok.
    destruct (flush_blk_spec (set_cache c' s) e Hpok Hle Hce) as (ds'&Hf&Hn&Hr&Hd).
    cbn [set_cache devices] in Hn, Hr, Hd.
    destruct (wf_set_devices s ds' Hw Hn Hr) as [Hw' Hph].
    exists (set_devices ds' (set_cache c' s)). unfold mbind, M_bind. rewrite Hins. split; [exact Hf|].
    assert (forall j o', 0 <= j -> phys s j = Some (p_rd o', p_pbid o') -> j <> k' ->
      dcontent ds' (p_rd o', p_pbid o') = dcontent (devices s) (p_rd o', p_pbid o')) as Hsame.
    { intros j o' ? Hj Hjk. rewrite Hd by (by eapply phys_phys_ok).
      rewrite decide_False; [done|]. intros E. apply Hjk.
      apply (phys_inj s j k' (p_rd o', p_pbid o')); try done. by rewrite E. }
    split_and!; try done.
    + split; [exact Hw'|]. intros j o'. unfold cached. cbn. rewrite Hmap.
      intros [[<- <-]|[? [? Ho]%lookup_delete_Some]]%lookup_insert_Some.
      * split_and!; try done; [by rewrite <-Hp; apply Hph|]. intros Hdy. destruct (Hclean Hdy) as [Hkn Hpd].
        rewrite (Hsame k o); try done. congruence.
      * destruct (Hc _ _ Ho) as (?&Hpo&?&Hco). split_and!; try done; [by rewrite <-Hpo; apply Hph|].
        intros Hdy. rewrite (Hsame j o'); auto.
    + cbn. by rewrite Hmap, lookup_insert_eq.
    + intros j Hj Hjk. unfold vget.
      assert (phys (set_devices ds' (set_cache c' s)) j = phys s j) as -> by (apply Hph).
      unfold cached. change (blk_cache (set_devices ds' (set_cache c' s))) with c'.
      rewrite Hmap, lookup_insert_ne by done.
      destruct (decide (j = k')) as [->|Hjk'].
      * rewrite lookup_delete_eq, He, Hpe, Hd by done. by rewrite decide_True.
      * rewrite lookup_delete_ne by done. destruct (c_map (blk_cache s) !! j); [done|].
        destruct (phys s j) as [[ix p]|] eqn:Hpj; [|done].
        by apply (Hsame j (mkP [] p ix false)).
Qed.

Lemma getPhyBlockAddr_Ok s k a : phys s k = Some a -> getPhyBlockAddr k s = Ok a s.
Proof. unfold phys, getPhyBlockAddr. by intros ->. Qed.

Lemma dev_getBlock_Ok s a :
  phys_ok (devices s) a -> dev_getBlock a.1 a.2 s = Ok (Some (dcontent (devices s) a)) s.
Proof.
  intros (d&Hd&Hr&Hp). unfold dev_getBlock, dcontent. rewrite Hd.
  by rewrite LocalDevice_getBlock_ready.
Qed.

(** Only the cache's book-keeping changed. *)
Lemma cache_check_spec s k :
  exists c, cache_check k s = Ok (c_map (blk_cache s) !! k) (set_cache c s) /\
    c_map c = c_map (blk_cache s).
Proof.
  unfold cache_check, on_cache. destruct (c_check_spec k (blk_cache s)) as (c&Hr&Hm). rewrite Hr. by exists c.
Qed.

Lemma inv_set_cache ce s c : inv ce s -> c_map c = c_map (blk_cache s) ->
  inv ce (set_cache c s) /\ (forall k, vget ce (set_cache c s) k = vget ce s k) /\
  forall k, cached ce (set_cache c s) !! k = cached ce s !! k.
Proof.
  intros [Hw Hc] Hm. assert (cached ce (set_cache c s) = cached ce s) as Heq.
  { unfold cached. cbn. by rewrite Hm. }
  unfold vget. rewrite Heq. split_and!; try done. split; [done|]. rewrite Heq. exact Hc.
Qed.

Lemma readBlock_helper_spec ce s k :
  inv ce s -> 0 <= k < maxBlockID s ->
  exists r p s', readBlock_helper ce k s = Ok (r, Some p) s' /\ r <> BFS_FAILURE /\
    p_data p = vget ce s k /\ inv ce s' /\ (forall j, 0 <= j -> vget ce s' j = vget ce s j) /\
    maxBlockID s' = maxBlockID s /\ (ce = false -> s' = s /\ r = BFS_SUCCESS).
Proof.
  intros Hinv Hk. pose proof Hinv as [Hw Hc].
  destruct (phys_is_Some s k Hw Hk) as [a Ha].
  assert (exists s1, (if ce then cache_check k else mret None) s = Ok (cached ce s !! k) s1 /\
    inv ce s1 /\ (forall j, vget ce s1 j = vget ce s j) /\ devices s1 = devices s /\
    maxBlockID s1 = maxBlockID s /\ (ce = false -> s1 = s) /\
    (forall j, cached ce s1 !! j = cached ce s !! j)) as (s1&Hr1&Hi1&Hv1&Hd1&Hm1&Hn1&Hc1).
  { destruct ce; [|by exists s]. destruct (cache_check_spec s k) as (c&Hr&Hcm).
    destruct (inv_set_cache true s c Hinv Hcm) as (?&?&?). by exists (set_cache c s). }
  unfold readBlock_helper. rewrite (bind_Ok _ _ _ _ _ (getPhyBlockAddr_Ok s k a Ha)).
  destruct a as [ix p]. rewrite (bind_Ok _ _ _ _ _ Hr1).
  destruct (cached ce s !! k) as [o|] eqn:Ho.
  { exists BFS_SUCCESS_CACHE_HIT, o, s1. split_and!; try done.
    - unfold vget. by rewrite Ho.
    - intros ->. unfold cached in Ho. by rewrite lookup_empty in Ho. }
  assert (phys s1 k = Some (ix, p)) as Ha1 by (unfold phys; by rewrite Hd1).
  pose proof (phys_phys_ok s1 k _ (proj1 Hi1) ltac:(lia) Ha1) as Hpok.
  rewrite (bind_Ok _ _ _ _ _ (dev_getBlock_Ok s1 (ix, p) Hpok)).
  assert (dcontent (devices s1) (ix, p) = vget ce s k) as Hdc.
  { unfold vget. by rewrite Ho, Ha, Hd1. }
  destruct (cache_put_spec ce s1 k (mkP (dcontent (devices s1) (ix, p)) p ix false))
    as (s2&Hr2&Hi2&_&Hm2&Hck&Hv2&Hn2); try done; [lia|by rewrite Hc1|].
  rewrite (bind_Ok _ _ _ _ _ Hr2).
  exists BFS_SUCCESS, (mkP (dcontent (devices s1) (ix, p)) p ix false), s2. split_and!; try done.
  - intros j Hj. destruct (decide (j = k)) as [->|Hne]; [|by rewrite Hv2, Hv1].
    unfold vget at 1. rewrite Hck. destruct ce; [exact Hdc|].
    rewrite (Hn2 eq_refl), Ha1. exact Hdc.
  - congruence.
  - intros Hce. rewrite (Hn2 Hce), (Hn1 Hce). done.
Qed.

Lemma readBlock_spec ce s k :
  inv ce s -> 0 <= k < maxBlockID s ->
  exists r s', readBlock ce k s = Ok (r, Some (vget ce s k)) s' /\ r <> BFS_FAILURE /\
    inv ce s' /\ (forall j, 0 <= j -> vget ce s' j = vget ce s j) /\ maxBlockID s' = maxBlockID s /\
    (ce = false -> s' = s /\ r = BFS_SUCCESS).
Proof.
  intros Hi Hk. destruct (readBlock_helper_spec ce s k Hi Hk) as (r&p&s'&Hr&Hnf&Hp&?&?&?&?).
  exists r, s'. unfold readBlock. rewrite (bind_Ok _ _ _ _ _ Hr), Hp. by destruct r.
Qed.

Lemma writeBlock_spec ce s k b flags :
  inv ce s -> 0 <= k < maxBlockID s -> zlen b = BLK_SZ ->
  exists s', writeBlock ce k b flags s = Ok BFS_SUCCESS s' /\ inv ce s' /\
    (forall j, 0 <= j -> vget ce s' j = if decide (j = k) then b else vget ce s j) /\
    maxBlockID s' = maxBlockID s.
Proof.
  intros Hinv Hk Hb. unfold writeBlock. rewrite bool_decide_true by done.
  rewrite (bind_Ok _ _ _ () s eq_refl). pose proof Hinv as [Hw Hc].
  destruct (phys_is_Some s k Hw Hk) as [[ix p] Ha]. unfold writeBlock_helper.
  rewrite (bind_Ok _ _ _ _ _ (getPhyBlockAddr_Ok s k _ Ha)).
  destruct (cache_put_spec ce s k (mkP b p ix true)) as (s1&Hr1&Hi1&Hp1&Hm1&Hck&Hv1&Hn1); try done; [lia|].
  rewrite (bind_Ok _ _ _ _ _ Hr1).
  destruct (negb ce || is_sync flags) eqn:Hsync; cycle 1.
  { apply orb_false_iff in Hsync as [Hce _]. destruct ce; [|done].
    exists s1. split_and!; try done. intros j Hj. case_decide; subst; [|auto].
    unfold vget. by rewrite Hck. }
  pose proof (Hp1 k) as Ha1. rewrite Ha in Ha1.
  pose proof (phys_phys_ok s1 k _ (proj1 Hi1) ltac:(lia) Ha1) as Hpok.
  destruct (dev_putBlock_spec s1 (ix, p) b Hpok Hb) as (ds'&Hr2&Hnum&Hrdy&Hd2). cbn in Hr2.
  rewrite (bind_Ok _ _ _ _ _ Hr2). destruct Hi1 as [Hw1 Hc1].
  destruct (wf_set_devices s1 ds' Hw1 Hnum Hrdy) as [Hw2 Hp2].
  exists (set_devices ds' s1). split_and!; try done.
  - split; [done|]. intros j o Ho. destruct (Hc1 j o Ho) as (?&Hpo&?&Hcl).
    split_and!; try done; [by rewrite Hp2|]. intros Hdy. rewrite (Hcl Hdy).
    cbn [set_devices devices]. rewrite Hd2 by (by eapply phys_phys_ok).
    case_decide as E; [|done]. assert (j = k) as -> by (eapply (phys_inj s1); (done || lia || congruence)).
    change (cached ce (set_devices ds' s1)) with (cached ce s1) in Ho. rewrite Hck in Ho.
    destruct ce; simplify_eq.
  - intros j Hj. assert (cached ce (set_devices ds' s1) = cached ce s1) as Hcs by done.
    unfold vget at 1. rewrite Hcs, Hp2, Hp1. destruct (decide (j = k)) as [->|Hne].
    + rewrite Hck, Ha. destruct ce; [done|]. cbn [set_devices devices].
      rewrite Hd2, decide_True by done. done.
    + rewrite <-Hv1 by done. unfold vget. rewrite Hp1.
      destruct (cached ce s1 !! j); [done|]. destruct (phys s j) as [a|] eqn:Hja; [|done].
      cbn [set_devices devices]. rewrite Hd2.
      * rewrite decide_False; [done|]. intros ->. apply Hne. eapply (phys_inj s); (done || lia).
      * eapply (phys_phys_ok s1 j); [done|done|]. by rewrite Hp1.
Qed.

(** *** The block layer as a map of blocks *)
Inductive op := Read (k : Z) | Write (k : Z) (b : bytes) (f : op_flags).

Definition op_key (o : op) : Z := match o with Read k | Write k _ _ => k end.

(** Operations the file system issues: addresses of the cluster, whole blocks. *)
Definition op_ok (s : t) (o : op) : Prop :=
  0 <= op_key o < maxBlockID s /\
  match o with Write _ b _ => zlen b = BLK_SZ | _ => True end.

Definition exec (ce : bool) (o : op) : M t (option bytes) :=
  match o with
  | Read k => r ← readBlock ce k; mret r.2
  | Write k b f => writeBlock ce k b f ;; mret None
  end.

Fixpoint exec_all (ce : bool) (os : list op) : M t (list (option bytes)) :=
  match os with
  | [] => mret []
  | o :: os => r ← exec ce o; rs ← exec_all ce os; mret (r :: rs)
  end.

Definition map_step (o : op) (m : Z -> bytes) : option bytes * (Z -> bytes) :=
  match o with
  | Read k => (Some (m k), m)
  | Write k b _ => (None, fun j => if decide (j = k) then b else m j)
  end.

Fixpoint map_run (os : list op) (m : Z -> bytes) : list (option bytes) * (Z -> bytes) :=
  match os with
  | [] => ([], m)
  | o :: os => let '(r, m) := map_step o m in let '(rs, m) := map_run os m in (r :: rs, m)
  end.

Lemma exec_spec ce o s (m : Z -> bytes) :
  inv ce s -> op_ok s o -> (forall j, 0 <= j -> vget ce s j = m j) ->
  exists s', exec ce o s = Ok (map_step o m).1 s' /\ inv ce s' /\ maxBlockID s' = maxBlockID s /\
    forall j, 0 <= j -> vget ce s' j = (map_step o m).2 j.
Proof.
  intros Hi [Hk Hb] Hm. destruct o as [k|k b f]; cbn in *.
  - destruct (readBlock_spec ce s k Hi Hk) as (r&s'&Hr&_&Hi'&Hv&Hmax&_).
    exists s'. rewrite (bind_Ok _ _ _ _ _ Hr). cbn. rewrite <-Hm by lia. split_and!; try done.
    intros j Hj. rewrite Hv by done. auto.
  - destruct (writeBlock_spec ce s k b f Hi Hk Hb) as (s'&Hr&Hi'&Hv&Hmax).
    exists s'. rewrite (bind_Ok _ _ _ _ _ Hr). split_and!; try done.
    intros j Hj. rewrite Hv by done. case_decide; auto.
Qed.

(** Every sequence of whole-block reads and writes inside the cluster returns
    what a plain block map returns, without a cache or with a cache that keeps its
    laws, for every mix of synchronous and deferred writes. *)
Theorem blocklayer_refines_map ce os s :
  inv ce s -> Forall (op_ok s) os ->
  exists s', exec_all ce os s = Ok (map_run os (vget ce s)).1 s' /\ inv ce s' /\
    forall j, 0 <= j -> vget ce s' j = (map_run os (vget ce s)).2 j.
Proof.
  intros Hi Hok. assert (forall j, 0 <= j -> vget ce s j = vget ce s j) as Hm by done.
  revert Hm. generalize (vget ce s) at 2 3 4 as m. intros m Hm.
  remember (maxBlockID s) as N eqn:HN. assert (maxBlockID s = N) as HN' by done. clear HN.
  revert s m Hi Hok Hm HN'. induction os as [|o os IH]; intros s m Hi Hok Hm HN; cbn.
  - exists s. done.
  - apply Forall_cons in Hok as [Ho Hok].
    destruct (exec_spec ce o s m Hi Ho Hm) as (s1&Hr&Hi1&Hmax&Hm1).
    destruct (map_step o m) as [r m1]. cbn in Hr, Hm1.
    destruct (IH s1 m1) as (s'&Hr'&Hi'&Hm'); try done.
    { eapply Forall_impl; [done|]. intros o' [??]. split; [by rewrite Hmax|done]. }
    { congruence. }
    exists s'. destruct (map_run os m1) as [rs m2]. rewrite (bind_Ok _ _ _ _ _ Hr).
    rewrite (bind_Ok _ _ _ _ _ Hr'). done.
Qed.

End vbc.
Arguments t : clear implicits.
End VBC.

(** ** Two caches: none, and a bounded map *)
#[export] Instance no_cache : BlkCache () :=
  {| c_check := fun _ => mret None; c_insert := fun _ _ => mret None |}.

Module BoundedCache.
Abbreviation t := (gmap Z PBfsBlock).

(** At capacity a new key displaces some entry. *)
Definition insert (cap : nat) (k : Z) (o : PBfsBlock) (c : t) : option PBfsBlock * t :=
  match c !! k with
  | Some old => (Some old, <[k := o]> c)
  | None =>
      if decide (cap <= size c)%nat then
        match map_to_list c with
        | (k', e) :: _ => (Some e, <[k := o]> (delete k' c))
        | [] => (None, <[k := o]> c)
        end
      else (None, <[k := o]> c)
  end.

#[export] Instance cache : BlkCache t :=
  {| c_check := fun k c => Ok (c !! k) c; c_insert := fun k o c => let '(r, c) := insert 2 k o c in Ok r c |}.

#[export, refine] Instance laws : BlkCacheLaws t := {| c_map := fun c => c |}.
Proof.
  - intros k c. by exists c.
  - intros k o c. cbn. unfold insert. destruct (c !! k) as [old|] eqn:Hk.
    + eexists _, _. split; [done|]. exists k. split_and!; [done| |done]. by rewrite insert_delete_eq.
    + case_decide; [|by eexists _, _]. destruct (map_to_list c) as [|[k' e] l] eqn:Hl; [by eexists _, _|].
      eexists _, _. split; [done|]. exists k'. split_and!; try done. apply elem_of_map_to_list. rewrite Hl. left.
Defined.
End BoundedCache.

(** ** Allocation discipline of [bfsBlockLayerInit] *)
Module BlockLayerInit.
Definition alloc_strings : list string := ["linear"; "interleave"]%string.
Definition BFSBLK_MAX_ALLOC : Z := 2.

(** The search loop: it stops once an algorithm is set, but [i] is advanced
    after the match.  Result: the algorithm and the final [i]. *)
Fixpoint search (cfg : string) (strs : list string) (i alg : Z) : Z * Z :=
  match strs with
  | [] => (alg, i)
  | x :: strs =>
      if alg =? BFSBLK_MAX_ALLOC
      then search cfg strs (i + 1) (if decide (cfg = x) then i else alg)
      else (alg, i)
  end.

Definition configure (cfg : string) : Z + exn :=
  let '(alg, i) := search cfg alloc_strings 0 BFSBLK_MAX_ALLOC in
  if BFSBLK_MAX_ALLOC <=? i
  then inr (bfsBlockError "Unknown block allocation algorithm in config : ")
  else inl alg.
End BlockLayerInit.

(** The second discipline is matched by the loop and then refused: the check
    after the loop looks at the index, not at the algorithm found. *)
Theorem configure_interleave_refused :
  BlockLayerInit.configure "linear" = inl 0 /\
  (BlockLayerInit.search "interleave" BlockLayerInit.alloc_strings 0 BlockLayerInit.BFSBLK_MAX_ALLOC).1 = 1 /\
  BlockLayerInit.configure "interleave" =
    inr (bfsBlockError "Unknown block allocation algorithm in config : ").
Proof. done. Qed.
