(* ===== verification/BlockCache.v ===== *)
(** * The block cache of the cluster

    [bfsVertBlockCluster] keeps its blocks in a [BfsCache] of pointers to block
    objects.  Here the model of [BfsCache] is made an instance of the interface
    of [BlockLayer].  The cluster with this cache is related step by step to the
    cluster with a queue of blocks, which keeps the laws of the interface, as long
    as the cache is not used in the way that corrupts its list. *)
From S2P Require Import Prelude Cache Layout BlockLayer.
#[local] Open Scope Z_scope.

Module BlockCache.
Import VBC.

(** ** [BfsCache] with block objects *)

(** [objs]: the block objects that were allocated and not deleted; [brk]: the
    next address. *)
Record t := mk { cache : Cache.t Z nat; objs : gmap nat PBfsBlock; brk : nat }.

Definition set_cache (c : Cache.t Z nat) (b : t) : t := mk c (objs b) (brk b).
Definition set_objs (m : gmap nat PBfsBlock) (b : t) : t := mk (cache b) m (brk b).

Definition new_cache (cap : Z) : t := mk (Cache.ctor cap) ∅ 0.

Definition on_list {A} (m : M (Cache.t Z nat) A) : M t A := fun b =>
  match m (cache b) with
  | Ok a c => Ok a (set_cache c b)
  | Throw e c => Throw e (set_cache c b)
  | Crash e => Crash e
  end.

Definition deref (p : nat) : M t PBfsBlock := m ← gets objs; of_opt (m !! p).

(** [new PBfsBlock]. *)
Definition new_obj (o : PBfsBlock) : M t nat := fun b =>
  Ok (brk b) (mk (cache b) (<[brk b := o]> (objs b)) (S (brk b))).

Definition check (k : Z) : M t (option PBfsBlock) :=
  r ← on_list (Cache.checkCache k false);
  match r with
  | None => mret None
  | Some p => o ← deref p; mret (Some o)
  end.

(** An object that is returned in place of the new one is flushed and deleted by
    the caller. *)
Definition insert (k : Z) (o : PBfsBlock) : M t (option PBfsBlock) :=
  p ← new_obj o;
  r ← on_list (Cache.insertCache k p);
  if decide (r = p) then mret None
  else old ← deref r; modify (fun b => set_objs (delete r (objs b)) b) ;; mret (Some old).

#[export] Instance bfs_cache : BlkCache t := {| c_check := check; c_insert := insert |}.

(** ** The queue *)
Abbreviation items := (list (Z * PBfsBlock)).

(** The displaced block, and the queue with [o] as the newest block. *)
Definition push {V} (cap : Z) (k : Z) (o : V) (q : list (Z * V)) : option V * list (Z * V) :=
  match Cache.qlookup k q with
  | Some old => (Some old, Cache.qwithout k q ++ [(k, o)])
  | None => if decide (zlen q < cap) then (None, q ++ [(k, o)]) else (snd <$> head q, tail q ++ [(k, o)])
  end.

Lemma without_keys {V} k (q : list (Z * V)) : (Cache.qwithout k q).*1 = filter (fun j => j <> k) q.*1.
Proof.
  unfold Cache.qwithout. induction q as [|[j v] q IH]; [done|]. rewrite fmap_cons. destruct (decide (j = k)) as [->|Hne].
  - by rewrite !filter_cons_False by (cbn; tauto).
  - rewrite !filter_cons_True by done. by rewrite fmap_cons, IH.
Qed.

Lemma qlookup_Some {V} k (q : list (Z * V)) : is_Some (Cache.qlookup k q) <-> k ∈ q.*1.
Proof.
  induction q as [|[j v] q IH]; cbn; [split; [by intros []|by intros ?%elem_of_nil]|].
  rewrite elem_of_cons, <-IH. case_decide as Hd; subst; [split; [by left|eauto]|]. split; [by right|by intros [->|?]].
Qed.

Lemma qlookup_None {V} k (q : list (Z * V)) : Cache.qlookup k q = None -> k ∉ q.*1.
Proof. intros Hq Hin%qlookup_Some. rewrite Hq in Hin. by destruct Hin. Qed.

(** The keys of the queue after a block was put into it. *)
Definition push_key (cap k : Z) (ks : list Z) : list Z :=
  if decide (k ∈ ks) then filter (fun j => j <> k) ks ++ [k]
  else if decide (zlen ks < cap) then ks ++ [k] else tail ks ++ [k].

Lemma push_keys {V} cap k (o : V) q : (push cap k o q).2.*1 = push_key cap k q.*1.
Proof.
  unfold push, push_key. destruct (Cache.qlookup k q) as [old|] eqn:Hq.
  - rewrite decide_True by (apply qlookup_Some; eauto). cbn. by rewrite fmap_app, without_keys.
  - rewrite (decide_False (P := k ∈ q.*1)) by (by apply qlookup_None).
    assert (zlen q.*1 = zlen q) as -> by (unfold zlen; by rewrite length_fmap).
    case_decide; cbn; rewrite fmap_app; [done|]. by destruct q.
Qed.

Lemma push_nodup cap k ks : NoDup ks -> NoDup (push_key cap k ks).
Proof.
  intros Hnd. unfold push_key. case_decide as Hin; [|case_decide].
  - apply NoDup_app. split_and!; [by apply NoDup_filter| |apply NoDup_singleton].
    intros j [Hne _]%list_elem_of_filter ->%list_elem_of_singleton. done.
  - apply NoDup_app. split_and!; [done|by intros j Hj ->%list_elem_of_singleton|apply NoDup_singleton].
  - apply NoDup_app. split_and!; [by destruct ks; [|apply NoDup_cons in Hnd as []]| |apply NoDup_singleton].
    intros j Hj ->%list_elem_of_singleton. destruct ks; [by apply elem_of_nil in Hj|]. apply Hin. by right.
Qed.

Record queue := mkQ { q_cap : Z; q_items : items; q_nodup : NoDup q_items.*1 }.

Definition q_insert (k : Z) (o : PBfsBlock) (c : queue) : queue.
Proof.
  refine (mkQ (q_cap c) (push (q_cap c) k o (q_items c)).2 _).
  abstract (rewrite push_keys; apply push_nodup, q_nodup).
Defined.

#[export] Instance queue_cache : BlkCache queue := {|
  c_check k c := Ok (Cache.qlookup k (q_items c)) c;
  c_insert k o c := Ok (push (q_cap c) k o (q_items c)).1 (q_insert k o c)
|}.

Lemma qlookup_map {V} k (q : list (Z * V)) : Cache.qlookup k q = (list_to_map q : gmap Z V) !! k.
Proof.
  induction q as [|[j v] q IH]; cbn; [by rewrite lookup_empty|].
  case_decide; subst; [by rewrite lookup_insert_eq|by rewrite lookup_insert_ne].
Qed.

Lemma without_map {V} k (q : list (Z * V)) : (list_to_map (Cache.qwithout k q) : gmap Z V) = delete k (list_to_map q).
Proof.
  apply map_eq. intros j. rewrite <-qlookup_map. unfold Cache.qwithout. induction q as [|[i v] q IH].
  - cbn. by rewrite delete_empty, lookup_empty.
  - rewrite list_to_map_cons. destruct (decide (i = k)) as [->|Hne].
    + rewrite filter_cons_False by (cbn; tauto). rewrite IH. by rewrite delete_insert_eq.
    + rewrite filter_cons_True by done. cbn. rewrite delete_insert_ne by done. case_decide; subst.
      * by rewrite lookup_insert_eq.
      * by rewrite lookup_insert_ne.
Qed.

Lemma snoc_map {V} k (o : V) (q : list (Z * V)) : k ∉ q.*1 -> (list_to_map (q ++ [(k, o)]) : gmap Z V) = <[k := o]> (list_to_map q).
Proof. intros Hk. rewrite list_to_map_snoc by done. done. Qed.

(** The queue keeps the laws. *)
#[export, refine] Instance queue_laws : BlkCacheLaws queue := {| c_map c := list_to_map (q_items c) |}.
Proof.
  - intros k c. exists c. split; [|done]. cbn. by rewrite qlookup_map.
  - intros k o [cap q Hnd]. eexists _, _. split; [done|]. cbn. unfold push.
    destruct (Cache.qlookup k q) as [old|] eqn:Hq; cbn.
    + exists k. rewrite <-qlookup_map, Hq. split_and!; [done| |done].
      rewrite snoc_map by (rewrite without_keys, list_elem_of_filter; tauto). by rewrite without_map.
    + pose proof (qlookup_None k q Hq) as Hk.
      assert ((list_to_map q : gmap Z PBfsBlock) !! k = None) as Hn by (by rewrite <-qlookup_map).
      case_decide; cbn; [by rewrite Hn, snoc_map|]. destruct q as [|[j e] q]; cbn; [done|].
      exists j. rewrite lookup_insert_eq. apply NoDup_cons in Hnd as [Hj Hnd]. cbn in Hk. split_and!; [done| |done].
      rewrite snoc_map by (intros Hin; apply Hk; by right). rewrite delete_insert_id; [done|]. by apply not_elem_of_list_to_map_1.
Defined.

(** ** [BfsCache] and the queue *)

(** A pointer stands for its object. *)
Definition pts (m : gmap nat PBfsBlock) (p : nat) (o : PBfsBlock) : Prop := m !! p = Some o.
Definition entry (m : gmap nat PBfsBlock) (e : Z * nat) (e' : Z * PBfsBlock) : Prop := e.1 = e'.1 /\ pts m e.2 e'.2.

Lemma entry_lookup m k g q : Forall2 (entry m) g q -> option_Forall2 (pts m) (Cache.qlookup k g) (Cache.qlookup k q).
Proof.
  induction 1 as [|[j p] [j' o] g q [Hj Hp] _ IH]; [constructor|]. cbn in *. subst j'. case_decide; [by constructor|done].
Qed.

Lemma entry_without m k g q : Forall2 (entry m) g q -> Forall2 (entry m) (Cache.qwithout k g) (Cache.qwithout k q).
Proof.
  unfold Cache.qwithout. induction 1 as [|[j p] [j' o] g q [Hj Hp] _ IH]; [done|]. cbn in Hj. subst j'.
  destruct (decide (j = k)) as [->|Hne].
  - rewrite !filter_cons_False by (cbn; tauto). done.
  - rewrite !filter_cons_True by done. by constructor.
Qed.

Lemma entry_push m cap k p o g q :
  Forall2 (entry m) g q -> pts m p o ->
  option_Forall2 (pts m) (push cap k p g).1 (push cap k o q).1 /\ Forall2 (entry m) (push cap k p g).2 (push cap k o q).2.
Proof.
  intros Hgq Hp. unfold push. pose proof (entry_lookup m k g q Hgq) as Hl.
  assert (Forall2 (entry m) [(k, p)] [(k, o)]) as H1 by (by repeat constructor).
  assert (zlen g = zlen q) as -> by (unfold zlen; by rewrite (Forall2_length _ _ _ Hgq)).
  inversion Hl as [p' o' Hp' E1 E2|E1 E2]; cbn.
  - split; [by constructor|]. apply Forall2_app; [by apply entry_without|done].
  - case_decide; cbn; [split; [constructor|by apply Forall2_app]|].
    destruct Hgq as [|[? ?] [? ?] g q [_ ?] ?]; cbn; split; try constructor; try done; by apply Forall2_app.
Qed.

(** What comes out and what stays are what was there and what went in. *)
Lemma without_perm (k : Z) (p : nat) q : NoDup q.*1 -> Cache.qlookup k q = Some p -> p :: (Cache.qwithout k q).*2 ≡ₚ q.*2.
Proof.
  unfold Cache.qwithout. induction q as [|[j v] q IH]; [done|]. rewrite !fmap_cons. cbn [fst snd Cache.qlookup].
  intros [Hj Hnd]%NoDup_cons Hq. case_decide as Hd.
  - simplify_eq. rewrite filter_cons_False by (cbn; tauto). f_equiv.
    pose proof (Cache.qwithout_none k q Hj) as Hw. unfold Cache.qwithout in Hw. by rewrite Hw.
  - rewrite filter_cons_True by done. rewrite fmap_cons. cbn [snd]. rewrite Permutation_swap. f_equiv. by apply IH.
Qed.

Lemma push_perm cap (k : Z) (p : nat) q : NoDup q.*1 -> 1 <= cap ->
  match (push cap k p q).1 with
  | None => (push cap k p q).2.*2 ≡ₚ p :: q.*2
  | Some r => r :: (push cap k p q).2.*2 ≡ₚ p :: q.*2
  end.
Proof.
  intros Hnd Hcap. unfold push. destruct (Cache.qlookup k q) as [r|] eqn:Hq; cbn.
  - rewrite fmap_app. cbn. rewrite <-(without_perm k r q Hnd Hq). by rewrite Permutation_app_comm, Permutation_swap.
  - case_decide as Hlt; cbn; [rewrite fmap_app; by rewrite Permutation_app_comm|].
    destruct q as [|[j v] q]; cbn; [unfold zlen in Hlt; cbn in Hlt; lia|].
    rewrite fmap_app. cbn. by rewrite Permutation_app_comm, Permutation_swap.
Qed.

Lemma push_in cap (k : Z) (p : nat) q : p ∈ (push cap k p q).2.*2.
Proof.
  assert (forall l : list (Z * nat), p ∈ (l ++ [(k, p)]).*2) as Hl.
  { intros l. rewrite fmap_app. apply elem_of_app. right. left. }
  unfold push. repeat case_match; apply Hl.
Qed.

Lemma spec_push {V} `{EqDecision V} cap k (v : V) q : 1 <= cap ->
  Cache.spec cap (Cache.Insert k v) q = (Some (default v (push cap k v q).1), (push cap k v q).2).
Proof.
  intros Hcap. unfold push. cbn. destruct (Cache.qlookup k q); [done|]. unfold zlen. case_decide as Hlt; [done|].
  destruct q; [cbn in Hlt; lia|done].
Qed.

(** The list of [b] holds pointers to the blocks of [c], and its counters allow
    [n] more calls. *)
Definition holds (n : Z) (b : t) (c : queue) : Prop :=
  exists g, Cache.rep (cache b) g /\ Cache.budget (cache b) n /\ Cache.maxsize (cache b) = q_cap c /\ zlen g <= q_cap c /\
    Forall2 (entry (objs b)) g.*2 (q_items c) /\ NoDup g.*2.*2 /\ forall p, p ∈ g.*2.*2 -> (p < brk b)%nat.

Lemma deref_Ok b p o : objs b !! p = Some o -> deref p b = Ok o b.
Proof. intros Hp. unfold deref. msteps. by rewrite Hp. Qed.

Lemma check_Ok n b c k : holds (n + 1) b c -> 0 <= n ->
  exists b', check k b = Ok (Cache.qlookup k (q_items c)) b' /\ holds n b' c.
Proof.
  intros (g&Hr&Hb&Hm&Hz&Hgq&Hnd&Hlt) Hn.
  destruct (Cache.exec_Ok (cache b) g (Cache.Check k) n Hr Hb Hn) as (c'&g'&He&Hr'&Hg'&Hb'&Hm'); [lia|done|].
  cbn [Cache.exec Cache.spec fst snd] in He, Hg'. exists (set_cache c' b). split.
  - unfold check. assert (on_list (Cache.checkCache k false) b = Ok (Cache.qlookup k g.*2) (set_cache c' b)) as Ho
      by (unfold on_list; by rewrite He). mrun Ho.
    pose proof (entry_lookup _ k _ _ Hgq) as Hl. inversion Hl as [p o Hp E1 E2|E1 E2]; [|done].
    assert (deref p (set_cache c' b) = Ok o (set_cache c' b)) as Hd by (by apply deref_Ok). by mrun Hd.
  - exists g'. cbn [cache set_cache objs brk]. rewrite Hg', Hm'. split_and!; try done. unfold zlen in *. rewrite <-(length_fmap snd g'), Hg', length_fmap. lia.
Qed.

(** The oldest of several blocks is not inserted again. *)
Definition spares (k : Z) (ks : list Z) : Prop := (length ks <= 1)%nat \/ head ks <> Some k.

Lemma insert_Ok n b c k o : holds (n + 1) b c -> 0 <= n -> spares k (q_items c).*1 ->
  exists b', insert k o b = Ok (push (q_cap c) k o (q_items c)).1 b' /\ holds n b' (q_insert k o c).
Proof.
  intros (g&Hr&Hb&Hm&Hz&Hgq&Hnd&Hlt) Hn Hsp. set (p := brk b). set (m := <[p := o]> (objs b)).
  assert (1 <= q_cap c) as Hcap by (destruct Hb as [Hb _]; lia). rewrite <-Hm in Hz, Hcap |- *.
  assert (g.*2.*1 = (q_items c).*1) as Hkeys.
  { clear -Hgq. induction Hgq as [|? ? ? ? [E _] ? IH]; [done|]. by rewrite !fmap_cons, E, IH. }
  assert (p ∉ g.*2.*2) as Hfresh by (intros Hin%Hlt; unfold p in Hin; lia).
  assert (Forall2 (entry m) g.*2 (q_items c)) as Hgq'.
  { clear -Hgq Hfresh. induction Hgq as [|[i r] e' l l' [E1 E2] ? IH]; [done|]. rewrite fmap_cons in Hfresh. cbn in *.
    apply not_elem_of_cons in Hfresh as [Hne Hfr]. constructor; [|by apply IH]. split; [done|].
    unfold pts, m in *. by rewrite lookup_insert_ne. }
  destruct (Cache.exec_Ok (cache b) g (Cache.Insert k p) n Hr Hb Hn Hz) as (c'&g'&He&Hr'&Hg'&Hb'&Hm').
  { cbn. unfold spares in Hsp. rewrite <-Hkeys in Hsp. rewrite length_fmap in Hsp. destruct Hsp as [?|Hh]; [by left|right].
    by destruct g.*2. }
  rewrite spec_push in He, Hg' by done. cbn [Cache.exec fst snd] in He, Hg'.
  apply bind_Ok_inv in He as (r&c1&Hi&He). simplify_eq. injection He as -> ->.
  destruct (entry_push m (Cache.maxsize (cache b)) k p o g.*2 (q_items c) Hgq') as [Hout Hin]; [apply lookup_insert_eq|].
  pose proof (push_perm (Cache.maxsize (cache b)) k p g.*2 (Cache.rep_keys _ _ Hr) Hcap) as Hperm.
  set (b1 := mk (cache b) m (S p)). set (b2 := mk c' m (S p)).
  assert (new_obj o b = Ok p b1) as Hnew by done.
  assert (on_list (Cache.insertCache k p) b1 = Ok (default p (push (Cache.maxsize (cache b)) k p g.*2).1) b2) as Hons
    by (unfold on_list, b1; cbn [cache]; by rewrite Hi).
  assert (zlen g' <= Cache.maxsize (cache b)) as Hz'.
  { pose proof (Cache.fits_spec (Cache.maxsize (cache b)) (Cache.Insert k p) g.*2 Hcap) as Hf. rewrite spec_push in Hf by done.
    cbn [snd] in Hf. unfold zlen in *. rewrite length_fmap in Hf. rewrite <-(length_fmap snd g'), Hg'. by apply Hf. }
  unfold insert. mrun Hnew. mrun Hons.
  destruct (push (Cache.maxsize (cache b)) k p g.*2) as [out g1] eqn:Hpush. cbn [fst snd] in *.
  assert (q_items (q_insert k o c) = (push (Cache.maxsize (cache b)) k o (q_items c)).2) as Hitems by (cbn; by rewrite Hm).
  destruct Hout as [r o' Hro|]; cbn [default]; cycle 1.
  - rewrite decide_True by done. exists b2. split; [done|]. exists g'. rewrite Hg', Hitems. cbn [cache objs brk b2 q_cap q_insert].
    split_and!; try done; [congruence|lia|rewrite Hperm; by apply NoDup_cons|].
    intros q Hq. rewrite Hperm in Hq. apply elem_of_cons in Hq as [->|Hq%Hlt]; unfold p; lia.
  - assert (NoDup (r :: g1.*2)) as Hnd1 by (rewrite Hperm; by apply NoDup_cons). apply NoDup_cons in Hnd1 as [Hr1 Hnd1].
    assert (forall q, q ∈ r :: g1.*2 -> (q < S p)%nat) as Hlt1.
    { intros q Hq. rewrite Hperm in Hq. apply elem_of_cons in Hq as [->|Hq%Hlt]; unfold p; lia. }
    assert (r <> p) as Hrp.
    { intros ->. apply Hr1. pose proof (push_in (Cache.maxsize (cache b)) k p g.*2) as Hp. by rewrite Hpush in Hp. }
    rewrite decide_False by done. mrun (deref_Ok b2 r o' Hro). msteps.
    exists (mk c' (delete r m) (S p)). split; [done|]. exists g'. rewrite Hg', Hitems. cbn [cache objs brk q_cap q_insert].
    split_and!; try done; [congruence|lia| |by intros q Hq; apply Hlt1; right].
    clear -Hin Hr1. induction Hin as [|[i q] e' l l' [E1 E2] ? IH]; [done|]. rewrite fmap_cons in Hr1. cbn in *.
    apply not_elem_of_cons in Hr1 as [Hne Hfr]. constructor; [|by apply IH]. split; [done|].
    unfold pts in *. cbn in *. by rewrite lookup_delete_ne.
Qed.

(** ** The cluster *)

(** The two clusters differ in their caches only; without the cache these are of
    no interest. *)
Definition sim (ce : bool) (n : Z) (s : VBC.t t) (q : VBC.t queue) : Prop :=
  clusterState s = clusterState q /\ maxBlockID s = maxBlockID q /\ devices s = devices q /\
  blkAllocTable s = blkAllocTable q /\ (ce = true -> holds n (blk_cache s) (blk_cache q)).

(** A step on the queue that succeeds is one with the cache. *)
Definition follows {A} (ce : bool) (n : Z) (m : M (VBC.t t) A) (mq : M (VBC.t queue) A) s q : Prop :=
  match mq q with Ok a q' => exists s', m s = Ok a s' /\ sim ce n s' q' | _ => True end.

Lemma follows_bind {A B} ce n n' (m : M (VBC.t t) A) mq (f : A -> M (VBC.t t) B) fq s q :
  follows ce n m mq s q -> (forall a s' q', mq q = Ok a q' -> sim ce n s' q' -> follows ce n' (f a) (fq a) s' q') ->
  follows ce n' (m ≫= f) (mq ≫= fq) s q.
Proof.
  unfold follows. intros Hm Hf. unfold mbind, M_bind. destruct (mq q) as [a q'| |] eqn:Hq; [|done..].
  destruct Hm as (s'&Hr&Hs). rewrite Hr. by apply Hf.
Qed.

Lemma follows_ret {A} ce n (a : A) s q : sim ce n s q -> follows ce n (mret a) (mret a) s q.
Proof. intros Hs. by exists s. Qed.

Lemma sim_weaken ce n n' s q : sim ce n s q -> n' <= n -> sim ce n' s q.
Proof.
  intros (?&?&?&?&Hc) Hn. split_and!; try done. intros Hce. destruct (Hc Hce) as (g&Hr&(?&?&?&?)&Hrest).
  exists g. split; [done|]. split; [|exact Hrest]. unfold Cache.budget. split_and!; try done; lia.
Qed.

Lemma assert_inv {S} b (u : ()) (s s' : S) : assert_ b s = Ok u s' -> s' = s.
Proof. unfold assert_. destruct b; [|done]. intros H. by injection H. Qed.

Lemma follows_addr ce n k s q : sim ce n s q -> follows ce n (getPhyBlockAddr k) (getPhyBlockAddr k) s q.
Proof.
  intros Hs. pose proof Hs as (_&_&Hd&_). unfold follows, getPhyBlockAddr. rewrite Hd. destruct (phy_walk _ _ _ _); [by exists s|done].
Qed.

Lemma follows_get ce n ix p s q : sim ce n s q -> follows ce n (dev_getBlock ix p) (dev_getBlock ix p) s q.
Proof.
  intros Hs. pose proof Hs as (_&_&Hd&_). unfold follows, dev_getBlock. rewrite Hd. destruct (devices q !! ix); [|done].
  destruct (LocalDevice.getBlock _ _); [by exists s|done].
Qed.

Lemma follows_put ce n ix p b s q : sim ce n s q -> follows ce n (dev_putBlock ix p b) (dev_putBlock ix p b) s q.
Proof.
  intros Hs. pose proof Hs as (?&?&Hd&?&?). unfold follows, dev_putBlock. rewrite Hd. destruct (devices q !! ix); [|done].
  destruct (LocalDevice.putBlock _ _ _) as [[d|]|]; [eexists; split; [done|]; by split_and!|by exists s|done].
Qed.

Lemma follows_flush ce n o s q : sim ce n s q -> follows ce n (flush_blk o) (flush_blk o) s q.
Proof.
  intros Hs. unfold flush_blk. destruct (p_dirty o); [|by apply follows_ret].
  eapply follows_bind; [by apply follows_put|]. intros [] s' q' _ Hs'; [by apply follows_ret|done].
Qed.

(** The keys in the cache after an insertion. *)
Definition keys (q : VBC.t queue) : list Z := (q_items (blk_cache q)).*1.
Definition cap_of (q : VBC.t queue) : Z := q_cap (blk_cache q).

Lemma follows_cache_put ce n k o s q :
  sim ce (n + 1) s q -> 0 <= n -> (ce = true -> spares k (keys q)) ->
  follows ce n (cache_put ce k o) (cache_put ce k o) s q.
Proof.
  intros Hs Hn Hsp. unfold cache_put. destruct ce; [|apply follows_ret; eapply sim_weaken; [done|lia]].
  pose proof Hs as (?&?&?&?&Hc). destruct (insert_Ok n _ _ k o (Hc eq_refl) Hn (Hsp eq_refl)) as (b'&Hi&Hc').
  eapply (follows_bind true n).
  - unfold follows, cache_insert, on_cache. cbn [c_insert bfs_cache queue_cache]. rewrite Hi.
    eexists. split; [done|]. by split_and!.
  - intros [old|] s' q' _ Hs'; [by apply follows_flush|by apply follows_ret].
Qed.

Lemma check_queue k (q : VBC.t queue) : cache_check k q = Ok (Cache.qlookup k (q_items (blk_cache q))) q.
Proof. unfold cache_check, on_cache. cbn. by destruct q. Qed.

Lemma follows_check n k s q : sim true (n + 1) s q -> 0 <= n -> follows true n (cache_check k) (cache_check k) s q.
Proof.
  intros Hs Hn. pose proof Hs as (?&?&?&?&Hc). destruct (check_Ok n _ _ k (Hc eq_refl) Hn) as (b'&Hr&Hc').
  unfold follows. rewrite check_queue. unfold cache_check, on_cache. cbn [c_check bfs_cache]. rewrite Hr.
  eexists. split; [done|]. by split_and!.
Qed.

Lemma missing_spares k ks : k ∉ ks -> spares k ks.
Proof. intros Hk. destruct ks as [|j ks]; [by left; cbn; lia|right; cbn]. intros [= ->]. apply Hk. left. Qed.

Lemma follows_read ce n k s q : sim ce (n + 2) s q -> 0 <= n -> follows ce n (readBlock_helper ce k) (readBlock_helper ce k) s q.
Proof.
  intros Hs Hn. unfold readBlock_helper. eapply follows_bind; [by apply follows_addr|]. intros [dev pbid] s1 q1 _ Hs1.
  eapply (follows_bind ce (n + 1)).
  { destruct ce; [|apply follows_ret; eapply sim_weaken; [done|lia]]. apply follows_check; [|lia].
    eapply sim_weaken; [done|lia]. }
  intros [o|] s2 q2 Hck Hs2; [apply follows_ret; eapply sim_weaken; [done|lia]|].
  eapply follows_bind; [by apply follows_get|]. intros [d|] s3 q3 Hg Hs3; [|apply follows_ret; eapply sim_weaken; [done|lia]].
  eapply (follows_bind ce n); [apply follows_cache_put; [done|done|]|by intros; apply follows_ret].
  intros ->. rewrite check_queue in Hck. injection Hck as Hck <-. apply missing_spares.
  assert (blk_cache q3 = blk_cache q1) as Hq3.
  { unfold dev_getBlock in Hg. destruct (devices q1 !! dev); [|done]. destruct (LocalDevice.getBlock _ _); by simplify_eq. }
  unfold keys. rewrite Hq3. by apply qlookup_None.
Qed.

Lemma follows_write ce n k b f s q :
  sim ce (n + 1) s q -> 0 <= n -> (ce = true -> spares k (keys q)) ->
  follows ce n (writeBlock ce k b f) (writeBlock ce k b f) s q.
Proof.
  intros Hs Hn Hsp. unfold writeBlock. eapply follows_bind.
  { unfold assert_. destruct (bool_decide _); [by apply follows_ret|done]. }
  intros [] s1 q1 Hq1 Hs1. apply assert_inv in Hq1. subst q1.
  unfold writeBlock_helper. eapply follows_bind; [by apply follows_addr|]. intros [dev pbid] s2 q2 Hq2 Hs2.
  assert (q2 = q) as ->. { unfold getPhyBlockAddr in Hq2. destruct (phy_walk _ _ _ _); [by injection Hq2 as _ ->|done]. }
  eapply (follows_bind ce n); [by apply follows_cache_put|]. intros _ s3 q3 _ Hs3.
  destruct (_ || _); [|by apply follows_ret]. eapply follows_bind; [by apply follows_put|].
  intros [] s4 q4 _ Hs4; by apply follows_ret.
Qed.

(** *** Which blocks are in the cache *)
Definition key_step (cap : Z) (o : op) (ks : list Z) : list Z :=
  match o with
  | Read k => if decide (k ∈ ks) then ks else push_key cap k ks
  | Write k _ _ => push_key cap k ks
  end.

(** No write is to the block that has been in the cache for the longest time,
    unless it is the only one. *)
Fixpoint spares_oldest (cap : Z) (os : list op) (ks : list Z) : Prop :=
  match os with
  | [] => True
  | o :: os => (match o with Write k _ _ => spares k ks | Read _ => True end) /\ spares_oldest cap os (key_step cap o ks)
  end.

(** The parts of an operation that leave the cache alone. *)
Definition keeps {A} (m : M (VBC.t queue) A) : Prop := forall q a q', m q = Ok a q' -> blk_cache q' = blk_cache q.

Lemma keeps_put ix p b : keeps (dev_putBlock ix p b).
Proof.
  intros q a q'. unfold dev_putBlock. destruct (devices q !! ix); [|done].
  destruct (LocalDevice.putBlock _ _ _) as [[d|]|]; intros; by simplify_eq.
Qed.

Lemma keeps_get ix p : keeps (dev_getBlock ix p).
Proof. intros q a q'. unfold dev_getBlock. destruct (devices q !! ix); [|done]. destruct (LocalDevice.getBlock _ _); intros; by simplify_eq. Qed.

Lemma keeps_addr k : keeps (getPhyBlockAddr k).
Proof. intros q a q'. unfold getPhyBlockAddr. destruct (phy_walk _ _ _ _); intros; by simplify_eq. Qed.

Lemma keeps_flush o : keeps (flush_blk o).
Proof.
  intros q a q'. unfold flush_blk. destruct (p_dirty o); [|by intros [= _ ->]].
  intros (ok&q1&H1&H2)%bind_Ok_inv. apply keeps_put in H1. destruct ok; [|done]. by injection H2 as _ <-.
Qed.

Lemma put_cache k o (q q' : VBC.t queue) : cache_put true k o q = Ok () q' -> blk_cache q' = q_insert k o (blk_cache q).
Proof.
  unfold cache_put. intros (old&q1&H1&H2)%bind_Ok_inv. unfold cache_insert, on_cache in H1. cbn in H1. injection H1 as H1 <-.
  destruct old as [old|]; [by apply keeps_flush in H2|by injection H2 as <-].
Qed.

Lemma insert_keys k o (c : queue) : (q_items (q_insert k o c)).*1 = push_key (q_cap c) k (q_items c).*1.
Proof. apply push_keys. Qed.

Lemma read_keys k d (q q' : VBC.t queue) :
  exec true (Read k) q = Ok (Some d) q' -> keys q' = key_step (cap_of q) (Read k) (keys q) /\ cap_of q' = cap_of q.
Proof.
  unfold keys, cap_of. cbn [exec key_step]. intros (x&q1&H1&H2)%bind_Ok_inv. injection H2 as Hx ->.
  unfold readBlock in H1. apply bind_Ok_inv in H1 as ([c p]&q2&H1&H2).
  assert (q2 = q' /\ is_Some p) as [Heq [p' ->]].
  { destruct c, p; try done; injection H2 as <- <-; (split; [done|by eauto]) || done. }
  clear H2. subst q2.
  unfold readBlock_helper in H1. apply bind_Ok_inv in H1 as ([dev pbid]&q3&H1&H2). apply keeps_addr in H1.
  apply bind_Ok_inv in H2 as (obj&q4&H2&H3). rewrite check_queue in H2. injection H2 as H2 <-. rewrite H1 in H2.
  destruct obj as [o|]; [injection H3 as _ _ <-; rewrite decide_True by (apply qlookup_Some; eauto); by rewrite H1|].
  rewrite decide_False by (by apply qlookup_None).
  apply bind_Ok_inv in H3 as ([e|]&q5&H3&H4); [|done]. apply keeps_get in H3.
  apply bind_Ok_inv in H4 as ([]&q6&H4&H5). injection H5 as _ _ <-. apply put_cache in H4. by rewrite H4, insert_keys, H3, H1.
Qed.

Lemma write_keys k b f r (q q' : VBC.t queue) :
  exec true (Write k b f) q = Ok r q' -> keys q' = key_step (cap_of q) (Write k b f) (keys q) /\ cap_of q' = cap_of q.
Proof.
  unfold keys, cap_of. cbn [exec key_step]. intros (x&q1&H1&H2)%bind_Ok_inv. injection H2 as _ ->.
  unfold writeBlock in H1. apply bind_Ok_inv in H1 as ([]&q2&Ha&H1).
  apply assert_inv in Ha. subst q2.
  unfold writeBlock_helper in H1. apply bind_Ok_inv in H1 as ([dev pbid]&q3&H1&H2). apply keeps_addr in H1.
  apply bind_Ok_inv in H2 as ([]&q4&H2&H3). apply put_cache in H2.
  assert (blk_cache q' = blk_cache q4) as ->; [|by rewrite H2, insert_keys, H1].
  destruct (_ || _); [|injection H3 as _ <-; done].
  apply bind_Ok_inv in H3 as (ok&q5&H3&H4). apply keeps_put in H3. rewrite <-H3. destruct ok; injection H4 as _ <-; done.
Qed.

(** ** The theorem *)
Lemma cluster_run ce os : forall s q m,
  sim ce (2 * zlen os) s q -> inv ce q -> Forall (op_ok q) os -> (forall j, 0 <= j -> vget ce q j = m j) ->
  (ce = true -> spares_oldest (cap_of q) os (keys q)) ->
  exists s', exec_all ce os s = Ok (map_run os m).1 s'.
Proof.
  induction os as [|o os IH]; intros s q m Hs Hi Hok Hm Hsp; [by exists s|].
  apply Forall_cons in Hok as [Ho Hok]. destruct (exec_spec ce o q m Hi Ho Hm) as (q1&Hq1&Hi1&Hmax&Hm1).
  rewrite zlen_cons in Hs. pose proof (zlen_nonneg os).
  assert (follows ce (2 * zlen os) (exec ce o) (exec ce o) s q) as Hf.
  { destruct o as [k|k b f]; cbn [exec].
    - eapply (follows_bind ce (2 * zlen os)).
      + unfold readBlock. eapply (follows_bind ce (2 * zlen os)); [apply follows_read; [eapply sim_weaken; [done|lia]|lia]|].
        intros [c p] s1 q2 _ Hs1. destruct c, p; try done; by apply follows_ret.
      + intros. by apply follows_ret.
    - eapply (follows_bind ce (2 * zlen os)); [apply follows_write; [eapply sim_weaken; [done|lia]|lia|by intros Hce; apply (Hsp Hce)]|].
      intros. by apply follows_ret. }
  unfold follows in Hf. rewrite Hq1 in Hf. destruct Hf as (s1&Hr1&Hs1).
  destruct (IH s1 q1 (map_step o m).2) as (s2&Hr2); [done|done| |done| |].
  - eapply Forall_impl; [done|]. intros o' [??]. split; [by rewrite Hmax|done].
  - intros ->. specialize (Hsp eq_refl) as [_ Hsp].
    assert (keys q1 = key_step (cap_of q) o (keys q) /\ cap_of q1 = cap_of q) as [-> ->]; [|done].
    destruct o as [k|k b f]; [exact (read_keys k (m k) q q1 Hq1)|by eapply write_keys].
  - exists s2. cbn [exec_all map_run]. destruct (map_step o m) as [r m1]. cbn [fst snd] in *.
    destruct (map_run os m1). mrun Hr1. by mrun Hr2.
Qed.

(** What the devices hold. *)
Definition stored (s : VBC.t t) (k : Z) : bytes :=
  match phys s k with Some a => dcontent (devices s) a | None => zero_blk end.

(** The uses of the cache that it survives: its counters, which are of type [int],
    do not overflow, and no write is to its oldest block. *)
Definition cache_fits (cap : Z) (os : list op) : Prop :=
  1 <= cap <= Cache.INT_MAX /\ 2 * zlen os <= Cache.INT_MAX /\ spares_oldest cap os [].

(** C29. Every sequence of whole-block reads and writes inside a cluster with a new
    cache returns what a plain block map returns that starts with the contents of
    the devices, for every mix of synchronous and deferred writes: without the
    cache, and with it as long as the uses are those that [BfsCache] survives. *)
Theorem cluster_refines_map ce cap os (s : VBC.t t) :
  wf s -> blk_cache s = new_cache cap -> Forall (op_ok s) os -> (ce = true -> cache_fits cap os) ->
  exists s', exec_all ce os s = Ok (map_run os (stored s)).1 s'.
Proof.
  intros Hw Hc Hok Hfit. set (q := VBC.mk (clusterState s) (maxBlockID s) (devices s) (blkAllocTable s) (mkQ cap [] (NoDup_nil_2))).
  assert (forall k, cached ce q !! k = None) as Hnone by (intros k; unfold cached; destruct ce; apply lookup_empty).
  apply (cluster_run ce os s q (stored s)).
  - split_and!; try done. intros Hce. destruct (Hfit Hce) as (Hcap&Hn&_). rewrite Hc. exists [].
    split; [apply Cache.ctor_rep|]. split; [by unfold Cache.budget; cbn [cache new_cache Cache.ctor Cache.maxsize Cache.vclock
      Cache.accesses Cache.hits]; lia|]. split_and!; [done|rewrite zlen_nil; cbn [q_cap blk_cache q]; lia|constructor..|by intros p ?%elem_of_nil].
  - split; [exact Hw|]. intros k o. by rewrite Hnone.
  - exact Hok.
  - intros j _. unfold vget. by rewrite Hnone.
  - intros Hce. apply (Hfit Hce).
Qed.
End BlockCache.
