(* ===== verification/FsLayer.v ===== *)
(** * The file-system layer: block metadata and the Merkle tree

    Models [bfs_fs/bfs_fs_layer.cpp] in BFS mode ([use_lwext4] false).  The state
    is what the class keeps in statics: the cluster, the security context, the
    in-memory Merkle tree, the scratch buffer [curr_par] of [bfs_core.cpp] and
    the file-system status; the random source is the stream [rnd]. *)
From S2P Require Import Prelude Layout FlexBuffer SecAssoc BlockLayer.

(** A node's [hash] pointer.  Buffers are allocated one per node; the only
    buffer that can be shared is the scratch buffer of [read_blk], which a
    failed check leaves in the tree. *)
Inductive hslot := HNull | HOwn (h : bytes) | HCurrPar.

#[export] Instance hslot_eq_dec : EqDecision hslot.
Proof. solve_decision. Defined.

(** [merkle_tree_t]; the node array is zero-filled by [calloc]. *)
Record merkle_tree := mkMT {
  mt_n : Z;
  mt_height : Z;
  mt_num_nodes : Z;
  mt_nodes : gmap Z hslot;
  mt_status : Z
}.

Definition empty_mt : merkle_tree := mkMT 0 0 0 ∅ 0.

Section fslayer.
Context `{Cipher} {C : Type} `{BlkCache C}.
Context (cache_enabled : bool) (rnd : nat -> bytes).

Record sec := mkSec {
  vbc : VBC.t C;
  secContext : option CryptoKey.t;
  mt : merkle_tree;
  curr_par : option bytes;
  status : Z;
  rnd_ctr : nat
}.

Definition NB (s : sec) : Z := VBC.maxBlockID (vbc s).

Definition set_vbc (v : VBC.t C) (s : sec) : sec :=
  mkSec v (secContext s) (mt s) (curr_par s) (status s) (rnd_ctr s).
Definition set_secContext (k : option CryptoKey.t) (s : sec) : sec :=
  mkSec (vbc s) k (mt s) (curr_par s) (status s) (rnd_ctr s).
Definition set_mt (m : merkle_tree) (s : sec) : sec :=
  mkSec (vbc s) (secContext s) m (curr_par s) (status s) (rnd_ctr s).
Definition set_curr_par (p : option bytes) (s : sec) : sec :=
  mkSec (vbc s) (secContext s) (mt s) p (status s) (rnd_ctr s).
Definition set_status (z : Z) (s : sec) : sec :=
  mkSec (vbc s) (secContext s) (mt s) (curr_par s) z (rnd_ctr s).
Definition set_rnd_ctr (n : nat) (s : sec) : sec :=
  mkSec (vbc s) (secContext s) (mt s) (curr_par s) (status s) n.

Definition on_vbc {A} (m : M (VBC.t C) A) : M sec A := fun s =>
  match m (vbc s) with
  | Ok a v => Ok a (set_vbc v s)
  | Throw e v => Throw e (set_vbc v s)
  | Crash c => Crash c
  end.

(** [secContext->getKey()]: a NULL context is dereferenced. *)
Definition getKey : M sec CryptoKey.t :=
  k ← gets secContext;
  match k with Some k => mret k | None => die Undefined_behaviour end.

(** ** Node accesses *)
Definition set_node (i : Z) (h : hslot) : M sec () :=
  modify (fun s => set_mt (mkMT (mt_n (mt s)) (mt_height (mt s)) (mt_num_nodes (mt s))
                             (<[i := h]> (mt_nodes (mt s))) (mt_status (mt s))) s).

(** [mt.nodes[i].hash]; outside the array it is undefined. *)
Definition get_node (i : Z) : M sec hslot := fun s =>
  if decide (0 <= i < mt_num_nodes (mt s))
  then Ok (default HNull (mt_nodes (mt s) !! i)) s else Crash Undefined_behaviour.

(** The buffer a pointer designates. *)
Definition deref (h : hslot) : M sec bytes := fun s =>
  match h with
  | HNull => Crash Undefined_behaviour
  | HOwn b => Ok b s
  | HCurrPar => of_opt (curr_par s) s
  end.

(** [memcpy] through a node's pointer. *)
Definition node_read (i n : Z) : M sec bytes :=
  h ← get_node i; b ← deref h; of_opt (mem_get 0 n b).

Definition node_write (i : Z) (d : bytes) : M sec () :=
  h ← get_node i; b ← deref h;
  b' ← of_opt (mem_set 0 d b);
  match h with
  | HCurrPar => modify (set_curr_par (Some b'))
  | _ => set_node i (HOwn b')
  end.

(** [free]: freeing the shared buffer leaves [curr_par] dangling. *)
Definition free_slot (h : hslot) : M sec () :=
  match h with HCurrPar => modify (set_curr_par None) | _ => mret () end.

Definition leaf_start (m : merkle_tree) : Z := Z.shiftl 1 (mt_height m) - 1.

(** ** Blocks as they are on the devices *)
Definition is_blockError (e : exn) : bool := match e with bfsBlockError _ => true | _ => false end.

Definition read_block_helper (vbid : Z) : M sec (option bytes) :=
  catch
    (r ← on_vbc (VBC.readBlock cache_enabled vbid);
     match r with (BFS_FAILURE, _) => mret None | (_, d) => mret d end)
    (fun e => if is_blockError e then Some (mret None) else None).

Definition write_block_helper (vbid : Z) (d : bytes) : M sec bret :=
  catch
    (r ← on_vbc (VBC.writeBlock cache_enabled vbid d bfs_O_SYNC);
     match r with BFS_FAILURE => mret BFS_FAILURE | _ => mret BFS_SUCCESS end)
    (fun e => if is_blockError e then Some (mret BFS_FAILURE) else None).

(** ** Block metadata

    An argument [uint8_t **p] is [None] when [p] is NULL, [Some None] when
    [*p] is. *)
Definition ptr := option (option bytes).

Definition deref_ptr (p : ptr) : M sec (option bytes) := of_opt p.

(** [(root && !*mac_copy) || (!root && !( *iv || *mac_copy))] with its order
    of evaluation. *)
Definition bad_meta_args (iv mac : ptr) (root : bool) : M sec bool :=
  if root then m ← deref_ptr mac; mret (bool_decide (m = None))
  else i ← deref_ptr iv;
    match i with
    | Some _ => mret false
    | None => m ← deref_ptr mac; mret (bool_decide (m = None))
    end.

Definition meta_blk (b : Z) : Z := METADATA_REL_START_BLK_NUM + BLK_META_BLK_LOC b.

(** The (IV, MAC) copied out; the code is [BFS_FAILURE] when [None]. *)
Definition read_blk_meta (b : Z) (iv mac : ptr) (root : bool) : M sec (option (option bytes * option bytes)) :=
  bad ← bad_meta_args iv mac root;
  if (bad : bool) then mret None
  else
    r ← read_block_helper (meta_blk b);
    match r with
    | None => mret None
    | Some blk =>
        if root then
          h ← of_opt (mem_get 0 BFS_HMAC_LEN blk); mret (Some (None, Some h))
        else
          i ← deref_ptr iv;
          i' ← (match i with
                | Some _ => d ← of_opt (mem_get (meta_off b) BFS_IV_LEN blk); mret (Some d)
                | None => mret None end);
          m ← deref_ptr mac;
          m' ← (match m with
                | Some _ => d ← of_opt (mem_get (meta_off b + BFS_IV_LEN) BFS_MAC_LEN blk); mret (Some d)
                | None => mret None end);
          mret (Some (i', m'))
    end.

Definition write_blk_meta (b : Z) (iv mac : ptr) (root : bool) : M sec bret :=
  bad ← bad_meta_args iv mac root;
  if (bad : bool) then mret BFS_FAILURE
  else
    blk ← (if root then
             m ← deref_ptr mac;
             match m with
             | Some h =>
                 d ← of_opt (mem_get 0 BFS_HMAC_LEN h ≫= fun h => mem_set 0 h zero_blk);
                 mret (Some d)
             | None => die Undefined_behaviour
             end
           else
             r ← read_block_helper (meta_blk b);
             match r with
             | None => mret None
             | Some blk =>
                 i ← deref_ptr iv;
                 blk ← (match i with
                        | Some v => of_opt (mem_get 0 BFS_IV_LEN v ≫= fun v => mem_set (meta_off b) v blk)
                        | None => mret blk end);
                 m ← deref_ptr mac;
                 blk ← (match m with
                        | Some t => of_opt (mem_get 0 BFS_MAC_LEN t ≫= fun t =>
                                              mem_set (meta_off b + BFS_IV_LEN) t blk)
                        | None => mret blk end);
                 mret (Some blk)
             end);
    match blk with
    | None => mret BFS_FAILURE
    | Some d => write_block_helper (meta_blk b) d
    end.

(** ** Merkle tree *)

(** The digest [hash_node] writes to its output buffer ([None]: failure).  The
    leaf case passes a NULL [iv] to [read_blk_meta]. *)
Definition hash_node (i : Z) : M sec (option bytes) :=
  m ← gets mt;
  if leaf_start m <=? i then
    r ← read_blk_meta (i - leaf_start m) None (Some (Some (zeros BFS_MAC_LEN))) false;
    mret (match r with Some (_, t) => t | None => None end)
  else
    let hash_sz := if Z.shiftl 1 (mt_height m - 1) - 1 <=? i then BFS_MAC_LEN else BFS_HMAC_LEN in
    l ← node_read (2 * i + 1) hash_sz;
    r ← node_read (2 * i + 2) hash_sz;
    k ← getKey;
    h ← of_opt (CryptoKey.hmacData k l r hash_sz);
    mret (Some h).

(** [hash_node(i, mt.nodes[i].hash)]; the result is whether it succeeded. *)
Definition rehash (i : Z) : M sec bool :=
  h ← hash_node i;
  match h with Some d => node_write i d ;; mret true | None => mret false end.

(** [log2((double)n)] truncated; the node array is allocated once. *)
Definition mt_setup : M sec () :=
  s ← get;
  if mt_status (mt s) =? 0 then
    let n := NB s in let h := Z.log2 n in
    modify (set_mt (mkMT n h (Z.shiftl 1 (h + 1) - 1) ∅ 1))
  else mret ().

Definition node_size (m : merkle_tree) (i : Z) : Z :=
  if leaf_start m <=? i then BFS_MAC_LEN else BFS_HMAC_LEN.

(** The backward loop over the nodes [n-1 .. 0]: allocate the missing ones and
    compute them unless this is the initial state. *)
Fixpoint fill_nodes (n : nat) (compute : bool) : M sec bool :=
  match n with
  | O => mret true
  | S n =>
      let i := Z.of_nat n in
      m ← gets mt;
      h ← get_node i;
      ok ← (match h with
            | HNull =>
                getKey ;;
                set_node i (HOwn (zeros (node_size m i))) ;;
                if compute then rehash i else mret true
            | _ => mret true
            end);
      if (ok : bool) then fill_nodes n compute else mret false
  end.

Definition init_merkle_tree (initial : bool) : M sec bret :=
  mt_setup ;;
  m ← gets mt;
  ok ← fill_nodes (Z.to_nat (mt_num_nodes m)) (negb initial);
  if negb ok then mret BFS_FAILURE
  else if initial then mret BFS_SUCCESS
  else
    sc ← gets secContext;
    match sc with
    | None => mret BFS_FAILURE
    | Some _ =>
        nb ← gets NB;
        r ← read_blk_meta nb None (Some (Some (zeros BFS_HMAC_LEN))) true;
        match r with
        | Some (_, Some h) =>
            root ← node_read 0 BFS_HMAC_LEN;
            if decide (root = h) then mret BFS_SUCCESS else mret BFS_FAILURE
        | _ => mret BFS_FAILURE
        end
    end.

Definition save_root_hash : M sec bret :=
  sc ← gets secContext;
  match sc with
  | None => mret BFS_FAILURE
  | Some _ =>
      nb ← gets NB;
      h ← get_node 0;
      root ← (match h with HNull => mret None | _ => b ← deref h; mret (Some b) end);
      r ← write_blk_meta nb None (Some root) true;
      match r with BFS_SUCCESS => mret BFS_SUCCESS | _ => mret BFS_FAILURE end
  end.

Definition flush_merkle_tree : M sec bret :=
  mt_setup ;;
  m ← gets mt;
  ok ← fill_nodes (Z.to_nat (mt_num_nodes m)) true;
  if negb ok then mret BFS_FAILURE else save_root_hash.

End fslayer.
Arguments sec : clear implicits.
Arguments ptr : clear implicits.
