(* ===== verification/BlockStore.v ===== *)
(** * The interface between the file system and its blocks

    [BlockStore] is what the file-system code of [bfs_core.cpp] uses of the
    layers below it: the block primitives [read_blk] and [write_blk] and the
    size of the cluster.  [BlockStoreLaws] is what it relies on.  [SecStore]
    discharges the laws for the encrypted, authenticated blocks; [MemStore] is
    a small executable model on which the file system can be evaluated. *)
From S2P Require Import Prelude Layout BlockLayer.

(** Blocks the file system may address: inside the cluster, outside the region
    of the security metadata. *)
Definition bs_valid (n b : Z) : Prop :=
  0 <= b < n /\ ~ (METADATA_REL_START_BLK_NUM <= b < DATA_REL_START_BLK_NUM n).

#[export] Instance bs_valid_dec n b : Decision (bs_valid n b).
Proof. unfold bs_valid. solve_decision. Defined.

Class BlockStore (B : Type) := {
  bs_read : Z -> M B bytes;
  (** the result is the caller's buffer after the call: its contents are
      encrypted in place *)
  bs_write : Z -> bytes -> op_flags -> M B bytes;
  bs_size : B -> Z
}.

Class BlockStoreLaws (B : Type) `{BlockStore B} := {
  bs_ok : B -> Prop;
  bs_has : B -> Z -> bytes -> Prop;
  bs_has_len s b d : bs_ok s -> bs_has s b d -> bs_valid (bs_size s) b /\ zlen d = BLK_SZ;
  bs_read_ok s b d :
    bs_ok s -> bs_has s b d ->
    exists s', bs_read b s = Ok d s' /\ bs_ok s' /\ bs_size s' = bs_size s /\
      forall b' d', bs_has s b' d' -> bs_has s' b' d';
  bs_write_ok s b d f :
    bs_ok s -> bs_valid (bs_size s) b -> zlen d = BLK_SZ ->
    exists c s', bs_write b d f s = Ok c s' /\ zlen c = BLK_SZ /\ bs_ok s' /\ bs_size s' = bs_size s /\
      bs_has s' b d /\ forall b' d', b' <> b -> bs_has s b' d' -> bs_has s' b' d'
}.

Section laws.
Context `{BlockStoreLaws B}.

(** A block holds at most one value. *)
Lemma bs_has_fun s b d d' : bs_ok s -> bs_has s b d -> bs_has s b d' -> d = d'.
Proof.
  intros Hs Hd Hd'. destruct (bs_read_ok s b d Hs Hd) as (s1&H1&_).
  destruct (bs_read_ok s b d' Hs Hd') as (s2&H2&_). congruence.
Qed.

(** ** Sequences of block operations against a map of blocks *)
Inductive bs_op := BRead (b : Z) | BWrite (b : Z) (d : bytes) (f : op_flags).

Definition bs_exec (o : bs_op) : M B (option bytes) :=
  match o with
  | BRead b => d ← bs_read b; mret (Some d)
  | BWrite b d f => bs_write b d f ;; mret None
  end.

Fixpoint bs_exec_all (os : list bs_op) : M B (list (option bytes)) :=
  match os with
  | [] => mret []
  | o :: os => r ← bs_exec o; rs ← bs_exec_all os; mret (r :: rs)
  end.

(** The specification: reads are lookups, writes insertions. *)
Fixpoint map_exec (os : list bs_op) (m : gmap Z bytes) : list (option bytes) * gmap Z bytes :=
  match os with
  | [] => ([], m)
  | BRead b :: os => let '(rs, m') := map_exec os m in (m !! b :: rs, m')
  | BWrite b d _ :: os => let '(rs, m') := map_exec os (<[b := d]> m) in (None :: rs, m')
  end.

(** Reads of blocks that hold something, writes of whole blocks. *)
Fixpoint ops_ok (n : Z) (os : list bs_op) (m : gmap Z bytes) : Prop :=
  match os with
  | [] => True
  | BRead b :: os => is_Some (m !! b) /\ ops_ok n os m
  | BWrite b d _ :: os => bs_valid n b /\ zlen d = BLK_SZ /\ ops_ok n os (<[b := d]> m)
  end.

Definition bs_rel (s : B) (m : gmap Z bytes) : Prop :=
  bs_ok s /\ map_Forall (fun b d => bs_has s b d) m.

Lemma bs_rel_read s b d m : bs_rel s m -> bs_has s b d ->
  exists s', bs_read b s = Ok d s' /\ bs_rel s' m /\ bs_size s' = bs_size s.
Proof.
  intros [Hs Hm] Hd. destruct (bs_read_ok s b d Hs Hd) as (s'&Hr&Hs'&Hn&Hf).
  exists s'. split_and!; [done|split; [done|]|done]. intros b' d' Hb'. apply Hf. by apply (Hm b' d').
Qed.

Lemma bs_rel_write s b d f m : bs_rel s m -> bs_valid (bs_size s) b -> zlen d = BLK_SZ ->
  exists c s', bs_write b d f s = Ok c s' /\ zlen c = BLK_SZ /\ bs_rel s' (<[b := d]> m) /\ bs_size s' = bs_size s.
Proof.
  intros [Hs Hm] Hv Hz. destruct (bs_write_ok s b d f Hs Hv Hz) as (c&s'&Hr&Hc&Hs'&Hn&Hh&Hf).
  exists c, s'. split_and!; [done|done|split; [done|]|done].
  intros b' d' Hb'. destruct (decide (b' = b)) as [->|Hne].
  - rewrite lookup_insert_eq in Hb'. by simplify_eq.
  - rewrite lookup_insert_ne in Hb' by done. apply Hf; [done|]. by apply (Hm b' d').
Qed.

Lemma bs_exec_all_spec os s m :
  bs_rel s m -> ops_ok (bs_size s) os m ->
  exists s', bs_exec_all os s = Ok (map_exec os m).1 s' /\ bs_rel s' (map_exec os m).2.
Proof.
  revert s m. induction os as [|[b|b d f] os IH]; intros s m Hrel Hok; cbn in *.
  - by exists s.
  - destruct Hok as [[d Hd] Hok]. destruct (bs_rel_read s b d m Hrel) as (s1&Hr&Hrel1&Hn).
    { destruct Hrel as [_ Hm]. by apply (Hm b d). }
    rewrite <-Hn in Hok. destruct (IH s1 m Hrel1 Hok) as (s'&Hr'&Hrel').
    exists s'. rewrite bind_assoc. mrun Hr. msteps. mrun Hr'. rewrite Hd.
    by destruct (map_exec os m).
  - destruct Hok as (Hv&Hz&Hok). destruct (bs_rel_write s b d f m Hrel Hv Hz) as (c&s1&Hr&_&Hrel1&Hn).
    rewrite <-Hn in Hok. destruct (IH s1 _ Hrel1 Hok) as (s'&Hr'&Hrel').
    exists s'. rewrite bind_assoc. mrun Hr. msteps. mrun Hr'.
    by destruct (map_exec os (<[b:=d]> m)).
Qed.

End laws.

(** ** A store in memory

    The buffer a write leaves behind is a scrambled one, as encryption in place
    leaves it. *)
Module MemStore.
Record t := mk { blocks : gmap Z bytes; nblocks : Z }.

Definition flip (x : Init.Byte.byte) : Init.Byte.byte :=
  default x (Stdlib.Strings.Byte.of_N (255 - Stdlib.Strings.Byte.to_N x)).

Lemma flip_flip x : flip (flip x) = x.
Proof. by destruct x. Qed.

Definition read (b : Z) : M t bytes := fun s =>
  match blocks s !! b with
  | Some d => Ok d s
  | None => Throw (BfsServerError "Failed reading block") s
  end.

Definition write (b : Z) (d : bytes) (f : op_flags) : M t bytes := fun s =>
  if decide (bs_valid (nblocks s) b)
  then Ok (flip <$> d) (mk (<[b := d]> (blocks s)) (nblocks s))
  else Throw (BfsServerError "Failed writing block") s.

#[export] Instance store : BlockStore t :=
  {| bs_read := read; bs_write := write; bs_size := nblocks |}.

#[export, refine] Instance laws : BlockStoreLaws t :=
  {| bs_ok s := map_Forall (fun b d => bs_valid (nblocks s) b /\ zlen d = BLK_SZ) (blocks s);
     bs_has s b d := blocks s !! b = Some d |}.
Proof.
  - intros s b d Hs Hd. by apply (Hs b d).
  - intros s b d Hs Hd. exists s. cbn. unfold read. by rewrite Hd.
  - intros s b d f Hs Hv Hz. cbn in *. unfold write. rewrite decide_True by done.
    do 2 eexists. split; [done|]. cbn. split_and!; [|..|done| |].
    + unfold zlen in *. by rewrite length_fmap.
    + by apply map_Forall_insert_2.
    + by rewrite lookup_insert_eq.
    + intros b' d' Hne Hd'. by rewrite lookup_insert_ne.
Defined.
End MemStore.
