(* ===== verification/Volume.v ===== *)
(** * The interface between formatting or mounting and the layers below

    [mkfs] and [mount] run while the file system is not mounted yet: they use,
    beyond the block primitives of [BlockStore], the status of the handle, the
    Merkle tree in memory and its root hash on the device, and the scratch
    buffer of the reads.  [Volume] holds these operations, [VolumeLaws] what the
    two functions rely on. [SecVolume] discharges the laws for the encrypted
    blocks; [MemVolume] is an executable store in memory. *)
From S2P Require Import Prelude Layout BlockLayer BlockStore.

Class Volume (B : Type) `{BlockStore B} := {
  v_status : B -> Z;
  v_set_status : Z -> B -> B;
  (** [BfsFsLayer::init_merkle_tree(initial)] and [flush_merkle_tree()] *)
  v_init_mt : bool -> M B bret;
  v_flush_mt : M B bret;
  (** [curr_par = calloc(...)] *)
  v_alloc_par : M B ()
}.

(** The root hash is saved in the metadata block of the (non-existing) block
    number [size]; the blocks whose metadata that block holds lose it. *)
Definition shares_root (n b : Z) : Prop := BLK_META_BLK_LOC b = BLK_META_BLK_LOC n.

#[export] Instance shares_root_dec n b : Decision (shares_root n b).
Proof. unfold shares_root. apply _. Defined.

Class VolumeLaws (B : Type) `{Volume B} `{!BlockStoreLaws B} := {
  (** devices and key are there, the tree is not *)
  v_raw : B -> Prop;
  (** the tree is in memory *)
  v_ok : B -> Prop;
  v_has : B -> Z -> bytes -> Prop;
  (** the root hash on the device is that of the tree *)
  v_rooted : B -> Prop;
  v_par : B -> Prop;
  v_status_set z s : v_status (v_set_status z s) = z;
  v_size_set z s : bs_size (v_set_status z s) = bs_size s;
  v_raw_set z s : v_raw s -> v_raw (v_set_status z s);
  v_ok_set z s : v_ok s -> v_ok (v_set_status z s);
  v_has_set z s b d : v_has s b d -> v_has (v_set_status z s) b d;
  v_rooted_set z s : v_rooted s -> v_rooted (v_set_status z s);
  v_par_set z s : v_par s -> v_par (v_set_status z s);
  v_init_first s : v_raw s ->
    exists s', v_init_mt true s = Ok BFS_SUCCESS s' /\ v_ok s' /\ bs_size s' = bs_size s /\ v_status s' = v_status s;
  v_write_ok s b d f : v_ok s -> v_status s <> CORRUPTED -> bs_valid (bs_size s) b -> zlen d = BLK_SZ ->
    exists c s', bs_write b d f s = Ok c s' /\ zlen c = BLK_SZ /\ v_ok s' /\ bs_size s' = bs_size s /\
      v_status s' = v_status s /\ v_has s' b d /\ forall b' d', b' <> b -> v_has s b' d' -> v_has s' b' d';
  v_flush_ok s : v_ok s ->
    exists s', v_flush_mt s = Ok BFS_SUCCESS s' /\ v_ok s' /\ bs_size s' = bs_size s /\ v_status s' = v_status s /\
      v_rooted s' /\ forall b d, ~ shares_root (bs_size s) b -> v_has s b d -> v_has s' b d;
  v_init_again s : v_ok s -> v_rooted s ->
    exists s', v_init_mt false s = Ok BFS_SUCCESS s' /\ v_ok s' /\ bs_size s' = bs_size s /\
      v_status s' = v_status s /\ forall b d, v_has s b d -> v_has s' b d;
  v_alloc_par_ok s : v_ok s ->
    exists s', v_alloc_par s = Ok () s' /\ v_ok s' /\ bs_size s' = bs_size s /\ v_status s' = v_status s /\
      v_par s' /\ forall b d, v_has s b d -> v_has s' b d;
  v_read_ok s b d : v_ok s -> v_par s -> v_status s = FORMATTED -> v_has s b d ->
    exists s', bs_read b s = Ok d s' /\ v_ok s' /\ v_par s' /\ bs_size s' = bs_size s /\
      v_status s' = FORMATTED /\ forall b' d', v_has s b' d' -> v_has s' b' d';
  v_mounted s : v_ok s -> v_par s -> v_status s = MOUNTED ->
    bs_ok s /\ forall b d, v_has s b d -> bs_has s b d
}.

(** ** A volume in memory

    The status and whether the root hash was saved beside the blocks of
    [MemStore]; saving it drops the blocks that share its metadata block. *)
Module MemVolume.
#[local] Existing Instances MemStore.store MemStore.laws.

Record t := mk { disk : MemStore.t; status : Z; tree : bool; root_saved : bool }.

Definition set_disk (d : MemStore.t) (s : t) : t := mk d (status s) (tree s) (root_saved s).

Definition on_disk {A} (m : M MemStore.t A) : M t A := fun s =>
  match m (disk s) with
  | Ok a d => Ok a (set_disk d s)
  | Throw e d => Throw e (set_disk d s)
  | Crash c => Crash c
  end.

Definition init_mt (initial : bool) : M t bret := fun s =>
  if initial then Ok BFS_SUCCESS (mk (disk s) (status s) true false)
  else Ok (if tree s && root_saved s then BFS_SUCCESS else BFS_FAILURE) s.

Definition flush_mt : M t bret := fun s =>
  let d := disk s in
  let keep := filter (fun p => ~ shares_root (MemStore.nblocks d) p.1) (MemStore.blocks d) in
  Ok BFS_SUCCESS (mk (MemStore.mk keep (MemStore.nblocks d)) (status s) (tree s) true).

#[export] Instance store : BlockStore t :=
  {| bs_read b := on_disk (MemStore.read b); bs_write b d f := on_disk (MemStore.write b d f);
     bs_size s := MemStore.nblocks (disk s) |}.

#[export] Instance volume : Volume t :=
  {| v_status := status; v_set_status z s := mk (disk s) z (tree s) (root_saved s);
     v_init_mt := init_mt; v_flush_mt := flush_mt; v_alloc_par := mret () |}.

#[export, refine] Instance store_laws : BlockStoreLaws t :=
  {| bs_ok s := bs_ok (disk s); bs_has s := bs_has (disk s) |}.
Proof.
  - intros s. exact (bs_has_len (disk s)).
  - intros s b d Hs Hd. destruct (bs_read_ok (disk s) b d Hs Hd) as (d'&Hr&Hrest).
    exists (set_disk d' s). cbn in Hr |- *. unfold on_disk. by rewrite Hr.
  - intros s b d f Hs Hv Hz. destruct (bs_write_ok (disk s) b d f Hs Hv Hz) as (c&d'&Hr&Hrest).
    exists c, (set_disk d' s). cbn in Hr |- *. unfold on_disk. by rewrite Hr.
Defined.

#[export, refine] Instance volume_laws : VolumeLaws t :=
  {| v_raw s := bs_ok (disk s); v_ok s := bs_ok (disk s) /\ tree s = true; v_has s := bs_has (disk s);
     v_rooted s := root_saved s = true; v_par s := True |}.
Proof.
  all: try done.
  - intros s Hs. by eexists.
  - intros s b d f [Hs Ht] _ Hv Hz. destruct (bs_write_ok (disk s) b d f Hs Hv Hz) as (c&d'&Hr&Hc&Hok&Hn&Hh&Hf).
    exists c, (set_disk d' s). cbn in Hr |- *. unfold on_disk. rewrite Hr. by split_and!.
  - intros s [Hs Ht]. eexists. split; [done|]. cbn. split_and!; try done.
    + intros b d [Hb _]%map_lookup_filter_Some. by apply Hs.
    + intros b d Hn Hb. by apply map_lookup_filter_Some.
  - intros s [Hs Ht] Hr. exists s. cbn in *. unfold init_mt. by rewrite Ht, Hr.
  - intros s Hs. by exists s.
  - intros s b d [Hs Ht] _ Hst Hd. destruct (bs_read_ok (disk s) b d Hs Hd) as (d'&Hr&Hok&Hn&Hf).
    exists (set_disk d' s). cbn in Hr |- *. unfold on_disk. rewrite Hr. by split_and!.
  - intros s [Hs _] _ _. done.
Defined.

End MemVolume.
