(* ===== verification/SecBlock.v ===== *)
(** * Encrypted, authenticated blocks: [BfsHandle::read_blk] and [write_blk]

    Models the two block primitives of [bfs_fs/bfs_core.cpp] on which all of the
    file system is built, and proves that they implement a block store
    ([BlockStore]) that detects replayed blocks. *)
From S2P Require Import Prelude Layout FlexBuffer SecAssoc BlockLayer FsLayer.

(** The (IV, MAC) a metadata block holds for block [b]. *)
Definition slot_in (blk : bytes) (b : Z) (iv mac : bytes) : Prop :=
  mem_get (meta_off b) BFS_IV_LEN blk = Some iv /\ mem_get (meta_off b + BFS_IV_LEN) BFS_MAC_LEN blk = Some mac.

(** The slots of other blocks survive, the slot of [b] is the pair written. *)
Lemma slot_in_after blk b iv mac d :
  0 <= b -> zlen iv = BFS_IV_LEN -> zlen mac = BFS_MAC_LEN -> mem_set (meta_off b) (iv ++ mac) blk = Some d ->
  slot_in d b iv mac /\
  forall b' iv' mac', 0 <= b' -> b' <> b -> BLK_META_BLK_LOC b' = BLK_META_BLK_LOC b ->
    slot_in blk b' iv' mac' -> slot_in d b' iv' mac'.
Proof.
  intros Hb Hiv Hmac Hset. unfold slot_in. split.
  - pose proof (zlen_nonneg mac). rewrite !(mem_get_set_in _ _ _ _ _ _ Hset);
      rewrite ?zlen_app, ?Hiv, ?Hmac; unfold BFS_IV_LEN, BFS_MAC_LEN in *; try lia.
    replace (meta_off b - meta_off b) with 0 by lia. replace (meta_off b + 12 - meta_off b) with 12 by lia.
    unfold mem_get. rewrite !decide_True by (rewrite zlen_app; lia). split; f_equal.
    + change (Z.to_nat 0) with 0%nat. rewrite drop_0, take_app_length'; [done|unfold zlen in *; lia].
    + rewrite drop_app_length' by (unfold zlen in *; lia). rewrite take_ge; [done|unfold zlen in *; lia].
  - intros b' iv' mac' ? Hne Hloc. pose proof (meta_same_blk b' b ltac:(lia) ltac:(lia) Hne Hloc) as Hdis.
    unfold BFS_IV_LEN, BFS_MAC_LEN in *.
    rewrite !(mem_get_set_ne _ _ _ _ _ _ Hset) by (rewrite zlen_app, Hiv, Hmac; lia). done.
Qed.

Section secblock.
Context `{Cipher} {C : Type} `{BlkCache C}.
Context (cache_enabled use_mt : bool) (rnd : nat -> bytes).

Definition is_meta_blk (s : sec C) (vbid : Z) : bool :=
  (METADATA_REL_START_BLK_NUM <=? vbid) && (vbid <? DATA_REL_START_BLK_NUM (NB s)).

(** The associated data: an 8-byte buffer to which [operator<<] prepends the
    block number. *)
Definition aad_of (vbid : Z) : bytes :=
  match (FlexBuffer.resizeAllocation 0 8 0 ;; FlexBuffer.addHeader (le_split 8 vbid)) FlexBuffer.empty with
  | Ok _ b => FlexBuffer.content b
  | _ => []
  end.

(** Parent of a node, on 64-bit indices. *)
Definition parent (i : Z) : Z := if i mod 2 =? 0 then u64 (i - 2) / 2 else u64 (i - 1) / 2.

(** ** [read_blk] *)

(** The guard and the fetch: result code and raw block. *)
Definition read_blk_fetch (vbid : Z) : M (sec C) (bret * bytes) :=
  meta ← gets (fun s => is_meta_blk s vbid);
  if (meta : bool) then throw (BfsServerError "Trying to read meta block directly")
  else
    catch
      (r ← on_vbc (VBC.readBlock cache_enabled vbid);
       match r with
       | (BFS_FAILURE, _) => throw (BfsServerError "Failed reading block")
       | (ret, Some d) => mret (ret, d)
       | (_, None) => die Undefined_behaviour
       end)
      (fun e => if is_blockError e then Some (throw (BfsServerError "Failed reading block")) else None).

(** Metadata, decryption and tag check: the plaintext and the stored tag. *)
Definition read_blk_open (vbid : Z) (blk : bytes) : M (sec C) (bytes * bytes) :=
  sc ← gets secContext;
  st ← gets status;
  match sc with
  | None => throw (BfsServerError "Failed decrypting, NULL security context")
  | Some k =>
      if st <? FORMATTED then throw (BfsServerError "Failed read_blk, filesystem not formatted")
      else
        r ← read_blk_meta cache_enabled vbid (Some (Some (zeros BFS_IV_LEN)))
              (Some (Some (zeros BFS_MAC_LEN))) false;
        match r with
        | Some (Some iv, Some mac) =>
            match SecAssoc.decryptData2 (Some k) (aad_of vbid) blk iv mac with
            | inl (k', p) => modify (set_secContext (Some k')) ;; mret (p, mac)
            | inr _ => throw (BfsServerError "Failed decrypting block")
            end
        | _ => throw (BfsServerError "Failed reading security metadata MAC")
        end
  end.

(** The loop of the tree check.  [cnt == 1] leaves it after one iteration. *)
Fixpoint verify_loop (fuel : nat) (vbid : Z) (ih : hslot) (cnt i : Z) : M (sec C) () :=
  match fuel with
  | O => die Out_of_fuel
  | S fuel =>
      par ← node_read i BFS_HMAC_LEN;
      cp ← gets curr_par;
      cp ← of_opt (cp ≫= mem_set 0 par);
      modify (set_curr_par (Some cp)) ;;
      ok ← rehash cache_enabled i;
      if negb ok then throw (BfsServerError "Failed hash_node in read_blk")
      else
        new ← node_read i BFS_HMAC_LEN;
        cp ← gets curr_par;
        old ← of_opt (cp ≫= mem_get 0 BFS_HMAC_LEN);
        if decide (new = old) then
          let cnt := cnt + 1 in
          if cnt =? 1 then mret ()
          else if i =? 0 then mret ()
          else verify_loop fuel vbid ih cnt (parent i)
        else
          h ← get_node i;
          free_slot h ;;
          set_node i HCurrPar ;;
          m ← gets mt;
          set_node (vbid + leaf_start m) ih ;;
          throw (BfsServerError "Invalid par hash comparison in read_blk")
  end.

(** [mac_copy] becomes the leaf; on a mismatch the old pointers are put back. *)
Definition read_blk_verify (vbid : Z) (mac : bytes) : M (sec C) () :=
  root ← get_node 0;
  match root with
  | HNull => throw (BfsServerError "NULL root hash in read_blk")
  | _ =>
      m ← gets mt;
      let i := vbid + leaf_start m in
      ih ← get_node i;
      match ih with
      | HNull => throw (BfsServerError "Hash doesnt exist but should in read_blk")
      | _ =>
          set_node i (HOwn mac) ;;
          verify_loop 65 vbid ih 0 (parent i) ;;
          free_slot ih
      end
  end.

Definition read_blk (vbid : Z) : M (sec C) bytes :=
  '(ret, raw) ← read_blk_fetch vbid;
  '(p, mac) ← read_blk_open vbid raw;
  assert_ (bool_decide (zlen p = BLK_SZ)) ;;
  st ← gets status;
  (if use_mt && (st =? MOUNTED) && negb (bool_decide (ret = BFS_SUCCESS_CACHE_HIT))
   then read_blk_verify vbid mac else mret ()) ;;
  mret p.

(** ** [write_blk] *)

(** Encrypt in place with a fresh IV: ciphertext, IV and tag. *)
Definition write_blk_seal (vbid : Z) (blk : bytes) : M (sec C) (bytes * bytes * bytes) :=
  meta ← gets (fun s => is_meta_blk s vbid);
  if (meta : bool) then throw (BfsServerError "Trying to write to meta block directly")
  else
    sc ← gets secContext;
    match sc with
    | None => throw (BfsServerError "Failed encrypting, NULL security cnontext")
    | Some k =>
        n ← gets rnd_ctr;
        modify (set_rnd_ctr (S n)) ;;
        match SecAssoc.encryptData2 (Some k) (aad_of vbid) blk (rnd n) with
        | inl (k', c, iv, tag) => modify (set_secContext (Some k')) ;; mret (c, iv, tag)
        | inr _ => throw (BfsServerError "Failed encrypting")
        end
    end.

Fixpoint update_loop (fuel : nat) (i : Z) : M (sec C) () :=
  match fuel with
  | O => die Out_of_fuel
  | S fuel =>
      ok ← rehash cache_enabled i;
      if negb ok then throw (BfsServerError "Failed hash_node in write_blk")
      else if i =? 0 then mret ()
      else update_loop fuel (parent i)
  end.

(** The leaf takes the new tag and every hash up to the root is recomputed. *)
Definition write_blk_tree (vbid : Z) (mac : bytes) : M (sec C) () :=
  root ← get_node 0;
  match root with
  | HNull => throw (BfsServerError "NULL root hash in write_blk")
  | _ =>
      m ← gets mt;
      let i := vbid + leaf_start m in
      h ← get_node i;
      match h with
      | HNull => throw (BfsServerError "Hash doesnt exist but should in write_blk")
      | _ =>
          free_slot h ;;
          set_node i (HOwn mac) ;;
          update_loop 65 (parent i)
      end
  end.

(** The result is the caller's buffer after the call: the ciphertext. *)
Definition write_blk (vbid : Z) (blk : bytes) (flags : op_flags) : M (sec C) bytes :=
  '(c, iv, mac) ← write_blk_seal vbid blk;
  assert_ (bool_decide (zlen c = BLK_SZ)) ;;
  r ← write_blk_meta cache_enabled vbid (Some (Some iv)) (Some (Some mac)) false;
  match r with
  | BFS_SUCCESS =>
      ret ← catch
        (r ← on_vbc (VBC.writeBlock cache_enabled vbid c flags);
         match r with
         | BFS_FAILURE => throw (BfsServerError "Failed writing block")
         | _ => mret r
         end)
        (fun e => if is_blockError e then Some (throw (BfsServerError "Failed writing block")) else None);
      st ← gets status;
      (if use_mt && negb (st =? CORRUPTED) && negb (bool_decide (ret = BFS_SUCCESS_CACHE_HIT))
       then write_blk_tree vbid mac else mret ()) ;;
      mret c
  | _ => throw (BfsServerError "Failed writing security metadata")
  end.

(** ** The tree in memory *)
Context {claws : CipherLaws} `{!BlkCacheLaws C}.
Implicit Types s : sec C.

Definition nh (s : sec C) (i : Z) : bytes :=
  match mt_nodes (mt s) !! i with Some (HOwn h) => h | _ => [] end.

(** A complete tree of height [h] whose nodes own their buffers, 16 bytes in
    the leaves and 32 in the others. *)
Definition tree_ok (s : sec C) : Prop :=
  0 < mt_height (mt s) <= 30 /\
  mt_num_nodes (mt s) = 2 ^ (mt_height (mt s) + 1) - 1 /\
  forall i, 0 <= i < mt_num_nodes (mt s) ->
    exists b, mt_nodes (mt s) !! i = Some (HOwn b) /\ zlen b = node_size (mt s) i.

Definition key_ok (s : sec C) : Prop :=
  exists k, secContext s = Some k /\ CryptoKey.cipherInitialized k = true.

(** The node hash: HMAC of the two children. *)
Definition ckey (s : sec C) : bytes :=
  match secContext s with Some k => CryptoKey.cipher_key k | None => [] end.
Definition hmac2 (s : sec C) (l r : bytes) : bytes := hmac_sha256 (ckey s) (l ++ r).

Lemma shiftl1 n : 0 <= n -> Z.shiftl 1 n = 2 ^ n.
Proof. intros. by rewrite Z.shiftl_1_l. Qed.

Lemma leaf_start_eq s : tree_ok s -> leaf_start (mt s) = 2 ^ mt_height (mt s) - 1.
Proof. intros [? _]. unfold leaf_start. rewrite shiftl1; lia. Qed.

(** Sizes as powers of two, for [lia]. *)
Lemma tree_sizes s : tree_ok s ->
  exists w, 0 < w /\ 2 ^ mt_height (mt s) = 2 * w /\ 2 ^ (mt_height (mt s) - 1) = w /\
    mt_num_nodes (mt s) = 4 * w - 1 /\ leaf_start (mt s) = 2 * w - 1.
Proof.
  intros Ht. rewrite leaf_start_eq by done. destruct Ht as (Hh&Hn&_).
  exists (2 ^ (mt_height (mt s) - 1)).
  assert (2 ^ mt_height (mt s) = 2 * 2 ^ (mt_height (mt s) - 1)).
  { rewrite <-Z.pow_succ_r by lia. f_equal. lia. }
  assert (2 ^ (mt_height (mt s) + 1) = 2 * 2 ^ mt_height (mt s)).
  { rewrite <-Z.pow_succ_r by lia. f_equal. }
  pose proof (Z.pow_pos_nonneg 2 (mt_height (mt s) - 1)). lia.
Qed.

Lemma nh_node s i : tree_ok s -> 0 <= i < mt_num_nodes (mt s) ->
  mt_nodes (mt s) !! i = Some (HOwn (nh s i)) /\ zlen (nh s i) = node_size (mt s) i.
Proof.
  intros (_&_&Hn) Hi. destruct (Hn i Hi) as (b&Hb&Hz). unfold nh. by rewrite Hb.
Qed.

Lemma get_node_Ok s i : tree_ok s -> 0 <= i < mt_num_nodes (mt s) ->
  get_node i s = Ok (HOwn (nh s i)) s.
Proof.
  intros Ht Hi. unfold get_node. rewrite decide_True by done.
  by rewrite (proj1 (nh_node s i Ht Hi)).
Qed.

Lemma mem_get_all (b : bytes) n : zlen b = n -> mem_get 0 n b = Some b.
Proof.
  intros <-. unfold mem_get. pose proof (zlen_nonneg b). rewrite decide_True by lia.
  unfold zlen. rewrite Nat2Z.id. cbn. by rewrite firstn_all.
Qed.

Lemma mem_set_all (d b : bytes) : zlen d = zlen b -> mem_set 0 d b = Some d.
Proof.
  intros Hd. unfold mem_set. rewrite decide_True by lia. cbn.
  rewrite drop_ge by (unfold zlen in *; lia). by rewrite app_nil_r.
Qed.

Lemma node_read_Ok s i n : tree_ok s -> 0 <= i < mt_num_nodes (mt s) -> n = node_size (mt s) i ->
  node_read i n s = Ok (nh s i) s.
Proof.
  intros Ht Hi ->. unfold node_read. rewrite (bind_Ok _ _ _ _ _ (get_node_Ok s i Ht Hi)).
  cbn [deref]. rewrite (bind_Ok _ _ _ (nh s i) s eq_refl).
  by rewrite mem_get_all by (by apply nh_node).
Qed.

(** The state with node [i] replaced. *)
Definition with_node (i : Z) (h : hslot) (s : sec C) : sec C :=
  set_mt (mkMT (mt_n (mt s)) (mt_height (mt s)) (mt_num_nodes (mt s))
            (<[i := h]> (mt_nodes (mt s))) (mt_status (mt s))) s.

Lemma set_node_Ok i h s : set_node i h s = Ok () (with_node i h s).
Proof. done. Qed.

Lemma node_write_Ok s i d : tree_ok s -> 0 <= i < mt_num_nodes (mt s) ->
  zlen d = node_size (mt s) i -> node_write i d s = Ok () (with_node i (HOwn d) s).
Proof.
  intros Ht Hi Hd. unfold node_write. rewrite (bind_Ok _ _ _ _ _ (get_node_Ok s i Ht Hi)).
  cbn [deref]. rewrite (bind_Ok _ _ _ (nh s i) s eq_refl).
  rewrite mem_set_all by (rewrite (proj2 (nh_node s i Ht Hi)); done). done.
Qed.

Lemma tree_ok_with_node s i d : tree_ok s -> 0 <= i < mt_num_nodes (mt s) ->
  zlen d = node_size (mt s) i -> tree_ok (with_node i (HOwn d) s).
Proof.
  intros (Hh&Hn&Hnodes) Hi Hd. split_and!; cbn; try done; [lia..|]. intros j Hj.
  destruct (decide (j = i)) as [->|Hne].
  - exists d. by rewrite lookup_insert_eq.
  - destruct (Hnodes j Hj) as (b&?&?). exists b. by rewrite lookup_insert_ne.
Qed.

Lemma nh_with_node s i d j : nh (with_node i (HOwn d) s) j = if decide (j = i) then d else nh s j.
Proof.
  unfold nh. cbn. case_decide; subst; [by rewrite lookup_insert_eq|by rewrite lookup_insert_ne].
Qed.

Lemma getKey_Ok s k : secContext s = Some k -> getKey s = Ok k s.
Proof. intros Hk. unfold getKey. msteps. by rewrite Hk. Qed.

Lemma children_sizes s i : tree_ok s -> 0 <= i < leaf_start (mt s) ->
  let n := if Z.shiftl 1 (mt_height (mt s) - 1) - 1 <=? i then BFS_MAC_LEN else BFS_HMAC_LEN in
  node_size (mt s) (2 * i + 1) = n /\ node_size (mt s) (2 * i + 2) = n /\
  0 <= 2 * i + 1 < mt_num_nodes (mt s) /\ 0 <= 2 * i + 2 < mt_num_nodes (mt s) /\
  node_size (mt s) i = BFS_HMAC_LEN.
Proof.
  intros Ht Hi. destruct (tree_sizes s Ht) as (w&?&?&Hw1&?&Hls).
  rewrite shiftl1 by (destruct Ht; lia). rewrite Hw1. unfold node_size. rewrite Hls in *.
  repeat match goal with |- context [?a <=? ?b] => destruct (Z.leb_spec a b) end;
    split_and!; try done; lia.
Qed.

(** [hash_node] on an inner node. *)
Lemma hash_node_Ok s i : tree_ok s -> key_ok s -> 0 <= i < leaf_start (mt s) ->
  hash_node cache_enabled i s = Ok (Some (hmac2 s (nh s (2 * i + 1)) (nh s (2 * i + 2)))) s.
Proof.
  intros Ht (k&Hk&_) Hi. destruct (children_sizes s i Ht Hi) as (Hl&Hr&Hl'&Hr'&_).
  unfold hash_node. msteps.
  destruct (leaf_start (mt s) <=? i) eqn:?; [lia|].
  rewrite (bind_Ok _ _ _ _ _ (node_read_Ok s (2 * i + 1) _ Ht Hl' (eq_sym Hl))).
  rewrite (bind_Ok _ _ _ _ _ (node_read_Ok s (2 * i + 2) _ Ht Hr' (eq_sym Hr))).
  rewrite (bind_Ok _ _ _ _ _ (getKey_Ok s k Hk)). unfold CryptoKey.hmacData.
  rewrite (mem_get_all (nh s (2 * i + 1))) by (rewrite <-Hl; by apply nh_node).
  rewrite (mem_get_all (nh s (2 * i + 2))) by (rewrite <-Hr; by apply nh_node).
  unfold hmac2, ckey. rewrite Hk. done.
Qed.

Definition rehashed (s : sec C) (i : Z) : sec C :=
  with_node i (HOwn (hmac2 s (nh s (2 * i + 1)) (nh s (2 * i + 2)))) s.

Lemma hmac2_zlen s l r : zlen (hmac2 s l r) = BFS_HMAC_LEN.
Proof. apply hmac_zlen. Qed.

Lemma rehash_Ok s i : tree_ok s -> key_ok s -> 0 <= i < leaf_start (mt s) ->
  rehash cache_enabled i s = Ok true (rehashed s i) /\ tree_ok (rehashed s i).
Proof.
  intros Ht Hk Hi. pose proof (hmac2_zlen s (nh s (2 * i + 1)) (nh s (2 * i + 2))) as Hz.
  destruct (children_sizes s i Ht Hi) as (_&_&_&?&Hsz). assert (0 <= i < mt_num_nodes (mt s)) by lia.
  split; [|by apply tree_ok_with_node; [..|congruence]].
  unfold rehash. rewrite (bind_Ok _ _ _ _ _ (hash_node_Ok s i Ht Hk Hi)).
  rewrite (bind_Ok _ _ _ () (rehashed s i)); [done|]. apply node_write_Ok; [done|done|congruence].
Qed.

(** ** Paths to the root *)
Inductive path : Z -> Z -> Prop :=
  | path_refl i : path i i
  | path_up i a : 0 < i -> path ((i - 1) / 2) a -> path i a.
#[local] Hint Constructors path : bfs.

Lemma parent_eq i : 0 < i < 2 ^ 64 -> parent i = (i - 1) / 2.
Proof.
  intros Hi. unfold parent. destruct (i mod 2 =? 0) eqn:Hm; rewrite u64_small.
  - Z.to_euclidean_division_equations; lia.
  - Z.to_euclidean_division_equations; lia.
  - done.
  - lia.
Qed.

Lemma parent_bound i : 0 < i -> 0 <= (i - 1) / 2 < i.
Proof. intros. Z.to_euclidean_division_equations; lia. Qed.

Lemma path_le i a : 0 <= i -> path i a -> 0 <= a <= i.
Proof.
  intros Hi Hp. revert Hi. induction Hp as [|i a Hi Hp IH]; intros; [lia|].
  pose proof (parent_bound i Hi). lia.
Qed.

Lemma path_inv i a : path i a -> a = i \/ (0 < i /\ path ((i - 1) / 2) a).
Proof. intros Hp. destruct Hp; auto. Qed.

(** A node whose hash is the HMAC of its children. *)
Definition node_good s (a : Z) : Prop := nh s a = hmac2 s (nh s (2 * a + 1)) (nh s (2 * a + 2)).

(** States that differ in the tree's nodes only. *)
Definition same_but_nodes s s' : Prop :=
  vbc s' = vbc s /\ secContext s' = secContext s /\ curr_par s' = curr_par s /\
  status s' = status s /\ rnd_ctr s' = rnd_ctr s /\
  mt_height (mt s') = mt_height (mt s) /\ mt_num_nodes (mt s') = mt_num_nodes (mt s) /\
  mt_n (mt s') = mt_n (mt s) /\ mt_status (mt s') = mt_status (mt s).

Lemma same_but_nodes_trans s s1 s2 :
  same_but_nodes s s1 -> same_but_nodes s1 s2 -> same_but_nodes s s2.
Proof. unfold same_but_nodes. intuition congruence. Qed.

Lemma same_but_nodes_with s i h : same_but_nodes s (with_node i h s).
Proof. done. Qed.

Lemma same_hmac2 s s' l r : same_but_nodes s s' -> hmac2 s' l r = hmac2 s l r.
Proof. intros (_&Hk&_). unfold hmac2, ckey. by rewrite Hk. Qed.

Lemma same_key_ok s s' : same_but_nodes s s' -> key_ok s -> key_ok s'.
Proof. intros (_&Hk&_). unfold key_ok. by rewrite Hk. Qed.

Lemma rehashed_good s i : 0 <= i -> node_good (rehashed s i) i /\
  forall j, j <> i -> nh (rehashed s i) j = nh s j.
Proof.
  intros Hi. unfold node_good, rehashed. rewrite !nh_with_node.
  rewrite decide_True, !decide_False by lia. split; [done|].
  intros j Hj. by rewrite nh_with_node, decide_False.
Qed.

(** The update loop terminates, recomputes exactly the nodes on the path to the
    root, and leaves each of them the HMAC of its children. *)
Lemma update_loop_spec fuel s i :
  tree_ok s -> key_ok s -> 0 <= i < leaf_start (mt s) -> i < 2 ^ Z.of_nat fuel - 1 ->
  exists s', update_loop fuel i s = Ok () s' /\ tree_ok s' /\ same_but_nodes s s' /\
    (forall a, ~ path i a -> nh s' a = nh s a) /\ (forall a, path i a -> node_good s' a).
Proof.
  revert s i. induction fuel as [|fuel IH]; intros s i Ht Hk Hi Hf; [cbn in Hf; lia|].
  destruct (rehash_Ok s i Ht Hk Hi) as [Hr Ht1]. cbn [update_loop]. mrun Hr. cbn [negb].
  destruct (rehashed_good s i) as [Hg Hs]; [lia|].
  pose proof (same_but_nodes_with s i (HOwn (hmac2 s (nh s (2 * i + 1)) (nh s (2 * i + 2))))) as Hsame.
  destruct (i =? 0) eqn:Hi0.
  { assert (i = 0) as -> by lia. exists (rehashed s 0). split_and!; try done.
    - intros a Ha. apply Hs. intros ->. apply Ha. constructor.
    - intros a [->|[? _]]%path_inv; [done|lia]. }
  destruct (tree_sizes s Ht) as (w&?&?&?&?&?).
  assert (2 * w <= 2 ^ 30) as Hw.
  { replace (2 * w) with (2 ^ mt_height (mt s)) by lia. apply Z.pow_le_mono_r; [lia|]. destruct Ht; lia. }
  rewrite parent_eq by lia. pose proof (parent_bound i ltac:(lia)) as Hpb.
  assert (2 ^ Z.of_nat (S fuel) = 2 * 2 ^ Z.of_nat fuel) as Hpow.
  { rewrite <-Z.pow_succ_r by lia. f_equal. lia. }
  destruct (IH (rehashed s i) ((i - 1) / 2) Ht1) as (s'&Hu&Ht'&Hsm&Hno&Hgood).
  { by eapply same_key_ok. }
  { change (leaf_start (mt (rehashed s i))) with (leaf_start (mt s)). lia. }
  { Z.to_euclidean_division_equations; lia. }
  exists s'. split_and!; [exact Hu|done|by eapply same_but_nodes_trans|..].
  - intros a Ha. rewrite Hno by (intros Hp; apply Ha; by constructor; [lia|]).
    apply Hs. intros ->. apply Ha. constructor.
  - intros a [->|[_ Hp]]%path_inv; [|by apply Hgood].
    assert (forall j, i <= j -> nh s' j = nh (rehashed s i) j) as Hup.
    { intros j Hj. apply Hno. intros Hp. apply path_le in Hp; lia. }
    unfold node_good. rewrite !Hup by lia. rewrite (same_hmac2 _ _ _ _ Hsm). exact Hg.
Qed.

(** ** Metadata slots *)
Abbreviation ce := cache_enabled.
Definition bget s (j : Z) : bytes := VBC.vget ce (vbc s) j.

(** Only the block layer's internal state may have changed. *)
Definition vpres (v v' : VBC.t C) : Prop :=
  VBC.inv ce v' /\ (forall j, 0 <= j -> VBC.vget ce v' j = VBC.vget ce v j) /\
  VBC.maxBlockID v' = VBC.maxBlockID v.

Lemma vpres_refl v : VBC.inv ce v -> vpres v v.
Proof. done. Qed.

Lemma on_vbc_Ok {A} (m : M (VBC.t C) A) s a v : m (vbc s) = Ok a v -> on_vbc m s = Ok a (set_vbc v s).
Proof. unfold on_vbc. by intros ->. Qed.

Lemma read_block_helper_Ok s k :
  VBC.inv ce (vbc s) -> 0 <= k < NB s ->
  exists v', read_block_helper ce k s = Ok (Some (bget s k)) (set_vbc v' s) /\ vpres (vbc s) v'.
Proof.
  intros Hi Hk. destruct (VBC.readBlock_spec ce (vbc s) k Hi Hk) as (r&v'&Hr&Hnf&Hi'&Hv&Hm&_).
  exists v'. split; [|done]. unfold read_block_helper, catch.
  rewrite (bind_Ok _ _ _ _ _ (on_vbc_Ok _ s _ _ Hr)). by destruct r.
Qed.

Lemma write_block_helper_Ok s k d :
  VBC.inv ce (vbc s) -> 0 <= k < NB s -> zlen d = BLK_SZ ->
  exists v', write_block_helper ce k d s = Ok BFS_SUCCESS (set_vbc v' s) /\ VBC.inv ce v' /\
    (forall j, 0 <= j -> VBC.vget ce v' j = if decide (j = k) then d else bget s j) /\
    VBC.maxBlockID v' = NB s.
Proof.
  intros Hi Hk Hd. destruct (VBC.writeBlock_spec ce (vbc s) k d bfs_O_SYNC Hi Hk Hd) as (v'&Hr&Hi'&Hv&Hm).
  exists v'. split; [|done]. unfold write_block_helper, catch.
  rewrite (bind_Ok _ _ _ _ _ (on_vbc_Ok _ s _ _ Hr)). done.
Qed.

Definition meta_slot s (b : Z) (iv mac : bytes) : Prop := slot_in (bget s (meta_blk b)) b iv mac.

(** The devices: consistent cluster, whole blocks, room for data. *)
Definition dev_ok s : Prop :=
  VBC.inv ce (vbc s) /\ (forall j, 0 <= j < NB s -> zlen (bget s j) = BLK_SZ) /\
  DATA_REL_START_BLK_NUM (NB s) < NB s.

Lemma meta_range s b : dev_ok s -> 0 <= b < NB s ->
  0 <= meta_blk b < NB s /\ 0 <= meta_off b /\ meta_off b + 28 <= BLK_SZ.
Proof.
  intros (_&_&Hd) Hb. pose proof (meta_loc_range (NB s) b Hb) as (?&?&?).
  unfold meta_blk. unfold BFS_IV_LEN, BFS_MAC_LEN in *.
  assert (0 <= METADATA_REL_START_BLK_NUM) by (unfold METADATA_REL_START_BLK_NUM; layout_lia). lia.
Qed.

Lemma meta_slot_exists s b : dev_ok s -> 0 <= b < NB s ->
  exists iv mac, meta_slot s b iv mac /\ zlen iv = BFS_IV_LEN /\ zlen mac = BFS_MAC_LEN.
Proof.
  intros Hd Hb. destruct (meta_range s b Hd Hb) as (Hm&?&?). destruct Hd as (_&Hz&_).
  specialize (Hz _ Hm). unfold meta_slot, slot_in, BFS_IV_LEN, BFS_MAC_LEN in *.
  destruct (mem_get_is_Some (meta_off b) 12 (bget s (meta_blk b))) as [iv Hiv]; [lia..|].
  destruct (mem_get_is_Some (meta_off b + 12) 16 (bget s (meta_blk b))) as [mac Hmac]; [lia..|].
  exists iv, mac. apply mem_get_Some in Hiv as Hi. apply mem_get_Some in Hmac as Hc. tauto.
Qed.

Lemma read_blk_meta_Ok s b iv mac x y :
  dev_ok s -> 0 <= b < NB s -> meta_slot s b iv mac ->
  exists v', read_blk_meta ce b (Some (Some x)) (Some (Some y)) false s
    = Ok (Some (Some iv, Some mac)) (set_vbc v' s) /\ vpres (vbc s) v'.
Proof.
  intros Hd Hb [Hiv Hmac]. destruct (meta_range s b Hd Hb) as (Hm&_&_). destruct Hd as (Hi&_&_).
  destruct (read_block_helper_Ok s (meta_blk b) Hi Hm) as (v'&Hr&Hp). exists v'. split; [|done].
  unfold read_blk_meta, bad_meta_args, deref_ptr. msteps. mrun Hr. msteps.
  rewrite Hiv. msteps. rewrite Hmac. msteps. done.
Qed.

Lemma write_blk_meta_Ok s b iv mac :
  dev_ok s -> 0 <= b < NB s -> zlen iv = BFS_IV_LEN -> zlen mac = BFS_MAC_LEN ->
  exists v' d, write_blk_meta ce b (Some (Some iv)) (Some (Some mac)) false s
      = Ok BFS_SUCCESS (set_vbc v' s) /\ VBC.inv ce v' /\ VBC.maxBlockID v' = NB s /\
    (forall j, 0 <= j -> VBC.vget ce v' j = if decide (j = meta_blk b) then d else bget s j) /\
    mem_set (meta_off b) (iv ++ mac) (bget s (meta_blk b)) = Some d.
Proof.
  intros Hd Hb Hiv Hmac. destruct (meta_range s b Hd Hb) as (Hm&Ho&Ho2).
  destruct Hd as (Hi&Hz&_). specialize (Hz _ Hm).
  destruct (read_block_helper_Ok s (meta_blk b) Hi Hm) as (v1&Hr1&Hi1&Hv1&Hm1).
  unfold write_blk_meta, bad_meta_args, deref_ptr. msteps.
  destruct (mem_set_is_Some (meta_off b) iv (bget s (meta_blk b))) as [d1 Hd1];
    [lia|unfold BFS_IV_LEN in *; lia|].
  pose proof (mem_set_zlen _ _ _ _ Hd1) as Hz1.
  destruct (mem_set_is_Some (meta_off b + BFS_IV_LEN) mac d1) as [d2 Hd2];
    [unfold BFS_IV_LEN; lia|unfold BFS_IV_LEN, BFS_MAC_LEN in *; lia|].
  pose proof (mem_set_zlen _ _ _ _ Hd2) as Hz2.
  destruct (write_block_helper_Ok (set_vbc v1 s) (meta_blk b) d2) as (v2&Hr2&Hi2&Hv2&Hm2);
    [done|unfold NB in *; cbn; lia|congruence|].
  exists v2, d2. split_and!; [|done|unfold NB in *; cbn in *; congruence|..].
  - mrun Hr1. msteps. rewrite (mem_get_all iv), some_bind, Hd1 by done. msteps.
    rewrite (mem_get_all mac), some_bind, Hd2 by done. msteps. exact Hr2.
  - intros j Hj. rewrite Hv2 by done. case_decide; [done|]. unfold bget. cbn. by apply Hv1.
  - rewrite <-Hiv in Hd2. by rewrite <-(mem_set_app _ _ _ _ _ Hd1).
Qed.

Lemma meta_slot_after s s' b iv mac d :
  dev_ok s -> 0 <= b < NB s -> zlen iv = BFS_IV_LEN -> zlen mac = BFS_MAC_LEN ->
  mem_set (meta_off b) (iv ++ mac) (bget s (meta_blk b)) = Some d ->
  bget s' (meta_blk b) = d ->
  meta_slot s' b iv mac /\
  forall b' iv' mac', 0 <= b' -> b' <> b -> meta_blk b' = meta_blk b ->
    meta_slot s b' iv' mac' -> meta_slot s' b' iv' mac'.
Proof.
  intros Hd Hb Hiv Hmac Hset Hs'. unfold meta_slot. rewrite Hs'.
  destruct (slot_in_after _ b iv mac d ltac:(lia) Hiv Hmac Hset) as [Hin Hout]. split; [done|].
  intros b' iv' mac' ? Hne Heq. rewrite Heq, Hs'. apply Hout; [done..|]. unfold meta_blk in Heq. lia.
Qed.

(** ** Block contents *)
Definition valid_blk s (b : Z) : Prop := 0 <= b < NB s /\ is_meta_blk s b = false.

Definition leaf s (b : Z) : Z := b + leaf_start (mt s).

(** Block [b] holds [d]: the device has a ciphertext of it, the metadata slot
    its IV and tag, and the tree in memory vouches for the tag. *)
Definition stored s (b : Z) (d : bytes) : Prop :=
  valid_blk s b /\
  exists iv mac, meta_slot s b iv mac /\
    mac = gcm_tag (ckey s) iv (aad_of b) (bget s b) /\
    d = gcm_decrypt (ckey s) iv (aad_of b) (bget s b) /\
    nh s (leaf s b) = mac /\ node_good s ((leaf s b - 1) / 2).

(** Devices, tree and key in order, in any status. *)
Definition sec_core s : Prop :=
  dev_ok s /\ tree_ok s /\ key_ok s /\ NB s = 2 ^ mt_height (mt s).

(** A mounted file system. *)
Definition sec_ok s : Prop :=
  dev_ok s /\ tree_ok s /\ key_ok s /\ NB s = 2 ^ mt_height (mt s) /\ status s = MOUNTED /\
  exists cp, curr_par s = Some cp /\ zlen cp = BFS_HMAC_LEN.

(** Two states with the same blocks, tree and key. *)
Definition view s s' : Prop :=
  (forall j, 0 <= j -> bget s' j = bget s j) /\ NB s' = NB s /\ (forall i, nh s' i = nh s i) /\
  ckey s' = ckey s /\ mt_height (mt s') = mt_height (mt s).

Lemma meta_blk_nonneg b : 0 <= b -> 0 <= meta_blk b.
Proof. intros. unfold meta_blk, METADATA_REL_START_BLK_NUM. layout_lia. Qed.

Lemma stored_view s s' b d : view s s' -> stored s b d -> stored s' b d.
Proof.
  intros (Hb&Hn&Hnh&Hk&Hh) [[Hr Hm] (iv&mac&[Hiv Hmac]&Ht&Hd&Hl&Hg)].
  assert (leaf s' b = leaf s b) as Hleaf by (unfold leaf, leaf_start; by rewrite Hh).
  pose proof (meta_blk_nonneg b ltac:(lia)). split; [unfold valid_blk, is_meta_blk; by rewrite Hn|].
  exists iv, mac. unfold meta_slot, slot_in, node_good, hmac2. rewrite !Hb, Hk, Hleaf, !Hnh by lia.
  done.
Qed.

Lemma leaf_range s b : tree_ok s -> 0 <= b < 2 ^ mt_height (mt s) ->
  leaf_start (mt s) <= leaf s b < mt_num_nodes (mt s) /\
  0 <= (leaf s b - 1) / 2 < leaf_start (mt s) /\ 0 < leaf s b < 2 ^ 31 /\
  (leaf s b = 2 * ((leaf s b - 1) / 2) + 1 \/ leaf s b = 2 * ((leaf s b - 1) / 2) + 2).
Proof.
  intros Ht Hb. destruct (tree_sizes s Ht) as (w&?&?&?&?&?). unfold leaf.
  assert (2 * w <= 2 ^ 30).
  { replace (2 * w) with (2 ^ mt_height (mt s)) by lia. apply Z.pow_le_mono_r; [lia|]. destruct Ht; lia. }
  Z.to_euclidean_division_equations; lia.
Qed.

Lemma node_size_leaf s b : tree_ok s -> 0 <= b < 2 ^ mt_height (mt s) ->
  node_size (mt s) (leaf s b) = BFS_MAC_LEN.
Proof.
  intros Ht Hb. pose proof (leaf_range s b Ht Hb). unfold node_size.
  destruct (leaf_start (mt s) <=? leaf s b) eqn:?; [done|lia].
Qed.

Lemma write_blk_tree_Ok s b mac :
  tree_ok s -> key_ok s -> 0 <= b < 2 ^ mt_height (mt s) -> zlen mac = BFS_MAC_LEN ->
  exists s', write_blk_tree b mac s = Ok () s' /\ tree_ok s' /\ same_but_nodes s s' /\
    nh s' (leaf s b) = mac /\
    (forall a, a <> leaf s b -> ~ path ((leaf s b - 1) / 2) a -> nh s' a = nh s a) /\
    (forall a, path ((leaf s b - 1) / 2) a -> node_good s' a).
Proof.
  intros Ht Hk Hb Hz. pose proof (leaf_range s b Ht Hb) as (Hl&Hp&Hl2&_).
  pose proof (node_size_leaf s b Ht Hb) as Hns.
  assert (0 <= 0 < mt_num_nodes (mt s)) as Hz0 by lia.
  assert (0 <= leaf s b < mt_num_nodes (mt s)) as Hz1 by lia.
  unfold write_blk_tree. mrun (get_node_Ok s 0 Ht Hz0). msteps. fold (leaf s b).
  mrun (get_node_Ok s (leaf s b) Ht Hz1). cbn [free_slot]. msteps.
  mrun (set_node_Ok (leaf s b) (HOwn mac) s). rewrite parent_eq by lia.
  assert (tree_ok (with_node (leaf s b) (HOwn mac) s)) as Ht1 by (apply tree_ok_with_node; congruence).
  destruct (update_loop_spec 65 (with_node (leaf s b) (HOwn mac) s) ((leaf s b - 1) / 2) Ht1)
    as (s'&Hu&Ht'&Hsm&Hno&Hgood).
  { by eapply same_key_ok; [apply same_but_nodes_with|]. }
  { change (leaf_start (mt (with_node (leaf s b) (HOwn mac) s))) with (leaf_start (mt s)). lia. }
  { change (2 ^ Z.of_nat 65) with 36893488147419103232. lia. }
  exists s'. split_and!; [exact Hu|done|by eapply same_but_nodes_trans; [apply same_but_nodes_with|]|..].
  - rewrite Hno by (intros Hpt; apply path_le in Hpt; lia).
    by rewrite nh_with_node, decide_True.
  - intros a Hne Hna. rewrite Hno by done. by rewrite nh_with_node, decide_False.
  - exact Hgood.
Qed.

(** The random source gives IVs of the right size, and the tree is in use. *)
Context (rnd_zlen : forall n, zlen (rnd n) = BFS_IV_LEN) (mt_on : use_mt = true).

Lemma write_blk_seal_Ok s b d :
  valid_blk s b -> key_ok s ->
  let iv := rnd (rnd_ctr s) in
  let c := gcm_encrypt (ckey s) iv (aad_of b) d in
  exists k', write_blk_seal b d s = Ok (c, iv, gcm_tag (ckey s) iv (aad_of b) c)
      (set_secContext (Some k') (set_rnd_ctr (S (rnd_ctr s)) s)) /\
    CryptoKey.cipher_key k' = ckey s /\ CryptoKey.cipherInitialized k' = true.
Proof.
  intros [_ Hm] (k&Hk&Hi) iv c. unfold write_blk_seal. msteps. rewrite Hm. msteps.
  rewrite Hk. msteps. unfold SecAssoc.encryptData2, CryptoKey.encryptData, CryptoKey.macData. rewrite Hi.
  cbn [CryptoKey.cipherInitialized CryptoKey.cur_tag]. msteps.
  unfold c, iv, ckey. rewrite Hk. eexists. done.
Qed.

(** What the device writes of [write_blk] leave on the devices. *)
Definition written s s' b iv mac c : Prop :=
  meta_slot s' b iv mac /\ bget s' b = c /\
  (forall b', 0 <= b' -> b' <> b -> is_meta_blk s b' = false -> bget s' b' = bget s b') /\
  (forall b' iv' mac', 0 <= b' < NB s -> b' <> b -> meta_slot s b' iv' mac' -> meta_slot s' b' iv' mac').

Lemma meta_blk_is_meta s b : 0 <= b < NB s -> is_meta_blk s (meta_blk b) = true.
Proof.
  intros Hb. unfold is_meta_blk, meta_blk. pose proof (meta_loc_range (NB s) b Hb) as [? _].
  apply andb_true_iff. split; lia.
Qed.

(** Metadata first, then the block: together they change the slot of [b] and
    the block [b], nothing else that is read. *)
Lemma write_devices s b iv mac c flags :
  dev_ok s -> valid_blk s b -> zlen iv = BFS_IV_LEN -> zlen mac = BFS_MAC_LEN -> zlen c = BLK_SZ ->
  exists v1 v2, write_blk_meta ce b (Some (Some iv)) (Some (Some mac)) false s
      = Ok BFS_SUCCESS (set_vbc v1 s) /\
    VBC.writeBlock ce b c flags v1 = Ok BFS_SUCCESS v2 /\
    dev_ok (set_vbc v2 s) /\ NB (set_vbc v2 s) = NB s /\ written s (set_vbc v2 s) b iv mac c.
Proof.
  intros Hd [Hb Hnm] Hiv Hmac Hc.
  destruct (write_blk_meta_Ok s b iv mac Hd Hb Hiv Hmac) as (v1&d&Hr1&Hi1&Hm1&Hv1&Hset).
  destruct (VBC.writeBlock_spec ce v1 b c flags Hi1) as (v2&Hr2&Hi2&Hv2&Hm2);
    [by rewrite Hm1|done|].
  pose proof (meta_range s b Hd Hb) as (Hmr&_&_). pose proof (meta_blk_is_meta s b Hb) as Hmm.
  assert (NB (set_vbc v2 s) = NB s) as HN by (unfold NB in *; cbn; congruence).
  assert (forall j, 0 <= j -> bget (set_vbc v2 s) j
    = if decide (j = b) then c else if decide (j = meta_blk b) then d else bget s j) as Hg.
  { intros j Hj. unfold bget at 1. cbn. rewrite Hv2, Hv1 by done. done. }
  assert (bget (set_vbc v2 s) (meta_blk b) = d) as Hgm.
  { rewrite Hg by lia. rewrite decide_False by congruence. by rewrite decide_True. }
  exists v1, v2. split_and!; [done|done| |done|].
  - destruct Hd as (_&Hz&Hdr). split_and!; [done|..|by rewrite HN]. intros j Hj. rewrite HN in Hj.
    rewrite Hg by lia. repeat case_decide; subst; [done| |by apply Hz].
    rewrite (mem_set_zlen _ _ _ _ Hset). by apply Hz.
  - destruct (meta_slot_after s (set_vbc v2 s) b iv mac d Hd Hb Hiv Hmac Hset Hgm) as [Hsl Hoth].
    split_and!; [done|by rewrite Hg, decide_True by lia| |].
    + intros b' ? Hne Hnm'. rewrite Hg, !decide_False by (done || congruence). done.
    + intros b' iv' mac' Hb' Hne Hsl'. destruct (decide (meta_blk b' = meta_blk b)) as [E|E]; [by apply Hoth; [lia|..]|].
      pose proof (meta_range s b' Hd Hb') as (?&_&_). pose proof (meta_blk_is_meta s b' Hb') as Hmm'.
      unfold meta_slot. rewrite Hg, !decide_False by (done || lia || congruence). done.
Qed.

Lemma dev_ok_vbc s s' : vbc s' = vbc s -> dev_ok s -> dev_ok s'.
Proof. unfold dev_ok, NB, bget. by intros ->. Qed.

Lemma bget_vbc s s' j : vbc s' = vbc s -> bget s' j = bget s j.
Proof. unfold bget. by intros ->. Qed.

Lemma meta_slot_vbc s s' b iv mac : vbc s' = vbc s -> meta_slot s b iv mac -> meta_slot s' b iv mac.
Proof. unfold meta_slot, bget. by intros ->. Qed.

Lemma leaf_same s s' b : mt_height (mt s') = mt_height (mt s) -> leaf s' b = leaf s b.
Proof. unfold leaf, leaf_start. by intros ->. Qed.

(** The nodes [stored] looks at for block [b'] after the update of block [b]. *)
Lemma tree_others s s' b b' :
  tree_ok s -> 0 <= b < 2 ^ mt_height (mt s) -> 0 <= b' < 2 ^ mt_height (mt s) -> b' <> b ->
  hmac2 s' = hmac2 s ->
  (forall a, a <> leaf s b -> ~ path ((leaf s b - 1) / 2) a -> nh s' a = nh s a) ->
  (forall a, path ((leaf s b - 1) / 2) a -> node_good s' a) ->
  nh s' (leaf s b') = nh s (leaf s b') /\
  (node_good s ((leaf s b' - 1) / 2) -> node_good s' ((leaf s b' - 1) / 2)).
Proof.
  intros Ht Hb Hb' Hne Hk Hoth Hgood.
  pose proof (leaf_range s b Ht Hb) as (Hl&Hp&_&Hc). pose proof (leaf_range s b' Ht Hb') as (Hl'&Hp'&_&Hc').
  set (p := (leaf s b - 1) / 2) in *. set (p' := (leaf s b' - 1) / 2) in *.
  assert (leaf s b' <> leaf s b) as Hln by (unfold leaf; lia).
  assert (forall a, leaf_start (mt s) <= a -> ~ path p a) as Hnp by (intros a ? Hpa; apply path_le in Hpa; lia).
  split; [apply Hoth; [done|by apply Hnp; lia]|]. intros Hg.
  destruct (decide (p' = p)) as [->|Hpp]; [apply Hgood; constructor|].
  destruct (tree_sizes s Ht) as (w&?&?&?&?&?).
  assert (~ path p p') as Hnpath.
  { intros [?|[? Hpa]]%path_inv; [done|]. apply path_le in Hpa; [|by apply parent_bound].
    clearbody p p'. Z.to_euclidean_division_equations; lia. }
  unfold node_good. rewrite Hk, !Hoth; try done; try lia; apply Hnp; lia.
Qed.

(** A block after its device blocks were written ([s2]) and the tree was updated
    ([s']), and the other blocks. *)
Lemma same_valid s s' b : vbc s' = vbc s -> valid_blk s b -> valid_blk s' b.
Proof. unfold valid_blk, is_meta_blk, NB. by intros ->. Qed.

Lemma stored_same s s' b d : vbc s' = vbc s -> mt s' = mt s -> ckey s' = ckey s -> stored s b d -> stored s' b d.
Proof. unfold stored, valid_blk, is_meta_blk, meta_slot, node_good, hmac2, nh, leaf, bget, NB. by intros -> -> ->. Qed.

Lemma stored_written s s2 s' b d iv mac c :
  same_but_nodes s2 s' -> valid_blk s2 b -> written s s2 b iv mac c ->
  gcm_tag (ckey s2) iv (aad_of b) c = mac -> gcm_decrypt (ckey s2) iv (aad_of b) c = d ->
  nh s' (leaf s2 b) = mac -> node_good s' ((leaf s2 b - 1) / 2) -> stored s' b d.
Proof.
  intros (Hv'&Hsc&_&_&_&Hh'&_) Hvb (Hsl&Hbg&_&_) Htag Hdec Hleaf Hgood.
  assert (ckey s' = ckey s2) as Hks by (unfold ckey; by rewrite Hsc).
  split; [by eapply same_valid|]. exists iv, mac. rewrite Hks, (bget_vbc s2 s' b Hv'), Hbg, (leaf_same s2 s' b Hh').
  split_and!; [by eapply meta_slot_vbc|done..].
Qed.

Lemma stored_kept s s2 s' b b' d' iv mac c :
  tree_ok s2 -> same_but_nodes s2 s' -> 0 <= b < 2 ^ mt_height (mt s2) -> 0 <= b' < 2 ^ mt_height (mt s2) -> b' <> b ->
  written s s2 b iv mac c -> ckey s2 = ckey s -> mt s2 = mt s -> NB s2 = NB s ->
  (forall a, a <> leaf s2 b -> ~ path ((leaf s2 b - 1) / 2) a -> nh s' a = nh s2 a) ->
  (forall a, path ((leaf s2 b - 1) / 2) a -> node_good s' a) ->
  stored s b' d' -> stored s' b' d'.
Proof.
  intros Ht Hsm Hb Hb' Hne (_&_&Hblk&Hslots) Hck Hmt HNB Hoth Hgood [[Hr Hnm] (iv'&mac'&Hsl'&Ht'&Hd'&Hl'&Hg')].
  pose proof Hsm as (Hv'&Hsc&_&_&_&Hh'&_).
  assert (hmac2 s' = hmac2 s2) as Hhm by (unfold hmac2, ckey; by rewrite Hsc).
  assert (ckey s' = ckey s) as Hks by (unfold ckey at 1; rewrite Hsc; exact Hck).
  destruct (tree_others s2 s' b b') as [Hnl Hng]; try done.
  assert (leaf s2 b' = leaf s b') as Hlf by (unfold leaf; by rewrite Hmt).
  split; [eapply (same_valid s2); [done|unfold valid_blk, is_meta_blk; by rewrite HNB]|]. exists iv', mac'.
  rewrite Hks, (bget_vbc s2 s' b' Hv'), (leaf_same s2 s' b' Hh'), (Hblk b') by (done || lia).
  split_and!; [eapply meta_slot_vbc; [done|by apply Hslots]|done|done|rewrite Hnl, Hlf; unfold nh; by rewrite Hmt|].
  apply Hng. unfold node_good, nh, hmac2 in *. by rewrite Hck, Hmt, Hlf.
Qed.

(** A block written can be read back, and no other block changes, in every
    status but [CORRUPTED]. *)
Lemma write_blk_core s b d flags :
  sec_core s -> status s <> CORRUPTED -> valid_blk s b -> zlen d = BLK_SZ ->
  exists c s', write_blk b d flags s = Ok c s' /\ zlen c = BLK_SZ /\ sec_core s' /\ NB s' = NB s /\
    status s' = status s /\ curr_par s' = curr_par s /\ mt_status (mt s') = mt_status (mt s) /\
    stored s' b d /\ forall b' d', b' <> b -> stored s b' d' -> stored s' b' d'.
Proof.
  intros (Hd&Ht&Hk&HN) Hst Hv Hz. pose proof Hv as [Hb Hnm].
  destruct (write_blk_seal_Ok s b d Hv Hk) as (k'&Hseal&Hck&Hik).
  set (iv := rnd (rnd_ctr s)) in *. set (c := gcm_encrypt (ckey s) iv (aad_of b) d) in *.
  set (mac := gcm_tag (ckey s) iv (aad_of b) c) in *.
  set (s1 := set_secContext (Some k') (set_rnd_ctr (S (rnd_ctr s)) s)) in *.
  assert (zlen c = BLK_SZ) as Hzc by (unfold c; by rewrite encrypt_zlen).
  assert (zlen mac = BFS_MAC_LEN) as Hzm by (apply tag_zlen).
  destruct (write_devices s1 b iv mac c flags) as (v1&v2&Hr1&Hr2&Hd2&HN2&Hw);
    [done|done|apply rnd_zlen|done|done|].
  set (s2 := set_vbc v2 s1) in *.
  destruct (write_blk_tree_Ok s2 b mac) as (s'&Ht4&Htree&Hsm&Hleaf&Hoth&Hgood);
    [done|by exists k'|change (mt s2) with (mt s); lia|done|].
  exists c, s'. split_and!; [|done|..].
  - unfold write_blk. mrun Hseal. rewrite bind_assert by (by apply bool_decide_true).
    mrun Hr1.
    assert (on_vbc (VBC.writeBlock ce b c flags) (set_vbc v1 s1) = Ok BFS_SUCCESS s2) as Hr2'
      by (unfold on_vbc; cbn; by rewrite Hr2).
    erewrite bind_Ok; [|apply catch_Ok; mrun Hr2'; reflexivity]. msteps.
    change (status s2) with (status s). rewrite mt_on, (proj2 (Z.eqb_neq _ _) Hst). cbn [andb negb].
    change (negb (bool_decide (BFS_SUCCESS = BFS_SUCCESS_CACHE_HIT))) with true. cbn.
    by mrun Ht4.
  - destruct Hsm as (Hv'&Hsc&_&_&_&Hh'&_). split_and!; [by eapply dev_ok_vbc|done|..].
    + exists k'. by rewrite Hsc.
    + unfold NB in *. rewrite Hv', Hh'. exact (eq_trans HN2 HN).
  - unfold NB in *. rewrite (proj1 Hsm). done.
  - by destruct Hsm as (_&_&_&->&_).
  - by destruct Hsm as (_&_&->&_).
  - by destruct Hsm as (_&_&_&_&_&_&_&_&->).
  - assert (ckey s2 = ckey s) as Hc2 by exact Hck.
    apply (stored_written s1 s2 s' b d iv mac c); [exact Hsm| |exact Hw|by rewrite Hc2|rewrite Hc2; apply decrypt_encrypt|exact Hleaf|by apply Hgood; constructor].
    unfold valid_blk, is_meta_blk. by rewrite HN2.
  - intros b' d' Hne Hst'. pose proof Hst' as [[Hb' _] _].
    apply (stored_kept s1 s2 s' b b' d' iv mac c); try done; try (change (mt s2) with (mt s); lia).
    by apply (stored_same s).
Qed.

Lemma sec_ok_core s : sec_ok s <-> sec_core s /\ status s = MOUNTED /\
  exists cp, curr_par s = Some cp /\ zlen cp = BFS_HMAC_LEN.
Proof. unfold sec_ok, sec_core. tauto. Qed.

Lemma write_blk_spec s b d flags :
  sec_ok s -> valid_blk s b -> zlen d = BLK_SZ ->
  exists c s', write_blk b d flags s = Ok c s' /\ zlen c = BLK_SZ /\ sec_ok s' /\ NB s' = NB s /\
    stored s' b d /\ forall b' d', b' <> b -> stored s b' d' -> stored s' b' d'.
Proof.
  intros (Hc&Hst&Hcp)%sec_ok_core Hv Hz.
  destruct (write_blk_core s b d flags) as (c&s'&Hw&Hzc&Hc'&HN&Hst'&Hcp'&_&Hrest); [done|by rewrite Hst|done|done|].
  exists c, s'. do 2 (split; [done|]). split; [|by split]. apply sec_ok_core. by rewrite Hst', Hcp'.
Qed.

(** ** Reads *)
Lemma read_blk_fetch_Ok s b :
  dev_ok s -> valid_blk s b ->
  exists r v', read_blk_fetch b s = Ok (r, bget s b) (set_vbc v' s) /\ vpres (vbc s) v' /\
    (ce = false -> r = BFS_SUCCESS).
Proof.
  intros (Hi&_&_) [Hb Hnm]. destruct (VBC.readBlock_spec ce (vbc s) b Hi Hb) as (r&v'&Hr&Hnf&Hi'&Hv&Hm&Hce).
  exists r, v'. split_and!; [|done|by intros ?; apply Hce].
  unfold read_blk_fetch. msteps. rewrite Hnm. apply catch_Ok.
  mrun (on_vbc_Ok _ s _ _ Hr). by destruct r.
Qed.

Lemma vpres_dev_ok s v' : dev_ok s -> vpres (vbc s) v' ->
  dev_ok (set_vbc v' s) /\ NB (set_vbc v' s) = NB s /\
  forall j, 0 <= j -> bget (set_vbc v' s) j = bget s j.
Proof.
  intros (Hi&Hz&Hd) (Hi'&Hv&Hm). assert (NB (set_vbc v' s) = NB s) as HN by done.
  split_and!; [|done|exact Hv]. split_and!; [done| |by rewrite HN].
  intros j Hj. rewrite HN in Hj. unfold bget. cbn. rewrite Hv by lia. by apply Hz.
Qed.

(** The tag decides whether the block opens. *)
Lemma read_blk_open_Ok s b raw iv mac :
  dev_ok s -> 0 <= b < NB s -> key_ok s -> FORMATTED <= status s -> meta_slot s b iv mac ->
  exists v', vpres (vbc s) v' /\
    (mac = gcm_tag (ckey s) iv (aad_of b) raw ->
       exists k', read_blk_open b raw s = Ok (gcm_decrypt (ckey s) iv (aad_of b) raw, mac)
           (set_secContext (Some k') (set_vbc v' s)) /\
         CryptoKey.cipher_key k' = ckey s /\ CryptoKey.cipherInitialized k' = true) /\
    (mac <> gcm_tag (ckey s) iv (aad_of b) raw ->
       read_blk_open b raw s = Throw (BfsServerError "Failed decrypting block") (set_vbc v' s)).
Proof.
  intros Hd Hb (k&Hk&Hi) Hst Hsl.
  destruct (read_blk_meta_Ok s b iv mac (zeros BFS_IV_LEN) (zeros BFS_MAC_LEN) Hd Hb Hsl) as (v'&Hr&Hp).
  exists v'. split; [done|]. unfold read_blk_open. msteps. rewrite Hk.
  destruct (status s <? FORMATTED) eqn:?; [lia|]. mrun Hr.
  unfold SecAssoc.decryptData2, CryptoKey.decryptData, CryptoKey.verifyMac, ckey. rewrite Hi, Hk.
  cbn [CryptoKey.cipherInitialized CryptoKey.cur_tag]. split; intros Hmac.
  - rewrite decide_True by done. msteps. eexists. done.
  - by rewrite decide_False.
Qed.

(** One round of the tree check, in both outcomes. *)
Lemma read_blk_verify_Ok s b mac :
  tree_ok s -> key_ok s -> 0 <= b < 2 ^ mt_height (mt s) -> zlen mac = BFS_MAC_LEN ->
  (exists cp, curr_par s = Some cp /\ zlen cp = BFS_HMAC_LEN) ->
  let i := leaf s b in let p := (leaf s b - 1) / 2 in
  let s1 := with_node i (HOwn mac) s in
  let new := hmac2 s (nh s1 (2 * p + 1)) (nh s1 (2 * p + 2)) in
  (new = nh s p ->
     read_blk_verify b mac s = Ok () (with_node p (HOwn new) (set_curr_par (Some (nh s p)) s1))) /\
  (new <> nh s p ->
     read_blk_verify b mac s =
       Throw (BfsServerError "Invalid par hash comparison in read_blk")
         (with_node i (HOwn (nh s i)) (with_node p HCurrPar
            (with_node p (HOwn new) (set_curr_par (Some (nh s p)) s1))))).
Proof.
  intros Ht Hk Hb Hz (cp&Hcp&Hcz) i p s1 new.
  pose proof (leaf_range s b Ht Hb) as (Hl&Hp&Hl2&_). fold p in Hp. fold i in Hl, Hl2.
  pose proof (node_size_leaf s b Ht Hb) as Hns. fold i in Hns.
  assert (0 <= 0 < mt_num_nodes (mt s)) as Hz0 by lia.
  assert (0 <= i < mt_num_nodes (mt s)) as Hz1 by lia.
  assert (tree_ok s1) as Ht1 by (apply tree_ok_with_node; congruence).
  destruct (children_sizes s p Ht Hp) as (_&_&_&Hpn&Hps).
  assert (nh s1 p = nh s p) as Hnp by (unfold s1; rewrite nh_with_node, decide_False; [done|lia]).
  assert (0 <= p < mt_num_nodes (mt s1)) as Hp1 by (cbn; lia).
  set (s2 := set_curr_par (Some (nh s p)) s1).
  assert (read_blk_verify b mac s = (verify_loop 65 b (HOwn (nh s i)) 0 p ;; mret ()) s1) as ->.
  { unfold read_blk_verify. mrun (get_node_Ok s 0 Ht Hz0). msteps. fold (leaf s b). fold i.
    mrun (get_node_Ok s i Ht Hz1). mrun (set_node_Ok i (HOwn mac) s).
    rewrite parent_eq by lia. done. }
  assert (rehash cache_enabled p s2 = Ok true (with_node p (HOwn new) s2)) as Hr.
  { apply (rehash_Ok s2 p); [done|done|]. done. }
  assert (tree_ok (with_node p (HOwn new) s2)) as Ht2.
  { apply tree_ok_with_node; [done|done|]. unfold new. rewrite hmac2_zlen. by rewrite <-Hps. }
  cbn [verify_loop]. rewrite bind_assoc. mrun (node_read_Ok s1 p BFS_HMAC_LEN Ht1 Hp1 (eq_sym Hps)).
  rewrite Hnp. msteps. change (curr_par s1) with (curr_par s). rewrite Hcp, some_bind.
  assert (zlen (nh s p) = BFS_HMAC_LEN) as Hpz by (rewrite <-Hps; apply nh_node; [done|lia]).
  rewrite mem_set_all by congruence. msteps. fold s2. mrun Hr. cbn [negb]. msteps.
  mrun (node_read_Ok (with_node p (HOwn new) s2) p BFS_HMAC_LEN Ht2 Hp1 (eq_sym Hps)). msteps.
  change (curr_par (with_node p (HOwn new) s2)) with (Some (nh s p)). rewrite some_bind, mem_get_all by done.
  msteps. assert (nh (with_node p (HOwn new) s2) p = new) as -> by (by rewrite nh_with_node, decide_True).
  split; intros Hcmp.
  - rewrite decide_True by done. done.
  - rewrite decide_False by done. msteps. mrun (get_node_Ok (with_node p (HOwn new) s2) p Ht2 Hp1).
    cbn [free_slot]. msteps. done.
Qed.

(** The steps of [read_blk] up to the tree check. *)
Lemma read_blk_opened s b iv mac :
  dev_ok s -> key_ok s -> FORMATTED <= status s -> valid_blk s b -> meta_slot s b iv mac ->
  exists r v', vpres (vbc s) v' /\ (ce = false -> r = BFS_SUCCESS) /\
    let raw := bget s b in
    let check : M (sec C) () := if (status s =? MOUNTED) && negb (bool_decide (r = BFS_SUCCESS_CACHE_HIT))
                                then read_blk_verify b mac else mret () in
    (mac = gcm_tag (ckey s) iv (aad_of b) raw ->
       exists k', CryptoKey.cipher_key k' = ckey s /\ CryptoKey.cipherInitialized k' = true /\
         read_blk b s = (check ;; mret (gcm_decrypt (ckey s) iv (aad_of b) raw) : M (sec C) _)
                          (set_secContext (Some k') (set_vbc v' s))) /\
    (mac <> gcm_tag (ckey s) iv (aad_of b) raw ->
       read_blk b s = Throw (BfsServerError "Failed decrypting block") (set_vbc v' s)).
Proof.
  intros Hd Hk Hst Hv Hsl.
  destruct (read_blk_fetch_Ok s b Hd Hv) as (r&v1&Hf&Hp1&Hce).
  destruct (vpres_dev_ok s v1 Hd Hp1) as (Hd1&HN1&Hb1). destruct Hv as [Hb Hnm].
  destruct (read_blk_open_Ok (set_vbc v1 s) b (bget s b) iv mac Hd1) as (v2&Hp2&Hgood&Hbad).
  - by rewrite HN1.
  - done.
  - done.
  - unfold meta_slot. rewrite Hb1 by (apply meta_blk_nonneg; lia). done.
  - exists r, v2. split; [|split; [done|]].
    { destruct Hp1 as (?&Hv1&?). destruct Hp2 as (?&Hv2&?). cbn in *. split_and!; [done| |congruence].
      intros j Hj. rewrite Hv2 by done. by apply Hv1. }
    split; intros Hmac.
    + destruct (Hgood Hmac) as (k'&Ho&Hck&Hik). exists k'. split_and!; [done|done|].
      unfold read_blk. mrun Hf. mrun Ho.
      rewrite bind_assert.
      2:{ apply bool_decide_true. change (ckey (set_vbc v1 s)) with (ckey s). rewrite decrypt_zlen.
          destruct Hd as (_&Hz&_). by apply Hz. }
      msteps. cbn [status set_secContext set_vbc]. rewrite mt_on. done.
    + unfold read_blk. mrun Hf. by rewrite (bind_Throw _ _ _ _ _ (Hbad Hmac)).
Qed.

(** In a mounted file system the check depends on the block cache only. *)
Lemma read_blk_prefix s b iv mac :
  dev_ok s -> key_ok s -> status s = MOUNTED -> valid_blk s b -> meta_slot s b iv mac ->
  exists r v', vpres (vbc s) v' /\ (ce = false -> r = BFS_SUCCESS) /\
    let raw := bget s b in
    let check : M (sec C) () := if negb (bool_decide (r = BFS_SUCCESS_CACHE_HIT))
                                then read_blk_verify b mac else mret () in
    (mac = gcm_tag (ckey s) iv (aad_of b) raw ->
       exists k', CryptoKey.cipher_key k' = ckey s /\ CryptoKey.cipherInitialized k' = true /\
         read_blk b s = (check ;; mret (gcm_decrypt (ckey s) iv (aad_of b) raw) : M (sec C) _)
                          (set_secContext (Some k') (set_vbc v' s))) /\
    (mac <> gcm_tag (ckey s) iv (aad_of b) raw ->
       read_blk b s = Throw (BfsServerError "Failed decrypting block") (set_vbc v' s)).
Proof.
  intros Hd Hk Hst Hv Hsl. destruct (read_blk_opened s b iv mac Hd Hk) as (r&v'&Hp&Hce&Hr); [by rewrite Hst|done|done|].
  exists r, v'. rewrite Hst in Hr. by split_and!.
Qed.

Lemma insert_view s s' b iv mac k' v' :
  sec_ok s -> vpres (vbc s) v' -> CryptoKey.cipher_key k' = ckey s -> CryptoKey.cipherInitialized k' = true ->
  s' = set_secContext (Some k') (set_vbc v' s) -> valid_blk s b -> meta_slot s b iv mac ->
  sec_ok s' /\ view s s' /\ meta_slot s' b iv mac /\ NB s' = NB s.
Proof.
  intros (Hd&Ht&Hk&HN&Hst&Hcp) Hp Hck Hik -> [Hb _] Hsl.
  destruct (vpres_dev_ok s v' Hd Hp) as (Hd1&HN1&Hb1).
  split_and!; [| | |exact HN1].
  - split_and!; [exact Hd1|exact Ht|by exists k'|exact (eq_trans HN1 HN)|exact Hst|exact Hcp].
  - by split_and!.
  - unfold meta_slot in *. change (bget (set_secContext (Some k') (set_vbc v' s))) with (bget (set_vbc v' s)).
    by rewrite Hb1 by (apply meta_blk_nonneg; lia).
Qed.

(** Reading a stored block returns it and changes nothing that is stored. *)
Lemma read_blk_spec s b d :
  sec_ok s -> stored s b d ->
  exists s', read_blk b s = Ok d s' /\ sec_ok s' /\ NB s' = NB s /\
    forall b' d', stored s b' d' -> stored s' b' d'.
Proof.
  intros Hs Hstored. pose proof Hstored as [Hv (iv&mac&Hsl&Ht&->&Hl&Hg)].
  pose proof Hs as (Hd0&_&Hk0&_&Hst0&_).
  destruct (read_blk_prefix s b iv mac Hd0 Hk0 Hst0 Hv Hsl) as (r&v'&Hp&_&Hgood&_).
  destruct (Hgood Ht) as (k'&Hck&Hik&->).
  set (s1 := set_secContext (Some k') (set_vbc v' s)).
  destruct (insert_view s s1 b iv mac k' v' Hs Hp Hck Hik eq_refl Hv Hsl) as (Hs1&Hview&Hsl1&HN1).
  destruct (negb (bool_decide (r = BFS_SUCCESS_CACHE_HIT))).
  2:{ exists s1. split_and!; try done. intros. by eapply stored_view. }
  pose proof Hs1 as (Hd1&Ht1&Hk1&HN&Hst1&Hcp1).
  assert (0 <= b < 2 ^ mt_height (mt s1)) as Hb1 by (rewrite <-HN, HN1; by destruct Hv).
  pose proof (leaf_range s1 b Ht1 Hb1) as (Hlr&Hpr&_&_).
  assert (leaf s1 b = leaf s b) as Hleaf by done.
  assert (zlen mac = BFS_MAC_LEN) as Hzm by (rewrite Ht; apply tag_zlen).
  destruct (read_blk_verify_Ok s1 b mac Ht1 Hk1 Hb1 Hzm Hcp1) as [Hok _].
  assert (forall j, nh (with_node (leaf s1 b) (HOwn mac) s1) j = nh s j) as Hsame.
  { intros j. rewrite nh_with_node. case_decide; [|done]. subst j. by rewrite Hleaf, Hl. }
  rewrite !Hsame in Hok. change (nh s1) with (nh s) in Hok. rewrite Hleaf in Hok.
  assert (hmac2 s1 (nh s (2 * ((leaf s b - 1) / 2) + 1)) (nh s (2 * ((leaf s b - 1) / 2) + 2))
    = nh s ((leaf s b - 1) / 2)) as Hh.
  { unfold node_good in Hg. rewrite Hg at 1. unfold hmac2, ckey at 1. cbn. by rewrite Hck. }
  specialize (Hok Hh). rewrite Hh in Hok. mrun Hok.
  eexists. split; [reflexivity|].
  set (s2 := with_node _ _ (set_curr_par _ (with_node _ _ s1))).
  assert (view s s2) as Hv2.
  { destruct Hview as (?&?&Hn&?&?). split_and!; try done. intros j. unfold s2.
    rewrite nh_with_node. case_decide; [by subst|].
    change (nh (set_curr_par (Some (nh s ((leaf s b - 1) / 2))) (with_node (leaf s b) (HOwn mac) s1)) j)
      with (nh (with_node (leaf s b) (HOwn mac) s1) j). by rewrite <-Hleaf, Hsame. }
  split_and!; [|done|intros; by eapply stored_view].
  assert (tree_ok s2) as Ht2.
  { unfold s2. apply tree_ok_with_node.
    - assert (tree_ok (with_node (leaf s b) (HOwn mac) s1)) as Hx; [|exact Hx].
      apply tree_ok_with_node; [done|rewrite <-Hleaf; lia|rewrite <-Hleaf, node_size_leaf by done; done].
    - cbn. rewrite <-Hleaf. cbn in *. lia.
    - rewrite <-Hh, hmac2_zlen. destruct (children_sizes s1 _ Ht1 Hpr) as (_&_&_&_&Hsz).
      rewrite Hleaf in Hsz. by rewrite <-Hsz. }
  split_and!; try done. eexists. split; [done|]. rewrite <-Hh. apply hmac2_zlen.
Qed.

(** Between formatting and mounting the tree is not consulted. *)
Lemma read_blk_formatted s b d :
  sec_core s -> status s = FORMATTED -> stored s b d ->
  exists s', read_blk b s = Ok d s' /\ sec_core s' /\ status s' = FORMATTED /\ view s s' /\
    mt s' = mt s /\ curr_par s' = curr_par s.
Proof.
  intros (Hd&Ht&Hk&HN) Hst [Hv (iv&mac&Hsl&Htag&->&_)].
  destruct (read_blk_opened s b iv mac Hd Hk) as (r&v'&Hp&_&Hgood&_); [by rewrite Hst|done|done|].
  destruct (Hgood Htag) as (k'&Hck&Hik&Hr). rewrite Hst in Hr. exists (set_secContext (Some k') (set_vbc v' s)).
  destruct (vpres_dev_ok s v' Hd Hp) as (Hd1&HN1&Hb1).
  split; [exact Hr|]. split; [split_and!; [exact Hd1|exact Ht|by exists k'|exact (eq_trans HN1 HN)]|].
  split; [exact Hst|]. split; [|done]. by split_and!.
Qed.

End secblock.
