(* ===== verification/SecStore.v ===== *)
(** * What [read_blk] and [write_blk] promise

    The block primitives implement the interface [BlockStore] of the file
    system; a block changed behind the file system's back is detected; and a
    detection, once reported, disables itself: after the failed check the tree
    node shares the scratch buffer, and the second read of the same replayed
    block succeeds. *)
From S2P Require Import Prelude Layout FlexBuffer SecAssoc BlockLayer FsLayer BlockStore SecBlock.

Section secstore.
Context `{Cipher} {claws : CipherLaws} {C : Type} `{BlkCacheLaws C}.
Context (ce : bool) (rnd : nat -> bytes) (rnd_zlen : forall n, zlen (rnd n) = BFS_IV_LEN).
Implicit Types s : sec C.

Lemma valid_blk_iff s b : valid_blk s b <-> bs_valid (NB s) b.
Proof. unfold valid_blk, bs_valid, is_meta_blk. rewrite andb_false_iff, Z.leb_gt, Z.ltb_ge. lia. Qed.

Definition sec_store : BlockStore (sec C) :=
  {| bs_read := read_blk ce true; bs_write := write_blk ce true rnd; bs_size := NB |}.

#[refine] Definition sec_store_laws : @BlockStoreLaws (sec C) sec_store :=
  {| bs_ok := sec_ok ce; bs_has := stored ce |}.
Proof.
  - intros s b d (Hd&_) [Hv (iv&mac&_&_&->&_)]. split; [by apply valid_blk_iff|].
    rewrite decrypt_zlen. destruct Hd as (_&Hz&_). apply Hz, Hv.
  - intros s b d Hs Hd. exact (read_blk_spec ce true eq_refl s b d Hs Hd).
  - intros s b d f Hs Hv Hz. apply valid_blk_iff in Hv.
    exact (write_blk_spec ce true rnd rnd_zlen eq_refl s b d f Hs Hv Hz).
Defined.

#[local] Existing Instance sec_store.
#[local] Existing Instance sec_store_laws.

(** C1. Any sequence of reads and writes of blocks through [read_blk] and
    [write_blk] returns what a finite map of blocks returns: a write replaces
    one block, a read returns the last value written, nothing else changes,
    whatever the synchronisation flags and with or without the block cache. *)
Theorem secblock_refines_map os s m :
  sec_ok ce s -> map_Forall (stored ce s) m -> ops_ok (NB s) os m ->
  exists s', bs_exec_all os s = Ok (map_exec os m).1 s' /\
    sec_ok ce s' /\ map_Forall (stored ce s') (map_exec os m).2.
Proof. intros Hs Hm Hok. exact (bs_exec_all_spec os s m (conj Hs Hm) Hok). Qed.

(** ** Blocks changed behind the file system's back *)

(** The device contents are arbitrary, the memory is not. *)
Definition tampered s0 s : Prop :=
  mt s = mt s0 /\ secContext s = secContext s0 /\ curr_par s = curr_par s0 /\
  status s = status s0 /\ NB s = NB s0 /\ dev_ok ce s.

(** Replacing one leaf tag by another changes the parent hash. *)
Definition no_collision s (m m' : bytes) : Prop :=
  forall x, zlen x = BFS_MAC_LEN ->
    hmac2 s m x = hmac2 s m' x \/ hmac2 s x m = hmac2 s x m' -> m = m'.

Lemma tampered_ok s0 s : sec_ok ce s0 -> tampered s0 s -> sec_ok ce s.
Proof.
  intros (Hd&Ht&Hk&HN&Hst&Hcp) (Hmt&Hsc&Hc&Hs&Hn&Hd').
  unfold sec_ok, tree_ok, key_ok in *. rewrite Hmt, Hsc, Hc, Hs, Hn. done.
Qed.

(** The tree check on a sound tree: it accepts only the tag of the leaf. *)
Lemma read_blk_verify_leaf s b mac :
  tree_ok s -> key_ok s -> 0 <= b < 2 ^ mt_height (mt s) -> zlen mac = BFS_MAC_LEN ->
  (exists cp, curr_par s = Some cp /\ zlen cp = BFS_HMAC_LEN) ->
  node_good s ((leaf s b - 1) / 2) -> no_collision s mac (nh s (leaf s b)) ->
  let i := leaf s b in let p := (leaf s b - 1) / 2 in
  let s1 := with_node i (HOwn mac) s in
  let new := hmac2 s (nh s1 (2 * p + 1)) (nh s1 (2 * p + 2)) in
  new = nh s p -> mac = nh s i.
Proof.
  intros Ht Hk Hb Hz Hcp Hg Hnc i p s1 new. unfold new, s1. clear new s1. rewrite !nh_with_node.
  pose proof (leaf_range s b Ht Hb) as (Hl&Hp&_&Hside). fold p i in Hl, Hp, Hside, Hg, Hnc.
  destruct (children_sizes s p Ht Hp) as (Hs1&Hs2&Hr1&Hr2&_).
  pose proof (node_size_leaf s b Ht Hb) as Hsz. fold i in Hsz.
  pose proof (nh_node s (2 * p + 1) Ht Hr1) as [_ Hz1]. pose proof (nh_node s (2 * p + 2) Ht Hr2) as [_ Hz2].
  unfold node_good in Hg. rewrite Hg. intros Hnew.
  destruct Hside as [Hi|Hi].
  - rewrite decide_True, decide_False in Hnew by lia. rewrite <-Hi in Hnew.
    eapply Hnc; [|by left; exact Hnew]. congruence.
  - rewrite decide_False, decide_True in Hnew by lia. rewrite <-Hi in Hnew.
    eapply Hnc; [|by right; exact Hnew]. congruence.
Qed.

(** C7. Integrity and freshness of reads.  Whatever the devices hold, for a block
    that was written through [write_blk] a read without cache either returns
    the data last written or reports an error, provided that the attacker has
    neither a tag forgery for this block nor a hash collision at its leaf. *)
Theorem read_blk_authentic s0 s b d iv mac :
  ce = false -> sec_ok ce s0 -> stored ce s0 b d -> tampered s0 s -> meta_slot ce s b iv mac ->
  no_collision s0 mac (nh s0 (leaf s0 b)) ->
  (forall iv0, gcm_tag (ckey s0) iv (aad_of b) (bget ce s b) = gcm_tag (ckey s0) iv0 (aad_of b) (bget ce s0 b) ->
     iv = iv0 /\ bget ce s b = bget ce s0 b) ->
  match read_blk ce true b s with
  | Ok d' _ => d' = d /\ mac = nh s0 (leaf s0 b)
  | Throw (BfsServerError _) _ => True
  | _ => False
  end.
Proof.
  intros Hce Hs0 [Hv0 (iv0&mac0&Hsl0&Htag0&Hd0&Hl0&Hg0)] Htam Hsl Hnc Hforge.
  pose proof (tampered_ok s0 s Hs0 Htam) as Hs. pose proof Hs as (Hd&Ht&Hk&HN&Hst&Hcp).
  destruct Htam as (Hmt&Hsc&_&_&Hn&_).
  assert (ckey s = ckey s0) as Hck by (unfold ckey; by rewrite Hsc).
  assert (valid_blk s b) as Hv by (apply valid_blk_iff; rewrite Hn; by apply valid_blk_iff).
  destruct (read_blk_prefix ce true eq_refl s b iv mac Hd Hk Hst Hv Hsl) as (r&v'&Hp&Hr&Hgood&Hbad).
  destruct (decide (mac = gcm_tag (ckey s) iv (aad_of b) (bget ce s b))) as [Htag|Htag].
  2:{ by rewrite Hbad. }
  destruct (Hgood Htag) as (k'&Hck'&Hik&->). rewrite (Hr Hce). cbn [negb bool_decide].
  set (s1 := set_secContext (Some k') (set_vbc v' s)).
  destruct (insert_view ce s s1 b iv mac k' v' Hs Hp Hck' Hik eq_refl Hv Hsl) as (Hs1&_&_&HN1).
  destruct Hs1 as (_&Ht1&Hk1&HN'&_&Hcp1).
  assert (0 <= b < 2 ^ mt_height (mt s1)) as Hb by (rewrite <-HN', HN1; by destruct Hv).
  assert (zlen mac = BFS_MAC_LEN) as Hz by (rewrite Htag; apply tag_zlen).
  assert (forall i, nh s1 i = nh s0 i) as Hnh by (intros; unfold nh; cbn; by rewrite Hmt).
  assert (forall l r, hmac2 s1 l r = hmac2 s0 l r) as Hh.
  { intros. unfold hmac2. f_equal. unfold ckey at 1. cbn. congruence. }
  assert (leaf s1 b = leaf s0 b) as Hlf by (unfold leaf; cbn; by rewrite Hmt).
  destruct (read_blk_verify_Ok ce s1 b mac Ht1 Hk1 Hb Hz Hcp1) as [Hok Hko].
  pose proof (read_blk_verify_leaf s1 b mac Ht1 Hk1 Hb Hz Hcp1) as Hleaf.
  cbv zeta in Hok, Hko, Hleaf.
  match type of Hok with ?n = ?o -> _ => destruct (decide (n = o)) as [Heq|Heq] end.
  2:{ rewrite bool_decide_eq_false_2 by done. cbn [negb]. by rewrite (bind_Throw _ _ _ _ _ (Hko Heq)). }
  rewrite bool_decide_eq_false_2 by done. cbn [negb]. mrun (Hok Heq).
  assert (mac = nh s0 (leaf s0 b)) as Hm.
  { rewrite <-Hlf, <-Hnh. apply Hleaf; [| |done].
    - unfold node_good. rewrite Hh, !Hnh, Hlf. exact Hg0.
    - intros x Hx. rewrite Hlf, Hnh, !Hh. by apply Hnc. }
  split; [|done].
  destruct (Hforge iv0) as [-> ->]; [congruence|]. by rewrite Hck, <-Hd0.
Qed.

(** ** The second read of a replayed block *)

Lemma node_read_slot s i n h d :
  0 <= i < mt_num_nodes (mt s) -> mt_nodes (mt s) !! i = Some h ->
  match h with HNull => None | HOwn x => Some x | HCurrPar => curr_par s end = Some d ->
  zlen d = n -> node_read i n s = Ok d s.
Proof.
  intros Hi Hh Hd Hz. unfold node_read, get_node.
  rewrite (bind_Ok _ _ _ h s) by (rewrite decide_True, Hh by done; done).
  rewrite (bind_Ok _ _ _ d s); [|by destruct h; simplify_eq; cbn; rewrite ?Hd].
  by rewrite mem_get_all.
Qed.

(** The tree check when the parent's slot is the scratch buffer itself: the
    comparison is between the buffer and itself. *)
Lemma read_blk_verify_shared s b mac cp h0 ih l r :
  let i := leaf s b in let p := (leaf s b - 1) / 2 in
  let nodes := <[i := HOwn mac]> (mt_nodes (mt s)) in
  key_ok s -> mt_height (mt s) <= 30 -> 0 <= p < leaf_start (mt s) -> leaf_start (mt s) <= i < 2 ^ 31 ->
  0 < i < mt_num_nodes (mt s) -> Z.shiftl 1 (mt_height (mt s) - 1) - 1 <= p ->
  0 <= 2 * p + 2 < mt_num_nodes (mt s) ->
  mt_nodes (mt s) !! 0 = Some h0 -> h0 <> HNull -> mt_nodes (mt s) !! i = Some (HOwn ih) ->
  mt_nodes (mt s) !! p = Some HCurrPar -> curr_par s = Some cp -> zlen cp = BFS_HMAC_LEN ->
  nodes !! (2 * p + 1) = Some (HOwn l) -> nodes !! (2 * p + 2) = Some (HOwn r) ->
  zlen l = BFS_MAC_LEN -> zlen r = BFS_MAC_LEN ->
  read_blk_verify ce b mac s =
    Ok () (set_curr_par (Some (hmac2 s l r)) (set_curr_par (Some cp) (with_node i (HOwn mac) s))).
Proof.
  intros i p nodes (k&Hk&_) Hh Hp Hil Hi Hph Hr2 H00 H0n Hii Hpp Hcp Hzc Hl Hr Hzl Hzr.
  set (s1 := with_node i (HOwn mac) s). set (s2 := set_curr_par (Some cp) s1).
  assert (nodes !! p = Some HCurrPar) as Hpp1 by (unfold nodes; rewrite lookup_insert_ne by lia; done).
  assert (0 <= p < mt_num_nodes (mt s1)) as Hpn by (cbn; lia).
  assert (rehash ce p s2 = Ok true (set_curr_par (Some (hmac2 s l r)) s2)) as Hre.
  { unfold rehash, hash_node. rewrite bind_assoc. msteps.
    change (mt s2) with (mt s1). change (leaf_start (mt s1)) with (leaf_start (mt s)).
    change (mt_height (mt s1)) with (mt_height (mt s)).
    destruct (Z.leb_spec (leaf_start (mt s)) p); [lia|].
    destruct (Z.leb_spec (Z.shiftl 1 (mt_height (mt s) - 1) - 1) p); [|lia]. rewrite bind_assoc.
    mrun (node_read_slot s2 (2 * p + 1) BFS_MAC_LEN (HOwn l) l ltac:(cbn; lia) Hl eq_refl Hzl). rewrite bind_assoc.
    mrun (node_read_slot s2 (2 * p + 2) BFS_MAC_LEN (HOwn r) r ltac:(cbn; lia) Hr eq_refl Hzr). rewrite bind_assoc.
    mrun (getKey_Ok s2 k Hk). unfold CryptoKey.hmacData.
    rewrite !mem_get_all by done. rewrite !some_bind. msteps.
    assert (hmac_sha256 (CryptoKey.cipher_key k) (l ++ r) = hmac2 s l r) as ->
      by (unfold hmac2, ckey; by rewrite Hk).
    rewrite (bind_Ok _ _ _ () (set_curr_par (Some (hmac2 s l r)) s2)); [done|].
    unfold node_write. rewrite (bind_Ok _ _ _ HCurrPar s2).
    2:{ unfold get_node. rewrite decide_True by done.
        change (mt_nodes (mt s2)) with nodes. by rewrite Hpp1. }
    rewrite (bind_Ok _ _ _ cp s2) by done.
    rewrite mem_set_all by (rewrite hmac2_zlen; done). done. }
  assert (verify_loop ce 65 b (HOwn ih) 0 p s1 = Ok () (set_curr_par (Some (hmac2 s l r)) s2)) as Hloop.
  { cbn [verify_loop]. mrun (node_read_slot s1 p BFS_HMAC_LEN HCurrPar cp Hpn Hpp1 Hcp Hzc). msteps.
    change (curr_par s1) with (curr_par s). rewrite Hcp, some_bind, mem_set_all by done. msteps. fold s2.
    mrun Hre. cbn [negb].
    mrun (node_read_slot (set_curr_par (Some (hmac2 s l r)) s2) p BFS_HMAC_LEN HCurrPar (hmac2 s l r)
            Hpn Hpp1 eq_refl (hmac2_zlen s l r)). msteps. cbn [curr_par set_curr_par].
    rewrite some_bind, mem_get_all by apply hmac2_zlen. msteps. by rewrite decide_True. }
  unfold read_blk_verify. rewrite (bind_Ok _ _ _ h0 s); [|unfold get_node; rewrite decide_True, H00 by lia; done].
  assert (get_node i s = Ok (HOwn ih) s) as Hgi by (unfold get_node; rewrite decide_True, Hii by lia; done).
  destruct h0; [done|..]; cbn beta iota; msteps; fold (leaf s b); fold i; mrun Hgi; cbn beta iota;
    mrun (set_node_Ok i (HOwn mac) s); fold s1; rewrite parent_eq by lia; fold p; mrun Hloop; done.
Qed.

(** The hypotheses of [read_blk_verify_shared] in the state a failed check
    leaves behind. *)
Lemma failed_check_shared s b mac new cp :
  tree_ok s -> key_ok s -> 0 <= b < 2 ^ mt_height (mt s) -> zlen mac = BFS_MAC_LEN -> zlen cp = BFS_HMAC_LEN ->
  let i := leaf s b in let p := (leaf s b - 1) / 2 in
  let s1 := with_node i (HOwn (nh s i)) (with_node p HCurrPar
              (with_node p (HOwn new) (set_curr_par (Some cp) (with_node i (HOwn mac) s)))) in
  forall s2, mt s2 = mt s1 -> curr_par s2 = Some cp -> key_ok s2 ->
  exists s3, read_blk_verify ce b mac s2 = Ok () s3.
Proof.
  intros Ht Hk Hb Hz Hzc i p s1 s2 Hmt Hcp Hk2.
  pose proof (leaf_range s b Ht Hb) as (Hl&Hp&Hl31&Hside). fold p i in Hl, Hp, Hl31, Hside.
  destruct (children_sizes s p Ht Hp) as (Hs1&Hs2&Hr1&Hr2&_).
  pose proof (node_size_leaf s b Ht Hb) as Hsz. fold i in Hsz.
  destruct (tree_sizes s Ht) as (w&?&?&Hw1&Hnn&Hls). pose proof Ht as ([? Hh30]&_&_).
  assert (Z.shiftl 1 (mt_height (mt s) - 1) - 1 <= p) as Hwp.
  { rewrite shiftl1, Hw1 by lia. lia. }
  assert (forall j, 0 <= j < mt_num_nodes (mt s) -> zlen (nh s j) = node_size (mt s) j) as Hzn
    by (intros; by apply nh_node).
  assert (forall j, 0 <= j < mt_num_nodes (mt s) -> j <> p -> j <> i ->
            <[i := HOwn mac]> (mt_nodes (mt s1)) !! j = Some (HOwn (nh s j))) as Hother.
  { intros j Hj Hjp Hji. unfold s1. cbn. rewrite !lookup_insert_ne by done.
    by apply nh_node. }
  assert (<[i := HOwn mac]> (mt_nodes (mt s1)) !! i = Some (HOwn mac)) as Hself by apply lookup_insert_eq.
  assert (mt_nodes (mt s1) !! 0 = Some (if decide (0 = p) then HCurrPar else HOwn (nh s 0))) as H0s.
  { unfold s1. cbn. rewrite lookup_insert_ne by lia. case_decide as Hd0.
    - rewrite Hd0. by rewrite lookup_insert_eq.
    - rewrite !lookup_insert_ne by lia. apply nh_node; [done|lia]. }
  assert (leaf s2 b = i) as Hlf by (unfold leaf; rewrite Hmt; done).
  assert (mt_nodes (mt s1) !! p = Some HCurrPar) as Hpp.
  { unfold s1. cbn. rewrite lookup_insert_ne by lia. by rewrite lookup_insert_eq. }
  assert (exists l r, <[i := HOwn mac]> (mt_nodes (mt s1)) !! (2 * p + 1) = Some (HOwn l) /\
     <[i := HOwn mac]> (mt_nodes (mt s1)) !! (2 * p + 2) = Some (HOwn r) /\
     zlen l = BFS_MAC_LEN /\ zlen r = BFS_MAC_LEN) as (l&r&Hlr1&Hlr2&Hzl&Hzr).
  { destruct Hside as [Hi|Hi].
    - exists mac, (nh s (2 * p + 2)). rewrite <-Hi. split_and!; [done|apply Hother; lia|done|].
      rewrite Hzn by done. congruence.
    - exists (nh s (2 * p + 1)), mac. rewrite <-Hi. split_and!; [apply Hother; lia|done| |done].
      rewrite Hzn by done. congruence. }
  eexists. eapply (read_blk_verify_shared s2 b mac cp _ (nh s i) l r);
    rewrite ?Hlf, ?Hmt; try done; cbn [mt_height mt_num_nodes]; try (change (leaf_start (mt s1)) with (leaf_start (mt s))); cbn; try lia.
  - by case_decide.
  - unfold s1. cbn. by rewrite lookup_insert_eq.
Qed.

(** C34. A replayed block that the tree check rejects is accepted by the next
    read: the failed check leaves the parent's slot pointing at the scratch
    buffer [curr_par], so that the next check compares the buffer with itself
    and the stale plaintext is returned. *)
Theorem replay_accepted_on_retry s b iv mac :
  ce = false -> sec_ok ce s -> valid_blk s b -> node_good s ((leaf s b - 1) / 2) ->
  meta_slot ce s b iv mac -> mac = gcm_tag (ckey s) iv (aad_of b) (bget ce s b) ->
  mac <> nh s (leaf s b) -> no_collision s mac (nh s (leaf s b)) ->
  exists s1 s2,
    read_blk ce true b s = Throw (BfsServerError "Invalid par hash comparison in read_blk") s1 /\
    read_blk ce true b s1 = Ok (gcm_decrypt (ckey s) iv (aad_of b) (bget ce s b)) s2.
Proof.
  intros Hce Hs Hv Hg Hsl Htag Hne Hnc. pose proof Hs as (Hd&Ht&Hk&HN&Hst&Hcp).
  destruct (read_blk_prefix ce true eq_refl s b iv mac Hd Hk Hst Hv Hsl) as (r&v'&Hp&Hr&Hgood&_).
  destruct (Hgood Htag) as (k'&Hck'&Hik&->). rewrite (Hr Hce). cbn [negb bool_decide].
  set (s1 := set_secContext (Some k') (set_vbc v' s)).
  destruct (insert_view ce s s1 b iv mac k' v' Hs Hp Hck' Hik eq_refl Hv Hsl) as (Hs1&Hview&Hsl1&HN1).
  pose proof Hs1 as (Hd1&Ht1&Hk1&HN'&Hst1&Hcp1). destruct Hview as (Hbv&_).
  assert (0 <= b < 2 ^ mt_height (mt s1)) as Hb by (rewrite <-HN', HN1; by destruct Hv).
  assert (zlen mac = BFS_MAC_LEN) as Hz by (rewrite Htag; apply tag_zlen).
  assert (ckey s1 = ckey s) as Hck1 by (unfold ckey at 1; cbn; done).
  assert (forall l r, hmac2 s1 l r = hmac2 s l r) as Hh by (intros; unfold hmac2; by rewrite Hck1).
  destruct (read_blk_verify_Ok ce s1 b mac Ht1 Hk1 Hb Hz Hcp1) as [_ Hko].
  pose proof (read_blk_verify_leaf s1 b mac Ht1 Hk1 Hb Hz Hcp1) as Hleaf. cbv zeta in Hko, Hleaf.
  set (p := (leaf s1 b - 1) / 2) in *. set (new := hmac2 s1 _ _) in *.
  assert (new <> nh s1 p) as Hmis.
  { intros Heq. apply Hne, Hleaf; [| |done].
    - unfold node_good. rewrite Hh. exact Hg.
    - intros x Hx. rewrite !Hh. by apply Hnc. }
  specialize (Hko Hmis). rewrite bool_decide_eq_false_2 by done. cbn [negb].
  rewrite (bind_Throw _ _ _ _ _ Hko). eexists. match goal with |- context [Throw _ ?x = _] => set (s2 := x) end.
  assert (dev_ok ce s2) as Hd2 by exact Hd1. assert (key_ok s2) as Hk2 by exact Hk1.
  assert (valid_blk s2 b) as Hv2 by (apply valid_blk_iff; apply valid_blk_iff in Hv; by rewrite <-HN1 in Hv).
  assert (zlen (nh s1 p) = BFS_HMAC_LEN) as Hzp.
  { pose proof (leaf_range s1 b Ht1 Hb) as (_&Hpr&_). fold p in Hpr.
    destruct (children_sizes s1 p Ht1 Hpr) as (_&_&_&?&<-). apply nh_node; [done|lia]. }
  assert (bget ce s2 b = bget ce s b) as Hbb by (apply Hbv; destruct Hv; lia).
  destruct (read_blk_prefix ce true eq_refl s2 b iv mac Hd2 Hk2 Hst1 Hv2 Hsl1) as (r2&v2&_&Hr2&Hgood2&_).
  change (ckey s2) with (ckey s1) in Hgood2. rewrite Hbb, Hck1 in Hgood2.
  destruct (Hgood2 Htag) as (k2&_&Hik2&->). rewrite (Hr2 Hce). rewrite bool_decide_eq_false_2 by done. cbn [negb].
  set (s3 := set_secContext (Some k2) (set_vbc v2 s2)).
  destruct (failed_check_shared s1 b mac new (nh s1 p) Ht1 Hk1 Hb Hz Hzp s3) as (s4&Hv4); [done|done|by exists k2|].
  exists s4. split; [done|]. by mrun Hv4.
Qed.

(** ** Rebuilding the tree from the devices *)

(** The leaf case of [hash_node] dereferences its NULL [iv] argument. *)
Lemma hash_node_leaf_crash s i :
  leaf_start (mt s) <= i -> hash_node ce i s = Crash Undefined_behaviour.
Proof.
  intros Hi. unfold hash_node. msteps. destruct (Z.leb_spec (leaf_start (mt s)) i); [done|lia].
Qed.

(** Mounting from a process that did not format the file system: the tree is
    not in memory, [init_merkle_tree] starts with the last leaf, and the NULL
    [iv] pointer that [hash_node] passes to [read_blk_meta] is dereferenced. *)
Theorem init_merkle_tree_fresh_crashes s :
  mt_status (mt s) = 0 -> is_Some (secContext s) -> 1 <= NB s ->
  init_merkle_tree ce false s = Crash Undefined_behaviour.
Proof.
  intros Hst [k Hk] HN. unfold init_merkle_tree, mt_setup. rewrite bind_assoc. msteps.
  rewrite Hst. cbn [Z.eqb]. msteps. set (h := Z.log2 (NB s)).
  assert (0 <= h) as Hh by apply Z.log2_nonneg.
  set (m := mkMT (NB s) h (Z.shiftl 1 (h + 1) - 1) ∅ 1). set (s1 := set_mt m s).
  assert (0 < 2 ^ h) as Hpos by lia.
  assert (mt_num_nodes m = 2 * 2 ^ h - 1) as Hn.
  { cbn. rewrite Z.shiftl_1_l, Z.pow_add_r by lia. lia. }
  assert (leaf_start m = 2 ^ h - 1) as Hl by (unfold leaf_start; cbn; by rewrite Z.shiftl_1_l).
  destruct (Z.to_nat (mt_num_nodes m)) as [|n] eqn:Hnat; [lia|].
  change (mt s1) with m. rewrite Hnat. cbn [fill_nodes negb]. msteps. change (mt s1) with m.
  assert (Z.of_nat n = mt_num_nodes m - 1) as Hi by lia.
  assert (get_node (Z.of_nat n) s1 = Ok HNull s1) as Hg by (unfold get_node; change (mt s1) with m; by rewrite decide_True by lia).
  mrun Hg. cbn beta iota. do 2 apply bind_Crash. mrun (getKey_Ok s1 k Hk).
  mrun (set_node_Ok (Z.of_nat n) (HOwn (zeros (node_size m (Z.of_nat n)))) s1).
  apply bind_Crash, hash_node_leaf_crash.
  match goal with |- leaf_start ?x <= _ => change (leaf_start x) with (leaf_start m) end. lia.
Qed.

End secstore.
