(* ===== verification/Instances.v ===== *)
(** * Concrete instances

    A toy cipher that satisfies [CipherLaws], a cluster of one local device and
    a mounted file system on it, sample on-device structures: the inputs at
    which the theorems about the layers below the file system are applied. *)
From Stdlib Require Import Init.Byte.
From S2P Require Import Prelude Cache Layout CoreTypes FlexBuffer SecAssoc BlockLayer BlockCache FsLayer BlockStore SecBlock SecStore.

(** ** A cipher *)
Module Toy.
Definition fit (n : Z) (b : bytes) : bytes := take (Z.to_nat n) (b ++ zeros n).

Lemma fit_zlen n b : 0 <= n -> zlen (fit n b) = n.
Proof. intros. unfold fit, zlen, zeros. rewrite length_take, length_app, length_replicate. lia. Qed.

Lemma fit_id n b : zlen b = n -> fit n b = b.
Proof. intros <-. unfold fit, zlen. rewrite Nat2Z.id. apply take_app_length. Qed.

Definition flips (b : bytes) : bytes := MemStore.flip <$> b.

Lemma flips_flips b : flips (flips b) = b.
Proof.
  unfold flips. rewrite <-list_fmap_compose. rewrite <-(list_fmap_id b) at 2.
  apply list_fmap_ext. intros _ x _. apply MemStore.flip_flip.
Qed.

#[export] Instance cipher : Cipher := {|
  gcm_encrypt _ _ _ p := flips p;
  gcm_decrypt _ _ _ c := flips c;
  gcm_tag _ _ _ c := fit 16 c;
  hmac_sha256 _ m := fit 32 m
|}.

#[export] Instance laws : CipherLaws.
Proof.
  split; intros; cbn.
  - apply flips_flips.
  - unfold flips, zlen. by rewrite length_fmap.
  - unfold flips, zlen. by rewrite length_fmap.
  - by apply fit_zlen.
  - by apply fit_zlen.
Qed.
End Toy.

(** ** A mounted file system on a device of 2^13 blocks *)
#[export] Existing Instances BoundedCache.cache BoundedCache.laws Toy.cipher Toy.laws.

Module Mounted.
Definition nb : Z := 8192.
Definition dev : LocalDevice.t := LocalDevice.bfsDeviceInitialize (LocalDevice.mk 1 nb None).
Definition cluster : VBC.t BoundedCache.t := VBC.mk VBC.BFSBLK_READY nb [dev] [] ∅.
Definition node0 (i : Z) : hslot := HOwn (zeros (if 8191 <=? i then BFS_MAC_LEN else BFS_HMAC_LEN)).
Definition nodes0 : gmap Z hslot := list_to_map ((fun i => (i, node0 i)) <$> seqZ 0 16383).
Definition fs0 : sec BoundedCache.t :=
  mkSec cluster (Some (CryptoKey.setKeyData (zeros 16))) (mkMT nb 13 16383 nodes0 1)
    (Some (zeros BFS_HMAC_LEN)) MOUNTED 0.

Lemma nodes0_lookup i : 0 <= i < 16383 -> nodes0 !! i = Some (node0 i).
Proof.
  intros Hi. apply elem_of_list_to_map_1.
  - rewrite <-list_fmap_compose. change (NoDup (id <$> seqZ 0 16383)). rewrite list_fmap_id. apply NoDup_seqZ.
  - apply list_elem_of_fmap. exists i. split; [done|]. apply elem_of_seqZ. lia.
Qed.

Lemma zeros_zlen n : 0 <= n -> zlen (zeros n) = n.
Proof. intros. unfold zlen, zeros. rewrite length_replicate. lia. Qed.

Lemma cluster_inv : VBC.inv false cluster.
Proof.
  split; [|done]. split_and!; [|done|done].
  apply Forall_singleton. split; cbn; [done|]. split; [done|]. by eexists.
Qed.

Lemma cluster_zero j : 0 <= j < nb -> VBC.vget false cluster j = zero_blk.
Proof.
  intros Hj. unfold VBC.vget, VBC.cached. rewrite lookup_empty.
  destruct (VBC.phys cluster j) as [[ix p]|] eqn:Hp; [|done].
  unfold VBC.phys in Hp. cbn [VBC.phy_walk VBC.devices cluster] in Hp.
  change (LocalDevice.numBlocks dev) with nb in Hp.
  destruct (j <? u64 (0 + nb)); [|done]. simplify_eq. done.
Qed.

Lemma fs0_ok : sec_ok false fs0.
Proof.
  split_and!.
  - split_and!; [exact cluster_inv| |vm_compute; done].
    intros j Hj. change (NB fs0) with nb in Hj. unfold bget. change (vbc fs0) with cluster.
    rewrite cluster_zero by done. by apply zeros_zlen.
  - split_and!; [done..|]. intros i Hi. change (mt_num_nodes (mt fs0)) with 16383 in Hi.
    exists (zeros (if 8191 <=? i then BFS_MAC_LEN else BFS_HMAC_LEN)). split.
    + change (mt_nodes (mt fs0)) with nodes0. by apply nodes0_lookup.
    + unfold node_size. change (leaf_start (mt fs0)) with 8191. destruct (8191 <=? i); by apply zeros_zlen.
  - by eexists.
  - done.
  - done.
  - eexists. split; [done|]. by apply zeros_zlen.
Qed.

Definition rnd (n : nat) : bytes := zeros BFS_IV_LEN.

Lemma rnd_zlen n : zlen (rnd n) = BFS_IV_LEN.
Proof. by apply zeros_zlen. Qed.

Definition blk_of (x : Init.Byte.byte) : bytes := replicate (Z.to_nat BLK_SZ) x.

Lemma blk_of_zlen x : zlen (blk_of x) = BLK_SZ.
Proof. unfold zlen, blk_of. by rewrite length_replicate. Qed.

Lemma valid0 s : NB s = nb -> valid_blk (C := BoundedCache.t) s 0.
Proof. intros Hn. apply valid_blk_iff. rewrite Hn. split; [done|]. vm_compute. by intros []. Qed.

(** Writing block 0. *)
Lemma write0 s x : sec_ok false s -> NB s = nb ->
  exists s', sec_ok false s' /\ NB s' = nb /\ stored false s' 0 (blk_of x).
Proof.
  intros Hs Hn.
  destruct (write_blk_spec false true rnd rnd_zlen eq_refl s 0 (blk_of x) bfs_NONE Hs (valid0 s Hn)
              (blk_of_zlen x)) as (c&s'&_&_&Hs'&Hn'&Hst&_).
  exists s'. split_and!; [done|congruence|done].
Qed.

(** The toy cipher makes the raw block and the leaf explicit. *)
Lemma stored0 s x : stored false s 0 (blk_of x) ->
  exists iv mac, meta_slot false s 0 iv mac /\ bget false s 0 = blk_of (MemStore.flip x) /\
    mac = replicate 16 (MemStore.flip x) /\ nh s (leaf s 0) = mac /\ node_good s ((leaf s 0 - 1) / 2).
Proof.
  intros [_ (iv&mac&Hsl&Htag&Hd&Hl&Hg)]. exists iv, mac.
  assert (bget false s 0 = blk_of (MemStore.flip x)) as Hb.
  { rewrite <-(Toy.flips_flips (bget false s 0)). cbn in Hd. rewrite <-Hd.
    unfold Toy.flips, blk_of. by rewrite fmap_replicate. }
  split_and!; try done. rewrite Htag, Hb. done.
Qed.

Lemma toy_no_collision s (m m' : bytes) :
  zlen m = 16 -> zlen m' = 16 -> no_collision (C := BoundedCache.t) s m m'.
Proof.
  intros Hm Hm' x Hx. change (zlen x = 16) in Hx. unfold hmac2. cbn.
  rewrite !Toy.fit_id by (unfold zlen in *; rewrite length_app; lia).
  unfold zlen in *. intros [Heq|Heq]; apply app_inj_1 in Heq; (tauto || lia).
Qed.

(** The mounted state after two writes of block 0, and the same memory on the
    devices as they were after the first write. *)
Lemma replayed : exists s1 s2,
  sec_ok false s1 /\ NB s1 = nb /\ stored false s1 0 (blk_of x01) /\
  sec_ok false s2 /\ NB s2 = nb /\ stored false s2 0 (blk_of x02) /\
  tampered false s2 (set_vbc (vbc s1) s2) /\ bget false (set_vbc (vbc s1) s2) 0 = bget false s1 0.
Proof.
  destruct (write0 fs0 x01 fs0_ok eq_refl) as (s1&Hs1&Hn1&Hst1).
  destruct (write0 s1 x02 Hs1 Hn1) as (s2&Hs2&Hn2&Hst2).
  exists s1, s2. split_and!; try done. split_and!; try done; [exact (eq_trans Hn1 (eq_sym Hn2))|].
  destruct Hs1 as [Hd _]. exact Hd.
Qed.

End Mounted.

(** ** The theorems at these inputs *)

Lemma secblock_refines_map_witness :
  exists s', @bs_exec_all _ (sec_store false Mounted.rnd)
      [BWrite 0 (Mounted.blk_of x01) bfs_NONE; BRead 0] Mounted.fs0
    = Ok [None; Some (Mounted.blk_of x01)] s'.
Proof.
  destruct (secblock_refines_map false Mounted.rnd Mounted.rnd_zlen
    [BWrite 0 (Mounted.blk_of x01) bfs_NONE; BRead 0] Mounted.fs0 ∅ Mounted.fs0_ok) as (s'&Hr&_).
  - apply map_Forall_empty.
  - split; [by apply (valid_blk_iff Mounted.fs0), Mounted.valid0|]. split; [apply Mounted.blk_of_zlen|].
    split; [|done]. rewrite lookup_insert_eq. by eexists.
  - exists s'. cbn in Hr. rewrite lookup_insert_eq in Hr. exact Hr.
Defined.

Lemma read_blk_authentic_witness :
  exists s, NB s = Mounted.nb /\
    match read_blk false true 0 s with
    | Ok _ _ => False
    | Throw (BfsServerError _) _ => True
    | _ => False
    end.
Proof.
  destruct Mounted.replayed as (s1&s2&Hs1&_&Hst1&Hs2&Hn2&Hst2&Htam&Hraw).
  pose proof (Mounted.stored0 s1 x01 Hst1) as (iv1&mac1&Hsl1&Hb1&Hm1&_).
  pose proof (Mounted.stored0 s2 x02 Hst2) as (iv2&mac2&_&Hb2&Hm2&Hl2&_).
  exists (set_vbc (vbc s1) s2). split; [by destruct Htam as (_&_&_&_&->&_)|].
  pose proof (read_blk_authentic false s2 (set_vbc (vbc s1) s2) 0 (Mounted.blk_of x02) iv1 mac1
    eq_refl Hs2 Hst2 Htam Hsl1) as Hauth.
  rewrite Hl2, Hm1, Hm2, Hraw, Hb1, Hb2 in Hauth.
  assert (no_collision s2 (replicate 16 (MemStore.flip x01)) (replicate 16 (MemStore.flip x02))) as Hnc
    by by apply Mounted.toy_no_collision.
  specialize (Hauth Hnc ltac:(intros; discriminate)).
  destruct (read_blk false true 0 (set_vbc (vbc s1) s2)) as [d s3|[]|]; try exact Hauth.
  destruct Hauth as [_ Hbad]. discriminate Hbad.
Defined.

Lemma replay_accepted_on_retry_witness :
  exists s r s1 s2, stored false s 0 (Mounted.blk_of x02) /\ tampered false s r /\
    read_blk false true 0 r = Throw (BfsServerError "Invalid par hash comparison in read_blk") s1 /\
    read_blk false true 0 s1 = Ok (Mounted.blk_of x01) s2.
Proof.
  destruct Mounted.replayed as (s1&s2&Hs1&_&Hst1&Hs2&Hn2&Hst2&Htam&Hraw).
  pose proof (Mounted.stored0 s1 x01 Hst1) as (iv1&mac1&Hsl1&Hb1&Hm1&_).
  pose proof (Mounted.stored0 s2 x02 Hst2) as (iv2&mac2&_&Hb2&Hm2&Hl2&Hg2).
  assert (mac1 <> nh s2 (leaf s2 0)) as Hne by (rewrite Hl2, Hm1, Hm2; discriminate).
  assert (no_collision s2 mac1 (nh s2 (leaf s2 0))) as Hnc
    by (rewrite Hl2, Hm1, Hm2; by apply Mounted.toy_no_collision).
  destruct (replay_accepted_on_retry false (set_vbc (vbc s1) s2) 0 iv1 mac1) as (s3&s4&H3&H4).
  - done.
  - by apply (tampered_ok false s2).
  - apply Mounted.valid0. destruct Htam as (_&_&_&_&->&_). done.
  - exact Hg2.
  - exact Hsl1.
  - rewrite Hraw, Hb1, Hm1. done.
  - exact Hne.
  - exact Hnc.
  - exists s2, (set_vbc (vbc s1) s2), s3, s4. split_and!; [done|done|done|].
    rewrite H4, Hraw, Hb1. done.
Defined.

Lemma init_merkle_tree_fresh_crashes_witness :
  init_merkle_tree false false (set_mt empty_mt Mounted.fs0) = Crash Undefined_behaviour.
Proof. apply init_merkle_tree_fresh_crashes; [done|by eexists|done]. Defined.

(** ** On-device structures *)
Module Sample.
Definition sb : SuperBlock.t :=
  SuperBlock.mk BFS_SB_MAGIC BLK_SZ INODE_SZ 8192 1879 NUM_INODES 1879 NUM_UNRES_INODES 6314 6314
    ROOT_INO IBITMAP_INO ITABLE_INO JOURNAL_INO FIRST_UNRESERVED_INO FORMATTED true.
Definition inode : Inode.t :=
  Inode.mk 11 1001 0x81FF 1 0 0 0 5000 0 ([6314; 6315] ++ replicate 11 0) true.
Definition name : bytes := [x2f; x61; x2f; x62].
Definition dentry : DirEntry.t := DirEntry.ctor name 11 6313 2 0 0 0 0 0.
Definition locs : IndirectBlock.t := [6316; 6317] ++ replicate 510 0.
End Sample.

Lemma superblock_roundtrip_witness :
  exists b', SuperBlock.serialize Sample.sb (zeros BLK_SZ) 0 = Some (b', 128) /\
    SuperBlock.deserialize b' 0 = Some (SuperBlock.set_dirty false Sample.sb, 128).
Proof.
  destruct (SuperBlock.superblock_roundtrip Sample.sb (zeros BLK_SZ) 0) as (b'&Hs&Hd&_);
    [vm_decide|done|vm_decide|]. exists b'. split; assumption.
Defined.

Lemma inode_roundtrip_witness :
  exists b', Inode.serialize Sample.inode (zeros BLK_SZ) 2816 = Some (b', 168) /\
    Inode.deserialize b' 2816 = Some (Inode.set_dirty false Sample.inode, 168) /\
    Inode.deserialize b' 2560 = Inode.deserialize (zeros BLK_SZ) 2560.
Proof.
  destruct (Inode.inode_roundtrip Sample.inode (zeros BLK_SZ) 2816) as (b'&Hs&Hd&Ho);
    [vm_decide|done|vm_decide|]. exists b'. split_and!; [assumption|assumption|].
  apply Ho; [done|]. left. vm_decide.
Defined.

Lemma direntry_roundtrip_witness :
  exists b' d', DirEntry.serialize Sample.dentry (zeros BLK_SZ) 526 = Some (b', DIRENT_SZ) /\
    DirEntry.deserialize DirEntry.default b' 526 = Some (d', DIRENT_SZ) /\
    DirEntry.de_name d' = Sample.name /\ DirEntry.ino d' = 11.
Proof.
  destruct (DirEntry.direntry_roundtrip Sample.dentry DirEntry.default (zeros BLK_SZ) 526)
    as (b'&d'&Hs&Hd&Hn&Hi&_); [vm_decide|done|vm_decide|]. exists b', d'. split_and!; assumption.
Defined.

Lemma direntry_name_too_long_witness :
  DirEntry.serialize (DirEntry.set_de_name (replicate 255 x61) Sample.dentry) (zeros BLK_SZ) 0 = None.
Proof. apply DirEntry.direntry_name_too_long. vm_decide. Defined.

Lemma indirect_roundtrip_witness :
  exists b', IndirectBlock.serialize Sample.locs (zeros BLK_SZ) 0 = Some (b', BLK_SZ) /\
    IndirectBlock.deserialize b' 0 = Some (Sample.locs, BLK_SZ).
Proof.
  destruct (IndirectBlock.indirect_roundtrip Sample.locs (zeros BLK_SZ)) as (b'&Hs&_&Hd);
    [split; vm_decide|vm_decide|]. exists b'. split; assumption.
Defined.

(** ** Buffers *)
Definition buf3 : FlexBuffer.t := FlexBuffer.mk (Some [x00; x01; x02; x03; x00]) 5 1 3 1 true.

Lemma flexbuffer_refines_deque_witness :
  exists s', FlexBuffer.exec_all [FlexBuffer.PushFront [x09; x08]; FlexBuffer.PopBack 1; FlexBuffer.PopFront 3] buf3
    = Ok [[]; [x03]; [x09; x08; x01]] s' /\ FlexBuffer.content s' = [x02].
Proof.
  destruct (FlexBuffer.flexbuffer_refines_deque
    [FlexBuffer.PushFront [x09; x08]; FlexBuffer.PopBack 1; FlexBuffer.PopFront 3] buf3
    [[]; [x03]; [x09; x08; x01]] [x02]) as (s'&Hr&_&Hc);
    [vm_decide|done|by repeat constructor|vm_decide|done|]. exists s'. split; assumption.
Defined.

Lemma flexbuffer_underflow_witness :
  FlexBuffer.removeHeader 4 buf3 = Throw (bfsUtilError "Flexible buffer remove header underflow") buf3.
Proof. apply FlexBuffer.flexbuffer_underflow; [vm_decide|done|done]. Defined.

Lemma block_ctor_content_witness :
  exists s, FlexBuffer.block_ctor (Some [x01; x02]) 2 12 16 = Ok () s /\ FlexBuffer.content s = [x01; x02].
Proof.
  destruct (FlexBuffer.block_ctor_content [x01; x02] 12 16) as (s&Hs&_&Hc); [done|done|vm_decide|]. exists s. split; assumption.
Defined.

(** ** Security association *)
Definition sa0 (b : FlexBuffer.t) : SecAssoc.st :=
  SecAssoc.mkst (Some (CryptoKey.setKeyData (zeros 16))) FlexBuffer.empty b FlexBuffer.empty.

Lemma sa_encrypt_decrypt_witness :
  exists s1 s2 t, SecAssoc.encryptData None true (zeros 12) (sa0 buf3) = Ok () s1 /\
    SecAssoc.decryptData None true s1 = Ok t s2 /\
    FlexBuffer.content (SecAssoc.buf s2) = [x01; x02; x03].
Proof.
  destruct (SecAssoc.sa_encrypt_decrypt (sa0 buf3) (CryptoKey.setKeyData (zeros 16)) None true (zeros 12))
    as (s1&s2&t&He&_&Hd&Hc); [done|done|done|split; [vm_decide|vm_decide]
      |vm_decide|vm_decide|]. exists s1, s2, t. split_and!; assumption.
Defined.

(** An IV, one block of ciphertext and a wrong tag. *)
Definition forged : FlexBuffer.t :=
  FlexBuffer.mk (Some (zeros 12 ++ replicate 16 x01 ++ replicate 16 x02)) 44 0 44 0 true.

Lemma sa_decrypt_rejects_bad_tag_witness :
  exists s', SecAssoc.decryptData None true (sa0 forged) =
    Throw (bfsCryptoError "gcrypt MAC verification failure: ") s'.
Proof.
  apply (SecAssoc.sa_decrypt_rejects_bad_tag (sa0 forged) (CryptoKey.setKeyData (zeros 16)) None
    (zeros 12) (replicate 16 x01) (replicate 16 x02)); done.
Defined.

Lemma sa_bad_padding_witness :
  SecAssoc.removePKCS7Padding (FlexBuffer.mk (Some [x01; x11]) 2 0 2 0 true) =
    Throw (bfsCryptoError "Bad PKCS#7 padding") (FlexBuffer.mk (Some [x01; x11]) 2 0 2 0 true).
Proof. apply (SecAssoc.sa_bad_padding _ x11 [x01]); [vm_decide|done|vm_decide]. Defined.

(** ** Clusters: two devices of three and five blocks *)
Definition cluster2 : VBC.t BoundedCache.t :=
  VBC.mk VBC.BFSBLK_READY 8
    [LocalDevice.bfsDeviceInitialize (LocalDevice.mk 1 3 None);
     LocalDevice.bfsDeviceInitialize (LocalDevice.mk 2 5 None)] [] ∅.

Lemma cluster2_wf : VBC.wf cluster2.
Proof.
  split_and!; [|done|done].
  repeat apply Forall_cons_2; [..|apply Forall_nil_2]; (split; cbn; [done|split; [done|by eexists]]).
Qed.

Lemma getPhyBlockAddr_bijection_witness :
  (exists d, VBC.getPhyBlockAddr 4 cluster2 = Ok (1%nat, 1) cluster2 /\
     VBC.devices cluster2 !! 1%nat = Some d /\ 0 <= 1 < LocalDevice.numBlocks d) /\
  VBC.getPhyBlockAddr 8 cluster2 = Throw (bfsBlockError "Unmappable virtual block address") cluster2.
Proof.
  split.
  - destruct (proj1 (VBC.getPhyBlockAddr_bijection cluster2 4 cluster2_wf ltac:(done)) ltac:(done))
      as (ix&p&d&Hp&Hd&Hr&_).
    injection Hp as <- <-. by exists d.
  - apply (VBC.getPhyBlockAddr_bijection cluster2 8 cluster2_wf ltac:(done)). done.
Defined.

(** The same devices behind a [BfsCache] of two blocks. *)
Definition cluster2c : VBC.t BlockCache.t :=
  VBC.mk VBC.BFSBLK_READY 8 (VBC.devices cluster2) [] (BlockCache.new_cache 2).

Lemma cluster2c_wf : VBC.wf cluster2c.
Proof. exact cluster2_wf. Qed.

Lemma cluster_refines_map_witness :
  exists s', VBC.exec_all (H := BlockCache.bfs_cache) true
      [VBC.Write 7 (Mounted.blk_of x01) bfs_NONE; VBC.Write 2 (Mounted.blk_of x02) bfs_NONE;
       VBC.Write 0 (Mounted.blk_of x03) bfs_NONE; VBC.Read 7; VBC.Write 7 (Mounted.blk_of x04) bfs_NONE;
       VBC.Read 7; VBC.Read 1] cluster2c
    = Ok [None; None; None; Some (Mounted.blk_of x01); None; Some (Mounted.blk_of x04); Some zero_blk] s'.
Proof.
  destruct (BlockCache.cluster_refines_map true 2
      [VBC.Write 7 (Mounted.blk_of x01) bfs_NONE; VBC.Write 2 (Mounted.blk_of x02) bfs_NONE;
       VBC.Write 0 (Mounted.blk_of x03) bfs_NONE; VBC.Read 7; VBC.Write 7 (Mounted.blk_of x04) bfs_NONE;
       VBC.Read 7; VBC.Read 1] cluster2c) as (s'&Hr).
  - exact cluster2c_wf.
  - done.
  - repeat (apply Forall_cons_2; [split; [done|first [apply Mounted.blk_of_zlen|done]]|]). apply Forall_nil_2.
  - intros _. split; [unfold Cache.INT_MAX; lia|]. split; [unfold Cache.INT_MAX; vm_decide|].
    repeat split; vm_decide.
  - exists s'. rewrite Hr. reflexivity.
Defined.
