(* ===== verification/FsAlloc.v ===== *)
(** * The file-system handle: inode and descriptor allocation, the inode table

    Models the allocation and inode-table functions of [BfsHandle]
    ([bfs_core.cpp]) over the block interface [BlockStore], in the shipped
    configuration ([cache_enabled=false]): [checkCache] finds nothing and
    nothing is put into the inode and dentry caches, so an [Inode *] is a fresh
    object of the running operation. *)
From S2P Require Import Prelude Layout BfsUtil CoreTypes BlockLayer BlockStore.

(** The statics of [BfsHandle] the file operations use. *)
Record fs (B : Type) := mkFs {
  store : B;
  sb : SuperBlock.t;
  next_fd : Z;
  open_file_tab : gmap Z OpenFile.t
}.
Arguments mkFs {B}.
Arguments store {B}.
Arguments sb {B}.
Arguments next_fd {B}.
Arguments open_file_tab {B}.

Section handle.
Context {B : Type} `{BlockStore B}.
Abbreviation fs := (fs B).

Definition set_store (b : B) (s : fs) : fs := mkFs b (sb s) (next_fd s) (open_file_tab s).
Definition set_sb (x : SuperBlock.t) (s : fs) : fs := mkFs (store s) x (next_fd s) (open_file_tab s).
Definition set_next_fd (x : Z) (s : fs) : fs := mkFs (store s) (sb s) x (open_file_tab s).
Definition set_open_file_tab (t : gmap Z OpenFile.t) (s : fs) : fs :=
  mkFs (store s) (sb s) (next_fd s) t.

Definition on_store {A} (m : M B A) : M fs A := fun s =>
  match m (store s) with
  | Ok a b => Ok a (set_store b s)
  | Throw e b => Throw e (set_store b s)
  | Crash c => Crash c
  end.

Definition rblk (b : Z) : M fs bytes := on_store (bs_read b).
(** The caller's buffer is not used after the call unless the result is. *)
Definition wblk (b : Z) (d : bytes) : M fs bytes := on_store (bs_write b d bfs_O_SYNC).

Definition NUM_BLOCKS (s : fs) : Z := bs_size (store s).
Definition data_start (s : fs) : Z := DATA_REL_START_BLK_NUM (NUM_BLOCKS s).

(** [sb.alloc_blk()] and [sb.dealloc_blk(b)]. *)
Definition sb_alloc_blk : M fs Z := fun s =>
  let '(v, x) := SuperBlock.alloc_blk (sb s) in Ok v (set_sb x s).

Definition sb_dealloc_blk (b : Z) : M fs bool := fun s =>
  let '(r, x) := SuperBlock.dealloc_blk (NUM_BLOCKS s) b (sb s) in Ok r (set_sb x s).

(** ** File descriptors *)
Definition alloc_fd : M fs Z :=
  t ← gets open_file_tab;
  if decide (Z.of_nat (size t) = MAX_OPEN_FILES) then mret 0
  else
    n ← gets next_fd;
    modify (set_next_fd (u32 (n + 1))) ;; mret n.

(** ** The inode table *)

(** [read_inode]: a free slot ([NULL_INO]) is an error. *)
Definition read_inode (ino : Z) : M fs Inode.t :=
  blk ← rblk (ITAB_ABSOLUTE_BLK_LOC ino);
  '(i, len) ← of_opt (Inode.deserialize blk (ITAB_ABSOLUTE_BLK_OFF ino));
  assert_ (len <=? INODE_SZ) ;;
  if Inode.i_no i =? NULL_INO then throw (BfsServerError "read_inode found bad inode")
  else mret i.

(** [write_inode]: the code is always [BFS_SUCCESS].  Without the flag nothing
    is written (the caches are off). *)
Definition write_inode (i : Inode.t) (flags : op_flags) (del_ino : Z) (put_cache : bool) : M fs () :=
  let ino_loc := if negb put_cache && (0 <? del_ino) then del_ino else Inode.i_no i in
  if is_sync flags then
    blk ← rblk (ITAB_ABSOLUTE_BLK_LOC ino_loc);
    '(blk, len) ← of_opt (Inode.serialize i blk (ITAB_ABSOLUTE_BLK_OFF ino_loc));
    assert_ (len <=? INODE_SZ) ;;
    on_store (bs_write (ITAB_ABSOLUTE_BLK_LOC ino_loc) blk flags) ;;
    mret ()
  else mret ().

(** ** The inode bitmap *)
Fixpoint read_ibm (n : nat) (b : Z) (ibm : IBitMap.t) : M fs IBitMap.t :=
  match n with
  | O => mret ibm
  | S n => d ← rblk (IBM_REL_START_BLK_NUM + b); read_ibm n (b + 1) (IBitMap.append_ibm_blk d ibm)
  end.

(** The inner loop: the first clear bit at or after [b]. *)
Fixpoint find_bit (n : nat) (b : Z) (blk : bytes) : option (option Z) :=
  match n with
  | O => Some None
  | S n =>
      t ← bfs_test_bit b blk;
      if (t : bool) then find_bit n (b + 1) blk else Some (Some b)
  end.

Fixpoint find_blk (blks : list bytes) (ibmb : Z) : option (option (Z * Z)) :=
  match blks with
  | [] => Some None
  | blk :: blks =>
      r ← find_bit (Z.to_nat BLK_SZ_BITS) 0 blk;
      match r with
      | Some b => Some (Some (ibmb, b))
      | None => find_blk blks (ibmb + 1)
      end
  end.

Definition alloc_ino : M fs Z :=
  no_free ← gets (fun s => SuperBlock.no_inodes_free (sb s));
  if no_free =? 0 then mret NULL_INO
  else
    ibm ← read_ibm (Z.to_nat NUM_IBITMAP_BLOCKS) 0 [];
    r ← of_opt (find_blk ibm 0);
    match r with
    | Some (ibmb, b) =>
        let new_ino := u32 (ibmb * BLK_SZ_BITS + b) in
        ibm ← of_opt (IBitMap.set_bit new_ino ibm);
        blk ← of_opt (ibm !! Z.to_nat ibmb);
        wblk (IBM_REL_START_BLK_NUM + ibmb) blk ;;
        modify (fun s => set_sb (SuperBlock.set_no_inodes_free (no_free - 1) (sb s)) s) ;;
        mret new_ino
    | None => throw (BfsServerError "Failed allocating new inode: inconsistency inode table state")
    end.

(** ** Releasing an inode *)

(** The two loops of [delete_inode_iblks]: [false] is the early [return]. *)
Fixpoint dealloc_list (what : string) (l : list Z) : M fs bool :=
  match l with
  | [] => mret true
  | v :: l =>
      ds ← gets data_start;
      if v <=? ds then mret false
      else
        ok ← sb_dealloc_blk v;
        if (ok : bool) then dealloc_list what l
        else throw (BfsServerError what)
  end.

Definition delete_inode_iblks (i : Inode.t) : M fs () :=
  direct ← dealloc_list "Failed to deallocate direct block" (take (Z.to_nat NUM_DIRECT_BLOCKS) (Inode.i_blks i));
  if negb direct then mret ()
  else
    ib_loc ← vec_at (Inode.i_blks i) NUM_DIRECT_BLOCKS;
    ds ← gets data_start;
    if ib_loc <=? ds then mret ()
    else
      blk ← rblk ib_loc;
      '(ib, len) ← of_opt (IndirectBlock.deserialize blk 0);
      assert_ (len <=? BLK_SZ) ;;
      indirect ← dealloc_list "Failed to deallocate indirect block" ib;
      if negb indirect then mret ()
      else
        ok ← sb_dealloc_blk ib_loc;
        if (ok : bool) then mret () else throw (BfsServerError "Failed to deallocate indirect block").

Definition dealloc_ino (i : Inode.t) : M fs () :=
  if Inode.i_no i =? ROOT_INO then throw (BfsServerError "Trying to deallocate root inode")
  else
    no_free ← gets (fun s => SuperBlock.no_inodes_free (sb s));
    blk ← rblk (IBM_ABSOLUTE_BLK_LOC (Inode.i_no i));
    ibm ← of_opt (IBitMap.clear_bit (Inode.i_no i) (IBitMap.append_ibm_blk blk []));
    blk ← vec_at ibm 0;
    wblk (IBM_ABSOLUTE_BLK_LOC (Inode.i_no i)) blk ;;
    delete_inode_iblks i ;;
    let del_ino := Inode.i_no i in
    write_inode (Inode.set_i_no NULL_INO i) bfs_O_SYNC del_ino false ;;
    modify (fun s => set_sb (SuperBlock.set_no_inodes_free (u64 (no_free + 1)) (sb s)) s).

(** ** Stores before and after *)
Context {blaws : BlockStoreLaws B}.
Implicit Types s : fs.

Definition ok s : Prop := bs_ok (store s).
Definition has s (b : Z) (d : bytes) : Prop := bs_has (store s) b d.

(** [s'] is a good state whose blocks outside [P] are those of [s]. *)
Definition frame (P : Z -> Prop) s s' : Prop :=
  ok s' /\ NUM_BLOCKS s' = NUM_BLOCKS s /\ forall b d, ~ P b -> has s b d -> has s' b d.

Lemma frame_refl P s : ok s -> frame P s s.
Proof. by repeat split. Qed.

Lemma frame_self P s : ok s -> frame P s (set_store (store s) s).
Proof. by repeat split. Qed.

Lemma frame_trans P s s1 s2 : frame P s s1 -> frame P s1 s2 -> frame P s s2.
Proof. intros (?&?&?) (?&?&?). split_and!; [done|congruence|auto]. Qed.

Lemma frame_weaken (P Q : Z -> Prop) s s' : (forall b, P b -> Q b) -> frame P s s' -> frame Q s s'.
Proof. intros HPQ (?&?&Hf). split_and!; [done..|]. intros b d Hn. apply Hf. auto. Qed.

Definition no_blk (b : Z) : Prop := False.

(** Nothing but the store differs. *)
Definition only_store s s' : Prop :=
  sb s' = sb s /\ next_fd s' = next_fd s /\ open_file_tab s' = open_file_tab s.

Lemma only_store_refl s : only_store s s.
Proof. done. Qed.

Lemma only_store_trans s s1 s2 : only_store s s1 -> only_store s1 s2 -> only_store s s2.
Proof. intros (?&?&?) (?&?&?). split_and!; congruence. Qed.

Lemma frame_has P s s' b d : frame P s s' -> ~ P b -> has s b d -> has s' b d.
Proof. intros (_&_&Hf). apply Hf. Qed.

Lemma frame_none_has s s' b d : frame no_blk s s' -> has s b d -> has s' b d.
Proof. intros Hf. by eapply frame_has; [done|intros []]. Qed.

Lemma frame_none P s s' : frame no_blk s s' -> frame P s s'.
Proof. by apply frame_weaken. Qed.

Lemma rblk_Ok s b d : ok s -> has s b d ->
  exists st, rblk b s = Ok d (set_store st s) /\ frame no_blk s (set_store st s).
Proof.
  intros Hs Hd. destruct (bs_read_ok (store s) b d Hs Hd) as (st&Hr&Hok&Hn&Hf).
  exists st. unfold rblk, on_store. rewrite Hr. split; [done|]. split_and!; [done..|]. intros b' d' _. apply Hf.
Qed.

Lemma bs_write_Ok s b d f : ok s -> bs_valid (NUM_BLOCKS s) b -> zlen d = BLK_SZ ->
  exists c st, on_store (bs_write b d f) s = Ok c (set_store st s) /\ zlen c = BLK_SZ /\
    has (set_store st s) b d /\ frame (eq b) s (set_store st s).
Proof.
  intros Hs Hv Hz. destruct (bs_write_ok (store s) b d f Hs Hv Hz) as (c&st&Hr&Hc&Hok&Hn&Hh&Hf).
  exists c, st. unfold on_store. rewrite Hr. split_and!; try done. split_and!; [done..|].
  intros b' d' Hne. apply Hf. congruence.
Qed.

Lemma has_valid s b d : ok s -> has s b d -> bs_valid (NUM_BLOCKS s) b /\ zlen d = BLK_SZ.
Proof. apply bs_has_len. Qed.

(** Rewriting a block that is there. *)
Lemma wblk_Ok s b d d' f : ok s -> has s b d' -> zlen d = BLK_SZ ->
  exists c st, on_store (bs_write b d f) s = Ok c (set_store st s) /\ zlen c = BLK_SZ /\
    has (set_store st s) b d /\ frame (eq b) s (set_store st s).
Proof. intros Hs Hd Hz. destruct (has_valid s b d' Hs Hd). by apply bs_write_Ok. Qed.

(** ** Reading and writing inodes *)
Definition inode_at s (ino : Z) (i : Inode.t) : Prop :=
  exists blk, has s (ITAB_ABSOLUTE_BLK_LOC ino) blk /\
    Inode.deserialize blk (ITAB_ABSOLUTE_BLK_OFF ino) = Some (i, 168).

Lemma read_inode_Ok s ino i : ok s -> inode_at s ino i -> Inode.i_no i <> NULL_INO ->
  exists st, read_inode ino s = Ok i (set_store st s) /\ frame no_blk s (set_store st s).
Proof.
  intros Hs (blk&Hb&Hi) Hn. destruct (rblk_Ok s _ _ Hs Hb) as (st&Hr&Hf).
  exists st. split; [|done]. unfold read_inode. mrun Hr. rewrite Hi. msteps.
  destruct (Z.eqb_spec (Inode.i_no i) NULL_INO); [done|]. done.
Qed.

Lemma read_inode_free s ino i : ok s -> inode_at s ino i -> Inode.i_no i = NULL_INO ->
  exists st, read_inode ino s = Throw (BfsServerError "read_inode found bad inode") (set_store st s) /\
    frame no_blk s (set_store st s).
Proof.
  intros Hs (blk&Hb&Hi) Hn. destruct (rblk_Ok s _ _ Hs Hb) as (st&Hr&Hf).
  exists st. split; [|done]. unfold read_inode. mrun Hr. rewrite Hi. msteps. by rewrite Hn.
Qed.

Lemma inode_at_frame P s s' ino i :
  frame P s s' -> ~ P (ITAB_ABSOLUTE_BLK_LOC ino) -> inode_at s ino i -> inode_at s' ino i.
Proof. intros Hf Hn (blk&Hb&Hi). exists blk. split; [by eapply frame_has|done]. Qed.

(** Every inode but [loc] is kept. *)
Definition others (loc : Z) s s' : Prop :=
  forall ino' j, ino' <> loc -> 0 <= ino' < NUM_INODES -> inode_at s ino' j -> inode_at s' ino' j.

Lemma others_trans loc s s1 s2 : others loc s s1 -> others loc s1 s2 -> others loc s s2.
Proof. intros H1 H2 ino' j Hn Hr Hi. apply H2; [done..|]. by apply H1. Qed.

Lemma others_frame P loc s s' :
  frame P s s' -> (forall ino, 0 <= ino < NUM_INODES -> ~ P (ITAB_ABSOLUTE_BLK_LOC ino)) -> others loc s s'.
Proof. intros Hf HP ino' j _ Hr. apply (inode_at_frame P); [done|by apply HP]. Qed.

Lemma others_none loc s s' : frame no_blk s s' -> others loc s s'.
Proof. intros Hf. by apply (others_frame no_blk); [|intros ?? []]. Qed.

(** Writing slot [loc] of the table. *)
Lemma write_inode_slot s i del put loc old :
  ok s -> Inode.wf i -> 0 <= loc < NUM_INODES ->
  (if negb put && (0 <? del) then del else Inode.i_no i) = loc -> inode_at s loc old ->
  exists st, let s' := set_store st s in
    write_inode i bfs_O_SYNC del put s = Ok () s' /\ frame (eq (ITAB_ABSOLUTE_BLK_LOC loc)) s s' /\
    inode_at s' loc (Inode.set_dirty false i) /\ others loc s s'.
Proof.
  intros Hs Hwf Hrange Hloc (blk&Hb&_). destruct (has_valid _ _ _ Hs Hb) as [Hv Hz].
  pose proof (itab_loc_range loc Hrange) as (_&Ho1&Ho2). assert (INODE_SZ = 256) as HI by done.
  destruct (Inode.inode_serialize_is_Some i blk (ITAB_ABSOLUTE_BLK_OFF loc) Hwf) as (blk'&Hser&Hm&Hz'&Hg); [lia..|].
  destruct (rblk_Ok s _ _ Hs Hb) as (st1&Hr&Hf1). set (s1 := set_store st1 s) in *.
  assert (has s1 (ITAB_ABSOLUTE_BLK_LOC loc) blk) as Hb1 by (by eapply frame_none_has).
  destruct (wblk_Ok s1 _ blk' _ bfs_O_SYNC (proj1 Hf1) Hb1) as (c&st2&Hw&_&Hh&Hf2); [congruence|].
  exists st2. cbv zeta. change (set_store st2 s1) with (set_store st2 s) in *.
  assert (frame (eq (ITAB_ABSOLUTE_BLK_LOC loc)) s (set_store st2 s)) as Hf
    by (eapply frame_trans; [by apply frame_none|done]).
  split_and!; [|done|..].
  - unfold write_inode. rewrite Hloc. cbn [is_sync]. mrun Hr. fold s1. rewrite Hser. msteps.
    rewrite bind_assert by done.
    by mrun Hw.
  - exists blk'. split; [done|]. by apply Inode.inode_deserialize_fields.
  - intros ino' j Hne Hr' (blkj&Hbj&Hj). destruct (decide (ITAB_ABSOLUTE_BLK_LOC ino' = ITAB_ABSOLUTE_BLK_LOC loc)) as [He|He].
    2:{ exists blkj. split; [|done]. eapply frame_has; [done|congruence|done]. }
    rewrite He in Hbj. assert (blkj = blk) as -> by exact (bs_has_fun (store s) _ _ _ Hs Hbj Hb).
    exists blk'. split; [by rewrite He|]. rewrite <-Hj.
    pose proof (itab_same_blk ino' loc ltac:(lia) ltac:(lia) Hne He).
    pose proof (itab_loc_range ino' Hr') as (_&?&?).
    rewrite !Inode.inode_deserialize_get_fields. rewrite (get_fields_ext _ blk' blk); [done|lia|].
    intros k Hk. destruct Hwf as [Hl _]. cbn in Hk.
    rewrite (mem_set_lookup _ _ _ _ k Hm), Inode.inode_fields_zlen, decide_False by (done || lia). done.
Qed.

(** The inode table is a map: writing an inode and reading it back gives the
    inode (not dirty), every other inode reads as before, and only the table
    block of the inode was written. *)
Theorem inode_table_roundtrip s i old :
  ok s -> Inode.wf i -> 0 < Inode.i_no i < NUM_INODES -> inode_at s (Inode.i_no i) old ->
  exists s1 s2, write_inode i bfs_O_SYNC 0 true s = Ok () s1 /\
    read_inode (Inode.i_no i) s1 = Ok (Inode.set_dirty false i) s2 /\
    frame (eq (ITAB_ABSOLUTE_BLK_LOC (Inode.i_no i))) s s2 /\
    forall ino' j, ino' <> Inode.i_no i -> 0 <= ino' < NUM_INODES -> inode_at s ino' j -> inode_at s2 ino' j.
Proof.
  intros Hs Hwf Hr Hold.
  destruct (write_inode_slot s i 0 true (Inode.i_no i) old Hs Hwf ltac:(lia) eq_refl Hold)
    as (st1&Hw&Hf1&Hat&Hoth). set (s1 := set_store st1 s) in *.
  destruct (read_inode_Ok s1 (Inode.i_no i) _ (proj1 Hf1) Hat) as (st2&Hrd&Hf2); [cbn; unfold NULL_INO; lia|].
  exists s1, (set_store st2 s1). split_and!; [done|done| |].
  - eapply frame_trans; [done|by apply frame_none].
  - intros ino' j Hne Hr' Hj. eapply inode_at_frame; [done|by intros []|]. by apply Hoth.
Qed.

(** ** The bitmap *)
Definition ibm_at s (blks : list bytes) : Prop :=
  length blks = Z.to_nat NUM_IBITMAP_BLOCKS /\
  forall k d, blks !! k = Some d -> has s (IBM_REL_START_BLK_NUM + Z.of_nat k) d /\ zlen d = BLK_SZ.

(** Bit [n] of the concatenated blocks. *)
Definition ibit (blks : list bytes) (n : Z) : option bool :=
  d ← blks !! Z.to_nat (n / BLK_SZ_BITS); bfs_test_bit (n mod BLK_SZ_BITS) d.

Lemma read_ibm_Ok n s b acc blks :
  ok s -> length blks = n ->
  (forall k d, blks !! k = Some d -> has s (IBM_REL_START_BLK_NUM + b + Z.of_nat k) d) ->
  exists st, read_ibm n b acc s = Ok (acc ++ blks) (set_store st s) /\ frame no_blk s (set_store st s).
Proof.
  revert s b acc blks. induction n as [|n IH]; intros s b acc blks Hs Hl Hh.
  - destruct blks; [|done]. exists (store s). rewrite app_nil_r. destruct s. split; [done|]. by apply frame_refl.
  - destruct blks as [|d blks]; [done|]. injection Hl as Hl. cbn [read_ibm].
    destruct (rblk_Ok s (IBM_REL_START_BLK_NUM + b) d Hs) as (st1&Hr&Hf1).
    { rewrite <-(Z.add_0_r (IBM_REL_START_BLK_NUM + b)). by apply (Hh 0%nat). }
    destruct (IH (set_store st1 s) (b + 1) (acc ++ [d]) blks (proj1 Hf1) Hl) as (st2&Hr2&Hf2).
    { intros k d' Hk. eapply frame_none_has; [done|].
      replace (IBM_REL_START_BLK_NUM + (b + 1) + Z.of_nat k) with (IBM_REL_START_BLK_NUM + b + Z.of_nat (S k)) by lia.
      by apply (Hh (S k)). }
    exists st2. rewrite <-app_assoc in Hr2. mrun Hr. unfold IBitMap.append_ibm_blk. split; [done|].
    by eapply frame_trans.
Qed.

Lemma find_bit_spec n b blk :
  0 <= b -> b + Z.of_nat n <= 8 * zlen blk ->
  (exists k, find_bit n b blk = Some (Some k) /\ b <= k < b + Z.of_nat n /\ bfs_test_bit k blk = Some false /\
     forall j, b <= j < k -> bfs_test_bit j blk = Some true) \/
  (find_bit n b blk = Some None /\ forall j, b <= j < b + Z.of_nat n -> bfs_test_bit j blk = Some true).
Proof.
  revert b. induction n as [|n IH]; intros b Hb Hn; cbn [find_bit].
  - right. split; [done|]. lia.
  - destruct (bfs_test_bit_is_Some b blk) as [t Ht]; [lia|]. rewrite Ht, some_bind. destruct t.
    + destruct (IH (b + 1)) as [(k&->&Hk&Hkt&Hall)|(->&Hall)]; [lia..| |].
      * left. exists k. split_and!; [done|lia|lia|done|]. intros j Hj.
        destruct (decide (j = b)) as [->|]; [done|]. apply Hall. lia.
      * right. split; [done|]. intros j Hj. destruct (decide (j = b)) as [->|]; [done|]. apply Hall. lia.
    + left. exists b. split_and!; [done|lia|lia|done|]. lia.
Qed.

Lemma find_blk_spec blks ix :
  Forall (fun d => zlen d = BLK_SZ) blks ->
  (exists k b, find_blk blks ix = Some (Some (ix + Z.of_nat k, b)) /\ (k < length blks)%nat /\
     0 <= b < BLK_SZ_BITS /\
     ibit blks (Z.of_nat k * BLK_SZ_BITS + b) = Some false /\
     forall j, 0 <= j < Z.of_nat k * BLK_SZ_BITS + b -> ibit blks j = Some true) \/
  (find_blk blks ix = Some None /\
     forall j, 0 <= j < Z.of_nat (length blks) * BLK_SZ_BITS -> ibit blks j = Some true).
Proof.
  revert ix. induction blks as [|d blks IH]; intros ix Hf; cbn [find_blk].
  - right. split; [done|]. cbn. lia.
  - apply Forall_cons in Hf as [Hd Hf]. assert (BLK_SZ_BITS = 32768) as HB by done.
    assert (forall j, 0 <= j < BLK_SZ_BITS -> ibit (d :: blks) j = bfs_test_bit j d) as Hlow.
    { intros j Hj. unfold ibit. rewrite Z.div_small, Z.mod_small by lia. done. }
    assert (forall j, BLK_SZ_BITS <= j -> ibit (d :: blks) j = ibit blks (j - BLK_SZ_BITS)) as Hhigh.
    { intros j Hj. unfold ibit. replace (j / BLK_SZ_BITS) with (1 + (j - BLK_SZ_BITS) / BLK_SZ_BITS).
      2:{ rewrite HB in *. Z.to_euclidean_division_equations; lia. }
      replace ((j - BLK_SZ_BITS) mod BLK_SZ_BITS) with (j mod BLK_SZ_BITS).
      2:{ rewrite HB in *. Z.to_euclidean_division_equations; lia. }
      assert (0 <= (j - BLK_SZ_BITS) / BLK_SZ_BITS) by (apply Z.div_pos; lia).
      by rewrite Z2Nat.inj_add by lia. }
    destruct (find_bit_spec (Z.to_nat BLK_SZ_BITS) 0 d) as [(b&->&Hb&Hbt&Hall)|(->&Hall)];
      [lia|rewrite Hd; done|..]; rewrite some_bind.
    + left. exists 0%nat, b. rewrite Z.add_0_r. split_and!; [done|cbn; lia|lia|lia| |].
      * cbn. rewrite Hlow by lia. done.
      * cbn. intros j Hj. rewrite Hlow by lia. apply Hall. lia.
    + destruct (IH (ix + 1) Hf) as [(k&b&->&Hk&Hb&Hbt&Hpre)|(->&Hpre)].
      * left. exists (S k), b. split_and!; [do 3 f_equal; lia|cbn; lia|lia|lia| |].
        -- rewrite Hhigh by lia. rewrite <-Hbt. f_equal. lia.
        -- intros j Hj. destruct (decide (j < BLK_SZ_BITS)); [rewrite Hlow by lia; apply Hall; lia|].
           rewrite Hhigh by lia. apply Hpre. lia.
      * right. split; [done|]. intros j Hj. cbn [length] in Hj.
        destruct (decide (j < BLK_SZ_BITS)); [rewrite Hlow by lia; apply Hall; lia|].
        rewrite Hhigh by lia. apply Hpre. lia.
Qed.

Lemma ibit_insert blks k d d' n m :
  blks !! k = Some d -> 0 <= n < BLK_SZ_BITS -> 0 <= m ->
  (forall j, 0 <= j -> bfs_test_bit j d' = if decide (j = n) then Some true else bfs_test_bit j d) ->
  ibit (<[k := d']> blks) m =
    if decide (m = Z.of_nat k * BLK_SZ_BITS + n) then Some true else ibit blks m.
Proof.
  intros Hk Hn Hm Hd'. unfold ibit. assert (BLK_SZ_BITS = 32768) as HB by done.
  pose proof (lookup_lt_Some _ _ _ Hk) as Hlt. rewrite HB in *.
  assert (0 <= m mod 32768 < 32768) as Hmod by (apply Z.mod_pos_bound; lia).
  assert (0 <= m / 32768) as Hdiv by (apply Z.div_pos; lia).
  destruct (decide (Z.to_nat (m / 32768) = k)) as [He|He].
  - rewrite He, list_lookup_insert_eq, Hk, !some_bind, Hd' by lia.
    pose proof (Z.div_mod m 32768). repeat case_decide; (done || lia).
  - rewrite list_lookup_insert_ne by done. rewrite decide_False; [done|]. intros ->.
    rewrite Z.div_add_l, (Z.div_small n) in He by lia. lia.
Qed.

(** The blocks of the inode bitmap. *)
Definition ibm_blk (b : Z) : Prop := IBM_REL_START_BLK_NUM <= b < ITAB_REL_START_BLK_NUM.

Lemma ibm_at_insert s s' blks k d :
  ibm_at s blks -> (k < length blks)%nat -> zlen d = BLK_SZ ->
  has s' (IBM_REL_START_BLK_NUM + Z.of_nat k) d ->
  frame (eq (IBM_REL_START_BLK_NUM + Z.of_nat k)) s s' -> ibm_at s' (<[k := d]> blks).
Proof.
  intros [Hl Hh] Hk Hz Hd Hf. split; [by rewrite length_insert|]. intros k' d' Hk'.
  destruct (decide (k' = k)) as [->|Hne].
  - rewrite list_lookup_insert_eq in Hk' by done. by simplify_eq.
  - rewrite list_lookup_insert_ne in Hk' by done. destruct (Hh k' d' Hk'). split; [|done].
    eapply frame_has; [done|lia|done].
Qed.

Lemma alloc_ino_Ok s blks :
  ok s -> ibm_at s blks ->
  let free := SuperBlock.no_inodes_free (sb s) in
  (free = 0 -> alloc_ino s = Ok NULL_INO s) /\
  (free <> 0 ->
    (exists n s' blks', alloc_ino s = Ok n s' /\ 0 <= n < NUM_IBITMAP_BLOCKS * BLK_SZ_BITS /\
       ibit blks n = Some false /\ (forall m, 0 <= m < n -> ibit blks m = Some true) /\
       ibm_at s' blks' /\
       (forall m, 0 <= m -> ibit blks' m = if decide (m = n) then Some true else ibit blks m) /\
       only_store (set_sb (SuperBlock.set_no_inodes_free (free - 1) (sb s)) s) s' /\ frame ibm_blk s s') \/
    ((forall m, 0 <= m < NUM_IBITMAP_BLOCKS * BLK_SZ_BITS -> ibit blks m = Some true) /\
     exists s', alloc_ino s =
       Throw (BfsServerError "Failed allocating new inode: inconsistency inode table state") s')).
Proof.
  intros Hs Hibm free. pose proof Hibm as [Hlen Hh]. unfold alloc_ino. split; intros Hfree.
  { msteps. fold free. by rewrite Hfree. }
  msteps. fold free. destruct (Z.eqb_spec free 0) as [?|_]; [done|].
  destruct (read_ibm_Ok (Z.to_nat NUM_IBITMAP_BLOCKS) s 0 [] blks Hs Hlen) as (st1&Hr&Hf1).
  { intros k d Hk. rewrite Z.add_0_r. by apply Hh. }
  mrun Hr. cbn [app]. set (s1 := set_store st1 s) in *.
  assert (Forall (fun d => zlen d = BLK_SZ) blks) as Hz.
  { apply Forall_lookup. intros k d Hk. by apply (Hh k). }
  destruct (find_blk_spec blks 0 Hz) as [(k&b&Hfind&Hk&Hb&Hclear&Hpre)|(Hfind&Hall)]; rewrite Hfind; msteps.
  2:{ right. rewrite Hlen in Hall. split; [exact Hall|]. by eexists. }
  left. rewrite Z.add_0_l in *. set (n := Z.of_nat k * BLK_SZ_BITS + b) in *.
  assert (BLK_SZ_BITS = 32768) as HB by done. assert (Z.to_nat NUM_IBITMAP_BLOCKS = 4%nat) as H4 by done.
  assert (u32 n = n) as -> by (apply u32_small; lia).
  destruct (lookup_lt_is_Some_2 blks k Hk) as [d Hd].
  assert (n / BLK_SZ_BITS = Z.of_nat k) as Hq
    by (unfold n; rewrite Z.div_add_l, (Z.div_small b) by lia; lia).
  assert (n mod BLK_SZ_BITS = b) as Hm by (unfold n; rewrite Z.add_comm, Z.mod_add, Z.mod_small by lia; lia).
  destruct (Hh k d Hd) as [_ Hdz]. assert (BLK_SZ = 4096) by done.
  destruct (bfs_set_bit_is_Some b d) as (d'&Hset&Hz'); [lia|].
  unfold IBitMap.set_bit, IBitMap.t. rewrite Hq, Hm, Nat2Z.id, Hd, some_bind, Hset, some_bind. msteps.
  rewrite list_lookup_insert_eq by done. msteps.
  assert (has s1 (IBM_REL_START_BLK_NUM + Z.of_nat k) d) as Hd1 by (eapply frame_none_has; [done|by apply Hh]).
  destruct (wblk_Ok s1 _ d' d bfs_O_SYNC (proj1 Hf1) Hd1) as (c&st2&Hw&_&Hhas&Hf2); [congruence|].
  assert (frame (eq (IBM_REL_START_BLK_NUM + Z.of_nat k)) s (set_store st2 s1)) as Hf
    by (eapply frame_trans; [by apply frame_none|done]).
  unfold wblk. mrun Hw. msteps. do 2 eexists. exists (<[k := d']> blks). split; [reflexivity|].
  split_and!; [| |done|done| | |done|].
  - unfold n. nia.
  - unfold n. rewrite HB. change NUM_IBITMAP_BLOCKS with 4. nia.
  - eapply (ibm_at_insert s); [done|done|congruence|exact Hhas|exact Hf].
  - intros m Hm0. eapply ibit_insert; [done|lia|done|]. intros j Hj. eapply bfs_test_set; (done || lia).
  - eapply frame_weaken; [|exact Hf]. intros x <-. unfold ibm_blk. rewrite H4 in Hlen.
    change IBM_REL_START_BLK_NUM with 2. change ITAB_REL_START_BLK_NUM with 6. lia.
Qed.

(** C32. Inode allocation: with no free inode nothing happens and the result is
    [NULL_INO]; otherwise the result is the first clear bit of the bitmap, that
    bit and no other is set on the device, the free counter drops by one and
    no block outside the bitmap changes; a full bitmap is an error. *)
Theorem alloc_ino_spec s blks :
  ok s -> ibm_at s blks ->
  let free := SuperBlock.no_inodes_free (sb s) in
  (free = 0 -> alloc_ino s = Ok NULL_INO s) /\
  (free <> 0 ->
    (exists n s' blks', alloc_ino s = Ok n s' /\ 0 <= n < NUM_IBITMAP_BLOCKS * BLK_SZ_BITS /\
       ibit blks n = Some false /\ (forall m, 0 <= m < n -> ibit blks m = Some true) /\
       ibm_at s' blks' /\
       (forall m, 0 <= m -> ibit blks' m = if decide (m = n) then Some true else ibit blks m) /\
       SuperBlock.no_inodes_free (sb s') = free - 1 /\ frame ibm_blk s s') \/
    ((forall m, 0 <= m < NUM_IBITMAP_BLOCKS * BLK_SZ_BITS -> ibit blks m = Some true) /\
     exists s', alloc_ino s =
       Throw (BfsServerError "Failed allocating new inode: inconsistency inode table state") s')).
Proof.
  intros Hs Hibm free. destruct (alloc_ino_Ok s blks Hs Hibm) as [H0 H1]. split; [exact H0|]. intros Hf.
  destruct (H1 Hf) as [(n&s'&blks'&Ha&Hn&Hb&Hlow&Hat&Hbits&(Hsb&_)&Hfr)|]; [left|by right].
  exists n, s', blks'. split; [exact Ha|]. split; [exact Hn|]. rewrite Hsb. done.
Qed.

(** ** Releasing blocks *)

(** Number of leading block ids of a list that are data blocks. *)
Fixpoint live (ds : Z) (l : list Z) : nat :=
  match l with
  | [] => 0
  | v :: l => if v <=? ds then 0 else S (live ds l)
  end.

Lemma live_le ds l : (live ds l <= length l)%nat.
Proof. induction l as [|v l IH]; cbn; [lia|]. destruct (v <=? ds); lia. Qed.

Definition add_free (n : Z) (x : SuperBlock.t) : SuperBlock.t :=
  SuperBlock.set_counters (SuperBlock.no_dblocks_free x + n) (SuperBlock.no_inodes_free x)
    (SuperBlock.next_vbid x) (SuperBlock.dirty x) x.

Definition room s (n : Z) : Prop :=
  0 <= SuperBlock.no_dblocks_free (sb s) /\
  SuperBlock.no_dblocks_free (sb s) + n <= SuperBlock.no_dblocks (sb s) < 2 ^ 64.

Lemma sb_dealloc_blk_Ok s v :
  room s 1 -> data_start s < v -> sb_dealloc_blk v s = Ok true (set_sb (add_free 1 (sb s)) s).
Proof.
  intros [? ?] Hv. unfold sb_dealloc_blk, SuperBlock.dealloc_blk. fold (data_start s).
  destruct (Z.leb_spec v (data_start s)); [lia|].
  destruct (Z.eqb_spec (SuperBlock.no_dblocks_free (sb s)) (SuperBlock.no_dblocks (sb s))); [lia|].
  cbn [orb]. rewrite u64_small by lia. done.
Qed.

Lemma add_free_add a b x : add_free a (add_free b x) = add_free (b + a) x.
Proof. unfold add_free, SuperBlock.set_counters. cbn. by rewrite Z.add_assoc. Qed.

Lemma add_free_0 x : add_free 0 x = x.
Proof. unfold add_free. rewrite Z.add_0_r. by destruct x. Qed.

Lemma dealloc_list_Ok what l s :
  room s (Z.of_nat (live (data_start s) l)) ->
  dealloc_list what l s =
    Ok (bool_decide (live (data_start s) l = length l))
       (set_sb (add_free (Z.of_nat (live (data_start s) l)) (sb s)) s).
Proof.
  revert s. induction l as [|v l IH]; intros s Hroom; cbn [dealloc_list live].
  - rewrite add_free_0. by destruct s.
  - cbn [live] in Hroom. msteps. destruct (Z.leb_spec v (data_start s)) as [Hle|Hgt].
    + rewrite add_free_0. by destruct s.
    + rewrite Nat2Z.inj_succ in *. destruct Hroom as [Hr1 Hr2].
      rewrite (bind_Ok _ _ _ _ _ (sb_dealloc_blk_Ok s v ltac:(split; lia) Hgt)). cbn beta iota.
      set (s1 := set_sb (add_free 1 (sb s)) s).
      pose proof (IH s1) as Hs1. change (data_start s1) with (data_start s) in Hs1.
      rewrite Hs1 by (split; cbn; lia). f_equal.
      * apply bool_decide_ext. cbn. lia.
      * unfold s1, set_sb. cbn [sb store next_fd open_file_tab]. rewrite add_free_add. do 2 f_equal. lia.
Qed.

(** The number of blocks [delete_inode_iblks] returns to the pool, [ib] being
    the contents of the indirect block. *)
Definition released (ds : Z) (i : Inode.t) (ib : list Z) : nat :=
  let direct := take (Z.to_nat NUM_DIRECT_BLOCKS) (Inode.i_blks i) in
  if decide (live ds direct = length direct) then
    match Inode.i_blks i !! Z.to_nat NUM_DIRECT_BLOCKS with
    | Some v => if v <=? ds then length direct
                else length direct + (live ds ib + if decide (live ds ib = length ib) then 1 else 0)
    | None => length direct
    end
  else live ds direct.

Definition indirect_at s (i : Inode.t) (ib : list Z) : Prop :=
  exists v, Inode.i_blks i !! Z.to_nat NUM_DIRECT_BLOCKS = Some v /\
    (data_start s < v -> exists blk, has s v blk /\ IndirectBlock.deserialize blk 0 = Some (ib, BLK_SZ)).

Lemma delete_inode_iblks_Ok s i ib :
  ok s -> indirect_at s i ib -> room s (Z.of_nat (released (data_start s) i ib)) ->
  exists st, delete_inode_iblks i s =
      Ok () (set_store st (set_sb (add_free (Z.of_nat (released (data_start s) i ib)) (sb s)) s)) /\
    frame no_blk s (set_store st s).
Proof.
  intros Hs (v&Hv&Hib) Hroom. unfold delete_inode_iblks, released in *.
  set (dir := take (Z.to_nat NUM_DIRECT_BLOCKS) (Inode.i_blks i)) in *. rewrite Hv in Hroom |- *.
  pose proof (dealloc_list_Ok "Failed to deallocate direct block" dir s) as Hd.
  case_decide as Hall.
  2:{ rewrite (bind_Ok _ _ _ _ _ (Hd Hroom)). rewrite bool_decide_false by done. cbn [negb].
      exists (store s). split; [done|]. by apply frame_self. }
  rewrite Hall in Hd. assert (room s (Z.of_nat (length dir))) as Hroom1.
  { destruct Hroom as [? Hr]. split; [done|]. destruct (v <=? _); lia. }
  rewrite (bind_Ok _ _ _ _ _ (Hd Hroom1)). rewrite bool_decide_true by done. cbn [negb].
  set (s1 := set_sb _ s).
  rewrite (bind_Ok _ _ _ _ _ (vec_at_Ok (Inode.i_blks i) NUM_DIRECT_BLOCKS v s1 ltac:(done) Hv)).
  msteps. change (data_start s1) with (data_start s).
  revert Hroom. destruct (Z.leb_spec v (data_start s)) as [Hle|Hgt]; intros Hroom.
  { exists (store s). split; [done|]. by apply frame_self. }
  destruct (Hib Hgt) as (blk&Hblk&Hde). destruct (rblk_Ok s1 v blk Hs Hblk) as (st&Hr&Hf).
  mrun Hr. rewrite Hde. msteps. rewrite bind_assert by done. set (s2 := set_store st s1).
  assert (NUM_BLOCKS s2 = NUM_BLOCKS s) as HN by apply Hf.
  assert (data_start s2 = data_start s) as Hds by (unfold data_start; by rewrite HN).
  pose proof (dealloc_list_Ok "Failed to deallocate indirect block" ib s2) as Hi. rewrite Hds in Hi.
  assert (room s2 (Z.of_nat (live (data_start s) ib))) as Hroom2.
  { destruct Hroom as [? Hr2]. split; cbn; lia. }
  rewrite (bind_Ok _ _ _ _ _ (Hi Hroom2)).
  exists st. case_decide as Hfull.
  - rewrite bool_decide_true by done. cbn [negb]. set (s3 := set_sb _ s2).
    assert (room s3 1) as Hroom3 by (destruct Hroom; split; cbn; lia).
    assert (data_start s3 < v) as Hv3 by (change (data_start s3) with (data_start s2); lia).
    rewrite (bind_Ok _ _ _ _ _ (sb_dealloc_blk_Ok s3 v Hroom3 Hv3)).
    split; [|done]. unfold s3. cbn. rewrite !add_free_add. unfold s2, s1, set_store, set_sb. cbn. do 4 f_equal. lia.
  - rewrite bool_decide_false by done. cbn [negb]. split; [|done].
    cbn. rewrite !add_free_add. unfold s2, s1, set_store, set_sb. cbn. do 4 f_equal. lia.
Qed.

Lemma ibm_not_itab ino : 0 <= ino < NUM_INODES -> IBM_REL_START_BLK_NUM <> ITAB_ABSOLUTE_BLK_LOC ino.
Proof.
  intros Hi. pose proof (itab_loc_range ino Hi) as [Hl _]. change ITAB_REL_START_BLK_NUM with 6 in Hl.
  change IBM_REL_START_BLK_NUM with 2. lia.
Qed.

(** A write to the bitmap leaves the indirect block of an inode. *)
Lemma indirect_at_ibm s s' i ib blk :
  ok s -> has s IBM_REL_START_BLK_NUM blk -> frame (eq IBM_REL_START_BLK_NUM) s s' -> indirect_at s i ib -> indirect_at s' i ib.
Proof.
  intros Hs Hblk Hf (v&Hv&Hi). exists v. split; [done|].
  assert (data_start s' = data_start s) as -> by (unfold data_start; by destruct Hf as (_&->&_)). intros Hgt.
  destruct (Hi Hgt) as (ibb&Hibb&?). exists ibb. split; [|done]. eapply frame_has; [done| |done].
  intros <-. unfold data_start in Hgt. assert (IBM_REL_START_BLK_NUM = 2) as H2 by done.
  pose proof (has_valid _ _ _ Hs Hibb) as [[? Hnm] _].
  destruct (has_valid _ _ _ Hs Hblk) as [[[_ HNB] _] _].
  assert (2 < DATA_REL_START_BLK_NUM (NUM_BLOCKS s)); [|lia]. layout_lia.
Qed.

Lemma wf_released i : Inode.wf i -> Inode.wf (Inode.set_i_no NULL_INO i).
Proof. intros [Hl Hfit]. split; [done|]. unfold Inode.fields in *. apply Forall_cons in Hfit as [_ Hfit]. by constructor. Qed.

Lemma clear_bit_first ino blk blk' :
  0 <= ino < BLK_SZ_BITS -> bfs_clear_bit ino blk = Some blk' ->
  IBitMap.clear_bit ino (IBitMap.append_ibm_blk blk []) = Some [blk'].
Proof.
  intros Hi Hclr. unfold IBitMap.clear_bit. rewrite Z.div_small, Z.mod_small by lia. change (Z.to_nat 0) with 0%nat.
  change (IBitMap.append_ibm_blk blk [] !! 0%nat) with (Some blk). by rewrite some_bind, Hclr.
Qed.

Lemma dealloc_ino_Ok s i ib blk old :
  ok s -> Inode.wf i -> 0 < Inode.i_no i < BLK_SZ_BITS -> Inode.i_no i <> ROOT_INO ->
  has s IBM_REL_START_BLK_NUM blk -> inode_at s (Inode.i_no i) old ->
  indirect_at s i ib -> room s (Z.of_nat (released (data_start s) i ib)) ->
  0 <= SuperBlock.no_inodes_free (sb s) < 2 ^ 64 - 1 ->
  exists s' blk', dealloc_ino i s = Ok () s' /\ has s' IBM_REL_START_BLK_NUM blk' /\
    (forall m, 0 <= m ->
       bfs_test_bit m blk' = if decide (m = Inode.i_no i) then Some false else bfs_test_bit m blk) /\
    (exists s'', read_inode (Inode.i_no i) s' = Throw (BfsServerError "read_inode found bad inode") s'') /\
    SuperBlock.no_inodes_free (sb s') = SuperBlock.no_inodes_free (sb s) + 1 /\
    SuperBlock.no_dblocks_free (sb s') =
      SuperBlock.no_dblocks_free (sb s) + Z.of_nat (released (data_start s) i ib) /\
    (forall ino' j, ino' <> Inode.i_no i -> 0 <= ino' < NUM_INODES -> inode_at s ino' j -> inode_at s' ino' j) /\
    frame (fun b => b = IBM_REL_START_BLK_NUM \/ b = ITAB_ABSOLUTE_BLK_LOC (Inode.i_no i)) s s' /\
    next_fd s' = next_fd s /\ open_file_tab s' = open_file_tab s /\
    SuperBlock.root_ino (sb s') = SuperBlock.root_ino (sb s).
Proof.
  intros Hs Hwf Hno Hroot Hblk Hold Hib Hroom Hfree.
  assert (IBM_ABSOLUTE_BLK_LOC (Inode.i_no i) = IBM_REL_START_BLK_NUM) as Hloc
    by (unfold IBM_ABSOLUTE_BLK_LOC; rewrite Z.div_small by lia; lia).
  assert (NUM_INODES = 100000) as HNI by done. assert (BLK_SZ_BITS = 32768) as HB by done. assert (BLK_SZ = 4096) as HK by done.
  destruct (has_valid _ _ _ Hs Hblk) as [_ Hz].
  destruct (bfs_clear_bit_is_Some (Inode.i_no i) blk) as (blk'&Hclr&Hz'); [lia|].
  destruct (rblk_Ok s _ _ Hs Hblk) as (st1&Hr1&Hf1). set (s1 := set_store st1 s) in *.
  destruct (wblk_Ok s1 IBM_REL_START_BLK_NUM blk' blk bfs_O_SYNC (proj1 Hf1)) as (c&st2&Hw&_&Hh2&Hf2);
    [by eapply frame_none_has|congruence|].
  change (set_store st2 s1) with (set_store st2 s) in *. set (s2 := set_store st2 s) in *.
  assert (frame (eq IBM_REL_START_BLK_NUM) s s2) as Hf02 by (eapply frame_trans; [by apply frame_none|done]).
  assert (NUM_BLOCKS s2 = NUM_BLOCKS s) as HN2 by apply Hf02.
  assert (data_start s2 = data_start s) as Hds by (unfold data_start; by rewrite HN2).
  destruct (delete_inode_iblks_Ok s2 i ib (proj1 Hf02)) as (st3&Hd&Hf3); [by eapply indirect_at_ibm|by rewrite Hds|].
  rewrite Hds in Hd. set (x := add_free _ _) in Hd. set (s3 := set_store st3 (set_sb x s2)) in *.
  assert (frame (eq IBM_REL_START_BLK_NUM) s s3) as Hf03.
  { eapply frame_trans; [done|]. apply frame_none. exact Hf3. }
  assert (inode_at s3 (Inode.i_no i) old) as Hold3.
  { eapply inode_at_frame; [done| |done]. apply ibm_not_itab. lia. }
  destruct (write_inode_slot s3 (Inode.set_i_no NULL_INO i) (Inode.i_no i) false (Inode.i_no i) old
              (proj1 Hf03) (wf_released i Hwf)) as (st4&Hwi&Hf4&Hat&Hoth); [lia| |done|].
  { cbn [negb andb]. destruct (Z.ltb_spec 0 (Inode.i_no i)); [done|lia]. }
  set (s4 := set_store st4 s3) in *.
  set (s5 := set_sb (SuperBlock.set_no_inodes_free (u64 (SuperBlock.no_inodes_free (sb s) + 1)) (sb s4)) s4).
  exists s5, blk'.
  assert (dealloc_ino i s = Ok () s5) as ->.
  { unfold dealloc_ino. destruct (Z.eqb_spec (Inode.i_no i) ROOT_INO); [done|]. msteps. rewrite Hloc.
    mrun Hr1. rewrite (clear_bit_first _ _ blk') by (done || lia).
    msteps. rewrite (bind_Ok _ _ _ blk' s1) by done. unfold wblk. mrun Hw. mrun Hd. by mrun Hwi. }
  pose proof (ibm_not_itab (Inode.i_no i) ltac:(lia)) as Hne2.
  split_and!; [done|..].
  - change (has s4 IBM_REL_START_BLK_NUM blk'). eapply frame_has; [exact Hf4| |].
    + congruence.
    + change (has (set_store st3 s2) IBM_REL_START_BLK_NUM blk'). by eapply frame_none_has.
  - intros m Hm. eapply bfs_test_clear; (done || lia).
  - destruct (read_inode_free s5 (Inode.i_no i) _ (proj1 Hf4) Hat eq_refl) as (st5&Hr5&_). by eexists.
  - cbn. by rewrite u64_small by lia.
  - done.
  - intros ino' j Hne Hr Hj. change (inode_at s4 ino' j). apply Hoth; [done|done|].
    eapply inode_at_frame; [done|by apply ibm_not_itab|done].
  - change (frame (fun b => b = IBM_REL_START_BLK_NUM \/ b = ITAB_ABSOLUTE_BLK_LOC (Inode.i_no i)) s s4).
    eapply frame_trans; [eapply frame_weaken; [|exact Hf03]|eapply frame_weaken; [|exact Hf4]];
      intros b <-; [by left|by right].
  - done.
  - done.
  - done.
Qed.

(** Releasing an inode of the first bitmap block: its bit is cleared and no
    other, its table slot becomes free, its blocks and its inode number go back
    to the counters, and every other inode stays. *)
Theorem dealloc_ino_spec s i ib blk old :
  ok s -> Inode.wf i -> 0 < Inode.i_no i < BLK_SZ_BITS -> Inode.i_no i <> ROOT_INO ->
  has s IBM_REL_START_BLK_NUM blk -> inode_at s (Inode.i_no i) old ->
  indirect_at s i ib -> room s (Z.of_nat (released (data_start s) i ib)) ->
  0 <= SuperBlock.no_inodes_free (sb s) < 2 ^ 64 - 1 ->
  exists s' blk', dealloc_ino i s = Ok () s' /\ has s' IBM_REL_START_BLK_NUM blk' /\
    (forall m, 0 <= m ->
       bfs_test_bit m blk' = if decide (m = Inode.i_no i) then Some false else bfs_test_bit m blk) /\
    (exists s'', read_inode (Inode.i_no i) s' = Throw (BfsServerError "read_inode found bad inode") s'') /\
    SuperBlock.no_inodes_free (sb s') = SuperBlock.no_inodes_free (sb s) + 1 /\
    SuperBlock.no_dblocks_free (sb s') =
      SuperBlock.no_dblocks_free (sb s) + Z.of_nat (released (data_start s) i ib) /\
    forall ino' j, ino' <> Inode.i_no i -> 0 <= ino' < NUM_INODES -> inode_at s ino' j -> inode_at s' ino' j.
Proof.
  intros. destruct (dealloc_ino_Ok s i ib blk old) as (s'&blk'&?&?&?&?&?&?&?&_); try done.
  by exists s', blk'.
Qed.

(** [dealloc_ino] reads one bitmap block into its bitmap object but indexes
    the object with the block number of the inode: releasing an inode number of
    the second bitmap block or later is an access outside the vector. *)
Theorem dealloc_ino_out_of_bounds s i blk :
  ok s -> BLK_SZ_BITS <= Inode.i_no i < NUM_INODES ->
  has s (IBM_ABSOLUTE_BLK_LOC (Inode.i_no i)) blk ->
  dealloc_ino i s = Crash Undefined_behaviour.
Proof.
  intros Hs Hi Hblk. destruct (rblk_Ok s _ _ Hs Hblk) as (st1&Hr1&Hf1).
  assert (BLK_SZ_BITS = 32768) as HB by done. assert (ROOT_INO = 2) as HR by done.
  unfold dealloc_ino. destruct (Z.eqb_spec (Inode.i_no i) ROOT_INO); [lia|]. msteps. mrun Hr1.
  apply bind_Crash. unfold IBitMap.clear_bit, IBitMap.append_ibm_blk.
  assert (1 <= Inode.i_no i / BLK_SZ_BITS) by (apply Z.div_le_lower_bound; lia).
  destruct (Z.to_nat (Inode.i_no i / BLK_SZ_BITS)) as [|k] eqn:Hk; [lia|]. done.
Qed.

End handle.
