(* ===== verification/Acl.v ===== *)
(** * Access control: [bfs_acl.cpp] and [bfs_usr.cpp]

    User contexts by connection, uid allocation, and the permission test that
    guards the file operations. *)
From S2P Require Import Prelude Layout.

Module User.
(** [BfsUserContext]; the security association is not used here. *)
Record t := mk { uid : Z; user_send_seq : Z; user_recv_seq : Z }.
Definition ctor (u : Z) : t := mk u 0 0.
Definition inc_send_seq (u : t) : t := mk (uid u) (u32 (user_send_seq u + 1)) (user_recv_seq u).
Definition inc_recv_seq (u : t) : t := mk (uid u) (user_send_seq u) (u32 (user_recv_seq u + 1)).
End User.

Module ACLayer.
Definition BFS__S_IRWXU : Z := 0x1C0.
Definition BFS__S_IRWXO : Z := 0x7.

(** The statics; connections are pointers. *)
Record t := mk {
  ACLayerInitialized : bool;
  next_uid : Z;
  user_contexts : gmap Z User.t
}.

Definition uninit : t := mk false 0 ∅.

Definition BfsACLayer_init (s : t) : t := mk true 1001 (user_contexts s).

Definition alloc_uid (s : t) : Z * t :=
  if ACLayerInitialized s
  then (next_uid s, mk true (u32 (next_uid s + 1)) (user_contexts s))
  else (0, s).

(** [unordered_map::insert] keeps the context of a known connection, but the
    new uid is used up all the same. *)
Definition add_user_context (conn : Z) (s : t) : option User.t * t :=
  if ACLayerInitialized s then
    let '(u, s) := alloc_uid s in
    match user_contexts s !! conn with
    | Some c => (Some c, s)
    | None => (Some (User.ctor u),
               mk (ACLayerInitialized s) (next_uid s) (<[conn := User.ctor u]> (user_contexts s)))
    end
  else (None, s).

Definition get_user_context (conn : Z) (s : t) : option User.t :=
  if ACLayerInitialized s then user_contexts s !! conn else None.

Section tests.
Context (init : bool).
Definition is_owner (usr : option User.t) (owner : Z) : bool :=
  init && match usr with Some u => User.uid u =? owner | None => false end.
Definition owner_access_ok (usr : option User.t) (mode : Z) : bool :=
  init && bool_decide (is_Some usr) && negb (Z.land mode BFS__S_IRWXU =? 0).
Definition world_access_ok (usr : option User.t) (mode : Z) : bool :=
  init && bool_decide (is_Some usr) && negb (Z.land mode BFS__S_IRWXO =? 0).

(** The test of the file operations; [true] is [Permission denied]. *)
Definition denied (usr : option User.t) (owner mode : Z) : bool :=
  (is_owner usr owner && negb (owner_access_ok usr mode)) || negb (world_access_ok usr mode).
End tests.

(** ** Users are told apart *)
Definition inv (s : t) : Prop :=
  1001 <= next_uid s /\
  (forall conn u, user_contexts s !! conn = Some u -> 1001 <= User.uid u < next_uid s) /\
  (forall c1 c2 u1 u2, user_contexts s !! c1 = Some u1 -> user_contexts s !! c2 = Some u2 ->
     User.uid u1 = User.uid u2 -> c1 = c2).

Fixpoint connect_all (conns : list Z) (s : t) : t :=
  match conns with
  | [] => s
  | c :: conns => connect_all conns (add_user_context c s).2
  end.

Lemma add_user_context_inv conn s :
  inv s -> next_uid s < 2 ^ 32 - 1 -> ACLayerInitialized s = true ->
  inv (add_user_context conn s).2 /\ next_uid (add_user_context conn s).2 = next_uid s + 1 /\
  ACLayerInitialized (add_user_context conn s).2 = true /\
  is_Some (get_user_context conn (add_user_context conn s).2).
Proof.
  intros (Hn&Hr&Hu) Hlt Hi. unfold add_user_context, alloc_uid, get_user_context. rewrite Hi. cbn.
  assert (u32 (next_uid s + 1) = next_uid s + 1) as He by (apply u32_small; lia).
  destruct (user_contexts s !! conn) as [u|] eqn:Hc; cbn; rewrite He.
  - rewrite Hc. split_and!; [|done|done|by eexists]. split_and!; cbn; [lia| |done].
    intros c v Hv. specialize (Hr c v Hv). lia.
  - rewrite lookup_insert_eq. split_and!; [|done|done|by eexists]. split_and!; cbn; [lia|..].
    + intros c v Hv. destruct (decide (c = conn)) as [->|Hne].
      * rewrite lookup_insert_eq in Hv. simplify_eq. cbn. lia.
      * rewrite lookup_insert_ne in Hv by done. specialize (Hr c v Hv). lia.
    + intros c1 c2 u1 u2 H1 H2 Heq.
      rewrite lookup_insert in H1. rewrite lookup_insert in H2. repeat case_decide; simplify_eq; try done;
        try (by eapply Hu);
        match goal with Hx : user_contexts s !! _ = Some _ |- _ => specialize (Hr _ _ Hx); cbn in Heq; lia end.
Qed.

(** After any sequence of connections, every connected user has a context,
    and two different connections have different user ids, none of them
    reserved; so ownership of an inode names one connection. *)
Theorem connected_users_distinct conns :
  zlen conns < 2 ^ 32 - 1002 ->
  let s := connect_all conns (BfsACLayer_init uninit) in
  inv s /\ Forall (fun c => is_Some (get_user_context c s)) conns.
Proof.
  intros Hl s. assert (forall s0, inv s0 -> ACLayerInitialized s0 = true ->
    next_uid s0 + zlen conns < 2 ^ 32 -> let s := connect_all conns s0 in
    inv s /\ ACLayerInitialized s = true /\
    (forall c u, user_contexts s0 !! c = Some u -> user_contexts s !! c = Some u) /\
    Forall (fun c => is_Some (get_user_context c s)) conns) as Hgen.
  { clear. induction conns as [|c conns IH]; intros s0 Hinv Hi Hn s; [by split_and!|].
    assert (zlen (c :: conns) = 1 + zlen conns) as Hz by apply zlen_cons.
    pose proof (zlen_nonneg conns).
    destruct (add_user_context_inv c s0 Hinv) as (Hinv1&Hn1&Hi1&Hc1); [lia|done|].
    destruct (IH (add_user_context c s0).2 Hinv1 Hi1) as (H1&H2&H3&H4); [lia|].
    fold connect_all in s. change (connect_all conns (add_user_context c s0).2) with s in *.
    split_and!; [done|done| |].
    - intros c' u Hu. apply H3. unfold add_user_context, alloc_uid. rewrite Hi. cbn.
      destruct (user_contexts s0 !! c) eqn:Hc; cbn; [done|]. rewrite lookup_insert_ne; [done|congruence].
    - constructor; [|done]. unfold get_user_context in *. rewrite H2. rewrite Hi1 in Hc1.
      destruct Hc1 as [u Hu]. exists u. by apply H3. }
  destruct (Hgen (BfsACLayer_init uninit)) as (H1&_&_&H4); [|done|cbn; lia|done].
  split_and!; cbn; [lia|..]; intros *; rewrite lookup_empty; done.
Qed.

(** What the permission test requires of every user, the owner included: a
    permission bit for others.  So the owner of an object with mode 0700 is
    denied, and with mode 0007 every other user passes. *)
Theorem access_needs_world_bits init usr owner mode :
  denied init usr owner mode = false <->
  init = true /\ (exists u, usr = Some u /\ (User.uid u = owner -> Z.land mode BFS__S_IRWXU <> 0)) /\
  Z.land mode BFS__S_IRWXO <> 0.
Proof.
  unfold denied, is_owner, owner_access_ok, world_access_ok.
  destruct init, usr as [u|]; cbn; rewrite ?orb_true_r; try (split; [done|naive_solver]).
  destruct (Z.eqb_spec (User.uid u) owner), (Z.eqb_spec (Z.land mode BFS__S_IRWXU) 0),
    (Z.eqb_spec (Z.land mode BFS__S_IRWXO) 0); cbn; naive_solver.
Qed.

Example owner_0700_denied u : denied true (Some u) (User.uid u) 0x1C0 = true.
Proof. unfold denied, is_owner. cbn. by rewrite Z.eqb_refl. Qed.

Lemma connected_users_distinct_witness :
  Forall (fun c => is_Some (get_user_context c (connect_all [5; 7; 5] (BfsACLayer_init uninit)))) [5; 7; 5].
Proof. apply (connected_users_distinct [5; 7; 5]). vm_compute. done. Defined.
End ACLayer.
