(* ===== verification/FsDir.v ===== *)
(** * Directories: searching and adding entries, path lookup

    Models [check_each_dentry], [check_direct_blks], [check_indirect_blks],
    [add_dentry_to_direct_blks], [add_dentry_to_indirect_blks] and [get_de] of
    [bfs_core.cpp].  An entry's name is the whole path of the object, as the
    code stores it.  The dentry cache is off ([read_dcache] finds nothing,
    [write_dcache] does nothing); object locks are not modelled. *)
From S2P Require Import Prelude Layout BfsUtil CoreTypes BlockLayer BlockStore FsAlloc Acl.

(** [de_handler] 1, 2 and 3. *)
Inductive handler := GetDe | ReadDir | FindEmpty.

#[export] Instance handler_eq_dec : EqDecision handler.
Proof. solve_decision. Defined.

(** ** One block of entries *)
Record ced := mkCed {
  c_ret : bool;
  c_de : option DirEntry.t;
  c_all : bool;
  c_tested : Z;
  c_ents : list DirEntry.t
}.

(** [new DirEntry(name, ino, blk, idx)]. *)
Definition dentry_at (name : bytes) (ino vbid idx : Z) : DirEntry.t :=
  DirEntry.ctor name ino vbid idx 0 0 0 0 0.

Section block.
Context (h : handler) (search_de : bytes) (links vbid : Z) (blk : bytes).

(** The loop over the slots [de_idx ..].  [None]: an entry that does not
    deserialize. *)
Fixpoint ced_loop (n : nat) (de_idx : Z) (all : bool) (tested : Z) (ents : list DirEntry.t) : option ced :=
  match n with
  | O => Some (mkCed (bool_decide (h = ReadDir)) None all tested ents)
  | S n =>
      '(curr, len) ← DirEntry.deserialize DirEntry.default blk (DENTRY_ABSOLUTE_BLK_OFF de_idx);
      if negb (len =? DIRENT_SZ) then None
      else
        let name := DirEntry.de_name curr in
        let ino := DirEntry.ino curr in
        let invalid := bool_decide (name = []) || (ino <? ROOT_INO) in
        let next (ents : list DirEntry.t) :=
          let tested := u32 (tested + 1) in
          if negb (bool_decide (h = FindEmpty)) && (tested =? links)
          then Some (mkCed (negb (bool_decide (h = GetDe))) None true tested ents)
          else ced_loop n (de_idx + 1) all tested ents in
        if negb (bool_decide (h = FindEmpty)) && invalid
        then ced_loop n (de_idx + 1) all tested ents
        else
          let temp := dentry_at name ino vbid de_idx in
          match h with
          | GetDe =>
              if bool_decide (name = search_de) && (ROOT_INO <=? ino)
              then Some (mkCed true (Some temp) all tested ents) else next ents
          | FindEmpty =>
              if bool_decide (name = search_de)
              then Some (mkCed true (Some temp) all tested ents) else next ents
          | ReadDir => next (if invalid then ents else ents ++ [temp])
          end
  end.

Definition check_each_dentry (all : bool) (tested : Z) (ents : list DirEntry.t) : option ced :=
  if negb (bool_decide (h = FindEmpty)) && (tested =? links)
  then Some (mkCed (negb (bool_decide (h = GetDe))) None true tested ents)
  else ced_loop (Z.to_nat NUM_DIRENTS_PER_BLOCK) 0 all tested ents.
End block.

(** What the block searches update: the result, [*de], the flag, the inode to
    go on with, the number of entries tested, the entries collected. *)
Record search := mkSearch {
  sr_ret : bool;
  sr_de : option DirEntry.t;
  sr_all : bool;
  sr_ino : Z;
  sr_tested : Z;
  sr_ents : list DirEntry.t
}.

Section dir.
Context {B : Type} `{BlockStore B} (acl : bool).
Abbreviation fs := (fs B).

(** ** Searching the blocks of a directory *)

(** The checks at the head of both searches. *)
Definition dir_inode (what : string) (usr : option User.t) (ino : Z) : M fs Inode.t :=
  i ← read_inode ino;
  if negb (Inode.i_no i =? ino) then die Abort_called
  else if ACLayer.denied acl usr (Inode.uid i) (Inode.mode i)
  then throw (BfsAccessDeniedError "Permission denied")
  else if negb (BFS__S_ISDIR (Inode.mode i)) then throw (BfsClientRequestFailedError what)
  else mret i.

(** The loop over the block ids; [inr] is the state at its normal end. *)
Fixpoint scan_blks (h : handler) (search_de : bytes) (i : Inode.t) (l : list Z) (st : search) :
    M fs (search + search) :=
  match l with
  | [] => mret (inr st)
  | v :: l =>
      ds ← gets data_start;
      if v <? ds then
        mret (inl (mkSearch (negb (bool_decide (h = GetDe))) (sr_de st) true (sr_ino st)
                     (sr_tested st) (sr_ents st)))
      else
        blk ← rblk v;
        c ← of_opt (check_each_dentry h search_de (Inode.i_links_count i) v blk
                      (sr_all st) (sr_tested st) (sr_ents st));
        let de := match c_de c with Some d => Some d | None => sr_de st end in
        match c_ret c && bool_decide (h = GetDe), c_de c with
        | true, Some d =>
            mret (inl (mkSearch true (Some d) (c_all c) (DirEntry.ino d) (c_tested c) (c_ents c)))
        | true, None => die Undefined_behaviour
        | false, _ =>
            if c_all c then
              mret (inl (mkSearch (negb (bool_decide (h = GetDe))) de true (sr_ino st) (c_tested c) (c_ents c)))
            else scan_blks h search_de i l
                   (mkSearch (sr_ret st) de false (sr_ino st) (c_tested c) (c_ents c))
        end
  end.

Definition end_of_search (h : handler) (all : bool) (st : search) : search :=
  mkSearch (negb (bool_decide (h = GetDe))) (sr_de st) all (sr_ino st) (sr_tested st) (sr_ents st).

Definition check_direct_blks (usr : option User.t) (h : handler) (search_de : bytes) (st : search) : M fs search :=
  i ← dir_inode "Inode is not a directory file (check direct blks)" usr (sr_ino st);
  r ← scan_blks h search_de i (take (Z.to_nat NUM_DIRECT_BLOCKS) (Inode.i_blks i)) st;
  match r with
  | inl st => mret st
  | inr st =>
      assert_ (sr_tested st <=? Inode.i_links_count i) ;;
      mret (end_of_search h (sr_all st) st)
  end.

Definition check_indirect_blks (usr : option User.t) (h : handler) (search_de : bytes) (st : search) : M fs search :=
  i ← dir_inode "Inode is not a directory file (check indirect blks)" usr (sr_ino st);
  ib_loc ← vec_at (Inode.i_blks i) NUM_DIRECT_BLOCKS;
  blk ← rblk ib_loc;
  '(ib, len) ← of_opt (IndirectBlock.deserialize blk 0);
  assert_ (len <=? BLK_SZ) ;;
  r ← scan_blks h search_de i ib st;
  match r with
  | inl st => mret st
  | inr st =>
      assert_ (sr_tested st =? Inode.i_links_count i) ;;
      mret (end_of_search h true st)
  end.

(** ** Path lookup *)

(** [path.find("/", start)]. *)
Fixpoint find_slash (p : bytes) (pos start : nat) : option nat :=
  match p with
  | [] => None
  | x :: p => if decide (start <= pos)%nat then
                if decide (x = slash) then Some pos else find_slash p (S pos) start
              else find_slash p (S pos) start
  end.

(** One round per component; [None] is [BFS_FAILURE].  [*de] is reset by the
    cache lookup of each round. *)
Fixpoint walk (fuel : nat) (usr : option User.t) (path : bytes) (start : nat) (ino : Z) :
    M fs (option DirEntry.t) :=
  match fuel with
  | O => die Out_of_fuel
  | S fuel =>
      let end_ := find_slash path 0 start in
      let name := match end_ with Some e => take e path | None => path end in
      let continue (st : search) :=
        match end_ with
        | Some e => walk fuel usr path (e + 1) (sr_ino st)
        | None => mret (sr_de st)
        end in
      st ← check_direct_blks usr GetDe name (mkSearch false None false ino 0 []);
      if sr_ret st then continue st
      else if sr_all st then mret None
      else
        st ← check_indirect_blks usr GetDe name st;
        if sr_ret st then continue st
        else if sr_all st then mret None
        else die Abort_called
  end.

Definition get_de (usr : option User.t) (path : bytes) : M fs (option DirEntry.t) :=
  match path with
  | x :: rest =>
      if decide (x = slash) then
        match rest with
        | [] =>
            root ← gets (fun s => SuperBlock.root_ino (sb s));
            ds ← gets data_start;
            mret (Some (dentry_at [slash] root ds 0))
        | _ =>
            root ← gets (fun s => SuperBlock.root_ino (sb s));
            de ← walk (S (length path)) usr path 1 root;
            match de with
            | Some d => if decide (DirEntry.de_name d = path) then mret (Some d) else mret None
            | None => mret None
            end
        end
      else mret None
  | [] => mret None
  end.

(** ** Adding an entry *)

(** The common end of both loops: take the first empty slot of the block, write
    the block and the parent.  [None]: no empty slot. *)
Definition place_dentry (par : Inode.t) (new_ino : Z) (path : bytes) (vbid : Z) (blk : bytes) :
    M fs (option Inode.t) :=
  c ← of_opt (check_each_dentry FindEmpty [] (Inode.i_links_count par) vbid blk false 0 []);
  match c_ret c, c_de c with
  | true, Some de =>
      let de := DirEntry.set_blk_loc vbid (DirEntry.set_ino new_ino (DirEntry.set_de_name path de)) in
      '(blk, len) ← of_opt (DirEntry.serialize de blk (DENTRY_ABSOLUTE_BLK_OFF (DirEntry.blk_idx_loc de)));
      assert_ (len =? DIRENT_SZ) ;;
      wblk vbid blk ;;
      let par := Inode.set_i_links (u64 (Inode.i_links_count par + 1)) par in
      write_inode par bfs_O_SYNC 0 true ;;
      mret (Some par)
  | true, None => die Undefined_behaviour
  | false, _ => mret None
  end.

Definition set_i_blk_m (idx vbid : Z) (i : Inode.t) : M fs Inode.t :=
  match Inode.set_i_blk idx vbid i with Some i => mret i | None => throw std_out_of_range end.

(** Whether the entry was added, and the parent after the call. *)
Fixpoint add_direct_loop (n : nat) (dir_idx : Z) (skip_read : bool) (par : Inode.t) (new_ino : Z)
    (path : bytes) : M fs (bool * Inode.t) :=
  match n with
  | O => mret (false, par)
  | S n =>
      v ← vec_at (Inode.i_blks par) dir_idx;
      ds ← gets data_start;
      let go skip_read par :=
        v ← vec_at (Inode.i_blks par) dir_idx;
        blk ← (if (skip_read : bool) then mret (zeros BLK_SZ) else rblk v);
        r ← place_dentry par new_ino path v blk;
        match r with
        | Some par => mret (true, par)
        | None => add_direct_loop n (dir_idx + 1) skip_read par new_ino path
        end in
      if v <? ds then
        new_blk ← sb_alloc_blk;
        if new_blk =? 0 then mret (false, par)
        else
          par ← set_i_blk_m dir_idx new_blk par;
          write_inode par bfs_O_SYNC 0 true ;;
          go true par
      else go skip_read par
  end.

Definition add_dentry_to_direct_blks (par : Inode.t) (new_ino : Z) (path : bytes) : M fs (bool * Inode.t) :=
  add_direct_loop (Z.to_nat NUM_DIRECT_BLOCKS) 0 false par new_ino path.

(** [buf] is the indirect block's buffer, [ib_loc] its id. *)
Fixpoint add_indirect_loop (n : nat) (idx : Z) (skip_read : bool) (ib_loc : Z) (buf : bytes)
    (ib : IndirectBlock.t) (par : Inode.t) (new_ino : Z) (path : bytes) : M fs (bool * Inode.t) :=
  match n with
  | O => mret (false, par)
  | S n =>
      v ← vec_at ib idx;
      ds ← gets data_start;
      let go skip_read (buf : bytes) ib :=
        v ← vec_at ib idx;
        blk ← (if (skip_read : bool) then mret (zeros BLK_SZ) else rblk v);
        r ← place_dentry par new_ino path v blk;
        match r with
        | Some par => mret (true, par)
        | None => add_indirect_loop n (idx + 1) skip_read ib_loc buf ib par new_ino path
        end in
      if v <? ds then
        new_blk ← sb_alloc_blk;
        if new_blk =? 0 then mret (false, par)
        else
          match IndirectBlock.set_indirect_loc idx new_blk ib with
          | None => throw std_out_of_range
          | Some ib =>
              '(buf, len) ← of_opt (IndirectBlock.serialize ib buf 0);
              assert_ (len <=? BLK_SZ) ;;
              buf ← wblk ib_loc buf;
              go true buf ib
          end
      else go skip_read buf ib
  end.

Definition add_dentry_to_indirect_blks (par : Inode.t) (new_ino : Z) (path : bytes) : M fs (bool * Inode.t) :=
  v ← vec_at (Inode.i_blks par) NUM_DIRECT_BLOCKS;
  ds ← gets data_start;
  if v <? ds then
    new_blk ← sb_alloc_blk;
    if new_blk =? 0 then mret (false, par)
    else
      par ← set_i_blk_m NUM_DIRECT_BLOCKS new_blk par;
      add_indirect_loop (length IndirectBlock.ctor) 0 true new_blk (zeros BLK_SZ) IndirectBlock.ctor par new_ino path
  else
    buf ← rblk v;
    '(ib, len) ← of_opt (IndirectBlock.deserialize buf 0);
    assert_ (len <=? BLK_SZ) ;;
    add_indirect_loop (length ib) 0 false v buf ib par new_ino path.

End dir.

(** ** Entries of a block as (name, inode) pairs *)
Abbreviation slot := (bytes * Z)%type.

Definition live_slot (p : slot) : Prop := p.1 <> [] /\ ROOT_INO <= p.2.
#[export] Instance live_slot_dec p : Decision (live_slot p).
Proof. unfold live_slot. apply _. Defined.

(** Every slot is free or an entry; nothing half-written. *)
Definition slot_ok (p : slot) : Prop := p.1 = [] \/ live_slot p.

Definition slot_at (blk : bytes) (k : Z) (p : slot) : Prop :=
  exists d, DirEntry.deserialize DirEntry.default blk (DENTRY_ABSOLUTE_BLK_OFF k) = Some (d, DIRENT_SZ) /\
    DirEntry.de_name d = p.1 /\ DirEntry.ino d = p.2.

Definition slots (blk : bytes) (sl : list slot) : Prop :=
  zlen sl = NUM_DIRENTS_PER_BLOCK /\ forall k p, sl !! k = Some p -> slot_at blk (Z.of_nat k) p.

(** Number of entries of a list of slots. *)
Definition entries (sl : list slot) : Z := zlen (filter live_slot sl).

Lemma entries_cons p sl : entries (p :: sl) = (if decide (live_slot p) then 1 else 0) + entries sl.
Proof. unfold entries, zlen. rewrite filter_cons. case_decide; cbn; lia. Qed.

Lemma entries_app a b : entries (a ++ b) = entries a + entries b.
Proof. unfold entries, zlen. rewrite filter_app, length_app. lia. Qed.

Lemma entries_nonneg sl : 0 <= entries sl.
Proof. apply zlen_nonneg. Qed.

(** The first entry with a name. *)
Fixpoint find_slot (name : bytes) (sl : list slot) : option (nat * Z) :=
  match sl with
  | [] => None
  | p :: sl =>
      if decide (live_slot p /\ p.1 = name) then Some (0%nat, p.2)
      else '(k, i) ← find_slot name sl; Some (S k, i)
  end.

Lemma find_slot_entries name sl r : find_slot name sl = Some r -> 0 < entries sl.
Proof.
  revert r. induction sl as [|p sl IH]; intros r Hf; [done|]. cbn in Hf. rewrite entries_cons.
  pose proof (entries_nonneg sl). destruct (decide (live_slot p)) as [Hp|Hp].
  - lia.
  - rewrite decide_False in Hf by naive_solver. destruct (find_slot name sl) as [r'|]; [|done].
    specialize (IH r' eq_refl). lia.
Qed.

Lemma invalid_iff (p : slot) : bool_decide (p.1 = []) || (p.2 <? ROOT_INO) = negb (bool_decide (live_slot p)).
Proof.
  destruct (decide (live_slot p)) as [[Hn Hr]|Hd].
  - rewrite (bool_decide_true (live_slot p)) by done. rewrite bool_decide_false by done.
    destruct (Z.ltb_spec p.2 ROOT_INO); [lia|done].
  - rewrite (bool_decide_false (live_slot p)) by done. cbn [negb].
    destruct (Z.ltb_spec p.2 ROOT_INO); [apply orb_true_r|]. rewrite bool_decide_true; [done|].
    destruct (decide (p.1 = [])); [done|]. by destruct Hd.
Qed.

(** One step of the loop on a slot. *)
Lemma ced_loop_step h name links vbid blk n k p all tested ents :
  slot_at blk k p ->
  ced_loop h name links vbid blk (S n) k all tested ents =
    let next ents :=
      if negb (bool_decide (h = FindEmpty)) && (u32 (tested + 1) =? links)
      then Some (mkCed (negb (bool_decide (h = GetDe))) None true (u32 (tested + 1)) ents)
      else ced_loop h name links vbid blk n (k + 1) all (u32 (tested + 1)) ents in
    if negb (bool_decide (h = FindEmpty)) && negb (bool_decide (live_slot p))
    then ced_loop h name links vbid blk n (k + 1) all tested ents
    else
      match h with
      | GetDe => if bool_decide (p.1 = name) && (ROOT_INO <=? p.2)
                 then Some (mkCed true (Some (dentry_at p.1 p.2 vbid k)) all tested ents) else next ents
      | FindEmpty => if bool_decide (p.1 = name)
                     then Some (mkCed true (Some (dentry_at p.1 p.2 vbid k)) all tested ents) else next ents
      | ReadDir => next (if negb (bool_decide (live_slot p)) then ents else ents ++ [dentry_at p.1 p.2 vbid k])
      end.
Proof.
  intros (d&Hd&Hn&Hi). cbn [ced_loop]. rewrite Hd, some_bind. rewrite Z.eqb_refl. cbn [negb].
  by rewrite Hn, Hi, invalid_iff.
Qed.

Section oneblock.
Context (name : bytes) (links vbid : Z) (blk : bytes) (Hlinks : links < 2 ^ 32).

(** [get_de]'s search of a block that holds the name. *)
Lemma ced_get_found sl k all tested ents j ino :
  (forall i p, sl !! i = Some p -> slot_at blk (k + Z.of_nat i) p) ->
  find_slot name sl = Some (j, ino) -> 0 <= tested -> tested + entries sl <= links ->
  exists t, ced_loop GetDe name links vbid blk (length sl) k all tested ents =
      Some (mkCed true (Some (dentry_at name ino vbid (k + Z.of_nat j))) all t ents) /\ 0 <= t < links.
Proof.
  revert k tested j. induction sl as [|p sl IH]; intros k tested j Hsl Hf Ht Hc; [done|].
  cbn [length]. rewrite (ced_loop_step _ _ _ _ _ _ _ p) by (specialize (Hsl 0%nat p eq_refl); by rewrite Z.add_0_r in Hsl).
  assert (forall i q, sl !! i = Some q -> slot_at blk (k + 1 + Z.of_nat i) q) as Hsl'.
  { intros i q Hq. specialize (Hsl (S i) q Hq). by replace (k + 1 + Z.of_nat i) with (k + Z.of_nat (S i)) by lia. }
  rewrite entries_cons in Hc. pose proof (entries_nonneg sl). cbn [find_slot] in Hf.
  cbv zeta. change (bool_decide (GetDe = FindEmpty)) with false. cbn [negb andb].
  destruct (decide (live_slot p /\ p.1 = name)) as [Hm|Hm].
  - destruct Hm as [Hlive <-]. simplify_eq. rewrite bool_decide_true by done. cbn [negb].
    destruct Hlive as [? Hr]. rewrite bool_decide_true by done.
    destruct (Z.leb_spec ROOT_INO p.2); [|lia]. cbn [andb]. exists tested. rewrite Z.add_0_r. split; [done|].
    rewrite decide_True in Hc by done. lia.
  - destruct (find_slot name sl) as [[j' i']|] eqn:Hf'; [|done]. cbn in Hf. simplify_eq.
    replace (k + Z.of_nat (S j')) with (k + 1 + Z.of_nat j') by lia.
    destruct (decide (live_slot p)) as [Hlive|Hdead].
    + rewrite bool_decide_true by done. cbn [negb].
      destruct (bool_decide (p.1 = name)) eqn:Hpn.
      { apply bool_decide_eq_true in Hpn. naive_solver. }
      cbn [andb].
      pose proof (find_slot_entries _ _ _ Hf') as Hpos.
      rewrite u32_small by lia. destruct (Z.eqb_spec (tested + 1) links); [lia|].
      apply IH; (done || lia).
    + rewrite bool_decide_false by done. cbn [negb]. apply IH; (done || lia).
Qed.

Lemma slots_tail (sl : list slot) p k :
  (forall i q, (p :: sl) !! i = Some q -> slot_at blk (k + Z.of_nat i) q) ->
  slot_at blk k p /\ forall i q, sl !! i = Some q -> slot_at blk (k + 1 + Z.of_nat i) q.
Proof.
  intros Hsl. split; [specialize (Hsl 0%nat p eq_refl); by rewrite Z.add_0_r in Hsl|].
  intros i q Hq. specialize (Hsl (S i) q Hq). by replace (k + 1 + Z.of_nat i) with (k + Z.of_nat (S i)) by lia.
Qed.

(** The search of a block that does not hold the name. *)
Lemma ced_get_none sl k all tested ents :
  (forall i p, sl !! i = Some p -> slot_at blk (k + Z.of_nat i) p) ->
  find_slot name sl = None -> 0 <= tested < links -> tested + entries sl <= links ->
  ced_loop GetDe name links vbid blk (length sl) k all tested ents =
    Some (mkCed false None (bool_decide (tested + entries sl = links) || all) (tested + entries sl) ents).
Proof.
  revert k tested. induction sl as [|p sl IH]; intros k tested Hsl Hf Ht Hc.
  { cbn. change (entries []) with 0. rewrite Z.add_0_r, (bool_decide_false (tested = links)) by lia. done. }
  apply slots_tail in Hsl as [Hp Hsl]. cbn [length]. rewrite (ced_loop_step _ _ _ _ _ _ _ p) by done.
  rewrite entries_cons in Hc |- *. pose proof (entries_nonneg sl). cbn [find_slot] in Hf.
  cbv zeta. change (bool_decide (GetDe = FindEmpty)) with false. change (bool_decide (GetDe = GetDe)) with true.
  cbn [negb andb]. destruct (decide (live_slot p /\ p.1 = name)) as [Hm|Hm]; [done|].
  destruct (find_slot name sl) as [[??]|]; [done|].
  destruct (decide (live_slot p)) as [Hlive|Hdead].
  - rewrite bool_decide_true by done. cbn [negb]. rewrite (bool_decide_false (p.1 = name)) by naive_solver.
    cbn [andb]. rewrite u32_small by lia. destruct (Z.eqb_spec (tested + 1) links) as [He|He].
    + assert (entries sl = 0) as -> by lia. rewrite bool_decide_true by lia. do 2 f_equal; lia.
    + rewrite IH by (done || lia). by rewrite Z.add_assoc.
  - rewrite bool_decide_false by done. cbn [negb]. rewrite IH by (done || lia). done.
Qed.

(** The entries a directory listing collects from a block. *)
Fixpoint listing (k : Z) (sl : list slot) : list DirEntry.t :=
  match sl with
  | [] => []
  | p :: sl => (if decide (live_slot p) then [dentry_at p.1 p.2 vbid k] else []) ++ listing (k + 1) sl
  end.

Lemma listing_dead k sl : entries sl = 0 -> listing k sl = [].
Proof.
  revert k. induction sl as [|p sl IH]; intros k He; [done|]. rewrite entries_cons in He.
  pose proof (entries_nonneg sl). cbn. case_decide; [lia|]. apply IH. lia.
Qed.

Lemma ced_readdir sl k all tested ents :
  (forall i p, sl !! i = Some p -> slot_at blk (k + Z.of_nat i) p) ->
  0 <= tested < links -> tested + entries sl <= links ->
  ced_loop ReadDir name links vbid blk (length sl) k all tested ents =
    Some (mkCed true None (bool_decide (tested + entries sl = links) || all) (tested + entries sl)
            (ents ++ listing k sl)).
Proof.
  revert k tested ents. induction sl as [|p sl IH]; intros k tested ents Hsl Ht Hc.
  { cbn. change (entries []) with 0. rewrite Z.add_0_r, (bool_decide_false (tested = links)), app_nil_r by lia. done. }
  apply slots_tail in Hsl as [Hp Hsl]. cbn [length]. rewrite (ced_loop_step _ _ _ _ _ _ _ p) by done.
  rewrite entries_cons in Hc |- *. pose proof (entries_nonneg sl).
  cbv zeta. change (bool_decide (ReadDir = FindEmpty)) with false. change (bool_decide (ReadDir = GetDe)) with false.
  cbn [negb andb listing]. destruct (decide (live_slot p)) as [Hlive|Hdead].
  - rewrite bool_decide_true by done. cbn [negb]. rewrite u32_small by lia.
    destruct (Z.eqb_spec (tested + 1) links) as [He|He].
    + assert (entries sl = 0) as Hz by lia. rewrite (listing_dead _ _ Hz), Hz.
      rewrite bool_decide_true by lia. cbn [app]. do 2 f_equal; lia.
    + rewrite IH by (done || lia). by rewrite Z.add_assoc, <-app_assoc.
  - rewrite bool_decide_false by done. cbn [negb]. rewrite IH by (done || lia). done.
Qed.

(** The first free slot. *)
Fixpoint free_slot (sl : list slot) : option nat :=
  match sl with
  | [] => None
  | p :: sl => if decide (p.1 = []) then Some 0%nat else S <$> free_slot sl
  end.

Lemma ced_find_empty sl k all tested ents :
  (forall i p, sl !! i = Some p -> slot_at blk (k + Z.of_nat i) p) ->
  match free_slot sl with
  | Some j => exists ino t, ced_loop FindEmpty [] links vbid blk (length sl) k all tested ents =
                Some (mkCed true (Some (dentry_at [] ino vbid (k + Z.of_nat j))) all t ents)
  | None => exists t, ced_loop FindEmpty [] links vbid blk (length sl) k all tested ents =
                Some (mkCed false None all t ents)
  end.
Proof.
  revert k tested. induction sl as [|p sl IH]; intros k tested Hsl; [by eexists|].
  apply slots_tail in Hsl as [Hp Hsl]. cbn [length free_slot].
  rewrite (ced_loop_step _ _ _ _ _ _ _ p) by done. cbv zeta.
  change (bool_decide (FindEmpty = FindEmpty)) with true. cbn [negb andb].
  case_decide as Hn.
  - rewrite Hn, bool_decide_true by done. do 2 eexists. by rewrite Z.add_0_r.
  - rewrite bool_decide_false by done. specialize (IH (k + 1) (u32 (tested + 1)) Hsl).
    destruct (free_slot sl) as [j|]; cbn; [|done].
    destruct IH as (i&t&->). exists i, t.
    by replace (k + Z.of_nat (S j)) with (k + 1 + Z.of_nat j) by lia.
Qed.
End oneblock.
