(* ===== verification/FsDirSpec.v ===== *)
(** * A directory is a finite map from names to inodes

    Search, listing and insertion on directories kept in direct blocks
    ([check_direct_blks], [add_dentry_to_direct_blks]), against the list of
    entries they represent. *)
From S2P Require Import Prelude Layout BfsUtil CoreTypes BlockLayer BlockStore FsAlloc Acl FsDir.

(** ** Changing one slot of a block *)
Lemma slot_at_other blk blk' d j k p :
  mem_set (DENTRY_ABSOLUTE_BLK_OFF j) d blk = Some blk' -> zlen d = DIRENT_SZ -> j <> k ->
  slot_at blk k p -> slot_at blk' k p.
Proof.
  intros Hm Hz Hne (e&He&Hp). exists e. split; [|done]. rewrite <-He.
  assert (DENTRY_ABSOLUTE_BLK_OFF k + DIRENT_SZ <= DENTRY_ABSOLUTE_BLK_OFF j \/
    DENTRY_ABSOLUTE_BLK_OFF j + DIRENT_SZ <= DENTRY_ABSOLUTE_BLK_OFF k) as Hd
    by (unfold DENTRY_ABSOLUTE_BLK_OFF, DIRENT_SZ, MAX_FILE_NAME_LEN; lia).
  unfold DirEntry.deserialize, get_le. assert (DIRENT_SZ = 263) as HD by done.
  assert (MAX_FILE_NAME_LEN = 255) as HM by done.
  rewrite !(mem_get_set_ne _ _ _ _ _ _ Hm) by lia.
  destruct (mem_get (DENTRY_ABSOLUTE_BLK_OFF k) (Z.of_nat 8) blk); [|done].
  rewrite !some_bind. rewrite !(mem_get_set_ne _ _ _ _ _ _ Hm) by lia. done.
Qed.

Lemma slots_update blk blk' sl j (e : DirEntry.t) :
  slots blk sl -> zlen blk = BLK_SZ -> (j < length sl)%nat -> DirEntry.wf e ->
  DirEntry.serialize e blk (DENTRY_ABSOLUTE_BLK_OFF (Z.of_nat j)) = Some (blk', DIRENT_SZ) ->
  slots blk' (<[j := (DirEntry.de_name e, DirEntry.ino e)]> sl) /\ zlen blk' = BLK_SZ.
Proof.
  intros [Hl Hs] Hz Hj Hwf Hser.
  pose proof (dentry_off_range (Z.of_nat j)) as [Ho1 Ho2]; [unfold zlen in Hl; lia|].
  destruct (DirEntry.de_serialize_mem_set e blk (DENTRY_ABSOLUTE_BLK_OFF (Z.of_nat j)) Hwf) as (b&Hb&Hm); [lia..|].
  rewrite Hser in Hb. simplify_eq. split; [|by rewrite (mem_set_zlen _ _ _ _ Hm)].
  split; [by unfold zlen; rewrite length_insert|]. intros k p Hk.
  destruct (decide (k = j)) as [->|Hne].
  - rewrite list_lookup_insert_eq in Hk by done. simplify_eq.
    eexists. split; [apply DirEntry.deserialize_encode; [done|]|done].
    rewrite <-(DirEntry.de_encode_zlen e Hwf). by eapply mem_get_set_eq.
  - rewrite list_lookup_insert_ne in Hk by done.
    eapply slot_at_other; [done|by apply DirEntry.de_encode_zlen|lia|by apply Hs].
Qed.

Definition empty_slots : list slot := replicate (Z.to_nat NUM_DIRENTS_PER_BLOCK) ([], 0).

Lemma slots_zero : slots (zeros BLK_SZ) empty_slots.
Proof.
  split; [done|]. intros k p Hk. apply lookup_replicate in Hk as [-> Hk].
  pose proof (dentry_off_range (Z.of_nat k) ltac:(change (Z.to_nat NUM_DIRENTS_PER_BLOCK) with 15%nat in Hk;
    change NUM_DIRENTS_PER_BLOCK with 15; lia)) as [H1 H2].
  assert (mem_get (DENTRY_ABSOLUTE_BLK_OFF (Z.of_nat k)) DIRENT_SZ (zeros BLK_SZ)
    = Some (DirEntry.encode DirEntry.default)) as Hg.
  { unfold mem_get. rewrite decide_True by (rewrite zlen_zeros by done; done). f_equal.
    unfold zeros. rewrite drop_replicate, take_replicate.
    rewrite Nat.min_l by lia. done. }
  eexists. split; [apply DirEntry.deserialize_encode; [|exact Hg]|done].
  by apply (bool_decide_unpack _).
Qed.

Lemma find_slot_insert name sl j p :
  sl !! j = Some p -> p.1 = [] -> forall path ino, path <> [] -> ROOT_INO <= ino ->
  find_slot path sl = None ->
  find_slot path (<[j := (path, ino)]> sl) = Some (j, ino) /\
  (name <> path -> find_slot name (<[j := (path, ino)]> sl) = find_slot name sl).
Proof.
  intros Hj Hp path ino Hpath Hino. revert j Hj. induction sl as [|q sl IH]; intros j Hj Hf; [done|].
  cbn [find_slot] in Hf. destruct (decide (live_slot q /\ q.1 = path)) as [|Hq]; [done|].
  destruct (find_slot path sl) as [[??]|] eqn:Hf'; [done|].
  destruct j as [|j]; cbn in Hj.
  - simplify_eq. cbn [insert list_insert find_slot]. split.
    + by rewrite decide_True by (cbn; done).
    + intros Hne. rewrite decide_False by (cbn; naive_solver).
      rewrite (decide_False (P := live_slot p /\ p.1 = name)); [done|]. intros [[? _] _]. done.
  - change (<[S j := (path, ino)]> (q :: sl)) with (q :: <[j := (path, ino)]> sl). cbn [find_slot].
    rewrite (decide_False (P := live_slot q /\ q.1 = path)) by done.
    destruct (IH j Hj eq_refl) as [H1 H2]. split.
    + by rewrite H1.
    + intros Hne. rewrite H2 by done. done.
Qed.

Lemma entries_insert sl j p q :
  sl !! j = Some p -> ~ live_slot p -> live_slot q -> entries (<[j := q]> sl) = entries sl + 1.
Proof.
  revert j. induction sl as [|r sl IH]; intros j Hj Hp Hq; [done|]. destruct j as [|j]; cbn in Hj.
  - simplify_eq. cbn [insert list_insert]. rewrite !entries_cons, decide_True, decide_False by done. lia.
  - change (<[S j := q]> (r :: sl)) with (r :: <[j := q]> sl). rewrite !entries_cons, IH by done. lia.
Qed.

Lemma free_slot_Some sl j : free_slot sl = Some j -> exists p, sl !! j = Some p /\ p.1 = [].
Proof.
  revert j. induction sl as [|p sl IH]; intros j Hj; [done|]. cbn in Hj. case_decide as Hp.
  - simplify_eq. by exists p.
  - destruct (free_slot sl) as [k|]; [|done]. cbn in Hj. simplify_eq. by apply IH.
Qed.

(** ** Directories in direct blocks *)
Fixpoint lookup_dir (name : bytes) (vs : list Z) (sls : list (list slot)) : option (Z * nat * Z) :=
  match vs, sls with
  | v :: vs, sl :: sls =>
      match find_slot name sl with
      | Some (k, ino) => Some (v, k, ino)
      | None => lookup_dir name vs sls
      end
  | _, _ => None
  end.

Fixpoint list_dir (vs : list Z) (sls : list (list slot)) : list DirEntry.t :=
  match vs, sls with
  | v :: vs, sl :: sls => listing v 0 sl ++ list_dir vs sls
  | _, _ => []
  end.

Lemma lookup_dir_entries name vs sls r : lookup_dir name vs sls = Some r -> 0 < entries (concat sls).
Proof.
  revert vs. induction sls as [|sl sls IH]; intros [|v vs] Hl; try done. cbn in *. rewrite entries_app.
  pose proof (entries_nonneg sl). pose proof (entries_nonneg (concat sls)).
  destruct (find_slot name sl) as [[k i]|] eqn:Hf; [|specialize (IH _ Hl); lia].
  pose proof (find_slot_entries _ _ _ Hf). lia.
Qed.

Section dirspec.
Context {B : Type} `{BlockStoreLaws B} (acl : bool).
Abbreviation fs := (fs B).
Implicit Types s : fs.

(** Block [v] holds the slots [sl]. *)
Definition dblk s (v : Z) (sl : list slot) : Prop := exists blk, has s v blk /\ slots blk sl.

Definition pads (vs : list Z) : list Z := vs ++ replicate (Z.to_nat NUM_DIRECT_BLOCKS - length vs) 0.

(** A directory inode: its blocks in use come first, each slot is free or an
    entry, and the link count is the number of entries. *)
Record dir_at s (i : Inode.t) (vs : list Z) (sls : list (list slot)) : Prop := {
  da_blks : take (Z.to_nat NUM_DIRECT_BLOCKS) (Inode.i_blks i) = pads vs;
  da_len : (length vs <= Z.to_nat NUM_DIRECT_BLOCKS)%nat;
  da_data : Forall (fun v => data_start s <= v) vs;
  da_dup : NoDup vs;
  da_slots : Forall2 (dblk s) vs sls;
  da_ok : Forall (Forall slot_ok) sls;
  da_links : Inode.i_links_count i = entries (concat sls) /\ entries (concat sls) < 2 ^ 32 - 1
}.

Lemma data_start_pos s : 0 <= NUM_BLOCKS s -> 0 < data_start s.
Proof.
  intros. unfold data_start, DATA_REL_START_BLK_NUM, NUM_META_BLOCKS, META_PER_BLK.
  change METADATA_REL_START_BLK_NUM with 6256. pose proof (Z.div_pos (NUM_BLOCKS s) (BLK_SZ / (BFS_IV_LEN + BFS_MAC_LEN))).
  assert (0 < BLK_SZ / (BFS_IV_LEN + BFS_MAC_LEN)) by done. lia.
Qed.

Lemma dblk_frame P s s' v sl : frame P s s' -> ~ P v -> dblk s v sl -> dblk s' v sl.
Proof. intros Hf Hn (blk&Hb&Hs). exists blk. split; [by eapply frame_has|done]. Qed.

Lemma dblks_frame P s s' vs sls :
  frame P s s' -> Forall (fun v => ~ P v) vs -> Forall2 (dblk s) vs sls -> Forall2 (dblk s') vs sls.
Proof.
  intros Hf Hn Hd. induction Hd as [|v sl vs sls Hv Hd IH]; [constructor|].
  apply Forall_cons in Hn as [? ?]. constructor; [by eapply dblk_frame|auto].
Qed.

(** Reading a directory block. *)
Lemma rblk_dir s v sl : ok s -> dblk s v sl ->
  exists blk st, rblk v s = Ok blk (set_store st s) /\ frame no_blk s (set_store st s) /\ slots blk sl /\ zlen blk = BLK_SZ.
Proof.
  intros Hs (blk&Hb&Hsl). destruct (rblk_Ok s v blk Hs Hb) as (st&Hr&Hf).
  exists blk, st. split_and!; try done. by destruct (has_valid s v blk Hs Hb).
Qed.

Lemma ced_slots h name links v blk sl all tested ents :
  slots blk sl -> (bool_decide (h = FindEmpty) || negb (tested =? links)) = true ->
  check_each_dentry h name links v blk all tested ents = ced_loop h name links v blk (length sl) 0 all tested ents.
Proof.
  intros [Hl _] Hg. unfold check_each_dentry. rewrite <-Hl. unfold zlen. rewrite Nat2Z.id.
  destruct (bool_decide (h = FindEmpty)), (tested =? links); done.
Qed.

Lemma scan_get s i name vs sls rest st :
  ok s -> Forall2 (dblk s) vs sls -> Forall (fun v => data_start s <= v) vs ->
  sr_all st = false -> 0 <= sr_tested st ->
  sr_tested st + entries (concat sls) = Inode.i_links_count i -> Inode.i_links_count i < 2 ^ 32 ->
  (vs = [] -> exists v r, rest = v :: r /\ v < data_start s) ->
  exists t st', let s' := set_store st' s in
    frame no_blk s s' /\ 0 <= t <= Inode.i_links_count i /\
    scan_blks GetDe name i (vs ++ rest) st s = Ok (inl
      match lookup_dir name vs sls with
      | Some (v, k, ino) => mkSearch true (Some (dentry_at name ino v (Z.of_nat k))) false ino t (sr_ents st)
      | None => mkSearch false (sr_de st) true (sr_ino st) t (sr_ents st)
      end) s'.
Proof.
  intros Hs Hd. revert s st Hs Hd. revert sls. induction vs as [|v vs IH]; intros sls s st Hs Hd Hv Hall Ht Hc Hl Hrest.
  - destruct (Hrest eq_refl) as (w&r&->&Hw). exists (sr_tested st), (store s). split; [by apply frame_self|].
    inversion Hd; subst. change (entries (concat [])) with 0 in Hc. split; [lia|]. cbn [app scan_blks lookup_dir]. msteps.
    destruct (Z.ltb_spec w (data_start s)); [|lia]. by destruct s.
  - inversion Hd as [|? sl ? sls' Hdv Hds]; subst. apply Forall_cons in Hv as [Hv Hvs].
    cbn [concat] in Hc. rewrite entries_app in Hc. pose proof (entries_nonneg sl). pose proof (entries_nonneg (concat sls')).
    destruct (rblk_dir s v sl Hs Hdv) as (blk&st1&Hr&Hf1&Hsl&Hz).
    assert (data_start (set_store st1 s) = data_start s) as Hds' by (unfold data_start; by destruct Hf1 as (_&->&_)).
    cbn [app scan_blks lookup_dir]. msteps. destruct (Z.ltb_spec v (data_start s)); [lia|]. mrun Hr.
    pose proof Hsl as [_ Hsl0].
    assert (forall k p, sl !! k = Some p -> slot_at blk (0 + Z.of_nat k) p) as Hslk by (intros; by apply Hsl0).
    destruct (Z.eqb_spec (sr_tested st) (Inode.i_links_count i)) as [Heq|Hne].
    { unfold check_each_dentry. rewrite Heq, Z.eqb_refl. change (bool_decide (GetDe = FindEmpty)) with false.
      cbn [negb andb]. msteps. exists (Inode.i_links_count i), st1. split; [done|]. split; [lia|].
      assert (lookup_dir name (v :: vs) (sl :: sls') = None) as Hnone.
      { destruct (lookup_dir name (v :: vs) (sl :: sls')) as [r|] eqn:Hlk; [|done].
        apply lookup_dir_entries in Hlk. cbn [concat] in Hlk. rewrite entries_app in Hlk. lia. }
      cbn [lookup_dir] in Hnone. by rewrite Hnone. }
    rewrite (ced_slots GetDe name _ v blk sl) by (done || destruct (Z.eqb_spec (sr_tested st) (Inode.i_links_count i)); done).
    destruct (find_slot name sl) as [[k ino]|] eqn:Hfind.
    + destruct (ced_get_found name (Inode.i_links_count i) v blk Hl sl 0 (sr_all st) (sr_tested st) (sr_ents st) k ino)
        as (t&->&Ht'); try done; [lia|].
      msteps. exists t, st1. split; [done|]. split; [lia|]. cbn. by rewrite Hall.
    + rewrite (ced_get_none name (Inode.i_links_count i) v blk Hl sl 0) by (done || lia).
      msteps. cbn [c_ret c_de c_all c_tested c_ents andb]. rewrite Hall, orb_false_r.
      destruct (decide (sr_tested st + entries sl = Inode.i_links_count i)) as [He|He].
      * rewrite bool_decide_true by done. exists (sr_tested st + entries sl), st1. split; [done|]. split; [lia|].
        assert (lookup_dir name vs sls' = None) as ->; [|done].
        destruct (lookup_dir name vs sls') as [r|] eqn:Hlk; [|done].
        apply lookup_dir_entries in Hlk. lia.
      * rewrite bool_decide_false by done.
        set (st' := mkSearch (sr_ret st) (sr_de st) false (sr_ino st) (sr_tested st + entries sl) (sr_ents st)).
        destruct (IH sls' (set_store st1 s) st') as (t&st2&Hf2&Ht2&Hscan); try done.
        -- apply Hf1.
        -- eapply dblks_frame; [exact Hf1| |done]. by apply Forall_true; intros ? [].
        -- by rewrite Hds'.
        -- cbn. lia.
        -- cbn. lia.
        -- intros ->. inversion Hds; subst. change (entries (concat [])) with 0 in Hc. lia.
        -- exists t, st2. split; [|split; [lia|exact Hscan]]. eapply frame_trans; [exact Hf1|exact Hf2].
Qed.

Lemma list_dir_dead vs sls : entries (concat sls) = 0 -> list_dir vs sls = [].
Proof.
  revert vs. induction sls as [|sl sls IH]; intros [|v vs] He; try done. cbn in *. rewrite entries_app in He.
  pose proof (entries_nonneg sl). pose proof (entries_nonneg (concat sls)).
  rewrite listing_dead, IH by lia. done.
Qed.

Lemma scan_list s i vs sls rest st :
  ok s -> Forall2 (dblk s) vs sls -> Forall (fun v => data_start s <= v) vs ->
  sr_all st = false -> 0 <= sr_tested st ->
  sr_tested st + entries (concat sls) = Inode.i_links_count i -> Inode.i_links_count i < 2 ^ 32 ->
  (vs = [] -> exists v r, rest = v :: r /\ v < data_start s) ->
  exists t st', let s' := set_store st' s in frame no_blk s s' /\
    scan_blks ReadDir [] i (vs ++ rest) st s =
      Ok (inl (mkSearch true (sr_de st) true (sr_ino st) t (sr_ents st ++ list_dir vs sls))) s'.
Proof.
  intros Hs Hd. revert s st Hs Hd. revert sls. induction vs as [|v vs IH]; intros sls s st Hs Hd Hv Hall Ht Hc Hl Hrest.
  - destruct (Hrest eq_refl) as (w&r&->&Hw). exists (sr_tested st), (store s). split; [by apply frame_self|].
    inversion Hd; subst. cbn [app scan_blks list_dir]. msteps. rewrite app_nil_r.
    destruct (Z.ltb_spec w (data_start s)); [|lia]. by destruct s.
  - inversion Hd as [|? sl ? sls' Hdv Hds]; subst. apply Forall_cons in Hv as [Hv Hvs].
    cbn [concat] in Hc. rewrite entries_app in Hc. pose proof (entries_nonneg sl). pose proof (entries_nonneg (concat sls')).
    destruct (rblk_dir s v sl Hs Hdv) as (blk&st1&Hr&Hf1&Hsl&Hz).
    assert (data_start (set_store st1 s) = data_start s) as Hds' by (unfold data_start; by destruct Hf1 as (_&->&_)).
    cbn [app scan_blks list_dir]. msteps. destruct (Z.ltb_spec v (data_start s)); [lia|]. mrun Hr.
    pose proof Hsl as [_ Hsl0].
    destruct (Z.eqb_spec (sr_tested st) (Inode.i_links_count i)) as [Heq|Hne].
    { unfold check_each_dentry. rewrite Heq, Z.eqb_refl. change (bool_decide (ReadDir = FindEmpty)) with false.
      cbn [negb andb]. msteps. exists (Inode.i_links_count i), st1. split; [done|].
      rewrite listing_dead, list_dir_dead, app_nil_r by lia. done. }
    rewrite (ced_slots ReadDir [] _ v blk sl) by (done || destruct (Z.eqb_spec (sr_tested st) (Inode.i_links_count i)); done).
    rewrite (ced_readdir [] (Inode.i_links_count i) v blk Hl sl 0) by (done || lia).
    msteps. cbn [c_ret c_de c_all c_tested c_ents andb].
    change (bool_decide (ReadDir = GetDe)) with false. cbn [negb]. rewrite Hall, orb_false_r.
    destruct (decide (sr_tested st + entries sl = Inode.i_links_count i)) as [He|He].
    + rewrite bool_decide_true by done. exists (sr_tested st + entries sl), st1. split; [done|].
      rewrite (list_dir_dead vs sls'), app_nil_r by lia. done.
    + rewrite bool_decide_false by done. rewrite app_assoc.
      set (st' := mkSearch (sr_ret st) (sr_de st) false (sr_ino st) (sr_tested st + entries sl) (sr_ents st ++ listing v 0 sl)).
      destruct (IH sls' (set_store st1 s) st') as (t&st2&Hf2&Hscan); try done.
      * apply Hf1.
      * eapply dblks_frame; [exact Hf1| |done]. by apply Forall_true; intros ? [].
      * by rewrite Hds'.
      * cbn. lia.
      * cbn. lia.
      * intros ->. inversion Hds; subst. change (entries (concat [])) with 0 in Hc. lia.
      * exists t, st2. split; [|exact Hscan]. eapply frame_trans; [exact Hf1|exact Hf2].
Qed.

(** The inode of a directory the user may search. *)
Definition searchable s usr ino i : Prop :=
  inode_at s ino i /\ Inode.i_no i = ino /\ ino <> NULL_INO /\ 0 <= ino < NUM_INODES /\
  ACLayer.denied acl usr (Inode.uid i) (Inode.mode i) = false /\ BFS__S_ISDIR (Inode.mode i) = true.

Lemma dir_inode_Ok s what usr ino i : ok s -> searchable s usr ino i ->
  exists st, dir_inode acl what usr ino s = Ok i (set_store st s) /\ frame no_blk s (set_store st s).
Proof.
  intros Hs (Hi&Hn&Hnn&_&Hd&Hm). destruct (read_inode_Ok s ino i Hs Hi) as (st&Hr&Hf); [congruence|].
  exists st. split; [|done]. unfold dir_inode. mrun Hr. by rewrite Hn, Z.eqb_refl, Hd, Hm.
Qed.

Lemma dir_at_frame P s s' i vs sls :
  frame P s s' -> Forall (fun v => ~ P v) vs -> dir_at s i vs sls -> dir_at s' i vs sls.
Proof.
  intros Hf Hn []. split; try done.
  - assert (data_start s' = data_start s) as -> by (unfold data_start; by destruct Hf as (_&->&_)). done.
  - by eapply dblks_frame.
Qed.

Lemma dir_at_none s s' i vs sls : frame no_blk s s' -> dir_at s i vs sls -> dir_at s' i vs sls.
Proof. intros Hf. eapply dir_at_frame; [exact Hf|]. by apply Forall_true; intros ? []. Qed.

Lemma pads_rest s (vs : list Z) : 0 <= NUM_BLOCKS s -> vs = [] ->
  exists v r, replicate (Z.to_nat NUM_DIRECT_BLOCKS - length vs) 0 = v :: r /\ v < data_start s.
Proof. intros HN ->. exists 0. eexists. split; [reflexivity|]. by apply data_start_pos. Qed.

Lemma check_direct_Ok s usr ino i vs sls name :
  ok s -> 0 <= NUM_BLOCKS s -> searchable s usr ino i -> dir_at s i vs sls ->
  exists t s', frame no_blk s s' /\
    check_direct_blks acl usr GetDe name (mkSearch false None false ino 0 []) s = Ok
      match lookup_dir name vs sls with
      | Some (v, k, c) => mkSearch true (Some (dentry_at name c v (Z.of_nat k))) false c t []
      | None => mkSearch false None true ino t []
      end s' /\ only_store s s'.
Proof.
  intros Hs HN Hsr Hda.
  destruct (dir_inode_Ok s "Inode is not a directory file (check direct blks)" usr ino i Hs Hsr) as (st1&Hr&Hf1).
  pose proof (dir_at_none _ _ _ _ _ Hf1 Hda) as [Hb Hl Hdat Hdup Hsl Hok [Hlk Hlk2]].
  assert (NUM_BLOCKS (set_store st1 s) = NUM_BLOCKS s) as HN1 by apply Hf1.
  destruct (scan_get (set_store st1 s) i name vs sls (replicate (Z.to_nat NUM_DIRECT_BLOCKS - length vs) 0)
    (mkSearch false None false ino 0 [])) as (t&st2&Hf2&_&Hscan);
    [apply Hf1|exact Hsl|exact Hdat|done|done|cbn; lia|lia| |].
  { apply (pads_rest (set_store st1 s)). by rewrite HN1. }
  exists t, (set_store st2 (set_store st1 s)). split_and!; [by eapply frame_trans| |done].
  unfold check_direct_blks. cbn [sr_ino]. mrun Hr. rewrite Hb. mrun Hscan. done.
Qed.

(** Looking a name up in a directory kept in direct blocks: the search
    returns the first entry with the name, with its inode number and position,
    and otherwise reports that every entry was examined. *)
Theorem directory_lookup s usr ino i vs sls name :
  ok s -> 0 <= NUM_BLOCKS s -> searchable s usr ino i -> dir_at s i vs sls ->
  exists t s', frame no_blk s s' /\
    check_direct_blks acl usr GetDe name (mkSearch false None false ino 0 []) s = Ok
      match lookup_dir name vs sls with
      | Some (v, k, c) => mkSearch true (Some (dentry_at name c v (Z.of_nat k))) false c t []
      | None => mkSearch false None true ino t []
      end s'.
Proof.
  intros Hs HN Hsr Hda. destruct (check_direct_Ok s usr ino i vs sls name Hs HN Hsr Hda) as (t&s'&Hf&Hr&_).
  by exists t, s'.
Qed.

(** Listing a directory kept in direct blocks collects every entry once, in
    the order of the slots, with its block and slot index. *)
Theorem directory_listing s usr ino i vs sls :
  ok s -> 0 <= NUM_BLOCKS s -> searchable s usr ino i -> dir_at s i vs sls ->
  exists t s', frame no_blk s s' /\
    check_direct_blks acl usr ReadDir [] (mkSearch false None false ino 0 []) s =
      Ok (mkSearch true None true ino t (list_dir vs sls)) s' /\
    zlen (list_dir vs sls) = Inode.i_links_count i.
Proof.
  intros Hs HN Hsr Hda.
  destruct (dir_inode_Ok s "Inode is not a directory file (check direct blks)" usr ino i Hs Hsr) as (st1&Hr&Hf1).
  pose proof (dir_at_none _ _ _ _ _ Hf1 Hda) as [Hb Hl Hdat Hdup Hsl Hok [Hlk Hlk2]].
  assert (NUM_BLOCKS (set_store st1 s) = NUM_BLOCKS s) as HN1 by apply Hf1.
  destruct (scan_list (set_store st1 s) i vs sls (replicate (Z.to_nat NUM_DIRECT_BLOCKS - length vs) 0)
    (mkSearch false None false ino 0 [])) as (t&st2&Hf2&Hscan);
    [apply Hf1|exact Hsl|exact Hdat|done|done|cbn; lia|lia| |].
  { apply (pads_rest (set_store st1 s)). by rewrite HN1. }
  exists t, (set_store st2 (set_store st1 s)). split_and!; [by eapply frame_trans| |].
  - unfold check_direct_blks. cbn [sr_ino]. mrun Hr. rewrite Hb. mrun Hscan. done.
  - rewrite Hlk. clear -Hsl. induction Hsl as [|v sl vs sls _ _ IH]; [done|]. cbn [list_dir concat].
    rewrite zlen_app, entries_app, IH. f_equal. generalize 0 as k. clear. induction sl as [|p sl IH]; intros k; [done|].
    cbn [listing]. rewrite zlen_app, entries_cons, IH. by case_decide.
Qed.

(** ** Adding an entry *)
Definition bumped (par : Inode.t) : Inode.t := Inode.set_i_links (u64 (Inode.i_links_count par + 1)) par.

Lemma wf_bumped par : Inode.wf par -> Inode.wf (bumped par).
Proof.
  intros [Hl Hf]. split; [done|]. unfold Inode.fields in *.
  apply Forall_app in Hf as [Hf1 Hf2]. apply Forall_app. split; [|exact Hf2].
  inv_forall. repeat (constructor; [done|]). constructor; [|constructor]. cbn. apply u64_bound.
Qed.

Lemma wf_set_i_blk par idx v par' :
  Inode.wf par -> 0 <= v < 2 ^ 64 -> Inode.set_i_blk idx v par = Some par' -> Inode.wf par'.
Proof.
  intros [Hl Hf] Hv Hset. unfold Inode.set_i_blk in Hset. case_decide; [|done]. simplify_eq.
  split; [unfold zlen in *; cbn; by rewrite length_insert|]. unfold Inode.fields in *.
  apply Forall_app in Hf as [Hf1 Hf2]. apply Forall_app. split; [exact Hf1|].
  cbn. rewrite list_fmap_insert. apply Forall_insert; [exact Hf2|exact Hv].
Qed.

Definition touched (v : Z) (par : Inode.t) (b : Z) : Prop := b = v \/ b = ITAB_ABSOLUTE_BLK_LOC (Inode.i_no par).

Lemma place_dentry_Ok s par old new path v sl blk :
  ok s -> slots blk sl -> zlen blk = BLK_SZ -> bs_valid (NUM_BLOCKS s) v ->
  (forall ino, 0 <= ino < NUM_INODES -> v <> ITAB_ABSOLUTE_BLK_LOC ino) ->
  Inode.wf (bumped par) -> 0 <= Inode.i_no par < NUM_INODES -> inode_at s (Inode.i_no par) old ->
  0 <= new < 2 ^ 64 -> DirEntry.name_ok path ->
  match free_slot sl with
  | None => place_dentry par new path v blk s = Ok None s
  | Some j => exists st, let s' := set_store st s in
      place_dentry par new path v blk s = Ok (Some (bumped par)) s' /\
      dblk s' v (<[j := (path, new)]> sl) /\
      inode_at s' (Inode.i_no par) (Inode.set_dirty false (bumped par)) /\ frame (touched v par) s s' /\
      others (Inode.i_no par) s s'
  end.
Proof.
  intros Hs Hsl Hz Hv Hne Hwf Hno Hold Hnew Hname. pose proof Hsl as [Hlen Hsl0].
  pose proof (ced_find_empty (Inode.i_links_count par) v blk sl 0 false 0 []) as Hced.
  unfold place_dentry. rewrite (ced_slots FindEmpty [] _ v blk sl) by done.
  destruct (free_slot sl) as [j|] eqn:Hfree.
  2:{ destruct Hced as (t&->); [done|]. done. }
  destruct Hced as (ino&t&->); [done|]. msteps. cbn [c_ret c_de]. rewrite Z.add_0_l.
  set (de := DirEntry.set_blk_loc v _).
  assert (DirEntry.wf de) as Hde by (split; [done|exact Hname]).
  destruct (free_slot_Some sl j Hfree) as (p&Hj&Hp).
  assert (j < length sl)%nat as Hjl by (by eapply lookup_lt_Some).
  pose proof (dentry_off_range (Z.of_nat j)) as [Ho1 Ho2]; [unfold zlen in Hlen; lia|].
  destruct (DirEntry.de_serialize_mem_set de blk (DENTRY_ABSOLUTE_BLK_OFF (Z.of_nat j)) Hde) as (blk'&Hser&_); [lia..|].
  change (DirEntry.blk_idx_loc de) with (Z.of_nat j). rewrite Hser. msteps. rewrite Z.eqb_refl, bind_assert by done.
  destruct (slots_update blk blk' sl j de Hsl Hz Hjl Hde Hser) as [Hsl' Hz'].
  destruct (bs_write_Ok s v blk' bfs_O_SYNC Hs Hv Hz') as (c&st1&Hw&_&Hh&Hf1).
  unfold wblk. mrun Hw. set (s1 := set_store st1 s) in *.
  assert (inode_at s1 (Inode.i_no par) old) as Hold1 by (eapply inode_at_frame; [done|by apply Hne|done]).
  destruct (write_inode_slot s1 (bumped par) 0 true (Inode.i_no par) old (proj1 Hf1) Hwf Hno eq_refl Hold1)
    as (st2&Hwi&Hf2&Hat&Hoth).
  exists st2. cbv zeta. unfold bumped in Hwi. change (set_store st2 s1) with (set_store st2 s) in *.
  fold (bumped par). split_and!; [by mrun Hwi| |exact Hat| |].
  - exists blk'. split; [|exact Hsl']. eapply frame_has; [exact Hf2|intros Heq; by apply (Hne _ Hno)|exact Hh].
  - eapply frame_trans; [eapply frame_weaken; [|exact Hf1]|eapply frame_weaken; [|exact Hf2]];
      intros b <-; [by left|by right].
  - eapply others_trans; [|exact Hoth]. eapply others_frame; [exact Hf1|exact Hne].
Qed.

(** The first free slot of the blocks takes the entry. *)
Fixpoint add_sls (p : slot) (sls : list (list slot)) : option (list (list slot)) :=
  match sls with
  | [] => None
  | sl :: sls =>
      match free_slot sl with
      | Some j => Some (<[j := p]> sl :: sls)
      | None => (sl ::.) <$> add_sls p sls
      end
  end.

Lemma data_not_itab s v ino :
  0 <= NUM_BLOCKS s -> data_start s <= v -> 0 <= ino < NUM_INODES -> v <> ITAB_ABSOLUTE_BLK_LOC ino.
Proof.
  intros HN Hv Hi. pose proof (itab_loc_range ino Hi) as [[_ Hl] _].
  unfold data_start, DATA_REL_START_BLK_NUM, NUM_META_BLOCKS in Hv.
  assert (0 < META_PER_BLK) by done. pose proof (Z.div_pos (NUM_BLOCKS s) META_PER_BLK HN ltac:(lia)). lia.
Qed.

Lemma add_loop_Ok s par old new path vs sls n idx :
  ok s -> 0 <= NUM_BLOCKS s -> Forall2 (dblk s) vs sls ->
  (forall k v, vs !! k = Some v -> Inode.i_blks par !! (Z.to_nat idx + k)%nat = Some v) -> 0 <= idx ->
  Forall (fun v => data_start s <= v) vs -> NoDup vs -> (length vs <= n)%nat ->
  Inode.wf par -> 0 <= Inode.i_no par < NUM_INODES -> inode_at s (Inode.i_no par) old ->
  0 <= new < 2 ^ 64 -> DirEntry.name_ok path ->
  exists st, let s' := set_store st s in
  match add_sls (path, new) sls with
  | Some sls' =>
      add_direct_loop n idx false par new path s = Ok (true, bumped par) s' /\
      Forall2 (dblk s') vs sls' /\ inode_at s' (Inode.i_no par) (Inode.set_dirty false (bumped par)) /\
      frame (fun b => b ∈ vs \/ b = ITAB_ABSOLUTE_BLK_LOC (Inode.i_no par)) s s' /\
      others (Inode.i_no par) s s'
  | None =>
      add_direct_loop n idx false par new path s =
        add_direct_loop (n - length vs) (idx + zlen vs) false par new path s' /\ frame no_blk s s'
  end.
Proof.
  intros Hs HN Hd. revert s n idx Hs HN Hd. revert sls.
  induction vs as [|v vs IH]; intros sls s n idx Hs HN Hd Hblk Hidx Hv Hdup Hn Hwf Hno Hold Hnew Hname.
  { inversion Hd; subst. exists (store s). cbn. rewrite Z.add_0_r, Nat.sub_0_r. split; [by destruct s|].
    by apply frame_self. }
  inversion Hd as [|? sl ? sls' Hdv Hds]; subst. apply Forall_cons in Hv as [Hv Hvs].
  apply NoDup_cons in Hdup as [Hnin Hdup]. destruct n as [|n]; [cbn in Hn; lia|].
  assert (forall s0, vec_at (Inode.i_blks par) idx s0 = Ok v s0) as Hat.
  { intros s0. apply vec_at_Ok; [done|]. rewrite <-(Nat.add_0_r (Z.to_nat idx)). by apply Hblk. }
  cbn [add_direct_loop add_sls]. mrun (Hat s). msteps. destruct (Z.ltb_spec v (data_start s)); [lia|].
  mrun (Hat s). destruct (rblk_dir s v sl Hs Hdv) as (blk&st1&Hr&Hf1&Hsl&Hz). mrun Hr.
  set (s1 := set_store st1 s) in *.
  assert (NUM_BLOCKS s1 = NUM_BLOCKS s) as HN1 by apply Hf1.
  assert (data_start s1 = data_start s) as Hds1 by (unfold data_start; by rewrite HN1).
  assert (inode_at s1 (Inode.i_no par) old) as Hold1 by (eapply inode_at_frame; [exact Hf1|by intros []|done]).
  assert (bs_valid (NUM_BLOCKS s1) v) as Hval.
  { rewrite HN1. destruct Hdv as (b&Hb&_). by apply (has_valid s v b). }
  pose proof (fun ino => data_not_itab s v ino HN Hv) as Hne.
  pose proof (place_dentry_Ok s1 par old new path v sl blk (proj1 Hf1) Hsl Hz Hval Hne (wf_bumped par Hwf)
                Hno Hold1 Hnew Hname) as Hpl.
  destruct (free_slot sl) as [j|].
  - destruct Hpl as (st2&Hpl&Hd2&Hat2&Hf2&Hoth2). exists st2. mrun Hpl.
    change (set_store st2 s1) with (set_store st2 s) in *.
    assert (frame (touched v par) s (set_store st2 s)) as Hf by (eapply frame_trans; [by apply frame_none|done]).
    split_and!; [done| |done| |].
    + constructor; [done|]. eapply dblks_frame; [exact Hf| |done]. apply Forall_forall. intros w Hw [-> | ->]; [done|].
      rewrite Forall_forall in Hvs. eapply data_not_itab; [exact HN|apply Hvs; exact Hw|exact Hno|done].
    + eapply frame_weaken; [|exact Hf]. intros b [-> | ->]; [left; left|by right].
    + eapply others_trans; [by apply others_none|exact Hoth2].
  - mrun Hpl.
    destruct (IH sls' s1 n (idx + 1)) as (st2&Hrest); try done.
    + apply Hf1.
    + by rewrite HN1.
    + eapply dblks_frame; [exact Hf1| |done]. by apply Forall_true; intros ? [].
    + intros k w Hk. rewrite Z2Nat.inj_add by lia. change (Z.to_nat 1) with 1%nat.
      replace (Z.to_nat idx + 1 + k)%nat with (Z.to_nat idx + S k)%nat by lia. by apply Hblk.
    + lia.
    + by rewrite Hds1.
    + cbn in Hn. lia.
    + exists st2. destruct (add_sls (path, new) sls') as [sls2|]; cbn [fmap option_fmap option_map].
      * destruct Hrest as (Hrun&Hd2&Hat2&Hf2&Hoth2). change (set_store st2 s1) with (set_store st2 s) in *.
        assert (frame (fun b => b ∈ vs \/ b = ITAB_ABSOLUTE_BLK_LOC (Inode.i_no par)) s (set_store st2 s)) as Hf
          by (eapply frame_trans; [by apply frame_none|done]).
        split_and!; [done| |done| |].
        -- constructor; [|done]. eapply dblk_frame; [exact Hf| |done]. intros [?|?]; [done|by apply (Hne _ Hno)].
        -- eapply frame_weaken; [|exact Hf]. intros b [?|?]; [left; by right|by right].
        -- eapply others_trans; [by apply others_none|exact Hoth2].
      * destruct Hrest as (Hrun&Hf2). change (set_store st2 s1) with (set_store st2 s) in *. split.
        -- rewrite Hrun. cbn [length Nat.sub]. f_equal. unfold zlen. cbn [length]. lia.
        -- by eapply frame_trans.
Qed.

(** The directory after the entry went into a free slot of its blocks. *)
Lemma add_sls_spec path new sls sls' (vs : list Z) :
  add_sls (path, new) sls = Some sls' -> length vs = length sls ->
  path <> [] -> ROOT_INO <= new -> Forall (Forall slot_ok) sls -> lookup_dir path vs sls = None ->
  (exists v k, lookup_dir path vs sls' = Some (v, k, new)) /\
  (forall name, name <> path -> lookup_dir name vs sls' = lookup_dir name vs sls) /\
  entries (concat sls') = entries (concat sls) + 1 /\ Forall (Forall slot_ok) sls'.
Proof.
  intros Hadd Hlen Hp Hn. revert vs sls' Hadd Hlen. induction sls as [|sl sls IH]; intros [|v vs] sls' Hadd Hlen Hok Hlk; try done.
  apply Forall_cons in Hok as [Hsl Hok]. injection Hlen as Hlen.
  cbn [lookup_dir] in Hlk. cbn [add_sls] in Hadd.
  assert (live_slot (path, new)) as Hlive by done.
  destruct (find_slot path sl) as [[??]|] eqn:Hf; [done|].
  destruct (free_slot sl) as [j|] eqn:Hfree.
  - simplify_eq. destruct (free_slot_Some sl j Hfree) as (p&Hj&Hp1).
    assert (~ live_slot p) as Hdead by (intros [? _]; done).
    split_and!.
    + exists v, j. cbn [lookup_dir]. by rewrite (proj1 (find_slot_insert path sl j p Hj Hp1 path new Hp Hn Hf)).
    + intros name Hne. cbn [lookup_dir]. by rewrite (proj2 (find_slot_insert name sl j p Hj Hp1 path new Hp Hn Hf) Hne).
    + cbn [concat]. rewrite !entries_app, (entries_insert sl j p) by done. lia.
    + constructor; [|done]. apply Forall_insert; [done|by right].
  - destruct (add_sls (path, new) sls) as [sls1|] eqn:Hadd'; [|done]. cbn in Hadd. simplify_eq.
    destruct (IH vs sls1 eq_refl Hlen Hok Hlk) as ((w&k&Hl)&Hoth&He&Hok'). split_and!.
    + exists w, k. cbn [lookup_dir]. by rewrite Hf.
    + intros name Hne. cbn [lookup_dir]. by rewrite Hoth.
    + cbn [concat]. rewrite !entries_app, He. lia.
    + by constructor.
Qed.

(** The loop at the first unused block index. *)
Lemma add_new_block s par old new path n idx v0 nb :
  ok s -> 0 <= NUM_BLOCKS s -> 0 <= idx -> Inode.i_blks par !! Z.to_nat idx = Some v0 -> v0 < data_start s ->
  SuperBlock.no_dblocks_free (sb s) <> 0 -> SuperBlock.next_vbid (sb s) = nb -> nb < 2 ^ 64 ->
  bs_valid (NUM_BLOCKS s) nb -> data_start s <= nb ->
  Inode.wf par -> 0 <= Inode.i_no par < NUM_INODES -> inode_at s (Inode.i_no par) old ->
  0 <= new < 2 ^ 64 -> DirEntry.name_ok path ->
  exists par1 s', Inode.set_i_blk idx nb par = Some par1 /\
    add_direct_loop (S n) idx false par new path s = Ok (true, bumped par1) s' /\
    dblk s' nb (<[0%nat := (path, new)]> empty_slots) /\
    inode_at s' (Inode.i_no par) (Inode.set_dirty false (bumped par1)) /\ frame (touched nb par) s s' /\
    only_store (set_sb (SuperBlock.alloc_blk (sb s)).2 s) s' /\ others (Inode.i_no par) s s'.
Proof.
  intros Hs HN Hidx Hv0 Hlt Hfree Hnext Hnb Hval Hds Hwf Hno Hold Hnew Hname.
  pose proof (data_start_pos s HN) as Hpos. pose proof (lookup_lt_Some _ _ _ Hv0) as Hil.
  assert (exists par1, Inode.set_i_blk idx nb par = Some par1) as [par1 Hset].
  { unfold Inode.set_i_blk. rewrite decide_True by (unfold zlen; lia). by eexists. }
  pose proof (wf_set_i_blk par idx nb par1 Hwf ltac:(lia) Hset) as Hwf1.
  assert (Inode.i_no par1 = Inode.i_no par /\ Inode.i_blks par1 !! Z.to_nat idx = Some nb) as [Hno1 Hat1].
  { unfold Inode.set_i_blk in Hset. rewrite decide_True in Hset by (unfold zlen; lia). simplify_eq. cbn.
    split; [done|]. by apply list_lookup_insert_eq. }
  set (s0 := set_sb (SuperBlock.alloc_blk (sb s)).2 s).
  assert (sb_alloc_blk s = Ok nb s0) as Halloc.
  { unfold sb_alloc_blk, s0, SuperBlock.alloc_blk.
    destruct (Z.eqb_spec (SuperBlock.no_dblocks_free (sb s)) 0); [done|]. by rewrite Hnext. }
  destruct (write_inode_slot s0 par1 0 true (Inode.i_no par) old) as (st1&Hw1&Hf1&Hat&Hoth1); try done.
  set (s1 := set_store st1 s0) in *.
  assert (NUM_BLOCKS s1 = NUM_BLOCKS s) as HN1 by apply Hf1.
  pose proof (fun ino => data_not_itab s nb ino HN Hds) as Hne.
  assert (zlen (zeros BLK_SZ) = BLK_SZ) as Hz0 by (by apply zlen_zeros).
  rewrite <-Hno1 in Hno, Hat. rewrite <-HN1 in Hval.
  pose proof (place_dentry_Ok s1 par1 _ new path nb empty_slots (zeros BLK_SZ) (proj1 Hf1) slots_zero Hz0 Hval Hne
                (wf_bumped par1 Hwf1) Hno Hat Hnew Hname) as Hpl.
  change (free_slot empty_slots) with (Some 0%nat) in Hpl. destruct Hpl as (st2&Hpl&Hd2&Hat2&Hf2&Hoth2).
  exists par1, (set_store st2 s1). rewrite Hno1 in Hat2, Hoth2. split_and!; [done| |done|done| |done|by eapply others_trans].
  - cbn [add_direct_loop]. mrun (vec_at_Ok (Inode.i_blks par) idx v0 s Hidx Hv0). msteps.
    destruct (Z.ltb_spec v0 (data_start s)); [|lia]. mrun Halloc.
    destruct (Z.eqb_spec nb 0); [lia|]. unfold set_i_blk_m. rewrite Hset. msteps. mrun Hw1.
    mrun (vec_at_Ok (Inode.i_blks par1) idx nb s1 Hidx Hat1). msteps. by mrun Hpl.
  - eapply frame_trans; [eapply frame_weaken; [|exact Hf1]|].
    + intros b <-. by right.
    + eapply frame_weaken; [|exact Hf2]. unfold touched. by rewrite Hno1.
Qed.

Lemma pads_snoc vs nb : (length vs < Z.to_nat NUM_DIRECT_BLOCKS)%nat ->
  pads (vs ++ [nb]) = <[length vs := nb]> (pads vs).
Proof.
  intros Hl. unfold pads. rewrite insert_app_r_alt, Nat.sub_diag by lia. rewrite <-app_assoc. f_equal.
  rewrite length_app. cbn [length]. rewrite Nat.add_1_r.
  replace (Z.to_nat NUM_DIRECT_BLOCKS - length vs)%nat
    with (S (Z.to_nat NUM_DIRECT_BLOCKS - S (length vs))) by lia.
  done.
Qed.

Lemma lookup_dir_snoc name vs nb sls sl : length vs = length sls ->
  lookup_dir name (vs ++ [nb]) (sls ++ [sl]) =
    match lookup_dir name vs sls with
    | Some r => Some r
    | None => match find_slot name sl with Some (k, ino) => Some (nb, k, ino) | None => None end
    end.
Proof.
  revert vs. induction sls as [|x sls IH]; intros [|v vs] Hl; try done. injection Hl as Hl. cbn [app lookup_dir].
  destruct (find_slot name x) as [[??]|]; [done|]. by apply IH.
Qed.

(** Room for one more entry: a free slot, or a fresh block for an unused index. *)
Definition can_add s (vs : list Z) (sls : list (list slot)) : Prop :=
  Exists (fun sl => is_Some (free_slot sl)) sls \/
  ((length vs < Z.to_nat NUM_DIRECT_BLOCKS)%nat /\ SuperBlock.no_dblocks_free (sb s) <> 0 /\
   data_start s <= SuperBlock.next_vbid (sb s) < 2 ^ 64 /\
   bs_valid (NUM_BLOCKS s) (SuperBlock.next_vbid (sb s)) /\ SuperBlock.next_vbid (sb s) ∉ vs).

Lemma add_sls_is_Some p sls : is_Some (add_sls p sls) <-> Exists (fun sl => is_Some (free_slot sl)) sls.
Proof.
  induction sls as [|sl sls IH]; cbn; [split; [by intros []|by intros ?%Exists_nil]|].
  rewrite Exists_cons, <-IH. destruct (free_slot sl); [split; [by left|by eexists]|].
  destruct (add_sls p sls); cbn; split; (by eexists) || (by right) || naive_solver (by eexists).
Qed.

Lemma find_empty_slots name path new : path <> [] -> ROOT_INO <= new ->
  find_slot name (<[0%nat := (path, new)]> empty_slots) = if decide (name = path) then Some (0%nat, new) else None.
Proof.
  intros Hp Hn. change (<[0%nat := (path, new)]> empty_slots) with ((path, new) :: replicate 14 ([], 0)).
  assert (forall n, find_slot name (replicate n ([], 0)) = None) as Hempty.
  { induction n as [|n IH]; [done|]. cbn [replicate find_slot]. rewrite IH, decide_False; [done|]. intros [[? _] _]. done. }
  cbn [find_slot fst snd]. rewrite Hempty. destruct (decide (name = path)) as [->|Hne].
  - by rewrite decide_True.
  - by rewrite decide_False by naive_solver.
Qed.

(** What an insertion leaves alone: the identity of the parent, the handles, and
    every block but those of the directory and the parent's table block. *)
Definition added s (par : Inode.t) (vs : list Z) (par' : Inode.t) s' (vs' : list Z) : Prop :=
  Inode.wf par' /\ Inode.i_no par' = Inode.i_no par /\
  Inode.uid par' = Inode.uid par /\ Inode.mode par' = Inode.mode par /\ others (Inode.i_no par) s s' /\
  frame (fun b => b ∈ vs' \/ b = ITAB_ABSOLUTE_BLK_LOC (Inode.i_no par)) s s' /\
  (only_store s s' /\ vs' = vs \/
   only_store (set_sb (SuperBlock.alloc_blk (sb s)).2 s) s' /\ vs' = vs ++ [SuperBlock.next_vbid (sb s)]).

(** The blocks of a directory in its inode. *)
Lemma dir_blk i vs k v :
  take (Z.to_nat NUM_DIRECT_BLOCKS) (Inode.i_blks i) = pads vs -> (length vs <= Z.to_nat NUM_DIRECT_BLOCKS)%nat ->
  vs !! k = Some v -> Inode.i_blks i !! k = Some v.
Proof.
  intros Hb Hl Hk. pose proof (lookup_lt_Some _ _ _ Hk) as Hkl.
  rewrite <-(lookup_take_lt _ (Z.to_nat NUM_DIRECT_BLOCKS)), Hb by lia. unfold pads. by rewrite lookup_app_l.
Qed.

Lemma dir_unused i vs :
  take (Z.to_nat NUM_DIRECT_BLOCKS) (Inode.i_blks i) = pads vs -> (length vs < Z.to_nat NUM_DIRECT_BLOCKS)%nat ->
  Inode.i_blks i !! length vs = Some 0.
Proof.
  intros Hb Hl. rewrite <-(lookup_take_lt _ (Z.to_nat NUM_DIRECT_BLOCKS)), Hb by lia. unfold pads.
  rewrite lookup_app_r, Nat.sub_diag by lia. by apply lookup_replicate_2; lia.
Qed.

Lemma set_i_blk_fields i (n : nat) v i' :
  Inode.set_i_blk (Z.of_nat n) v i = Some i' ->
  Inode.i_blks i' = <[n := v]> (Inode.i_blks i) /\ Inode.i_links_count i' = Inode.i_links_count i /\
  Inode.i_no i' = Inode.i_no i /\ Inode.uid i' = Inode.uid i /\ Inode.mode i' = Inode.mode i.
Proof. unfold Inode.set_i_blk. case_decide; [|done]. intros ?. simplify_eq. cbn. by rewrite Nat2Z.id. Qed.

(** A directory with a new block that has one entry. *)
Lemma dir_at_grow s s' par par1 vs sls nb path new :
  dir_at s par vs sls -> 0 <= NUM_BLOCKS s -> 0 <= Inode.i_no par < NUM_INODES -> frame (touched nb par) s s' ->
  dblk s' nb (<[0%nat := (path, new)]> empty_slots) -> data_start s <= nb -> nb ∉ vs ->
  (length vs < Z.to_nat NUM_DIRECT_BLOCKS)%nat -> path <> [] -> ROOT_INO <= new -> DirEntry.name_ok path ->
  entries (concat sls) < 2 ^ 32 - 2 ->
  Inode.i_blks par1 = <[length vs := nb]> (Inode.i_blks par) -> Inode.i_links_count par1 = Inode.i_links_count par ->
  dir_at s' (bumped par1) (vs ++ [nb]) (sls ++ [<[0%nat := (path, new)]> empty_slots]).
Proof.
  intros [Hb Hl Hdat Hdup Hsl Hok [Hln _]] HN Hno Hf' Hd1 Hnb Hnin Hlt Hpath Hnew Hname Hent Hb1 Hl1.
  assert (ROOT_INO = 2) as HR by done. pose proof (entries_nonneg (concat sls)) as Hpos.
  assert (u64 (Inode.i_links_count par + 1) = entries (concat sls) + 1) as Hlinks by (rewrite u64_small; lia).
  split.
  - cbn. rewrite Hb1, pads_snoc, <-Hb by done. by rewrite take_insert_lt.
  - rewrite length_app. cbn. lia.
  - assert (data_start s' = data_start s) as -> by (unfold data_start; by destruct Hf' as (_&->&_)).
    apply Forall_app. split; [done|]. by constructor; [lia|].
  - apply NoDup_app. split_and!; [done| |apply NoDup_singleton]. intros x Hx ->%list_elem_of_singleton. done.
  - apply Forall2_app; [|by constructor]. eapply dblks_frame; [exact Hf'| |done].
    apply Forall_forall. intros w Hw [-> | ->]; [done|]. rewrite Forall_forall in Hdat.
    eapply data_not_itab; [exact HN|by apply Hdat|exact Hno|done].
  - apply Forall_app. split; [done|]. constructor; [|done]. apply Forall_insert; [|by right; split; [|cbn; lia]].
    by apply (bool_decide_unpack _).
  - rewrite concat_app, entries_app. cbn [concat]. rewrite app_nil_r.
    rewrite (entries_insert empty_slots 0 ([], 0)) by (done || (intros [? _]; done) || (split; [done|cbn; lia])).
    change (entries empty_slots) with 0. cbn [bumped Inode.i_links_count Inode.set_i_links]. rewrite Hl1. lia.
Qed.

Lemma add_direct_Ok s par old new path vs sls :
  ok s -> 0 <= NUM_BLOCKS s -> dir_at s par vs sls -> Inode.wf par ->
  0 <= Inode.i_no par < NUM_INODES -> inode_at s (Inode.i_no par) old ->
  ROOT_INO <= new < 2 ^ 64 -> DirEntry.name_ok path -> path <> [] ->
  lookup_dir path vs sls = None -> can_add s vs sls -> entries (concat sls) < 2 ^ 32 - 2 ->
  exists par' s' vs' sls', add_dentry_to_direct_blks par new path s = Ok (true, par') s' /\
    ok s' /\ dir_at s' par' vs' sls' /\ inode_at s' (Inode.i_no par) (Inode.set_dirty false par') /\
    Inode.i_links_count par' = Inode.i_links_count par + 1 /\
    (exists v k, lookup_dir path vs' sls' = Some (v, k, new)) /\
    (forall name, name <> path -> lookup_dir name vs' sls' = lookup_dir name vs sls) /\
    added s par vs par' s' vs'.
Proof.
  intros Hs HN Hda Hwf Hno Hold Hnew Hname Hpath Hlk Hroom Hent. pose proof Hda as [Hb Hl Hdat Hdup Hsl Hok [Hln _]].
  assert (ROOT_INO = 2) as HR by done. pose proof (Forall2_length _ _ _ Hsl) as Hlen.
  pose proof (entries_nonneg (concat sls)) as Hpos.
  assert (u64 (Inode.i_links_count par + 1) = entries (concat sls) + 1) as Hlinks by (rewrite u64_small; lia).
  assert (forall k v, vs !! k = Some v -> Inode.i_blks par !! (Z.to_nat 0 + k)%nat = Some v) as Hblk by (intros; by eapply dir_blk).
  destruct (add_loop_Ok s par old new path vs sls (Z.to_nat NUM_DIRECT_BLOCKS) 0) as (st1&Hadd); try done; [lia|].
  destruct (add_sls (path, new) sls) as [sls'|] eqn:Hsls.
  - destruct Hadd as (Hrun&Hd'&Hat'&Hf&Hoth1).
    destruct (add_sls_spec path new sls sls' vs Hsls Hlen Hpath ltac:(lia) Hok Hlk) as (Hfound&Hoth&He&Hok').
    exists (bumped par), (set_store st1 s), vs, sls'.
    split_and!; [exact Hrun|apply Hf| |exact Hat'|cbn; lia|exact Hfound|exact Hoth|].
    + split; try done; [|cbn; rewrite Hlinks, He; lia].
      assert (data_start (set_store st1 s) = data_start s) as -> by (unfold data_start; by destruct Hf as (_&->&_)). done.
    + split_and!; [by apply wf_bumped|done|done|done|exact Hoth1|exact Hf|by left].
  - destruct Hadd as (Hrun&Hf). set (s1 := set_store st1 s) in *.
    destruct Hroom as [Hex|(Hlt&Hfree&Hnb&Hval&Hnin)].
    { apply (add_sls_is_Some (path, new)) in Hex. rewrite Hsls in Hex. by destruct Hex. }
    assert (NUM_BLOCKS s1 = NUM_BLOCKS s) as HN1 by apply Hf.
    assert (data_start s1 = data_start s) as Hds1 by (unfold data_start; by rewrite HN1).
    set (nb := SuperBlock.next_vbid (sb s)) in *.
    assert (Inode.i_blks par !! Z.to_nat (0 + zlen vs) = Some 0) as Hz
      by (unfold zlen; rewrite Z.add_0_l, Nat2Z.id; by apply dir_unused).
    replace (Z.to_nat NUM_DIRECT_BLOCKS - length vs)%nat
      with (S (Z.to_nat NUM_DIRECT_BLOCKS - S (length vs))) in Hrun by lia.
    pose proof (data_start_pos s HN) as Hdpos. pose proof (zlen_nonneg vs) as Hzvs.
    destruct (add_new_block s1 par old new path (Z.to_nat NUM_DIRECT_BLOCKS - S (length vs)) (0 + zlen vs) 0 nb)
      as (par1&s'&Hset&Hrun1&Hd1&Hat1&Hf1&Ho1&Hoth1); try done; try (rewrite ?HN1, ?Hds1; done); try lia.
    { apply Hf. }
    { eapply inode_at_frame; [exact Hf|by intros []|done]. }
    assert (frame (touched nb par) s s') as Hf' by (eapply frame_trans; [by apply frame_none|done]).
    rewrite Z.add_0_l in Hset. apply set_i_blk_fields in Hset as Hfs. destruct Hfs as (Hb1&Hl1&?&?&?).
    exists (bumped par1), s', (vs ++ [nb]), (sls ++ [<[0%nat := (path, new)]> empty_slots]).
    split_and!; [unfold add_dentry_to_direct_blks; rewrite Hrun; exact Hrun1|apply Hf'| |exact Hat1|cbn; rewrite Hl1; lia| | |].
    + by eapply dir_at_grow; try done; lia.
    + exists nb, 0%nat. rewrite lookup_dir_snoc, Hlk, find_empty_slots, decide_True by (done || lia). done.
    + intros name Hne. rewrite lookup_dir_snoc by done.
      rewrite find_empty_slots, decide_False by (done || lia). by destruct (lookup_dir name vs sls).
    + split_and!; [|done|done|done| | |right; split; [exact Ho1|done]].
      * apply wf_bumped. eapply wf_set_i_blk; [exact Hwf| |exact Hset]. lia.
      * eapply others_trans; [by apply others_none|exact Hoth1].
      * eapply frame_weaken; [|exact Hf']. intros b [-> | ->]; [left|by right]. apply elem_of_app. right.
        by apply list_elem_of_singleton.
Qed.

(** C27. Adding an entry to a directory kept in direct blocks: when there is room
    the entry is added, the name is then found with the new inode number, every
    other name is found as before, and the directory is again well formed with
    one more link, as is its inode on the device. *)
Theorem directory_add s par old new path vs sls :
  ok s -> 0 <= NUM_BLOCKS s -> dir_at s par vs sls -> Inode.wf par ->
  0 <= Inode.i_no par < NUM_INODES -> inode_at s (Inode.i_no par) old ->
  ROOT_INO <= new < 2 ^ 64 -> DirEntry.name_ok path -> path <> [] ->
  lookup_dir path vs sls = None -> can_add s vs sls -> entries (concat sls) < 2 ^ 32 - 2 ->
  exists par' s' vs' sls', add_dentry_to_direct_blks par new path s = Ok (true, par') s' /\
    ok s' /\ dir_at s' par' vs' sls' /\ inode_at s' (Inode.i_no par) (Inode.set_dirty false par') /\
    Inode.i_links_count par' = Inode.i_links_count par + 1 /\
    (exists v k, lookup_dir path vs' sls' = Some (v, k, new)) /\
    forall name, name <> path -> lookup_dir name vs' sls' = lookup_dir name vs sls.
Proof.
  intros. destruct (add_direct_Ok s par old new path vs sls) as (par'&s'&vs'&sls'&?&?&?&?&?&?&?&_); try done.
  by exists par', s', vs', sls'.
Qed.

(** ** Paths *)
Lemma find_slash_range p pos start e :
  find_slash p pos start = Some e -> (start <= e /\ pos <= e < pos + length p)%nat.
Proof.
  revert pos. induction p as [|x p IH]; intros pos Hf; [done|]. cbn in Hf |- *.
  repeat case_decide; simplify_eq; try lia; specialize (IH _ Hf); lia.
Qed.

(** The loop of [get_de] ends: any fuel above the rest of the path gives the
    same result, in every state of the file system and for every store, so the
    bound used by [get_de] is never what stops it. *)
Theorem walk_fuel_enough usr path n m start ino s :
  (length path < start + n)%nat -> (length path < start + m)%nat ->
  walk acl (S n) usr path start ino s = walk acl (S m) usr path start ino s.
Proof.
  revert m start ino s. induction n as [|n IH]; intros m start ino s Hn Hm.
  - cbn [walk]. destruct (find_slash path 0 start) as [e|] eqn:He.
    { apply find_slash_range in He. lia. }
    done.
  - cbn [walk]. destruct (find_slash path 0 start) as [e|] eqn:He; [|done].
    apply find_slash_range in He as [He1 He2].
    assert (forall c s0, walk acl (S n) usr path (e + 1) c s0 = walk acl m usr path (e + 1) c s0) as Hnext.
    { intros c s0. destruct m as [|m]; [lia|]. apply IH; lia. }
    unfold mbind, M_bind. destruct (check_direct_blks acl usr GetDe (take e path) _ s) as [st s1| |]; try done.
    destruct (sr_ret st); [apply Hnext|]. destruct (sr_all st); [done|].
    destruct (check_indirect_blks acl usr GetDe (take e path) st s1) as [st2 s2| |]; try done.
    destruct (sr_ret st2); [apply Hnext|done].
Qed.

(** The directories along a path, from the component at [start] on. *)
Inductive walks s usr (path : bytes) : nat -> Z -> option DirEntry.t -> Prop :=
  | walks_last start ino i vs sls v k c :
      find_slash path 0 start = None -> searchable s usr ino i -> dir_at s i vs sls ->
      lookup_dir path vs sls = Some (v, k, c) ->
      walks s usr path start ino (Some (dentry_at path c v (Z.of_nat k)))
  | walks_missing start ino i vs sls :
      searchable s usr ino i -> dir_at s i vs sls ->
      lookup_dir match find_slash path 0 start with Some e => take e path | None => path end vs sls = None ->
      walks s usr path start ino None
  | walks_step start e ino i vs sls v k c d :
      find_slash path 0 start = Some e -> searchable s usr ino i -> dir_at s i vs sls ->
      lookup_dir (take e path) vs sls = Some (v, k, c) ->
      walks s usr path (e + 1) c d -> walks s usr path start ino d.

Lemma searchable_none s s' usr ino i : frame no_blk s s' -> searchable s usr ino i -> searchable s' usr ino i.
Proof. intros Hf (Hi&?). split; [|done]. eapply inode_at_frame; [exact Hf|by intros []|done]. Qed.

Lemma walks_none s s' usr path start ino d :
  frame no_blk s s' -> walks s usr path start ino d -> walks s' usr path start ino d.
Proof.
  intros Hf. induction 1.
  - eapply walks_last; [done|by eapply searchable_none|by eapply dir_at_none|done].
  - eapply walks_missing; [by eapply searchable_none|by eapply dir_at_none|done].
  - eapply walks_step; [done|by eapply searchable_none|by eapply dir_at_none|done|done].
Qed.

Lemma walk_Ok s usr path start ino d fuel :
  ok s -> 0 <= NUM_BLOCKS s -> walks s usr path start ino d -> (length path < start + fuel)%nat ->
  exists s', walk acl (S fuel) usr path start ino s = Ok d s' /\ frame no_blk s s' /\ only_store s s'.
Proof.
  intros Hs HN Hw. revert fuel. revert s Hs HN Hw.
  enough (forall s usr path start ino d, walks s usr path start ino d -> forall s1 fuel, frame no_blk s s1 ->
    ok s1 -> 0 <= NUM_BLOCKS s1 -> (length path < start + fuel)%nat ->
    exists s', walk acl (S fuel) usr path start ino s1 = Ok d s' /\ frame no_blk s1 s' /\ only_store s1 s') as Hgen.
  { intros s Hs HN Hw fuel Hfuel. eapply Hgen; [done| |done|done|done]. by apply frame_refl. }
  clear. induction 1 as [start ino i vs sls v k c Hfs Hsr Hda Hlk|start ino i vs sls Hsr Hda Hlk
    |start e ino i vs sls v k c d Hfs Hsr Hda Hlk Hw IH]; intros s1 fuel Hf Hs1 HN1 Hfuel; cbn [walk].
  - rewrite Hfs. destruct (check_direct_Ok s1 usr ino i vs sls path) as (t&s2&Hf2&Hr&Ho);
      [done|done|by eapply searchable_none|by eapply dir_at_none|]. rewrite Hlk in Hr. mrun Hr.
    exists s2. done.
  - destruct (check_direct_Ok s1 usr ino i vs sls
      match find_slash path 0 start with Some e => take e path | None => path end) as (t&s2&Hf2&Hr&Ho);
      [done|done|by eapply searchable_none|by eapply dir_at_none|]. rewrite Hlk in Hr. mrun Hr.
    exists s2. done.
  - rewrite Hfs. destruct (check_direct_Ok s1 usr ino i vs sls (take e path)) as (t&s2&Hf2&Hr&Ho);
      [done|done|by eapply searchable_none|by eapply dir_at_none|]. rewrite Hlk in Hr. mrun Hr. cbn [sr_ret sr_ino].
    pose proof (find_slash_range _ _ _ _ Hfs) as [He1 He2]. destruct fuel as [|fuel]; [lia|].
    destruct (IH s2 fuel) as (s3&Hr3&Hf3&Ho3); [by eapply frame_trans|apply Hf2| |lia|].
    + by destruct Hf2 as (_&->&_).
    + exists s3. split_and!; [exact Hr3|by eapply frame_trans|by eapply only_store_trans].
Qed.

Lemma get_de_Ok s usr path d :
  ok s -> 0 <= NUM_BLOCKS s -> head path = Some slash -> path <> [slash] ->
  walks s usr path 1 (SuperBlock.root_ino (sb s)) d ->
  exists s', get_de acl usr path s = Ok d s' /\ frame no_blk s s' /\ only_store s s'.
Proof.
  intros Hs HN Hhd Hnr Hw. destruct path as [|x rest]; [done|]. cbn in Hhd. simplify_eq.
  destruct (walk_Ok s usr (slash :: rest) 1 _ d (length (slash :: rest)) Hs HN Hw) as (s'&Hr&Hf&Ho); [lia|].
  exists s'. split; [|done]. unfold get_de. rewrite decide_True by done.
  destruct rest as [|y rest]; [done|]. msteps. mrun Hr.
  assert (forall dd, d = Some dd -> DirEntry.de_name dd = slash :: y :: rest) as Hname.
  { intros dd ->. clear -Hw. remember (Some dd) as od. revert Heqod.
    induction Hw; intros Hd; simplify_eq; [done|by apply IHHw]. }
  destruct d as [dd|]; [|done]. by rewrite decide_True by (by apply Hname).
Qed.

(** C28. Path lookup.  Along a path whose directories are well formed and
    searchable by the user, [get_de] returns the entry of the full path when
    every component is found, and fails at the first component that is missing;
    it changes no block. *)
Theorem get_de_resolves s usr path d :
  ok s -> 0 <= NUM_BLOCKS s -> head path = Some slash -> path <> [slash] ->
  walks s usr path 1 (SuperBlock.root_ino (sb s)) d ->
  exists s', get_de acl usr path s = Ok d s' /\ frame no_blk s s'.
Proof. intros. destruct (get_de_Ok s usr path d) as (s'&?&?&_); try done. by exists s'. Qed.

End dirspec.
