(* ===== verification/FsFile.v ===== *)
(** * File contents: [bfs_read], [bfs_write], [prealloc_blks]

    Models the data path of [bfs_core.cpp].  A read returns the bytes copied
    into the caller's buffer; a write takes the caller's bytes. *)
From S2P Require Import Prelude Layout BfsUtil CoreTypes BlockLayer BlockStore FsAlloc Acl FsDir FsDirSpec.

(** Blocks of the largest file; each round of the loops uses one. *)
Definition MAX_FILE_BLKS : Z := NUM_DIRECT_BLOCKS + NUM_BLKS_PER_IB.

Section file.
Context {B : Type} `{BlockStore B} (acl : bool).
Abbreviation fs := (fs B).

(** The common head: open file, inode, permission. *)
Definition open_inode (what : string) (usr : option User.t) (fh : Z) : M fs Inode.t :=
  t ← gets open_file_tab;
  match t !! fh with
  | None => throw std_out_of_range
  | Some of_ =>
      if OpenFile.ino of_ <? ROOT_INO then throw (BfsServerError ("Error during " ++ what ++ " get inode id"))
      else
        i ← read_inode (OpenFile.ino of_);
        if ACLayer.denied acl usr (Inode.uid i) (Inode.mode i)
        then throw (BfsAccessDeniedError "Permission denied") else mret i
  end.

Definition set_offset (fh off : Z) : M fs () :=
  modify (fun s => set_open_file_tab (alter (OpenFile.set_offset off) fh (open_file_tab s)) s).

(** ** [bfs_read] *)

(** Where the loop reads next: a block with the updated indices, an unallocated
    block (end of the file), or the file has its maximal size. *)
Inductive rpick := RBlk (v bidx iidx : Z) (ib : option IndirectBlock.t) | REnd | RFull.

Definition read_ib (i : Inode.t) (off bidx iidx : Z) (ib : option IndirectBlock.t) :
    M fs (IndirectBlock.t * Z) :=
  match ib with
  | Some x => mret (x, iidx)
  | None =>
      assert_ (BLK_SZ * NUM_DIRECT_BLOCKS <=? off) ;;
      v ← vec_at (Inode.i_blks i) NUM_DIRECT_BLOCKS;
      blk ← rblk v;
      '(x, len) ← of_opt (IndirectBlock.deserialize blk 0);
      assert_ (len <=? BLK_SZ) ;;
      mret (x, bidx - NUM_DIRECT_BLOCKS)
  end.

Definition read_pick (i : Inode.t) (off bidx iidx : Z) (ib : option IndirectBlock.t) : M fs rpick :=
  ds ← gets data_start;
  if bidx <? NUM_DIRECT_BLOCKS then
    v ← vec_at (Inode.i_blks i) bidx;
    if v <? ds then mret REnd else mret (RBlk v (bidx + 1) iidx ib)
  else
    '(ibv, iidx) ← read_ib i off bidx iidx ib;
    if zlen ibv <=? iidx then mret RFull
    else
      v ← vec_at ibv iidx;
      if v <? ds then mret REnd else mret (RBlk v bidx (iidx + 1) (Some ibv)).

(** The loop; [true]: it ended because the file has its maximal size. *)
Fixpoint read_loop (fuel : nat) (i : Inode.t) (num off bidx iidx : Z) (ib : option IndirectBlock.t)
    (acc : bytes) : M fs (bytes * Z * bool) :=
  match fuel with
  | O => die Out_of_fuel
  | S fuel =>
      if num <=? 0 then mret (acc, off, false)
      else if Inode.size i <=? off then mret (acc, off, false)
      else
        r ← read_pick i off bidx iidx ib;
        match r with
        | REnd => mret (acc, off, false)
        | RFull => mret (acc, off, true)
        | RBlk v bidx iidx ib =>
            let pos := off mod BLK_SZ in
            let max := if num <? BLK_SZ - pos then num else BLK_SZ - pos in
            let sz := if Inode.size i <? u64 (off + max) then Inode.size i - off else max in
            blk ← rblk v;
            d ← of_opt (mem_get pos sz blk);
            read_loop fuel i (num - sz) (u64 (off + sz)) bidx iidx ib (acc ++ d)
        end
  end.

Definition bfs_read (usr : option User.t) (fh size off : Z) : M fs bytes :=
  i ← open_inode "bfs_read" usr fh;
  if Inode.size i <? off then mret []
  else
    '(d, off', full) ← read_loop (Z.to_nat (MAX_FILE_BLKS + 1)) i size off (off / BLK_SZ) 0 None [];
    if (full : bool) then mret d
    else if Inode.size i <? off' then throw (BfsServerError "Offset > size, aborting")
    else set_offset fh off' ;; mret d.

(** ** [bfs_write] *)
Record wst := mkW {
  w_num : Z;
  w_off : Z;
  w_bidx : Z;
  w_iidx : Z;
  w_ib : option IndirectBlock.t;
  w_ino : Inode.t;
  w_used_new : bool
}.

Definition alloc_or_throw (what : string) : M fs Z :=
  v ← sb_alloc_blk;
  if v =? 0 then throw (BfsServerError what) else mret v.

(** The indirect block: read, or allocated and written empty.  Result: inode,
    block ids, index, and whether it is new. *)
Definition write_ib (st : wst) : M fs (Inode.t * IndirectBlock.t * Z * bool) :=
  match w_ib st with
  | Some x => mret (w_ino st, x, w_iidx st, false)
  | None =>
      ds ← gets data_start;
      v ← vec_at (Inode.i_blks (w_ino st)) NUM_DIRECT_BLOCKS;
      if v <? ds then
        nb ← alloc_or_throw "Failed allocating a new indirect block";
        i ← set_i_blk_m NUM_DIRECT_BLOCKS nb (w_ino st);
        wblk nb (zeros BLK_SZ) ;;
        mret (i, IndirectBlock.ctor, w_bidx st - NUM_DIRECT_BLOCKS, true)
      else
        blk ← rblk v;
        '(x, len) ← of_opt (IndirectBlock.deserialize blk 0);
        assert_ (len <=? BLK_SZ) ;;
        mret (w_ino st, x, w_bidx st - NUM_DIRECT_BLOCKS, false)
  end.

(** The block of this round and whether it is new; [None]: maximal size. *)
Definition write_pick (st : wst) : M fs (option (Z * bool * wst)) :=
  ds ← gets data_start;
  if w_bidx st <? NUM_DIRECT_BLOCKS then
    v ← vec_at (Inode.i_blks (w_ino st)) (w_bidx st);
    if v <? ds then
      nv ← alloc_or_throw "Failed allocating a new direct block vbid";
      i ← set_i_blk_m (w_bidx st) nv (w_ino st);
      mret (Some (nv, true, mkW (w_num st) (w_off st) (w_bidx st + 1) (w_iidx st) (w_ib st) i true))
    else
      mret (Some (v, false, mkW (w_num st) (w_off st) (w_bidx st + 1) (w_iidx st) (w_ib st) (w_ino st) (w_used_new st)))
  else
    '(i, ib, iidx, new_ib) ← write_ib st;
    if zlen ib <=? iidx then mret None
    else
      v ← vec_at ib iidx;
      if v <? ds then
        nv ← alloc_or_throw "Failed allocating a new indirect block vbid";
        match IndirectBlock.set_indirect_loc iidx nv ib with
        | None => throw std_out_of_range
        | Some ib =>
            '(buf, len) ← of_opt (IndirectBlock.serialize ib (zeros BLK_SZ) 0);
            assert_ (len <=? BLK_SZ) ;;
            ib_loc ← vec_at (Inode.i_blks i) NUM_DIRECT_BLOCKS;
            wblk ib_loc buf ;;
            mret (Some (nv, true, mkW (w_num st) (w_off st) (w_bidx st) (iidx + 1) (Some ib) i true))
        end
      else
        mret (Some (v, new_ib, mkW (w_num st) (w_off st) (w_bidx st) (iidx + 1) (Some ib) i (w_used_new st))).

(** One block: read first unless it is new or wholly overwritten. *)
Definition write_chunk (v : Z) (new : bool) (pos : Z) (d : bytes) : M fs () :=
  blk ← (if negb new && (zlen d <? BLK_SZ) then rblk v else mret (zeros BLK_SZ));
  blk ← of_opt (mem_set pos d blk);
  wblk v blk ;; mret ().

(** The loop over [wbuf]; [inr]: bytes left when the file has its maximal size. *)
Fixpoint write_loop (fuel : nat) (wbuf : bytes) (st : wst) : M fs (wst + Z) :=
  match fuel with
  | O => die Out_of_fuel
  | S fuel =>
      if w_num st <=? 0 then mret (inl st)
      else
        r ← write_pick st;
        match r with
        | None => mret (inr (w_num st))
        | Some (v, new, st) =>
            let pos := w_off st mod BLK_SZ in
            let sz := if BLK_SZ - pos <=? w_num st then BLK_SZ - pos else w_num st in
            d ← of_opt (mem_get (zlen wbuf - w_num st) sz wbuf);
            write_chunk v new pos d ;;
            write_loop fuel wbuf
              (mkW (w_num st - sz) (u64 (w_off st + sz)) (w_bidx st) (w_iidx st) (w_ib st) (w_ino st) (w_used_new st))
        end
  end.

(** The number of bytes written.  A write past the end of the file is preceded
    by zeros from there on; the buffer for it is assumed to be obtained. *)
Definition bfs_write (usr : option User.t) (fh : Z) (buf : bytes) (off : Z) : M fs Z :=
  i ← open_inode "bfs_write" usr fh;
  let hole := if Inode.size i <? off then off - Inode.size i else 0 in
  if decide (zlen buf + hole < 2 ^ 64) then
    let wbuf := zeros hole ++ buf in
    let start := off - hole in
    r ← write_loop (Z.to_nat (MAX_FILE_BLKS + 1)) wbuf
          (mkW (zlen wbuf) start (start / BLK_SZ) 0 None i false);
    match r with
    | inr rest => mret (u64 (zlen wbuf - hole - rest))
    | inl st =>
        set_offset fh (w_off st) ;;
        (if w_used_new st || (Inode.size (w_ino st) <? w_off st)
         then write_inode (Inode.set_size (w_off st) (w_ino st)) bfs_O_SYNC 0 true else mret ()) ;;
        mret (u64 (zlen wbuf - hole - w_num st))
    end
  else die Undefined_behaviour.

(** ** [prealloc_blks] *)
Fixpoint prealloc_direct (n : nat) (ix : Z) (i : Inode.t) : M fs Inode.t :=
  match n with
  | O => mret i
  | S n =>
      v ← alloc_or_throw "Failed preallocating a new direct block vbid";
      i ← set_i_blk_m ix v i;
      prealloc_direct n (ix + 1) i
  end.

Fixpoint prealloc_indirect (n : nat) (ix : Z) (ib : IndirectBlock.t) : M fs IndirectBlock.t :=
  match n with
  | O => mret ib
  | S n =>
      v ← alloc_or_throw "Failed preallocating a new indirect data block";
      match IndirectBlock.set_indirect_loc ix v ib with
      | None => throw std_out_of_range
      | Some ib => prealloc_indirect n (ix + 1) ib
      end
  end.

Definition prealloc_blks (i : Inode.t) : M fs Inode.t :=
  i ← prealloc_direct (Z.to_nat NUM_DIRECT_BLOCKS) 0 i;
  nb ← alloc_or_throw "Failed preallocating a new indirect block";
  i ← set_i_blk_m NUM_DIRECT_BLOCKS nb i;
  ib ← prealloc_indirect (Z.to_nat NUM_BLKS_PER_IB) 0 IndirectBlock.ctor;
  '(buf, len) ← of_opt (IndirectBlock.serialize ib (zeros BLK_SZ) 0);
  assert_ (len <=? BLK_SZ) ;;
  wblk nb buf ;;
  mret i.

(** ** Files as byte strings *)
Context {blaws : BlockStoreLaws B}.
Implicit Types s : fs.

(** A file whose first blocks [vs] are allocated and hold [blks]; [ib] is the
    content of its indirect block. *)
Record file_at s (i : Inode.t) (ib vs : list Z) (blks : list bytes) : Prop := {
  fa_direct : forall k v, vs !! k = Some v -> (k < 12)%nat -> Inode.i_blks i !! k = Some v;
  fa_ib : (12 < length vs)%nat -> exists v blk, Inode.i_blks i !! 12%nat = Some v /\ has s v blk /\
    IndirectBlock.deserialize blk 0 = Some (ib, BLK_SZ) /\ (v ∉ vs) /\ data_start s <= v;
  fa_indirect : forall k v, vs !! k = Some v -> (12 <= k)%nat -> ib !! (k - 12)%nat = Some v;
  fa_len : zlen ib = NUM_BLKS_PER_IB /\ zlen vs <= MAX_FILE_BLKS;
  fa_data : Forall (fun v => data_start s <= v) vs;
  fa_dup : NoDup vs;
  fa_has : Forall2 (has s) vs blks
}.

Lemma file_at_none s s' i ib vs blks : frame no_blk s s' -> file_at s i ib vs blks -> file_at s' i ib vs blks.
Proof.
  intros Hf [H1 H2 H3 H4 H5 H6 H7].
  assert (data_start s' = data_start s) as Hds by (unfold data_start; by destruct Hf as (_&->&_)).
  split; try done; rewrite ?Hds.
  - intros Hl. destruct (H2 Hl) as (v&blk&?&?&?). exists v, blk. split_and!; try tauto.
    by eapply frame_none_has.
  - done.
  - clear -Hf H7. induction H7 as [|v d vs blks Hv H7 IH]; [constructor|]. constructor; [by eapply frame_none_has|done].
Qed.

(** The position of the loops: block [k] is next. *)
Definition at_blk (ib : list Z) (k bidx iidx : Z) (oib : option IndirectBlock.t) : Prop :=
  (k < NUM_DIRECT_BLOCKS /\ bidx = k /\ oib = None) \/
  (NUM_DIRECT_BLOCKS <= k /\ bidx = k /\ oib = None) \/
  (NUM_DIRECT_BLOCKS <= k /\ NUM_DIRECT_BLOCKS <= bidx /\ iidx = k - NUM_DIRECT_BLOCKS /\ oib = Some ib).

Lemma read_pick_Ok s i ib vs blks k v off bidx iidx oib :
  ok s -> file_at s i ib vs blks -> vs !! Z.to_nat k = Some v -> 0 <= k -> BLK_SZ * k <= off ->
  at_blk ib k bidx iidx oib ->
  exists bidx' iidx' oib' st, read_pick i off bidx iidx oib s = Ok (RBlk v bidx' iidx' oib') (set_store st s) /\
    at_blk ib (k + 1) bidx' iidx' oib' /\ frame no_blk s (set_store st s).
Proof.
  intros Hs [H1 H2 H3 H4 H5 H6 H7] Hv Hk Hoff Hat.
  assert (NUM_DIRECT_BLOCKS = 12) as HD by done. assert (BLK_SZ = 4096) as HB by done.
  assert (data_start s <= v) as Hdv by (rewrite Forall_lookup in H5; by apply (H5 (Z.to_nat k))).
  pose proof (lookup_lt_Some _ _ _ Hv) as Hlt. unfold read_pick. msteps.
  destruct Hat as [(Hk12&->&->)|[(Hk12&->&->)|(Hk12&Hb12&->&->)]].
  - destruct (Z.ltb_spec k NUM_DIRECT_BLOCKS); [|lia].
    mrun (vec_at_Ok (Inode.i_blks i) k v s Hk ltac:(apply H1; [done|lia])).
    destruct (Z.ltb_spec v (data_start s)); [lia|].
    exists (k + 1), iidx, None, (store s). split_and!; [by destruct s| |by apply frame_self].
    destruct (decide (k + 1 < NUM_DIRECT_BLOCKS)); [left|right; left]; split_and!; (done || lia).
  - destruct (Z.ltb_spec k NUM_DIRECT_BLOCKS); [lia|].
    destruct H2 as (w&blk&Hw&Hblk&Hde&_); [lia|]. destruct (rblk_Ok s w blk Hs Hblk) as (st&Hr&Hf).
    assert (read_ib i off k iidx None s = Ok (ib, k - NUM_DIRECT_BLOCKS) (set_store st s)) as Hib.
    { unfold read_ib. rewrite bind_assert by (apply Z.leb_le; lia).
      mrun (vec_at_Ok (Inode.i_blks i) NUM_DIRECT_BLOCKS w s ltac:(lia) Hw). mrun Hr. rewrite Hde. msteps. done. }
    mrun Hib. assert (zlen vs <= MAX_FILE_BLKS) by apply H4. unfold MAX_FILE_BLKS, zlen in *.
    assert (ib !! Z.to_nat (k - NUM_DIRECT_BLOCKS) = Some v) as Hi.
    { rewrite Z2Nat.inj_sub by lia. by apply H3; [|lia]. }
    pose proof (lookup_lt_Some _ _ _ Hi). destruct (Z.leb_spec (Z.of_nat (length ib)) (k - NUM_DIRECT_BLOCKS)); [lia|].
    mrun (vec_at_Ok ib (k - NUM_DIRECT_BLOCKS) v (set_store st s) ltac:(lia) Hi).
    destruct (Z.ltb_spec v (data_start s)); [lia|].
    do 4 eexists. split_and!; [reflexivity| |done]. right; right. split_and!; (done || lia).
  - destruct (Z.ltb_spec bidx NUM_DIRECT_BLOCKS); [lia|]. cbn [read_ib]. msteps.
    assert (ib !! Z.to_nat (k - NUM_DIRECT_BLOCKS) = Some v) as Hi.
    { rewrite Z2Nat.inj_sub by lia. by apply H3; [|lia]. }
    pose proof (lookup_lt_Some _ _ _ Hi). unfold zlen.
    destruct (Z.leb_spec (Z.of_nat (length ib)) (k - NUM_DIRECT_BLOCKS)); [lia|].
    mrun (vec_at_Ok ib (k - NUM_DIRECT_BLOCKS) v s ltac:(lia) Hi).
    destruct (Z.ltb_spec v (data_start s)); [lia|].
    exists bidx, (k - NUM_DIRECT_BLOCKS + 1), (Some ib), (store s). split_and!; [by destruct s| |by apply frame_self].
    right; right. split_and!; (done || lia).
Qed.

(** ** Reading *)
Definition sub (l : bytes) (off n : Z) : bytes := take (Z.to_nat n) (drop (Z.to_nat off) l).

Lemma sub_split l off a b : 0 <= off -> 0 <= a -> 0 <= b -> sub l off (a + b) = sub l off a ++ sub l (off + a) b.
Proof.
  intros. unfold sub. rewrite Z2Nat.inj_add, (Z2Nat.inj_add off) by lia.
  rewrite <-drop_drop. rewrite <-take_take_drop. done.
Qed.

Lemma sub_zlen l off n : 0 <= off -> 0 <= n -> off + n <= zlen l -> zlen (sub l off n) = n.
Proof. intros. unfold sub, zlen in *. rewrite length_take, length_drop. lia. Qed.

Lemma mem_get_sub l off n : 0 <= off -> 0 <= n -> off + n <= zlen l -> mem_get off n l = Some (sub l off n).
Proof. intros. unfold mem_get. by rewrite decide_True. Qed.

Definition blocks_ok (blks : list bytes) : Prop := Forall (fun d => zlen d = BLK_SZ) blks.

Lemma blocks_ok_at blks k d : blocks_ok blks -> blks !! k = Some d -> zlen d = BLK_SZ.
Proof. unfold blocks_ok. rewrite Forall_lookup. eauto. Qed.

Lemma concat_zlen blks : blocks_ok blks -> zlen (concat blks) = BLK_SZ * zlen blks.
Proof.
  induction 1 as [|d blks Hd _ IH]; [done|]. cbn [concat]. rewrite zlen_app, IH, Hd. unfold zlen. cbn. lia.
Qed.

Lemma concat_split blks k blk : blocks_ok blks -> blks !! k = Some blk ->
  concat blks = concat (take k blks) ++ blk ++ concat (drop (S k) blks) /\
  zlen (concat (take k blks)) = BLK_SZ * Z.of_nat k.
Proof.
  intros Hok Hk. split.
  - rewrite <-(take_drop_middle blks k blk Hk) at 1. by rewrite concat_app.
  - rewrite concat_zlen by (by apply Forall_take). unfold zlen. rewrite length_take.
    apply lookup_lt_Some in Hk. lia.
Qed.

Lemma sub_blk blks k blk pos sz :
  blocks_ok blks -> blks !! Z.to_nat k = Some blk -> 0 <= k -> 0 <= pos -> 0 <= sz -> pos + sz <= BLK_SZ ->
  sub (concat blks) (BLK_SZ * k + pos) sz = sub blk pos sz.
Proof.
  intros Hok Hk Hk0 Hpos Hsz Hle. destruct (concat_split blks (Z.to_nat k) blk Hok Hk) as [-> Hz].
  assert (BLK_SZ = 4096) as HB by done. rewrite Z2Nat.id in Hz by lia. unfold sub, zlen in *.
  rewrite drop_app_ge by lia.
  replace (Z.to_nat (BLK_SZ * k + pos) - length (concat (take (Z.to_nat k) blks)))%nat with (Z.to_nat pos) by lia.
  assert (zlen blk = BLK_SZ) as Hb by (by eapply blocks_ok_at). unfold zlen in Hb.
  rewrite drop_app_le by lia. rewrite take_app_le by (rewrite length_drop; lia). done.
Qed.

Lemma fa_blocks_ok s i ib vs blks : ok s -> file_at s i ib vs blks -> blocks_ok blks.
Proof.
  intros Hs Hfa. pose proof (fa_has _ _ _ _ _ Hfa) as H7. clear Hfa. induction H7 as [|v d vs blks Hv _ IH]; [constructor|].
  constructor; [|done]. by apply (has_valid s v d).
Qed.

(** Block and position of an offset within the blocks [vs]. *)
Lemma offset_block (vs : list Z) off :
  0 <= off < BLK_SZ * zlen vs ->
  let k := off / BLK_SZ in let pos := off mod BLK_SZ in
  off = BLK_SZ * k + pos /\ 0 <= pos < BLK_SZ /\ 0 <= k < zlen vs /\ exists v, vs !! Z.to_nat k = Some v.
Proof.
  intros Ho k pos. assert (BLK_SZ = 4096) as HB by done.
  assert (off = BLK_SZ * k + pos) as Hkp by (apply Z.div_mod; done).
  assert (0 <= pos < BLK_SZ) as Hpos by (apply Z.mod_pos_bound; done).
  assert (0 <= k) as Hk0 by (apply Z.div_pos; lia). assert (k < zlen vs) as Hklt by nia.
  split_and!; try done; try lia. apply lookup_lt_is_Some_2. unfold zlen in *. lia.
Qed.

(** One round: the rest of a block, or what is left of the file or the request. *)
Lemma read_round_Ok s i ib vs blks num off bidx iidx oib :
  ok s -> file_at s i ib vs blks -> 0 < num -> 0 <= off < Inode.size i ->
  Inode.size i <= BLK_SZ * zlen vs -> Inode.size i + BLK_SZ < 2 ^ 64 -> at_blk ib (off / BLK_SZ) bidx iidx oib ->
  let sz := Z.min (Z.min num (BLK_SZ - off mod BLK_SZ)) (Inode.size i - off) in
  exists st b' i' o', at_blk ib (off / BLK_SZ + 1) b' i' o' /\ frame no_blk s (set_store st s) /\
    forall fuel acc, read_loop (S fuel) i num off bidx iidx oib acc s =
      read_loop fuel i (num - sz) (off + sz) b' i' o' (acc ++ sub (concat blks) off sz) (set_store st s).
Proof.
  intros Hs Hfa Hnum Hoff Hsz Hw Hat sz. assert (BLK_SZ = 4096) as HB by done.
  destruct (offset_block vs off) as (Hkp&Hpos&Hk&v&Hv); [lia|].
  set (k := off / BLK_SZ) in *. set (pos := off mod BLK_SZ) in *.
  destruct (read_pick_Ok s i ib vs blks k v off bidx iidx oib Hs Hfa Hv ltac:(lia) ltac:(lia) Hat) as (b'&i'&o'&st1&Hp&Hat'&Hf1).
  pose proof (file_at_none _ _ _ _ _ _ Hf1 Hfa) as Hfa1. set (s1 := set_store st1 s) in *.
  destruct (Forall2_lookup_l _ _ _ _ _ (fa_has _ _ _ _ _ Hfa1) Hv) as (blk&Hblk&Hhas).
  pose proof (fa_blocks_ok _ _ _ _ _ (proj1 Hf1) Hfa1) as Hbok.
  assert (zlen blk = BLK_SZ) as Hzb by (by eapply blocks_ok_at).
  destruct (rblk_Ok s1 v blk (proj1 Hf1) Hhas) as (st2&Hr&Hf2).
  exists st2, b', i', o'. split_and!; [done|by eapply frame_trans|]. intros fuel acc. cbn [read_loop].
  destruct (Z.leb_spec num 0); [lia|]. destruct (Z.leb_spec (Inode.size i) off); [lia|]. mrun Hp. cbn beta iota. mrun Hr.
  fold pos. set (max := if num <? BLK_SZ - pos then num else BLK_SZ - pos).
  assert (max = Z.min num (BLK_SZ - pos)) as Hmax by (unfold max; destruct (Z.ltb_spec num (BLK_SZ - pos)); lia).
  rewrite (u64_small (off + max)) by lia.
  assert ((if Inode.size i <? off + max then Inode.size i - off else max) = sz) as ->
    by (unfold sz; destruct (Z.ltb_spec (Inode.size i) (off + max)); lia).
  rewrite (mem_get_sub blk pos sz) by (unfold sz; lia). msteps.
  rewrite (u64_small (off + sz)) by (unfold sz; lia).
  rewrite <-(sub_blk blks k blk pos sz) by (done || (unfold sz; lia)). by rewrite <-Hkp.
Qed.

Lemma read_loop_Ok fuel s i ib vs blks num off bidx iidx oib acc :
  ok s -> file_at s i ib vs blks -> 0 <= num -> 0 <= off <= Inode.size i ->
  Inode.size i <= BLK_SZ * zlen vs -> Inode.size i + BLK_SZ < 2 ^ 64 ->
  at_blk ib (off / BLK_SZ) bidx iidx oib -> zlen vs < off / BLK_SZ + Z.of_nat fuel ->
  let n := Z.min num (Inode.size i - off) in
  exists st, read_loop fuel i num off bidx iidx oib acc s =
      Ok (acc ++ sub (concat blks) off n, off + n, false) (set_store st s) /\ frame no_blk s (set_store st s).
Proof.
  revert s num off bidx iidx oib acc.
  induction fuel as [|fuel IH]; intros s num off bidx iidx oib acc Hs Hfa Hnum Hoff Hsz Hw Hat Hfuel n.
  { exfalso. assert (off / BLK_SZ <= zlen vs); [|lia]. apply Z.div_le_upper_bound; [done|lia]. }
  assert (BLK_SZ = 4096) as HB by done. destruct (decide (0 < num /\ off < Inode.size i)) as [[Hn0 Ho]|Hstop].
  2:{ replace n with 0 by lia. exists (store s). unfold sub. cbn [read_loop]. cbn [take Z.to_nat]. rewrite app_nil_r, Z.add_0_r.
      split; [|by apply frame_self]. destruct (Z.leb_spec num 0); [by destruct s|].
      destruct (Z.leb_spec (Inode.size i) off); [by destruct s|lia]. }
  destruct (read_round_Ok s i ib vs blks num off bidx iidx oib Hs Hfa Hn0 ltac:(lia) Hsz Hw Hat) as (st1&b'&i'&o'&Hat'&Hf1&Hrun).
  destruct (offset_block vs off) as (Hkp&Hpos&Hk&_); [lia|]. set (sz := Z.min (Z.min num _) (Inode.size i - off)) in *.
  set (k := off / BLK_SZ) in *. set (pos := off mod BLK_SZ) in *. rewrite Hrun. set (s1 := set_store st1 s) in *.
  assert (sz = Z.min (Z.min num (BLK_SZ - pos)) (Inode.size i - off)) as Hszd by done. clearbody sz.
  destruct (decide (off + sz = Inode.size i \/ num = sz)) as [Hend|Hcont].
  - (* the next round stops *)
    assert (n = sz) as -> by (unfold n; lia). exists (store s1). split; [|exact Hf1]. destruct fuel as [|fuel]; [lia|].
    cbn [read_loop]. destruct (Z.leb_spec (num - sz) 0); [done|]. destruct (Z.leb_spec (Inode.size i) (off + sz)); [done|lia].
  - assert (sz = BLK_SZ - pos) as Hfull by lia.
    assert ((off + sz) / BLK_SZ = k + 1) as Hk1 by (symmetry; apply (Z.div_unique _ _ _ 0); lia).
    destruct (IH s1 (num - sz) (off + sz) b' i' o' (acc ++ sub (concat blks) off sz)) as (st3&Hr3&Hf3);
      [apply Hf1|by eapply file_at_none|lia|lia|lia|lia|by rewrite Hk1|rewrite Hk1; lia|].
    exists st3. change (set_store st3 s1) with (set_store st3 s) in *. split; [|by eapply frame_trans].
    rewrite Hr3. replace (Z.min (num - sz) (Inode.size i - (off + sz))) with (n - sz) by (unfold n; lia).
    rewrite <-app_assoc, <-sub_split by (unfold n; lia).
    replace (sz + (n - sz)) with n by lia. by replace (off + sz + (n - sz)) with (off + n) by lia.
Qed.

(** ** Writing *)
Lemma write_pick_Ok s i ib vs blks k v num off bidx iidx oib used :
  ok s -> file_at s i ib vs blks -> vs !! Z.to_nat k = Some v -> 0 <= k -> at_blk ib k bidx iidx oib ->
  exists bidx' iidx' oib' st,
    write_pick (mkW num off bidx iidx oib i used) s =
      Ok (Some (v, false, mkW num off bidx' iidx' oib' i used)) (set_store st s) /\
    at_blk ib (k + 1) bidx' iidx' oib' /\ frame no_blk s (set_store st s).
Proof.
  intros Hs [H1 H2 H3 H4 H5 H6 H7] Hv Hk Hat.
  assert (NUM_DIRECT_BLOCKS = 12) as HD by done.
  assert (data_start s <= v) as Hdv by (rewrite Forall_lookup in H5; by apply (H5 (Z.to_nat k))).
  pose proof (lookup_lt_Some _ _ _ Hv) as Hlt. unfold write_pick. msteps.
  cbn [w_num w_off w_bidx w_iidx w_ib w_ino w_used_new].
  destruct Hat as [(Hk12&->&->)|[(Hk12&->&->)|(Hk12&Hb12&->&->)]].
  - destruct (Z.ltb_spec k NUM_DIRECT_BLOCKS); [|lia].
    mrun (vec_at_Ok (Inode.i_blks i) k v s Hk ltac:(apply H1; [done|lia])).
    destruct (Z.ltb_spec v (data_start s)); [lia|].
    exists (k + 1), iidx, None, (store s). split_and!; [by destruct s| |by apply frame_self].
    destruct (decide (k + 1 < NUM_DIRECT_BLOCKS)); [left|right; left]; split_and!; (done || lia).
  - destruct (Z.ltb_spec k NUM_DIRECT_BLOCKS); [lia|].
    destruct H2 as (w&blk&Hw&Hblk&Hde&_&Hdw); [lia|]. destruct (rblk_Ok s w blk Hs Hblk) as (st&Hr&Hf).
    assert (write_ib (mkW num off k iidx None i used) s =
              Ok (i, ib, k - NUM_DIRECT_BLOCKS, false) (set_store st s)) as Hib.
    { unfold write_ib. cbn [w_ib w_ino w_bidx]. msteps.
      mrun (vec_at_Ok (Inode.i_blks i) NUM_DIRECT_BLOCKS w s ltac:(lia) Hw).
      destruct (Z.ltb_spec w (data_start s)); [lia|]. mrun Hr. rewrite Hde. msteps. done. }
    mrun Hib. assert (ib !! Z.to_nat (k - NUM_DIRECT_BLOCKS) = Some v) as Hi.
    { rewrite Z2Nat.inj_sub by lia. by apply H3; [|lia]. }
    pose proof (lookup_lt_Some _ _ _ Hi). unfold zlen.
    destruct (Z.leb_spec (Z.of_nat (length ib)) (k - NUM_DIRECT_BLOCKS)); [lia|].
    mrun (vec_at_Ok ib (k - NUM_DIRECT_BLOCKS) v (set_store st s) ltac:(lia) Hi).
    destruct (Z.ltb_spec v (data_start s)); [lia|].
    do 4 eexists. split_and!; [reflexivity| |done]. right; right. split_and!; (done || lia).
  - destruct (Z.ltb_spec bidx NUM_DIRECT_BLOCKS); [lia|].
    unfold write_ib. cbn [w_ib w_ino w_iidx]. msteps.
    assert (ib !! Z.to_nat (k - NUM_DIRECT_BLOCKS) = Some v) as Hi.
    { rewrite Z2Nat.inj_sub by lia. by apply H3; [|lia]. }
    pose proof (lookup_lt_Some _ _ _ Hi). unfold zlen.
    destruct (Z.leb_spec (Z.of_nat (length ib)) (k - NUM_DIRECT_BLOCKS)); [lia|].
    mrun (vec_at_Ok ib (k - NUM_DIRECT_BLOCKS) v s ltac:(lia) Hi).
    destruct (Z.ltb_spec v (data_start s)); [lia|].
    exists bidx, (k - NUM_DIRECT_BLOCKS + 1), (Some ib), (store s). split_and!; [by destruct s| |by apply frame_self].
    right; right. split_and!; (done || lia).
Qed.

Lemma write_chunk_Ok s v blk pos d blk' :
  ok s -> has s v blk -> mem_set pos d blk = Some blk' ->
  exists st, write_chunk v false pos d s = Ok () (set_store st s) /\ has (set_store st s) v blk' /\
    frame (eq v) s (set_store st s).
Proof.
  intros Hs Hv Hm. destruct (has_valid s v blk Hs Hv) as [_ Hz].
  assert (zlen blk' = BLK_SZ) as Hz' by (rewrite <-Hz; by eapply mem_set_zlen).
  pose proof (mem_set_Some _ _ _ _ Hm) as (Hp&Hd&_).
  unfold write_chunk. cbn [negb andb]. destruct (Z.ltb_spec (zlen d) BLK_SZ) as [Hlt|Hge].
  - destruct (rblk_Ok s v blk Hs Hv) as (st1&Hr&Hf1). mrun Hr. rewrite Hm. msteps.
    destruct (wblk_Ok (set_store st1 s) v blk' blk bfs_O_SYNC (proj1 Hf1)) as (c&st2&Hw&_&Hh&Hf2);
      [by eapply frame_none_has|done|]. unfold wblk. mrun Hw. exists st2. split_and!; [done|done|].
    eapply frame_trans; [by apply frame_none|exact Hf2].
  - assert (pos = 0) as -> by lia. assert (zlen d = BLK_SZ) as Hdz by lia. msteps.
    assert (blk' = d) as ->.
    { unfold mem_set in Hm. rewrite decide_True in Hm by lia. cbn in Hm. simplify_eq.
      rewrite drop_ge by (unfold zlen in *; lia). by rewrite app_nil_r. }
    assert (mem_set 0 d (zeros BLK_SZ) = Some d) as ->.
    { unfold mem_set. rewrite decide_True by (rewrite zlen_zeros by done; lia). cbn.
      rewrite drop_ge; [by rewrite app_nil_r|]. unfold zeros. rewrite length_replicate. unfold zlen in *. lia. }
    msteps. destruct (wblk_Ok s v d blk bfs_O_SYNC Hs Hv Hdz) as (c&st&Hw&_&Hh&Hf).
    unfold wblk. mrun Hw. by exists st.
Qed.

(** The file after one block was rewritten. *)
Lemma file_at_write s s' i ib vs blks k v blk' :
  file_at s i ib vs blks -> vs !! k = Some v -> has s' v blk' -> frame (eq v) s s' ->
  file_at s' i ib vs (<[k := blk']> blks).
Proof.
  intros [H1 H2 H3 H4 H5 H6 H7] Hv Hh Hf.
  assert (data_start s' = data_start s) as Hds by (unfold data_start; by destruct Hf as (_&->&_)).
  split; try done; rewrite ?Hds; [| |].
  - intros Hl. destruct (H2 Hl) as (w&blk&Hw&Hblk&Hde&Hnin&?). exists w, blk. split_and!; try done.
    eapply frame_has; [exact Hf| |done]. intros ->. apply Hnin. by eapply list_elem_of_lookup_2.
  - done.
  - apply Forall2_same_length_lookup. split; [rewrite length_insert; by eapply Forall2_length|].
    intros j w d Hw Hd. destruct (decide (j = k)) as [->|Hne].
    + rewrite list_lookup_insert_eq in Hd.
      * simplify_eq. done.
      * rewrite <-(Forall2_length _ _ _ H7). by eapply lookup_lt_Some.
    + rewrite list_lookup_insert_ne in Hd by done. eapply frame_has; [exact Hf| |].
      * intros ->. apply Hne. eapply NoDup_lookup; eauto.
      * by eapply (Forall2_lookup_lr _ _ _ _ _ _ H7).
Qed.

(** Overwriting inside one block is overwriting inside the file. *)
Lemma mem_set_concat blks k blk pos d blk' :
  blocks_ok blks -> blks !! Z.to_nat k = Some blk -> 0 <= k -> mem_set pos d blk = Some blk' ->
  mem_set (BLK_SZ * k + pos) d (concat blks) = Some (concat (<[Z.to_nat k := blk']> blks)).
Proof.
  intros Hok Hk Hk0 Hm. destruct (concat_split blks (Z.to_nat k) blk Hok Hk) as [Hc Hz].
  pose proof (mem_set_Some _ _ _ _ Hm) as (Hp&Hd&Hb'). pose proof (zlen_nonneg d).
  assert (concat (<[Z.to_nat k := blk']> blks) =
    concat (take (Z.to_nat k) blks) ++ blk' ++ concat (drop (S (Z.to_nat k)) blks)) as ->.
  { rewrite insert_take_drop by (by eapply lookup_lt_Some). by rewrite concat_app. }
  rewrite Hc. set (p := concat (take (Z.to_nat k) blks)) in *. set (q := concat (drop (S (Z.to_nat k)) blks)).
  pose proof (zlen_nonneg q). rewrite Z2Nat.id in Hz by lia.
  assert (0 <= BLK_SZ * k) by (change BLK_SZ with 4096; lia).
  unfold mem_set. rewrite decide_True by (rewrite !zlen_app; lia). f_equal. subst blk'. unfold zlen in *.
  rewrite !take_app_ge, !drop_app_ge by lia.
  replace (Z.to_nat (BLK_SZ * k + pos) - length p)%nat with (Z.to_nat pos) by lia.
  replace (Z.to_nat (BLK_SZ * k + pos + Z.of_nat (length d)) - length p)%nat
    with (Z.to_nat (pos + Z.of_nat (length d))) by lia.
  rewrite take_app_le, drop_app_le by lia. by rewrite <-!app_assoc.
Qed.

Lemma mem_set_nil off (b : bytes) : 0 <= off <= zlen b -> mem_set off [] b = Some b.
Proof.
  intros Ho. unfold mem_set. change (zlen (@nil byte)) with 0. rewrite decide_True by lia.
  rewrite Z.add_0_r. cbn [app]. by rewrite take_drop.
Qed.

Lemma write_round_Ok s i ib vs blks wbuf num off bidx iidx oib used :
  ok s -> file_at s i ib vs blks -> 0 < num <= zlen wbuf -> 0 <= off ->
  off + num <= BLK_SZ * zlen vs -> off + num + BLK_SZ < 2 ^ 64 -> at_blk ib (off / BLK_SZ) bidx iidx oib ->
  let sz := Z.min (BLK_SZ - off mod BLK_SZ) num in
  exists st blks' b' i' o', let s' := set_store st s in
    at_blk ib (off / BLK_SZ + 1) b' i' o' /\ file_at s' i ib vs blks' /\ frame (fun b => b ∈ vs) s s' /\
    mem_set off (sub wbuf (zlen wbuf - num) sz) (concat blks) = Some (concat blks') /\
    forall fuel, write_loop (S fuel) wbuf (mkW num off bidx iidx oib i used) s =
      write_loop fuel wbuf (mkW (num - sz) (off + sz) b' i' o' i used) s'.
Proof.
  intros Hs Hfa Hnum Hoff Hend Hw Hat sz. assert (BLK_SZ = 4096) as HB by done.
  destruct (offset_block vs off) as (Hkp&Hpos&Hk&v&Hv); [lia|].
  set (k := off / BLK_SZ) in *. set (pos := off mod BLK_SZ) in *. pose proof (fa_blocks_ok _ _ _ _ _ Hs Hfa) as Hbok.
  destruct (write_pick_Ok s i ib vs blks k v num off bidx iidx oib used Hs Hfa Hv ltac:(lia) Hat) as (b'&i'&o'&st1&Hp&Hat'&Hf1).
  pose proof (file_at_none _ _ _ _ _ _ Hf1 Hfa) as Hfa1. set (s1 := set_store st1 s) in *.
  destruct (Forall2_lookup_l _ _ _ _ _ (fa_has _ _ _ _ _ Hfa1) Hv) as (blk&Hblk&Hhas).
  assert (zlen blk = BLK_SZ) as Hzb by (by eapply blocks_ok_at). set (wp := zlen wbuf - num).
  assert (zlen (sub wbuf wp sz) = sz) as Hds by (apply sub_zlen; unfold wp; lia).
  destruct (mem_set_is_Some pos (sub wbuf wp sz) blk) as [blk' Hset]; [lia|lia|].
  destruct (write_chunk_Ok s1 v blk pos (sub wbuf wp sz) blk' (proj1 Hf1) Hhas Hset) as (st2&Hwc&Hh2&Hf2).
  pose proof (file_at_write _ _ _ _ _ _ _ _ _ Hfa1 Hv Hh2 Hf2) as Hfa2.
  exists st2, (<[Z.to_nat k := blk']> blks), b', i', o'. split_and!; [done|exact Hfa2| | |].
  - eapply frame_trans; [by apply frame_none|]. eapply frame_weaken; [|exact Hf2]. intros b <-. by eapply list_elem_of_lookup_2.
  - rewrite Hkp. apply (mem_set_concat blks k blk); (done || lia).
  - intros fuel. cbn [write_loop w_num]. destruct (Z.leb_spec num 0); [lia|]. mrun Hp. cbn beta iota.
    cbn [w_num w_off w_bidx w_iidx w_ib w_ino w_used_new]. fold pos.
    assert ((if BLK_SZ - pos <=? num then BLK_SZ - pos else num) = sz) as ->
      by (unfold sz; destruct (Z.leb_spec (BLK_SZ - pos) num); lia).
    fold wp. rewrite (mem_get_sub wbuf wp sz) by (unfold wp; lia). msteps. mrun Hwc. by rewrite (u64_small (off + sz)) by lia.
Qed.

Lemma write_loop_Ok fuel s i ib vs blks wbuf num off bidx iidx oib used :
  ok s -> file_at s i ib vs blks -> 0 <= num <= zlen wbuf -> 0 <= off ->
  off + num <= BLK_SZ * zlen vs -> off + num + BLK_SZ < 2 ^ 64 ->
  at_blk ib (off / BLK_SZ) bidx iidx oib -> zlen vs < off / BLK_SZ + Z.of_nat fuel ->
  exists st blks' b' i' o', let s' := set_store st s in
    write_loop fuel wbuf (mkW num off bidx iidx oib i used) s = Ok (inl (mkW 0 (off + num) b' i' o' i used)) s' /\
    file_at s' i ib vs blks' /\ frame (fun b => b ∈ vs) s s' /\
    mem_set off (sub wbuf (zlen wbuf - num) num) (concat blks) = Some (concat blks').
Proof.
  revert s blks num off bidx iidx oib.
  induction fuel as [|fuel IH]; intros s blks num off bidx iidx oib Hs Hfa Hnum Hoff Hend Hw Hat Hfuel.
  { exfalso. assert (off / BLK_SZ <= zlen vs); [|lia]. apply Z.div_le_upper_bound; [done|lia]. }
  assert (BLK_SZ = 4096) as HB by done. destruct (decide (num = 0)) as [->|Hn0].
  { exists (store s), blks, bidx, iidx, oib. split_and!.
    - cbn [write_loop w_num Z.leb Z.compare]. rewrite Z.add_0_r. by destruct s.
    - by eapply file_at_none; [by apply frame_self|].
    - by apply frame_self.
    - apply mem_set_nil. rewrite concat_zlen by (by eapply fa_blocks_ok).
      pose proof (Forall2_length _ _ _ (fa_has _ _ _ _ _ Hfa)). unfold zlen in *. lia. }
  destruct (write_round_Ok s i ib vs blks wbuf num off bidx iidx oib used) as (st1&blks1&b'&i'&o'&Hat'&Hfa1&Hf1&Hms&Hrun);
    [done|done|lia|lia|lia|lia|done|]. rewrite Hrun. set (s1 := set_store st1 s) in *.
  destruct (offset_block vs off) as (Hkp&Hpos&Hk&_); [lia|]. set (sz := Z.min _ num) in *.
  set (k := off / BLK_SZ) in *. set (pos := off mod BLK_SZ) in *. set (wp := zlen wbuf - num) in *.
  assert (sz = Z.min (BLK_SZ - pos) num) as Hszd by done. clearbody sz.
  destruct (decide (num = sz)) as [Hlast|Hmore].
  - destruct fuel as [|fuel]; [lia|]. exists (store s1), blks1, b', i', o'. rewrite <-Hlast in Hms |- *.
    split_and!; [|exact Hfa1|exact Hf1|exact Hms]. cbn [write_loop w_num]. by rewrite Z.sub_diag.
  - assert ((off + sz) / BLK_SZ = k + 1) as Hk1 by (symmetry; apply (Z.div_unique _ _ _ 0); lia).
    destruct (IH s1 blks1 (num - sz) (off + sz) b' i' o') as (st3&blks3&b3&i3&o3&Hr3&Hfa3&Hf3&Hm3);
      [apply Hf1|exact Hfa1|lia|lia|lia|lia|by rewrite Hk1|rewrite Hk1; lia|].
    exists st3, blks3, b3, i3, o3. change (set_store st3 s1) with (set_store st3 s) in *. split_and!.
    + rewrite Hr3. do 3 f_equal. lia.
    + exact Hfa3.
    + by eapply frame_trans.
    + assert (zlen (sub wbuf wp sz) = sz) as Hds by (apply sub_zlen; unfold wp; lia).
      rewrite <-Hds in Hm3 at 1. rewrite (mem_set_app _ _ _ _ _ Hms) in Hm3. rewrite <-Hm3. f_equal.
      replace (zlen wbuf - (num - sz)) with (wp + sz) by (unfold wp; lia).
      rewrite <-sub_split by (unfold wp; lia). f_equal. lia.
Qed.

(** ** The two operations *)

(** User [usr] has file [ino] open as [fh]. *)
Definition opened s usr fh ino i : Prop :=
  (exists off, open_file_tab s !! fh = Some (OpenFile.mk ino off)) /\ ROOT_INO <= ino < NUM_INODES /\
  inode_at s ino i /\ Inode.i_no i = ino /\ Inode.wf i /\
  ACLayer.denied acl usr (Inode.uid i) (Inode.mode i) = false.

Lemma open_inode_Ok s what usr fh ino i : ok s -> opened s usr fh ino i ->
  exists st, open_inode what usr fh s = Ok i (set_store st s) /\ frame no_blk s (set_store st s).
Proof.
  intros Hs ((off&Ht)&Hr&Hi&Hn&_&Hd). assert (ROOT_INO = 2) as HR by done.
  destruct (read_inode_Ok s ino i Hs Hi) as (st&Hrd&Hf); [unfold NULL_INO; lia|].
  exists st. split; [|done]. unfold open_inode. msteps. rewrite Ht. cbn [OpenFile.ino].
  destruct (Z.ltb_spec ino ROOT_INO); [lia|]. mrun Hrd. by rewrite Hd.
Qed.

Lemma file_at_frame P s s' i i' ib vs blks :
  frame P s s' -> (forall v, data_start s <= v -> ~ P v) -> Inode.i_blks i' = Inode.i_blks i ->
  file_at s i ib vs blks -> file_at s' i' ib vs blks.
Proof.
  intros Hf HP Hi [H1 H2 H3 H4 H5 H6 H7].
  assert (data_start s' = data_start s) as Hds by (unfold data_start; by destruct Hf as (_&->&_)).
  split; try done; rewrite ?Hi, ?Hds; try done.
  - intros Hl. destruct (H2 Hl) as (v&blk&?&?&?&?&?). exists v, blk. split_and!; try done.
    eapply frame_has; [exact Hf|by apply HP|done].
  - clear -Hf H7 H5 HP. induction H7 as [|v d vs blks Hv H7 IH]; [constructor|].
    apply Forall_cons in H5 as [H5 H5']. constructor; [|by apply IH].
    eapply frame_has; [exact Hf|by apply HP|done].
Qed.

Lemma bfs_read_Ok s usr fh ino i ib vs blks size off :
  ok s -> opened s usr fh ino i -> file_at s i ib vs blks -> Inode.size i <= BLK_SZ * zlen vs ->
  Inode.size i + BLK_SZ < 2 ^ 64 -> 0 <= size -> 0 <= off ->
  exists s', bfs_read usr fh size off s =
      Ok (if Inode.size i <? off then [] else sub (concat blks) off (Z.min size (Inode.size i - off))) s' /\
    frame no_blk s s'.
Proof.
  intros Hs Hop Hfa Hsz Hw Hsize Hoff. destruct (open_inode_Ok s "bfs_read" usr fh ino i Hs Hop) as (st1&Hr&Hf1).
  set (s1 := set_store st1 s) in *. unfold bfs_read. mrun Hr.
  destruct (Z.ltb_spec (Inode.size i) off) as [Hlt|Hge]; [by exists s1|].
  destruct (read_loop_Ok (Z.to_nat (MAX_FILE_BLKS + 1)) s1 i ib vs blks size off (off / BLK_SZ) 0 None [])
    as (st2&Hrd&Hf2); [apply Hf1|by eapply file_at_none|lia|lia|lia|lia| | |].
  - destruct (decide (off / BLK_SZ < NUM_DIRECT_BLOCKS)); [left|right; left]; split_and!; (done || lia).
  - pose proof (fa_len _ _ _ _ _ Hfa) as [_ Hl]. assert (0 <= off / BLK_SZ) by (apply Z.div_pos; done).
    change (MAX_FILE_BLKS) with 524 in *. lia.
  - mrun Hrd. cbn [app]. destruct (Z.ltb_spec (Inode.size i) (off + Z.min size (Inode.size i - off))); [lia|].
    unfold set_offset. msteps. eexists. split; [reflexivity|]. eapply frame_trans; [exact Hf1|exact Hf2].
Qed.

Lemma bfs_read_file_Ok s usr fh ino i ib vs blks size off :
  ok s -> opened s usr fh ino i -> file_at s i ib vs blks -> Inode.size i <= BLK_SZ * zlen vs ->
  Inode.size i + BLK_SZ < 2 ^ 64 -> 0 <= size -> 0 <= off ->
  let file := sub (concat blks) 0 (Inode.size i) in
  exists s', bfs_read usr fh size off s = Ok (sub file off size) s' /\ frame no_blk s s'.
Proof.
  intros Hs Hop Hfa Hsz Hw Hsize Hoff file.
  destruct (bfs_read_Ok s usr fh ino i ib vs blks size off) as (s'&Hr&Hf); try done.
  exists s'. split; [|done]. rewrite Hr. f_equal.
  pose proof (fa_blocks_ok _ _ _ _ _ Hs Hfa) as Hbok.
  assert (zlen blks = zlen vs) as Hlen by (unfold zlen; by rewrite (Forall2_length _ _ _ (fa_has _ _ _ _ _ Hfa))).
  unfold file, sub. cbn. rewrite skipn_O. destruct (Z.ltb_spec (Inode.size i) off) as [Hlt|Hge].
  - rewrite drop_ge; [by rewrite take_nil|]. rewrite length_take. lia.
  - rewrite skipn_firstn_comm, take_take. f_equal. lia.
Qed.

(** C30. [bfs_read] returns the bytes of the file from [off], as many as were asked
    for and the file has, and nothing when [off] is past the end; the file's
    blocks may be direct or indirect, and no block changes. *)
Theorem bfs_read_correct s usr fh ino i ib vs blks size off :
  ok s -> opened s usr fh ino i -> file_at s i ib vs blks -> Inode.size i <= BLK_SZ * zlen vs ->
  Inode.size i + BLK_SZ < 2 ^ 64 -> 0 <= size -> 0 <= off ->
  let file := sub (concat blks) 0 (Inode.size i) in
  exists s', bfs_read usr fh size off s = Ok (sub file off size) s' /\ frame no_blk s s'.
Proof. exact (bfs_read_file_Ok s usr fh ino i ib vs blks size off). Qed.

Lemma wf_set_size i n : Inode.wf i -> fits 8 n -> Inode.wf (Inode.set_size n i).
Proof.
  intros [Hl1 Hff] Hn. split; [done|]. unfold Inode.fields in *.
  apply Forall_app in Hff as [Hff1 Hff2]. apply Forall_app. split; [|exact Hff2].
  inv_forall. repeat (constructor; [done|]). constructor.
Qed.

Lemma sub_all (b : bytes) : sub b (zlen b - zlen b) (zlen b) = b.
Proof. unfold sub. rewrite Z.sub_diag. unfold zlen. rewrite Nat2Z.id. cbn. by rewrite firstn_all. Qed.

Lemma bfs_write_Ok s usr fh ino i ib vs blks buf off :
  ok s -> 0 <= NUM_BLOCKS s -> opened s usr fh ino i -> file_at s i ib vs blks ->
  0 <= Inode.size i -> 0 <= off -> off + zlen buf <= BLK_SZ * zlen vs -> Inode.size i <= BLK_SZ * zlen vs ->
  let hole := if Inode.size i <? off then off - Inode.size i else 0 in
  exists s1 i1 blks1, bfs_write usr fh buf off s = Ok (zlen buf) s1 /\ ok s1 /\ NUM_BLOCKS s1 = NUM_BLOCKS s /\
    opened s1 usr fh ino i1 /\ file_at s1 i1 ib vs blks1 /\
    Inode.size i1 = Z.max (Inode.size i) (off + zlen buf) /\
    mem_set (off - hole) (zeros hole ++ buf) (concat blks) = Some (concat blks1).
Proof.
  intros Hs HN Hop Hfa Hsz Hoff Hend Hcap hole.
  destruct (open_inode_Ok s "bfs_write" usr fh ino i Hs Hop) as (st1&Hr&Hf1).
  set (s1 := set_store st1 s) in *. unfold bfs_write. mrun Hr. fold hole.
  assert (hole = Z.max 0 (off - Inode.size i)) as Hh by (unfold hole; destruct (Z.ltb_spec (Inode.size i) off); lia).
  pose proof (fa_len _ _ _ _ _ Hfa) as [_ Hl]. assert (MAX_FILE_BLKS = 524) as HM by done. assert (BLK_SZ = 4096) as HB by done.
  rewrite decide_True by lia. set (wbuf := zeros hole ++ buf).
  assert (zlen wbuf = hole + zlen buf) as Hwl by (unfold wbuf; rewrite zlen_app, zlen_zeros by lia; done).
  pose proof (zlen_nonneg buf) as Hbn.
  destruct (write_loop_Ok (Z.to_nat (MAX_FILE_BLKS + 1)) s1 i ib vs blks wbuf (zlen wbuf) (off - hole)
    ((off - hole) / BLK_SZ) 0 None false) as (st2&blks1&b'&i'&o'&Hwr&Hfa2&Hf2&Hms);
    [apply Hf1|by eapply file_at_none|lia|lia|lia|lia| | |].
  { destruct (decide ((off - hole) / BLK_SZ < NUM_DIRECT_BLOCKS)); [left|right; left]; split_and!; (done || lia). }
  { assert (0 <= (off - hole) / BLK_SZ) by (apply Z.div_pos; lia). lia. }
  mrun Hwr. cbn beta iota. unfold set_offset. msteps. cbn [w_off w_used_new w_ino w_num orb].
  replace (off - hole + zlen wbuf) with (off + zlen buf) by lia.
  replace (zlen wbuf - hole - 0) with (zlen buf) by lia.
  rewrite (u64_small (zlen buf)) by lia.
  rewrite sub_all in Hms. change (set_store st2 s1) with (set_store st2 s) in *. set (s2 := set_store st2 s) in *.
  assert (frame (fun b => b ∈ vs) s s2) as Hf02 by (eapply frame_trans; [by apply frame_none|exact Hf2]).
  set (s3 := set_open_file_tab (alter (OpenFile.set_offset (off + zlen buf)) fh (open_file_tab s2)) s2).
  destruct Hop as ((o0&Htab)&Hino&Hat&Hno&Hwf&Hden).
  assert (open_file_tab s3 !! fh = Some (OpenFile.mk ino (off + zlen buf))) as Htab3.
  { cbn. by rewrite lookup_alter_eq, Htab. }
  pose proof (fa_data _ _ _ _ _ Hfa) as Hdat. assert (ROOT_INO = 2) as HR by done.
  assert (inode_at s3 ino i) as Hat3.
  { change (inode_at s2 ino i). eapply inode_at_frame; [exact Hf02| |done]. intros Hin.
    rewrite Forall_forall in Hdat. eapply (data_not_itab s); [done|apply Hdat; exact Hin| |done]. lia. }
  destruct (Z.ltb_spec (Inode.size i) (off + zlen buf)) as [Hgrow|Hkeep].
  - assert (Inode.wf (Inode.set_size (off + zlen buf) i)) as Hwf' by (apply wf_set_size; [done|split; cbn; lia]).
    rewrite <-Hno in Hino, Hat3.
    destruct (write_inode_slot s3 (Inode.set_size (off + zlen buf) i) 0 true (Inode.i_no i) i)
      as (st4&Hwi&Hf4&Hat4&_); [apply Hf02|done|lia|done|done|].
    mrun Hwi. exists (set_store st4 s3), (Inode.set_dirty false (Inode.set_size (off + zlen buf) i)), blks1.
    rewrite Hno in *. split_and!; [done|apply Hf4|exact (eq_trans (proj1 (proj2 Hf4)) (proj1 (proj2 Hf02)))| | |cbn; lia|exact Hms].
    + split; [by exists (off + zlen buf)|]. split_and!; try done; try lia.
    + eapply (file_at_frame _ s2 _ i); [exact Hf4| |done|exact Hfa2]. intros v Hv <-.
      assert (NUM_BLOCKS s2 = NUM_BLOCKS s) as HN2 by apply Hf02.
      eapply (data_not_itab s2); [by rewrite HN2|exact Hv| |done]. lia.
  - msteps. exists s3, i, blks1. split_and!; [done|apply Hf02|apply Hf02| | |lia|exact Hms].
    2:{ by apply (file_at_frame no_blk s2 s3 i i ib vs blks1 (frame_refl no_blk s2 (proj1 Hf02))); [intros ? _ []|..]. }
    split; [by exists (off + zlen buf)|]. done.
Qed.

Lemma write_read_Ok s usr fh ino i ib vs blks buf off :
  ok s -> 0 <= NUM_BLOCKS s -> opened s usr fh ino i -> file_at s i ib vs blks ->
  0 <= Inode.size i -> 0 <= off -> off + zlen buf <= BLK_SZ * zlen vs -> Inode.size i <= BLK_SZ * zlen vs ->
  exists s1 i1 blks1, bfs_write usr fh buf off s = Ok (zlen buf) s1 /\
    (ok s1 /\ NUM_BLOCKS s1 = NUM_BLOCKS s) /\ opened s1 usr fh ino i1 /\ file_at s1 i1 ib vs blks1 /\
    Inode.size i1 = Z.max (Inode.size i) (off + zlen buf) /\
    (exists s2, bfs_read usr fh (zlen buf) off s1 = Ok buf s2) /\
    forall n, 0 <= Z.of_nat n < Inode.size i1 ->
      concat blks1 !! n = if decide (off <= Z.of_nat n < off + zlen buf) then buf !! Z.to_nat (Z.of_nat n - off)
                          else if decide (Inode.size i <= Z.of_nat n < off) then Some Byte.x00
                          else concat blks !! n.
Proof.
  intros Hs HN Hop Hfa Hsz Hoff Hend Hcap. pose proof (zlen_nonneg buf) as Hbn.
  destruct (bfs_write_Ok s usr fh ino i ib vs blks buf off Hs HN Hop Hfa Hsz Hoff Hend Hcap)
    as (s1&i1&blks1&Hw&Hs1&HN1&Hop1&Hfa1&Hsz1&Hms). cbv zeta in Hms.
  set (hole := if Inode.size i <? off then off - Inode.size i else 0) in *.
  assert (hole = Z.max 0 (off - Inode.size i)) as Hh by (unfold hole; destruct (Z.ltb_spec (Inode.size i) off); lia).
  pose proof (fa_len _ _ _ _ _ Hfa) as [_ Hl]. assert (MAX_FILE_BLKS = 524) as HM by done. assert (BLK_SZ = 4096) as HB by done.
  exists s1, i1, blks1. split_and!; try done.
  - destruct (bfs_read_Ok s1 usr fh ino i1 ib vs blks1 (zlen buf) off) as (s2&Hr&_); try done; [lia|lia|].
    exists s2. rewrite Hr. destruct (Z.ltb_spec (Inode.size i1) off); [lia|].
    replace (Z.min (zlen buf) (Inode.size i1 - off)) with (zlen buf) by lia.
    pose proof (mem_get_set_in _ _ _ _ off (zlen buf) Hms) as Hg.
    rewrite zlen_app, zlen_zeros in Hg by lia. specialize (Hg ltac:(lia) ltac:(lia) ltac:(lia)).
    replace (off - (off - hole)) with hole in Hg by lia.
    rewrite mem_get_sub in Hg.
    2,3: lia.
    2:{ rewrite (mem_set_zlen _ _ _ _ Hms). pose proof (fa_blocks_ok _ _ _ _ _ Hs Hfa) as Hbok.
        rewrite concat_zlen by done.
        assert (zlen blks = zlen vs) as -> by (unfold zlen; by rewrite (Forall2_length _ _ _ (fa_has _ _ _ _ _ Hfa))). lia. }
    rewrite mem_get_sub in Hg by (rewrite ?zlen_app, ?zlen_zeros; lia). f_equal. injection Hg as ->.
    unfold sub. rewrite drop_app_length' by (unfold zeros; rewrite length_replicate; lia).
    unfold zlen. rewrite Nat2Z.id. apply firstn_all.
  - intros n Hn. rewrite (mem_set_lookup _ _ _ _ n Hms). rewrite zlen_app, zlen_zeros by lia.
    destruct (decide (off <= Z.of_nat n < off + zlen buf)) as [Hin|Hout].
    + rewrite decide_True by lia. unfold zeros.
      rewrite lookup_app_r by (rewrite length_replicate; lia). rewrite length_replicate. f_equal. lia.
    + destruct (decide (Inode.size i <= Z.of_nat n < off)) as [Hgap|Hno].
      * rewrite decide_True by lia. unfold zeros.
        rewrite lookup_app_l by (rewrite length_replicate; lia). apply lookup_replicate_2. lia.
      * rewrite decide_False by lia. done.
Qed.

(** C11. [bfs_write] on a file whose blocks are allocated (as [bfs_create] leaves
    it): all bytes are reported written, a read of the same range returns
    them, a gap between the old end and [off] reads as zeros, every other byte
    of the file is unchanged, and the size is the old one or the end of the
    write, whichever is larger. *)
Theorem bfs_write_read s usr fh ino i ib vs blks buf off :
  ok s -> 0 <= NUM_BLOCKS s -> opened s usr fh ino i -> file_at s i ib vs blks ->
  0 <= Inode.size i -> 0 <= off -> off + zlen buf <= BLK_SZ * zlen vs -> Inode.size i <= BLK_SZ * zlen vs ->
  exists s1 i1 blks1, bfs_write usr fh buf off s = Ok (zlen buf) s1 /\
    opened s1 usr fh ino i1 /\ file_at s1 i1 ib vs blks1 /\
    Inode.size i1 = Z.max (Inode.size i) (off + zlen buf) /\
    (exists s2, bfs_read usr fh (zlen buf) off s1 = Ok buf s2) /\
    forall n, 0 <= Z.of_nat n < Inode.size i1 ->
      concat blks1 !! n = if decide (off <= Z.of_nat n < off + zlen buf) then buf !! Z.to_nat (Z.of_nat n - off)
                          else if decide (Inode.size i <= Z.of_nat n < off) then Some Byte.x00
                          else concat blks !! n.
Proof.
  intros Hs HN Hop Hfa Hsz Hoff Hend Hcap.
  destruct (write_read_Ok s usr fh ino i ib vs blks buf off) as (s1&i1&blks1&Hw&_&Hrest); [done..|].
  by exists s1, i1, blks1.
Qed.

(** ** A write that reaches the maximal file size *)
Definition MAX_FILE_SIZE : Z := BLK_SZ * MAX_FILE_BLKS.

Lemma write_pick_full s i ib vs blks num off bidx iidx oib used :
  ok s -> file_at s i ib vs blks -> zlen vs = MAX_FILE_BLKS -> at_blk ib MAX_FILE_BLKS bidx iidx oib ->
  exists st, write_pick (mkW num off bidx iidx oib i used) s = Ok None (set_store st s) /\
    frame no_blk s (set_store st s).
Proof.
  intros Hs [H1 H2 H3 [H4 _] H5 H6 H7] Hvs Hat.
  assert (NUM_DIRECT_BLOCKS = 12) as HD by done. assert (MAX_FILE_BLKS = 524) as HM by done.
  assert (NUM_BLKS_PER_IB = 512) as HI by done. unfold write_pick. msteps.
  cbn [w_num w_off w_bidx w_iidx w_ib w_ino w_used_new].
  destruct Hat as [(?&_&_)|[(_&->&->)|(_&Hb&->&->)]]; [lia|..].
  - destruct (Z.ltb_spec MAX_FILE_BLKS NUM_DIRECT_BLOCKS); [lia|].
    destruct H2 as (w&blk&Hw&Hblk&Hde&_&Hdw); [unfold zlen in *; lia|].
    destruct (rblk_Ok s w blk Hs Hblk) as (st&Hr&Hf). exists st. split; [|done].
    assert (write_ib (mkW num off MAX_FILE_BLKS iidx None i used) s =
              Ok (i, ib, MAX_FILE_BLKS - NUM_DIRECT_BLOCKS, false) (set_store st s)) as Hib.
    { unfold write_ib. cbn [w_ib w_ino w_bidx]. msteps.
      mrun (vec_at_Ok (Inode.i_blks i) NUM_DIRECT_BLOCKS w s ltac:(lia) Hw).
      destruct (Z.ltb_spec w (data_start s)); [lia|]. mrun Hr. rewrite Hde. msteps. done. }
    mrun Hib. destruct (Z.leb_spec (zlen ib) (MAX_FILE_BLKS - NUM_DIRECT_BLOCKS)); [done|lia].
  - destruct (Z.ltb_spec bidx NUM_DIRECT_BLOCKS); [lia|].
    unfold write_ib. cbn [w_ib w_ino w_iidx]. msteps. exists (store s).
    destruct (Z.leb_spec (zlen ib) (MAX_FILE_BLKS - NUM_DIRECT_BLOCKS)); [|lia].
    split; [by destruct s|by apply frame_self].
Qed.

Lemma write_loop_full fuel s i ib vs blks wbuf num off bidx iidx oib used :
  ok s -> file_at s i ib vs blks -> zlen vs = MAX_FILE_BLKS -> 0 <= num <= zlen wbuf ->
  0 <= off <= MAX_FILE_SIZE -> MAX_FILE_SIZE < off + num ->
  at_blk ib (off / BLK_SZ) bidx iidx oib -> MAX_FILE_BLKS < off / BLK_SZ + Z.of_nat fuel ->
  exists st, write_loop fuel wbuf (mkW num off bidx iidx oib i used) s =
      Ok (inr (off + num - MAX_FILE_SIZE)) (set_store st s) /\ frame (fun b => b ∈ vs) s (set_store st s).
Proof.
  revert s blks num off bidx iidx oib.
  induction fuel as [|fuel IH]; intros s blks num off bidx iidx oib Hs Hfa Hvs Hnum Hoff Hend Hat Hfuel.
  { exfalso. assert (off / BLK_SZ <= MAX_FILE_BLKS); [|lia]. apply Z.div_le_upper_bound; [done|].
    unfold MAX_FILE_SIZE in Hoff. lia. }
  assert (BLK_SZ = 4096) as HB by done. assert (MAX_FILE_BLKS = 524) as HM by done.
  assert (MAX_FILE_SIZE = 2146304) as HS by done. cbn [write_loop w_num].
  destruct (Z.leb_spec num 0) as [Hn0|Hn0]; [lia|].
  set (k := off / BLK_SZ) in *. set (pos := off mod BLK_SZ).
  assert (off = BLK_SZ * k + pos) as Hkp by (apply Z.div_mod; done).
  assert (0 <= pos < BLK_SZ) as Hpos by (apply Z.mod_pos_bound; done).
  assert (0 <= k) as Hk0 by (apply Z.div_pos; lia).
  destruct (decide (k = MAX_FILE_BLKS)) as [Hfull|Hlt].
  { rewrite Hfull in Hat.
    destruct (write_pick_full s i ib vs blks num off bidx iidx oib used Hs Hfa Hvs Hat) as (st&Hp&Hf).
    exists st. mrun Hp. split; [|by apply frame_none]. cbn [w_num]. do 2 f_equal. lia. }
  assert (k < zlen vs) as Hklt by (rewrite Hvs; lia).
  destruct (lookup_lt_is_Some_2 vs (Z.to_nat k)) as [v Hv]; [unfold zlen in *; lia|].
  destruct (write_pick_Ok s i ib vs blks k v num off bidx iidx oib used Hs Hfa Hv Hk0 Hat)
    as (b'&i'&o'&st1&Hp&Hat'&Hf1). mrun Hp. cbn beta iota. cbn [w_num w_off w_bidx w_iidx w_ib w_ino w_used_new].
  fold pos. pose proof (file_at_none _ _ _ _ _ _ Hf1 Hfa) as Hfa1. set (s1 := set_store st1 s) in *.
  pose proof (fa_blocks_ok _ _ _ _ _ Hs Hfa) as Hbok.
  destruct (Forall2_lookup_l _ _ _ _ _ (fa_has _ _ _ _ _ Hfa1) Hv) as (blk&Hblk&Hhas).
  assert (zlen blk = BLK_SZ) as Hzb by (by eapply blocks_ok_at).
  destruct (Z.leb_spec (BLK_SZ - pos) num); [|lia]. set (sz := BLK_SZ - pos).
  set (wp := zlen wbuf - num). rewrite (mem_get_sub wbuf wp sz) by (unfold wp, sz; lia). msteps.
  assert (zlen (sub wbuf wp sz) = sz) as Hds by (apply sub_zlen; unfold wp, sz; lia).
  destruct (mem_set_is_Some pos (sub wbuf wp sz) blk) as [blk' Hset]; [lia|unfold sz in *; lia|].
  destruct (write_chunk_Ok s1 v blk pos (sub wbuf wp sz) blk' (proj1 Hf1) Hhas Hset) as (st2&Hwc&Hh2&Hf2).
  mrun Hwc. rewrite (u64_small (off + sz)) by (unfold sz; lia).
  pose proof (file_at_write _ _ _ _ _ _ _ _ _ Hfa1 Hv Hh2 Hf2) as Hfa2. set (s2 := set_store st2 s1) in *.
  assert (frame (fun b => b ∈ vs) s s2) as Hf02.
  { eapply frame_trans; [by apply frame_none|]. eapply frame_weaken; [|exact Hf2]. intros b <-.
    by eapply list_elem_of_lookup_2. }
  assert ((off + sz) / BLK_SZ = k + 1) as Hk1 by (symmetry; apply (Z.div_unique _ _ _ 0); unfold sz; lia).
  destruct (IH s2 (<[Z.to_nat k:=blk']> blks) (num - sz) (off + sz) b' i' o') as (st3&Hr3&Hf3);
    [apply Hf02|exact Hfa2|done|unfold sz; lia|unfold sz; lia|lia|by rewrite Hk1|rewrite Hk1; lia|].
  exists st3. change (set_store st3 s2) with (set_store st3 s) in *. split; [|by eapply frame_trans].
  rewrite Hr3. do 2 f_equal. lia.
Qed.

(** A write that runs into the maximal file size returns early: the inode is
    not written, so the bytes stored past the old end stay unreadable although
    they are counted in the result; and a write that starts past the maximal
    size returns a huge count (the subtraction wraps around). *)
Theorem bfs_write_max_size_unrecorded s usr fh ino i ib vs blks buf off :
  ok s -> 0 <= NUM_BLOCKS s -> opened s usr fh ino i -> file_at s i ib vs blks -> zlen vs = MAX_FILE_BLKS ->
  0 <= Inode.size i <= MAX_FILE_SIZE -> 0 <= off -> MAX_FILE_SIZE < off + zlen buf -> off + zlen buf < 2 ^ 64 ->
  exists s1, bfs_write usr fh buf off s = Ok (u64 (MAX_FILE_SIZE - off)) s1 /\ inode_at s1 ino i /\
    exists s2, bfs_read usr fh (MAX_FILE_SIZE - Inode.size i) (Inode.size i) s1 = Ok [] s2.
Proof.
  intros Hs HN Hop Hfa Hvs Hsz Hoff Hend Hbig.
  destruct (open_inode_Ok s "bfs_write" usr fh ino i Hs Hop) as (st1&Hr&Hf1). set (s1 := set_store st1 s) in *.
  unfold bfs_write. mrun Hr. set (hole := if Inode.size i <? off then off - Inode.size i else 0).
  assert (hole = Z.max 0 (off - Inode.size i)) as Hh by (unfold hole; destruct (Z.ltb_spec (Inode.size i) off); lia).
  assert (MAX_FILE_BLKS = 524) as HM by done. assert (BLK_SZ = 4096) as HB by done.
  pose proof (zlen_nonneg buf) as Hbn.
  rewrite decide_True by lia. set (wbuf := zeros hole ++ buf).
  assert (zlen wbuf = hole + zlen buf) as Hwl by (unfold wbuf; rewrite zlen_app, zlen_zeros by lia; done).
  destruct (write_loop_full (Z.to_nat (MAX_FILE_BLKS + 1)) s1 i ib vs blks wbuf (zlen wbuf) (off - hole)
    ((off - hole) / BLK_SZ) 0 None false) as (st2&Hwr&Hf2);
    [apply Hf1|by eapply file_at_none|done|lia|lia|lia| | |].
  { destruct (decide ((off - hole) / BLK_SZ < NUM_DIRECT_BLOCKS)); [left|right; left]; split_and!; (done || lia). }
  { assert (0 <= (off - hole) / BLK_SZ) by (apply Z.div_pos; lia). lia. }
  mrun Hwr. cbn beta iota. change (set_store st2 s1) with (set_store st2 s) in *. set (s2 := set_store st2 s) in *.
  assert (frame (fun b => b ∈ vs) s s2) as Hf02 by (eapply frame_trans; [by apply frame_none|exact Hf2]).
  assert (inode_at s2 ino i) as Hat.
  { destruct Hop as (_&Hino&Hat&_). eapply inode_at_frame; [exact Hf02| |done]. intros Hin.
    pose proof (fa_data _ _ _ _ _ Hfa) as Hdat. rewrite Forall_forall in Hdat. assert (ROOT_INO = 2) by done.
    eapply (data_not_itab s); [done|apply Hdat; exact Hin| |done]. lia. }
  exists s2. split_and!; [|done|].
  - unfold mret, M_ret. do 2 f_equal. lia.
  - destruct (open_inode_Ok s2 "bfs_read" usr fh ino i (proj1 Hf02)) as (st3&Hr3&_).
    { destruct Hop as (?&?&_&?). done. }
    eexists. unfold bfs_read. mrun Hr3. destruct (Z.ltb_spec (Inode.size i) (Inode.size i)); [lia|].
    destruct (Z.to_nat (MAX_FILE_BLKS + 1)) as [|fuel] eqn:Hfuel; [lia|]. cbn [read_loop].
    destruct (Z.leb_spec (MAX_FILE_SIZE - Inode.size i) 0).
    + msteps. destruct (Z.ltb_spec (Inode.size i) (Inode.size i)); [lia|]. reflexivity.
    + destruct (Z.leb_spec (Inode.size i) (Inode.size i)); [|lia]. msteps.
      destruct (Z.ltb_spec (Inode.size i) (Inode.size i)); [lia|]. reflexivity.
Qed.

End file.
