(* ===== verification/FsOps.v ===== *)
(** * The file operations of [BfsHandle]

    Models the handlers of [bfs_core.cpp] that the server calls: attributes,
    directories, creation, removal, renaming, opening and closing.  A handler
    runs to its end or leaves by an exception, with what it had changed. *)
From S2P Require Import Prelude Layout BfsUtil CoreTypes BlockLayer BlockStore FsAlloc Acl FsDir FsDirSpec FsFile.

Section ops.
Context {B : Type} `{BlockStore B} (acl : bool).
Abbreviation fs := (fs B).

(** ** Common parts *)

(** [(path.size() + 1) > MAX_FILE_NAME_LEN]. *)
Definition check_name_len (path : bytes) : M fs () :=
  if MAX_FILE_NAME_LEN <? zlen path + 1
  then throw (BfsClientRequestFailedError "File name too long") else mret ().

Definition check_access (msg : string) (usr : option User.t) (i : Inode.t) : M fs () :=
  if ACLayer.denied acl usr (Inode.uid i) (Inode.mode i)
  then throw (BfsAccessDeniedError msg) else mret ().

(** The entry of a path that must exist. *)
Definition need_de (e : exn) (usr : option User.t) (path : bytes) : M fs DirEntry.t :=
  de ← get_de acl usr path;
  match de with Some d => mret d | None => throw e end.

(** Entry, inode and permission of a path, in this order. *)
Definition path_inode (e : exn) (msg : string) (usr : option User.t) (path : bytes) :
    M fs (DirEntry.t * Inode.t) :=
  de ← need_de e usr path;
  i ← read_inode (DirEntry.ino de);
  check_access msg usr i ;;
  mret (de, i).

Definition dirname_of (path : bytes) : bytes := bfs_dirname (bfs_strdup path).

(** The inode of the parent directory of a path. *)
Definition parent_inode (msg : string) (usr : option User.t) (path : bytes) : M fs Inode.t :=
  '(_, par) ← path_inode (BfsServerError "Parent dir does not exist") msg usr (dirname_of path);
  if negb (BFS__S_ISDIR (Inode.mode par)) then throw (BfsServerError "Parent inode is not a dir")
  else mret par.

(** The path must not exist yet. *)
Definition need_no_de (usr : option User.t) (path : bytes) : M fs () :=
  de ← get_de acl usr path;
  match de with Some _ => throw (BfsClientRequestFailedError "File exists") | None => mret () end.

(** First the direct blocks, then the indirect ones. *)
Definition add_dentry (par : Inode.t) (new_ino : Z) (path : bytes) : M fs Inode.t :=
  '(ok, par) ← add_dentry_to_direct_blks par new_ino path;
  if (ok : bool) then mret par
  else
    '(ok, par) ← add_dentry_to_indirect_blks par new_ino path;
    if (ok : bool) then mret par
    else throw (BfsServerError "Failed adding dentry to direct or indirect blocks").

(** Write an entry back to where it was found. *)
Definition put_dentry (de : DirEntry.t) : M fs () :=
  blk ← rblk (DirEntry.blk_loc de);
  '(blk, len) ← of_opt (DirEntry.serialize de blk (DENTRY_ABSOLUTE_BLK_OFF (DirEntry.blk_idx_loc de)));
  assert_ (len =? DIRENT_SZ) ;;
  wblk (DirEntry.blk_loc de) blk ;; mret ().

(** An empty entry takes its place. *)
Definition clear_dentry (de : DirEntry.t) : M fs () :=
  put_dentry (DirEntry.set_ino 0 (DirEntry.set_de_name [] de)).

(** The links of the parent after a removal. *)
Definition unlink_parent (par : Inode.t) : M fs () :=
  write_inode (Inode.set_i_links (u64 (Inode.i_links_count par - 1)) par) bfs_O_SYNC 0 true.

(** [open_file_tab.insert(std::make_pair(fh, of))]: a known handle is kept. *)
Definition insert_open_file (fh : Z) (of_ : OpenFile.t) : M fs () :=
  modify (fun s => set_open_file_tab
    (match open_file_tab s !! fh with Some _ => open_file_tab s | None => <[fh := of_]> (open_file_tab s) end) s).

Definition new_fd (what : string) : M fs Z :=
  fh ← alloc_fd;
  if fh <? START_FD then throw (BfsServerError what) else mret fh.

(** ** Attributes *)
Definition bfs_getattr (usr : option User.t) (path : bytes) : M fs (Z * Z * Z * Z) :=
  check_name_len path ;;
  '(_, i) ← path_inode (BfsClientRequestFailedError "File does not exist") "Permission denied" usr path;
  mret (Inode.uid i, Inode.i_no i, Inode.mode i, Inode.size i).

(** The mode is changed in the object of this call, which is not written. *)
Definition bfs_chmod (usr : option User.t) (path : bytes) (new_mode : Z) : M fs () :=
  check_name_len path ;;
  '(_, i) ← path_inode (BfsClientRequestFailedError "File does not exist") "Permission denied" usr path;
  let _ := Inode.set_mode new_mode i in
  mret ().

(** ** Directories *)
Definition bfs_opendir (usr : option User.t) (path : bytes) : M fs Z :=
  check_name_len path ;;
  '(_, i) ← path_inode (BfsClientRequestFailedError "File does not exist") "Permission denied" usr path;
  if negb (BFS__S_ISDIR (Inode.mode i)) then throw (BfsClientRequestFailedError "File is not a directory")
  else
    fh ← new_fd "Invalid file handle in opendir";
    write_inode (Inode.set_ref_cnt (u64 (Inode.ref_cnt i + 1)) i) bfs_O_SYNC 0 true ;;
    insert_open_file fh (OpenFile.mk (Inode.i_no i) 0) ;;
    mret fh.

Definition bfs_readdir (usr : option User.t) (fh : Z) : M fs (list DirEntry.t) :=
  t ← gets open_file_tab;
  match t !! fh with
  | None => throw std_out_of_range
  | Some of_ =>
      if OpenFile.ino of_ <? ROOT_INO then throw (BfsServerError "Error during bfs_release get inode id")
      else
        st ← check_direct_blks acl usr ReadDir [] (mkSearch false None false (OpenFile.ino of_) 0 []);
        if negb (sr_ret st) then throw (BfsServerError "Failed reading dentries in direct blocks")
        else if sr_all st then mret (sr_ents st)
        else
          st ← check_indirect_blks acl usr ReadDir [] st;
          if negb (sr_ret st) then throw (BfsServerError "Failed reading dentries in indirect blocks")
          else mret (sr_ents st)
  end.

Definition bfs_mkdir (usr : option User.t) (path : bytes) (mode : Z) : M fs () :=
  check_name_len path ;;
  need_no_de usr path ;;
  par ← parent_inode "Permission denied" usr path;
  ino ← alloc_ino;
  if ino <? FIRST_UNRESERVED_INO
  then throw (BfsClientRequestFailedError "Failed allocating new inode: too many files")
  else
    match usr with
    | None => die Undefined_behaviour
    | Some u =>
        let new := Inode.ctor ino (User.uid u) (Z.lor BFS__S_IFDIR mode) 0 0 0 0 0 2 in
        let sub_de := DirEntry.set_ino ino (DirEntry.set_de_name [Byte.x2e] DirEntry.default) in
        '(buf, len) ← of_opt (DirEntry.serialize sub_de (zeros BLK_SZ) (DENTRY_ABSOLUTE_BLK_OFF 0));
        assert_ (len =? DIRENT_SZ) ;;
        let sub_de := DirEntry.set_ino (Inode.i_no par) (DirEntry.set_de_name [Byte.x2e; Byte.x2e] sub_de) in
        '(buf, len) ← of_opt (DirEntry.serialize sub_de buf (DENTRY_ABSOLUTE_BLK_OFF 1));
        assert_ (len =? DIRENT_SZ) ;;
        blk_target ← alloc_or_throw "Failed allocating a new direct block";
        new ← set_i_blk_m 0 blk_target new;
        wblk blk_target buf ;;
        add_dentry par ino path ;;
        write_inode new bfs_O_SYNC 0 true
    end.

(** The common part of the two removals, after the checks on the inode. *)
Definition remove_path (usr : option User.t) (path : bytes) (de : DirEntry.t) (i : Inode.t) : M fs () :=
  dealloc_ino i ;;
  par ← parent_inode "Permission denied" usr path;
  clear_dentry de ;;
  unlink_parent par.

Definition bfs_rmdir (usr : option User.t) (path : bytes) : M fs () :=
  check_name_len path ;;
  '(de, i) ← path_inode (BfsClientRequestFailedError "File does not exist") "Permission denied" usr path;
  if negb (BFS__S_ISDIR (Inode.mode i))
  then throw (BfsClientRequestFailedError "Inode is not a directory file (rmdir)")
  else if 2 <? Inode.i_links_count i then throw (BfsClientRequestFailedError "Directory is not empty")
  else if negb (bool_decide (path = [slash])) && (0 <? Inode.ref_cnt i)
  then throw (BfsClientRequestFailedError "Directory inode is still open")
  else remove_path usr path de i.

Definition bfs_unlink (usr : option User.t) (path : bytes) : M fs () :=
  check_name_len path ;;
  '(de, i) ← path_inode (BfsClientRequestFailedError "File does not exist") "Permission denied" usr path;
  if negb (BFS__S_ISREG (Inode.mode i)) then throw (BfsClientRequestFailedError "Inode is not a regular file")
  else if 0 <? Inode.i_links_count i then throw (BfsServerError "Regular file has i_links and shouldnt")
  else if negb (bool_decide (path = [slash])) && (0 <? Inode.ref_cnt i)
  then throw (BfsClientRequestFailedError "Regular inode is still open")
  else remove_path usr path de i.

(** ** Renaming *)

(** The target exists: its inode is released and its entry takes the source's
    inode number. *)
Definition rename_over (usr : option User.t) (de : DirEntry.t) (new_i : Z) : M fs () :=
  to ← read_inode (DirEntry.ino de);
  check_access "Permission denied on target file" usr to ;;
  dealloc_ino to ;;
  put_dentry (DirEntry.set_ino new_i de).

(** The source's entry is removed before the target is looked at. *)
Definition bfs_rename (usr : option User.t) (fr_path to_path : bytes) : M fs () :=
  check_name_len fr_path ;;
  fr_par ← parent_inode "Permission denied on from source" usr fr_path;
  '(de, fr) ← path_inode (BfsClientRequestFailedError "fr_path does not exist")
                "Permission denied on source file" usr fr_path;
  if negb (BFS__S_ISREG (Inode.mode fr)) then throw (BfsClientRequestFailedError "Inode is not a regular file")
  else
    let new_i := Inode.i_no fr in
    clear_dentry de ;;
    unlink_parent fr_par ;;
    to_de ← get_de acl usr to_path;
    match to_de with
    | Some de => rename_over usr de new_i
    | None =>
        to_par ← parent_inode "Permission denied on from source" usr to_path;
        add_dentry to_par new_i to_path ;;
        mret ()
    end.

(** ** Creating, opening, closing *)
Definition bfs_create (usr : option User.t) (path : bytes) (mode : Z) : M fs Z :=
  check_name_len path ;;
  need_no_de usr path ;;
  par ← parent_inode "Permission denied" usr path;
  ino ← alloc_ino;
  if ino <? FIRST_UNRESERVED_INO
  then throw (BfsClientRequestFailedError "Failed allocating new inode: too many files")
  else
    match usr with
    | None => die Undefined_behaviour
    | Some u =>
        let new := Inode.ctor ino (User.uid u) (Z.lor BFS__S_IFREG mode) 1 0 0 0 0 0 in
        add_dentry par ino path ;;
        fh ← new_fd "Invalid file handle in create";
        insert_open_file fh (OpenFile.mk ino 0) ;;
        new ← prealloc_blks new;
        write_inode new bfs_O_SYNC 0 true ;;
        mret fh
    end.

(** [_bfs__O_APPEND] is the first constant of its enumeration. *)
Definition bfs_O_APPEND : Z := 0.

Definition bfs_open (usr : option User.t) (path : bytes) (flags : Z) : M fs Z :=
  check_name_len path ;;
  '(_, i) ← path_inode (BfsClientRequestFailedError "File does not exist") "Permission denied" usr path;
  if negb (BFS__S_ISREG (Inode.mode i)) then throw (BfsClientRequestFailedError "Inode is not a regular file")
  else
    fh ← new_fd "Invalid file handle in open";
    let off := if Z.land flags bfs_O_APPEND =? 0 then 0 else Inode.size i in
    write_inode (Inode.set_ref_cnt (u64 (Inode.ref_cnt i + 1)) i) bfs_O_SYNC 0 true ;;
    insert_open_file fh (OpenFile.mk (Inode.i_no i) off) ;;
    mret fh.

Definition bfs_fsync (usr : option User.t) (fh : Z) : M fs () :=
  i ← open_inode acl "bfs_fsync" usr fh;
  write_inode i bfs_O_SYNC 0 true.

Definition bfs_release (usr : option User.t) (fh : Z) : M fs () :=
  i ← open_inode acl "bfs_release" usr fh;
  write_inode (Inode.set_ref_cnt (u64 (Inode.ref_cnt i - 1)) i) bfs_O_SYNC 0 true ;;
  modify (fun s => set_open_file_tab (delete fh (open_file_tab s)) s).
End ops.
