(* ===== verification/FsOpsSpec.v ===== *)
(** * What the file operations promise

    Specifications of the handlers of [FsOps] on volumes whose directories are
    kept in direct blocks: creation, opening and closing, removal, attributes. *)
From S2P Require Import Prelude Layout BfsUtil CoreTypes BlockLayer BlockStore FsAlloc Acl FsDir FsDirSpec FsFile FsOps.

Section opsspec.
Context {B : Type} `{BlockStoreLaws B} (acl : bool).
Abbreviation fs := (fs B).
Implicit Types s : fs.

(** ** Paths *)
Definition resolves s usr (path : bytes) (de : DirEntry.t) : Prop :=
  (path = [slash] /\ de = dentry_at [slash] (SuperBlock.root_ino (sb s)) (data_start s) 0) \/
  (head path = Some slash /\ path <> [slash] /\ walks acl s usr path 1 (SuperBlock.root_ino (sb s)) (Some de)).

Definition missing s usr (path : bytes) : Prop :=
  head path = Some slash /\ path <> [slash] /\ walks acl s usr path 1 (SuperBlock.root_ino (sb s)) None.

(** A volume in use: a good store. *)
Definition good s : Prop := ok s /\ 0 <= NUM_BLOCKS s.

(** [s'] holds the blocks of [s] and differs in nothing else. *)
Definition same s s' : Prop := frame no_blk s s' /\ only_store s s'.

Lemma same_refl s : good s -> same s s.
Proof. intros []. split; [by apply frame_refl|done]. Qed.

Lemma same_trans s s1 s2 : same s s1 -> same s1 s2 -> same s s2.
Proof. intros [??] [??]. split; [by eapply frame_trans|by eapply only_store_trans]. Qed.

Lemma same_good s s' : good s -> same s s' -> good s'.
Proof. intros [_ HN] [(Hok&Hn&_) _]. split; [done|by rewrite Hn]. Qed.

Lemma same_data_start s s' : same s s' -> data_start s' = data_start s.
Proof. intros [(_&Hn&_) _]. unfold data_start. by rewrite Hn. Qed.

Lemma same_has s s' b d : same s s' -> has s b d -> has s' b d.
Proof. intros [Hf _]. by apply frame_none_has. Qed.

Lemma same_inode s s' ino i : same s s' -> inode_at s ino i -> inode_at s' ino i.
Proof. intros [Hf _]. eapply inode_at_frame; [exact Hf|by intros []]. Qed.

Lemma same_searchable s s' usr ino i : same s s' -> searchable acl s usr ino i -> searchable acl s' usr ino i.
Proof. intros [Hf _]. by apply searchable_none. Qed.

Lemma same_dir s s' i vs sls : same s s' -> dir_at s i vs sls -> dir_at s' i vs sls.
Proof. intros [Hf _]. by apply dir_at_none. Qed.

Lemma same_resolves s s' usr path de : same s s' -> resolves s usr path de -> resolves s' usr path de.
Proof.
  intros Hs. unfold resolves. rewrite (same_data_start _ _ Hs). destruct Hs as [Hf (->&_)].
  intros [?|(?&?&?)]; [by left|right]. split_and!; [done..|]. by eapply walks_none.
Qed.

Lemma get_de_found s usr path de : good s -> resolves s usr path de ->
  exists s', get_de acl usr path s = Ok (Some de) s' /\ same s s'.
Proof.
  intros [Hs HN] [[-> ->]|(Hh&Hn&Hw)].
  - exists s. split; [done|]. by apply same_refl.
  - destruct (get_de_Ok acl s usr path _ Hs HN Hh Hn Hw) as (s'&?&?&?). by exists s'.
Qed.

Lemma get_de_missing s usr path : good s -> missing s usr path ->
  exists s', get_de acl usr path s = Ok None s' /\ same s s'.
Proof.
  intros [Hs HN] (Hh&Hn&Hw). destruct (get_de_Ok acl s usr path _ Hs HN Hh Hn Hw) as (s'&?&?&?). by exists s'.
Qed.

Lemma read_inode_same s ino i : good s -> inode_at s ino i -> Inode.i_no i <> NULL_INO ->
  exists s', read_inode ino s = Ok i s' /\ same s s'.
Proof. intros [Hs _] Hi Hn. destruct (read_inode_Ok s ino i Hs Hi Hn) as (st&?&?). by exists (set_store st s). Qed.

(** A path whose inode is [i], which the user may access. *)
Definition names_inode s usr path de i : Prop :=
  resolves s usr path de /\ inode_at s (DirEntry.ino de) i /\ Inode.i_no i <> NULL_INO /\
  ACLayer.denied acl usr (Inode.uid i) (Inode.mode i) = false.

Lemma same_names s s' usr path de i : same s s' -> names_inode s usr path de i -> names_inode s' usr path de i.
Proof. intros Hs (?&?&?&?). split_and!; [by eapply same_resolves|by eapply same_inode|done|done]. Qed.

Lemma path_inode_Ok s e msg usr path de i : good s -> names_inode s usr path de i ->
  exists s', path_inode acl e msg usr path s = Ok (de, i) s' /\ same s s'.
Proof.
  intros Hg (Hr&Hi&Hn&Hd). destruct (get_de_found s usr path de Hg Hr) as (s1&Hr1&Hs1).
  destruct (read_inode_same s1 (DirEntry.ino de) i) as (s2&Hr2&Hs2);
    [by eapply same_good|by eapply same_inode|done|].
  exists s2. split; [|by eapply same_trans]. unfold path_inode, need_de, check_access.
  rewrite bind_assoc. mrun Hr1. msteps. mrun Hr2. rewrite Hd. done.
Qed.

Lemma name_len_Ok (path : bytes) s : DirEntry.name_ok path -> check_name_len path s = Ok () s.
Proof.
  intros [_ Hl]. unfold check_name_len. destruct (Z.ltb_spec MAX_FILE_NAME_LEN (zlen path + 1)); [lia|done].
Qed.

(** ** Attributes *)
Definition attrs (i : Inode.t) : Z * Z * Z * Z := (Inode.uid i, Inode.i_no i, Inode.mode i, Inode.size i).

Lemma bfs_getattr_Ok s usr path de i : good s -> DirEntry.name_ok path -> names_inode s usr path de i ->
  exists s', bfs_getattr acl usr path s = Ok (attrs i) s' /\ same s s'.
Proof.
  intros Hg Hl Hp. destruct (path_inode_Ok s (BfsClientRequestFailedError "File does not exist") "Permission denied"
    usr path de i Hg Hp) as (s'&Hr&Hs). exists s'. split; [|done].
  unfold bfs_getattr. mrun (name_len_Ok path s Hl). by mrun Hr.
Qed.

(** [bfs_chmod] reports success for every accessible path and changes
    nothing: the attributes read afterwards are those from before, whatever
    the new mode. *)
Theorem chmod_has_no_effect s usr path de i new_mode :
  good s -> DirEntry.name_ok path -> names_inode s usr path de i ->
  exists s1 s2, bfs_chmod acl usr path new_mode s = Ok () s1 /\ same s s1 /\
    bfs_getattr acl usr path s1 = Ok (attrs i) s2.
Proof.
  intros Hg Hl Hp. destruct (path_inode_Ok s (BfsClientRequestFailedError "File does not exist") "Permission denied"
    usr path de i Hg Hp) as (s1&Hr&Hs).
  destruct (bfs_getattr_Ok s1 usr path de i) as (s2&Hr2&_); [by eapply same_good|done|by eapply same_names|].
  exists s1, s2. split_and!; [|exact Hs|exact Hr2]. unfold bfs_chmod. mrun (name_len_Ok path s Hl). by mrun Hr.
Qed.

(** ** Handles *)
Definition can_open s : Prop :=
  Z.of_nat (size (open_file_tab s)) <> MAX_OPEN_FILES /\ START_FD <= next_fd s < 2 ^ 32 - 1 /\
  open_file_tab s !! next_fd s = None.

Lemma same_can_open s s' : same s s' -> can_open s -> can_open s'.
Proof. intros [_ (_&Hn&Ht)]. unfold can_open. by rewrite Hn, Ht. Qed.

Lemma new_fd_Ok s what : can_open s -> new_fd what s = Ok (next_fd s) (set_next_fd (next_fd s + 1) s).
Proof.
  intros (Hm&Hn&_). unfold new_fd, alloc_fd. rewrite bind_assoc. msteps. rewrite decide_False by done.
  msteps. rewrite u32_small by (change START_FD with 3 in Hn; lia). destruct (Z.ltb_spec (next_fd s) START_FD); [lia|done].
Qed.

Lemma insert_open_file_Ok s fh of_ : open_file_tab s !! fh = None ->
  insert_open_file fh of_ s = Ok () (set_open_file_tab (<[fh := of_]> (open_file_tab s)) s).
Proof. intros Hn. unfold insert_open_file, modify. by rewrite Hn. Qed.

(** A change of the handle table moves no block. *)
Lemma inode_at_tab s s' ino i : store s' = store s -> inode_at s ino i -> inode_at s' ino i.
Proof. intros He (blk&Hb&Hi). exists blk. split; [|done]. unfold has in *. by rewrite He. Qed.

Lemma wf_set_ref_cnt i n : Inode.wf i -> 0 <= n < 2 ^ 64 -> Inode.wf (Inode.set_ref_cnt n i).
Proof.
  intros [Hl Hf] Hn. split; [done|]. unfold Inode.fields in *. cbn -[fits] in *. inv_forall.
  repeat (constructor; [first [done|cbn; unfold fits; lia]|]). done.
Qed.

(** A regular file a user may open: its path, inode number and inode. *)
Definition regular s usr path de i : Prop :=
  names_inode s usr path de i /\ Inode.i_no i = DirEntry.ino de /\ ROOT_INO <= DirEntry.ino de < NUM_INODES /\
  Inode.wf i /\ Inode.dirty i = false /\ BFS__S_ISREG (Inode.mode i) = true.

Definition with_refs (n : Z) (i : Inode.t) : Inode.t := Inode.set_dirty false (Inode.set_ref_cnt n i).

Lemma bfs_open_Ok s usr path de i flags :
  good s -> DirEntry.name_ok path -> regular s usr path de i -> 0 <= Inode.ref_cnt i < 2 ^ 64 - 1 -> can_open s ->
  exists s1, bfs_open acl usr path flags s = Ok (next_fd s) s1 /\
    opened acl s1 usr (next_fd s) (DirEntry.ino de) (with_refs (Inode.ref_cnt i + 1) i) /\
    frame (eq (ITAB_ABSOLUTE_BLK_LOC (DirEntry.ino de))) s s1 /\
    open_file_tab s1 = <[next_fd s := OpenFile.mk (DirEntry.ino de) 0]> (open_file_tab s) /\
    next_fd s1 = next_fd s + 1 /\ sb s1 = sb s.
Proof.
  intros Hg Hl (Hp&Hno&Hr&Hwf&Hd&Hreg) Hrc Hco.
  destruct (path_inode_Ok s (BfsClientRequestFailedError "File does not exist") "Permission denied" usr path de i Hg Hp)
    as (s1&Hr1&Hs1). pose proof (same_can_open _ _ Hs1 Hco) as Hco1.
  pose proof Hs1 as [Hf1 (Hsb1&Hn1&Ht1)].
  pose proof (new_fd_Ok s1 "Invalid file handle in open" Hco1) as Hfd. set (s2 := set_next_fd _ s1) in Hfd.
  assert (inode_at s2 (Inode.i_no i) i) as Hat.
  { rewrite Hno. apply (inode_at_tab s1); [done|]. eapply same_inode; [exact Hs1|apply Hp]. }
  assert (ROOT_INO = 2) as HR by done.
  destruct (write_inode_slot s2 (Inode.set_ref_cnt (Inode.ref_cnt i + 1) i) 0 true (Inode.i_no i) i)
    as (st3&Hw&Hf3&Hat3&_); [apply Hf1|apply wf_set_ref_cnt; [done|lia]|rewrite Hno; lia|done|done|].
  set (s3 := set_store st3 s2) in *.
  assert (open_file_tab s3 !! next_fd s1 = None) as Hnone by apply Hco1.
  eexists. split.
  { unfold bfs_open. mrun (name_len_Ok path s Hl). mrun Hr1. rewrite Hreg. cbn [negb]. mrun Hfd.
    rewrite Z.land_0_r. cbn [Z.eqb]. rewrite u64_small by lia. mrun Hw.
    mrun (insert_open_file_Ok s3 (next_fd s1) (OpenFile.mk (Inode.i_no i) 0) Hnone). rewrite <-Hn1. reflexivity. }
  rewrite <-Hn1, <-Hsb1, <-Ht1, <-Hno. split_and!; try done.
  - split; [exists 0; cbn; by rewrite lookup_insert_eq|]. split; [rewrite Hno; lia|].
    split; [exact Hat3|]. split_and!; [done| |apply Hp].
    apply wf_set_ref_cnt; [done|lia].
  - assert (frame (eq (ITAB_ABSOLUTE_BLK_LOC (Inode.i_no i))) s1 s3) as Hf by exact Hf3.
    eapply frame_trans; [apply frame_none; exact Hf1|exact Hf].
Qed.

(** C31. Opening and closing a regular file: the handle is new, starts at offset
    0 whatever the flags (also [_bfs__O_APPEND]), and counts as a reference in
    the inode on the device; closing it restores the inode and the handle table,
    and only the file's inode-table block is written. *)
Theorem open_release s usr path de i flags :
  good s -> DirEntry.name_ok path -> regular s usr path de i -> 0 <= Inode.ref_cnt i < 2 ^ 64 - 1 -> can_open s ->
  exists s1 s2, bfs_open acl usr path flags s = Ok (next_fd s) s1 /\
    open_file_tab s1 = <[next_fd s := OpenFile.mk (DirEntry.ino de) 0]> (open_file_tab s) /\
    inode_at s1 (DirEntry.ino de) (with_refs (Inode.ref_cnt i + 1) i) /\
    bfs_release acl usr (next_fd s) s1 = Ok () s2 /\
    open_file_tab s2 = open_file_tab s /\ inode_at s2 (DirEntry.ino de) i /\
    frame (eq (ITAB_ABSOLUTE_BLK_LOC (DirEntry.ino de))) s s2.
Proof.
  intros Hg Hl Hreg Hrc Hco.
  destruct (bfs_open_Ok s usr path de i flags Hg Hl Hreg Hrc Hco) as (s1&Ho&Hop&Hf1&Ht1&_&_).
  destruct Hreg as (_&Hno&Hr&Hwf&Hd&_). assert (ROOT_INO = 2) as HR by done.
  destruct (open_inode_Ok acl s1 "bfs_release" usr (next_fd s) _ _ (proj1 Hf1) Hop) as (st2&Hr2&Hf2).
  set (s2 := set_store st2 s1) in *. set (j := with_refs (Inode.ref_cnt i + 1) i) in *.
  assert (inode_at s2 (Inode.i_no j) j) as Hat.
  { change (Inode.i_no j) with (Inode.i_no i). rewrite Hno.
    eapply inode_at_frame; [exact Hf2|by intros []|apply Hop]. }
  destruct (write_inode_slot s2 (Inode.set_ref_cnt (Inode.ref_cnt i) j) 0 true (Inode.i_no j) j)
    as (st3&Hw&Hf3&Hat3&_); [apply Hf2|apply wf_set_ref_cnt; [apply wf_set_ref_cnt; [done|lia]|lia]| |done|done|].
  { change (Inode.i_no j) with (Inode.i_no i). rewrite Hno. lia. }
  set (s3 := set_store st3 s2) in *.
  exists s1, (set_open_file_tab (delete (next_fd s) (open_file_tab s3)) s3).
  split_and!; [exact Ho|exact Ht1|apply Hop| | | |].
  - unfold bfs_release. mrun Hr2. change (Inode.ref_cnt j) with (Inode.ref_cnt i + 1).
    replace (Inode.ref_cnt i + 1 - 1) with (Inode.ref_cnt i) by lia. rewrite u64_small by lia. by mrun Hw.
  - cbn [open_file_tab set_open_file_tab]. change (open_file_tab s3) with (open_file_tab s1). rewrite Ht1.
    apply delete_insert_id. apply Hco.
  - eapply inode_at_tab; [reflexivity|]. change (inode_at s3 (Inode.i_no i) (with_refs (Inode.ref_cnt i) j)) in Hat3.
    rewrite <-Hno. replace (with_refs (Inode.ref_cnt i) j) with i in Hat3; [exact Hat3|].
    destruct i. cbn in Hd |- *. by rewrite Hd.
  - change (Inode.i_no j) with (Inode.i_no i) in Hf3. rewrite Hno in Hf3.
    eapply frame_trans; [exact Hf1|]. eapply frame_trans; [apply frame_none; exact Hf2|]. exact Hf3.
Qed.

End opsspec.
