(* ===== verification/FsCreate.v ===== *)
(** * Creating a file

    [bfs_create] end to end: the new name, the new inode, the preallocated
    blocks and the handle; a file just created can be written and read back. *)
From S2P Require Import Prelude Layout BfsUtil CoreTypes BlockLayer BlockStore FsAlloc Acl FsDir FsDirSpec FsFile FsOps FsOpsSpec.

(** ** Consecutive block ids *)
Definition fill (ix : nat) (nb : Z) (n : nat) (l : list Z) : list Z :=
  take ix l ++ seqZ nb (Z.of_nat n) ++ drop (ix + n) l.

Lemma fill_0 ix nb l : fill ix nb 0 l = l.
Proof. unfold fill. change (seqZ nb (Z.of_nat 0)) with (@nil Z). rewrite Nat.add_0_r. apply take_drop. Qed.

Lemma fill_S ix nb n l : (ix < length l)%nat -> fill (S ix) (nb + 1) n (<[ix := nb]> l) = fill ix nb (S n) l.
Proof.
  intros Hl. unfold fill. rewrite (take_S_r _ _ nb) by (by apply list_lookup_insert_eq).
  rewrite take_insert_ge by lia. rewrite drop_insert_lt by lia. rewrite <-app_assoc. f_equal.
  rewrite (seqZ_cons nb (Z.of_nat (S n))) by lia. cbn [app]. f_equal.
  replace (Z.of_nat n) with (Z.pred (Z.of_nat (S n))) by lia.
  by rewrite Nat.add_succ_comm.
Qed.

(** The superblock after [k] block allocations. *)
Definition take_blks (k : Z) (x : SuperBlock.t) : SuperBlock.t :=
  SuperBlock.set_counters (SuperBlock.no_dblocks_free x - k) (SuperBlock.no_inodes_free x)
    (SuperBlock.next_vbid x + k) (SuperBlock.dirty x) x.

Lemma take_blks_add a b x : take_blks a (take_blks b x) = take_blks (b + a) x.
Proof. unfold take_blks, SuperBlock.set_counters. cbn. f_equal; lia. Qed.

Lemma take_blks_0 x : take_blks 0 x = x.
Proof. unfold take_blks, SuperBlock.set_counters. destruct x. cbn. f_equal; lia. Qed.

Definition with_blks (l : list Z) (i : Inode.t) : Inode.t :=
  Inode.mk (Inode.i_no i) (Inode.uid i) (Inode.mode i) (Inode.ref_cnt i) (Inode.atime i) (Inode.mtime i)
    (Inode.ctime i) (Inode.size i) (Inode.i_links_count i) l true.

Section create.
Context {B : Type} `{BlockStoreLaws B} (acl : bool).
Abbreviation fs := (fs B).
Implicit Types s : fs.

(** [n] blocks can be allocated; as [mkfs] leaves them, they hold something. *)
Definition pool s (n : Z) : Prop :=
  n <= SuperBlock.no_dblocks_free (sb s) < 2 ^ 64 /\ data_start s <= SuperBlock.next_vbid (sb s) /\
  SuperBlock.next_vbid (sb s) + n < 2 ^ 64 /\
  forall b, SuperBlock.next_vbid (sb s) <= b < SuperBlock.next_vbid (sb s) + n -> exists d, has s b d.

Lemma alloc_blk_take s n : 0 <= NUM_BLOCKS s -> pool s n -> 0 < n ->
  SuperBlock.alloc_blk (sb s) = (SuperBlock.next_vbid (sb s), take_blks 1 (sb s)).
Proof.
  intros HN (Hf&Hd&Hb&_) Hn. pose proof (data_start_pos s HN). unfold SuperBlock.alloc_blk.
  destruct (Z.eqb_spec (SuperBlock.no_dblocks_free (sb s)) 0); [lia|]. by rewrite !u64_small by lia.
Qed.

Lemma pool_take s n k : pool s n -> 0 <= k <= n -> pool (set_sb (take_blks k (sb s)) s) (n - k).
Proof.
  intros (Hf&Hd&Hb&Hh) Hk. split_and!; cbn; try lia.
  - change (data_start s <= SuperBlock.next_vbid (sb s) + k). lia.
  - intros b Hr. destruct (Hh b) as [d Hd']; [lia|]. by exists d.
Qed.

Lemma pool_le s n m : pool s n -> m <= n -> pool s m.
Proof. intros (Hf&Hd&Hb&Hh) Hm. split_and!; try lia. intros b Hb'. apply Hh. lia. Qed.

Lemma alloc_or_throw_Ok s what n : 0 <= NUM_BLOCKS s -> pool s n -> 0 < n ->
  alloc_or_throw what s = Ok (SuperBlock.next_vbid (sb s)) (set_sb (take_blks 1 (sb s)) s).
Proof.
  intros HN Hp Hn. unfold alloc_or_throw, sb_alloc_blk. rewrite (bind_Ok _ _ s (SuperBlock.next_vbid (sb s))
    (set_sb (take_blks 1 (sb s)) s)) by (by rewrite (alloc_blk_take s n)).
  pose proof (data_start_pos s HN). destruct Hp as (_&?&_).
  destruct (Z.eqb_spec (SuperBlock.next_vbid (sb s)) 0); [lia|done].
Qed.

Lemma prealloc_direct_Ok n ix i s :
  0 <= NUM_BLOCKS s -> pool s (Z.of_nat n) -> (ix + n <= length (Inode.i_blks i))%nat -> Inode.dirty i = true ->
  prealloc_direct n (Z.of_nat ix) i s =
    Ok (with_blks (fill ix (SuperBlock.next_vbid (sb s)) n (Inode.i_blks i)) i) (set_sb (take_blks (Z.of_nat n) (sb s)) s).
Proof.
  revert ix i s. induction n as [|n IH]; intros ix i s HN Hp Hl Hd.
  { cbn. rewrite fill_0, take_blks_0. destruct s, i. cbn in Hd. by subst. }
  cbn [prealloc_direct]. mrun (alloc_or_throw_Ok s "Failed preallocating a new direct block vbid" _ HN Hp ltac:(lia)).
  unfold set_i_blk_m, Inode.set_i_blk. rewrite decide_True by (unfold zlen; lia). msteps.
  rewrite Nat2Z.id. replace (Z.of_nat ix + 1) with (Z.of_nat (S ix)) by lia.
  rewrite IH; [|done| |cbn; rewrite length_insert; lia|done].
  - cbn [Inode.i_blks sb set_sb take_blks SuperBlock.next_vbid SuperBlock.set_counters].
    rewrite fill_S by lia. change (SuperBlock.set_counters _ _ _ _ _) with (take_blks 1 (sb s)).
    rewrite take_blks_add. replace (1 + Z.of_nat n) with (Z.of_nat (S n)) by lia. done.
  - replace (Z.of_nat n) with (Z.of_nat (S n) - 1) by lia. apply pool_take; [done|lia].
Qed.

Lemma prealloc_indirect_Ok n ix (ib : list Z) s :
  0 <= NUM_BLOCKS s -> pool s (Z.of_nat n) -> (ix + n <= length ib)%nat ->
  prealloc_indirect n (Z.of_nat ix) ib s =
    Ok (fill ix (SuperBlock.next_vbid (sb s)) n ib) (set_sb (take_blks (Z.of_nat n) (sb s)) s).
Proof.
  revert ix ib s. induction n as [|n IH]; intros ix ib s HN Hp Hl.
  { cbn. rewrite fill_0, take_blks_0. by destruct s. }
  cbn [prealloc_indirect]. mrun (alloc_or_throw_Ok s "Failed preallocating a new indirect data block" _ HN Hp ltac:(lia)).
  unfold IndirectBlock.set_indirect_loc. rewrite decide_True by (unfold zlen; lia).
  rewrite Nat2Z.id. replace (Z.of_nat ix + 1) with (Z.of_nat (S ix)) by lia.
  rewrite IH; [|done| |unfold IndirectBlock.t in *; rewrite length_insert; lia].
  - cbn [sb set_sb take_blks SuperBlock.next_vbid SuperBlock.set_counters].
    rewrite fill_S by lia. change (SuperBlock.set_counters _ _ _ _ _) with (take_blks 1 (sb s)).
    rewrite take_blks_add. replace (1 + Z.of_nat n) with (Z.of_nat (S n)) by lia. done.
  - replace (Z.of_nat n) with (Z.of_nat (S n) - 1) by lia. apply pool_take; [done|lia].
Qed.

Lemma fill_zero nb : fill 0 nb 12 Inode.zero_blks = seqZ nb 12 ++ [0].
Proof. unfold fill. done. Qed.

Lemma seqZ_13 nb : <[12%nat := nb + 12]> (seqZ nb 12 ++ [0]) = seqZ nb 13.
Proof. rewrite insert_app_r_alt by done. change 13 with (12 + 1). rewrite seqZ_app by done. cbn. repeat f_equal; lia. Qed.

Lemma fill_ctor nb : fill 0 nb 512 IndirectBlock.ctor = seqZ nb 512.
Proof. unfold fill. rewrite (drop_ge IndirectBlock.ctor) by done. by rewrite app_nil_r. Qed.

(** The state after the [k]-th allocation of a sequence. *)
Lemma set_sb_take s a b : set_sb (take_blks a (sb (set_sb (take_blks b (sb s)) s))) (set_sb (take_blks b (sb s)) s) =
  set_sb (take_blks (b + a) (sb s)) s.
Proof. rewrite <-take_blks_add. done. Qed.

Lemma prealloc_blks_Ok s i :
  good s -> pool s 525 -> Inode.i_blks i = Inode.zero_blks -> Inode.dirty i = true ->
  let nb := SuperBlock.next_vbid (sb s) in
  exists st buf, let s' := set_store st (set_sb (take_blks 525 (sb s)) s) in
    prealloc_blks i s = Ok (with_blks (seqZ nb 13) i) s' /\ frame (eq (nb + 12)) s s' /\
    has s' (nb + 12) buf /\ IndirectBlock.deserialize buf 0 = Some (seqZ (nb + 13) 512, BLK_SZ).
Proof.
  intros [Hs HN] Hp Hz Hd nb. pose proof Hp as (Hf&Hds&Hb&Hh). fold nb in Hds, Hb, Hh.
  pose proof (data_start_pos s HN) as Hpos.
  pose proof (prealloc_direct_Ok (Z.to_nat NUM_DIRECT_BLOCKS) 0 i s HN) as H1.
  change (Z.of_nat (Z.to_nat NUM_DIRECT_BLOCKS)) with 12 in H1. change (Z.to_nat NUM_DIRECT_BLOCKS) with 12%nat in H1.
  fold nb in H1. rewrite Hz, fill_zero in H1. change (Z.of_nat 0) with 0 in H1.
  set (s1 := set_sb (take_blks 12 (sb s)) s) in *.
  assert (pool s1 513) as Hp1 by (apply (pool_take s 525 12 Hp); lia).
  pose proof (alloc_or_throw_Ok s1 "Failed preallocating a new indirect block" _ HN Hp1 ltac:(lia)) as H2.
  unfold s1 in H2 at 3 4. rewrite set_sb_take in H2. set (s2 := set_sb (take_blks (12 + 1) (sb s)) s) in *.
  change (SuperBlock.next_vbid (sb s1)) with (nb + 12) in H2.
  assert (pool s2 512) as Hp2 by (apply (pool_take s 525 13 Hp); lia).
  pose proof (prealloc_indirect_Ok (Z.to_nat NUM_BLKS_PER_IB) 0 IndirectBlock.ctor s2 HN) as H3.
  change (Z.of_nat (Z.to_nat NUM_BLKS_PER_IB)) with 512 in H3. change (Z.to_nat NUM_BLKS_PER_IB) with 512%nat in H3.
  specialize (H3 Hp2 ltac:(done)). change (SuperBlock.next_vbid (sb s2)) with (nb + (12 + 1)) in H3. rewrite fill_ctor in H3. change (Z.of_nat 0) with 0 in H3.
  replace (nb + (12 + 1)) with (nb + 13) in H3 by lia.
  unfold s2 in H3 at 2 3. rewrite set_sb_take in H3. set (s3 := set_sb (take_blks (12 + 1 + 512) (sb s)) s) in *.
  destruct (IndirectBlock.ind_roundtrip (seqZ (nb + 13) 512) (zeros BLK_SZ)) as (buf&Hser&Hbz&Hde).
  { split; [unfold zlen; rewrite length_seqZ; done|]. apply Forall_forall. intros v Hv%elem_of_seqZ.
    unfold fits. change (2 ^ (8 * Z.of_nat 8)) with (2 ^ 64). lia. }
  { by apply zlen_zeros. }
  destruct (Hh (nb + 12)) as [d Hd12]; [lia|].
  destruct (wblk_Ok s3 (nb + 12) buf d bfs_O_SYNC Hs Hd12 Hbz) as (c&st&Hw&_&Hhas&Hfr).
  exists st, buf. cbv zeta. split_and!; [|exact Hfr|exact Hhas|exact Hde].
  unfold prealloc_blks. change (Z.to_nat NUM_DIRECT_BLOCKS) with 12%nat. change (Z.to_nat NUM_BLKS_PER_IB) with 512%nat.
  mrun (H1 ltac:(apply (pool_le s 525 12 Hp); lia) ltac:(vm_decide) Hd). mrun H2.
  unfold set_i_blk_m, Inode.set_i_blk. cbn [Inode.i_blks with_blks].
  rewrite decide_True by (change NUM_DIRECT_BLOCKS with 12; unfold zlen; rewrite length_app, length_seqZ; cbn [length]; lia). change (Z.to_nat NUM_DIRECT_BLOCKS) with 12%nat.
  rewrite seqZ_13. msteps. mrun H3. rewrite Hser. msteps. rewrite bind_assert by done. unfold wblk. by mrun Hw.
Qed.

(** ** The new file *)

(** The inode [bfs_create] writes: one reference, no bytes, the blocks from
    [nb] on. *)
Definition new_file (n uid mode nb : Z) : Inode.t :=
  Inode.set_dirty false (with_blks (seqZ nb 13) (Inode.ctor n uid (Z.lor BFS__S_IFREG mode) 1 0 0 0 0 0)).

Definition new_ib (nb : Z) : list Z := seqZ (nb + 13) 512.
Definition new_vs (nb : Z) : list Z := seqZ nb 12 ++ new_ib nb.

Lemma new_vs_range nb v : v ∈ new_vs nb <-> nb <= v < nb + 525 /\ v <> nb + 12.
Proof. unfold new_vs, new_ib. rewrite elem_of_app, !elem_of_seqZ. lia. Qed.

Lemma lor_ifreg_fits mode : 0 <= mode < 2 ^ 32 -> fits 4 (Z.lor BFS__S_IFREG mode).
Proof.
  intros Hm. unfold fits. change (8 * Z.of_nat 4) with 32. assert (0 <= BFS__S_IFREG < 2 ^ 32) by done.
  split; [by apply Z.lor_nonneg; lia|]. destruct (decide (Z.lor BFS__S_IFREG mode = 0)) as [->|Hne]; [done|].
  apply Z.log2_lt_pow2; [pose proof (proj2 (Z.lor_nonneg BFS__S_IFREG mode)); lia|].
  rewrite Z.log2_lor by lia. apply Z.max_lub_lt; [done|]. destruct (decide (mode = 0)) as [->|]; [done|].
  apply Z.log2_lt_pow2; lia.
Qed.

Lemma new_file_wf n uid mode nb :
  0 <= n < NUM_INODES -> 0 <= uid < 2 ^ 32 -> 0 <= mode < 2 ^ 32 -> 0 <= nb -> nb + 13 < 2 ^ 64 ->
  Inode.wf (new_file n uid mode nb).
Proof.
  intros Hn Hu Hm Hnb Hnb'. split; [unfold new_file, zlen; cbn -[seqZ]; by rewrite length_seqZ|].
  unfold Inode.fields. apply Forall_app. split.
  - pose proof (lor_ifreg_fits mode Hm). assert (NUM_INODES < 2 ^ 64) by done.
    repeat (constructor; [first [done|cbn; unfold fits; lia]|]). constructor.
  - apply Forall_fmap, Forall_forall. intros v Hv%elem_of_seqZ. cbn. unfold fits. lia.
Qed.

Lemma new_file_at s n uid mode nb :
  data_start s <= nb -> (forall b, nb <= b < nb + 525 -> exists d, has s b d) ->
  (exists buf, has s (nb + 12) buf /\ IndirectBlock.deserialize buf 0 = Some (new_ib nb, BLK_SZ)) ->
  exists blks, file_at s (new_file n uid mode nb) (new_ib nb) (new_vs nb) blks.
Proof.
  intros Hds Hh (buf&Hbuf&Hde).
  assert (exists blks, Forall2 (has s) (new_vs nb) blks) as [blks Hblks].
  { assert (forall v, v ∈ new_vs nb -> exists d, has s v d) as Hall by (intros v Hv%new_vs_range; apply Hh; lia).
    clear -Hall. induction (new_vs nb) as [|v vs IH]; [by exists []|]. destruct (Hall v) as [d Hd]; [left|].
    destruct IH as [ds Hds]; [intros w Hw; apply Hall; by right|]. exists (d :: ds). by constructor. }
  assert (forall k v, new_vs nb !! k = Some v -> ((k < 12)%nat -> v = nb + Z.of_nat k) /\
    ((12 <= k)%nat -> new_ib nb !! (k - 12)%nat = Some v)) as Hix.
  { intros k v. unfold new_vs. intros Hk. split; intros Hkl.
    - rewrite lookup_app_l in Hk by (rewrite length_seqZ; lia). apply lookup_seqZ in Hk. lia.
    - rewrite lookup_app_r in Hk by (rewrite length_seqZ; lia). rewrite length_seqZ in Hk. exact Hk. }
  exists blks. split; [| | | | |  |done].
  - intros k v Hk Hl. rewrite (proj1 (Hix k v Hk) Hl). apply lookup_seqZ. lia.
  - intros _. exists (nb + 12), buf. split_and!; [apply lookup_seqZ; lia|done|done|rewrite new_vs_range; lia|lia].
  - intros k v Hk Hl. by apply Hix.
  - unfold new_vs, new_ib, zlen. rewrite length_app, !length_seqZ. done.
  - apply Forall_forall. intros v Hv%new_vs_range. lia.
  - apply NoDup_app. split_and!; [apply NoDup_seqZ| |apply NoDup_seqZ]. intros x. unfold new_ib. rewrite !elem_of_seqZ. lia.
Qed.

(** The steps of [bfs_create] after the name is in its directory. *)
Lemma create_tail_Ok s n uid mode old :
  good s -> pool s 525 -> can_open s -> inode_at s n old -> ROOT_INO <= n < NUM_INODES ->
  0 <= uid < 2 ^ 32 -> 0 <= mode < 2 ^ 32 ->
  let nb := SuperBlock.next_vbid (sb s) in
  exists s' blks,
    (fh ← new_fd "Invalid file handle in create"; insert_open_file fh (OpenFile.mk n 0) ;;
     new ← prealloc_blks (Inode.ctor n uid (Z.lor BFS__S_IFREG mode) 1 0 0 0 0 0);
     write_inode new bfs_O_SYNC 0 true ;; mret fh) s = Ok (next_fd s) s' /\
    frame (fun b => b = nb + 12 \/ b = ITAB_ABSOLUTE_BLK_LOC n) s s' /\
    inode_at s' n (new_file n uid mode nb) /\ file_at s' (new_file n uid mode nb) (new_ib nb) (new_vs nb) blks /\
    others n s s' /\ open_file_tab s' = <[next_fd s := OpenFile.mk n 0]> (open_file_tab s).
Proof.
  intros Hg Hp Hco Hold Hn Hu Hm nb. pose proof Hp as (Hf&Hds&Hb&Hh). fold nb in Hds, Hb, Hh. assert (ROOT_INO = 2) as HR by done.
  pose proof (data_start_pos s (proj2 Hg)) as Hpos. pose proof (fun ino => data_not_itab s (nb + 12) ino (proj2 Hg)) as Hni.
  mrun (new_fd_Ok s "Invalid file handle in create" Hco). set (s1 := set_next_fd (next_fd s + 1) s).
  mrun (insert_open_file_Ok s1 (next_fd s) (OpenFile.mk n 0) (proj2 (proj2 Hco))). set (s2 := set_open_file_tab _ s1).
  destruct (prealloc_blks_Ok s2 (Inode.ctor n uid (Z.lor BFS__S_IFREG mode) 1 0 0 0 0 0) Hg Hp eq_refl eq_refl)
    as (st&buf&Hpre&Hf2&Hbuf&Hde). change (SuperBlock.next_vbid (sb s2)) with nb in *. set (s3 := set_store st _) in *. mrun Hpre.
  assert (frame (eq (nb + 12)) s s3) as Hf3 by exact Hf2.
  assert (others n s s3) as Ho3 by (eapply others_frame; [exact Hf3|intros ino Hi; apply Hni; [lia|done]]).
  assert (inode_at s3 n old) as Hold3 by (eapply inode_at_frame; [exact Hf3|apply Hni; lia|done]).
  destruct (write_inode_slot s3 (with_blks (seqZ nb 13) (Inode.ctor n uid (Z.lor BFS__S_IFREG mode) 1 0 0 0 0 0)) 0 true n old)
    as (st4&Hw&Hf4&Hat4&Ho4); [apply Hf3|apply (new_file_wf n uid mode nb); lia|lia|done|done|].
  mrun Hw. set (s4 := set_store st4 s3) in *.
  assert (forall b d, b <> ITAB_ABSOLUTE_BLK_LOC n -> has s3 b d -> has s4 b d) as Hk4.
  { intros b d Hne. apply (frame_has _ _ _ _ _ Hf4). congruence. }
  assert (data_start s4 = data_start s) as Hds4.
  { unfold data_start. destruct Hf4 as (_&->&_). by destruct Hf3 as (_&->&_). }
  pose proof (fun b => data_not_itab s b n (proj2 Hg)) as Hnb.
  destruct (new_file_at s4 n uid mode nb) as [blks Hfa].
  { by rewrite Hds4. }
  { intros b Hr. destruct (decide (b = nb + 12)) as [->|Hne].
    - exists buf. apply Hk4; [apply Hnb; lia|exact Hbuf].
    - destruct (Hh b Hr) as [d Hd]. exists d. apply Hk4; [apply Hnb; lia|]. apply (frame_has _ _ _ _ _ Hf3); [congruence|done]. }
  { exists buf. split; [apply Hk4; [apply Hnb; lia|exact Hbuf]|exact Hde]. }
  exists s4, blks. split_and!; [done| |exact Hat4|exact Hfa|by eapply others_trans|done].
  eapply frame_trans; [eapply frame_weaken; [|exact Hf3]|eapply frame_weaken; [|exact Hf4]]; intros b <-; [by left|by right].
Qed.

(** ** Creation *)

(** When a user [u] can create [path]: the path is new, its parent is a directory
    the user may search with room for an entry, [n] is the first free inode
    number, and enough blocks and handles are left. *)
Record can_create s (u : User.t) (path : bytes) (de : DirEntry.t) (par : Inode.t) (vs : list Z)
    (sls : list (list slot)) (bits : list bytes) (n : Z) : Prop := {
  cc_good : good s;
  cc_uid : 0 <= User.uid u < 2 ^ 32;
  cc_name : DirEntry.name_ok path;
  cc_missing : missing acl s (Some u) path;
  cc_parent : names_inode acl s (Some u) (dirname_of path) de par;
  cc_isdir : BFS__S_ISDIR (Inode.mode par) = true;
  cc_par_no : Inode.i_no par = DirEntry.ino de;
  cc_par_range : 0 <= Inode.i_no par < NUM_INODES;
  cc_par_wf : Inode.wf par;
  cc_dir : dir_at s par vs sls;
  cc_absent : lookup_dir path vs sls = None;
  cc_entries : entries (concat sls) < 2 ^ 32 - 2;
  cc_room : Exists (fun sl => is_Some (free_slot sl)) sls \/ (length vs < Z.to_nat NUM_DIRECT_BLOCKS)%nat;
  cc_bits : ibm_at s bits;
  cc_free : SuperBlock.no_inodes_free (sb s) <> 0;
  cc_bit : ibit bits n = Some false /\ forall m, 0 <= m < n -> ibit bits m = Some true;
  cc_range : FIRST_UNRESERVED_INO <= n < NUM_INODES;
  cc_fresh : n <> Inode.i_no par;
  cc_slot : exists old, inode_at s n old;
  cc_open : can_open s;
  cc_pool : pool s 526;
  cc_old_blks : Forall (fun v => v < SuperBlock.next_vbid (sb s)) vs
}.

Lemma need_no_de_Ok s usr path : good s -> missing acl s usr path ->
  exists s', need_no_de acl usr path s = Ok () s' /\ same s s'.
Proof.
  intros Hg Hm. destruct (get_de_missing acl s usr path Hg Hm) as (s'&Hr&Hs). exists s'. split; [|done].
  unfold need_no_de. by mrun Hr.
Qed.

Lemma parent_inode_Ok s msg usr path de par :
  good s -> names_inode acl s usr (dirname_of path) de par -> BFS__S_ISDIR (Inode.mode par) = true ->
  exists s', parent_inode acl msg usr path s = Ok par s' /\ same s s'.
Proof.
  intros Hg Hp Hd. destruct (path_inode_Ok acl s (BfsServerError "Parent dir does not exist") msg usr (dirname_of path) de par Hg Hp)
    as (s'&Hr&Hs). exists s'. split; [|done]. unfold parent_inode. mrun Hr. by rewrite Hd.
Qed.

(** The first free number is the one allocated. *)
Lemma alloc_ino_first s bits n :
  ok s -> ibm_at s bits -> SuperBlock.no_inodes_free (sb s) <> 0 -> ibit bits n = Some false ->
  (forall m, 0 <= m < n -> ibit bits m = Some true) -> 0 <= n < NUM_INODES ->
  exists s' bits', alloc_ino s = Ok n s' /\ ibm_at s' bits' /\
    (forall m, 0 <= m -> ibit bits' m = if decide (m = n) then Some true else ibit bits m) /\
    only_store (set_sb (SuperBlock.set_no_inodes_free (SuperBlock.no_inodes_free (sb s) - 1) (sb s)) s) s' /\
    frame ibm_blk s s'.
Proof.
  intros Hs Hb Hf Hn Hlow Hr. destruct (alloc_ino_Ok s bits Hs Hb) as [_ Ha]. destruct (Ha Hf) as
    [(m&s'&bits'&Hrun&Hm&Hmf&Hml&Hat&Hbits&Ho&Hfr)|[Hall _]].
  - destruct (decide (m = n)) as [->|Hne]; [by exists s', bits'|]. destruct (decide (m < n)).
    + rewrite (Hlow m) in Hmf by lia. done.
    + rewrite (Hml n) in Hn by lia. done.
  - rewrite (Hall n) in Hn; [done|]. assert (NUM_INODES <= NUM_IBITMAP_BLOCKS * BLK_SZ_BITS) by done. lia.
Qed.

(** Data blocks are neither bitmap nor table blocks. *)
Lemma data_not_ibm s b : 0 <= NUM_BLOCKS s -> data_start s <= b -> ~ ibm_blk b.
Proof.
  intros HN Hb [_ Hlt]. unfold data_start, DATA_REL_START_BLK_NUM, NUM_META_BLOCKS in Hb.
  assert (0 < META_PER_BLK) by done. pose proof (Z.div_pos (NUM_BLOCKS s) META_PER_BLK HN ltac:(lia)).
  assert (ITAB_REL_START_BLK_NUM < METADATA_REL_START_BLK_NUM) by done. lia.
Qed.

Lemma itab_not_ibm ino : 0 <= ino < NUM_INODES -> ~ ibm_blk (ITAB_ABSOLUTE_BLK_LOC ino).
Proof. intros Hi [_ Hlt]. pose proof (itab_loc_range ino Hi) as [[Hl _] _]. lia. Qed.

(** The blocks that can be allocated after a change elsewhere. *)
Lemma pool_frame P s s' n :
  frame P s s' -> SuperBlock.no_dblocks_free (sb s') = SuperBlock.no_dblocks_free (sb s) ->
  SuperBlock.next_vbid (sb s') = SuperBlock.next_vbid (sb s) ->
  (forall b, SuperBlock.next_vbid (sb s) <= b -> ~ P b) -> pool s n -> pool s' n.
Proof.
  intros Hf Hfree Hnext HP (H1&H2&H3&H4). unfold pool. rewrite Hfree, Hnext.
  assert (data_start s' = data_start s) as -> by (unfold data_start; by destruct Hf as (_&->&_)).
  split_and!; try done; try lia. intros b Hb. destruct (H4 b Hb) as [d Hd]. exists d.
  eapply frame_has; [exact Hf|apply HP; lia|done].
Qed.

(** The state in which the entry was added: what [create_tail_Ok] needs. *)
Lemma added_pool s par vs par' s' vs' :
  0 <= NUM_BLOCKS s -> 0 <= Inode.i_no par < NUM_INODES -> pool s 526 ->
  Forall (fun v => v < SuperBlock.next_vbid (sb s)) vs -> Forall (fun v => data_start s <= v) vs ->
  added s par vs par' s' vs' ->
  pool s' 525 /\ Forall (fun v => v < SuperBlock.next_vbid (sb s')) vs' /\
  next_fd s' = next_fd s /\ open_file_tab s' = open_file_tab s /\
  SuperBlock.next_vbid (sb s) <= SuperBlock.next_vbid (sb s').
Proof.
  intros HN Hpar Hp Hold Hdat (_&_&_&_&_&Hf&Hst). pose proof Hp as (Hfr&Hds&Hlt&_).
  pose proof (fun b => data_not_itab s b (Inode.i_no par) HN) as Hni.
  rewrite Forall_forall in Hold. destruct Hst as [[(Hsb&Hfd&Hot) ->]|[(Hsb&Hfd&Hot) ->]].
  - rewrite Hsb. split_and!; [|by apply Forall_forall|done|done|lia].
    apply pool_le with 526; [|lia]. eapply pool_frame; [exact Hf|by rewrite Hsb..| |done].
    intros b Hb [Hin|Heq]; [specialize (Hold b Hin); lia|]. exact (Hni b ltac:(lia) Hpar Heq).
  - cbn [sb set_sb] in Hsb. rewrite (alloc_blk_take s 526 HN Hp) in Hsb by lia. cbn [snd] in Hsb.
    assert (SuperBlock.next_vbid (sb s') = SuperBlock.next_vbid (sb s) + 1) as Hnx by (by rewrite Hsb).
    rewrite Hnx. split_and!; [| |done|done|lia].
    + eapply (pool_frame _ (set_sb (take_blks 1 (sb s)) s)); [exact Hf|by rewrite Hsb|by rewrite Hsb| |].
      * intros b Hb [Hin|Heq]; cbn in Hb; [|exact (Hni b ltac:(lia) Hpar Heq)].
        apply elem_of_app in Hin as [Hin|Hin%list_elem_of_singleton]; [specialize (Hold b Hin)|]; lia.
      * apply (pool_take s 526 1 Hp). lia.
    + apply Forall_app. split; [apply Forall_forall; intros v Hv; specialize (Hold v Hv); lia|]. by repeat constructor; lia.
Qed.

(** Room in the directory, from the blocks left. *)
Lemma pool_can_add s vs sls :
  good s -> pool s 526 -> Forall (fun v => v < SuperBlock.next_vbid (sb s)) vs ->
  Exists (fun sl => is_Some (free_slot sl)) sls \/ (length vs < Z.to_nat NUM_DIRECT_BLOCKS)%nat -> can_add s vs sls.
Proof.
  intros [Hs HN] (Hf&Hd&Hb&Hh) Hold [Hex|Hl]; [by left|right]. split_and!; [done|lia|done|lia| |].
  - destruct (Hh (SuperBlock.next_vbid (sb s))) as [d Hd']; [lia|]. by apply (has_valid s _ d).
  - intros Hin. rewrite Forall_forall in Hold. specialize (Hold _ Hin). lia.
Qed.

(** What [bfs_create] leaves: the handle, the inode and blocks of the file, the
    directory with the new name, and every other inode, every block in use that is
    not one of the directory, so every other directory and file. *)
Record created s (u : User.t) (path : bytes) (mode : Z) (par : Inode.t) (vs : list Z) (sls : list (list slot))
    (bits : list bytes) (n : Z) s' (nb : Z) (blks : list bytes) : Prop := {
  cr_ok : good s';
  cr_tab : open_file_tab s' = <[next_fd s := OpenFile.mk n 0]> (open_file_tab s);
  cr_inode : inode_at s' n (new_file n (User.uid u) mode nb);
  cr_file : file_at s' (new_file n (User.uid u) mode nb) (new_ib nb) (new_vs nb) blks;
  cr_fresh : SuperBlock.next_vbid (sb s) <= nb < 2 ^ 64 - 525;
  cr_dir : exists par' vs' sls', dir_at s' par' vs' sls' /\ inode_at s' (Inode.i_no par) (Inode.set_dirty false par') /\
    (exists v k, lookup_dir path vs' sls' = Some (v, k, n)) /\
    forall name, name <> path -> lookup_dir name vs' sls' = lookup_dir name vs sls;
  cr_bits : exists bits', ibm_at s' bits' /\
    forall m, 0 <= m -> ibit bits' m = if decide (m = n) then Some true else ibit bits m;
  cr_others : forall ino j, ino <> n -> ino <> Inode.i_no par -> 0 <= ino < NUM_INODES ->
    inode_at s ino j -> inode_at s' ino j;
  cr_blocks : forall b d, data_start s <= b < SuperBlock.next_vbid (sb s) -> b ∉ vs -> has s b d -> has s' b d;
  cr_other_dirs : forall j ws tls, Forall (fun w => w < SuperBlock.next_vbid (sb s) /\ w ∉ vs) ws ->
    dir_at s j ws tls -> dir_at s' j ws tls
}.

Lemma ibm_at_frame P s s' bits : frame P s s' -> (forall b, ibm_blk b -> ~ P b) -> ibm_at s bits -> ibm_at s' bits.
Proof.
  intros Hf HP [Hl Hb]. split; [done|]. intros k d Hk. destruct (Hb k d Hk) as [Hh Hz]. split; [|done].
  eapply frame_has; [exact Hf| |done]. apply HP. apply lookup_lt_Some in Hk. rewrite Hl in Hk.
  change (Z.to_nat NUM_IBITMAP_BLOCKS) with 4%nat in Hk. unfold ibm_blk. change ITAB_REL_START_BLK_NUM with (IBM_REL_START_BLK_NUM + 4). lia.
Qed.

(** The steps before the entry is added: the state [s3] differs from [s] in the
    bitmap and the counter of free inodes. *)
Lemma create_head_Ok s u path de par vs sls bits n :
  can_create s u path de par vs sls bits n ->
  exists s1 s2 s3 bits', need_no_de acl (Some u) path s = Ok () s1 /\
    parent_inode acl "Permission denied" (Some u) path s1 = Ok par s2 /\ alloc_ino s2 = Ok n s3 /\
    good s3 /\ ibm_at s3 bits' /\
    (forall m, 0 <= m -> ibit bits' m = if decide (m = n) then Some true else ibit bits m) /\
    (forall ino, 0 <= ino < NUM_INODES -> forall j, inode_at s ino j -> inode_at s3 ino j) /\
    dir_at s3 par vs sls /\ pool s3 526 /\ SuperBlock.next_vbid (sb s3) = SuperBlock.next_vbid (sb s) /\
    next_fd s3 = next_fd s /\ open_file_tab s3 = open_file_tab s /\ frame ibm_blk s s3.
Proof.
  intros [Hg Hu Hl Hmiss Hpar Hdir Hpn Hpr Hpw Hda Habs Hent Hroom Hibm Hfree [Hbit Hlow] Hn Hnp [old Hold] Hco Hpool Hob].
  destruct (need_no_de_Ok s (Some u) path Hg Hmiss) as (s1&Hr1&Hs1). pose proof (same_good _ _ Hg Hs1) as Hg1.
  destruct (parent_inode_Ok s1 "Permission denied" (Some u) path de par Hg1) as (s2&Hr2&Hs2'); [by eapply same_names|done|].
  pose proof (same_trans _ _ _ Hs1 Hs2') as Hs2. pose proof (same_good _ _ Hg Hs2) as Hg2. clear Hs1 Hs2' Hg1.
  pose proof Hs2 as [Hf2 (Hsb2&Hfd2&Hot2)]. assert (FIRST_UNRESERVED_INO = 8) as H8 by done.
  destruct (alloc_ino_first s2 bits n (proj1 Hg2)) as (s3&bits'&Hr3&Hib3&Hbits&(Hsb3&Hfd3&Hot3)&Hf3);
    [by eapply ibm_at_frame; [exact Hf2|intros ?? []|]|by rewrite Hsb2|done|done|lia|].
  assert (frame ibm_blk s s3) as Hf03 by (eapply frame_trans; [by apply frame_none|done]).
  exists s1, s2, s3, bits'. cbn in Hfd3, Hot3. refine (conj Hr1 (conj Hr2 (conj Hr3 (conj _ (conj Hib3 (conj Hbits (conj _ (conj _ (conj _ (conj _ (conj _ (conj _ Hf03)))))))))))).
  - split; [apply Hf03|]. destruct Hf03 as (_&->&_). apply Hg.
  - intros ino Hi j. eapply inode_at_frame; [exact Hf03|by apply itab_not_ibm].
  - eapply dir_at_frame; [exact Hf03| |done]. eapply Forall_impl; [exact (da_data _ _ _ _ Hda)|]. intros v. by apply data_not_ibm, Hg.
  - eapply pool_frame; [exact Hf03|rewrite Hsb3; cbn; by rewrite Hsb2..| |done].
    intros b Hb. apply (data_not_ibm s); [apply Hg|]. destruct Hpool as (_&?&_). lia.
  - rewrite Hsb3. cbn. by rewrite Hsb2.
  - by rewrite Hfd3.
  - by rewrite Hot3.
Qed.

(** The blocks that the three parts of [bfs_create] change are none of those in
    use outside the directory. *)
Definition create_blk (par : Inode.t) (vs : list Z) (n nb b : Z) : Prop :=
  ibm_blk b \/ (b ∈ vs \/ b = ITAB_ABSOLUTE_BLK_LOC (Inode.i_no par)) \/ (b = nb + 12 \/ b = ITAB_ABSOLUTE_BLK_LOC n).

Lemma created_frame s s3 s4 s5 par vs par' vs' n nb :
  0 <= NUM_BLOCKS s -> 0 <= Inode.i_no par < NUM_INODES -> 0 <= n < NUM_INODES ->
  frame ibm_blk s s3 -> SuperBlock.next_vbid (sb s3) = SuperBlock.next_vbid (sb s) -> added s3 par vs par' s4 vs' ->
  SuperBlock.next_vbid (sb s) <= nb ->
  frame (fun b => b = nb + 12 \/ b = ITAB_ABSOLUTE_BLK_LOC n) s4 s5 ->
  frame (create_blk par vs' n nb) s s5 /\
  forall b, data_start s <= b < SuperBlock.next_vbid (sb s) -> b ∉ vs -> ~ create_blk par vs' n nb b.
Proof.
  intros HN Hpar Hn Hf3 Hnext (_&_&_&_&_&Hf4&Hst) Hnb Hf5. split.
  - eapply frame_trans; [eapply frame_weaken; [|exact Hf3]|]; [unfold create_blk; tauto|].
    eapply frame_trans; eapply frame_weaken; [|exact Hf4| |exact Hf5]; unfold create_blk; cbn; tauto.
  - intros b [Hlo Hhi] Hnv [Hi|[[Hin|Heq]|[Heq|Heq]]].
    + by eapply data_not_ibm.
    + destruct Hst as [[_ ->]|[_ ->]]; [done|]. apply elem_of_app in Hin as [|Hin%list_elem_of_singleton]; [done|lia].
    + by eapply (data_not_itab s b (Inode.i_no par)).
    + lia.
    + by eapply (data_not_itab s b n).
Qed.

Lemma bfs_create_Ok s u path mode de par vs sls bits n :
  can_create s u path de par vs sls bits n -> 0 <= mode < 2 ^ 32 ->
  exists s' nb blks, bfs_create acl (Some u) path mode s = Ok (next_fd s) s' /\
    created s u path mode par vs sls bits n s' nb blks.
Proof.
  intros Hcc Hm. destruct (create_head_Ok s u path de par vs sls bits n Hcc)
    as (s1&s2&s3&bits'&Hr1&Hr2&Hr3&Hg3&Hib3&Hbits&Hin3&Hda3&Hp3&Hnext3&Hfd3&Hot3&Hf03).
  destruct Hcc as [Hg Hu Hl Hmiss Hpar Hdir Hpn Hpr Hpw Hda Habs Hent Hroom Hibm Hfree [Hbit Hlow] Hn Hnp [old Hold] Hco Hpool Hob].
  assert (FIRST_UNRESERVED_INO = 8) as H8 by done. assert (ROOT_INO = 2) as HR by done. assert (NUM_INODES < 2 ^ 64) as HNI by done.
  assert (inode_at s3 (Inode.i_no par) par) as Hpar3. { apply Hin3; [done|]. rewrite Hpn. apply Hpar. }
  destruct (add_direct_Ok s3 par par n path vs sls (proj1 Hg3) (proj2 Hg3) Hda3 Hpw Hpr Hpar3)
    as (par'&s4&vs'&sls'&Hadd&Hok4&Hda4&Hat4&_&Hfound&Hsame&Hadded); [lia|done|by destruct Hmiss as [Hh _]; destruct path|done| |done|].
  { apply pool_can_add; [done|done|by rewrite Hnext3|done]. }
  pose proof Hadded as (_&_&_&_&Hoth4&Hf4&_).
  destruct (added_pool s3 par vs par' s4 vs' (proj2 Hg3) Hpr Hp3) as (Hp4&Hob4&Hfd4&Hot4&Hnx4);
    [by rewrite Hnext3|exact (da_data _ _ _ _ Hda3)|done|].
  assert (good s4) as Hg4. { split; [done|]. destruct Hf4 as (_&->&_). apply Hg3. }
  assert (next_fd s4 = next_fd s /\ open_file_tab s4 = open_file_tab s) as [Hfd04 Hot04].
  { by rewrite Hfd4, Hot4. }
  destruct (create_tail_Ok s4 n (User.uid u) mode old Hg4 Hp4) as (s5&blks&Hr5&Hf5&Hat5&Hfa5&Hoth5&Htab5);
    [unfold can_open; by rewrite Hfd04, Hot04|apply Hoth4; [done|lia|]; apply Hin3; [lia|done]|lia|done|done|].
  set (nb := SuperBlock.next_vbid (sb s4)) in *. exists s5, nb, blks. rewrite Hfd04, Hot04 in *.
  pose proof (fun b => data_not_itab s4 b n (proj2 Hg4)) as Hni.
  destruct (created_frame s s3 s4 s5 par vs par' vs' n nb) as [Hf05 Hfree05];
    [apply Hg|done|lia|done|done|done|by rewrite <-Hnext3|exact Hf5|].
  split; [|split].
  - unfold bfs_create. mrun (name_len_Ok path s Hl). mrun Hr1. mrun Hr2. mrun Hr3.
    destruct (Z.ltb_spec n FIRST_UNRESERVED_INO); [lia|]. unfold add_dentry at 1. rewrite bind_assoc. mrun Hadd. exact Hr5.
  - split; [apply Hf5|]. destruct Hf5 as (_&->&_). apply Hg4.
  - exact Htab5.
  - exact Hat5.
  - exact Hfa5.
  - rewrite <-Hnext3. split; [exact Hnx4|]. destruct Hp4 as (_&_&Hlt&_). fold nb in Hlt. lia.
  - exists par', vs', sls'. split_and!; [| |exact Hfound|exact Hsame].
    + eapply dir_at_frame; [exact Hf5| |exact Hda4]. apply Forall_forall. intros v Hv.
      pose proof (da_data _ _ _ _ Hda4) as Hd4. rewrite Forall_forall in Hd4, Hob4. specialize (Hd4 v Hv). specialize (Hob4 v Hv).
      intros [-> |Heq]; [lia|]. exact (Hni v Hd4 ltac:(lia) Heq).
    + apply Hoth5; [congruence|done|]. exact Hat4.
  - exists bits'. split; [|exact Hbits]. eapply ibm_at_frame; [exact Hf5| |eapply ibm_at_frame; [exact Hf4| |exact Hib3]].
    + intros b Hb [-> | ->]; [|by eapply itab_not_ibm; [|exact Hb]; lia]. eapply data_not_ibm; [apply Hg4| |exact Hb].
      destruct Hp4 as (_&Hge&_). fold nb in Hge. lia.
    + intros b Hb [Hv| ->]; [|by eapply itab_not_ibm]. pose proof (da_data _ _ _ _ Hda4) as Hd4. rewrite Forall_forall in Hd4.
      eapply data_not_ibm; [apply Hg4|by apply Hd4|exact Hb].
  - intros ino j Hne1 Hne2 Hr Hi. apply Hoth5; [done|done|]. apply Hoth4; [done|done|]. by apply Hin3.
  - intros b d Hb Hnv. eapply frame_has; [exact Hf05|]. by apply Hfree05.
  - intros j ws tls Hws Hdj. eapply dir_at_frame; [exact Hf05| |exact Hdj]. apply Forall_forall. intros w Hw.
    rewrite Forall_forall in Hws. destruct (Hws w Hw) as [Hlt Hnv]. pose proof (da_data _ _ _ _ Hdj) as Hdd.
    rewrite Forall_forall in Hdd. apply Hfree05; [|done]. split; [by apply Hdd|done].
Qed.

(** C18. [bfs_create] on a path that can be created (its parent has its entries in
    direct blocks and room for one more): it returns the next handle; the
    name is in its directory with the first free inode number, whose bit is now
    the only new one of the bitmap; the inode is a regular file of the user with
    no bytes, one reference and its 524 data blocks allocated beyond all blocks
    in use; every other name of the directory, every other inode, and every data
    block in use outside the directory, so every other directory, are kept. *)
Theorem bfs_create_spec s u path mode de par vs sls bits n :
  can_create s u path de par vs sls bits n -> 0 <= mode < 2 ^ 32 ->
  exists s' nb blks, bfs_create acl (Some u) path mode s = Ok (next_fd s) s' /\
    created s u path mode par vs sls bits n s' nb blks.
Proof. exact (bfs_create_Ok s u path mode de par vs sls bits n). Qed.

Lemma create_write_read_Ok s u path mode de par vs sls bits n buf off :
  can_create s u path de par vs sls bits n -> 0 <= mode < 2 ^ 32 ->
  ACLayer.denied acl (Some u) (User.uid u) (Z.lor BFS__S_IFREG mode) = false ->
  0 <= off -> off + zlen buf <= MAX_FILE_SIZE ->
  exists s1 s2 s3, bfs_create acl (Some u) path mode s = Ok (next_fd s) s1 /\
    bfs_write acl (Some u) (next_fd s) buf off s1 = Ok (zlen buf) s2 /\
    bfs_read acl (Some u) (next_fd s) (zlen buf) off s2 = Ok buf s3.
Proof.
  intros Hcc Hm Hacc Hoff Hend. destruct (bfs_create_Ok s u path mode de par vs sls bits n Hcc Hm) as (s1&nb&blks&Hc&Hcr).
  destruct Hcr as [[Hs1 HN1] Htab Hat Hfa Hnb _ _ _ _ _]. pose proof (cc_range _ _ _ _ _ _ _ _ _ Hcc) as Hn.
  pose proof (cc_uid _ _ _ _ _ _ _ _ _ Hcc) as Hu. pose proof (cc_pool _ _ _ _ _ _ _ _ _ Hcc) as (_&Hds&_&_).
  pose proof (data_start_pos s (proj2 (cc_good _ _ _ _ _ _ _ _ _ Hcc))) as Hpos.
  assert (FIRST_UNRESERVED_INO = 8) as H8 by done. assert (ROOT_INO = 2) as HR by done.
  assert (zlen (new_vs nb) = MAX_FILE_BLKS) as Hl by (unfold new_vs, new_ib, zlen; by rewrite length_app, !length_seqZ).
  destruct (write_read_Ok acl s1 (Some u) (next_fd s) n (new_file n (User.uid u) mode nb) (new_ib nb) (new_vs nb) blks buf off)
    as (s2&i2&b2&Hw&_&_&_&_&(s3&Hr)&_); [done|done| |done|done|done|by rewrite Hl|by rewrite Hl|].
  { split; [exists 0; rewrite Htab; by rewrite lookup_insert_eq|]. split; [lia|]. split; [exact Hat|]. split; [done|].
    split; [|done]. apply new_file_wf; lia. }
  exists s1, s2, s3. split_and!; [exact Hc|exact Hw|exact Hr].
Qed.

(** A file that was just created can be written at any offset up to its largest
    size and read back, through the handle [bfs_create] returned. *)
Theorem create_write_read s u path mode de par vs sls bits n buf off :
  can_create s u path de par vs sls bits n -> 0 <= mode < 2 ^ 32 ->
  ACLayer.denied acl (Some u) (User.uid u) (Z.lor BFS__S_IFREG mode) = false ->
  0 <= off -> off + zlen buf <= MAX_FILE_SIZE ->
  exists s1 s2 s3, bfs_create acl (Some u) path mode s = Ok (next_fd s) s1 /\
    bfs_write acl (Some u) (next_fd s) buf off s1 = Ok (zlen buf) s2 /\
    bfs_read acl (Some u) (next_fd s) (zlen buf) off s2 = Ok buf s3.
Proof. exact (create_write_read_Ok s u path mode de par vs sls bits n buf off). Qed.

End create.
