(* ===== verification/FsRemove.v ===== *)
(** * Removing names

    Entries of a directory are cleared in place ([clear_dentry] and
    [unlink_parent] of [FsOps]); [bfs_unlink] releases the inode first and
    resolves the parent again.  A path is resolved through its parent. *)
From S2P Require Import Prelude Layout BfsUtil CoreTypes BlockLayer BlockStore FsAlloc Acl FsDir FsDirSpec FsFile FsOps FsOpsSpec FsCreate.

(** ** Clearing one slot *)

(** The entries of a name. *)
Definition occ (name : bytes) (sl : list slot) : Z := zlen (filter (fun p => live_slot p /\ p.1 = name) sl).

Lemma occ_cons name p sl : occ name (p :: sl) = (if decide (live_slot p /\ p.1 = name) then 1 else 0) + occ name sl.
Proof. unfold occ, zlen. rewrite filter_cons. case_decide; cbn; lia. Qed.

Lemma occ_app name a b : occ name (a ++ b) = occ name a + occ name b.
Proof. unfold occ, zlen. rewrite filter_app, length_app. lia. Qed.

Lemma occ_nonneg name sl : 0 <= occ name sl.
Proof. apply zlen_nonneg. Qed.

Lemma find_slot_occ name sl : find_slot name sl = None <-> occ name sl = 0.
Proof.
  induction sl as [|p sl IH]; [done|]. rewrite occ_cons. cbn [find_slot]. pose proof (occ_nonneg name sl).
  case_decide; [split; [done|lia]|]. rewrite Z.add_0_l, <-IH. by destruct (find_slot name sl) as [[??]|].
Qed.

Lemma find_slot_lookup name sl k c : find_slot name sl = Some (k, c) ->
  sl !! k = Some (name, c) /\ live_slot (name, c).
Proof.
  revert k. induction sl as [|p sl IH]; intros k Hf; [done|]. cbn [find_slot] in Hf. case_decide as Hp.
  - simplify_eq. destruct Hp as [Hl <-]. by destruct p.
  - destruct (find_slot name sl) as [[j i]|]; [|done]. cbn in Hf. simplify_eq. by apply IH.
Qed.

Lemma clear_slot name sl k c : find_slot name sl = Some (k, c) ->
  occ name (<[k := ([], 0)]> sl) = occ name sl - 1 /\ entries (<[k := ([], 0)]> sl) = entries sl - 1 /\
  forall other, other <> name -> find_slot other (<[k := ([], 0)]> sl) = find_slot other sl.
Proof.
  assert (~ live_slot ([], 0)) as Hdead by (intros [? _]; done).
  revert k. induction sl as [|p sl IH]; intros k Hf; [done|]. cbn [find_slot] in Hf. case_decide as Hp.
  - simplify_eq. destruct Hp as [Hl Hn]. cbn [insert list_insert]. rewrite !occ_cons, !entries_cons.
    rewrite (decide_False (P := live_slot ([], 0))), (decide_True (P := live_slot p)) by done.
    rewrite (decide_False (P := live_slot ([], 0) /\ _)), (decide_True (P := live_slot p /\ _)) by naive_solver.
    split_and!; [lia|lia|]. intros other Hne. cbn [find_slot].
    by rewrite (decide_False (P := live_slot ([], 0) /\ _)), (decide_False (P := live_slot p /\ _)) by naive_solver.
  - destruct (find_slot name sl) as [[j i]|]; [|done]. cbn in Hf. simplify_eq.
    change (<[S j := ([], 0)]> (p :: sl)) with (p :: <[j := ([], 0)]> sl).
    destruct (IH j eq_refl) as (H1&H2&H3). rewrite !occ_cons, !entries_cons, H1, H2.
    split_and!; [lia|lia|]. intros other Hne. cbn [find_slot]. by rewrite H3.
Qed.

Lemma lookup_dir_in name vs sls v k c : lookup_dir name vs sls = Some (v, k, c) -> v ∈ vs.
Proof.
  revert vs. induction sls as [|sl sls IH]; intros [|w vs] Hl; try done. cbn in Hl.
  destruct (find_slot name sl) as [[??]|]; [simplify_eq; left|right; by apply IH].
Qed.

(** The first entry of a name in the blocks of a directory becomes free. *)
Fixpoint rm_sls (name : bytes) (sls : list (list slot)) : list (list slot) :=
  match sls with
  | [] => []
  | sl :: sls =>
      match find_slot name sl with
      | Some (k, _) => <[k := ([], 0)]> sl :: sls
      | None => sl :: rm_sls name sls
      end
  end.

Lemma rm_sls_spec name vs sls r :
  length vs = length sls -> lookup_dir name vs sls = Some r -> occ name (concat sls) <= 1 ->
  Forall (Forall slot_ok) sls ->
  lookup_dir name vs (rm_sls name sls) = None /\
  (forall other, other <> name -> lookup_dir other vs (rm_sls name sls) = lookup_dir other vs sls) /\
  entries (concat (rm_sls name sls)) = entries (concat sls) - 1 /\ Forall (Forall slot_ok) (rm_sls name sls).
Proof.
  revert vs. induction sls as [|sl sls IH]; intros [|v vs] Hl Hlk Hocc Hok; try done.
  injection Hl as Hl. apply Forall_cons in Hok as [Hsl Hok]. cbn [concat] in Hocc. rewrite occ_app in Hocc.
  cbn [lookup_dir] in Hlk. cbn [rm_sls]. destruct (find_slot name sl) as [[k c]|] eqn:Hf.
  - destruct (clear_slot name sl k c Hf) as (Ho&He&Hother).
    assert (occ name sl <> 0) as Hpos by (rewrite <-find_slot_occ; by rewrite Hf).
    pose proof (occ_nonneg name sl). pose proof (occ_nonneg name (concat sls)).
    cbn [lookup_dir concat]. assert (find_slot name (<[k := ([], 0)]> sl) = None) as -> by (apply find_slot_occ; lia).
    split_and!.
    + clear -Hl H0 Hocc Hpos H. assert (occ name (concat sls) = 0) as Hz by lia. clear -Hz Hl.
      revert vs Hl. induction sls as [|sl sls IH]; intros [|v vs] Hl; try done. injection Hl as Hl. cbn in Hz |- *.
      rewrite occ_app in Hz. pose proof (occ_nonneg name sl). pose proof (occ_nonneg name (concat sls)).
      assert (find_slot name sl = None) as -> by (apply find_slot_occ; lia). apply IH; [lia|done].
    + intros other Hne. by rewrite Hother.
    + rewrite !entries_app, He. lia.
    + constructor; [|done]. apply Forall_insert; [done|by left].
  - assert (occ name sl = 0) as Hz by (by apply find_slot_occ).
    destruct (IH vs Hl Hlk ltac:(lia) Hok) as (H1&H2&H3&H4). cbn [lookup_dir concat]. rewrite Hf. split_and!.
    + done.
    + intros other Hne. by rewrite H2.
    + rewrite !entries_app, H3. lia.
    + by constructor.
Qed.

(** ** Paths and their parents *)
Lemma find_slash_app d rest pos start : (start <= pos + length d)%nat ->
  find_slash (d ++ slash :: rest) pos start =
    match find_slash d pos start with Some e => Some e | None => Some (pos + length d)%nat end.
Proof.
  revert pos. induction d as [|x d IH]; intros pos Hs; cbn [app find_slash length] in *.
  - rewrite (decide_True (P := (start <= pos)%nat)) by lia. rewrite decide_True by done. by rewrite Nat.add_0_r.
  - case_decide; [case_decide; [done|]|]; rewrite IH by lia; replace (S pos + length d)%nat with (pos + S (length d))%nat by lia; done.
Qed.

Lemma find_slash_none p pos start : slash ∉ p -> find_slash p pos start = None.
Proof.
  revert pos. induction p as [|x p IH]; intros pos Hn; [done|]. apply not_elem_of_cons in Hn as [Hx Hn]. cbn.
  rewrite IH by done. case_decide; [|done]. by rewrite decide_False by congruence.
Qed.

Lemma find_slash_skip d rest pos start : (pos + length d <= start)%nat ->
  find_slash (d ++ rest) pos start = find_slash rest (pos + length d) start.
Proof.
  revert pos. induction d as [|x d IH]; intros pos Hs; cbn [app find_slash length] in *; [by rewrite Nat.add_0_r|].
  rewrite decide_False by lia. rewrite IH by lia. f_equal. lia.
Qed.

(** The parent of [dir/base]. *)
Lemma dirname_of_child d base : Byte.x00 ∉ d ++ slash :: base -> slash ∉ base ->
  dirname_of (d ++ slash :: base) = if decide (d = []) then [slash] else d.
Proof. intros H0 Hb. unfold dirname_of, bfs_strdup. rewrite c_str_id by done. by apply bfs_dirname_split. Qed.

Section remove.
Context {B : Type} `{BlockStoreLaws B} (acl : bool).
Abbreviation fs := (fs B).
Implicit Types s : fs.

(** What is found in the directory a path leads to. *)
Definition found_in (vs : list Z) (sls : list (list slot)) (path : bytes) : option DirEntry.t :=
  '(v, k, c) ← lookup_dir path vs sls; Some (dentry_at path c v (Z.of_nat k)).

Lemma walks_end s usr path start ino i vs sls :
  find_slash path 0 start = None -> searchable acl s usr ino i -> dir_at s i vs sls ->
  walks acl s usr path start ino (found_in vs sls path).
Proof.
  intros Hf Hs Hd. unfold found_in. destruct (lookup_dir path vs sls) as [[[v k] c]|] eqn:Hl; cbn.
  - by eapply walks_last.
  - eapply walks_missing; [done|done|]. by rewrite Hf.
Qed.

Lemma walks_child s usr d base start ino de i vs sls :
  walks acl s usr d start ino (Some de) -> slash ∉ base -> (start <= length d)%nat ->
  searchable acl s usr (DirEntry.ino de) i -> dir_at s i vs sls ->
  walks acl s usr (d ++ slash :: base) start ino (found_in vs sls (d ++ slash :: base)).
Proof.
  intros Hw Hb. remember (Some de) as ode. revert Heqode. induction Hw as [start ino j vj slj v k c Hfs Hsr Hda Hlk|
    |start e ino j vj slj v k c d' Hfs Hsr Hda Hlk Hw IH]; intros Heq Hst Hsi Hdi; simplify_eq.
  - eapply (walks_step _ _ _ _ _ (length d)); [by rewrite find_slash_app, Hfs by lia|exact Hsr|exact Hda| |].
    + by rewrite take_app_length.
    + apply walks_end with i; [|exact Hsi|exact Hdi]. change (slash :: base) with ([slash] ++ base). rewrite app_assoc.
      rewrite find_slash_skip by (rewrite length_app; cbn; lia). by apply find_slash_none.
  - pose proof (find_slash_range _ _ _ _ Hfs) as [He1 He2].
    eapply (walks_step _ _ _ _ _ e); [by rewrite find_slash_app, Hfs by lia|exact Hsr|exact Hda| |].
    + rewrite take_app_le by lia. exact Hlk.
    + apply IH; [done|lia|done|done].
Qed.

(** A path is looked up in the directory its parent resolves to. *)
Lemma resolves_child s usr d base de i vs sls path :
  path = d ++ slash :: base -> base <> [] -> slash ∉ base -> Byte.x00 ∉ path -> (d = [] \/ head d = Some slash /\ d <> [slash]) ->
  resolves acl s usr (dirname_of path) de -> searchable acl s usr (DirEntry.ino de) i -> dir_at s i vs sls ->
  match found_in vs sls path with Some e => resolves acl s usr path e | None => missing acl s usr path end.
Proof.
  intros -> Hne Hb Hz Hd Hr Hs Hda. rewrite dirname_of_child in Hr by done.
  assert (head (d ++ slash :: base) = Some slash /\ d ++ slash :: base <> [slash]) as [Hh Hn].
  { destruct Hd as [->|[Hd Hd']]; [by destruct base|]. destruct d as [|x d]; [done|]. cbn in *. simplify_eq. split; [done|].
    destruct d; [done|]. done. }
  enough (walks acl s usr (d ++ slash :: base) 1 (SuperBlock.root_ino (sb s)) (found_in vs sls (d ++ slash :: base))) as Hw.
  { destruct (found_in vs sls (d ++ slash :: base)); [right|]; done. }
  destruct Hd as [->|[Hd Hd']].
  - rewrite decide_True in Hr by done. destruct Hr as [[_ ->]|(_&?&_)]; [|done]. cbn [app] in *.
    apply walks_end with i; [|exact Hs|exact Hda]. change (slash :: base) with ([slash] ++ base).
    rewrite find_slash_skip by (cbn; lia). by apply find_slash_none.
  - assert (d <> []) by (by destruct d). rewrite decide_False in Hr by done. destruct Hr as [[-> _]|(_&_&Hw)]; [done|].
    eapply walks_child; [exact Hw|done|destruct d; [done|cbn; lia]|exact Hs|exact Hda].
Qed.
(** ** Clearing an entry *)
Lemma clear_dentry_Ok s vs sls path v k c :
  ok s -> Forall2 (dblk s) vs sls -> NoDup vs -> lookup_dir path vs sls = Some (v, k, c) ->
  exists st, let s' := set_store st s in
    clear_dentry (dentry_at path c v (Z.of_nat k)) s = Ok () s' /\
    Forall2 (dblk s') vs (rm_sls path sls) /\ frame (eq v) s s'.
Proof.
  intros Hs Hd. induction Hd as [|w sl vs sls Hw Hd IH]; intros Hnd Hl; [done|].
  apply NoDup_cons in Hnd as [Hnin Hnd]. cbn [lookup_dir rm_sls] in *. destruct (find_slot path sl) as [[j i]|] eqn:Hf.
  - simplify_eq. clear IH. destruct (find_slot_lookup _ _ _ _ Hf) as [Hk _].
    destruct (rblk_dir s v sl Hs Hw) as (blk&st1&Hr&Hf1&Hsl&Hz). pose proof Hsl as [Hlen _].
    assert (k < length sl)%nat as Hkl by (by eapply lookup_lt_Some).
    set (e := DirEntry.set_ino 0 (DirEntry.set_de_name [] (dentry_at path c v (Z.of_nat k)))).
    assert (DirEntry.wf e) as Hwf by vm_decide.
    pose proof (dentry_off_range (Z.of_nat k)) as [Ho1 Ho2]; [unfold zlen in Hlen; lia|].
    destruct (DirEntry.de_serialize_mem_set e blk (DENTRY_ABSOLUTE_BLK_OFF (Z.of_nat k)) Hwf) as (blk'&Hser&_); [lia..|].
    destruct (slots_update blk blk' sl k e Hsl Hz Hkl Hwf Hser) as [Hsl' Hz'].
    set (s1 := set_store st1 s) in *. destruct Hw as (blk0&Hb0&_).
    destruct (wblk_Ok s1 v blk' blk0 bfs_O_SYNC (proj1 Hf1)) as (cc&st2&Hwr&_&Hh&Hf2); [by eapply frame_none_has|done|].
    assert (frame (eq v) s (set_store st2 s)) as Hf' by (eapply frame_trans; [by apply frame_none|exact Hf2]).
    exists st2. cbv zeta. split_and!; [| |exact Hf'].
    + unfold clear_dentry, put_dentry. fold e. change (DirEntry.blk_loc e) with v. change (DirEntry.blk_idx_loc e) with (Z.of_nat k).
      mrun Hr. rewrite Hser. msteps. rewrite Z.eqb_refl, bind_assert by done. unfold wblk. by mrun Hwr.
    + constructor; [exists blk'; split; [exact Hh|exact Hsl']|]. eapply dblks_frame; [exact Hf'| |done].
      apply Forall_forall. intros x Hx ->. done.
  - destruct (IH Hnd Hl) as (st&Hrun&Hd'&Hfr). exists st. cbv zeta in *. split_and!; [exact Hrun| |exact Hfr].
    constructor; [|exact Hd']. eapply dblk_frame; [exact Hfr| |exact Hw]. intros <-.
    apply Hnin. by eapply lookup_dir_in.
Qed.

(** The parent with one entry less. *)
Definition dropped (par : Inode.t) : Inode.t := Inode.set_i_links (Inode.i_links_count par - 1) par.

Lemma wf_dropped par : Inode.wf par -> 0 < Inode.i_links_count par < 2 ^ 64 -> Inode.wf (dropped par).
Proof.
  intros [Hl Hf] Hc. split; [done|]. unfold Inode.fields in *.
  apply Forall_app in Hf as [Hf1 Hf2]. apply Forall_app. split; [|exact Hf2].
  inv_forall. repeat (constructor; [done|]). constructor; [|constructor]. cbn. unfold fits. lia.
Qed.

Lemma remove_entry_Ok s par vs sls path v k c :
  good s -> dir_at s par vs sls -> Inode.wf par -> 0 <= Inode.i_no par < NUM_INODES ->
  inode_at s (Inode.i_no par) par -> lookup_dir path vs sls = Some (v, k, c) -> occ path (concat sls) <= 1 ->
  exists s', (clear_dentry (dentry_at path c v (Z.of_nat k)) ;; unlink_parent par) s = Ok () s' /\
    dir_at s' (dropped par) vs (rm_sls path sls) /\
    inode_at s' (Inode.i_no par) (Inode.set_dirty false (dropped par)) /\
    others (Inode.i_no par) s s' /\ only_store s s' /\
    frame (fun b => b = v \/ b = ITAB_ABSOLUTE_BLK_LOC (Inode.i_no par)) s s'.
Proof.
  intros [Hs HN] Hda Hwf Hno Hat Hlk Hocc. pose proof Hda as [Hb Hl Hdat Hdup Hsl Hok [Hln Hlt]].
  pose proof (Forall2_length _ _ _ Hsl) as Hlen. pose proof (lookup_dir_entries _ _ _ _ Hlk) as Hpos.
  destruct (rm_sls_spec path vs sls _ Hlen Hlk Hocc Hok) as (_&_&He&Hok').
  destruct (clear_dentry_Ok s vs sls path v k c Hs Hsl Hdup Hlk) as (st1&Hr1&Hsl1&Hf1). set (s1 := set_store st1 s) in *.
  pose proof (lookup_dir_in _ _ _ _ _ _ Hlk) as Hv.
  assert (forall ino, 0 <= ino < NUM_INODES -> v <> ITAB_ABSOLUTE_BLK_LOC ino) as Hni.
  { rewrite Forall_forall in Hdat. intros ino. apply (data_not_itab s); [done|by apply Hdat]. }
  destruct (write_inode_slot s1 (dropped par) 0 true (Inode.i_no par) par (proj1 Hf1)) as (st2&Hw&Hf2&Hat2&Ho2);
    [apply wf_dropped; [done|lia]|done|done|eapply inode_at_frame; [exact Hf1|by apply Hni|done]|].
  set (s2 := set_store st2 s1) in *.
  assert (frame (fun b => b = v \/ b = ITAB_ABSOLUTE_BLK_LOC (Inode.i_no par)) s s2) as Hf.
  { eapply frame_trans; [eapply frame_weaken; [|exact Hf1]|eapply frame_weaken; [|exact Hf2]]; intros b <-; [by left|by right]. }
  exists s2. split_and!; [| |exact Hat2| |done|exact Hf].
  - mrun Hr1. unfold unlink_parent. rewrite u64_small by lia. exact Hw.
  - split; try done.
    + assert (data_start s2 = data_start s) as -> by (unfold data_start; by destruct Hf as (_&->&_)). done.
    + eapply dblks_frame; [exact Hf2| |exact Hsl1]. apply Forall_forall. intros w Hw' Heq. rewrite Forall_forall in Hdat.
      eapply (data_not_itab s); [done|by apply Hdat|exact Hno|done].
    + cbn [dropped Inode.i_links_count Inode.set_i_links]. rewrite He. lia.
  - eapply others_trans; [|exact Ho2]. eapply others_frame; [exact Hf1|exact Hni].
Qed.

(** ** Paths outlive a change to a regular file *)
Lemma walks_others P s s' usr path start ino d loc i :
  ok s -> frame P s s' -> (forall v, data_start s <= v -> ~ P v) -> others loc s s' ->
  inode_at s loc i -> BFS__S_ISDIR (Inode.mode i) = false ->
  walks acl s usr path start ino d -> walks acl s' usr path start ino d.
Proof.
  intros Hs Hf HP Ho Hi Hnd.
  assert (forall x j, searchable acl s usr x j -> searchable acl s' usr x j) as Hse.
  { intros x j (Hj&Hn&Hx&Hr&Hden&Hdir). split; [|done]. apply Ho; [|done|done]. intros ->.
    destruct Hi as (b1&Hb1&Hi), Hj as (b2&Hb2&Hj). assert (b1 = b2) as -> by exact (bs_has_fun (store s) _ _ _ Hs Hb1 Hb2).
    rewrite Hi in Hj. simplify_eq. congruence. }
  assert (forall j vs sls, dir_at s j vs sls -> dir_at s' j vs sls) as Hda.
  { intros j vs sls Hd. eapply dir_at_frame; [exact Hf| |done]. eapply Forall_impl; [exact (da_data _ _ _ _ Hd)|exact HP]. }
  induction 1.
  - eapply walks_last; [done|by apply Hse|by apply Hda|done].
  - eapply walks_missing; [by apply Hse|by apply Hda|done].
  - eapply walks_step; [done|by apply Hse|by apply Hda|done|done].
Qed.

Lemma resolves_others P s s' usr path de loc i :
  ok s -> frame P s s' -> (forall v, data_start s <= v -> ~ P v) -> others loc s s' ->
  inode_at s loc i -> BFS__S_ISDIR (Inode.mode i) = false ->
  SuperBlock.root_ino (sb s') = SuperBlock.root_ino (sb s) ->
  resolves acl s usr path de -> resolves acl s' usr path de.
Proof.
  intros Hs Hf HP Ho Hi Hnd Hroot. unfold resolves. rewrite Hroot.
  assert (data_start s' = data_start s) as -> by (unfold data_start; by destruct Hf as (_&->&_)).
  intros [?|(?&?&?)]; [by left|right]. split_and!; [done..|]. by eapply walks_others.
Qed.

(** ** [bfs_unlink] *)

(** A path [d/base] to a regular file that is not open and can be removed: its
    parent [par] is a directory in which the name occurs once. *)
Record can_unlink s usr (path d base : bytes) (de : DirEntry.t) (par : Inode.t) (vs : list Z) (sls : list (list slot))
    (v : Z) (k : nat) (i : Inode.t) (ib : list Z) (blk : bytes) : Prop := {
  cu_good : good s;
  cu_name : DirEntry.name_ok path;
  cu_split : path = d ++ slash :: base /\ base <> [] /\ (slash ∉ base) /\ (d = [] \/ head d = Some slash /\ d <> [slash]);
  cu_parent : resolves acl s usr (dirname_of path) de;
  cu_search : searchable acl s usr (DirEntry.ino de) par;
  cu_par_wf : Inode.wf par;
  cu_dir : dir_at s par vs sls;
  cu_entry : lookup_dir path vs sls = Some (v, k, Inode.i_no i);
  cu_once : occ path (concat sls) <= 1;
  cu_inode : inode_at s (Inode.i_no i) i;
  cu_access : ACLayer.denied acl usr (Inode.uid i) (Inode.mode i) = false;
  cu_reg : BFS__S_ISREG (Inode.mode i) = true;
  cu_closed : Inode.ref_cnt i = 0 /\ Inode.i_links_count i = 0;
  cu_wf : Inode.wf i;
  cu_range : ROOT_INO < Inode.i_no i < BLK_SZ_BITS;
  cu_bits : has s IBM_REL_START_BLK_NUM blk;
  cu_ib : indirect_at s i ib;
  cu_room : room s (Z.of_nat (released (data_start s) i ib));
  cu_free : 0 <= SuperBlock.no_inodes_free (sb s) < 2 ^ 64 - 1
}.

Lemma reg_not_dir m : BFS__S_ISREG m = true -> BFS__S_ISDIR m = false.
Proof. unfold BFS__S_ISREG, BFS__S_ISDIR. intros ->%Z.eqb_eq. done. Qed.

Lemma same_inode_no s x i j : ok s -> inode_at s x i -> inode_at s x j -> i = j.
Proof.
  intros Hs (b1&Hb1&Hi) (b2&Hb2&Hj). assert (b1 = b2) as -> by exact (bs_has_fun (store s) _ _ _ Hs Hb1 Hb2). congruence.
Qed.

Lemma bfs_unlink_Ok s usr path d base de par vs sls v k i ib blk :
  can_unlink s usr path d base de par vs sls v k i ib blk ->
  exists s' blk', bfs_unlink acl usr path s = Ok () s' /\
    dir_at s' (dropped par) vs (rm_sls path sls) /\
    inode_at s' (Inode.i_no par) (Inode.set_dirty false (dropped par)) /\
    has s' IBM_REL_START_BLK_NUM blk' /\
    (forall m, 0 <= m -> bfs_test_bit m blk' = if decide (m = Inode.i_no i) then Some false else bfs_test_bit m blk) /\
    SuperBlock.no_inodes_free (sb s') = SuperBlock.no_inodes_free (sb s) + 1 /\
    SuperBlock.no_dblocks_free (sb s') =
      SuperBlock.no_dblocks_free (sb s) + Z.of_nat (released (data_start s) i ib) /\
    forall ino j, ino <> Inode.i_no i -> ino <> Inode.i_no par -> 0 <= ino < NUM_INODES ->
      inode_at s ino j -> inode_at s' ino j.
Proof.
  intros [Hg Hname (Hsp&Hbase&Hnb&Hd) Hpar Hse Hpwf Hda Hlk Hocc Hi Hacc Hreg [Href Hlinks] Hwf Hr Hblk Hib Hroom Hfree].
  pose proof (reg_not_dir _ Hreg) as Hnd. assert (ROOT_INO = 2) as HR by done. assert (BLK_SZ_BITS = 32768) as HB by done.
  assert (NUM_INODES = 100000) as HNI by done. assert (NULL_INO = 0) as HNU by done.
  pose proof Hse as (Hpat&Hpno&_&Hprange&Hpacc&Hpdir).
  assert (Inode.i_no par <> Inode.i_no i) as Hpi.
  { intros Heq. rewrite <-Hpno, Heq in Hpat. rewrite (same_inode_no s _ _ _ (proj1 Hg) Hpat Hi) in Hpdir. congruence. }
  pose proof (resolves_child s usr d base de par vs sls path Hsp Hbase Hnb (proj1 Hname) Hd Hpar Hse Hda) as Hres.
  unfold found_in in Hres. rewrite Hlk in Hres. cbn in Hres. set (e := dentry_at path (Inode.i_no i) v (Z.of_nat k)) in *.
  destruct (path_inode_Ok acl s (BfsClientRequestFailedError "File does not exist") "Permission denied" usr path e i Hg)
    as (s1&Hr1&Hs1); [by split_and!; [|exact Hi|lia|]|].
  pose proof (same_good _ _ Hg Hs1) as Hg1. pose proof Hs1 as [Hf1 (Hsb1&_&_)].
  pose proof (same_data_start _ _ Hs1) as Hds1.
  destruct (dealloc_ino_Ok s1 i ib blk i (proj1 Hg1) Hwf) as (s2&blk'&Hr2&Hb2&Hbits&_&Hfree2&Hdb2&Hoth2&Hf2&_&_&Hroot2);
    [lia|lia|by eapply same_has|by eapply same_inode| | | |].
  { destruct Hib as (w&Hw&Hx). exists w. split; [done|]. rewrite Hds1. intros Hgt. destruct (Hx Hgt) as (bb&?&?).
    exists bb. split; [by eapply same_has|done]. }
  { unfold room. by rewrite Hsb1, Hds1. }
  { by rewrite Hsb1. }
  assert (good s2) as Hg2. { split; [apply Hf2|]. destruct Hf2 as (_&->&_). apply Hg1. }
  assert (forall w, data_start s1 <= w -> ~ (w = IBM_REL_START_BLK_NUM \/ w = ITAB_ABSOLUTE_BLK_LOC (Inode.i_no i))) as HP.
  { intros w Hw [->|Heq]; [|exact (data_not_itab s1 w (Inode.i_no i) (proj2 Hg1) Hw ltac:(lia) Heq)].
    eapply (data_not_ibm s1); [apply Hg1|exact Hw|done]. }
  assert (names_inode acl s2 usr (dirname_of path) de par) as Hn2.
  { split_and!; [| | |done].
    - eapply (resolves_others _ s1); [apply Hg1|exact Hf2|exact HP|exact Hoth2|by eapply same_inode|done|done|by eapply same_resolves].
    - apply Hoth2; [congruence|done|by eapply same_inode].
    - rewrite Hpno. apply Hse. }
  destruct (parent_inode_Ok acl s2 "Permission denied" usr path de par Hg2 Hn2 Hpdir) as (s3&Hr3&Hs3).
  pose proof (same_good _ _ Hg2 Hs3) as Hg3.
  assert (dir_at s2 par vs sls) as Hda2.
  { eapply dir_at_frame; [exact Hf2| |by eapply same_dir]. pose proof (da_data _ _ _ _ (same_dir _ _ _ _ _ Hs1 Hda)) as Hx.
    eapply Forall_impl; [exact Hx|exact HP]. }
  rewrite <-Hpno in Hpat, Hprange.
  destruct (remove_entry_Ok s3 par vs sls path v k (Inode.i_no i) Hg3) as (s4&Hr4&Hda4&Hat4&Hoth4&(Hsb4&_&_)&Hf4);
    [by eapply same_dir|done|done|eapply same_inode; [exact Hs3|rewrite Hpno; apply Hn2]|done|done|].
  pose proof Hs3 as [_ (Hsb3&_&_)].
  exists s4, blk'. split_and!; [|exact Hda4|exact Hat4| |exact Hbits| | |].
  - unfold bfs_unlink. mrun (name_len_Ok path s Hname). mrun Hr1. rewrite Hreg, Href, Hlinks. cbn [negb Z.ltb Z.compare].
    rewrite andb_false_r. unfold remove_path. mrun Hr2. mrun Hr3. exact Hr4.
  - eapply frame_has; [exact Hf4| |by eapply same_has]. intros [Heq|Heq].
    + eapply (data_not_ibm s2 v); [apply Hg2| |rewrite <-Heq; done].
      pose proof (da_data _ _ _ _ Hda2) as Hx. rewrite Forall_forall in Hx. apply Hx. by eapply lookup_dir_in.
    + eapply (itab_not_ibm (Inode.i_no par)); [done|rewrite <-Heq; done].
  - rewrite Hsb4, Hsb3, Hfree2. by rewrite Hsb1.
  - rewrite Hsb4, Hsb3, Hdb2. by rewrite Hsb1, Hds1.
  - intros ino j H1 H2 Hri Hj. apply Hoth4; [done|done|]. eapply same_inode; [exact Hs3|]. apply Hoth2; [done|done|].
    by eapply same_inode.
Qed.

(** C25. [bfs_unlink] of a regular file that is not open, whose inode number is
    below the bits of one block (32768; for larger ones the code indexes the first
    block of the bitmap out of its range), whose name occurs once in the direct
    blocks of its parent: the name is gone from its directory and every other name
    is kept; its inode number is free again, its blocks are back in the counters,
    and no other inode but the parent's has changed. *)
Theorem bfs_unlink_spec s usr path d base de par vs sls v k i ib blk :
  can_unlink s usr path d base de par vs sls v k i ib blk ->
  exists s' blk' sls', bfs_unlink acl usr path s = Ok () s' /\
    dir_at s' (dropped par) vs sls' /\ inode_at s' (Inode.i_no par) (Inode.set_dirty false (dropped par)) /\
    lookup_dir path vs sls' = None /\
    (forall name, name <> path -> lookup_dir name vs sls' = lookup_dir name vs sls) /\
    has s' IBM_REL_START_BLK_NUM blk' /\
    (forall m, 0 <= m -> bfs_test_bit m blk' = if decide (m = Inode.i_no i) then Some false else bfs_test_bit m blk) /\
    SuperBlock.no_dblocks_free (sb s') =
      SuperBlock.no_dblocks_free (sb s) + Z.of_nat (released (data_start s) i ib) /\
    forall ino j, ino <> Inode.i_no i -> ino <> Inode.i_no par -> 0 <= ino < NUM_INODES ->
      inode_at s ino j -> inode_at s' ino j.
Proof.
  intros Hc. destruct (bfs_unlink_Ok _ _ _ _ _ _ _ _ _ _ _ _ _ _ Hc) as (s'&blk'&Hr&Hda&Hat&Hb&Hbits&_&Hfree&Hoth).
  pose proof (cu_dir _ _ _ _ _ _ _ _ _ _ _ _ _ _ Hc) as [_ _ _ _ Hsl Hok _].
  destruct (rm_sls_spec path vs sls (v, k, Inode.i_no i) (Forall2_length _ _ _ Hsl)) as (Hnone&Hother&_&_);
    [apply Hc|apply Hc|done|].
  exists s', blk', (rm_sls path sls). split_and!; done.
Qed.

End remove.
