(* ===== verification/Mkfs.v ===== *)
(** * Formatting and mounting

    Models the constructor and destructor of [BfsHandle], [BfsHandle::mkfs] and
    [BfsHandle::mount] ([bfs_core.cpp]) over the interface [Volume].  The caches
    of inodes and entries are off, so that putting the root entries into them
    has no effect. *)
From S2P Require Import Prelude Layout BfsUtil CoreTypes BlockLayer BlockStore Volume FsAlloc Acl FsDir FsDirSpec FsFile FsOps FsOpsSpec FsCreate FsRemove.
Import Init.Byte.

Section mkfs.
Context {B : Type} `{Volume B} (use_mt : bool).
Abbreviation fs := (fs B).

Definition set_status (z : Z) : M fs () := modify (fun s => set_store (v_set_status z (store s)) s).

(** [BfsHandle::BfsHandle] and [BfsHandle::~BfsHandle]. *)
Definition ctor : M fs () := modify (set_next_fd START_FD) ;; set_status INITIALIZED.
Definition dtor : M fs () := modify (set_next_fd START_FD) ;; set_status UNINITIALIZED.

(** The superblock of a volume of [n] blocks; [uninit] is what the constructor
    leaves in the field it does not set. *)
Definition fresh_super (uninit n : Z) : SuperBlock.t :=
  let super := SuperBlock.set_magic BFS_SB_MAGIC (SuperBlock.ctor uninit) in
  let super := SuperBlock.set_sb_params BLK_SZ INODE_SZ n (NUM_DATA_BLOCKS n) NUM_INODES (NUM_DATA_BLOCKS n)
                 NUM_UNRES_INODES (DATA_REL_START_BLK_NUM n + 1) super in
  let super := SuperBlock.set_reserved_inos ROOT_INO IBITMAP_INO ITABLE_INO JOURNAL_INO FIRST_UNRESERVED_INO super in
  SuperBlock.set_state FORMATTED super.

(** The reserved inode [b]; the root directory has its first block. *)
Definition reserved_ino (ds b : Z) : option Inode.t :=
  let i := Inode.set_i_no b Inode.default in
  if b =? ROOT_INO then
    let i := Inode.set_uid 0 i in
    let i := Inode.set_mode (Z.lor BFS__S_IFDIR 0x1FF) i in
    let i := Inode.set_ref_cnt 1 i in
    let i := Inode.set_i_links 2 i in
    Inode.set_i_blk 0 ds i
  else Some i.

(** The loop that reserves the inodes [b], [b+1], ...: their bits and objects. *)
Fixpoint reserve_inos (n : nat) (ds b : Z) (ibm : IBitMap.t) : option (IBitMap.t * list Inode.t) :=
  match n with
  | O => Some (ibm, [])
  | S n =>
      ibm ← IBitMap.set_bit b ibm;
      i ← reserved_ino ds b;
      '(ibm, l) ← reserve_inos n ds (b + 1) ibm;
      Some (ibm, i :: l)
  end.

(** The loop that serializes them into the first block of the table. *)
Fixpoint put_inodes (l : list Inode.t) (b : Z) (blk : bytes) : M fs bytes :=
  match l with
  | [] => mret blk
  | i :: l =>
      '(blk, len) ← of_opt (Inode.serialize i blk (ITAB_ABSOLUTE_BLK_OFF b));
      assert_ (len <=? INODE_SZ) ;;
      put_inodes l (b + 1) blk
  end.

(** Write the same buffer object to [n] blocks from [b] on; [write_blk] encrypts
    it in place, and nothing clears it in between. *)
Fixpoint write_same (n : nat) (b : Z) (buf : bytes) : M fs () :=
  match n with
  | O => mret ()
  | S n => buf ← wblk b buf; write_same n (b + 1) buf
  end.

(** The same with the buffer cleared by [burn] after each write. *)
Fixpoint write_burnt (n : nat) (b : Z) : M fs () :=
  match n with
  | O => mret ()
  | S n => wblk b zero_blk ;; write_burnt n (b + 1)
  end.

(** The block with the entries "." and ".." of the root. *)
Definition root_dentries (ds : Z) : M fs bytes :=
  let de := DirEntry.ctor [x2e] ROOT_INO ds 0 0 0 0 0 0 in
  '(blk, len) ← of_opt (DirEntry.serialize de zero_blk (DENTRY_ABSOLUTE_BLK_OFF 0));
  assert_ (len =? DIRENT_SZ) ;;
  let de := DirEntry.set_blk_idx_loc 1 (DirEntry.set_de_name [x2e; x2e] de) in
  '(blk, len) ← of_opt (DirEntry.serialize de blk (DENTRY_ABSOLUTE_BLK_OFF 1));
  assert_ (len =? DIRENT_SZ) ;;
  mret blk.

Definition mt_step (m : M B bret) (msg : string) : M fs () :=
  if use_mt then
    r ← on_store m;
    match r with BFS_SUCCESS => mret () | _ => throw (BfsServerError msg) end
  else mret ().

(** Superblock and the empty block of the tree: blocks 0 and 1. *)
Definition mkfs_super (uninit : Z) : M fs () :=
  n ← gets NUM_BLOCKS;
  '(blk, super_len) ← of_opt (SuperBlock.serialize (fresh_super uninit n) zero_blk 0);
  assert_ (super_len <=? SB_SZ) ;;
  wblk SB_REL_START_BLK_NUM blk ;;
  wblk 1 zero_blk ;;
  mret ().

(** Inode bitmap and table; the result is [blk_target]. *)
Definition mkfs_inodes : M fs Z :=
  ds ← gets data_start;
  '(ibm, res_inos) ← of_opt (reserve_inos (Z.to_nat FIRST_UNRESERVED_INO) ds 0 (IBitMap.append_ibm_blk zero_blk []));
  let blk_target := 2 in
  blk ← vec_at ibm 0;
  wblk blk_target blk ;;
  write_same (Z.to_nat (NUM_IBITMAP_BLOCKS - 1)) (blk_target + 1) zero_blk ;;
  let blk_target := blk_target + (NUM_IBITMAP_BLOCKS - 1) in
  itab ← put_inodes res_inos 0 zero_blk;
  let blk_target := blk_target + 1 in
  wblk blk_target itab ;;
  write_same (Z.to_nat (NUM_ITAB_BLOCKS - 1)) (blk_target + 1) zero_blk ;;
  mret (blk_target + (NUM_ITAB_BLOCKS - 1)).

(** The metadata blocks are skipped; the root directory and the data blocks. *)
Definition mkfs_data (blk_target : Z) : M fs () :=
  n ← gets NUM_BLOCKS;
  ds ← gets data_start;
  assert_ (blk_target =? METADATA_REL_START_BLK_NUM - 1) ;;
  let blk_target := blk_target + NUM_META_BLOCKS n in
  de_buf ← root_dentries ds;
  let blk_target := blk_target + 1 in
  assert_ (blk_target =? ds) ;;
  wblk blk_target de_buf ;;
  let blk_target := blk_target + 1 in
  write_burnt (Z.to_nat (n - blk_target)) blk_target.

Definition mkfs (uninit : Z) : M fs () :=
  st ← gets (fun s => v_status (store s));
  if negb (st =? INITIALIZED) then throw (BfsServerError "Invalid server status in mkfs [!=INITIALIZED]")
  else
    set_status FORMATTING ;;
    mt_step (v_init_mt true) "Failed initializing merkle tree" ;;
    mkfs_super uninit ;;
    blk_target ← mkfs_inodes;
    mkfs_data blk_target ;;
    mt_step v_flush_mt "Failed flushing merkle tree" ;;
    set_status FORMATTED.

(** The entry at index [k] of the root's first block must have the name. *)
Definition check_root_dentry (blk : bytes) (loc k : Z) (name : bytes) : M fs () :=
  let rt_de := DirEntry.ctor [] (2 ^ 64 - 1) loc k 0 0 0 0 0 in
  '(rt_de, de_len) ← of_opt (DirEntry.deserialize rt_de blk (DENTRY_ABSOLUTE_BLK_OFF k));
  assert_ (de_len =? DIRENT_SZ) ;;
  assert_ (bool_decide (DirEntry.de_name rt_de = name)).

Definition mount : M fs () :=
  st ← gets (fun s => v_status (store s));
  if negb (st =? FORMATTED) then throw (BfsServerError "Trying to mount from incorrect fs state.")
  else
    mt_step (v_init_mt false) "Failed initializing merkle tree" ;;
    on_store v_alloc_par ;;
    blk ← rblk SB_REL_START_BLK_NUM;
    '(x, sb_len) ← of_opt (SuperBlock.deserialize blk 0);
    modify (set_sb x) ;;
    assert_ (sb_len <=? SB_SZ) ;;
    assert_ (SuperBlock.root_ino x =? ROOT_INO) ;;
    rt_ino ← read_inode (SuperBlock.root_ino x);
    assert_ (Inode.i_no rt_ino =? SuperBlock.root_ino x) ;;
    blk0 ← vec_at (Inode.i_blks rt_ino) 0;
    ds ← gets data_start;
    assert_ (blk0 =? ds) ;;
    blk ← rblk blk0;
    check_root_dentry blk blk0 0 [x2e] ;;
    check_root_dentry blk blk0 1 [x2e; x2e] ;;
    set_status MOUNTED.

(** ** Volumes that are not mounted *)
Context {blaws : BlockStoreLaws B} {vlaws : VolumeLaws B} (mt_on : use_mt = true).
Implicit Types s : fs.

Definition vok s : Prop := v_ok (store s) /\ v_status (store s) <> CORRUPTED.
Definition vhas s (b : Z) (d : bytes) : Prop := v_has (store s) b d.

(** [s'] is a good volume that differs from [s] in the blocks of [P] only. *)
Definition vframe (P : Z -> Prop) s s' : Prop :=
  vok s' /\ NUM_BLOCKS s' = NUM_BLOCKS s /\ v_status (store s') = v_status (store s) /\ only_store s s' /\
  forall b d, ~ P b -> vhas s b d -> vhas s' b d.

Lemma vframe_refl P s : vok s -> vframe P s s.
Proof. intros [??]. split; [by split|]. split_and!; (done || apply only_store_refl). Qed.

Lemma vframe_trans P Q R s s1 s2 :
  (forall b, P b -> R b) -> (forall b, Q b -> R b) -> vframe P s s1 -> vframe Q s1 s2 -> vframe R s s2.
Proof.
  intros HP HQ (_&Hn1&Hst1&Ho1&Hf1) (Hv2&Hn2&Hst2&Ho2&Hf2). split; [exact Hv2|].
  split_and!; [congruence|congruence|by eapply only_store_trans|]. intros b d Hb Hd. apply Hf2; [auto|]. apply Hf1; auto.
Qed.

Lemma vframe_weaken (P Q : Z -> Prop) s s' : (forall b, P b -> Q b) -> vframe P s s' -> vframe Q s s'.
Proof. intros HPQ (?&?&?&?&Hf). split; [done|]. split_and!; [done..|]. auto. Qed.

Lemma vframe_then R P s s1 s2 : (forall b, P b -> R b) -> vframe P s s1 -> vframe R s1 s2 -> vframe R s s2.
Proof. intros HP. by apply vframe_trans. Qed.

Lemma vwblk_Ok s b d : vok s -> bs_valid (NUM_BLOCKS s) b -> zlen d = BLK_SZ ->
  exists c s', wblk b d s = Ok c s' /\ zlen c = BLK_SZ /\ vhas s' b d /\ vframe (eq b) s s'.
Proof.
  intros [Hs Hc] Hv Hz. destruct (v_write_ok (store s) b d bfs_O_SYNC Hs Hc Hv Hz) as (c&st&Hw&Hzc&Hok&Hn&Hst&Hh&Hf).
  exists c, (set_store st s). unfold wblk, on_store. rewrite Hw. split_and!; [done|done|done|].
  split; [split; [exact Hok|cbn; by rewrite Hst]|]. split_and!; [exact Hn|exact Hst|done|]. intros b' d' Hne. apply Hf. congruence.
Qed.

Definition within (b n x : Z) : Prop := b <= x < b + n.

Lemma write_same_Ok n b buf s :
  vok s -> (forall x, within b (Z.of_nat n) x -> bs_valid (NUM_BLOCKS s) x) -> zlen buf = BLK_SZ ->
  exists s', write_same n b buf s = Ok () s' /\ vframe (within b (Z.of_nat n)) s s' /\
    (forall x, within b (Z.of_nat n) x -> exists d, vhas s' x d /\ zlen d = BLK_SZ) /\ ((0 < n)%nat -> vhas s' b buf).
Proof.
  revert b buf s. induction n as [|n IH]; intros b buf s Hs Hv Hz.
  - exists s. split; [done|]. split; [by apply vframe_refl|]. unfold within. split; intros; lia.
  - destruct (vwblk_Ok s b buf) as (c&s1&Hw&Hzc&Hh&Hf1); [done|apply Hv; unfold within; lia|done|].
    pose proof Hf1 as (Hs1&Hn1&_). destruct (IH (b + 1) c s1) as (s2&Hw2&Hf2&Hall&_); [done| |done|].
    { intros x Hx. rewrite Hn1. apply Hv. unfold within in *. lia. }
    exists s2. cbn [write_same]. mrun Hw. split; [exact Hw2|]. assert (~ within (b + 1) (Z.of_nat n) b) as Hnb by (unfold within; lia).
    assert (vhas s2 b buf) as Hb2 by (by apply Hf2).
    split; [eapply vframe_trans; [| |exact Hf1|exact Hf2]; unfold within; intros; lia|]. split; [|done].
    intros x Hx. destruct (decide (x = b)) as [-> |]; [by exists buf|]. apply Hall. unfold within in *. lia.
Qed.

Lemma write_burnt_Ok n b s :
  vok s -> (forall x, within b (Z.of_nat n) x -> bs_valid (NUM_BLOCKS s) x) ->
  exists s', write_burnt n b s = Ok () s' /\ vframe (within b (Z.of_nat n)) s s' /\
    forall x, within b (Z.of_nat n) x -> vhas s' x zero_blk.
Proof.
  revert b s. induction n as [|n IH]; intros b s Hs Hv.
  - exists s. split; [done|]. split; [by apply vframe_refl|]. unfold within. intros; lia.
  - destruct (vwblk_Ok s b zero_blk) as (c&s1&Hw&Hzc&Hh&Hf1); [done|apply Hv; unfold within; lia|done|].
    pose proof Hf1 as (Hs1&Hn1&_). destruct (IH (b + 1) s1) as (s2&Hw2&Hf2&Hall); [done| |].
    { intros x Hx. rewrite Hn1. apply Hv. unfold within in *. lia. }
    exists s2. cbn [write_burnt]. mrun Hw. split; [exact Hw2|]. assert (~ within (b + 1) (Z.of_nat n) b) as Hnb by (unfold within; lia).
    split; [eapply vframe_trans; [| |exact Hf1|exact Hf2]; unfold within; intros; lia|].
    intros x Hx. destruct (decide (x = b)) as [-> |]; [by apply Hf2|]. apply Hall. unfold within in *. lia.
Qed.

(** ** The blocks of a fresh volume *)
Definition fresh_root (ds : Z) : Inode.t :=
  Inode.mk ROOT_INO 0 (Z.lor BFS__S_IFDIR 0x1FF) 1 0 0 0 0 2 (ds :: replicate 12 0) true.
Definition plain_ino (b : Z) : Inode.t := Inode.set_i_no b Inode.default.
Definition fresh_inos (ds : Z) : list Inode.t :=
  [plain_ino 0; plain_ino 1; fresh_root ds; plain_ino 3; plain_ino 4; plain_ino 5; plain_ino 6; plain_ino 7].
Definition fresh_ibm : bytes := xff :: zeros 4095.
Definition root_slots : list slot := [([x2e], ROOT_INO); ([x2e; x2e], ROOT_INO)] ++ replicate 13 ([], 0).

Lemma reserve_inos_eq ds :
  reserve_inos (Z.to_nat FIRST_UNRESERVED_INO) ds 0 (IBitMap.append_ibm_blk zero_blk []) = Some ([fresh_ibm], fresh_inos ds).
Proof. vm_compute. reflexivity. Qed.

Lemma put_inodes_Ok l b blk s :
  Forall Inode.wf l -> 0 <= b -> b + zlen l <= NUM_INODES_PER_BLOCK -> zlen blk = BLK_SZ ->
  exists blk', put_inodes l b blk s = Ok blk' s /\ zlen blk' = BLK_SZ /\
    (forall k i, l !! k = Some i ->
       Inode.deserialize blk' (ITAB_ABSOLUTE_BLK_OFF (b + Z.of_nat k)) = Some (Inode.set_dirty false i, 168)) /\
    (forall off n, off + n <= b * INODE_SZ \/ (b + zlen l) * INODE_SZ <= off -> mem_get off n blk' = mem_get off n blk).
Proof.
  revert b blk. induction l as [|i l IH]; intros b blk Hwf Hb Hl Hz.
  - exists blk. by split_and!.
  - apply Forall_cons in Hwf as [Hi Hwf]. assert (zlen (i :: l) = zlen l + 1) as Hlen by (rewrite zlen_cons; lia).
    pose proof (zlen_nonneg l). rewrite Hlen in *.
    assert (forall c, 0 <= c < NUM_INODES_PER_BLOCK -> ITAB_ABSOLUTE_BLK_OFF c = c * INODE_SZ) as Hoff
      by (intros; unfold ITAB_ABSOLUTE_BLK_OFF; by rewrite Z.mod_small).
    change NUM_INODES_PER_BLOCK with 16 in *. change INODE_SZ with 256 in *. change BLK_SZ with 4096 in *.
    destruct (Inode.inode_serialize_is_Some i blk (ITAB_ABSOLUTE_BLK_OFF b)) as (b1&Hs1&Hm1&Hz1&Hg1);
      [done|rewrite Hoff by lia; lia..|].
    destruct (IH (b + 1) b1) as (blk'&Hr&Hz'&Hd&Hf); [done|lia..|].
    exists blk'. cbn [put_inodes]. rewrite Hs1. msteps. split; [exact Hr|]. split; [done|]. split.
    + intros k j Hk. destruct k as [|k]; cbn in Hk.
      * simplify_eq. rewrite Z.add_0_r. apply Inode.inode_deserialize_fields; [done|].
        rewrite Hf, Hg1 by (rewrite Hoff by lia; lia). done.
      * replace (b + Z.of_nat (S k)) with (b + 1 + Z.of_nat k) by lia. by apply Hd.
    + intros off n Hn. rewrite Hf by lia. apply (mem_get_set_ne _ _ _ _ _ _ Hm1).
      rewrite Inode.inode_fields_zlen by apply Hi. rewrite Hoff by lia. lia.
Qed.

(** The block of the root's entries does not depend on its location. *)
Definition root_blk : bytes :=
  let de := DirEntry.ctor [x2e] ROOT_INO 0 0 0 0 0 0 0 in
  let c := from_option fst [] (DirEntry.serialize de zero_blk (DENTRY_ABSOLUTE_BLK_OFF 0)) in
  from_option fst [] (DirEntry.serialize (DirEntry.set_de_name [x2e; x2e] de) c (DENTRY_ABSOLUTE_BLK_OFF 1)).

Lemma root_dentries_Ok ds s : root_dentries ds s = Ok root_blk s.
Proof. vm_compute. reflexivity. Qed.

Lemma root_blk_zlen : zlen root_blk = BLK_SZ.
Proof. vm_compute. reflexivity. Qed.

Lemma root_blk_slots : slots root_blk root_slots.
Proof.
  split; [done|]. intros k p Hk. pose proof (lookup_lt_Some _ _ _ Hk) as Hlt. cbn in Hlt.
  do 15 (destruct k as [|k]; [injection Hk as <-; eexists; split; [vm_compute; reflexivity|done]|]). lia.
Qed.

(** ** Formatting *)

(** Room for the root, one file and the blocks that share the metadata block of
    the root hash. *)
Definition room (n : Z) : Prop := DATA_REL_START_BLK_NUM n + 527 + META_PER_BLK <= n < 2 ^ 63.

#[local] Instance room_dec n : Decision (room n).
Proof. unfold room. apply _. Defined.

Lemma room_bounds n : room n -> METADATA_REL_START_BLK_NUM < DATA_REL_START_BLK_NUM n /\ 6256 < n < 2 ^ 63.
Proof. unfold room. intros. layout_lia. Qed.

Lemma low_valid n b : room n -> 0 <= b < METADATA_REL_START_BLK_NUM -> bs_valid n b.
Proof. intros Hr Hb. pose proof (room_bounds n Hr). split; layout_lia. Qed.

Lemma data_valid n b : room n -> DATA_REL_START_BLK_NUM n <= b < n -> bs_valid n b.
Proof. intros Hr Hb. pose proof (room_bounds n Hr). change METADATA_REL_START_BLK_NUM with 6256 in *. unfold bs_valid. change METADATA_REL_START_BLK_NUM with 6256. lia. Qed.

Lemma low_keeps n b : room n -> 0 <= b <= DATA_REL_START_BLK_NUM n + 527 -> ~ shares_root n b.
Proof. unfold room, shares_root. intros. layout_lia. Qed.

Lemma fresh_super_wf u n : room n -> SuperBlock.wf (fresh_super u n).
Proof.
  intros Hr. pose proof (room_bounds n Hr). assert (0 <= NUM_DATA_BLOCKS n < 2 ^ 63) by (unfold room in Hr; layout_lia).
  assert (DATA_REL_START_BLK_NUM n + 1 < 2 ^ 63) by (unfold room in Hr; layout_lia).
  unfold SuperBlock.wf, SuperBlock.fields, fresh_super. cbn [fmap list_fmap]. rewrite !Forall_cons, Forall_nil. cbn.
  unfold fits. cbn. layout_constants. split_and!; (done || lia || vm_decide).
Qed.

Lemma mkfs_super_Ok u s : vok s -> room (NUM_BLOCKS s) ->
  exists s' blk, mkfs_super u s = Ok () s' /\ vframe (within 0 2) s s' /\ vhas s' SB_REL_START_BLK_NUM blk /\
    SuperBlock.deserialize blk 0 = Some (SuperBlock.set_dirty false (fresh_super u (NUM_BLOCKS s)), 128).
Proof.
  intros Hs Hr. set (n := NUM_BLOCKS s). destruct (SuperBlock.sb_serialize_is_Some (fresh_super u n) zero_blk 0) as (blk&Hb&Hz&Hg); [done|done|].
  destruct (vwblk_Ok s SB_REL_START_BLK_NUM blk) as (c1&s1&Hw1&_&Hh1&Hf1); [done|by apply low_valid; [|layout_lia]|by rewrite Hz|].
  pose proof Hf1 as (Hs1&Hn1&_).
  destruct (vwblk_Ok s1 1 zero_blk) as (c2&s2&Hw2&_&Hh2&Hf2); [done|rewrite Hn1; by apply low_valid; [|layout_lia]|done|].
  exists s2, blk. unfold mkfs_super. rewrite bind_gets. fold n. rewrite Hb. msteps. rewrite bind_assert by done.
  mrun Hw1. mrun Hw2. split; [done|]. split; [|split].
  - eapply vframe_trans; [| |exact Hf1|exact Hf2]; unfold within; intros ? <-; layout_lia.
  - by apply Hf2.
  - apply SuperBlock.sb_deserialize_fields; [by apply fresh_super_wf|exact Hg].
Qed.

Lemma fresh_root_wf ds : 0 <= ds < 2 ^ 64 -> Inode.wf (fresh_root ds).
Proof.
  intros Hds. split; [done|]. cbn. rewrite !Forall_cons, Forall_nil. split_and!; first [exact Hds|exact I|vm_decide].
Qed.

Lemma fresh_inos_wf ds : 0 <= ds < 2 ^ 64 -> Forall Inode.wf (fresh_inos ds).
Proof.
  intros Hds%fresh_root_wf. unfold fresh_inos. rewrite !Forall_cons, Forall_nil.
  split_and!; first [exact Hds|exact I|vm_decide].
Qed.

(** The first block of the table: the reserved inodes, then free slots. *)
Definition fresh_itab (ds : Z) (itab : bytes) : Prop :=
  Inode.deserialize itab (ITAB_ABSOLUTE_BLK_OFF ROOT_INO) = Some (Inode.set_dirty false (fresh_root ds), 168) /\
  Inode.deserialize itab (ITAB_ABSOLUTE_BLK_OFF FIRST_UNRESERVED_INO) = Some (Inode.set_dirty false Inode.default, 168).

Lemma mkfs_inodes_Ok s : vok s -> room (NUM_BLOCKS s) ->
  exists s' d2 d3 itab, mkfs_inodes s = Ok (METADATA_REL_START_BLK_NUM - 1) s' /\ vframe (within 2 6254) s s' /\
    vhas s' 2 fresh_ibm /\ vhas s' 3 zero_blk /\ (vhas s' 4 d2 /\ zlen d2 = BLK_SZ) /\ (vhas s' 5 d3 /\ zlen d3 = BLK_SZ) /\
    vhas s' 6 itab /\ fresh_itab (data_start s) itab.
Proof.
  intros Hs Hr. pose proof (room_bounds _ Hr) as [Hds Hn]. set (ds := data_start s).
  assert (0 <= ds < 2 ^ 64) as Hdb by (unfold ds, data_start; unfold room in Hr; layout_lia).
  destruct (vwblk_Ok s 2 fresh_ibm) as (c1&s1&Hw1&_&Hh1&Hf1); [done|by apply low_valid; [|layout_lia]|done|].
  pose proof Hf1 as (Hs1&Hn1&_).
  destruct (write_same_Ok 3 3 zero_blk s1) as (s2&Hw2&Hf2&Hall2&Hh2); [done| |done|].
  { intros x Hx. rewrite Hn1. apply low_valid; [done|]. unfold within in Hx. layout_lia. }
  pose proof Hf2 as (Hs2&Hn2&_).
  destruct (put_inodes_Ok (fresh_inos ds) 0 zero_blk s2) as (itab&Hp&Hzi&Hd&Hfr); [by apply fresh_inos_wf|done|vm_decide|done|].
  destruct (vwblk_Ok s2 6 itab) as (c3&s3&Hw3&_&Hh3&Hf3); [done|rewrite Hn2, Hn1; by apply low_valid; [|layout_lia]|done|].
  pose proof Hf3 as (Hs3&Hn3&_).
  destruct (write_same_Ok (Z.to_nat (NUM_ITAB_BLOCKS - 1)) 7 zero_blk s3) as (s4&Hw4&Hf4&_&_); [done| |done|].
  { rewrite Z2Nat.id by done. intros x Hx. rewrite Hn3, Hn2, Hn1. apply low_valid; [done|]. unfold within in Hx. layout_lia. }
  destruct (Hall2 4) as (d2&Hd2&Hz2); [split; lia|]. destruct (Hall2 5) as (d3&Hd3&Hz3); [split; lia|].
  exists s4, d2, d3, itab. split.
  { unfold mkfs_inodes. rewrite bind_gets. fold ds. rewrite reserve_inos_eq. msteps. cbn beta iota.
    rewrite (bind_Ok _ _ _ _ _ (vec_at_Ok [fresh_ibm] 0 fresh_ibm s ltac:(lia) eq_refl)).
    mrun Hw1. change (Z.to_nat (NUM_IBITMAP_BLOCKS - 1)) with 3%nat. mrun Hw2. mrun Hp.
    change (2 + (NUM_IBITMAP_BLOCKS - 1) + 1) with 6. mrun Hw3. mrun Hw4. done. }
  rewrite Z2Nat.id in Hf4 by done. change (NUM_ITAB_BLOCKS - 1) with 6249 in Hf4.
  assert (forall x d, 2 <= x < 6 -> vhas s2 x d -> vhas s4 x d) as Hkeep.
  { intros x d Hx Hxd. apply Hf4; [unfold within; lia|]. apply Hf3; [lia|done]. }
  refine (conj _ (conj _ (conj _ (conj (conj _ Hz2) (conj (conj _ Hz3) (conj _ _)))))).
  - apply (vframe_then _ (eq 2) _ s1); [unfold within; lia|done|]. apply (vframe_then _ (within 3 3) _ s2); [unfold within; lia|done|].
    apply (vframe_then _ (eq 6) _ s3); [unfold within; lia|done|]. eapply vframe_weaken; [|exact Hf4]. unfold within; lia.
  - apply Hkeep; [lia|]. apply Hf2; [unfold within; lia|exact Hh1].
  - apply Hkeep; [lia|]. apply Hh2. lia.
  - apply Hkeep; [lia|exact Hd2].
  - apply Hkeep; [lia|exact Hd3].
  - apply Hf4; [unfold within; lia|exact Hh3].
  - split; [exact (Hd 2%nat _ eq_refl)|]. apply Inode.inode_deserialize_fields; [vm_decide|].
    rewrite Hfr by (right; vm_decide). vm_compute. reflexivity.
Qed.

Lemma mkfs_data_Ok s : vok s -> room (NUM_BLOCKS s) ->
  exists s', mkfs_data (METADATA_REL_START_BLK_NUM - 1) s = Ok () s' /\ vframe (fun b => data_start s <= b) s s' /\
    vhas s' (data_start s) root_blk /\ forall b, data_start s < b < NUM_BLOCKS s -> vhas s' b zero_blk.
Proof.
  intros Hs Hr. set (n := NUM_BLOCKS s). set (ds := data_start s). pose proof (room_bounds _ Hr) as [_ Hn]. fold n in Hn.
  assert (METADATA_REL_START_BLK_NUM - 1 + NUM_META_BLOCKS n + 1 = ds) as Hds
    by (unfold ds, data_start, DATA_REL_START_BLK_NUM; fold n; lia).
  destruct (vwblk_Ok s ds root_blk) as (c&s1&Hw1&_&Hh1&Hf1); [done| |apply root_blk_zlen|].
  { apply data_valid; [done|]. unfold ds, data_start, room in *. change META_PER_BLK with 146 in Hr. lia. }
  pose proof Hf1 as (Hs1&Hn1&_).
  destruct (write_burnt_Ok (Z.to_nat (n - (ds + 1))) (ds + 1) s1) as (s2&Hw2&Hf2&Hall); [done| |].
  { intros x Hx. rewrite Hn1. apply data_valid; [done|]. unfold within in Hx. unfold ds, data_start in *. lia. }
  exists s2. split.
  { unfold mkfs_data. rewrite !bind_gets. fold n ds. rewrite bind_assert by done. mrun (root_dentries_Ok ds s). rewrite Hds.
    rewrite bind_assert by apply Z.eqb_refl. mrun Hw1. exact Hw2. }
  refine (conj _ (conj _ _)).
  - apply (vframe_then _ (eq ds) _ s1); [lia|done|]. eapply vframe_weaken; [|exact Hf2]. unfold within. lia.
  - apply Hf2; [unfold within; lia|exact Hh1].
  - intros b Hb. apply Hall. unfold within. lia.
Qed.

(** What formatting leaves on a volume of [n] blocks, for a relation [R] between
    blocks and contents. *)
Record fresh_blocks (u n : Z) (R : Z -> bytes -> Prop) : Prop := {
  fb_super : exists blk, R SB_REL_START_BLK_NUM blk /\
    SuperBlock.deserialize blk 0 = Some (SuperBlock.set_dirty false (fresh_super u n), 128);
  fb_ibm : exists d2 d3, R 2 fresh_ibm /\ R 3 zero_blk /\ (R 4 d2 /\ zlen d2 = BLK_SZ) /\ (R 5 d3 /\ zlen d3 = BLK_SZ);
  fb_itab : exists itab, R 6 itab /\ fresh_itab (DATA_REL_START_BLK_NUM n) itab;
  fb_root : R (DATA_REL_START_BLK_NUM n) root_blk;
  fb_data : forall b, DATA_REL_START_BLK_NUM n < b < n -> ~ shares_root n b -> R b zero_blk
}.

Lemma fresh_blocks_mono u n (R R' : Z -> bytes -> Prop) :
  room n -> (forall b d, ~ shares_root n b -> R b d -> R' b d) -> fresh_blocks u n R -> fresh_blocks u n R'.
Proof.
  intros Hr Hm [(blk&Hb&Hd) (d2&d3&H2&H3&[H4 Hz4]&[H5 Hz5]) (itab&Hi&Hf) Hroot Hdata].
  pose proof (room_bounds n Hr) as [Hds _]. change METADATA_REL_START_BLK_NUM with 6256 in Hds.
  assert (forall b d, 0 <= b <= DATA_REL_START_BLK_NUM n + 527 -> R b d -> R' b d) as Hlow by (intros b d ?; by apply Hm, low_keeps).
  split.
  - exists blk. split; [apply Hlow; [change SB_REL_START_BLK_NUM with 0; lia|exact Hb]|exact Hd].
  - exists d2, d3. refine (conj _ (conj _ (conj (conj _ Hz4) (conj _ Hz5)))); (apply Hlow; [lia|]); assumption.
  - exists itab. split; [apply Hlow; [lia|exact Hi]|exact Hf].
  - apply Hlow; [lia|exact Hroot].
  - intros b Hbd Hnb. apply Hm; [exact Hnb|]. by apply Hdata.
Qed.

(** ** Status changes and tree steps *)
Lemma set_status_Ok z s : set_status z s = Ok () (set_store (v_set_status z (store s)) s).
Proof. done. Qed.

Lemma mt_step_Ok m msg s st : m (store s) = Ok BFS_SUCCESS st -> mt_step m msg s = Ok () (set_store st s).
Proof. intros Hm. unfold mt_step. rewrite mt_on. unfold on_store. unfold mbind, M_bind. by rewrite Hm. Qed.

(** [mkfs] on a handle in its first status: the blocks of a fresh volume, the root
    hash saved, nothing else of the handle changed. *)
Lemma mkfs_Ok u s :
  v_raw (store s) -> v_status (store s) = INITIALIZED -> room (NUM_BLOCKS s) ->
  exists s', mkfs u s = Ok () s' /\ v_ok (store s') /\ v_status (store s') = FORMATTED /\ v_rooted (store s') /\
    NUM_BLOCKS s' = NUM_BLOCKS s /\ only_store s s' /\ fresh_blocks u (NUM_BLOCKS s) (vhas s').
Proof.
  intros Hraw Hst Hr. set (n := NUM_BLOCKS s) in *.
  set (s0 := set_store (v_set_status FORMATTING (store s)) s).
  destruct (v_init_first (store s0)) as (st1&Hi&Hok1&Hn1&Hst1); [by apply v_raw_set|].
  set (s1 := set_store st1 s0). assert (NUM_BLOCKS s1 = n) as HN1 by (unfold NUM_BLOCKS; cbn; rewrite Hn1; apply v_size_set).
  assert (vok s1) as Hv1 by (split; [exact Hok1|cbn; rewrite Hst1; cbn; by rewrite v_status_set]).
  destruct (mkfs_super_Ok u s1 Hv1) as (s2&blk&Hw2&Hf2&Hb&Hbd); [by rewrite HN1|]. pose proof Hf2 as (Hv2&HN2&Hst2&Ho2&_).
  destruct (mkfs_inodes_Ok s2 Hv2) as (s3&d2&d3&itab&Hw3&Hf3&Hib&H3&H4&H5&Hit&Hitab); [by rewrite HN2, HN1|].
  pose proof Hf3 as (Hv3&HN3&Hst3&Ho3&_).
  destruct (mkfs_data_Ok s3 Hv3) as (s4&Hw4&Hf4&Hroot&Hdata); [by rewrite HN3, HN2, HN1|]. pose proof Hf4 as (Hv4&HN4&Hst4&Ho4&Hk4).
  assert (NUM_BLOCKS s4 = n) as HN by congruence.
  assert (data_start s3 = DATA_REL_START_BLK_NUM n) as Hds by (unfold data_start; congruence).
  assert (data_start s2 = DATA_REL_START_BLK_NUM n) as Hds2 by (unfold data_start; congruence).
  destruct (v_flush_ok (store s4) (proj1 Hv4)) as (st5&Hfl&Hok5&Hn5&Hst5&Hroot5&Hk5).
  set (s5 := set_store st5 s4). set (s6 := set_store (v_set_status FORMATTED (store s5)) s5).
  exists s6. split.
  { unfold mkfs. rewrite bind_gets, Hst, Z.eqb_refl. cbn [negb]. mrun (set_status_Ok FORMATTING s). fold s0.
    mrun (mt_step_Ok (v_init_mt true) "Failed initializing merkle tree" s0 st1 Hi). fold s1. mrun Hw2. mrun Hw3. mrun Hw4.
    mrun (mt_step_Ok v_flush_mt "Failed flushing merkle tree" s4 st5 Hfl). exact (set_status_Ok FORMATTED s5). }
  refine (conj _ (conj _ (conj _ (conj _ (conj _ _))))).
  - by apply v_ok_set.
  - apply v_status_set.
  - by apply v_rooted_set.
  - unfold NUM_BLOCKS. cbn. rewrite v_size_set, Hn5. exact HN.
  - apply (only_store_trans s s1 s6 (conj eq_refl (conj eq_refl eq_refl))).
    exact (only_store_trans _ _ _ Ho2 (only_store_trans _ _ _ Ho3 Ho4)).
  - pose proof (room_bounds n Hr) as [Hlow _]. change METADATA_REL_START_BLK_NUM with 6256 in Hlow. rewrite Hds in *. rewrite Hds2 in *.
    apply (fresh_blocks_mono u n (vhas s4)); [done| |].
    { intros b d Hb' Hd. apply v_has_set, Hk5; [|exact Hd]. change (bs_size (store s4)) with (NUM_BLOCKS s4). by rewrite HN. }
    assert (forall b d, 0 <= b < 6256 -> vhas s3 b d -> vhas s4 b d) as H34 by (intros b d ?; apply Hk4; lia).
    split.
    + exists blk. split; [apply H34; [change SB_REL_START_BLK_NUM with 0; lia|]; apply Hf3; [unfold within; change SB_REL_START_BLK_NUM with 0; lia|exact Hb]|].
      rewrite HN1 in Hbd. exact Hbd.
    + exists d2, d3. refine (conj _ (conj _ (conj (conj _ (proj2 H4)) (conj _ (proj2 H5))))); (apply H34; [lia|]); tauto.
    + exists itab. split; [apply H34; [lia|exact Hit]|exact Hitab].
    + exact Hroot.
    + intros b Hbn _. apply Hdata. by rewrite HN3, HN2, HN1.
Qed.

(** ** Mounting *)
Definition mounting s : Prop := v_ok (store s) /\ v_par (store s) /\ v_status (store s) = FORMATTED.

Definition keeps s s' : Prop :=
  mounting s' /\ NUM_BLOCKS s' = NUM_BLOCKS s /\ forall b d, vhas s b d -> vhas s' b d.

Lemma keeps_trans s s1 s2 : keeps s s1 -> keeps s1 s2 -> keeps s s2.
Proof. intros (?&?&?) (?&?&?). split; [done|]. split; [congruence|auto]. Qed.

Lemma vrblk_Ok s b d : mounting s -> vhas s b d ->
  exists st, rblk b s = Ok d (set_store st s) /\ keeps s (set_store st s).
Proof.
  intros (Hs&Hp&Hst) Hd. destruct (v_read_ok (store s) b d Hs Hp Hst Hd) as (st&Hr&Hok&Hpar&Hn&Hst'&Hf).
  exists st. unfold rblk, on_store. rewrite Hr. split; [done|]. split; [by split_and!|]. by split.
Qed.

Lemma vread_inode_Ok s ino blk i : mounting s -> vhas s (ITAB_ABSOLUTE_BLK_LOC ino) blk ->
  Inode.deserialize blk (ITAB_ABSOLUTE_BLK_OFF ino) = Some (i, 168) -> Inode.i_no i <> NULL_INO ->
  exists st, read_inode ino s = Ok i (set_store st s) /\ keeps s (set_store st s).
Proof.
  intros Hs Hb Hi Hn. destruct (vrblk_Ok s _ _ Hs Hb) as (st&Hr&Hf). exists st. split; [|done].
  unfold read_inode. mrun Hr. rewrite Hi. msteps. destruct (Z.eqb_spec (Inode.i_no i) NULL_INO); done.
Qed.

Lemma check_root_dentry_Ok loc s :
  check_root_dentry root_blk loc 0 [x2e] s = Ok () s /\ check_root_dentry root_blk loc 1 [x2e; x2e] s = Ok () s.
Proof. split; vm_compute; reflexivity. Qed.

Lemma mount_Ok u s :
  v_ok (store s) -> v_status (store s) = FORMATTED -> v_rooted (store s) -> room (NUM_BLOCKS s) ->
  fresh_blocks u (NUM_BLOCKS s) (vhas s) ->
  exists s', mount s = Ok () s' /\ ok s' /\ v_status (store s') = MOUNTED /\ NUM_BLOCKS s' = NUM_BLOCKS s /\
    sb s' = SuperBlock.set_dirty false (fresh_super u (NUM_BLOCKS s)) /\ next_fd s' = next_fd s /\
    open_file_tab s' = open_file_tab s /\ fresh_blocks u (NUM_BLOCKS s) (has s').
Proof.
  intros Hok Hst Hroot Hr Hfb. set (n := NUM_BLOCKS s) in *.
  destruct (v_init_again (store s) Hok Hroot) as (st1&Hi&Hok1&Hn1&Hst1&Hk1). set (s1 := set_store st1 s).
  destruct (v_alloc_par_ok st1 Hok1) as (st2&Ha&Hok2&Hn2&Hst2&Hp2&Hk2). set (s2 := set_store st2 s1).
  assert (mounting s2) as Hm2 by (split; [exact Hok2|split; [exact Hp2|cbn; congruence]]).
  assert (fresh_blocks u n (vhas s2)) as Hfb2 by (apply (fresh_blocks_mono u n (vhas s)); [done| |done]; intros b d _ Hd; by apply Hk2, Hk1).
  destruct Hfb2 as [(blk&Hb&Hbd) Hibm (itab&Hit&Hitab&Hfree) Hrb Hdata].
  destruct (vrblk_Ok s2 _ _ Hm2 Hb) as (st3&Hr3&Hk3). set (x := SuperBlock.set_dirty false (fresh_super u n)) in *.
  set (s3 := set_sb x (set_store st3 s2)). assert (keeps s2 s3) as Hk3' by exact Hk3.
  destruct (vread_inode_Ok s3 ROOT_INO itab (Inode.set_dirty false (fresh_root (DATA_REL_START_BLK_NUM n)))) as (st4&Hr4&Hk4);
    [apply Hk3'|apply Hk3'; exact Hit|exact Hitab|done|]. set (s4 := set_store st4 s3).
  assert (keeps s2 s4) as Hk24 by (by eapply keeps_trans).
  destruct (vrblk_Ok s4 (DATA_REL_START_BLK_NUM n) root_blk) as (st5&Hr5&Hk5); [apply Hk24|by apply Hk24|].
  set (s5 := set_store st5 s4). assert (keeps s2 s5) as Hk25 by (by eapply keeps_trans).
  assert (data_start s4 = DATA_REL_START_BLK_NUM n) as Hds.
  { unfold data_start. f_equal. destruct Hk24 as (_&->&_). exact (eq_trans Hn2 Hn1). }
  set (s6 := set_store (v_set_status MOUNTED (store s5)) s5).
  destruct (v_mounted (store s6)) as [Hbs Hbh]; [apply v_ok_set, Hk25|apply v_par_set, Hk25|apply v_status_set|].
  exists s6. split.
  { unfold mount. rewrite bind_gets, Hst, Z.eqb_refl. cbn [negb].
    mrun (mt_step_Ok (v_init_mt false) "Failed initializing merkle tree" s st1 Hi). fold s1.
    rewrite (bind_Ok _ _ _ () s2) by (unfold on_store; change (store s1) with st1; rewrite Ha; done).
    mrun Hr3. rewrite Hbd. msteps. cbn beta iota. fold s3. rewrite bind_assert by done. rewrite bind_assert by done.
    mrun Hr4. fold s4. rewrite bind_assert by done.
    rewrite (bind_Ok _ _ _ _ _ (vec_at_Ok (Inode.i_blks (Inode.set_dirty false (fresh_root (DATA_REL_START_BLK_NUM n)))) 0 _ s4 ltac:(lia) eq_refl)).
    rewrite bind_gets, Hds, bind_assert by apply Z.eqb_refl. mrun Hr5. fold s5.
    mrun (proj1 (check_root_dentry_Ok (DATA_REL_START_BLK_NUM n) s5)).
    mrun (proj2 (check_root_dentry_Ok (DATA_REL_START_BLK_NUM n) s5)). exact (set_status_Ok MOUNTED s5). }
  refine (conj Hbs (conj _ (conj _ (conj eq_refl (conj eq_refl (conj eq_refl _)))))).
  - apply v_status_set.
  - unfold NUM_BLOCKS. cbn. rewrite v_size_set. destruct Hk25 as (_&Hn5&_).
    exact (eq_trans Hn5 (eq_trans Hn2 Hn1)).
  - apply (fresh_blocks_mono u n (vhas s2)); [done| |].
    + intros b d _ Hd. apply Hbh, v_has_set. by apply Hk25.
    + split; [by exists blk|exact Hibm|exists itab; by split|exact Hrb|exact Hdata].
Qed.

(** ** A fresh file system *)
Definition boot (u : Z) : M fs () := ctor ;; mkfs u ;; mount.

Record fresh (u : Z) s : Prop := {
  fr_good : good s;
  fr_room : room (NUM_BLOCKS s);
  fr_sb : sb s = SuperBlock.set_dirty false (fresh_super u (NUM_BLOCKS s));
  fr_fd : next_fd s = START_FD;
  fr_blocks : fresh_blocks u (NUM_BLOCKS s) (has s)
}.

Lemma boot_Ok u s : v_raw (store s) -> room (NUM_BLOCKS s) ->
  exists s', boot u s = Ok () s' /\ fresh u s' /\ v_status (store s') = MOUNTED /\
    NUM_BLOCKS s' = NUM_BLOCKS s /\ open_file_tab s' = open_file_tab s.
Proof.
  intros Hraw Hr. set (s0 := set_store (v_set_status INITIALIZED (store s)) (set_next_fd START_FD s)).
  assert (NUM_BLOCKS s0 = NUM_BLOCKS s) as HN0 by (unfold NUM_BLOCKS; cbn; apply v_size_set).
  destruct (mkfs_Ok u s0) as (s1&Hm&Hok1&Hst1&Hrt1&HN1&(_&Hfd1&Htab1)&Hfb1); [by apply v_raw_set|apply v_status_set|by rewrite HN0|].
  assert (NUM_BLOCKS s1 = NUM_BLOCKS s) as HN by congruence.
  destruct (mount_Ok u s1 Hok1 Hst1 Hrt1) as (s2&Hm2&Hok2&Hst2&HN2&Hsb2&Hfd2&Htab2&Hfb2); [by rewrite HN|by rewrite HN1|].
  exists s2. assert (NUM_BLOCKS s2 = NUM_BLOCKS s1) as HN21 by done.
  refine (conj _ (conj _ (conj Hst2 (conj _ _)))).
  - unfold boot. rewrite (bind_Ok _ _ s () s0) by reflexivity. mrun Hm. exact Hm2.
  - split; [|by rewrite HN2, HN|by rewrite HN2|exact (eq_trans Hfd2 Hfd1)|by rewrite HN2].
    split; [done|]. pose proof (room_bounds _ Hr). rewrite HN2, HN. lia.
  - congruence.
  - exact (eq_trans Htab2 Htab1).
Qed.

Definition mounted_root s : Inode.t := Inode.set_dirty false (fresh_root (data_start s)).

Lemma fresh_root_inode u s : fresh u s -> inode_at s ROOT_INO (mounted_root s).
Proof. intros Hf. destruct (fb_itab _ _ _ (fr_blocks _ _ Hf)) as (itab&Hi&Hr&_). by exists itab. Qed.

Lemma fresh_root_dir u s : fresh u s -> dir_at s (mounted_root s) [data_start s] [root_slots].
Proof.
  intros Hf. pose proof (fb_root _ _ _ (fr_blocks _ _ Hf)) as Hr.
  split; [done|vm_decide|repeat constructor; lia|apply NoDup_singleton| | |split; vm_decide].
  - repeat constructor. exists root_blk. split; [exact Hr|exact root_blk_slots].
  - apply Forall_singleton. unfold root_slots. apply Forall_app. split; [rewrite !Forall_cons, Forall_nil; split_and!; [right; vm_decide|right; vm_decide|done]|].
    apply Forall_replicate. by left.
Qed.

Lemma root_not_denied usr : ACLayer.denied true (Some usr) 0 (Z.lor BFS__S_IFDIR 0x1FF) = false.
Proof. unfold ACLayer.denied, ACLayer.is_owner. cbn. by destruct (User.uid usr =? 0). Qed.

Lemma fresh_root_search u s usr : fresh u s -> searchable true s (Some usr) ROOT_INO (mounted_root s).
Proof. intros Hf. split; [by eapply fresh_root_inode|]. split_and!; [done|done|done|done|apply root_not_denied|done]. Qed.

Lemma find_slot_none name sl : Forall (fun p => p.1 <> name) sl -> find_slot name sl = None.
Proof. induction 1 as [|p sl Hp _ IH]; [done|]. cbn [find_slot]. by rewrite decide_False, IH by tauto. Qed.

(** The path of a file in the root directory. *)
Definition root_path (name : bytes) : bytes := slash :: name.

Lemma root_path_dirname name : DirEntry.name_ok (root_path name) -> slash ∉ name -> dirname_of (root_path name) = [slash].
Proof. intros [Hnul _] Hn. exact (dirname_of_child [] name Hnul Hn). Qed.

(** In a fresh file system every valid name can be created in the root. *)
Lemma fresh_can_create u s usr name :
  fresh u s -> open_file_tab s = ∅ -> 0 <= User.uid usr < 2 ^ 32 ->
  name <> [] -> slash ∉ name -> DirEntry.name_ok (root_path name) ->
  exists bits, can_create true s usr (root_path name) (dentry_at [slash] ROOT_INO (data_start s) 0) (mounted_root s)
    [data_start s] [root_slots] bits FIRST_UNRESERVED_INO.
Proof.
  intros Hf Htab Hu Hne Hns Hnm. pose proof Hf as [Hg Hr Hsb Hfd Hfb].
  destruct (fb_ibm _ _ _ Hfb) as (d2&d3&H2&H3&[H4 Hz4]&[H5 Hz5]). exists [fresh_ibm; zero_blk; d2; d3].
  assert (find_slash (root_path name) 0 1 = None) as Hfs by (cbn [find_slash root_path]; by apply find_slash_none).
  assert (root_path name <> [slash]) as Hnr by (intros [=]; done).
  assert (lookup_dir (root_path name) [data_start s] [root_slots] = None) as Habs.
  { cbn [lookup_dir]. rewrite find_slot_none; [done|]. unfold root_slots, root_path. apply Forall_app.
    split; [|by apply Forall_replicate]. rewrite !Forall_cons, Forall_nil. by split_and!. }
  pose proof (fresh_root_inode u s Hf) as Hri. pose proof (fresh_root_dir u s Hf) as Hrd.
  pose proof (fresh_root_search u s usr Hf) as Hrs.
  assert (SuperBlock.root_ino (sb s) = ROOT_INO) as Hro by (by rewrite Hsb).
  pose proof (room_bounds _ Hr) as [Hds Hn]. change METADATA_REL_START_BLK_NUM with 6256 in Hds.
  split; try done.
  - split; [done|]. split; [done|]. rewrite Hro. eapply walks_missing; [exact Hrs|exact Hrd|]. by rewrite Hfs.
  - rewrite root_path_dirname by done. split; [left; by rewrite Hro|]. split; [exact Hri|]. split; [done|]. apply root_not_denied.
  - apply (fresh_root_wf (data_start s)). unfold data_start, room in *. change META_PER_BLK with 146 in Hr. lia.
  - left. constructor. by exists 2%nat.
  - split; [done|]. intros k d Hk. do 4 (destruct k as [|k]; [injection Hk as <-; split; [assumption|first [exact Hz4|exact Hz5|vm_decide]]|]). done.
  - by rewrite Hsb.
  - split; [vm_compute; reflexivity|]. intros m Hm. change FIRST_UNRESERVED_INO with 8 in Hm.
    assert (m = 0 \/ m = 1 \/ m = 2 \/ m = 3 \/ m = 4 \/ m = 5 \/ m = 6 \/ m = 7) as Hc by lia.
    destruct_or! Hc; subst m; vm_compute; reflexivity.
  - destruct (fb_itab _ _ _ Hfb) as (itab&Hi&_&Hfree). eexists. exists itab. by split.
  - split; [by rewrite Htab|]. rewrite Htab, Hfd. by split.
  - pose proof (fb_data _ _ _ Hfb) as Hdata. unfold pool. rewrite Hsb. cbn. unfold data_start.
    assert (DATA_REL_START_BLK_NUM (NUM_BLOCKS s) + 527 + 146 <= NUM_BLOCKS s) as Hr' by (apply Hr).
    assert (NUM_DATA_BLOCKS (NUM_BLOCKS s) = NUM_BLOCKS s - DATA_REL_START_BLK_NUM (NUM_BLOCKS s)) as -> by layout_lia.
    split_and!; [lia..|]. intros b Hb. exists zero_blk. apply Hdata; [lia|]. apply low_keeps; [done|lia].
  - rewrite Hsb. apply Forall_singleton. cbn. unfold data_start. lia.
Qed.

(** C12. Formatting and mounting a raw volume succeeds: the handle is mounted, the
    superblock in memory is the one written, the root directory is there with
    its two entries and nothing else, the first free inode number is 8, every
    data block that does not share the metadata block of the root hash holds
    zeros, and no file is open that was not. *)
Theorem mkfs_mount_fresh u s :
  v_raw (store s) -> room (NUM_BLOCKS s) ->
  exists s', boot u s = Ok () s' /\ v_status (store s') = MOUNTED /\ good s' /\ NUM_BLOCKS s' = NUM_BLOCKS s /\
    sb s' = SuperBlock.set_dirty false (fresh_super u (NUM_BLOCKS s)) /\
    inode_at s' ROOT_INO (mounted_root s') /\ dir_at s' (mounted_root s') [data_start s'] [root_slots] /\
    list_dir [data_start s'] [root_slots] =
      [dentry_at [x2e] ROOT_INO (data_start s') 0; dentry_at [x2e; x2e] ROOT_INO (data_start s') 1] /\
    (forall b, data_start s' < b < NUM_BLOCKS s -> ~ shares_root (NUM_BLOCKS s) b -> has s' b zero_blk) /\
    open_file_tab s' = open_file_tab s.
Proof.
  intros Hraw Hr. destruct (boot_Ok u s Hraw Hr) as (s'&Hb&Hf&Hst&HN&Htab). exists s'.
  pose proof Hf as [Hg _ Hsb _ Hfb]. rewrite HN in Hsb, Hfb.
  refine (conj Hb (conj Hst (conj Hg (conj HN (conj Hsb (conj _ (conj _ (conj eq_refl (conj _ Htab))))))))).
  - by eapply fresh_root_inode.
  - by eapply fresh_root_dir.
  - unfold data_start. rewrite HN. apply (fb_data _ _ _ Hfb).
Qed.

(** From a raw volume to the contents of a file: after formatting and mounting, a
    user can create a file of any valid name in the root directory, write to it
    at any offset up to the largest file size, and read the same bytes back. *)
Lemma format_create_write_read u s usr name mode buf off :
  v_raw (store s) -> room (NUM_BLOCKS s) -> open_file_tab s = ∅ ->
  0 <= User.uid usr < 2 ^ 32 -> name <> [] -> slash ∉ name -> DirEntry.name_ok (root_path name) -> 0 <= mode < 2 ^ 32 ->
  ACLayer.denied true (Some usr) (User.uid usr) (Z.lor BFS__S_IFREG mode) = false ->
  0 <= off -> off + zlen buf <= MAX_FILE_SIZE ->
  exists s0 s1 s2 s3, boot u s = Ok () s0 /\
    bfs_create true (Some usr) (root_path name) mode s0 = Ok START_FD s1 /\
    bfs_write true (Some usr) START_FD buf off s1 = Ok (zlen buf) s2 /\
    bfs_read true (Some usr) START_FD (zlen buf) off s2 = Ok buf s3.
Proof.
  intros Hraw Hr Htab Hu Hne Hns Hnm Hm Hacc Hoff Hend.
  destruct (boot_Ok u s Hraw Hr) as (s0&Hb&Hf&_&_&Htab0). rewrite Htab in Htab0.
  destruct (fresh_can_create u s0 usr name Hf Htab0 Hu Hne Hns Hnm) as (bits&Hcc).
  destruct (create_write_read_Ok true s0 usr (root_path name) mode _ _ _ _ _ _ buf off Hcc Hm Hacc Hoff Hend)
    as (s1&s2&s3&Hc&Hw&Hrd). rewrite (fr_fd _ _ Hf) in Hc, Hw, Hrd.
  exists s0, s1, s2, s3. refine (conj Hb (conj Hc (conj Hw Hrd))).
Qed.

(** The order of the steps is enforced by the status: formatting needs a handle
    that was just initialised, mounting one that was just formatted; otherwise
    an exception leaves everything as it was. *)
Theorem status_guards u s :
  (v_status (store s) <> INITIALIZED ->
     mkfs u s = Throw (BfsServerError "Invalid server status in mkfs [!=INITIALIZED]") s) /\
  (v_status (store s) <> FORMATTED ->
     mount s = Throw (BfsServerError "Trying to mount from incorrect fs state.") s).
Proof.
  split; intros Hst; [unfold mkfs|unfold mount]; rewrite bind_gets, (proj2 (Z.eqb_neq _ _) Hst); done.
Qed.

(** The loops that are meant to clear the bitmap and the inode table write the
    buffer that the write before left behind: the second block of the loop holds
    the ciphertext of the first, not zeros. *)
Theorem write_same_reuses n b buf s c s1 :
  vok s -> (forall x, within b (Z.of_nat n) x -> bs_valid (NUM_BLOCKS s) x) -> zlen buf = BLK_SZ -> (2 <= n)%nat ->
  wblk b buf s = Ok c s1 ->
  exists s', write_same n b buf s = Ok () s' /\ vhas s' b buf /\ vhas s' (b + 1) c.
Proof.
  intros Hs Hv Hz Hn Hw. destruct (vwblk_Ok s b buf) as (c'&s1'&Hw'&Hzc&Hh&Hf); [done|apply Hv; unfold within; lia|done|].
  rewrite Hw in Hw'. injection Hw' as <- <-. pose proof Hf as (Hs1&HN1&_). destruct n as [|n]; [lia|].
  destruct (write_same_Ok n (b + 1) c s1 Hs1) as (s'&Hr&Hf'&_&Hh'); [|done|].
  { intros x Hx. rewrite HN1. apply Hv. unfold within in *. lia. }
  exists s'. cbn [write_same]. mrun Hw. split; [exact Hr|]. split; [|apply Hh'; lia].
  apply Hf'; [unfold within; lia|exact Hh].
Qed.

End mkfs.
