(* ===== verification/SecVolume.v ===== *)
(** * Formatting and mounting encrypted volumes

    [init_merkle_tree], [flush_merkle_tree] and the block primitives meet the
    interface [Volume] that [mkfs] and [mount] are proved against. *)
From S2P Require Import Prelude Layout BfsUtil CoreTypes SecAssoc BlockLayer FsLayer BlockStore Volume SecBlock SecStore FsAlloc Acl FsDir FsFile FsOps Mkfs.

Section secvolume.
Context `{Cipher} {claws : CipherLaws} {C : Type} `{BlkCacheLaws C}.
Context (ce : bool) (rnd : nat -> bytes) (rnd_zlen : forall n, zlen (rnd n) = BFS_IV_LEN).
Implicit Types s : sec C.

#[local] Instance sv_store : BlockStore (sec C) := sec_store ce rnd.
#[local] Instance sv_store_laws : BlockStoreLaws (sec C) := sec_store_laws ce rnd rnd_zlen.

(** [curr_par = calloc(get_SA()->getKey()->getHMACsize(), 1)]. *)
Definition alloc_par : M (sec C) () := getKey ;; modify (set_curr_par (Some (zeros BFS_HMAC_LEN))).

Definition sec_volume : Volume (sec C) :=
  {| v_status := status; v_set_status := FsLayer.set_status; v_init_mt := init_merkle_tree ce;
     v_flush_mt := flush_merkle_tree ce; v_alloc_par := alloc_par |}.

(** ** The tree at its first initialisation *)

(** The loop over a tree without nodes allocates every node, zero-filled. *)
Lemma fill_nodes_empty n s :
  key_ok s -> Z.of_nat n <= mt_num_nodes (mt s) -> (forall i, 0 <= i < Z.of_nat n -> mt_nodes (mt s) !! i = None) ->
  exists s', fill_nodes ce n false s = Ok true s' /\ same_but_nodes s s' /\
    (forall i, 0 <= i < Z.of_nat n -> mt_nodes (mt s') !! i = Some (HOwn (zeros (node_size (mt s) i)))) /\
    (forall i, Z.of_nat n <= i -> mt_nodes (mt s') !! i = mt_nodes (mt s) !! i).
Proof.
  revert s. induction n as [|n IH]; intros s Hk Hn Hnone.
  - exists s. split_and!; (done || (intros; lia)).
  - set (i := Z.of_nat n). set (s1 := with_node i (HOwn (zeros (node_size (mt s) i))) s).
    destruct (IH s1) as (s'&Hr&Hsm&Hin&Hout).
    { exact Hk. }
    { cbn. lia. }
    { intros j Hj. cbn. rewrite lookup_insert_ne by lia. apply Hnone. lia. }
    exists s'. split_and!.
    + cbn [fill_nodes]. rewrite bind_gets. fold i.
      rewrite (bind_Ok _ _ _ HNull s) by (unfold get_node; rewrite decide_True by lia; by rewrite Hnone by lia).
      destruct Hk as (k&Hk&_). rewrite (bind_Ok _ _ _ true s1); [exact Hr|].
      mrun (getKey_Ok s k Hk). by mrun (set_node_Ok i (HOwn (zeros (node_size (mt s) i))) s).
    + exact Hsm.
    + intros j Hj. destruct (decide (j = i)) as [-> |]; [|apply Hin; lia].
      rewrite Hout by lia. cbn. by rewrite lookup_insert_eq.
    + intros j Hj. rewrite Hout by lia. cbn. by rewrite lookup_insert_ne by lia.
Qed.

(** Over a tree that is there it changes nothing. *)
Lemma fill_nodes_full n c s : tree_ok s -> Z.of_nat n <= mt_num_nodes (mt s) -> fill_nodes ce n c s = Ok true s.
Proof.
  intros Ht. induction n as [|n IH]; intros Hn; [done|]. cbn [fill_nodes]. rewrite bind_gets.
  assert (0 <= Z.of_nat n < mt_num_nodes (mt s)) as Hi by lia. mrun (get_node_Ok s _ Ht Hi). cbn beta iota.
  rewrite bind_ret. apply IH. lia.
Qed.

Lemma node_size_nonneg m i : 0 <= node_size m i.
Proof. unfold node_size. by destruct (leaf_start m <=? i). Qed.

(** A volume whose tree is not in memory yet. *)
Definition sec_raw s : Prop :=
  dev_ok ce s /\ key_ok s /\ mt_status (mt s) = 0 /\ exists h, 0 < h <= 30 /\ NB s = 2 ^ h.

Lemma init_first_Ok s : sec_raw s ->
  exists s', init_merkle_tree ce true s = Ok BFS_SUCCESS s' /\ sec_core ce s' /\ mt_status (mt s') = 1 /\
    NB s' = NB s /\ status s' = status s.
Proof.
  intros (Hd&Hk&Hms&h&Hh&HN). set (m := mkMT (NB s) h (Z.shiftl 1 (h + 1) - 1) ∅ 1). set (s1 := set_mt m s).
  assert (mt_num_nodes m = 2 ^ (h + 1) - 1) as Hnn by (cbn; rewrite shiftl1 by lia; done).
  assert (0 < 2 ^ (h + 1)) as Hp by (apply Z.pow_pos_nonneg; lia).
  destruct (fill_nodes_empty (Z.to_nat (mt_num_nodes m)) s1) as (s2&Hr&Hsm&Hin&_).
  { exact Hk. }
  { change (mt s1) with m. lia. }
  { intros i _. apply lookup_empty. }
  exists s2. pose proof Hsm as (Hv&Hsc&Hcp&Hst&_&Hhe&Hnu&_&Hms2). split.
  - unfold init_merkle_tree, mt_setup. rewrite bind_assoc, bind_get, Hms. cbn [Z.eqb].
    rewrite bind_modify. rewrite HN, Z.log2_pow2 by lia. rewrite <-HN. fold m s1. rewrite bind_gets.
    change (mt s1) with m. by mrun Hr.
  - split; [|split_and!; [exact Hms2|unfold NB; by rewrite Hv|exact Hst]].
    split; [by eapply dev_ok_vbc|]. split; [|split].
    + split; [rewrite Hhe; exact Hh|]. split; [rewrite Hnu, Hhe; exact Hnn|]. intros i Hi. rewrite Hnu in Hi.
      eexists. split; [apply Hin; change (mt s1) with m in Hi; lia|]. unfold node_size, leaf_start. rewrite Hhe.
      apply zlen_zeros. by destruct (_ <=? _).
    + destruct Hk as (k&Hk&Hi). exists k. by rewrite Hsc.
    + unfold NB. rewrite Hv, Hhe. exact HN.
Qed.

(** ** The root hash on the device *)
Definition sec_vol s : Prop := sec_core ce s /\ mt_status (mt s) = 1.
Definition sec_rooted s : Prop := mem_get 0 BFS_HMAC_LEN (bget ce s (meta_blk (NB s))) = Some (nh s 0).

Lemma root_meta_range s : dev_ok ce s -> 0 <= meta_blk (NB s) < NB s /\ is_meta_blk s (meta_blk (NB s)) = true.
Proof.
  intros (_&_&Hd). assert (0 <= NB s) by (layout_lia). unfold is_meta_blk, meta_blk. rewrite andb_true_iff, Z.leb_le, Z.ltb_lt. layout_lia.
Qed.

Lemma root_node s : tree_ok s -> 0 <= 0 < mt_num_nodes (mt s) /\ zlen (nh s 0) = BFS_HMAC_LEN.
Proof.
  intros Ht. destruct (tree_sizes s Ht) as (w&?&?&?&?&Hls). split; [lia|].
  destruct (nh_node s 0 Ht) as [_ ->]; [lia|]. unfold node_size. destruct (Z.leb_spec (leaf_start (mt s)) 0); [lia|done].
Qed.

Lemma mt_setup_done s : mt_status (mt s) = 1 -> mt_setup s = Ok () s.
Proof. intros Hm. unfold mt_setup. by rewrite bind_get, Hm. Qed.

(** Writing the metadata block of the root keeps what other blocks need. *)
Lemma stored_root_write s v' d0 b d :
  (forall j, 0 <= j -> VBC.vget ce v' j = if decide (j = meta_blk (NB s)) then d0 else bget ce s j) ->
  VBC.maxBlockID v' = NB s -> dev_ok ce s -> ~ shares_root (NB s) b -> stored ce s b d -> stored ce (set_vbc v' s) b d.
Proof.
  intros Hg HN Hd Hns [[Hb Hnm] (iv&mac&[Hiv Hmac]&Ht&Hdd&Hl&Hgd)]. destruct (root_meta_range s Hd) as [Hmr Hmm].
  pose proof (meta_blk_nonneg b ltac:(lia)).
  assert (meta_blk b <> meta_blk (NB s)) as Hne by (unfold shares_root, meta_blk in *; lia).
  assert (b <> meta_blk (NB s)) as Hne' by congruence.
  assert (forall j, 0 <= j -> j <> meta_blk (NB s) -> bget ce (set_vbc v' s) j = bget ce s j) as Hk.
  { intros j Hj Hjn. unfold bget at 1. cbn. by rewrite Hg, decide_False by done. }
  assert (NB (set_vbc v' s) = NB s) as HN' by exact HN.
  split; [unfold valid_blk, is_meta_blk; by rewrite HN'|]. exists iv, mac. unfold meta_slot. rewrite !Hk by (done || lia). done.
Qed.

Lemma flush_Ok s : sec_vol s ->
  exists s', flush_merkle_tree ce s = Ok BFS_SUCCESS s' /\ sec_vol s' /\ NB s' = NB s /\ status s' = status s /\
    sec_rooted s' /\ forall b d, ~ shares_root (NB s) b -> stored ce s b d -> stored ce s' b d.
Proof.
  intros [(Hd&Ht&Hk&HN) Hm]. destruct (root_node s Ht) as [H0n Hz0]. destruct (root_meta_range s Hd) as [Hmr _].
  pose proof Hd as (Hi&Hz&Hds).
  destruct (mem_set_is_Some 0 (nh s 0) zero_blk) as [d0 Hd0]; [done|rewrite Hz0; vm_decide|].
  assert (zlen d0 = BLK_SZ) as Hzd by (by rewrite (mem_set_zlen _ _ _ _ Hd0)).
  destruct (write_block_helper_Ok ce s (meta_blk (NB s)) d0 Hi Hmr Hzd) as (v'&Hw&Hi'&Hg&HN').
  destruct Hk as (k&Hk&Hik). exists (set_vbc v' s). split.
  { unfold flush_merkle_tree. mrun (mt_setup_done s Hm). rewrite bind_gets.
    mrun (fill_nodes_full (Z.to_nat (mt_num_nodes (mt s))) true s Ht ltac:(lia)). cbn [negb].
    unfold save_root_hash. rewrite bind_gets, Hk, bind_gets. mrun (get_node_Ok s 0 Ht H0n). cbn beta iota.
    rewrite (bind_Ok _ _ _ (Some (nh s 0)) s) by done.
    rewrite (bind_Ok _ _ _ BFS_SUCCESS (set_vbc v' s)); [done|].
    unfold write_blk_meta, bad_meta_args, deref_ptr. rewrite bind_assoc. msteps. cbn beta iota.
    rewrite bool_decide_eq_false_2 by done. rewrite bind_assoc. msteps. cbn beta iota.
    rewrite mem_get_all by done. rewrite some_bind, Hd0. msteps. exact Hw. }
  assert (forall j, 0 <= j -> bget ce (set_vbc v' s) j = if decide (j = meta_blk (NB s)) then d0 else bget ce s j) as Hb' by exact Hg.
  refine (conj (conj _ Hm) (conj HN' (conj eq_refl (conj _ _)))).
  - refine (conj _ (conj Ht (conj _ _))); [|by exists k|exact (eq_trans HN' HN)].
    refine (conj Hi' (conj _ _)); [|by rewrite (HN' : NB (set_vbc v' s) = NB s)].
    intros j Hj. rewrite (HN' : NB (set_vbc v' s) = NB s) in Hj. rewrite Hb' by lia. case_decide; [done|]. by apply Hz.
  - unfold sec_rooted. rewrite (HN' : NB (set_vbc v' s) = NB s), Hb', decide_True by (done || lia).
    change (nh (set_vbc v' s) 0) with (nh s 0). rewrite <-Hz0. by eapply mem_get_set_eq.
  - intros b d Hns. by eapply stored_root_write.
Qed.

(** Mounting in the process that formatted: the tree is compared with the device. *)
Lemma init_again_Ok s : sec_vol s -> sec_rooted s ->
  exists v', init_merkle_tree ce false s = Ok BFS_SUCCESS (set_vbc v' s) /\ vpres ce (vbc s) v'.
Proof.
  intros [(Hd&Ht&Hk&HN) Hm] Hrt. destruct (root_node s Ht) as [H0n Hz0]. destruct (root_meta_range s Hd) as [Hmr _].
  destruct (read_block_helper_Ok ce s (meta_blk (NB s)) (proj1 Hd) Hmr) as (v'&Hr&Hp). exists v'. split; [|done].
  destruct Hk as (k&Hk&_). unfold init_merkle_tree. mrun (mt_setup_done s Hm). rewrite bind_gets.
  mrun (fill_nodes_full (Z.to_nat (mt_num_nodes (mt s))) true s Ht ltac:(lia)). cbn [negb].
  rewrite bind_gets, Hk, bind_gets.
  rewrite (bind_Ok _ _ _ (Some (None, Some (nh s 0))) (set_vbc v' s)).
  - cbn beta iota. rewrite (bind_Ok _ _ _ (nh s 0) (set_vbc v' s)); [by rewrite decide_True|].
    apply (node_read_Ok (set_vbc v' s)); [exact Ht|exact H0n|]. rewrite <-Hz0. exact (proj2 (nh_node s 0 Ht H0n)).
  - unfold read_blk_meta, bad_meta_args, deref_ptr. rewrite bind_assoc. msteps. rewrite bool_decide_eq_false_2 by done.
    mrun Hr. unfold sec_rooted in Hrt. rewrite Hrt. by msteps.
Qed.

(** ** The laws *)
Lemma vpres_vol s v' : sec_vol s -> vpres ce (vbc s) v' ->
  sec_vol (set_vbc v' s) /\ NB (set_vbc v' s) = NB s /\ forall b d, stored ce s b d -> stored ce (set_vbc v' s) b d.
Proof.
  intros [(Hd&Ht&Hk&HN) Hm] Hp. destruct (vpres_dev_ok ce s v' Hd Hp) as (Hd1&HN1&Hb1).
  refine (conj (conj _ Hm) (conj HN1 _)).
  - exact (conj Hd1 (conj Ht (conj Hk (eq_trans HN1 HN)))).
  - intros b d. apply stored_view. by split_and!.
Qed.

Lemma set_status_stored z s b d : stored ce s b d -> stored ce (FsLayer.set_status z s) b d.
Proof. apply stored_view. by split_and!. Qed.

#[refine] Definition sec_volume_laws : @VolumeLaws (sec C) sv_store sec_volume sv_store_laws :=
  {| v_raw := sec_raw; v_ok := sec_vol; v_has := stored ce; v_rooted := sec_rooted;
     v_par s := exists cp, curr_par s = Some cp /\ zlen cp = BFS_HMAC_LEN |}.
Proof.
  - done.
  - done.
  - intros z s Hs. exact Hs.
  - intros z s Hs. exact Hs.
  - apply set_status_stored.
  - intros z s Hs. exact Hs.
  - intros z s Hs. exact Hs.
  - intros s Hs. destruct (init_first_Ok s Hs) as (s'&Hr&Hc&Hm&Hn&Hst). exists s'. exact (conj Hr (conj (conj Hc Hm) (conj Hn Hst))).
  - intros s b d f [Hc Hm] Hst Hv Hz. apply valid_blk_iff in Hv.
    destruct (write_blk_core ce true rnd rnd_zlen eq_refl s b d f Hc Hst Hv Hz) as (c&s'&Hw&Hzc&Hc'&HN&Hst'&_&Hm'&Hs&Hf).
    exists c, s'. refine (conj Hw (conj Hzc (conj (conj Hc' _) (conj HN (conj Hst' (conj Hs Hf)))))). congruence.
  - exact flush_Ok.
  - intros s Hs Hr. destruct (init_again_Ok s Hs Hr) as (v'&Hi&Hp). destruct (vpres_vol s v' Hs Hp) as (Hs'&HN&Hf).
    exists (set_vbc v' s). exact (conj Hi (conj Hs' (conj HN (conj eq_refl Hf)))).
  - intros s [Hc Hm]. pose proof Hc as (_&_&(k&Hk&_)&_). exists (set_curr_par (Some (zeros BFS_HMAC_LEN)) s).
    refine (conj _ (conj (conj Hc Hm) (conj eq_refl (conj eq_refl (conj _ _))))).
    + cbn. unfold alloc_par. by mrun (getKey_Ok s k Hk).
    + by eexists.
    + intros b d. apply stored_view. by split_and!.
  - intros s b d [Hc Hm] Hp Hst Hd. destruct (read_blk_formatted ce true eq_refl s b d Hc Hst Hd) as (s'&Hr&Hc'&Hst'&Hv&Hmt&Hcp).
    exists s'. refine (conj Hr (conj (conj Hc' _) (conj _ (conj (proj1 (proj2 Hv)) (conj Hst' _))))); [by rewrite Hmt|by rewrite Hcp|].
    intros b' d'. by apply stored_view.
  - intros s [Hc Hm] Hp Hst. split; [by apply sec_ok_core|done].
Defined.

#[local] Existing Instance sec_volume.
#[local] Existing Instance sec_volume_laws.

(** C2. The whole system, from the devices to the contents of a file: on a raw
    cluster with a key, formatting and mounting succeed, and then a user can
    create a file of any valid name in the root directory, write to it at any
    offset up to the largest file size, and read the same bytes back, with every
    block sealed by the cipher and checked against the Merkle tree on the way. *)
Theorem encrypted_create_write_read u (s : fs (sec C)) usr name mode (buf : bytes) off :
  sec_raw (store s) -> room (NB (store s)) -> open_file_tab s = ∅ ->
  0 <= User.uid usr < 2 ^ 32 -> name <> [] -> slash ∉ name -> DirEntry.name_ok (root_path name) -> 0 <= mode < 2 ^ 32 ->
  ACLayer.denied true (Some usr) (User.uid usr) (Z.lor BFS__S_IFREG mode) = false ->
  0 <= off -> off + zlen buf <= MAX_FILE_SIZE ->
  exists s0 s1 s2 s3 : fs (sec C), boot true u s = Ok () s0 /\
    bfs_create true (Some usr) (root_path name) mode s0 = Ok START_FD s1 /\
    bfs_write true (Some usr) START_FD buf off s1 = Ok (zlen buf) s2 /\
    bfs_read true (Some usr) START_FD (zlen buf) off s2 = Ok buf s3.
Proof. exact (format_create_write_read true eq_refl u s usr name mode buf off). Qed.

End secvolume.
