(* ===== verification/Server.v ===== *)
(** * The server's message handlers

    Models [bfs_fs/bfs_server_ecalls.cpp], the worker loop and the hand-over of
    messages of [bfs_fs/bfs_server.cpp] and [bfs_fs/bfs_server_ocalls.cpp], in
    the build without SGX and with the file system of [bfs_core.cpp]
    ([use_lwext4] off) and performance tests off.  The one-time start-up before
    the first message ([enclave_init]) reads the configuration and is not part of
    the model.

    A connection is named by the address of its object, as in the maps of the
    sources.  [indet] is what a local variable holds that was never set. *)
From S2P Require Import Prelude Layout BfsUtil CoreTypes FlexBuffer SecAssoc Wire BlockLayer BlockStore Volume FsAlloc Acl FsDir FsDirSpec FsFile FsOps Mkfs.
Import FlexBuffer FlexStream Msg.

(** Key and IV buffer of a [bfsSecAssociation]. *)
Record sassoc := mkSa { sa_key : option CryptoKey.t; sa_iv : FlexBuffer.t }.

(** What a worker thread keeps of its client: the connection object and the
    buffer of received packets. *)
Record link := mkLink { l_net : NetConn.t; l_pkt : FlexBuffer.t }.

Record srv (B : Type) := mkSrv {
  hfs : fs B;               (* the static members of BfsHandle *)
  bfs_handle : bool;        (* the pointer is not NULL *)
  fs_initialized : bool;
  acl_layer : ACLayer.t;
  user_sas : gmap Z sassoc; (* the associations of the user contexts *)
  links : gmap Z link;
  draws : nat               (* random values drawn so far *)
}.
Arguments mkSrv {B}.
Arguments hfs {B}.
Arguments bfs_handle {B}.
Arguments fs_initialized {B}.
Arguments acl_layer {B}.
Arguments user_sas {B}.
Arguments links {B}.
Arguments draws {B}.

Section server.
Context {B : Type} `{Volume B} `{Cipher}.
Context (use_mt : bool) (rnd : nat -> bytes) (kernel : Z -> nat -> Z) (cl_serv_sa : CryptoKey.t) (uninit indet : Z).
Abbreviation srv := (srv B).
Abbreviation fs := (fs B).

Definition set_hfs (f : fs) (s : srv) : srv :=
  mkSrv f (bfs_handle s) (fs_initialized s) (acl_layer s) (user_sas s) (links s) (draws s).
Definition set_handle (h i : bool) (s : srv) : srv :=
  mkSrv (hfs s) h i (acl_layer s) (user_sas s) (links s) (draws s).
Definition set_acl (a : ACLayer.t) (s : srv) : srv :=
  mkSrv (hfs s) (bfs_handle s) (fs_initialized s) a (user_sas s) (links s) (draws s).
Definition set_sas (m : gmap Z sassoc) (s : srv) : srv :=
  mkSrv (hfs s) (bfs_handle s) (fs_initialized s) (acl_layer s) m (links s) (draws s).
Definition set_links (m : gmap Z link) (s : srv) : srv :=
  mkSrv (hfs s) (bfs_handle s) (fs_initialized s) (acl_layer s) (user_sas s) m (draws s).

Definition on_fs {A} (m : M fs A) : M srv A := fun s =>
  match m (hfs s) with
  | Ok a f => Ok a (set_hfs f s)
  | Throw e f => Throw e (set_hfs f s)
  | Crash c => Crash c
  end.

(** A method of a buffer object of the handler. *)
Definition on_pkt {A} (m : M FlexBuffer.t A) (b : FlexBuffer.t) : M srv (A * FlexBuffer.t) := fun s =>
  match m b with
  | Ok a b => Ok (a, b) s
  | Throw e _ => Throw e s
  | Crash c => Crash c
  end.

(** ** The user context of a connection *)
Definition the_user (conn : Z) : M srv User.t :=
  s ← get;
  of_opt (ACLayer.user_contexts (acl_layer s) !! conn).

Definition upd_user (conn : Z) (f : User.t -> User.t) : M srv () :=
  modify (fun s => set_acl (ACLayer.mk (ACLayer.ACLayerInitialized (acl_layer s)) (ACLayer.next_uid (acl_layer s))
                              (alter f conn (ACLayer.user_contexts (acl_layer s)))) s).

(** A call of the association of the user on two buffers. *)
Definition with_sa {A} (conn : Z) (b o : FlexBuffer.t) (m : M SecAssoc.st A) :
    M srv (A * FlexBuffer.t * FlexBuffer.t) := fun s =>
  match user_sas s !! conn with
  | None => Crash Undefined_behaviour
  | Some a =>
      let put st := set_sas (<[conn := mkSa (SecAssoc.saKey st) (SecAssoc.iv st)]> (user_sas s)) s in
      match m (SecAssoc.mkst (sa_key a) (sa_iv a) b o) with
      | Ok r st => Ok (r, SecAssoc.buf st, SecAssoc.out st) (put st)
      | Throw e st => Throw e (put st)
      | Crash c => Crash c
      end
  end.

Definition draw : M srv bytes := fun s =>
  Ok (rnd (draws s)) (mkSrv (hfs s) (bfs_handle s) (fs_initialized s) (acl_layer s) (user_sas s) (links s)
                        (S (draws s))).

(** The associated data: the four bytes of a sequence number. *)
Definition seq_aad (seq : Z) : option bytes := Some (le_split 4 seq).

(** ** Sending *)

(** Only -1 is a failure. *)
Definition ocall_handle_out_msg (conn buf_len : Z) (spkt_enc : bytes) : M srv Z := fun s =>
  match links s !! conn with
  | None => Crash Undefined_behaviour
  | Some l =>
      match NetConn.sendPacketizedDataL (kernel conn) buf_len spkt_enc (l_net l) with
      | Ok r n => Ok (if r =? -1 then rc_failure else rc_success)
                     (set_links (<[conn := mkLink n (l_pkt l)]> (links s)) s)
      | Throw e n => Throw e (set_links (<[conn := mkLink n (l_pkt l)]> (links s)) s)
      | Crash c => Crash c
      end
  end.

(** Seal the packet with the next sequence number; [None]: a crypto error. *)
Definition seal (conn : Z) (spkt spkt_enc : FlexBuffer.t) : M srv (option (FlexBuffer.t * FlexBuffer.t)) :=
  catch
    (u ← the_user conn;
     r ← draw;
     '(_, spkt, spkt_enc) ← with_sa conn spkt spkt_enc
        (SecAssoc.encryptData_out (seq_aad (User.user_send_seq u)) true r);
     upd_user conn User.inc_send_seq ;;
     mret (Some (spkt, spkt_enc)))
    (fun e => match e with bfsCryptoError _ => Some (mret None) | _ => None end).

(** Seal and send; the result is the handler's return code and the buffers. *)
Definition send_pkt (conn : Z) (spkt spkt_enc : FlexBuffer.t) : M srv (Z * FlexBuffer.t * FlexBuffer.t) :=
  r ← seal conn spkt spkt_enc;
  match r with
  | None => mret (rc_failure, spkt, spkt_enc)
  | Some (spkt, spkt_enc) =>
      rc ← ocall_handle_out_msg conn (length spkt_enc) (drop (Z.to_nat (hlength spkt_enc)) (mem spkt_enc));
      mret (if negb (rc =? rc_success) then rc_failure else rc_success, spkt, spkt_enc)
  end.

(** Bytes of the fields of a packet. *)
Definition fields_len (fs : list (nat * Z)) : Z := foldr (fun f z => Z.of_nat f.1 + z) 0 fs.

(** A response without data: the fields in the order of the stream operators,
    the operation and message types last. *)
Definition reply (conn otype : Z) (fields : list (nat * Z)) : M srv Z :=
  let fields := fields ++ [(4%nat, otype); (4%nat, FROM_SERVER)] in
  '(_, spkt) ← on_pkt (resetWithAlloc 0 Byte.x00 (fields_len fields) 0 false ;; push_all fields) FlexBuffer.empty;
  '(rc, _, _) ← send_pkt conn spkt FlexBuffer.empty;
  mret rc.

(** ** Running an operation of the file system *)

(** The call through [bfs_handle] and its handlers: a denied access and a failed
    request become return values, other errors of the server end the request
    without a response ([None]).  [utils]: there is a handler for
    [bfsUtilError]. *)
Definition run_op {A} (conn : Z) (utils : bool) (deny failed : A) (m : bool -> option User.t -> M fs A) :
    M srv (option A) :=
  h ← gets bfs_handle;
  u ← the_user conn;
  a ← gets (fun s => ACLayer.ACLayerInitialized (acl_layer s));
  if negb h then die Undefined_behaviour
  else catch (r ← on_fs (m a (Some u)); mret (Some r))
    (fun e => match e with
     | BfsAccessDeniedError _ => Some (mret (Some deny))
     | BfsClientRequestFailedError _ => Some (mret (Some failed))
     | BfsServerError _ => Some (mret None)
     | bfsUtilError _ => if utils then Some (mret None) else None
     | _ => None
     end).

(** Operations whose response is one return value of [n] bytes. *)
Definition do_op (conn otype : Z) (n : nat) (m : bool -> option User.t -> M fs Z) : M srv Z :=
  r ← run_op conn true (- EPERM) rc_failure m;
  match r with
  | None => mret rc_failure
  | Some ret => reply conn otype [(n, ret)]
  end.

(** ** Unpacking requests *)
Definition unpack_path : M FlexBuffer.t bytes :=
  fname_len ← pull 4;
  assert_ (0 <? fname_len) ;;
  get_string 0.

Definition unpack_mode_path : M FlexBuffer.t (Z * bytes) :=
  fmode ← pull 4;
  fname ← unpack_path;
  mret (fmode, fname).

Definition unpack_two_paths : M FlexBuffer.t (bytes * bytes) :=
  fr_fname_len ← pull 4;
  to_fname_len ← pull 4;
  assert_ ((0 <? fr_fname_len) && (0 <? to_fname_len)) ;;
  fr ← get_string 0;
  to ← get_string fr_fname_len;
  mret (fr, to).

Definition unpack_fh : M FlexBuffer.t Z :=
  fh ← pull 8;
  assert_ (ROOT_INO <=? fh) ;;
  mret fh.

Definition unpack_rw : M FlexBuffer.t (Z * Z * Z) :=
  fh ← pull 8;
  size ← pull 8;
  off ← pull 8;
  mret (fh, size, off).

(** ** Handlers *)
Definition handle_getattr (conn : Z) (rpkt : FlexBuffer.t) : M srv Z :=
  '(fname, _) ← on_pkt unpack_path rpkt;
  r ← run_op conn false (- EPERM, (0, 0, 0, 0)) (- ENOENT, (0, 0, 0, 0))
        (fun a u => r ← bfs_getattr a u fname; mret (rc_success, r));
  match r with
  | None => mret rc_failure
  | Some (ret, (uid, fino, fmode, fsize)) =>
      reply conn CLIENT_GETATTR_OP
        [(8%nat, fsize); (4%nat, fmode); (8%nat, fino); (4%nat, indet); (4%nat, indet); (4%nat, indet);
         (4%nat, uid); (4%nat, ret)]
  end.

Definition handle_mkdir (conn : Z) (rpkt : FlexBuffer.t) : M srv Z :=
  '(fmode, fname, _) ← on_pkt unpack_mode_path rpkt;
  do_op conn CLIENT_MKDIR_OP 4 (fun a u => bfs_mkdir a u fname fmode ;; mret rc_success).

Definition handle_unlink (conn : Z) (rpkt : FlexBuffer.t) : M srv Z :=
  '(fname, _) ← on_pkt unpack_path rpkt;
  do_op conn CLIENT_UNLINK_OP 4 (fun a u => bfs_unlink a u fname ;; mret rc_success).

Definition handle_rmdir (conn : Z) (rpkt : FlexBuffer.t) : M srv Z :=
  '(fname, _) ← on_pkt unpack_path rpkt;
  do_op conn CLIENT_RMDIR_OP 4 (fun a u => bfs_rmdir a u fname ;; mret rc_success).

Definition handle_rename (conn : Z) (rpkt : FlexBuffer.t) : M srv Z :=
  '(fr_fname, to_fname, _) ← on_pkt unpack_two_paths rpkt;
  do_op conn CLIENT_RENAME_OP 4 (fun a u => bfs_rename a u fr_fname to_fname ;; mret rc_success).

Definition handle_open (conn : Z) (rpkt : FlexBuffer.t) : M srv Z :=
  '(fname, _) ← on_pkt unpack_path rpkt;
  do_op conn CLIENT_OPEN_OP 8 (fun a u => bfs_open a u fname 0x1FF).

(** The data goes straight into the response, whose buffer has the low 32 bits
    of [size] as its length. *)
Definition do_read (conn fh size rd_off : Z) : M srv Z :=
  '(_, spkt) ← on_pkt (resetWithAlloc (u32 size) Byte.x00 16 0 false) FlexBuffer.empty;
  r ← run_op conn true (- EPERM, []) (rc_failure, [])
        (fun a u => d ← bfs_read a u fh size rd_off; mret (zlen d, d));
  match r with
  | None => mret rc_failure
  | Some (ret, d) =>
      '(_, spkt) ← on_pkt (store (hlength spkt) d ;;
          push_all [(8%nat, ret); (4%nat, CLIENT_READ_OP); (4%nat, FROM_SERVER)]) spkt;
      '(rc, _, _) ← send_pkt conn spkt FlexBuffer.empty;
      mret rc
  end.

Definition handle_read (conn : Z) (rpkt : FlexBuffer.t) : M srv Z :=
  '(fh, size, rd_off, _) ← on_pkt unpack_rw rpkt;
  do_read conn fh size rd_off.

(** The data is read where it is in the packet.  A [size] that reaches past the
    allocation makes [bfs_write] read past it once the handle was found good. *)
Definition handle_write (conn : Z) (rpkt : FlexBuffer.t) : M srv Z :=
  '(fh, size, wr_off, rpkt) ← on_pkt unpack_rw rpkt;
  do_op conn CLIENT_WRITE_OP 8
    (fun a u => match mem_get (hlength rpkt) size (mem rpkt) with
                | Some buf => bfs_write a u fh buf wr_off
                | None => open_inode a "bfs_write" u fh ;; die Undefined_behaviour
                end).

Definition handle_release (conn : Z) (rpkt : FlexBuffer.t) : M srv Z :=
  '(fh, _) ← on_pkt unpack_fh rpkt;
  do_op conn CLIENT_RELEASE_OP 4 (fun a u => bfs_release a u fh ;; mret rc_success).

Definition handle_fsync (conn : Z) (rpkt : FlexBuffer.t) : M srv Z :=
  '(fh, _) ← on_pkt (fh ← pull 8; datasync ← pull 4; assert_ (ROOT_INO <=? fh) ;; mret fh) rpkt;
  do_op conn CLIENT_FSYNC_OP 4 (fun a u => bfs_fsync a u fh ;; mret rc_success).

Definition handle_opendir (conn : Z) (rpkt : FlexBuffer.t) : M srv Z :=
  '(fname, _) ← on_pkt unpack_path rpkt;
  do_op conn CLIENT_OPENDIR_OP 8 (fun a u => bfs_opendir a u fname).

Definition handle_create (conn : Z) (rpkt : FlexBuffer.t) : M srv Z :=
  '(fmode, fname, _) ← on_pkt unpack_mode_path rpkt;
  do_op conn CLIENT_CREATE_OP 8 (fun a u => bfs_create a u fname fmode).

Definition handle_chmod (conn : Z) (rpkt : FlexBuffer.t) : M srv Z :=
  '(new_mode, fname, _) ← on_pkt unpack_mode_path rpkt;
  do_op conn CLIENT_CHMOD_OP 8 (fun a u => bfs_chmod a u fname new_mode ;; mret rc_success).

(** Only the other backend truncates. *)
Definition handle_ftruncate (conn : Z) (rpkt : FlexBuffer.t) : M srv Z :=
  '(_, _) ← on_pkt (fh ← pull 8; new_size ← pull 4; unpack_path) rpkt;
  reply conn CLIENT_TRUNCATE_OP [(8%nat, rc_failure)].

(** One entry of a listing: its name, padded, behind the names before it, its
    attributes in front.  [de_data_off] is the room the attributes of earlier
    entries take, [off] that of their names.  The inode is read outside of the
    handlers' exception handling. *)
Definition put_entry (e : DirEntry.t) (de_data_off off : Z) (spkt : FlexBuffer.t) : M srv FlexBuffer.t :=
  let e_name := bfs_basename (c_str (DirEntry.de_name e)) in
  let e_name_len := zlen e_name + 1 in
  '(_, spkt) ← on_pkt (store (hlength spkt + de_data_off + off) (e_name ++ [Byte.x00])) spkt;
  '(_, spkt) ← on_pkt (store (hlength spkt + de_data_off + off + e_name_len)
                         (zeros (u32 (MAX_FILE_NAME_LEN - e_name_len)))) spkt;
  i ← on_fs (read_inode (DirEntry.ino e));
  '(_, spkt) ← on_pkt (push_all [(4%nat, e_name_len); (8%nat, Inode.size i); (4%nat, Inode.mode i);
                                 (8%nat, DirEntry.ino e); (4%nat, indet); (4%nat, indet); (4%nat, indet)]) spkt;
  mret spkt.

Definition DE_LEN : Z := 36.

Fixpoint put_entries (ents : list DirEntry.t) (de_data_off off : Z) (spkt : FlexBuffer.t) : M srv FlexBuffer.t :=
  match ents with
  | [] => mret spkt
  | e :: ents =>
      spkt ← put_entry e de_data_off off spkt;
      put_entries ents (de_data_off + DE_LEN) (off + MAX_FILE_NAME_LEN) spkt
  end.

(** Two messages: the number of entries, then the entries. *)
Definition do_readdir (conn fh : Z) : M srv Z :=
  r ← run_op conn true [] [] (fun a u => bfs_readdir a u fh);
  match r with
  | None => mret rc_failure
  | Some ents =>
      let fields := [(8%nat, zlen ents); (4%nat, CLIENT_READDIR_OP); (4%nat, FROM_SERVER)] in
      '(_, spkt) ← on_pkt (resetWithAlloc 0 Byte.x00 16 0 false ;; push_all fields) FlexBuffer.empty;
      '(rc, spkt, spkt_enc) ← send_pkt conn spkt FlexBuffer.empty;
      if negb (rc =? rc_success) then mret rc_failure
      else
        '(_, spkt) ← on_pkt (resetWithAlloc (u32 (u32 (zlen ents) * MAX_FILE_NAME_LEN)) Byte.x00
                               (u32 (zlen ents * DE_LEN)) 0 false) spkt;
        spkt ← put_entries ents 0 0 spkt;
        '(rc, _, _) ← send_pkt conn spkt spkt_enc;
        mret rc
  end.

Definition handle_readdir (conn : Z) (rpkt : FlexBuffer.t) : M srv Z :=
  '(fh, _) ← on_pkt unpack_fh rpkt;
  do_readdir conn fh.

(** [mkfs] and [mount] run once, at the first request of any client. *)
Definition handle_init (conn : Z) (do_mkfs : bool) : M srv Z :=
  r ← catch
        (i ← gets fs_initialized;
         (if negb i then
            on_fs Mkfs.ctor ;;
            modify (fun s => set_handle true (fs_initialized s) s) ;;
            (if do_mkfs then on_fs (mkfs use_mt uninit) else mret ()) ;;
            on_fs (mount use_mt) ;;
            modify (fun s => set_handle (bfs_handle s) true s)
          else mret ()) ;;
         mret (Some rc_success))
        (fun e => match e with
         | BfsAccessDeniedError _ => Some (mret (Some (- EPERM)))
         | BfsClientRequestFailedError _ => Some (mret (Some rc_failure))
         | BfsServerError _ | bfsUtilError _ => Some (mret None)
         | _ => None
         end);
  match r with
  | None => mret rc_failure
  | Some ret => reply conn CLIENT_INIT_OP [(4%nat, ret)]
  end.

(** The destructor runs, the pointer is cleared; [fs_initialized] is kept. *)
Definition handle_destroy (conn : Z) : M srv Z :=
  h ← gets bfs_handle;
  (if (h : bool) then on_fs Mkfs.dtor else mret ()) ;;
  modify (fun s => set_handle false (fs_initialized s) s) ;;
  reply conn CLIENT_DESTROY_OP [(4%nat, rc_success)].

(** ** Dispatch *)
Definition dispatch (otype conn : Z) (rpkt : FlexBuffer.t) : M srv Z :=
  if otype =? CLIENT_GETATTR_OP then handle_getattr conn rpkt
  else if otype =? CLIENT_MKDIR_OP then handle_mkdir conn rpkt
  else if otype =? CLIENT_UNLINK_OP then handle_unlink conn rpkt
  else if otype =? CLIENT_RMDIR_OP then handle_rmdir conn rpkt
  else if otype =? CLIENT_RENAME_OP then handle_rename conn rpkt
  else if otype =? CLIENT_OPEN_OP then handle_open conn rpkt
  else if otype =? CLIENT_READ_OP then handle_read conn rpkt
  else if otype =? CLIENT_WRITE_OP then handle_write conn rpkt
  else if otype =? CLIENT_RELEASE_OP then handle_release conn rpkt
  else if otype =? CLIENT_FSYNC_OP then handle_fsync conn rpkt
  else if otype =? CLIENT_OPENDIR_OP then handle_opendir conn rpkt
  else if otype =? CLIENT_READDIR_OP then handle_readdir conn rpkt
  else if otype =? CLIENT_INIT_OP then handle_init conn false
  else if otype =? CLIENT_INIT_MKFS_OP then handle_init conn true
  else if otype =? CLIENT_DESTROY_OP then handle_destroy conn
  else if otype =? CLIENT_CREATE_OP then handle_create conn rpkt
  else if otype =? CLIENT_CHMOD_OP then handle_chmod conn rpkt
  else if otype =? CLIENT_TRUNCATE_OP then handle_ftruncate conn rpkt
  else mret rc_failure.

(** A new context has a new association from the configuration; for a known
    connection the map keeps its own. *)
Definition add_user_context (conn : Z) : M srv (option User.t) := fun s =>
  let '(u, a) := ACLayer.add_user_context conn (acl_layer s) in
  let sas := match ACLayer.user_contexts (acl_layer s) !! conn with
             | Some _ => user_sas s
             | None => if u then <[conn := mkSa (Some cl_serv_sa) FlexBuffer.empty]> (user_sas s) else user_sas s
             end in
  Ok u (set_sas sas (set_acl a s)).

(** Open the packet of the connection with the next expected sequence number.
    [None]: a crypto error. *)
Definition open_pkt (conn : Z) : M srv (option FlexBuffer.t) :=
  u ← the_user conn;
  s ← get;
  match links s !! conn with
  | None => die Undefined_behaviour
  | Some l =>
      catch
        ('(_, rpkt_enc, rpkt) ← with_sa conn (l_pkt l) FlexBuffer.empty
           (SecAssoc.decryptData_out (seq_aad (User.user_recv_seq u)) true);
         modify (fun s => set_links (<[conn := mkLink (l_net l) rpkt_enc]> (links s)) s) ;;
         upd_user conn User.inc_recv_seq ;;
         mret (Some rpkt))
        (fun e => match e with bfsCryptoError _ => Some (mret None) | _ => None end)
  end.

(** [pkt]: there is a packet, in the buffer of the connection's worker; without
    one a new user is set up. *)
Definition ecall_bfs_handle_in_msg (conn : Z) (pkt : bool) : M srv Z :=
  a ← gets acl_layer;
  if negb (ACLayer.ACLayerInitialized a) then mret rc_failure
  else
    match ACLayer.get_user_context conn a with
    | None =>
        u ← add_user_context conn;
        match u with
        | None => mret rc_failure
        | Some _ => mret (if pkt then rc_failure else rc_success)
        end
    | Some _ =>
        if negb pkt then die Undefined_behaviour
        else
          r ← open_pkt conn;
          match r with
          | None => mret rc_failure
          | Some rpkt =>
              '(mtype, rpkt) ← on_pkt (pull_int 4) rpkt;
              '(otype, rpkt) ← on_pkt (pull_int 4) rpkt;
              if negb (mtype =? TO_SERVER) then mret rc_failure
              else dispatch otype conn rpkt
          end
    end.

(** ** The worker of a connection *)

(** A client was accepted: its connection object [n] at the address [conn], a
    fresh packet buffer, and the call that sets up the user. *)
Definition worker_start (conn : Z) (n : NetConn.t) : M srv () :=
  modify (fun s => set_links (<[conn := mkLink n FlexBuffer.empty]> (links s)) s) ;;
  rc ← ecall_bfs_handle_in_msg conn false;
  if rc =? rc_failure then die Abort_called else mret ().

Definition recv_packet (conn : Z) : M srv Z := fun s =>
  match links s !! conn with
  | None => Crash Undefined_behaviour
  | Some l =>
      match NetConn.recvPacketizedBuffer (kernel conn) (l_pkt l) (l_net l) with
      | Ok (r, b) n => Ok r (set_links (<[conn := mkLink n b]> (links s)) s)
      | Throw e n => Throw e (set_links (<[conn := mkLink n (l_pkt l)]> (links s)) s)
      | Crash c => Crash c
      end
  end.

(** One round of the loop.  [true]: the worker is done, the connection object
    deleted; the user context stays. *)
Definition worker_round (conn : Z) : M srv bool :=
  rlen ← recv_packet conn;
  ok ← (if 0 <? rlen then rc ← ecall_bfs_handle_in_msg conn true; mret (rc =? rc_success) else mret false);
  if (ok : bool) then mret false
  else modify (fun s => set_links (delete conn (links s)) s) ;; mret true.
End server.
