(* ===== verification/NetDevice.v ===== *)
(** * Devices across the network

    Models [bfs_device/bfsDeviceLayer.cpp] (the packets), [bfsRemoteDevice.cpp]
    (the device as the block layer sees it) and [bfsNetworkDevice.cpp] (the
    process that has the storage), in the build without SGX.

    An operation of the remote device is cut where it waits for the response
    ([dop]), so that the device can run in between.  What the configuration
    provides (security associations, the size of the storage) and what the
    operating system provides (connections, the sockets that are ready) are
    arguments.  Logging and the measurements of latencies are left out. *)
From S2P Require Import Prelude Layout BfsUtil FlexBuffer SecAssoc Wire BlockLayer BlockStore Volume FsAlloc Acl FsDir FsDirSpec FsFile FsOps Mkfs Server.
Import FlexBuffer FlexStream Msg.

Inductive dev_state := BFSDEV_UNINITIALIZED | BFSDEV_READY | BFSDEV_ERRORED | BFSDEV_UKNOWN.
#[export] Instance dev_state_eq_dec : EqDecision dev_state.
Proof. solve_decision. Defined.

Definition BFS_DEVICE_GET_TOPO : Z := 0.
Definition BFS_DEVICE_GET_BLOCK : Z := 1.
Definition BFS_DEVICE_PUT_BLOCK : Z := 2.
Definition BFS_DEVICE_GET_BLOCKS : Z := 3.
Definition BFS_DEVICE_PUT_BLOCKS : Z := 4.

Definition BFS_SHUTDOWN : Z := -2.

(** Steps on a local buffer. *)
Definition on_buffer {S A} (m : M FlexBuffer.t A) (b : FlexBuffer.t) : M S (A * FlexBuffer.t) := fun s =>
  match m b with
  | Ok a b => Ok (a, b) s
  | Throw e _ => Throw e s
  | Crash x => Crash x
  end.

(** ** [bfsDeviceLayer]: the packets *)
Module DeviceLayer.

(** The security association of one side, and the random values it has drawn. *)
Record chan := mkChan { ch_sa : option sassoc; ch_draws : nat }.

(** What the headers of a packet say. *)
Record header := mkHeader { h_usr : Z; h_did : Z; h_cmd : Z; h_ack : Z }.

Section layer.
Context `{Cipher} (rnd : nat -> bytes).

Definition draw : M chan bytes := fun c => Ok (rnd (ch_draws c)) (mkChan (ch_sa c) (S (ch_draws c))).

(** A call of the association on one buffer. *)
Definition crypt {A} (a : sassoc) (b : FlexBuffer.t) (m : M SecAssoc.st A) : M chan (A * FlexBuffer.t) := fun c =>
  let put st := mkChan (Some (mkSa (SecAssoc.saKey st) (SecAssoc.iv st))) (ch_draws c) in
  match m (SecAssoc.mkst (sa_key a) (sa_iv a) b FlexBuffer.empty) with
  | Ok x st => Ok (x, SecAssoc.buf st) (put st)
  | Throw e st => Throw e (put st)
  | Crash x => Crash x
  end.

(** The fields in the order of the stream operators; the last ends up in front. *)
Definition header_fields (h : header) (dlen : Z) : list (nat * Z) :=
  [(4%nat, dlen); (1%nat, h_ack h); (1%nat, h_cmd h); (4%nat, h_did h); (4%nat, h_usr h)].

Definition marshalBfsDevicePacket (h : header) (dev_send_seq : Z) (buf : FlexBuffer.t) : M chan FlexBuffer.t :=
  sa ← gets ch_sa;
  match sa with
  | None => throw (bfsDeviceError "Cannot marshal with NULL security context")
  | Some a =>
      '(_, buf) ← on_buffer (push_all (header_fields h (length buf))) buf;
      r ← draw;
      '(_, buf) ← crypt a buf (SecAssoc.encryptData (seq_aad dev_send_seq) true r);
      mret buf
  end.

(** [char] is signed; the acknowledgement is the byte that was sent. *)
Definition pull_header : M FlexBuffer.t (header * Z) :=
  usr ← pull 4;
  did ← pull 4;
  ccmd ← pull_int 1;
  ack ← pull 1;
  dlen ← pull 4;
  mret (mkHeader usr did ccmd ack, dlen).

(** [None] is the return code -1. *)
Definition unmarshalBfsDevicePacket (dev_recv_seq : Z) (buf : FlexBuffer.t) : M chan (option header * FlexBuffer.t) :=
  sa ← gets ch_sa;
  match sa with
  | None => throw (bfsDeviceError "Cannot unmarshal with NULL security context")
  | Some a =>
      '(_, buf) ← crypt a buf (SecAssoc.decryptData (seq_aad dev_recv_seq) true);
      '(h, dlen, buf) ← on_buffer pull_header buf;
      if negb (length buf =? dlen) then mret (None, buf) else mret (Some h, buf)
  end.
End layer.
End DeviceLayer.
Import DeviceLayer.

(** ** [bfsRemoteDevice] *)
Module RemoteDevice.
Record t := mk {
  devState : dev_state;
  deviceID : Z;
  numBlocks : Z;
  remoteConn : option NetConn.t;
  secContext : chan;
  rd_send_seq : Z;
  rd_recv_seq : Z
}.

(** An operation up to the point where it waits, with its result when it ends
    there, and what follows; the buffer is carried over. *)
Record dop (A : Type) := mkDop {
  d_send : M t (FlexBuffer.t + A);
  d_recv : FlexBuffer.t -> M t A
}.
Arguments mkDop {A}.
Arguments d_send {A}.
Arguments d_recv {A}.

Section remote.
Context `{Cipher} (rnd : nat -> bytes) (kernel : nat -> Z).

(** The constructor, and [setSecurityAssociation]. *)
Definition ctor (sa : option sassoc) (draws : nat) : t := mk BFSDEV_UKNOWN 0 0 None (mkChan sa draws) 0 0.

Definition set_state (st : dev_state) (d : t) : t :=
  mk st (deviceID d) (numBlocks d) (remoteConn d) (secContext d) (rd_send_seq d) (rd_recv_seq d).
Definition set_topo (did nblks : Z) (d : t) : t :=
  mk (devState d) did nblks (remoteConn d) (secContext d) (rd_send_seq d) (rd_recv_seq d).
Definition set_conn (n : option NetConn.t) (d : t) : t :=
  mk (devState d) (deviceID d) (numBlocks d) n (secContext d) (rd_send_seq d) (rd_recv_seq d).
Definition set_chan (c : chan) (d : t) : t :=
  mk (devState d) (deviceID d) (numBlocks d) (remoteConn d) c (rd_send_seq d) (rd_recv_seq d).
Definition inc_send (d : t) : t :=
  mk (devState d) (deviceID d) (numBlocks d) (remoteConn d) (secContext d) (u32 (rd_send_seq d + 1)) (rd_recv_seq d).
Definition inc_recv (d : t) : t :=
  mk (devState d) (deviceID d) (numBlocks d) (remoteConn d) (secContext d) (rd_send_seq d) (u32 (rd_recv_seq d + 1)).

Definition on_chan {A} (m : M chan A) : M t A := fun d =>
  match m (secContext d) with
  | Ok a c => Ok a (set_chan c d)
  | Throw e c => Throw e (set_chan c d)
  | Crash x => Crash x
  end.

Definition on_conn {A} (m : M NetConn.t A) : M t A := fun d =>
  match remoteConn d with
  | None => Crash Undefined_behaviour
  | Some n =>
      match m n with
      | Ok a n => Ok a (set_conn (Some n) d)
      | Throw e n => Throw e (set_conn (Some n) d)
      | Crash x => Crash x
      end
  end.

(** A request: headers, then the socket; [true] when it was sent.  The single
    block operations count it before the send, the list operations ([late])
    after it. *)
Definition request (late : bool) (cmd did : Z) (buf : FlexBuffer.t) : M t (bool * FlexBuffer.t) :=
  seq ← gets rd_send_seq;
  buf ← on_chan (marshalBfsDevicePacket rnd (mkHeader 1 did cmd 0) seq buf);
  (if late then mret () else modify inc_send) ;;
  n ← on_conn (NetConn.sendPacketizedBuffer kernel buf);
  if negb (n =? length buf) then mret (false, buf)
  else (if late then modify inc_send else mret ()) ;; mret (true, buf).

(** The response to it: the fields it must have are checked, [check_did] says
    whether the device's number is among them. *)
Definition response (cmd : Z) (check_did : bool) (len : Z) (buf : FlexBuffer.t) : M t (bool * FlexBuffer.t) :=
  '(n, buf) ← on_conn (NetConn.recvPacketizedBuffer kernel buf);
  if n <=? 0 then mret (false, buf)
  else
    d ← get;
    '(h, buf) ← on_chan (unmarshalBfsDevicePacket (rd_recv_seq d) buf);
    match h with
    | None => mret (false, buf)
    | Some h =>
        if negb (h_usr h =? 1) || (check_did && negb (h_did h =? deviceID d)) || negb (h_cmd h =? cmd) ||
           negb (h_ack h =? 1) || negb (length buf =? len)
        then mret (false, buf)
        else modify inc_recv ;; mret (true, buf)
    end.

(** *** [bfsDeviceInitialize]

    [n] is the connected socket, if the connection could be made; [sizeof] of
    the topology is 16, with four bytes between the fields. *)
Definition TOPO_LEN : Z := 16.

Definition bfsDeviceInitialize (n : option NetConn.t) : dop Z :=
  mkDop
    (match n with
     | None => modify (set_state BFSDEV_ERRORED) ;; mret (inr (-1))
     | Some n =>
         modify (set_conn (Some n)) ;;
         '(sent, buf) ← request false BFS_DEVICE_GET_TOPO 0 FlexBuffer.empty;
         mret (if (sent : bool) then inl buf else inr (-1))
     end)
    (fun buf =>
       '(good, buf) ← response BFS_DEVICE_GET_TOPO false TOPO_LEN buf;
       if negb good then mret (-1)
       else
         '(topo, _) ← on_buffer (b ← get; load (hlength b) TOPO_LEN) buf;
         modify (set_topo (le_combine (take 4 topo)) (le_combine (drop 8 topo))) ;;
         mret 0).

Definition bfsDeviceUninitialize : M t Z := modify (set_conn None) ;; mret 0.

(** *** One block

    The caller's block object is the buffer of request and response; it is
    returned with the return code. *)
Definition submit_io (cmd : Z) (pblk : FlexBuffer.t) : M t (FlexBuffer.t + Z * FlexBuffer.t) :=
  did ← gets deviceID;
  '(sent, pblk) ← request false cmd did pblk;
  mret (if (sent : bool) then inl pblk else inr (-1, pblk)).

(** The block's number leads the data of the response. *)
Definition check_blkid (blkid : Z) (pblk : FlexBuffer.t) : M t (Z * FlexBuffer.t) :=
  '(rblkid, pblk) ← on_buffer (pull 8) pblk;
  if negb (rblkid =? blkid) then mret (-1, pblk) else mret (0, pblk).

Definition getBlock (blkid : Z) (pblk : FlexBuffer.t) : dop (Z * FlexBuffer.t) :=
  mkDop
    ('(_, pblk) ← on_buffer (setData (le_split 8 blkid)) pblk;
     submit_io BFS_DEVICE_GET_BLOCK pblk)
    (fun pblk =>
       '(good, pblk) ← response BFS_DEVICE_GET_BLOCK true (8 + BLK_SZ) pblk;
       if negb good then mret (-1, pblk) else check_blkid blkid pblk).

(** The version that copies into [blk] brings its own block object. *)
Definition getBlock_copy (blkid : Z) : dop (Z * bytes) :=
  mkDop
    (match block_ctor None BLK_SZ 0 0 with
     | Ok _ pblk =>
         r ← d_send (getBlock blkid pblk);
         mret (match r with inl pblk => inl pblk | inr (rc, _) => inr (rc, []) end)
     | Throw e _ => throw e
     | Crash x => die x
     end)
    (fun pblk =>
       '(rc, pblk) ← d_recv (getBlock blkid pblk) pblk;
       if negb (rc =? 0) then mret (rc, [])
       else
         '(blk, _) ← on_buffer (b ← get; load (hlength b) (length b)) pblk;
         mret (rc, blk)).

Definition putBlock (blkid : Z) (pblk : FlexBuffer.t) : dop (Z * FlexBuffer.t) :=
  mkDop
    ('(_, pblk) ← on_buffer (push 8 blkid) pblk;
     submit_io BFS_DEVICE_PUT_BLOCK pblk)
    (fun pblk =>
       '(good, pblk) ← response BFS_DEVICE_PUT_BLOCK false 8 pblk;
       if negb good then mret (-1, pblk) else check_blkid blkid pblk).

(** *** Lists of blocks

    The list is a map of the C++ library, so the numbers are in order and
    different; a block is given by the [BLK_SZ] bytes at its buffer.  The results
    are the return code and the blocks with what was copied into them. *)
Fixpoint add_ids (ids : list Z) : M FlexBuffer.t () :=
  match ids with
  | [] => mret ()
  | i :: ids => addTrailer (le_split 8 i) ;; add_ids ids
  end.

Fixpoint add_blocks (blks : list (Z * bytes)) : M FlexBuffer.t () :=
  match blks with
  | [] => mret ()
  | (i, d) :: blks => addTrailer (le_split 8 i) ;; addTrailer d ;; add_blocks blks
  end.

(** [std::find] and [erase]. *)
Fixpoint erase (i : Z) (l : list Z) : list Z :=
  match l with
  | [] => []
  | j :: l => if decide (i = j) then l else j :: erase i l
  end.

(** What a response lists is taken off while the manifest is not empty. *)
Fixpoint take_blocks (n : nat) (manifest : list Z) (blks : gmap Z bytes) : M FlexBuffer.t (Z * gmap Z bytes) :=
  match n with
  | O => mret (0, blks)
  | S n =>
      rblkid ← pull 8;
      if decide (rblkid ∈ manifest) then
        d ← removeHeader BLK_SZ;
        take_blocks n (erase rblkid manifest) (<[rblkid := d.1]> blks)
      else mret (-1, blks)
  end.

Fixpoint take_ids (n : nat) (manifest : list Z) : M FlexBuffer.t Z :=
  match n with
  | O => mret 0
  | S n =>
      rblkid ← pull 8;
      if decide (rblkid ∈ manifest) then take_ids n (erase rblkid manifest) else mret (-1)
  end.

Definition getBlocks (ids : list Z) : dop (Z * gmap Z bytes) :=
  mkDop
    ('(_, buf) ← on_buffer (addTrailer (le_split 8 (zlen ids)) ;; add_ids ids) FlexBuffer.empty;
     did ← gets deviceID;
     '(sent, buf) ← request true BFS_DEVICE_GET_BLOCKS did buf;
     mret (if (sent : bool) then inl buf else inr (-1, ∅)))
    (fun buf =>
       '(good, buf) ← response BFS_DEVICE_GET_BLOCKS true (8 + (8 + BLK_SZ) * zlen ids) buf;
       if negb good then mret (-1, ∅)
       else
         '(rsz, buf) ← on_buffer (pull 8) buf;
         if negb (rsz =? zlen ids) then mret (-1, ∅)
         else
           '(r, _) ← on_buffer (take_blocks (List.length ids) ids ∅) buf;
           mret r).

Definition putBlocks (blks : list (Z * bytes)) : dop Z :=
  mkDop
    ('(_, buf) ← on_buffer (addTrailer (le_split 8 (zlen blks)) ;; add_blocks blks) FlexBuffer.empty;
     did ← gets deviceID;
     '(sent, buf) ← request true BFS_DEVICE_PUT_BLOCKS did buf;
     mret (if (sent : bool) then inl buf else inr (-1)))
    (fun buf =>
       '(good, buf) ← response BFS_DEVICE_PUT_BLOCKS false (8 + 8 * zlen blks) buf;
       if negb good then mret (-1)
       else
         '(rsz, buf) ← on_buffer (pull 8) buf;
         if negb (rsz =? zlen blks) then mret (-1)
         else
           '(r, _) ← on_buffer (take_ids (List.length blks) blks.*1) buf;
           mret r).
End remote.
End RemoteDevice.

(** ** [bfsNetworkDevice] *)
Module NetworkDevice.
Record t := mk {
  devState : dev_state;
  deviceID : Z;
  secContext : chan;
  storage : option DeviceStorage.t;
  nd_send_seq : Z;
  nd_recv_seq : Z;
  conns : gmap Z NetConn.t           (* the clients of the multiplexer *)
}.

Definition set_state (st : dev_state) (d : t) : t :=
  mk st (deviceID d) (secContext d) (storage d) (nd_send_seq d) (nd_recv_seq d) (conns d).
Definition set_chan (c : chan) (d : t) : t :=
  mk (devState d) (deviceID d) c (storage d) (nd_send_seq d) (nd_recv_seq d) (conns d).
Definition set_storage (st : option DeviceStorage.t) (d : t) : t :=
  mk (devState d) (deviceID d) (secContext d) st (nd_send_seq d) (nd_recv_seq d) (conns d).
Definition inc_send (d : t) : t :=
  mk (devState d) (deviceID d) (secContext d) (storage d) (u32 (nd_send_seq d + 1)) (nd_recv_seq d) (conns d).
Definition inc_recv (d : t) : t :=
  mk (devState d) (deviceID d) (secContext d) (storage d) (nd_send_seq d) (u32 (nd_recv_seq d + 1)) (conns d).
Definition set_conns (m : gmap Z NetConn.t) (d : t) : t :=
  mk (devState d) (deviceID d) (secContext d) (storage d) (nd_send_seq d) (nd_recv_seq d) m.

(** The constructor. *)
Definition ctor (did : Z) (draws : nat) : t := mk BFSDEV_UNINITIALIZED did (mkChan None draws) None 0 0 ∅.

Section device.
Context `{Cipher} (rnd : nat -> bytes) (kernel : Z -> nat -> Z).

Definition on_chan {A} (m : M chan A) : M t A := fun d =>
  match m (secContext d) with
  | Ok a c => Ok a (set_chan c d)
  | Throw e c => Throw e (set_chan c d)
  | Crash x => Crash x
  end.

Definition on_conn {A} (conn : Z) (m : M NetConn.t A) : M t A := fun d =>
  match conns d !! conn with
  | None => Crash Undefined_behaviour
  | Some n =>
      match m n with
      | Ok a n => Ok a (set_conns (<[conn := n]> (conns d)) d)
      | Throw e n => Throw e (set_conns (<[conn := n]> (conns d)) d)
      | Crash x => Crash x
      end
  end.

(** The methods of the storage object: with a test of the pointer, and without. *)
Definition the_storage : M t DeviceStorage.t :=
  d ← get;
  match storage d with
  | None => throw (bfsDeviceError "Using NULL storage device, failed")
  | Some st => mret st
  end.
Definition raw_storage : M t DeviceStorage.t :=
  d ← get;
  match storage d with
  | None => die Undefined_behaviour
  | Some st => mret st
  end.

(** A block outside the device has no address: nothing is copied, and the null
    pointer that is returned is not looked at. *)
Definition put_block (blkid : Z) (blk : bytes) : M t () :=
  st ← the_storage;
  match DeviceStorage.putBlock blkid blk st with
  | Some st => modify (set_storage (Some st))
  | None => mret ()
  end.

(** *** The commands

    Each handles the data behind the headers; [None] is the return code -1,
    otherwise the device's number for the response and its data. *)
Definition get_topo (buf : FlexBuffer.t) : M t (option (Z * FlexBuffer.t)) :=
  if negb (length buf =? 0) then mret None
  else
    did ← gets deviceID;
    st ← raw_storage;
    '(_, buf) ← on_buffer (setData (le_split 4 did ++ zeros 4 ++ le_split 8 (DeviceStorage.numBlocks st))) buf;
    mret (Some (did, buf)).

Definition get_block (did : Z) (buf : FlexBuffer.t) : M t (option (Z * FlexBuffer.t)) :=
  id ← gets deviceID;
  if negb (length buf =? 8) then mret None
  else if negb (did =? id) then mret None
  else
    '(blkid, buf) ← on_buffer (b ← get; d ← load (hlength b) 8; mret (le_combine d)) buf;
    '(_, buf) ← on_buffer (resetWithAlloc BLK_SZ Byte.x00 BFSFLEXBUF_DEFAULT_PAD BFSFLEXBUF_DEFAULT_PAD false) buf;
    st ← the_storage;
    '(_, buf) ← on_buffer (match DeviceStorage.getBlock blkid st with
                           | Some d => b ← get; store (hlength b) d
                           | None => mret ()
                           end) buf;
    '(_, buf) ← on_buffer (push 8 blkid) buf;
    mret (Some (did, buf)).

Definition do_put_block (did : Z) (buf : FlexBuffer.t) : M t (option (Z * FlexBuffer.t)) :=
  id ← gets deviceID;
  if negb (length buf =? 8 + BLK_SZ) then mret None
  else if negb (did =? id) then mret None
  else
    '(blkid, buf) ← on_buffer (pull 8) buf;
    '(blk, buf) ← on_buffer (b ← get; load (hlength b) BLK_SZ) buf;
    put_block blkid blk ;;
    '(_, buf) ← on_buffer (setData (le_split 8 blkid)) buf;
    mret (Some (did, buf)).

(** [sz] numbers; the loop ends at the latest with an underflow. *)
Fixpoint pull_ids (n : nat) : M FlexBuffer.t (list Z) :=
  match n with
  | O => mret []
  | S n => i ← pull 8; ids ← pull_ids n; mret (i :: ids)
  end.
Definition loop_fuel (sz : Z) (buf : FlexBuffer.t) : nat := Z.to_nat (Z.min sz (length buf / 8 + 1)).

Fixpoint list_blocks (st : DeviceStorage.t) (manifest : list Z) : M FlexBuffer.t () :=
  match manifest with
  | [] => mret ()
  | i :: manifest =>
      addTrailer (le_split 8 i) ;;
      match DeviceStorage.getBlock i st with
      | None => die Undefined_behaviour
      | Some d => addTrailer d ;; list_blocks st manifest
      end
  end.

Definition get_blocks (did : Z) (buf : FlexBuffer.t) : M t (option (Z * FlexBuffer.t)) :=
  '(sz, buf) ← on_buffer (pull 8) buf;
  '(manifest, buf) ← on_buffer (pull_ids (loop_fuel sz buf)) buf;
  '(_, buf) ← on_buffer (burn ;; push 8 sz) buf;
  st ← raw_storage;
  '(_, buf) ← on_buffer (list_blocks st manifest) buf;
  mret (Some (did, buf)).

(** A null address makes [removeHeader] skip the copy. *)
Fixpoint store_blocks (n : nat) (buf : FlexBuffer.t) : M t (list Z * FlexBuffer.t) :=
  match n with
  | O => mret ([], buf)
  | S n =>
      '(i, buf) ← on_buffer (pull 8) buf;
      st ← raw_storage;
      '(d, _, buf) ← on_buffer (removeHeader BLK_SZ) buf;
      (match DeviceStorage.putBlock i d st with
       | Some st => modify (set_storage (Some st))
       | None => mret ()
       end) ;;
      '(ids, buf) ← store_blocks n buf;
      mret (i :: ids, buf)
  end.

Definition put_blocks (did : Z) (buf : FlexBuffer.t) : M t (option (Z * FlexBuffer.t)) :=
  '(sz, buf) ← on_buffer (pull 8) buf;
  '(manifest, buf) ← store_blocks (loop_fuel sz buf) buf;
  '(_, buf) ← on_buffer (burn ;; push 8 sz ;; RemoteDevice.add_ids manifest) buf;
  mret (Some (did, buf)).

Definition process_command (h : header) (buf : FlexBuffer.t) : M t (option (Z * FlexBuffer.t)) :=
  if h_cmd h =? BFS_DEVICE_GET_TOPO then get_topo buf
  else if h_cmd h =? BFS_DEVICE_GET_BLOCK then get_block (h_did h) buf
  else if h_cmd h =? BFS_DEVICE_PUT_BLOCK then do_put_block (h_did h) buf
  else if h_cmd h =? BFS_DEVICE_GET_BLOCKS then get_blocks (h_did h) buf
  else if h_cmd h =? BFS_DEVICE_PUT_BLOCKS then put_blocks (h_did h) buf
  else mret None.

(** The return code, and the buffer, which now has the sealed response. *)
Definition processClientRequest (conn : Z) (buf : FlexBuffer.t) : M t (Z * FlexBuffer.t) :=
  seq ← gets nd_recv_seq;
  '(h, buf) ← on_chan (unmarshalBfsDevicePacket seq buf);
  match h with
  | None => mret (-1, buf)
  | Some h =>
      if negb (h_usr h =? 1) || negb (h_ack h =? 0) then mret (-1, buf)
      else
        modify inc_recv ;;
        r ← process_command h buf;
        match r with
        | None => mret (-1, buf)
        | Some (did, buf) =>
            seq ← gets nd_send_seq;
            buf ← on_chan (marshalBfsDevicePacket rnd (mkHeader (h_usr h) did (h_cmd h) 1) seq buf);
            n ← on_conn conn (NetConn.sendPacketizedBuffer (kernel conn) buf);
            if negb (n =? length buf) then mret (-1, buf)
            else modify inc_send ;; mret (0, buf)
        end
  end.

(** *** The multiplexer

    A socket that is ready: the listening one, with the connection that was
    accepted, if any, or a client's. *)
Inductive event :=
  | EServer (conn : option (Z * NetConn.t))
  | EClient (conn : Z).

(** One buffer serves all the ready sockets. *)
Fixpoint serve (ready : list event) (buf : FlexBuffer.t) : M t Z :=
  match ready with
  | [] => mret 0
  | EServer None :: _ => mret (-1)
  | EServer (Some (conn, n)) :: ready =>
      modify (fun d => set_conns (<[conn := n]> (conns d)) d) ;; serve ready buf
  | EClient conn :: ready =>
      '(n, buf) ← on_conn conn (NetConn.recvPacketizedBuffer (kernel conn) buf);
      if n <? 0 then mret (-1)
      else if length buf =? 0 then modify (fun d => set_conns (delete conn (conns d)) d) ;; mret 0
      else
        '(rc, buf) ← processClientRequest conn buf;
        if rc =? -1 then mret (-1) else serve ready buf
  end.

(** [None]: waiting was interrupted. *)
Definition processCommunications (ready : option (list event)) : M t Z :=
  match ready with
  | None => mret BFS_SHUTDOWN
  | Some ready => serve ready FlexBuffer.empty
  end.

(** *** The state machine

    [cfg]: association and number of blocks from the configuration, [listening]:
    the server socket is there. *)
Definition bfsNetworkDeviceInitialize (cfg : option (sassoc * Z)) (listening : bool) : M t Z :=
  match cfg with
  | None => throw (bfsDeviceError "Unable to find SA config for device, aborting")
  | Some (sa, devsz) =>
      modify (fun d => set_chan (mkChan (Some sa) (ch_draws (secContext d))) d) ;;
      did ← gets deviceID;
      modify (set_storage (Some (DeviceStorage.mk did devsz (Some ∅)))) ;;
      if listening then mret 0 else modify (set_state BFSDEV_ERRORED) ;; mret (-1)
  end.

(** One turn of the loop of [execute]; the result ends it.  [stop]: the signal
    to shut down came. *)
Definition execute_turn (cfg : option (sassoc * Z)) (listening stop : bool) (ready : option (list event)) : M t (option Z) :=
  if stop then mret (Some 0)
  else
    st ← gets devState;
    match st with
    | BFSDEV_UNINITIALIZED =>
        rc ← bfsNetworkDeviceInitialize cfg listening;
        modify (set_state (if rc =? 0 then BFSDEV_READY else BFSDEV_ERRORED)) ;;
        mret None
    | BFSDEV_READY =>
        rc ← processCommunications ready;
        mret (if rc =? BFS_SHUTDOWN then Some rc_success else if rc =? rc_failure then Some rc else None)
    | BFSDEV_ERRORED | BFSDEV_UKNOWN => mret (Some rc_failure)
    end.

(** The loop, over the turns the outside world gives it: the signal and the
    ready sockets of each.  [None]: it is still running. *)
Fixpoint execute (cfg : option (sassoc * Z)) (listening : bool) (turns : list (bool * option (list event))) : M t (option Z) :=
  match turns with
  | [] => mret None
  | (stop, ready) :: turns =>
      r ← execute_turn cfg listening stop ready;
      match r with
      | Some rc => mret (Some rc)
      | None => execute cfg listening turns
      end
  end.
End device.
End NetworkDevice.
