(* ===== verification/Client.v ===== *)
(** * The client's requests

    Models the exchange of messages of [bfs_client/bfs_client.cpp]: how each
    operation packs, seals and sends its request and what it makes of the
    response.  The write-back cache of file data in local files is in
    [ClientCache]; here [open], [create], [read], [write], [release] and
    [truncate] are the parts that talk to the server.

    The server works between the two halves of an operation, [op_send] and
    [op_recv]; [inr] is an early return of the C++ function. *)
From S2P Require Import Prelude Layout BfsUtil FlexBuffer SecAssoc Wire BlockLayer Server.
Import FlexBuffer FlexStream Msg.

Record client := mkClient {
  c_net : NetConn.t;
  c_sa : sassoc;
  send_seq : Z;
  recv_seq : Z;
  mux_lock : bool;
  c_live : bool;    (* client, mux and secContext were not deleted *)
  c_draws : nat
}.

Record op (A : Type) := mkOp { op_send : M client (() + A); op_recv : M client A }.
Arguments mkOp {A}.
Arguments op_send {A}.
Arguments op_recv {A}.

Section client.
Context `{Cipher} (rnd : nat -> bytes) (kernel : nat -> Z).

Definition set_net (n : NetConn.t) (c : client) : client :=
  mkClient n (c_sa c) (send_seq c) (recv_seq c) (mux_lock c) (c_live c) (c_draws c).
Definition set_sa (a : sassoc) (c : client) : client :=
  mkClient (c_net c) a (send_seq c) (recv_seq c) (mux_lock c) (c_live c) (c_draws c).
Definition set_lock (l : bool) (c : client) : client :=
  mkClient (c_net c) (c_sa c) (send_seq c) (recv_seq c) l (c_live c) (c_draws c).
Definition set_seqs (s r : Z) (c : client) : client :=
  mkClient (c_net c) (c_sa c) s r (mux_lock c) (c_live c) (c_draws c).

Definition on_net {A} (m : M NetConn.t A) : M client A := fun c =>
  match m (c_net c) with
  | Ok a n => Ok a (set_net n c)
  | Throw e n => Throw e (set_net n c)
  | Crash x => Crash x
  end.

Definition c_pkt {A} (m : M FlexBuffer.t A) (b : FlexBuffer.t) : M client (A * FlexBuffer.t) := fun c =>
  match m b with
  | Ok a b => Ok (a, b) c
  | Throw e _ => Throw e c
  | Crash x => Crash x
  end.

(** A call of [secContext] on one buffer. *)
Definition c_crypt {A} (b : FlexBuffer.t) (m : M SecAssoc.st A) : M client (A * FlexBuffer.t) := fun c =>
  let put st := set_sa (mkSa (SecAssoc.saKey st) (SecAssoc.iv st)) c in
  match m (SecAssoc.mkst (sa_key (c_sa c)) (sa_iv (c_sa c)) b FlexBuffer.empty) with
  | Ok a st => Ok (a, SecAssoc.buf st) (put st)
  | Throw e st => Throw e (put st)
  | Crash x => Crash x
  end.

Definition c_draw : M client bytes := fun c =>
  Ok (rnd (c_draws c)) (mkClient (c_net c) (c_sa c) (send_seq c) (recv_seq c) (mux_lock c) (c_live c) (S (c_draws c))).

Definition lock : M client () :=
  l ← gets mux_lock;
  if (l : bool) then die Deadlocked else modify (set_lock true).
Definition unlock : M client () := modify (set_lock false).

(** [cleanup()] deletes the objects; later uses of them are undefined. *)
Definition cleanup : M client () :=
  modify (fun c => mkClient (c_net c) (c_sa c) (send_seq c) (recv_seq c) (mux_lock c) false (c_draws c)).

(** The handlers around an operation. *)
Definition guarded {A} (m : M client A) : M client (A + Z) :=
  catch (a ← m; mret (inl a))
    (fun e => match e with
     | bfsCryptoError _ | bfsUtilError _ => Some (mret (inr rc_failure))
     | std_runtime_error _ => Some (cleanup ;; mret (inr rc_failure))
     | _ => None
     end).

(** ** Sending and receiving *)
Definition send_msgp (spkt : FlexBuffer.t) : M client () :=
  bytes_sent ← on_net (NetConn.sendPacketizedBuffer kernel spkt);
  if (bytes_sent <? 0) || negb (u32 bytes_sent =? length spkt)
  then throw (std_runtime_error "Send message failed, aborting") else mret ().

(** [types]: message and operation type to expect, if any. *)
Definition take_types (types : option (Z * Z)) (rpkt : FlexBuffer.t) : M client FlexBuffer.t :=
  match types with
  | None => mret rpkt
  | Some (mtype, otype) =>
      '(r_mtype, rpkt) ← c_pkt (pull_int 4) rpkt;
      '(r_otype, rpkt) ← c_pkt (pull_int 4) rpkt;
      if negb (r_mtype =? mtype) || negb (r_otype =? otype)
      then throw (std_runtime_error "Client recv message/op invalid type") else mret rpkt
  end.

Definition recv_msgp (rpkt : FlexBuffer.t) (len : Z) (types : option (Z * Z)) (allow_short : bool) :
    M client FlexBuffer.t :=
  '(bytes_read, rpkt) ← on_net (NetConn.recvPacketizedBuffer kernel rpkt);
  if (bytes_read =? 0) || (bytes_read =? -1)
  then unlock ;; throw (std_runtime_error "Failed during recvPacketizedDataL")
  else
    seq ← gets recv_seq;
    '(_, rpkt) ← c_crypt rpkt (SecAssoc.decryptData (seq_aad seq) true);
    modify (fun c => set_seqs (send_seq c) (u32 (recv_seq c + 1)) c) ;;
    let bytes_read := length rpkt in
    rpkt ← take_types types rpkt;
    if (allow_short && (bytes_read <? 8)) || (negb allow_short && negb (bytes_read =? len))
    then throw (std_runtime_error "Client recv message is too short") else mret rpkt.

(** Seal under the lock and send. *)
Definition send_sealed (spkt : FlexBuffer.t) : M client () :=
  lock ;;
  live ← gets c_live;
  if negb live then die Undefined_behaviour
  else
    seq ← gets send_seq;
    r ← c_draw;
    '(_, spkt) ← c_crypt spkt (SecAssoc.encryptData (seq_aad seq) true r);
    modify (fun c => set_seqs (u32 (send_seq c + 1)) (recv_seq c) c) ;;
    send_msgp spkt.

(** A request: [data] (a path with its terminator, or file data), then the
    fields in the order of the stream operators. *)
Definition send_request (data : option bytes) (fields : list (nat * Z)) : M client () :=
  '(_, spkt) ← c_pkt (resetWithAlloc (zlen (default [] data)) Byte.x00 (fields_len fields) 0 false ;;
                       (match data with Some d => setData d ;; mret () | None => mret () end) ;;
                       push_all fields) FlexBuffer.empty;
  send_sealed spkt.

(** The response to it; the lock is released before it is looked at. *)
Definition recv_response {A} (len otype : Z) (allow_short : bool) (m : M FlexBuffer.t A) : M client A :=
  rpkt ← recv_msgp FlexBuffer.empty len (Some (FROM_SERVER, otype)) allow_short;
  unlock ;;
  '(a, _) ← c_pkt m rpkt;
  mret a.

Definition c_path (path : bytes) : bytes := path ++ [Byte.x00].
Definition path_len (path : bytes) : Z := zlen path + 1.
Definition headers (otype : Z) : list (nat * Z) := [(4%nat, otype); (4%nat, TO_SERVER)].

Definition sending (m : M client ()) : M client (() + Z) := guarded m.

Definition receiving (m : M client Z) : M client Z :=
  r ← guarded m;
  mret (match r with inl a => a | inr rc => rc end).

(** ** Operations that return a 32-bit code *)
Definition bfs_mkdir (path : bytes) (mode : Z) : op Z :=
  mkOp (sending (send_request (Some (c_path path)) ([(4%nat, path_len path); (4%nat, mode)] ++ headers CLIENT_MKDIR_OP)))
       (receiving (recv_response 12 CLIENT_MKDIR_OP false (pull_int 4))).

Definition bfs_unlink (path : bytes) : op Z :=
  mkOp (sending (send_request (Some (c_path path)) ([(4%nat, path_len path)] ++ headers CLIENT_UNLINK_OP)))
       (receiving (recv_response 12 CLIENT_UNLINK_OP false (pull_int 4))).

Definition bfs_rmdir (path : bytes) : op Z :=
  mkOp (sending (send_request (Some (c_path path)) ([(4%nat, path_len path)] ++ headers CLIENT_RMDIR_OP)))
       (receiving (recv_response 12 CLIENT_RMDIR_OP false (pull_int 4))).

Definition bfs_rename (from to : bytes) : op Z :=
  mkOp (sending (send_request (Some (c_path from ++ c_path to))
          ([(4%nat, path_len to); (4%nat, path_len from)] ++ headers CLIENT_RENAME_OP)))
       (receiving (recv_response 12 CLIENT_RENAME_OP false (pull_int 4))).

Definition bfs_release (fh : Z) : op Z :=
  mkOp (sending (assert_ (START_FD <=? fh) ;; send_request None ([(8%nat, fh)] ++ headers CLIENT_RELEASE_OP)))
       (receiving (recv_response 12 CLIENT_RELEASE_OP false (pull_int 4))).

(** ** Operations that return a 64-bit code *)

(** [(int)ret] *)
Definition as_int (ret : Z) : Z := signed 4 (u32 ret).

Definition bfs_chmod (path : bytes) (new_mode : Z) : op Z :=
  mkOp (sending (send_request (Some (c_path path)) ([(4%nat, path_len path); (4%nat, new_mode)] ++ headers CLIENT_CHMOD_OP)))
       (receiving (ret ← recv_response 16 CLIENT_CHMOD_OP false (pull 8); mret (as_int ret))).

Definition bfs_truncate (path : bytes) (fh len : Z) : op Z :=
  mkOp (sending (assert_ (START_FD <=? fh) ;;
          send_request (Some (c_path path))
            ([(4%nat, path_len path); (4%nat, u32 len); (8%nat, fh)] ++ headers CLIENT_TRUNCATE_OP)))
       (receiving (ret ← recv_response 16 CLIENT_TRUNCATE_OP false (pull 8); mret (as_int ret))).

(** The return code, and the handle that was stored in [fi->fh]. *)
Definition handle_result (first ret : Z) : Z * option Z :=
  if signed 8 ret <? first then (as_int ret, None) else (rc_success, Some ret).

Definition sending_fh (m : M client ()) : M client (() + Z * option Z) :=
  r ← guarded m;
  mret (match r with inl x => inl x | inr rc => inr (rc, None) end).

Definition receiving_fh (first : Z) (m : M client Z) : M client (Z * option Z) :=
  r ← guarded m;
  mret (match r with inl ret => handle_result first ret | inr rc => (rc, None) end).

Definition bfs_open (path : bytes) : op (Z * option Z) :=
  mkOp (sending_fh (send_request (Some (c_path path)) ([(4%nat, path_len path)] ++ headers CLIENT_OPEN_OP)))
       (receiving_fh START_FD (recv_response 16 CLIENT_OPEN_OP false (pull 8))).

Definition bfs_opendir (path : bytes) : op (Z * option Z) :=
  mkOp (sending_fh (send_request (Some (c_path path)) ([(4%nat, path_len path)] ++ headers CLIENT_OPENDIR_OP)))
       (receiving_fh ROOT_INO (recv_response 16 CLIENT_OPENDIR_OP false (pull 8))).

Definition bfs_create (path : bytes) (mode : Z) : op (Z * option Z) :=
  mkOp (sending_fh (send_request (Some (c_path path)) ([(4%nat, path_len path); (4%nat, mode)] ++ headers CLIENT_CREATE_OP)))
       (receiving_fh START_FD (recv_response 16 CLIENT_CREATE_OP false (pull 8))).

(** ** File data *)

(** The bytes that reached the caller's buffer are the second component. *)
Definition bfs_read (fh size offset : Z) : op (Z * bytes) :=
  mkOp (r ← guarded (assert_ (START_FD <=? fh) ;;
          send_request None ([(8%nat, offset); (8%nat, size); (8%nat, fh)] ++ headers CLIENT_READ_OP));
        mret (match r with inl x => inl x | inr rc => inr (rc, []) end))
       (r ← guarded (recv_response (u32 (16 + size)) CLIENT_READ_OP true
               (bytes_read ← pull 8;
                s ← get;
                d ← load (hlength s) bytes_read;
                mret (as_int bytes_read, d)));
        mret (match r with inl x => x | inr rc => (rc, []) end)).

(** One chunk of a write: [bytes_written < _size] is the only test of the
    result. *)
Definition bfs_write (fh : Z) (data : bytes) (offset : Z) : op Z :=
  mkOp (sending (assert_ (START_FD <=? fh) ;;
          send_request (Some data) ([(8%nat, offset); (8%nat, zlen data); (8%nat, fh)] ++ headers CLIENT_WRITE_OP)))
       (receiving (bytes_written ← recv_response 16 CLIENT_WRITE_OP true (pull 8);
                   mret (if bytes_written <? zlen data then rc_failure else as_int (zlen data)))).

(** ** Attributes *)
Record stat := mkStat { st_ino : Z; st_mode : Z; st_size : Z; st_atime : Z; st_mtime : Z; st_ctime : Z }.

(** The return code, and the attributes unless the file does not exist. *)
Definition bfs_getattr (path : bytes) : op (Z * option stat) :=
  mkOp (r ← guarded (send_request (Some (c_path path)) ([(4%nat, path_len path)] ++ headers CLIENT_GETATTR_OP));
        mret (match r with inl x => inl x | inr rc => inr (rc, None) end))
       (r ← guarded (recv_response 48 CLIENT_GETATTR_OP false
               (ret ← pull_int 4;
                _ ← pull 4;
                ctime ← pull 4; mtime ← pull 4; atime ← pull 4;
                ino ← pull 8;
                if negb (ret =? rc_success) && (ino <? ROOT_INO) then mret (- ENOENT, None)
                else
                  mode ← pull 4;
                  size ← pull_int 8;
                  mret (rc_success, Some (mkStat ino mode size atime mtime ctime))));
        mret (match r with inl x => x | inr rc => (rc, None) end)).

(** ** Listing a directory *)

(** The fields of the next entry and the name that belongs to it.  The names lie
    behind the fields that are left; [de_data_off] is the length of those, and
    [de_off] the place of the name among the names.  The comparison of a name
    with "." and ".." ends at the first byte that differs. *)
Definition take_entry (num_ents i de_off : Z) : M FlexBuffer.t (bytes * stat) :=
  recv_atime ← pull 4; recv_mtime ← pull 4; recv_ctime ← pull 4;
  ino ← pull 8; mode ← pull 4; size ← pull_int 8;
  dentry_path_len ← pull 4;
  let de_data_off := u64 (u64 (num_ents - i - 1) * DE_LEN) in
  s ← get;
  let at_ := hlength s + u64 (de_data_off + de_off) in
  d ← load at_ dentry_path_len;
  (if dentry_path_len =? 0 then die Undefined_behaviour else mret ()) ;;
  z ← load (at_ + dentry_path_len) 1;
  assert_ (bool_decide (z = [Byte.x00])) ;;
  mret (c_str (take (Z.to_nat (dentry_path_len - 1)) d), mkStat ino mode size recv_atime recv_mtime recv_ctime).

(** A reserved inode is the root, as the entries of the root for itself or as
    the parent of a directory in it.  Any other makes the function free the
    entry it goes on to use, or the copy of the path a second time. *)
Definition entry_allowed (path name : bytes) (ino : Z) : bool :=
  if ino <? FIRST_UNRESERVED_INO then
    if decide (path = [slash]) then bool_decide (name = [Byte.x2e]) || bool_decide (name = [Byte.x2e; Byte.x2e])
    else bool_decide (name = [Byte.x2e; Byte.x2e]) && bool_decide (bfs_dirname (bfs_strdup path) = [slash])
  else true.

(** [filler]: what FUSE's function returns, given the entries it has taken, is
    not 0.  [rounds] is the number of rounds; the entries that were taken are the
    result, with the exception that ended the loop. *)
Fixpoint take_entries (path : bytes) (filler : list (bytes * stat) -> bytes -> stat -> bool)
    (num_ents : Z) (rounds : nat) (i de_off : Z) (taken : list (bytes * stat)) :
    M FlexBuffer.t (list (bytes * stat) * option exn) := fun rpkt =>
  match rounds with
  | O => Ok (taken, None) rpkt
  | S rounds =>
      match take_entry num_ents i de_off rpkt with
      | Crash x => Crash x
      | Throw e rpkt => Ok (taken, Some e) rpkt
      | Ok (name, st) rpkt =>
          if negb (entry_allowed path name (st_ino st)) then Crash Undefined_behaviour
          else if filler taken name st then Ok (taken, None) rpkt
          else take_entries path filler num_ents rounds (i + 1) (u64 (de_off - MAX_FILE_NAME_LEN))
                 (taken ++ [(name, st)]) rpkt
      end
  end.

(** The number of entries, and the packet it came in. *)
Definition recv_count : M client (Z * FlexBuffer.t) :=
  rpkt ← recv_msgp FlexBuffer.empty 16 (Some (FROM_SERVER, CLIENT_READDIR_OP)) false;
  unlock ;;
  c_pkt (pull 8) rpkt.

(** The second message is read after the lock was released. *)
Definition recv_listing (path : bytes) (filler : list (bytes * stat) -> bytes -> stat -> bool) :
    M client (list (bytes * stat) * option exn) :=
  '(num_ents, rpkt) ← recv_count;
  let total_recv_data_len := u32 (num_ents * MAX_FILE_NAME_LEN) in
  let de_off := u32 (total_recv_data_len - MAX_FILE_NAME_LEN) in
  '(_, rpkt) ← c_pkt (resetWithAlloc total_recv_data_len Byte.x00 (u32 (num_ents * DE_LEN)) 0 false) rpkt;
  rpkt ← recv_msgp rpkt (u32 (total_recv_data_len + num_ents * DE_LEN)) None false;
  '(r, _) ← c_pkt (take_entries path filler num_ents (Z.to_nat num_ents) 0 de_off []) rpkt;
  mret r.

(** The return code, and the entries handed to FUSE. *)
Definition bfs_readdir (path : bytes) (filler : list (bytes * stat) -> bytes -> stat -> bool) (fh : Z) :
    op (Z * list (bytes * stat)) :=
  mkOp (r ← guarded (assert_ (START_FD <=? fh) ;; send_request None ([(8%nat, fh)] ++ headers CLIENT_READDIR_OP));
        mret (match r with inl x => inl x | inr rc => inr (rc, []) end))
       (r ← guarded (recv_listing path filler);
        match r with
        | inr rc => mret (rc, [])
        | inl (taken, err) =>
            r ← guarded (match err with Some e => throw e | None => mret () end);
            mret (match r with inl _ => rc_success | inr rc => rc end, taken)
        end).

(** ** Start and end of a session *)

(** The code of the response is only logged; crypto errors are not handled. *)
Definition session_op {A} (m : M client A) (on_rt : M client ()) : M client (option A) :=
  catch (a ← m; mret (Some a))
    (fun e => match e with
     | bfsUtilError _ => Some (mret None)
     | std_runtime_error _ => Some (on_rt ;; mret None)
     | _ => None
     end).

Definition bfs_init (do_mkfs : bool) : op (option Z) :=
  mkOp (r ← session_op (send_request None (headers (if do_mkfs then CLIENT_INIT_MKFS_OP else CLIENT_INIT_OP))) cleanup;
        mret (match r with Some x => inl x | None => inr None end))
       (session_op (recv_response 12 CLIENT_INIT_OP false (pull_int 4)) cleanup).

Definition bfs_destroy : op (option Z) :=
  mkOp (r ← session_op (send_request None (headers CLIENT_DESTROY_OP)) (mret ());
        mret (match r with Some x => inl x | None => inr None end))
       (r ← session_op (recv_response 12 CLIENT_DESTROY_OP false (pull_int 4)) (mret ());
        (match r with Some ret => if ret =? rc_success then cleanup else mret () | None => mret () end) ;;
        mret r).
End client.
