(* ===== verification/ClientCache.v ===== *)
(** * The client's cache of file data

    Models the file operations of [bfs_client/bfs_client.cpp] with their cache:
    the data of open files is kept in local files under [/tmp] and written to
    the server when a file is flushed, in chunks of 1 MiB.  The requests to the
    server are the operations of an interface, [Remote]; [RemoteCache] joins it
    to the network.

    Reads and writes of an open local file, [fstat], [close] and [ftruncate] are
    taken to succeed; [openable] says which local files can be opened.  The
    shared lock [writeback_lock] is modelled by its writer flag.  The loop that
    collects the chunks may run forever in the code; [Out_of_fuel] stands for
    that. *)
From S2P Require Import Prelude Layout BlockLayer Wire Client.
Import Msg.

Definition chunk_size : Z := 1024 * 1024.
(** The kernel unfolds the constant last: it stands for a number of list cells. *)
Strategy 1000 [chunk_size].
Definition CONGESTION_THRESHOLD : Z := 2 ^ 30 / chunk_size.

(** ** Local files *)
Definition pread (off n : Z) (f : bytes) : bytes := take (Z.to_nat n) (drop (Z.to_nat off) f).

Definition pwrite (off : Z) (d f : bytes) : bytes :=
  take (Z.to_nat off) (f ++ zeros (off - zlen f)) ++ d ++ drop (Z.to_nat (off + zlen d)) f.

Definition tmp_path (path : bytes) : bytes := [Byte.x2f; Byte.x74; Byte.x6d; Byte.x70] ++ path.

Record wcache := mkWcache {
  local : gmap bytes bytes;       (* the local files by path *)
  file_cache : gmap Z bytes;      (* the local file of a handle *)
  dirty_chunks : gmap Z (gset Z);
  total_dirty_chunks : Z;
  wb_writer : bool                (* writeback_lock: writer_active_ *)
}.

(** ** Requests to the server *)
Class Remote (W : Type) := {
  r_open : bytes -> M W (Z * option Z);
  r_create : bytes -> Z -> M W (Z * option Z);
  r_read : Z -> Z -> Z -> M W (Z * bytes);
  r_write : Z -> bytes -> Z -> M W Z;
  r_release : Z -> M W Z;
  r_truncate : bytes -> Z -> Z -> M W Z
}.

Record fclient (W : Type) := mkFc { cache : wcache; net : W }.
Arguments mkFc {W}.
Arguments cache {W}.
Arguments net {W}.

Section cache.
Context {W : Type} `{Remote W} (direct_io_flag : bool) (openable : bytes -> bool).
Abbreviation fclient := (fclient W).

Definition set_cache (c : wcache) (s : fclient) : fclient := mkFc c (net s).
Definition upd_cache (f : wcache -> wcache) : M fclient () := modify (fun s => set_cache (f (cache s)) s).

Definition remote {A} (m : M W A) : M fclient A := fun s =>
  match m (net s) with
  | Ok a w => Ok a (mkFc (cache s) w)
  | Throw e w => Throw e (mkFc (cache s) w)
  | Crash x => Crash x
  end.

Definition set_writer (b : bool) (c : wcache) : wcache :=
  mkWcache (local c) (file_cache c) (dirty_chunks c) (total_dirty_chunks c) b.

Definition wb_lock : M fclient () :=
  b ← gets (fun s => wb_writer (cache s));
  if (b : bool) then die Deadlocked else upd_cache (set_writer true).
Definition wb_unlock : M fclient () := upd_cache (set_writer false).
(** [lock_shared] and [unlock_shared] in one thread: only a writer matters. *)
Definition wb_shared : M fclient () :=
  b ← gets (fun s => wb_writer (cache s));
  if (b : bool) then die Deadlocked else mret ().

(** ** Opening and creating *)
Definition enter (fh : Z) (p content : bytes) (c : wcache) : wcache :=
  mkWcache (<[p := content]> (local c)) (<[fh := p]> (file_cache c)) (<[fh := ∅]> (dirty_chunks c))
    (total_dirty_chunks c) (wb_writer c).

(** [keep]: the contents of the local file that is already there stay. *)
Definition attach (keep : bool) (path : bytes) (fh : Z) : M fclient (Z * option Z) :=
  wb_lock ;;
  let p := tmp_path path in
  if openable p then
    upd_cache (fun c => enter fh p (if keep then default [] (local c !! p) else []) c) ;;
    wb_unlock ;;
    mret (rc_success, Some fh)
  else mret (rc_failure, Some fh).

Definition bfs_open (path : bytes) : M fclient (Z * option Z) :=
  '(rc, fh) ← remote (r_open path);
  match fh with
  | None => mret (rc, None)
  | Some fh => attach true path fh
  end.

Definition bfs_create (path : bytes) (mode : Z) : M fclient (Z * option Z) :=
  '(rc, fh) ← remote (r_create path mode);
  match fh with
  | None => mret (rc, None)
  | Some fh => attach false path fh
  end.

(** ** Reading *)
Definition bfs_read (fh size offset : Z) : M fclient (Z * bytes) :=
  wb_shared ;;
  if direct_io_flag then remote (r_read fh size offset)
  else
    c ← gets cache;
    match file_cache c !! fh with
    | None => die Abort_called
    | Some p => let d := pread offset size (default [] (local c !! p)) in mret (as_int (zlen d), d)
    end.

(** ** Writing *)

(** The chunks [i], [i+1], ... are marked; the total counts the new ones. *)
Fixpoint mark (n : nat) (i : Z) (d : gset Z) (total : Z) : gset Z * Z :=
  match n with
  | O => (d, total)
  | S n => if decide (i ∈ d) then mark n (i + 1) d total else mark n (i + 1) ({[i]} ∪ d) (u64 (total + 1))
  end.

Definition chunks_of (size : Z) : Z := size / chunk_size + (if size mod chunk_size =? 0 then 0 else 1).

(** A handle without an entry makes the code work on descriptor 0 and follow a null
    pointer. *)
Definition write_local (fh : Z) (buf : bytes) (offset : Z) : M fclient Z :=
  wb_lock ;;
  c ← gets cache;
  match file_cache c !! fh, dirty_chunks c !! fh with
  | Some p, Some d =>
      let '(d, total) := mark (Z.to_nat (chunks_of (zlen buf))) (offset / chunk_size) d (total_dirty_chunks c) in
      upd_cache (fun c => mkWcache (<[p := pwrite offset buf (default [] (local c !! p))]> (local c)) (file_cache c)
                            (<[fh := d]> (dirty_chunks c)) total (wb_writer c)) ;;
      wb_unlock ;;
      mret (as_int (zlen buf))
  | _, _ => die Undefined_behaviour
  end.

(** The first loop of a flush: the dirty chunks of the local file [f] are copied
    to their place in [write_buf] and collected in [todo]. *)
Fixpoint collect (fuel : nat) (force : bool) (f : bytes) (done : Z) (write_buf : bytes) (dirty : gset Z)
    (todo : list Z) (total : Z) : option (bytes * gset Z * list Z * Z) :=
  match fuel with
  | O => None
  | S fuel =>
      if (zlen f <=? done) && bool_decide (dirty = ∅) then Some (write_buf, dirty, todo, total)
      else
        let write_bytes := Z.min chunk_size (zlen f - done) in
        let i := done / chunk_size in
        if decide (i ∉ dirty) then collect fuel force f (done + write_bytes) write_buf dirty todo total
        else
          let dirty := dirty ∖ {[i]} in
          let todo := todo ++ [i] in
          let write_buf := pwrite done (pread done write_bytes f) write_buf in
          let total := u64 (total - 1) in
          if force && (total * 10 <? CONGESTION_THRESHOLD * 8) then Some (write_buf, dirty, todo, total)
          else collect fuel force f (done + write_bytes) write_buf dirty todo total
  end.

(** The second loop: the collected chunks are sent, with the data taken from the
    front of [write_buf] on. *)
Fixpoint send_chunks (fh : Z) (todo : list Z) (done : Z) (write_buf : bytes) : M W Z :=
  match todo with
  | [] => mret rc_success
  | i :: todo =>
      let write_bytes := Z.min chunk_size (zlen write_buf - done) in
      r ← r_write fh (pread done write_bytes write_buf) (i * chunk_size);
      if r <? 0 then mret rc_failure else send_chunks fh todo (done + write_bytes) write_buf
  end.

Definition flush_fuel (f : bytes) : nat := Z.to_nat (zlen f / chunk_size + 3).

Definition flush (fh : Z) (wb_force_flush : bool) : M fclient Z :=
  total ← gets (fun s => total_dirty_chunks (cache s));
  let force := wb_force_flush && (CONGESTION_THRESHOLD <=? total) in
  wb_lock ;;
  c ← gets cache;
  match file_cache c !! fh, dirty_chunks c !! fh with
  | Some p, Some dirty =>
      let f := default [] (local c !! p) in
      match collect (flush_fuel f) force f 0 (zeros (zlen f)) dirty [] (total_dirty_chunks c) with
      | None => die Out_of_fuel
      | Some (write_buf, dirty, todo, total) =>
          upd_cache (fun c => mkWcache (local c) (file_cache c) (<[fh := dirty]> (dirty_chunks c)) total (wb_writer c)) ;;
          wb_unlock ;;
          remote (send_chunks fh todo 0 write_buf)
      end
  | _, _ => die Undefined_behaviour
  end.

(** With [direct_io] the data is cut into chunks and sent at once; nothing is ever
    marked then, and the entry of the handle is looked at only for its size. *)
Fixpoint send_direct (fuel : nat) (fh : Z) (buf : bytes) (offset done : Z) : M W Z :=
  match fuel with
  | O => die Out_of_fuel
  | S fuel =>
      if zlen buf <=? done then mret (as_int done)
      else
        let write_bytes := Z.min chunk_size (zlen buf - done) in
        r ← r_write fh (pread done write_bytes buf) (u64 (offset + done));
        if r <? 0 then mret rc_failure else send_direct fuel fh buf offset (done + write_bytes)
  end.

Definition bfs_write (fh : Z) (buf : bytes) (offset : Z) : M fclient Z :=
  if direct_io_flag then
    wb_lock ;;
    c ← gets cache;
    match dirty_chunks c !! fh with
    | None => die Undefined_behaviour
    | Some _ => wb_unlock ;; remote (send_direct (Z.to_nat (zlen buf / chunk_size + 2)) fh buf offset 0)
    end
  else write_local fh buf offset.

(** [bfs_flush] and [bfs_fsync]: a write of nothing with the flag [flush] set. *)
Definition bfs_flush (fh : Z) : M fclient Z :=
  if direct_io_flag then bfs_write fh [] 0 else flush fh false.

(** A round of the background thread over the files with an entry, in the order
    of the table. *)
Definition wb_round (order : list Z) : M fclient Z :=
  c ← gets cache;
  if CONGESTION_THRESHOLD <=? total_dirty_chunks c then
    flush (default 0 (list_find (fun fh => is_Some (file_cache c !! fh) /\ is_Some (dirty_chunks c !! fh)) order ≫= fun x => Some x.2)) true
  else mret rc_success.

(** ** Closing and truncating *)
Definition drop_entry (fh : Z) (c : wcache) : wcache :=
  match file_cache c !! fh with
  | None => c
  | Some _ => mkWcache (local c) (delete fh (file_cache c)) (delete fh (dirty_chunks c)) (total_dirty_chunks c) (wb_writer c)
  end.

Definition bfs_release (fh : Z) : M fclient Z :=
  wb_lock ;;
  upd_cache (drop_entry fh) ;;
  wb_unlock ;;
  remote (r_release fh).

Definition resize (len : Z) (f : bytes) : bytes := take (Z.to_nat len) (f ++ zeros (len - zlen f)).

Definition bfs_truncate (path : bytes) (fh len : Z) : M fclient Z :=
  r ← remote (r_truncate path fh len);
  if negb (r =? rc_success) then mret r
  else
    wb_shared ;;
    c ← gets cache;
    match file_cache c !! fh with
    | None => die Undefined_behaviour
    | Some p =>
        upd_cache (fun c => mkWcache (<[p := resize len (default [] (local c !! p))]> (local c)) (file_cache c)
                              (dirty_chunks c) (total_dirty_chunks c) (wb_writer c)) ;;
        mret rc_success
    end.

(** [heap n] is what [malloc(n)] finds in memory; the data is never set. *)
Definition bfs_fallocate (heap : Z -> bytes) (path : bytes) (mode offset length : Z) : M fclient Z :=
  '(rc, fh) ← bfs_create path mode;
  match fh with
  | Some fh =>
      if negb (rc =? rc_success) then mret (-1)
      else
        let n := offset + length in
        ret ← bfs_write fh (heap n) 0;
        if negb (ret =? n) then mret (-1) else mret 0
  | None => mret (-1)
  end.
End cache.

(** ** Local files *)
Lemma chunk_pos : 0 < chunk_size.
Proof. done. Qed.

Lemma pread_zlen off n f : 0 <= off <= zlen f -> 0 <= n -> zlen (pread off n f) = Z.min n (zlen f - off).
Proof. intros. unfold pread, zlen in *. rewrite length_take, length_drop. lia. Qed.

Lemma pread_clip off n f : 0 <= off <= zlen f -> pread off (Z.min n (zlen f - off)) f = pread off n f.
Proof.
  intros. unfold pread. destruct (Z.min_spec n (zlen f - off)) as [[? ->]|[? ->]]; [done|].
  rewrite !take_ge; [done|unfold zlen in *; rewrite length_drop; lia..].
Qed.

Lemma pwrite_zlen off d f : 0 <= off -> zlen (pwrite off d f) = Z.max (zlen f) (off + zlen d).
Proof.
  intros. unfold pwrite. rewrite !zlen_app. unfold zlen in *.
  rewrite length_take, length_app, length_drop. unfold zeros. rewrite length_replicate. lia.
Qed.

Lemma pwrite_inside off d f :
  0 <= off <= zlen f -> pwrite off d f = take (Z.to_nat off) f ++ d ++ drop (Z.to_nat (off + zlen d)) f.
Proof.
  intros. unfold pwrite. by rewrite take_app_le by (unfold zlen in *; lia).
Qed.

(** Reading back, and reading elsewhere. *)
Lemma pread_pwrite off d f : 0 <= off -> pread off (zlen d) (pwrite off d f) = d.
Proof.
  intros. unfold pread, pwrite.
  assert (List.length (take (Z.to_nat off) (f ++ zeros (off - zlen f))) = Z.to_nat off) as Hl.
  { rewrite length_take, length_app. unfold zeros, zlen. rewrite length_replicate. lia. }
  rewrite drop_app_length' by done. apply take_app_length'. unfold zlen. lia.
Qed.

Lemma pread_pwrite_before off n o d f :
  0 <= off -> 0 <= n -> off + n <= o -> o <= zlen f -> pread off n (pwrite o d f) = pread off n f.
Proof.
  intros. unfold pread. rewrite pwrite_inside by lia. unfold zlen in *.
  rewrite drop_app_le by (rewrite length_take; lia). rewrite take_app_le by (rewrite length_drop, length_take; lia).
  rewrite skipn_firstn_comm, take_take. f_equal. lia.
Qed.

Lemma pread_zeros n m : 0 <= n <= m -> pread 0 n (zeros m) = zeros n.
Proof. intros. unfold pread, zeros. rewrite drop_0, take_replicate. f_equal. lia. Qed.

(** ** The loops of a flush *)
Section chunks.
Context (f : bytes).
Abbreviation n := (chunks_of (zlen f)).

Lemma chunks_of_bounds z : 0 <= z -> (chunks_of z - 1) * chunk_size < z \/ z = 0 /\ chunks_of z = 0.
Proof.
  intros Hz. unfold chunks_of. pose proof (Z.div_mod z chunk_size ltac:(done)).
  pose proof (Z.mod_pos_bound z chunk_size chunk_pos). pose proof (Z.div_pos z chunk_size Hz chunk_pos).
  unfold chunk_size in *. destruct (Z.eqb_spec (z mod (1024 * 1024)) 0); lia.
Qed.

Lemma chunks_of_cover z : 0 <= z -> z <= chunks_of z * chunk_size.
Proof.
  intros Hz. unfold chunks_of. pose proof (Z.div_mod z chunk_size ltac:(done)).
  pose proof (Z.mod_pos_bound z chunk_size chunk_pos).
  unfold chunk_size in *. destruct (Z.eqb_spec (z mod (1024 * 1024)) 0); lia.
Qed.

Lemma chunks_of_nonneg z : 0 <= z -> 0 <= chunks_of z.
Proof.
  intros Hz. unfold chunks_of. pose proof (Z.div_pos z chunk_size Hz chunk_pos). destruct (_ =? 0); lia.
Qed.

(** What a flush puts into its buffer for the chunk [i]. *)
Definition put_chunk (b : bytes) (i : Z) : bytes := pwrite (i * chunk_size) (pread (i * chunk_size) chunk_size f) b.

Definition picked (D : gset Z) (k m : Z) : list Z := filter (fun i => i ∈ D) (seqZ k m).

Lemma picked_ext D D' k m : (forall i, k <= i < k + m -> i ∈ D <-> i ∈ D') -> picked D k m = picked D' k m.
Proof.
  intros HD. unfold picked. assert (Forall (fun i => i ∈ D <-> i ∈ D') (seqZ k m)) as Hall.
  { apply Forall_forall. intros i Hi%elem_of_seqZ. by apply HD. }
  clear HD. induction Hall as [|i l Hi _ IH]; [done|].
  destruct (decide (i ∈ D)) as [HiD|HiD].
  - rewrite !filter_cons_True by tauto. by rewrite IH.
  - rewrite !filter_cons_False by tauto. done.
Qed.

(** With every dirty chunk inside the file, the first loop ends and collects
    them in order. *)
Lemma collect_Ok fuel k D b todo total :
  0 <= k <= n -> (forall i, i ∈ D -> k <= i < n) -> (Z.to_nat (n - k) < fuel)%nat ->
  collect fuel false f (Z.min (k * chunk_size) (zlen f)) b D todo total =
    Some (foldl put_chunk b (picked D k (n - k)), ∅, todo ++ picked D k (n - k),
          Nat.iter (List.length (picked D k (n - k))) (fun t => u64 (t - 1)) total).
Proof.
  revert k D b todo total. induction fuel as [|fuel IH]; intros k D b todo total Hk HD Hf; [lia|].
  pose proof (zlen_nonneg f) as Hz. cbn [collect].
  destruct (decide (k = n)) as [->|Hkn].
  - rewrite Z.min_r by (by apply chunks_of_cover). rewrite Z.leb_refl.
    assert (D = ∅) as -> by (apply set_eq; intros i; split; [intros Hi; specialize (HD i Hi); lia|set_solver]).
    rewrite bool_decide_eq_true_2 by done. cbn [andb]. rewrite Z.sub_diag. cbn. by rewrite app_nil_r.
  - assert (k * chunk_size < zlen f) as Hlt.
    { destruct (chunks_of_bounds (zlen f) Hz) as [Hb|[Hb1 Hb2]]; [|lia].
      assert (k <= n - 1) by lia. pose proof chunk_pos. nia. }
    assert (0 <= k * chunk_size) by (pose proof chunk_pos; nia).
    rewrite Z.min_l by lia. destruct (Z.leb_spec (zlen f) (k * chunk_size)); [lia|]. cbn [andb].
    rewrite Z.div_mul by done.
    assert (k * chunk_size + Z.min chunk_size (zlen f - k * chunk_size) = Z.min ((k + 1) * chunk_size) (zlen f)) as -> by lia.
    assert (seqZ k (n - k) = k :: seqZ (k + 1) (n - (k + 1))) as Hs.
    { rewrite seqZ_cons by lia. f_equal. f_equal; lia. }
    unfold picked. rewrite Hs. destruct (decide (k ∉ D)) as [Hni|Hi].
    + rewrite filter_cons_False by done. apply IH; [lia| |lia].
      intros i Hi. assert (i <> k) by (intros ->; done). specialize (HD i Hi). lia.
    + apply dec_stable in Hi. rewrite filter_cons_True by done. cbn [foldl List.length Nat.iter].
      rewrite pread_clip by lia. rewrite IH; [|lia| |lia].
      * assert (picked (D ∖ {[k]}) (k + 1) (n - (k + 1)) = picked D (k + 1) (n - (k + 1))) as ->.
        { apply picked_ext. intros i Hi1. rewrite elem_of_difference, elem_of_singleton.
          split; [tauto|]. intros Hi2. split; [done|lia]. }
        unfold picked. rewrite <-app_assoc. rewrite Nat.iter_succ_r. done.
      * intros i [Hi1 Hi2]%elem_of_difference. rewrite elem_of_singleton in Hi2. specialize (HD i Hi1). lia.
Qed.
(** Chunk by chunk the buffer [g] becomes the file. *)
Lemma put_chunk_step k g :
  0 <= k < n -> zlen g <= zlen f ->
  put_chunk (take (Z.to_nat (k * chunk_size)) f ++ drop (Z.to_nat (k * chunk_size)) g) k =
  take (Z.to_nat ((k + 1) * chunk_size)) f ++ drop (Z.to_nat ((k + 1) * chunk_size)) g.
Proof.
  intros Hk Hg. pose proof (zlen_nonneg f) as Hz. pose proof chunk_pos as Hc.
  assert (0 <= k * chunk_size < zlen f) as Hlt.
  { destruct (chunks_of_bounds (zlen f) Hz) as [Hb|[Hb1 Hb2]]; [|lia]. assert (k <= n - 1) by lia. nia. }
  unfold put_chunk. set (o := k * chunk_size) in *. replace ((k + 1) * chunk_size) with (o + chunk_size) by lia.
  assert (zlen (take (Z.to_nat o) f) = o) as Ht by (unfold zlen in *; rewrite length_take; lia).
  assert (zlen (pread o chunk_size f) = Z.min chunk_size (zlen f - o)) as Hp by (apply pread_zlen; lia).
  rewrite pwrite_inside by (rewrite zlen_app; pose proof (zlen_nonneg (drop (Z.to_nat o) g)); lia).
  rewrite take_app_le, take_take, Nat.min_id by (unfold zlen in *; lia).
  rewrite Hp, drop_app_ge by (unfold zlen in *; lia). rewrite drop_drop, app_assoc. unfold pread.
  rewrite take_take_drop. f_equal; [f_equal; lia|].
  destruct (Z.min_spec chunk_size (zlen f - o)) as [[? ->]|[? ->]].
  - f_equal. unfold zlen in *. lia.
  - rewrite !drop_ge; [done|unfold zlen in *; lia..].
Qed.

Lemma put_chunks_all k g :
  0 <= k <= n -> zlen g <= zlen f ->
  foldl put_chunk (take (Z.to_nat (k * chunk_size)) f ++ drop (Z.to_nat (k * chunk_size)) g) (seqZ k (n - k)) = f.
Proof.
  intros Hk Hg. remember (Z.to_nat (n - k)) as m eqn:Hm. revert k Hk Hm. induction m as [|m IH]; intros k Hk Hm.
  - assert (k = n) as -> by lia. rewrite Z.sub_diag. cbn [seqZ foldl]. pose proof (chunks_of_cover (zlen f) (zlen_nonneg f)).
    rewrite take_ge, drop_ge, app_nil_r by (unfold zlen in *; lia). done.
  - rewrite seqZ_cons by lia. cbn [foldl]. rewrite put_chunk_step by lia.
    replace (Z.succ k) with (k + 1) by lia. replace (Z.pred (n - k)) with (n - (k + 1)) by lia. apply IH; lia.
Qed.

Lemma picked_all D k m : (forall i, k <= i < k + m -> i ∈ D) -> picked D k m = seqZ k m.
Proof.
  intros HD. unfold picked. assert (Forall (fun i => i ∈ D) (seqZ k m)) as Hall.
  { apply Forall_forall. intros i Hi%elem_of_seqZ. by apply HD. }
  clear HD. induction Hall as [|i l Hi _ IH]; [done|]. by rewrite filter_cons_True, IH.
Qed.

Lemma picked_none D k m : (forall i, k <= i < k + m -> i ∉ D) -> picked D k m = [].
Proof.
  intros HD. unfold picked. assert (Forall (fun i => i ∉ D) (seqZ k m)) as Hall.
  { apply Forall_forall. intros i Hi%elem_of_seqZ. by apply HD. }
  clear HD. induction Hall as [|i l Hi _ IH]; [done|]. by rewrite filter_cons_False, IH.
Qed.

Lemma picked_single k m : 0 <= k < m -> picked {[k]} 0 m = [k].
Proof.
  intros Hk. unfold picked. replace m with (k + (1 + (m - k - 1))) by lia.
  rewrite !seqZ_app, !filter_app by lia.
  fold (picked {[k]} 0 k) (picked {[k]} (0 + k) 1) (picked {[k]} (0 + k + 1) (m - k - 1)).
  rewrite (picked_none _ 0), (picked_none _ (0 + k + 1)) by (intros i Hi; rewrite elem_of_singleton; lia).
  rewrite picked_all by (intros i Hi; rewrite elem_of_singleton; lia). done.
Qed.

(** ** What is sent *)
Fixpoint requests (todo : list Z) (done : Z) (b : bytes) : list (Z * bytes) :=
  match todo with
  | [] => []
  | i :: todo =>
      let write_bytes := Z.min chunk_size (zlen b - done) in
      (i * chunk_size, pread done write_bytes b) :: requests todo (done + write_bytes) b
  end.

Definition land (g : bytes) (r : Z * bytes) : bytes := pwrite r.1 r.2 g.

Lemma requests_all k : 0 <= k <= n ->
  requests (seqZ k (n - k)) (Z.min (k * chunk_size) (zlen f)) f =
  (fun i => (i * chunk_size, pread (i * chunk_size) chunk_size f)) <$> seqZ k (n - k).
Proof.
  intros Hk. remember (Z.to_nat (n - k)) as m eqn:Hm. revert k Hk Hm. induction m as [|m IH]; intros k Hk Hm.
  - assert (k = n) as -> by lia. by rewrite Z.sub_diag.
  - pose proof (zlen_nonneg f) as Hz. pose proof chunk_pos as Hc. assert (0 <= k * chunk_size < zlen f) as Hlt.
    { destruct (chunks_of_bounds (zlen f) Hz) as [Hb|[Hb1 Hb2]]; [|lia]. assert (k <= n - 1) by lia. nia. }
    rewrite seqZ_cons by lia. cbn [requests fmap list_fmap List.map]. rewrite Z.min_l by lia. rewrite pread_clip by lia. f_equal.
    replace (k * chunk_size + Z.min chunk_size (zlen f - k * chunk_size)) with (Z.min ((k + 1) * chunk_size) (zlen f)) by lia.
    replace (Z.succ k) with (k + 1) by lia. replace (Z.pred (n - k)) with (n - (k + 1)) by lia. apply IH; lia.
Qed.

Lemma land_all g : zlen g <= zlen f -> foldl land g (requests (seqZ 0 n) 0 f) = f.
Proof.
  intros Hg. pose proof (chunks_of_nonneg (zlen f) (zlen_nonneg f)) as Hn. pose proof (requests_all 0 ltac:(lia)) as Hr.
  rewrite Z.sub_0_r, Z.mul_0_l, Z.min_l in Hr by apply zlen_nonneg. rewrite Hr.
  pose proof (put_chunks_all 0 g ltac:(lia) Hg) as Hp. rewrite Z.sub_0_r, Z.mul_0_l in Hp.
  change (Z.to_nat 0) with 0%nat in Hp. rewrite take_0, drop_0 in Hp. cbn [app] in Hp.
  rewrite <-Hp at 2. generalize (seqZ 0 n). intros l. clear. revert g.
  induction l as [|i l IH]; intros g; [done|]. cbn [fmap list_fmap List.map foldl]. apply IH.
Qed.
End chunks.

(** ** Against the server *)

(** What the client may rely on: [rf_holds w fh f], the file behind the open
    handle [fh] has the contents [f], and a write within [rf_max] changes it as
    expected. *)
Class RemoteLaws (W : Type) `{Remote W} := {
  rf_holds : W -> Z -> bytes -> Prop;
  rf_max : Z;
  rf_write w fh f d off :
    rf_holds w fh f -> 0 <= off -> zlen d <= chunk_size -> off + zlen d <= rf_max ->
    exists w', r_write fh d off w = Ok (zlen d) w' /\ rf_holds w' fh (pwrite off d f)
}.

Section laws.
Context {W : Type} `{RemoteLaws W} (openable : bytes -> bool).
Abbreviation fclient := (fclient W).
Implicit Types (s : fclient) (f g buf : bytes).

Definition request_ok (r : Z * bytes) : Prop := 0 <= r.1 /\ zlen r.2 <= chunk_size /\ r.1 + zlen r.2 <= rf_max.

Lemma send_chunks_Ok fh todo done b w g :
  Forall request_ok (requests todo done b) -> rf_holds w fh g ->
  exists w', send_chunks fh todo done b w = Ok rc_success w' /\ rf_holds w' fh (foldl land g (requests todo done b)).
Proof.
  revert done w g. induction todo as [|i todo IH]; intros done w g Hall Hg; [by exists w|].
  cbn [requests send_chunks] in *. apply Forall_cons in Hall as [(?&?&?) Hall]. cbn [fst snd] in *.
  set (d := pread done _ b) in *.
  destruct (rf_write w fh g d (i * chunk_size) Hg) as (w1&Hw&Hg1); [done..|]. mrun Hw.
  pose proof (zlen_nonneg d). destruct (Z.ltb_spec (zlen d) 0); [lia|].
  exact (IH _ w1 _ Hall Hg1).
Qed.

(** The entry of a handle. *)
Record cached s (fh : Z) (p : bytes) (f : bytes) (D : gset Z) : Prop := {
  ca_file : file_cache (cache s) !! fh = Some p;
  ca_local : local (cache s) !! p = Some f;
  ca_dirty : dirty_chunks (cache s) !! fh = Some D;
  ca_free : wb_writer (cache s) = false
}.

Lemma wb_lock_Ok s : wb_writer (cache s) = false -> wb_lock s = Ok () (set_cache (set_writer true (cache s)) s).
Proof. intros Hf. unfold wb_lock. rewrite bind_gets, Hf. done. Qed.

(** A flush sends the requests of the chunks that are dirty. *)
Lemma flush_dirty_Ok s fh p f D g :
  cached s fh p f D -> (forall i, i ∈ D -> 0 <= i < chunks_of (zlen f)) ->
  let todo := picked D 0 (chunks_of (zlen f)) in
  let b := foldl (put_chunk f) (zeros (zlen f)) todo in
  Forall request_ok (requests todo 0 b) -> rf_holds (net s) fh g ->
  exists s', flush fh false s = Ok rc_success s' /\ cached s' fh p f ∅ /\
    rf_holds (net s') fh (foldl land g (requests todo 0 b)).
Proof using Type.
  intros [Hf Hl Hd Hfree] HD todo b Hreq Hg. unfold flush. rewrite bind_gets. cbn [andb].
  mrun (wb_lock_Ok s Hfree). rewrite bind_gets. set (s1 := set_cache _ s). change (file_cache (cache s1)) with (file_cache (cache s)).
  change (dirty_chunks (cache s1)) with (dirty_chunks (cache s)). rewrite Hf, Hd.
  change (local (cache s1)) with (local (cache s)). rewrite Hl. cbn [default from_option id].
  pose proof (zlen_nonneg f) as Hz. pose proof (chunks_of_nonneg (zlen f) Hz) as Hn.
  pose proof (collect_Ok f (flush_fuel f) 0 D (zeros (zlen f)) [] (total_dirty_chunks (cache s1))) as Hc.
  rewrite Z.mul_0_l, Z.min_l, Z.sub_0_r in Hc by done. rewrite Hc; [|lia|done|].
  2: { pose proof (Z.div_pos (zlen f) chunk_size Hz chunk_pos). unfold flush_fuel, chunks_of. destruct (_ =? 0); lia. }
  fold todo b. cbn [app]. unfold upd_cache, wb_unlock, upd_cache. rewrite !bind_modify.
  destruct (send_chunks_Ok fh todo 0 b (net s) g Hreq Hg) as (w'&Hs&Hg').
  eexists. split; [unfold remote; cbn [net set_cache]; change (net s1) with (net s); rewrite Hs; reflexivity|]. split; [|exact Hg'].
  constructor; [exact Hf|exact Hl|cbn; by rewrite lookup_insert_eq|done].
Qed.

(** A file of which every chunk is dirty. *)
Lemma flush_all_Ok s fh p f D g :
  cached s fh p f D -> (forall i, i ∈ D <-> 0 <= i < chunks_of (zlen f)) ->
  rf_holds (net s) fh g -> zlen g <= zlen f -> zlen f <= rf_max ->
  exists s', flush fh false s = Ok rc_success s' /\ cached s' fh p f ∅ /\ rf_holds (net s') fh f.
Proof using Type.
  intros Hca HD Hg Hgf Hmax. pose proof (zlen_nonneg f) as Hz. pose proof (chunks_of_nonneg (zlen f) Hz) as Hn.
  pose proof (flush_dirty_Ok s fh p f D g Hca ltac:(intros; by apply HD)) as Hfl. cbn zeta in Hfl.
  rewrite picked_all in Hfl by (intros i Hi; apply HD; lia).
  pose proof (put_chunks_all f 0 (zeros (zlen f)) ltac:(lia)) as Hp. rewrite zlen_zeros, Z.sub_0_r, Z.mul_0_l in Hp by done.
  change (Z.to_nat 0) with 0%nat in Hp. rewrite take_0, drop_0 in Hp. cbn [app] in Hp. rewrite Hp, land_all in Hfl by done.
  apply Hfl; [|done]. clear Hfl. pose proof (requests_all f 0 ltac:(lia)) as Hr.
  rewrite Z.sub_0_r, Z.mul_0_l, Z.min_l in Hr by done. rewrite Hr. apply Forall_fmap, Forall_forall.
  intros i Hi%elem_of_seqZ. unfold request_ok, compose. cbn [fst snd]. pose proof chunk_pos.
  assert (i * chunk_size < zlen f). { destruct (chunks_of_bounds (zlen f) Hz) as [?|[??]]; nia. }
  rewrite pread_zlen by lia. lia.
Qed.
(** ** Marking *)
Lemma mark_spec m i D total : (mark m i D total).1 = D ∪ list_to_set (seqZ i (Z.of_nat m)).
Proof.
  revert i D total. induction m as [|m IH]; intros i D total; [cbn; set_solver|].
  rewrite seqZ_cons by lia. replace (Z.succ i) with (i + 1) by lia. replace (Z.pred (Z.of_nat (S m))) with (Z.of_nat m) by lia.
  cbn [mark list_to_set]. destruct (decide (i ∈ D)); rewrite IH; set_solver.
Qed.

Lemma write_local_Ok s fh p f D buf off :
  cached s fh p f D -> zlen buf < 2 ^ 31 ->
  exists s', write_local fh buf off s = Ok (zlen buf) s' /\ net s' = net s /\
    cached s' fh p (pwrite off buf f) (D ∪ list_to_set (seqZ (off / chunk_size) (chunks_of (zlen buf)))).
Proof using Type.
  intros [Hf Hl Hd Hfree] Hb. pose proof (zlen_nonneg buf) as Hz. pose proof (chunks_of_nonneg (zlen buf) Hz) as Hn.
  unfold write_local. mrun (wb_lock_Ok s Hfree). rewrite bind_gets. set (s1 := set_cache _ s).
  change (file_cache (cache s1)) with (file_cache (cache s)).
  change (dirty_chunks (cache s1)) with (dirty_chunks (cache s)). rewrite Hf, Hd.
  pose proof (mark_spec (Z.to_nat (chunks_of (zlen buf))) (off / chunk_size) D (total_dirty_chunks (cache s1))) as Hm.
  rewrite Z2Nat.id in Hm by done.
  destruct (mark _ _ _ _) as [D' total]. cbn [fst] in Hm. subst D'.
  unfold wb_unlock, upd_cache. rewrite !bind_modify. eexists. split.
  { unfold as_int. rewrite u32_small by lia. rewrite NetConn.signed4_small by lia. reflexivity. }
  split; [done|]. constructor; [exact Hf| |cbn; by rewrite lookup_insert_eq|done].
  cbn. by rewrite lookup_insert_eq, Hl.
Qed.

Lemma attach_Ok keep path fh s :
  openable (tmp_path path) = true -> wb_writer (cache s) = false ->
  exists s', attach openable keep path fh s = Ok (rc_success, Some fh) s' /\ net s' = net s /\
    cached s' fh (tmp_path path) (if keep then default [] (local (cache s) !! tmp_path path) else []) ∅.
Proof.
  intros Ho Hfree. unfold attach. mrun (wb_lock_Ok s Hfree). rewrite Ho. unfold wb_unlock, upd_cache.
  rewrite !bind_modify. eexists. split; [reflexivity|]. split; [done|].
  constructor; cbn; by rewrite ?lookup_insert_eq.
Qed.

Lemma remote_Ok {A} (m : M W A) a w' s : m (net s) = Ok a w' -> remote m s = Ok a (mkFc (cache s) w').
Proof. unfold remote. by intros ->. Qed.

Lemma cached_read s fh p f D size off :
  cached s fh p f D -> 0 <= size -> 0 <= off -> zlen f < 2 ^ 31 ->
  bfs_read false fh size off s = Ok (zlen (pread off size f), pread off size f) s.
Proof.
  intros [Hf Hl _ Hfree] Hs Ho Hz. unfold bfs_read, wb_shared. rewrite bind_assoc, bind_gets, Hfree, bind_ret, bind_gets, Hf, Hl.
  cbn [default from_option id]. assert (zlen (pread off size f) < 2 ^ 31) as Hlt.
  { unfold pread, zlen in *. rewrite length_take, length_drop. lia. }
  pose proof (zlen_nonneg (pread off size f)). unfold as_int. rewrite u32_small by lia. by rewrite NetConn.signed4_small by lia.
Qed.

(** ** The theorems *)

Lemma create_write_flush_Ok s path mode fh w1 buf :
  r_create path mode (net s) = Ok (rc_success, Some fh) w1 -> rf_holds w1 fh [] ->
  openable (tmp_path path) = true -> wb_writer (cache s) = false -> zlen buf <= rf_max -> zlen buf < 2 ^ 31 ->
  exists s1 s2 s3, bfs_create openable path mode s = Ok (rc_success, Some fh) s1 /\
    bfs_write false fh buf 0 s1 = Ok (zlen buf) s2 /\
    bfs_read false fh (zlen buf) 0 s2 = Ok (zlen buf, buf) s2 /\
    bfs_flush false fh s2 = Ok rc_success s3 /\ rf_holds (net s3) fh buf /\
    dirty_chunks (cache s3) !! fh = Some ∅.
Proof.
  intros Hcr Hh Hop Hfree Hmax Hb. pose proof (zlen_nonneg buf) as Hz.
  destruct (attach_Ok false path fh (mkFc (cache s) w1) Hop Hfree) as (s1&Ha&Hn1&Hca1). cbn [net] in Hn1.
  destruct (write_local_Ok s1 fh _ _ _ buf 0 Hca1 Hb) as (s2&Hw&Hn2&Hca2).
  assert (pwrite 0 buf [] = buf) as Hpw by (unfold pwrite; cbn; by rewrite take_0, drop_nil, app_nil_r).
  rewrite Hpw, Z.div_0_l in Hca2 by done.
  destruct (flush_all_Ok s2 fh _ _ _ [] Hca2) as (s3&Hfl&Hca3&Hh3); [|by rewrite Hn2, Hn1|done|done|].
  { intros i. rewrite elem_of_union, elem_of_list_to_set, elem_of_seqZ. set_solver by lia. }
  exists s1, s2, s3. split.
  { unfold bfs_create. mrun (remote_Ok _ _ _ _ Hcr). exact Ha. }
  split; [exact Hw|]. split; [|split; [exact Hfl|split; [done|apply Hca3]]].
  rewrite (cached_read _ _ _ _ _ _ _ Hca2) by lia. unfold pread. by rewrite take_ge, drop_0 by (rewrite ?drop_0; unfold zlen; lia).
Qed.

(** C15. Data written to a new file reaches the server: after [create], a write from
    the start of the file and a flush, the file behind the handle has exactly
    the data, in however many chunks it was sent; and until then reads of the
    client see it too. *)
Theorem cached_write_back s path mode fh w1 buf :
  r_create path mode (net s) = Ok (rc_success, Some fh) w1 -> rf_holds w1 fh [] ->
  openable (tmp_path path) = true -> wb_writer (cache s) = false -> zlen buf <= rf_max -> zlen buf < 2 ^ 31 ->
  exists s1 s2 s3, bfs_create openable path mode s = Ok (rc_success, Some fh) s1 /\
    bfs_write false fh buf 0 s1 = Ok (zlen buf) s2 /\
    bfs_read false fh (zlen buf) 0 s2 = Ok (zlen buf, buf) s2 /\
    bfs_flush false fh s2 = Ok rc_success s3 /\ rf_holds (net s3) fh buf /\
    dirty_chunks (cache s3) !! fh = Some ∅.
Proof. exact (create_write_flush_Ok s path mode fh w1 buf). Qed.

(** A preallocated file is filled with what was in the client's memory: the
    bytes [bfs_fallocate] writes, and the next flush sends, are those of a buffer
    that was never set. *)
Theorem fallocate_sends_heap heap s path mode fh w1 off len :
  r_create path mode (net s) = Ok (rc_success, Some fh) w1 -> rf_holds w1 fh [] ->
  openable (tmp_path path) = true -> wb_writer (cache s) = false -> 0 <= off -> 0 <= len ->
  off + len <= rf_max -> off + len < 2 ^ 31 -> zlen (heap (off + len)) = off + len ->
  exists s1 s2, bfs_fallocate false openable heap path mode off len s = Ok 0 s1 /\
    bfs_flush false fh s1 = Ok rc_success s2 /\ rf_holds (net s2) fh (heap (off + len)).
Proof.
  intros Hcr Hh Hop Hfree Ho Hl Hmax Hb Hz.
  destruct (create_write_flush_Ok s path mode fh w1 (heap (off + len)) Hcr Hh Hop Hfree) as (s1&s2&s3&Hc&Hw&_&Hf&Hh3&_);
    [lia|lia|].
  exists s2, s3. split; [|done]. unfold bfs_fallocate. mrun Hc. rewrite Z.eqb_refl. cbn [negb]. mrun Hw. by rewrite Hz, Z.eqb_refl.
Qed.

(** C38. A flush destroys data: when only the chunk [k] of a file is dirty and it is
    not the first, the server is sent a chunk of zeros in its place, and the
    chunk counts as written back. *)
Theorem sparse_flush_sends_zeros s fh p f k g :
  cached s fh p f {[k]} -> 1 <= k -> (k + 1) * chunk_size <= zlen f -> (k + 1) * chunk_size <= rf_max ->
  rf_holds (net s) fh g ->
  exists s', bfs_flush false fh s = Ok rc_success s' /\ cached s' fh p f ∅ /\
    rf_holds (net s') fh (pwrite (k * chunk_size) (zeros chunk_size) g).
Proof using Type.
  intros Hca Hk Hf Hmax Hg. pose proof (zlen_nonneg f) as Hz. pose proof chunk_pos as Hc.
  pose proof (chunks_of_cover (zlen f) Hz) as Hcov. assert (0 <= k < chunks_of (zlen f)) as Hkn by nia.
  pose proof (flush_dirty_Ok s fh p f {[k]} g Hca ltac:(set_solver by lia)) as Hfl. cbn zeta in Hfl.
  rewrite picked_single in Hfl by done. cbn [foldl requests] in Hfl.
  assert (zlen (put_chunk f (zeros (zlen f)) k) = zlen f) as Hzb.
  { unfold put_chunk. rewrite pwrite_zlen, zlen_zeros, pread_zlen by nia. nia. }
  rewrite Hzb, Z.sub_0_r, Z.min_l in Hfl by nia.
  assert (pread 0 chunk_size (put_chunk f (zeros (zlen f)) k) = zeros chunk_size) as Hb.
  { unfold put_chunk. rewrite pread_pwrite_before by (rewrite ?zlen_zeros by done; nia).
    apply pread_zeros. nia. }
  rewrite Hb in Hfl. pose proof (zlen_zeros chunk_size ltac:(lia)) as Hzc.
  clear Hb Hzb. revert Hfl Hzc. generalize (zeros chunk_size). intros z Hfl Hzc. cbn [foldl] in Hfl.
  apply Hfl; [|exact Hg]. apply Forall_singleton. unfold request_ok. cbn [fst snd]. clear Hfl. nia.
Qed.

(** A write that runs into the next chunk does not mark it: only the chunk of
    its offset becomes dirty, so that the bytes behind the boundary are in the
    local file but no flush sends them. *)
Theorem straddling_write_unmarked s fh p f D buf off :
  cached s fh p f D -> 0 <= off -> zlen buf <= chunk_size -> chunk_size < off mod chunk_size + zlen buf ->
  off / chunk_size + 1 ∉ D ->
  exists s', bfs_write false fh buf off s = Ok (zlen buf) s' /\
    cached s' fh p (pwrite off buf f) ({[off / chunk_size]} ∪ D) /\
    (off / chunk_size + 1) * chunk_size < off + zlen buf /\ off / chunk_size + 1 ∉ ({[off / chunk_size]} ∪ D : gset Z).
Proof using Type.
  clear openable. intros Hca Ho Hb Hs Hni. destruct (write_local_Ok s fh p f D buf off Hca) as (s'&Hw&_&Hca').
  { unfold chunk_size in Hb. lia. }
  assert (chunks_of (zlen buf) = 1) as Hn.
  { unfold chunks_of. pose proof (Z.mod_pos_bound off chunk_size chunk_pos).
    destruct (decide (zlen buf = chunk_size)) as [->|Hne]; [done|].
    rewrite Z.div_small, Z.mod_small by lia. destruct (Z.eqb_spec (zlen buf) 0); lia. }
  rewrite Hn in Hca'. exists s'. split; [exact Hw|]. split; [|split].
  - replace ({[off / chunk_size]} ∪ D) with (D ∪ list_to_set (seqZ (off / chunk_size) 1)); [done|]. cbn. set_solver.
  - pose proof (Z.div_mod off chunk_size ltac:(done)). lia.
  - rewrite elem_of_union, elem_of_singleton. intros [?|?]; [lia|done].
Qed.

(** The cache hides the server: a file that has no local copy reads as empty
    after it was opened, whatever the server has. *)
Theorem opened_file_reads_empty s path fh w1 size off :
  r_open path (net s) = Ok (rc_success, Some fh) w1 -> openable (tmp_path path) = true ->
  wb_writer (cache s) = false -> local (cache s) !! tmp_path path = None -> 0 <= size -> 0 <= off ->
  exists s1, bfs_open openable path s = Ok (rc_success, Some fh) s1 /\ bfs_read false fh size off s1 = Ok (0, []) s1.
Proof.
  intros Hr Hop Hfree Hl Hs Ho. destruct (attach_Ok true path fh (mkFc (cache s) w1) Hop Hfree) as (s1&Ha&_&Hca).
  cbn [cache] in Hca. rewrite Hl in Hca. exists s1. split.
  { unfold bfs_open. mrun (remote_Ok _ _ _ _ Hr). exact Ha. }
  rewrite (cached_read _ _ _ _ _ _ _ Hca) by done. unfold pread. cbn [default from_option id]. by rewrite drop_nil, take_nil.
Qed.

Lemma collect_hangs f fuel pos b D todo total k :
  k ∈ D -> zlen f / chunk_size < k -> 0 <= pos <= zlen f -> collect fuel false f pos b D todo total = None.
Proof using Type.
  clear openable. intros Hk Hlt. revert pos b D todo total Hk. induction fuel as [|fuel IH]; intros pos b D todo total Hk Hd; [done|].
  cbn [collect]. rewrite (bool_decide_eq_false_2 (D = ∅)) by set_solver. rewrite andb_false_r.
  assert (0 <= Z.min chunk_size (zlen f - pos)) by (pose proof chunk_pos; lia).
  destruct (decide (pos / chunk_size ∉ D)); [apply IH; [done|lia]|]. cbn [andb]. apply IH; [|lia].
  assert (pos / chunk_size <= zlen f / chunk_size) by (apply Z.div_le_mono; [done|lia]).
  rewrite elem_of_difference, elem_of_singleton. split; [done|lia].
Qed.

(** A dirty chunk behind the end of the local file makes a flush run forever,
    with the lock of the cache taken: no number of rounds of its loop is
    enough. *)
Theorem flush_past_end_hangs s fh p f D k :
  cached s fh p f D -> k ∈ D -> zlen f / chunk_size < k ->
  bfs_flush false fh s = Crash Out_of_fuel /\
  forall fuel total, collect fuel false f 0 (zeros (zlen f)) D [] total = None.
Proof using Type.
  intros [Hf Hl Hd Hfree] Hk Hlt. pose proof (zlen_nonneg f).
  assert (forall fuel total, collect fuel false f 0 (zeros (zlen f)) D [] total = None) as Hh
    by (intros; eapply collect_hangs; [exact Hk|done|lia]).
  split; [|exact Hh]. unfold bfs_flush, flush. rewrite bind_gets. cbn [andb]. mrun (wb_lock_Ok s Hfree). rewrite bind_gets.
  cbn [cache set_cache set_writer file_cache dirty_chunks local]. rewrite Hf, Hd, Hl. cbn [default from_option id]. by rewrite Hh.
Qed.
End laws.
