(* ===== verification/Rpc.v ===== *)
(** * Remote calls

    The client of [Client] and the server of [Server] joined by a connection:
    an operation of the client sends its request, the worker of the connection
    runs one round, and the client reads the response.  The theorems say that a
    remote call is the local call of the file system, and what happens to
    messages that are not the next one of the connection. *)
From S2P Require Import Prelude Layout BfsUtil CoreTypes FlexBuffer SecAssoc Wire BlockLayer BlockStore Volume FsAlloc Acl FsDir FsDirSpec FsFile FsOps Mkfs Server Client.
Import FlexBuffer FlexStream Msg.

(** ** The network

    It takes what one end has sent to the other. *)
Definition clear_outbox (n : NetConn.t) : NetConn.t :=
  NetConn.mk (RawNet.mk (RawNet.inbox (NetConn.socket n)) [] (RawNet.calls (NetConn.socket n))) (NetConn.chState n).

Definition feed (d : bytes) (n : NetConn.t) : NetConn.t :=
  NetConn.mk (RawNet.mk (RawNet.inbox (NetConn.socket n) ++ d) (RawNet.outbox (NetConn.socket n))
                (RawNet.calls (NetConn.socket n))) (NetConn.chState n).

(** ** Sealed messages *)
Section sealing.
Context `{Cipher} {claws : CipherLaws}.

(** The bytes that carry [p] as message number [seq] under [key], sealed with
    the random value [r]. *)
Definition message (key : bytes) (seq : Z) (r p : bytes) : bytes :=
  SecAssoc.sealed (CryptoKey.setKeyData key) (le_split 4 seq) r p true.

Lemma sealed_key k seq r p :
  SecAssoc.sealed k (le_split 4 seq) r p true = message (CryptoKey.keydat k) seq r p.
Proof. done. Qed.

Lemma message_zlen key seq r p :
  zlen r = BFS_IV_LEN -> 0 < zlen (message key seq r p) <= zlen p + 44.
Proof.
  intros Hr. unfold message, SecAssoc.sealed. rewrite !zlen_app, Hr, encrypt_zlen, tag_zlen, zlen_app.
  rewrite SecAssoc.pad_bytes_zlen. pose proof (SecAssoc.pad_size_range (zlen p)). pose proof (zlen_nonneg p).
  unfold BFS_IV_LEN, BFS_MAC_LEN. lia.
Qed.

(** An association with its key set up. *)
Definition sa_ok (key : bytes) (a : sassoc) : Prop :=
  (exists t, sa_key a = Some (CryptoKey.mk key true t)) /\ wf (sa_iv a) /\ length (sa_iv a) <= 44.

Lemma sa_ok_st key st t :
  SecAssoc.saKey st = Some (CryptoKey.mk key true t) -> SecAssoc.iv_ok st ->
  sa_ok key (mkSa (SecAssoc.saKey st) (SecAssoc.iv st)).
Proof. intros Hk [??]. unfold sa_ok. cbn. eauto. Qed.
End sealing.

Section server.
Context {B : Type} `{Volume B} `{Cipher} {claws : CipherLaws}.
Context (use_mt : bool) (rnd : nat -> bytes) (kernel : Z -> nat -> Z) (cl_serv_sa : CryptoKey.t) (uninit indet : Z).
Context (rnd_zlen : forall n, zlen (rnd n) = BFS_IV_LEN) (healthy : forall c i, 0 <= kernel c i).
Abbreviation srv := (srv B).
Implicit Types s : srv.

(** ** The state of one connection *)

(** Its user, the key of the association, the bytes that wait to be read and
    those that were sent. *)
Record session s (conn : Z) (key : bytes) (u : User.t) (inb outb : bytes) : Prop := {
  se_init : ACLayer.ACLayerInitialized (acl_layer s) = true;
  se_user : ACLayer.user_contexts (acl_layer s) !! conn = Some u;
  se_sa : exists a, user_sas s !! conn = Some a /\ sa_ok key a;
  se_link : exists l, links s !! conn = Some l /\ SecAssoc.roomy (l_pkt l) /\
    allocation (l_pkt l) < 2 ^ 31 + 100 /\
    RawNet.inbox (NetConn.socket (l_net l)) = inb /\ RawNet.outbox (NetConn.socket (l_net l)) = outb
}.

(** Nothing but the session of [conn] and the random values differs. *)
Record kept (conn : Z) s s' : Prop := {
  kept_fs : hfs s' = hfs s;
  kept_handle : bfs_handle s' = bfs_handle s;
  kept_init : fs_initialized s' = fs_initialized s;
  kept_uid : ACLayer.next_uid (acl_layer s') = ACLayer.next_uid (acl_layer s);
  kept_users c : c <> conn ->
    ACLayer.user_contexts (acl_layer s') !! c = ACLayer.user_contexts (acl_layer s) !! c;
  kept_sas c : c <> conn -> user_sas s' !! c = user_sas s !! c;
  kept_links c : c <> conn -> links s' !! c = links s !! c
}.

#[export] Instance kept_refl conn : Reflexive (kept conn).
Proof. by constructor. Qed.

#[export] Instance kept_trans conn : Transitive (kept conn).
Proof.
  intros s1 s2 s3 [] []. constructor; try congruence; intros c Hc.
  - rewrite kept_users1 by done. by apply kept_users0.
  - rewrite kept_sas1 by done. by apply kept_sas0.
  - rewrite kept_links1 by done. by apply kept_links0.
Qed.

(** A step of [with_sa], [upd_user], [set_links] on [conn] keeps the rest. *)
Lemma kept_sa conn s a : kept conn s (set_sas (<[conn := a]> (user_sas s)) s).
Proof. constructor; try done. intros c Hc. cbn. by rewrite lookup_insert_ne. Qed.

Lemma kept_link conn s l : kept conn s (set_links (<[conn := l]> (links s)) s).
Proof. constructor; try done. intros c Hc. cbn. by rewrite lookup_insert_ne. Qed.

Lemma kept_user conn s f : kept conn s (set_acl (ACLayer.mk (ACLayer.ACLayerInitialized (acl_layer s))
  (ACLayer.next_uid (acl_layer s)) (alter f conn (ACLayer.user_contexts (acl_layer s)))) s).
Proof. constructor; try done. intros c Hc. cbn. by rewrite lookup_alter_ne. Qed.

Lemma the_user_Ok s conn key u inb outb :
  session s conn key u inb outb -> the_user conn s = Ok u s.
Proof. intros Hs. unfold the_user. rewrite bind_get. by rewrite (se_user _ _ _ _ _ _ Hs). Qed.

Lemma with_sa_Ok {A} s conn b o (m : M SecAssoc.st A) a r st :
  user_sas s !! conn = Some a -> m (SecAssoc.mkst (sa_key a) (sa_iv a) b o) = Ok r st ->
  with_sa conn b o m s = Ok (r, SecAssoc.buf st, SecAssoc.out st)
    (set_sas (<[conn := mkSa (SecAssoc.saKey st) (SecAssoc.iv st)]> (user_sas s)) s).
Proof. intros Ha Hm. unfold with_sa. by rewrite Ha, Hm. Qed.

Lemma session_sa s conn key u inb outb a :
  session s conn key u inb outb -> sa_ok key a ->
  session (set_sas (<[conn := a]> (user_sas s)) s) conn key u inb outb.
Proof.
  intros [] Ha. constructor; try done. exists a. cbn. by rewrite lookup_insert_eq.
Qed.

Lemma session_user s conn key u inb outb f :
  session s conn key u inb outb ->
  session (set_acl (ACLayer.mk (ACLayer.ACLayerInitialized (acl_layer s))
    (ACLayer.next_uid (acl_layer s)) (alter f conn (ACLayer.user_contexts (acl_layer s)))) s) conn key (f u) inb outb.
Proof. intros []. constructor; try done. cbn. by rewrite lookup_alter_eq, se_user0. Qed.

(** ** Sending a packet *)
Lemma seal_Ok s conn key u inb outb spkt enc :
  session s conn key u inb outb -> wf spkt -> allocation spkt + 300 < 2 ^ 32 ->
  SecAssoc.roomy enc -> allocation enc + 200 < 2 ^ 32 ->
  exists spkt' enc' s', seal rnd conn spkt enc s = Ok (Some (spkt', enc')) s' /\ kept conn s s' /\
    session s' conn key (User.inc_send_seq u) inb outb /\
    wf spkt' /\ content spkt' = content spkt /\ allocation spkt' <= allocation spkt + 48 /\
    SecAssoc.roomy enc' /\ allocation enc' <= Z.max (allocation enc) (allocation spkt + 112) + 92 /\
    content enc' = message key (User.user_send_seq u) (rnd (draws s)) (content spkt) /\
    draws s' = S (draws s).
Proof.
  intros Hs Hw Ha Hr Har. unfold seal.
  destruct (se_sa _ _ _ _ _ _ Hs) as (a&Hsa&[t Hk]&Hwi&Hli).
  set (s1 := mkSrv (hfs s) (bfs_handle s) (fs_initialized s) (acl_layer s) (user_sas s) (links s) (S (draws s))).
  assert (session s1 conn key u inb outb) as Hs1 by (destruct Hs; by constructor).
  assert (kept conn s s1) as K1 by by constructor.
  destruct (SecAssoc.encryptData_out_spec (SecAssoc.mkst (sa_key a) (sa_iv a) spkt enc) _
    (seq_aad (User.user_send_seq u)) (rnd (draws s)) Hk) as (st&He&Hiv&Hwb&Hcb&Hab&Hro&_&Hco&Hao&t'&Hk');
    [done|apply rnd_zlen|done..|].
  pose proof (with_sa_Ok s1 conn spkt enc _ a () st Hsa He) as Hwith.
  do 3 eexists. split.
  { apply catch_Ok. mrun (the_user_Ok _ _ _ _ _ _ Hs). mrun (eq_refl : draw rnd s = Ok (rnd (draws s)) s1).
    mrun Hwith. unfold upd_user. rewrite bind_modify. reflexivity. }
  split_and!; try done.
  - etransitivity; [exact K1|]. etransitivity; [apply kept_sa|apply kept_user].
  - apply (session_user _ _ _ _ _ _ User.inc_send_seq), session_sa; [done|]. by eapply sa_ok_st.
Qed.

Lemma session_link s conn key u inb outb n b :
  session s conn key u inb outb -> SecAssoc.roomy b -> allocation b < 2 ^ 31 + 100 ->
  session (set_links (<[conn := mkLink n b]> (links s)) s) conn key u
    (RawNet.inbox (NetConn.socket n)) (RawNet.outbox (NetConn.socket n)).
Proof.
  intros [] Hb Ha. constructor; try done. eexists. cbn. by rewrite lookup_insert_eq.
Qed.

Lemma out_msg_Ok s conn key u inb outb b :
  session s conn key u inb outb -> wf b -> 0 < length b < 2 ^ 31 ->
  exists s', ocall_handle_out_msg kernel conn (length b) (drop (Z.to_nat (hlength b)) (mem b)) s = Ok rc_success s' /\
    kept conn s s' /\ session s' conn key u inb (outb ++ NetConn.frame (content b)) /\ draws s' = draws s.
Proof.
  intros Hs Hw Hl. destruct (se_link _ _ _ _ _ _ Hs) as (l&Hlk&Hro&Hal&Hin&Hout).
  unfold ocall_handle_out_msg. rewrite Hlk.
  destruct (NetConn.sendPacketizedDataL_prefix (kernel conn) (healthy conn) (length b)
    (drop (Z.to_nat (hlength b)) (mem b)) (l_net l)) as (n&Hn&Hi&Ho&_).
  { done. }
  { pose proof Hw as (?&?&?&?&?&?&?). unfold zlen in *. rewrite length_drop. lia. }
  rewrite Hn. destruct (Z.eqb_spec (length b) (-1)); [lia|].
  eexists. split; [reflexivity|]. split_and!; [apply kept_link| |done].
  rewrite <-Hin, <-Hi. fold (content b) in Ho. rewrite Hout in Ho.
  replace (outb ++ NetConn.frame (content b)) with (RawNet.outbox (NetConn.socket n));
    [by eapply session_link|]. rewrite Ho. unfold NetConn.frame. by rewrite content_zlen.
Qed.

(** Seal and send: the message goes out, and nothing else changes. *)
Lemma send_pkt_Ok s conn key u inb outb spkt enc :
  session s conn key u inb outb -> wf spkt -> allocation spkt + 300 < 2 ^ 31 ->
  SecAssoc.roomy enc -> allocation enc + 200 < 2 ^ 32 ->
  exists spkt' enc' s', send_pkt rnd kernel conn spkt enc s = Ok (rc_success, spkt', enc') s' /\ kept conn s s' /\
    session s' conn key (User.inc_send_seq u) inb
      (outb ++ NetConn.frame (message key (User.user_send_seq u) (rnd (draws s)) (content spkt))) /\
    wf spkt' /\ content spkt' = content spkt /\ allocation spkt' <= allocation spkt + 48 /\
    SecAssoc.roomy enc' /\ allocation enc' <= Z.max (allocation enc) (allocation spkt + 112) + 92 /\
    draws s' = S (draws s).
Proof.
  intros Hs Hw Ha Hr Har. unfold send_pkt.
  destruct (seal_Ok _ _ _ _ _ _ spkt enc Hs) as (p1&e1&s1&Hseal&K1&Hs1&Hw1&Hc1&Ha1&Hr1&Hae1&Hce&Hd1); [done|lia|done..|].
  mrun Hseal. destruct Hr1 as [Hwe Hre]. pose proof (content_zlen e1 Hwe) as Hle. rewrite Hce in Hle.
  pose proof (message_zlen key (User.user_send_seq u) (rnd (draws s)) (content spkt) (rnd_zlen _)) as Hmz.
  rewrite content_zlen in Hmz by done. pose proof Hw as (?&?&?&?&?&?&?).
  destruct (out_msg_Ok s1 conn key _ _ _ e1 Hs1 Hwe) as (s2&Hout&K2&Hs2&Hd2); [lia|].
  mrun Hout. rewrite Hce in Hs2. exists p1, e1, s2. split; [reflexivity|].
  split_and!; try done; [by etransitivity|congruence].
Qed.

Lemma fields_len_nonneg fs : 0 <= fields_len fs.
Proof. unfold fields_len. induction fs as [|[n x] fs IH]; cbn; lia. Qed.

Lemma push_cost_len fs : push_cost fs = fields_len fs + BFSFLEXBUF_DEFAULT_PAD * zlen fs.
Proof.
  unfold fields_len. induction fs as [|[n x] fs IH]; cbn [push_cost foldr fst]; [done|].
  rewrite IH. unfold BFSFLEXBUF_DEFAULT_PAD, zlen. cbn [List.length]. lia.
Qed.

(** A fresh packet of [sz] zero bytes with room for its headers. *)
Lemma fresh_pkt sz hd :
  0 <= sz -> 0 < hd -> hd + sz < 2 ^ 32 ->
  exists b, resetWithAlloc sz Byte.x00 hd 0 false FlexBuffer.empty = Ok sz b /\ wf b /\ content b = zeros sz /\
    length b = sz /\ buffer b <> None /\ allocation b = hd + sz.
Proof.
  intros. destruct (SecAssoc.reset_spec FlexBuffer.empty sz Byte.x00 hd 0) as (b&Hr&Hw&Hc&Hl&Hn&_&Ha);
    [done|cbn; lia..|]. exists b. cbn in Ha. split_and!; try done; [apply Hn|]; lia.
Qed.

Lemma on_pkt_Ok {A} (m : M FlexBuffer.t A) b a b' s : m b = Ok a b' -> on_pkt m b s = Ok (a, b') s.
Proof. unfold on_pkt. by intros ->. Qed.

(** A response of fields only. *)
Lemma reply_Ok s conn key u inb outb otype fields :
  session s conn key u inb outb -> zlen fields < 100 -> fields_len fields < 1000 ->
  exists s', reply rnd kernel conn otype fields s = Ok rc_success s' /\ kept conn s s' /\
    session s' conn key (User.inc_send_seq u) inb
      (outb ++ NetConn.frame (message key (User.user_send_seq u) (rnd (draws s))
         (le_split 4 FROM_SERVER ++ le_split 4 otype ++ encode_fields (reverse fields)))) /\
    draws s' = S (draws s).
Proof.
  intros Hs Hz Hf. unfold reply. set (fs := fields ++ _).
  assert (fields_len fs = fields_len fields + 8) as Hfl.
  { unfold fs, fields_len. clear. induction fields as [|[n x] l IH]; cbn in *; lia. }
  assert (zlen fs = zlen fields + 2) as Hzl by (unfold fs; rewrite zlen_app; done).
  pose proof (fields_len_nonneg fields). pose proof (zlen_nonneg fields).
  destruct (fresh_pkt 0 (fields_len fs)) as (b1&Hr1&Hw1&Hc1&Hl1&Hn1&Ha1); [lia..|].
  destruct (push_all_spec fs b1) as (b2&Hr2&Hw2&Hn2&Hc2&Ha2);
    [done|done|rewrite push_cost_len; unfold BFSFLEXBUF_DEFAULT_PAD; lia|].
  rewrite push_cost_len in Ha2. unfold BFSFLEXBUF_DEFAULT_PAD in Ha2.
  assert ((resetWithAlloc 0 Byte.x00 (fields_len fs) 0 false ;; push_all fs) FlexBuffer.empty = Ok () b2) as Hb
    by (by mrun Hr1).
  mrun (on_pkt_Ok _ _ _ _ s Hb).
  destruct (send_pkt_Ok s conn key u inb outb b2 FlexBuffer.empty Hs) as (?&?&s2&Hsend&K2&Hs2&_&_&_&_&_&Hd2);
    [done|lia|apply SecAssoc.roomy_empty|done|].
  mrun Hsend. exists s2. split; [done|]. split_and!; try done.
  rewrite Hc2, Hc1, app_nil_r in Hs2. unfold fs in Hs2. rewrite reverse_app in Hs2.
  unfold encode_fields in Hs2 |- *. rewrite fmap_app, concat_app in Hs2. cbn in Hs2.
  by rewrite app_nil_r, <-app_assoc in Hs2.
Qed.

(** ** Receiving a packet *)

(** The packet in the buffer of the connection's worker. *)
Definition holds s (conn : Z) (m : bytes) : Prop :=
  exists l, links s !! conn = Some l /\ buffer (l_pkt l) <> None /\ content (l_pkt l) = m.

Lemma recv_packet_Ok s conn key u m rest outb :
  session s conn key u (NetConn.frame m ++ rest) outb -> 0 < zlen m < 2 ^ 31 ->
  exists s', recv_packet kernel conn s = Ok (zlen m) s' /\ kept conn s s' /\
    session s' conn key u rest outb /\ holds s' conn m /\ draws s' = draws s.
Proof.
  intros Hs Hm. destruct (se_link _ _ _ _ _ _ Hs) as (l&Hlk&Hro&Hal&Hin&Hout).
  unfold recv_packet. rewrite Hlk.
  destruct (NetConn.recvPacketizedBuffer_ok (kernel conn) (healthy conn) (l_pkt l) m rest (l_net l))
    as (b'&n'&Hr&(Hi&Ho&_)&Hro'&Hn'&Hc'&Ha'); [done..|].
  rewrite Hr. eexists. split; [reflexivity|]. split_and!; [apply kept_link| | |done].
  - rewrite <-Hi, <-Hout, <-Ho. eapply session_link; [done..|lia].
  - eexists. cbn. rewrite lookup_insert_eq. done.
Qed.

Lemma seq_aad_bytes seq : default [] (seq_aad seq) = le_split 4 seq.
Proof. done. Qed.

(** The next message of the connection is opened. *)
Lemma open_pkt_Ok s conn key u inb outb r p :
  session s conn key u inb outb -> holds s conn (message key (User.user_recv_seq u) r p) -> zlen r = BFS_IV_LEN ->
  exists rpkt s', open_pkt conn s = Ok (Some rpkt) s' /\ kept conn s s' /\
    session s' conn key (User.inc_recv_seq u) inb outb /\ draws s' = draws s /\
    wf rpkt /\ buffer rpkt <> None /\ content rpkt = p /\ allocation rpkt < 2 ^ 31 + 200.
Proof.
  intros Hs (l&Hlk&Hnl&Hcl) Hr. unfold open_pkt. mrun (the_user_Ok _ _ _ _ _ _ Hs). rewrite bind_get, Hlk.
  destruct (se_link _ _ _ _ _ _ Hs) as (l'&Hlk'&Hro&Hal&Hin&Hout).
  rewrite Hlk in Hlk'. injection Hlk' as <-.
  destruct (se_sa _ _ _ _ _ _ Hs) as (a&Hsa&[t Hk]&Hwi&Hli).
  destruct (SecAssoc.decryptData_out_spec (SecAssoc.mkst (sa_key a) (sa_iv a) (l_pkt l) FlexBuffer.empty) _
    (seq_aad (User.user_recv_seq u)) r p Hk) as (t1&st&Hd&Hiv&Hrb&Hab&Hwo&Hno&Hco&Hao&t2&Hk2);
    [done..|apply SecAssoc.roomy_empty|done|cbn; lia|].
  pose proof (with_sa_Ok s conn (l_pkt l) FlexBuffer.empty _ a t1 st Hsa Hd) as Hwith.
  do 2 eexists. split.
  { apply catch_Ok. mrun Hwith. rewrite bind_modify. unfold upd_user. rewrite bind_modify. reflexivity. }
  cbn [SecAssoc.buf SecAssoc.out] in *. split_and!; try done.
  - etransitivity; [apply kept_sa|]. etransitivity; [apply kept_link|apply kept_user].
  - apply (session_user _ _ _ _ _ _ User.inc_recv_seq). rewrite <-Hin, <-Hout.
    eapply session_link; [|done|lia]. eapply session_sa; [done|]. by eapply sa_ok_st.
  - cbn in Hao. lia.
Qed.

(** A packet with another tag is refused; the counters stay. *)
Lemma open_pkt_refused s conn key u inb outb v c t :
  session s conn key u inb outb -> holds s conn (v ++ c ++ t) -> zlen v = BFS_IV_LEN -> zlen t = BFS_MAC_LEN ->
  t <> gcm_tag (CryptoKey.cipher_key (CryptoKey.setKeyData key)) v (le_split 4 (User.user_recv_seq u)) c ->
  exists s', open_pkt conn s = Ok None s' /\ kept conn s s' /\ session s' conn key u inb outb.
Proof.
  intros Hs (l&Hlk&Hnl&Hcl) Hv Ht Hne. unfold open_pkt. mrun (the_user_Ok _ _ _ _ _ _ Hs). rewrite bind_get, Hlk.
  destruct (se_link _ _ _ _ _ _ Hs) as (l'&Hlk'&Hro&Hal&Hin&Hout).
  rewrite Hlk in Hlk'. injection Hlk' as <-.
  destruct (se_sa _ _ _ _ _ _ Hs) as (a&Hsa&[t0 Hk]&Hwi&Hli).
  destruct (SecAssoc.decryptData_out_rejects (SecAssoc.mkst (sa_key a) (sa_iv a) (l_pkt l) FlexBuffer.empty) _
    (seq_aad (User.user_recv_seq u)) v c t Hk) as (st&Hd&Hiv&t2&Hk2);
    [done..|apply SecAssoc.roomy_empty|cbn; lia|done|].
  eexists. split.
  { unfold catch. rewrite (bind_Throw _ _ s (bfsCryptoError "gcrypt MAC verification failure: ")
      (set_sas (<[conn := mkSa (SecAssoc.saKey st) (SecAssoc.iv st)]> (user_sas s)) s)).
    - reflexivity.
    - unfold with_sa. by rewrite Hsa, Hd. }
  split; [apply kept_sa|]. eapply session_sa; [done|]. by eapply sa_ok_st.
Qed.

Abbreviation ecall := (ecall_bfs_handle_in_msg use_mt rnd kernel cl_serv_sa uninit indet).
Abbreviation round := (worker_round use_mt rnd kernel cl_serv_sa uninit indet).
Abbreviation dispatch := (dispatch use_mt rnd kernel uninit indet).

Definition is_int (z : Z) : Prop := - 2 ^ 31 <= z < 2 ^ 31.

(** What the worker does with the result of a request. *)
Definition round_end (conn rc : Z) : M srv bool :=
  if rc =? rc_success then mret false
  else modify (fun s => set_links (delete conn (links s)) s) ;; mret true.

(** The next message of a connection reaches the handler of its operation. *)
Lemma round_dispatch s conn key u r otype q rest outb :
  let p := le_split 4 TO_SERVER ++ le_split 4 otype ++ q in
  session s conn key u (NetConn.frame (message key (User.user_recv_seq u) r p) ++ rest) outb ->
  zlen r = BFS_IV_LEN -> is_int otype -> zlen q + 60 < 2 ^ 31 ->
  exists rpkt s1, round conn s = (dispatch otype conn rpkt ≫= round_end conn) s1 /\ kept conn s s1 /\
    session s1 conn key (User.inc_recv_seq u) rest outb /\ draws s1 = draws s /\
    wf rpkt /\ buffer rpkt <> None /\ content rpkt = q.
Proof.
  intros p Hs Hr Ho Hq.
  assert (zlen p = zlen q + 8) as Hp by (unfold p; rewrite !zlen_app, !zlen_le_split; lia).
  pose proof (message_zlen key (User.user_recv_seq u) r p Hr) as Hm.
  destruct (recv_packet_Ok _ _ _ _ _ _ _ Hs) as (s1&Hrecv&K1&Hs1&Hh1&Hd1); [lia|].
  destruct (open_pkt_Ok s1 conn key u rest outb r p Hs1 Hh1 Hr) as (b&s2&Hopen&K2&Hs2&Hd2&Hwb&Hnb&Hcb&_).
  destruct (pull_int_spec 4 TO_SERVER (le_split 4 otype ++ q) b) as (b1&Hp1&Hw1&Hn1&Hc1&_);
    [lia|done..|cbn; unfold TO_SERVER; lia|].
  destruct (pull_int_spec 4 otype q b1) as (b2&Hp2&Hw2&Hn2&Hc2&_); [lia|done..|].
  exists b2, s2. split_and!; try done; [|by etransitivity|congruence].
  unfold worker_round. mrun Hrecv. destruct (Z.ltb_spec 0 (zlen (message key (User.user_recv_seq u) r p))); [|lia].
  rewrite bind_assoc. unfold ecall_bfs_handle_in_msg at 1. rewrite !bind_assoc, bind_gets.
  unfold ACLayer.get_user_context. rewrite (se_init _ _ _ _ _ _ Hs1), (se_user _ _ _ _ _ _ Hs1). cbn [negb].
  rewrite bind_assoc. mrun Hopen. rewrite bind_assoc. mrun (on_pkt_Ok _ _ _ _ s2 Hp1).
  rewrite bind_assoc. mrun (on_pkt_Ok _ _ _ _ s2 Hp2). cbn [Z.eqb Pos.eqb negb TO_SERVER].
  unfold mbind, M_bind, round_end. by destruct (dispatch otype conn b2 s2).
Qed.

(** ** Operations with one return value *)

(** What the client is told of a run of the file system, and the state it
    leaves; [None]: nothing is sent. *)
Definition answer {A} (o : outcome (fs B) A) (deny failed : A) : option (A * fs B) :=
  match o with
  | Ok a f => Some (a, f)
  | Throw (BfsAccessDeniedError _) f => Some (deny, f)
  | Throw (BfsClientRequestFailedError _) f => Some (failed, f)
  | _ => None
  end.

Lemma session_hfs s conn key u inb outb f : session s conn key u inb outb -> session (set_hfs f s) conn key u inb outb.
Proof. intros []. by constructor. Qed.

Lemma run_op_answer {A} s conn key u inb outb utils (deny failed a : A) f (m : bool -> option User.t -> M (fs B) A) :
  session s conn key u inb outb -> bfs_handle s = true ->
  answer (m true (Some u) (hfs s)) deny failed = Some (a, f) ->
  run_op conn utils deny failed m s = Ok (Some a) (set_hfs f s).
Proof.
  intros Hs Hh Ha. unfold run_op. rewrite bind_gets. mrun (the_user_Ok _ _ _ _ _ _ Hs). rewrite bind_gets, Hh.
  rewrite (se_init _ _ _ _ _ _ Hs). cbn [negb]. unfold catch, mbind, M_bind, on_fs. unfold answer in Ha.
  destruct (m true (Some u) (hfs s)) as [x g|e g|]; [|destruct e|]; by simplify_eq.
Qed.

(** An error of the server itself: no response, and the request has failed. *)
Lemma run_op_server_error {A} s conn key u inb outb (deny failed : A) msg f (m : bool -> option User.t -> M (fs B) A) utils :
  session s conn key u inb outb -> bfs_handle s = true ->
  m true (Some u) (hfs s) = Throw (BfsServerError msg) f ->
  run_op conn utils deny failed m s = Ok None (set_hfs f s).
Proof.
  intros Hs Hh Hm. unfold run_op. rewrite bind_gets. mrun (the_user_Ok _ _ _ _ _ _ Hs). rewrite bind_gets, Hh.
  rewrite (se_init _ _ _ _ _ _ Hs). cbn [negb]. unfold catch, mbind, M_bind, on_fs. by rewrite Hm.
Qed.

(** The payload of a response with one value of [n] bytes. *)
Definition response (otype : Z) (n : nat) (ret : Z) : bytes :=
  le_split 4 FROM_SERVER ++ le_split 4 otype ++ le_split n ret.

Lemma do_op_answer s conn key u inb outb otype n m ret f :
  session s conn key u inb outb -> bfs_handle s = true -> (n <= 8)%nat ->
  answer (m true (Some u) (hfs s)) (- EPERM) rc_failure = Some (ret, f) ->
  exists s', do_op rnd kernel conn otype n m s = Ok rc_success s' /\ kept conn (set_hfs f s) s' /\
    session s' conn key (User.inc_send_seq u) inb
      (outb ++ NetConn.frame (message key (User.user_send_seq u) (rnd (draws s)) (response otype n ret))) /\
    draws s' = S (draws s).
Proof.
  intros Hs Hh Hn Ha. unfold do_op.
  mrun (run_op_answer s conn key u inb outb true _ _ ret f m Hs Hh Ha).
  destruct (reply_Ok (set_hfs f s) conn key u inb outb otype [(n, ret)]) as (s'&Hr&K&Hs'&Hd);
    [by apply session_hfs|done|cbn; lia|].
  exists s'. split_and!; try done. unfold response. unfold encode_fields in Hs'. cbn in Hs'.
  by rewrite app_nil_r in Hs'.
Qed.
End server.

(** ** The client's side *)
Section client.
Context `{Cipher} {claws : CipherLaws} (rnd : nat -> bytes) (kernel : nat -> Z).
Context (rnd_zlen : forall n, zlen (rnd n) = BFS_IV_LEN) (healthy : forall i, 0 <= kernel i).

(** The client between or inside operations: the key, the sequence numbers, the
    bytes to read and those sent, whether it holds the lock. *)
Record ready (c : client) (key : bytes) (sseq rseq : Z) (inb outb : bytes) (locked : bool) : Prop := {
  rd_live : c_live c = true;
  rd_lock : mux_lock c = locked;
  rd_sa : sa_ok key (c_sa c);
  rd_send : send_seq c = sseq;
  rd_recv : recv_seq c = rseq;
  rd_in : RawNet.inbox (NetConn.socket (c_net c)) = inb;
  rd_out : RawNet.outbox (NetConn.socket (c_net c)) = outb
}.

Lemma c_pkt_Ok {A} (m : M FlexBuffer.t A) b a b' c : m b = Ok a b' -> c_pkt m b c = Ok (a, b') c.
Proof. unfold c_pkt. by intros ->. Qed.

Lemma c_crypt_Ok {A} (m : M SecAssoc.st A) b a st c :
  m (SecAssoc.mkst (sa_key (c_sa c)) (sa_iv (c_sa c)) b FlexBuffer.empty) = Ok a st ->
  c_crypt b m c = Ok (a, SecAssoc.buf st) (set_sa (mkSa (SecAssoc.saKey st) (SecAssoc.iv st)) c).
Proof. unfold c_crypt. by intros ->. Qed.

Lemma on_net_Ok {A} (m : M NetConn.t A) a n c : m (c_net c) = Ok a n -> on_net m c = Ok a (set_net n c).
Proof. unfold on_net. by intros ->. Qed.

(** Data of the length the buffer has is copied in place. *)
Lemma setData_same b d :
  wf b -> zlen d = length b ->
  exists b', (setData d ;; mret ()) b = Ok () b' /\ wf b' /\ content b' = d /\
    (buffer b <> None -> buffer b' <> None) /\ allocation b' = allocation b.
Proof.
  intros Hw Hd. destruct (SecAssoc.put_content_spec b d Hw Hd) as (b1&Hr1&Hw1&Hc1&Hl1&Ha1&Hn1).
  pose proof Hw1 as (?&?&?&?&?&?&?). pose proof Hw as (?&?&?&?&?&?&?).
  unfold SecAssoc.put_content in Hr1. rewrite bind_get in Hr1.
  assert (hlength b1 = hlength b /\ tlength b1 = tlength b) as [Hh Ht].
  { destruct (store_ok b (hlength b) d) as (b2&Hr2&_&_&?&_&?&_); [done|lia..|]. rewrite Hr1 in Hr2. by simplify_eq. }
  destruct (set_lens_ok b1 (hlength b) (zlen d) (tlength b)) as (b3&Hs3&Hw3&Hm3&Hn3&Hh3&Hl3&_&Ha3); [done|lia..|].
  exists b3. unfold setData. rewrite bind_assoc, bind_get.
  destruct (Z.eqb_spec (zlen d) (length b)); [|done]. cbn [negb].
  rewrite bind_assoc, bind_ret, bind_assoc, bind_get, bind_assoc. mrun Hr1. rewrite bind_assoc. mrun Hs3.
  split_and!; try done; [|rewrite Hn3; auto|congruence].
  unfold content. rewrite Hh3, Hl3, Hm3, <-Hh, Hd, <-Hl1. exact Hc1.
Qed.

(** The packet of a request. *)
Lemma request_pkt data fields :
  zlen (default [] data) < 2 ^ 31 - 10000 -> zlen fields < 100 -> 0 < fields_len fields < 1000 ->
  exists b, (resetWithAlloc (zlen (default [] data)) Byte.x00 (fields_len fields) 0 false ;;
      (match data with Some d => setData d ;; mret () | None => mret () end) ;;
      push_all fields) FlexBuffer.empty = Ok () b /\ wf b /\ buffer b <> None /\
    content b = encode_fields (reverse fields) ++ default [] data /\ allocation b < 2 ^ 31 - 4000.
Proof.
  intros Hd Hz Hf. pose proof (zlen_nonneg (default [] data)).
  destruct (fresh_pkt (zlen (default [] data)) (fields_len fields)) as (b1&Hr1&Hw1&Hc1&Hl1&Hn1&Ha1); [lia..|].
  assert (exists b2, (match data with Some d => setData d ;; mret () | None => mret () end) b1 = Ok () b2 /\ wf b2 /\
    content b2 = default [] data /\ buffer b2 <> None /\ allocation b2 = allocation b1) as (b2&Hr2&Hw2&Hc2&Hn2&Ha2).
  { destruct data as [d|]; cbn [default from_option id] in *; [|by exists b1].
    destruct (setData_same b1 d Hw1) as (b2&Hr2&Hw2&Hc2&Hn2&Ha2); [done|]. exists b2. split_and!; auto. }
  destruct (push_all_spec fields b2) as (b3&Hr3&Hw3&Hn3&Hc3&Ha3);
    [done|done|rewrite push_cost_len; unfold BFSFLEXBUF_DEFAULT_PAD; lia|].
  rewrite push_cost_len in Ha3. unfold BFSFLEXBUF_DEFAULT_PAD in Ha3.
  exists b3. mrun Hr1. mrun Hr2. split_and!; try done; [|lia]. by rewrite Hc3, Hc2.
Qed.

Lemma send_sealed_Ok c key sseq rseq inb outb b :
  ready c key sseq rseq inb outb false -> wf b -> allocation b < 2 ^ 31 - 4000 ->
  exists c', send_sealed rnd kernel b c = Ok () c' /\
    ready c' key (u32 (sseq + 1)) rseq inb
      (outb ++ NetConn.frame (message key sseq (rnd (c_draws c)) (content b))) true.
Proof.
  intros [Hlv Hlk [[t Hk] [Hwi Hli]] <- <- <- <-] Hw Ha. unfold send_sealed, lock.
  rewrite bind_assoc, bind_gets, Hlk, bind_modify, bind_gets. cbn [c_live set_lock]. rewrite Hlv. cbn [negb].
  rewrite bind_gets. cbn [send_seq set_lock].
  set (c1 := mkClient (c_net c) (c_sa c) (send_seq c) (recv_seq c) true (c_live c) (S (c_draws c))).
  mrun (eq_refl : c_draw rnd (set_lock true c) = Ok (rnd (c_draws c)) c1).
  destruct (SecAssoc.encryptData_spec (SecAssoc.mkst (sa_key (c_sa c)) (sa_iv (c_sa c)) b FlexBuffer.empty) _
    (seq_aad (send_seq c)) true (rnd (c_draws c)) Hk) as (st&He&Hiv&Hwb&Hnb&Hcb&t'&Hk');
    [done|apply rnd_zlen|done|done|cbn; lia|].
  mrun (c_crypt_Ok _ b () st c1 He). rewrite bind_modify. cbn [SecAssoc.buf] in Hcb.
  rewrite seq_aad_bytes, sealed_key in Hcb. cbn [CryptoKey.keydat] in Hcb.
  pose proof (message_zlen key (send_seq c) (rnd (c_draws c)) (content b) (rnd_zlen _)) as Hm.
  rewrite <-Hcb, !content_zlen in Hm by done. pose proof Hw as (?&?&?&?&?&?&?).
  set (c2 := set_seqs _ _ _).
  destruct (NetConn.sendPacketizedBuffer_ok kernel healthy (SecAssoc.buf st) (c_net c2)) as (n&Hn&Hi&Ho&_); [done|lia|].
  unfold send_msgp. mrun (on_net_Ok _ _ _ _ Hn).
  rewrite u32_small by lia. rewrite Z.eqb_refl. cbn [negb]. rewrite orb_false_r.
  destruct (Z.ltb_spec (length (SecAssoc.buf st)) 0); [lia|].
  eexists. split; [reflexivity|]. rewrite Hcb in Ho. constructor; try done. by eapply sa_ok_st.
Qed.

Lemma send_request_Ok c key sseq rseq inb outb data fields :
  ready c key sseq rseq inb outb false -> zlen (default [] data) < 2 ^ 31 - 10000 ->
  zlen fields < 100 -> 0 < fields_len fields < 1000 ->
  exists c', send_request rnd kernel data fields c = Ok () c' /\
    ready c' key (u32 (sseq + 1)) rseq inb
      (outb ++ NetConn.frame (message key sseq (rnd (c_draws c)) (encode_fields (reverse fields) ++ default [] data))) true.
Proof.
  intros Hr Hd Hz Hf. destruct (request_pkt data fields Hd Hz Hf) as (b&Hb&Hw&Hn&Hc&Ha).
  unfold send_request. mrun (c_pkt_Ok _ _ _ _ c Hb). rewrite <-Hc. by apply send_sealed_Ok.
Qed.

(** The payload of a message with the types the client expects, if any. *)
Definition payload (types : option (Z * Z)) (q : bytes) : bytes :=
  match types with
  | None => q
  | Some (mtype, otype) => le_split 4 mtype ++ le_split 4 otype ++ q
  end.

Definition int_types (types : option (Z * Z)) : Prop :=
  match types with None => True | Some (mtype, otype) => is_int mtype /\ is_int otype end.

Lemma payload_zlen types q : zlen q <= zlen (payload types q) <= zlen q + 8.
Proof. destruct types as [[]|]; cbn; rewrite ?zlen_app, ?zlen_le_split; lia. Qed.

Lemma take_types_Ok types q b c :
  wf b -> buffer b <> None -> content b = payload types q -> int_types types ->
  exists b', take_types types b c = Ok b' c /\ wf b' /\ buffer b' <> None /\ content b' = q /\
    allocation b' = allocation b.
Proof.
  intros Hw Hn Hc Ht. destruct types as [[mt ot]|]; cbn [payload int_types take_types] in *; [|by exists b].
  destruct Ht as [Hmt Hot].
  destruct (pull_int_spec 4 mt (le_split 4 ot ++ q) b) as (b1&Hp1&Hw1&Hn1&Hc1&Ha1); [lia|done..|].
  destruct (pull_int_spec 4 ot q b1) as (b2&Hp2&Hw2&Hn2&Hc2&Ha2); [lia|done..|].
  mrun (c_pkt_Ok _ _ _ _ c Hp1). mrun (c_pkt_Ok _ _ _ _ c Hp2). rewrite !Z.eqb_refl. cbn [negb orb].
  exists b2. split_and!; congruence || done.
Qed.

(** The next message, of the expected types and length, is received and opened;
    what follows it stays in the connection. *)
Lemma recv_msgp_Ok c key sseq rseq rest outb l b0 len types (short : bool) r q :
  let m := message key rseq r (payload types q) in
  ready c key sseq rseq (NetConn.frame m ++ rest) outb l -> SecAssoc.room_for (zlen m) b0 ->
  zlen r = BFS_IV_LEN -> int_types types -> zlen q + 60 < 2 ^ 31 ->
  (if short then types <> None else len = zlen (payload types q)) ->
  exists b c', recv_msgp kernel b0 len types short c = Ok b c' /\
    wf b /\ buffer b <> None /\ content b = q /\ allocation b <= Z.max (allocation b0) (zlen m + 64) /\
    ready c' key sseq (u32 (rseq + 1)) rest outb l.
Proof.
  intros m [Hlv Hlk [[t Hk] [Hwi Hli]] <- <- Hin <-] Hroom Hr Ht Hq Hlen.
  set (p := payload types q) in *. pose proof (payload_zlen types q : zlen q <= zlen p <= zlen q + 8) as Hp.
  pose proof (message_zlen key (recv_seq c) r p Hr : 0 < zlen m <= zlen p + 44) as Hmz. pose proof (zlen_nonneg q).
  unfold recv_msgp.
  destruct (NetConn.recvPacketizedBuffer_fit kernel healthy b0 m rest (c_net c))
    as (b&n&Hrecv&(Hi&Hout&_)&[Hwb _]&Hnb&Hcb&Hab); [done|lia|done|].
  mrun (on_net_Ok _ _ _ _ Hrecv). destruct (Z.eqb_spec (zlen m) 0), (Z.eqb_spec (zlen m) (-1)); [lia..|]. cbn [orb].
  rewrite bind_gets. cbn [recv_seq set_net].
  destruct (SecAssoc.decryptData_spec (SecAssoc.mkst (sa_key (c_sa c)) (sa_iv (c_sa c)) b FlexBuffer.empty) _
    (seq_aad (recv_seq c)) true r p Hk) as (t1&st&Hd&Hiv&Hws&Hns&Hcs&Has&t2&Hk2); [done..|].
  mrun (c_crypt_Ok _ b _ st (set_net n c) Hd). rewrite bind_modify. set (c2 := set_seqs _ _ _).
  assert (length (SecAssoc.buf st) = zlen p) as Hls by (by rewrite <-content_zlen, Hcs).
  destruct (take_types_Ok types q (SecAssoc.buf st) c2) as (b'&Hty&Hw'&Hn'&Hc'&Ha'); [done..|].
  mrun Hty. rewrite Hls.
  assert ((short && (zlen p <? 8)) || (negb short && negb (zlen p =? len)) = false) as ->.
  { destruct short; cbn [negb andb orb].
    - rewrite orb_false_r. apply Z.ltb_ge. subst p. destruct types as [[]|]; [|done].
      cbn. rewrite !zlen_app, !zlen_le_split. lia.
    - by rewrite Hlen, Z.eqb_refl. }
  exists b', c2. cbn [SecAssoc.buf] in Has. split_and!; try done; [lia|]. constructor; try done. by eapply sa_ok_st.
Qed.

(** The response with the expected number, type and length is handed to [m]. *)
Lemma recv_response_run {A} c key sseq rseq outb len otype short (m : M FlexBuffer.t A) r q :
  let p := le_split 4 FROM_SERVER ++ le_split 4 otype ++ q in
  ready c key sseq rseq (NetConn.frame (message key rseq r p)) outb true ->
  zlen r = BFS_IV_LEN -> is_int otype -> zlen q + 60 < 2 ^ 31 -> (short = false -> len = 8 + zlen q) ->
  exists b c', recv_response kernel len otype short m c = ('(a, _) ← c_pkt m b; mret a) c' /\
    wf b /\ buffer b <> None /\ content b = q /\ ready c' key sseq (u32 (rseq + 1)) [] outb false.
Proof.
  intros p Hc Hr Ho Hq Hlen. rewrite <-(app_nil_r (NetConn.frame _)) in Hc.
  destruct (recv_msgp_Ok c key sseq rseq [] outb true FlexBuffer.empty len (Some (FROM_SERVER, otype)) short r q Hc)
    as (b&c'&Hrun&Hw&Hn&Hct&_&Hrd).
  - apply SecAssoc.roomy_for; [apply SecAssoc.roomy_empty|apply zlen_nonneg].
  - done.
  - split; [split; vm_compute; congruence|done].
  - done.
  - destruct short; [done|]. rewrite (Hlen eq_refl). cbn. rewrite !zlen_app, !zlen_le_split. lia.
  - exists b, (set_lock false c'). unfold recv_response. mrun Hrun. unfold unlock. rewrite bind_modify.
    split_and!; try done. destruct Hrd. by constructor.
Qed.

Lemma recv_response_Ok {A} c key sseq rseq outb len otype short (m : M FlexBuffer.t A) r q a :
  let p := le_split 4 FROM_SERVER ++ le_split 4 otype ++ q in
  ready c key sseq rseq (NetConn.frame (message key rseq r p)) outb true ->
  zlen r = BFS_IV_LEN -> is_int otype -> zlen q + 60 < 2 ^ 31 -> (short = false -> len = 8 + zlen q) ->
  (forall b, wf b -> buffer b <> None -> content b = q -> exists b', m b = Ok a b') ->
  exists c', recv_response kernel len otype short m c = Ok a c' /\
    ready c' key sseq (u32 (rseq + 1)) [] outb false.
Proof.
  intros p Hc Hr Ho Hq Hlen Hm.
  destruct (recv_response_run c key sseq rseq outb len otype short m r q Hc Hr Ho Hq Hlen) as (b&c'&Hrun&Hw&Hn&Hct&Hrd).
  destruct (Hm b Hw Hn Hct) as [b' Hb']. exists c'. rewrite Hrun. by mrun (c_pkt_Ok _ _ _ _ c' Hb').
Qed.
End client.
