(* ===== verification/NetDeviceSpec.v ===== *)
(** * A remote device is a local device

    The operations of a remote device, joined with the device across the network
    ([exchange]), have the effect and the result of the operations of a local
    device on the same storage. *)
From S2P Require Import Prelude Layout BfsUtil FlexBuffer SecAssoc Wire BlockLayer BlockStore Volume FsAlloc Acl FsDir FsDirSpec FsFile FsOps Mkfs Server NetDevice Client Rpc.
Import FlexBuffer FlexStream Msg DeviceLayer.

(** ** Packets *)
Definition packet (h : header) (d : bytes) : bytes :=
  le_split 4 (h_usr h) ++ le_split 4 (h_did h) ++ le_split 1 (h_cmd h) ++ le_split 1 (h_ack h) ++
  le_split 4 (zlen d) ++ d.

Definition header_ok (h : header) : Prop :=
  fits 4 (h_usr h) /\ fits 4 (h_did h) /\ 0 <= h_cmd h < 128 /\ fits 1 (h_ack h).

Lemma mk_header_ok did cmd ack : fits 4 did -> 0 <= cmd < 128 -> 0 <= ack < 2 -> header_ok (mkHeader 1 did cmd ack).
Proof. intros. split; [split; cbn; lia|]. split; [done|]. split; [done|]. split; cbn; lia. Qed.

Lemma packet_zlen h d : zlen (packet h d) = 14 + zlen d.
Proof. unfold packet. rewrite !zlen_app, !zlen_le_split. lia. Qed.

Lemma on_buffer_Ok {S A} (m : M FlexBuffer.t A) b a b' (s : S) : m b = Ok a b' -> on_buffer m b s = Ok (a, b') s.
Proof. unfold on_buffer. by intros ->. Qed.

Section packets.
Context `{Cipher} {claws : CipherLaws} (rnd : nat -> bytes) (rnd_zlen : forall n, zlen (rnd n) = BFS_IV_LEN).

Definition chan_ok (key : bytes) (c : chan) : Prop := exists a, ch_sa c = Some a /\ sa_ok key a.

(** The sizes of a sealed packet. *)
Lemma sealed_packet_zlen key seq n h d :
  42 + zlen d <= zlen (message key seq (rnd n) (packet h d)) <= 58 + zlen d.
Proof.
  unfold message, SecAssoc.sealed. rewrite !zlen_app, rnd_zlen, encrypt_zlen, zlen_app, SecAssoc.pad_bytes_zlen, packet_zlen.
  pose proof (SecAssoc.pad_size_range (14 + zlen d)). rewrite tag_zlen. unfold BFS_IV_LEN, BFS_MAC_LEN. lia.
Qed.

Lemma crypt_Ok {A} a b (m : M SecAssoc.st A) x st (c : chan) :
  m (SecAssoc.mkst (sa_key a) (sa_iv a) b FlexBuffer.empty) = Ok x st ->
  crypt a b m c = Ok (x, SecAssoc.buf st) (mkChan (Some (mkSa (SecAssoc.saKey st) (SecAssoc.iv st))) (ch_draws c)).
Proof. unfold crypt. by intros ->. Qed.

Lemma marshal_Ok key c h seq b :
  chan_ok key c -> wf b -> allocation b < 2 ^ 31 ->
  exists b' c', marshalBfsDevicePacket rnd h seq b c = Ok b' c' /\ chan_ok key c' /\ ch_draws c' = S (ch_draws c) /\
    wf b' /\ content b' = message key seq (rnd (ch_draws c)) (packet h (content b)).
Proof.
  intros (a&Ha&[t Hk]&Hwi&Hli) Hw Hal. unfold marshalBfsDevicePacket. rewrite bind_gets, Ha.
  assert (exists b1, push_all (header_fields h (length b)) b = Ok () b1 /\ wf b1 /\
    content b1 = packet h (content b) /\ allocation b1 <= allocation b + 174) as (b1&Hp&Hw1&Hc1&Ha1).
  { unfold header_fields. cbn [push_all].
    destruct (push_spec 4 (length b) b) as (b0&Hr0&Hw0&Hc0&Hn0&Ha0); [done|unfold BFSFLEXBUF_DEFAULT_PAD; lia|]. mrun Hr0.
    unfold BFSFLEXBUF_DEFAULT_PAD in *.
    destruct (push_all_spec [(1%nat, h_ack h); (1%nat, h_cmd h); (4%nat, h_did h); (4%nat, h_usr h)] b0)
      as (b1&Hr1&Hw1&_&Hc1&Ha1); [done|apply Hn0; by left|cbn; unfold BFSFLEXBUF_DEFAULT_PAD; lia|].
    exists b1. split_and!; [exact Hr1|done| |cbn in Ha1; unfold BFSFLEXBUF_DEFAULT_PAD in Ha1; lia].
    rewrite Hc1, Hc0, <-(content_zlen b Hw). unfold packet, encode_fields. cbn. by rewrite <-!app_assoc. }
  mrun (on_buffer_Ok _ _ _ _ c Hp). mrun (eq_refl : draw rnd c = Ok (rnd (ch_draws c)) (mkChan (ch_sa c) (S (ch_draws c)))).
  destruct (SecAssoc.encryptData_spec (SecAssoc.mkst (sa_key a) (sa_iv a) b1 FlexBuffer.empty) _
    (seq_aad seq) true (rnd (ch_draws c)) Hk) as (st&He&Hiv&Hwb&Hnb&Hcb&t'&Hk');
    [done|apply rnd_zlen|done|done|cbn; lia|].
  mrun (crypt_Ok a b1 _ () st (mkChan (ch_sa c) (S (ch_draws c))) He).
  do 2 eexists. split; [reflexivity|]. split_and!; try done.
  - eexists. split; [reflexivity|]. by eapply sa_ok_st.
  - cbn [SecAssoc.buf] in Hcb. rewrite seq_aad_bytes, sealed_key, Hc1 in Hcb. exact Hcb.
Qed.

Lemma unmarshal_Ok key c h seq n d b :
  chan_ok key c -> wf b -> buffer b <> None -> content b = message key seq (rnd n) (packet h d) ->
  header_ok h -> zlen d < 2 ^ 32 ->
  exists b' c', unmarshalBfsDevicePacket seq b c = Ok (Some h, b') c' /\ chan_ok key c' /\ ch_draws c' = ch_draws c /\
    wf b' /\ buffer b' <> None /\ content b' = d /\ allocation b' = allocation b.
Proof.
  intros (a&Ha&[t Hk]&Hwi&Hli) Hw Hn Hc (Hu&Hd&Hcm&Hack) Hz. unfold unmarshalBfsDevicePacket. rewrite bind_gets, Ha.
  destruct (SecAssoc.decryptData_spec (SecAssoc.mkst (sa_key a) (sa_iv a) b FlexBuffer.empty) _
    (seq_aad seq) true (rnd n) (packet h d) Hk) as (t1&st&Hde&Hiv&Hws&Hns&Hcs&Has&t2&Hk2); try done.
  mrun (crypt_Ok a b _ _ st c Hde). unfold packet in Hcs.
  destruct (pull_spec 4 _ _ _ Hws Hns Hcs Hu) as (b1&Hp1&Hw1&Hn1&Hc1&Ha1).
  destruct (pull_spec 4 _ _ _ Hw1 Hn1 Hc1 Hd) as (b2&Hp2&Hw2&Hn2&Hc2&Ha2).
  destruct (pull_int_spec 1 _ _ _ ltac:(lia) Hw2 Hn2 Hc2) as (b3&Hp3&Hw3&Hn3&Hc3&Ha3); [cbn; lia|].
  destruct (pull_spec 1 _ _ _ Hw3 Hn3 Hc3 Hack) as (b4&Hp4&Hw4&Hn4&Hc4&Ha4).
  destruct (pull_spec 4 _ _ _ Hw4 Hn4 Hc4) as (b5&Hp5&Hw5&Hn5&Hc5&Ha5); [split; [apply zlen_nonneg|cbn; lia]|].
  assert (pull_header (SecAssoc.buf st) = Ok (h, zlen d) b5) as Hh.
  { unfold pull_header. mrun Hp1. mrun Hp2. mrun Hp3. mrun Hp4. mrun Hp5. by destruct h. }
  mrun (on_buffer_Ok _ _ _ _ (mkChan (Some (mkSa (SecAssoc.saKey st) (SecAssoc.iv st))) (ch_draws c)) Hh).
  rewrite <-(content_zlen b5 Hw5), Hc5, Z.eqb_refl. cbn [negb].
  do 2 eexists. split; [reflexivity|]. split_and!; try done.
  - eexists. split; [reflexivity|]. by eapply sa_ok_st.
  - cbn [SecAssoc.buf] in Has. congruence.
Qed.
End packets.

(** ** The side of the block layer *)
Section remote.
Context `{Cipher} {claws : CipherLaws} (rnd : nat -> bytes) (kernel : nat -> Z).
Context (rnd_zlen : forall n, zlen (rnd n) = BFS_IV_LEN) (healthy : forall i, 0 <= kernel i).
Implicit Types d : RemoteDevice.t.

(** A connected device with the number [id]: its sequence numbers, what has
    arrived for it and what it has sent. *)
Record rready d (key : bytes) (id sseq rseq : Z) (inb outb : bytes) : Prop := {
  rr_chan : chan_ok key (RemoteDevice.secContext d);
  rr_id : RemoteDevice.deviceID d = id;
  rr_send : RemoteDevice.rd_send_seq d = sseq;
  rr_recv : RemoteDevice.rd_recv_seq d = rseq;
  rr_conn : exists n, RemoteDevice.remoteConn d = Some n /\ RawNet.inbox (NetConn.socket n) = inb /\
    RawNet.outbox (NetConn.socket n) = outb
}.

Lemma r_on_chan_Ok {A} (m : M chan A) a c d :
  m (RemoteDevice.secContext d) = Ok a c -> RemoteDevice.on_chan m d = Ok a (RemoteDevice.set_chan c d).
Proof. unfold RemoteDevice.on_chan. by intros ->. Qed.

Lemma r_on_conn_Ok {A} (m : M NetConn.t A) a n n' d :
  RemoteDevice.remoteConn d = Some n -> m n = Ok a n' ->
  RemoteDevice.on_conn m d = Ok a (RemoteDevice.set_conn (Some n') d).
Proof. unfold RemoteDevice.on_conn. by intros -> ->. Qed.

Lemma request_Ok late cmd did b d key id sseq rseq inb outb :
  let m := message key sseq (rnd (ch_draws (RemoteDevice.secContext d))) (packet (mkHeader 1 did cmd 0) (content b)) in
  rready d key id sseq rseq inb outb -> wf b -> allocation b < 2 ^ 31 - 1000 ->
  exists b' d', RemoteDevice.request rnd kernel late cmd did b d = Ok (true, b') d' /\ wf b' /\ content b' = m /\
    rready d' key id (u32 (sseq + 1)) rseq inb (outb ++ NetConn.frame m).
Proof.
  intros m [Hch Hid <- Hre (n&Hn&Hin&Hout)] Hw Ha. unfold RemoteDevice.request. rewrite bind_gets.
  destruct (marshal_Ok rnd rnd_zlen key _ (mkHeader 1 did cmd 0) (RemoteDevice.rd_send_seq d) b Hch Hw)
    as (b'&c'&Hm&Hch'&_&Hw'&Hc'); [lia|]. fold m in Hc'.
  mrun (r_on_chan_Ok _ _ _ _ Hm). set (d1 := RemoteDevice.set_chan c' d).
  pose proof (sealed_packet_zlen rnd rnd_zlen key (RemoteDevice.rd_send_seq d) (ch_draws (RemoteDevice.secContext d))
    (mkHeader 1 did cmd 0) (content b)) as Hz. fold m in Hz. rewrite content_zlen in Hz by done.
  pose proof (content_zlen b' Hw') as Hl. rewrite Hc' in Hl. pose proof Hw as (?&?&?&?&?&?&?).
  destruct (NetConn.sendPacketizedBuffer_ok kernel healthy b' n Hw') as (n'&Hs&Hi&Ho&_); [lia|].
  rewrite Hc', Hout in Ho. rewrite Hin in Hi. exists b'.
  destruct late.
  - rewrite bind_ret. mrun (r_on_conn_Ok _ _ n n' d1 Hn Hs). rewrite Z.eqb_refl. cbn [negb]. rewrite bind_modify.
    eexists. split; [reflexivity|]. split_and!; try done. constructor; try done. by exists n'.
  - rewrite bind_modify. mrun (r_on_conn_Ok _ _ n n' (RemoteDevice.inc_send d1) Hn Hs). rewrite Z.eqb_refl. cbn [negb].
    rewrite bind_ret. eexists. split; [reflexivity|]. split_and!; try done. constructor; try done. by exists n'.
Qed.

Lemma response_Ok (rnd' : nat -> bytes) k cmd chk len data did b d key id sseq rseq outb :
  let m := message key rseq (rnd' k) (packet (mkHeader 1 did cmd 1) data) in
  (forall n, zlen (rnd' n) = BFS_IV_LEN) ->
  rready d key id sseq rseq (NetConn.frame m) outb -> (chk = true -> did = id) -> fits 4 did -> 0 <= cmd < 128 ->
  zlen data = len -> zlen data < 2 ^ 31 - 1000 -> SecAssoc.room_for (zlen m) b ->
  exists b' d', RemoteDevice.response kernel cmd chk len b d = Ok (true, b') d' /\ wf b' /\ buffer b' <> None /\
    content b' = data /\ rready d' key id sseq (u32 (rseq + 1)) [] outb.
Proof.
  intros m Hr' [Hch Hid Hse <- (n&Hn&Hin&Hout)] Hdid Hfd Hcm Hlen Hz Hroom. unfold RemoteDevice.response.
  pose proof (sealed_packet_zlen rnd' Hr' key (RemoteDevice.rd_recv_seq d) k (mkHeader 1 did cmd 1) data) as Hmz. fold m in Hmz.
  pose proof (zlen_nonneg data).
  destruct (NetConn.recvPacketizedBuffer_fit kernel healthy b m [] n Hroom) as (b1&n1&Hrecv&(Hi&Ho&_)&[Hw1 _]&Hn1&Hc1&_);
    [lia|by rewrite app_nil_r|].
  mrun (r_on_conn_Ok _ _ n n1 d Hn Hrecv). destruct (Z.leb_spec (zlen m) 0); [lia|]. rewrite bind_get.
  destruct (unmarshal_Ok rnd' Hr' key _ (mkHeader 1 did cmd 1) (RemoteDevice.rd_recv_seq d) k data b1 Hch Hw1 Hn1 Hc1)
    as (b2&c2&Hu&Hch2&_&Hw2&Hn2&Hc2&_); [by apply mk_header_ok|lia|].
  mrun (r_on_chan_Ok _ _ _ (RemoteDevice.set_conn (Some n1) d) Hu).
  cbn [h_usr h_did h_cmd h_ack]. rewrite <-(content_zlen b2 Hw2), Hc2, Hlen, !Z.eqb_refl. cbn [negb orb].
  assert (chk && negb (did =? RemoteDevice.deviceID (RemoteDevice.set_conn (Some n1) d)) = false) as ->.
  { destruct chk; [|done]. rewrite (Hdid eq_refl). cbn. by rewrite Hid, Z.eqb_refl. }
  cbn [orb]. rewrite bind_modify. do 2 eexists. split; [reflexivity|]. split_and!; try done.
  constructor; try done. exists n1. rewrite Ho. by split_and!.
Qed.
End remote.

(** ** The side of the storage *)
Section device.
Context `{Cipher} {claws : CipherLaws} (rnd : nat -> bytes) (kernel : Z -> nat -> Z).
Context (rnd_zlen : forall n, zlen (rnd n) = BFS_IV_LEN) (healthy : forall c i, 0 <= kernel c i).
Implicit Types d : NetworkDevice.t.

Record dready d (conn : Z) (key : bytes) (id : Z) (st : DeviceStorage.t) (sseq rseq : Z) (inb outb : bytes) : Prop := {
  dr_chan : chan_ok key (NetworkDevice.secContext d);
  dr_id : NetworkDevice.deviceID d = id;
  dr_storage : NetworkDevice.storage d = Some st;
  dr_send : NetworkDevice.nd_send_seq d = sseq;
  dr_recv : NetworkDevice.nd_recv_seq d = rseq;
  dr_conn : exists n, NetworkDevice.conns d !! conn = Some n /\ RawNet.inbox (NetConn.socket n) = inb /\
    RawNet.outbox (NetConn.socket n) = outb
}.

Lemma d_on_chan_Ok {A} (m : M chan A) a c d :
  m (NetworkDevice.secContext d) = Ok a c -> NetworkDevice.on_chan m d = Ok a (NetworkDevice.set_chan c d).
Proof. unfold NetworkDevice.on_chan. by intros ->. Qed.

Lemma d_on_conn_Ok {A} conn (m : M NetConn.t A) a n n' d :
  NetworkDevice.conns d !! conn = Some n -> m n = Ok a n' ->
  NetworkDevice.on_conn conn m d = Ok a (NetworkDevice.set_conns (<[conn := n']> (NetworkDevice.conns d)) d).
Proof. unfold NetworkDevice.on_conn. by intros -> ->. Qed.

(** What a command does to the storage, with the data of its response. *)
Definition handles (h : header) (data : bytes) (id : Z) (st : DeviceStorage.t) (did : Z) (rdata : bytes)
    (st' : DeviceStorage.t) : Prop :=
  forall b d, wf b -> buffer b <> None -> content b = data -> allocation b <= zlen data + 200 ->
    NetworkDevice.deviceID d = id -> NetworkDevice.storage d = Some st ->
    exists b', NetworkDevice.process_command h b d = Ok (Some (did, b')) (NetworkDevice.set_storage (Some st') d) /\
      wf b' /\ content b' = rdata /\ allocation b' < 2 ^ 31.

Lemma device_Ok (rnd' : nat -> bytes) k h data did rdata st' d conn key id st sseq rseq :
  let m := message key rseq (rnd' k) (packet h data) in
  (forall n, zlen (rnd' n) = BFS_IV_LEN) ->
  dready d conn key id st sseq rseq (NetConn.frame m) [] -> header_ok h -> h_usr h = 1 -> h_ack h = 0 ->
  zlen data < 2 ^ 31 - 1000 -> zlen rdata < 2 ^ 31 - 1000 -> handles h data id st did rdata st' ->
  exists d' k', NetworkDevice.processCommunications rnd kernel (Some [NetworkDevice.EClient conn]) d = Ok 0 d' /\
    dready d' conn key id st' (u32 (sseq + 1)) (u32 (rseq + 1)) []
      (NetConn.frame (message key sseq (rnd k') (packet (mkHeader 1 did (h_cmd h) 1) rdata))).
Proof.
  intros m Hr' [Hch Hid Hst <- <- (n&Hn&Hin&Hout)] Hh Hus Hac Hz Hzr Hdo.
  unfold NetworkDevice.processCommunications. cbn [NetworkDevice.serve].
  pose proof (sealed_packet_zlen rnd' Hr' key (NetworkDevice.nd_recv_seq d) k h data) as Hmz. fold m in Hmz.
  pose proof (zlen_nonneg data). pose proof (zlen_nonneg rdata).
  destruct (NetConn.recvPacketizedBuffer_ok (kernel conn) (healthy conn) FlexBuffer.empty m [] n)
    as (b1&n1&Hrecv&(Hi&Ho&_)&[Hw1 _]&Hn1&Hc1&Ha1); [apply SecAssoc.roomy_empty|lia|by rewrite app_nil_r|].
  cbn [allocation FlexBuffer.empty] in Ha1.
  mrun (d_on_conn_Ok conn _ _ n n1 d Hn Hrecv). destruct (Z.ltb_spec (zlen m) 0); [lia|].
  rewrite <-(content_zlen b1 Hw1), Hc1. destruct (Z.eqb_spec (zlen m) 0); [lia|].
  set (d1 := NetworkDevice.set_conns _ d). unfold NetworkDevice.processClientRequest. rewrite bind_assoc, bind_gets.
  destruct (unmarshal_Ok rnd' Hr' key _ h (NetworkDevice.nd_recv_seq d) k data b1 Hch Hw1 Hn1 Hc1)
    as (b2&c2&Hu&Hch2&_&Hw2&Hn2&Hc2&Ha2); [done|lia|].
  rewrite bind_assoc. mrun (d_on_chan_Ok _ _ _ d1 Hu). rewrite Hus, Hac. cbn [Z.eqb Pos.eqb negb orb].
  rewrite bind_assoc, bind_modify. set (d2 := NetworkDevice.inc_recv _).
  destruct (Hdo b2 d2) as (b3&Hp&Hw3&Hc3&Ha3); [done|done|done|lia|exact Hid|exact Hst|].
  rewrite bind_assoc. mrun Hp. set (d3 := NetworkDevice.set_storage _ d2). rewrite bind_assoc, bind_gets.
  destruct (marshal_Ok rnd rnd_zlen key (NetworkDevice.secContext d3) (mkHeader 1 did (h_cmd h) 1)
    (NetworkDevice.nd_send_seq d3) b3 Hch2 Hw3 Ha3) as (b4&c4&Hm&Hch4&_&Hw4&Hc4).
  rewrite bind_assoc. mrun (d_on_chan_Ok _ _ _ d3 Hm). rewrite Hc3 in Hc4.
  pose proof (sealed_packet_zlen rnd rnd_zlen key (NetworkDevice.nd_send_seq d3) (ch_draws (NetworkDevice.secContext d3))
    (mkHeader 1 did (h_cmd h) 1) rdata) as Hz4. rewrite <-Hc4, content_zlen in Hz4 by done.
  destruct (NetConn.sendPacketizedBuffer_ok (kernel conn) (healthy conn) b4 n1 Hw4) as (n4&Hs&Hi4&Ho4&_); [lia|].
  assert (NetworkDevice.conns (NetworkDevice.set_chan c4 d3) !! conn = Some n1) as Hcn by apply lookup_insert_eq.
  rewrite bind_assoc. mrun (d_on_conn_Ok conn _ _ n1 n4 _ Hcn Hs). rewrite Z.eqb_refl. cbn [negb].
  rewrite bind_assoc, bind_modify, bind_ret. cbn [Z.eqb].
  do 2 eexists. split; [reflexivity|]. constructor; try done. exists n4.
  split; [apply lookup_insert_eq|]. rewrite Hi4, Hi, Ho4, Ho, Hout, Hc4. done.
Qed.
End device.

(** ** Both sides *)
Record dworld := mkDworld { dw_remote : RemoteDevice.t; dw_device : NetworkDevice.t }.

Section exchange.
Context `{Cipher} {claws : CipherLaws} (crnd srnd : nat -> bytes) (ckernel : nat -> Z) (skernel : Z -> nat -> Z) (conn : Z).
Implicit Types w : dworld.

Definition on_remote {A} (m : M RemoteDevice.t A) : M dworld A := fun w =>
  match m (dw_remote w) with
  | Ok a d => Ok a (mkDworld d (dw_device w))
  | Throw e d => Throw e (mkDworld d (dw_device w))
  | Crash x => Crash x
  end.
Definition on_device {A} (m : M NetworkDevice.t A) : M dworld A := fun w =>
  match m (dw_device w) with
  | Ok a d => Ok a (mkDworld (dw_remote w) d)
  | Throw e d => Throw e (mkDworld (dw_remote w) d)
  | Crash x => Crash x
  end.

(** The network between the two. *)
Definition to_device w : dworld :=
  match RemoteDevice.remoteConn (dw_remote w) with
  | None => w
  | Some n =>
      mkDworld (RemoteDevice.set_conn (Some (clear_outbox n)) (dw_remote w))
        (NetworkDevice.set_conns (alter (feed (RawNet.outbox (NetConn.socket n))) conn (NetworkDevice.conns (dw_device w))) (dw_device w))
  end.
Definition to_remote w : dworld :=
  match NetworkDevice.conns (dw_device w) !! conn with
  | None => w
  | Some n =>
      mkDworld (RemoteDevice.set_conn (feed (RawNet.outbox (NetConn.socket n)) <$> RemoteDevice.remoteConn (dw_remote w)) (dw_remote w))
        (NetworkDevice.set_conns (alter clear_outbox conn (NetworkDevice.conns (dw_device w))) (dw_device w))
  end.

(** An operation with the turn of the device it waits for. *)
Definition exchange {A} (o : RemoteDevice.dop A) : M dworld A :=
  r ← on_remote (RemoteDevice.d_send o);
  match r with
  | inr a => mret a
  | inl buf =>
      modify to_device ;;
      on_device (NetworkDevice.processCommunications srnd skernel (Some [NetworkDevice.EClient conn])) ;;
      modify to_remote ;;
      on_remote (RemoteDevice.d_recv o buf)
  end.

Context (crnd_zlen : forall n, zlen (crnd n) = BFS_IV_LEN) (srnd_zlen : forall n, zlen (srnd n) = BFS_IV_LEN).
Context (chealthy : forall i, 0 <= ckernel i) (shealthy : forall c i, 0 <= skernel c i).

(** The two sides agree on key and sequence numbers, nothing is under way, and
    the device has the storage [st]. *)
Definition joined (key : bytes) (id : Z) (st : DeviceStorage.t) w : Prop :=
  exists s r, rready (dw_remote w) key id s r [] [] /\ dready (dw_device w) conn key id st r s [] [].

(** The buffer of a request, when the response comes. *)
Definition req_buf (data : bytes) (b : FlexBuffer.t) : Prop :=
  wf b /\ 42 + zlen data <= length b <= 58 + zlen data.

Lemma req_buf_room data rdata key seq k h b :
  req_buf data b -> zlen data <= zlen rdata \/ zlen rdata + 80 <= zlen data ->
  SecAssoc.room_for (zlen (message key seq (srnd k) (packet h rdata))) b.
Proof.
  intros [Hw Hl] Hz. pose proof (sealed_packet_zlen srnd srnd_zlen key seq k h rdata). pose proof Hw as (?&?&?&?&_).
  split; [done|]. lia.
Qed.

Lemma on_remote_Ok {A} (m : M RemoteDevice.t A) a d w : m (dw_remote w) = Ok a d -> on_remote m w = Ok a (mkDworld d (dw_device w)).
Proof. unfold on_remote. by intros ->. Qed.
Lemma on_device_Ok {A} (m : M NetworkDevice.t A) a d w : m (dw_device w) = Ok a d -> on_device m w = Ok a (mkDworld (dw_remote w) d).
Proof. unfold on_device. by intros ->. Qed.

Lemma to_device_ok w key id0 id st s r s' r' out :
  rready (dw_remote w) key id0 s r [] out -> dready (dw_device w) conn key id st s' r' [] [] ->
  rready (dw_remote (to_device w)) key id0 s r [] [] /\ dready (dw_device (to_device w)) conn key id st s' r' out [].
Proof.
  intros [H1 H2 H3 H4 (n&Hn&Hi&Ho)] [D1 D2 D3 D4 D5 (m&Hm&Hmi&Hmo)]. unfold to_device. rewrite Hn.
  split; constructor; try done; cbn.
  - eexists. split; [reflexivity|]. by cbn.
  - exists (feed (RawNet.outbox (NetConn.socket n)) m). rewrite lookup_alter_eq, Hm. split; [done|]. cbn. by rewrite Hmi, Ho.
Qed.

Lemma to_remote_ok w key id0 id st s r s' r' out :
  rready (dw_remote w) key id0 s r [] [] -> dready (dw_device w) conn key id st s' r' [] out ->
  rready (dw_remote (to_remote w)) key id0 s r out [] /\ dready (dw_device (to_remote w)) conn key id st s' r' [] [].
Proof.
  intros [H1 H2 H3 H4 (n&Hn&Hi&Ho)] [D1 D2 D3 D4 D5 (m&Hm&Hmi&Hmo)]. unfold to_remote. rewrite Hm.
  split; constructor; try done; cbn.
  - rewrite Hn. eexists. split; [reflexivity|]. cbn. by rewrite Hi, Hmo.
  - exists (clear_outbox m). rewrite lookup_alter_eq, Hm. split; [done|]. by cbn.
Qed.

(** An operation whose request is the command [cmd] with [data], and which takes
    the response with [rdata] to a result with [Q]; the remote device has the
    number [id0] before and [id] after it. *)
Lemma exchange_from {A} (o : RemoteDevice.dop A) (Q : A -> RemoteDevice.t -> Prop) key id0 id st st' w s r did0 cmd data did rdata :
  (exists b d' k, RemoteDevice.d_send o (dw_remote w) = Ok (inl b) d' /\ req_buf data b /\
     rready d' key id0 (u32 (s + 1)) r [] (NetConn.frame (message key s (crnd k) (packet (mkHeader 1 did0 cmd 0) data)))) ->
  dready (dw_device w) conn key id st r s [] [] ->
  fits 4 did0 -> 0 <= cmd < 128 -> zlen data < 2 ^ 31 - 1000 -> zlen rdata < 2 ^ 31 - 1000 ->
  handles (mkHeader 1 did0 cmd 0) data id st did rdata st' ->
  (forall b d s r k, req_buf data b ->
     rready d key id0 s r (NetConn.frame (message key r (srnd k) (packet (mkHeader 1 did cmd 1) rdata))) [] ->
     exists a d', RemoteDevice.d_recv o b d = Ok a d' /\ Q a d' /\ rready d' key id s (u32 (r + 1)) [] []) ->
  exists a w', exchange o w = Ok a w' /\ Q a (dw_remote w') /\ joined key id st' w'.
Proof.
  intros (b&d1&k&Hs&Hb&Hr1) Hd Hfd Hcm Hz Hzr Hh Hrecv. unfold exchange.
  mrun (on_remote_Ok _ _ _ _ Hs). rewrite bind_modify.
  destruct (to_device_ok (mkDworld d1 (dw_device w)) key id0 id st _ _ _ _ _ Hr1 Hd) as [Hr2 Hd2].
  set (w2 := to_device _) in *.
  destruct (device_Ok srnd skernel srnd_zlen shealthy crnd k (mkHeader 1 did0 cmd 0) data did rdata st' (dw_device w2) conn key id
    st r s crnd_zlen Hd2) as (d3&k3&Hp&Hd3); [by apply mk_header_ok|done..|].
  mrun (on_device_Ok _ _ _ _ Hp). rewrite bind_modify.
  destruct (to_remote_ok (mkDworld (dw_remote w2) d3) key id0 id st' _ _ _ _ _ Hr2 Hd3) as [Hr4 Hd4]. set (w4 := to_remote _) in *.
  destruct (Hrecv b (dw_remote w4) _ _ _ Hb Hr4) as (a&d5&Hre&HQ&Hr5).
  exists a, (mkDworld d5 (dw_device w4)). rewrite (on_remote_Ok _ _ _ _ Hre). split_and!; [done|done|].
  exists (u32 (s + 1)), (u32 (r + 1)). done.
Qed.

Lemma exchange_Ok {A} (o : RemoteDevice.dop A) (Q : A -> Prop) key id st st' w cmd data rdata :
  joined key id st w ->
  (forall d s r, rready d key id s r [] [] -> exists b d' k, RemoteDevice.d_send o d = Ok (inl b) d' /\ req_buf data b /\
     rready d' key id (u32 (s + 1)) r [] (NetConn.frame (message key s (crnd k) (packet (mkHeader 1 id cmd 0) data)))) ->
  fits 4 id -> 0 <= cmd < 128 -> zlen data < 2 ^ 31 - 1000 -> zlen rdata < 2 ^ 31 - 1000 ->
  handles (mkHeader 1 id cmd 0) data id st id rdata st' ->
  (forall b d s r k, req_buf data b ->
     rready d key id s r (NetConn.frame (message key r (srnd k) (packet (mkHeader 1 id cmd 1) rdata))) [] ->
     exists a d', RemoteDevice.d_recv o b d = Ok a d' /\ Q a /\ rready d' key id s (u32 (r + 1)) [] []) ->
  exists a w', exchange o w = Ok a w' /\ Q a /\ joined key id st' w'.
Proof.
  intros (s&r&Hr&Hd) Hsend ????? Hrecv.
  by apply (exchange_from o (fun a _ => Q a) key id id st st' w s r id cmd data id rdata (Hsend _ _ _ Hr)).
Qed.
End exchange.

(** ** The commands *)
Section commands.
Implicit Types (st : DeviceStorage.t) (d : NetworkDevice.t).

(** What a device gives back for a block number: zeros where it has no block. *)
Definition fetched st (i : Z) : bytes := default zero_blk (DeviceStorage.getBlock i st).
Definition stored st (i : Z) (blk : bytes) : DeviceStorage.t := default st (DeviceStorage.putBlock i blk st).

Definition whole st : Prop := forall i blk, DeviceStorage.getBlock i st = Some blk -> zlen blk = BLK_SZ.

Lemma fetched_zlen st i : whole st -> zlen (fetched st i) = BLK_SZ.
Proof. intros Hw. unfold fetched. destruct (DeviceStorage.getBlock i st) eqn:E; [by eapply Hw|done]. Qed.

Lemma set_same_storage d st : NetworkDevice.storage d = Some st -> NetworkDevice.set_storage (Some st) d = d.
Proof. destruct d. cbn. by intros ->. Qed.

Lemma put_storage_Ok st i x d :
  NetworkDevice.storage d = Some st ->
  (match DeviceStorage.putBlock i x st with
   | Some st => modify (NetworkDevice.set_storage (Some st))
   | None => mret ()
   end) d = Ok () (NetworkDevice.set_storage (Some (stored st i x)) d).
Proof. intros Hst. unfold stored. destruct (DeviceStorage.putBlock i x st); [done|]. cbn. by rewrite set_same_storage. Qed.

Lemma store_content b (x : bytes) :
  wf b -> zlen x = length b -> exists b', (s ← get; store (hlength s) x) b = Ok () b' /\ wf b' /\ content b' = x /\
    allocation b' = allocation b /\ (buffer b <> None -> buffer b' <> None).
Proof.
  intros Hw Hl. destruct (SecAssoc.put_content_spec b x Hw Hl) as (b'&Hr&Hw'&Hc&_&Ha&Hn). by exists b'.
Qed.

Lemma load_all b n : wf b -> length b = n -> (s ← get; load (hlength s) n) b = Ok (content b) b.
Proof. intros Hw <-. rewrite bind_get. by apply load_Ok, mem_get_content. Qed.

Lemma handles_get_block id st i :
  whole st -> fits 8 i ->
  handles (mkHeader 1 id BFS_DEVICE_GET_BLOCK 0) (le_split 8 i) id st id (le_split 8 i ++ fetched st i) st.
Proof.
  intros Hwh Hi b d Hw Hn Hc Ha Hid Hst. rewrite zlen_le_split in Ha.
  change (NetworkDevice.process_command (mkHeader 1 id BFS_DEVICE_GET_BLOCK 0) b) with (NetworkDevice.get_block id b).
  pose proof (content_zlen b Hw) as Hl. rewrite Hc, zlen_le_split in Hl. change (Z.of_nat 8) with 8 in Hl.
  unfold NetworkDevice.get_block. rewrite bind_gets, <-Hl, Hid, !Z.eqb_refl. cbn [negb].
  assert ((s ← get; x ← load (hlength s) 8; mret (le_combine x)) b = Ok i b) as Hld.
  { rewrite bind_get. rewrite (bind_Ok _ _ b (le_split 8 i) b) by (rewrite <-Hc, Hl; by apply load_Ok, mem_get_content).
    by rewrite le_combine_le_split. }
  mrun (on_buffer_Ok _ _ _ _ d Hld).
  destruct (SecAssoc.reset_default b BLK_SZ) as (b1&Hr1&Hw1&Hl1&Hc1&Hn1&Ha1); [split; [done|left; unfold BLK_SZ; lia]|done|done|].
  mrun (on_buffer_Ok _ _ _ _ d Hr1). unfold NetworkDevice.the_storage. rewrite bind_assoc, bind_get, Hst, bind_ret.
  assert (exists b2, (match DeviceStorage.getBlock i st with Some x => s ← get; store (hlength s) x | None => mret () end) b1 = Ok () b2 /\
    wf b2 /\ content b2 = fetched st i /\ allocation b2 = allocation b1 /\ buffer b2 <> None) as (b2&Hr2&Hw2&Hc2&Ha2&Hn2).
  { unfold fetched. destruct (DeviceStorage.getBlock i st) as [x|] eqn:E.
    - destruct (store_content b1 x Hw1) as (b2&?&?&?&?&?); [rewrite Hl1; by eapply Hwh|]. exists b2. split_and!; auto.
    - exists b1. split_and!; try done. }
  mrun (on_buffer_Ok _ _ _ _ d Hr2). change (BLK_SZ + 64) with 4160 in Ha1.
  destruct (push_spec 8 i b2 Hw2) as (b3&Hr3&Hw3&Hc3&_&Ha3); [unfold BFSFLEXBUF_DEFAULT_PAD; lia|]. unfold BFSFLEXBUF_DEFAULT_PAD in Ha3.
  mrun (on_buffer_Ok _ _ _ _ d Hr3). exists b3. rewrite (set_same_storage _ _ Hst). split_and!; try done; [by rewrite Hc3, Hc2|lia].
Qed.

(** A few bytes of new data in a buffer that is not nearly full. *)
Lemma set_small b (x : bytes) :
  wf b -> buffer b <> None -> allocation b < 2 ^ 31 - 800 -> zlen x <= 16 ->
  exists b', setData x b = Ok (zlen x) b' /\ wf b' /\ content b' = x /\ allocation b' <= allocation b + 16.
Proof.
  intros Hw Hn Ha Hx. pose proof Hw as (?&?&?&?&?&?&?). pose proof (zlen_nonneg x).
  destruct (setData_spec b x Hw) as (b'&Hr&Hw'&Hc'&Hal); [lia|]. exists b'. split_and!; try done. lia.
Qed.

Lemma handles_put_block id st i blk :
  zlen blk = BLK_SZ -> fits 8 i ->
  handles (mkHeader 1 id BFS_DEVICE_PUT_BLOCK 0) (le_split 8 i ++ blk) id st id (le_split 8 i) (stored st i blk).
Proof.
  intros Hz Hi b d Hw Hn Hc Ha Hid Hst. rewrite zlen_app, zlen_le_split, Hz in Ha. change BLK_SZ with 4096 in Ha.
  change (NetworkDevice.process_command (mkHeader 1 id BFS_DEVICE_PUT_BLOCK 0) b) with (NetworkDevice.do_put_block id b).
  pose proof (content_zlen b Hw) as Hl. rewrite Hc, zlen_app, zlen_le_split, Hz in Hl. change (Z.of_nat 8) with 8 in Hl.
  unfold NetworkDevice.do_put_block. rewrite bind_gets, <-Hl, Hid, !Z.eqb_refl. cbn [negb].
  destruct (pull_spec 8 i blk b Hw Hn Hc Hi) as (b1&Hr1&Hw1&Hn1&Hc1&Ha1). mrun (on_buffer_Ok _ _ _ _ d Hr1).
  mrun (on_buffer_Ok _ _ _ _ d (load_all b1 BLK_SZ Hw1 ltac:(by rewrite <-(content_zlen b1 Hw1), Hc1))). rewrite Hc1.
  assert (NetworkDevice.put_block i blk d = Ok () (NetworkDevice.set_storage (Some (stored st i blk)) d)) as Hp.
  { unfold NetworkDevice.put_block, NetworkDevice.the_storage. rewrite bind_assoc, bind_get, Hst, bind_ret.
    by apply put_storage_Ok. }
  mrun Hp. destruct (set_small b1 (le_split 8 i)) as (b2&Hr2&Hw2&Hc2&Ha2); [done|done|lia|by rewrite zlen_le_split|].
  mrun (on_buffer_Ok _ _ _ _ (NetworkDevice.set_storage (Some (stored st i blk)) d) Hr2). exists b2. split_and!; try done. lia.
Qed.

Definition topology id st : bytes := le_split 4 id ++ zeros 4 ++ le_split 8 (DeviceStorage.numBlocks st).

Lemma topology_id id st : fits 4 id -> le_combine (take 4 (topology id st)) = id.
Proof.
  intros. unfold topology. rewrite take_app_le by (by rewrite length_le_split).
  rewrite take_ge by (by rewrite length_le_split). by apply le_combine_le_split.
Qed.

Lemma topology_size id st : fits 8 (DeviceStorage.numBlocks st) -> le_combine (drop 8 (topology id st)) = DeviceStorage.numBlocks st.
Proof.
  intros. unfold topology. rewrite app_assoc, drop_app_length' by (by rewrite length_app, length_le_split).
  by apply le_combine_le_split.
Qed.

Lemma handles_topo id st did : handles (mkHeader 1 did BFS_DEVICE_GET_TOPO 0) [] id st id (topology id st) st.
Proof.
  intros b d Hw Hn Hc Ha Hid Hst. change (zlen []) with 0 in Ha.
  change (NetworkDevice.process_command (mkHeader 1 did BFS_DEVICE_GET_TOPO 0) b) with (NetworkDevice.get_topo b).
  pose proof (content_zlen b Hw) as Hl. rewrite Hc in Hl. change (zlen []) with 0 in Hl.
  unfold NetworkDevice.get_topo. rewrite <-Hl. cbn [Z.eqb negb]. rewrite bind_gets, Hid.
  unfold NetworkDevice.raw_storage. rewrite bind_assoc, bind_get, Hst, bind_ret. fold (topology id st).
  destruct (set_small b (topology id st)) as (b2&Hr2&Hw2&Hc2&Ha2); [done|done|lia| |].
  { unfold topology. by rewrite !zlen_app, !zlen_le_split. }
  mrun (on_buffer_Ok _ _ _ _ d Hr2). exists b2. rewrite (set_same_storage _ _ Hst). split_and!; try done. lia.
Qed.

(** *** Lists *)
Definition ids_bytes (ids : list Z) : bytes := concat (le_split 8 <$> ids).
Definition blocks_bytes (blks : list (Z * bytes)) : bytes := concat ((fun x => le_split 8 x.1 ++ x.2) <$> blks).
Definition blocks_ok (blks : list (Z * bytes)) : Prop := Forall (fun x => fits 8 x.1 /\ zlen x.2 = BLK_SZ) blks.

Lemma ids_bytes_zlen ids : zlen (ids_bytes ids) = 8 * zlen ids.
Proof.
  unfold ids_bytes. induction ids as [|i ids IH]; [done|]. cbn [fmap list_fmap List.map concat].
  rewrite zlen_app, zlen_le_split, IH. unfold zlen. cbn [List.length]. lia.
Qed.

Lemma blocks_bytes_zlen blks : blocks_ok blks -> zlen (blocks_bytes blks) = (8 + BLK_SZ) * zlen blks.
Proof.
  unfold blocks_bytes. induction 1 as [|[i d] blks [_ Hd] _ IH]; [done|]. cbn [fmap list_fmap List.map concat fst snd] in *.
  rewrite !zlen_app, zlen_le_split, IH, Hd. unfold zlen. cbn [List.length]. lia.
Qed.

Lemma add_ids_Ok ids b :
  wf b -> buffer b <> None -> allocation b + 40 * zlen ids < 2 ^ 31 ->
  exists b', RemoteDevice.add_ids ids b = Ok () b' /\ wf b' /\ buffer b' <> None /\ content b' = content b ++ ids_bytes ids /\
    allocation b' <= allocation b + 40 * zlen ids.
Proof.
  revert b. induction ids as [|i ids IH]; intros b Hw Hn Ha.
  - exists b. unfold ids_bytes. cbn. rewrite app_nil_r. change (zlen []) with 0. split_and!; try done. lia.
  - assert (zlen (i :: ids) = 1 + zlen ids) as Hz by (rewrite zlen_cons; lia). pose proof (zlen_nonneg ids).
    destruct (addTrailer_spec b (le_split 8 i) Hw) as (b1&Hr1&Hw1&Hc1&Hn1&Ha1);
      rewrite zlen_le_split in *; unfold BFSFLEXBUF_DEFAULT_PAD in *; [lia|].
    destruct (IH b1 Hw1 (Hn1 (or_intror Hn)) ltac:(lia)) as (b2&Hr2&Hw2&Hn2&Hc2&Ha2).
    exists b2. cbn [RemoteDevice.add_ids]. mrun Hr1. rewrite Hr2. split_and!; try done; [|lia].
    rewrite Hc2, Hc1, <-app_assoc. done.
Qed.

Lemma add_blocks_Ok blks b :
  wf b -> buffer b <> None -> blocks_ok blks -> allocation b + 4168 * zlen blks < 2 ^ 31 ->
  exists b', RemoteDevice.add_blocks blks b = Ok () b' /\ wf b' /\ buffer b' <> None /\
    content b' = content b ++ blocks_bytes blks /\ allocation b' <= allocation b + 4168 * zlen blks.
Proof.
  intros Hw Hn Hok. revert b Hw Hn. induction Hok as [|[i x] blks [_ Hx] _ IH]; intros b Hw Hn Ha.
  - exists b. unfold blocks_bytes. cbn. rewrite app_nil_r. change (zlen []) with 0. split_and!; try done. lia.
  - assert (zlen ((i, x) :: blks) = 1 + zlen blks) as Hz by (rewrite zlen_cons; lia). pose proof (zlen_nonneg blks).
    cbn [snd] in Hx. change BLK_SZ with 4096 in Hx.
    destruct (addTrailer_spec b (le_split 8 i) Hw) as (b1&Hr1&Hw1&Hc1&Hn1&Ha1);
      rewrite ?zlen_le_split in *; unfold BFSFLEXBUF_DEFAULT_PAD in *; [lia|].
    destruct (addTrailer_spec b1 x Hw1) as (b2&Hr2&Hw2&Hc2&Hn2&Ha2); unfold BFSFLEXBUF_DEFAULT_PAD in *; [lia|].
    destruct (IH b2 Hw2 (Hn2 (or_intror (Hn1 (or_intror Hn)))) ltac:(lia)) as (b3&Hr3&Hw3&Hn3&Hc3&Ha3).
    exists b3. cbn [RemoteDevice.add_blocks]. mrun Hr1. mrun Hr2. rewrite Hr3. split_and!; try done; [|lia].
    rewrite Hc3, Hc2, Hc1. unfold blocks_bytes. cbn [fmap list_fmap List.map concat fst snd]. by rewrite <-!app_assoc.
Qed.

(** The device lists its blocks as the other side lists those of a request. *)
Lemma list_blocks_eq st ids :
  Forall (fun i => is_Some (DeviceStorage.getBlock i st)) ids ->
  forall b, NetworkDevice.list_blocks st ids b = RemoteDevice.add_blocks ((fun i => (i, fetched st i)) <$> ids) b.
Proof.
  induction 1 as [|i ids [x Hx] _ IH]; intros b; [done|]. cbn [NetworkDevice.list_blocks fmap list_fmap List.map RemoteDevice.add_blocks].
  assert (fetched st i = x) as -> by (unfold fetched; by rewrite Hx). rewrite Hx. unfold mbind, M_bind.
  destruct (addTrailer (le_split 8 i) b) as [y b1|e b1|e]; [|done..]. destruct (addTrailer x b1) as [z b2|e b2|e]; [|done..]. apply IH.
Qed.

Lemma pull_ids_Ok ids q b :
  wf b -> buffer b <> None -> content b = ids_bytes ids ++ q -> Forall (fits 8) ids ->
  exists b', NetworkDevice.pull_ids (List.length ids) b = Ok ids b' /\ wf b' /\ buffer b' <> None /\ content b' = q /\
    allocation b' = allocation b.
Proof.
  intros Hw Hn Hc Hf. revert b Hw Hn Hc. induction Hf as [|i ids Hi _ IH]; intros b Hw Hn Hc; [by exists b|].
  unfold ids_bytes in Hc. cbn [fmap list_fmap List.map concat] in Hc. rewrite <-app_assoc in Hc.
  destruct (pull_spec 8 _ _ _ Hw Hn Hc Hi) as (b1&Hr1&Hw1&Hn1&Hc1&Ha1).
  destruct (IH b1 Hw1 Hn1 Hc1) as (b2&Hr2&Hw2&Hn2&Hc2&Ha2).
  exists b2. cbn [List.length NetworkDevice.pull_ids]. mrun Hr1. mrun Hr2. split_and!; try done. congruence.
Qed.

Lemma burn_Ok b : wf b -> buffer b <> None -> content b = [] ->
  exists b', burn b = Ok () b' /\ wf b' /\ buffer b' <> None /\ content b' = [] /\ allocation b' = allocation b.
Proof.
  intros Hw Hn Hc. pose proof (content_zlen b Hw) as Hl. rewrite Hc in Hl. change (zlen []) with 0 in Hl.
  pose proof Hw as (?&?&?&?&?&?&?). unfold burn. destruct (buffer b) as [x|] eqn:E; [|done].
  eexists. split; [reflexivity|]. split_and!; try done.
  - unfold wf, mem. cbn. rewrite zlen_zeros by lia. split_and!; try done; lia.
  - unfold content. cbn [length]. by rewrite <-Hl.
Qed.

Lemma fetched_ok ids st : whole st -> Forall (fits 8) ids -> blocks_ok ((fun i => (i, fetched st i)) <$> ids).
Proof. intros Hwh Hf. apply Forall_fmap. eapply Forall_impl; [exact Hf|]. split; [done|by apply fetched_zlen]. Qed.

Lemma handles_get_blocks id st ids did :
  whole st -> Forall (fits 8) ids -> Forall (fun i => is_Some (DeviceStorage.getBlock i st)) ids -> zlen ids <= 2 ^ 16 ->
  handles (mkHeader 1 did BFS_DEVICE_GET_BLOCKS 0) (le_split 8 (zlen ids) ++ ids_bytes ids) id st did
    (le_split 8 (zlen ids) ++ blocks_bytes ((fun i => (i, fetched st i)) <$> ids)) st.
Proof.
  intros Hwh Hf Hin Hz b d Hw Hn Hc Ha Hid Hst. pose proof (zlen_nonneg ids) as Hz0.
  rewrite zlen_app, zlen_le_split, ids_bytes_zlen in Ha.
  change (NetworkDevice.process_command (mkHeader 1 did BFS_DEVICE_GET_BLOCKS 0) b) with (NetworkDevice.get_blocks did b).
  pose proof (content_zlen b Hw) as Hl. rewrite Hc, zlen_app, zlen_le_split, ids_bytes_zlen in Hl.
  unfold NetworkDevice.get_blocks.
  destruct (pull_spec 8 _ _ _ Hw Hn Hc) as (b1&Hr1&Hw1&Hn1&Hc1&Ha1); [split; cbn; lia|]. mrun (on_buffer_Ok _ _ _ _ d Hr1).
  assert (NetworkDevice.loop_fuel (zlen ids) b1 = List.length ids) as ->.
  { unfold NetworkDevice.loop_fuel. rewrite <-(content_zlen b1 Hw1), Hc1, ids_bytes_zlen, Z.mul_comm, Z.div_mul by done.
    unfold zlen. lia. }
  rewrite <-(app_nil_r (ids_bytes ids)) in Hc1.
  destruct (pull_ids_Ok ids [] b1 Hw1 Hn1 Hc1 Hf) as (b2&Hr2&Hw2&Hn2&Hc2&Ha2). mrun (on_buffer_Ok _ _ _ _ d Hr2).
  destruct (burn_Ok b2 Hw2 Hn2 Hc2) as (b3&Hr3&Hw3&Hn3&Hc3&Ha3).
  destruct (push_spec 8 (zlen ids) b3 Hw3) as (b4&Hr4&Hw4&Hc4&Hn4&Ha4); [unfold BFSFLEXBUF_DEFAULT_PAD; lia|].
  unfold BFSFLEXBUF_DEFAULT_PAD in Ha4. specialize (Hn4 (or_intror Hn3)).
  assert ((burn ;; push 8 (zlen ids)) b2 = Ok () b4) as Hbp by (mrun Hr3; exact Hr4).
  mrun (on_buffer_Ok _ _ _ _ d Hbp). unfold NetworkDevice.raw_storage. rewrite bind_assoc, bind_get, Hst, bind_ret.
  pose proof (fetched_ok ids st Hwh Hf) as Hbo.
  assert (zlen ((fun i => (i, fetched st i)) <$> ids) = zlen ids) as Hzl by (unfold zlen; by rewrite length_fmap).
  destruct (add_blocks_Ok _ b4 Hw4 Hn4 Hbo) as (b5&Hr5&Hw5&_&Hc5&Ha5); rewrite Hzl in *; [lia|].
  rewrite <-(list_blocks_eq st ids Hin) in Hr5. mrun (on_buffer_Ok _ _ _ _ d Hr5).
  exists b5. rewrite (set_same_storage _ _ Hst). split_and!; try done; [|lia]. by rewrite Hc5, Hc4, Hc3, app_nil_r.
Qed.

Definition stored_all (blks : list (Z * bytes)) st : DeviceStorage.t := foldl (fun st x => stored st x.1 x.2) st blks.

(** A block at the front of a buffer is taken off. *)
Lemma take_block_Ok b (x rest : bytes) :
  wf b -> buffer b <> None -> content b = x ++ rest -> zlen x = BLK_SZ ->
  exists b', removeHeader BLK_SZ b = Ok (x, length b - BLK_SZ) b' /\ wf b' /\ buffer b' <> None /\ content b' = rest /\
    allocation b' = allocation b.
Proof.
  intros Hw Hn Hc Hx. pose proof (content_zlen b Hw) as Hl. rewrite Hc, zlen_app, Hx in Hl. pose proof (zlen_nonneg rest).
  destruct (removeHeader_spec b BLK_SZ Hw Hn) as (b'&Hr&Hw'&Hc'&Hn'&Ha'); [change BLK_SZ with 4096 in *; lia|].
  assert (Z.to_nat BLK_SZ = List.length x) as Hlx by (unfold zlen in Hx; lia).
  rewrite Hc, Hlx in Hr, Hc'. rewrite take_app_length in Hr. rewrite drop_app_length in Hc'. by exists b'.
Qed.

Lemma store_blocks_Ok blks b d st :
  wf b -> buffer b <> None -> content b = blocks_bytes blks -> blocks_ok blks -> NetworkDevice.storage d = Some st ->
  exists b', NetworkDevice.store_blocks (List.length blks) b d =
      Ok (blks.*1, b') (NetworkDevice.set_storage (Some (stored_all blks st)) d) /\
    wf b' /\ buffer b' <> None /\ content b' = [] /\ allocation b' = allocation b.
Proof.
  intros Hw Hn Hc Hok. revert b d st Hw Hn Hc. induction Hok as [|[i x] blks [Hi Hx] _ IH]; intros b d st Hw Hn Hc Hst.
  - exists b. cbn. by rewrite set_same_storage.
  - cbn [fst snd] in Hi, Hx. unfold blocks_bytes in Hc. cbn [fmap list_fmap List.map concat fst snd] in Hc. rewrite <-app_assoc in Hc.
    destruct (pull_spec 8 _ _ _ Hw Hn Hc Hi) as (b1&Hr1&Hw1&Hn1&Hc1&Ha1).
    destruct (take_block_Ok b1 x _ Hw1 Hn1 Hc1 Hx) as (b2&Hr2&Hw2&Hn2&Hc2&Ha2).
    destruct (IH b2 (NetworkDevice.set_storage (Some (stored st i x)) d) _ Hw2 Hn2 Hc2 eq_refl) as (b3&Hr3&Hw3&Hn3&Hc3&Ha3).
    exists b3. cbn [List.length NetworkDevice.store_blocks]. mrun (on_buffer_Ok _ _ _ _ d Hr1).
    unfold NetworkDevice.raw_storage. rewrite bind_assoc, bind_get, Hst, bind_ret. mrun (on_buffer_Ok _ _ _ _ d Hr2).
    mrun (put_storage_Ok st i x d Hst). mrun Hr3. split_and!; [by destruct d|done..|congruence].
Qed.

Lemma handles_put_blocks id st blks did :
  blocks_ok blks -> zlen blks <= 2 ^ 16 ->
  handles (mkHeader 1 did BFS_DEVICE_PUT_BLOCKS 0) (le_split 8 (zlen blks) ++ blocks_bytes blks) id st did
    (le_split 8 (zlen blks) ++ ids_bytes blks.*1) (stored_all blks st).
Proof.
  intros Hok Hz b d Hw Hn Hc Ha Hid Hst. pose proof (zlen_nonneg blks) as Hz0.
  rewrite zlen_app, zlen_le_split, blocks_bytes_zlen in Ha by done. change (8 + BLK_SZ) with 4104 in Ha.
  change (NetworkDevice.process_command (mkHeader 1 did BFS_DEVICE_PUT_BLOCKS 0) b) with (NetworkDevice.put_blocks did b).
  unfold NetworkDevice.put_blocks.
  destruct (pull_spec 8 _ _ _ Hw Hn Hc) as (b1&Hr1&Hw1&Hn1&Hc1&Ha1); [split; cbn; lia|]. mrun (on_buffer_Ok _ _ _ _ d Hr1).
  assert (NetworkDevice.loop_fuel (zlen blks) b1 = List.length blks) as ->.
  { unfold NetworkDevice.loop_fuel. rewrite <-(content_zlen b1 Hw1), Hc1, blocks_bytes_zlen by done.
    change (8 + BLK_SZ) with (513 * 8). rewrite <-Z.mul_assoc, (Z.mul_comm 8), Z.mul_assoc, Z.div_mul by done.
    unfold zlen in *. lia. }
  destruct (store_blocks_Ok blks b1 d st Hw1 Hn1 Hc1 Hok Hst) as (b2&Hr2&Hw2&Hn2&Hc2&Ha2). mrun Hr2.
  destruct (burn_Ok b2 Hw2 Hn2 Hc2) as (b3&Hr3&Hw3&Hn3&Hc3&Ha3).
  destruct (push_spec 8 (zlen blks) b3 Hw3) as (b4&Hr4&Hw4&Hc4&Hn4&Ha4); [unfold BFSFLEXBUF_DEFAULT_PAD; lia|].
  unfold BFSFLEXBUF_DEFAULT_PAD in Ha4. specialize (Hn4 (or_intror Hn3)).
  assert (zlen blks.*1 = zlen blks) as Hzl by (unfold zlen; by rewrite length_fmap).
  destruct (add_ids_Ok blks.*1 b4 Hw4 Hn4) as (b5&Hr5&Hw5&_&Hc5&Ha5); rewrite Hzl in *; [lia|].
  assert ((burn ;; push 8 (zlen blks) ;; RemoteDevice.add_ids blks.*1) b2 = Ok () b5) as Hbp by (mrun Hr3; mrun Hr4; exact Hr5).
  mrun (on_buffer_Ok _ _ _ _ (NetworkDevice.set_storage (Some (stored_all blks st)) d) Hbp).
  exists b5. split_and!; try done; [|lia]. by rewrite Hc5, Hc4, Hc3, app_nil_r.
Qed.
End commands.

(** ** The operations *)
Section operations.
Context `{Cipher} {claws : CipherLaws} (crnd srnd : nat -> bytes) (ckernel : nat -> Z) (skernel : Z -> nat -> Z) (conn : Z).
Context (crnd_zlen : forall n, zlen (crnd n) = BFS_IV_LEN) (srnd_zlen : forall n, zlen (srnd n) = BFS_IV_LEN).
Context (chealthy : forall i, 0 <= ckernel i) (shealthy : forall c i, 0 <= skernel c i).
Implicit Types (st : DeviceStorage.t) (w : dworld).

Abbreviation exchange := (exchange srnd skernel conn).
Abbreviation joined := (joined conn).

Lemma request_sent late cmd did b d key id s r :
  rready d key id s r [] [] -> wf b -> allocation b < 2 ^ 31 - 1000 ->
  exists b' d' k, RemoteDevice.request crnd ckernel late cmd did b d = Ok (true, b') d' /\ req_buf (content b) b' /\
    rready d' key id (u32 (s + 1)) r [] (NetConn.frame (message key s (crnd k) (packet (mkHeader 1 did cmd 0) (content b)))).
Proof.
  intros Hr Hw Ha. destruct (request_Ok crnd ckernel crnd_zlen chealthy late cmd did b d key id s r [] [] Hr Hw Ha) as (b'&d'&Hq&Hw'&Hc'&Hr').
  do 3 eexists. split; [exact Hq|]. split; [|exact Hr']. split; [done|].
  rewrite <-(content_zlen b' Hw'), Hc'. by apply sealed_packet_zlen.
Qed.

Lemma submit_Ok cmd b d key id s r :
  rready d key id s r [] [] -> wf b -> allocation b < 2 ^ 31 - 1000 ->
  exists b' d' k, RemoteDevice.submit_io crnd ckernel cmd b d = Ok (inl b') d' /\ req_buf (content b) b' /\
    rready d' key id (u32 (s + 1)) r [] (NetConn.frame (message key s (crnd k) (packet (mkHeader 1 id cmd 0) (content b)))).
Proof.
  intros Hr Hw Ha. unfold RemoteDevice.submit_io. rewrite bind_gets, (rr_id _ _ _ _ _ _ _ Hr).
  destruct (request_sent false cmd id b d key id s r Hr Hw Ha) as (b'&d'&k&Hq&?). mrun Hq. by exists b', d', k.
Qed.

(** The response to a request. *)
Lemma response_arrives cmd chk len k data rdata b d key id0 did s r :
  req_buf data b -> zlen data <= zlen rdata \/ zlen rdata + 80 <= zlen data ->
  rready d key id0 s r (NetConn.frame (message key r (srnd k) (packet (mkHeader 1 did cmd 1) rdata))) [] ->
  (chk = true -> did = id0) -> fits 4 did -> 0 <= cmd < 128 -> zlen rdata = len -> zlen rdata < 2 ^ 31 - 1000 ->
  exists b' d', RemoteDevice.response ckernel cmd chk len b d = Ok (true, b') d' /\ wf b' /\ buffer b' <> None /\
    content b' = rdata /\ rready d' key id0 s (u32 (r + 1)) [] [].
Proof.
  intros Hb Hz Hr ?????. by apply (response_Ok ckernel chealthy srnd k _ _ _ _ did); [..|by eapply req_buf_room].
Qed.

Lemma check_blkid_Ok i rest b d :
  wf b -> buffer b <> None -> content b = le_split 8 i ++ rest -> fits 8 i ->
  exists b', RemoteDevice.check_blkid i b d = Ok (0, b') d /\ wf b' /\ buffer b' <> None /\ content b' = rest.
Proof.
  intros Hw Hn Hc Hi. destruct (pull_spec 8 _ _ _ Hw Hn Hc Hi) as (b1&Hr1&Hw1&Hn1&Hc1&_).
  exists b1. unfold RemoteDevice.check_blkid. mrun (on_buffer_Ok _ _ _ _ d Hr1). by rewrite Z.eqb_refl.
Qed.

(** A block object with room for a request. *)
Definition block_obj (b : FlexBuffer.t) : Prop := wf b /\ buffer b <> None /\ allocation b < 2 ^ 30.

Lemma getBlock_send i b d key id s r :
  rready d key id s r [] [] -> block_obj b -> fits 8 i ->
  exists b' d' k, RemoteDevice.d_send (RemoteDevice.getBlock crnd ckernel i b) d = Ok (inl b') d' /\ req_buf (le_split 8 i) b' /\
    rready d' key id (u32 (s + 1)) r []
      (NetConn.frame (message key s (crnd k) (packet (mkHeader 1 id BFS_DEVICE_GET_BLOCK 0) (le_split 8 i)))).
Proof.
  intros Hr (Hw&Hn&Ha) Hi. destruct (set_small b (le_split 8 i) Hw Hn) as (b1&Hr1&Hw1&Hc1&Ha1); [lia|by rewrite zlen_le_split|].
  cbn [RemoteDevice.d_send RemoteDevice.getBlock]. mrun (on_buffer_Ok _ _ _ _ d Hr1). rewrite <-Hc1. apply submit_Ok; [done..|lia].
Qed.

Lemma getBlock_recv i x b0 b d key id s r k :
  req_buf (le_split 8 i) b -> zlen x = BLK_SZ -> fits 4 id -> fits 8 i ->
  rready d key id s r (NetConn.frame (message key r (srnd k) (packet (mkHeader 1 id BFS_DEVICE_GET_BLOCK 1) (le_split 8 i ++ x)))) [] ->
  exists b' d', RemoteDevice.d_recv (RemoteDevice.getBlock crnd ckernel i b0) b d = Ok (0, b') d' /\ wf b' /\ buffer b' <> None /\
    content b' = x /\ rready d' key id s (u32 (r + 1)) [] [].
Proof.
  intros Hb Hx Hid Hi Hr. assert (zlen (le_split 8 i ++ x) = 8 + BLK_SZ) as Hz by (by rewrite zlen_app, zlen_le_split, Hx).
  destruct (response_arrives BFS_DEVICE_GET_BLOCK true (8 + BLK_SZ) k (le_split 8 i) (le_split 8 i ++ x) b d key id id s r Hb)
    as (b1&d1&Hr1&Hw1&Hn1&Hc1&Hd1); rewrite ?Hz, ?zlen_le_split; try done; [by left|].
  destruct (check_blkid_Ok i x b1 d1 Hw1 Hn1 Hc1 Hi) as (b2&Hr2&?&?&?). exists b2, d1.
  cbn [RemoteDevice.d_recv RemoteDevice.getBlock]. mrun Hr1. cbn [negb]. by rewrite Hr2.
Qed.

Lemma getBlock_exchange i b key id st w :
  joined key id st w -> whole st -> fits 4 id -> fits 8 i -> block_obj b ->
  exists b' w', exchange (RemoteDevice.getBlock crnd ckernel i b) w = Ok (0, b') w' /\
    (wf b' /\ content b' = fetched st i) /\ joined key id st w'.
Proof.
  intros Hj Hwh Hid Hi Hb.
  destruct (exchange_Ok crnd srnd skernel conn crnd_zlen srnd_zlen shealthy (RemoteDevice.getBlock crnd ckernel i b)
    (fun a => a.1 = 0 /\ wf a.2 /\ content a.2 = fetched st i) key id st st w BFS_DEVICE_GET_BLOCK (le_split 8 i)
    (le_split 8 i ++ fetched st i) Hj) as ([rc b']&w'&He&(?&?&?)&Hj'); try done.
  - intros. by apply getBlock_send.
  - by rewrite zlen_app, zlen_le_split, fetched_zlen.
  - by apply handles_get_block.
  - intros b1 d s r k Hq Hr. destruct (getBlock_recv i (fetched st i) b b1 d key id s r k) as (b2&d2&Hr2&?&?&?&?); try done; [by apply fetched_zlen|].
    exists (0, b2), d2. by split_and!.
  - simpl in *. subst. by exists b', w'.
Qed.

(** The block of the copying version. *)
Lemma fresh_block : exists b, block_ctor None BLK_SZ 0 0 = Ok () b /\ block_obj b.
Proof.
  unfold block_ctor. change (0 <? u32 (BLK_SZ + 0 + 0)) with true. cbn [andb].
  destruct (SecAssoc.reset_spec FlexBuffer.empty BLK_SZ Byte.x00 0 0) as (b&Hr&Hw&_&_&Hn&_&Ha);
    [done|done|done|done|done|left; done|].
  rewrite (bind_Ok _ _ _ _ _ Hr). exists b. split; [done|]. split_and!; [done|by apply Hn|].
  change (allocation FlexBuffer.empty) with 0 in Ha. change BLK_SZ with 4096 in Ha. lia.
Qed.

Lemma getBlock_copy_exchange i key id st w :
  joined key id st w -> whole st -> fits 4 id -> fits 8 i ->
  exists w', exchange (RemoteDevice.getBlock_copy crnd ckernel i) w = Ok (0, fetched st i) w' /\ joined key id st w'.
Proof.
  intros Hj Hwh Hid Hi. 
  destruct (exchange_Ok crnd srnd skernel conn crnd_zlen srnd_zlen shealthy (RemoteDevice.getBlock_copy crnd ckernel i)
    (fun a => a = (0, fetched st i)) key id st st w BFS_DEVICE_GET_BLOCK (le_split 8 i)
    (le_split 8 i ++ fetched st i) Hj) as (?&w'&He&->&Hj'); try done.
  - intros d s r Hr. cbn [RemoteDevice.d_send RemoteDevice.getBlock_copy]. destruct fresh_block as (b&->&Hob).
    destruct (getBlock_send i b d key id s r Hr Hob Hi) as (b'&d'&k&Hs&?). exists b', d', k. by rewrite (bind_Ok _ _ _ _ _ Hs).
  - by rewrite zlen_app, zlen_le_split, fetched_zlen.
  - by apply handles_get_block.
  - intros b1 d s r k Hq Hr. destruct (getBlock_recv i (fetched st i) b1 b1 d key id s r k) as (b2&d2&Hr2&Hw2&?&Hc2&?); try done; [by apply fetched_zlen|].
    exists (0, fetched st i), d2. cbn [RemoteDevice.d_recv RemoteDevice.getBlock_copy]. mrun Hr2. cbn [Z.eqb negb].
    mrun (on_buffer_Ok _ _ _ _ d2 (load_all b2 _ Hw2 eq_refl)). by rewrite Hc2.
  - by exists w'.
Qed.

Lemma putBlock_exchange i x b key id st w :
  joined key id st w -> fits 4 id -> fits 8 i -> block_obj b -> content b = x -> zlen x = BLK_SZ ->
  exists b' w', exchange (RemoteDevice.putBlock crnd ckernel i b) w = Ok (0, b') w' /\
    content b' = [] /\ joined key id (stored st i x) w'.
Proof.
  intros Hj Hid Hi (Hw&Hn&Ha) Hc Hx.
  assert (zlen (le_split 8 i ++ x) = 8 + BLK_SZ) as Hz by (by rewrite zlen_app, zlen_le_split, Hx).
  destruct (exchange_Ok crnd srnd skernel conn crnd_zlen srnd_zlen shealthy (RemoteDevice.putBlock crnd ckernel i b)
    (fun a => a.1 = 0 /\ content a.2 = []) key id st (stored st i x) w BFS_DEVICE_PUT_BLOCK (le_split 8 i ++ x)
    (le_split 8 i) Hj) as ([rc b']&w'&He&[Hrc ?]&Hj'); rewrite ?Hz; try done.
  - intros d s r Hr. cbn [RemoteDevice.d_send RemoteDevice.putBlock].
    destruct (push_spec 8 i b Hw) as (b1&Hr1&Hw1&Hc1&_&Ha1); unfold BFSFLEXBUF_DEFAULT_PAD in *; [lia|].
    mrun (on_buffer_Ok _ _ _ _ d Hr1). rewrite <-Hc, <-Hc1. apply submit_Ok; [done..|lia].
  - by apply handles_put_block.
  - intros b1 d s r k Hq Hr.
    destruct (response_arrives BFS_DEVICE_PUT_BLOCK false 8 k (le_split 8 i ++ x) (le_split 8 i) b1 d key id id s r Hq)
      as (b2&d2&Hr2&Hw2&Hn2&Hc2&Hd2); rewrite ?Hz, ?zlen_le_split; try done; [by right|].
    rewrite <-(app_nil_r (le_split 8 i)) in Hc2. destruct (check_blkid_Ok i [] b2 d2 Hw2 Hn2 Hc2 Hi) as (b3&Hr3&?&?&?).
    exists (0, b3), d2. cbn [RemoteDevice.d_recv RemoteDevice.putBlock]. mrun Hr2. cbn [negb]. by rewrite Hr3.
  - simpl in Hrc. subst. by exists b', w'.
Qed.

(** *** Lists *)
Lemma erase_head i l : RemoteDevice.erase i (i :: l) = l.
Proof. cbn. by rewrite decide_True. Qed.

Lemma take_blocks_Ok blks b m :
  wf b -> buffer b <> None -> content b = blocks_bytes blks -> blocks_ok blks ->
  exists b', RemoteDevice.take_blocks (List.length blks) blks.*1 m b = Ok (0, foldl (fun m x => <[x.1 := x.2]> m) m blks) b'.
Proof.
  intros Hw Hn Hc Hok. revert b m Hw Hn Hc. induction Hok as [|[i x] blks [Hi Hx] _ IH]; intros b m Hw Hn Hc; [by exists b|].
  cbn [fst snd] in Hi, Hx. unfold blocks_bytes in Hc. cbn [fmap list_fmap List.map concat fst snd] in Hc. rewrite <-app_assoc in Hc.
  destruct (pull_spec 8 _ _ _ Hw Hn Hc Hi) as (b1&Hr1&Hw1&Hn1&Hc1&_).
  destruct (take_block_Ok b1 x _ Hw1 Hn1 Hc1 Hx) as (b2&Hr2&Hw2&Hn2&Hc2&_).
  destruct (IH b2 (<[i := x]> m) Hw2 Hn2 Hc2) as (b3&Hr3). exists b3.
  change (List.length ((i, x) :: blks)) with (S (List.length blks)). change (((i, x) :: blks).*1) with (i :: blks.*1).
  cbn [RemoteDevice.take_blocks]. mrun Hr1. rewrite decide_True by left. mrun Hr2. cbn [fst]. by rewrite erase_head.
Qed.

Lemma take_ids_Ok ids b :
  wf b -> buffer b <> None -> content b = ids_bytes ids -> Forall (fits 8) ids ->
  exists b', RemoteDevice.take_ids (List.length ids) ids b = Ok 0 b'.
Proof.
  intros Hw Hn Hc Hok. revert b Hw Hn Hc. induction Hok as [|i ids Hi _ IH]; intros b Hw Hn Hc; [by exists b|].
  destruct (pull_spec 8 _ _ _ Hw Hn Hc Hi) as (b1&Hr1&Hw1&Hn1&Hc1&_). destruct (IH b1 Hw1 Hn1 Hc1) as (b2&Hr2). exists b2.
  cbn [List.length RemoteDevice.take_ids]. mrun Hr1. rewrite decide_True by left. by rewrite erase_head.
Qed.

(** What is read from the storage for a list of numbers. *)
Definition fetched_all (ids : list Z) st : gmap Z bytes := foldl (fun m i => <[i := fetched st i]> m) ∅ ids.

Lemma foldl_fetched ids st (m : gmap Z bytes) :
  foldl (fun m x => <[x.1 := x.2]> m) m ((fun i => (i, fetched st i)) <$> ids) = foldl (fun m i => <[i := fetched st i]> m) m ids.
Proof. revert m. induction ids as [|i ids IH]; intros m; [done|]. cbn. by rewrite IH. Qed.

(** The buffer of a request with a list: its length, and the list. *)
Lemma list_request (m : M FlexBuffer.t ()) n (l : bytes) k :
  (forall b, wf b -> buffer b <> None -> allocation b + k < 2 ^ 31 ->
     exists b', m b = Ok () b' /\ wf b' /\ buffer b' <> None /\ content b' = content b ++ l /\ allocation b' <= allocation b + k) ->
  0 <= k < 2 ^ 31 - 1100 ->
  exists b', (addTrailer (le_split 8 n) ;; m) FlexBuffer.empty = Ok () b' /\ wf b' /\ content b' = le_split 8 n ++ l /\
    allocation b' < 2 ^ 31 - 1000.
Proof.
  intros Hm Hk. destruct (addTrailer_spec FlexBuffer.empty (le_split 8 n)) as (b1&Hr1&Hw1&Hc1&Hn1&Ha1); [done|by rewrite zlen_le_split|].
  rewrite zlen_le_split in Ha1. unfold BFSFLEXBUF_DEFAULT_PAD in Ha1. change (allocation FlexBuffer.empty) with 0 in Ha1.
  destruct (Hm b1 Hw1) as (b2&Hr2&Hw2&_&Hc2&Ha2); [apply Hn1; by left|lia|]. exists b2. mrun Hr1. rewrite Hr2.
  split_and!; try done; [by rewrite Hc2, Hc1|lia].
Qed.

Lemma getBlocks_exchange ids key id st w :
  joined key id st w -> whole st -> fits 4 id -> Forall (fits 8) ids ->
  Forall (fun i => is_Some (DeviceStorage.getBlock i st)) ids -> zlen ids <= 2 ^ 16 ->
  exists w', exchange (RemoteDevice.getBlocks crnd ckernel ids) w = Ok (0, fetched_all ids st) w' /\ joined key id st w'.
Proof.
  intros Hj Hwh Hid Hf Hin Hz. pose proof (zlen_nonneg ids). set (blks := (fun i => (i, fetched st i)) <$> ids).
  assert (blocks_ok blks) as Hbo by (by apply fetched_ok).
  assert (zlen blks = zlen ids) as Hzl by (unfold zlen, blks; by rewrite length_fmap).
  assert (zlen (le_split 8 (zlen ids) ++ ids_bytes ids) = 8 + 8 * zlen ids) as Hz1 by (by rewrite zlen_app, zlen_le_split, ids_bytes_zlen).
  assert (zlen (le_split 8 (zlen ids) ++ blocks_bytes blks) = 8 + (8 + BLK_SZ) * zlen ids) as Hz2
    by (by rewrite zlen_app, zlen_le_split, blocks_bytes_zlen, Hzl).
  assert (8 + BLK_SZ = 4104) as Hsz by done.
  destruct (exchange_Ok crnd srnd skernel conn crnd_zlen srnd_zlen shealthy (RemoteDevice.getBlocks crnd ckernel ids)
    (fun a => a = (0, fetched_all ids st)) key id st st w BFS_DEVICE_GET_BLOCKS (le_split 8 (zlen ids) ++ ids_bytes ids)
    (le_split 8 (zlen ids) ++ blocks_bytes blks) Hj) as (?&w'&He&->&Hj'); rewrite ?Hz1, ?Hz2; try done; [|lia..| | |by exists w'].
  - intros d s r Hr. cbn [RemoteDevice.d_send RemoteDevice.getBlocks].
    destruct (list_request (RemoteDevice.add_ids ids) (zlen ids) (ids_bytes ids) (40 * zlen ids)) as (b1&Hr1&Hw1&Hc1&Ha1);
      [intros; by apply add_ids_Ok|lia|].
    mrun (on_buffer_Ok _ _ _ _ d Hr1). rewrite bind_gets, (rr_id _ _ _ _ _ _ _ Hr), <-Hc1.
    destruct (request_sent true BFS_DEVICE_GET_BLOCKS id b1 d key id s r Hr Hw1 Ha1) as (b2&d2&k&Hr2&?&?). mrun Hr2. by exists b2, d2, k.
  - by apply handles_get_blocks.
  - intros b d s r k Hq Hr.
    destruct (response_arrives BFS_DEVICE_GET_BLOCKS true (8 + (8 + BLK_SZ) * zlen ids) k _
      (le_split 8 (zlen ids) ++ blocks_bytes blks) b d key id id s r Hq) as (b2&d2&Hr2&Hw2&Hn2&Hc2&Hd2);
      [rewrite Hz1, Hz2; lia|exact Hr|done|done|done|exact Hz2|lia|].
    cbn [RemoteDevice.d_recv RemoteDevice.getBlocks]. mrun Hr2. cbn [negb].
    destruct (pull_spec 8 _ _ _ Hw2 Hn2 Hc2) as (b3&Hr3&Hw3&Hn3&Hc3&_); [split; cbn; lia|]. mrun (on_buffer_Ok _ _ _ _ d2 Hr3).
    rewrite Z.eqb_refl. cbn [negb]. destruct (take_blocks_Ok blks b3 ∅ Hw3 Hn3 Hc3 Hbo) as (b4&Hr4).
    unfold blks in Hr4. rewrite length_fmap, foldl_fetched, <-list_fmap_compose, list_fmap_id in Hr4.
    mrun (on_buffer_Ok _ _ _ _ d2 Hr4). by eexists _, d2.
Qed.

Lemma putBlocks_exchange blks key id st w :
  joined key id st w -> fits 4 id -> blocks_ok blks -> zlen blks <= 2 ^ 16 ->
  exists w', exchange (RemoteDevice.putBlocks crnd ckernel blks) w = Ok 0 w' /\ joined key id (stored_all blks st) w'.
Proof.
  intros Hj Hid Hbo Hz. pose proof (zlen_nonneg blks).
  assert (zlen blks.*1 = zlen blks) as Hzl by (unfold zlen; by rewrite length_fmap).
  assert (zlen (le_split 8 (zlen blks) ++ ids_bytes blks.*1) = 8 + 8 * zlen blks) as Hz1
    by (by rewrite zlen_app, zlen_le_split, ids_bytes_zlen, Hzl).
  assert (zlen (le_split 8 (zlen blks) ++ blocks_bytes blks) = 8 + (8 + BLK_SZ) * zlen blks) as Hz2
    by (by rewrite zlen_app, zlen_le_split, blocks_bytes_zlen).
  assert (8 + BLK_SZ = 4104) as Hsz by done.
  assert (Forall (fits 8) blks.*1) as Hf by (apply Forall_fmap; eapply Forall_impl; [exact Hbo|]; by intros x []).
  destruct (exchange_Ok crnd srnd skernel conn crnd_zlen srnd_zlen shealthy (RemoteDevice.putBlocks crnd ckernel blks)
    (fun a => a = 0) key id st (stored_all blks st) w BFS_DEVICE_PUT_BLOCKS (le_split 8 (zlen blks) ++ blocks_bytes blks)
    (le_split 8 (zlen blks) ++ ids_bytes blks.*1) Hj) as (?&w'&He&->&Hj'); rewrite ?Hz1, ?Hz2; try done; [|lia..| | |by exists w'].
  - intros d s r Hr. cbn [RemoteDevice.d_send RemoteDevice.putBlocks].
    destruct (list_request (RemoteDevice.add_blocks blks) (zlen blks) (blocks_bytes blks) (4168 * zlen blks)) as (b1&Hr1&Hw1&Hc1&Ha1);
      [intros; by apply add_blocks_Ok|lia|].
    mrun (on_buffer_Ok _ _ _ _ d Hr1). rewrite bind_gets, (rr_id _ _ _ _ _ _ _ Hr), <-Hc1.
    destruct (request_sent true BFS_DEVICE_PUT_BLOCKS id b1 d key id s r Hr Hw1 Ha1) as (b2&d2&k&Hr2&?&?). mrun Hr2. by exists b2, d2, k.
  - by apply handles_put_blocks.
  - intros b d s r k Hq Hr.
    destruct (response_arrives BFS_DEVICE_PUT_BLOCKS false (8 + 8 * zlen blks) k _
      (le_split 8 (zlen blks) ++ ids_bytes blks.*1) b d key id id s r Hq) as (b2&d2&Hr2&Hw2&Hn2&Hc2&Hd2);
      [rewrite Hz1, Hz2; lia|exact Hr|done|done|done|exact Hz1|lia|].
    cbn [RemoteDevice.d_recv RemoteDevice.putBlocks]. mrun Hr2. cbn [negb].
    destruct (pull_spec 8 _ _ _ Hw2 Hn2 Hc2) as (b3&Hr3&Hw3&Hn3&Hc3&_); [split; cbn; lia|]. mrun (on_buffer_Ok _ _ _ _ d2 Hr3).
    rewrite Z.eqb_refl. cbn [negb]. destruct (take_ids_Ok blks.*1 b3 Hw3 Hn3 Hc3 Hf) as (b4&Hr4). rewrite length_fmap in Hr4.
    mrun (on_buffer_Ok _ _ _ _ d2 Hr4). by eexists _, d2.
Qed.

(** *** Connecting *)
Lemma initialize_exchange n key id st w s r :
  chan_ok key (RemoteDevice.secContext (dw_remote w)) -> RemoteDevice.rd_send_seq (dw_remote w) = s ->
  RemoteDevice.rd_recv_seq (dw_remote w) = r -> RawNet.inbox (NetConn.socket n) = [] -> RawNet.outbox (NetConn.socket n) = [] ->
  dready (dw_device w) conn key id st r s [] [] -> fits 4 id -> fits 8 (DeviceStorage.numBlocks st) ->
  exists w', exchange (RemoteDevice.bfsDeviceInitialize crnd ckernel (Some n)) w = Ok 0 w' /\
    RemoteDevice.numBlocks (dw_remote w') = DeviceStorage.numBlocks st /\ joined key id st w'.
Proof.
  intros Hch Hs Hr Hin Hout Hd Hid Hnb.
  assert (zlen (topology id st) = RemoteDevice.TOPO_LEN) as Hz by (unfold topology; by rewrite !zlen_app, !zlen_le_split).
  set (id0 := RemoteDevice.deviceID (dw_remote w)).
  destruct (exchange_from crnd srnd skernel conn crnd_zlen srnd_zlen shealthy (RemoteDevice.bfsDeviceInitialize crnd ckernel (Some n))
    (fun a d => a = 0 /\ RemoteDevice.numBlocks d = DeviceStorage.numBlocks st) key id0 id st st w s r 0 BFS_DEVICE_GET_TOPO
    [] id (topology id st)) as (a&w'&He&[-> ?]&Hj'); rewrite ?Hz; try done; [|by apply handles_topo| |by exists w'].
  - cbn [RemoteDevice.d_send RemoteDevice.bfsDeviceInitialize]. rewrite bind_modify.
    set (d1 := RemoteDevice.set_conn (Some n) (dw_remote w)).
    destruct (request_sent false BFS_DEVICE_GET_TOPO 0 FlexBuffer.empty d1 key id0 s r) as (b'&d'&k&Hq&Hb&Hr'); [|done..|].
    { constructor; try done. by exists n. }
    mrun Hq. by exists b', d', k.
  - intros b d s' r' k Hq Hr'.
    destruct (response_arrives BFS_DEVICE_GET_TOPO false RemoteDevice.TOPO_LEN k [] (topology id st) b d key id0 id s' r' Hq)
      as (b2&d2&Hr2&Hw2&Hn2&Hc2&[Hch2 _ Hs2 Hre2 Hco2]); rewrite ?Hz; try done; [by left|].
    cbn [RemoteDevice.d_recv RemoteDevice.bfsDeviceInitialize]. mrun Hr2. cbn [negb].
    mrun (on_buffer_Ok _ _ _ _ d2 (load_all b2 RemoteDevice.TOPO_LEN Hw2 ltac:(by rewrite <-(content_zlen b2 Hw2), Hc2))).
    rewrite bind_modify, Hc2, topology_id, topology_size by done.
    eexists _, _. split; [reflexivity|]. by split_and!.
Qed.
End operations.

(** ** Sessions

    The operations of [bfsDevice] with their results; [None] is a failure. *)
Inductive dev_op :=
  | DGet (i : Z)
  | DPut (i : Z) (pblk : FlexBuffer.t)
  | DGets (ids : list Z)
  | DPuts (blks : list (Z * bytes)).

Inductive dev_res := RBlock (blk : bytes) | RBlocks (blks : gmap Z bytes) | RDone.

Section storage.
Implicit Types (st : DeviceStorage.t).

Definition local_op (o : dev_op) (d : LocalDevice.t) : option (dev_res * LocalDevice.t) :=
  match o with
  | DGet i =>
      match LocalDevice.getBlock i d with inl (Some x) => Some (RBlock x, d) | _ => None end
  | DPut i pblk =>
      match LocalDevice.putBlock i (content pblk) d with inl (Some d) => Some (RDone, d) | _ => None end
  | DGets ids =>
      match LocalDevice.getBlocks ids d with
      | inl l => Some (RBlocks (foldl (fun m x => <[x.1 := x.2]> m) ∅ (zip ids l)), d)
      | inr _ => None
      end
  | DPuts blks =>
      match LocalDevice.putBlocks blks d with (d, None) => Some (RDone, d) | _ => None end
  end.

Fixpoint local_run (ops : list dev_op) (d : LocalDevice.t) : option (list dev_res * LocalDevice.t) :=
  match ops with
  | [] => Some ([], d)
  | o :: ops => '(x, d) ← local_op o d; '(xs, d) ← local_run ops d; Some (x :: xs, d)
  end.

(** Block numbers within a device of [n] blocks, and whole blocks. *)
Definition op_ok (n : Z) (o : dev_op) : Prop :=
  match o with
  | DGet i => 0 <= i < n
  | DPut i pblk => 0 <= i < n /\ block_obj pblk /\ zlen (content pblk) = BLK_SZ
  | DGets ids => Forall (fun i => 0 <= i < n) ids /\ zlen ids <= 2 ^ 16
  | DPuts blks => Forall (fun x => 0 <= x.1 < n /\ zlen x.2 = BLK_SZ) blks /\ zlen blks <= 2 ^ 16
  end.

(** A storage of [n] blocks. *)
Record st_ok (n : Z) st : Prop := {
  so_size : DeviceStorage.numBlocks st = n;
  so_mapped : is_Some (DeviceStorage.blockStorage st);
  so_whole : whole st
}.

Lemma get_in_range n st i : st_ok n st -> i < n -> DeviceStorage.getBlock i st = Some (fetched st i).
Proof.
  intros [Hs [m Hm] _] Hi. unfold fetched, DeviceStorage.getBlock, DeviceStorage.getBlockAddress. rewrite Hm, Hs.
  destruct (Z.leb_spec n i); [lia|done].
Qed.

Lemma put_in_range n st i x :
  st_ok n st -> i < n -> zlen x = BLK_SZ ->
  DeviceStorage.putBlock i x st = Some (stored st i x) /\ st_ok n (stored st i x).
Proof.
  intros [Hs [m Hm] Hwh] Hi Hx. unfold stored, DeviceStorage.putBlock, DeviceStorage.getBlockAddress. rewrite Hm, Hs.
  destruct (Z.leb_spec n i); [lia|]. split; [done|]. split; [done|by eexists|].
  intros j y. cbn. unfold DeviceStorage.getBlock, DeviceStorage.getBlockAddress. cbn. case_match; [done|].
  intros Hj. injection Hj as <-. destruct (decide (i = j)) as [->|Hne].
  - rewrite lookup_insert_eq. cbn. rewrite take_ge; [done|]. unfold zlen in Hx. lia.
  - rewrite lookup_insert_ne by done. apply (Hwh j). unfold DeviceStorage.getBlock, DeviceStorage.getBlockAddress.
    rewrite Hm, Hs. case_match; [lia|done].
Qed.

Lemma gets_in_range n st d ids :
  st_ok n st -> LocalDevice.storage d = Some st -> Forall (fun i => 0 <= i < n) ids ->
  LocalDevice.getBlocks ids d = inl (fetched st <$> ids).
Proof.
  intros Hst Hd. induction 1 as [|i ids Hi _ IH]; [done|]. cbn [LocalDevice.getBlocks]. unfold LocalDevice.getBlock.
  rewrite Hd, (get_in_range n) by (done || lia). by rewrite IH.
Qed.

Lemma puts_in_range n st d blks :
  st_ok n st -> LocalDevice.storage d = Some st -> Forall (fun x => 0 <= x.1 < n /\ zlen x.2 = BLK_SZ) blks ->
  exists d', LocalDevice.putBlocks blks d = (d', None) /\ LocalDevice.storage d' = Some (stored_all blks st) /\ st_ok n (stored_all blks st).
Proof.
  intros Hst Hd Hb. revert d st Hst Hd. induction Hb as [|[i x] blks [Hi Hx] _ IH]; intros d st Hst Hd; [by exists d|].
  cbn [fst snd] in *. cbn [LocalDevice.putBlocks]. unfold LocalDevice.putBlock. rewrite Hd.
  destruct (put_in_range n st i x Hst) as [-> Hst']; [lia|done|]. cbn. by apply IH.
Qed.

Lemma fold_zip (f : Z -> bytes) ids (m : gmap Z bytes) :
  foldl (fun m x => <[x.1 := x.2]> m) m (zip ids (f <$> ids)) = foldl (fun m i => <[i := f i]> m) m ids.
Proof. revert m. induction ids as [|i ids IH]; intros m; [done|]. cbn. by rewrite IH. Qed.
End storage.

Section sessions.
Context `{Cipher} {claws : CipherLaws} (crnd srnd : nat -> bytes) (ckernel : nat -> Z) (skernel : Z -> nat -> Z) (conn : Z).
Implicit Types (st : DeviceStorage.t) (w : dworld).

Abbreviation exchange := (exchange srnd skernel conn).
Abbreviation joined := (joined conn).

Definition remote_op (o : dev_op) : M dworld (option dev_res) :=
  let ok rc (x : dev_res) := if rc =? 0 then Some x else None in
  match o with
  | DGet i => '(rc, x) ← exchange (RemoteDevice.getBlock_copy crnd ckernel i); mret (ok rc (RBlock x))
  | DPut i pblk => '(rc, _) ← exchange (RemoteDevice.putBlock crnd ckernel i pblk); mret (ok rc RDone)
  | DGets ids => '(rc, m) ← exchange (RemoteDevice.getBlocks crnd ckernel ids); mret (ok rc (RBlocks m))
  | DPuts blks => rc ← exchange (RemoteDevice.putBlocks crnd ckernel blks); mret (ok rc RDone)
  end.

Fixpoint remote_run (ops : list dev_op) : M dworld (list (option dev_res)) :=
  match ops with
  | [] => mret []
  | o :: ops => x ← remote_op o; xs ← remote_run ops; mret (x :: xs)
  end.

Context (crnd_zlen : forall n, zlen (crnd n) = BFS_IV_LEN) (srnd_zlen : forall n, zlen (srnd n) = BFS_IV_LEN).
Context (chealthy : forall i, 0 <= ckernel i) (shealthy : forall c i, 0 <= skernel c i).

Lemma op_Ok n o key id st w d :
  joined key id st w -> st_ok n st -> LocalDevice.storage d = Some st -> fits 4 id -> n <= 2 ^ 64 -> op_ok n o ->
  exists x st' d' w', local_op o d = Some (x, d') /\ remote_op o w = Ok (Some x) w' /\
    joined key id st' w' /\ st_ok n st' /\ LocalDevice.storage d' = Some st'.
Proof.
  intros Hj Hst Hd Hid Hn Ho. pose proof (so_whole _ _ Hst) as Hwh. assert (forall i, 0 <= i < n -> fits 8 i) as Hf by (intros; split; cbn; lia).
  destruct o as [i|i b|ids|blks]; cbn [op_ok local_op remote_op] in *.
  - destruct (getBlock_copy_exchange crnd srnd ckernel skernel conn crnd_zlen srnd_zlen chealthy shealthy i key id st w) as (w'&He&Hj'); auto.
    exists (RBlock (fetched st i)), st, d, w'. mrun He. unfold LocalDevice.getBlock. rewrite Hd, (get_in_range n) by (done || lia). by split_and!.
  - destruct Ho as (Hi&Hb&Hx). destruct (put_in_range n st i (content b) Hst) as [Hp Hst']; [lia|done|].
    destruct (putBlock_exchange crnd srnd ckernel skernel conn crnd_zlen srnd_zlen chealthy shealthy i (content b) b key id st w)
      as (b'&w'&He&_&Hj'); auto.
    eexists RDone, (stored st i (content b)), _, w'. mrun He. unfold LocalDevice.putBlock. rewrite Hd, Hp. by split_and!.
  - destruct Ho as [Hi Hz].
    destruct (getBlocks_exchange crnd srnd ckernel skernel conn crnd_zlen srnd_zlen chealthy shealthy ids key id st w) as (w'&He&Hj'); auto.
    { eapply Forall_impl; [exact Hi|]. auto. }
    { eapply Forall_impl; [exact Hi|]. intros i [_ Hlt]. rewrite (get_in_range n) by done. by eexists. }
    exists (RBlocks (fetched_all ids st)), st, d, w'. mrun He. rewrite (gets_in_range n st) by done. rewrite fold_zip. by split_and!.
  - destruct Ho as [Hi Hz]. destruct (puts_in_range n st d blks Hst Hd Hi) as (d'&Hp&Hd'&Hst').
    destruct (putBlocks_exchange crnd srnd ckernel skernel conn crnd_zlen srnd_zlen chealthy shealthy blks key id st w) as (w'&He&Hj'); auto.
    { eapply Forall_impl; [exact Hi|]. intros x []. split; auto. }
    eexists RDone, (stored_all blks st), d', w'. mrun He. rewrite Hp. by split_and!.
Qed.

Lemma run_Ok n ops key id st w d :
  joined key id st w -> st_ok n st -> LocalDevice.storage d = Some st -> fits 4 id -> n <= 2 ^ 64 -> Forall (op_ok n) ops ->
  exists xs st' d' w', local_run ops d = Some (xs, d') /\ remote_run ops w = Ok (Some <$> xs) w' /\
    joined key id st' w' /\ LocalDevice.storage d' = Some st'.
Proof.
  intros Hj Hst Hd Hid Hn Hops. revert st w d Hj Hst Hd. induction Hops as [|o ops Ho _ IH]; intros st w d Hj Hst Hd.
  - by exists [], st, d, w.
  - destruct (op_Ok n o key id st w d) as (x&st1&d1&w1&Hl&Hr&Hj1&Hst1&Hd1); [done..|].
    destruct (IH st1 w1 d1 Hj1 Hst1 Hd1) as (xs&st2&d2&w2&Hl2&Hr2&Hj2&Hd2).
    exists (x :: xs), st2, d2, w2. cbn [local_run remote_run]. rewrite Hl. cbn. rewrite Hl2. mrun Hr. mrun Hr2. by split_and!.
Qed.

(** ** Faults *)
Lemma device_refuses d key id st sseq rseq v ct t outb :
  dready d conn key id st sseq rseq (NetConn.frame (v ++ ct ++ t)) outb ->
  zlen v = BFS_IV_LEN -> zlen t = BFS_MAC_LEN -> zlen ct + 60 < 2 ^ 31 ->
  t <> gcm_tag (CryptoKey.cipher_key (CryptoKey.setKeyData key)) v (le_split 4 rseq) ct ->
  exists d', NetworkDevice.processCommunications srnd skernel (Some [NetworkDevice.EClient conn]) d =
      Throw (bfsCryptoError "gcrypt MAC verification failure: ") d' /\
    NetworkDevice.storage d' = Some st.
Proof.
  intros [(a&Ha&[t0 Hk]&Hwi&Hli) Hid Hst <- <- (n&Hn&Hin&Hout)] Hv Ht Hz Hne.
  assert (0 < zlen (v ++ ct ++ t) < 2 ^ 31) as Hm.
  { rewrite !zlen_app, Hv, Ht. pose proof (zlen_nonneg ct). unfold BFS_IV_LEN, BFS_MAC_LEN. lia. }
  unfold NetworkDevice.processCommunications. cbn [NetworkDevice.serve].
  destruct (NetConn.recvPacketizedBuffer_ok (skernel conn) (shealthy conn) FlexBuffer.empty (v ++ ct ++ t) [] n)
    as (b&n1&Hrecv&_&[Hwb _]&Hnb&Hcb&_); [apply SecAssoc.roomy_empty|lia|by rewrite app_nil_r|].
  mrun (d_on_conn_Ok conn _ _ n n1 d Hn Hrecv). destruct (Z.ltb_spec (zlen (v ++ ct ++ t)) 0); [lia|].
  rewrite <-(content_zlen b Hwb), Hcb. destruct (Z.eqb_spec (zlen (v ++ ct ++ t)) 0); [lia|].
  destruct (SecAssoc.decryptData_rejects (SecAssoc.mkst (sa_key a) (sa_iv a) b FlexBuffer.empty) _
    (seq_aad (NetworkDevice.nd_recv_seq d)) v ct t Hk) as (st'&Hd); [done..|].
  set (d1 := NetworkDevice.set_conns _ d). exists (NetworkDevice.set_chan (mkChan (Some (mkSa (SecAssoc.saKey st') (SecAssoc.iv st'))) (ch_draws (NetworkDevice.secContext d))) d1).
  split; [|done]. unfold NetworkDevice.processClientRequest. rewrite bind_assoc, bind_gets, bind_assoc. apply bind_Throw.
  unfold NetworkDevice.on_chan, unmarshalBfsDevicePacket. rewrite bind_gets. cbn [NetworkDevice.secContext NetworkDevice.set_conns d1]. rewrite Ha.
  rewrite (bind_Throw _ _ _ (bfsCryptoError "gcrypt MAC verification failure: ")
    (mkChan (Some (mkSa (SecAssoc.saKey st') (SecAssoc.iv st'))) (ch_draws (NetworkDevice.secContext d)))); [done|].
  unfold crypt. change (NetworkDevice.nd_recv_seq d1) with (NetworkDevice.nd_recv_seq d). by rewrite Hd.
Qed.

(** ** Start *)
Definition idle_conn (n : NetConn.t) : Prop := RawNet.inbox (NetConn.socket n) = [] /\ RawNet.outbox (NetConn.socket n) = [].

(** The first turns of the device's loop: it sets itself up and accepts a
    connection. *)
Definition device_up (sa : sassoc) (devsz : Z) (n : NetConn.t) : M NetworkDevice.t (option Z) :=
  NetworkDevice.execute_turn srnd skernel (Some (sa, devsz)) true false None ;;
  NetworkDevice.execute_turn srnd skernel (Some (sa, devsz)) true false (Some [NetworkDevice.EServer (Some (conn, n))]).

Lemma device_up_Ok sa key did devsz n k :
  sa_ok key sa -> idle_conn n -> 0 <= devsz ->
  exists d, device_up sa devsz n (NetworkDevice.ctor did k) = Ok None d /\
    dready d conn key did (DeviceStorage.mk did devsz (Some ∅)) 0 0 [] [] /\ NetworkDevice.devState d = BFSDEV_READY.
Proof.
  intros Hsa [Hin Hout] Hsz. eexists. split; [reflexivity|]. split; [|done].
  constructor; try done; [by exists sa|]. exists n. cbn. by rewrite lookup_insert_eq.
Qed.

Lemma empty_storage_ok did devsz : 0 <= devsz -> st_ok devsz (DeviceStorage.mk did devsz (Some ∅)).
Proof.
  split; [done|by eexists|]. intros i x. unfold DeviceStorage.getBlock, DeviceStorage.getBlockAddress. cbn. case_match; [done|].
  intros Hx. injection Hx as <-. by rewrite lookup_empty.
Qed.

(** What an operation on a block outside the device does. *)
Lemma outside_Ok n i b key id st w d :
  joined key id st w -> st_ok n st -> LocalDevice.storage d = Some st -> fits 4 id -> n <= i < 2 ^ 64 -> 0 <= n ->
  block_obj b -> zlen (content b) = BLK_SZ ->
  local_op (DGet i) d = None /\ local_op (DPut i b) d = None /\
  exists w1 w2, remote_op (DGet i) w = Ok (Some (RBlock zero_blk)) w1 /\ remote_op (DPut i b) w1 = Ok (Some RDone) w2 /\
    NetworkDevice.storage (dw_device w2) = Some st.
Proof.
  intros Hj Hst Hd Hid Hi Hn Hb Hx. assert (fits 8 i) as Hf by (split; cbn; lia).
  assert (DeviceStorage.getBlockAddress i st = None) as Hno.
  { unfold DeviceStorage.getBlockAddress. rewrite (so_size _ _ Hst). destruct (Z.leb_spec n i); [|lia]. by destruct (DeviceStorage.blockStorage st). }
  assert (DeviceStorage.getBlock i st = None) as Hg by (unfold DeviceStorage.getBlock; by rewrite Hno).
  assert (DeviceStorage.putBlock i (content b) st = None) as Hp by (unfold DeviceStorage.putBlock; by rewrite Hno).
  cbn [local_op remote_op]. unfold LocalDevice.getBlock, LocalDevice.putBlock. rewrite Hd, Hg, Hp. split_and!; [done..|].
  destruct (getBlock_copy_exchange crnd srnd ckernel skernel conn crnd_zlen srnd_zlen chealthy shealthy i key id st w)
    as (w1&He1&Hj1); [done|apply Hst|done..|].
  destruct (putBlock_exchange crnd srnd ckernel skernel conn crnd_zlen srnd_zlen chealthy shealthy i (content b) b key id st w1)
    as (b'&w2&He2&_&(s&r&_&Hd2)); [done..|].
  exists w1, w2. mrun He1. mrun He2. unfold fetched. rewrite Hg. split_and!; [done..|].
  rewrite (dr_storage _ _ _ _ _ _ _ _ _ Hd2). unfold stored. by rewrite Hp.
Qed.

Lemma remote_device_Ok sa_r sa_d key did devsz n m ops k k' :
  sa_ok key sa_r -> sa_ok key sa_d -> fits 4 did -> 0 <= devsz < 2 ^ 64 -> idle_conn n -> idle_conn m ->
  Forall (op_ok devsz) ops ->
  exists d w xs l w', device_up sa_d devsz m (NetworkDevice.ctor did k) = Ok None d /\
    exchange (RemoteDevice.bfsDeviceInitialize crnd ckernel (Some n)) (mkDworld (RemoteDevice.ctor (Some sa_r) k') d) = Ok 0 w /\
    RemoteDevice.deviceID (dw_remote w) = did /\ RemoteDevice.numBlocks (dw_remote w) = devsz /\
    local_run ops (LocalDevice.bfsDeviceInitialize (LocalDevice.mk did devsz None)) = Some (xs, l) /\
    remote_run ops w = Ok (Some <$> xs) w' /\ NetworkDevice.storage (dw_device w') = LocalDevice.storage l.
Proof.
  intros Hr Hd Hdid Hsz [Hni Hno] Hm Hops. destruct (device_up_Ok sa_d key did devsz m k Hd Hm) as (d&Hup&Hrd&_); [lia|].
  destruct (initialize_exchange crnd srnd ckernel skernel conn crnd_zlen srnd_zlen chealthy shealthy n key did
    (DeviceStorage.mk did devsz (Some ∅)) (mkDworld (RemoteDevice.ctor (Some sa_r) k') d) 0 0) as (w&He&Hnb&Hj);
    [by exists sa_r|reflexivity|reflexivity|exact Hni|exact Hno|exact Hrd|exact Hdid|split; cbn; lia|].
  destruct (run_Ok devsz ops key did _ w (LocalDevice.bfsDeviceInitialize (LocalDevice.mk did devsz None)) Hj)
    as (xs&st'&l&w'&Hl&Hre&(s&r&_&Hd')&Hst'); [apply empty_storage_ok; lia|reflexivity|exact Hdid|lia|exact Hops|].
  exists d, w, xs, l, w'. split_and!; try assumption.
  - by destruct Hj as (?&?&[]&_).
  - by rewrite (dr_storage _ _ _ _ _ _ _ _ _ Hd'), Hst'.
Qed.

(** ** Theorems *)

(** C6. A remote device is a local device: the device process sets itself up and
    accepts the connection, the remote device learns the number and the size of
    the storage, and from then on any sequence of [getBlock], [putBlock],
    [getBlocks] and [putBlocks] within the device gives the results that the
    operations of a local device give, and leaves the same storage. *)
Theorem remote_device_is_local sa_r sa_d key did devsz n m ops k k' :
  sa_ok key sa_r -> sa_ok key sa_d -> fits 4 did -> 0 <= devsz < 2 ^ 64 -> idle_conn n -> idle_conn m ->
  Forall (op_ok devsz) ops ->
  exists d w xs l w', device_up sa_d devsz m (NetworkDevice.ctor did k) = Ok None d /\
    exchange (RemoteDevice.bfsDeviceInitialize crnd ckernel (Some n)) (mkDworld (RemoteDevice.ctor (Some sa_r) k') d) = Ok 0 w /\
    RemoteDevice.deviceID (dw_remote w) = did /\ RemoteDevice.numBlocks (dw_remote w) = devsz /\
    local_run ops (LocalDevice.bfsDeviceInitialize (LocalDevice.mk did devsz None)) = Some (xs, l) /\
    remote_run ops w = Ok (Some <$> xs) w' /\ NetworkDevice.storage (dw_device w') = LocalDevice.storage l.
Proof. exact (remote_device_Ok sa_r sa_d key did devsz n m ops k k'). Qed.

(** Outside the device the two differ: a local device refuses to read or
    write a block beyond its end, a remote device reads zeros and accepts the
    write, which is lost. *)
Theorem remote_range_unchecked n i b key id st w d :
  joined key id st w -> st_ok n st -> LocalDevice.storage d = Some st -> fits 4 id -> n <= i < 2 ^ 64 -> 0 <= n ->
  block_obj b -> zlen (content b) = BLK_SZ ->
  local_op (DGet i) d = None /\ local_op (DPut i b) d = None /\
  exists w1 w2, remote_op (DGet i) w = Ok (Some (RBlock zero_blk)) w1 /\ remote_op (DPut i b) w1 = Ok (Some RDone) w2 /\
    NetworkDevice.storage (dw_device w2) = Some st.
Proof. exact (outside_Ok n i b key id st w d). Qed.

(** A successful [putBlock] of a remote device empties the block object it
    was given: the response is received into it and taken off. *)
Theorem remote_put_empties_block i b key id st w :
  joined key id st w -> fits 4 id -> fits 8 i -> block_obj b -> zlen (content b) = BLK_SZ ->
  exists b' w', exchange (RemoteDevice.putBlock crnd ckernel i b) w = Ok (0, b') w' /\ content b' = [] /\
    joined key id (stored st i (content b)) w'.
Proof.
  intros. by apply (putBlock_exchange crnd srnd ckernel skernel conn crnd_zlen srnd_zlen chealthy shealthy i (content b) b key id st w).
Qed.

(** A packet whose tag is not the one of the next sequence number (forged, or
    the first packet of a block layer that connected again) ends the device: the
    exception leaves the loop of [execute], which does not catch it. *)
Theorem inauthentic_packet_ends_device cfg d key id st sseq rseq v ct t outb :
  dready d conn key id st sseq rseq (NetConn.frame (v ++ ct ++ t)) outb -> NetworkDevice.devState d = BFSDEV_READY ->
  zlen v = BFS_IV_LEN -> zlen t = BFS_MAC_LEN -> zlen ct + 60 < 2 ^ 31 ->
  t <> gcm_tag (CryptoKey.cipher_key (CryptoKey.setKeyData key)) v (le_split 4 rseq) ct ->
  exists d', NetworkDevice.execute_turn srnd skernel cfg true false (Some [NetworkDevice.EClient conn]) d =
      Throw (bfsCryptoError "gcrypt MAC verification failure: ") d' /\
    NetworkDevice.storage d' = Some st.
Proof.
  intros Hd Hst ????. destruct (device_refuses d key id st sseq rseq v ct t outb) as (d'&Hr&Hs); [done..|].
  exists d'. split; [|done]. unfold NetworkDevice.execute_turn. rewrite bind_gets, Hst. by apply bind_Throw.
Qed.
End sessions.

(** ** Any input

    Whatever arrives, the storage stays a storage of the configured size with
    whole blocks, and it is there when commands are served. *)
Section any_input.
Context `{Cipher} (rnd : nat -> bytes) (kernel : Z -> nat -> Z).

Definition typed (n : Z) (d : NetworkDevice.t) : Prop :=
  (forall st, NetworkDevice.storage d = Some st -> st_ok n st) /\
  (NetworkDevice.devState d = BFSDEV_READY -> is_Some (NetworkDevice.storage d)).

Lemma safe_on_buffer {S A} (P : S -> Prop) (m : M FlexBuffer.t A) b (Q : A * FlexBuffer.t -> Prop) :
  (forall a b', m b = Ok a b' -> Q (a, b')) -> safe P (on_buffer m b) Q.
Proof. intros HQ d Hd. unfold on_buffer. destruct (m b) as [a b'|e b'|x] eqn:E; [|done..]. split; [done|by apply HQ]. Qed.

Lemma safe_on_chan {A} n (m : M chan A) : safe (typed n) (NetworkDevice.on_chan m) (fun _ => True).
Proof. intros d Hd. unfold NetworkDevice.on_chan. by destruct (m _). Qed.

Lemma safe_on_conn {A} n c (m : M NetConn.t A) : safe (typed n) (NetworkDevice.on_conn c m) (fun _ => True).
Proof. intros d Hd. unfold NetworkDevice.on_conn. destruct (_ !! c) as [x|]; [|done]. by destruct (m x). Qed.

Lemma safe_the_storage n : safe (typed n) NetworkDevice.the_storage (st_ok n).
Proof.
  intros d Hd. unfold NetworkDevice.the_storage. rewrite bind_get. destruct (NetworkDevice.storage d) eqn:E; [|done].
  split; [done|by apply Hd].
Qed.
Lemma safe_raw_storage n : safe (typed n) NetworkDevice.raw_storage (st_ok n).
Proof.
  intros d Hd. unfold NetworkDevice.raw_storage. rewrite bind_get. destruct (NetworkDevice.storage d) eqn:E; [|done].
  split; [done|by apply Hd].
Qed.

Lemma load_zlen off k b d b' : load off k b = Ok d b' -> zlen d = k.
Proof. unfold load. destruct (mem_get _ _ _) eqn:E; [|done]. intros [= <- <-]. apply mem_get_Some in E; tauto. Qed.

Lemma removeHeader_zlen k b d b' : removeHeader k b = Ok d b' -> zlen d.1 = k.
Proof.
  unfold removeHeader. rewrite bind_get. destruct (buffer b); [|done]. case_match; [done|]. intros Hr.
  apply bind_Ok_inv in Hr as (x&b1&Hl&Hr). apply load_zlen in Hl. by injection Hr as <- <-.
Qed.

Lemma safe_removeHeader {S} (P : S -> Prop) k b : safe P (on_buffer (removeHeader k) b) (fun x => zlen x.1.1 = k).
Proof. apply safe_on_buffer. intros a b' Hr. exact (removeHeader_zlen _ _ _ _ Hr). Qed.
Lemma safe_load {S} (P : S -> Prop) k b : safe P (on_buffer (s ← get; load (hlength s) k) b) (fun x => zlen x.1 = k).
Proof. apply safe_on_buffer. intros a b' Hr. exact (load_zlen _ _ _ _ _ Hr). Qed.

Lemma safe_put n i x st :
  st_ok n st -> zlen x = BLK_SZ ->
  safe (typed n) (match DeviceStorage.putBlock i x st with
    | Some st => modify (NetworkDevice.set_storage (Some st)) | None => mret () end) (fun _ => True).
Proof.
  intros Hst Hx. destruct (DeviceStorage.putBlock i x st) as [st'|] eqn:E; [|by apply safe_ret].
  assert (st_ok n st') as Hst'.
  { destruct (Z.lt_ge_cases i n) as [Hi|Hi].
    - destruct (put_in_range n st i x Hst Hi Hx) as [Hp Hs]. congruence.
    - unfold DeviceStorage.putBlock, DeviceStorage.getBlockAddress in E. rewrite (so_size _ _ Hst) in E.
      destruct (DeviceStorage.blockStorage st); [|done]. destruct (Z.leb_spec n i); [done|lia]. }
  apply safe_modify; [|done]. intros d [Hd Hr]. split; cbn; [by intros ? [= <-]|by eexists].
Qed.

Lemma safe_put_block n i x : zlen x = BLK_SZ -> safe (typed n) (NetworkDevice.put_block i x) (fun _ => True).
Proof. intros Hx. unfold NetworkDevice.put_block. eapply safe_bind; [apply safe_the_storage|]. intros st Hst. by apply safe_put. Qed.

Ltac safe_steps :=
  repeat first
    [ apply safe_ret; done
    | apply safe_throw
    | apply safe_die
    | apply safe_modify; [by intros|done]
    | match goal with
      | |- safe _ (if ?b then _ else _) _ => destruct b
      | |- safe _ (match ?x with _ => _ end) _ => destruct x
      | H : zlen (_, _).1 = _ |- _ => cbn [fst] in H
      | H : zlen (_, _).1.1 = _ |- _ => cbn [fst] in H
      | |- safe _ (NetworkDevice.the_storage ≫= _) _ => eapply safe_bind; [apply safe_the_storage|intros ? ?]
      | |- safe _ (NetworkDevice.raw_storage ≫= _) _ => eapply safe_bind; [apply safe_raw_storage|intros ? ?]
      | |- safe _ (on_buffer _ _ ≫= _) _ =>
          eapply safe_bind; [first [apply safe_removeHeader | apply safe_load | by apply (safe_on_buffer _ _ _ (fun _ => True))]|intros ? ?]
      | |- safe _ (NetworkDevice.put_block _ _ ≫= _) _ => eapply safe_bind; [by apply safe_put_block|intros ? _]
      | |- safe _ (match DeviceStorage.putBlock _ _ _ with _ => _ end ≫= _) _ => eapply safe_bind; [by apply safe_put|intros ? _]
      | |- safe _ (NetworkDevice.on_chan _ ≫= _) _ => eapply safe_bind; [apply safe_on_chan|intros ? _]
      | |- safe _ (NetworkDevice.on_conn _ _ ≫= _) _ => eapply safe_bind; [apply safe_on_conn|intros ? _]
      | |- safe _ (gets _ ≫= _) _ => apply (safe_bind _ _ _ (fun _ => True)); [by apply safe_gets|intros ? _]
      | |- safe _ (modify _ ≫= _) _ => apply (safe_bind _ _ _ (fun _ => True)); [by apply safe_modify; [by intros|]|intros ? _]
      end ].

Lemma safe_store_blocks n k b : safe (typed n) (NetworkDevice.store_blocks k b) (fun _ => True).
Proof.
  revert b. induction k as [|k IH]; intros b; cbn [NetworkDevice.store_blocks]; safe_steps.
  eapply safe_bind; [apply IH|intros ? _]. safe_steps.
Qed.

Lemma safe_command n h b : safe (typed n) (NetworkDevice.process_command h b) (fun _ => True).
Proof.
  unfold NetworkDevice.process_command, NetworkDevice.get_topo, NetworkDevice.get_block, NetworkDevice.do_put_block,
    NetworkDevice.get_blocks, NetworkDevice.put_blocks.
  repeat case_match; safe_steps.
  eapply safe_bind; [apply safe_store_blocks|intros ? _]. safe_steps.
Qed.

Lemma safe_request n c b : safe (typed n) (NetworkDevice.processClientRequest rnd kernel c b) (fun _ => True).
Proof.
  unfold NetworkDevice.processClientRequest. safe_steps.
  eapply safe_bind; [apply safe_command|intros ? _]. safe_steps.
Qed.

Lemma safe_serve n ready b : safe (typed n) (NetworkDevice.serve rnd kernel ready b) (fun _ => True).
Proof.
  revert b. induction ready as [|[[[c nc]|]|c] ready IH]; intros b; cbn [NetworkDevice.serve]; safe_steps; [by apply IH|].
  eapply safe_bind; [apply safe_request|intros ? _]. safe_steps. by apply IH.
Qed.

Lemma safe_initialize n cfg listening :
  (forall sa k, cfg = Some (sa, k) -> k = n) -> 0 <= n ->
  forall d, typed n d -> NetworkDevice.devState d = BFSDEV_UNINITIALIZED ->
  match NetworkDevice.bfsNetworkDeviceInitialize cfg listening d with
  | Ok rc d' => typed n (NetworkDevice.set_state (if rc =? 0 then BFSDEV_READY else BFSDEV_ERRORED) d')
  | Throw _ d' => typed n d'
  | Crash _ => True
  end.
Proof.
  intros Hcfg Hn d Hd Hs. unfold NetworkDevice.bfsNetworkDeviceInitialize. destruct cfg as [[sa k]|]; [|done].
  rewrite (Hcfg sa k eq_refl). rewrite bind_modify, bind_gets, bind_modify.
  assert (forall i, st_ok n (DeviceStorage.mk i n (Some ∅))) as He by (intros; by apply empty_storage_ok).
  destruct listening; cbn; (split; cbn; [by intros ? [= <-]|by eexists]).
Qed.

Lemma safe_turn n cfg listening stop ready :
  (forall sa k, cfg = Some (sa, k) -> k = n) -> 0 <= n ->
  safe (typed n) (NetworkDevice.execute_turn rnd kernel cfg listening stop ready) (fun _ => True).
Proof.
  intros Hcfg Hn d Hd. unfold NetworkDevice.execute_turn. destruct stop; [done|]. rewrite bind_gets.
  destruct (NetworkDevice.devState d) eqn:E; [| |by split..].
  - pose proof (safe_initialize n cfg listening Hcfg Hn d Hd E) as Hi. unfold mbind at 1, M_bind at 1.
    destruct (NetworkDevice.bfsNetworkDeviceInitialize cfg listening d) as [rc d'|e d'|x]; [|done..]. by split.
  - refine (safe_bind _ _ _ (fun _ => True) _ _ _ d Hd); [|by intros; apply safe_ret].
    destruct ready as [ready|]; [apply safe_serve|by apply safe_ret].
Qed.

Lemma safe_execute n cfg listening turns :
  (forall sa k, cfg = Some (sa, k) -> k = n) -> 0 <= n ->
  safe (typed n) (NetworkDevice.execute rnd kernel cfg listening turns) (fun _ => True).
Proof.
  intros Hcfg Hn. induction turns as [|[stop ready] turns IH]; cbn [NetworkDevice.execute]; [by apply safe_ret|].
  eapply safe_bind; [by apply safe_turn|intros r _]. destruct r; [by apply safe_ret|done].
Qed.

(** Whatever the peers of a device send, and in whatever order the sockets
    become ready: after any number of turns of its loop, ended by an exception or
    not (and as long as the process was not killed), the device has a storage of
    the configured size whose blocks are whole, and it never serves commands
    without one. *)
Theorem device_storage_typed did k sa devsz listening turns :
  0 <= devsz ->
  match NetworkDevice.execute rnd kernel (Some (sa, devsz)) listening turns (NetworkDevice.ctor did k) with
  | Ok _ d | Throw _ d => typed devsz d
  | Crash _ => True
  end.
Proof.
  intros Hn. assert (typed devsz (NetworkDevice.ctor did k)) as Hd by (by split).
  pose proof (safe_execute devsz (Some (sa, devsz)) listening turns ltac:(by intros ?? [= -> ->]) Hn _ Hd) as He.
  destruct (NetworkDevice.execute _ _ _ _ _ _); tauto.
Qed.
End any_input.
