(* ===== verification/RpcSpec.v ===== *)
(** * A remote call is the local call

    Client and server joined ([rpc]), and the theorems on whole calls. *)
From S2P Require Import Prelude Layout BfsUtil CoreTypes FlexBuffer SecAssoc Wire BlockLayer BlockStore Volume FsAlloc Acl FsDir FsDirSpec FsFile FsOps Mkfs Server Client Rpc.
Import FlexBuffer FlexStream Msg.

Record world (B : Type) := mkWorld { w_client : client; w_server : srv B }.
Arguments mkWorld {B}.
Arguments w_client {B}.
Arguments w_server {B}.

(** ** Calls whose response is one value *)
Inductive call : Type -> Type :=
  | CMkdir (path : bytes) (mode : Z) : call Z
  | CUnlink (path : bytes) : call Z
  | CRmdir (path : bytes) : call Z
  | CRename (from to : bytes) : call Z
  | CRelease (fh : Z) : call Z
  | CChmod (path : bytes) (mode : Z) : call Z
  | CWrite (fh : Z) (data : bytes) (off : Z) : call Z
  | COpen (path : bytes) : call (Z * option Z)
  | COpendir (path : bytes) : call (Z * option Z)
  | CCreate (path : bytes) (mode : Z) : call (Z * option Z).

(** A path that the client can send: without a terminator inside, and such that
    the lengths of the request fit their types. *)
Definition path_ok (p : bytes) : Prop := Byte.x00 ∉ p /\ zlen p < 2 ^ 30 - 10000.

Definition call_ok {A} (k : call A) : Prop :=
  match k with
  | CMkdir p m | CChmod p m | CCreate p m => path_ok p /\ fits 4 m
  | CUnlink p | CRmdir p | COpen p | COpendir p => path_ok p
  | CRename p q => path_ok p /\ path_ok q
  | CRelease fh => START_FD <= fh /\ fits 8 fh
  | CWrite fh d off => START_FD <= fh /\ fits 8 fh /\ fits 8 off /\ zlen d < 2 ^ 30
  end.

Definition call_type {A} (k : call A) : Z :=
  match k with
  | CMkdir _ _ => CLIENT_MKDIR_OP
  | CUnlink _ => CLIENT_UNLINK_OP
  | CRmdir _ => CLIENT_RMDIR_OP
  | CRename _ _ => CLIENT_RENAME_OP
  | CRelease _ => CLIENT_RELEASE_OP
  | CChmod _ _ => CLIENT_CHMOD_OP
  | CWrite _ _ _ => CLIENT_WRITE_OP
  | COpen _ => CLIENT_OPEN_OP
  | COpendir _ => CLIENT_OPENDIR_OP
  | CCreate _ _ => CLIENT_CREATE_OP
  end.

(** Bytes of the return value. *)
Definition call_width {A} (k : call A) : nat :=
  match k with
  | CMkdir _ _ | CUnlink _ | CRmdir _ | CRename _ _ | CRelease _ => 4
  | _ => 8
  end.

(** What the client's function returns for the server's value. *)
Definition call_result {A} (k : call A) : Z -> A :=
  match k in call A return Z -> A with
  | CWrite _ d _ => fun ret => if u64 ret <? zlen d then rc_failure else as_int (zlen d)
  | COpen _ | CCreate _ _ => fun ret => handle_result START_FD (u64 ret)
  | COpendir _ => fun ret => handle_result ROOT_INO (u64 ret)
  | _ => fun ret => as_int ret
  end.

(** The body of the request, behind the two type fields. *)
Definition call_body {A} (k : call A) : bytes :=
  match k with
  | CMkdir p m | CChmod p m | CCreate p m => le_split 4 m ++ le_split 4 (path_len p) ++ c_path p
  | CUnlink p | CRmdir p | COpen p | COpendir p => le_split 4 (path_len p) ++ c_path p
  | CRename p q => le_split 4 (path_len p) ++ le_split 4 (path_len q) ++ c_path p ++ c_path q
  | CRelease fh => le_split 8 fh
  | CWrite fh d off => le_split 8 fh ++ le_split 8 (zlen d) ++ le_split 8 off ++ d
  end.

(** ** The client's half *)
Section client.
Context `{Cipher} {claws : CipherLaws} (rnd : nat -> bytes) (kernel : nat -> Z).
Context (rnd_zlen : forall n, zlen (rnd n) = BFS_IV_LEN) (healthy : forall i, 0 <= kernel i).

Definition client_op {A} (k : call A) : Client.op A :=
  match k in call A return Client.op A with
  | CMkdir p m => Client.bfs_mkdir rnd kernel p m
  | CUnlink p => Client.bfs_unlink rnd kernel p
  | CRmdir p => Client.bfs_rmdir rnd kernel p
  | CRename p q => Client.bfs_rename rnd kernel p q
  | CRelease fh => Client.bfs_release rnd kernel fh
  | CChmod p m => Client.bfs_chmod rnd kernel p m
  | CWrite fh d off => Client.bfs_write rnd kernel fh d off
  | COpen p => Client.bfs_open rnd kernel p
  | COpendir p => Client.bfs_opendir rnd kernel p
  | CCreate p m => Client.bfs_create rnd kernel p m
  end.

Lemma guarded_Ok {A} (m : M client A) c a c' : m c = Ok a c' -> guarded m c = Ok (inl a) c'.
Proof. intros Hm. unfold guarded. apply catch_Ok. by mrun Hm. Qed.

(** The parts of the request. *)
Definition call_data {A} (k : call A) : option bytes :=
  match k with
  | CMkdir p _ | CChmod p _ | CCreate p _ | CUnlink p | CRmdir p | COpen p | COpendir p => Some (c_path p)
  | CRename p q => Some (c_path p ++ c_path q)
  | CRelease _ => None
  | CWrite _ d _ => Some d
  end.

Definition call_fields {A} (k : call A) : list (nat * Z) :=
  match k with
  | CMkdir p m | CChmod p m | CCreate p m => [(4%nat, path_len p); (4%nat, m)]
  | CUnlink p | CRmdir p | COpen p | COpendir p => [(4%nat, path_len p)]
  | CRename p q => [(4%nat, path_len q); (4%nat, path_len p)]
  | CRelease fh => [(8%nat, fh)]
  | CWrite fh d off => [(8%nat, off); (8%nat, zlen d); (8%nat, fh)]
  end.

Lemma op_send_request {A} (k : call A) c c' :
  call_ok k -> send_request rnd kernel (call_data k) (call_fields k ++ headers (call_type k)) c = Ok () c' ->
  op_send (client_op k) c = Ok (inl ()) c'.
Proof.
  intros Hk Hs. destruct k; cbn [client_op op_send Client.bfs_mkdir Client.bfs_unlink Client.bfs_rmdir
    Client.bfs_rename Client.bfs_chmod Client.bfs_open Client.bfs_opendir Client.bfs_create
    Client.bfs_release Client.bfs_write]; unfold sending, sending_fh;
  try (by apply guarded_Ok); try (by mrun (guarded_Ok _ _ _ _ Hs)).
  - apply guarded_Ok. cbn in Hk. by rewrite bind_assert by (apply Z.leb_le; lia).
  - apply guarded_Ok. cbn in Hk. by rewrite bind_assert by (apply Z.leb_le; lia).
Qed.

Lemma c_path_zlen p : zlen (c_path p) = zlen p + 1.
Proof. unfold c_path. by rewrite zlen_app. Qed.

(** The payload of the request that leaves the client. *)
Lemma client_sends {A} (k : call A) c key sseq rseq inb outb :
  call_ok k -> ready c key sseq rseq inb outb false ->
  exists c', op_send (client_op k) c = Ok (inl ()) c' /\
    ready c' key (u32 (sseq + 1)) rseq inb
      (outb ++ NetConn.frame (message key sseq (rnd (c_draws c))
         (le_split 4 TO_SERVER ++ le_split 4 (call_type k) ++ call_body k))) true.
Proof.
  intros Hk Hr.
  destruct (send_request_Ok rnd kernel rnd_zlen healthy c key sseq rseq inb outb (call_data k)
    (call_fields k ++ headers (call_type k)) Hr) as (c'&Hs&Hr').
  - destruct k; cbn in *; unfold path_ok in *; rewrite ?zlen_app, ?c_path_zlen; change (zlen (@nil byte)) with 0; lia.
  - by destruct k.
  - destruct k; cbn; lia.
  - exists c'. split; [by apply op_send_request|].
    replace (le_split 4 TO_SERVER ++ le_split 4 (call_type k) ++ call_body k)
      with (encode_fields (reverse (call_fields k ++ headers (call_type k))) ++ default [] (call_data k)); [done|].
    destruct k; unfold encode_fields; cbn; by rewrite ?app_nil_r, <-?app_assoc.
Qed.

Lemma pull_code n ret b :
  wf b -> buffer b <> None -> content b = le_split n ret ->
  exists b', pull n b = Ok (ret mod 2 ^ (8 * Z.of_nat n)) b'.
Proof.
  intros Hw Hn Hc. rewrite <-le_split_wrap, <-(app_nil_r (le_split _ _)) in Hc.
  destruct (pull_spec n (ret mod 2 ^ (8 * Z.of_nat n)) [] b) as (b'&Hr&_); try done; [|by eexists].
  apply Z.mod_pos_bound. lia.
Qed.

Lemma pull_int_code n ret b :
  wf b -> buffer b <> None -> content b = le_split n ret ->
  exists b', pull_int n b = Ok (signed n (ret mod 2 ^ (8 * Z.of_nat n))) b'.
Proof.
  intros Hw Hn Hc. destruct (pull_code n ret b Hw Hn Hc) as [b' Hb]. exists b'. unfold pull_int. by mrun Hb.
Qed.

Lemma as_int_u64 z : as_int (z mod 2 ^ (8 * Z.of_nat 8)) = as_int z.
Proof.
  unfold as_int, u32. rewrite <-(Znumtheory.Zmod_div_mod (2 ^ 32) (2 ^ (8 * Z.of_nat 8))); [done|lia|lia|].
  by exists (2 ^ 32).
Qed.

Lemma call_type_int {A} (k : call A) : is_int (call_type k).
Proof. destruct k; split; vm_compute; congruence. Qed.

(** What the client makes of the response. *)
Lemma client_receives {A} (k : call A) c key sseq rseq outb r ret :
  ready c key sseq rseq (NetConn.frame (message key rseq r (response (call_type k) (call_width k) ret))) outb true ->
  zlen r = BFS_IV_LEN ->
  exists c', op_recv (client_op k) c = Ok (call_result k ret) c' /\
    ready c' key sseq (u32 (rseq + 1)) [] outb false.
Proof.
  intros Hr Hz. unfold response in Hr.
  assert (forall (len : Z) (short : bool) {X} (m : M FlexBuffer.t X) x,
    len = 8 + Z.of_nat (call_width k) ->
    (forall b, wf b -> buffer b <> None -> content b = le_split (call_width k) ret -> exists b', m b = Ok x b') ->
    exists c', recv_response kernel len (call_type k) short m c = Ok x c' /\
      ready c' key sseq (u32 (rseq + 1)) [] outb false) as Hresp.
  { intros len short X m x -> Hm. eapply recv_response_Ok; [done|exact Hr|done|apply call_type_int| |
      |exact Hm]; rewrite zlen_le_split; [destruct k; cbn; lia|done]. }
  destruct k; cbn [client_op op_recv call_result call_width call_type Client.bfs_mkdir Client.bfs_unlink Client.bfs_rmdir
    Client.bfs_rename Client.bfs_chmod Client.bfs_open Client.bfs_opendir Client.bfs_create
    Client.bfs_release Client.bfs_write] in *; unfold receiving, receiving_fh.
  1-5: destruct (Hresp 12 false Z (pull_int 4) _ eq_refl (pull_int_code 4 ret)) as (c'&Hc&Hr');
    exists c'; mrun (guarded_Ok _ _ _ _ Hc); done.
  1: destruct (Hresp 16 false Z (pull 8) _ eq_refl (pull_code 8 ret)) as (c'&Hc&Hr').
  2: destruct (Hresp 16 true Z (pull 8) _ eq_refl (pull_code 8 ret)) as (c'&Hc&Hr').
  3-5: destruct (Hresp 16 false Z (pull 8) _ eq_refl (pull_code 8 ret)) as (c'&Hc&Hr');
    exists c'; mrun (guarded_Ok _ _ _ _ Hc); done.
  - exists c'. split; [|done].
    assert ((ret ← recv_response kernel 16 CLIENT_CHMOD_OP false (pull 8); mret (as_int ret)) c
      = Ok (as_int (ret mod 2 ^ (8 * Z.of_nat 8))) c') as Hm by (by mrun Hc).
    mrun (guarded_Ok _ _ _ _ Hm). by rewrite as_int_u64.
  - exists c'. split; [|done].
    assert ((bytes_written ← recv_response kernel 16 CLIENT_WRITE_OP true (pull 8);
      mret (if bytes_written <? zlen data then rc_failure else as_int (zlen data))) c
      = Ok (if u64 ret <? zlen data then rc_failure else as_int (zlen data)) c') as Hm by (by mrun Hc).
    by mrun (guarded_Ok _ _ _ _ Hm).
Qed.
End client.

(** ** The server's half *)

(** Unpacking gives back what the client packed. *)
Lemma path_len_fits p : path_ok p -> fits 4 (path_len p) /\ (0 <? path_len p) = true.
Proof. intros [_ Hl]. pose proof (zlen_nonneg p). unfold path_len. split; [split; cbn; lia|]. apply Z.ltb_lt. lia. Qed.

Lemma unpack_path_spec p b :
  path_ok p -> wf b -> buffer b <> None -> content b = le_split 4 (path_len p) ++ c_path p ->
  exists b', unpack_path b = Ok p b'.
Proof.
  intros Hp Hw Hn Hc. destruct (path_len_fits p Hp) as [Hf Hpos].
  destruct (pull_spec 4 (path_len p) (c_path p) b) as (b1&Hr&Hw1&Hn1&Hc1&_); [done..|].
  exists b1. unfold unpack_path. mrun Hr. rewrite bind_assert by done.
  eapply (get_string_spec b1 0 [] p []); [done|done|done|apply Hp].
Qed.

Lemma unpack_mode_path_spec p m b :
  path_ok p -> fits 4 m -> wf b -> buffer b <> None ->
  content b = le_split 4 m ++ le_split 4 (path_len p) ++ c_path p ->
  exists b', unpack_mode_path b = Ok (m, p) b'.
Proof.
  intros Hp Hm Hw Hn Hc. destruct (pull_spec 4 m (le_split 4 (path_len p) ++ c_path p) b) as (b1&Hr&Hw1&Hn1&Hc1&_); [done..|].
  destruct (unpack_path_spec p b1 Hp Hw1 Hn1 Hc1) as [b2 Hb2].
  exists b2. unfold unpack_mode_path. mrun Hr. by mrun Hb2.
Qed.

Lemma unpack_two_paths_spec p q b :
  path_ok p -> path_ok q -> wf b -> buffer b <> None ->
  content b = le_split 4 (path_len p) ++ le_split 4 (path_len q) ++ c_path p ++ c_path q ->
  exists b', unpack_two_paths b = Ok (p, q) b'.
Proof.
  intros Hp Hq Hw Hn Hc. destruct (path_len_fits p Hp) as [Hf Hpos]. destruct (path_len_fits q Hq) as [Hf' Hpos'].
  destruct (pull_spec 4 (path_len p) _ b Hw Hn Hc Hf) as (b1&Hr&Hw1&Hn1&Hc1&_).
  destruct (pull_spec 4 (path_len q) _ b1 Hw1 Hn1 Hc1 Hf') as (b2&Hr2&Hw2&Hn2&Hc2&_).
  exists b2. unfold unpack_two_paths. mrun Hr. mrun Hr2. rewrite bind_assert by (by rewrite Hpos, Hpos').
  assert (get_string 0 b2 = Ok p b2) as H1.
  { eapply (get_string_spec b2 0 [] p (c_path q)); [done|done| |apply Hp].
    rewrite Hc2. unfold c_path at 1. by rewrite <-app_assoc. }
  mrun H1. assert (get_string (path_len p) b2 = Ok q b2) as H2.
  { eapply (get_string_spec b2 _ (c_path p) q []); [done|by rewrite c_path_zlen|done|apply Hq]. }
  by mrun H2.
Qed.

Lemma unpack_fh_spec fh q b :
  wf b -> buffer b <> None -> content b = le_split 8 fh ++ q -> fits 8 fh -> ROOT_INO <= fh ->
  exists b', unpack_fh b = Ok fh b'.
Proof.
  intros Hw Hn Hc Hf Hle. destruct (pull_spec 8 fh q b Hw Hn Hc Hf) as (b'&Hr&_). exists b'.
  unfold unpack_fh. mrun Hr. rewrite bind_assert; [done|]. by apply Z.leb_le.
Qed.

Lemma unpack_rw_spec fh size off d b :
  fits 8 fh -> fits 8 size -> fits 8 off -> wf b -> buffer b <> None ->
  content b = le_split 8 fh ++ le_split 8 size ++ le_split 8 off ++ d ->
  exists b', unpack_rw b = Ok (fh, size, off) b' /\ wf b' /\ buffer b' <> None /\ content b' = d.
Proof.
  intros H1 H2 H3 Hw Hn Hc.
  destruct (pull_spec 8 fh _ b Hw Hn Hc H1) as (b1&Hr1&Hw1&Hn1&Hc1&_).
  destruct (pull_spec 8 size _ b1 Hw1 Hn1 Hc1 H2) as (b2&Hr2&Hw2&Hn2&Hc2&_).
  destruct (pull_spec 8 off _ b2 Hw2 Hn2 Hc2 H3) as (b3&Hr3&Hw3&Hn3&Hc3&_).
  exists b3. unfold unpack_rw. mrun Hr1. mrun Hr2. by mrun Hr3.
Qed.

Section server.
Context {B : Type} `{Volume B} `{Cipher} {claws : CipherLaws}.
Context (use_mt : bool) (rnd : nat -> bytes) (kernel : Z -> nat -> Z) (cl_serv_sa : CryptoKey.t) (uninit indet : Z).
Implicit Types s : srv B.

(** The local call. *)
Definition server_op {A} (k : call A) (acl : bool) (usr : option User.t) : M (fs B) Z :=
  match k with
  | CMkdir p m => FsOps.bfs_mkdir acl usr p m ;; mret rc_success
  | CUnlink p => FsOps.bfs_unlink acl usr p ;; mret rc_success
  | CRmdir p => FsOps.bfs_rmdir acl usr p ;; mret rc_success
  | CRename p q => FsOps.bfs_rename acl usr p q ;; mret rc_success
  | CRelease fh => FsOps.bfs_release acl usr fh ;; mret rc_success
  | CChmod p m => FsOps.bfs_chmod acl usr p m ;; mret rc_success
  | CWrite fh d off => FsFile.bfs_write acl usr fh d off
  | COpen p => FsOps.bfs_open acl usr p 0x1FF
  | COpendir p => FsOps.bfs_opendir acl usr p
  | CCreate p m => FsOps.bfs_create acl usr p m
  end.

(** The handler of the operation, once its packet is unpacked. *)
Ltac runs_handler h Hb :=
  lazymatch goal with |- dispatch _ _ _ _ _ _ ?conn ?rpkt ?s = ?rhs =>
    change (h rnd kernel conn rpkt s = rhs) end;
  etransitivity; [exact (bind_Ok _ _ _ _ _ (on_pkt_Ok _ _ _ _ _ Hb))|reflexivity].

Lemma server_runs {A} (k : call A) conn rpkt s :
  call_ok k -> wf rpkt -> buffer rpkt <> None -> content rpkt = call_body k ->
  dispatch use_mt rnd kernel uninit indet (call_type k) conn rpkt s =
  do_op rnd kernel conn (call_type k) (call_width k) (server_op k) s.
Proof.
  intros Hk Hw Hn Hc. destruct k; cbn [call_ok call_body] in Hk, Hc.
  - destruct (unpack_mode_path_spec path mode rpkt) as [b Hb]; [tauto..|]. runs_handler handle_mkdir Hb.
  - destruct (unpack_path_spec path rpkt) as [b Hb]; [done..|]. runs_handler handle_unlink Hb.
  - destruct (unpack_path_spec path rpkt) as [b Hb]; [done..|]. runs_handler handle_rmdir Hb.
  - destruct (unpack_two_paths_spec from to rpkt) as [b Hb]; [tauto..|]. runs_handler handle_rename Hb.
  - destruct Hk as [Hfd Hfits]. rewrite <-(app_nil_r (le_split _ _)) in Hc.
    destruct (unpack_fh_spec fh [] rpkt Hw Hn Hc Hfits) as [b Hb]; [unfold START_FD, ROOT_INO in *; lia|].
    runs_handler handle_release Hb.
  - destruct (unpack_mode_path_spec path mode rpkt) as [b Hb]; [tauto..|]. runs_handler handle_chmod Hb.
  - destruct Hk as (Hfd&Hfits&Hoff&Hd). pose proof (zlen_nonneg data).
    destruct (unpack_rw_spec fh (zlen data) off data rpkt) as (b&Hb&Hw'&Hn'&Hc'); [done|split; cbn; lia|done..|].
    change (dispatch _ _ _ _ _ _ conn rpkt) with (handle_write rnd kernel conn rpkt).
    unfold handle_write. mrun (on_pkt_Ok _ _ _ _ s Hb).
    pose proof (mem_get_content b Hw') as Hm. rewrite <-(content_zlen b Hw'), Hc' in Hm. by rewrite Hm.
  - destruct (unpack_path_spec path rpkt) as [b Hb]; [done..|]. runs_handler handle_open Hb.
  - destruct (unpack_path_spec path rpkt) as [b Hb]; [done..|]. runs_handler handle_opendir Hb.
  - destruct (unpack_mode_path_spec path mode rpkt) as [b Hb]; [tauto..|]. runs_handler handle_create Hb.
Qed.
End server.

(** ** Whole calls *)
(** Overwriting the first bytes of the data. *)
Lemma store_prefix b d :
  wf b -> zlen d <= length b ->
  exists b', store (hlength b) d b = Ok () b' /\ wf b' /\
    content b' = d ++ drop (List.length d) (content b) /\ allocation b' = allocation b /\
    (buffer b <> None -> buffer b' <> None).
Proof.
  intros Hw Hd. pose proof Hw as (?&?&?&?&?&?&?).
  destruct (store_ok b (hlength b) d) as (b'&Hr&Hw'&Hm&Hh&Hl&Ht&Ha&_&Hn); [done|lia..|].
  exists b'. split_and!; try done; [|by rewrite <-Hn].
  apply content_intro; [done|]. rewrite Hh, Hl. replace (length b) with (zlen d + (length b - zlen d)) by lia.
  apply mem_get_split; [by eapply mem_get_set_eq|].
  rewrite (mem_get_set_ne _ _ _ _ _ _ Hm) by lia.
  unfold mem_get. rewrite decide_True by (pose proof (zlen_nonneg d); lia). f_equal. unfold content.
  rewrite skipn_firstn_comm, drop_drop. unfold zlen. f_equal; [lia|f_equal; lia].
Qed.

(** Reading a field whose value was cut to its width. *)
Lemma pull_wrap n x q b :
  wf b -> buffer b <> None -> content b = le_split n x ++ q ->
  exists b', pull n b = Ok (x mod 2 ^ (8 * Z.of_nat n)) b' /\ wf b' /\ buffer b' <> None /\ content b' = q.
Proof.
  intros Hw Hn Hc. rewrite <-le_split_wrap in Hc.
  destruct (pull_spec n (x mod 2 ^ (8 * Z.of_nat n)) q b Hw Hn Hc) as (b'&Hr&Hw'&Hn'&Hc'&_); [|by exists b'].
  apply Z.mod_pos_bound. lia.
Qed.

Ltac pull_next b Hw Hn Hc :=
  let b' := fresh "b" in let Hr := fresh "Hr" in let Hw' := fresh "Hw" in
  let Hn' := fresh "Hn" in let Hc' := fresh "Hc" in
  destruct (pull_wrap _ _ _ b Hw Hn Hc) as (b'&Hr&Hw'&Hn'&Hc'); mrun Hr; clear Hr Hw Hn Hc;
  rename Hw' into Hw, Hn' into Hn, Hc' into Hc.

Section rpc.
Context {B : Type} `{Volume B} `{Cipher} {claws : CipherLaws}.
Context (use_mt : bool) (srnd crnd : nat -> bytes) (skernel : Z -> nat -> Z) (ckernel : nat -> Z).
Context (cl_serv_sa : CryptoKey.t) (uninit indet : Z).
Abbreviation world := (world B).
Implicit Types (s : srv B) (c : client) (w : world).

(** The network delivers what was sent on the connection. *)
Definition carry_up (conn : Z) w : world :=
  let d := RawNet.outbox (NetConn.socket (c_net (w_client w))) in
  mkWorld (set_net (clear_outbox (c_net (w_client w))) (w_client w))
    (set_links (alter (fun l => mkLink (feed d (l_net l)) (l_pkt l)) conn (links (w_server w))) (w_server w)).

Definition carry_down (conn : Z) w : world :=
  match links (w_server w) !! conn with
  | None => w
  | Some l =>
      mkWorld (set_net (feed (RawNet.outbox (NetConn.socket (l_net l))) (c_net (w_client w))) (w_client w))
        (set_links (<[conn := mkLink (clear_outbox (l_net l)) (l_pkt l)]> (links (w_server w))) (w_server w))
  end.

Definition on_client {A} (m : M client A) : M world A := fun w =>
  match m (w_client w) with
  | Ok a c => Ok a (mkWorld c (w_server w))
  | Throw e c => Throw e (mkWorld c (w_server w))
  | Crash x => Crash x
  end.

Definition on_server {A} (m : M (srv B) A) : M world A := fun w =>
  match m (w_server w) with
  | Ok a s => Ok a (mkWorld (w_client w) s)
  | Throw e s => Throw e (mkWorld (w_client w) s)
  | Crash x => Crash x
  end.

(** A call of the client over the connection [conn]. *)
Definition rpc {A} (conn : Z) (o : Client.op A) : M world A :=
  r ← on_client (op_send o);
  match r with
  | inr a => mret a
  | inl _ =>
      modify (carry_up conn) ;;
      on_server (worker_round use_mt srnd skernel cl_serv_sa uninit indet conn) ;;
      modify (carry_down conn) ;;
      on_client (op_recv o)
  end.

(** Client and connection agree on the key and the next sequence numbers, and
    nothing is under way. *)
Definition in_sync (conn : Z) (key : bytes) (u : User.t) c s : Prop :=
  ready c key (User.user_recv_seq u) (User.user_send_seq u) [] [] false /\ session s conn key u [] [].

Context (srnd_zlen : forall n, zlen (srnd n) = BFS_IV_LEN) (crnd_zlen : forall n, zlen (crnd n) = BFS_IV_LEN).
Context (shealthy : forall cn i, 0 <= skernel cn i) (chealthy : forall i, 0 <= ckernel i).
Abbreviation round := (worker_round use_mt srnd skernel cl_serv_sa uninit indet).

Lemma ready_clear c key sseq rseq inb outb l :
  ready c key sseq rseq inb outb l -> ready (set_net (clear_outbox (c_net c)) c) key sseq rseq inb [] l.
Proof. intros []. by constructor. Qed.

Lemma ready_feed c key sseq rseq inb outb l d :
  ready c key sseq rseq inb outb l -> ready (set_net (feed d (c_net c)) c) key sseq rseq (inb ++ d) outb l.
Proof. intros []. constructor; try done. cbn. by f_equal. Qed.

Lemma session_feed s conn key u inb outb d :
  session s conn key u inb outb ->
  session (set_links (alter (fun l => mkLink (feed d (l_net l)) (l_pkt l)) conn (links s)) s) conn key u (inb ++ d) outb.
Proof.
  intros [Hi Hu Ha (l&Hl&Hr&Hal&Hin&Hout)]. constructor; try done.
  exists (mkLink (feed d (l_net l)) (l_pkt l)). cbn. rewrite lookup_alter_eq, Hl, Hin. by split_and!.
Qed.

Lemma kept_feed s conn f : kept conn s (set_links (alter f conn (links s)) s).
Proof. constructor; try done. intros c Hc. cbn. by rewrite lookup_alter_ne. Qed.

Lemma carry_down_ok conn c s key u key' sseq rseq inb outb l d :
  ready c key' sseq rseq inb outb l -> session s conn key u [] d ->
  exists c' s', carry_down conn (mkWorld c s) = mkWorld c' s' /\
    ready c' key' sseq rseq (inb ++ d) outb l /\ session s' conn key u [] [] /\ kept conn s s'.
Proof.
  intros Hr Hs. destruct (se_link _ _ _ _ _ _ Hs) as (lk&Hl&Hro&Hal&Hin&Hout).
  unfold carry_down. cbn [w_server w_client]. rewrite Hl. do 2 eexists. split; [reflexivity|].
  rewrite Hout. split_and!; [by apply ready_feed| |apply kept_link].
  pose proof (session_link _ _ _ _ _ _ (clear_outbox (l_net lk)) (l_pkt lk) Hs Hro Hal) as Hs'.
  cbn in Hs'. by rewrite Hin in Hs'.
Qed.

(** The first part of a call: the request leaves the client and the worker's
    round runs [m] on it. *)
Definition requests {A} key u c (o : Client.op A) (otype : Z) (q : bytes) : Prop :=
  exists c', op_send o c = Ok (inl ()) c' /\
    ready c' key (u32 (User.user_recv_seq u + 1)) (User.user_send_seq u) []
      (NetConn.frame (message key (User.user_recv_seq u) (crnd (c_draws c))
         (le_split 4 TO_SERVER ++ le_split 4 otype ++ q))) true.

Definition handles (otype : Z) (q : bytes) (m : Z -> M (srv B) Z) : Prop :=
  forall conn rpkt s, wf rpkt -> buffer rpkt <> None -> content rpkt = q ->
    dispatch use_mt srnd skernel uninit indet otype conn rpkt s = m conn s.

Lemma rpc_round {A} conn key u c s (o : Client.op A) otype q m :
  in_sync conn key u c s -> requests key u c o otype q -> is_int otype -> zlen q + 60 < 2 ^ 31 -> handles otype q m ->
  exists c1 s1, rpc conn o (mkWorld c s) =
      (on_server (m conn ≫= round_end conn) ;; modify (carry_down conn) ;; on_client (op_recv o)) (mkWorld c1 s1) /\
    ready c1 key (u32 (User.user_recv_seq u + 1)) (User.user_send_seq u) [] [] true /\
    kept conn s s1 /\ session s1 conn key (User.inc_recv_seq u) [] [] /\ draws s1 = draws s.
Proof.
  intros [Hc Hs] (c1&Hs1&Hr1) Hoty Hq Hdisp. unfold rpc.
  assert (on_client (op_send o) (mkWorld c s) = Ok (inl ()) (mkWorld c1 s)) as E1
    by (unfold on_client; cbn; by rewrite Hs1).
  mrun E1. rewrite bind_modify. unfold carry_up. cbn [w_client w_server].
  rewrite (rd_out _ _ _ _ _ _ _ Hr1). set (s2 := set_links _ s). set (c2 := set_net _ c1).
  pose proof (ready_clear _ _ _ _ _ _ _ Hr1) as Hr2. fold c2 in Hr2.
  pose proof (session_feed _ _ _ _ _ _ (NetConn.frame (message key (User.user_recv_seq u) (crnd (c_draws c))
    (le_split 4 TO_SERVER ++ le_split 4 otype ++ q))) Hs) as Hs2. fold s2 in Hs2. cbn [app] in Hs2.
  rewrite <-(app_nil_r (NetConn.frame _)) in Hs2.
  destruct (round_dispatch use_mt srnd skernel cl_serv_sa uninit indet shealthy s2 conn key u _ otype q [] [] Hs2)
    as (rpkt&s3&Hround&K3&Hs3&Hd3&Hw&Hn&Hct); [apply crnd_zlen|done|done|].
  exists c2, s3. split_and!; try done; [|etransitivity; [apply kept_feed|exact K3]].
  unfold mbind at 1 4, M_bind at 1 4. unfold on_server. cbn [w_server w_client]. rewrite Hround.
  assert ((dispatch use_mt srnd skernel uninit indet otype conn rpkt ≫= round_end conn) s3
    = (m conn ≫= round_end conn) s3) as ->; [|done].
  unfold mbind, M_bind. by rewrite (Hdisp conn rpkt s3 Hw Hn Hct).
Qed.

(** When the handler has sent [out], the client goes on with it. *)
Lemma rpc_delivers {A} conn key u u' c s (o : Client.op A) otype q m s1 out :
  in_sync conn key u c s -> requests key u c o otype q -> is_int otype -> zlen q + 60 < 2 ^ 31 -> handles otype q m ->
  (forall s0, kept conn s s0 -> session s0 conn key (User.inc_recv_seq u) [] [] -> draws s0 = draws s ->
     exists s2, m conn s0 = Ok rc_success s2 /\ kept conn s1 s2 /\ session s2 conn key u' [] out) ->
  exists c' s', rpc conn o (mkWorld c s) = on_client (op_recv o) (mkWorld c' s') /\
    ready c' key (u32 (User.user_recv_seq u + 1)) (User.user_send_seq u) out [] true /\
    session s' conn key u' [] [] /\ kept conn s1 s'.
Proof.
  intros Hsync Hreq Hoty Hq Hdisp Hrun.
  destruct (rpc_round conn key u c s o otype q m Hsync Hreq Hoty Hq Hdisp) as (c2&s3&Hrpc&Hr2&K&Hs3&Hd3).
  destruct (Hrun s3 K Hs3 Hd3) as (s4&Hm&K4&Hs4).
  assert (on_server (m conn ≫= round_end conn) (mkWorld c2 s3) = Ok false (mkWorld c2 s4)) as E2.
  { unfold on_server. cbn [w_server w_client]. by rewrite (bind_Ok _ _ _ _ _ Hm). }
  rewrite Hrpc. mrun E2. rewrite bind_modify.
  destruct (carry_down_ok conn c2 s4 key _ _ _ _ _ _ _ _ Hr2 Hs4) as (c5&s5&Hdown&Hr5&Hs5&K5).
  rewrite Hdown. exists c5, s5. split_and!; [done|exact Hr5|done|by etransitivity].
Qed.

(** A response of one message with the payload [p]. *)
Lemma rpc_until {A} conn key u c s (o : Client.op A) otype q m s1 p :
  in_sync conn key u c s -> requests key u c o otype q -> is_int otype -> zlen q + 60 < 2 ^ 31 -> handles otype q m ->
  (forall s0, kept conn s s0 -> session s0 conn key (User.inc_recv_seq u) [] [] -> draws s0 = draws s ->
     exists s2, m conn s0 = Ok rc_success s2 /\ kept conn s1 s2 /\
       session s2 conn key (User.inc_send_seq (User.inc_recv_seq u)) []
         (NetConn.frame (message key (User.user_send_seq u) (srnd (draws s)) p))) ->
  exists c' s', rpc conn o (mkWorld c s) = on_client (op_recv o) (mkWorld c' s') /\
    ready c' key (u32 (User.user_recv_seq u + 1)) (User.user_send_seq u)
      (NetConn.frame (message key (User.user_send_seq u) (srnd (draws s)) p)) [] true /\
    session s' conn key (User.inc_send_seq (User.inc_recv_seq u)) [] [] /\ kept conn s1 s'.
Proof. apply rpc_delivers. Qed.

(** ... and returns [a] for the response. *)
Lemma rpc_returns {A} conn key u c s s1 (o : Client.op A) p a :
  (exists c' s', rpc conn o (mkWorld c s) = on_client (op_recv o) (mkWorld c' s') /\
    ready c' key (u32 (User.user_recv_seq u + 1)) (User.user_send_seq u)
      (NetConn.frame (message key (User.user_send_seq u) (srnd (draws s)) p)) [] true /\
    session s' conn key (User.inc_send_seq (User.inc_recv_seq u)) [] [] /\ kept conn s1 s') ->
  (forall c, ready c key (u32 (User.user_recv_seq u + 1)) (User.user_send_seq u)
       (NetConn.frame (message key (User.user_send_seq u) (srnd (draws s)) p)) [] true ->
     exists c', op_recv o c = Ok a c' /\
       ready c' key (u32 (User.user_recv_seq u + 1)) (u32 (User.user_send_seq u + 1)) [] [] false) ->
  exists c' s', rpc conn o (mkWorld c s) = Ok a (mkWorld c' s') /\
    in_sync conn key (User.inc_send_seq (User.inc_recv_seq u)) c' s' /\ kept conn s1 s'.
Proof.
  intros (c5&s5&Hrpc&Hr5&Hs5&K) Hrecv. destruct (Hrecv c5 Hr5) as (c6&Hrc&Hr6).
  exists c6, s5. rewrite Hrpc. unfold on_client. cbn [w_client w_server]. rewrite Hrc.
  split_and!; [done|split; [|done]|done]. exact Hr6.
Qed.

Lemma remote_call_Ok {A} (k : call A) conn key u c s ret f :
  call_ok k -> in_sync conn key u c s -> bfs_handle s = true ->
  answer (server_op k true (Some (User.inc_recv_seq u)) (hfs s)) (- EPERM) rc_failure = Some (ret, f) ->
  exists c' s', rpc conn (client_op crnd ckernel k) (mkWorld c s) = Ok (call_result k ret) (mkWorld c' s') /\
    in_sync conn key (User.inc_send_seq (User.inc_recv_seq u)) c' s' /\ kept conn (set_hfs f s) s'.
Proof.
  intros Hk Hsync Hh Ha.
  eapply rpc_returns; [eapply (rpc_until conn key u c s (client_op crnd ckernel k) (call_type k) (call_body k)
    (fun conn => do_op srnd skernel conn (call_type k) (call_width k) (server_op k)) _
    (response (call_type k) (call_width k) ret)); [done|..]|].
  - exact (client_sends crnd ckernel crnd_zlen chealthy k c key _ _ [] [] Hk (proj1 Hsync)).
  - apply call_type_int.
  - destruct k; cbn [call_ok call_body] in *; unfold path_ok in *;
      rewrite ?zlen_app, ?zlen_le_split, ?c_path_zlen; lia.
  - intros conn0 rpkt s0 ???. by apply server_runs.
  - intros s0 K Hs0 Hd0.
    destruct (do_op_answer srnd skernel srnd_zlen shealthy s0 conn key (User.inc_recv_seq u) [] [] (call_type k)
      (call_width k) (server_op k) ret f Hs0) as (s2&Hr&K2&Hs2&_).
    + by rewrite (kept_handle _ _ _ K).
    + destruct k; cbn; lia.
    + by rewrite (kept_fs _ _ _ K).
    + rewrite Hd0 in Hs2. exists s2. split_and!; [done| |done].
      etransitivity; [|exact K2]. destruct K. by constructor.
  - intros c0 Hr. exact (client_receives crnd ckernel chealthy k c0 key _ _ [] _ ret Hr (srnd_zlen _)).
Qed.

(** ** Reading *)
Definition read_body (fh size off : Z) : bytes := le_split 8 fh ++ le_split 8 size ++ le_split 8 off.

(** The payload of the response: the count, and a buffer of [size] bytes that
    starts with the data. *)
Definition read_response (size ret : Z) (d : bytes) : bytes :=
  le_split 4 FROM_SERVER ++ le_split 4 CLIENT_READ_OP ++ le_split 8 ret ++ d ++ zeros (size - zlen d).

Lemma do_read_answer s conn key u inb outb fh size off ret d f :
  session s conn key u inb outb -> bfs_handle s = true -> 0 <= size < 2 ^ 30 -> zlen d <= size ->
  answer ((d ← FsFile.bfs_read true (Some u) fh size off; mret (zlen d, d)) (hfs s)) (- EPERM, []) (rc_failure, [])
    = Some ((ret, d), f) ->
  exists s', do_read srnd skernel conn fh size off s = Ok rc_success s' /\ kept conn (set_hfs f s) s' /\
    session s' conn key (User.inc_send_seq u) inb
      (outb ++ NetConn.frame (message key (User.user_send_seq u) (srnd (draws s)) (read_response size ret d))).
Proof.
  intros Hs Hh Hsz Hd Ha. unfold do_read. rewrite u32_small by lia.
  destruct (fresh_pkt size 16) as (b1&Hr1&Hw1&Hc1&Hl1&Hn1&Ha1); [lia..|].
  mrun (on_pkt_Ok _ _ _ _ s Hr1).
  mrun (run_op_answer s conn key u inb outb true (- EPERM, []) (rc_failure, []) (ret, d) f
    (fun a u => d ← FsFile.bfs_read a u fh size off; mret (zlen d, d)) Hs Hh Ha).
  destruct (store_prefix b1 d) as (b2&Hr2&Hw2&Hc2&Ha2&Hn2); [done|lia|].
  assert (push_cost [(8%nat, ret); (4%nat, CLIENT_READ_OP); (4%nat, FROM_SERVER)] = 112) as Hcost by done.
  destruct (push_all_spec [(8%nat, ret); (4%nat, CLIENT_READ_OP); (4%nat, FROM_SERVER)] b2)
    as (b3&Hr3&Hw3&Hn3&Hc3&Ha3); [done|auto|lia|]. rewrite Hcost in Ha3.
  assert ((store (hlength b1) d ;; push_all [(8%nat, ret); (4%nat, CLIENT_READ_OP); (4%nat, FROM_SERVER)]) b1
    = Ok () b3) as Hb by (by mrun Hr2).
  mrun (on_pkt_Ok _ _ _ _ (set_hfs f s) Hb).
  destruct (send_pkt_Ok srnd skernel srnd_zlen shealthy (set_hfs f s) conn key u inb outb b3 FlexBuffer.empty)
    as (?&?&s2&Hsend&K2&Hs2&_);
    [by apply session_hfs|done|lia|apply SecAssoc.roomy_empty|done|].
  mrun Hsend. exists s2. split_and!; try done. rewrite Hc3, Hc2, Hc1 in Hs2.
  replace (read_response size ret d) with (encode_fields (reverse [(8%nat, ret); (4%nat, CLIENT_READ_OP); (4%nat, FROM_SERVER)])
    ++ d ++ drop (List.length d) (zeros size)); [done|].
  assert (drop (List.length d) (zeros size) = zeros (size - zlen d)) as ->
    by (unfold zeros; rewrite drop_replicate; f_equal; unfold zlen; lia).
  unfold read_response. change (reverse _) with [(4%nat, FROM_SERVER); (4%nat, CLIENT_READ_OP); (8%nat, ret)].
  unfold encode_fields. cbn [fmap list_fmap List.map concat fst snd]. by rewrite ?app_nil_r, <-?app_assoc.
Qed.
(** The server never writes past the buffer of the response. *)
Lemma read_loop_zlen fuel i num off bidx iidx ib acc (x : FsAlloc.fs B) d o full x' :
  0 <= num -> 0 <= off -> FsFile.read_loop fuel i num off bidx iidx ib acc x = Ok (d, o, full) x' ->
  zlen d <= zlen acc + num.
Proof.
  revert num off bidx iidx ib acc x. induction fuel as [|fuel IH]; intros num off bidx iidx ib acc x Hn Ho Hr; [done|].
  cbn [FsFile.read_loop] in Hr. destruct (Z.leb_spec num 0); [run_inv; lia|].
  destruct (Z.leb_spec (Inode.size i) off); [run_inv; lia|].
  apply bind_Ok_inv in Hr as (rp&x1&_&Hr). destruct rp as [v bidx' iidx' ib'| |]; [|run_inv; lia..].
  apply bind_Ok_inv in Hr as (blk&x2&_&Hr). apply bind_Ok_inv in Hr as (d1&x3&Hd1&Hr).
  set (mx := if num <? _ then num else _) in *.
  assert (0 <= mx <= num) as Hmx.
  { pose proof (Z.mod_pos_bound off BLK_SZ eq_refl). unfold mx. destruct (Z.ltb_spec num (BLK_SZ - off mod BLK_SZ)); lia. }
  set (sz := if _ <? u64 _ then _ else mx) in *.
  assert (sz <= num) as Hsz.
  { assert (u64 (off + mx) <= off + mx) by (apply Z.mod_le; lia).
    unfold sz. destruct (Z.ltb_spec (Inode.size i) (u64 (off + mx))); lia. }
  clearbody sz. unfold of_opt in Hd1. destruct (mem_get _ _ blk) as [d1'|] eqn:Hm; [|done].
  unfold mret, M_ret in Hd1. simplify_eq. apply mem_get_Some in Hm as (_&_&_&Hz&_).
  pose proof (u64_bound (off + sz)). apply IH in Hr; [|lia..]. rewrite zlen_app in Hr. lia.
Qed.

Lemma bfs_read_zlen acl usr fh size off (x : FsAlloc.fs B) d x' :
  0 <= size -> 0 <= off -> FsFile.bfs_read acl usr fh size off x = Ok d x' -> zlen d <= size.
Proof.
  intros Hsz Ho Hr. unfold FsFile.bfs_read in Hr. apply bind_Ok_inv in Hr as (i&x1&_&Hr).
  destruct (Inode.size i <? off); [run_inv; by rewrite zlen_nil|].
  apply bind_Ok_inv in Hr as ([[d' o] full]&x2&Hl&Hr). apply read_loop_zlen in Hl; [|done..].
  rewrite zlen_nil in Hl. destruct full; [run_inv; lia|]. destruct (_ <? o); [done|]. run_inv. lia.
Qed.

Lemma read_sends c key sseq rseq fh size off :
  START_FD <= fh -> ready c key sseq rseq [] [] false ->
  exists c', op_send (Client.bfs_read crnd ckernel fh size off) c = Ok (inl ()) c' /\
    ready c' key (u32 (sseq + 1)) rseq []
      (NetConn.frame (message key sseq (crnd (c_draws c))
         (le_split 4 TO_SERVER ++ le_split 4 CLIENT_READ_OP ++ read_body fh size off))) true.
Proof.
  intros Hfh Hr.
  destruct (send_request_Ok crnd ckernel crnd_zlen chealthy c key sseq rseq [] [] None
    ([(8%nat, off); (8%nat, size); (8%nat, fh)] ++ headers CLIENT_READ_OP) Hr) as (c'&Hs&Hr'); [done..|].
  exists c'. unfold encode_fields in Hr'. cbn in Hr'. rewrite ?app_nil_r in Hr'.
  unfold read_body. split; [|exact Hr'].
  unfold Client.bfs_read. cbn [op_send].
  assert ((assert_ (START_FD <=? fh) ;; send_request crnd ckernel None
    ([(8%nat, off); (8%nat, size); (8%nat, fh)] ++ headers CLIENT_READ_OP)) c = Ok () c') as Hm
    by (rewrite bind_assert; [done|by apply Z.leb_le]).
  by mrun (guarded_Ok _ _ _ _ Hm).
Qed.
(** What the client makes of the response to a read: it copies as many bytes as
    the server says it read. *)
Definition read_unpack : M FlexBuffer.t (Z * bytes) :=
  bytes_read ← pull 8;
  s ← get;
  d ← load (hlength s) bytes_read;
  mret (as_int bytes_read, d).

Lemma content_prefix b d q :
  wf b -> content b = d ++ q -> mem_get (hlength b) (zlen d) (mem b) = Some d.
Proof.
  intros Hw Hc. pose proof (mem_get_content b Hw) as Hm. rewrite <-(content_zlen b Hw), Hc, zlen_app in Hm.
  apply mem_get_Some in Hm as (?&?&?&_&Hd). pose proof (zlen_nonneg d). pose proof (zlen_nonneg q).
  unfold mem_get. rewrite decide_True by lia. f_equal.
  apply (f_equal (take (Z.to_nat (zlen d)))) in Hd. rewrite take_take, take_app_length' in Hd by (unfold zlen; lia).
  rewrite Hd at 2. by rewrite Nat.min_l by lia.
Qed.

Lemma read_unpack_Ok b d q :
  wf b -> buffer b <> None -> content b = le_split 8 (zlen d) ++ d ++ q -> zlen d < 2 ^ 31 ->
  exists b', read_unpack b = Ok (zlen d, d) b'.
Proof.
  intros Hw Hn Hc Hd. pose proof (zlen_nonneg d).
  destruct (pull_spec 8 (zlen d) (d ++ q) b Hw Hn Hc) as (b1&Hr&Hw1&Hn1&Hc1&_); [split; cbn; lia|].
  exists b1. unfold read_unpack. mrun Hr. rewrite bind_get.
  mrun (load_Ok _ _ _ _ (content_prefix b1 d q Hw1 Hc1)). unfold as_int. rewrite u32_small by lia. by rewrite NetConn.signed4_small by lia.
Qed.

Lemma read_unpack_crash b ret q :
  wf b -> buffer b <> None -> content b = le_split 8 ret ++ q -> 2 ^ 63 <= ret < 2 ^ 64 ->
  read_unpack b = Crash Undefined_behaviour.
Proof.
  intros Hw Hn Hc Hret. destruct (pull_spec 8 ret q b Hw Hn Hc) as (b1&Hr&Hw1&Hn1&Hc1&_); [split; cbn; lia|].
  unfold read_unpack. mrun Hr. rewrite bind_get. apply bind_Crash.
  unfold load, of_opt. destruct (mem_get _ _ _) eqn:Hm; [|done].
  apply mem_get_Some in Hm as (?&?&?&_). pose proof Hw1 as (?&?&?&?&?&?&?). lia.
Qed.
Definition read_ok (fh size off : Z) : Prop :=
  START_FD <= fh /\ fits 8 fh /\ 0 <= size < 2 ^ 30 /\ fits 8 off.

Definition local_read (u : User.t) (fh size off : Z) : M (FsAlloc.fs B) (Z * bytes) :=
  d ← FsFile.bfs_read true (Some u) fh size off; mret (zlen d, d).

Lemma read_until conn key u c s fh size off ret d f :
  read_ok fh size off -> in_sync conn key u c s -> bfs_handle s = true -> zlen d <= size ->
  answer (local_read (User.inc_recv_seq u) fh size off (hfs s)) (- EPERM, []) (rc_failure, []) = Some ((ret, d), f) ->
  exists c' s', rpc conn (Client.bfs_read crnd ckernel fh size off) (mkWorld c s)
      = on_client (op_recv (Client.bfs_read crnd ckernel fh size off)) (mkWorld c' s') /\
    ready c' key (u32 (User.user_recv_seq u + 1)) (User.user_send_seq u)
      (NetConn.frame (message key (User.user_send_seq u) (srnd (draws s)) (read_response size ret d))) [] true /\
    session s' conn key (User.inc_send_seq (User.inc_recv_seq u)) [] [] /\ kept conn (set_hfs f s) s'.
Proof.
  intros (Hfh&Hff&Hsz&Hoff) Hsync Hh Hd Ha.
  apply (rpc_until conn key u c s _ CLIENT_READ_OP (read_body fh size off)
    (fun conn => do_read srnd skernel conn fh size off)); [done| |split; vm_compute; congruence|done|..].
  - apply read_sends; [done|apply Hsync].
  - intros conn0 rpkt s0 Hw Hn Hc. unfold read_body in Hc. rewrite <-(app_nil_r (le_split 8 off)) in Hc.
    destruct (unpack_rw_spec fh size off [] rpkt) as (b&Hb&_); [done|split; cbn; lia|done..|].
    change (dispatch _ _ _ _ _ _ conn0 rpkt) with (handle_read srnd skernel conn0 rpkt).
    unfold handle_read. by mrun (on_pkt_Ok _ _ _ _ s0 Hb).
  - intros s0 K Hs0 Hd0.
    destruct (do_read_answer s0 conn key (User.inc_recv_seq u) [] [] fh size off ret d f Hs0) as (s2&Hr&K2&Hs2).
    + by rewrite (kept_handle _ _ _ K).
    + done.
    + done.
    + by rewrite (kept_fs _ _ _ K).
    + rewrite Hd0 in Hs2. exists s2. split_and!; [done| |done].
      etransitivity; [|exact K2]. destruct K. by constructor.
Qed.

Lemma remote_read_Ok conn key u c s fh size off d f :
  read_ok fh size off -> in_sync conn key u c s -> bfs_handle s = true ->
  FsFile.bfs_read true (Some (User.inc_recv_seq u)) fh size off (hfs s) = Ok d f ->
  exists c' s', rpc conn (Client.bfs_read crnd ckernel fh size off) (mkWorld c s) = Ok (zlen d, d) (mkWorld c' s') /\
    in_sync conn key (User.inc_send_seq (User.inc_recv_seq u)) c' s' /\ kept conn (set_hfs f s) s'.
Proof.
  intros Hok Hsync Hh Hrd. pose proof Hok as (_&_&Hsz&[Hoff _]).
  assert (zlen d <= size) as Hd by (eapply bfs_read_zlen; [lia| |exact Hrd]; lia). pose proof (zlen_nonneg d).
  eapply rpc_returns; [apply (read_until conn key u c s fh size off (zlen d) d f); try done|].
  - unfold answer, local_read. by mrun Hrd.
  - intros c0 Hr.
    destruct (recv_response_Ok ckernel chealthy c0 key _ _ [] (u32 (16 + size)) CLIENT_READ_OP true read_unpack
      _ _ (zlen d, d) Hr) as (c'&Hrun&Hr'); [apply srnd_zlen|split; vm_compute; congruence| |done| |].
    + rewrite !zlen_app, zlen_le_split, zlen_zeros by lia. lia.
    + intros b Hw Hn Hc. eapply read_unpack_Ok; [done..|lia].
    + exists c'. split; [|done]. cbn [op_recv Client.bfs_read]. by mrun (guarded_Ok _ _ _ _ Hrun).
Qed.

(** A read that the server answers with an error code. *)
Lemma remote_read_failed_Ok conn key u c s fh size off ret f :
  read_ok fh size off -> in_sync conn key u c s -> bfs_handle s = true ->
  answer (local_read (User.inc_recv_seq u) fh size off (hfs s)) (- EPERM, []) (rc_failure, []) = Some ((ret, []), f) ->
  - 2 ^ 31 <= ret < 0 ->
  rpc conn (Client.bfs_read crnd ckernel fh size off) (mkWorld c s) = Crash Undefined_behaviour.
Proof.
  intros Hok Hsync Hh Ha Hret. pose proof Hok as (_&_&Hsz&_).
  destruct (read_until conn key u c s fh size off ret [] f) as (c'&s'&Hrpc&Hr&_); try done;
    [change (zlen (@nil byte)) with 0; lia|].
  rewrite Hrpc. unfold on_client. cbn [w_client op_recv Client.bfs_read].
  destruct (recv_response_run ckernel chealthy c' key _ _ [] (u32 (16 + size)) CLIENT_READ_OP true read_unpack
    _ _ Hr) as (b&c2&Hrun&Hw&Hn&Hc&_); [apply srnd_zlen|split; vm_compute; congruence| |done|].
  { rewrite !zlen_app, zlen_le_split, zlen_nil, zlen_zeros by lia. lia. }
  rewrite <-le_split_wrap in Hc. change (8 * Z.of_nat 8) with 64 in Hc.
  assert (2 ^ 63 <= ret mod 2 ^ 64 < 2 ^ 64) as Hb.
  { rewrite <-(Z.mod_add ret 1), Z.mod_small by lia. lia. }
  pose proof (read_unpack_crash b _ _ Hw Hn Hc Hb) as Hcr.
  assert (recv_response ckernel (u32 (16 + size)) CLIENT_READ_OP true read_unpack c' = Crash Undefined_behaviour) as Hx.
  { rewrite Hrun. apply bind_Crash. unfold c_pkt. by rewrite Hcr. }
  unfold guarded, catch. fold read_unpack. unfold mbind at 1, M_bind at 1. by rewrite (bind_Crash _ _ _ _ Hx).
Qed.
(** ** Attributes *)
Definition getattr_body (path : bytes) : bytes := le_split 4 (path_len path) ++ c_path path.

Definition getattr_response (ret uid ino mode size : Z) : bytes :=
  le_split 4 FROM_SERVER ++ le_split 4 CLIENT_GETATTR_OP ++ le_split 4 ret ++ le_split 4 uid ++
  le_split 4 indet ++ le_split 4 indet ++ le_split 4 indet ++ le_split 8 ino ++ le_split 4 mode ++ le_split 8 size.

Definition getattr_unpack : M FlexBuffer.t (Z * option stat) :=
  ret ← pull_int 4;
  _ ← pull 4;
  ctime ← pull 4; mtime ← pull 4; atime ← pull 4;
  ino ← pull 8;
  if negb (ret =? rc_success) && (ino <? ROOT_INO) then mret (- ENOENT, None)
  else
    mode ← pull 4;
    size ← pull_int 8;
    mret (rc_success, Some (mkStat ino mode size atime mtime ctime)).

Lemma getattr_unpack_Ok b ret uid ino mode size :
  wf b -> buffer b <> None ->
  content b = le_split 4 ret ++ le_split 4 uid ++ le_split 4 indet ++ le_split 4 indet ++ le_split 4 indet ++
    le_split 8 ino ++ le_split 4 mode ++ le_split 8 size ->
  fits 4 mode -> fits 8 ino -> 0 <= size < 2 ^ 63 ->
  exists b', getattr_unpack b =
    Ok (if negb (as_int ret =? rc_success) && (ino <? ROOT_INO) then (- ENOENT, None)
        else (rc_success, Some (mkStat ino mode size (u32 indet) (u32 indet) (u32 indet)))) b'.
Proof.
  intros Hw Hn Hc Hm Hi Hs. unfold getattr_unpack, pull_int. rewrite bind_assoc. pull_next b Hw Hn Hc. rewrite bind_ret.
  change (signed 4 (ret mod 2 ^ (8 * Z.of_nat 4))) with (as_int ret).
  pull_next b0 Hw Hn Hc. pull_next b1 Hw Hn Hc. pull_next b2 Hw Hn Hc. pull_next b3 Hw Hn Hc.
  pull_next b4 Hw Hn Hc. rewrite (Z.mod_small ino) by exact Hi.
  destruct (negb (as_int ret =? rc_success) && (ino <? ROOT_INO)); [by eexists|].
  pull_next b5 Hw Hn Hc. rewrite <-(app_nil_r (le_split 8 size)) in Hc. rewrite bind_assoc. pull_next b6 Hw Hn Hc.
  rewrite bind_ret, (Z.mod_small mode) by exact Hm. rewrite (Z.mod_small size) by (cbn; lia).
  eexists. unfold signed. destruct (Z.ltb_spec size (2 ^ (8 * Z.of_nat 8 - 1))); [done|]. exfalso. cbn in *. lia.
Qed.
Definition local_getattr (u : User.t) (path : bytes) : M (FsAlloc.fs B) (Z * (Z * Z * Z * Z)) :=
  r ← FsOps.bfs_getattr true (Some u) path; mret (rc_success, r).

Definition getattr_result (r : Z * (Z * Z * Z * Z)) : Z * option stat :=
  let '(ret, (_, ino, mode, size)) := r in
  if negb (as_int ret =? rc_success) && (ino <? ROOT_INO) then (- ENOENT, None)
  else (rc_success, Some (mkStat ino mode size (u32 indet) (u32 indet) (u32 indet))).

Lemma getattr_sends c key sseq rseq path :
  path_ok path -> ready c key sseq rseq [] [] false ->
  exists c', op_send (Client.bfs_getattr crnd ckernel path) c = Ok (inl ()) c' /\
    ready c' key (u32 (sseq + 1)) rseq []
      (NetConn.frame (message key sseq (crnd (c_draws c))
         (le_split 4 TO_SERVER ++ le_split 4 CLIENT_GETATTR_OP ++ getattr_body path))) true.
Proof.
  intros [_ Hp] Hr.
  destruct (send_request_Ok crnd ckernel crnd_zlen chealthy c key sseq rseq [] [] (Some (c_path path))
    ([(4%nat, path_len path)] ++ headers CLIENT_GETATTR_OP) Hr) as (c'&Hs&Hr'); [cbn; rewrite c_path_zlen; lia|done..|].
  exists c'. unfold encode_fields in Hr'. cbn in Hr'. rewrite ?app_nil_r in Hr'. split; [|exact Hr'].
  cbn [op_send Client.bfs_getattr]. by mrun (guarded_Ok _ _ _ _ Hs).
Qed.

Lemma remote_getattr_Ok conn key u c s path ret uid ino mode size f :
  path_ok path -> in_sync conn key u c s -> bfs_handle s = true ->
  fits 4 mode -> fits 8 ino -> 0 <= size < 2 ^ 63 ->
  answer (local_getattr (User.inc_recv_seq u) path (hfs s)) (- EPERM, (0, 0, 0, 0)) (- ENOENT, (0, 0, 0, 0))
    = Some ((ret, (uid, ino, mode, size)), f) ->
  exists c' s', rpc conn (Client.bfs_getattr crnd ckernel path) (mkWorld c s)
      = Ok (getattr_result (ret, (uid, ino, mode, size))) (mkWorld c' s') /\
    in_sync conn key (User.inc_send_seq (User.inc_recv_seq u)) c' s' /\ kept conn (set_hfs f s) s'.
Proof.
  intros Hp Hsync Hh Hm Hi Hs Ha.
  eapply rpc_returns; [apply (rpc_until conn key u c s _ CLIENT_GETATTR_OP (getattr_body path)
    (fun conn => r ← run_op conn false (- EPERM, (0, 0, 0, 0)) (- ENOENT, (0, 0, 0, 0))
        (fun a u => r ← FsOps.bfs_getattr a u path; mret (rc_success, r));
       match r with
       | None => mret rc_failure
       | Some (ret, (uid, fino, fmode, fsize)) =>
           reply srnd skernel conn CLIENT_GETATTR_OP
             [(8%nat, fsize); (4%nat, fmode); (8%nat, fino); (4%nat, indet); (4%nat, indet); (4%nat, indet);
              (4%nat, uid); (4%nat, ret)]
       end) (set_hfs f s) (getattr_response ret uid ino mode size) Hsync)|].
  - apply getattr_sends; [done|apply Hsync].
  - split; vm_compute; congruence.
  - destruct Hp as [_ Hp]. unfold getattr_body. rewrite zlen_app, zlen_le_split, c_path_zlen. lia.
  - intros conn0 rpkt s0 Hw Hn Hc. destruct (unpack_path_spec path rpkt Hp Hw Hn Hc) as [b Hb].
    change (dispatch _ _ _ _ _ _ conn0 rpkt) with (handle_getattr srnd skernel indet conn0 rpkt). unfold handle_getattr. by mrun (on_pkt_Ok _ _ _ _ s0 Hb).
  - intros s0 K Hs0 Hd0. rewrite <-(kept_fs _ _ _ K) in Ha.
    assert (bfs_handle s0 = true) as Hh0 by (by rewrite (kept_handle _ _ _ K)).
    pose proof (run_op_answer s0 conn key _ [] [] false (- EPERM, (0, 0, 0, 0)) (- ENOENT, (0, 0, 0, 0))
      (ret, (uid, ino, mode, size)) f (fun a u => r ← FsOps.bfs_getattr a u path; mret (rc_success, r)) Hs0 Hh0 Ha) as Hrun.
    destruct (reply_Ok srnd skernel srnd_zlen shealthy (set_hfs f s0) conn key (User.inc_recv_seq u) [] [] CLIENT_GETATTR_OP
      [(8%nat, size); (4%nat, mode); (8%nat, ino); (4%nat, indet); (4%nat, indet); (4%nat, indet); (4%nat, uid); (4%nat, ret)])
      as (s'&Hr&K'&Hs'&_); [by apply session_hfs|done|done|].
    exists s'. mrun Hrun. split; [exact Hr|]. split; [etransitivity; [|exact K']; destruct K; by constructor|].
    unfold encode_fields in Hs'. cbn in Hs'. rewrite Hd0, ?app_nil_r in Hs'. exact Hs'.
  - intros c0 Hr.
    destruct (recv_response_Ok ckernel chealthy c0 key _ _ [] 48 CLIENT_GETATTR_OP false getattr_unpack
      _ _ (getattr_result (ret, (uid, ino, mode, size))) Hr) as (c'&Hrun&Hr');
      [apply srnd_zlen|split; vm_compute; congruence|rewrite !zlen_app, !zlen_le_split; lia|
       intros _; rewrite !zlen_app, !zlen_le_split; lia| |].
    + intros b Hw Hn Hc. exact (getattr_unpack_Ok b ret uid ino mode size Hw Hn Hc Hm Hi Hs).
    + exists c'. split; [|done]. cbn [op_recv Client.bfs_getattr]. by mrun (guarded_Ok _ _ _ _ Hrun).
Qed.

(** ** The theorems *)

(** C5. A remote call does what the local call does: the file system is left as by
    the operation for the user of the connection, no other connection is touched,
    and both ends agree again on the next sequence numbers.  The client's function
    makes its result from the value [ret] of the local call, or the code of a
    denied or failed request, in the way of [call_result]: mkdir, unlink, rmdir,
    rename, release and chmod return it as it is; open, opendir and create return
    the handle, or a failure when it is below the first valid one; a write returns
    the number of bytes when all of them were written and -1 when fewer were.  The
    client compares the value of a write as an unsigned number, so for one that
    was denied or failed it returns the number of bytes too. *)
Theorem remote_call_is_local {A} (k : call A) conn key u c s ret f :
  call_ok k -> in_sync conn key u c s -> bfs_handle s = true ->
  answer (server_op k true (Some (User.inc_recv_seq u)) (hfs s)) (- EPERM) rc_failure = Some (ret, f) ->
  exists c' s', rpc conn (client_op crnd ckernel k) (mkWorld c s) = Ok (call_result k ret) (mkWorld c' s') /\
    in_sync conn key (User.inc_send_seq (User.inc_recv_seq u)) c' s' /\ kept conn (set_hfs f s) s'.
Proof. exact (remote_call_Ok k conn key u c s ret f). Qed.

(** A remote read hands the caller exactly the bytes that the local read of the
    server returns, and their number. *)
Theorem remote_read_is_local conn key u c s fh size off d f :
  read_ok fh size off -> in_sync conn key u c s -> bfs_handle s = true ->
  FsFile.bfs_read true (Some (User.inc_recv_seq u)) fh size off (hfs s) = Ok d f ->
  exists c' s', rpc conn (Client.bfs_read crnd ckernel fh size off) (mkWorld c s) = Ok (zlen d, d) (mkWorld c' s') /\
    in_sync conn key (User.inc_send_seq (User.inc_recv_seq u)) c' s' /\ kept conn (set_hfs f s) s'.
Proof. exact (remote_read_Ok conn key u c s fh size off d f). Qed.

(** A read that the server refuses crashes the client: the error code is taken
    for a number of bytes, and that many are copied out of the packet. *)
Theorem refused_read_crashes_client conn key u c s fh size off ret f :
  read_ok fh size off -> in_sync conn key u c s -> bfs_handle s = true ->
  answer (local_read (User.inc_recv_seq u) fh size off (hfs s)) (- EPERM, []) (rc_failure, []) = Some ((ret, []), f) ->
  - 2 ^ 31 <= ret < 0 ->
  rpc conn (Client.bfs_read crnd ckernel fh size off) (mkWorld c s) = Crash Undefined_behaviour.
Proof. exact (remote_read_failed_Ok conn key u c s fh size off ret f). Qed.

(** A write that the server denies is reported as complete: the error code,
    read as an unsigned number, is not less than the number of bytes. *)
Theorem denied_write_reported_done conn key u c s fh data off msg f :
  call_ok (CWrite fh data off) -> in_sync conn key u c s -> bfs_handle s = true ->
  FsFile.bfs_write true (Some (User.inc_recv_seq u)) fh data off (hfs s) = Throw (BfsAccessDeniedError msg) f ->
  exists c' s', rpc conn (Client.bfs_write crnd ckernel fh data off) (mkWorld c s) = Ok (zlen data) (mkWorld c' s') /\
    kept conn (set_hfs f s) s'.
Proof.
  intros Hk Hsync Hh Hden. pose proof Hk as (_&_&_&Hd). pose proof (zlen_nonneg data).
  destruct (remote_call_Ok (CWrite fh data off) conn key u c s (- EPERM) f Hk Hsync Hh) as (c'&s'&Hr&_&K).
  { cbn [server_op]. by rewrite Hden. }
  exists c', s'. split; [|done]. cbn [client_op call_result] in Hr. rewrite Hr.
  change (u64 (- EPERM)) with (2 ^ 64 - 1). destruct (Z.ltb_spec (2 ^ 64 - 1) (zlen data)); [lia|].
  unfold as_int. rewrite u32_small by lia. by rewrite NetConn.signed4_small by lia.
Qed.

(** The attributes a client sees are those of the inode, except for the times,
    which are whatever was on the server's stack; every refusal is reported as a
    file that does not exist. *)
Theorem remote_getattr_times conn key u c s path ret uid ino mode size f :
  path_ok path -> in_sync conn key u c s -> bfs_handle s = true ->
  fits 4 mode -> fits 8 ino -> 0 <= size < 2 ^ 63 ->
  answer (local_getattr (User.inc_recv_seq u) path (hfs s)) (- EPERM, (0, 0, 0, 0)) (- ENOENT, (0, 0, 0, 0))
    = Some ((ret, (uid, ino, mode, size)), f) ->
  exists c' s', rpc conn (Client.bfs_getattr crnd ckernel path) (mkWorld c s)
      = Ok (getattr_result (ret, (uid, ino, mode, size))) (mkWorld c' s') /\
    in_sync conn key (User.inc_send_seq (User.inc_recv_seq u)) c' s' /\ kept conn (set_hfs f s) s'.
Proof. exact (remote_getattr_Ok conn key u c s path ret uid ino mode size f). Qed.
End rpc.
