(* ===== verification/Remote.v ===== *)
(** * Sessions over the network

    From the accepted connection to the contents of a file: the client connects,
    has the volume formatted and mounted, and creates, writes and reads a file.
    The theorems compose the calls of [RpcSpec] with the operations of the file
    system. *)
From S2P Require Import Prelude Layout BfsUtil CoreTypes FlexBuffer SecAssoc Wire BlockLayer BlockStore Volume FsAlloc Acl FsDir FsDirSpec FsFile FsOps FsCreate Mkfs Server Client Rpc RpcSpec.
Import FlexBuffer FlexStream Msg.

(** The file operations look at the id of the user only. *)
Lemma denied_uid acl u u' :
  User.uid u = User.uid u' -> ACLayer.denied acl (Some u) = ACLayer.denied acl (Some u').
Proof. destruct u, u'. cbn. by intros ->. Qed.

Section users.
Context {B : Type} `{BlockStore B}.

Lemma bfs_write_uid acl u u' fh d off (s : fs B) :
  User.uid u = User.uid u' -> FsFile.bfs_write acl (Some u) fh d off s = FsFile.bfs_write acl (Some u') fh d off s.
Proof. destruct u, u'. cbn [User.uid]. by intros ->. Qed.

Lemma bfs_read_uid acl u u' fh size off (s : fs B) :
  User.uid u = User.uid u' -> FsFile.bfs_read acl (Some u) fh size off s = FsFile.bfs_read acl (Some u') fh size off s.
Proof. destruct u, u'. cbn [User.uid]. by intros ->. Qed.
End users.

(** ** A new connection *)
Section server.
Context {B : Type} `{Volume B} `{Cipher} {claws : CipherLaws}.
Context (use_mt : bool) (rnd : nat -> bytes) (kernel : Z -> nat -> Z) (uninit indet : Z).
Implicit Types s : srv B.

(** The state in which a server accepts a connection at a new address. *)
Definition accepting (conn : Z) s : Prop :=
  ACLayer.ACLayerInitialized (acl_layer s) = true /\ ACLayer.user_contexts (acl_layer s) !! conn = None.

Lemma worker_start_Ok cl_serv_sa key t conn n s :
  cl_serv_sa = CryptoKey.mk key true t -> accepting conn s ->
  exists s', worker_start use_mt rnd kernel cl_serv_sa uninit indet conn n s = Ok () s' /\
    session s' conn key (User.ctor (ACLayer.next_uid (acl_layer s)))
      (RawNet.inbox (NetConn.socket n)) (RawNet.outbox (NetConn.socket n)) /\
    hfs s' = hfs s /\ bfs_handle s' = bfs_handle s /\ fs_initialized s' = fs_initialized s /\ draws s' = draws s /\
    (forall c, c <> conn -> ACLayer.user_contexts (acl_layer s') !! c = ACLayer.user_contexts (acl_layer s) !! c /\
       user_sas s' !! c = user_sas s !! c /\ links s' !! c = links s !! c).
Proof.
  intros -> [Hi Hu]. unfold worker_start. rewrite bind_modify. unfold ecall_bfs_handle_in_msg.
  rewrite bind_assoc, bind_gets. unfold ACLayer.get_user_context. cbn [acl_layer set_links]. rewrite Hi, Hu. cbn [negb].
  set (s1 := set_links _ s). rewrite bind_assoc.
  assert (add_user_context (CryptoKey.mk key true t) conn s1 = Ok (Some (User.ctor (ACLayer.next_uid (acl_layer s))))
    (set_sas (<[conn := mkSa (Some (CryptoKey.mk key true t)) FlexBuffer.empty]> (user_sas s))
      (set_acl (ACLayer.mk true (u32 (ACLayer.next_uid (acl_layer s) + 1))
        (<[conn := User.ctor (ACLayer.next_uid (acl_layer s))]> (ACLayer.user_contexts (acl_layer s)))) s1))) as Ha.
  { unfold add_user_context, ACLayer.add_user_context, ACLayer.alloc_uid. unfold s1. cbn [acl_layer set_links].
    rewrite Hi. cbn [ACLayer.user_contexts ACLayer.next_uid ACLayer.ACLayerInitialized]. by rewrite Hu. }
  mrun Ha. rewrite bind_ret. eexists. split; [reflexivity|]. split.
  { constructor; cbn; [done|by rewrite lookup_insert_eq| |].
    - eexists. rewrite lookup_insert_eq. split; [done|]. split; [by eexists|done].
    - eexists. rewrite lookup_insert_eq. split; [done|]. split; [apply SecAssoc.roomy_empty|done]. }
  split_and!; try done. intros c Hc. cbn. by rewrite !lookup_insert_ne by done.
Qed.
End server.

(** ** Whole sessions *)
Section remote.
Context {B : Type} `{Volume B} `{Cipher} {claws : CipherLaws}.
Context (use_mt : bool) (srnd crnd : nat -> bytes) (skernel : Z -> nat -> Z) (ckernel : nat -> Z).
Context (cl_serv_sa : CryptoKey.t) (uninit indet : Z).
Context (srnd_zlen : forall n, zlen (srnd n) = BFS_IV_LEN) (crnd_zlen : forall n, zlen (crnd n) = BFS_IV_LEN).
Context (shealthy : forall cn i, 0 <= skernel cn i) (chealthy : forall i, 0 <= ckernel i).
Implicit Types (s : srv B) (c : client).
Abbreviation rpc := (rpc use_mt srnd skernel cl_serv_sa uninit indet).

Lemma handle_init_Ok s conn key u f :
  session s conn key u [] [] -> fs_initialized s = false -> boot use_mt uninit (hfs s) = Ok () f ->
  exists s', handle_init use_mt srnd skernel uninit conn true s = Ok rc_success s' /\
    kept conn (set_handle true true (set_hfs f s)) s' /\
    session s' conn key (User.inc_send_seq u) []
      (NetConn.frame (message key (User.user_send_seq u) (srnd (draws s)) (response CLIENT_INIT_OP 4 rc_success))).
Proof.
  intros Hs Hi Hb. unfold boot in Hb. apply bind_Ok_inv in Hb as ([]&f1&Hc&Hb).
  apply bind_Ok_inv in Hb as ([]&f2&Hk&Hm). unfold handle_init.
  set (s1 := set_handle true true (set_hfs f s)).
  rewrite (bind_Ok _ _ s (Some rc_success) s1).
  - destruct (reply_Ok srnd skernel srnd_zlen shealthy s1 conn key u [] [] CLIENT_INIT_OP [(4%nat, rc_success)])
      as (s'&Hr&K&Hs'&_); [|done|done|].
    { apply (session_hfs _ _ _ _ _ _ f) in Hs. destruct Hs. by constructor. }
    exists s'. split_and!; [exact Hr|exact K|exact Hs'].
  - apply catch_Ok. rewrite bind_gets, Hi. cbn [negb]. rewrite !bind_assoc.
    rewrite (bind_Ok _ _ s () (set_hfs f1 s)) by (unfold on_fs; by rewrite Hc). rewrite bind_assoc, bind_modify, bind_assoc.
    rewrite (bind_Ok _ _ _ () (set_hfs f2 (set_handle true (fs_initialized s) (set_hfs f1 s))))
      by (unfold on_fs; cbn [hfs set_handle set_hfs]; by rewrite Hk).
    rewrite bind_assoc.
    rewrite (bind_Ok _ _ _ () (set_hfs f (set_handle true (fs_initialized s) (set_hfs f1 s))))
      by (unfold on_fs; cbn [hfs set_handle set_hfs]; by rewrite Hm).
    rewrite bind_modify. done.
Qed.

Lemma session_op_Ok {A} (m : M client A) h c a c' : m c = Ok a c' -> session_op m h c = Ok (Some a) c'.
Proof. intros Hm. unfold session_op. apply catch_Ok. by mrun Hm. Qed.

(** The request that formats and mounts. *)
Lemma remote_init_Ok conn key u c s f :
  in_sync conn key u c s -> fs_initialized s = false -> boot use_mt uninit (hfs s) = Ok () f ->
  exists c' s', rpc conn (Client.bfs_init crnd ckernel true) (mkWorld c s) = Ok (Some rc_success) (mkWorld c' s') /\
    in_sync conn key (User.inc_send_seq (User.inc_recv_seq u)) c' s' /\
    kept conn (set_handle true true (set_hfs f s)) s'.
Proof.
  intros Hsync Hi Hb.
  eapply rpc_returns; [apply (rpc_until use_mt srnd crnd skernel cl_serv_sa uninit indet crnd_zlen shealthy
    conn key u c s _ CLIENT_INIT_MKFS_OP [] (fun conn => handle_init use_mt srnd skernel uninit conn true)
    (set_handle true true (set_hfs f s)) (response CLIENT_INIT_OP 4 rc_success) Hsync)|].
  - destruct (send_request_Ok crnd ckernel crnd_zlen chealthy c key _ _ [] [] None (headers CLIENT_INIT_MKFS_OP)
      (proj1 Hsync)) as (c'&Hs&Hr); [done..|]. exists c'. cbn [Client.bfs_init op_send].
    split; [by mrun (session_op_Ok _ (cleanup) _ _ _ Hs)|]. exact Hr.
  - split; vm_compute; congruence.
  - done.
  - done.
  - intros s0 K Hs0 Hd0. rewrite <-(kept_fs _ _ _ K) in Hb. rewrite <-(kept_init _ _ _ K) in Hi.
    destruct (handle_init_Ok s0 conn key _ f Hs0 Hi Hb) as (s2&Hr&K2&Hs2). rewrite Hd0 in Hs2.
    exists s2. split_and!; [done| |done]. etransitivity; [|exact K2]. destruct K. by constructor.
  - intros c0 Hr.
    destruct (recv_response_Ok ckernel chealthy c0 key _ _ [] 12 CLIENT_INIT_OP false (pull_int 4)
      _ (le_split 4 rc_success) rc_success Hr) as (c'&Hrun&Hr'); [apply srnd_zlen|split; vm_compute; congruence|done|done| |].
    + intros b Hw Hn Hc. destruct (pull_int_code 4 rc_success b Hw Hn Hc) as [b' Hb']. exists b'. exact Hb'.
    + exists c'. split; [|done]. cbn [Client.bfs_init op_recv]. exact (session_op_Ok _ _ _ _ _ Hrun).
Qed.
(** ** From the connection to the contents of a file *)
Context {blaws : BlockStoreLaws B} {vlaws : VolumeLaws B} (mt_on : use_mt = true).

Lemma root_path_ok name : DirEntry.name_ok (root_path name) -> path_ok (root_path name).
Proof. intros [Hn Hl]. split; [done|]. unfold MAX_FILE_NAME_LEN in Hl. lia. Qed.

Lemma remote_session_Ok key t conn n c s name mode buf off :
  let uid := ACLayer.next_uid (acl_layer s) in
  cl_serv_sa = CryptoKey.mk key true t -> accepting conn s -> fs_initialized s = false ->
  v_raw (FsAlloc.store (hfs s)) -> room (NUM_BLOCKS (hfs s)) -> open_file_tab (hfs s) = ∅ -> 0 <= uid < 2 ^ 32 ->
  RawNet.inbox (NetConn.socket n) = [] -> RawNet.outbox (NetConn.socket n) = [] -> ready c key 0 0 [] [] false ->
  name <> [] -> slash ∉ name -> DirEntry.name_ok (root_path name) -> 0 <= mode < 2 ^ 32 ->
  ACLayer.denied true (Some (User.ctor uid)) uid (Z.lor BFS__S_IFREG mode) = false ->
  0 <= off -> off + zlen buf <= MAX_FILE_SIZE ->
  exists s0 w1 w2 w3 w4,
    worker_start use_mt srnd skernel cl_serv_sa uninit indet conn n s = Ok () s0 /\
    rpc conn (Client.bfs_init crnd ckernel true) (mkWorld c s0) = Ok (Some rc_success) w1 /\
    rpc conn (Client.bfs_create crnd ckernel (root_path name) mode) w1 = Ok (rc_success, Some START_FD) w2 /\
    rpc conn (Client.bfs_write crnd ckernel START_FD buf off) w2 = Ok (zlen buf) w3 /\
    rpc conn (Client.bfs_read crnd ckernel START_FD (zlen buf) off) w3 = Ok (zlen buf, buf) w4.
Proof.
  intros uid Hkey Hacc Hi Hraw Hroom Htab Huid Hin Hout Hc Hne Hns Hnm Hmode Hden Hoff Hend.
  destruct (worker_start_Ok use_mt srnd skernel uninit indet cl_serv_sa key t conn n s Hkey Hacc)
    as (s0&Hws&Hs0&Hf0&_&Hi0&_). rewrite Hin, Hout in Hs0. rewrite Hi in Hi0. fold uid in Hs0.
  set (u := User.ctor uid) in *. set (u1 := User.inc_send_seq (User.inc_recv_seq u)).
  destruct (format_create_write_read use_mt mt_on uninit (hfs s) (User.inc_recv_seq u1) name mode buf off)
    as (f0&f1&f2&f3&Hb&Hcr&Hwr&Hrd); try done. rewrite <-Hf0 in Hb.
  pose proof (zlen_nonneg buf). change MAX_FILE_SIZE with 2146304 in Hend.
  assert (START_FD <= START_FD /\ fits 8 START_FD /\ fits 8 off) as (Hfd1&Hfd2&Hfo).
  { split; [lia|]. split; [split; vm_compute; congruence|]. split; cbn; lia. }
  destruct (remote_init_Ok conn key u c s0 f0 (conj Hc Hs0) Hi0 Hb) as (c1&s1&Hr1&Hsync1&K1).
  fold u1 in Hsync1. pose proof (kept_handle _ _ _ K1) as Hh1. cbn in Hh1.
  destruct (remote_call_Ok use_mt srnd crnd skernel ckernel cl_serv_sa uninit indet srnd_zlen crnd_zlen shealthy
    chealthy (CCreate (root_path name) mode) conn key u1 c1 s1 START_FD f1) as (c2&s2&Hr2&Hsync2&K2).
  { split; [by apply root_path_ok|done]. } { done. } { done. }
  { rewrite (kept_fs _ _ _ K1). cbn [hfs set_handle set_hfs server_op]. by rewrite Hcr. }
  set (u2 := User.inc_send_seq (User.inc_recv_seq u1)) in *.
  destruct (remote_call_Ok use_mt srnd crnd skernel ckernel cl_serv_sa uninit indet srnd_zlen crnd_zlen shealthy
    chealthy (CWrite START_FD buf off) conn key u2 c2 s2 (zlen buf) f2) as (c3&s3&Hr3&Hsync3&K3).
  { cbn [call_ok]. split; [done|]. split; [done|]. split; [done|lia]. } { done. }
  { rewrite (kept_handle _ _ _ K2). exact Hh1. }
  { rewrite (kept_fs _ _ _ K2). cbn [hfs set_handle set_hfs server_op].
    rewrite (bfs_write_uid true (User.inc_recv_seq u2) (User.inc_recv_seq u1)) by done. by rewrite Hwr. }
  set (u3 := User.inc_send_seq (User.inc_recv_seq u2)) in *.
  destruct (remote_read_Ok use_mt srnd crnd skernel ckernel cl_serv_sa uninit indet srnd_zlen crnd_zlen shealthy
    chealthy conn key u3 c3 s3 START_FD (zlen buf) off buf f3) as (c4&s4&Hr4&_).
  { split; [done|]. split; [done|]. split; [lia|done]. } { done. } 
  { rewrite (kept_handle _ _ _ K3). cbn. rewrite (kept_handle _ _ _ K2). exact Hh1. }
  { rewrite (kept_fs _ _ _ K3). cbn [hfs set_hfs].
    by rewrite (bfs_read_uid true (User.inc_recv_seq u3) (User.inc_recv_seq u1)). }
  exists s0, (mkWorld c1 s1), (mkWorld c2 s2), (mkWorld c3 s3), (mkWorld c4 s4).
  refine (conj Hws (conj Hr1 (conj Hr2 (conj _ Hr4)))).
  cbn [client_op call_result] in Hr3. rewrite Hr3. rewrite u64_small by lia.
  destruct (Z.ltb_spec (zlen buf) (zlen buf)); [lia|]. unfold as_int. rewrite u32_small by lia.
  by rewrite NetConn.signed4_small by lia.
Qed.

(** The system from end to end: a client that connects to a server with a raw
    volume has it formatted and mounted, creates a file of any valid name in the
    root directory, writes to it at any offset up to the largest file size, and
    reads the same bytes back, over any network that delivers the bytes in
    order, however it cuts them. *)
Theorem remote_create_write_read key t conn n c s name mode buf off :
  let uid := ACLayer.next_uid (acl_layer s) in
  cl_serv_sa = CryptoKey.mk key true t -> accepting conn s -> fs_initialized s = false ->
  v_raw (FsAlloc.store (hfs s)) -> room (NUM_BLOCKS (hfs s)) -> open_file_tab (hfs s) = ∅ -> 0 <= uid < 2 ^ 32 ->
  RawNet.inbox (NetConn.socket n) = [] -> RawNet.outbox (NetConn.socket n) = [] -> ready c key 0 0 [] [] false ->
  name <> [] -> slash ∉ name -> DirEntry.name_ok (root_path name) -> 0 <= mode < 2 ^ 32 ->
  ACLayer.denied true (Some (User.ctor uid)) uid (Z.lor BFS__S_IFREG mode) = false ->
  0 <= off -> off + zlen buf <= MAX_FILE_SIZE ->
  exists s0 w1 w2 w3 w4,
    worker_start use_mt srnd skernel cl_serv_sa uninit indet conn n s = Ok () s0 /\
    rpc conn (Client.bfs_init crnd ckernel true) (mkWorld c s0) = Ok (Some rc_success) w1 /\
    rpc conn (Client.bfs_create crnd ckernel (root_path name) mode) w1 = Ok (rc_success, Some START_FD) w2 /\
    rpc conn (Client.bfs_write crnd ckernel START_FD buf off) w2 = Ok (zlen buf) w3 /\
    rpc conn (Client.bfs_read crnd ckernel START_FD (zlen buf) off) w3 = Ok (zlen buf, buf) w4.
Proof. exact (remote_session_Ok key t conn n c s name mode buf off). Qed.
End remote.
