(* ===== verification/RemoteCache.v ===== *)
(** * The client's cache over the network

    [ClientCache] states what the cache needs of the server as an interface.
    Here the interface is implemented by the calls of [RpcSpec], its law is
    proved from the file system's, and the whole path of a byte is followed:
    from a write to the local file, over the flush and the encrypted packets, to
    the blocks of the volume. *)
From S2P Require Import Prelude Layout BfsUtil CoreTypes FlexBuffer SecAssoc Wire BlockLayer BlockStore Volume FsAlloc Acl FsDir FsDirSpec FsFile FsOps FsOpsSpec FsCreate Mkfs Server Client ClientCache Rpc RpcSpec Remote.
Import Msg.

(** ** A file as a string of bytes *)
Section file.
Context {B : Type} `{BlockStore B} {blaws : BlockStoreLaws B} (acl : bool).
Abbreviation fs := (FsAlloc.fs B).
Implicit Types s : fs.

(** The user has a file with all its blocks open as [fh], and [f] is in it. *)
Record file_is s (usr : option User.t) (fh : Z) (f : bytes) : Prop := {
  fi_good : good s;
  fi_blocks : exists ino i ib vs blks, opened acl s usr fh ino i /\ file_at s i ib vs blks /\
    zlen vs = MAX_FILE_BLKS /\ Inode.size i = zlen f /\ f = sub (concat blks) 0 (zlen f);
  fi_size : zlen f <= MAX_FILE_SIZE
}.

Lemma pwrite_lookup off d f k : 0 <= off ->
  pwrite off d f !! k = if decide (off <= Z.of_nat k < off + zlen d) then d !! Z.to_nat (Z.of_nat k - off)
    else if decide (zlen f <= Z.of_nat k < off) then Some Byte.x00 else f !! k.
Proof.
  intros Ho. unfold pwrite.
  assert (List.length (take (Z.to_nat off) (f ++ zeros (off - zlen f))) = Z.to_nat off) as Hl.
  { rewrite length_take, length_app. unfold zeros, zlen. rewrite length_replicate. lia. }
  unfold zlen in *. destruct (decide (off <= Z.of_nat k < off + Z.of_nat (List.length d))) as [Hin|Hout].
  - rewrite lookup_app_r, Hl, lookup_app_l by lia. f_equal. lia.
  - destruct (decide (Z.of_nat k < off)) as [Hlt|Hge].
    + rewrite lookup_app_l, lookup_take_lt by lia. destruct (decide (_ <= Z.of_nat k < off)).
      * rewrite lookup_app_r by lia. apply lookup_replicate_2. lia.
      * by rewrite lookup_app_l by lia.
    + rewrite decide_False by lia. rewrite lookup_app_r, Hl, lookup_app_r, lookup_drop by lia. f_equal. lia.
Qed.

Lemma sub_0_lookup l n k : sub l 0 n !! k = if decide (Z.of_nat k < n) then l !! k else None.
Proof.
  unfold sub. change (Z.to_nat 0) with 0%nat. rewrite drop_0. destruct (decide (Z.of_nat k < n)).
  - by rewrite lookup_take_lt by lia.
  - by rewrite lookup_take_ge by lia.
Qed.

Lemma file_is_write s usr fh f buf off :
  file_is s usr fh f -> 0 <= off -> off + zlen buf <= MAX_FILE_SIZE ->
  exists s1, FsFile.bfs_write acl usr fh buf off s = Ok (zlen buf) s1 /\ file_is s1 usr fh (pwrite off buf f).
Proof.
  intros [[Hs HN] (ino&i&ib&vs&blks&Hop&Hfa&Hvs&Hsz&Hf) Hmax] Ho He. pose proof (zlen_nonneg f). pose proof (zlen_nonneg buf).
  unfold MAX_FILE_SIZE in *.
  destruct (write_read_Ok acl s usr fh ino i ib vs blks buf off) as (s1&i1&blks1&Hw&[Hs1 HN1]&Hop1&Hfa1&Hsz1&_&Hl);
    rewrite ?Hvs, ?Hsz; try done.
  exists s1. split; [done|]. assert (zlen (pwrite off buf f) = Inode.size i1) as Hzl by (rewrite pwrite_zlen; lia).
  split; [split; [done|by rewrite HN1]| |unfold MAX_FILE_SIZE; lia].
  exists ino, i1, ib, vs, blks1. split_and!; try done. apply list_eq. intros k.
  rewrite sub_0_lookup, pwrite_lookup, Hzl by done. destruct (decide (Z.of_nat k < Inode.size i1)) as [Hk|Hk].
  - rewrite Hl by lia. rewrite Hsz. repeat case_decide; try done. rewrite Hf at 1. rewrite sub_0_lookup. by rewrite decide_True by lia.
  - rewrite !decide_False by lia. apply lookup_ge_None_2. unfold zlen in *. lia.
Qed.

Lemma file_is_read s usr fh f size off :
  file_is s usr fh f -> 0 <= size -> 0 <= off ->
  exists s', FsFile.bfs_read acl usr fh size off s = Ok (pread off size f) s'.
Proof.
  intros [[Hs HN] (ino&i&ib&vs&blks&Hop&Hfa&Hvs&Hsz&Hf) Hmax] Hz Ho. change MAX_FILE_SIZE with 2146304 in Hmax.
  destruct (bfs_read_file_Ok acl s usr fh ino i ib vs blks size off) as (s'&Hr&_); try done.
  - rewrite Hvs, Hsz. exact Hmax.
  - rewrite Hsz. change BLK_SZ with 4096. lia.
  - exists s'. rewrite Hr, Hsz, <-Hf. done.
Qed.

Lemma created_file_is s u path mode par vs sls bits n s' nb blks de :
  can_create acl s u path de par vs sls bits n -> 0 <= mode < 2 ^ 32 ->
  ACLayer.denied acl (Some u) (User.uid u) (Z.lor BFS__S_IFREG mode) = false ->
  created s u path mode par vs sls bits n s' nb blks -> file_is s' (Some u) (next_fd s) [].
Proof.
  intros Hcc Hm Hacc [Hg Htab Hat Hfa Hnb _ _ _ _ _]. pose proof (cc_range _ _ _ _ _ _ _ _ _ _ Hcc) as Hn.
  pose proof (cc_uid _ _ _ _ _ _ _ _ _ _ Hcc) as Hu. pose proof (cc_pool _ _ _ _ _ _ _ _ _ _ Hcc) as (_&Hds&_&_).
  pose proof (data_start_pos s (proj2 (cc_good _ _ _ _ _ _ _ _ _ _ Hcc))) as Hpos.
  assert (FIRST_UNRESERVED_INO = 8) as H8 by done. assert (ROOT_INO = 2) as HR by done.
  split; [done| |done]. exists n, (new_file n (User.uid u) mode nb), (new_ib nb), (new_vs nb), blks.
  split_and!; try done.
  split; [exists 0; rewrite Htab; by rewrite lookup_insert_eq|]. split; [lia|]. split; [exact Hat|]. split; [done|].
  split; [|done]. apply new_file_wf; lia.
Qed.

Lemma file_is_uid s u u' fh f : User.uid u = User.uid u' -> file_is s (Some u) fh f -> file_is s (Some u') fh f.
Proof. destruct u, u'. cbn [User.uid]. intros ->. by intros [Hg Hb Hz]. Qed.
End file.

(** ** The interface, over the network *)
Section net.
Context {B : Type} `{Volume B} `{Cipher} {claws : CipherLaws}.
Context (use_mt : bool) (srnd crnd : nat -> bytes) (skernel : Z -> nat -> Z) (ckernel : nat -> Z).
Context (cl_serv_sa : CryptoKey.t) (uninit indet : Z) (conn : Z).
Abbreviation world := (world B).
Abbreviation rpc := (rpc use_mt srnd skernel cl_serv_sa uninit indet conn).

Definition net_remote : Remote world := {|
  r_open path := rpc (Client.bfs_open crnd ckernel path);
  r_create path mode := rpc (Client.bfs_create crnd ckernel path mode);
  r_read fh size off := rpc (Client.bfs_read crnd ckernel fh size off);
  r_write fh d off := rpc (Client.bfs_write crnd ckernel fh d off);
  r_release fh := rpc (Client.bfs_release crnd ckernel fh);
  r_truncate path fh len := rpc (Client.bfs_truncate crnd ckernel path fh len)
|}.

Context (srnd_zlen : forall n, zlen (srnd n) = BFS_IV_LEN) (crnd_zlen : forall n, zlen (crnd n) = BFS_IV_LEN).
Context (shealthy : forall cn i, 0 <= skernel cn i) (chealthy : forall i, 0 <= ckernel i).
Context {blaws : BlockStoreLaws B}.

(** The session is in order and its user has the file open. *)
Record serves (w : world) (fh : Z) (f : bytes) : Prop := {
  se_fh : START_FD <= fh /\ fits 8 fh;
  se_handle : bfs_handle (w_server w) = true;
  se_sync : exists key u, in_sync conn key u (w_client w) (w_server w) /\ file_is true (hfs (w_server w)) (Some u) fh f
}.

Lemma serves_write w fh f d off :
  serves w fh f -> 0 <= off -> zlen d <= chunk_size -> off + zlen d <= MAX_FILE_SIZE ->
  exists w', rpc (Client.bfs_write crnd ckernel fh d off) w = Ok (zlen d) w' /\ serves w' fh (pwrite off d f).
Proof.
  intros [[Hfh Hff] Hh (key&u&Hsync&Hfi)] Ho Hd He. destruct w as [c s]. cbn [w_client w_server] in *.
  destruct (file_is_write true _ _ _ _ d off (file_is_uid _ _ u (User.inc_recv_seq u) _ _ eq_refl Hfi) Ho He) as (f1&Hw&Hfi1).
  pose proof (zlen_nonneg d). change MAX_FILE_SIZE with 2146304 in He.
  destruct (remote_call_Ok use_mt srnd crnd skernel ckernel cl_serv_sa uninit indet srnd_zlen crnd_zlen shealthy
    chealthy (CWrite fh d off) conn key u c s (zlen d) f1) as (c'&s'&Hr&Hsync'&K); [|done|done|cbn [server_op]; by rewrite Hw|].
  { cbn [call_ok]. split; [done|]. split; [done|]. split; [split; cbn; lia|lia]. }
  exists (mkWorld c' s'). split.
  - cbn [client_op call_result] in Hr. rewrite Hr. rewrite u64_small by lia.
    destruct (Z.ltb_spec (zlen d) (zlen d)); [lia|]. unfold as_int. rewrite u32_small by lia. by rewrite NetConn.signed4_small by lia.
  - split; [done|cbn [w_server]; by rewrite (kept_handle _ _ _ K)|]. eexists _, _. split; [exact Hsync'|].
    cbn [w_server]. rewrite (kept_fs _ _ _ K). exact (file_is_uid _ _ (User.inc_recv_seq u) (User.inc_send_seq (User.inc_recv_seq u)) _ _ eq_refl Hfi1).
Qed.

Definition net_laws : @RemoteLaws world net_remote :=
  @Build_RemoteLaws world net_remote serves MAX_FILE_SIZE serves_write.

Lemma serves_read w fh f size off :
  serves w fh f -> 0 <= size < 2 ^ 30 -> 0 <= off < 2 ^ 64 ->
  exists w', rpc (Client.bfs_read crnd ckernel fh size off) w = Ok (zlen (pread off size f), pread off size f) w'.
Proof.
  intros [[Hfh Hff] Hh (key&u&Hsync&Hfi)] Hz Ho. destruct w as [c s]. cbn [w_client w_server] in *.
  destruct (file_is_read true _ _ _ _ size off (file_is_uid _ _ u (User.inc_recv_seq u) _ _ eq_refl Hfi)) as (f1&Hr); [lia|lia|].
  destruct (remote_read_Ok use_mt srnd crnd skernel ckernel cl_serv_sa uninit indet srnd_zlen crnd_zlen shealthy
    chealthy conn key u c s fh size off (pread off size f) f1) as (c'&s'&Hrr&_); [|done..|by exists (mkWorld c' s')].
  split; [done|]. split; [done|]. split; [lia|]. split; cbn; lia.
Qed.

(** ** From the local file to the blocks *)
Context {vlaws : VolumeLaws B} (mt_on : use_mt = true).

Lemma remote_create_Ok key u c s name mode f0 :
  in_sync conn key u c s -> bfs_handle s = true -> hfs s = f0 -> fresh uninit f0 -> open_file_tab f0 = ∅ ->
  0 <= User.uid u < 2 ^ 32 -> name <> [] -> slash ∉ name -> DirEntry.name_ok (root_path name) -> 0 <= mode < 2 ^ 32 ->
  ACLayer.denied true (Some u) (User.uid u) (Z.lor BFS__S_IFREG mode) = false ->
  exists w, rpc (Client.bfs_create crnd ckernel (root_path name) mode) (mkWorld c s) = Ok (rc_success, Some START_FD) w /\
    serves w START_FD [].
Proof.
  intros Hsync Hh <- Hfr Htab Hu Hne Hns Hnm Hm Hacc. set (u1 := User.inc_recv_seq u).
  destruct (fresh_can_create uninit (hfs s) u1 name Hfr Htab Hu Hne Hns Hnm) as (bits&Hcc).
  destruct (bfs_create_Ok true (hfs s) u1 (root_path name) mode _ _ _ _ _ _ Hcc Hm) as (f1&nb&blks&Hcr&Hcd).
  pose proof (created_file_is true _ _ _ _ _ _ _ _ _ _ _ _ _ Hcc Hm Hacc Hcd) as Hfi. rewrite (fr_fd _ _ Hfr) in Hcr, Hfi.
  destruct (remote_call_Ok use_mt srnd crnd skernel ckernel cl_serv_sa uninit indet srnd_zlen crnd_zlen shealthy
    chealthy (CCreate (root_path name) mode) conn key u c s START_FD f1) as (c2&s2&Hr2&Hsync2&K2).
  { split; [by apply root_path_ok|done]. } { done. } { done. } { cbn [server_op]. fold u1. by rewrite Hcr. }
  exists (mkWorld c2 s2). split; [exact Hr2|]. split; [split; [done|split; vm_compute; congruence]| |].
  - cbn [w_server]. by rewrite (kept_handle _ _ _ K2).
  - eexists _, _. split; [exact Hsync2|]. cbn [w_server]. rewrite (kept_fs _ _ _ K2).
    exact (file_is_uid _ _ u1 (User.inc_send_seq u1) _ _ eq_refl Hfi).
Qed.

(** C3. The whole path of the data with the shipped configuration: a client that
    connects to a server with a raw volume, creates a file through its cache,
    writes any data to it and flushes, has put exactly that data into the file on
    the server: every range that is then asked of the server holds the bytes of
    the data. *)
Theorem cached_data_reaches_volume openable wc key t n c s name mode buf :
  let uid := ACLayer.next_uid (acl_layer s) in
  cl_serv_sa = CryptoKey.mk key true t -> accepting conn s -> fs_initialized s = false ->
  v_raw (FsAlloc.store (hfs s)) -> room (NUM_BLOCKS (hfs s)) -> open_file_tab (hfs s) = ∅ -> 0 <= uid < 2 ^ 32 ->
  RawNet.inbox (NetConn.socket n) = [] -> RawNet.outbox (NetConn.socket n) = [] -> ready c key 0 0 [] [] false ->
  name <> [] -> slash ∉ name -> DirEntry.name_ok (root_path name) -> 0 <= mode < 2 ^ 32 ->
  ACLayer.denied true (Some (User.ctor uid)) uid (Z.lor BFS__S_IFREG mode) = false ->
  zlen buf <= MAX_FILE_SIZE -> openable (tmp_path (root_path name)) = true -> wb_writer wc = false ->
  exists s0 w1 s1 s2 s3,
    worker_start use_mt srnd skernel cl_serv_sa uninit indet conn n s = Ok () s0 /\
    rpc (Client.bfs_init crnd ckernel true) (mkWorld c s0) = Ok (Some rc_success) w1 /\
    @bfs_create world net_remote openable (root_path name) mode (mkFc wc w1) = Ok (rc_success, Some START_FD) s1 /\
    @bfs_write world net_remote false START_FD buf 0 s1 = Ok (zlen buf) s2 /\
    @bfs_flush world net_remote false START_FD s2 = Ok rc_success s3 /\
    forall size off, 0 <= size < 2 ^ 30 -> 0 <= off < 2 ^ 64 ->
      exists w, rpc (Client.bfs_read crnd ckernel START_FD size off) (net s3) =
        Ok (zlen (pread off size buf), pread off size buf) w.
Proof.
  intros uid Hkey Hacc Hi Hraw Hroom Htab Huid Hin Hout Hc Hne Hns Hnm Hmode Hden Hlen Hop Hfree.
  destruct (worker_start_Ok use_mt srnd skernel uninit indet cl_serv_sa key t conn n s Hkey Hacc)
    as (s0&Hws&Hs0&Hf0&_&Hi0&_). rewrite Hin, Hout in Hs0. rewrite Hi in Hi0. fold uid in Hs0.
  destruct (boot_Ok use_mt mt_on uninit (hfs s) Hraw Hroom) as (f0&Hb&Hfr&_&_&Ht0). rewrite Htab in Ht0. rewrite <-Hf0 in Hb.
  destruct (remote_init_Ok use_mt srnd crnd skernel ckernel cl_serv_sa uninit indet srnd_zlen crnd_zlen shealthy chealthy
    conn key (User.ctor uid) c s0 f0 (conj Hc Hs0) Hi0 Hb) as (c1&s1&Hr1&Hsync1&K1).
  destruct (remote_create_Ok key _ c1 s1 name mode f0 Hsync1) as (w2&Hcr&Hse); try done.
  { by rewrite (kept_handle _ _ _ K1). } { by rewrite (kept_fs _ _ _ K1). }
  assert (zlen buf < 2 ^ 31) as Hl31 by (change MAX_FILE_SIZE with 2146304 in Hlen; lia).
  destruct (@create_write_flush_Ok world net_remote net_laws openable (mkFc wc (mkWorld c1 s1)) (root_path name) mode
    START_FD w2 buf Hcr Hse Hop Hfree Hlen Hl31) as (t1&t2&t3&Hc1&Hw1&_&Hfl&Hho&_).
  exists s0, (mkWorld c1 s1), t1, t2, t3. refine (conj Hws (conj Hr1 (conj Hc1 (conj Hw1 (conj Hfl _))))).
  intros size off Hsz Hoff. exact (serves_read _ _ _ _ _ Hho Hsz Hoff).
Qed.
End net.
