(* ===== verification/RemoteFaults.v ===== *)
(** * Errors and attacks on the network

    What client and server do when an operation fails inside the server, when a
    message is not authentic or not the next one, when one connection's messages
    turn up on another, and at the ends of a session. *)
From S2P Require Import Prelude Layout BfsUtil CoreTypes FlexBuffer SecAssoc Wire BlockLayer BlockStore Volume FsAlloc Acl FsDir FsDirSpec FsFile FsOps Mkfs Server Client Rpc RpcSpec Remote.
Import FlexBuffer FlexStream Msg.

(** ** The client's half *)
Section client.
Context `{Cipher} {claws : CipherLaws} (rnd : nat -> bytes) (kernel : nat -> Z).
Context (healthy : forall i, 0 <= kernel i).

(** What a function of the client returns when it has caught an exception. *)
Definition call_failed {A} (k : call A) : A :=
  match k in call A return A with
  | COpen _ | COpendir _ | CCreate _ _ => (rc_failure, None)
  | _ => rc_failure
  end.

(** The exception [e] ends an operation with [rc_failure] and the state [c2]. *)
Definition caught (c : client) (e : exn) (c1 c2 : client) : Prop :=
  forall X (m : M client X), m c = Throw e c1 -> guarded m c = Ok (inr rc_failure) c2.

Lemma caught_crypto c msg c1 : caught c (bfsCryptoError msg) c1 c1.
Proof.
  intros X m Hm. unfold guarded, catch. by rewrite (bind_Throw _ _ _ _ _ Hm).
Qed.

Definition dead (c : client) : client :=
  mkClient (c_net c) (c_sa c) (send_seq c) (recv_seq c) (mux_lock c) false (c_draws c).

Lemma caught_runtime c msg c1 : caught c (std_runtime_error msg) c1 (dead c1).
Proof.
  intros X m Hm. unfold guarded, catch. by rewrite (bind_Throw _ _ _ _ _ Hm).
Qed.

Lemma op_recv_throws {A} (k : call A) c e c1 c2 :
  (forall len types short, recv_msgp kernel FlexBuffer.empty len types short c = Throw e c1) ->
  caught c e c1 c2 -> op_recv (client_op rnd kernel k) c = Ok (call_failed k) c2.
Proof.
  intros Hr Hc.
  assert (forall X len otype short (m : M FlexBuffer.t X), recv_response kernel len otype short m c = Throw e c1) as Hrr
    by (intros; apply bind_Throw, Hr).
  destruct k; cbn [client_op op_recv call_failed call_type Client.bfs_mkdir Client.bfs_unlink Client.bfs_rmdir
    Client.bfs_rename Client.bfs_chmod Client.bfs_open Client.bfs_opendir Client.bfs_create
    Client.bfs_release Client.bfs_write] in *; unfold receiving, receiving_fh;
  (rewrite (bind_Ok _ _ c (inr rc_failure) c2); [done|]); apply Hc;
  first [apply Hrr|apply bind_Throw, Hrr].
Qed.

(** Nothing came and nothing will: the server has closed the connection. *)
Lemma client_starved {A} (k : call A) c key sseq rseq outb :
  ready c key sseq rseq [] outb true ->
  exists c', op_recv (client_op rnd kernel k) c = Ok (call_failed k) c' /\ c_live c' = false /\ mux_lock c' = false.
Proof.
  intros [Hlv Hlk _ _ _ Hin _].
  destruct (NetConn.recvPacketizedBuffer_closed kernel healthy FlexBuffer.empty [Byte.x00] [] (c_net c))
    as (b&n&Hr&_); [apply SecAssoc.roomy_empty|done|apply prefix_nil|done|done|].
  exists (dead (set_lock false (set_net n c))). split; [|done].
  eapply op_recv_throws; [|apply (caught_runtime c "Failed during recvPacketizedDataL")].
  intros len types short. unfold recv_msgp. by mrun (on_net_Ok _ _ _ _ Hr).
Qed.

(** A response whose tag is wrong: the lock stays taken. *)
Lemma client_forged {A} (k : call A) c key sseq rseq outb v ct t :
  ready c key sseq rseq (NetConn.frame (v ++ ct ++ t)) outb true ->
  zlen v = BFS_IV_LEN -> zlen t = BFS_MAC_LEN -> zlen ct + 60 < 2 ^ 31 ->
  t <> gcm_tag (CryptoKey.cipher_key (CryptoKey.setKeyData key)) v (le_split 4 rseq) ct ->
  exists c', op_recv (client_op rnd kernel k) c = Ok (call_failed k) c' /\ mux_lock c' = true /\ c_live c' = true.
Proof.
  intros [Hlv Hlk [[t0 Hk] [Hwi Hli]] <- <- Hin <-] Hv Ht Hz Hne.
  assert (0 < zlen (v ++ ct ++ t) < 2 ^ 31) as Hm.
  { rewrite !zlen_app, Hv, Ht. pose proof (zlen_nonneg ct). unfold BFS_IV_LEN, BFS_MAC_LEN. lia. }
  destruct (NetConn.recvPacketizedBuffer_ok kernel healthy FlexBuffer.empty (v ++ ct ++ t) [] (c_net c))
    as (b&n&Hrecv&(Hi&Hout&_)&[Hwb Hrb]&Hnb&Hcb&_); [apply SecAssoc.roomy_empty|done|by rewrite app_nil_r|].
  destruct (SecAssoc.decryptData_rejects (SecAssoc.mkst (sa_key (c_sa c)) (sa_iv (c_sa c)) b FlexBuffer.empty) _
    (seq_aad (recv_seq c)) v ct t Hk) as (st&Hd); [done..|].
  exists (set_sa (mkSa (SecAssoc.saKey st) (SecAssoc.iv st)) (set_net n c)). split; [|done].
  eapply op_recv_throws; [|apply (caught_crypto c "gcrypt MAC verification failure: ")].
  intros len types short. unfold recv_msgp. mrun (on_net_Ok _ _ _ _ Hrecv).
  destruct (Z.eqb_spec (zlen (v ++ ct ++ t)) 0); [lia|]. destruct (Z.eqb_spec (zlen (v ++ ct ++ t)) (-1)); [lia|].
  cbn [orb]. rewrite bind_gets. apply bind_Throw. unfold c_crypt. cbn [recv_seq set_net c_sa]. by rewrite Hd.
Qed.

(** Later calls of a client that gave up, or that still holds its lock. *)
Lemma op_send_crash {A} (k : call A) c x :
  call_ok k -> (forall b, send_sealed rnd kernel b c = Crash x) -> op_send (client_op rnd kernel k) c = Crash x.
Proof.
  intros Hk Hs.
  assert (send_request rnd kernel (call_data k) (call_fields k ++ headers (call_type k)) c = Crash x) as Hr.
  { destruct (request_pkt (call_data k) (call_fields k ++ headers (call_type k))) as (b&Hb&_).
    - destruct k; cbn in *; unfold path_ok in *; rewrite ?zlen_app, ?c_path_zlen; change (zlen (@nil byte)) with 0; lia.
    - by destruct k.
    - destruct k; cbn; lia.
    - unfold send_request. by mrun (c_pkt_Ok _ _ _ _ c Hb). }
  assert (forall X (m : M client X), m c = Crash x -> guarded m c = Crash x) as Hg.
  { intros X m Hm. unfold guarded, catch. by rewrite (bind_Crash _ _ _ _ Hm). }
  destruct k; cbn [client_op op_send Client.bfs_mkdir Client.bfs_unlink Client.bfs_rmdir
    Client.bfs_rename Client.bfs_chmod Client.bfs_open Client.bfs_opendir Client.bfs_create
    Client.bfs_release Client.bfs_write]; unfold sending, sending_fh;
  first [exact (Hg _ _ Hr)|exact (bind_Crash _ _ _ _ (Hg _ _ Hr))|
    apply Hg; cbn in Hk; by rewrite bind_assert by (apply Z.leb_le; lia)].
Qed.

Lemma dead_client_crashes {A} (k : call A) c :
  call_ok k -> mux_lock c = false -> c_live c = false -> op_send (client_op rnd kernel k) c = Crash Undefined_behaviour.
Proof.
  intros Hk Hm Hl. apply op_send_crash; [done|]. intros b. unfold send_sealed, lock.
  rewrite bind_assoc, bind_gets, Hm, bind_modify, bind_gets. cbn [c_live set_lock]. by rewrite Hl.
Qed.

Lemma locked_client_hangs {A} (k : call A) c :
  call_ok k -> mux_lock c = true -> op_send (client_op rnd kernel k) c = Crash Deadlocked.
Proof.
  intros Hk Hm. apply op_send_crash; [done|]. intros b. unfold send_sealed, lock.
  by rewrite bind_assoc, bind_gets, Hm.
Qed.
End client.

(** ** Whole calls *)
Section faults.
Context {B : Type} `{Volume B} `{Cipher} {claws : CipherLaws}.
Context (use_mt : bool) (srnd crnd : nat -> bytes) (skernel : Z -> nat -> Z) (ckernel : nat -> Z).
Context (cl_serv_sa : CryptoKey.t) (uninit indet : Z).
Context (srnd_zlen : forall n, zlen (srnd n) = BFS_IV_LEN) (crnd_zlen : forall n, zlen (crnd n) = BFS_IV_LEN).
Context (shealthy : forall cn i, 0 <= skernel cn i) (chealthy : forall i, 0 <= ckernel i).
Implicit Types (s : srv B) (c : client).
Abbreviation rpc := (rpc use_mt srnd skernel cl_serv_sa uninit indet).
Abbreviation round := (worker_round use_mt srnd skernel cl_serv_sa uninit indet).
Abbreviation client_op := (client_op crnd ckernel).

(** The first part of the calls of [call]. *)
Lemma call_round {A} (k : call A) conn key u c s :
  call_ok k -> in_sync conn key u c s ->
  exists c1 s1, rpc conn (client_op k) (mkWorld c s) =
      (on_server (do_op srnd skernel conn (call_type k) (call_width k) (server_op k) ≫= round_end conn) ;;
       modify (carry_down conn) ;; on_client (op_recv (client_op k))) (mkWorld c1 s1) /\
    ready c1 key (u32 (User.user_recv_seq u + 1)) (User.user_send_seq u) [] [] true /\
    kept conn s s1 /\ session s1 conn key (User.inc_recv_seq u) [] [] /\ draws s1 = draws s.
Proof.
  intros Hk Hsync.
  apply (rpc_round use_mt srnd crnd skernel cl_serv_sa uninit indet crnd_zlen shealthy conn key u c s (client_op k)
    (call_type k) (call_body k) (fun conn => do_op srnd skernel conn (call_type k) (call_width k) (server_op k))).
  - done.
  - exact (client_sends crnd ckernel crnd_zlen chealthy k c key _ _ [] [] Hk (proj1 Hsync)).
  - apply call_type_int.
  - destruct k; cbn [call_ok call_body] in *; unfold path_ok in *;
      rewrite ?zlen_app, ?zlen_le_split, ?c_path_zlen; lia.
  - intros conn0 rpkt s0 ???. by apply server_runs.
Qed.

(** The worker ends: the connection object is gone. *)
Lemma round_end_failed conn rc s :
  rc <> rc_success -> round_end conn rc s = Ok true (set_links (delete conn (links s)) s).
Proof. intros Hr. unfold round_end. by rewrite (proj2 (Z.eqb_neq _ _) Hr). Qed.

Lemma kept_delete conn s : kept conn s (set_links (delete conn (links s)) s).
Proof. constructor; try done. intros c Hc. cbn. by rewrite lookup_delete_ne. Qed.

Lemma server_error_Ok {A A'} (k : call A) (k' : call A') conn key u c s msg f :
  call_ok k -> call_ok k' -> in_sync conn key u c s -> bfs_handle s = true ->
  server_op k true (Some (User.inc_recv_seq u)) (hfs s) = Throw (BfsServerError msg) f ->
  exists c' s', rpc conn (client_op k) (mkWorld c s) = Ok (call_failed k) (mkWorld c' s') /\
    kept conn (set_hfs f s) s' /\ links s' !! conn = None /\
    rpc conn (client_op k') (mkWorld c' s') = Crash Undefined_behaviour.
Proof.
  intros Hk Hk' Hsync Hh Herr. destruct (call_round k conn key u c s Hk Hsync) as (c1&s1&Hrpc&Hr1&K1&Hs1&_).
  assert (bfs_handle s1 = true) as Hh1 by (by rewrite (kept_handle _ _ _ K1)).
  rewrite <-(kept_fs _ _ _ K1) in Herr.
  pose proof (run_op_server_error s1 conn key _ [] [] (- EPERM) rc_failure msg f _ true Hs1 Hh1 Herr) as Hrun.
  set (s2 := set_links (delete conn (links s1)) (set_hfs f s1)).
  assert (on_server (do_op srnd skernel conn (call_type k) (call_width k) (server_op k) ≫= round_end conn) (mkWorld c1 s1)
    = Ok true (mkWorld c1 s2)) as E.
  { unfold on_server. cbn [w_server w_client]. unfold do_op. rewrite bind_assoc. mrun Hrun. rewrite bind_ret.
    by rewrite round_end_failed. }
  assert (links s2 !! conn = None) as Hl by (cbn; by rewrite lookup_delete_eq).
  destruct (client_starved crnd ckernel chealthy k c1 key _ _ [] Hr1) as (c2&Hc2&Hd2&Hm2).
  exists c2, s2. rewrite Hrpc. mrun E. rewrite (bind_modify (carry_down conn)).
  unfold carry_down. cbn [w_server w_client]. rewrite Hl.
  unfold on_client at 1. cbn [w_server w_client]. rewrite Hc2. split_and!; try done.
  - etransitivity; [|exact (kept_delete conn (set_hfs f s1))]. destruct K1. by constructor.
  - unfold rpc. apply bind_Crash. unfold on_client. cbn [w_client]. by rewrite dead_client_crashes.
Qed.

(** A message that is not the next one of the connection. *)
Lemma round_refused s conn key u v ct t rest outb :
  session s conn key u (NetConn.frame (v ++ ct ++ t) ++ rest) outb ->
  zlen v = BFS_IV_LEN -> zlen t = BFS_MAC_LEN -> zlen ct + 60 < 2 ^ 31 ->
  t <> gcm_tag (CryptoKey.cipher_key (CryptoKey.setKeyData key)) v (le_split 4 (User.user_recv_seq u)) ct ->
  exists s', round conn s = Ok true s' /\ kept conn s s' /\ links s' !! conn = None.
Proof.
  intros Hs Hv Ht Hz Hne.
  assert (0 < zlen (v ++ ct ++ t) < 2 ^ 31) as Hm.
  { rewrite !zlen_app, Hv, Ht. pose proof (zlen_nonneg ct). unfold BFS_IV_LEN, BFS_MAC_LEN. lia. }
  destruct (recv_packet_Ok skernel shealthy _ _ _ _ _ _ _ Hs) as (s1&Hrecv&K1&Hs1&Hh1&_); [done|].
  destruct (open_pkt_refused s1 conn key u rest outb v ct t Hs1 Hh1 Hv Ht Hne) as (s2&Hopen&K2&Hs2).
  exists (set_links (delete conn (links s2)) s2). split; [|split; [|cbn; by rewrite lookup_delete_eq]].
  - unfold worker_round. mrun Hrecv. destruct (Z.ltb_spec 0 (zlen (v ++ ct ++ t))); [|lia].
    rewrite bind_assoc. unfold ecall_bfs_handle_in_msg at 1. rewrite !bind_assoc, bind_gets.
    unfold ACLayer.get_user_context. rewrite (se_init _ _ _ _ _ _ Hs1), (se_user _ _ _ _ _ _ Hs1). cbn [negb].
    rewrite bind_assoc. by mrun Hopen.
  - etransitivity; [exact K1|]. etransitivity; [exact K2|]. apply kept_delete.
Qed.
(** ** The ends of a session *)
Lemma init_sends do_mkfs key u c :
  ready c key (User.user_recv_seq u) (User.user_send_seq u) [] [] false ->
  requests crnd key u c (Client.bfs_init crnd ckernel do_mkfs)
    (if do_mkfs then CLIENT_INIT_MKFS_OP else CLIENT_INIT_OP) [].
Proof.
  intros Hr. destruct (send_request_Ok crnd ckernel crnd_zlen chealthy c key _ _ [] [] None
    (headers (if do_mkfs then CLIENT_INIT_MKFS_OP else CLIENT_INIT_OP)) Hr) as (c'&Hs&Hr'); [done..|].
  exists c'. cbn [Client.bfs_init op_send].
  split; [by mrun (session_op_Ok _ cleanup _ _ _ Hs)|]. exact Hr'.
Qed.

(** [mount] refuses a handle that was not formatted before. *)
Lemma handle_init_refused s conn :
  (forall b, v_status (v_set_status INITIALIZED b) = INITIALIZED) -> fs_initialized s = false ->
  exists f, handle_init use_mt srnd skernel uninit conn false s = Ok rc_failure (set_handle true false (set_hfs f s)).
Proof.
  intros Hst Hi. set (f := set_store (v_set_status INITIALIZED (FsAlloc.store (hfs s))) (set_next_fd START_FD (hfs s))).
  exists f. unfold handle_init.
  rewrite (bind_Ok _ _ s None (set_handle true false (set_hfs f s))); [done|].
  unfold catch. rewrite bind_gets, Hi. cbn [negb]. rewrite bind_assoc.
  rewrite (bind_Ok _ _ s () (set_hfs f s)) by reflexivity.
  rewrite bind_assoc, bind_modify, bind_assoc, bind_ret, bind_assoc.
  rewrite (bind_Throw _ _ _ (BfsServerError "Trying to mount from incorrect fs state.")
    (set_handle true false (set_hfs f s))); [done|].
  unfold on_fs. cbn [hfs set_handle set_hfs]. unfold mount. rewrite bind_gets.
  change (FsAlloc.store f) with (v_set_status INITIALIZED (FsAlloc.store (hfs s))). rewrite Hst. cbn. by rewrite Hi.
Qed.

Lemma init_without_mkfs_Ok conn key u c s :
  (forall b, v_status (v_set_status INITIALIZED b) = INITIALIZED) ->
  in_sync conn key u c s -> fs_initialized s = false ->
  exists c' s', rpc conn (Client.bfs_init crnd ckernel false) (mkWorld c s) = Ok None (mkWorld c' s') /\
    c_live c' = false /\ links s' !! conn = None /\ fs_initialized s' = false.
Proof.
  intros Hst Hsync Hi.
  destruct (rpc_round use_mt srnd crnd skernel cl_serv_sa uninit indet crnd_zlen shealthy conn key u c s
    (Client.bfs_init crnd ckernel false) CLIENT_INIT_OP [] (fun conn => handle_init use_mt srnd skernel uninit conn false))
    as (c1&s1&Hrpc&Hr1&K1&_); [done|by apply init_sends, Hsync|split; vm_compute; congruence|done|done|].
  rewrite <-(kept_init _ _ _ K1) in Hi. destruct (handle_init_refused s1 conn Hst Hi) as [f Hf].
  set (s2 := set_links (delete conn (links s1)) (set_handle true false (set_hfs f s1))).
  assert (on_server (handle_init use_mt srnd skernel uninit conn false ≫= round_end conn) (mkWorld c1 s1)
    = Ok true (mkWorld c1 s2)) as E.
  { unfold on_server. cbn [w_server w_client]. mrun Hf. by rewrite round_end_failed. }
  assert (links s2 !! conn = None) as Hl by (cbn; by rewrite lookup_delete_eq).
  destruct Hr1 as [_ _ _ _ _ Hin _].
  destruct (NetConn.recvPacketizedBuffer_closed ckernel chealthy FlexBuffer.empty [Byte.x00] [] (c_net c1))
    as (b&n&Hr&_); [apply SecAssoc.roomy_empty|done|apply prefix_nil|done|done|].
  exists (dead (set_lock false (set_net n c1))), s2. rewrite Hrpc. mrun E. rewrite (bind_modify (carry_down conn)).
  unfold carry_down. cbn [w_server w_client]. rewrite Hl. split_and!; try done.
  unfold on_client. cbn [w_client w_server Client.bfs_init op_recv]. unfold session_op, catch.
  rewrite (bind_Throw _ _ c1 (std_runtime_error "Failed during recvPacketizedDataL") (set_lock false (set_net n c1))); [done|].
  unfold recv_response, recv_msgp. rewrite bind_assoc. by mrun (on_net_Ok _ _ _ _ Hr).
Qed.

(** Without the handle every operation of the file system follows a null
    pointer. *)
Lemma no_handle_Ok {A} (k : call A) conn key u c s :
  call_ok k -> in_sync conn key u c s -> bfs_handle s = false ->
  rpc conn (client_op k) (mkWorld c s) = Crash Undefined_behaviour.
Proof.
  intros Hk Hsync Hh. destruct (call_round k conn key u c s Hk Hsync) as (c1&s1&Hrpc&_&K1&Hs1&_).
  rewrite Hrpc. apply bind_Crash. unfold on_server. cbn [w_server].
  unfold do_op, run_op. rewrite !bind_assoc, bind_gets.
  rewrite bind_assoc. mrun (the_user_Ok _ _ _ _ _ _ Hs1). rewrite bind_assoc, bind_gets.
  by rewrite (kept_handle _ _ _ K1), Hh.
Qed.
(** Calls on [conn] leave the sessions of other connections. *)
Lemma session_other conn conn' s s' key u inb outb :
  kept conn s s' -> ACLayer.ACLayerInitialized (acl_layer s') = true -> conn' <> conn ->
  session s conn' key u inb outb -> session s' conn' key u inb outb.
Proof.
  intros K Hi Hne [_ Hu Hsa Hl]. constructor; [done|by rewrite (kept_users _ _ _ K)|by rewrite (kept_sas _ _ _ K)|].
  by rewrite (kept_links _ _ _ K).
Qed.

(** A reply of one code in a session that is not about the file system. *)
Lemma session_call_Ok {A} (o : Client.op A) otype rtype conn key u c s s1 m f (a : A) (P : client -> Prop) :
  in_sync conn key u c s -> requests crnd key u c o otype [] -> is_int otype -> is_int rtype ->
  handles use_mt srnd skernel uninit indet otype [] m ->
  (forall s0, kept conn s s0 -> m conn s0 = reply srnd skernel conn rtype [(4%nat, rc_success)] (f s0)) ->
  (forall s0, kept conn s s0 -> kept conn s1 (f s0) /\ draws (f s0) = draws s0 /\
     (forall u inb outb, session s0 conn key u inb outb -> session (f s0) conn key u inb outb)) ->
  (forall c, ready c key (u32 (User.user_recv_seq u + 1)) (User.user_send_seq u)
       (NetConn.frame (message key (User.user_send_seq u) (srnd (draws s)) (response rtype 4 rc_success))) [] true ->
     exists c', op_recv o c = Ok a c' /\ P c') ->
  exists c' s', rpc conn o (mkWorld c s) = Ok a (mkWorld c' s') /\ P c' /\
    session s' conn key (User.inc_send_seq (User.inc_recv_seq u)) [] [] /\ kept conn s1 s'.
Proof.
  intros Hsync Hreq Ho Hro Hh Hm Hf Hrecv.
  destruct (rpc_until use_mt srnd crnd skernel cl_serv_sa uninit indet crnd_zlen shealthy conn key u c s o otype [] m
    s1 (response rtype 4 rc_success) Hsync Hreq Ho) as (c1&s2&Hrpc&Hr1&Hs2&K2); [done|done| |].
  - intros s0 K Hs0 Hd0. destruct (Hf s0 K) as (Kf&Hdf&Hsf).
    destruct (reply_Ok srnd skernel srnd_zlen shealthy (f s0) conn key _ [] [] rtype [(4%nat, rc_success)] (Hsf _ _ _ Hs0))
      as (s'&Hr&K'&Hs'&_); [done|done|].
    rewrite Hdf, Hd0 in Hs'. exists s'. rewrite Hm by done. split_and!; [done|by etransitivity|exact Hs'].
  - destruct (Hrecv c1 Hr1) as (c2&Hc2&HP). exists c2, s2. rewrite Hrpc. unfold on_client. cbn [w_client w_server].
    by rewrite Hc2.
Qed.

(** The response of the calls above. *)
Lemma session_code_Ok c key sseq rseq rtype outb r :
  ready c key sseq rseq (NetConn.frame (message key rseq r (response rtype 4 rc_success))) outb true ->
  zlen r = BFS_IV_LEN -> is_int rtype ->
  exists c', recv_response ckernel 12 rtype false (pull_int 4) c = Ok rc_success c' /\
    ready c' key sseq (u32 (rseq + 1)) [] outb false.
Proof.
  intros Hr Hz Ht. eapply recv_response_Ok; [done|exact Hr|done|done|done|done|].
  intros b Hw Hn Hc. destruct (pull_int_code 4 rc_success b Hw Hn Hc) as [b' Hb']. exists b'. exact Hb'.
Qed.
Lemma destroy_Ok conn key u c s :
  in_sync conn key u c s ->
  exists c' s', rpc conn (Client.bfs_destroy crnd ckernel) (mkWorld c s) = Ok (Some rc_success) (mkWorld c' s') /\
    bfs_handle s' = false /\ fs_initialized s' = fs_initialized s /\ c_live c' = false /\
    (forall conn' key' u' inb outb, conn' <> conn -> session s conn' key' u' inb outb -> session s' conn' key' u' inb outb).
Proof.
  intros Hsync.
  set (dtor_of := fun f : fs B => match Mkfs.dtor f with Ok _ f' => f' | _ => f end).
  set (after := fun s : srv B => set_handle false (fs_initialized s)
    (if bfs_handle s then set_hfs (dtor_of (hfs s)) s else s)).
  destruct (session_call_Ok (Client.bfs_destroy crnd ckernel) CLIENT_DESTROY_OP CLIENT_DESTROY_OP conn key u c s
    (after s) (handle_destroy srnd skernel) after (Some rc_success) (fun c => c_live c = false) Hsync)
    as (c'&s'&Hr&Hl&Hs'&K).
  - destruct (send_request_Ok crnd ckernel crnd_zlen chealthy c key _ _ [] [] None (headers CLIENT_DESTROY_OP)
      (proj1 Hsync)) as (c'&Hs&Hr'); [done..|]. exists c'. cbn [Client.bfs_destroy op_send].
    split; [by mrun (session_op_Ok _ (mret ()) _ _ _ Hs)|]. exact Hr'.
  - split; vm_compute; congruence.
  - split; vm_compute; congruence.
  - done.
  - intros s0 K. unfold handle_destroy. rewrite bind_gets. unfold after. by destruct (bfs_handle s0).
  - intros s0 K. pose proof K as []. unfold after. rewrite kept_handle. split_and!.
    + destruct (bfs_handle s); constructor; cbn; by rewrite ?kept_fs, ?kept_init.
    + by destruct (bfs_handle s).
    + intros u0 inb outb []. by destruct (bfs_handle s); constructor.
  - intros c0 Hr0. destruct (session_code_Ok _ _ _ _ _ _ _ Hr0) as (c'&Hc'&_); [apply srnd_zlen|split; vm_compute; congruence|].
    exists (dead c'). cbn [Client.bfs_destroy op_recv]. by mrun (session_op_Ok _ (mret ()) _ _ _ Hc').
  - exists c', s'. split; [exact Hr|]. pose proof K as [].
    split; [by rewrite kept_handle|]. split; [rewrite kept_init; unfold after; by destruct (bfs_handle s)|].
    split; [done|]. intros conn' key' u' inb outb Hne Hso.
    eapply session_other; [exact K|apply Hs'|done|]. unfold after. destruct Hso. by destruct (bfs_handle s); constructor.
Qed.

(** A later request to initialise is answered without doing anything. *)
Lemma init_second_Ok do_mkfs conn key u c s :
  in_sync conn key u c s -> fs_initialized s = true ->
  exists c' s', rpc conn (Client.bfs_init crnd ckernel do_mkfs) (mkWorld c s) = Ok (Some rc_success) (mkWorld c' s') /\
    in_sync conn key (User.inc_send_seq (User.inc_recv_seq u)) c' s' /\ kept conn s s'.
Proof.
  intros Hsync Hi.
  destruct (session_call_Ok (Client.bfs_init crnd ckernel do_mkfs)
    (if do_mkfs then CLIENT_INIT_MKFS_OP else CLIENT_INIT_OP) CLIENT_INIT_OP conn key u c s s
    (fun conn => handle_init use_mt srnd skernel uninit conn do_mkfs) id (Some rc_success)
    (fun c => ready c key (u32 (User.user_recv_seq u + 1)) (u32 (User.user_send_seq u + 1)) [] [] false) Hsync)
    as (c'&s'&Hr&Hl&Hs'&K).
  - apply init_sends, Hsync.
  - destruct do_mkfs; split; vm_compute; congruence.
  - split; vm_compute; congruence.
  - by destruct do_mkfs.
  - intros s0 K. rewrite <-(kept_init _ _ _ K) in Hi. unfold handle_init.
    rewrite (bind_Ok _ _ s0 (Some rc_success) s0); [done|]. apply catch_Ok. rewrite bind_gets, Hi. done.
  - done.
  - intros c0 Hr0. destruct (session_code_Ok _ _ _ _ _ _ _ Hr0) as (c'&Hc'&Hrd); [apply srnd_zlen|split; vm_compute; congruence|].
    exists c'. split; [|exact Hrd]. cbn [Client.bfs_init op_recv]. exact (session_op_Ok _ _ _ _ _ Hc').
  - exists c', s'. split_and!; [done|split; [exact Hl|done]|done].
Qed.
(** ** Two connections *)

(** A request of the first client, carried to the second connection. *)
Lemma other_connection_Ok {A} (k : call A) key t conn1 conn2 n1 n2 c s ret f :
  let u2 := User.ctor (u32 (ACLayer.next_uid (acl_layer s) + 1)) in
  call_ok k -> cl_serv_sa = CryptoKey.mk key true t -> conn1 <> conn2 ->
  accepting conn1 s -> accepting conn2 s -> bfs_handle s = true -> ready c key 0 0 [] [] false ->
  RawNet.inbox (NetConn.socket n2) = [] -> RawNet.outbox (NetConn.socket n2) = [] ->
  answer (server_op k true (Some (User.inc_recv_seq u2)) (hfs s)) (- EPERM) rc_failure = Some (ret, f) ->
  exists s1 s2 c' s',
    worker_start use_mt srnd skernel cl_serv_sa uninit indet conn1 n1 s = Ok () s1 /\
    worker_start use_mt srnd skernel cl_serv_sa uninit indet conn2 n2 s1 = Ok () s2 /\
    op_send (client_op k) c = Ok (inl ()) c' /\
    round conn2 (w_server (carry_up conn2 (mkWorld c' s2))) = Ok false s' /\ hfs s' = f.
Proof.
  intros u2 Hk Hkey Hne [Hi1 Hu1] [Hi2 Hu2] Hh Hc Hin Hout Ha.
  destruct (worker_start_Ok use_mt srnd skernel uninit indet cl_serv_sa key t conn1 n1 s Hkey (conj Hi1 Hu1))
    as (s1&Hw1&Hs1&Hf1&Hh1&_&_&Ho1).
  assert (accepting conn2 s1) as Hacc2.
  { split; [apply Hs1|]. by rewrite (proj1 (Ho1 conn2 ltac:(congruence))). }
  assert (ACLayer.next_uid (acl_layer s1) = u32 (ACLayer.next_uid (acl_layer s) + 1)) as Hn1.
  { revert Hw1. unfold worker_start. rewrite bind_modify. unfold ecall_bfs_handle_in_msg. rewrite bind_assoc, bind_gets.
    unfold ACLayer.get_user_context. cbn [acl_layer set_links]. rewrite Hi1, Hu1. cbn [negb]. rewrite bind_assoc.
    intros (x&s3&Hadd&Hend)%bind_Ok_inv. unfold add_user_context, ACLayer.add_user_context, ACLayer.alloc_uid in Hadd.
    cbn [acl_layer set_links] in Hadd. rewrite Hi1 in Hadd.
    cbn [ACLayer.user_contexts ACLayer.next_uid ACLayer.ACLayerInitialized] in Hadd. rewrite Hu1 in Hadd.
    simplify_eq. unfold mbind, M_bind, mret, M_ret in Hend. cbn in Hend. by simplify_eq. }
  destruct (worker_start_Ok use_mt srnd skernel uninit indet cl_serv_sa key t conn2 n2 s1 Hkey Hacc2)
    as (s2&Hw2&Hs2&Hf2&Hh2&_&_&_). rewrite Hin, Hout, Hn1 in Hs2. fold u2 in Hs2.
  destruct (client_sends crnd ckernel crnd_zlen chealthy k c key 0 0 [] [] Hk Hc) as (c'&Hsend&Hr').
  exists s1, s2, c'. unfold carry_up. cbn [w_server w_client]. rewrite (rd_out _ _ _ _ _ _ _ Hr'). cbn [app].
  set (p := le_split 4 TO_SERVER ++ le_split 4 (call_type k) ++ call_body k).
  pose proof (session_feed _ _ _ _ _ _ (NetConn.frame (message key 0 (crnd (c_draws c)) p)) Hs2) as Hs3.
  cbn [app] in Hs3. set (s3 := set_links _ s2) in *. rewrite <-(app_nil_r (NetConn.frame _)) in Hs3.
  destruct (round_dispatch use_mt srnd skernel cl_serv_sa uninit indet shealthy s3 conn2 key u2 _ (call_type k)
    (call_body k) [] [] Hs3) as (rpkt&s4&Hround&K4&Hs4&_&Hw&Hn&Hct); [apply crnd_zlen|apply call_type_int| |].
  { destruct k; cbn [call_ok call_body] in *; unfold path_ok in *;
      rewrite ?zlen_app, ?zlen_le_split, ?c_path_zlen; lia. }
  destruct (do_op_answer srnd skernel srnd_zlen shealthy s4 conn2 key _ [] [] (call_type k) (call_width k) (server_op k)
    ret f Hs4) as (s5&Hd5&K5&_).
  { rewrite (kept_handle _ _ _ K4). cbn. by rewrite Hh2, Hh1. }
  { destruct k; cbn; lia. }
  { rewrite (kept_fs _ _ _ K4). cbn. by rewrite Hf2, Hf1. }
  exists s5. split_and!; try done; [|exact (kept_fs _ _ _ K5)].
  rewrite Hround. rewrite (bind_Ok _ _ _ _ _ (eq_trans (server_runs use_mt srnd skernel uninit indet k conn2 rpkt s4
    Hk Hw Hn Hct) Hd5)). done.
Qed.

(** ** The theorems *)

(** An error inside the server ends the session: the operation is reported as
    failed, what it has changed up to then stays, the server drops the
    connection, and the next call of the client uses objects it has deleted. *)
Theorem server_error_ends_session {A A'} (k : call A) (k' : call A') conn key u c s msg f :
  call_ok k -> call_ok k' -> in_sync conn key u c s -> bfs_handle s = true ->
  server_op k true (Some (User.inc_recv_seq u)) (hfs s) = Throw (BfsServerError msg) f ->
  exists c' s', rpc conn (client_op k) (mkWorld c s) = Ok (call_failed k) (mkWorld c' s') /\
    kept conn (set_hfs f s) s' /\ links s' !! conn = None /\
    rpc conn (client_op k') (mkWorld c' s') = Crash Undefined_behaviour.
Proof. exact (server_error_Ok k k' conn key u c s msg f). Qed.

(** C13. A message whose tag is not the one of the next sequence number of the
    connection (forged, replayed, reordered or altered) is refused: the file
    system and every other session stay as they are, and the connection is
    closed. *)
Theorem inauthentic_request_refused s conn key u v ct t rest outb :
  session s conn key u (NetConn.frame (v ++ ct ++ t) ++ rest) outb ->
  zlen v = BFS_IV_LEN -> zlen t = BFS_MAC_LEN -> zlen ct + 60 < 2 ^ 31 ->
  t <> gcm_tag (CryptoKey.cipher_key (CryptoKey.setKeyData key)) v (le_split 4 (User.user_recv_seq u)) ct ->
  exists s', round conn s = Ok true s' /\ kept conn s s' /\ links s' !! conn = None.
Proof. exact (round_refused s conn key u v ct t rest outb). Qed.

(** C36. After a response with a wrong tag the client is stuck: the call fails but
    the lock of the connection stays taken, and the next call waits for it
    forever. *)
Theorem forged_response_deadlocks {A A'} (k : call A) (k' : call A') c key sseq rseq outb v ct t :
  call_ok k' -> ready c key sseq rseq (NetConn.frame (v ++ ct ++ t)) outb true ->
  zlen v = BFS_IV_LEN -> zlen t = BFS_MAC_LEN -> zlen ct + 60 < 2 ^ 31 ->
  t <> gcm_tag (CryptoKey.cipher_key (CryptoKey.setKeyData key)) v (le_split 4 rseq) ct ->
  exists c', op_recv (client_op k) c = Ok (call_failed k) c' /\ op_send (client_op k') c' = Crash Deadlocked.
Proof.
  intros Hk Hr Hv Ht Hz Hne.
  destruct (client_forged crnd ckernel chealthy k c key sseq rseq outb v ct t Hr Hv Ht Hz Hne) as (c'&Hrun&Hm&_).
  exists c'. split; [done|]. by apply locked_client_hangs.
Qed.

(** C37. Connections are not told apart: the first request of one client, carried
    to another fresh connection, is accepted there and runs with the rights of
    the other user, since all associations have the same key and the sequence
    numbers all start at 0. *)
Theorem request_accepted_on_other_connection {A} (k : call A) key t conn1 conn2 n1 n2 c s ret f :
  let u2 := User.ctor (u32 (ACLayer.next_uid (acl_layer s) + 1)) in
  call_ok k -> cl_serv_sa = CryptoKey.mk key true t -> conn1 <> conn2 ->
  accepting conn1 s -> accepting conn2 s -> bfs_handle s = true -> ready c key 0 0 [] [] false ->
  RawNet.inbox (NetConn.socket n2) = [] -> RawNet.outbox (NetConn.socket n2) = [] ->
  answer (server_op k true (Some (User.inc_recv_seq u2)) (hfs s)) (- EPERM) rc_failure = Some (ret, f) ->
  exists s1 s2 c' s',
    worker_start use_mt srnd skernel cl_serv_sa uninit indet conn1 n1 s = Ok () s1 /\
    worker_start use_mt srnd skernel cl_serv_sa uninit indet conn2 n2 s1 = Ok () s2 /\
    op_send (client_op k) c = Ok (inl ()) c' /\
    round conn2 (w_server (carry_up conn2 (mkWorld c' s2))) = Ok false s' /\ hfs s' = f.
Proof. exact (other_connection_Ok k key t conn1 conn2 n1 n2 c s ret f). Qed.

(** The end of one client's session breaks the server for all: the handle is
    deleted but the server still counts as initialised, so that the request of
    another client to initialise changes nothing and every operation it asks for
    follows a null pointer. *)
Theorem destroy_breaks_server {A} (k : call A) do_mkfs conn1 conn2 key1 key2 u1 u2 c1 c2 s :
  call_ok k -> conn2 <> conn1 -> in_sync conn1 key1 u1 c1 s -> in_sync conn2 key2 u2 c2 s -> fs_initialized s = true ->
  exists c1' s' c2' s'',
    rpc conn1 (Client.bfs_destroy crnd ckernel) (mkWorld c1 s) = Ok (Some rc_success) (mkWorld c1' s') /\
    rpc conn2 (Client.bfs_init crnd ckernel do_mkfs) (mkWorld c2 s') = Ok (Some rc_success) (mkWorld c2' s'') /\
    rpc conn2 (client_op k) (mkWorld c2' s'') = Crash Undefined_behaviour.
Proof.
  intros Hk Hne Hs1 [Hc2 Hs2] Hi.
  destruct (destroy_Ok conn1 key1 u1 c1 s Hs1) as (c1'&s'&Hd&Hh&Hi'&_&Hother). rewrite Hi in Hi'.
  destruct (init_second_Ok do_mkfs conn2 key2 u2 c2 s') as (c2'&s''&Hr&Hsync&K); [split; [done|by apply Hother]|done|].
  exists c1', s', c2', s''. split_and!; [done|done|].
  eapply no_handle_Ok; [done|exact Hsync|]. by rewrite (kept_handle _ _ _ K).
Qed.

(** A file system that exists already cannot be mounted through the server:
    the request to initialise without formatting is refused by [mount], and the
    connection is lost. *)
Theorem init_without_mkfs_fails {blaws : BlockStoreLaws B} {vlaws : VolumeLaws B} conn key u c s :
  in_sync conn key u c s -> fs_initialized s = false ->
  exists c' s', rpc conn (Client.bfs_init crnd ckernel false) (mkWorld c s) = Ok None (mkWorld c' s') /\
    c_live c' = false /\ links s' !! conn = None /\ fs_initialized s' = false.
Proof. apply init_without_mkfs_Ok, v_status_set. Qed.
End faults.
