(* ===== verification/RemoteDir.v ===== *)
(** * Listing a directory over the network

    The response to a request for a listing has two messages: the number of
    entries, then the entries, with the fields of the last one first and the
    names behind all fields, each in a place of its own.  The client gets the
    entries that the local call lists, in the opposite order. *)
From S2P Require Import Prelude Layout BfsUtil CoreTypes FlexBuffer SecAssoc Wire BlockLayer BlockStore Volume FsAlloc Acl FsDir FsDirSpec FsFile FsOps Mkfs Server Client Rpc RpcSpec.
Import FlexBuffer FlexStream Msg.

(** ** Bytes in the middle of a buffer *)

Lemma mem_parts b :
  wf b -> exists x y, mem b = x ++ content b ++ y /\ zlen x = hlength b.
Proof.
  intros Hw. pose proof Hw as (?&?&?&?&?&?&?).
  exists (take (Z.to_nat (hlength b)) (mem b)), (drop (Z.to_nat (length b)) (drop (Z.to_nat (hlength b)) (mem b))).
  split; [unfold content; by rewrite !take_drop|]. unfold zlen in *. rewrite length_take. lia.
Qed.

Lemma content_of_parts b x c y :
  wf b -> mem b = x ++ c ++ y -> zlen x = hlength b -> zlen c = length b -> content b = c.
Proof.
  intros Hw Hm Hx Hc. unfold content. rewrite Hm, drop_app_length' by (unfold zlen in *; lia).
  rewrite take_app_length' by (unfold zlen in *; lia). done.
Qed.

Lemma mem_set_middle pre old d post off :
  off = zlen pre -> zlen d = zlen old -> mem_set off d (pre ++ old ++ post) = Some (pre ++ d ++ post).
Proof.
  intros -> Hd. pose proof (zlen_nonneg pre). pose proof (zlen_nonneg post). unfold mem_set.
  rewrite decide_True by (rewrite !zlen_app; lia). f_equal.
  rewrite take_app_length' by (unfold zlen; lia). do 2 f_equal.
  rewrite app_assoc, drop_app_length'; [done|]. rewrite length_app. unfold zlen in *. lia.
Qed.

Lemma store_middle b pre old d post :
  wf b -> content b = pre ++ old ++ post -> zlen d = zlen old ->
  exists b', store (hlength b + zlen pre) d b = Ok () b' /\ wf b' /\ content b' = pre ++ d ++ post /\
    allocation b' = allocation b /\ hlength b' = hlength b /\ (buffer b <> None -> buffer b' <> None).
Proof.
  intros Hw Hc Hd. pose proof Hw as (?&?&?&?&?&?&?). pose proof (content_zlen b Hw) as Hl.
  rewrite Hc, !zlen_app in Hl. pose proof (zlen_nonneg pre). pose proof (zlen_nonneg post). pose proof (zlen_nonneg old).
  destruct (store_ok b (hlength b + zlen pre) d) as (b'&Hr&Hw'&Hm&Hh&Hl'&Ht&Ha&_&Hn); [done|lia..|].
  exists b'. split_and!; try done; [|by rewrite <-Hn].
  destruct (mem_parts b Hw) as (x&y&Hmb&Hx). rewrite Hmb, Hc in Hm.
  replace (x ++ (pre ++ old ++ post) ++ y) with ((x ++ pre) ++ old ++ (post ++ y)) in Hm by (by rewrite <-!app_assoc).
  rewrite mem_set_middle in Hm by (rewrite ?zlen_app; lia). simplify_eq.
  apply (content_of_parts _ x _ y); [done| |lia|rewrite !zlen_app; lia]. by rewrite <-Hm, <-!app_assoc.
Qed.

Lemma load_middle b pre d post :
  wf b -> content b = pre ++ d ++ post -> load (hlength b + zlen pre) (zlen d) b = Ok d b.
Proof.
  intros Hw Hc. pose proof (content_zlen b Hw) as Hl. rewrite Hc, !zlen_app in Hl.
  pose proof (zlen_nonneg pre). pose proof (zlen_nonneg post). pose proof (zlen_nonneg d).
  rewrite (SecAssoc.load_content b (zlen pre) (zlen d) Hw) by lia. rewrite Hc.
  rewrite drop_app_length' by (unfold zlen; lia). by rewrite take_app_length' by (unfold zlen; lia).
Qed.

(** ** Entries on the wire *)

(** The name that is sent for an entry, and its place of fixed size. *)
Definition entry_name (e : DirEntry.t) : bytes := bfs_basename (c_str (DirEntry.de_name e)).

Definition name_slot (e : DirEntry.t) : bytes :=
  (entry_name e ++ [Byte.x00]) ++ zeros (MAX_FILE_NAME_LEN - (zlen (entry_name e) + 1)).

Definition entry_fields (indet : Z) (p : DirEntry.t * Inode.t) : list (nat * Z) :=
  [(4%nat, zlen (entry_name p.1) + 1); (8%nat, Inode.size p.2); (4%nat, Inode.mode p.2);
   (8%nat, DirEntry.ino p.1); (4%nat, indet); (4%nat, indet); (4%nat, indet)].

Definition entry_header (indet : Z) (p : DirEntry.t * Inode.t) : bytes := encode_fields (reverse (entry_fields indet p)).

(** The payload of the second message. *)
Definition listing_payload (indet : Z) (l : list (DirEntry.t * Inode.t)) : bytes :=
  concat (entry_header indet <$> reverse l) ++ concat (name_slot <$> l.*1).

(** A name with the byte behind it fits into its place. *)
Definition name_fits (e : DirEntry.t) : Prop := zlen (entry_name e) + 1 < MAX_FILE_NAME_LEN.

Lemma name_slot_zlen e : name_fits e -> zlen (name_slot e) = MAX_FILE_NAME_LEN.
Proof.
  unfold name_fits, name_slot. intros Hf. rewrite !zlen_app, zlen_zeros by lia. change (zlen [Byte.x00]) with 1. lia.
Qed.

Lemma entry_header_zlen indet p : zlen (entry_header indet p) = DE_LEN.
Proof. unfold entry_header, encode_fields. cbn. rewrite !zlen_app, !zlen_le_split. done. Qed.

Lemma headers_zlen indet l : zlen (concat (entry_header indet <$> l)) = zlen l * DE_LEN.
Proof.
  induction l as [|p l IH]; [done|]. rewrite fmap_cons. cbn [concat]. rewrite zlen_app, entry_header_zlen, IH. unfold zlen. cbn [List.length]. lia.
Qed.

Lemma slots_zlen l : Forall name_fits l -> zlen (concat (name_slot <$> l)) = zlen l * MAX_FILE_NAME_LEN.
Proof.
  induction 1 as [|e l He _ IH]; [done|]. rewrite fmap_cons. cbn [concat]. rewrite zlen_app, name_slot_zlen, IH by done. unfold zlen. cbn [List.length]. lia.
Qed.

(** ** The server's side *)
Section server.
Context {B : Type} `{Volume B} `{Cipher} {claws : CipherLaws}.
Context (use_mt : bool) (rnd : nat -> bytes) (kernel : Z -> nat -> Z) (uninit indet : Z).
Context (rnd_zlen : forall n, zlen (rnd n) = BFS_IV_LEN) (healthy : forall c i, 0 <= kernel c i).
Abbreviation srv := (srv B).
Implicit Types (s : srv) (f : fs B).

(** The inodes of the entries, read one after the other. *)
Fixpoint read_inodes (ents : list DirEntry.t) : M (fs B) (list (DirEntry.t * Inode.t)) :=
  match ents with
  | [] => mret []
  | e :: ents => i ← read_inode (DirEntry.ino e); l ← read_inodes ents; mret ((e, i) :: l)
  end.

Lemma read_inodes_cons e ents f l f' :
  read_inodes (e :: ents) f = Ok l f' ->
  exists i f1 l', l = (e, i) :: l' /\ read_inode (DirEntry.ino e) f = Ok i f1 /\ read_inodes ents f1 = Ok l' f'.
Proof.
  cbn. unfold mbind, M_bind. destruct (read_inode (DirEntry.ino e) f) as [i f1|?|] eqn:?; [|done..].
  destruct (read_inodes ents f1) as [l' f2|?|] eqn:?; [|done..]. intros [= <- <-]. by exists i, f1, l'.
Qed.

Lemma read_inodes_entries ents f l f' : read_inodes ents f = Ok l f' -> l.*1 = ents.
Proof.
  revert f l. induction ents as [|e ents IH]; intros f l Hr; [by injection Hr as <- <-|].
  apply read_inodes_cons in Hr as (i&f1&l'&->&_&Hr). cbn. by rewrite (IH _ _ Hr).
Qed.

Definition ENTRY_COST : Z := DE_LEN + 7 * BFSFLEXBUF_DEFAULT_PAD.

Lemma entry_cost p : push_cost (entry_fields indet p) = ENTRY_COST.
Proof. reflexivity. Qed.

Lemma on_fs_Ok {A} (m : M (fs B) A) s a f : m (hfs s) = Ok a f -> on_fs m s = Ok a (set_hfs f s).
Proof. unfold on_fs. by intros ->. Qed.

(** One entry: its name in the next place, its fields in front. *)
Lemma put_entry_Ok s e i f b hs names left :
  read_inode (DirEntry.ino e) (hfs s) = Ok i f -> name_fits e -> wf b -> buffer b <> None ->
  content b = hs ++ names ++ zeros MAX_FILE_NAME_LEN ++ left -> allocation b + ENTRY_COST < 2 ^ 32 ->
  exists b', put_entry indet e (zlen hs) (zlen names) b s = Ok b' (set_hfs f s) /\ wf b' /\ buffer b' <> None /\
    content b' = entry_header indet (e, i) ++ hs ++ names ++ name_slot e ++ left /\
    allocation b' <= allocation b + ENTRY_COST.
Proof.
  intros Hi Hf Hw Hn Hc Ha. unfold put_entry. fold (entry_name e). set (nm := entry_name e ++ [Byte.x00]).
  set (len := zlen (entry_name e) + 1). assert (zlen nm = len) as Hz by (unfold nm; rewrite zlen_app; done).
  unfold name_fits in Hf. fold len in Hf. set (k := MAX_FILE_NAME_LEN - len). pose proof (zlen_nonneg (entry_name e)).
  assert (zeros MAX_FILE_NAME_LEN = zeros len ++ zeros k) as Hzs.
  { unfold zeros, k. rewrite <-replicate_add. f_equal. unfold MAX_FILE_NAME_LEN in *. lia. }
  rewrite Hzs, <-!app_assoc in Hc. rewrite app_assoc in Hc.
  destruct (store_middle b (hs ++ names) (zeros len) nm (zeros k ++ left)) as (b1&Hr1&Hw1&Hc1&Ha1&Hh1&Hn1);
    [done|done|rewrite zlen_zeros; lia|].
  rewrite zlen_app, Z.add_assoc in Hr1. mrun (on_pkt_Ok _ _ _ _ s Hr1).
  replace ((hs ++ names) ++ nm ++ zeros k ++ left) with ((hs ++ names ++ nm) ++ zeros k ++ left) in Hc1 by (by rewrite <-!app_assoc).
  destruct (store_middle b1 (hs ++ names ++ nm) (zeros k) (zeros k) left) as (b2&Hr2&Hw2&Hc2&Ha2&_&Hn2); [done..|].
  rewrite !zlen_app, Hz, !Z.add_assoc in Hr2. fold k. rewrite (u32_small k) by (unfold k, MAX_FILE_NAME_LEN in *; lia).
  mrun (on_pkt_Ok _ _ _ _ s Hr2). mrun (on_fs_Ok _ _ _ _ Hi).
  destruct (push_all_spec (entry_fields indet (e, i)) b2) as (b3&Hr3&Hw3&Hn3&Hc3&Ha3);
    [done|auto|rewrite entry_cost; lia|].
  mrun (on_pkt_Ok _ _ _ _ (set_hfs f s) Hr3). exists b3. split_and!; try done.
  - rewrite Hc3, Hc2. unfold name_slot. fold nm len k. by rewrite <-!app_assoc.
  - rewrite entry_cost in Ha3. lia.
Qed.

Lemma put_entries_Ok ents s l f b hs names :
  read_inodes ents (hfs s) = Ok l f -> Forall name_fits ents -> wf b -> (ents <> [] -> buffer b <> None) ->
  content b = hs ++ names ++ zeros (zlen ents * MAX_FILE_NAME_LEN) ->
  allocation b + zlen ents * ENTRY_COST < 2 ^ 32 ->
  exists b', put_entries indet ents (zlen hs) (zlen names) b s = Ok b' (set_hfs f s) /\ wf b' /\
    content b' = concat (entry_header indet <$> reverse l) ++ hs ++ names ++ concat (name_slot <$> ents) /\
    allocation b' <= allocation b + zlen ents * ENTRY_COST.
Proof.
  revert s l b hs names. induction ents as [|e ents IH]; intros s l b hs names Hl Hf Hw Hn Hc Ha.
  { injection Hl as <- <-. exists b. split_and!; try done; [by destruct s|change (zlen []) with 0; lia]. }
  apply read_inodes_cons in Hl as (i&f1&l'&->&Hi&Hl). inversion Hf as [|?? He Hf' Heq]; subst.
  assert (zlen (e :: ents) = zlen ents + 1) as Hz by (rewrite zlen_cons; lia).
  pose proof (zlen_nonneg ents). rewrite Hz in *. unfold ENTRY_COST, DE_LEN, BFSFLEXBUF_DEFAULT_PAD in Ha.
  assert (zeros ((zlen ents + 1) * MAX_FILE_NAME_LEN) = zeros MAX_FILE_NAME_LEN ++ zeros (zlen ents * MAX_FILE_NAME_LEN)) as Hzs.
  { unfold zeros. rewrite <-replicate_add. f_equal. unfold MAX_FILE_NAME_LEN. lia. }
  rewrite Hzs in Hc.
  destruct (put_entry_Ok s e i f1 b hs names _ Hi He Hw ltac:(by apply Hn) Hc) as (b1&Hr1&Hw1&Hn1&Hc1&Ha1);
    [unfold ENTRY_COST, DE_LEN, BFSFLEXBUF_DEFAULT_PAD; lia|].
  unfold ENTRY_COST, DE_LEN, BFSFLEXBUF_DEFAULT_PAD in Ha1.
  destruct (IH (set_hfs f1 s) l' b1 (entry_header indet (e, i) ++ hs) (names ++ name_slot e)) as (b2&Hr2&Hw2&Hc2&Ha2); try done.
  { by rewrite Hc1, <-!app_assoc. }
  { unfold ENTRY_COST, DE_LEN, BFSFLEXBUF_DEFAULT_PAD; lia. }
  exists b2. cbn [put_entries]. mrun Hr1.
  rewrite !zlen_app, entry_header_zlen, name_slot_zlen in Hr2 by done.
  rewrite (Z.add_comm (zlen hs)), Hr2. split_and!; try done.
  - rewrite Hc2, reverse_cons, fmap_app, concat_app, fmap_cons. cbn. by rewrite ?app_nil_r, <-!app_assoc.
  - unfold ENTRY_COST, DE_LEN, BFSFLEXBUF_DEFAULT_PAD in *. lia.
Qed.

(** The two messages that answer a request for the listing [l]. *)
Definition count_payload (n : Z) : bytes := payload (Some (FROM_SERVER, CLIENT_READDIR_OP)) (le_split 8 n).

Definition listing_messages key (u : User.t) (d : nat) (l : list (DirEntry.t * Inode.t)) : bytes :=
  NetConn.frame (message key (User.user_send_seq u) (rnd d) (count_payload (zlen l))) ++
  NetConn.frame (message key (u32 (User.user_send_seq u + 1)) (rnd (S d)) (listing_payload indet l)).

Lemma do_readdir_answer s conn key u inb outb fh ents f l f' :
  session s conn key u inb outb -> bfs_handle s = true ->
  answer (FsOps.bfs_readdir true (Some u) fh (hfs s)) [] [] = Some (ents, f) ->
  read_inodes ents f = Ok l f' -> Forall name_fits ents -> zlen ents < 2 ^ 20 ->
  exists s', do_readdir rnd kernel indet conn fh s = Ok rc_success s' /\ kept conn (set_hfs f' s) s' /\
    session s' conn key (User.inc_send_seq (User.inc_send_seq u)) inb (outb ++ listing_messages key u (draws s) l).
Proof.
  intros Hs Hh Ha Hl Hf Hz. unfold do_readdir.
  assert (zlen l = zlen ents) as Hzl by (rewrite <-(read_inodes_entries _ _ _ _ Hl); unfold zlen; by rewrite length_fmap).
  mrun (run_op_answer s conn key u inb outb true [] [] ents f (fun a u => FsOps.bfs_readdir a u fh) Hs Hh Ha). pose proof (zlen_nonneg ents).
  set (fields := [(8%nat, zlen ents); (4%nat, CLIENT_READDIR_OP); (4%nat, FROM_SERVER)]).
  destruct (fresh_pkt 0 16) as (b1&Hr1&Hw1&Hc1&Hl1&Hn1&Ha1); [lia..|].
  assert (push_cost fields = 112) as Hcost by done.
  destruct (push_all_spec fields b1) as (b2&Hr2&Hw2&Hn2&Hc2&Ha2); [done|done|lia|]. rewrite Hcost in Ha2.
  assert ((resetWithAlloc 0 Byte.x00 16 0 false ;; push_all fields) FlexBuffer.empty = Ok () b2) as Hb by (by mrun Hr1).
  mrun (on_pkt_Ok _ _ _ _ (set_hfs f s) Hb).
  destruct (send_pkt_Ok rnd kernel rnd_zlen healthy (set_hfs f s) conn key u inb outb b2 FlexBuffer.empty)
    as (b3&e3&s3&Hsend&K3&Hs3&Hw3&Hc3&Ha3&Hre&Hae&Hd3); [by apply session_hfs|done|lia|apply SecAssoc.roomy_empty|done|].
  mrun Hsend. cbn [negb Z.eqb rc_success]. change (allocation FlexBuffer.empty) with 0 in Hae.
  assert (length b3 = 16) as Hl3 by (rewrite <-(content_zlen b3 Hw3), Hc3, Hc2, Hc1; done).
  assert (u32 (u32 (zlen ents) * MAX_FILE_NAME_LEN) = zlen ents * MAX_FILE_NAME_LEN) as ->
    by (rewrite (u32_small (zlen ents)), u32_small by (unfold MAX_FILE_NAME_LEN; lia); done).
  rewrite (u32_small (zlen ents * DE_LEN)) by (unfold DE_LEN; lia).
  destruct (SecAssoc.reset_spec b3 (zlen ents * MAX_FILE_NAME_LEN) Byte.x00 (zlen ents * DE_LEN) 0)
    as (b4&Hr4&Hw4&Hc4&Hl4&Hn4&_&Ha4); [done|unfold MAX_FILE_NAME_LEN, DE_LEN; try lia..|].
  { destruct (decide (zlen ents = 0)) as [->|]; [right|left]; pose proof Hw3 as (?&?&?&?&?&?&?); lia. }
  mrun (on_pkt_Ok _ _ _ _ s3 Hr4). unfold MAX_FILE_NAME_LEN, DE_LEN in Ha4, Hn4.
  assert (hfs s3 = f) as Hfs by apply K3. rewrite <-Hfs in Hl.
  destruct (put_entries_Ok ents s3 l f' b4 [] [] Hl Hf Hw4) as (b5&Hr5&Hw5&Hc5&Ha5).
  { intros Hne. apply Hn4. destruct ents; [done|]. unfold zlen. cbn [List.length]. lia. }
  { done. }
  { unfold ENTRY_COST, DE_LEN, BFSFLEXBUF_DEFAULT_PAD. lia. }
  mrun Hr5. unfold ENTRY_COST, DE_LEN, BFSFLEXBUF_DEFAULT_PAD in Ha5.
  destruct (send_pkt_Ok rnd kernel rnd_zlen healthy _ _ _ _ _ _ b5 e3 (session_hfs _ _ _ _ _ _ f' Hs3))
    as (b6&e6&s6&Hsend6&K6&Hs6&_); [done|lia|done|lia|].
  mrun Hsend6. exists s6. split_and!; try done.
  - etransitivity; [|exact K6]. destruct K3. by constructor.
  - rewrite Hc2, Hc1 in Hs6. cbn [app] in Hc5. rewrite Hc5 in Hs6. cbn [draws set_hfs] in Hs6. rewrite Hd3 in Hs6.
    unfold listing_messages, listing_payload, count_payload. rewrite (read_inodes_entries _ _ _ _ Hl), Hzl, app_assoc.
    unfold encode_fields in Hs6. cbn in Hs6. rewrite ?app_nil_r in Hs6. exact Hs6.
Qed.
End server.

(** ** The client's side *)

Definition entry_stat (indet : Z) (p : DirEntry.t * Inode.t) : stat :=
  mkStat (u64 (DirEntry.ino p.1)) (u32 (Inode.mode p.2)) (signed 8 (u64 (Inode.size p.2)))
    (u32 indet) (u32 indet) (u32 indet).

(** What a sequence of entries leaves in the caller's buffer. *)
Fixpoint fill (filler : list (bytes * stat) -> bytes -> stat -> bool) (taken l : list (bytes * stat)) : list (bytes * stat) :=
  match l with
  | [] => taken
  | (name, st) :: l => if filler taken name st then taken else fill filler (taken ++ [(name, st)]) l
  end.

Definition shown (indet : Z) (p : DirEntry.t * Inode.t) : bytes * stat := (entry_name p.1, entry_stat indet p).

(** The entry is none of those on which the client fails. *)
Definition allowed (path : bytes) (p : DirEntry.t * Inode.t) : Prop :=
  entry_allowed path (entry_name p.1) (u64 (DirEntry.ino p.1)) = true.

Lemma c_str_ends s : Byte.x00 ∉ c_str s.
Proof. induction s as [|b s IH]; cbn; [set_solver|]. case_decide; set_solver. Qed.

Lemma entry_name_ends e : Byte.x00 ∉ entry_name e.
Proof.
  unfold entry_name, bfs_basename. set (s := c_str _). pose proof (c_str_ends (DirEntry.de_name e) : _ ∉ s) as Hs.
  destruct (strrchr_slash s) as [k|]; [|done]. rewrite <-(take_drop (Z.to_nat (k + 1)) s) in Hs. set_solver.
Qed.

Lemma take_entry_Ok indet e i hs names rest n idx de_off b :
  wf b -> buffer b <> None -> content b = entry_header indet (e, i) ++ hs ++ names ++ name_slot e ++ rest ->
  name_fits e -> zlen hs = u64 (u64 (n - idx - 1) * DE_LEN) -> zlen names = de_off -> zlen hs + zlen names < 2 ^ 64 ->
  exists b', take_entry n idx de_off b = Ok (shown indet (e, i)) b' /\ wf b' /\ buffer b' <> None /\
    content b' = hs ++ names ++ name_slot e ++ rest.
Proof.
  intros Hw Hn Hc Hf Hh <- Hb. unfold name_fits in Hf. pose proof (zlen_nonneg (entry_name e)).
  pose proof (zlen_nonneg hs). pose proof (zlen_nonneg names).
  unfold entry_header, encode_fields in Hc. cbn in Hc. rewrite app_nil_r, <-!app_assoc in Hc. unfold take_entry, pull_int.
  pull_next b Hw Hn Hc. pull_next b0 Hw Hn Hc. pull_next b1 Hw Hn Hc. pull_next b2 Hw Hn Hc. pull_next b3 Hw Hn Hc.
  rewrite bind_assoc. pull_next b4 Hw Hn Hc. rewrite bind_ret. pull_next b5 Hw Hn Hc.
  rewrite (Z.mod_small (zlen (entry_name e) + 1)) by (unfold MAX_FILE_NAME_LEN in *; cbn; lia).
  rewrite bind_get, <-Hh, (u64_small (zlen hs + zlen names)) by lia. set (nm := entry_name e ++ [Byte.x00]).
  assert (zlen nm = zlen (entry_name e) + 1) as Hz by (unfold nm; rewrite zlen_app; done).
  assert (name_slot e = nm ++ [Byte.x00] ++ zeros (MAX_FILE_NAME_LEN - (zlen (entry_name e) + 1) - 1)) as Hslot.
  { unfold name_slot, nm. f_equal. unfold zeros.
    replace (Z.to_nat (MAX_FILE_NAME_LEN - (zlen (entry_name e) + 1)))
      with (S (Z.to_nat (MAX_FILE_NAME_LEN - (zlen (entry_name e) + 1) - 1))) by lia. done. }
  pose proof Hc as Hc'. rewrite Hslot in Hc'.
  pose proof (load_middle b6 (hs ++ names) nm ([Byte.x00] ++ zeros (MAX_FILE_NAME_LEN - (zlen (entry_name e) + 1) - 1) ++ rest) Hw) as Hld1.
  rewrite zlen_app, Hz in Hld1. mrun (Hld1 ltac:(by rewrite Hc', <-!app_assoc)).
  destruct (Z.eqb_spec (zlen (entry_name e) + 1) 0); [lia|]. rewrite bind_ret.
  pose proof (load_middle b6 (hs ++ names ++ nm) [Byte.x00] (zeros (MAX_FILE_NAME_LEN - (zlen (entry_name e) + 1) - 1) ++ rest) Hw) as Hld2.
  rewrite !zlen_app, Hz, !Z.add_assoc in Hld2. rewrite !Z.add_assoc. mrun (Hld2 ltac:(by rewrite Hc', <-!app_assoc)).
  rewrite bool_decide_true, bind_assert by done. exists b6. split_and!; try done.
  unfold nm. rewrite take_app_length' by (unfold zlen; lia). by rewrite c_str_id by apply entry_name_ends.
Qed.

(** The loop over the entries, from the last to the first. *)
Lemma take_entries_Ok path filler indet n l b idx de_off rest taken :
  wf b -> buffer b <> None -> content b = listing_payload indet l ++ rest -> Forall name_fits l.*1 ->
  n = idx + zlen l -> 0 <= idx -> n < 2 ^ 20 -> (l <> [] -> de_off = (zlen l - 1) * MAX_FILE_NAME_LEN) ->
  Forall (allowed path) l ->
  exists b', take_entries path filler n (List.length l) idx de_off taken b =
    Ok (fill filler taken (shown indet <$> reverse l), None) b'.
Proof.
  revert b idx de_off rest taken. induction l as [|[e i] l IH] using rev_ind; intros b idx de_off rest taken Hw Hn Hc Hf -> Hi Hlt Hoff Hal.
  { by eexists. }
  apply Forall_app in Hal as [Hal Ha]. apply Forall_inv in Ha.
  rewrite fmap_app in Hf. apply Forall_app in Hf as [Hf Hfe]. apply Forall_inv in Hfe.
  rewrite reverse_snoc, fmap_cons, length_app, Nat.add_1_r. cbn [take_entries fill shown].
  assert (zlen (l ++ [(e, i)]) = zlen l + 1) as Hz by (rewrite zlen_app; done). rewrite Hz in *.
  pose proof (zlen_nonneg l). rewrite Hoff by (by destruct l).
  unfold listing_payload in Hc. rewrite reverse_snoc, fmap_app, fmap_cons, fmap_app in Hc.
  rewrite concat_app in Hc. cbn [concat fmap list_fmap fst] in Hc. rewrite app_nil_r, <-!app_assoc in Hc.
  assert (zlen (concat (name_slot <$> l.*1)) = zlen l * MAX_FILE_NAME_LEN) as Hzs
    by (rewrite slots_zlen by done; unfold zlen; by rewrite length_fmap).
  assert (zlen (concat (entry_header indet <$> reverse l)) = zlen l * DE_LEN) as Hzh
    by (rewrite headers_zlen; unfold zlen; by rewrite length_reverse).
  destruct (take_entry_Ok indet e i _ _ rest (idx + (zlen l + 1)) idx ((zlen l + 1 - 1) * MAX_FILE_NAME_LEN) b Hw Hn Hc)
    as (b1&Hr1&Hw1&Hn1&Hc1); [exact Hfe| |rewrite Hzs; lia|rewrite Hzs, Hzh; unfold MAX_FILE_NAME_LEN, DE_LEN; lia|].
  { rewrite Hzh. replace (idx + (zlen l + 1) - idx - 1) with (zlen l) by lia.
    rewrite (u64_small (zlen l)), u64_small by (unfold DE_LEN; lia). done. }
  rewrite Hr1. cbn [shown fst snd entry_stat st_ino]. unfold allowed in Ha. cbn [fst snd] in Ha. rewrite Ha. cbn [negb].
  destruct (filler taken (entry_name e) (entry_stat indet (e, i))); [by eexists|].
  apply (IH b1 _ _ (name_slot e ++ rest)); try done; [by rewrite Hc1; unfold listing_payload; rewrite <-!app_assoc|lia..|].
  intros Hne. assert (0 < zlen l) by (destruct l; [done|unfold zlen; cbn [List.length]; lia]).
  rewrite u64_small by (unfold MAX_FILE_NAME_LEN; lia). lia.
Qed.

Section client.
Context `{Cipher} {claws : CipherLaws} (srnd rnd : nat -> bytes) (kernel : nat -> Z) (indet : Z).
Context (srnd_zlen : forall n, zlen (srnd n) = BFS_IV_LEN) (rnd_zlen : forall n, zlen (rnd n) = BFS_IV_LEN).
Context (healthy : forall i, 0 <= kernel i).

Lemma message_longer key seq r p : zlen p <= zlen (message key seq r p).
Proof.
  unfold message, SecAssoc.sealed. rewrite !zlen_app, encrypt_zlen, zlen_app, SecAssoc.pad_bytes_zlen.
  pose proof (SecAssoc.pad_size_range (zlen p)). pose proof (zlen_nonneg r). rewrite tag_zlen. unfold BFS_MAC_LEN. lia.
Qed.

Lemma listing_payload_zlen l :
  Forall name_fits l.*1 -> zlen (listing_payload indet l) = zlen l * MAX_FILE_NAME_LEN + zlen l * DE_LEN.
Proof.
  intros Hf. unfold listing_payload. rewrite zlen_app, headers_zlen, slots_zlen by done.
  unfold zlen. rewrite length_reverse, length_fmap. lia.
Qed.

Lemma recv_count_Ok c key sseq rseq rest d n :
  let m := message key rseq (srnd d) (count_payload n) in
  ready c key sseq rseq (NetConn.frame m ++ rest) [] true -> fits 8 n ->
  exists b c', recv_count kernel c = Ok (n, b) c' /\ wf b /\ length b = 0 /\ allocation b < 200 /\
    ready c' key sseq (u32 (rseq + 1)) rest [] false.
Proof.
  intros m Hc Hn. pose proof (message_zlen key rseq (srnd d) (count_payload n) (srnd_zlen d) : 0 < zlen m <= 16 + 44).
  destruct (recv_msgp_Ok kernel healthy c key sseq rseq rest [] true FlexBuffer.empty 16
    (Some (FROM_SERVER, CLIENT_READDIR_OP)) false (srnd d) (le_split 8 n) Hc) as (b1&c1&Hr1&Hw1&Hn1&Hc1&Ha1&Hrd1).
  { apply SecAssoc.roomy_for; [apply SecAssoc.roomy_empty|apply zlen_nonneg]. }
  { apply srnd_zlen. } { split; split; vm_compute; congruence. } { done. } { done. }
  rewrite <-(app_nil_r (le_split 8 _)) in Hc1.
  destruct (pull_spec 8 n [] b1 Hw1 Hn1 Hc1 Hn) as (b2&Hr2&Hw2&Hn2&Hc2&Ha2).
  exists b2, (set_lock false c1). unfold recv_count. mrun Hr1. unfold unlock. rewrite bind_modify.
  change (allocation FlexBuffer.empty) with 0 in Ha1. fold (count_payload n) in Ha1. fold m in Ha1.
  split_and!; [by apply c_pkt_Ok|done|by rewrite <-content_zlen, Hc2|lia|]. destruct Hrd1. by constructor.
Qed.

Lemma recv_listing_Ok path filler c key sseq u d l :
  ready c key sseq (User.user_send_seq u) (listing_messages srnd indet key u d l) [] true ->
  Forall name_fits l.*1 -> Forall (allowed path) l -> zlen l < 2 ^ 20 ->
  exists c', recv_listing kernel path filler c = Ok (fill filler [] (shown indet <$> reverse l), None) c' /\
    ready c' key sseq (u32 (u32 (User.user_send_seq u + 1) + 1)) [] [] false.
Proof.
  intros Hc Hf Hal Hz. pose proof (zlen_nonneg l). pose proof (listing_payload_zlen l Hf) as Hp.
  unfold recv_listing, listing_messages in *. set (m2 := message _ (u32 _) _ _) in *.
  destruct (recv_count_Ok c key sseq _ _ d (zlen l) Hc) as (b2&c1&Hr1&Hw2&Hl2&Ha2&Hrd); [split; cbn; lia|]. mrun Hr1.
  rewrite <-(app_nil_r (NetConn.frame m2)) in Hrd. unfold DE_LEN, MAX_FILE_NAME_LEN in Hp |- *.
  rewrite !(u32_small (zlen l * 255)), (u32_small (zlen l * 36)), (u32_small (zlen l * 255 + zlen l * 36)) by lia.
  destruct (SecAssoc.reset_spec b2 (zlen l * 255) Byte.x00 (zlen l * 36) 0) as (b3&Hr3&Hw3&_&Hl3&_&_&Ha3);
    [done|lia..|].
  mrun (c_pkt_Ok _ _ _ _ c1 Hr3).
  pose proof (message_longer key (u32 (User.user_send_seq u + 1)) (srnd (S d)) (listing_payload indet l)) as Hlong.
  fold m2 in Hlong.
  destruct (recv_msgp_Ok kernel healthy _ key sseq _ [] [] false b3 (zlen l * 255 + zlen l * 36) None false (srnd (S d))
    (listing_payload indet l) Hrd) as (b4&c4&Hr4&Hw4&Hn4&Hc4&_&Hrd4);
    [split; [done|cbn; fold m2; lia]|apply srnd_zlen|done|lia|cbn; lia|].
  mrun Hr4. rewrite <-(app_nil_r (listing_payload _ _)) in Hc4.
  destruct (take_entries_Ok path filler indet (zlen l) l b4 0 (u32 (zlen l * 255 - 255)) [] [] Hw4 Hn4 Hc4) as (b5&Hr5); try done.
  { intros Hne. assert (0 < zlen l) by (destruct l; [done|unfold zlen; cbn [List.length]; lia]).
    rewrite u32_small by lia. unfold MAX_FILE_NAME_LEN. lia. }
  replace (Z.to_nat (zlen l)) with (List.length l) by (unfold zlen; lia).
  mrun (c_pkt_Ok _ _ _ _ c4 Hr5). by exists c4.
Qed.
End client.

(** ** The local call *)
Section local.
Context {B : Type} `{BlockStoreLaws B}.
Implicit Types s : fs B.

Lemma bfs_readdir_Ok s usr fh of_ i vs sls :
  ok s -> 0 <= NUM_BLOCKS s -> open_file_tab s !! fh = Some of_ -> ROOT_INO <= OpenFile.ino of_ ->
  searchable true s usr (OpenFile.ino of_) i -> dir_at s i vs sls ->
  exists s', FsOps.bfs_readdir true usr fh s = Ok (list_dir vs sls) s' /\ frame no_blk s s'.
Proof.
  intros Hs HN Ht Hr Hsr Hd. destruct (directory_listing true s usr (OpenFile.ino of_) i vs sls Hs HN Hsr Hd) as (t&s'&Hf&Hrun&_).
  exists s'. split; [|done]. unfold FsOps.bfs_readdir. rewrite bind_gets, Ht.
  destruct (Z.ltb_spec (OpenFile.ino of_) ROOT_INO); [lia|]. by mrun Hrun.
Qed.

(** The inode of an entry, in use. *)
Definition entry_inode s (e : DirEntry.t) (i : Inode.t) : Prop :=
  inode_at s (DirEntry.ino e) i /\ Inode.i_no i <> NULL_INO.

Lemma entry_inode_frame s s' e i : frame no_blk s s' -> entry_inode s e i -> entry_inode s' e i.
Proof. intros Hf [Hi Hn]. split; [|done]. exact (inode_at_frame _ _ _ _ _ Hf (fun x => x) Hi). Qed.

Lemma read_inodes_Ok s ents is_ :
  ok s -> Forall2 (entry_inode s) ents is_ ->
  exists s', read_inodes ents s = Ok (zip ents is_) s' /\ frame no_blk s s'.
Proof.
  intros Hs Hall. revert s Hs Hall. induction ents as [|e ents IH] in is_ |- *; intros s Hs Hall.
  { apply Forall2_nil_inv_l in Hall as ->. exists s. split; [done|by apply frame_refl]. }
  apply Forall2_cons_inv_l in Hall as (i&is'&[Hi Hn]&Hall&->).
  destruct (read_inode_Ok s (DirEntry.ino e) i Hs Hi Hn) as (st&Hr&Hf).
  destruct (IH is' (set_store st s) (proj1 Hf)) as (s'&Hr'&Hf').
  { eapply Forall2_impl; [exact Hall|]. intros ??. by apply entry_inode_frame. }
  exists s'. cbn [read_inodes]. mrun Hr. mrun Hr'. split; [done|by eapply frame_trans].
Qed.
End local.

(** ** The whole call *)
Section rpc.
Context {B : Type} `{Volume B} `{Cipher} {claws : CipherLaws}.
Context (use_mt : bool) (srnd crnd : nat -> bytes) (skernel : Z -> nat -> Z) (ckernel : nat -> Z).
Context (cl_serv_sa : CryptoKey.t) (uninit indet : Z).
Context (srnd_zlen : forall n, zlen (srnd n) = BFS_IV_LEN) (crnd_zlen : forall n, zlen (crnd n) = BFS_IV_LEN).
Context (shealthy : forall cn i, 0 <= skernel cn i) (chealthy : forall i, 0 <= ckernel i).
Abbreviation rpc := (rpc use_mt srnd skernel cl_serv_sa uninit indet).
Implicit Types (s : srv B) (c : client).

Lemma readdir_sends path filler c key u fh :
  START_FD <= fh -> ready c key (User.user_recv_seq u) (User.user_send_seq u) [] [] false ->
  requests crnd key u c (Client.bfs_readdir crnd ckernel path filler fh) CLIENT_READDIR_OP (le_split 8 fh).
Proof.
  intros Hfh Hr.
  destruct (send_request_Ok crnd ckernel crnd_zlen chealthy c key _ _ [] [] None
    ([(8%nat, fh)] ++ headers CLIENT_READDIR_OP) Hr) as (c'&Hs&Hr'); [done..|].
  exists c'. unfold encode_fields in Hr'. cbn in Hr'. rewrite ?app_nil_r in Hr'. split; [|exact Hr'].
  cbn [op_send Client.bfs_readdir].
  assert ((assert_ (START_FD <=? fh) ;; send_request crnd ckernel None ([(8%nat, fh)] ++ headers CLIENT_READDIR_OP)) c = Ok () c')
    as Hm by (rewrite bind_assert; [done|by apply Z.leb_le]).
  by mrun (guarded_Ok _ _ _ _ Hm).
Qed.

Lemma remote_readdir_Ok path filler conn key u c s fh ents f l f' :
  in_sync conn key u c s -> bfs_handle s = true -> START_FD <= fh -> fits 8 fh ->
  answer (FsOps.bfs_readdir true (Some (User.inc_recv_seq u)) fh (hfs s)) [] [] = Some (ents, f) ->
  read_inodes ents f = Ok l f' -> Forall name_fits ents -> Forall (allowed path) l -> zlen ents < 2 ^ 20 ->
  exists c' s', rpc conn (Client.bfs_readdir crnd ckernel path filler fh) (mkWorld c s)
      = Ok (rc_success, fill filler [] (shown indet <$> reverse l)) (mkWorld c' s') /\
    in_sync conn key (User.inc_send_seq (User.inc_send_seq (User.inc_recv_seq u))) c' s' /\ kept conn (set_hfs f' s) s'.
Proof.
  intros Hsync Hh Hfd Hfits Ha Hl Hf Hal Hz. pose proof (read_inodes_entries _ _ _ _ Hl) as He.
  destruct (rpc_delivers use_mt srnd crnd skernel cl_serv_sa uninit indet crnd_zlen shealthy conn key u
    (User.inc_send_seq (User.inc_send_seq (User.inc_recv_seq u))) c s (Client.bfs_readdir crnd ckernel path filler fh) CLIENT_READDIR_OP (le_split 8 fh)
    (fun conn => do_readdir srnd skernel indet conn fh) (set_hfs f' s)
    (listing_messages srnd indet key (User.inc_recv_seq u) (draws s) l) Hsync) as (c1&s1&Hrpc&Hr1&Hs1&K1).
  - apply readdir_sends; [done|apply Hsync].
  - split; vm_compute; congruence.
  - done.
  - intros conn0 rpkt s0 Hw Hn Hc. rewrite <-(app_nil_r (le_split 8 fh)) in Hc.
    destruct (unpack_fh_spec fh [] rpkt Hw Hn Hc Hfits) as [b Hb]; [unfold START_FD, ROOT_INO in *; lia|].
    change (dispatch _ _ _ _ _ _ conn0 rpkt) with (handle_readdir srnd skernel indet conn0 rpkt).
    unfold handle_readdir. by mrun (on_pkt_Ok _ _ _ _ s0 Hb).
  - intros s0 K Hs0 Hd0. rewrite <-(kept_fs _ _ _ K) in Ha.
    destruct (do_readdir_answer srnd skernel indet srnd_zlen shealthy s0 conn key (User.inc_recv_seq u) [] [] fh ents f l f' Hs0)
      as (s2&Hr&K2&Hs2); try done; [by rewrite (kept_handle _ _ _ K)|].
    rewrite Hd0 in Hs2. exists s2. split_and!; [done| |done]. etransitivity; [|exact K2]. destruct K. by constructor.
  - rewrite <-He in Hf. assert (zlen l < 2 ^ 20) as Hzl by (rewrite <-He in Hz; unfold zlen in *; by rewrite length_fmap in Hz).
    destruct (recv_listing_Ok srnd ckernel indet srnd_zlen chealthy path filler c1 key _ (User.inc_recv_seq u) (draws s) l Hr1 Hf Hal Hzl)
      as (c2&Hrl&Hr2).
    exists c2, s1. rewrite Hrpc. unfold on_client. cbn [w_client w_server op_recv Client.bfs_readdir].
    mrun (guarded_Ok _ _ _ _ Hrl). split_and!; [done| |done]. split; [exact Hr2|done].
Qed.

(** A remote listing is the local one: the caller gets every entry that the
    server's own call lists, with the attributes of its inode, the last one first,
    until the caller's buffer is full. *)
Theorem remote_readdir_is_local path filler conn key u c s fh l f :
  in_sync conn key u c s -> bfs_handle s = true -> START_FD <= fh -> fits 8 fh ->
  (ents ← FsOps.bfs_readdir true (Some (User.inc_recv_seq u)) fh; read_inodes ents) (hfs s) = Ok l f ->
  Forall name_fits l.*1 -> Forall (allowed path) l -> zlen l < 2 ^ 20 ->
  exists c' s', rpc conn (Client.bfs_readdir crnd ckernel path filler fh) (mkWorld c s)
      = Ok (rc_success, fill filler [] (shown indet <$> reverse l)) (mkWorld c' s') /\
    in_sync conn key (User.inc_send_seq (User.inc_send_seq (User.inc_recv_seq u))) c' s' /\ kept conn (set_hfs f s) s'.
Proof.
  intros Hsync Hh Hfd Hfits Hl Hf Hal Hz. unfold mbind, M_bind in Hl.
  destruct (FsOps.bfs_readdir true _ fh (hfs s)) as [ents f1|?|] eqn:Hr; [|done..].
  rewrite (read_inodes_entries _ _ _ _ Hl) in Hf.
  apply (remote_readdir_Ok path filler conn key u c s fh ents f1 l f); try done; [by rewrite Hr|].
  rewrite <-(read_inodes_entries _ _ _ _ Hl). unfold zlen in *. by rewrite length_fmap.
Qed.

(** A listing that the server refuses is reported as that of an empty directory. *)
Theorem refused_readdir_is_empty path filler conn key u c s fh msg f :
  in_sync conn key u c s -> bfs_handle s = true -> START_FD <= fh -> fits 8 fh ->
  FsOps.bfs_readdir true (Some (User.inc_recv_seq u)) fh (hfs s) = Throw (BfsAccessDeniedError msg) f ->
  exists c' s', rpc conn (Client.bfs_readdir crnd ckernel path filler fh) (mkWorld c s) = Ok (rc_success, []) (mkWorld c' s') /\
    kept conn (set_hfs f s) s'.
Proof.
  intros Hsync Hh Hfd Hfits Hr.
  destruct (remote_readdir_Ok path filler conn key u c s fh [] f [] f) as (c'&s'&Hrpc&_&K); try done; [by rewrite Hr|].
  by exists c', s'.
Qed.

(** C8. Listing a directory over the network.  The client that lists an open
    directory kept in direct blocks is handed every entry in the slots of its
    blocks exactly once, with its name, its inode number and the mode and size of
    its inode, in the opposite order, until its buffer is full.  The times are not
    those of the inode: the server sends variables it never sets ([indet]); the
    client sets the owner to a constant, which is not part of [stat].  No block of the volume changes,
    and both ends agree again on the sequence numbers, which the second message of
    the response has moved on. *)
Theorem remote_directory_listed `{!BlockStoreLaws B} path filler conn key u c s fh of_ i vs sls is_ :
  in_sync conn key u c s -> bfs_handle s = true -> START_FD <= fh -> fits 8 fh ->
  ok (hfs s) -> 0 <= NUM_BLOCKS (hfs s) -> open_file_tab (hfs s) !! fh = Some of_ -> ROOT_INO <= OpenFile.ino of_ ->
  searchable true (hfs s) (Some (User.inc_recv_seq u)) (OpenFile.ino of_) i -> dir_at (hfs s) i vs sls ->
  Forall2 (entry_inode (hfs s)) (list_dir vs sls) is_ ->
  let l := zip (list_dir vs sls) is_ in
  Forall name_fits l.*1 -> Forall (allowed path) l -> zlen l < 2 ^ 20 ->
  exists c' s', rpc conn (Client.bfs_readdir crnd ckernel path filler fh) (mkWorld c s)
      = Ok (rc_success, fill filler [] (shown indet <$> reverse l)) (mkWorld c' s') /\
    in_sync conn key (User.inc_send_seq (User.inc_send_seq (User.inc_recv_seq u))) c' s' /\
    frame no_blk (hfs s) (hfs s').
Proof.
  intros Hsync Hh Hfd Hfits Hok HN Ht Hr Hsr Hd His l Hf Hal Hz.
  destruct (bfs_readdir_Ok (hfs s) _ fh of_ i vs sls Hok HN Ht Hr Hsr Hd) as (f1&Hrun&Hf1).
  destruct (read_inodes_Ok f1 (list_dir vs sls) is_ (proj1 Hf1)) as (f2&Hrd&Hf2).
  { eapply Forall2_impl; [exact His|]. intros ??. by apply entry_inode_frame. }
  pose proof (read_inodes_entries _ _ _ _ Hrd) as He.
  destruct (remote_readdir_Ok path filler conn key u c s fh (list_dir vs sls) f1 l f2) as (c'&s'&Hrpc&Hsync'&K);
    try done; [by rewrite Hrun|by rewrite <-He|rewrite <-He; unfold l, zlen in *; by rewrite length_fmap|].
  exists c', s'. split_and!; [done..|]. rewrite (kept_fs _ _ _ K). by eapply frame_trans.
Qed.
End rpc.
