(* ===== verification/Ext4Dev.v ===== *)
(** * The block device under lwext4

    Models the block device that [bfs_fs/bfs_core_ext4_helpers.cpp] gives to the
    lwext4 library: opening and closing, reading and writing ranges of sealed
    blocks, the tree of hashes over them, and the branches of
    [bfs_fs/bfs_fs_layer.cpp] for this backend.  The blocks and their metadata
    lie on one local device behind each other; the cluster of the block layer is
    not used.  The statics of [BfsFsLayer] are those of [FsLayer].  The library
    itself is a parameter. *)
From S2P Require Import Prelude Layout FlexBuffer SecAssoc BlockLayer FsLayer SecBlock.

Module Ext4Dev.

(** ** Geometry *)

(** [n]: [bfsBlockLayer::get_num_blocks()], from the configuration. *)
Definition BFS_LWEXT_MT_ROOT_BLK_NUM (n : Z) : Z := n.
Definition BFS_LWEXT_META_START_BLK_NUM (n : Z) : Z := BFS_LWEXT_MT_ROOT_BLK_NUM n + 1.
Definition BFS_LWEXT4_META_SPC (n : Z) : Z := n / META_PER_BLK + 1 + 1.
Definition meta_blk (n b : Z) : Z := BFS_LWEXT_META_START_BLK_NUM n + BLK_META_BLK_LOC b.

Section device.
Context `{Cipher} {C : Type} `{BlkCache C}.
Context (use_mt : bool) (rnd : nat -> bytes) (n : Z).

(** [layer]: the statics of [BfsFsLayer], with [status] and [curr_par] of this
    file; [image]: the blocks of the storage file while it is not mapped. *)
Record state := mkState {
  layer : sec C;
  bfs_blk_dev : option LocalDevice.t;
  seen : option (list Z);
  image : gmap Z bytes
}.

Definition set_layer (x : sec C) (s : state) : state := mkState x (bfs_blk_dev s) (seen s) (image s).
Definition set_dev (d : option LocalDevice.t) (s : state) : state := mkState (layer s) d (seen s) (image s).
Definition set_seen (l : option (list Z)) (s : state) : state := mkState (layer s) (bfs_blk_dev s) l (image s).

Definition on_layer {A} (m : M (sec C) A) : M state A := fun s =>
  match m (layer s) with
  | Ok a x => Ok a (set_layer x s)
  | Throw e x => Throw e (set_layer x s)
  | Crash c => Crash c
  end.

Definition get_status : M state Z := gets (fun s => status (layer s)).

(** ** Blocks of the device

    [None] stands for [BFS_FAILURE].  An exception of the device is not caught
    here. *)
Definition do_get_block (b : Z) : M state (option bytes) :=
  d ← gets bfs_blk_dev;
  match d with
  | None => mret None
  | Some d => match LocalDevice.getBlock b d with inr e => throw e | inl r => mret r end
  end.

Definition do_put_block (b : Z) (blk : bytes) : M state bret :=
  d ← gets bfs_blk_dev;
  match d with
  | None => mret BFS_FAILURE
  | Some d =>
      match LocalDevice.putBlock b blk d with
      | inr e => throw e
      | inl None => mret BFS_FAILURE
      | inl (Some d) => modify (set_dev (Some d)) ;; mret BFS_SUCCESS
      end
  end.

(** [read_block_helper] and [write_block_helper] with [use_lwext4()]. *)
Definition read_block_helper (b : Z) : M state (option bytes) :=
  catch (do_get_block b) (fun e => if is_blockError e then Some (mret None) else None).

Definition write_block_helper (b : Z) (d : bytes) : M state bret :=
  catch (do_put_block b d) (fun e => if is_blockError e then Some (mret BFS_FAILURE) else None).

(** ** Block metadata *)
Definition bad_meta_args (iv mac : ptr) (root : bool) : M state bool := on_layer (FsLayer.bad_meta_args iv mac root).

Definition read_blk_meta (b : Z) (iv mac : ptr) (root : bool) : M state (option (option bytes * option bytes)) :=
  bad ← bad_meta_args iv mac root;
  if (bad : bool) then mret None
  else
    assert_ (BLK_META_BLK_LOC b <=? BFS_LWEXT4_META_SPC n) ;;
    r ← read_block_helper (meta_blk n b);
    match r with
    | None => mret None
    | Some blk =>
        if root then
          h ← of_opt (mem_get 0 BFS_HMAC_LEN blk); mret (Some (None, Some h))
        else
          i ← of_opt iv;
          i' ← (match i with
                | Some _ => d ← of_opt (mem_get (meta_off b) BFS_IV_LEN blk); mret (Some d)
                | None => mret None end);
          m ← of_opt mac;
          m' ← (match m with
                | Some _ => d ← of_opt (mem_get (meta_off b + BFS_IV_LEN) BFS_MAC_LEN blk); mret (Some d)
                | None => mret None end);
          mret (Some (i', m'))
    end.

(** The block with the root is written without reading it first. *)
Definition write_blk_meta (b : Z) (iv mac : ptr) (root : bool) : M state bret :=
  bad ← bad_meta_args iv mac root;
  if (bad : bool) then mret BFS_FAILURE
  else
    assert_ (BLK_META_BLK_LOC b <? BFS_LWEXT4_META_SPC n) ;;
    blk ← (if root then
             m ← of_opt mac;
             match m with
             | Some h =>
                 d ← of_opt (mem_get 0 BFS_HMAC_LEN h ≫= fun h => mem_set 0 h zero_blk);
                 mret (Some d)
             | None => die Undefined_behaviour
             end
           else
             r ← read_block_helper (meta_blk n b);
             match r with
             | None => mret None
             | Some blk =>
                 i ← of_opt iv;
                 blk ← (match i with
                        | Some v => of_opt (mem_get 0 BFS_IV_LEN v ≫= fun v => mem_set (meta_off b) v blk)
                        | None => mret blk end);
                 m ← of_opt mac;
                 blk ← (match m with
                        | Some t => of_opt (mem_get 0 BFS_MAC_LEN t ≫= fun t =>
                                              mem_set (meta_off b + BFS_IV_LEN) t blk)
                        | None => mret blk end);
                 mret (Some blk)
             end);
    match blk with
    | None => mret BFS_FAILURE
    | Some d => write_block_helper (meta_blk n b) d
    end.

Definition save_root_hash : M state bret :=
  sc ← gets (fun s => secContext (layer s));
  match sc with
  | None => mret BFS_FAILURE
  | Some _ =>
      h ← on_layer (get_node 0);
      root ← (match h with HNull => mret None | _ => b ← on_layer (deref h); mret (Some b) end);
      r ← write_blk_meta (BFS_LWEXT_MT_ROOT_BLK_NUM n) None (Some root) true;
      match r with BFS_SUCCESS => mret BFS_SUCCESS | _ => mret BFS_FAILURE end
  end.

(** ** The tree over a range of blocks *)

(** [hash_node] on an inner node, in place; it reads no block. *)
Definition rehash (i : Z) : M state bool := on_layer (FsLayer.rehash false i).

(** The tags of a range become its leaves.  An entry of [macs] that was never
    set is an indeterminate pointer. *)
Fixpoint swap_leaves (i : Z) (macs : list (option bytes)) : M state bool :=
  match macs with
  | [] => mret true
  | mac :: macs =>
      h ← on_layer (get_node i);
      match h with
      | HNull => mret false
      | _ => mac ← of_opt mac; on_layer (set_node i (HOwn mac)) ;; swap_leaves (i + 1) macs
      end
  end.

(** [std::set], iterated from the largest element on. *)
Fixpoint set_insert (x : Z) (l : list Z) : list Z :=
  match l with
  | [] => [x]
  | y :: l' => if y <? x then x :: l else if x =? y then l else y :: set_insert x l'
  end.

(** All ancestors of [ii], itself included. *)
Fixpoint insert_path (fuel : nat) (ii : Z) (l : list Z) : option (list Z) :=
  match fuel with
  | O => None
  | S fuel => let l := set_insert ii l in if ii =? 0 then Some l else insert_path fuel (parent ii) l
  end.

(** Of the leaves [i], [i + 1], ...: [k] of them. *)
Fixpoint unique_nodes (k : nat) (i : Z) (l : list Z) : option (list Z) :=
  match k with
  | O => Some l
  | S k => l ← insert_path 65 (parent i) l; unique_nodes k (i + 1) l
  end.

Definition ancestors (k : nat) (i : Z) : M state (list Z) :=
  match unique_nodes k i [] with Some l => mret l | None => die Out_of_fuel end.

Fixpoint rehash_all (l : list Z) : M state bool :=
  match l with
  | [] => mret true
  | i :: l => ok ← rehash i; if (ok : bool) then rehash_all l else mret false
  end.

Definition update_merkle_tree (vbid_start : Z) (macs : list (option bytes)) : M state bret :=
  root ← on_layer (get_node 0);
  match root with
  | HNull => mret BFS_FAILURE
  | _ =>
      i ← gets (fun s => vbid_start + leaf_start (mt (layer s)));
      ok ← swap_leaves i macs;
      if negb ok then mret BFS_FAILURE
      else
        l ← ancestors (length macs) i;
        ok ← rehash_all l;
        if negb ok then mret BFS_FAILURE
        else
          r ← save_root_hash;
          match r with BFS_SUCCESS => mret BFS_SUCCESS | _ => mret BFS_FAILURE end
  end.

(** The loop leaves off above the parents of the leaves.  A difference ends the
    process. *)
Fixpoint check_parents (l : list Z) : M state () :=
  match l with
  | [] => mret ()
  | i :: l =>
      m ← gets (fun s => mt (layer s));
      if i <? Z.shiftl 1 (mt_height m - 1) - 1 then mret ()
      else
        par ← on_layer (node_read i BFS_HMAC_LEN);
        cp ← gets (fun s => curr_par (layer s));
        cp ← of_opt (cp ≫= mem_set 0 par);
        on_layer (modify (set_curr_par (Some cp))) ;;
        ok ← rehash i;
        if negb ok then die Abort_called
        else
          new ← on_layer (node_read i BFS_HMAC_LEN);
          cp ← gets (fun s => curr_par (layer s));
          old ← of_opt (cp ≫= mem_get 0 BFS_HMAC_LEN);
          if decide (new = old) then check_parents l else die Abort_called
  end.

Definition verify_mt (vbid_start : Z) (macs : list (option bytes)) : M state bret :=
  root ← on_layer (get_node 0);
  match root with
  | HNull => die Abort_called
  | _ =>
      i ← gets (fun s => vbid_start + leaf_start (mt (layer s)));
      ok ← swap_leaves i macs;
      if negb ok then mret BFS_FAILURE
      else
        l ← ancestors (length macs) i;
        check_parents l ;;
        mret BFS_SUCCESS
  end.

(** ** Reading and writing *)

(** The buffer for the associated data is used again for every block. *)
Definition next_aad (aad : FlexBuffer.t) (vbid : Z) : M state FlexBuffer.t :=
  match (FlexBuffer.burn ;; FlexBuffer.resizeAllocation 0 8 0 ;; FlexBuffer.addHeader (le_split 8 vbid)) aad with
  | Ok _ aad => mret aad
  | Throw e _ => throw e
  | Crash c => die c
  end.

Definition is_seen (vbid : Z) (l : list Z) : bool := bool_decide (vbid ∈ l).

(** Fetch and open a block: the plaintext and the stored tag. *)
Definition open_block (vbid : Z) (aad : FlexBuffer.t) : M state (option (bytes * bytes * FlexBuffer.t)) :=
  raw ← do_get_block vbid;
  match raw with
  | None => mret None
  | Some raw =>
      r ← read_blk_meta vbid (Some (Some (zeros BFS_IV_LEN))) (Some (Some (zeros BFS_MAC_LEN))) false;
      match r with
      | Some (Some iv, Some mac) =>
          aad ← next_aad aad vbid;
          k ← gets (fun s => secContext (layer s));
          match SecAssoc.decryptData2 k (FlexBuffer.content aad) raw iv mac with
          | inl (k, p) =>
              on_layer (modify (set_secContext (Some k))) ;;
              assert_ (bool_decide (zlen p = BLK_SZ)) ;;
              mret (Some (p, mac, aad))
          | inr e => throw e
          end
      | _ => mret None
      end
  end.

(** The loop of [file_dev_bread]: [rounds] blocks to go, the next one [b_idx].
    The result code, and the caller's buffer.  When the check of the tree fails
    the IV is freed a second time. *)
Fixpoint bread_loop (rounds : nat) (blk_id b_idx blk_cnt : Z) (macs : list (option bytes)) (aad : FlexBuffer.t)
    (buf : bytes) : M state (bret * bytes) :=
  match rounds with
  | O => mret (BFS_SUCCESS, buf)
  | S rounds =>
      let vbid := u64 (blk_id + b_idx) in
      st ← get_status;
      l ← gets seen;
      l ← of_opt l;
      if (FORMATTING <=? st) && negb (is_seen vbid l) then
        buf ← of_opt (mem_set 0 zero_blk buf);
        bread_loop rounds blk_id (b_idx + 1) blk_cnt macs aad buf
      else
        r ← open_block vbid aad;
        match r with
        | None => mret (BFS_FAILURE, buf)
        | Some (p, mac, aad) =>
            let macs := <[Z.to_nat b_idx := Some mac]> macs in
            buf ← of_opt (mem_set (b_idx * BLK_SZ) p buf);
            if (1 <? blk_cnt) && (b_idx <? blk_cnt - 1) then bread_loop rounds blk_id (b_idx + 1) blk_cnt macs aad buf
            else
              v ← (if use_mt && (st =? MOUNTED) then verify_mt blk_id macs else mret BFS_SUCCESS);
              match v with
              | BFS_SUCCESS => bread_loop rounds blk_id (b_idx + 1) blk_cnt macs aad buf
              | _ => die Undefined_behaviour
              end
        end
  end.

Definition file_dev_bread (buf : bytes) (blk_id blk_cnt : Z) : M state (bret * bytes) :=
  d ← gets bfs_blk_dev;
  match d with
  | None => mret (BFS_FAILURE, buf)
  | Some _ =>
      if blk_cnt =? 0 then mret (BFS_SUCCESS, buf)
      else
        sc ← gets (fun s => secContext (layer s));
        l ← gets seen;
        match sc, l with
        | Some _, Some _ =>
            bread_loop (Z.to_nat blk_cnt) blk_id 0 blk_cnt (replicate (Z.to_nat blk_cnt) None) FlexBuffer.empty buf
        | _, _ => mret (BFS_FAILURE, buf)
        end
  end.

(** Seal a block and put it and its metadata on the device: its tag. *)
Definition seal_block (vbid : Z) (d : bytes) (aad : FlexBuffer.t) : M state (option (bytes * FlexBuffer.t)) :=
  aad ← next_aad aad vbid;
  k ← gets (fun s => secContext (layer s));
  i ← gets (fun s => rnd_ctr (layer s));
  on_layer (modify (set_rnd_ctr (S i))) ;;
  match SecAssoc.encryptData2 k (FlexBuffer.content aad) d (rnd i) with
  | inr e => throw e
  | inl (k, c, iv, tag) =>
      on_layer (modify (set_secContext (Some k))) ;;
      assert_ (bool_decide (zlen c = BLK_SZ)) ;;
      r ← write_blk_meta vbid (Some (Some iv)) (Some (Some tag)) false;
      match r with
      | BFS_SUCCESS =>
          r ← do_put_block vbid c;
          match r with BFS_SUCCESS => mret (Some (tag, aad)) | _ => mret None end
      | _ => mret None
      end
  end.

Fixpoint bwrite_loop (rounds : nat) (blk_id b_idx blk_cnt : Z) (macs : list (option bytes)) (aad : FlexBuffer.t)
    (buf : bytes) : M state bret :=
  match rounds with
  | O => mret BFS_SUCCESS
  | S rounds =>
      let vbid := u64 (blk_id + b_idx) in
      st ← get_status;
      l ← gets seen;
      l ← of_opt l;
      (if (FORMATTING <=? st) && negb (is_seen vbid l) then modify (set_seen (Some (l ++ [vbid]))) else mret ()) ;;
      d ← of_opt (mem_get (b_idx * BLK_SZ) BLK_SZ buf);
      r ← seal_block vbid d aad;
      match r with
      | None => mret BFS_FAILURE
      | Some (mac, aad) =>
          let macs := <[Z.to_nat b_idx := Some mac]> macs in
          if (1 <? blk_cnt) && (b_idx <? blk_cnt - 1) then bwrite_loop rounds blk_id (b_idx + 1) blk_cnt macs aad buf
          else
            v ← (if use_mt && negb (st =? CORRUPTED) then update_merkle_tree blk_id macs else mret BFS_SUCCESS);
            match v with
            | BFS_SUCCESS => bwrite_loop rounds blk_id (b_idx + 1) blk_cnt macs aad buf
            | _ => die Undefined_behaviour
            end
      end
  end.

Definition file_dev_bwrite (buf : bytes) (blk_id blk_cnt : Z) : M state bret :=
  d ← gets bfs_blk_dev;
  match d with
  | None => mret BFS_FAILURE
  | Some _ =>
      if blk_cnt =? 0 then mret BFS_SUCCESS
      else
        sc ← gets (fun s => secContext (layer s));
        l ← gets seen;
        match sc, l with
        | Some _, Some _ =>
            bwrite_loop (Z.to_nat blk_cnt) blk_id 0 blk_cnt (replicate (Z.to_nat blk_cnt) None) FlexBuffer.empty buf
        | _, _ => mret BFS_FAILURE
        end
  end.

(** One block at a time, as the block test of the server does. *)
Definition do_file_dev_bread (buf : bytes) (vbid : Z) : M state (bret * bytes) :=
  sc ← gets (fun s => secContext (layer s));
  match sc with None => mret (BFS_FAILURE, buf) | Some _ => file_dev_bread buf vbid 1 end.

Definition do_file_dev_bwrite (blk : bytes) (vbid : Z) : M state bret :=
  sc ← gets (fun s => secContext (layer s));
  match sc with None => mret BFS_FAILURE | Some _ => file_dev_bwrite blk vbid 1 end.

(** ** Opening and closing *)

(** [init_merkle_tree(true)]: the nodes that are missing become zeros. *)
Definition mt_setup : M (sec C) () :=
  s ← get;
  if mt_status (mt s) =? 0 then
    let h := Z.log2 n in
    modify (set_mt (mkMT n h (Z.shiftl 1 (h + 1) - 1) ∅ 1))
  else mret ().

Definition init_merkle_tree : M state bret :=
  on_layer (mt_setup ;;
    m ← gets mt;
    ok ← fill_nodes false (Z.to_nat (mt_num_nodes m)) false;
    mret (if (ok : bool) then BFS_SUCCESS else BFS_FAILURE)).

Definition flush_merkle_tree : M state bret :=
  ok ← on_layer (mt_setup ;; m ← gets mt; fill_nodes false (Z.to_nat (mt_num_nodes m)) true);
  if negb ok then mret BFS_FAILURE else save_root_hash.

(** The device has room for the metadata behind the blocks.  Its file is there
    with this size and can be mapped. *)
Definition map_image : M state () :=
  modify (fun s => let size := n + BFS_LWEXT4_META_SPC n in
    set_dev (Some (LocalDevice.mk 1 size (Some (DeviceStorage.mk 1 size (Some (image s)))))) s).

Definition unmap_image (d : LocalDevice.t) : M state () :=
  modify (fun s => mkState (layer s) None (seen s)
    (default ∅ (s ← LocalDevice.storage d; DeviceStorage.blockStorage s))).

Definition file_dev_open : M state bret :=
  d ← gets bfs_blk_dev;
  match d with
  | Some _ => mret BFS_SUCCESS
  | None =>
      map_image ;;
      if use_mt then
        st ← get_status;
        if (st =? FORMATTED) || (st =? FORMATTING) then
          r ← init_merkle_tree;
          match r with BFS_SUCCESS => mret BFS_SUCCESS | _ => mret BFS_FAILURE end
        else mret BFS_FAILURE
      else mret BFS_SUCCESS
  end.

Definition file_dev_close : M state bret :=
  d ← gets bfs_blk_dev;
  match d with
  | None => mret BFS_FAILURE
  | Some d0 =>
      st ← get_status;
      r ← (if use_mt then
             if (st =? MOUNTED) || (st =? FORMATTING) then flush_merkle_tree else mret BFS_FAILURE
           else mret BFS_SUCCESS);
      match r with
      | BFS_SUCCESS => d ← gets bfs_blk_dev; unmap_image (default d0 d) ;; mret BFS_SUCCESS
      | _ => mret BFS_FAILURE
      end
  end.

(** ** The block test of the server

    [init_bfs_core_ext4_blk_test]: the device without the library; the block
    layer has [n] from the configuration. *)
Definition init_blk_test : M state bret :=
  (if 0 <? n then mret () else die Abort_called) ;;
  on_layer (modify (set_status FORMATTING)) ;;
  modify (set_seen (Some [])) ;;
  r ← file_dev_open;
  match r with
  | BFS_SUCCESS =>
      on_layer (getKey ;; modify (set_curr_par (Some (zeros BFS_HMAC_LEN)))) ;; mret BFS_SUCCESS
  | _ => mret BFS_FAILURE
  end.

(** The list of seen blocks is deleted. *)
Definition fini_blk_test : M state bret :=
  r ← file_dev_close;
  match r with
  | BFS_SUCCESS =>
      modify (set_seen None) ;;
      on_layer (modify (set_curr_par None)) ;;
      on_layer (modify (set_status UNINITIALIZED)) ;;
      mret BFS_SUCCESS
  | _ => mret BFS_FAILURE
  end.
End device.
Arguments state : clear implicits.
End Ext4Dev.
