(* ===== verification/Ext4Spec.v ===== *)
(** * The block device under lwext4 behaves as a map of blocks

    The invariant of the device and what its operations do: the batch update of
    the tree, reading and writing of ranges.  Every block that was written is
    sealed on the device, its IV and tag are in its metadata slot, and the tree
    in memory vouches for the tag. *)
From S2P Require Import Prelude Layout FlexBuffer SecAssoc BlockLayer FsLayer SecBlock Ext4Dev.
From Stdlib Require Import Sorted.

Module Ext4Spec.
Import Ext4Dev.

(** ** The associated data *)
Definition aad_bytes (vbid : Z) : bytes := le_split 8 vbid ++ zeros 8.

(** The buffer for it, before the first use and after any. *)
Definition aad_ready (b : FlexBuffer.t) : Prop :=
  b = FlexBuffer.empty \/ exists d h t, b = FlexBuffer.mk (Some d) 48 h 16 t true.

(** The steps after the room was made. *)
Lemma aad_header d h t vbid :
  zlen d = 48 -> 8 <= h -> 0 <= t -> h + 8 + t = 48 -> mem_get h 8 d = Some (zeros 8) ->
  exists b' x, FlexBuffer.addHeader (le_split 8 vbid) (FlexBuffer.mk (Some d) 48 h 8 t true) = Ok x b' /\
    aad_ready b' /\ FlexBuffer.content b' = aad_bytes vbid.
Proof.
  intros Hd Hh Ht0 Ht Hz. assert (zlen (le_split 8 vbid) = 8) as Hl by apply zlen_le_split.
  destruct (mem_set_is_Some (h - 8) (le_split 8 vbid) d) as [d' Hd']; [lia|rewrite Hl, Hd; lia|].
  eexists _, _. split.
  - unfold FlexBuffer.addHeader. rewrite Hl, bind_get. cbn [FlexBuffer.hlength].
    destruct (Z.ltb_spec h 8); [lia|]. rewrite bind_ret, bind_get. cbn [FlexBuffer.hlength FlexBuffer.length FlexBuffer.tlength].
    rewrite (u32_small (h - 8)) by lia.
    rewrite (bind_Ok _ _ _ () (FlexBuffer.mk (Some d') 48 h 8 t true)) by (unfold FlexBuffer.store; cbn; by rewrite Hd').
    unfold FlexBuffer.set_lens, mbind, M_bind. cbn. rewrite (u32_small (h - 8)), (u32_small t) by lia. reflexivity.
  - split; [right; by eexists _, _, _|]. unfold FlexBuffer.content, FlexBuffer.mem. cbn [FlexBuffer.buffer FlexBuffer.length FlexBuffer.hlength default from_option].
    assert (mem_get (h - 8) 16 d' = Some (aad_bytes vbid)) as Hg.
    { change 16 with (8 + 8). rewrite <-Hl at 2. apply mem_get_split; [by eapply mem_get_set_eq|].
      rewrite (mem_get_set_ne _ _ _ _ _ _ Hd') by lia. rewrite Hl. by replace (h - 8 + 8) with h by lia. }
    apply mem_get_Some in Hg as (_&_&_&_&->). done.
Qed.

Lemma aad_next b vbid :
  aad_ready b ->
  exists b' x, (FlexBuffer.burn ;; FlexBuffer.resizeAllocation 0 8 0 ;; FlexBuffer.addHeader (le_split 8 vbid)) b = Ok x b' /\
    aad_ready b' /\ FlexBuffer.content b' = aad_bytes vbid.
Proof.
  intros [->|(d&h&t&->)].
  - assert ((FlexBuffer.burn ;; FlexBuffer.resizeAllocation 0 8 0 ;; FlexBuffer.addHeader (le_split 8 vbid)) FlexBuffer.empty
      = FlexBuffer.addHeader (le_split 8 vbid) (FlexBuffer.mk (Some (zeros 8)) 8 0 8 0 true)) as -> by done.
    assert (FlexBuffer.addHeader (le_split 8 vbid) (FlexBuffer.mk (Some (zeros 8)) 8 0 8 0 true)
      = FlexBuffer.addHeader (le_split 8 vbid) (FlexBuffer.mk (Some (zeros 48)) 48 40 8 0 true)) as ->.
    { unfold FlexBuffer.addHeader. rewrite zlen_le_split, !bind_get. done. }
    by apply aad_header.
  - assert ((FlexBuffer.burn ;; FlexBuffer.resizeAllocation 0 8 0 ;; FlexBuffer.addHeader (le_split 8 vbid))
        (FlexBuffer.mk (Some d) 48 h 16 t true)
      = FlexBuffer.addHeader (le_split 8 vbid) (FlexBuffer.mk (Some (zeros 48)) 48 20 8 20 true)) as ->.
    { unfold FlexBuffer.resizeAllocation, FlexBuffer.burn, mbind, M_bind. cbn. by rewrite andb_false_r. }
    by apply aad_header.
Qed.

Section spec.
Context `{Cipher} {claws : CipherLaws} {C : Type} `{BlkCache C}.
Context (n : Z).
Implicit Types (s : state C) (x : sec C) (m : gmap Z bytes).

Lemma next_aad_Ok s b vbid :
  aad_ready b -> exists b', next_aad b vbid s = Ok b' s /\ aad_ready b' /\ FlexBuffer.content b' = aad_bytes vbid.
Proof.
  intros Hb. destruct (aad_next b vbid Hb) as (b'&y&Hr&Hb'&Hc). exists b'. split; [|done].
  unfold next_aad. by rewrite Hr.
Qed.

Lemma on_layer_Ok {A} (f : M (sec C) A) s a x : f (layer s) = Ok a x -> on_layer f s = Ok a (set_layer x s).
Proof. unfold on_layer. by intros ->. Qed.

(** ** The device *)
Definition dev_size : Z := n + BFS_LWEXT4_META_SPC n.
Definition dev_with m : LocalDevice.t := LocalDevice.mk 1 dev_size (Some (DeviceStorage.mk 1 dev_size (Some m))).
Definition mget m (j : Z) : bytes := default zero_blk (m !! j).

(** The device is open with the blocks [m], all of them whole. *)
Definition holds s m : Prop :=
  bfs_blk_dev s = Some (dev_with m) /\ forall j, zlen (mget m j) = BLK_SZ.

Lemma mget_insert m j d k : mget (<[j := d]> m) k = if decide (k = j) then d else mget m k.
Proof. unfold mget. case_decide; subst; [by rewrite lookup_insert_eq|by rewrite lookup_insert_ne]. Qed.

Lemma do_get_block_Ok s m j : holds s m -> 0 <= j < dev_size -> do_get_block j s = Ok (Some (mget m j)) s.
Proof.
  intros [Hd _] Hj. unfold do_get_block. rewrite bind_gets, Hd.
  unfold LocalDevice.getBlock, DeviceStorage.getBlock, DeviceStorage.getBlockAddress, dev_with. cbn.
  destruct (Z.leb_spec dev_size j); [lia|]. done.
Qed.

Lemma do_put_block_Ok s m j d : holds s m -> 0 <= j < dev_size -> zlen d = BLK_SZ ->
  do_put_block j d s = Ok BFS_SUCCESS (set_dev (Some (dev_with (<[j := d]> m))) s) /\
  holds (set_dev (Some (dev_with (<[j := d]> m))) s) (<[j := d]> m).
Proof.
  intros [Hd Hw] Hj Hz. split.
  - unfold do_put_block. rewrite bind_gets, Hd.
    unfold LocalDevice.putBlock, DeviceStorage.putBlock, DeviceStorage.getBlockAddress, dev_with. cbn.
    destruct (Z.leb_spec dev_size j); [lia|]. cbn. rewrite take_ge by (unfold zlen in *; lia). done.
  - split; [done|]. intros k. rewrite mget_insert. by case_decide.
Qed.

Lemma ext4_read_block_helper_Ok s m j : holds s m -> 0 <= j < dev_size -> read_block_helper j s = Ok (Some (mget m j)) s.
Proof. intros. apply catch_Ok. by apply do_get_block_Ok. Qed.

Lemma ext4_write_block_helper_Ok s m j d : holds s m -> 0 <= j < dev_size -> zlen d = BLK_SZ ->
  write_block_helper j d s = Ok BFS_SUCCESS (set_dev (Some (dev_with (<[j := d]> m))) s).
Proof. intros. apply catch_Ok. by apply do_put_block_Ok. Qed.

(** ** The nodes above a range of leaves *)
Lemma set_insert_in y l a : a ∈ set_insert y l <-> a = y \/ a ∈ l.
Proof.
  induction l as [|z l IH]; cbn; [set_solver|].
  destruct (Z.ltb_spec z y); [set_solver|]. destruct (Z.eqb_spec y z); set_solver.
Qed.

Lemma set_insert_sorted y l : StronglySorted Z.gt l -> StronglySorted Z.gt (set_insert y l).
Proof.
  induction 1 as [|z l Hl IH Hz]; cbn; [repeat constructor|].
  destruct (Z.ltb_spec z y).
  - repeat constructor; [done..|lia|]. eapply Forall_impl; [done|]. cbn. lia.
  - destruct (Z.eqb_spec y z); [by constructor|]. constructor; [done|].
    rewrite Forall_forall in *. intros a [->|Ha]%set_insert_in; [lia|by apply Hz].
Qed.

Lemma insert_path_spec fuel i l :
  0 <= i < 2 ^ Z.of_nat fuel - 1 -> i < 2 ^ 63 -> StronglySorted Z.gt l ->
  exists l', insert_path fuel i l = Some l' /\ StronglySorted Z.gt l' /\ forall a, a ∈ l' <-> a ∈ l \/ path i a.
Proof.
  revert i l. induction fuel as [|fuel IH]; intros i l Hi Hm Hl; [cbn in Hi; lia|]. cbn [insert_path].
  pose proof (set_insert_sorted i l Hl) as Hl1. destruct (Z.eqb_spec i 0) as [->|Hne].
  - eexists. split_and!; [done..|]. intros a. rewrite set_insert_in. split.
    + intros [->|?]; [right; constructor|by left].
    + intros [?|[->|[? _]]%path_inv]; [by right|by left|lia].
  - assert (2 ^ Z.of_nat (S fuel) = 2 * 2 ^ Z.of_nat fuel) as Hpow.
    { rewrite <-Z.pow_succ_r by lia. f_equal. lia. }
    rewrite parent_eq by lia. pose proof (parent_bound i ltac:(lia)).
    destruct (IH ((i - 1) / 2) (set_insert i l)) as (l'&Hr&Hs&Hin);
      [Z.to_euclidean_division_equations; lia|lia|done|].
    exists l'. split_and!; [done..|]. intros a. rewrite Hin, set_insert_in. split.
    + intros [[->|?]|?]; [right; constructor|by left|right; by constructor; [lia|]].
    + intros [?|[->|[_ ?]]%path_inv]; auto.
Qed.

(** The set has the ancestors of the leaves from [i] on, and only them. *)
Lemma unique_nodes_spec k i l :
  0 < i -> i + Z.of_nat k <= 2 ^ 63 -> StronglySorted Z.gt l ->
  exists l', unique_nodes k i l = Some l' /\ StronglySorted Z.gt l' /\
    forall a, a ∈ l' <-> a ∈ l \/ exists j, i <= j < i + Z.of_nat k /\ path ((j - 1) / 2) a.
Proof.
  revert i l. induction k as [|k IH]; intros i l Hi Hk Hl; cbn [unique_nodes].
  { exists l. split_and!; [done..|]. intros a. split; [auto|]. intros [?|(j&?&_)]; [done|lia]. }
  rewrite parent_eq by lia. pose proof (parent_bound i Hi).
  destruct (insert_path_spec 65 ((i - 1) / 2) l) as (l1&Hp1&Hs1&Hin1); [cbn; lia..|done|].
  rewrite Hp1. cbn [mbind option_bind].
  destruct (IH (i + 1) l1) as (l'&Hr&Hs&Hin); [lia..|done|]. exists l'. split_and!; [done..|].
  intros a. rewrite Hin, Hin1. split.
  - intros [[?|?]|(j&?&?)]; [by left|right; exists i; split; [lia|done]|right; exists j; split; [lia|done]].
  - intros [?|(j&?&?)]; [by left; left|]. destruct (decide (j = i)) as [->|]; [by left; right|].
    right. exists j. split; [lia|done].
Qed.

Lemma ancestors_Ok k i s :
  0 < i -> i + Z.of_nat k <= 2 ^ 63 ->
  exists l, ancestors k i s = Ok l s /\ StronglySorted Z.gt l /\
    forall a, a ∈ l <-> exists j, i <= j < i + Z.of_nat k /\ path ((j - 1) / 2) a.
Proof.
  intros Hi Hk. destruct (unique_nodes_spec k i [] Hi Hk) as (l&Hr&Hs&Hin); [constructor|].
  exists l. unfold ancestors. rewrite Hr. split_and!; [done..|]. intros a. rewrite Hin. set_solver.
Qed.

(** ** The tree in memory *)
Lemma rehash_on s i : tree_ok (layer s) -> key_ok (layer s) -> 0 <= i < leaf_start (mt (layer s)) ->
  rehash i s = Ok true (set_layer (rehashed (layer s) i) s) /\ tree_ok (rehashed (layer s) i).
Proof.
  intros Ht Hk Hi. destruct (rehash_Ok false (layer s) i Ht Hk Hi) as [Hr Ht1]. split; [|done].
  by apply on_layer_Ok.
Qed.

Lemma set_layer_twice x y s : set_layer x (set_layer y s) = set_layer x s.
Proof. done. Qed.

Lemma rehash_all_Ok l s :
  tree_ok (layer s) -> key_ok (layer s) -> StronglySorted Z.gt l ->
  (forall a, a ∈ l -> 0 <= a < leaf_start (mt (layer s))) ->
  exists x, rehash_all l s = Ok true (set_layer x s) /\ tree_ok x /\ same_but_nodes (layer s) x /\
    (forall a, a ∉ l -> nh x a = nh (layer s) a) /\ (forall a, a ∈ l -> node_good x a).
Proof.
  intros Ht Hk Hl. revert s Ht Hk. induction Hl as [|i l Hl IH Hi]; intros s Ht Hk Hr.
  { exists (layer s). split_and!; [by destruct s|done..|set_solver]. }
  assert (0 <= i < leaf_start (mt (layer s))) as Hri by set_solver.
  destruct (rehash_on s i Ht Hk Hri) as [Hr1 Ht1]. destruct (rehashed_good (layer s) i) as [Hg Hs]; [lia|].
  assert (same_but_nodes (layer s) (rehashed (layer s) i)) as Hsame by apply same_but_nodes_with.
  destruct (IH (set_layer (rehashed (layer s) i) s)) as (x&Hx&Htx&Hsx&Hno&Hgood).
  { done. } { by eapply same_key_ok. } { intros a Ha. apply Hr. set_solver. }
  exists x. split_and!; [cbn [rehash_all]; by mrun Hr1|done|by eapply same_but_nodes_trans|..].
  - intros a Ha. rewrite Hno by set_solver. apply Hs. set_solver.
  - intros a [->|Ha]%elem_of_cons; [|by apply Hgood].
    assert (forall j, i <= j -> nh x j = nh (rehashed (layer s) i) j) as Hup.
    { intros j Hj. apply Hno. intros Hin. rewrite Forall_forall in Hi. specialize (Hi j Hin). lia. }
    unfold node_good. rewrite !Hup by lia. rewrite (same_hmac2 _ _ _ _ Hsx). exact Hg.
Qed.

Lemma swap_leaves_Ok ms s i :
  tree_ok (layer s) -> leaf_start (mt (layer s)) <= i -> i + zlen ms <= mt_num_nodes (mt (layer s)) ->
  Forall (fun mac : bytes => zlen mac = BFS_MAC_LEN) ms ->
  exists x, swap_leaves i (Some <$> ms) s = Ok true (set_layer x s) /\ tree_ok x /\ same_but_nodes (layer s) x /\
    (forall j mac, ms !! j = Some mac -> nh x (i + Z.of_nat j) = mac) /\
    (forall a, a < i \/ i + zlen ms <= a -> nh x a = nh (layer s) a).
Proof.
  revert s i. induction ms as [|mac ms IH]; intros s i Ht Hi Hn Hz.
  { exists (layer s). split_and!; [by destruct s|done..]. }
  inversion Hz as [|? ? Hm Hms]; subst. rewrite zlen_cons in Hn. pose proof (zlen_nonneg ms).
  assert (0 <= leaf_start (mt (layer s))) as Hls by (destruct (tree_sizes _ Ht) as (w&?&?&?&?&?); lia).
  assert (0 <= i < mt_num_nodes (mt (layer s))) as Hri by lia.
  assert (node_size (mt (layer s)) i = BFS_MAC_LEN) as Hns.
  { unfold node_size. destruct (Z.leb_spec (leaf_start (mt (layer s))) i); [done|lia]. }
  assert (tree_ok (with_node i (HOwn mac) (layer s))) as Ht1 by (apply tree_ok_with_node; congruence).
  destruct (IH (set_layer (with_node i (HOwn mac) (layer s)) s) (i + 1)) as (x&Hx&Htx&Hsx&Hin&Hout);
    [done|cbn; change (leaf_start _) with (leaf_start (mt (layer s))); lia|cbn; lia|done|].
  cbn [layer set_layer] in *. exists x. split_and!; [|done|by eapply same_but_nodes_trans; [apply same_but_nodes_with|]|..].
  - cbn [fmap list_fmap swap_leaves]. mrun (on_layer_Ok _ s _ _ (get_node_Ok _ i Ht Hri)). msteps.
    assert (on_layer (set_node i (HOwn mac)) (set_layer (layer s) s) =
      Ok () (set_layer (with_node i (HOwn mac) (layer s)) s)) as Hr1 by done.
    mrun Hr1. exact Hx.
  - intros [|j] mac' Hj; cbn in Hj.
    + simplify_eq. rewrite Z.add_0_r, Hout by lia. by rewrite nh_with_node, decide_True.
    + rewrite <-(Hin j mac' Hj). f_equal. lia.
  - intros a Ha. rewrite zlen_cons in Ha. rewrite Hout by lia. rewrite nh_with_node, decide_False by lia. done.
Qed.

(** ** Metadata on the device *)
Lemma meta_bounds b : 0 <= b <= n ->
  n < meta_blk n b < dev_size /\ 0 <= meta_off b /\ meta_off b + 28 <= BLK_SZ /\
  0 <= BLK_META_BLK_LOC b < BFS_LWEXT4_META_SPC n.
Proof.
  intros Hb. unfold meta_blk, dev_size, BFS_LWEXT_META_START_BLK_NUM, BFS_LWEXT_MT_ROOT_BLK_NUM, BFS_LWEXT4_META_SPC, meta_off.
  layout_lia.
Qed.

(** A block whose metadata is not next to the root of the tree. *)
Definition apart (b : Z) : Prop := 0 <= b < n /\ BLK_META_BLK_LOC b < BLK_META_BLK_LOC n.

Lemma meta_blk_inj b b' : meta_blk n b' = meta_blk n b -> BLK_META_BLK_LOC b' = BLK_META_BLK_LOC b.
Proof. unfold meta_blk. lia. Qed.

(** The device has block [b] sealed under [key], with this tag and plaintext. *)
Definition sealed m (key : bytes) (b : Z) (mac d : bytes) : Prop :=
  exists iv, slot_in (mget m (meta_blk n b)) b iv mac /\
    mac = gcm_tag key iv (aad_bytes b) (mget m b) /\ d = gcm_decrypt key iv (aad_bytes b) (mget m b).

Lemma set_layer_same s : set_layer (layer s) s = s.
Proof. by destruct s. Qed.

Lemma meta_args_Ok s y mac : bad_meta_args (Some (Some y)) mac false s = Ok false s.
Proof. unfold bad_meta_args, on_layer. by destruct s. Qed.

Lemma root_args_Ok s iv h : bad_meta_args iv (Some (Some h)) true s = Ok false s.
Proof. unfold bad_meta_args, on_layer. by destruct s. Qed.

Lemma ext4_read_blk_meta_Ok s m b iv mac y z :
  holds s m -> 0 <= b < n -> slot_in (mget m (meta_blk n b)) b iv mac ->
  read_blk_meta n b (Some (Some y)) (Some (Some z)) false s = Ok (Some (Some iv, Some mac)) s.
Proof.
  intros Hh Hb [Hiv Hmac]. destruct (meta_bounds b) as (?&?&?&?); [lia|].
  unfold read_blk_meta. mrun (meta_args_Ok s y (Some (Some z))). rewrite bind_assert by lia.
  mrun (ext4_read_block_helper_Ok s m (meta_blk n b) Hh ltac:(lia)). msteps. rewrite Hiv. msteps. rewrite Hmac. by msteps.
Qed.

(** The metadata of [b] is replaced; its block and the slots of others stay. *)
Lemma ext4_write_blk_meta_Ok s m b iv mac :
  holds s m -> 0 <= b < n -> zlen iv = BFS_IV_LEN -> zlen mac = BFS_MAC_LEN ->
  exists d, write_blk_meta n b (Some (Some iv)) (Some (Some mac)) false s
      = Ok BFS_SUCCESS (set_dev (Some (dev_with (<[meta_blk n b := d]> m))) s) /\ zlen d = BLK_SZ /\
    mem_set (meta_off b) (iv ++ mac) (mget m (meta_blk n b)) = Some d.
Proof.
  intros Hh Hb Hiv Hmac. destruct (meta_bounds b) as (Hm&Ho&Ho2&Hl); [lia|]. pose proof (proj2 Hh (meta_blk n b)) as Hz.
  destruct (mem_set_is_Some (meta_off b) iv (mget m (meta_blk n b))) as [d1 Hd1]; [lia|unfold BFS_IV_LEN in *; lia|].
  pose proof (mem_set_zlen _ _ _ _ Hd1) as Hz1.
  destruct (mem_set_is_Some (meta_off b + BFS_IV_LEN) mac d1) as [d2 Hd2];
    [unfold BFS_IV_LEN; lia|unfold BFS_IV_LEN, BFS_MAC_LEN in *; lia|].
  pose proof (mem_set_zlen _ _ _ _ Hd2) as Hz2. exists d2. split_and!; [|lia|].
  - unfold write_blk_meta. mrun (meta_args_Ok s iv (Some (Some mac))). rewrite bind_assert by lia. msteps.
    mrun (ext4_read_block_helper_Ok s m (meta_blk n b) Hh ltac:(lia)). msteps.
    rewrite (mem_get_all iv), some_bind, Hd1 by done. msteps.
    rewrite (mem_get_all mac), some_bind, Hd2 by done. msteps. apply ext4_write_block_helper_Ok; [done|lia|lia].
  - rewrite <-Hiv in Hd2. by rewrite <-(mem_set_app _ _ _ _ _ Hd1).
Qed.

(** Writing the root replaces the whole metadata block. *)
Lemma save_root_hash_Ok s m :
  holds s m -> 0 < n -> tree_ok (layer s) -> key_ok (layer s) ->
  exists d, save_root_hash n s = Ok BFS_SUCCESS (set_dev (Some (dev_with (<[meta_blk n n := d]> m))) s) /\
    d = nh (layer s) 0 ++ zeros (BLK_SZ - BFS_HMAC_LEN) /\ zlen d = BLK_SZ.
Proof.
  intros Hh Hn Ht (k&Hk&_). destruct (tree_sizes _ Ht) as (w&?&?&?&?&?).
  destruct (nh_node _ 0 Ht) as [_ Hz]; [lia|]. unfold node_size in Hz.
  destruct (Z.leb_spec (leaf_start (mt (layer s))) 0); [lia|].
  set (root := nh (layer s) 0) in *. exists (root ++ zeros (BLK_SZ - BFS_HMAC_LEN)).
  assert (mem_set 0 root zero_blk = Some (root ++ zeros (BLK_SZ - BFS_HMAC_LEN))) as Hset.
  { unfold mem_set. rewrite decide_True by (rewrite Hz; done). rewrite Hz. done. }
  assert (zlen (root ++ zeros (BLK_SZ - BFS_HMAC_LEN)) = BLK_SZ) as Hzd
    by (rewrite zlen_app, Hz, zlen_zeros by done; done).
  split_and!; [|done..].
  destruct (meta_bounds n) as (?&_&_&?); [lia|]. unfold save_root_hash. msteps. rewrite Hk.
  mrun (on_layer_Ok _ s _ _ (get_node_Ok _ 0 Ht ltac:(lia))). fold root.
  rewrite set_layer_same.
  assert (on_layer (deref (HOwn root)) s = Ok root s) as Hr by (unfold on_layer; cbn; by destruct s).
  rewrite bind_assoc. mrun Hr. msteps. unfold write_blk_meta. rewrite bind_assoc. mrun (root_args_Ok s None root).
  unfold BFS_LWEXT_MT_ROOT_BLK_NUM. rewrite ?bind_assoc, bind_assert by lia. msteps.
  rewrite mem_get_all by done. rewrite some_bind, Hset. msteps.
  by mrun (ext4_write_block_helper_Ok s m (meta_blk n n) _ Hh ltac:(lia) Hzd).
Qed.

(** ** Opening a block *)

(** The tree, the buffer of the check, the status and the key are the same. *)
Definition frame s s' : Prop :=
  mt (layer s') = mt (layer s) /\ curr_par (layer s') = curr_par (layer s) /\ status (layer s') = status (layer s) /\
  ckey (layer s') = ckey (layer s) /\ key_ok (layer s').

Lemma ext4_frame_refl s : key_ok (layer s) -> frame s s.
Proof. done. Qed.

Lemma ext4_frame_trans s s1 s2 : frame s s1 -> frame s1 s2 -> frame s s2.
Proof. unfold frame. intuition congruence. Qed.

Lemma frame_seen s l : key_ok (layer s) -> frame s (set_seen l s).
Proof. done. Qed.

Lemma frame_key s k' : CryptoKey.cipher_key k' = ckey (layer s) -> CryptoKey.cipherInitialized k' = true ->
  frame s (set_layer (set_secContext (Some k') (layer s)) s).
Proof. intros Hk Hi. unfold frame. cbn. split_and!; [done..|by exists k']. Qed.

Lemma sealed_kept m m' key b b' mac d d1 :
  0 <= b' < n -> b' <> b -> 0 <= b < n ->
  (forall j, j <> b -> j <> meta_blk n b -> mget m' j = mget m j) -> mget m' (meta_blk n b) = d1 ->
  (forall iv, slot_in (mget m (meta_blk n b)) b' iv mac -> BLK_META_BLK_LOC b' = BLK_META_BLK_LOC b -> slot_in d1 b' iv mac) ->
  sealed m key b' mac d -> sealed m' key b' mac d.
Proof.
  intros Hb' Hne Hb Ho Hm Hsl (iv&Hs&Ht&Hd). exists iv.
  destruct (meta_bounds b) as (?&_); [lia|]. destruct (meta_bounds b') as (?&_); [lia|].
  rewrite (Ho b') by lia. split_and!; [|done..]. destruct (decide (meta_blk n b' = meta_blk n b)) as [Heq|Hnq].
  - rewrite Heq, Hm. rewrite Heq in Hs. apply Hsl; [done|]. by apply meta_blk_inj.
  - by rewrite Ho by lia.
Qed.

(** Opening a block with the metadata that is there. *)
Lemma open_block_slot s m b aad iv mac :
  holds s m -> 0 <= b < n -> key_ok (layer s) -> aad_ready aad -> slot_in (mget m (meta_blk n b)) b iv mac ->
  let key := ckey (layer s) in
  (mac = gcm_tag key iv (aad_bytes b) (mget m b) ->
     exists s' aad', open_block n b aad s = Ok (Some (gcm_decrypt key iv (aad_bytes b) (mget m b), mac, aad')) s' /\
       aad_ready aad' /\ holds s' m /\ frame s s' /\ seen s' = seen s) /\
  (mac <> gcm_tag key iv (aad_bytes b) (mget m b) -> exists e, open_block n b aad s = Throw e s).
Proof.
  intros Hh Hb (k&Hk&Hi) Ha Hsl key. destruct (next_aad_Ok s aad b Ha) as (aad'&Hr0&Ha'&Hc).
  assert (0 <= b < dev_size) as Hbd by (destruct (meta_bounds b) as (?&_); lia).
  set (p := gcm_decrypt key iv (aad_bytes b) (mget m b)).
  assert (zlen p = BLK_SZ) as Hz by (unfold p; rewrite decrypt_zlen; apply Hh).
  assert (forall r, (match SecAssoc.decryptData2 (Some k) (aad_bytes b) (mget m b) iv mac with
      | inl (k, p) =>
          on_layer (modify (set_secContext (Some k))) ;; assert_ (bool_decide (zlen p = BLK_SZ)) ;; mret (Some (p, mac, aad'))
      | inr e => throw e end) s = r -> open_block n b aad s = r) as Hrun.
  { intros r <-. unfold open_block. mrun (do_get_block_Ok s m b Hh Hbd).
    mrun (ext4_read_blk_meta_Ok s m b iv mac (zeros BFS_IV_LEN) (zeros BFS_MAC_LEN) Hh Hb Hsl).
    mrun Hr0. msteps. by rewrite Hk, Hc. }
  assert (key = CryptoKey.cipher_key k) as Hkey by (unfold key, ckey; by rewrite Hk).
  unfold SecAssoc.decryptData2, CryptoKey.decryptData, CryptoKey.verifyMac in Hrun. rewrite Hi, <-Hkey in Hrun. cbn in Hrun.
  split; intros Hm.
  - rewrite decide_True in Hrun by done.
    match type of Hrun with context [set_secContext (Some ?k0)] => set (k1 := k0) in Hrun end.
    exists (set_layer (set_secContext (Some k1) (layer s)) s), aad'. split_and!; [|done|done|by apply frame_key|done].
    apply Hrun. fold p.
    assert (on_layer (modify (set_secContext (Some k1))) s = Ok () (set_layer (set_secContext (Some k1) (layer s)) s)) as Hm1 by done.
    mrun Hm1. rewrite bind_assert by (by apply bool_decide_true). done.
  - rewrite decide_False in Hrun by done. eexists. by apply Hrun.
Qed.

Lemma open_block_Ok s m b aad mac d :
  holds s m -> 0 <= b < n -> key_ok (layer s) -> aad_ready aad -> sealed m (ckey (layer s)) b mac d ->
  exists s' aad', open_block n b aad s = Ok (Some (d, mac, aad')) s' /\ aad_ready aad' /\ holds s' m /\ frame s s' /\
    seen s' = seen s.
Proof.
  intros Hh Hb Hk Ha (iv&Hsl&Ht&->). by apply (open_block_slot s m b aad iv mac Hh Hb Hk Ha Hsl).
Qed.

(** ** Updating the tree *)
Definition up x (b : Z) : Z := (leaf x b - 1) / 2.

Lemma same_leaf x x' b : same_but_nodes x x' -> leaf x' b = leaf x b.
Proof. intros (_&_&_&_&_&Hh&_). unfold leaf, leaf_start. by rewrite Hh. Qed.

Lemma same_leaf_start x x' : same_but_nodes x x' -> leaf_start (mt x') = leaf_start (mt x).
Proof. intros (_&_&_&_&_&Hh&_). unfold leaf_start. by rewrite Hh. Qed.

(** What a list of ancestors covers, for a range of leaves. *)
Definition covers x (b k : Z) (l : list Z) : Prop :=
  StronglySorted Z.gt l /\ (forall a, a ∈ l -> 0 <= a < leaf_start (mt x)) /\
  (forall b', b <= b' < b + k -> up x b' ∈ l) /\
  (forall a, a ∈ l -> Z.shiftl 1 (mt_height (mt x) - 1) - 1 <= a -> exists b', b <= b' < b + k /\ a = up x b').

Lemma ancestors_cover s b k :
  tree_ok (layer s) -> n = 2 ^ mt_height (mt (layer s)) -> 0 <= b -> b + Z.of_nat k <= n ->
  exists l, ancestors k (b + leaf_start (mt (layer s))) s = Ok l s /\ covers (layer s) b (Z.of_nat k) l.
Proof.
  intros Ht Hn Hb Hk. destruct (tree_sizes _ Ht) as (w&?&?&?&?&?).
  assert (n <= 2 ^ 30) by (rewrite Hn; apply Z.pow_le_mono_r; [lia|destruct Ht; lia]).
  destruct (ancestors_Ok k (b + leaf_start (mt (layer s))) s) as (l&Hr&Hs&Hin); [lia..|].
  exists l. split; [done|]. split_and!; [done|..].
  - intros a (j&Hj&Hp)%Hin. pose proof (parent_bound j ltac:(lia)).
    apply path_le in Hp; [|lia]. split; [lia|].
    destruct (leaf_range (layer s) (j - leaf_start (mt (layer s))) Ht) as (_&Hl&_); [lia|].
    unfold leaf in Hl. replace (j - leaf_start (mt (layer s)) + leaf_start (mt (layer s))) with j in Hl by lia. lia.
  - intros b' Hb'. apply Hin. exists (leaf (layer s) b'). split; [unfold leaf; lia|constructor].
  - intros a (j&Hj&Hp)%Hin. rewrite shiftl1 by (destruct Ht; lia). intros Ha. exists (j - leaf_start (mt (layer s))).
    split; [lia|]. unfold up, leaf. replace (j - leaf_start (mt (layer s)) + leaf_start (mt (layer s))) with j by lia.
    apply path_inv in Hp as [->|[? Hp]]; [done|]. apply path_le in Hp; Z.to_euclidean_division_equations; lia.
Qed.

Lemma children_of_up x b : tree_ok x -> 0 <= b < 2 ^ mt_height (mt x) ->
  leaf_start (mt x) <= 2 * up x b + 1 /\ 2 * up x b + 2 < mt_num_nodes (mt x).
Proof.
  intros Ht Hb. destruct (leaf_range x b Ht Hb) as (?&?&?&?). destruct (tree_sizes _ Ht) as (w&?&?&?&?&?).
  unfold up. lia.
Qed.

Lemma up_child x b c : c = 2 * up x b + 1 \/ c = 2 * up x b + 2 -> up x (c - leaf_start (mt x)) = up x b.
Proof.
  intros Hc. unfold up at 1, leaf. replace (c - leaf_start (mt x) + leaf_start (mt x)) with c by lia.
  Z.to_euclidean_division_equations; lia.
Qed.

Lemma up_range x b : tree_ok x -> 0 <= b < 2 ^ mt_height (mt x) -> 0 <= up x b < leaf_start (mt x).
Proof. intros Ht Hb. by destruct (leaf_range x b Ht Hb) as (_&?&_). Qed.

(** The tags are the leaves, what is above them is good, the rest is kept. *)
Lemma update_merkle_tree_Ok s m b ms :
  holds s m -> tree_ok (layer s) -> key_ok (layer s) -> n = 2 ^ mt_height (mt (layer s)) -> 0 <= b -> b + zlen ms <= n ->
  Forall (fun mac : bytes => zlen mac = BFS_MAC_LEN) ms ->
  exists x, update_merkle_tree n b (Some <$> ms) s
      = Ok BFS_SUCCESS (set_dev (Some (dev_with (<[meta_blk n n := nh x 0 ++ zeros (BLK_SZ - BFS_HMAC_LEN)]> m))) (set_layer x s)) /\
    tree_ok x /\ same_but_nodes (layer s) x /\
    (forall j mac, ms !! j = Some mac -> nh x (leaf x (b + Z.of_nat j)) = mac) /\
    (forall b', 0 <= b' < n -> ~ b <= b' < b + zlen ms -> nh x (leaf x b') = nh (layer s) (leaf x b')) /\
    (forall b', 0 <= b' < n -> b <= b' < b + zlen ms \/ node_good (layer s) (up x b') -> node_good x (up x b')).
Proof.
  intros Hh Ht Hk Hn Hb Hr Hz. destruct (tree_sizes _ Ht) as (w&Hw1&Hw2&Hw3&Hw4&Hw5).
  set (ls := leaf_start (mt (layer s))) in *.
  destruct (swap_leaves_Ok ms s (b + ls)) as (x1&Hr1&Ht1&Hs1&Hin1&Hout1); [done|lia|lia|done|].
  pose proof (same_leaf_start _ _ Hs1) as Hls1. pose proof Hs1 as (_&_&_&_&_&Hh1&_).
  destruct (ancestors_cover (set_layer x1 s) b (length ms)) as (l&Hr2&Hsort&Hlow&Hup&_);
    [done|cbn; congruence|lia|unfold zlen in Hr; lia|]. cbn [layer set_layer] in *. rewrite Hls1 in Hr2, Hlow. fold ls in Hr2, Hlow.
  destruct (rehash_all_Ok l (set_layer x1 s)) as (x&Hr3&Htx&Hsx&Hno&Hgood); [done|by eapply same_key_ok|done| |].
  { cbn [layer set_layer]. intros a Ha. rewrite Hls1. by apply Hlow. }
  cbn [layer set_layer] in *. pose proof (same_but_nodes_trans _ _ _ Hs1 Hsx) as Hs.
  assert (forall b', leaf x b' = b' + ls) as Hlx by (intros b'; by rewrite (same_leaf _ _ b' Hs)).
  assert (forall b', up x b' = up x1 b') as Hupx by (intros b'; unfold up; by rewrite (same_leaf _ _ b' Hsx)).
  destruct (save_root_hash_Ok (set_layer x s) m) as (d&Hr4&->&_); [done|lia|done|by eapply same_key_ok|].
  exists x. split_and!; [|done..| | |].
  - unfold update_merkle_tree.
    mrun (on_layer_Ok _ s _ _ (get_node_Ok _ 0 Ht ltac:(lia))). rewrite set_layer_same. msteps. fold ls.
    mrun Hr1. cbn [negb]. rewrite length_fmap. mrun Hr2. mrun Hr3. cbn [negb]. mrun Hr4. done.
  - intros j mac Hj. apply lookup_lt_Some in Hj as Hlt. rewrite Hlx, Hno.
    + rewrite <-(Hin1 j mac Hj). f_equal. lia.
    + intros Ha%Hlow. lia.
  - intros b' Hb' Hout. rewrite Hlx, Hno by (intros Ha%Hlow; lia). apply Hout1. lia.
  - intros b' Hb' Hg. destruct (decide (up x b' ∈ l)) as [Hl|Hl]; [by apply Hgood|].
    destruct Hg as [Hg|Hg]; [rewrite Hupx in Hl; by destruct Hl; apply Hup|].
    assert (0 <= b' < 2 ^ mt_height (mt x)) as Hbx by (destruct Hs as (_&_&_&_&_&->&_); lia).
    pose proof (up_range x b' Htx Hbx) as Hp. destruct (children_of_up x b' Htx Hbx) as [Hc1 Hc2].
    rewrite (same_leaf_start _ _ Hs) in Hp, Hc1. fold ls in Hp, Hc1.
    assert (forall c, c = 2 * up x b' + 1 \/ c = 2 * up x b' + 2 -> nh x c = nh (layer s) c) as Hch.
    { intros c Hc. rewrite Hno by (intros Ha%Hlow; lia). apply Hout1.
      destruct (decide (b + ls <= c < b + ls + zlen ms)) as [Hcr|]; [|lia]. destruct Hl. rewrite <-(up_child x b' c Hc).
      rewrite (same_leaf_start _ _ Hs), Hupx. fold ls. apply Hup. unfold zlen in *. lia. }
    unfold node_good. rewrite (Hch (2 * up x b' + 1)), (Hch (2 * up x b' + 2)) by auto. rewrite Hno by done. rewrite Hout1 by lia.
    rewrite (same_hmac2 _ _ _ _ Hs). exact Hg.
Qed.

(** ** Checking the tree *)
Lemma with_node_same x i : tree_ok x -> 0 <= i < mt_num_nodes (mt x) -> with_node i (HOwn (nh x i)) x = x.
Proof.
  intros Ht Hi. destruct (nh_node x i Ht Hi) as [Hl _]. unfold with_node. rewrite insert_id by done.
  by destruct x as [? ? []].
Qed.

Lemma rehashed_same x i : tree_ok x -> 0 <= i < leaf_start (mt x) -> node_good x i -> rehashed x i = x.
Proof.
  intros Ht Hi Hg. unfold rehashed. rewrite <-Hg. apply with_node_same; [done|].
  destruct (tree_sizes _ Ht) as (w&?&?&?&?&?). lia.
Qed.

(** Swapping in the leaves that are there changes nothing. *)
Lemma swap_leaves_same ms s i :
  tree_ok (layer s) -> 0 <= i -> i + zlen ms <= mt_num_nodes (mt (layer s)) ->
  (forall j mac, ms !! j = Some mac -> nh (layer s) (i + Z.of_nat j) = mac) ->
  swap_leaves i (Some <$> ms) s = Ok true s.
Proof.
  intros Ht. revert i. induction ms as [|mac ms IH]; intros i Hi Hn Hl; [done|].
  rewrite zlen_cons in Hn. pose proof (zlen_nonneg ms). assert (0 <= i < mt_num_nodes (mt (layer s))) as Hri by lia.
  cbn [fmap list_fmap swap_leaves]. mrun (on_layer_Ok _ s _ _ (get_node_Ok _ i Ht Hri)). msteps. rewrite set_layer_same.
  assert (on_layer (set_node i (HOwn mac)) s = Ok () s) as Hr1.
  { unfold on_layer. rewrite set_node_Ok. rewrite <-(Hl 0%nat mac eq_refl), Z.add_0_r, with_node_same by done.
    by rewrite set_layer_same. }
  mrun Hr1. apply IH; [lia..|]. intros j mac' Hj. rewrite <-(Hl (S j) mac' Hj). f_equal. lia.
Qed.

Definition set_par (cp : bytes) s : state C := set_layer (set_curr_par (Some cp) (layer s)) s.

(** One round of the check. *)
Lemma check_parents_cons i l s cp :
  tree_ok (layer s) -> key_ok (layer s) -> curr_par (layer s) = Some cp -> zlen cp = BFS_HMAC_LEN ->
  Z.shiftl 1 (mt_height (mt (layer s)) - 1) - 1 <= i -> 0 <= i < leaf_start (mt (layer s)) ->
  let s1 := set_par (nh (layer s) i) s in
  check_parents (i :: l) s =
    (if decide (nh (rehashed (layer s1) i) i = nh (layer s) i)
     then check_parents l (set_layer (rehashed (layer s1) i) s1) else Crash Abort_called) /\
  zlen (nh (layer s) i) = BFS_HMAC_LEN.
Proof.
  intros Ht Hk Hcp Hz Hpar Hi s1.
  destruct (children_sizes _ i Ht Hi) as (_&_&_&Hn&Hsz). assert (0 <= i < mt_num_nodes (mt (layer s))) as Hin by lia.
  destruct (nh_node _ i Ht Hin) as [_ Hzi]. rewrite Hsz in Hzi. split; [|done]. cbn [check_parents]. msteps.
  destruct (Z.ltb_spec i (Z.shiftl 1 (mt_height (mt (layer s)) - 1) - 1)); [lia|].
  mrun (on_layer_Ok _ s _ _ (node_read_Ok _ i _ Ht Hin (eq_sym Hsz))). rewrite set_layer_same. msteps.
  rewrite Hcp, some_bind, (mem_set_all (nh (layer s) i) cp) by congruence. msteps.
  assert (on_layer (modify (set_curr_par (Some (nh (layer s) i)))) s = Ok () s1) as Hr1 by done. mrun Hr1.
  destruct (rehash_on s1 i Ht Hk Hi) as [Hr2 Ht2]. mrun Hr2. cbn [negb]. set (s2 := set_layer (rehashed (layer s1) i) s1) in *.
  mrun (on_layer_Ok _ s2 _ _ (node_read_Ok (layer s2) i BFS_HMAC_LEN Ht2 Hin (eq_sym Hsz))). rewrite set_layer_same. msteps.
  change (curr_par (layer s2)) with (Some (nh (layer s) i)). rewrite some_bind, mem_get_all by done. msteps.
  change (nh (layer s2) i) with (nh (rehashed (layer s1) i) i). by destruct (decide _).
Qed.

Lemma check_parents_Ok l s cp :
  tree_ok (layer s) -> key_ok (layer s) -> curr_par (layer s) = Some cp -> zlen cp = BFS_HMAC_LEN ->
  (forall a, a ∈ l -> 0 <= a < leaf_start (mt (layer s))) ->
  (forall a, a ∈ l -> Z.shiftl 1 (mt_height (mt (layer s)) - 1) - 1 <= a -> node_good (layer s) a) ->
  exists cp', check_parents l s = Ok () (set_par cp' s) /\ zlen cp' = BFS_HMAC_LEN.
Proof.
  revert s cp. induction l as [|i l IH]; intros s cp Ht Hk Hcp Hz Hlow Hg.
  { exists cp. split; [|done]. unfold set_par. destruct s as [[]]. cbn in *. by subst. }
  destruct (Z.ltb_spec i (Z.shiftl 1 (mt_height (mt (layer s)) - 1) - 1)) as [Hlt|Hge].
  { exists cp. split; [|done]. cbn [check_parents]. msteps. rewrite (proj2 (Z.ltb_lt _ _) Hlt).
    unfold set_par. destruct s as [[]]. cbn in *. by subst. }
  assert (0 <= i < leaf_start (mt (layer s))) as Hi by (apply Hlow; set_solver).
  destruct (check_parents_cons i l s cp Ht Hk Hcp Hz Hge Hi) as [-> Hzi]. set (s1 := set_par (nh (layer s) i) s).
  rewrite (rehashed_same (layer s1)) by (done || (apply Hg; [set_solver|done])). rewrite decide_True, set_layer_same by done.
  apply (IH s1 (nh (layer s) i)); try done; intros a Ha; [apply Hlow|apply Hg]; set_solver.
Qed.

Lemma verify_mt_Ok s b ms cp :
  tree_ok (layer s) -> key_ok (layer s) -> n = 2 ^ mt_height (mt (layer s)) -> 0 <= b -> b + zlen ms <= n ->
  curr_par (layer s) = Some cp -> zlen cp = BFS_HMAC_LEN ->
  (forall j mac, ms !! j = Some mac -> nh (layer s) (leaf (layer s) (b + Z.of_nat j)) = mac) ->
  (forall b', b <= b' < b + zlen ms -> node_good (layer s) (up (layer s) b')) ->
  exists cp', verify_mt b (Some <$> ms) s = Ok BFS_SUCCESS (set_par cp' s) /\ zlen cp' = BFS_HMAC_LEN.
Proof.
  intros Ht Hk Hn Hb Hr Hcp Hz Hl Hg. destruct (tree_sizes _ Ht) as (w&?&?&?&?&?).
  destruct (ancestors_cover s b (length ms)) as (l&Hr2&_&Hlow&_&Hpar); [done..|].
  destruct (check_parents_Ok l s cp) as (cp'&Hr3&Hz'); [done..| |].
  { intros a Ha Hle. destruct (Hpar a Ha Hle) as (b'&Hb'&->). by apply Hg. }
  exists cp'. split; [|done]. unfold verify_mt.
  mrun (on_layer_Ok _ s _ _ (get_node_Ok _ 0 Ht ltac:(lia))). rewrite set_layer_same. msteps.
  rewrite (bind_Ok _ _ _ true s); [cbn [negb]; rewrite length_fmap; mrun Hr2; by mrun Hr3|].
  apply swap_leaves_same; [done|lia|lia|]. intros j mac Hj. rewrite <-(Hl j mac Hj). f_equal. unfold leaf. lia.
Qed.

(** ** Sealing a block *)
Context (rnd : nat -> bytes) (rnd_zlen : forall i, zlen (rnd i) = BFS_IV_LEN).

Lemma seal_block_Ok s m b d aad :
  holds s m -> 0 <= b < n -> key_ok (layer s) -> zlen d = BLK_SZ -> aad_ready aad ->
  exists s' m' mac aad', seal_block rnd n b d aad s = Ok (Some (mac, aad')) s' /\ aad_ready aad' /\ holds s' m' /\
    frame s s' /\ seen s' = seen s /\ zlen mac = BFS_MAC_LEN /\ sealed m' (ckey (layer s)) b mac d /\
    (forall b' mac' d', 0 <= b' < n -> b' <> b -> sealed m (ckey (layer s)) b' mac' d' ->
       sealed m' (ckey (layer s)) b' mac' d').
Proof.
  intros Hh Hb (k&Hk&Hi) Hd Ha. destruct (next_aad_Ok s aad b Ha) as (aad'&Hr0&Ha'&Hc).
  set (iv := rnd (rnd_ctr (layer s))). set (key := ckey (layer s)).
  set (c := gcm_encrypt key iv (aad_bytes b) d). set (mac := gcm_tag key iv (aad_bytes b) c).
  assert (zlen c = BLK_SZ) as Hzc by (unfold c; by rewrite encrypt_zlen).
  assert (zlen mac = BFS_MAC_LEN) as Hzm by (apply tag_zlen).
  assert (exists k', SecAssoc.encryptData2 (Some k) (aad_bytes b) d iv = inl (k', c, iv, mac) /\
    CryptoKey.cipher_key k' = key /\ CryptoKey.cipherInitialized k' = true) as (k'&He&Hk'&Hi').
  { unfold SecAssoc.encryptData2, CryptoKey.encryptData, CryptoKey.macData. rewrite Hi. cbn.
    unfold mac, c, key, ckey. rewrite Hk. by eexists. }
  set (s1 := set_layer (set_secContext (Some k') (set_rnd_ctr (S (rnd_ctr (layer s))) (layer s))) s).
  assert (holds s1 m) as Hh1 by exact Hh.
  destruct (ext4_write_blk_meta_Ok s1 m b iv mac Hh1 Hb (rnd_zlen _) Hzm) as (d1&Hw&Hz1&Hset).
  destruct (meta_bounds b) as (Hmb&_); [lia|].
  set (m1 := <[meta_blk n b := d1]> m) in *. set (s2 := set_dev (Some (dev_with m1)) s1) in *.
  assert (holds s2 m1) as Hh2. { split; [done|]. intros j. unfold m1. rewrite mget_insert. case_decide; [done|apply Hh]. }
  destruct (do_put_block_Ok s2 m1 b c Hh2) as [Hp Hh3]; [lia|done|].
  destruct (slot_in_after _ b iv mac d1 ltac:(lia) (rnd_zlen _) Hzm Hset) as [Hin Hout].
  assert (forall j, mget (<[b := c]> m1) j = if decide (j = b) then c else if decide (j = meta_blk n b) then d1 else mget m j)
    as Hg by (intros j; unfold m1; by rewrite !mget_insert).
  eexists _, (<[b := c]> m1), mac, aad'. split_and!; [|done|exact Hh3|..].
  - unfold seal_block. mrun Hr0. msteps. rewrite Hk, Hc.
    assert (on_layer (modify (set_rnd_ctr (S (rnd_ctr (layer s))))) s =
      Ok () (set_layer (set_rnd_ctr (S (rnd_ctr (layer s))) (layer s)) s)) as Hm1 by done.
    mrun Hm1. fold iv. rewrite He.
    assert (on_layer (modify (set_secContext (Some k'))) (set_layer (set_rnd_ctr (S (rnd_ctr (layer s))) (layer s)) s) =
      Ok () s1) as Hm2 by done.
    mrun Hm2. rewrite bind_assert by (by apply bool_decide_true). mrun Hw. mrun Hp. done.
  - unfold frame. cbn. split_and!; [done..|by exists k'].
  - done.
  - done.
  - exists iv. rewrite !Hg, decide_False, !decide_True by lia. split_and!; [done..|]. symmetry. apply decrypt_encrypt.
  - intros b' mac' d' Hb' Hne. apply (sealed_kept m _ _ b b' mac' d' d1); try done.
    + intros j ? ?. by rewrite Hg, !decide_False.
    + by rewrite Hg, decide_False, decide_True by lia.
    + intros iv' Hs Hl. apply Hout; [lia|done..].
Qed.
End spec.
End Ext4Spec.
