(* ===== verification/Ext4Refine.v ===== *)
(** * Ranges of blocks on the lwext4 device

    Reading and writing of ranges refine a map of blocks; opening and closing
    keep it. *)
From S2P Require Import Prelude Layout FlexBuffer SecAssoc BlockLayer FsLayer SecBlock Ext4Dev Ext4Spec.

Module Ext4Refine.
Import Ext4Dev Ext4Spec.

(** ** Buffers of several blocks *)
Definition blocks (ds : list bytes) : Prop := Forall (fun d : bytes => zlen d = BLK_SZ) ds.

Lemma blocks_zlen ds : blocks ds -> zlen (concat ds) = zlen ds * BLK_SZ.
Proof.
  induction 1 as [|d ds Hd _ IH]; [done|]. cbn [concat]. rewrite zlen_app, zlen_cons, IH, Hd. lia.
Qed.

Lemma blocks_get ds j d : blocks ds -> ds !! j = Some d -> mem_get (Z.of_nat j * BLK_SZ) BLK_SZ (concat ds) = Some d.
Proof.
  intros Hds Hj. rewrite <-(take_drop_middle ds j d Hj) in *. apply lookup_lt_Some in Hj.
  apply Forall_app in Hds as [Hpre [Hd Hpost]%Forall_cons].
  rewrite concat_app. cbn [concat]. pose proof (blocks_zlen _ Hpre) as Hz.
  assert (zlen (take j ds) = Z.of_nat j) as Hzt by (unfold zlen; rewrite length_take; lia). rewrite Hzt in Hz.
  unfold mem_get. rewrite decide_True by (rewrite !zlen_app, Hz, Hd; pose proof (zlen_nonneg (concat (drop (S j) ds))); unfold BLK_SZ; lia).
  f_equal. rewrite drop_app_length' by (unfold zlen in *; lia). apply take_app_length'. unfold zlen in *; lia.
Qed.

(** ** Programs over the device

    What a library does with the device: reads and writes in any order, each
    depending on the results before. *)
Inductive prog (A : Type) :=
  | PRet (a : A)
  | PRead (b cnt : Z) (buf : bytes) (k : bret * bytes -> prog A)
  | PWrite (b : Z) (ds : list bytes) (k : bret -> prog A).
Arguments PRet {A} _.
Arguments PRead {A} _ _ _ _.
Arguments PWrite {A} _ _ _.

Section refine.
Context `{Cipher} {claws : CipherLaws} {C : Type} `{BlkCache C}.
Context (rnd : nat -> bytes) (rnd_zlen : forall i, zlen (rnd i) = BFS_IV_LEN).
Context (n : Z).
Implicit Types (s : state C) (x : sec C) (m mm : gmap Z bytes).

(** ** Writing *)

(** The blocks [ds] from [b] on are sealed on the device with the tags [ms]. *)
Definition all_sealed m (key : bytes) (b : Z) (ms ds : list bytes) : Prop :=
  length ms = length ds /\ Forall (fun mac : bytes => zlen mac = BFS_MAC_LEN) ms /\
  forall j mac d, ms !! j = Some mac -> ds !! j = Some d -> sealed n m key (b + Z.of_nat j) mac d.

Lemma all_sealed_snoc m key b ms ds mac d :
  all_sealed m key b ms ds -> zlen mac = BFS_MAC_LEN -> sealed n m key (b + zlen ds) mac d ->
  all_sealed m key b (ms ++ [mac]) (ds ++ [d]).
Proof.
  intros (Hl&Hz&Hs) Hm Hsd. split_and!; [rewrite !length_app; cbn; lia|by apply Forall_app; split; [|constructor]|].
  intros j mac' d' Hj Hd. destruct (decide (j < length ms)%nat) as [Hlt|Hge].
  - rewrite lookup_app_l in Hj, Hd by lia. by apply Hs.
  - rewrite lookup_app_r in Hj, Hd by lia. apply list_lookup_singleton_Some in Hj as [Hj0 <-].
    rewrite Hl, Hj0 in Hd || idtac. replace (j - length ds)%nat with 0%nat in Hd by lia. cbn in Hd. simplify_eq.
    replace (b + Z.of_nat j) with (b + zlen ds); [done|]. unfold zlen. lia.
Qed.

(** The blocks outside a range that were sealed still are. *)
Definition others_kept m m' (key : bytes) (b k : Z) : Prop :=
  forall b' mac d, 0 <= b' < n -> ~ b <= b' < b + k -> sealed n m key b' mac d -> sealed n m' key b' mac d.

(** After one round more. *)
Lemma macs_insert (ms : list bytes) (rest : nat) mac :
  <[length ms := Some mac]> ((Some <$> ms) ++ replicate (S rest) None) = (Some <$> ms ++ [mac]) ++ replicate rest None.
Proof.
  rewrite fmap_app, <-app_assoc. replace (length ms) with (length (Some <$> ms) + 0)%nat by (rewrite length_fmap; lia).
  by rewrite insert_app_r.
Qed.

Definition seen_more (l l' : list Z) (b k : Z) : Prop := forall a, a ∈ l' <-> a ∈ l \/ b <= a < b + k.

(** A block is noted as seen. *)
Lemma note_seen s l v :
  seen s = Some l -> FORMATTING <= status (layer s) ->
  exists l', (if (FORMATTING <=? status (layer s)) && negb (is_seen v l)
      then modify (set_seen (Some (l ++ [v]))) else mret ()) s = Ok () (set_seen (Some l') s) /\ seen_more l l' v 1.
Proof.
  intros Hl Hst. destruct (Z.leb_spec FORMATTING (status (layer s))); [|lia]. unfold is_seen. cbn [andb].
  destruct (decide (v ∈ l)) as [Hin|Hin].
  - exists l. rewrite bool_decide_true by done. split; [by destruct s; cbn in *; subst|].
    intros a. split; [auto|]. intros [?|?]; [done|]. by replace a with v by lia.
  - exists (l ++ [v]). rewrite bool_decide_false by done. split; [done|].
    intros a. rewrite elem_of_app, list_elem_of_singleton. intuition lia.
Qed.

(** The file system is being formatted or in use. *)
Definition live s : Prop := FORMATTING <= status (layer s) <= MOUNTED.

(** What a round does after its block is on the device. *)
Definition after_round (todo : list bytes) b (k cnt : Z) (ms : list bytes) aad (buf : bytes) : M (state C) bret :=
  let macs := (Some <$> ms) ++ replicate (length todo) None in
  if (1 <? cnt) && (k <? cnt - 1) then bwrite_loop true rnd n (length todo) b (k + 1) cnt macs aad buf
  else
    v ← update_merkle_tree n b macs;
    match v with
    | BFS_SUCCESS => bwrite_loop true rnd n (length todo) b (k + 1) cnt macs aad buf
    | _ => die Undefined_behaviour
    end.

Lemma bwrite_round d todo (dn : list bytes) b ms aad s m l :
  blocks (dn ++ d :: todo) -> holds n s m -> key_ok (layer s) -> aad_ready aad -> live s ->
  0 <= b -> b + zlen (dn ++ d :: todo) <= n -> n < 2 ^ 64 -> seen s = Some l -> all_sealed m (ckey (layer s)) b ms dn ->
  exists s1 m1 mac aad' l1, holds n s1 m1 /\ frame s s1 /\ seen s1 = Some l1 /\ seen_more l l1 (b + zlen dn) 1 /\
    all_sealed m1 (ckey (layer s)) b (ms ++ [mac]) (dn ++ [d]) /\
    others_kept m m1 (ckey (layer s)) (b + zlen dn) 1 /\ aad_ready aad' /\
    bwrite_loop true rnd n (length (d :: todo)) b (zlen dn) (zlen (dn ++ d :: todo))
        ((Some <$> ms) ++ replicate (length (d :: todo)) None) aad (concat (dn ++ d :: todo)) s
    = after_round todo b (zlen dn) (zlen (dn ++ d :: todo)) (ms ++ [mac]) aad' (concat (dn ++ d :: todo)) s1.
Proof.
  intros Hbl Hh Hk Ha Hst Hb Hn Hn64 Hl Hs.
  assert (zlen (dn ++ d :: todo) = zlen dn + 1 + zlen todo) as Hz by (rewrite zlen_app, zlen_cons; lia).
  pose proof (zlen_nonneg dn). pose proof (zlen_nonneg todo). set (v := b + zlen dn).
  assert (u64 v = v) as Hu by (apply u64_small; unfold v; lia).
  destruct (note_seen s l v Hl) as (l0&Hr0&Hsm); [apply Hst|]. set (s0 := set_seen (Some l0) s) in *.
  assert (zlen d = BLK_SZ) as Hzd by (apply Forall_app in Hbl as [_ [? _]%Forall_cons]; done).
  destruct (seal_block_Ok n rnd rnd_zlen s0 m v d aad) as (s2&m2&mac&aad'&Hr1&Ha'&Hh2&Hf2&Hseen2&Hzm&Hsd&Hoth);
    [done|unfold v; lia|done..|]. change (ckey (layer s0)) with (ckey (layer s)) in *.
  assert (length ms = length dn) as Hlen by apply Hs.
  exists s2, m2, mac, aad', l0. split_and!; [done|exact Hf2|done|done| | |done|].
  - apply all_sealed_snoc; [|done|done]. destruct Hs as (_&Hzs&Hs). split_and!; [done..|].
    intros j mac' d' Hj Hd. apply lookup_lt_Some in Hd as Hlt. apply Hoth; [unfold zlen in *; lia|unfold v, zlen; lia|by apply Hs].
  - intros b' mac' d' Hb' Hno. apply Hoth; [lia|]. intros ->. unfold v in Hno. lia.
  - cbn [length bwrite_loop]. fold v. rewrite Hu. unfold get_status. msteps. rewrite Hl. msteps. mrun Hr0.
    assert (mem_get (zlen dn * BLK_SZ) BLK_SZ (concat (dn ++ d :: todo)) = Some d) as ->.
    { apply (blocks_get (dn ++ d :: todo) (length dn) d Hbl). by apply list_lookup_middle. }
    msteps. mrun Hr1. replace (Z.to_nat (zlen dn)) with (length ms) by (unfold zlen; lia). rewrite macs_insert.
    unfold live, MOUNTED, CORRUPTED in *. destruct (Z.eqb_spec (status (layer s)) 5); [lia|]. done.
Qed.

(** The rounds of the loop up to the update of the tree in the last one. *)
Lemma bwrite_loop_Ok todo : forall (dn : list bytes) b ms aad s m l,
  todo <> [] -> blocks (dn ++ todo) -> holds n s m -> key_ok (layer s) -> aad_ready aad -> live s ->
  0 <= b -> b + zlen (dn ++ todo) <= n -> n < 2 ^ 64 -> seen s = Some l -> all_sealed m (ckey (layer s)) b ms dn ->
  exists s1 m1 ms1 l1, holds n s1 m1 /\ frame s s1 /\ seen s1 = Some l1 /\ seen_more l l1 (b + zlen dn) (zlen todo) /\
    all_sealed m1 (ckey (layer s)) b ms1 (dn ++ todo) /\
    others_kept m m1 (ckey (layer s)) (b + zlen dn) (zlen todo) /\
    forall s', update_merkle_tree n b (Some <$> ms1) s1 = Ok BFS_SUCCESS s' ->
      bwrite_loop true rnd n (length todo) b (zlen dn) (zlen (dn ++ todo))
        ((Some <$> ms) ++ replicate (length todo) None) aad (concat (dn ++ todo)) s = Ok BFS_SUCCESS s'.
Proof.
  induction todo as [|d todo IH]; intros dn b ms aad s m l Hne Hbl Hh Hk Ha Hst Hb Hn Hn64 Hl Hs; [done|]. clear Hne.
  destruct (bwrite_round d todo dn b ms aad s m l) as (s2&m2&mac&aad'&l0&Hh2&Hf2&Hl2&Hsm&Hs2&Hoth&Ha'&Hr); [done..|].
  rewrite Hr. clear Hr. pose proof Hf2 as (_&_&Hst2&Hck2&Hk2). unfold after_round.
  assert (zlen (dn ++ d :: todo) = zlen dn + 1 + zlen todo) as Hz by (rewrite zlen_app, zlen_cons; lia).
  pose proof (zlen_nonneg dn). pose proof (zlen_nonneg todo).
  destruct (decide (todo = [])) as [->|Hne].
  - exists s2, m2, (ms ++ [mac]), l0. split_and!; [done..|]. intros s' Hr.
    destruct (Z.ltb_spec (zlen dn) (zlen (dn ++ [d]) - 1)); [rewrite Hz, zlen_nil in *; lia|].
    rewrite andb_false_r. cbn [replicate length]. rewrite app_nil_r. by mrun Hr.
  - assert (0 < zlen todo) by (destruct todo; [done|rewrite zlen_cons; pose proof (zlen_nonneg todo); lia]).
    assert (zlen (dn ++ [d]) = zlen dn + 1) as Hz1 by (by rewrite zlen_app).
    assert ((dn ++ [d]) ++ todo = dn ++ d :: todo) as Happ by (by rewrite <-app_assoc).
    destruct (IH (dn ++ [d]) b (ms ++ [mac]) aad' s2 m2 l0) as (s1&m1&ms1&l1&Hh1&Hf1&Hl1&Hsm1&Hs1&Hoth1&Hr);
      rewrite ?Happ, ?Hck2; try done; [unfold live; by rewrite Hst2|]. rewrite Happ, Hck2, Hz1 in *.
    exists s1, m1, ms1, l1. rewrite zlen_cons. split_and!; [done|by eapply ext4_frame_trans|done|..|done| |].
    + intros a. rewrite (Hsm1 a), (Hsm a). intuition lia.
    + intros b' mac' d' Hb' Hno Hsd. apply Hoth1; [done|lia|]. apply Hoth; [done|lia|done].
    + intros s' Hu. destruct (Z.ltb_spec 1 (zlen (dn ++ d :: todo))); [|lia].
      destruct (Z.ltb_spec (zlen dn) (zlen (dn ++ d :: todo) - 1)); [|lia]. by apply Hr.
Qed.

(** ** The device as a map of blocks *)

(** Block [b] was written with [d]: it is sealed on the device, the leaf is its
    tag and the node above the leaf is good. *)
Definition has x m (b : Z) (d : bytes) : Prop :=
  apart n b /\ zlen d = BLK_SZ /\ exists mac, sealed n m (ckey x) b mac d /\ nh x (leaf x b) = mac /\ node_good x (up x b).

(** The device is open and in use, [mm] has the blocks that were written. *)
Definition ext4_ok s mm : Prop :=
  exists m l cp, holds n s m /\ tree_ok (layer s) /\ key_ok (layer s) /\ n = 2 ^ mt_height (mt (layer s)) /\ live s /\
    curr_par (layer s) = Some cp /\ zlen cp = BFS_HMAC_LEN /\ seen s = Some l /\
    (forall b, b ∈ l <-> is_Some (mm !! b)) /\ mt_status (mt (layer s)) <> 0 /\ map_Forall (has (layer s) m) mm.

(** The blocks [ds] replace those from [b] on. *)
Fixpoint put_range (b : Z) (ds : list bytes) mm : gmap Z bytes :=
  match ds with [] => mm | d :: ds => <[b := d]> (put_range (b + 1) ds mm) end.

Lemma put_range_in b ds mm j d : ds !! j = Some d -> put_range b ds mm !! (b + Z.of_nat j) = Some d.
Proof.
  revert b j. induction ds as [|d' ds IH]; intros b [|j] Hj; cbn in Hj; try done; cbn [put_range].
  - simplify_eq. by rewrite Z.add_0_r, lookup_insert_eq.
  - rewrite lookup_insert_ne by lia. replace (b + Z.of_nat (S j)) with (b + 1 + Z.of_nat j) by lia. by apply IH.
Qed.

Lemma put_range_out b ds mm b' : ~ b <= b' < b + zlen ds -> put_range b ds mm !! b' = mm !! b'.
Proof.
  revert b. induction ds as [|d ds IH]; intros b Hb; [done|]. cbn [put_range]. rewrite zlen_cons in Hb.
  pose proof (zlen_nonneg ds). rewrite lookup_insert_ne by lia. apply IH. lia.
Qed.

Lemma in_range (ds : list bytes) b b' : b <= b' < b + zlen ds -> exists j d, b' = b + Z.of_nat j /\ ds !! j = Some d.
Proof.
  intros Hb. destruct (lookup_lt_is_Some_2 ds (Z.to_nat (b' - b))) as [d Hd]; [unfold zlen in Hb; lia|].
  exists (Z.to_nat (b' - b)), d. split; [lia|done].
Qed.

Lemma put_range_Some b ds mm b' :
  is_Some (put_range b ds mm !! b') <-> is_Some (mm !! b') \/ b <= b' < b + zlen ds.
Proof.
  destruct (decide (b <= b' < b + zlen ds)) as [Hr|Hr].
  - destruct (in_range ds b b' Hr) as (j&d&->&Hd). rewrite (put_range_in b ds mm j d Hd). intuition eauto.
  - rewrite put_range_out by done. intuition.
Qed.

Lemma tree_n s : tree_ok (layer s) -> n = 2 ^ mt_height (mt (layer s)) -> 0 < n <= 2 ^ 30.
Proof.
  intros Ht ->. split; [apply Z.pow_pos_nonneg; destruct Ht; lia|]. apply Z.pow_le_mono_r; destruct Ht; lia.
Qed.

(** Writing the root does not concern the blocks apart from it. *)
Lemma sealed_root m root key b mac d :
  apart n b -> sealed n m key b mac d -> sealed n (<[meta_blk n n := root]> m) key b mac d.
Proof.
  intros [Hb Hl] (iv&Hs&Ht&Hd). exists iv. destruct (meta_bounds n n) as (?&_); [lia|].
  rewrite !mget_insert, !decide_False; [done|lia|]. unfold meta_blk. lia.
Qed.

(** After the tree was updated, the map has the new blocks. *)
Lemma has_after_write s s1 m m1 mm b ds ms x root :
  map_Forall (has (layer s) m) mm -> frame s s1 -> blocks ds -> (forall b', b <= b' < b + zlen ds -> apart n b') ->
  all_sealed m1 (ckey (layer s)) b ms ds -> others_kept m m1 (ckey (layer s)) b (zlen ds) -> same_but_nodes (layer s1) x ->
  (forall j mac, ms !! j = Some mac -> nh x (leaf x (b + Z.of_nat j)) = mac) ->
  (forall b', 0 <= b' < n -> ~ b <= b' < b + zlen ms -> nh x (leaf x b') = nh (layer s1) (leaf x b')) ->
  (forall b', 0 <= b' < n -> b <= b' < b + zlen ms \/ node_good (layer s1) (up x b') -> node_good x (up x b')) ->
  map_Forall (has x (<[meta_blk n n := root]> m1)) (put_range b ds mm).
Proof.
  intros Hall (Hmt&_&_&Hck&_) Hbl Hap (Hlen&Hzm&Hsd) Hoth Hsx Hnew Hold Hgood.
  assert (zlen ms = zlen ds) as Hzz by (unfold zlen; congruence). rewrite Hzz in *. pose proof Hsx as (_&Hsc&_).
  assert (ckey x = ckey (layer s)) as Hckx by (unfold ckey at 1; rewrite Hsc; exact Hck).
  assert (forall y, up x y = up (layer s) y /\ leaf x y = leaf (layer s) y) as Hlf.
  { intros y. unfold up. rewrite (same_leaf _ _ y Hsx). unfold leaf. by rewrite Hmt. }
  intros b' d' Hd'. destruct (decide (b <= b' < b + zlen ds)) as [Hrg|Hrg].
  - destruct (in_range ds b b' Hrg) as (j&d&->&Hd). rewrite (put_range_in b ds mm j d Hd) in Hd'. simplify_eq.
    destruct (lookup_lt_is_Some_2 ms j) as [mac Hmac]; [apply lookup_lt_Some in Hd; lia|].
    split_and!; [by apply Hap|by eapply Forall_lookup_1 in Hbl|]. exists mac. split_and!.
    + rewrite Hckx. apply sealed_root; [by apply Hap|]. by eapply Hsd.
    + by apply Hnew.
    + apply Hgood; [destruct (Hap _ Hrg); lia|by left].
  - rewrite put_range_out in Hd' by done. destruct (Hall b' d' Hd') as (Hapb&Hzd&mac&Hsb&Hlb&Hgb).
    split_and!; [done..|]. exists mac. split_and!.
    + rewrite Hckx. apply sealed_root; [done|]. apply Hoth; [apply Hapb|done|done].
    + rewrite Hold by (try apply Hapb; lia). rewrite (proj2 (Hlf b')), <-Hlb. unfold nh. by rewrite Hmt.
    + apply Hgood; [apply Hapb|right]. rewrite (proj1 (Hlf b')). unfold node_good, hmac2, nh in *. rewrite Hmt, Hck. exact Hgb.
Qed.

Lemma root_zlen x : tree_ok x -> zlen (nh x 0 ++ zeros (BLK_SZ - BFS_HMAC_LEN)) = BLK_SZ.
Proof.
  intros Ht. destruct (tree_sizes _ Ht) as (w&?&?&?&?&?). rewrite zlen_app, zlen_zeros by done.
  destruct (nh_node x 0 Ht) as [_ ->]; [lia|]. unfold node_size. destruct (Z.leb_spec (leaf_start (mt x)) 0); [lia|done].
Qed.

Lemma file_dev_bwrite_Ok s mm b ds :
  ext4_ok s mm -> blocks ds -> 0 <= b -> (forall b', b <= b' < b + zlen ds -> apart n b') ->
  exists s', file_dev_bwrite true rnd n (concat ds) b (zlen ds) s = Ok BFS_SUCCESS s' /\ ext4_ok s' (put_range b ds mm) /\
    status (layer s') = status (layer s).
Proof.
  intros Hok Hbl Hb Hap. destruct (decide (ds = [])) as [->|Hne].
  { exists s. split_and!; [|done..]. destruct Hok as (m&l&cp&[Hd _]&_). unfold file_dev_bwrite. msteps. by rewrite Hd. }
  assert (0 < zlen ds) as Hpos by (destruct ds as [|? ds']; [done|rewrite zlen_cons; pose proof (zlen_nonneg ds'); lia]).
  destruct Hok as (m&l&cp&Hh&Ht&Hk&Hn&Hst&Hcp&Hz&Hl&Hin&Hms&Hall). pose proof (tree_n s Ht Hn).
  assert (b + zlen ds <= n) as Hbn by (destruct (Hap (b + zlen ds - 1)) as [? _]; lia).
  destruct (bwrite_loop_Ok ds [] b [] FlexBuffer.empty s m l) as (s1&m1&ms&l1&Hh1&Hf1&Hl1&Hsm&Hs1&Hoth&Hr);
    try done; try lia; [by left|]. rewrite zlen_nil, Z.add_0_r in *. cbn [app] in *.
  pose proof Hf1 as (Hmt&Hcp1&Hst1&Hck&Hk1). pose proof Hs1 as (Hlen&Hzm&_).
  assert (zlen ms = zlen ds) as Hzz by (unfold zlen; congruence).
  destruct (update_merkle_tree_Ok n s1 m1 b ms) as (x&Hu&Htx&Hsx&Hnew&Hold&Hgood);
    [done|unfold tree_ok; by rewrite Hmt|done|by rewrite Hmt|done|lia|done|].
  pose proof Hsx as (_&_&Hcpx&Hstx&_&Hhx&_&_&Hmsx). eexists. split_and!.
  { unfold file_dev_bwrite. msteps. rewrite (proj1 Hh). destruct (Z.eqb_spec (zlen ds) 0); [lia|]. msteps.
    destruct Hk as (k&->&_). rewrite Hl. unfold zlen at 1 3. rewrite Nat2Z.id. exact (Hr _ Hu). }
  2:{ cbn. congruence. }
  exists (<[meta_blk n n := nh x 0 ++ zeros (BLK_SZ - BFS_HMAC_LEN)]> m1), l1, cp. cbn [layer set_layer set_dev].
  split_and!; [|done|by eapply same_key_ok|by rewrite Hhx, Hmt|unfold live in *; cbn; by rewrite Hstx, Hst1|congruence|done|done|..].
  - split; [done|]. intros j. rewrite mget_insert. case_decide; [by apply root_zlen|apply Hh1].
  - intros b'. rewrite put_range_Some, (Hsm b'), Hin. done.
  - by rewrite Hmsx, Hmt.
  - by eapply has_after_write.
Qed.

(** ** Reading *)

(** What a read may change: the state of the cipher and the buffer of the check. *)
Definition after_read s s' : Prop :=
  mt (layer s') = mt (layer s) /\ status (layer s') = status (layer s) /\ ckey (layer s') = ckey (layer s) /\
  key_ok (layer s') /\ seen s' = seen s /\ exists cp, curr_par (layer s') = Some cp /\ zlen cp = BFS_HMAC_LEN.

(** The part of the invariant that a read of [ds] from [b] on needs. *)
Definition readable s m (b : Z) (ds : list bytes) : Prop :=
  holds n s m /\ tree_ok (layer s) /\ key_ok (layer s) /\ n = 2 ^ mt_height (mt (layer s)) /\ live s /\
  (exists cp, curr_par (layer s) = Some cp /\ zlen cp = BFS_HMAC_LEN) /\
  exists l, seen s = Some l /\
    forall j d, ds !! j = Some d -> b + Z.of_nat j ∈ l /\ has (layer s) m (b + Z.of_nat j) d.

Lemma readable_frame s s' m b ds :
  frame s s' -> holds n s' m -> seen s' = seen s -> readable s m b ds -> readable s' m b ds.
Proof.
  intros (Hmt&Hcp&Hst&Hck&Hk) Hh Hse (_&Ht&_&Hn&Hl&Hp&l&Hs&Hd).
  split_and!; [done|unfold tree_ok; by rewrite Hmt|done|by rewrite Hmt|unfold live; by rewrite Hst|by rewrite Hcp|].
  exists l. split; [congruence|]. intros j d Hj. destruct (Hd j d Hj) as [? Hhas]. split; [done|].
  unfold has, up, leaf, node_good, hmac2, nh in *. rewrite Hmt, Hck. exact Hhas.
Qed.

Lemma frame_after_read s s1 s2 : frame s s1 -> seen s1 = seen s -> after_read s1 s2 -> after_read s s2.
Proof. intros (?&?&?&?&?) ? (?&?&?&?&?&?). unfold after_read. intuition congruence. Qed.

(** The block of one round is in the buffer. *)
Lemma bread_round s m b (dn : list bytes) d todo aad rest :
  readable s m b (dn ++ d :: todo) -> blocks dn -> aad_ready aad -> zlen rest = zlen (d :: todo) * BLK_SZ -> 0 <= b ->
  exists s1 mac aad' rest', readable s1 m b (dn ++ d :: todo) /\ frame s s1 /\ seen s1 = seen s /\ aad_ready aad' /\
    open_block n (u64 (b + zlen dn)) aad s = Ok (Some (d, mac, aad')) s1 /\
    nh (layer s1) (leaf (layer s1) (b + zlen dn)) = mac /\
    mem_set (zlen dn * BLK_SZ) d (concat dn ++ rest) = Some (concat (dn ++ [d]) ++ rest') /\
    zlen rest' = zlen todo * BLK_SZ /\ zlen d = BLK_SZ.
Proof.
  intros Hrd Hbl Ha Hz Hb. pose proof Hrd as (Hh&Ht&Hk&Hn&_&_&l&_&Hd).
  destruct (Hd (length dn) d) as [_ Hhas]; [by apply list_lookup_middle|]. fold (zlen dn) in Hhas.
  destruct Hhas as ([Hr Hap]&Hzd&mac&Hs&Hl&_). pose proof (tree_n s Ht Hn).
  destruct (open_block_Ok n s m (b + zlen dn) aad mac d Hh Hr Hk Ha Hs) as (s1&aad'&Hr1&Ha'&Hh1&Hf&Hse).
  exists s1, mac, aad', (drop (Z.to_nat BLK_SZ) rest). rewrite u64_small by lia. rewrite zlen_cons in Hz.
  pose proof (zlen_nonneg todo). pose proof (blocks_zlen dn Hbl) as Hzc. pose proof (zlen_nonneg dn).
  split_and!; [by apply (readable_frame s)|done..| | | |done].
  - destruct Hf as (Hmt&_). unfold leaf, nh. rewrite Hmt. exact Hl.
  - unfold mem_set. rewrite decide_True by (rewrite zlen_app, Hzc, Hz, Hzd; unfold BLK_SZ; lia). f_equal.
    rewrite concat_app. cbn [concat]. rewrite app_nil_r, <-app_assoc. rewrite take_app_length' by (unfold zlen in *; lia).
    do 2 f_equal. rewrite Hzd, drop_app_ge by (unfold zlen, BLK_SZ in *; lia). f_equal. unfold zlen, BLK_SZ in *. lia.
  - unfold zlen in *. rewrite length_drop. unfold BLK_SZ in *. lia.
Qed.

(** The check in the last round. *)
Lemma last_check s m b ds ms :
  readable s m b ds -> ds <> [] -> 0 <= b -> length ms = length ds ->
  (forall j mac, ms !! j = Some mac -> nh (layer s) (leaf (layer s) (b + Z.of_nat j)) = mac) ->
  exists s', (if true && (status (layer s) =? MOUNTED) then verify_mt b (Some <$> ms) else mret BFS_SUCCESS) s
    = Ok BFS_SUCCESS s' /\ after_read s s' /\ holds n s' m.
Proof.
  intros (Hh&Ht&Hk&Hn&_&(cp&Hcp&Hz)&l&Hl&Hd) Hne Hb Hlen Hms. assert (zlen ms = zlen ds) as Hzz by (unfold zlen; congruence).
  destruct (Z.eqb_spec (status (layer s)) MOUNTED); cbn [andb].
  - destruct (verify_mt_Ok n s b ms cp) as (cp'&Hv&Hz'); try done.
    + destruct (lookup_lt_is_Some_2 ds (length ds - 1)) as [d Hd1]; [destruct ds; [done|cbn; lia]|].
      destruct (Hd _ d Hd1) as [_ ([? _]&_)]. unfold zlen in *. lia.
    + intros b' Hb'. destruct (in_range ds b b') as (j&d'&->&Hj); [lia|]. by destruct (Hd j d' Hj) as [_ (_&_&mac&_&_&Hg)].
    + exists (set_par cp' s). split_and!; [done| |exact Hh]. unfold after_read, set_par. cbn. split_and!; [done..|]. by exists cp'.
  - exists s. split_and!; [done| |done]. unfold after_read. split_and!; [done..|by exists cp].
Qed.

Lemma bread_loop_Ok todo : forall (dn : list bytes) b ms aad s m rest,
  todo <> [] -> readable s m b (dn ++ todo) -> blocks dn -> aad_ready aad -> zlen rest = zlen todo * BLK_SZ -> 0 <= b ->
  length ms = length dn -> (forall j mac, ms !! j = Some mac -> nh (layer s) (leaf (layer s) (b + Z.of_nat j)) = mac) ->
  exists s', bread_loop true n (length todo) b (zlen dn) (zlen (dn ++ todo))
      ((Some <$> ms) ++ replicate (length todo) None) aad (concat dn ++ rest) s
    = Ok (BFS_SUCCESS, concat (dn ++ todo)) s' /\ after_read s s' /\ holds n s' m.
Proof.
  induction todo as [|d todo IH]; intros dn b ms aad s m rest Hne Hrd Hbl Ha Hz Hb Hlen Hms; [done|]. clear Hne.
  destruct (bread_round s m b dn d todo aad rest) as (s1&mac&aad'&rest'&Hrd1&Hf&Hse&Ha'&Hop&Hleaf&Hset&Hzr&Hzd); [done..|].
  pose proof Hrd as (_&_&_&_&Hst&_&l&Hl&Hd). pose proof Hrd1 as (Hh1&Ht1&Hk1&Hn1&_).
  destruct (Hd (length dn) d) as [Hin ((Hr&_)&_)]; [by apply list_lookup_middle|]. fold (zlen dn) in Hin, Hr.
  pose proof (tree_n s1 Ht1 Hn1). cbn [length bread_loop]. unfold get_status. msteps. rewrite Hl. msteps.
  unfold is_seen. rewrite bool_decide_true by (rewrite u64_small by lia; done). rewrite andb_false_r. mrun Hop.
  rewrite Hset. msteps. replace (Z.to_nat (zlen dn)) with (length ms) by (unfold zlen; lia). rewrite macs_insert.
  assert (zlen (dn ++ d :: todo) = zlen dn + 1 + zlen todo) as Hzz by (rewrite zlen_app, zlen_cons; lia).
  pose proof (zlen_nonneg dn). pose proof (zlen_nonneg todo).
  assert (forall j mac', (ms ++ [mac]) !! j = Some mac' -> nh (layer s1) (leaf (layer s1) (b + Z.of_nat j)) = mac') as Hms1.
  { intros j mac' [Hj|[Hge Hj]]%lookup_app_Some.
    - rewrite <-(Hms j mac' Hj). destruct Hf as (Hmt&_). unfold leaf, nh. by rewrite Hmt.
    - apply list_lookup_singleton_Some in Hj as [Hj <-]. rewrite <-Hleaf. do 2 f_equal. unfold zlen. lia. }
  destruct (decide (todo = [])) as [->|Hne].
  - destruct (Z.ltb_spec (zlen dn) (zlen (dn ++ [d]) - 1)); [rewrite Hzz, zlen_nil in *; lia|]. rewrite andb_false_r.
    assert (rest' = []) as -> by (apply nil_length_inv; unfold zlen in Hzr; cbn in Hzr; lia).
    rewrite !app_nil_r. cbn [length replicate].
    destruct (last_check s1 m b (dn ++ [d]) (ms ++ [mac])) as (s'&Hv&Har&Hh'); [done|by destruct dn|done|rewrite !length_app; cbn; lia|done|].
    destruct Hf as (Hmt&Hcp1&Hst1&Hf). rewrite <-Hst1. mrun Hv. exists s'. split_and!; [done| |done].
    by apply (frame_after_read s s1).
  - assert (0 < zlen todo) by (destruct todo; [done|rewrite zlen_cons; pose proof (zlen_nonneg todo); lia]).
    destruct (Z.ltb_spec 1 (zlen (dn ++ d :: todo))); [|lia].
    destruct (Z.ltb_spec (zlen dn) (zlen (dn ++ d :: todo) - 1)); [|lia]. cbn [andb].
    assert ((dn ++ [d]) ++ todo = dn ++ d :: todo) as Happ by (by rewrite <-app_assoc).
    assert (zlen (dn ++ [d]) = zlen dn + 1) as Hz1 by (by rewrite zlen_app).
    destruct (IH (dn ++ [d]) b (ms ++ [mac]) aad' s1 m rest') as (s'&Hrun&Har&Hh');
      rewrite ?Happ; try done; [by apply Forall_app; split; [|constructor]|rewrite !length_app; cbn; lia|].
    rewrite Happ, Hz1 in Hrun. exists s'. split_and!; [exact Hrun|by apply (frame_after_read s s1)|done].
Qed.

(** What a reader is to see: a block that was never written is zero. *)
Definition content mm (b : Z) : bytes := default zero_blk (mm !! b).

Lemma ext4_ok_read s s' m mm :
  ext4_ok s mm -> holds n s' m -> map_Forall (has (layer s) m) mm -> after_read s s' -> ext4_ok s' mm.
Proof.
  intros (m0&l0&cp0&_&Ht&_&Hn&Hst&_&_&Hl&Hin&Hms&_) Hh Hall (Hmt&Hs&Hck&Hk&Hse&cp&Hcp&Hz). exists m, l0, cp.
  split_and!; [done|unfold tree_ok; by rewrite Hmt|done|by rewrite Hmt|unfold live; by rewrite Hs|done|done|congruence|done|by rewrite Hmt|].
  intros b d Hd. specialize (Hall b d Hd). unfold has, up, leaf, node_good, hmac2, nh in *. rewrite Hmt, Hck. exact Hall.
Qed.

Lemma written_range mm b cnt :
  (forall b', b <= b' < b + cnt -> is_Some (mm !! b')) ->
  forall j d, (content mm <$> seqZ b cnt) !! j = Some d -> mm !! (b + Z.of_nat j) = Some d.
Proof.
  intros Hw j d Hj. apply list_lookup_fmap_Some in Hj as (b'&->&[-> Hlt]%lookup_seqZ).
  unfold content. destruct (Hw (b + Z.of_nat j)) as [d Hd]; [lia|]. by rewrite Hd.
Qed.

Lemma bread_written s mm b cnt buf :
  ext4_ok s mm -> 0 <= b -> 0 < cnt -> zlen buf = cnt * BLK_SZ -> (forall b', b <= b' < b + cnt -> is_Some (mm !! b')) ->
  exists s', file_dev_bread true n buf b cnt s = Ok (BFS_SUCCESS, concat (content mm <$> seqZ b cnt)) s' /\ ext4_ok s' mm /\
    status (layer s') = status (layer s).
Proof.
  intros Hok Hb Hc Hz Hw. pose proof Hok as (m&l&cp&Hh&Ht&Hk&Hn&Hst&Hcp&Hzc&Hl&Hin&_&Hall).
  set (ds := content mm <$> seqZ b cnt). pose proof (written_range mm b cnt Hw) as Hds. fold ds in Hds.
  assert (length ds = Z.to_nat cnt) as Hlen by (unfold ds; by rewrite length_fmap, length_seqZ).
  assert (zlen ds = cnt) as Hzd by (unfold zlen; lia).
  destruct (bread_loop_Ok ds [] b [] FlexBuffer.empty s m buf) as (s'&Hr&Har&Hh'); cbn [app]; try done.
  - intros ->. cbn in Hlen. lia.
  - split_and!; [done..|by exists cp|]. exists l. split; [done|]. intros j d Hj. specialize (Hds j d Hj).
    split; [by apply Hin|by apply Hall].
  - constructor.
  - by left.
  - by rewrite Hzd.
  - exists s'. split_and!; [|by eapply ext4_ok_read|apply Har]. unfold file_dev_bread. msteps. rewrite (proj1 Hh).
    destruct (Z.eqb_spec cnt 0); [lia|]. msteps. destruct Hk as (k&->&_). rewrite Hl. rewrite <-Hlen, <-Hzd. exact Hr.
Qed.

(** One block that was never written. *)
Lemma bread_fresh s mm b buf :
  ext4_ok s mm -> 0 <= b < 2 ^ 64 -> zlen buf = BLK_SZ -> mm !! b = None ->
  file_dev_bread true n buf b 1 s = Ok (BFS_SUCCESS, zero_blk) s.
Proof.
  intros (m&l&cp&Hh&_&(k&Hk&_)&_&Hst&_&_&Hl&Hin&_) Hb Hz Hno. unfold file_dev_bread. msteps. rewrite (proj1 Hh).
  cbn [Z.eqb]. msteps. rewrite Hk, Hl. change (Z.to_nat 1) with 1%nat. cbn [bread_loop]. unfold get_status. msteps.
  rewrite Hl. msteps. rewrite Z.add_0_r, u64_small by lia. destruct (Z.leb_spec FORMATTING (status (layer s))); [|destruct Hst; lia].
  unfold is_seen. rewrite bool_decide_false by (intros [? ?]%Hin; congruence). cbn [andb negb].
  rewrite mem_set_all by (rewrite Hz; done). by msteps.
Qed.

(** A read is of written blocks, or of one block. *)
Definition read_fits mm (b cnt : Z) (buf : bytes) : Prop :=
  0 <= b < 2 ^ 64 /\ 0 <= cnt /\ zlen buf = cnt * BLK_SZ /\ (cnt <= 1 \/ forall b', b <= b' < b + cnt -> is_Some (mm !! b')).

Lemma file_dev_bread_Ok s mm b cnt buf :
  ext4_ok s mm -> read_fits mm b cnt buf ->
  exists s', file_dev_bread true n buf b cnt s = Ok (BFS_SUCCESS, concat (content mm <$> seqZ b cnt)) s' /\ ext4_ok s' mm /\
    status (layer s') = status (layer s).
Proof.
  intros Hok (Hb&Hc&Hz&Hw). destruct (decide (cnt = 0)) as [->|Hne].
  - exists s. split_and!; [|done..]. destruct Hok as (m&l&cp&Hh&_). unfold file_dev_bread. msteps. rewrite (proj1 Hh). cbn [Z.eqb].
    assert (buf = []) as -> by (apply nil_length_inv; unfold zlen in Hz; lia). done.
  - destruct (decide (cnt = 1 /\ mm !! b = None)) as [[-> Hno]|Hwr].
    + exists s. split_and!; [|done..]. rewrite (bread_fresh s mm b buf Hok Hb) by (lia || done).
      change (seqZ b 1) with [0 + b]. cbn. unfold content. by rewrite Z.add_0_l, Hno.
    + apply bread_written; [done|lia|lia|done|]. intros b' Hb'. destruct Hw as [Hw|Hw]; [|by apply Hw].
      assert (b' = b) as -> by lia. destruct (mm !! b) eqn:He; [done|]. destruct Hwr. split; [lia|done].
Qed.

(** The program on the device, and on a map. *)
Fixpoint on_device {A} (p : prog A) : M (state C) A :=
  match p with
  | PRet a => mret a
  | PRead b cnt buf k => r ← file_dev_bread true n buf b cnt; on_device (k r)
  | PWrite b ds k => r ← file_dev_bwrite true rnd n (concat ds) b (zlen ds); on_device (k r)
  end.

Fixpoint on_map {A} (p : prog A) mm : A * gmap Z bytes :=
  match p with
  | PRet a => (a, mm)
  | PRead b cnt _ k => on_map (k (BFS_SUCCESS, concat (content mm <$> seqZ b cnt))) mm
  | PWrite b ds k => on_map (k BFS_SUCCESS) (put_range b ds mm)
  end.

(** The writes are of whole blocks whose metadata is not next to the root. *)
Definition write_fits (b : Z) (ds : list bytes) : Prop :=
  blocks ds /\ 0 <= b /\ forall b', b <= b' < b + zlen ds -> apart n b'.

Fixpoint within {A} (p : prog A) mm : Prop :=
  match p with
  | PRet _ => True
  | PRead b cnt buf k => read_fits mm b cnt buf /\ within (k (BFS_SUCCESS, concat (content mm <$> seqZ b cnt))) mm
  | PWrite b ds k => write_fits b ds /\ within (k BFS_SUCCESS) (put_range b ds mm)
  end.

Lemma on_ext4_device_Ok {A} (p : prog A) s mm :
  ext4_ok s mm -> within p mm ->
  exists s', on_device p s = Ok (on_map p mm).1 s' /\ ext4_ok s' (on_map p mm).2 /\ status (layer s') = status (layer s).
Proof.
  revert s mm. induction p as [a|b cnt buf k IH|b ds k IH]; intros s mm Hok Hw; cbn [on_device on_map within] in *.
  - by exists s.
  - destruct Hw as [Hf Hw]. destruct (file_dev_bread_Ok s mm b cnt buf Hok Hf) as (s1&Hr&Hok1&Hst). mrun Hr.
    rewrite <-Hst. by apply IH.
  - destruct Hw as [(Hbl&Hb&Hap) Hw]. destruct (file_dev_bwrite_Ok s mm b ds Hok Hbl Hb Hap) as (s1&Hr&Hok1&Hst).
    mrun Hr. rewrite <-Hst. by apply IH.
Qed.

(** Whatever a program does with the device within these bounds, it has the
    results it would have on a map of blocks. *)
Theorem ext4_device_refines_map {A} (p : prog A) s mm :
  ext4_ok s mm -> within p mm ->
  exists s', on_device p s = Ok (on_map p mm).1 s' /\ ext4_ok s' (on_map p mm).2.
Proof. intros Hok Hw. destruct (on_ext4_device_Ok p s mm Hok Hw) as (s'&?&?&_). by exists s'. Qed.
End refine.
End Ext4Refine.
