(* ===== verification/Ext4Life.v ===== *)
(** * The lwext4 device from opening to closing, under attack, and where it fails

    Opening a device gives one on which no block was written, and closing and
    opening it again keeps the blocks.  A block changed on the storage is not
    read as valid data.  Three uses of the device do not give what was written. *)
From S2P Require Import Prelude Layout FlexBuffer SecAssoc BlockLayer FsLayer SecBlock SecStore SecVolume Ext4Dev Ext4Spec Ext4Refine.
From Stdlib Require Import Sorted.

Module Ext4Life.
Import Ext4Dev Ext4Spec Ext4Refine.

Section life.
Context `{Cipher} {claws : CipherLaws} {C : Type} `{BlkCache C}.
Context (n : Z).
Implicit Types (s : state C) (x : sec C) (m mm : gmap Z bytes).

(** ** Opening and closing *)

(** Before the first use: a key, a storage of whole blocks, no tree. *)
Definition raw s : Prop :=
  (exists h, 0 < h <= 30 /\ n = 2 ^ h) /\ key_ok (layer s) /\ bfs_blk_dev s = None /\
  mt_status (mt (layer s)) = 0 /\ forall j, zlen (mget (image s) j) = BLK_SZ.

(** The nodes that are missing are allocated. *)
Lemma init_tree s h :
  0 < h <= 30 -> n = 2 ^ h -> key_ok (layer s) -> mt_status (mt (layer s)) = 0 ->
  exists x, init_merkle_tree n s = Ok BFS_SUCCESS (set_layer x s) /\ tree_ok x /\ key_ok x /\ mt_height (mt x) = h /\
    mt_status (mt x) <> 0 /\ status x = status (layer s) /\ secContext x = secContext (layer s).
Proof.
  intros Hh Hn Hk Hms. set (m0 := mkMT n h (2 ^ (h + 1) - 1) ∅ 1).
  assert (0 < 2 ^ (h + 1)) as Hpos by (apply Z.pow_pos_nonneg; lia).
  assert (mt_setup n (layer s) = Ok () (set_mt m0 (layer s))) as Hr1.
  { unfold mt_setup. msteps. rewrite Hms. cbn [Z.eqb]. rewrite Hn, Z.log2_pow2 by lia. rewrite Z.shiftl_1_l. by rewrite <-Hn. }
  destruct (fill_nodes_empty false (Z.to_nat (mt_num_nodes m0)) (set_mt m0 (layer s))) as (x&Hr2&Hsm&Hin&_);
    [exact Hk|cbn; lia|done|]. change (mt (set_mt m0 (layer s))) with m0 in *.
  pose proof Hsm as (_&Hsc&_&Hst&_&Hh'&Hnn&_&Hms'). cbn in Hh', Hnn, Hms', Hst, Hsc.
  exists x. split_and!; [|..|by eapply same_key_ok|done|by rewrite Hms'|done|done].
  - unfold init_merkle_tree. apply on_layer_Ok. mrun Hr1. msteps. mrun Hr2. done.
  - split_and!; [lia|lia|congruence|]. intros i Hi. exists (zeros (node_size m0 i)). split; [apply Hin; cbn; lia|].
    rewrite zlen_zeros by (unfold node_size; destruct (_ <=? _); done). unfold node_size, leaf_start. by rewrite Hh'.
Qed.

Lemma file_dev_open_fresh s h :
  0 < h <= 30 -> n = 2 ^ h -> key_ok (layer s) -> mt_status (mt (layer s)) = 0 -> bfs_blk_dev s = None ->
  status (layer s) = FORMATTING \/ status (layer s) = FORMATTED ->
  exists x, file_dev_open true n s = Ok BFS_SUCCESS (set_layer x (set_dev (Some (dev_with n (image s))) s)) /\
    tree_ok x /\ key_ok x /\ mt_height (mt x) = h /\ mt_status (mt x) <> 0 /\ status x = status (layer s).
Proof.
  intros Hh Hn Hk Hms Hd Hst. set (s2 := set_dev (Some (dev_with n (image s))) s).
  destruct (init_tree s2 h Hh Hn) as (x&Hr&Ht&Hkx&Hhx&Hmx&Hstx&_); [exact Hk|exact Hms|].
  exists x. split_and!; [|done..]. unfold file_dev_open. msteps. rewrite Hd.
  assert (map_image n s = Ok () s2) as Hm by done. mrun Hm. unfold get_status. msteps.
  change (status (layer s2)) with (status (layer s)).
  assert ((status (layer s) =? FORMATTED) || (status (layer s) =? FORMATTING) = true) as -> by (destruct Hst as [-> | ->]; done).
  by mrun Hr.
Qed.

(** The device comes up with no block written. *)
Lemma init_blk_test_Ok s : raw s ->
  exists s', init_blk_test true n s = Ok BFS_SUCCESS s' /\ ext4_ok n s' ∅ /\ status (layer s') = FORMATTING.
Proof.
  intros ((h&Hh&Hn)&Hk&Hd&Hms&Hz). pose proof (Z.pow_pos_nonneg 2 h ltac:(lia) ltac:(lia)).
  set (s1 := set_seen (Some []) (set_layer (set_status FORMATTING (layer s)) s)).
  destruct (file_dev_open_fresh s1 h Hh Hn) as (x&Hr&Ht&Hkx&Hhx&Hmx&Hst); [exact Hk|exact Hms|exact Hd|by left|].
  pose proof Hkx as (k&Hkk&_). eexists. split_and!.
  - unfold init_blk_test. destruct (Z.ltb_spec 0 n); [|lia]. msteps.
    assert (on_layer (modify (set_status FORMATTING)) s = Ok () (set_layer (set_status FORMATTING (layer s)) s)) as Hr1 by done.
    mrun Hr1. msteps. mrun Hr. erewrite bind_Ok; [reflexivity|]. apply on_layer_Ok. cbn [layer set_layer].
    by mrun (getKey_Ok x k Hkk).
  - exists (image s), [], (zeros BFS_HMAC_LEN). split_and!; try done.
    + cbn. by rewrite Hhx.
    + unfold live. cbn. by rewrite Hst.
    + intros b. rewrite lookup_empty. set_solver.
  - exact Hst.
Qed.

(** ** Closing and opening again *)
Lemma holds_fun s m m' : holds n s m -> holds n s m' -> m' = m.
Proof. intros [Hh _] [Hh' _]. rewrite Hh in Hh'. by simplify_eq. Qed.

Lemma file_dev_close_Ok s mm m :
  ext4_ok n s mm -> holds n s m -> status (layer s) = MOUNTED \/ status (layer s) = FORMATTING ->
  exists root, file_dev_close true n s = Ok BFS_SUCCESS (mkState (layer s) None (seen s) (<[meta_blk n n := root]> m)) /\
    zlen root = BLK_SZ.
Proof.
  intros (m1&l&cp&_&Ht&Hk&Hn&_&_&_&_&_&Hms&_) Hh Hst. pose proof (tree_n n s Ht Hn).
  destruct (save_root_hash_Ok n s m Hh) as (root&Hr&_&Hz); [lia|done|done|]. exists root. split; [|done].
  unfold file_dev_close. msteps. rewrite (proj1 Hh). unfold get_status. msteps.
  assert ((status (layer s) =? MOUNTED) || (status (layer s) =? FORMATTING) = true) as -> by (destruct Hst as [-> | ->]; done).
  assert (flush_merkle_tree n s = Ok BFS_SUCCESS (set_dev (Some (dev_with n (<[meta_blk n n := root]> m))) s)) as Hf.
  { unfold flush_merkle_tree. erewrite bind_Ok; [|apply on_layer_Ok].
    2:{ assert (mt_setup n (layer s) = Ok () (layer s)) as Hs.
        { unfold mt_setup. msteps. by rewrite (proj2 (Z.eqb_neq _ _) Hms). }
        mrun Hs. msteps. apply fill_nodes_full; [done|]. destruct (tree_sizes _ Ht) as (w&?&?&?&?&?). lia. }
    cbn [negb]. by rewrite set_layer_same. }
  mrun Hf. msteps. done.
Qed.

(** In the order of formatting and mounting: the tree in memory stays. *)
Definition reopen (st : Z) : M (state C) bret :=
  file_dev_close true n ;; on_layer (modify (set_status st)) ;; file_dev_open true n.

Lemma reopen_Ok s mm st :
  ext4_ok n s mm -> status (layer s) = MOUNTED \/ status (layer s) = FORMATTING -> st = FORMATTING \/ st = FORMATTED ->
  exists s', reopen st s = Ok BFS_SUCCESS s' /\ ext4_ok n s' mm.
Proof.
  intros Hok Hs Hst. pose proof Hok as (m&l&cp&Hh&Ht&Hk&Hn&Hl&Hcp&Hz&Hse&Hin&Hms&Hall).
  destruct (file_dev_close_Ok s mm m Hok Hh Hs) as (root&Hr&Hzr). unfold reopen. mrun Hr. set (m1 := <[meta_blk n n := root]> m) in *.
  set (s1 := mkState (set_status st (layer s)) None (seen s) m1).
  set (s2 := set_dev (Some (dev_with n m1)) s1).
  assert (on_layer (modify (set_status st)) (mkState (layer s) None (seen s) m1) = Ok () s1) as Hr1 by done. mrun Hr1.
  exists s2. split.
  - unfold file_dev_open. msteps. cbn [bfs_blk_dev s1]. assert (map_image n s1 = Ok () s2) as Hm by done. mrun Hm.
    unfold get_status. msteps. change (status (layer s2)) with st.
    assert ((st =? FORMATTED) || (st =? FORMATTING) = true) as -> by (destruct Hst as [-> | ->]; done).
    assert (init_merkle_tree n s2 = Ok BFS_SUCCESS s2) as Hi; [|by mrun Hi].
    unfold init_merkle_tree. erewrite on_layer_Ok; [by rewrite set_layer_same|].
    assert (mt_setup n (layer s2) = Ok () (layer s2)) as Hs2.
    { unfold mt_setup. msteps. cbn. by rewrite (proj2 (Z.eqb_neq _ _) Hms). }
    mrun Hs2. msteps. destruct (tree_sizes _ Ht) as (w&?&?&?&?&?).
    rewrite (bind_Ok _ _ _ _ _ (fill_nodes_full false (Z.to_nat (mt_num_nodes (mt (layer s)))) false (layer s2) Ht ltac:(cbn; lia))). done.
  - exists m1, l, cp. split_and!; try done.
    + split; [done|]. intros j. unfold m1. rewrite mget_insert. case_decide; [done|apply Hh].
    + unfold live. cbn. destruct Hst as [-> | ->]; done.
    + intros b d Hd. destruct (Hall b d Hd) as (Hap&Hzd&mac&Hsl&Hrest). split_and!; [done..|].
      exists mac. split; [by apply sealed_root|done].
Qed.

(** ** Using the device *)
Section session.
Context (rnd : nat -> bytes) (rnd_zlen : forall i, zlen (rnd i) = BFS_IV_LEN).

(** Programs on a device that was just opened, and after it was closed and
    opened again as in formatting and mounting. *)
Definition session {A B} (p : prog A) (q : prog B) : M (state C) (A * B) :=
  init_blk_test true n ;;
  a ← on_device rnd n p;
  reopen FORMATTED ;;
  on_layer (modify (set_status MOUNTED)) ;;
  b ← on_device rnd n q;
  mret (a, b).

(** C16. They have the results they have on one map of blocks, empty at first, when
    they stay [within] the device: a read of more than one block is of blocks that
    were written before ([read_fits]; see [mixed_read_loses_block] for the others),
    and the blocks that are written have their metadata apart from the block that
    holds the hash of the root ([write_fits]; see [last_blocks_unreadable]). *)
Theorem ext4_session_refines_map {A B} (p : prog A) (q : prog B) s :
  raw s -> within n p ∅ -> within n q (on_map p ∅).2 ->
  exists s', session p q s = Ok ((on_map p ∅).1, (on_map q (on_map p ∅).2).1) s'.
Proof.
  intros Hraw Hp Hq. destruct (init_blk_test_Ok s Hraw) as (s1&Hr1&Hok1&Hst1).
  destruct (on_ext4_device_Ok rnd rnd_zlen n p s1 ∅ Hok1 Hp) as (s2&Hr2&Hok2&Hst2). unfold session. mrun Hr1. mrun Hr2.
  destruct (reopen_Ok s2 _ FORMATTED Hok2) as (s3&Hr3&Hok3); [right; congruence|by right|].
  assert (ext4_ok n (set_layer (set_status MOUNTED (layer s3)) s3) (on_map p ∅).2) as Hok4.
  { destruct Hok3 as (m&l&cp&Hh&Ht&Hk&Hn&_&Hrest). exists m, l, cp. do 4 (split; [done|]). split; [done|exact Hrest]. }
  destruct (on_ext4_device_Ok rnd rnd_zlen n q _ _ Hok4 Hq) as (s4&Hr4&_). exists s4.
  mrun Hr3.
  assert (on_layer (modify (set_status MOUNTED)) s3 = Ok () (set_layer (set_status MOUNTED (layer s3)) s3)) as Hr5 by done.
  mrun Hr5. by mrun Hr4.
Qed.
End session.

(** ** Blocks changed on the storage *)

(** The list of the nodes over one leaf starts at the node above it. *)
Lemma ancestors_one s b :
  tree_ok (layer s) -> n = 2 ^ mt_height (mt (layer s)) -> 0 <= b < n ->
  exists l, ancestors 1 (b + leaf_start (mt (layer s))) s = Ok (up (layer s) b :: l) s.
Proof.
  intros Ht Hn Hb. destruct (ancestors_cover n s b 1 Ht Hn) as (l&Hr&Hsort&_&Hup&Hpar); [lia..|].
  specialize (Hup b ltac:(lia)). destruct l as [|a l]; [set_solver|]. exists l. rewrite Hr. do 2 f_equal.
  destruct (decide (a = up (layer s) b)) as [->|Hne]; [done|].
  assert (up (layer s) b <= a) as Hle.
  { apply elem_of_cons in Hup as [->|Hin]; [lia|]. apply StronglySorted_inv in Hsort as [_ Ha].
    rewrite Forall_forall in Ha. specialize (Ha _ Hin). lia. }
  destruct (tree_sizes _ Ht) as (w&?&?&Hw&?&?). destruct (leaf_range _ b Ht) as (?&?&?&?); [lia|].
  destruct (Hpar a) as (b'&Hb'&->); [set_solver|rewrite shiftl1 by (destruct Ht; lia); unfold up in *; lia|].
  by replace b' with b by lia.
Qed.

(** A leaf that does not go with the node above it ends the process. *)
Lemma check_parents_bad l s i cp :
  tree_ok (layer s) -> key_ok (layer s) -> curr_par (layer s) = Some cp -> zlen cp = BFS_HMAC_LEN ->
  Z.shiftl 1 (mt_height (mt (layer s)) - 1) - 1 <= i < leaf_start (mt (layer s)) -> 0 <= i -> ~ node_good (layer s) i ->
  check_parents (i :: l) s = Crash Abort_called.
Proof.
  intros Ht Hk Hcp Hz Hi Hi0 Hg.
  destruct (check_parents_cons i l s cp Ht Hk Hcp Hz ltac:(lia) ltac:(lia)) as [-> _].
  rewrite decide_False; [done|]. unfold rehashed. rewrite nh_with_node, decide_True by done. intros Heq. by destruct Hg.
Qed.

(** A tag that is not the leaf is refused. *)
Lemma verify_changed s b mac cp :
  tree_ok (layer s) -> key_ok (layer s) -> n = 2 ^ mt_height (mt (layer s)) -> 0 <= b < n -> zlen mac = BFS_MAC_LEN ->
  curr_par (layer s) = Some cp -> zlen cp = BFS_HMAC_LEN -> node_good (layer s) (up (layer s) b) ->
  no_collision (layer s) mac (nh (layer s) (leaf (layer s) b)) -> mac <> nh (layer s) (leaf (layer s) b) ->
  verify_mt b [Some mac] s = Crash Abort_called.
Proof.
  intros Ht Hk Hn Hb Hzm Hcp Hz Hg Hnc Hne. destruct (tree_sizes _ Ht) as (w&?&?&Hw&?&?).
  destruct (leaf_range _ b Ht ltac:(lia)) as (Hl&Hp&_&Hside).
  assert (0 <= leaf (layer s) b < mt_num_nodes (mt (layer s))) as Hli by lia.
  set (x1 := with_node (leaf (layer s) b) (HOwn mac) (layer s)). set (s1 := set_layer x1 s).
  assert (tree_ok x1) as Ht1 by (apply tree_ok_with_node; [done|done|rewrite node_size_leaf; [done|done|lia]]).
  destruct (ancestors_one s1 b) as (l&Hr); [done|done|done|].
  unfold verify_mt. mrun (on_layer_Ok _ s _ _ (get_node_Ok _ 0 Ht ltac:(lia))). rewrite set_layer_same. msteps.
  fold (leaf (layer s) b).
  assert (swap_leaves (leaf (layer s) b) [Some mac] s = Ok true s1) as Hsw.
  { cbn [swap_leaves]. mrun (on_layer_Ok _ s _ _ (get_node_Ok _ _ Ht Hli)). rewrite set_layer_same. by msteps. }
  mrun Hsw. cbn [negb length]. mrun Hr.
  rewrite (bind_Crash _ _ _ Abort_called); [done|].
  apply check_parents_bad with cp; [done|done|done|done| |unfold up; exact (proj1 Hp)|].
  - change (Z.shiftl 1 (mt_height (mt (layer s)) - 1) - 1 <= up (layer s) b < leaf_start (mt (layer s))).
    rewrite shiftl1 by (destruct Ht; lia). unfold up. lia.
  - intros Hgd. destruct Hne. apply (read_blk_verify_leaf (layer s) b mac); try done; [lia|by exists cp|].
    change (nh x1 (up (layer s) b) = hmac2 (layer s) (nh x1 (2 * up (layer s) b + 1)) (nh x1 (2 * up (layer s) b + 2))) in Hgd.
    unfold x1 at 1 in Hgd. rewrite nh_with_node, decide_False in Hgd by (unfold up; lia). symmetry. exact Hgd.
Qed.

(** The read of one block that was seen. *)
Lemma bread_one s l b buf :
  bfs_blk_dev s <> None -> key_ok (layer s) -> seen s = Some l -> b ∈ l -> 0 <= b < 2 ^ 64 -> status (layer s) = MOUNTED ->
  file_dev_bread true n buf b 1 s =
    (r ← open_block n b FlexBuffer.empty;
     match r with
     | None => mret (BFS_FAILURE, buf)
     | Some (p, mac, aad) =>
         buf' ← of_opt (mem_set 0 p buf);
         v ← verify_mt b [Some mac];
         match v with BFS_SUCCESS => mret (BFS_SUCCESS, buf') | _ => die Undefined_behaviour end
     end) s.
Proof.
  intros Hd (k&Hk&_) Hl Hin Hb Hst. unfold file_dev_bread. msteps. destruct (bfs_blk_dev s); [|done]. cbn [Z.eqb]. msteps.
  rewrite Hk, Hl. change (Z.to_nat 1) with 1%nat. cbn [bread_loop]. unfold get_status. msteps. rewrite Hl. msteps.
  rewrite Z.add_0_r, u64_small by lia. unfold is_seen. rewrite bool_decide_true by done. rewrite andb_false_r, Hst.
  unfold mbind, M_bind. destruct (open_block n b FlexBuffer.empty s) as [[[[p mac] aad]|] s1|e s1|c]; [|done..].
  change (<[Z.to_nat 0:=Some mac]> (replicate 1 None)) with [Some mac]. change (0 * BLK_SZ) with 0.
  change ((1 <? 1) && (0 <? 1 - 1)) with false. change (true && (MOUNTED =? MOUNTED)) with true. cbn iota.
  destruct (of_opt (mem_set 0 p buf) s1) as [buf' s2|e s2|c]; [|done..].
  by destruct (verify_mt b [Some mac] s2) as [[] s3|e s3|c].
Qed.

(** The storage under the device of [s0] was replaced by [m]. *)
Definition replaced s0 m : state C := set_dev (Some (dev_with n m)) s0.

(** C17. Whatever the storage holds, a block that was written is read as it was, or
    the read fails, when neither its tag nor the hash over it can be forged. *)
Theorem ext4_read_authentic s0 mm m0 m b d iv mac buf :
  ext4_ok n s0 mm -> holds n s0 m0 -> status (layer s0) = MOUNTED -> mm !! b = Some d -> zlen buf = BLK_SZ ->
  (forall j, zlen (mget m j) = BLK_SZ) -> slot_in (mget m (meta_blk n b)) b iv mac ->
  no_collision (layer s0) mac (nh (layer s0) (leaf (layer s0) b)) ->
  (forall iv0, gcm_tag (ckey (layer s0)) iv (aad_bytes b) (mget m b) = gcm_tag (ckey (layer s0)) iv0 (aad_bytes b) (mget m0 b) ->
     iv = iv0 /\ mget m b = mget m0 b) ->
  match file_dev_bread true n buf b 1 (replaced s0 m) with
  | Ok (BFS_SUCCESS, d') _ => d' = d
  | Ok _ _ | Crash Undefined_behaviour | Crash Out_of_fuel => False
  | Throw _ _ | Crash _ => True
  end.
Proof.
  intros Hok Hh0 Hst Hd Hz Hm Hsl Hnc Hforge. pose proof Hok as (m1&l&cp&Hh1&Ht&Hk&Hn&_&Hcp&Hzc&Hl&Hin&_&Hall).
  pose proof (holds_fun _ _ _ Hh0 Hh1) as ->. destruct (Hall b d Hd) as ((Hb&_)&_&mac0&(iv0&Hsl0&Ht0&Hd0)&Hlf&Hg).
  pose proof (tree_n n s0 Ht Hn). set (s := replaced s0 m). assert (holds n s m) as Hh by done.
  rewrite (bread_one s l) by (done || lia || (apply Hin; eauto)).
  destruct (open_block_slot n s m b FlexBuffer.empty iv mac Hh Hb Hk ltac:(by left) Hsl) as [Hgood Hbad].
  destruct (decide (mac = gcm_tag (ckey (layer s)) iv (aad_bytes b) (mget m b))) as [Htag|Htag].
  2:{ destruct (Hbad Htag) as (e&He). by rewrite (bind_Throw _ _ _ _ _ He). }
  destruct (Hgood Htag) as (s1&aad'&Hr&_&_&(Hmt&Hcp1&_&Hck&Hk1)&_). mrun Hr. change (layer s) with (layer s0) in *.
  set (p := gcm_decrypt (ckey (layer s0)) iv (aad_bytes b) (mget m b)).
  rewrite mem_set_all by (unfold p; rewrite decrypt_zlen, Hm; congruence). msteps.
  assert (tree_ok (layer s1)) as Ht1 by (unfold tree_ok; by rewrite Hmt).
  assert (zlen mac = BFS_MAC_LEN) as Hzm by (rewrite Htag; apply tag_zlen).
  assert (node_good (layer s1) (up (layer s1) b)) as Hg1.
  { unfold node_good, hmac2, up, leaf, nh in *. rewrite Hmt, Hck. exact Hg. }
  assert (leaf (layer s1) b = leaf (layer s0) b) as Hle by (unfold leaf; by rewrite Hmt).
  assert (forall i, nh (layer s1) i = nh (layer s0) i) as Hnh by (intros; unfold nh; by rewrite Hmt).
  destruct (decide (mac = nh (layer s0) (leaf (layer s0) b))) as [Heq|Hne].
  - destruct (verify_mt_Ok n s1 b [mac] cp) as (cp'&Hv&_); try done; rewrite ?zlen_cons, ?zlen_nil; try lia; [by rewrite Hmt|congruence|..].
    + intros [|j] mac' Hj; [|done]. cbn in Hj. simplify_eq. by rewrite Z.add_0_r, Hle, Hnh.
    + intros b' Hb'. replace b' with b; [done|]. lia.
    + mrun Hv. destruct (Hforge iv0) as [-> Hbytes]; [congruence|]. unfold p. by rewrite Hbytes, <-Hd0.
  - rewrite (bind_Crash _ _ _ Abort_called); [done|]. apply (verify_changed s1 b mac cp); try done;
      [by rewrite Hmt|congruence|..|by rewrite Hle, Hnh].
    rewrite Hle, Hnh. intros y Hy. unfold hmac2. rewrite Hck. by apply Hnc.
Qed.

(** ** Reads of ranges with blocks that were never written *)
Lemma bread_start s l buf b cnt :
  bfs_blk_dev s <> None -> key_ok (layer s) -> seen s = Some l -> cnt <> 0 ->
  file_dev_bread true n buf b cnt s =
    bread_loop true n (Z.to_nat cnt) b 0 cnt (replicate (Z.to_nat cnt) None) FlexBuffer.empty buf s.
Proof.
  intros Hd (k&Hk&_) Hl Hc. unfold file_dev_bread. msteps. destruct (bfs_blk_dev s); [|done].
  rewrite (proj2 (Z.eqb_neq _ _) Hc). msteps. by rewrite Hk, Hl.
Qed.

(** A round on a block that was never written clears the front of the buffer. *)
Lemma bread_unseen rounds s l b i cnt macs aad buf :
  live s -> seen s = Some l -> 0 <= b + i < 2 ^ 64 -> b + i ∉ l -> BLK_SZ <= zlen buf ->
  bread_loop true n (S rounds) b i cnt macs aad buf s =
    bread_loop true n rounds b (i + 1) cnt macs aad (zero_blk ++ drop (Z.to_nat BLK_SZ) buf) s.
Proof.
  intros [Hst _] Hl Hb Hno Hz. cbn [bread_loop]. unfold get_status. msteps. rewrite Hl. msteps. rewrite u64_small by done.
  unfold is_seen. rewrite bool_decide_false by done. rewrite (proj2 (Z.leb_le _ _) Hst). cbn [andb negb].
  assert (mem_set 0 zero_blk buf = Some (zero_blk ++ drop (Z.to_nat BLK_SZ) buf)) as ->; [|by msteps].
  unfold mem_set. rewrite decide_True by (change (zlen zero_blk) with BLK_SZ; lia). done.
Qed.

(** A round on a block that was written puts it in its place. *)
Lemma bread_seen rounds s l m b i cnt macs aad buf mac d :
  live s -> seen s = Some l -> 0 <= b + i < n -> n <= 2 ^ 30 -> b + i ∈ l -> holds n s m -> key_ok (layer s) -> aad_ready aad ->
  sealed n m (ckey (layer s)) (b + i) mac d -> zlen d = BLK_SZ -> 0 <= i -> (i + 1) * BLK_SZ <= zlen buf ->
  exists s1 aad' buf', frame s s1 /\ seen s1 = seen s /\ holds n s1 m /\ zlen buf' = zlen buf /\
    drop (Z.to_nat ((i + 1) * BLK_SZ)) buf' = drop (Z.to_nat ((i + 1) * BLK_SZ)) buf /\
    bread_loop true n (S rounds) b i cnt macs aad buf s =
      (if (1 <? cnt) && (i <? cnt - 1)
       then bread_loop true n rounds b (i + 1) cnt (<[Z.to_nat i := Some mac]> macs) aad' buf'
       else v ← (if true && (status (layer s) =? MOUNTED) then verify_mt b (<[Z.to_nat i := Some mac]> macs) else mret BFS_SUCCESS);
            match v with
            | BFS_SUCCESS => bread_loop true n rounds b (i + 1) cnt (<[Z.to_nat i := Some mac]> macs) aad' buf'
            | _ => die Undefined_behaviour
            end) s1.
Proof.
  intros Hst Hl Hb Hn Hin Hh Hk Ha Hs Hz Hi Hzb.
  destruct (open_block_Ok n s m (b + i) aad mac d Hh Hb Hk Ha Hs) as (s1&aad'&Hr&Ha'&Hh1&Hf&Hse).
  destruct (mem_set_is_Some (i * BLK_SZ) d buf) as [buf' Hset]; [unfold BLK_SZ in *; lia..|].
  exists s1, aad', buf'. split_and!; [done..|by eapply mem_set_zlen| |].
  - apply mem_set_Some in Hset as (_&_&->). rewrite Hz. replace (i * BLK_SZ + BLK_SZ) with ((i + 1) * BLK_SZ) by lia.
    rewrite app_assoc, drop_app_length'; [done|]. unfold zlen, BLK_SZ in *. rewrite length_app, length_take. lia.
  - cbn [bread_loop]. unfold get_status. msteps. rewrite Hl. msteps. rewrite u64_small by lia.
    unfold is_seen. rewrite bool_decide_true by done. rewrite andb_false_r. mrun Hr. rewrite Hset. by msteps.
Qed.

(** A block that was written, and one behind it that was not: the first one is
    cleared, the second one is whatever the buffer had, and the read succeeds. *)
Theorem mixed_read_loses_block s mm b d buf :
  ext4_ok n s mm -> mm !! b = Some d -> mm !! (b + 1) = None -> zlen buf = 2 * BLK_SZ ->
  exists s', file_dev_bread true n buf b 2 s = Ok (BFS_SUCCESS, zero_blk ++ drop (Z.to_nat BLK_SZ) buf) s'.
Proof.
  intros (m&l&cp&Hh&Ht&Hk&Hn&Hst&_&_&Hl&Hin&_&Hall) Hd Hno Hz. pose proof (tree_n n s Ht Hn).
  destruct (Hall b d Hd) as ((Hb&_)&Hzd&mac&Hs&_).
  destruct (bread_seen 1 s l m b 0 2 (replicate 2 None) FlexBuffer.empty buf mac d)
    as (s1&aad'&buf'&(_&_&Hst1&_)&Hse&_&Hzb&Hdrop&Hr); rewrite ?Z.add_0_r; try done; try lia;
    [apply Hin; eauto|by left|rewrite Hz; unfold BLK_SZ; lia|].
  exists s1. rewrite (bread_start s l) by (done || (rewrite (proj1 Hh); done)). change (Z.to_nat 2) with 2%nat. rewrite Hr.
  change ((1 <? 2) && (0 <? 2 - 1)) with true. cbn iota.
  rewrite (bread_unseen 0 s1 l);
    [|unfold live; by rewrite Hst1|congruence|lia|change (0 + 1) with 1; intros [? ?]%Hin; congruence|unfold BLK_SZ in *; lia].
  cbn [bread_loop]. change (Z.to_nat ((0 + 1) * BLK_SZ)) with (Z.to_nat BLK_SZ) in Hdrop. by rewrite Hdrop.
Qed.

(** The other way round, in a file system that is mounted, the tags of the range
    are used although the first one was never set. *)
Theorem mixed_read_uses_unset_tag s mm b d buf :
  ext4_ok n s mm -> status (layer s) = MOUNTED -> 0 <= b -> mm !! b = None -> mm !! (b + 1) = Some d -> zlen buf = 2 * BLK_SZ ->
  file_dev_bread true n buf b 2 s = Crash Undefined_behaviour.
Proof.
  intros (m&l&cp&Hh&Ht&Hk&Hn&Hst&_&_&Hl&Hin&_&Hall) Hm Hb0 Hno Hd Hz. pose proof (tree_n n s Ht Hn).
  destruct (Hall (b + 1) d Hd) as ((Hb&_)&Hzd&mac&Hs&_). destruct (tree_sizes _ Ht) as (w&?&?&?&?&?).
  rewrite (bread_start s l) by (done || (rewrite (proj1 Hh); done)). change (Z.to_nat 2) with 2%nat.
  rewrite (bread_unseen 1 s l);
    [|done|done|lia|rewrite Z.add_0_r; intros [? ?]%Hin; congruence|unfold BLK_SZ in *; lia].
  destruct (bread_seen 0 s l m b (0 + 1) 2 (replicate 2 None) FlexBuffer.empty (zero_blk ++ drop (Z.to_nat BLK_SZ) buf) mac d)
    as (s1&aad'&buf'&(Hmt&_)&_&_&_&_&->); try done; try lia; [apply Hin; eauto|by left| |].
  { rewrite zlen_app. change (zlen zero_blk) with BLK_SZ. unfold zlen, BLK_SZ in *. rewrite length_drop. lia. }
  change ((1 <? 2) && (0 + 1 <? 2 - 1)) with false. cbn iota. rewrite Hm.
  change (MOUNTED =? MOUNTED) with true. cbn [andb].
  assert (tree_ok (layer s1)) as Ht1 by (unfold tree_ok; by rewrite Hmt).
  apply bind_Crash. unfold verify_mt. mrun (on_layer_Ok _ s1 _ _ (get_node_Ok _ 0 Ht1 ltac:(rewrite Hmt; lia))).
  rewrite set_layer_same. msteps. apply bind_Crash.
  change (<[Z.to_nat (0 + 1):=Some mac]> (replicate 2 None)) with [None; Some mac]. cbn [swap_leaves].
  mrun (on_layer_Ok _ s1 _ _ (get_node_Ok _ (b + leaf_start (mt (layer s1))) Ht1 ltac:(rewrite Hmt; lia))). done.
Qed.

(** ** The blocks whose metadata is next to the root *)
Context (rnd : nat -> bytes) (rnd_zlen : forall i, zlen (rnd i) = BFS_IV_LEN).

(** C39. Writing one of them ends with the root over its IV and tag, and it cannot be
    read unless the bytes there happen to be a tag of it. *)
Theorem last_blocks_unreadable s mm b d buf :
  ext4_ok n s mm -> status (layer s) = MOUNTED -> 0 <= b < n -> BLK_META_BLK_LOC b = BLK_META_BLK_LOC n -> zlen d = BLK_SZ ->
  exists s' m' root iv mac, file_dev_bwrite true rnd n d b 1 s = Ok BFS_SUCCESS s' /\ holds n s' m' /\
    (exists iv0, d = gcm_decrypt (ckey (layer s)) iv0 (aad_bytes b) (mget m' b)) /\
    zlen root = BFS_HMAC_LEN /\ slot_in (root ++ zeros (BLK_SZ - BFS_HMAC_LEN)) b iv mac /\
    (mac <> gcm_tag (ckey (layer s)) iv (aad_bytes b) (mget m' b) ->
       exists e s'', file_dev_bread true n buf b 1 s' = Throw e s'').
Proof.
  intros (m&l&cp&Hh&Ht&Hk&Hn&Hst&Hcp&Hz&Hl&Hin&Hms&Hall) Hm Hb Hloc Hzd. pose proof (tree_n n s Ht Hn).
  destruct (bwrite_loop_Ok rnd rnd_zlen n [d] [] b [] FlexBuffer.empty s m l) as (s1&m1&ms&l1&Hh1&Hf1&Hl1&Hsm&Hs1&_&Hr);
    try done; try lia; [by constructor|by left|change (b + 1 <= n); lia|].
  rewrite zlen_nil, Z.add_0_r in *. cbn [app] in *. destruct Hf1 as (Hmt&Hcp1&Hst1&Hck&Hk1). destruct Hs1 as (Hlen&Hzm&Hsd).
  assert (zlen ms = 1) as Hzms by (unfold zlen; by rewrite Hlen).
  destruct (update_merkle_tree_Ok n s1 m1 b ms) as (x&Hu&Htx&Hsx&_);
    [done|unfold tree_ok; by rewrite Hmt|done|by rewrite Hmt|lia|lia|done|].
  pose proof (root_zlen x Htx) as Hzrb. assert (zlen (nh x 0) = BFS_HMAC_LEN) as Hzr.
  { rewrite zlen_app, zlen_zeros in Hzrb by done. lia. }
  set (rb := nh x 0 ++ zeros (BLK_SZ - BFS_HMAC_LEN)) in *. set (m2 := <[meta_blk n n := rb]> m1) in *.
  set (s2 := set_dev (Some (dev_with n m2)) (set_layer x s1)) in *.
  assert (holds n s2 m2) as Hh2.
  { split; [done|]. intros j. unfold m2. rewrite mget_insert. case_decide; [done|apply Hh1]. }
  destruct (meta_bounds n b) as (_&Ho&Ho2&_); [lia|].
  destruct (mem_get_is_Some (meta_off b) BFS_IV_LEN rb) as [iv Hiv]; [lia|done|unfold BFS_IV_LEN; lia|].
  destruct (mem_get_is_Some (meta_off b + BFS_IV_LEN) BFS_MAC_LEN rb) as [mac Hmac];
    [unfold BFS_IV_LEN; lia|done|unfold BFS_IV_LEN, BFS_MAC_LEN; lia|].
  assert (meta_blk n b = meta_blk n n) as Hmb by (unfold meta_blk; congruence).
  assert (slot_in (mget m2 (meta_blk n b)) b iv mac) as Hsl by (unfold m2; rewrite Hmb, mget_insert, decide_True by done; done).
  exists s2, m2, (nh x 0), iv, mac. split_and!; [|done| |done|done|].
  - unfold file_dev_bwrite. msteps. rewrite (proj1 Hh). cbn [Z.eqb]. msteps. destruct Hk as (k&->&_). rewrite Hl.
    specialize (Hr _ Hu). cbn [concat] in Hr. rewrite app_nil_r in Hr. exact Hr.
  - destruct ms as [|mac0 ms]; [by rewrite zlen_nil in Hzms|]. destruct (Hsd 0%nat mac0 d eq_refl eq_refl) as (iv0&_&_&Hd0).
    rewrite Z.add_0_r in Hd0. exists iv0. unfold m2. rewrite mget_insert, decide_False; [done|].
    destruct (meta_bounds n n) as (?&_); lia.
  - intros Hne. pose proof Hsx as (_&Hsc&_&Hstx&_). assert (key_ok (layer s2)) as Hk2 by (by eapply same_key_ok).
    assert (ckey (layer s2) = ckey (layer s)) as Hck2 by (rewrite <-Hck; unfold ckey; cbn; by rewrite Hsc).
    destruct (open_block_slot n s2 m2 b FlexBuffer.empty iv mac Hh2 Hb Hk2 ltac:(by left) Hsl) as [_ Hbad].
    destruct Hbad as (e&He); [by rewrite Hck2|]. exists e, s2. rewrite (bread_one s2 l1); try done.
    + by apply bind_Throw.
    + apply Hsm. right. rewrite zlen_cons, zlen_nil. lia.
    + lia.
    + cbn. congruence.
Qed.
End life.
End Ext4Life.
