(* ===== verification/Ext4Ops.v ===== *)
(** * The file operations of the lwext4 backend

    Models the functions [__do_lwext4_...] of [bfs_fs/bfs_core_ext4_helpers.cpp]
    that the server calls when lwext4 is the backend: set-up, formatting and
    mounting, the table of open files, and the operations on files and
    directories.  The library is a parameter, the class [Lwext4]; it works on a
    world that has the block device of [Ext4Dev] in it. *)
From S2P Require Import Prelude Layout CoreTypes SecAssoc BlockLayer FsLayer SecBlock Ext4Dev.
From stdpp Require Import sorting.
#[local] Open Scope Z_scope.

Module Ext4Ops.

(** ** The library *)
Definition EOK : Z := 0.
Definition FAILURE : Z := -1.
Definition ENOTSUP : Z := 95.

(** The flags that are used here. *)
Inductive oflag := O_RDWR | O_CREAT.
Inductive file_type := EXT4_DE_REG_FILE | EXT4_DE_DIR.

Record direntry := mkDirent { d_inode : Z; d_name : bytes }.

(** [F]: [ext4_file], [D]: [ext4_dir], which begins with a file.  A structure
    that is passed by pointer is an argument and a result.  The first result is
    the code, [EOK] for success. *)
Class Lwext4 (W F D : Type) := {
  f_inode : F -> Z;
  f_fsize : F -> Z;
  d_file : D -> F;
  d_set_file : F -> D -> D;
  ext4_mkfs : bool -> M W Z;
  ext4_mkfs_read_info : M W Z;
  ext4_device_register : M W Z;
  ext4_mount : M W Z;
  ext4_mount_setup_locks : M W Z;
  ext4_recover : M W Z;
  ext4_journal_start : M W Z;
  ext4_cache_write_back : bool -> M W ();
  ext4_fopen : bytes -> M W (Z * F);
  ext4_fopen2 : bytes -> oflag -> M W (Z * F);
  ext4_fclose : F -> M W (Z * F);
  ext4_fseek : F -> Z -> M W (Z * F);
  ext4_fread : F -> Z -> M W (Z * bytes * F);
  ext4_fwrite : F -> bytes -> M W (Z * Z * F);
  ext4_ftruncate : F -> Z -> M W (Z * F);
  ext4_fremove : bytes -> M W Z;
  ext4_frename : bytes -> bytes -> M W Z;
  ext4_inode_exist : bytes -> file_type -> M W Z;
  ext4_mode_get : bytes -> F -> Z -> M W (Z * Z);
  ext4_mode_set : bytes -> Z -> option F -> M W (Z * option F);
  ext4_all_time_get : bytes -> F -> Z * Z * Z -> M W (Z * (Z * Z * Z));
  ext4_all_time_set : bytes -> Z -> Z -> option F -> M W (Z * option F);
  ext4_cache_flush : bytes -> M W Z;
  ext4_dir_open : bytes -> M W (Z * D);
  ext4_dir_close : D -> M W (Z * D);
  ext4_dir_mk : bytes -> M W (Z * F);
  ext4_dir_rm : bytes -> M W Z;
  ext4_dir_entry_next : D -> M W (option direntry * D)
}.

Section ops.
Context `{Cipher} {C : Type} `{BlkCache C} {L F D : Type}.

(** The device, with the statics of the file that it uses, and what the library
    keeps. *)
Record world := mkWorld { dev : Ext4Dev.state C; lib : L }.

Context `{!Lwext4 world F D}.
(** [n]: the blocks of the device; [get_s]: the seconds of the clock; [junk k]:
    what [malloc(k)] returns; [stack]: what a local variable that is not set
    holds; [journal]: from the configuration. *)
Context (n : Z) (get_s : M world Z) (junk : Z -> bytes) (stack : Z) (journal : bool).

(** ** State *)

(** [bfs_lwext4_open_file_t]. *)
Record open_file := mkOpen { of_f : F + D; of_path : bytes; of_fh : Z }.

(** [open_file_tab] maps handles to addresses in [heap]; [brk] is the next
    address that [malloc] returns. *)
Record state := mkState {
  w : world;
  open_file_tab : option (gmap Z Z);
  heap : gmap Z open_file;
  brk : Z;
  open_file_tab_mux : bool;
  next_fh : Z;
  next_dfh : Z
}.

Definition set_w (x : world) (s : state) : state :=
  mkState x (open_file_tab s) (heap s) (brk s) (open_file_tab_mux s) (next_fh s) (next_dfh s).
Definition set_tab (t : gmap Z Z) (s : state) : state :=
  mkState (w s) (Some t) (heap s) (brk s) (open_file_tab_mux s) (next_fh s) (next_dfh s).
Definition set_heap (h : gmap Z open_file) (s : state) : state :=
  mkState (w s) (open_file_tab s) h (brk s) (open_file_tab_mux s) (next_fh s) (next_dfh s).
Definition set_brk (a : Z) (s : state) : state :=
  mkState (w s) (open_file_tab s) (heap s) a (open_file_tab_mux s) (next_fh s) (next_dfh s).
Definition set_mux (b : bool) (s : state) : state :=
  mkState (w s) (open_file_tab s) (heap s) (brk s) b (next_fh s) (next_dfh s).
Definition set_next_fh (z : Z) (s : state) : state :=
  mkState (w s) (open_file_tab s) (heap s) (brk s) (open_file_tab_mux s) z (next_dfh s).
Definition set_next_dfh (z : Z) (s : state) : state :=
  mkState (w s) (open_file_tab s) (heap s) (brk s) (open_file_tab_mux s) (next_fh s) z.

(** A call of the library. *)
Definition call {A} (m : M world A) : M state A := fun s =>
  match m (w s) with
  | Ok a x => Ok a (set_w x s)
  | Throw e x => Throw e (set_w x s)
  | Crash c => Crash c
  end.

(** The statics of the device. *)
Definition on_dev {A} (m : M (Ext4Dev.state C) A) : M state A := call (fun x =>
  match m (dev x) with
  | Ok a d => Ok a (mkWorld d (lib x))
  | Throw e d => Throw e (mkWorld d (lib x))
  | Crash c => Crash c
  end).

Definition get_status : M state Z := on_dev Ext4Dev.get_status.
Definition put_status (z : Z) : M state () := on_dev (Ext4Dev.on_layer (modify (set_status z))).

(** ** Locks *)
Definition lock : M state () :=
  l ← gets open_file_tab_mux;
  if (l : bool) then die Deadlocked else modify (set_mux true).
Definition unlock : M state () := modify (set_mux false).

(** ** Open files *)
Definition table : M state (gmap Z Z) := t ← gets open_file_tab; of_opt t.

Definition obj (a : Z) : M state open_file := h ← gets heap; of_opt (h !! a).
Definition put_obj (a : Z) (o : open_file) : M state () := modify (fun s => set_heap (<[a := o]> (heap s)) s).

(** [(ext4_file * )of->f]. *)
Definition as_file (o : open_file) : F := match of_f o with inl f => f | inr d => d_file d end.
Definition with_file (f : F) (o : open_file) : open_file :=
  mkOpen (match of_f o with inl _ => inl f | inr d => inr (d_set_file f d) end) (of_path o) (of_fh o).

(** A call with the file of an open file as an argument. *)
Definition on_file {A} (a : Z) (c : F -> M world (A * F)) : M state A :=
  o ← obj a; '(r, f) ← call (c (as_file o)); put_obj a (with_file f o) ;; mret r.

(** [(ext4_dir * )of->f] of a file is outside the object. *)
Definition on_dir {A} (a : Z) (c : D -> M world (A * D)) : M state A :=
  o ← obj a;
  match of_f o with
  | inl _ => die Undefined_behaviour
  | inr d => '(r, d) ← call (c d); put_obj a (mkOpen (inr d) (of_path o) (of_fh o)) ;; mret r
  end.

(** [at] throws, with the lock held, for a handle that is not in the table. *)
Definition find_open_file (fh : Z) : M state Z :=
  lock ;;
  t ← table;
  match t !! fh with
  | None => throw std_out_of_range
  | Some a => unlock ;; mret a
  end.

Definition alloc_fh (fh_type : Z) : M state Z :=
  t ← table;
  if Z.of_nat (size t) =? MAX_OPEN_FILES then mret 0
  else if fh_type =? 0 then
    fh ← gets next_fh; modify (set_next_fh (u64 (fh + 1))) ;; mret fh
  else if fh_type =? 1 then
    fh ← gets next_dfh; modify (set_next_dfh (u64 (fh + 1))) ;; mret fh
  else mret 0.

(** The address of the open file.  Without a handle the lock stays held;
    [insert] keeps an entry that is there. *)
Definition init_open_file (path : bytes) (f : F + D) (fh_type : Z) : M state (option Z) :=
  lock ;;
  fh ← alloc_fh fh_type;
  if fh =? 0 then mret None
  else
    a ← gets brk;
    modify (set_brk (a + 1)) ;;
    put_obj a (mkOpen f path fh) ;;
    t ← table;
    modify (set_tab (match t !! fh with Some _ => t | None => <[fh := a]> t end)) ;;
    unlock ;;
    mret (Some a).

Definition del_open_file (fh : Z) : M state Z :=
  lock ;;
  t ← table;
  match t !! fh with
  | None => mret FAILURE
  | Some a =>
      obj a ;;
      modify (fun s => set_heap (delete a (heap s)) s) ;;
      modify (set_tab (delete fh t)) ;;
      unlock ;;
      mret 0
  end.

(** ** Times *)
Definition touch_file (path : bytes) (dmod mmod : bool) (f : option F) : M state (Z * option F) :=
  if negb dmod && negb mmod then mret (0, f)
  else
    t ← call get_s;
    let m := if dmod then u32 t else 0 in
    let c := if mmod then u32 t else 0 in
    '(r, f) ← call (ext4_all_time_set path m c f);
    mret (if r =? EOK then 0 else FAILURE, f).

(** With the file of an open file. *)
Definition touch_open (a : Z) (path : bytes) (dmod mmod : bool) : M state Z :=
  o ← obj a;
  '(r, f) ← touch_file path dmod mmod (Some (as_file o));
  (match f with Some f => put_obj a (with_file f o) | None => mret () end) ;;
  mret r.

(** ** Set-up *)
Definition do_lwext4_init : M state Z :=
  (if 0 <? n then mret () else die Abort_called) ;;
  on_dev (modify (Ext4Dev.set_seen (Some []))) ;;
  modify (set_tab ∅) ;;
  on_dev (Ext4Dev.on_layer (getKey ;; modify (set_curr_par (Some (zeros BFS_HMAC_LEN))))) ;;
  modify (set_next_fh START_FD) ;;
  modify (set_next_dfh (1000000 + START_FD)) ;;
  modify (set_mux false) ;;
  put_status INITIALIZED ;;
  mret 0.

Definition do_lwext4_mkfs : M state Z :=
  st ← get_status;
  if negb (st =? INITIALIZED) then mret FAILURE
  else
    put_status FORMATTING ;;
    r ← call (ext4_mkfs journal);
    if negb (r =? EOK) then mret FAILURE
    else
      r ← call ext4_mkfs_read_info;
      if negb (r =? EOK) then mret FAILURE
      else put_status FORMATTED ;; mret 0.

(** The failures of the library return [false], which is zero. *)
Definition do_lwext4_mount : M state Z :=
  st ← get_status;
  if negb (st =? FORMATTED) then mret FAILURE
  else
    r ← call ext4_device_register;
    if negb (r =? EOK) then mret 0
    else
      r ← call ext4_mount;
      if negb (r =? EOK) then mret 0
      else
        put_status MOUNTED ;;
        r ← call ext4_mount_setup_locks;
        if negb (r =? EOK) then mret 0
        else
          r ← call ext4_recover;
          if negb (r =? EOK) && negb (r =? ENOTSUP) then mret 0
          else
            r ← call ext4_journal_start;
            if negb (r =? EOK) then mret 0
            else call (ext4_cache_write_back true) ;; mret 0.

(** Destroying a mutex that is held fails. *)
Definition do_lwext4_destroy : M state Z :=
  on_dev (modify (Ext4Dev.set_seen None)) ;;
  put_status UNINITIALIZED ;;
  l ← gets open_file_tab_mux;
  if (l : bool) then die Abort_called else mret 0.

(** ** Attributes *)

(** The variables of the caller. *)
Record attr := mkAttr { a_ino : Z; a_mode : Z; a_size : Z; a_times : Z * Z * Z }.

Definition attr_of (path : bytes) (f : F) (v : attr) : M state (Z * attr) :=
  let v := mkAttr (f_inode f) (a_mode v) (f_fsize f) (a_times v) in
  '(r, m) ← call (ext4_mode_get path f (a_mode v));
  let v := mkAttr (a_ino v) m (a_size v) (a_times v) in
  if negb (r =? EOK) then mret (r, v)
  else
    '(q, t) ← call (ext4_all_time_get path f (a_times v));
    let v := mkAttr (a_ino v) (a_mode v) (a_size v) t in
    if negb (q =? 0) then mret (r, v) else mret (0, v).

(** A file or, when it cannot be opened as one, a directory. *)
Definition do_lwext4_getattr (path : bytes) (v : attr) : M state (Z * attr) :=
  '(r, f) ← call (ext4_fopen path);
  if negb (r =? EOK) then
    '(r, d) ← call (ext4_dir_open path);
    if negb (r =? EOK) then mret (r, v) else attr_of path (d_file d) v
  else attr_of path f v.

Definition do_lwext4_chmod (path : bytes) (mode : Z) : M state Z :=
  '(r, _) ← call (ext4_mode_set path mode None);
  if negb (r =? EOK) then mret r
  else
    '(q, _) ← touch_file path false true None;
    if negb (q =? 0) then mret FAILURE else mret 0.

(** ** Names *)
Definition do_lwext4_mkdir (path : bytes) (mode : Z) : M state Z :=
  '(r, f) ← call (ext4_dir_mk path);
  if negb (r =? EOK) then mret r
  else
    '(r, f) ← call (ext4_mode_set path mode (Some f));
    if negb (r =? EOK) then mret r
    else
      '(q, _) ← touch_file path true true f;
      if negb (q =? 0) then mret FAILURE else mret 0.

Definition do_lwext4_unlink (path : bytes) : M state Z :=
  r ← call (ext4_fremove path);
  if negb (r =? EOK) then mret r else mret 0.

Definition do_lwext4_rmdir (path : bytes) : M state Z :=
  r ← call (ext4_dir_rm path);
  if negb (r =? EOK) then mret r else mret 0.

(** The table is walked in the order of the handles. *)
Definition opened_as (path : bytes) (h : gmap Z open_file) (e : Z * Z) : Prop :=
  exists o, h !! e.2 = Some o /\ of_path o = path.

#[local] Instance opened_as_dec path h e : Decision (opened_as path h e).
Proof.
  refine (match h !! e.2 as o return h !! e.2 = o -> _ with
          | Some o => fun E => cast_if (decide (of_path o = path))
          | None => fun E => right _ end eq_refl); unfold opened_as.
  - by exists o.
  - intros (o'&?&?). congruence.
  - intros (o'&?&?). congruence.
Defined.

Definition by_handle (x y : Z * Z) : Prop := x.1 <= y.1.
#[local] Instance by_handle_dec : RelDecision by_handle.
Proof. unfold by_handle. solve_decision. Defined.

Definition first_opened (path : bytes) (t : gmap Z Z) (h : gmap Z open_file) : option (Z * Z) :=
  list_find (opened_as path h) (merge_sort by_handle (map_to_list t)) ≫= fun x => Some x.2.

(** The first open file of that name gets the new one, before the file itself. *)
Definition rename_open (fpath tpath : bytes) : M state (option Z) :=
  lock ;;
  t ← table;
  h ← gets heap;
  opn ← (match first_opened fpath t h with
         | Some (_, a) =>
             o ← obj a; put_obj a (mkOpen (of_f o) tpath (of_fh o)) ;; mret (Some a)
         | None => mret None
         end);
  unlock ;;
  mret opn.

Definition do_lwext4_rename (fpath tpath : bytes) : M state Z :=
  opn ← rename_open fpath tpath;
  r ← call (ext4_inode_exist tpath EXT4_DE_REG_FILE);
  r ← (if r =? EOK then call (ext4_fremove tpath) else mret EOK);
  if negb (r =? EOK) then mret r
  else
    r ← call (ext4_frename fpath tpath);
    if negb (r =? EOK) then mret r
    else
      q ← (match opn with
           | Some a => touch_open a tpath false true
           | None => '(q, _) ← touch_file tpath false true None; mret q
           end);
      if negb (q =? 0) then mret FAILURE else mret 0.

(** ** Opening and closing *)

(** A handle is returned as an [int]. *)
Definition to_int (z : Z) : Z := (z + 2 ^ 31) mod 2 ^ 32 - 2 ^ 31.

Definition set_mode_of (a mode : Z) : M state Z :=
  o ← obj a;
  '(r, f) ← call (ext4_mode_set (of_path o) mode (Some (as_file o)));
  (match f with Some f => put_obj a (with_file f o) | None => mret () end) ;;
  mret r.

Definition do_lwext4_create (path : bytes) (mode : Z) : M state Z :=
  '(r, f) ← call (ext4_fopen2 path O_CREAT);
  if negb (r =? EOK) then mret r
  else
    opn ← init_open_file path (inl f) 0;
    match opn with
    | None => mret FAILURE
    | Some a =>
        r ← set_mode_of a mode;
        if negb (r =? EOK) then mret r
        else
          o ← obj a;
          q ← touch_open a (of_path o) true true;
          if negb (q =? 0) then mret FAILURE else mret (to_int (of_fh o))
    end.

Definition do_lwext4_open (path : bytes) (mode : Z) : M state Z :=
  e ← call (ext4_inode_exist path EXT4_DE_REG_FILE);
  exists_ ← (if e =? 0 then mret true else d ← call (ext4_inode_exist path EXT4_DE_DIR); mret (d =? 0));
  '(r, f) ← call (ext4_fopen2 path O_RDWR);
  if negb (r =? EOK) then mret r
  else
    opn ← init_open_file path (inl f) 0;
    match opn with
    | None => mret FAILURE
    | Some a =>
        o ← obj a;
        if negb exists_ then
          q ← touch_open a (of_path o) true true;
          if negb (q =? 0) then mret FAILURE
          else
            r ← set_mode_of a mode;
            if negb (r =? EOK) then mret r else mret (to_int (of_fh o))
        else
          q ← touch_open a (of_path o) false false;
          if negb (q =? 0) then mret FAILURE else mret (to_int (of_fh o))
    end.

Definition do_lwext4_opendir (path : bytes) : M state Z :=
  '(r, d) ← call (ext4_dir_open path);
  if negb (r =? EOK) then mret r
  else
    opn ← init_open_file path (inr d) 1;
    match opn with
    | None => mret FAILURE
    | Some a =>
        o ← obj a;
        q ← touch_open a (of_path o) false false;
        if negb (q =? 0) then mret FAILURE else mret (to_int (of_fh o))
    end.

(** What [__do_lwext4_release] does with the open file at [a]: 0 once it was
    deleted. *)
Definition close_open_file (fh a : Z) : M state Z :=
  r ← (if 1000000 + START_FD <=? fh
       then on_dir a ext4_dir_close
       else on_file a ext4_fclose);
  if negb (r =? EOK) then mret r
  else
    o ← obj a;
    q ← touch_open a (of_path o) false false;
    if negb (q =? 0) then mret FAILURE
    else
      r ← del_open_file (of_fh o);
      if negb (r =? 0) then mret FAILURE else mret 0.

(** The message that is logged at the end takes the handle from the open file,
    which was freed. *)
Definition do_lwext4_release (fh : Z) : M state Z :=
  a ← find_open_file fh;
  r ← close_open_file fh a;
  if negb (r =? 0) then mret r else obj a ;; mret 0.

(** ** Data *)
Definition do_lwext4_fsync (fh : Z) : M state Z :=
  a ← find_open_file fh;
  o ← obj a;
  r ← call (ext4_cache_flush (of_path o));
  if negb (r =? EOK) then mret r
  else
    q ← touch_open a (of_path o) false false;
    if negb (q =? 0) then mret FAILURE else mret 0.

Definition do_lwext4_ftruncate (path : bytes) (fh len : Z) : M state Z :=
  a ← find_open_file fh;
  r ← on_file a (fun f => ext4_ftruncate f len);
  if negb (r =? EOK) then mret r
  else
    '(q, _) ← touch_file path true true None;
    if negb (q =? 0) then mret FAILURE else mret 0.

(** A read behind the end is one at the end. *)
Definition do_lwext4_read (fh rsize off : Z) : M state (Z * bytes) :=
  a ← find_open_file fh;
  o ← obj a;
  let size := f_fsize (as_file o) in
  let new_off := if off <=? size then off else size in
  r ← on_file a (fun f => ext4_fseek f new_off);
  if negb (r =? EOK) then mret (r, [])
  else
    '(r, d) ← on_file a (fun f => x ← ext4_fread f rsize; mret (x.1, x.2));
    if negb (r =? EOK) then mret (r, [])
    else
      q ← touch_open a (of_path o) false false;
      if negb (q =? 0) then mret (FAILURE, d) else mret (to_int (zlen d), d).

(** The gap behind the end of the file is filled by a write of its own, from a
    buffer that is not set.  A size that does not fit an [int] gives no buffer. *)
Fixpoint do_lwext4_write (fuel : nat) (fh : Z) (buf : bytes) (off : Z) : M state Z :=
  match fuel with
  | O => die Out_of_fuel
  | S fuel =>
      a ← find_open_file fh;
      o ← obj a;
      let size := f_fsize (as_file o) in
      filled ← (if size <? off then
                  let hole_size := to_int (off - size) in
                  if hole_size <? 0 then die Undefined_behaviour
                  else
                    r ← do_lwext4_write fuel fh (junk hole_size) size;
                    if negb (r =? hole_size) then mret false
                    else
                      o ← obj a;
                      assert_ (f_fsize (as_file o) =? off) ;;
                      mret true
                else mret true);
      if negb filled then mret FAILURE
      else
        r ← on_file a (fun f => ext4_fseek f off);
        if negb (r =? EOK) then mret r
        else
          '(r, out) ← on_file a (fun f => x ← ext4_fwrite f buf; mret (x.1, x.2));
          if negb (r =? EOK) then mret r
          else
            q ← touch_open a (of_path o) true false;
            if negb (q =? 0) then mret FAILURE else mret (to_int out)
  end.

(** ** Listing *)
Definition slash : Byte.byte := Byte.x2f.
Definition dot : bytes := String.list_byte_of_string ".".
Definition dotdot : bytes := String.list_byte_of_string "..".
Definition lost_found : bytes := String.list_byte_of_string "lost+found".

(** The path of an entry. *)
Definition entry_path (par name : bytes) : bytes :=
  par ++ (if decide (last par = Some slash) then [] else [slash]) ++ name.

(** The entries so far are in [ents]; the variables keep their values from one
    entry to the next. *)
Fixpoint readdir_loop (fuel : nat) (a : Z) (v : attr) (ents : list DirEntry.t) : M state (Z * list DirEntry.t) :=
  match fuel with
  | O => die Out_of_fuel
  | S fuel =>
      de ← on_dir a ext4_dir_entry_next;
      match de with
      | None => mret (0, ents)
      | Some de =>
          o ← obj a;
          '(r, v) ← (if decide (d_name de = dot \/ d_name de = dotdot \/ d_name de = lost_found) then
                       '(r, m) ← call (ext4_mode_get (of_path o) (as_file o) (a_mode v));
                       mret (r, mkAttr (d_inode de) m (f_fsize (as_file o)) (a_times v))
                     else do_lwext4_getattr (entry_path (of_path o) (d_name de)) v);
          if negb (r =? 0) then mret (r, ents)
          else
            assert_ (a_ino v =? d_inode de) ;;
            let '(at_, mt, ct) := a_times v in
            readdir_loop fuel a v (ents ++ [DirEntry.ctor (d_name de) (a_ino v) 0 0 (a_mode v) (a_size v) at_ mt ct])
      end
  end.

Definition do_lwext4_readdir (fuel : nat) (fh : Z) : M state (Z * list DirEntry.t) :=
  a ← find_open_file fh;
  '(r, ents) ← readdir_loop fuel a (mkAttr 0 0 0 (stack, stack, stack)) [];
  if negb (r =? 0) then mret (r, ents)
  else
    o ← obj a;
    q ← touch_open a (of_path o) false false;
    if negb (q =? 0) then mret (FAILURE, ents) else mret (0, ents).
End ops.
End Ext4Ops.
