(* ===== verification/Ext4OpsSpec.v ===== *)
(** * The table of open files of the lwext4 backend

    For any library: the handles stay distinct and of the right kind, no
    operation waits for its own lock or uses an object that was freed, as long
    as handles are valid and there is room for new ones; and what happens
    otherwise. *)
From S2P Require Import Prelude Layout CoreTypes SecAssoc BlockLayer FsLayer SecBlock Ext4Dev Ext4Ops.
From stdpp Require Import sorting.
#[local] Open Scope Z_scope.

Module Ext4OpsSpec.
Import Ext4Ops.

(** A call that returns or throws. *)
Definition quiet {W A} (m : M W A) : Prop := forall x c, m x <> Crash c.

(** The calls of the library end. *)
Class QuietLib (W F D : Type) `{Lwext4 W F D} := {
  q_fopen p : quiet (ext4_fopen p);
  q_fopen2 p o : quiet (ext4_fopen2 p o);
  q_fclose f : quiet (ext4_fclose f);
  q_fseek f o : quiet (ext4_fseek f o);
  q_fread f k : quiet (ext4_fread f k);
  q_fwrite f d : quiet (ext4_fwrite f d);
  q_ftruncate f k : quiet (ext4_ftruncate f k);
  q_fremove p : quiet (ext4_fremove p);
  q_frename p q : quiet (ext4_frename p q);
  q_inode_exist p t : quiet (ext4_inode_exist p t);
  q_mode_get p f m : quiet (ext4_mode_get p f m);
  q_mode_set p m f : quiet (ext4_mode_set p m f);
  q_all_time_get p f t : quiet (ext4_all_time_get p f t);
  q_all_time_set p m c f : quiet (ext4_all_time_set p m c f);
  q_cache_flush p : quiet (ext4_cache_flush p);
  q_dir_open p : quiet (ext4_dir_open p);
  q_dir_close d : quiet (ext4_dir_close d);
  q_dir_mk p : quiet (ext4_dir_mk p);
  q_dir_rm p : quiet (ext4_dir_rm p);
  q_dir_entry_next d : quiet (ext4_dir_entry_next d)
}.
#[export] Hint Resolve q_fopen q_fopen2 q_fclose q_fseek q_fread q_fwrite q_ftruncate q_fremove q_frename q_inode_exist
  q_mode_get q_mode_set q_all_time_get q_all_time_set q_cache_flush q_dir_open q_dir_close q_dir_mk q_dir_rm
  q_dir_entry_next : quiet.

Lemma quiet_map {W A B} (m : M W A) (g : A -> B) : quiet m -> quiet (x ← m; mret (g x)).
Proof. intros Hq x c. specialize (Hq x). unfold mbind, M_bind. destruct (m x); [done..|]. by destruct (Hq c0). Qed.
#[export] Hint Resolve quiet_map : quiet.

Section table.
Context `{Cipher} {C : Type} `{BlkCache C} {L F D : Type}.
Abbreviation W := (@world C L).
Context `{!Lwext4 W F D} `{!QuietLib W F D}.
Context (get_s : M W Z) (q_get_s : quiet get_s) (junk : Z -> bytes) (stack : Z).
Abbreviation st := (@state C L F D).
Implicit Types s : st.

(** ** The invariant *)
Definition dir_fd : Z := 1000000 + START_FD.

(** The handle of an open file tells whether it is a directory. *)
Definition typed s (o : @open_file F D) : Prop :=
  match of_f o with inl _ => START_FD <= of_fh o < next_fh s | inr _ => dir_fd <= of_fh o < next_dfh s end.

Definition entry s (fh a : Z) (o : @open_file F D) : Prop :=
  exists t, open_file_tab s = Some t /\ t !! fh = Some a /\ heap s !! a = Some o.

Definition tab_ok s : Prop :=
  open_file_tab_mux s = false /\ START_FD <= next_fh s <= dir_fd /\ dir_fd <= next_dfh s < 2 ^ 63 /\
  (forall a, brk s <= a -> heap s !! a = None) /\
  exists t, open_file_tab s = Some t /\ Z.of_nat (size t) <= MAX_OPEN_FILES /\
    forall fh a, t !! fh = Some a -> exists o, heap s !! a = Some o /\ of_fh o = fh /\ typed s o.

(** ** Running the handlers

    What holds of the result; an exception of the library leaves the table in
    order, and only a failed assertion ends the process. *)
Definition wp {A} (m : M st A) (Q : A -> st -> Prop) s : Prop :=
  match m s with
  | Ok a s' => Q a s'
  | Throw _ s' => tab_ok s'
  | Crash c => c = Assertion_failed \/ c = Out_of_fuel
  end.

Lemma wp_bind {A B} (m : M st A) (k : A -> M st B) Q s : wp m (fun a => wp (k a) Q) s -> wp (m ≫= k) Q s.
Proof. unfold wp, mbind, M_bind. by destruct (m s). Qed.

Lemma wp_ret {A} (a : A) Q s : Q a s -> wp (mret a) Q s.
Proof. done. Qed.

Lemma wp_mono {A} (m : M st A) (Q Q' : A -> st -> Prop) s : (forall a s', Q a s' -> Q' a s') -> wp m Q s -> wp m Q' s.
Proof. unfold wp. destruct (m s); auto. Qed.

Lemma wp_assert b (Q : () -> st -> Prop) s : (b = true -> Q () s) -> wp (assert_ b) Q s.
Proof. unfold wp, assert_. destruct b; [|by left]. intros HQ. by apply HQ. Qed.

Lemma wp_call {A} (m : M W A) Q s :
  quiet m -> tab_ok s -> (forall a x, tab_ok (set_w x s) -> Q a (set_w x s)) -> wp (call m) Q s.
Proof.
  intros Hq Hs HQ. unfold wp, call. specialize (Hq (w s)). destruct (m (w s)); [by apply HQ|done|by destruct (Hq c)].
Qed.

Lemma wp_obj fh a o Q s : entry s fh a o -> Q o s -> wp (obj a) Q s.
Proof. intros (t&_&_&Ho) HQ. unfold wp, obj, mbind, M_bind, gets. by rewrite Ho. Qed.

(** An open file keeps its handle and its kind. *)
Definition same_kind (o o' : @open_file F D) : Prop :=
  of_fh o' = of_fh o /\ match of_f o, of_f o' with inl _, inl _ | inr _, inr _ => True | _, _ => False end.

Lemma with_file_kind f o : same_kind o (with_file f o).
Proof. unfold same_kind, with_file. cbn. by destruct (of_f o). Qed.

Lemma put_obj_ok s fh a o o' :
  tab_ok s -> entry s fh a o -> same_kind o o' ->
  tab_ok (set_heap (<[a := o']> (heap s)) s) /\ entry (set_heap (<[a := o']> (heap s)) s) fh a o'.
Proof.
  intros (Hm&Hn&Hd&Hb&t&Ht&Hz&Hall) (t'&Ht'&Ha&Ho) [Hfh Hk]. simplify_eq. split.
  - do 3 (split; [done|]). split.
    + intros a' Ha'. cbn in *. destruct (decide (a' = a)) as [->|]; [rewrite Hb in Ho by done; done|].
      rewrite lookup_insert_ne by done. by apply Hb.
    + exists t. do 2 (split; [done|]). intros fh' a' Hfh'. cbn. destruct (decide (a' = a)) as [->|].
      * rewrite lookup_insert_eq. exists o'. destruct (Hall fh' a Hfh') as (o2&?&?&Hty). simplify_eq.
        split_and!; [done|congruence|]. unfold typed in *. cbn. rewrite Hfh. by destruct (of_f o), (of_f o').
      * rewrite lookup_insert_ne by done. by apply Hall.
  - exists t. cbn. by rewrite lookup_insert_eq.
Qed.

Lemma wp_put_obj fh a o o' (Q : () -> st -> Prop) s :
  tab_ok s -> entry s fh a o -> same_kind o o' -> (forall s', tab_ok s' -> entry s' fh a o' -> Q () s') -> wp (put_obj a o') Q s.
Proof. intros Hs He Hk HQ. destruct (put_obj_ok s fh a o o' Hs He Hk). by apply HQ. Qed.

Lemma wp_on_file {A} fh a o (c : F -> M W (A * F)) (Q : A -> st -> Prop) s :
  tab_ok s -> entry s fh a o -> quiet (c (as_file o)) ->
  (forall r f s', tab_ok s' -> entry s' fh a (with_file f o) -> Q r s') -> wp (on_file a c) Q s.
Proof.
  intros Hs He Hq HQ. unfold on_file. apply wp_bind. apply (wp_obj fh a o); [done|]. apply wp_bind.
  apply wp_call; [done|done|]. intros [r f] x Hx. apply wp_bind.
  apply (wp_put_obj fh a o); [done|exact He|apply with_file_kind|]. intros s' Hs' He'. apply wp_ret. by eapply HQ.
Qed.

Lemma wp_on_dir {A} fh a d p h (c : D -> M W (A * D)) (Q : A -> st -> Prop) s :
  tab_ok s -> entry s fh a (mkOpen (inr d) p h) -> quiet (c d) ->
  (forall r d' s', tab_ok s' -> entry s' fh a (mkOpen (inr d') p h) -> Q r s') -> wp (on_dir a c) Q s.
Proof.
  intros Hs He Hq HQ. unfold on_dir. apply wp_bind. apply (wp_obj fh a (mkOpen (inr d) p h)); [done|]. cbn. apply wp_bind.
  apply wp_call; [done|done|]. intros [r d'] x Hx. apply wp_bind.
  apply (wp_put_obj fh a (mkOpen (inr d) p h)); [done|exact He|done|]. intros s' Hs' He'. apply wp_ret. by eapply HQ.
Qed.

Lemma wp_touch_file p dm mm f (Q : Z * option F -> st -> Prop) s :
  tab_ok s -> (forall r f' x, tab_ok (set_w x s) -> Q (r, f') (set_w x s)) -> wp (touch_file get_s p dm mm f) Q s.
Proof.
  intros Hs HQ. unfold touch_file. destruct (negb dm && negb mm).
  - apply wp_ret. specialize (HQ 0 f (w s)). destruct s. by apply HQ.
  - apply wp_bind, wp_call; [done|done|]. intros t x Hx. apply wp_bind, wp_call; [auto with quiet|done|].
    intros [r f'] y Hy. apply wp_ret. by apply (HQ _ _ y).
Qed.

(** The result of a call that may update the file of an open file. *)
Lemma wp_store_file fh a o (f : option F) (Q : () -> st -> Prop) s :
  tab_ok s -> entry s fh a o ->
  (forall o' s', tab_ok s' -> entry s' fh a o' -> of_path o' = of_path o -> of_fh o' = of_fh o -> Q () s') ->
  wp (match f with Some f => put_obj a (with_file f o) | None => mret () end) Q s.
Proof.
  intros Hs He HQ. destruct f as [f|]; [|apply wp_ret; by eapply HQ].
  apply (wp_put_obj fh a o); [done|done|apply with_file_kind|]. intros s' Hs' He'. by eapply HQ.
Qed.

Lemma wp_touch_open fh a o p dm mm (Q : Z -> st -> Prop) s :
  tab_ok s -> entry s fh a o ->
  (forall r o' s', tab_ok s' -> entry s' fh a o' -> of_path o' = of_path o -> of_fh o' = of_fh o -> Q r s') ->
  wp (touch_open get_s a p dm mm) Q s.
Proof.
  intros Hs He HQ. unfold touch_open. apply wp_bind. apply (wp_obj fh a o); [done|]. apply wp_bind, wp_touch_file; [done|].
  intros r f x Hx. apply wp_bind. apply (wp_store_file fh a o); [done|exact He|].
  intros o' s' Hs' He' Hp Hf. apply wp_ret. by eapply HQ.
Qed.

Lemma wp_set_mode_of fh a o mode (Q : Z -> st -> Prop) s :
  tab_ok s -> entry s fh a o ->
  (forall r o' s', tab_ok s' -> entry s' fh a o' -> of_path o' = of_path o -> of_fh o' = of_fh o -> Q r s') ->
  wp (set_mode_of a mode) Q s.
Proof.
  intros Hs He HQ. unfold set_mode_of. apply wp_bind. apply (wp_obj fh a o); [done|].
  apply wp_bind, wp_call; [auto with quiet|done|]. intros [r f] x Hx. apply wp_bind.
  apply (wp_store_file fh a o); [done|exact He|]. intros o' s' Hs' He' Hp Hf. apply wp_ret. by eapply HQ.
Qed.

(** ** Handles *)
Lemma find_entry fh a o s : tab_ok s -> entry s fh a o -> find_open_file fh s = Ok a s.
Proof.
  intros Hs (t&Ht&Ha&Ho). pose proof Hs as (Hm&_). unfold find_open_file, lock, table, mbind, M_bind, gets. cbn.
  rewrite Hm. cbn. rewrite Ht. cbn. rewrite Ha. cbn. destruct s. cbn in *. by subst.
Qed.

Lemma wp_find fh a o (Q : Z -> st -> Prop) s : tab_ok s -> entry s fh a o -> Q a s -> wp (find_open_file fh) Q s.
Proof. intros Hs He HQ. unfold wp. by rewrite (find_entry fh a o s Hs He). Qed.

(** Room for one more handle. *)
Definition room s (dir : bool) : Prop :=
  (exists t, open_file_tab s = Some t /\ Z.of_nat (size t) < MAX_OPEN_FILES) /\
  (if dir then next_dfh s + 1 < 2 ^ 63 else next_fh s < dir_fd).

Definition fd_type (f : F + D) : Z := match f with inl _ => 0 | inr _ => 1 end.
Definition is_dir (f : F + D) : bool := match f with inl _ => false | inr _ => true end.
Definition next_of s (dir : bool) : Z := if dir then next_dfh s else next_fh s.

(** The state after an open file was added. *)
Definition added s (path : bytes) (f : F + D) (t : gmap Z Z) : st :=
  let fh := next_of s (is_dir f) in
  mkState (w s) (Some (<[fh := brk s]> t)) (<[brk s := mkOpen f path fh]> (heap s)) (brk s + 1) false
    (if is_dir f then next_fh s else fh + 1) (if is_dir f then fh + 1 else next_dfh s).

Lemma handle_fresh s t dir : tab_ok s -> open_file_tab s = Some t -> room s dir -> t !! next_of s dir = None.
Proof.
  intros (_&Hn&Hd&_&t'&Ht'&_&Hall) Ht [_ Hr]. rewrite Ht in Ht'. simplify_eq.
  destruct (t' !! next_of s dir) as [a|] eqn:Ha; [|done]. destruct (Hall _ _ Ha) as (o&_&Hfh&Hty).
  unfold typed in Hty. rewrite Hfh in Hty. destruct dir, (of_f o); cbn in *; lia.
Qed.

Lemma init_run s t path f :
  tab_ok s -> open_file_tab s = Some t -> room s (is_dir f) ->
  init_open_file path f (fd_type f) s = Ok (Some (brk s)) (added s path f t).
Proof.
  intros Hs Ht Hr. pose proof (handle_fresh s t (is_dir f) Hs Ht Hr) as Hfr.
  pose proof Hs as (Hm&Hn&Hd&_). destruct Hr as [(t'&Ht'&Hz) Hroom]. rewrite Ht in Ht'. simplify_eq.
  assert (u64 (next_of s (is_dir f) + 1) = next_of s (is_dir f) + 1) as Hu.
  { apply u64_small. unfold START_FD, dir_fd in *. destruct (is_dir f); cbn; lia. }
  assert ((Z.of_nat (size t') =? MAX_OPEN_FILES) = false) as Hne by (apply Z.eqb_neq; lia).
  assert ((next_of s (is_dir f) =? 0) = false) as Hn0.
  { apply Z.eqb_neq. unfold START_FD, dir_fd in *. destruct (is_dir f); cbn; lia. }
  unfold init_open_file, lock, alloc_fh, table, put_obj, unlock, added. unfold mbind, M_bind, gets, modify. cbn.
  rewrite Hm. cbn. rewrite Ht. cbn. rewrite Hne. destruct f as [f|d]; cbn in *; rewrite Hu, Hn0; cbn; rewrite Ht; cbn; by rewrite Hfr.
Qed.

Lemma added_ok s t path f :
  tab_ok s -> open_file_tab s = Some t -> room s (is_dir f) ->
  tab_ok (added s path f t) /\ entry (added s path f t) (next_of s (is_dir f)) (brk s) (mkOpen f path (next_of s (is_dir f))).
Proof.
  intros Hs Ht Hr. pose proof (handle_fresh s t (is_dir f) Hs Ht Hr) as Hfr.
  destruct Hs as (Hm&Hn&Hd&Hb&t0&Ht0&_&Hall). destruct Hr as [(t'&Ht'&Hz) Hroom]. rewrite Ht in Ht', Ht0. simplify_eq. split.
  - split; [done|]. do 2 (split; [cbn; destruct (is_dir f); cbn in *; lia|]). split.
    + intros a Ha. cbn in *. rewrite lookup_insert_ne by lia. apply Hb. lia.
    + eexists. split; [done|]. split; [rewrite map_size_insert_None by done; lia|].
      intros fh a Ha. cbn. destruct (decide (fh = next_of s (is_dir f))) as [->|Hne].
      * rewrite lookup_insert_eq in Ha. simplify_eq. rewrite lookup_insert_eq. eexists. split_and!; [done..|].
        unfold typed, added. cbn. destruct f; cbn in *; unfold dir_fd in *; lia.
      * rewrite lookup_insert_ne in Ha by done. destruct (Hall fh a Ha) as (o&Ho&Hfh&Hty).
        exists o. rewrite lookup_insert_ne; [|intros <-; rewrite Hb in Ho by lia; done]. split_and!; [done..|].
        unfold typed in *. cbn. destruct (of_f o), (is_dir f); cbn in *; lia.
  - eexists. split_and!; [done|by rewrite lookup_insert_eq|by cbn; rewrite lookup_insert_eq].
Qed.

Lemma wp_init path f (Q : option Z -> st -> Prop) s :
  tab_ok s -> room s (is_dir f) ->
  (forall a s', let fh := next_of s (is_dir f) in tab_ok s' -> entry s' fh a (mkOpen f path fh) -> Q (Some a) s') ->
  wp (init_open_file path f (fd_type f)) Q s.
Proof.
  intros Hs Hr HQ. pose proof Hr as [(t&Ht&_) _]. unfold wp. rewrite (init_run s t path f Hs Ht Hr).
  destruct (added_ok s t path f Hs Ht Hr). by apply HQ.
Qed.

Lemma wp_del fh a o (Q : Z -> st -> Prop) s :
  tab_ok s -> entry s fh a o -> (forall s', tab_ok s' -> heap s' !! a = None -> Q 0 s') ->
  wp (del_open_file fh) Q s.
Proof.
  intros Hs (t&Ht&Ha&Ho) HQ. pose proof Hs as (Hm&Hn&Hd&Hb&t'&Ht'&Hz&Hall). rewrite Ht in Ht'. simplify_eq.
  unfold wp, del_open_file, lock, table, obj, unlock, mbind, M_bind, gets, modify. cbn. rewrite Hm. cbn. rewrite Ht. cbn.
  rewrite Ha. cbn. rewrite Ho. cbn. apply HQ; [|apply lookup_delete_eq]. split; [done|]. do 2 (split; [done|]). split.
  - intros a' Ha'. cbn in *. destruct (decide (a' = a)) as [->|]; [apply lookup_delete_eq|]. rewrite lookup_delete_ne by done. by apply Hb.
  - eexists. split; [done|]. split.
    + rewrite map_size_delete, Ha. cbn. lia.
    + intros fh' a' [Hne Ha']%lookup_delete_Some. destruct (Hall fh' a' Ha') as (o'&Ho'&Hfh'&Hty).
      exists o'. cbn. rewrite lookup_delete_ne; [done|]. intros <-.
      destruct (Hall fh a Ha) as (o2&Ho2&Hfh2&_). congruence.
Qed.

Lemma entry_fh s fh a o : tab_ok s -> entry s fh a o -> of_fh o = fh /\ typed s o.
Proof.
  intros (_&_&_&_&t&Ht&_&Hall) (t'&Ht'&Ha&Ho). rewrite Ht in Ht'. simplify_eq.
  destruct (Hall fh a Ha) as (o'&Ho'&?&?). by simplify_eq.
Qed.

Lemma wp_rename_open fpath tpath (Q : option Z -> st -> Prop) s :
  tab_ok s -> (forall r s', tab_ok s' -> (forall a, r = Some a -> exists fh o, entry s' fh a o) -> Q r s') ->
  wp (rename_open fpath tpath) Q s.
Proof.
  intros Hs HQ. pose proof Hs as (Hm&Hn&Hd&Hb&t&Ht&Hz&Hall).
  unfold wp, rename_open, lock, table, obj, put_obj, unlock, mbind, M_bind, gets, modify. cbn. rewrite Hm. cbn. rewrite Ht. cbn.
  destruct (first_opened fpath t (heap s)) as [[fh a]|] eqn:Hf; cbn.
  - assert (t !! fh = Some a) as Ha.
    { unfold first_opened in Hf. destruct (list_find _ _) as [[i e]|] eqn:Hl; [|done]. cbn in Hf. simplify_eq.
      apply list_find_Some in Hl as (Hl&_). apply list_elem_of_lookup_2 in Hl. rewrite merge_sort_Permutation in Hl.
      by apply elem_of_map_to_list in Hl. }
    destruct (Hall fh a Ha) as (o&Ho&_). rewrite Ho. cbn.
    destruct (put_obj_ok s fh a o (mkOpen (of_f o) tpath (of_fh o)) Hs) as [Hs' He'];
      [by exists t|unfold same_kind; cbn; by destruct (of_f o)|].
    unfold set_heap in Hs', He'. rewrite Hm in Hs', He'. apply HQ; [exact Hs'|]. intros ? [= <-]. eauto.
  - apply HQ; [|done]. destruct s. cbn in *. by subst.
Qed.

(** ** Every operation *)
Inductive op :=
  | OGetattr (p : bytes) (v : attr)
  | OMkdir (p : bytes) (mode : Z)
  | OUnlink (p : bytes)
  | ORmdir (p : bytes)
  | ORename (p q : bytes)
  | OChmod (p : bytes) (mode : Z)
  | OCreate (p : bytes) (mode : Z)
  | OOpen (p : bytes) (mode : Z)
  | OOpendir (p : bytes)
  | ORelease (fh : Z)
  | OFsync (fh : Z)
  | OTruncate (p : bytes) (fh len : Z)
  | ORead (fh size off : Z)
  | OWrite (fh : Z) (buf : bytes) (off : Z)
  | OReaddir (fuel : nat) (fh : Z).

Definition run (o : op) : M st () :=
  match o with
  | OGetattr p v => do_lwext4_getattr p v ;; mret ()
  | OMkdir p mode => do_lwext4_mkdir get_s p mode ;; mret ()
  | OUnlink p => do_lwext4_unlink p ;; mret ()
  | ORmdir p => do_lwext4_rmdir p ;; mret ()
  | ORename p q => do_lwext4_rename get_s p q ;; mret ()
  | OChmod p mode => do_lwext4_chmod get_s p mode ;; mret ()
  | OCreate p mode => do_lwext4_create get_s p mode ;; mret ()
  | OOpen p mode => do_lwext4_open get_s p mode ;; mret ()
  | OOpendir p => do_lwext4_opendir get_s p ;; mret ()
  | ORelease fh => do_lwext4_release get_s fh ;; mret ()
  | OFsync fh => do_lwext4_fsync get_s fh ;; mret ()
  | OTruncate p fh len => do_lwext4_ftruncate get_s p fh len ;; mret ()
  | ORead fh size off => do_lwext4_read get_s fh size off ;; mret ()
  | OWrite fh buf off => do_lwext4_write get_s junk 2 fh buf off ;; mret ()
  | OReaddir fuel fh => do_lwext4_readdir get_s stack fuel fh ;; mret ()
  end.

(** The handle is in the table, a directory where one is needed, and a gap has a
    size that fits. *)
Definition fits s (o : op) : Prop :=
  match o with
  | OCreate _ _ | OOpen _ _ => room s false
  | OOpendir _ => room s true
  | ORelease fh | OFsync fh | OTruncate _ fh _ | ORead fh _ _ => exists a o, entry s fh a o
  | OWrite fh _ off => exists a o, entry s fh a o /\ (f_fsize (as_file o) < off -> 0 <= to_int (off - f_fsize (as_file o)))
  | OReaddir _ fh => exists a d p, entry s fh a (mkOpen (inr d) p fh)
  | _ => True
  end.

(** The rules, where no choice is to be made. *)
Ltac wgo :=
  repeat (cbn beta iota; match goal with
    | |- wp (_ ≫= _) _ _ => apply wp_bind
    | |- wp (call _) _ _ => apply wp_call; [auto with quiet|done|intros ? ? ?]
    | |- wp (touch_file _ _ _ _ _) _ _ => apply wp_touch_file; [done|intros ? ? ? ?]
    | |- wp (let '(_, _) := ?p in _) _ _ => destruct p
    | |- wp (if ?b then _ else _) _ _ => destruct b
    | |- wp (mret _) _ _ => apply wp_ret; try done
    end).

Lemma wp_attr_of p f v (Q : Z * attr -> st -> Prop) s :
  tab_ok s -> (forall r x, tab_ok (set_w x s) -> Q r (set_w x s)) -> wp (attr_of p f v) Q s.
Proof. intros Hs HQ. unfold attr_of. wgo; apply wp_ret; by apply HQ. Qed.

Lemma wp_getattr p v (Q : Z * attr -> st -> Prop) s :
  tab_ok s -> (forall r x, tab_ok (set_w x s) -> Q r (set_w x s)) -> wp (do_lwext4_getattr p v) Q s.
Proof.
  intros Hs HQ. unfold do_lwext4_getattr. wgo; try (apply wp_ret; by apply HQ).
  all: apply wp_attr_of; [done|]; intros r' y Hy; by apply HQ.
Qed.

Abbreviation done_ok := (fun _ => tab_ok).

Lemma wp_rename p q s : tab_ok s -> wp (do_lwext4_rename get_s p q) done_ok s.
Proof.
  intros Hs. unfold do_lwext4_rename. apply wp_bind. apply wp_rename_open; [done|]. intros opn s1 Hs1 He.
  apply wp_bind, wp_call; [auto with quiet|done|]. intros r x Hx. apply wp_bind.
  assert (forall r' y, tab_ok (set_w y s1) -> wp
    (if negb (r' =? EOK) then mret r'
     else r0 ← call (ext4_frename p q);
          if negb (r0 =? EOK) then mret r0
          else q0 ← match opn with
                    | Some a => touch_open get_s a q false true
                    | None => '(q0, _) ← touch_file get_s q false true None; mret q0
                    end;
               (if negb (q0 =? 0) then mret FAILURE else mret 0)) done_ok (set_w y s1)) as Hrest.
  { intros r' y Hy. destruct (negb (r' =? EOK)); [done|]. apply wp_bind, wp_call; [auto with quiet|done|].
    intros r0 z Hz. destruct (negb (r0 =? EOK)); [done|]. apply wp_bind. destruct opn as [a|].
    - destruct (He a eq_refl) as (fh&o&Ho). apply (wp_touch_open fh a o); [done|exact Ho|]. intros. by wgo.
    - by wgo. }
  destruct (r =? EOK); [|by apply Hrest]. apply wp_call; [auto with quiet|done|]. intros r' y Hy. by apply Hrest.
Qed.

(** What follows the creation of an open file. *)
Lemma wp_create p mode s : tab_ok s -> room s false -> wp (do_lwext4_create get_s p mode) done_ok s.
Proof.
  intros Hs Hr. unfold do_lwext4_create. wgo. apply (wp_init p (inl _)); [done|exact Hr|]. intros a s1 fh Hs1 He1.
  apply wp_bind. apply (wp_set_mode_of fh a _ _ _ _ Hs1 He1). intros r o s2 Hs2 He2 _ _. wgo.
  apply (wp_obj fh a o); [done|]. apply wp_bind. apply (wp_touch_open fh a o); [done..|]. intros. by wgo.
Qed.

Lemma wp_open p mode s : tab_ok s -> room s false -> wp (do_lwext4_open get_s p mode) done_ok s.
Proof.
  intros Hs Hr. unfold do_lwext4_open. apply wp_bind, wp_call; [auto with quiet|done|]. intros e x Hx. apply wp_bind.
  assert (forall b y, tab_ok (set_w y s) -> wp
    ('(r, f) ← call (ext4_fopen2 p O_RDWR);
     if negb (r =? EOK) then mret r
     else
       opn ← init_open_file p (inl f) 0;
       match opn with
       | None => mret FAILURE
       | Some a =>
           o ← obj a;
           if negb b then
             q ← touch_open get_s a (of_path o) true true;
             if negb (q =? 0) then mret FAILURE
             else r ← set_mode_of a mode; (if negb (r =? EOK) then mret r else mret (to_int (of_fh o)))
           else
             q ← touch_open get_s a (of_path o) false false;
             (if negb (q =? 0) then mret FAILURE else mret (to_int (of_fh o)))
       end) done_ok (set_w y s)) as Hrest.
  { intros b y Hy. apply wp_bind, wp_call; [auto with quiet|done|]. intros [r f] z Hz.
    destruct (negb (r =? EOK)); [done|]. apply wp_bind. apply (wp_init p (inl f)); [done|exact Hr|].
    intros a s1 fh Hs1 He1. apply wp_bind. apply (wp_obj fh a _ _ _ He1). destruct b; cbn [negb]; apply wp_bind.
    - apply (wp_touch_open fh a _ _ _ _ _ _ Hs1 He1). intros. by wgo.
    - apply (wp_touch_open fh a _ _ _ _ _ _ Hs1 He1). intros q o s2 Hs2 He2 _ _. wgo.
      apply (wp_set_mode_of fh a o); [done..|]. intros. by wgo. }
  destruct (e =? 0); [by apply Hrest|]. apply wp_bind, wp_call; [auto with quiet|done|]. intros d y Hy. by apply Hrest.
Qed.

Lemma wp_opendir p s : tab_ok s -> room s true -> wp (do_lwext4_opendir get_s p) done_ok s.
Proof.
  intros Hs Hr. unfold do_lwext4_opendir. wgo. apply (wp_init p (inr _)); [done|exact Hr|]. intros a s1 fh Hs1 He1.
  apply wp_bind. apply (wp_obj fh a _ _ _ He1). apply wp_bind. apply (wp_touch_open fh a _ _ _ _ _ _ Hs1 He1). intros. by wgo.
Qed.

Lemma wp_close fh a o s : tab_ok s -> entry s fh a o ->
  wp (close_open_file get_s fh a) (fun r s' => tab_ok s' /\ (r = 0 -> heap s' !! a = None)) s.
Proof.
  intros Hs He. destruct (entry_fh s fh a o Hs He) as [Hfh Hty]. unfold close_open_file. apply wp_bind.
  assert (forall r o' s', tab_ok s' -> entry s' fh a o' -> wp
    (if negb (r =? EOK) then mret r
     else
       o ← obj a; q ← touch_open get_s a (of_path o) false false;
       if negb (q =? 0) then mret FAILURE
       else r ← del_open_file (of_fh o); (if negb (r =? 0) then mret FAILURE else mret 0))
    (fun r s' => tab_ok s' /\ (r = 0 -> heap s' !! a = None)) s') as Hrest.
  { intros r o' s' Hs' He'. destruct (Z.eqb_spec r EOK) as [|Hr]; cbn [negb]; [|apply wp_ret; by split].
    apply wp_bind. apply (wp_obj fh a o'); [done|].
    apply wp_bind. apply (wp_touch_open fh a o'); [done..|]. intros q o2 s2 Hs2 He2 _ _.
    destruct (negb (q =? 0)); [by apply wp_ret|]. apply wp_bind. destruct (entry_fh s' fh a o' Hs' He') as [-> _].
    apply (wp_del fh a o2); [done..|]. intros s3 Hs3 Hn. by apply wp_ret. }
  destruct (Z.leb_spec (1000000 + START_FD) fh).
  - destruct o as [[f|d] p h]; cbn in *.
    + destruct Hs as (_&Hn&_). unfold typed in Hty. cbn in Hty. unfold dir_fd in *. lia.
    + apply (wp_on_dir fh a d p h); [done..|auto with quiet|]. intros. by eapply Hrest.
  - apply (wp_on_file fh a o); [done..|auto with quiet|]. intros. by eapply Hrest.
Qed.

(** A release that got as far as its last message: the open file at [a] is gone. *)
Definition released (o : op) s : Prop :=
  exists fh a f s', o = ORelease fh /\ entry s fh a f /\ close_open_file get_s fh a s = Ok 0 s' /\
    tab_ok s' /\ heap s' !! a = None.

Lemma release_run fh a o s : tab_ok s -> entry s fh a o ->
  match run (ORelease fh) s with
  | Ok _ s' | Throw _ s' => tab_ok s'
  | Crash c => c = Assertion_failed \/ c = Out_of_fuel \/ c = Undefined_behaviour /\ released (ORelease fh) s
  end.
Proof.
  intros Hs He. pose proof (wp_close fh a o s Hs He) as Hw. pose proof (find_entry fh a o s Hs He) as Hf.
  unfold wp in Hw. cbn [run]. unfold do_lwext4_release, mbind, M_bind. rewrite Hf.
  destruct (close_open_file get_s fh a s) as [r s'|e s'|c] eqn:Hc; [|done|tauto].
  destruct Hw as [Hs' Hn]. destruct (Z.eqb_spec r 0) as [->|]; [|done]. specialize (Hn eq_refl). cbn [negb].
  assert (obj a s' = Crash Undefined_behaviour) as Hobj by (unfold obj, mbind, M_bind, gets; cbn; by rewrite Hn).
  rewrite Hobj. do 2 right. split; [done|]. exists fh, a, o, s'. auto.
Qed.

Lemma wp_read fh a o k off s : tab_ok s -> entry s fh a o -> wp (do_lwext4_read get_s fh k off) done_ok s.
Proof.
  intros Hs He. unfold do_lwext4_read. apply wp_bind. apply (wp_find fh a o); [done..|]. apply wp_bind.
  apply (wp_obj fh a o); [done|]. apply wp_bind. apply (wp_on_file fh a o); [done..|auto with quiet|].
  intros r f s1 Hs1 He1. destruct (negb (r =? EOK)); [done|]. apply wp_bind.
  apply (wp_on_file fh a (with_file f o)); [done..|auto with quiet|]. intros [r' d] f' s2 Hs2 He2.
  destruct (negb (r' =? EOK)); [done|]. apply wp_bind. apply (wp_touch_open fh a _ _ _ _ _ _ Hs2 He2). intros. by wgo.
Qed.

(** The write itself, once there is no gap. *)
Lemma wp_write_at fh a o p buf off s :
  tab_ok s -> entry s fh a o -> wp
    (r ← on_file a (fun f => ext4_fseek f off);
     if negb (r =? EOK) then mret r
     else
       '(r, out) ← on_file a (fun f => x ← ext4_fwrite f buf; mret (x.1, x.2));
       if negb (r =? EOK) then mret r
       else
         q ← touch_open get_s a p true false;
         if negb (q =? 0) then mret FAILURE else mret (to_int out))
    (fun _ s' => tab_ok s' /\ exists o', entry s' fh a o') s.
Proof.
  intros Hs He. apply wp_bind. apply (wp_on_file fh a o); [done..|auto with quiet|].
  intros r f s1 Hs1 He1. destruct (negb (r =? EOK)); [apply wp_ret; eauto|]. apply wp_bind.
  apply (wp_on_file fh a (with_file f o)); [done..|auto with quiet|]. intros [r' out] f' s2 Hs2 He2.
  destruct (negb (r' =? EOK)); [apply wp_ret; eauto|]. apply wp_bind. apply (wp_touch_open fh a _ _ _ _ _ _ Hs2 He2).
  intros q o' s3 Hs3 He3 _ _. destruct (negb (q =? 0)); apply wp_ret; eauto.
Qed.

Lemma wp_write_no_gap fuel fh a o buf off s :
  tab_ok s -> entry s fh a o -> off <= f_fsize (as_file o) ->
  wp (do_lwext4_write get_s junk (S fuel) fh buf off) (fun _ s' => tab_ok s' /\ exists o', entry s' fh a o') s.
Proof.
  intros Hs He Hoff. cbn [do_lwext4_write]. apply wp_bind. apply (wp_find fh a o); [done..|]. apply wp_bind.
  apply (wp_obj fh a o); [done|]. destruct (Z.ltb_spec (f_fsize (as_file o)) off); [lia|]. apply wp_bind, wp_ret. cbn [negb].
  by apply (wp_write_at fh a o).
Qed.

Lemma wp_write fh a o buf off s :
  tab_ok s -> entry s fh a o -> (f_fsize (as_file o) < off -> 0 <= to_int (off - f_fsize (as_file o))) ->
  wp (do_lwext4_write get_s junk 2 fh buf off) done_ok s.
Proof.
  intros Hs He Hfit. destruct (Z.ltb_spec (f_fsize (as_file o)) off) as [Hlt|Hge].
  2:{ eapply wp_mono; [|by apply (wp_write_no_gap 1 fh a o)]. by intros ? ? []. }
  specialize (Hfit Hlt). remember 1%nat as fuel eqn:Hfu. cbn [do_lwext4_write].
  apply wp_bind. apply (wp_find fh a o); [done..|]. apply wp_bind. apply (wp_obj fh a o); [done|].
  rewrite (proj2 (Z.ltb_lt _ _) Hlt). apply wp_bind. destruct (Z.ltb_spec (to_int (off - f_fsize (as_file o))) 0); [lia|].
  apply wp_bind. subst fuel. eapply wp_mono; [|apply (wp_write_no_gap 0 fh a o); [done..|lia]].
  intros r s1 [Hs1 (o1&He1)]. cbn beta. destruct (negb _); [by apply wp_ret|]. apply wp_bind.
  apply (wp_obj fh a o1); [done|]. apply wp_bind, wp_assert. intros _. apply wp_ret. cbn [negb].
  eapply wp_mono; [|by apply (wp_write_at fh a o1)]. by intros ? ? [].
Qed.

Lemma wp_readdir_loop fuel fh a d p v ents s :
  tab_ok s -> entry s fh a (mkOpen (inr d) p fh) ->
  wp (readdir_loop fuel a v ents) (fun _ s' => tab_ok s' /\ exists o', entry s' fh a o') s.
Proof.
  revert d v ents s. induction fuel as [|fuel IH]; intros d v ents s Hs He; [by right|]. cbn [readdir_loop].
  apply wp_bind. apply (wp_on_dir fh a d p fh); [done..|auto with quiet|]. intros [de|] d1 s1 Hs1 He1; [|apply wp_ret; eauto].
  apply wp_bind. apply (wp_obj fh a _ _ _ He1).
  assert (forall r v' x, tab_ok (set_w x s1) -> wp
    (if negb (r =? 0) then mret (r, ents)
     else
       assert_ (a_ino v' =? d_inode de) ;;
       let '(at_, mt, ct) := a_times v' in
       readdir_loop fuel a v' (ents ++ [DirEntry.ctor (d_name de) (a_ino v') 0 0 (a_mode v') (a_size v') at_ mt ct]))
    (fun _ s' => tab_ok s' /\ exists o', entry s' fh a o') (set_w x s1)) as Hrest.
  { intros r v' x Hx. destruct (negb (r =? 0)); [apply wp_ret; split; [done|]; by exists (mkOpen (inr d1) p fh)|].
    apply wp_bind, wp_assert. intros _. destruct (a_times v') as [[at_ mt] ct]. by apply (IH d1). }
  apply wp_bind. case_decide.
  - apply wp_bind, wp_call; [auto with quiet|done|]. intros [r m] x Hx. by apply (Hrest r _ x).
  - apply wp_getattr; [done|]. intros [r v'] x Hx. by apply Hrest.
Qed.

(** C23. Whatever the library does, an operation on valid handles leaves the table of
    open files in order, with the lock free: it never waits for the lock, and it
    uses an open file that was freed in one place only, the last log message of a
    release that succeeded, when the table is in order and the open file gone. *)
Theorem lwext4_handles_typed o s :
  tab_ok s -> fits s o ->
  match run o s with
  | Ok _ s' | Throw _ s' => tab_ok s'
  | Crash c => c = Assertion_failed \/ c = Out_of_fuel \/ c = Undefined_behaviour /\ released o s
  end.
Proof.
  intros Hs Hf.
  assert (wp (run o) done_ok s \/ exists fh, o = ORelease fh) as [Hw|(fh&->)].
  3:{ cbn [fits] in Hf. destruct Hf as (a&o&He). by apply (release_run fh a o). }
  2:{ unfold wp in Hw. destruct (run o s); [done|done|tauto]. }
  destruct o; cbn [run fits] in *; try (by right; eauto); left; apply wp_bind.
  - apply wp_getattr; [done|]. intros. by apply wp_ret.
  - unfold do_lwext4_mkdir. by wgo.
  - unfold do_lwext4_unlink. by wgo.
  - unfold do_lwext4_rmdir. by wgo.
  - by apply wp_rename.
  - unfold do_lwext4_chmod. by wgo.
  - by apply wp_create.
  - by apply wp_open.
  - by apply wp_opendir.
  - destruct Hf as (a&o&He). unfold do_lwext4_fsync. apply wp_bind. apply (wp_find fh a o); [done..|]. apply wp_bind.
    apply (wp_obj fh a o); [done|]. wgo. apply (wp_touch_open fh a o); [done|exact He|]. intros. by wgo.
  - destruct Hf as (a&o&He). unfold do_lwext4_ftruncate. apply wp_bind. apply (wp_find fh a o); [done..|]. apply wp_bind.
    apply (wp_on_file fh a o); [done..|auto with quiet|]. intros. by wgo.
  - destruct Hf as (a&o&He). by apply (wp_read fh a o).
  - destruct Hf as (a&o&He&Hfit). by apply (wp_write fh a o).
  - destruct Hf as (a&d&p&He). unfold do_lwext4_readdir. apply wp_bind. apply (wp_find fh a _ _ _ Hs He). apply wp_bind.
    eapply wp_mono; [|by apply (wp_readdir_loop fuel fh a d p)]. intros [r ents] s1 [Hs1 (o1&He1)]. wgo.
    apply (wp_obj fh a o1); [done|]. apply wp_bind. apply (wp_touch_open fh a o1); [done..|]. intros. by wgo.
Qed.

(** ** Where the lock stays held *)

(** The operations that take the lock before anything else. *)
Definition locks_first (o : op) : Prop :=
  match o with
  | ORename _ _ | ORelease _ | OFsync _ | OTruncate _ _ _ | ORead _ _ _ | OWrite _ _ _ | OReaddir _ _ => True
  | _ => False
  end.

Lemma lock_held_blocks o s : open_file_tab_mux s = true -> locks_first o -> run o s = Crash Deadlocked.
Proof.
  intros Hm Ho. assert (forall A (k : () -> M st A), (lock ≫= k) s = Crash Deadlocked) as Hl.
  { intros A k. apply bind_Crash. unfold lock. msteps. by rewrite Hm. }
  assert (forall fh A (k : Z -> M st A), (find_open_file fh ≫= k) s = Crash Deadlocked) as Hfi
    by (intros; apply bind_Crash; apply Hl).
  destruct o; try done; cbn [run]; apply bind_Crash; try apply Hfi. apply bind_Crash, Hl.
Qed.

(** C40. A handle that is not in the table: the exception leaves the lock held, and
    the next operation on an open file waits for it forever, in a caller that
    catches the exception (the server has none). *)
Theorem invalid_handle_deadlocks s t fh k off o :
  tab_ok s -> open_file_tab s = Some t -> t !! fh = None -> locks_first o ->
  exists s', do_lwext4_read get_s fh k off s = Throw std_out_of_range s' /\ run o s' = Crash Deadlocked.
Proof.
  intros (Hm&_) Ht Hno Ho. exists (set_mux true s). split; [|by apply lock_held_blocks].
  unfold do_lwext4_read. apply bind_Throw. unfold find_open_file, lock, table, mbind, M_bind, gets, modify. cbn.
  rewrite Hm. cbn. rewrite Ht. cbn. by rewrite Hno.
Qed.

(** So does a table that is full. *)
Lemma full_table_keeps_lock s t path f :
  tab_ok s -> open_file_tab s = Some t -> Z.of_nat (size t) = MAX_OPEN_FILES ->
  init_open_file path f (fd_type f) s = Ok None (set_mux true s).
Proof.
  intros (Hm&_) Ht Hz. unfold init_open_file, lock, alloc_fh, table. unfold mbind, M_bind, gets, modify. cbn.
  rewrite Hm. cbn. rewrite Ht. cbn. by rewrite (proj2 (Z.eqb_eq _ _) Hz).
Qed.

(** ** Mounting *)

(** A device that cannot be mounted is reported as mounted. *)
Theorem mount_failure_reported_as_success s x y r :
  status (Ext4Dev.layer (dev (w s))) = FORMATTED -> ext4_device_register (w s) = Ok EOK x -> ext4_mount x = Ok r y -> r <> EOK ->
  do_lwext4_mount s = Ok 0 (set_w y s).
Proof.
  intros Hst Hreg Hm Hr. unfold do_lwext4_mount.
  assert (get_status s = Ok FORMATTED s) as Hg.
  { unfold get_status, on_dev, call, Ext4Dev.get_status, gets. rewrite <-Hst. destruct s as [[? ?]]. done. }
  mrun Hg. cbn [negb Z.eqb FORMATTED Pos.eqb].
  assert (call ext4_device_register s = Ok EOK (set_w x s)) as Hc1 by (unfold call; by rewrite Hreg). mrun Hc1. cbn [negb Z.eqb EOK].
  assert (call ext4_mount (set_w x s) = Ok r (set_w y s)) as Hc2 by (unfold call; cbn; by rewrite Hm). mrun Hc2.
  by rewrite (proj2 (Z.eqb_neq _ _) Hr).
Qed.
End table.
End Ext4OpsSpec.
