(* ===== verification/Ext4Data.v ===== *)
(** * Data through the lwext4 backend

    What the operations of the backend do with the contents of an open file,
    when the library does with them what it should. *)
From S2P Require Import Prelude Layout CoreTypes SecAssoc BlockLayer FsLayer SecBlock Ext4Dev Ext4Ops Ext4OpsSpec.

Module Ext4Data.
Import Ext4Ops Ext4OpsSpec.

(** [b] over the contents [d] from [pos] on. *)
Definition overwrite (pos : Z) (b d : bytes) : bytes :=
  take (Z.to_nat pos) d ++ b ++ drop (Z.to_nat (pos + zlen b)) d.

(** [k] bytes of [d] from [pos] on, as many as there are. *)
Definition slice (pos k : Z) (d : bytes) : bytes := take (Z.to_nat k) (drop (Z.to_nat pos) d).

(** What is used of the library: positions within the size that the structure
    has, reads and writes at the position, and room for files of [limit] bytes.
    A read or a write brings the size in the structure up to date. *)
Class Lwext4Laws (W F D : Type) `{Lwext4 W F D} := {
  f_fpos : F -> Z;
  limit : Z;
  has_data : W -> F -> bytes -> Prop;
  fseek_ok x f d off : has_data x f d -> 0 <= off <= f_fsize f ->
    exists f' x', ext4_fseek f off x = Ok (EOK, f') x' /\ has_data x' f' d /\ f_fpos f' = off /\ f_fsize f' = f_fsize f;
  fread_ok x f d k : has_data x f d -> 0 <= f_fpos f <= zlen d -> 0 <= k ->
    exists f' x', ext4_fread f k x = Ok (EOK, slice (f_fpos f) k d, f') x' /\ has_data x' f' d /\ f_fsize f' = zlen d;
  fwrite_ok x f d b : has_data x f d -> 0 <= f_fpos f <= zlen d -> zlen (overwrite (f_fpos f) b d) <= limit ->
    exists f' x', ext4_fwrite f b x = Ok (EOK, zlen b, f') x' /\ has_data x' f' (overwrite (f_fpos f) b d) /\
      f_fsize f' = zlen (overwrite (f_fpos f) b d);
  time_ok x f d p m c : has_data x f d ->
    exists f' x', ext4_all_time_set p m c (Some f) x = Ok (EOK, Some f') x' /\ has_data x' f' d /\ f_fsize f' = f_fsize f
}.

Section data.
Context `{Cipher} {C : Type} `{BlkCache C} {L F D : Type}.
Abbreviation W := (@world C L).
Context `{!Lwext4 W F D} `{!Lwext4Laws W F D}.
Context (get_s : M W Z) (junk : Z -> bytes).
Context (clock_ok : forall x f d, has_data x f d -> exists t x', get_s x = Ok t x' /\ has_data x' f d).
Context (junk_zlen : forall k, 0 <= k -> zlen (junk k) = k).
Abbreviation st := (@state C L F D).
Implicit Types s : st.

(** The handle is of a file with the contents [d]; [z] is the size that the
    structure has. *)
Definition file_is s (fh a z : Z) (d : bytes) : Prop :=
  open_file_tab_mux s = false /\
  exists f p, entry s fh a (mkOpen (inl f) p fh) /\ has_data (w s) f d /\ f_fsize f = z.

(** The calls of the handlers. *)
Lemma find_run s fh a z d : file_is s fh a z d -> find_open_file fh s = Ok a s.
Proof.
  intros (Hm&f&p&(t&Ht&Ha&_)&_). unfold find_open_file, lock, table, unlock, mbind, M_bind, gets, modify. cbn.
  rewrite Hm. cbn. rewrite Ht. cbn. rewrite Ha. destruct s. cbn in *. by subst.
Qed.

Lemma obj_run s fh a o : entry s fh a o -> obj a s = Ok o s.
Proof. intros (t&_&_&Ho). unfold obj. msteps. by rewrite Ho. Qed.

(** A call on the file of an open file. *)
Lemma on_file_run {A} s fh a f p (c : F -> M W (A * F)) r f' x' d' :
  open_file_tab_mux s = false -> entry s fh a (mkOpen (inl f) p fh) -> c f (w s) = Ok (r, f') x' -> has_data x' f' d' ->
  exists s', on_file a c s = Ok r s' /\ open_file_tab_mux s' = false /\ entry s' fh a (mkOpen (inl f') p fh) /\ w s' = x'.
Proof.
  intros Hm He Hc Hd. eexists. split.
  - unfold on_file. mrun (obj_run _ _ _ _ He). unfold as_file. cbn [of_f].
    assert (call (c f) s = Ok (r, f') (set_w x' s)) as Hr by (unfold call; by rewrite Hc). mrun Hr. reflexivity.
  - destruct He as (t&Ht&Ha&Ho). split_and!; [done| |done]. exists t. cbn. by rewrite lookup_insert_eq.
Qed.

Lemma touch_run s fh a f p q dm mm d :
  open_file_tab_mux s = false -> entry s fh a (mkOpen (inl f) p fh) -> has_data (w s) f d ->
  exists s' f', touch_open get_s a q dm mm s = Ok 0 s' /\ open_file_tab_mux s' = false /\
    entry s' fh a (mkOpen (inl f') p fh) /\ has_data (w s') f' d /\ f_fsize f' = f_fsize f.
Proof.
  intros Hm He Hd. unfold touch_open. mrun (obj_run _ _ _ _ He). unfold as_file. cbn [of_f].
  assert (exists f' x', touch_file get_s q dm mm (Some f) s = Ok (0, Some f') (set_w x' s) /\ has_data x' f' d /\ f_fsize f' = f_fsize f)
    as (f'&x'&Hr&Hd'&Hz).
  { unfold touch_file. destruct (negb dm && negb mm).
    - exists f, (w s). split_and!; [by destruct s|done..].
    - destruct (clock_ok _ _ _ Hd) as (t&x1&Hc&Hd1).
      assert (call get_s s = Ok t (set_w x1 s)) as Hr1 by (unfold call; by rewrite Hc). mrun Hr1.
      destruct (time_ok x1 f d q (if dm then u32 t else 0) (if mm then u32 t else 0) Hd1) as (f'&x2&Ht&Hd2&Hz).
      assert (call (ext4_all_time_set q (if dm then u32 t else 0) (if mm then u32 t else 0) (Some f)) (set_w x1 s)
        = Ok (EOK, Some f') (set_w x2 s)) as Hr2 by (unfold call; cbn; by rewrite Ht).
      mrun Hr2. exists f', x2. by split_and!. }
  mrun Hr. destruct He as (t&Ht&Ha&Ho). eexists _, f'. split; [reflexivity|]. split_and!; try done.
  exists t. cbn. by rewrite lookup_insert_eq.
Qed.

Lemma to_int_small z : 0 <= z < 2 ^ 31 -> to_int z = z.
Proof. intros Hz. unfold to_int. rewrite Z.mod_small; lia. Qed.

Lemma overwrite_zlen pos b d : 0 <= pos <= zlen d -> zlen (overwrite pos b d) = Z.max (zlen d) (pos + zlen b).
Proof.
  intros Hp. unfold overwrite. rewrite !zlen_app. pose proof (zlen_nonneg b). unfold zlen in *.
  rewrite length_take, length_drop. lia.
Qed.

Lemma slice_zlen pos k d : 0 <= k -> zlen (slice pos k d) <= k.
Proof. intros Hk. unfold slice, zlen. rewrite length_take. lia. Qed.

Lemma slice_min pos k d : slice (pos `min` zlen d) k d = slice pos k d.
Proof.
  destruct (Z.min_spec pos (zlen d)) as [[_ ->]|[Hle ->]]; [done|]. unfold slice, zlen in *.
  rewrite !drop_ge by lia. done.
Qed.

(** Seek, write and touch, for an offset within the file. *)
Lemma write_at_run s fh a f p q d buf off :
  open_file_tab_mux s = false -> entry s fh a (mkOpen (inl f) p fh) -> has_data (w s) f d -> f_fsize f = zlen d ->
  0 <= off <= zlen d -> zlen (overwrite off buf d) <= limit -> limit < 2 ^ 31 ->
  exists s',
    (r ← on_file a (fun f => ext4_fseek f off);
     if negb (r =? EOK) then mret r
     else
       '(r, out) ← on_file a (fun f => x ← ext4_fwrite f buf; mret (x.1, x.2));
       if negb (r =? EOK) then mret r
       else
         q ← touch_open get_s a q true false;
         if negb (q =? 0) then mret FAILURE else mret (to_int out)) s = Ok (zlen buf) s' /\
    file_is s' fh a (zlen (overwrite off buf d)) (overwrite off buf d).
Proof.
  intros Hm He Hd Hz Hoff Hlim Hl31. pose proof (overwrite_zlen off buf d Hoff). pose proof (zlen_nonneg buf).
  destruct (fseek_ok (w s) f d off Hd ltac:(lia)) as (f1&x1&Hs1&Hd1&Hp1&Hz1).
  destruct (on_file_run s fh a f p (fun f => ext4_fseek f off) _ _ _ d Hm He Hs1 Hd1) as (s1&Hr1&Hm1&He1&Hw1).
  mrun Hr1. cbn [negb Z.eqb EOK]. subst x1.
  destruct (fwrite_ok (w s1) f1 d buf Hd1) as (f2&x2&Hs2&Hd2&Hz2); [lia|by rewrite Hp1|]. rewrite Hp1 in Hd2, Hz2.
  destruct (on_file_run s1 fh a f1 p (fun f => x ← ext4_fwrite f buf; mret (x.1, x.2)) (EOK, zlen buf) f2 x2
    (overwrite off buf d) Hm1 He1) as (s2&Hr2&Hm2&He2&Hw2); [by mrun Hs2|exact Hd2|].
  mrun Hr2. cbn [negb Z.eqb EOK]. subst x2.
  destruct (touch_run s2 fh a f2 p q true false _ Hm2 He2 Hd2) as (s3&f3&Hr3&Hm3&He3&Hd3&Hz3). mrun Hr3. cbn [negb Z.eqb].
  exists s3. rewrite to_int_small by lia. split; [done|]. split; [done|]. exists f3, p. split_and!; [done..|congruence].
Qed.

(** A write where there is no gap. *)
Lemma write_no_gap fuel s fh a d buf off :
  file_is s fh a (zlen d) d -> 0 <= off <= zlen d -> zlen (overwrite off buf d) <= limit -> limit < 2 ^ 31 ->
  exists s', do_lwext4_write get_s junk (S fuel) fh buf off s = Ok (zlen buf) s' /\
    file_is s' fh a (zlen (overwrite off buf d)) (overwrite off buf d).
Proof.
  intros Hf Hoff Hlim Hl31. cbn [do_lwext4_write]. mrun (find_run s fh a _ d Hf). destruct Hf as (Hm&f&p&He&Hd&Hz).
  mrun (obj_run _ _ _ _ He). unfold as_file at 1. cbn [of_f of_path]. rewrite Hz.
  destruct (Z.ltb_spec (zlen d) off); [lia|]. rewrite bind_ret. cbn [negb]. by eapply write_at_run.
Qed.

(** The contents after a write: what is between the old end and the offset is
    whatever was in the memory. *)
Definition written (off : Z) (buf d : bytes) : bytes :=
  if off <=? zlen d then overwrite off buf d else d ++ junk (off - zlen d) ++ buf.

Lemma overwrite_end buf d : overwrite (zlen d) buf d = d ++ buf.
Proof.
  unfold overwrite, zlen. rewrite Nat2Z.id, take_ge by done. rewrite drop_ge by lia. by rewrite app_nil_r.
Qed.

Lemma written_zlen off buf d : 0 <= off -> zlen (written off buf d) = Z.max (zlen d) (off + zlen buf).
Proof.
  intros Ho. unfold written. destruct (Z.leb_spec off (zlen d)); [apply overwrite_zlen; lia|].
  rewrite !zlen_app, junk_zlen by lia. pose proof (zlen_nonneg buf). lia.
Qed.

Lemma write_run s fh a d buf off :
  file_is s fh a (zlen d) d -> 0 <= off -> zlen (written off buf d) <= limit -> limit < 2 ^ 31 ->
  exists s', do_lwext4_write get_s junk 2 fh buf off s = Ok (zlen buf) s' /\
    file_is s' fh a (zlen (written off buf d)) (written off buf d).
Proof.
  intros Hf Ho Hlim Hl31. pose proof (written_zlen off buf d Ho) as Hzw. pose proof (zlen_nonneg buf). pose proof (zlen_nonneg d).
  unfold written in *. destruct (Z.leb_spec off (zlen d)) as [Hle|Hgt]; [by apply write_no_gap|].
  assert (overwrite (zlen d) (junk (off - zlen d)) d = d ++ junk (off - zlen d)) as Hov by apply overwrite_end.
  assert (zlen (d ++ junk (off - zlen d)) = off) as Hz1 by (rewrite zlen_app, junk_zlen by lia; lia).
  assert (overwrite off buf (d ++ junk (off - zlen d)) = d ++ junk (off - zlen d) ++ buf) as Hov2
    by (rewrite <-Hz1 at 1; by rewrite overwrite_end, <-app_assoc).
  destruct (write_no_gap 0 s fh a d (junk (off - zlen d)) (zlen d) Hf) as (s1&Hr1&Hf1);
    [lia|rewrite Hov, Hz1; lia|done|]. rewrite Hov, Hz1 in Hf1.
  remember 1%nat as fuel eqn:Hfu. cbn [do_lwext4_write]. mrun (find_run s fh a _ d Hf).
  destruct Hf as (Hm&f&p&He&Hd&Hz). mrun (obj_run _ _ _ _ He). cbn [as_file of_f of_path].
  rewrite Hz, (proj2 (Z.ltb_lt _ _) Hgt), !to_int_small by lia. destruct (Z.ltb_spec (off - zlen d) 0); [lia|]. subst fuel.
  rewrite bind_assoc. mrun Hr1. rewrite junk_zlen, Z.eqb_refl by lia. cbn [negb].
  destruct Hf1 as (Hm1&f1&p1&He1&Hd1&Hz1'). rewrite bind_assoc. mrun (obj_run _ _ _ _ He1). cbn [as_file of_f].
  rewrite bind_assoc, bind_assert by (rewrite Hz1'; apply Z.eqb_refl). rewrite bind_ret. cbn [negb].
  rewrite <-Hov2. eapply write_at_run; try done; [by rewrite Hz1|lia|by rewrite Hov2].
Qed.

(** A read starts at the offset or at the end that the structure has, whichever
    comes first, and brings that end up to date. *)
Lemma read_run s fh a z d k off :
  file_is s fh a z d -> 0 <= z <= zlen d -> 0 <= off -> 0 <= k < 2 ^ 31 ->
  exists s', do_lwext4_read get_s fh k off s = Ok (zlen (slice (off `min` z) k d), slice (off `min` z) k d) s' /\
    file_is s' fh a (zlen d) d.
Proof.
  intros Hf Hzd Ho Hk. unfold do_lwext4_read. mrun (find_run s fh a _ d Hf). destruct Hf as (Hm&f&p&He&Hd&Hz).
  mrun (obj_run _ _ _ _ He). cbn [as_file of_f of_path]. rewrite Hz.
  assert ((if off <=? z then off else z) = off `min` z) as -> by (destruct (Z.leb_spec off z); lia).
  destruct (fseek_ok (w s) f d (off `min` z) Hd ltac:(lia)) as (f1&x1&Hs1&Hd1&Hp1&Hz1).
  destruct (on_file_run s fh a f p (fun f => ext4_fseek f (off `min` z)) _ _ _ d Hm He Hs1 Hd1) as (s1&Hr1&Hm1&He1&Hw1).
  mrun Hr1. cbn [negb Z.eqb EOK]. subst x1.
  destruct (fread_ok (w s1) f1 d k Hd1) as (f2&x2&Hs2&Hd2&Hz2); [lia..|]. rewrite Hp1 in Hs2.
  destruct (on_file_run s1 fh a f1 p (fun f => x ← ext4_fread f k; mret (x.1, x.2)) (EOK, slice (off `min` z) k d) f2 x2
    d Hm1 He1) as (s2&Hr2&Hm2&He2&Hw2); [by mrun Hs2|exact Hd2|].
  mrun Hr2. cbn [negb Z.eqb EOK]. subst x2.
  destruct (touch_run s2 fh a f2 p p false false d Hm2 He2 Hd2) as (s3&f3&Hr3&Hm3&He3&Hd3&Hz3). mrun Hr3. cbn [negb Z.eqb].
  exists s3. rewrite to_int_small by (pose proof (slice_zlen (off `min` z) k d); pose proof (zlen_nonneg (slice (off `min` z) k d)); lia).
  split; [done|]. split; [done|]. exists f3, p. split_and!; [done..|congruence].
Qed.

(** ** Theorems *)

(** C22. A write returns the number of its bytes; after it the file holds them at the
    offset, the other bytes as before, and every read returns the bytes that are
    there. *)
Theorem lwext4_write_read s fh a d buf off :
  file_is s fh a (zlen d) d -> 0 <= off -> zlen (written off buf d) <= limit -> limit < 2 ^ 31 ->
  exists s', do_lwext4_write get_s junk 2 fh buf off s = Ok (zlen buf) s' /\
    forall k roff, 0 <= roff -> 0 <= k < 2 ^ 31 ->
    exists s'', do_lwext4_read get_s fh k roff s' =
      Ok (zlen (slice roff k (written off buf d)), slice roff k (written off buf d)) s''.
Proof.
  intros Hf Ho Hlim Hl31. destruct (write_run s fh a d buf off Hf Ho Hlim Hl31) as (s1&Hr1&Hf1).
  exists s1. split; [done|]. intros k roff Hr Hk. pose proof (zlen_nonneg (written off buf d)).
  destruct (read_run s1 fh a _ _ k roff Hf1) as (s2&Hr2&_); [lia..|]. exists s2. by rewrite slice_min in Hr2.
Qed.

(** A handle whose structure has a size from before another handle made the file
    longer reads, for an offset between the two ends, the bytes at the old end. *)
Theorem lwext4_stale_read s fh a z d k off :
  file_is s fh a z d -> 0 <= z < off -> off <= zlen d -> 0 <= k < 2 ^ 31 ->
  exists s', do_lwext4_read get_s fh k off s = Ok (zlen (slice z k d), slice z k d) s'.
Proof.
  intros Hf Hz Ho Hk. destruct (read_run s fh a z d k off Hf) as (s1&Hr1&_); [lia..|].
  rewrite Z.min_r in Hr1 by lia. by exists s1.
Qed.
End data.
End Ext4Data.
