(* ===== verification/Ext4Instances.v ===== *)
(** * Concrete lwext4 devices

    A device of 256 blocks with the toy cipher, at which the theorems on the
    lwext4 device are applied. *)
From Stdlib Require Import Init.Byte.
From S2P Require Import Prelude Layout FlexBuffer SecAssoc BlockLayer FsLayer BlockStore SecBlock SecStore Instances Ext4Dev Ext4Spec Ext4Refine Ext4Life.

Module Ext4Instances.
Import Ext4Dev Ext4Spec Ext4Refine Ext4Life Mounted.

Definition nblk : Z := 256.
Definition st0 : state BoundedCache.t :=
  mkState (mkSec cluster (Some (CryptoKey.setKeyData (zeros 16))) empty_mt None UNINITIALIZED 0) None None ∅.

Lemma st0_raw : raw nblk st0.
Proof. split_and!; [by exists 8|by eexists|done|done|]. intros j. done. Qed.

Lemma apart_small b : 0 <= b < 146 -> apart nblk b.
Proof. intros Hb. unfold apart, nblk, BLK_META_BLK_LOC. change META_PER_BLK with 146. Z.to_euclidean_division_equations; lia. Qed.

Lemma fits_small b ds : blocks ds -> 0 <= b -> b + zlen ds <= 146 -> write_fits nblk b ds.
Proof. intros Hbl Hb Hz. split_and!; [done..|]. intros b' Hb'. apply apart_small. lia. Qed.

(** Two blocks are written and read back. *)
Definition two : list bytes := [blk_of x01; blk_of x02].
Definition buf2 : bytes := zeros (2 * BLK_SZ).
Definition write_read : prog (bret * bytes) := PWrite 3 two (fun _ => PRead 3 2 buf2 PRet).
Definition read_again : prog (bret * bytes) := PRead 4 1 (zeros BLK_SZ) PRet.

Lemma two_blocks : blocks two.
Proof. repeat constructor; apply blk_of_zlen. Qed.

Lemma read_fits_put b ds cnt buf i :
  0 <= b < 2 ^ 64 -> 0 <= cnt -> zlen buf = cnt * BLK_SZ -> i <= b -> b + cnt <= i + zlen ds ->
  read_fits (put_range i ds ∅) b cnt buf.
Proof. intros. split_and!; try lia. right. intros b' Hb'. apply put_range_Some. right. lia. Qed.

Lemma write_read_within : within nblk write_read ∅.
Proof.
  split; [apply fits_small; [exact two_blocks|done|done]|]. split; [|done].
  apply (read_fits_put 3 two 2 buf2 3); [done|done|by apply zlen_zeros|done|done].
Qed.

(** A device that is open and mounted, with the blocks of [write_read]. *)
Lemma mounted_two : exists (s : state BoundedCache.t) m, ext4_ok nblk s (put_range 3 two ∅) /\ holds nblk s m /\ status (layer s) = MOUNTED.
Proof.
  destruct (init_blk_test_Ok nblk st0 st0_raw) as (s1&_&Hok1&_).
  destruct (on_ext4_device_Ok rnd rnd_zlen nblk write_read s1 ∅ Hok1 write_read_within) as (s2&_&Hok2&_).
  destruct Hok2 as (m&l&cp&Hh&Ht&Hk&Hn&_&Hrest).
  exists (set_layer (set_status MOUNTED (layer s2)) s2), m. split_and!; [|exact Hh|done].
  exists m, l, cp. do 4 (split; [done|]). split; [done|exact Hrest].
Qed.

Lemma ext4_device_refines_map_witness : exists (s s' : state BoundedCache.t), ext4_ok nblk s ∅ /\
  on_device rnd nblk write_read s = Ok (BFS_SUCCESS, blk_of x01 ++ blk_of x02) s'.
Proof.
  destruct (init_blk_test_Ok nblk st0 st0_raw) as (s1&_&Hok1&_).
  destruct (ext4_device_refines_map rnd rnd_zlen nblk write_read s1 ∅ Hok1 write_read_within) as (s2&Hr&_).
  exists s1, s2. split; [exact Hok1|]. rewrite Hr. reflexivity.
Defined.

Lemma ext4_session_refines_map_witness : exists s' : state BoundedCache.t,
  session nblk rnd write_read read_again st0 =
    Ok ((BFS_SUCCESS, blk_of x01 ++ blk_of x02), (BFS_SUCCESS, blk_of x02)) s'.
Proof.
  destruct (ext4_session_refines_map nblk rnd rnd_zlen write_read read_again st0 st0_raw write_read_within) as (s'&Hr).
  - split; [|done]. apply (read_fits_put 4 two 1 (zeros BLK_SZ) 3); [done|done|by apply zlen_zeros|done|done].
  - exists s'. rewrite Hr. reflexivity.
Defined.

(** The ciphertext of block 3 is replaced by other bytes. *)
Lemma ext4_read_authentic_witness : exists (s : state BoundedCache.t) m,
  match file_dev_bread true nblk (zeros BLK_SZ) 3 1 (replaced nblk s m) with
  | Ok (BFS_SUCCESS, d') _ => d' = blk_of x01
  | Ok _ _ | Crash Undefined_behaviour | Crash Out_of_fuel => False
  | Throw _ _ | Crash _ => True
  end.
Proof.
  destruct mounted_two as (s&m0&Hok&Hh&Hst). pose proof Hok as (m1&l&cp&Hh1&_&_&_&_&_&_&_&_&_&Hall).
  pose proof (holds_fun nblk s m0 m1 Hh Hh1) as ->.
  destruct (Hall 3 (blk_of x01) eq_refl) as (_&_&mac&(iv&Hsl&_&Hd)&Hl&_).
  exists s, (<[3 := blk_of x07]> m0).
  assert (meta_blk nblk 3 <> 3) as Hne by done.
  assert (forall j, mget (<[3 := blk_of x07]> m0) j = if decide (j = 3) then blk_of x07 else mget m0 j) as Hg
    by (intros j; apply mget_insert).
  apply (ext4_read_authentic nblk s (put_range 3 two ∅) m0 (<[3 := blk_of x07]> m0) 3 (blk_of x01) iv mac (zeros BLK_SZ));
    [done|done|done|reflexivity|by apply zlen_zeros|..].
  - intros j. rewrite Hg. case_decide; [apply blk_of_zlen|apply Hh].
  - by rewrite Hg, decide_False.
  - intros y _ _. by rewrite Hl.
  - intros iv0. rewrite Hg, decide_True by done. cbn. assert (mget m0 3 = Toy.flips (blk_of x01)) as ->.
    { rewrite Hd. cbn. by rewrite Toy.flips_flips. }
    intros Ht. by vm_compute in Ht.
Defined.

Lemma mixed_read_loses_block_witness : exists (s s' : state BoundedCache.t),
  file_dev_bread true nblk (blk_of x05 ++ blk_of x06) 4 2 s = Ok (BFS_SUCCESS, zero_blk ++ blk_of x06) s'.
Proof.
  destruct mounted_two as (s&m0&Hok&_). exists s.
  destruct (mixed_read_loses_block nblk s (put_range 3 two ∅) 4 (blk_of x02) (blk_of x05 ++ blk_of x06) Hok)
    as (s'&Hr); [reflexivity|reflexivity|reflexivity|]. exists s'. rewrite Hr. reflexivity.
Defined.

Lemma mixed_read_uses_unset_tag_witness : exists s : state BoundedCache.t,
  file_dev_bread true nblk (blk_of x05 ++ blk_of x06) 2 2 s = Crash Undefined_behaviour.
Proof.
  destruct mounted_two as (s&m0&Hok&_&Hst). exists s.
  apply (mixed_read_uses_unset_tag nblk s (put_range 3 two ∅) 2 (blk_of x01)); [done|done|done|reflexivity..].
Defined.

(** The last block of the device: its tag is gone after the write. *)
Lemma last_blocks_unreadable_witness : exists (s s' s'' : state BoundedCache.t) e,
  file_dev_bwrite true rnd nblk (blk_of x01) 255 1 s = Ok BFS_SUCCESS s' /\
  file_dev_bread true nblk (zeros BLK_SZ) 255 1 s' = Throw e s''.
Proof.
  destruct mounted_two as (s&m0&Hok&_&Hst).
  destruct (last_blocks_unreadable nblk rnd rnd_zlen s (put_range 3 two ∅) 255 (blk_of x01) (zeros BLK_SZ) Hok Hst)
    as (s'&m'&root&iv&mac&Hr&_&(iv0&Hd)&Hz&[_ Hmac]&Hread); [done|reflexivity|apply blk_of_zlen|].
  assert (mget m' 255 = Toy.flips (blk_of x01)) as Hc by (rewrite Hd; cbn; by rewrite Toy.flips_flips).
  assert (mac = zeros 16) as ->.
  { apply mem_get_Some in Hmac as (_&_&_&_&->). change (Z.to_nat (meta_off 255 + BFS_IV_LEN)) with 3064%nat.
    rewrite drop_app_ge by (unfold zlen, BFS_HMAC_LEN in Hz; lia). replace (length root) with 32%nat by (unfold zlen, BFS_HMAC_LEN in Hz; lia).
    reflexivity. }
  destruct Hread as (e&s''&He); [rewrite Hc; intros Ht; by vm_compute in Ht|]. by exists s, s', s'', e.
Defined.
End Ext4Instances.
