(* ===== verification/Ext4OpsInstances.v ===== *)
(** * A small library behind the lwext4 backend

    A library that keeps files as a map from paths to contents, at which the
    theorems on the operations of the backend are applied. *)
From Stdlib Require Import Init.Byte.
From S2P Require Import Prelude Layout CoreTypes FlexBuffer SecAssoc BlockLayer FsLayer BlockStore SecBlock Instances Ext4Dev Ext4Ops Ext4OpsSpec Ext4Data Ext4Instances.
#[local] Open Scope Z_scope.

Module Ext4OpsInstances.
Import Ext4Ops Ext4OpsSpec Ext4Data.

(** ** The library *)
Record file := mkFile { path : bytes; fsize : Z; fpos : Z }.
Record dir := mkDir { self : file; rest : list direntry }.

Abbreviation files := (gmap bytes bytes).
Abbreviation W := (@world BoundedCache.t files).

Definition ENOENT : Z := 2.
Definition EIO : Z := 5.
Definition EINVAL : Z := 22.
Definition ENOSPC : Z := 28.
Definition max_size : Z := 4096.

Definition put_files (l : files) (x : W) : W := mkWorld (dev x) l.

(** One code, whatever happens. *)
Definition code (z : Z) : M W Z := mret z.

Definition fopen (p : bytes) (create : bool) : M W (Z * file) := fun x =>
  match lib x !! p with
  | Some d => Ok (EOK, mkFile p (zlen d) 0) x
  | None => if create then Ok (EOK, mkFile p 0 0) (put_files (<[p := []]> (lib x)) x) else Ok (ENOENT, mkFile p 0 0) x
  end.

Definition fseek (f : file) (off : Z) : M W (Z * file) :=
  if fsize f <? off then mret (EINVAL, f) else mret (EOK, mkFile (path f) (fsize f) off).

Definition fread (f : file) (k : Z) : M W (Z * bytes * file) := fun x =>
  match lib x !! path f with
  | None => Ok (ENOENT, [], f) x
  | Some d => let b := slice (fpos f) k d in Ok (EOK, b, mkFile (path f) (zlen d) (fpos f + zlen b)) x
  end.

Definition fwrite (f : file) (b : bytes) : M W (Z * Z * file) := fun x =>
  match lib x !! path f with
  | None => Ok (ENOENT, 0, f) x
  | Some d =>
      let d' := overwrite (fpos f) b d in
      if max_size <? zlen d' then Ok (ENOSPC, 0, f) x
      else Ok (EOK, zlen b, mkFile (path f) (zlen d') (fpos f + zlen b)) (put_files (<[path f := d']> (lib x)) x)
  end.

Definition ftruncate (f : file) (k : Z) : M W (Z * file) := fun x =>
  match lib x !! path f with
  | None => Ok (ENOENT, f) x
  | Some d => let d' := take (Z.to_nat k) d in
      Ok (EOK, mkFile (path f) (zlen d') (fpos f)) (put_files (<[path f := d']> (lib x)) x)
  end.

Definition fremove (p : bytes) : M W Z := fun x =>
  match lib x !! p with None => Ok ENOENT x | Some _ => Ok EOK (put_files (delete p (lib x)) x) end.

Definition frename (p q : bytes) : M W Z := fun x =>
  match lib x !! p with
  | None => Ok ENOENT x
  | Some d => Ok EOK (put_files (<[q := d]> (delete p (lib x))) x)
  end.

Definition present (p : bytes) : M W Z := fun x => Ok (if lib x !! p then EOK else ENOENT) x.

(** A device without files is not one. *)
Definition mount : M W Z := fun x => Ok (if decide (lib x = ∅) then EIO else EOK) x.

#[export] Instance toy_lwext4 : Lwext4 W file dir := {
  f_inode f := zlen (path f);
  f_fsize := fsize;
  d_file := self;
  d_set_file f d := mkDir f (rest d);
  ext4_mkfs _ := code EOK;
  ext4_mkfs_read_info := code EOK;
  ext4_device_register := code EOK;
  ext4_mount := mount;
  ext4_mount_setup_locks := code EOK;
  ext4_recover := code ENOTSUP;
  ext4_journal_start := code EOK;
  ext4_cache_write_back _ := mret ();
  ext4_fopen p := fopen p false;
  ext4_fopen2 p o := fopen p (match o with O_CREAT => true | O_RDWR => false end);
  ext4_fclose f := mret (EOK, f);
  ext4_fseek := fseek;
  ext4_fread := fread;
  ext4_fwrite := fwrite;
  ext4_ftruncate := ftruncate;
  ext4_fremove := fremove;
  ext4_frename := frename;
  ext4_inode_exist p _ := present p;
  ext4_mode_get _ _ m := mret (EOK, m);
  ext4_mode_set _ _ f := mret (EOK, f);
  ext4_all_time_get _ _ t := mret (EOK, t);
  ext4_all_time_set _ _ _ f := mret (EOK, f);
  ext4_cache_flush _ := code EOK;
  ext4_dir_open p := mret (EOK, mkDir (mkFile p 0 0) []);
  ext4_dir_close d := mret (EOK, d);
  ext4_dir_mk p := mret (EOK, mkFile p 0 0);
  ext4_dir_rm _ := code EOK;
  ext4_dir_entry_next d := mret (head (rest d), mkDir (self d) (tail (rest d)))
}.

Ltac quiet_tac := intros ? ?; unfold fopen, fseek, fread, fwrite, ftruncate, fremove, frename, present, code, mret, M_ret;
  repeat case_match; done.

#[export] Instance toy_quiet : QuietLib W file dir.
Proof. constructor; intros; cbn; quiet_tac. Qed.

#[export] Instance toy_laws : Lwext4Laws W file dir.
Proof.
  refine {| f_fpos := fpos; limit := max_size; has_data := fun x f d => lib x !! path f = Some d |}.
  - intros x f d off Hd Ho. cbn in *. unfold fseek. destruct (Z.ltb_spec (fsize f) off); [lia|]. by eexists _, _.
  - intros x f d k Hd Hp Hk. cbn. unfold fread. rewrite Hd. by eexists _, _.
  - intros x f d b Hd Hp Hl. cbn. unfold fwrite. rewrite Hd.
    destruct (Z.ltb_spec max_size (zlen (overwrite (fpos f) b d))); [lia|]. eexists _, _. split; [done|].
    cbn. by rewrite lookup_insert_eq.
  - intros x f d p m c Hd. by eexists _, _.
Defined.

(** ** A state with one open file *)
Definition name : bytes := String.list_byte_of_string "/a".
Definition text : bytes := [x61; x62; x63].
Definition clock : M W Z := mret 7.
Definition memory (k : Z) : bytes := repeat x55 (Z.to_nat k).

Definition world1 : W := mkWorld Ext4Instances.st0 {[name := text]}.
Definition open_with (z : Z) : @state BoundedCache.t files file dir :=
  mkState world1 (Some {[3 := 0]}) {[0 := mkOpen (inl (mkFile name z 0)) name 3]} 1 false 4 1000003.

Lemma clock_quiet : quiet clock.
Proof. intros x c. done. Qed.

Lemma memory_zlen k : 0 <= k -> zlen (memory k) = k.
Proof. intros Hk. unfold memory, zlen. rewrite repeat_length. lia. Qed.

Lemma clock_keeps (x : W) (f : file) d : has_data x f d -> exists t x', clock x = Ok t x' /\ has_data x' f d.
Proof. intros Hd. by eexists _, _. Qed.

Lemma open_with_ok z : tab_ok (open_with z).
Proof.
  split; [done|]. do 2 (split; [by vm_compute|]). split.
  - intros a Ha. cbn in *. rewrite lookup_singleton_ne by lia. done.
  - eexists. split; [done|]. split; [by vm_compute|]. intros fh a [<- <-]%lookup_singleton_Some.
    eexists. split; [done|]. by split.
Qed.

Lemma open_with_is z : file_is (open_with z) 3 0 z text.
Proof. split; [done|]. eexists _, name. split; [by eexists|]. by split. Qed.

(** ** The theorems at work *)
Lemma lwext4_handles_typed_witness :
  match run clock memory 0 (OWrite 3 text 5) (open_with 3) with
  | Ok _ s' | Throw _ s' => tab_ok s'
  | Crash c => c = Assertion_failed \/ c = Out_of_fuel \/
      c = Undefined_behaviour /\ released clock (OWrite 3 text 5) (open_with 3)
  end.
Proof.
  apply (lwext4_handles_typed clock clock_quiet memory 0 (OWrite 3 text 5) (open_with 3)); [apply open_with_ok|].
  exists 0. eexists. split; [by eexists|]. intros _. by vm_compute.
Defined.

Lemma invalid_handle_deadlocks_witness : exists s',
  do_lwext4_read clock 9 10 0 (open_with 3) = Throw std_out_of_range s' /\
  run clock memory 0 (ORead 3 10 0) s' = Crash Deadlocked.
Proof. eapply (invalid_handle_deadlocks clock memory 0 (open_with 3)); [apply open_with_ok|done|done|done]. Defined.

Definition formatted : @state BoundedCache.t files file dir :=
  let d := Ext4Instances.st0 in
  mkState (mkWorld (Ext4Dev.set_layer (set_status FORMATTED (Ext4Dev.layer d)) d) ∅) (Some ∅) ∅ 0 false START_FD (1000000 + START_FD).

Lemma mount_failure_reported_as_success_witness : do_lwext4_mount formatted = Ok 0 formatted.
Proof. eapply (mount_failure_reported_as_success formatted); done. Defined.

(** Behind the end of the file: two bytes of the memory, then the text. *)
Lemma lwext4_write_read_witness : exists s' s'',
  do_lwext4_write clock memory 2 3 text 5 (open_with 3) = Ok 3 s' /\
  do_lwext4_read clock 3 100 2 s' = Ok (6, [x63; x55; x55; x61; x62; x63]) s''.
Proof.
  destruct (lwext4_write_read clock memory clock_keeps memory_zlen (open_with 3) 3 0 text text 5 (open_with_is 3)) as (s'&Hw&Hr);
    [done|by vm_compute|by vm_compute|].
  destruct (Hr 100 2) as (s''&Hr'); [done|done|]. exists s', s''. split; [exact Hw|]. rewrite Hr'. reflexivity.
Defined.

(** The file has three bytes; the structure was filled when it had one. *)
Lemma lwext4_stale_read_witness : exists s', do_lwext4_read clock 3 100 2 (open_with 1) = Ok (2, [x62; x63]) s'.
Proof.
  destruct (lwext4_stale_read clock clock_keeps (open_with 1) 3 0 1 text 100 2 (open_with_is 1)) as (s'&Hr); [done..|].
  exists s'. rewrite Hr. reflexivity.
Defined.
End Ext4OpsInstances.
