(* ===== verification/FsInstances.v ===== *)
(** * A small volume

    A concrete file system on a [MemStore]: the root directory with one file
    [/f] whose 524 blocks are allocated, as [mkfs], [mount] and [bfs_create]
    leave it.  The theorems about the file system are applied to it. *)
From Stdlib Require Import Init.Byte.
From S2P Require Import Prelude Layout BfsUtil CoreTypes BlockLayer BlockStore FsAlloc Acl FsDir FsDirSpec FsFile FsOps FsOpsSpec FsCreate FsRemove.

#[export] Existing Instances MemStore.store MemStore.laws.

Module Vol.
Definition user : option User.t := Some (User.ctor 1001).
Definition path_f : bytes := [x2f; x66].
Definition path_g : bytes := [x2f; x67].

Definition root : Inode.t := Inode.mk 2 0 0x41FF 1 0 0 0 0 3 (6313 :: replicate 12 0) false.
Definition file : Inode.t := Inode.mk 8 1001 0x81FF 1 0 0 0 5000 0 (seqZ 6314 13) false.
Definition file_ib : list Z := seqZ 6327 512.
Definition file_vs : list Z := seqZ 6314 12 ++ file_ib.

Definition root_slots : list slot :=
  [([x2e], 2); ([x2e; x2e], 2); (path_f, 8)] ++ replicate 12 ([], 0).

(** Writing into a block the bytes of an inode, of an entry. *)
Definition put_inode (blk : bytes) (i : Inode.t) : bytes :=
  from_option fst blk (Inode.serialize i blk (ITAB_ABSOLUTE_BLK_OFF (Inode.i_no i))).
Definition put_slot (blk : bytes) (ks : nat * slot) : bytes :=
  from_option fst blk (DirEntry.serialize (dentry_at ks.2.1 ks.2.2 0 0) blk (DENTRY_ABSOLUTE_BLK_OFF (Z.of_nat ks.1))).

Definition ibm : bytes := [xff; x01] ++ zeros 4094.
Definition itab : bytes := put_inode (put_inode (zeros BLK_SZ) root) file.
Definition root_blk : bytes := foldl put_slot (zeros BLK_SZ) (imap pair root_slots).
Definition ib_blk : bytes := from_option fst [] (IndirectBlock.serialize file_ib (zeros BLK_SZ) 0).

Definition meta : list (Z * bytes) :=
  [(2, ibm); (3, zero_blk); (4, zero_blk); (5, zero_blk); (6, itab); (6313, root_blk); (6326, ib_blk)].
Definition contents : list (Z * bytes) := meta ++ ((fun v => (v, zero_blk)) <$> file_vs ++ seqZ 6839 600).

Definition disk : MemStore.t := MemStore.mk (list_to_map contents) 8192.
Definition super : SuperBlock.t :=
  SuperBlock.mk BFS_SB_MAGIC BLK_SZ INODE_SZ 8192 1879 NUM_INODES 1354 (NUM_UNRES_INODES - 1) 6314 6839
    ROOT_INO IBITMAP_INO ITABLE_INO JOURNAL_INO FIRST_UNRESERVED_INO FORMATTED false.
Definition vol : fs MemStore.t := mkFs disk super 4 {[3 := OpenFile.mk 8 0]}.

Lemma keys_dup : NoDup contents.*1.
Proof. unfold contents. rewrite fmap_app. vm_decide. Qed.

Lemma has_vol b d : (b, d) ∈ contents -> has vol b d.
Proof. apply (elem_of_list_to_map_1 _ _ _ keys_dup). Qed.

Lemma has_meta b d : (b, d) ∈ meta -> has vol b d.
Proof. intros. apply has_vol. by apply elem_of_app; left. Qed.

Lemma has_zero v : v ∈ file_vs ++ seqZ 6839 600 -> has vol v zero_blk.
Proof. intros Hv. apply has_vol, elem_of_app. right. apply list_elem_of_fmap. by exists v. Qed.

Lemma vol_ok : ok vol.
Proof.
  intros b d Hb%elem_of_list_to_map_2. unfold contents in Hb. apply elem_of_app in Hb as [Hb|Hb].
  - assert (Forall (fun p => bs_valid 8192 p.1 /\ zlen p.2 = BLK_SZ) meta) as Hall by vm_decide.
    rewrite Forall_forall in Hall. apply (Hall _ Hb).
  - apply list_elem_of_fmap in Hb as (v&[= -> ->]&Hv). split; [|done].
    assert (Forall (bs_valid 8192) (file_vs ++ seqZ 6839 600)) as Hall by vm_decide.
    rewrite Forall_forall in Hall. apply (Hall _ Hv).
Qed.

Lemma root_at : inode_at vol 2 root.
Proof. exists itab. split; [apply has_meta; do 4 right; left|]. vm_compute. reflexivity. Qed.

Lemma file_inode : inode_at vol 8 file.
Proof. exists itab. split; [apply has_meta; do 4 right; left|]. vm_compute. reflexivity. Qed.

Lemma root_slots_at : slots root_blk root_slots.
Proof.
  split; [done|]. intros k p Hk. pose proof (lookup_lt_Some _ _ _ Hk) as Hlt. cbn in Hlt.
  do 15 (destruct k as [|k]; [injection Hk as <-; eexists; split; [vm_compute; reflexivity|done]|]). lia.
Qed.

Lemma root_dir : dir_at vol root [6313] [root_slots].
Proof.
  split; [done|vm_decide|repeat constructor; vm_decide|apply NoDup_singleton| | |split; vm_decide].
  - repeat constructor. exists root_blk. split; [|exact root_slots_at]. apply has_meta. do 5 right; left.
  - apply Forall_singleton. vm_decide.
Qed.

Lemma root_search : searchable true vol user 2 root.
Proof. split; [exact root_at|done]. Qed.

Lemma file_opened : opened true vol user 3 8 file.
Proof. split; [by exists 0|]. split; [split; vm_decide|]. split; [exact file_inode|]. split_and!; [done|split; vm_decide|done]. Qed.

Lemma file_data : file_at vol file file_ib file_vs (replicate 524 zero_blk).
Proof.
  split.
  - intros k v Hk Hlt. rewrite <-Hk. do 12 (destruct k as [|k]; [reflexivity|]). lia.
  - intros _. exists 6326, ib_blk. split_and!; [done|apply has_meta; do 6 right; left| | |vm_decide].
    + vm_compute. reflexivity.
    + vm_decide.
  - intros k v Hk Hge. unfold file_vs in Hk. rewrite lookup_app_r in Hk by (rewrite length_seqZ; lia). exact Hk.
  - split; vm_decide.
  - vm_decide.
  - vm_decide.
  - apply Forall2_replicate_r; [done|]. apply Forall_forall. intros v Hv. apply has_zero, elem_of_app. by left.
Qed.

Lemma vol_ibm : ibm_at vol [ibm; zero_blk; zero_blk; zero_blk].
Proof.
  split; [done|]. intros k d Hk.
  do 4 (destruct k as [|k]; [injection Hk as <-; split; [apply has_meta; repeat (left || right)|vm_decide]|]). done.
Qed.

Lemma vol_good : good vol.
Proof. split; [exact vol_ok|vm_decide]. Qed.

Lemma path_f_ok : DirEntry.name_ok path_f.
Proof. split; vm_decide. Qed.

Lemma resolves_f : resolves true vol user path_f (dentry_at path_f 8 6313 2).
Proof.
  right. split_and!; [done|done|].
  eapply (walks_last _ _ _ _ _ _ _ _ _ _ 2%nat); [done|exact root_search|exact root_dir|done].
Qed.

Lemma names_f : names_inode true vol user path_f (dentry_at path_f 8 6313 2) file.
Proof. split_and!; [exact resolves_f|exact file_inode|done|done]. Qed.

Lemma regular_f : regular true vol user path_f (dentry_at path_f 8 6313 2) file.
Proof. split; [exact names_f|]. split; [done|]. split; [vm_decide|]. split; [split; vm_decide|done]. Qed.

Definition root_de : DirEntry.t := dentry_at [slash] 2 6313 0.

Lemma vol_pool : pool vol 526.
Proof.
  split_and!; [vm_decide..|]. intros b Hb. exists zero_blk. apply has_zero, elem_of_app. right.
  apply elem_of_seqZ. change (SuperBlock.next_vbid (sb vol)) with 6839 in Hb. lia.
Qed.

Lemma creates_g : can_create true vol (User.ctor 1001) path_g root_de root [6313] [root_slots]
  [ibm; zero_blk; zero_blk; zero_blk] 9.
Proof.
  split.
  - exact vol_good.
  - vm_decide.
  - split; vm_decide.
  - split_and!; [done|done|]. eapply walks_missing; [exact root_search|exact root_dir|done].
  - split_and!; [left; split; [reflexivity|vm_compute; reflexivity]|exact root_at|done|done].
  - reflexivity.
  - reflexivity.
  - vm_decide.
  - split; vm_decide.
  - exact root_dir.
  - reflexivity.
  - vm_decide.
  - left. left. by eexists.
  - exact vol_ibm.
  - vm_decide.
  - split; [vm_compute; reflexivity|]. intros m Hm.
    assert (Forall (fun m => ibit [ibm; zero_blk; zero_blk; zero_blk] m = Some true) (seqZ 0 9)) as Hall by vm_decide.
    rewrite Forall_forall in Hall. apply Hall, elem_of_seqZ. lia.
  - vm_decide.
  - vm_decide.
  - eexists. exists itab. split; [apply has_meta; do 4 right; left|]. vm_compute. reflexivity.
  - split_and!; vm_decide.
  - exact vol_pool.
  - vm_decide.
Qed.

(** The same volume with the file closed. *)
Definition closed_file : Inode.t := Inode.set_dirty false (Inode.set_ref_cnt 0 file).
Definition closed_itab : bytes := put_inode (put_inode (zeros BLK_SZ) root) closed_file.
Definition closed : fs MemStore.t :=
  mkFs (MemStore.mk (<[6 := closed_itab]> (list_to_map contents)) 8192) super 3 ∅.

Lemma closed_has6 : has closed 6 closed_itab.
Proof. exact (lookup_insert_eq (list_to_map contents : gmap Z bytes) 6 closed_itab). Qed.

Lemma closed_frame : frame (eq 6) vol closed.
Proof.
  split_and!; [|done|].
  - intros b d Hb. change (<[6 := closed_itab]> (list_to_map contents : gmap Z bytes) !! b = Some d) in Hb.
    apply lookup_insert_Some in Hb as [[<- <-]|[_ Hb]]; [split; vm_decide|]. exact (vol_ok b d Hb).
  - intros b d Hne Hb. change (<[6 := closed_itab]> (list_to_map contents : gmap Z bytes) !! b = Some d).
    apply lookup_insert_Some. right. split; [done|exact Hb].
Qed.

Lemma closed_good : good closed.
Proof. split; [apply closed_frame|vm_decide]. Qed.

Lemma closed_search : searchable true closed user 2 root.
Proof. split; [exists closed_itab; split; [exact closed_has6|vm_compute; reflexivity]|done]. Qed.

Lemma closed_dir : dir_at closed root [6313] [root_slots].
Proof. eapply dir_at_frame; [exact closed_frame|vm_decide|exact root_dir]. Qed.

Lemma closed_ib : indirect_at closed closed_file file_ib.
Proof.
  exists 6326. split; [done|]. intros _. exists ib_blk. split; [|vm_compute; reflexivity].
  eapply frame_has; [exact closed_frame|vm_decide|]. apply has_meta. do 6 right; left.
Qed.

Lemma unlinks_f : can_unlink true closed user path_f [] [x66] root_de root [6313] [root_slots] 6313 2 closed_file file_ib ibm.
Proof.
  split.
  - exact closed_good.
  - exact path_f_ok.
  - split_and!; [done|done|vm_decide|by left].
  - left. split; [reflexivity|vm_compute; reflexivity].
  - exact closed_search.
  - split; vm_decide.
  - exact closed_dir.
  - reflexivity.
  - vm_decide.
  - exists closed_itab. split; [exact closed_has6|vm_compute; reflexivity].
  - reflexivity.
  - reflexivity.
  - done.
  - split; vm_decide.
  - vm_decide.
  - eapply frame_has; [exact closed_frame|vm_decide|]. apply has_meta. left.
  - exact closed_ib.
  - split; vm_decide.
  - vm_decide.
Qed.
End Vol.

(** ** The theorems at this volume *)
Lemma inode_table_roundtrip_witness :
  exists s1 s2, write_inode (Inode.set_size 7 Vol.file) bfs_O_SYNC 0 true Vol.vol = Ok () s1 /\
    read_inode 8 s1 = Ok (Inode.set_dirty false (Inode.set_size 7 Vol.file)) s2 /\ inode_at s2 2 Vol.root.
Proof.
  destruct (inode_table_roundtrip Vol.vol (Inode.set_size 7 Vol.file) Vol.file) as (s1&s2&Hw&Hr&_&Ho);
    [exact Vol.vol_ok|split; vm_decide|vm_decide|exact Vol.file_inode|].
  exists s1, s2. split_and!; [exact Hw|exact Hr|]. apply Ho; [done|vm_decide|exact Vol.root_at].
Defined.

Lemma alloc_ino_spec_witness :
  exists n s', alloc_ino Vol.vol = Ok n s' /\ ibit [Vol.ibm; zero_blk; zero_blk; zero_blk] n = Some false.
Proof.
  destruct (proj2 (alloc_ino_spec Vol.vol _ Vol.vol_ok Vol.vol_ibm) ltac:(vm_decide))
    as [(n&s'&blks'&Ha&_&Hb&_)|[Hfull _]].
  - exists n, s'. split; assumption.
  - specialize (Hfull 9 ltac:(vm_decide)). discriminate Hfull.
Defined.

Lemma dealloc_ino_spec_witness :
  exists s', dealloc_ino Vol.file Vol.vol = Ok () s' /\
    SuperBlock.no_inodes_free (sb s') = NUM_UNRES_INODES /\
    SuperBlock.no_dblocks_free (sb s') = 1879 /\ inode_at s' 2 Vol.root.
Proof.
  destruct (dealloc_ino_spec Vol.vol Vol.file Vol.file_ib Vol.ibm Vol.file) as (s'&blk'&Hd&_&_&_&Hi&Hf&Ho).
  - exact Vol.vol_ok.
  - split; vm_decide.
  - vm_decide.
  - done.
  - apply Vol.has_meta. left.
  - exact Vol.file_inode.
  - exists 6326. split; [done|]. intros _. exists Vol.ib_blk. split; [apply Vol.has_meta; do 6 right; left|].
    vm_compute. reflexivity.
  - vm_decide.
  - vm_decide.
  - exists s'. split_and!; [exact Hd|exact Hi|rewrite Hf; vm_decide|]. apply Ho; [done|vm_decide|exact Vol.root_at].
Defined.

Lemma dealloc_ino_out_of_bounds_witness :
  dealloc_ino (Inode.set_i_no 40000 Vol.file) Vol.vol = Crash Undefined_behaviour.
Proof.
  apply (dealloc_ino_out_of_bounds Vol.vol _ zero_blk Vol.vol_ok); [vm_decide|]. apply Vol.has_meta. right; left.
Defined.

Lemma directory_lookup_witness :
  exists t s', check_direct_blks true Vol.user GetDe Vol.path_f (mkSearch false None false 2 0 []) Vol.vol =
    Ok (mkSearch true (Some (dentry_at Vol.path_f 8 6313 2)) false 8 t []) s'.
Proof.
  destruct (directory_lookup true Vol.vol Vol.user 2 Vol.root _ _ Vol.path_f Vol.vol_ok ltac:(vm_decide)
    Vol.root_search Vol.root_dir) as (t&s'&_&Hr). exists t, s'. exact Hr.
Defined.

Lemma directory_listing_witness :
  exists t s', check_direct_blks true Vol.user ReadDir [] (mkSearch false None false 2 0 []) Vol.vol =
    Ok (mkSearch true None true 2 t
          [dentry_at [x2e] 2 6313 0; dentry_at [x2e; x2e] 2 6313 1; dentry_at Vol.path_f 8 6313 2]) s'.
Proof.
  destruct (directory_listing true Vol.vol Vol.user 2 Vol.root _ _ Vol.vol_ok ltac:(vm_decide)
    Vol.root_search Vol.root_dir) as (t&s'&_&Hr&_). exists t, s'. exact Hr.
Defined.

Lemma directory_add_witness :
  exists par' s' vs' sls' v k, add_dentry_to_direct_blks Vol.root 9 Vol.path_g Vol.vol = Ok (true, par') s' /\
    dir_at s' par' vs' sls' /\ lookup_dir Vol.path_g vs' sls' = Some (v, k, 9).
Proof.
  destruct (directory_add Vol.vol Vol.root Vol.root 9 Vol.path_g [6313] [Vol.root_slots])
    as (par'&s'&vs'&sls'&Ha&_&Hd&_&_&(v&k&Hl)&_).
  - exact Vol.vol_ok.
  - vm_decide.
  - exact Vol.root_dir.
  - split; vm_decide.
  - vm_decide.
  - exact Vol.root_at.
  - vm_decide.
  - vm_decide.
  - done.
  - reflexivity.
  - left. left. by eexists.
  - vm_decide.
  - exists par', s', vs', sls', v, k. split_and!; [exact Ha|exact Hd|exact Hl].
Defined.

Lemma walk_fuel_enough_witness :
  walk true 3 Vol.user Vol.path_f 1 2 Vol.vol = walk true 20 Vol.user Vol.path_f 1 2 Vol.vol.
Proof. apply (walk_fuel_enough true Vol.user Vol.path_f 2 19); vm_decide. Defined.

Lemma get_de_resolves_witness :
  (exists s', get_de true Vol.user Vol.path_f Vol.vol = Ok (Some (dentry_at Vol.path_f 8 6313 2)) s') /\
  exists s', get_de true Vol.user Vol.path_g Vol.vol = Ok None s'.
Proof.
  split.
  - destruct (get_de_resolves true Vol.vol Vol.user Vol.path_f (Some (dentry_at Vol.path_f 8 6313 2)))
      as (s'&Hr&_); [exact Vol.vol_ok|vm_decide|done|done| |exists s'; exact Hr].
    eapply (walks_last _ _ _ _ _ _ _ _ _ _ 2%nat); [done|exact Vol.root_search|exact Vol.root_dir|done].
  - destruct (get_de_resolves true Vol.vol Vol.user Vol.path_g None)
      as (s'&Hr&_); [exact Vol.vol_ok|vm_decide|done|done| |exists s'; exact Hr].
    eapply walks_missing; [exact Vol.root_search|exact Vol.root_dir|done].
Defined.

Lemma bfs_read_correct_witness :
  exists s', bfs_read true Vol.user 3 10 4995 Vol.vol = Ok (zeros 5) s'.
Proof.
  destruct (bfs_read_correct true Vol.vol Vol.user 3 8 Vol.file _ _ _ 10 4995 Vol.vol_ok Vol.file_opened Vol.file_data)
    as (s'&Hr&_); [vm_decide..|]. exists s'. rewrite Hr. vm_compute. reflexivity.
Defined.

Lemma bfs_write_read_witness :
  exists s1 s2, bfs_write true Vol.user 3 [x01; x02; x03] 50000 Vol.vol = Ok 3 s1 /\
    bfs_read true Vol.user 3 3 50000 s1 = Ok [x01; x02; x03] s2.
Proof.
  destruct (bfs_write_read true Vol.vol Vol.user 3 8 Vol.file _ _ _ [x01; x02; x03] 50000 Vol.vol_ok
    ltac:(vm_decide) Vol.file_opened Vol.file_data) as (s1&i1&b1&Hw&_&_&_&(s2&Hr)&_); [vm_decide..|].
  exists s1, s2. split; [exact Hw|exact Hr].
Defined.

Lemma bfs_write_max_size_unrecorded_witness :
  exists s1 s2, bfs_write true Vol.user 3 [x01; x02; x03] 2146302 Vol.vol = Ok 2 s1 /\
    bfs_read true Vol.user 3 2141304 5000 s1 = Ok [] s2.
Proof.
  destruct (bfs_write_max_size_unrecorded true Vol.vol Vol.user 3 8 Vol.file _ _ _ [x01; x02; x03] 2146302 Vol.vol_ok
    ltac:(vm_decide) Vol.file_opened Vol.file_data) as (s1&Hw&_&(s2&Hr)); [vm_decide..|].
  exists s1, s2. split; [exact Hw|exact Hr].
Defined.

Lemma chmod_has_no_effect_witness :
  exists s1 s2, bfs_chmod true Vol.user Vol.path_f 0 Vol.vol = Ok () s1 /\
    bfs_getattr true Vol.user Vol.path_f s1 = Ok (1001, 8, 0x81FF, 5000) s2.
Proof.
  destruct (chmod_has_no_effect true Vol.vol Vol.user Vol.path_f _ _ 0 Vol.vol_good Vol.path_f_ok Vol.names_f)
    as (s1&s2&Hc&_&Hg). exists s1, s2. split; [exact Hc|exact Hg].
Defined.

Lemma open_release_witness :
  exists s1 s2, bfs_open true Vol.user Vol.path_f 0 Vol.vol = Ok 4 s1 /\
    bfs_release true Vol.user 4 s1 = Ok () s2 /\ open_file_tab s2 = {[3 := OpenFile.mk 8 0]}.
Proof.
  destruct (open_release true Vol.vol Vol.user Vol.path_f _ _ 0 Vol.vol_good Vol.path_f_ok Vol.regular_f)
    as (s1&s2&Ho&_&_&Hr&Ht&_); [vm_decide|split_and!; vm_decide|].
  exists s1, s2. split_and!; [exact Ho|exact Hr|exact Ht].
Defined.

Lemma bfs_create_spec_witness :
  exists s' i, bfs_create true Vol.user Vol.path_g 0x1FF Vol.vol = Ok 4 s' /\ inode_at s' 9 i /\ inode_at s' 8 Vol.file.
Proof.
  destruct (bfs_create_spec true Vol.vol (User.ctor 1001) Vol.path_g 0x1FF _ _ _ _ _ _ Vol.creates_g) as (s'&nb&blks&Hc&Hcr);
    [vm_decide|]. exists s', (new_file 9 1001 0x1FF nb). split; [exact Hc|]. split; [exact (cr_inode _ _ _ _ _ _ _ _ _ _ _ _ Hcr)|].
  apply (cr_others _ _ _ _ _ _ _ _ _ _ _ _ Hcr); [vm_decide..|exact Vol.file_inode].
Defined.

Lemma create_write_read_witness :
  exists s1 s2 s3, bfs_create true Vol.user Vol.path_g 0x1FF Vol.vol = Ok 4 s1 /\
    bfs_write true Vol.user 4 [x01; x02; x03] 70000 s1 = Ok 3 s2 /\
    bfs_read true Vol.user 4 3 70000 s2 = Ok [x01; x02; x03] s3.
Proof.
  exact (create_write_read true Vol.vol (User.ctor 1001) Vol.path_g 0x1FF _ _ _ _ _ _ [x01; x02; x03] 70000 Vol.creates_g
    ltac:(vm_decide) ltac:(vm_compute; reflexivity) ltac:(vm_decide) ltac:(vm_decide)).
Defined.

Lemma bfs_unlink_spec_witness :
  exists s' sls', bfs_unlink true Vol.user Vol.path_f Vol.closed = Ok () s' /\
    dir_at s' (dropped Vol.root) [6313] sls' /\ lookup_dir Vol.path_f [6313] sls' = None /\
    SuperBlock.no_dblocks_free (sb s') = 1879.
Proof.
  destruct (bfs_unlink_spec true _ _ _ _ _ _ _ _ _ _ _ _ _ _ Vol.unlinks_f) as (s'&blk'&sls'&Hr&Hd&_&Hn&_&_&_&Hf&_).
  exists s', sls'. split_and!; [exact Hr|exact Hd|exact Hn|]. rewrite Hf. vm_decide.
Defined.

(** ** Renaming *)
Definition path_dx : bytes := [x2f; x64; x2f; x78].
Definition long_path : bytes := slash :: replicate 255 x61.

(** [bfs_rename] removes the entry of the source before it looks at the target.
    Renaming [/f] to [/d/x] where [/d] does not exist fails, and afterwards [/f]
    is gone although its inode is still allocated; a target name that is too long,
    which [bfs_create] refuses with an exception, stops the server; renaming to
    [/g] moves the entry. *)
Theorem rename_loses_file :
  match bfs_rename true Vol.user Vol.path_f path_dx Vol.closed with
  | Throw e s =>
      e = BfsServerError "Parent dir does not exist" /\
      match get_de true Vol.user Vol.path_f s with Ok r _ => r = None | _ => False end /\
      match read_inode 8 s with Ok i _ => i = Vol.closed_file | _ => False end
  | _ => False
  end /\
  match bfs_rename true Vol.user Vol.path_f long_path Vol.closed with Crash _ => True | _ => False end /\
  match bfs_create true Vol.user long_path 0x1FF Vol.closed with
  | Throw e _ => e = BfsClientRequestFailedError "File name too long"
  | _ => False
  end /\
  match bfs_rename true Vol.user Vol.path_f Vol.path_g Vol.closed with
  | Ok _ s =>
      match get_de true Vol.user Vol.path_g s with Ok (Some d) _ => DirEntry.ino d = 8 | _ => False end /\
      match get_de true Vol.user Vol.path_f s with Ok r _ => r = None | _ => False end
  | _ => False
  end.
Proof. vm_compute. repeat split. Qed.
