(* ===== verification/MkfsInstances.v ===== *)
(** * Raw volumes

    A store in memory and an encrypted cluster before formatting, at which the
    theorems about [mkfs] and [mount] are applied. *)
From Stdlib Require Import Init.Byte.
From S2P Require Import Prelude Layout BfsUtil CoreTypes SecAssoc BlockLayer FsLayer BlockStore Volume SecBlock SecStore FsAlloc Acl FsDir FsDirSpec FsFile FsOps Mkfs SecVolume Instances.

#[export] Existing Instances MemVolume.store MemVolume.store_laws MemVolume.volume MemVolume.volume_laws.

Definition sb0 : SuperBlock.t := SuperBlock.ctor 0.
Definition user : option User.t := Some (User.ctor 1001).
Definition path_g : bytes := [x2f; x67].

Definition raw_mem : fs MemVolume.t := mkFs (MemVolume.mk (MemStore.mk ∅ 8192) UNINITIALIZED false false) sb0 0 ∅.
Definition raw_sec : fs (sec BoundedCache.t) :=
  mkFs (mkSec Mounted.cluster (Some (CryptoKey.setKeyData (zeros 16))) empty_mt None UNINITIALIZED 0) sb0 0 ∅.

(** While formatting: the tree is there. *)
Definition raw_fmt : fs MemVolume.t := mkFs (MemVolume.mk (MemStore.mk ∅ 8192) FORMATTING true false) sb0 0 ∅.

Lemma raw_sec_ok : sec_raw false (store raw_sec).
Proof.
  split; [|split; [by eexists|split; [done|exists 13; split; [lia|done]]]].
  split; [exact Mounted.cluster_inv|]. split; [|vm_decide].
  intros j Hj. unfold bget. change (vbc (store raw_sec)) with Mounted.cluster.
  rewrite Mounted.cluster_zero by exact Hj. by apply Mounted.zeros_zlen.
Qed.

Lemma mkfs_mount_fresh_witness :
  exists s', boot true 0 raw_mem = Ok () s' /\ inode_at s' ROOT_INO (mounted_root s') /\ has s' 7000 zero_blk.
Proof.
  destruct (mkfs_mount_fresh (B := MemVolume.t) true eq_refl 0 raw_mem) as (s'&Hb&_&_&HN&_&Hi&_&_&Hz&_).
  - apply map_Forall_empty.
  - split; vm_decide.
  - exists s'. split; [exact Hb|]. split; [exact Hi|]. apply Hz; [unfold data_start; rewrite HN|]; vm_decide.
Defined.

Lemma status_guards_witness :
  mkfs true 0 raw_mem = Throw (BfsServerError "Invalid server status in mkfs [!=INITIALIZED]") raw_mem /\
  mount true raw_mem = Throw (BfsServerError "Trying to mount from incorrect fs state.") raw_mem.
Proof. destruct (status_guards true 0 raw_mem) as [Hm Hn]. split; [apply Hm|apply Hn]; vm_decide. Defined.

Lemma encrypted_create_write_read_witness :
  exists s0 s1 s2 s3 : fs (sec BoundedCache.t), let _ := sec_store false Mounted.rnd in let _ := sec_volume false Mounted.rnd in
    boot true 0 raw_sec = Ok () s0 /\
    bfs_create true user path_g 0x1FF s0 = Ok START_FD s1 /\
    bfs_write true user START_FD [x01; x02; x03] 70000 s1 = Ok 3 s2 /\
    bfs_read true user START_FD 3 70000 s2 = Ok [x01; x02; x03] s3.
Proof.
  apply (encrypted_create_write_read false Mounted.rnd Mounted.rnd_zlen 0 raw_sec (User.ctor 1001) [x67] 0x1FF [x01; x02; x03] 70000);
    [exact raw_sec_ok|vm_decide|done|vm_decide|done|vm_decide|split; vm_decide|vm_decide|vm_compute; reflexivity|vm_decide|vm_decide].
Defined.

(** In the store in memory every bit of the third bitmap block is set. *)
Lemma write_same_reuses_witness :
  exists s', write_same 3 3 zero_blk raw_fmt = Ok () s' /\ vhas s' 4 (replicate 4096 xff).
Proof.
  destruct (write_same_reuses 3 3 zero_blk raw_fmt (replicate 4096 xff) (match wblk 3 zero_blk raw_fmt with Ok _ s => s | _ => raw_fmt end)) as (s'&Hr&_&Hh); [..|by exists s'].
  - split; [split; [apply map_Forall_empty|reflexivity]|vm_decide].
  - intros x Hx. unfold within in Hx. change (NUM_BLOCKS raw_fmt) with 8192.
    assert (x = 3 \/ x = 4 \/ x = 5) as Hc by lia. destruct_or! Hc; subst x; vm_decide.
  - vm_decide.
  - lia.
  - vm_compute. reflexivity.
Defined.
