(* ===== verification/RemoteInstances.v ===== *)
(** * Clients and servers

    Concrete clients and servers, at which the theorems about the network are
    applied. *)
From Stdlib Require Import Init.Byte.
From S2P Require Import Prelude Layout BfsUtil CoreTypes FlexBuffer SecAssoc Wire BlockLayer FsLayer BlockStore Volume SecBlock SecStore Instances FsAlloc Acl FsDir FsDirSpec FsFile FsOps Mkfs SecVolume Server Client Rpc RpcSpec Remote RemoteFaults RemoteDir FsInstances MkfsInstances.
Import FlexBuffer FlexStream Msg.

(** The result of a run, without its final state. *)
Definition result {S A} (o : outcome S A) : option (A + exn) :=
  match o with
  | Ok a _ => Some (inl a)
  | Throw e _ => Some (inr e)
  | Crash _ => None
  end.

Lemma result_Ok {S A} (o : outcome S A) a : result o = Some (inl a) -> exists f, o = Ok a f.
Proof. destruct o as [x f|e f|]; cbn; [|done..]. intros [= ->]. by exists f. Qed.

Lemma result_Throw {S A} (o : outcome S A) e : result o = Some (inr e) -> exists f, o = Throw e f.
Proof. destruct o as [x f|e' f|]; cbn; [done| |done]. intros [= ->]. by exists f. Qed.

Module Net.
Definition key : bytes := zeros 16.
Definition sa : CryptoKey.t := CryptoKey.setKeyData key.
Definition rnd : nat -> bytes := Mounted.rnd.
(** The kernels move a few bytes at a time. *)
Definition ckernel (i : nat) : Z := Z.of_nat (Nat.modulo i 3).
Definition skernel (conn : Z) (i : nat) : Z := 5.

Lemma chealthy i : 0 <= ckernel i.
Proof. unfold ckernel. lia. Qed.
Lemma shealthy conn i : 0 <= skernel conn i.
Proof. by unfold skernel. Qed.

Definition idle : NetConn.t := NetConn.mk (RawNet.mk [] [] 0) NetConn.SCH_CONNECTED.
Definition cl : client := mkClient idle (mkSa (Some sa) FlexBuffer.empty) 0 0 false true 0.

Lemma cl_ready : ready cl key 0 0 [] [] false.
Proof. constructor; try done. split; [by exists []|]. done. Qed.

(** A volume in memory with the file [/f] open under the handle 3; [mode] is
    that of the file, [ino] the inode number in the table of open files. *)
Definition disk (mode : Z) : MemStore.t :=
  MemStore.mk (<[6 := Vol.put_inode (Vol.put_inode (zeros BLK_SZ) Vol.root) (Inode.set_mode mode Vol.file)]>
    (MemStore.blocks Vol.disk)) 8192.
Definition vol (mode ino : Z) : fs MemVolume.t :=
  mkFs (MemVolume.mk (disk mode) MOUNTED true true) Vol.super 4 {[3 := OpenFile.mk ino 0]}.

(** Servers: with no client, and with two connected clients. *)
Definition empty_srv (f : fs MemVolume.t) (up : bool) : srv MemVolume.t :=
  mkSrv f up up (ACLayer.BfsACLayer_init ACLayer.uninit) ∅ ∅ 0.
Definition user1 : User.t := User.ctor 1001.
Definition user2 : User.t := User.ctor 1002.
Definition link1 (inb : bytes) : link :=
  mkLink (NetConn.mk (RawNet.mk inb [] 0) NetConn.SCH_CONNECTED) FlexBuffer.empty.
Definition srv2 (f : fs MemVolume.t) (up : bool) (inb : bytes) : srv MemVolume.t :=
  mkSrv f up up (ACLayer.mk true 1003 {[10 := user1; 20 := user2]})
    {[10 := mkSa (Some sa) FlexBuffer.empty; 20 := mkSa (Some sa) FlexBuffer.empty]}
    {[10 := link1 inb; 20 := link1 []]} 0.

Lemma srv2_session1 f up inb : session (srv2 f up inb) 10 key user1 inb [].
Proof.
  constructor; [done|done| |].
  - eexists. split; [reflexivity|]. split; [by exists []|done].
  - eexists. split; [reflexivity|]. split; [apply SecAssoc.roomy_empty|done].
Qed.

Lemma srv2_session2 f up inb : session (srv2 f up inb) 20 key user2 [] [].
Proof.
  constructor; [done|done| |].
  - eexists. split; [reflexivity|]. split; [by exists []|done].
  - eexists. split; [reflexivity|]. split; [apply SecAssoc.roomy_empty|done].
Qed.

Lemma in_sync1 f up : in_sync 10 key user1 cl (srv2 f up []).
Proof. split; [exact cl_ready|apply srv2_session1]. Qed.
Lemma in_sync2 f up : in_sync 20 key user2 cl (srv2 f up []).
Proof. split; [exact cl_ready|apply srv2_session2]. Qed.

Lemma path_f_sent : path_ok Vol.path_f.
Proof. split; vm_decide. Qed.
End Net.

Import Net.

Abbreviation rpc_mem := (rpc true rnd skernel sa 0 7).

(** ** Calls *)
Lemma remote_call_is_local_witness :
  exists w, rpc_mem 10 (Client.bfs_open rnd ckernel Vol.path_f) (mkWorld cl (srv2 (vol 0x81FF 8) true []))
    = Ok (rc_success, Some 4) w.
Proof.
  destruct (result_Ok (server_op (COpen Vol.path_f) true (Some (User.inc_recv_seq user1)) (vol 0x81FF 8)) 4)
    as [f Hf]; [vm_compute; reflexivity|].
  destruct (remote_call_is_local true rnd rnd skernel ckernel sa 0 7 Mounted.rnd_zlen Mounted.rnd_zlen shealthy chealthy
    (COpen Vol.path_f) 10 key user1 cl (srv2 (vol 0x81FF 8) true []) 4 f) as (c'&s'&Hr&_).
  - exact path_f_sent.
  - apply in_sync1.
  - reflexivity.
  - cbn [hfs srv2]. by rewrite Hf.
  - exists (mkWorld c' s'). exact Hr.
Defined.

Lemma remote_read_is_local_witness :
  exists w, rpc_mem 10 (Client.bfs_read rnd ckernel 3 2 4999) (mkWorld cl (srv2 (vol 0x81FF 8) true []))
    = Ok (1, [x00]) w.
Proof.
  destruct (result_Ok (FsFile.bfs_read true (Some (User.inc_recv_seq user1)) 3 2 4999 (vol 0x81FF 8)) [x00])
    as [f Hf]; [vm_compute; reflexivity|].
  destruct (remote_read_is_local true rnd rnd skernel ckernel sa 0 7 Mounted.rnd_zlen Mounted.rnd_zlen shealthy chealthy
    10 key user1 cl (srv2 (vol 0x81FF 8) true []) 3 2 4999 [x00] f) as (c'&s'&Hr&_).
  - split; [|split; [|split; [|]]]; vm_decide.
  - apply in_sync1.
  - reflexivity.
  - exact Hf.
  - exists (mkWorld c' s'). exact Hr.
Defined.

(** The bits of the other users are not set in the mode of the file. *)
Lemma refused_read_crashes_client_witness :
  rpc_mem 10 (Client.bfs_read rnd ckernel 3 2 0) (mkWorld cl (srv2 (vol 0x81C0 8) true [])) = Crash Undefined_behaviour.
Proof.
  destruct (result_Throw (local_read (User.inc_recv_seq user1) 3 2 0 (vol 0x81C0 8))
    (BfsAccessDeniedError "Permission denied")) as [f Hf]; [vm_compute; reflexivity|].
  apply (refused_read_crashes_client true rnd rnd skernel ckernel sa 0 7 Mounted.rnd_zlen Mounted.rnd_zlen shealthy chealthy
    10 key user1 cl (srv2 (vol 0x81C0 8) true []) 3 2 0 (- EPERM) f).
  - split; [|split; [|split; [|]]]; vm_decide.
  - apply in_sync1.
  - reflexivity.
  - cbn [hfs srv2]. by rewrite Hf.
  - vm_decide.
Defined.

Lemma denied_write_reported_done_witness :
  exists w, rpc_mem 10 (Client.bfs_write rnd ckernel 3 [x01; x02] 0) (mkWorld cl (srv2 (vol 0x81C0 8) true [])) = Ok 2 w.
Proof.
  destruct (result_Throw (FsFile.bfs_write true (Some (User.inc_recv_seq user1)) 3 [x01; x02] 0 (vol 0x81C0 8))
    (BfsAccessDeniedError "Permission denied")) as [f Hf]; [vm_compute; reflexivity|].
  destruct (denied_write_reported_done true rnd rnd skernel ckernel sa 0 7 Mounted.rnd_zlen Mounted.rnd_zlen shealthy chealthy
    10 key user1 cl (srv2 (vol 0x81C0 8) true []) 3 [x01; x02] 0 "Permission denied" f) as (c'&s'&Hr&_).
  - cbn [call_ok]. split; [|split; [|split; [|]]]; vm_decide.
  - apply in_sync1.
  - reflexivity.
  - exact Hf.
  - exists (mkWorld c' s'). exact Hr.
Defined.

Lemma remote_getattr_times_witness :
  exists w, rpc_mem 10 (Client.bfs_getattr rnd ckernel Vol.path_f) (mkWorld cl (srv2 (vol 0x81FF 8) true []))
    = Ok (rc_success, Some (mkStat 8 0x81FF 5000 7 7 7)) w.
Proof.
  destruct (result_Ok (local_getattr (User.inc_recv_seq user1) Vol.path_f (vol 0x81FF 8)) (rc_success, (1001, 8, 0x81FF, 5000)))
    as [f Hf]; [vm_compute; reflexivity|].
  destruct (remote_getattr_times true rnd rnd skernel ckernel sa 0 7 Mounted.rnd_zlen Mounted.rnd_zlen shealthy chealthy
    10 key user1 cl (srv2 (vol 0x81FF 8) true []) Vol.path_f rc_success 1001 8 0x81FF 5000 f) as (c'&s'&Hr&_).
  - exact path_f_sent.
  - apply in_sync1.
  - reflexivity.
  - vm_decide.
  - vm_decide.
  - vm_decide.
  - cbn [hfs srv2]. by rewrite Hf.
  - exists (mkWorld c' s'). exact Hr.
Defined.

(** ** Sessions *)

(** On an encrypted cluster. *)
Definition sec_srv : srv (sec BoundedCache.t) :=
  mkSrv raw_sec false false (ACLayer.BfsACLayer_init ACLayer.uninit) ∅ ∅ 0.

Lemma remote_create_write_read_witness :
  exists s0 w1 w2 w3 w4, let _ := sec_store false Mounted.rnd in let _ := sec_volume false Mounted.rnd in
    worker_start true rnd skernel sa 0 7 10 idle sec_srv = Ok () s0 /\
    rpc true rnd skernel sa 0 7 10 (Client.bfs_init rnd ckernel true) (mkWorld cl s0) = Ok (Some rc_success) w1 /\
    rpc true rnd skernel sa 0 7 10 (Client.bfs_create rnd ckernel path_g 0x1FF) w1 = Ok (rc_success, Some START_FD) w2 /\
    rpc true rnd skernel sa 0 7 10 (Client.bfs_write rnd ckernel START_FD [x01; x02; x03] 70000) w2 = Ok 3 w3 /\
    rpc true rnd skernel sa 0 7 10 (Client.bfs_read rnd ckernel START_FD 3 70000) w3 = Ok (3, [x01; x02; x03]) w4.
Proof.
  apply (@remote_create_write_read _ _ (sec_volume false Mounted.rnd) _ _ true rnd rnd skernel ckernel sa 0 7
    Mounted.rnd_zlen Mounted.rnd_zlen shealthy chealthy _ (sec_volume_laws false Mounted.rnd Mounted.rnd_zlen) eq_refl
    key [] 10 idle cl sec_srv [x67] 0x1FF [x01; x02; x03] 70000);
    [reflexivity|by split|reflexivity|exact raw_sec_ok|vm_decide|reflexivity|vm_decide|reflexivity|reflexivity|exact cl_ready|
     done|vm_decide|split; vm_decide|vm_decide|vm_compute; reflexivity|vm_decide|vm_decide].
Defined.

(** The handle 3 refers to an inode number that is not valid. *)
Lemma server_error_ends_session_witness :
  exists c' s', rpc_mem 10 (Client.bfs_write rnd ckernel 3 [x01] 0) (mkWorld cl (srv2 (vol 0x81FF 0) true []))
      = Ok rc_failure (mkWorld c' s') /\
    rpc_mem 10 (Client.bfs_unlink rnd ckernel Vol.path_f) (mkWorld c' s') = Crash Undefined_behaviour.
Proof.
  destruct (result_Throw (server_op (CWrite 3 [x01] 0) true (Some (User.inc_recv_seq user1)) (vol 0x81FF 0))
    (BfsServerError "Error during bfs_write get inode id")) as [f Hf]; [vm_compute; reflexivity|].
  destruct (server_error_ends_session true rnd rnd skernel ckernel sa 0 7 Mounted.rnd_zlen shealthy chealthy
    (CWrite 3 [x01] 0) (CUnlink Vol.path_f) 10 key user1 cl (srv2 (vol 0x81FF 0) true [])
    "Error during bfs_write get inode id" f) as (c'&s'&Hr&_&_&Hn).
  - cbn [call_ok]. split; [|split; [|split; [|]]]; vm_decide.
  - exact path_f_sent.
  - apply in_sync1.
  - reflexivity.
  - exact Hf.
  - exists c', s'. split; [exact Hr|exact Hn].
Defined.

(** A message of one byte with a tag of zeros. *)
Definition bad : bytes := zeros 12 ++ [x01] ++ zeros 16.

Lemma inauthentic_request_refused_witness :
  exists s', worker_round true rnd skernel sa 0 7 10 (srv2 (vol 0x81FF 8) true (NetConn.frame bad ++ [])) = Ok true s' /\
    hfs s' = vol 0x81FF 8 /\ links s' !! 10 = None.
Proof.
  destruct (inauthentic_request_refused true rnd skernel sa 0 7 shealthy (srv2 (vol 0x81FF 8) true (NetConn.frame bad ++ []))
    10 key user1 (zeros 12) [x01] (zeros 16) [] []) as (s'&Hr&K&Hl).
  - apply srv2_session1.
  - reflexivity.
  - reflexivity.
  - vm_decide.
  - vm_compute. congruence.
  - exists s'. split; [exact Hr|]. split; [exact (kept_fs _ _ _ K)|exact Hl].
Defined.

(** A client that waits for a response. *)
Definition waiting : client :=
  mkClient (NetConn.mk (RawNet.mk (NetConn.frame bad) [] 0) NetConn.SCH_CONNECTED) (mkSa (Some sa) FlexBuffer.empty) 1 0 true true 1.

Lemma forged_response_deadlocks_witness :
  exists c', op_recv (Client.bfs_unlink rnd ckernel Vol.path_f) waiting = Ok rc_failure c' /\
    op_send (Client.bfs_rmdir rnd ckernel Vol.path_f) c' = Crash Deadlocked.
Proof.
  apply (forged_response_deadlocks rnd ckernel chealthy (CUnlink Vol.path_f) (CRmdir Vol.path_f) waiting key 1 0 []
    (zeros 12) [x01] (zeros 16)).
  - exact path_f_sent.
  - constructor; try done. split; [by exists []|done].
  - reflexivity.
  - reflexivity.
  - vm_decide.
  - vm_compute. congruence.
Defined.

Lemma request_accepted_on_other_connection_witness :
  exists s1 s2 c' s', worker_start true rnd skernel sa 0 7 10 idle (empty_srv (vol 0x81FF 8) true) = Ok () s1 /\
    worker_start true rnd skernel sa 0 7 20 idle s1 = Ok () s2 /\
    op_send (Client.bfs_open rnd ckernel Vol.path_f) cl = Ok (inl ()) c' /\
    worker_round true rnd skernel sa 0 7 20 (w_server (carry_up 20 (mkWorld c' s2))) = Ok false s'.
Proof.
  destruct (result_Ok (server_op (COpen Vol.path_f) true (Some (User.inc_recv_seq user2)) (vol 0x81FF 8)) 4)
    as [f Hf]; [vm_compute; reflexivity|].
  destruct (request_accepted_on_other_connection true rnd rnd skernel ckernel sa 0 7 Mounted.rnd_zlen Mounted.rnd_zlen
    shealthy chealthy (COpen Vol.path_f) key [] 10 20 idle idle cl (empty_srv (vol 0x81FF 8) true) 4 f)
    as (s1&s2&c'&s'&Hw1&Hw2&Hs&Hr&_).
  - exact path_f_sent.
  - reflexivity.
  - done.
  - by split.
  - by split.
  - reflexivity.
  - exact cl_ready.
  - reflexivity.
  - reflexivity.
  - cbn [hfs empty_srv]. change (User.ctor _) with user2. by rewrite Hf.
  - exists s1, s2, c', s'. exact (conj Hw1 (conj Hw2 (conj Hs Hr))).
Defined.

Lemma destroy_breaks_server_witness :
  exists c1' s' c2' s'',
    rpc_mem 10 (Client.bfs_destroy rnd ckernel) (mkWorld cl (srv2 (vol 0x81FF 8) true [])) = Ok (Some rc_success) (mkWorld c1' s') /\
    rpc_mem 20 (Client.bfs_init rnd ckernel true) (mkWorld cl s') = Ok (Some rc_success) (mkWorld c2' s'') /\
    rpc_mem 20 (Client.bfs_open rnd ckernel Vol.path_f) (mkWorld c2' s'') = Crash Undefined_behaviour.
Proof.
  apply (destroy_breaks_server true rnd rnd skernel ckernel sa 0 7 Mounted.rnd_zlen Mounted.rnd_zlen shealthy chealthy
    (COpen Vol.path_f) true 10 20 key key user1 user2 cl cl (srv2 (vol 0x81FF 8) true [])).
  - exact path_f_sent.
  - done.
  - apply in_sync1.
  - apply in_sync2.
  - reflexivity.
Defined.

Lemma init_without_mkfs_fails_witness :
  exists c' s', rpc_mem 10 (Client.bfs_init rnd ckernel false) (mkWorld cl (srv2 (vol 0x81FF 8) false []))
      = Ok None (mkWorld c' s') /\ c_live c' = false /\ links s' !! 10 = None.
Proof.
  destruct (init_without_mkfs_fails true rnd rnd skernel ckernel sa 0 7 Mounted.rnd_zlen shealthy chealthy
    10 key user1 cl (srv2 (vol 0x81FF 8) false [])) as (c'&s'&Hr&Hl&Hk&_).
  - apply in_sync1.
  - reflexivity.
  - exists c', s'. exact (conj Hr (conj Hl Hk)).
Defined.

(** ** Messages *)
Lemma packet_stream_roundtrip_witness :
  exists c1', NetConn.send_all ckernel [[x01; x02]; [x03]] idle = Ok () c1' /\
    exists c2', NetConn.recv_all (skernel 0) 2 FlexBuffer.empty
      (NetConn.mk (RawNet.mk (RawNet.outbox (NetConn.socket c1') ++ []) [] 0) NetConn.SCH_CONNECTED) = Ok [[x01; x02]; [x03]] c2'.
Proof.
  destruct (NetConn.packet_stream_roundtrip ckernel (skernel 0) [[x01; x02]; [x03]] idle
    (NetConn.mk (RawNet.mk (RawNet.outbox (NetConn.socket
      (match NetConn.send_all ckernel [[x01; x02]; [x03]] idle with Ok _ c => c | _ => idle end)) ++ []) [] 0)
      NetConn.SCH_CONNECTED) FlexBuffer.empty []) as (c1'&Hs&Hr).
  - exact chealthy.
  - exact (shealthy 0).
  - vm_decide.
  - apply SecAssoc.roomy_empty.
  - reflexivity.
  - exists c1'. split; [exact Hs|]. rewrite Hs in Hr. destruct (Hr eq_refl) as (c2'&Hr2&_). exists c2'. exact Hr2.
Defined.

Lemma packet_cut_short_witness :
  exists b' c', NetConn.recvPacketizedBuffer ckernel FlexBuffer.empty
      (NetConn.mk (RawNet.mk [x00; x00; x00; x02; x05] [] 0) NetConn.SCH_CONNECTED) = Ok (0, b') c' /\
    NetConn.chState c' = NetConn.SCH_CLOSED.
Proof.
  apply (NetConn.packet_cut_short ckernel FlexBuffer.empty [x05; x06] [x00; x00; x00; x02; x05]).
  - exact chealthy.
  - apply SecAssoc.roomy_empty.
  - vm_decide.
  - by exists [x06].
  - vm_compute. congruence.
  - reflexivity.
Defined.

(** The kernel reports an error at once. *)
Lemma send_failure_is_zero_witness :
  exists r c', NetConn.sendPacketizedDataL (fun _ => -1) 2 [x01; x02] idle = Ok r c' /\ 0 <= r.
Proof.
  do 2 eexists. split; [vm_compute; reflexivity|].
  eapply (NetConn.send_failure_is_zero (fun _ => -1) 2 [x01; x02] idle). vm_compute. reflexivity.
Defined.

(** ** Listing the root directory *)

(** The small volume, with the root directory open under the handle 3, and a
    caller that has room for two entries. *)
Definition root_vol : fs MemVolume.t :=
  mkFs (MemVolume.mk Vol.disk MOUNTED true true) Vol.super 4 {[3 := OpenFile.mk 2 0]}.
Definition two (taken : list (bytes * stat)) (name : bytes) (st : stat) : bool := 2 <=? zlen taken.

Lemma root_vol_dir : dir_at root_vol Vol.root [6313] [Vol.root_slots].
Proof. destruct Vol.root_dir. by split. Qed.

Lemma remote_directory_listed_witness :
  exists w, rpc_mem 10 (Client.bfs_readdir rnd ckernel [slash] two 3) (mkWorld cl (srv2 root_vol true []))
    = Ok (rc_success, [([x66], mkStat 8 0x81FF 5000 7 7 7); ([x2e; x2e], mkStat 2 0x41FF 0 7 7 7)]) w.
Proof.
  destruct (remote_directory_listed true rnd rnd skernel ckernel sa 0 7 Mounted.rnd_zlen Mounted.rnd_zlen shealthy chealthy
    [slash] two 10 key user1 cl (srv2 root_vol true []) 3 (OpenFile.mk 2 0) Vol.root [6313] [Vol.root_slots]
    [Vol.root; Vol.root; Vol.file]) as (c'&s'&Hr&_).
  - apply in_sync1.
  - reflexivity.
  - vm_decide.
  - vm_decide.
  - exact Vol.vol_ok.
  - vm_decide.
  - reflexivity.
  - vm_decide.
  - split; [exact Vol.root_at|done].
  - exact root_vol_dir.
  - repeat constructor; [exact Vol.root_at|done|exact Vol.root_at|done|exact Vol.file_inode|done].
  - repeat constructor; vm_decide.
  - repeat constructor.
  - vm_decide.
  - exists (mkWorld c' s'). exact Hr.
Defined.

Lemma refused_readdir_is_empty_witness :
  exists w, rpc_mem 10 (Client.bfs_readdir rnd ckernel Vol.path_f two 3) (mkWorld cl (srv2 (vol 0x41C0 8) true []))
    = Ok (rc_success, []) w.
Proof.
  destruct (result_Throw (FsOps.bfs_readdir true (Some (User.inc_recv_seq user1)) 3 (vol 0x41C0 8))
    (BfsAccessDeniedError "Permission denied")) as [f Hf]; [vm_compute; reflexivity|].
  destruct (refused_readdir_is_empty true rnd rnd skernel ckernel sa 0 7 Mounted.rnd_zlen Mounted.rnd_zlen shealthy chealthy
    Vol.path_f two 10 key user1 cl (srv2 (vol 0x41C0 8) true []) 3 "Permission denied" f) as (c'&s'&Hr&_).
  - apply in_sync1.
  - reflexivity.
  - vm_decide.
  - vm_decide.
  - exact Hf.
  - exists (mkWorld c' s'). exact Hr.
Defined.
