(* ===== verification/CacheInstances.v ===== *)
(** * Caches

    A server in memory for the interface of [ClientCache], and concrete caches
    at which the theorems about the cache are applied. *)
From Stdlib Require Import Init.Byte.
From S2P Require Import Prelude Layout BfsUtil CoreTypes FlexBuffer SecAssoc Wire BlockLayer FsLayer BlockStore Volume SecBlock SecStore Instances FsAlloc Acl FsDir FsDirSpec FsFile FsOps Mkfs SecVolume Server Client ClientCache Rpc RpcSpec Remote RemoteCache FsInstances MkfsInstances RemoteInstances.
Import Msg Net.

(** The files by handle; every path is the file behind handle 3. *)
Module MemRemote.
Abbreviation t := (gmap Z bytes).

#[export] Instance remote : Remote t := {|
  r_open path := mret (rc_success, Some 3);
  r_create path mode := modify (S := t) (<[3 := []]>) ;; mret (rc_success, Some 3);
  r_read fh size off := w ← get; mret (let d := pread off size (default [] (w !! fh)) in (zlen d, d));
  r_write fh d off := modify (S := t) (alter (pwrite off d) fh) ;; mret (zlen d);
  r_release fh := mret rc_success;
  r_truncate path fh len := modify (S := t) (alter (resize len) fh) ;; mret rc_success
|}.

Lemma write_law (w : t) fh f d off :
  w !! fh = Some f -> 0 <= off -> zlen d <= chunk_size -> off + zlen d <= 2 ^ 40 ->
  exists w', r_write fh d off w = Ok (zlen d) w' /\ w' !! fh = Some (pwrite off d f).
Proof. intros Hf _ _ _. eexists. split; [reflexivity|]. by rewrite lookup_alter_eq, Hf. Qed.

#[export] Instance laws : RemoteLaws t := {| rf_holds w fh f := w !! fh = Some f; rf_max := 2 ^ 40; rf_write := write_law |}.
End MemRemote.
Import MemRemote.

Definition p_g : bytes := tmp_path path_g.
Definition empty_cache : wcache := mkWcache ∅ ∅ ∅ 0 false.

(** The handle 3 has the local file [f], of which the chunks [D] are dirty. *)
Definition holding (f : bytes) (D : gset Z) (w : t) : fclient t :=
  mkFc (mkWcache {[p_g := f]} {[3 := p_g]} {[3 := D]} (Z.of_nat (size D)) false) w.

Lemma holding_cached f D w : cached (holding f D w) 3 p_g f D.
Proof. constructor; cbn; by rewrite ?lookup_singleton_eq. Qed.

Lemma cached_write_back_witness :
  exists s1 s2 s3, bfs_create (fun _ => true) path_g 0x1FF (mkFc empty_cache ∅) = Ok (rc_success, Some 3) s1 /\
    bfs_write false 3 [x01; x02] 0 s1 = Ok 2 s2 /\ bfs_read false 3 2 0 s2 = Ok (2, [x01; x02]) s2 /\
    bfs_flush false 3 s2 = Ok rc_success s3 /\ net s3 !! 3 = Some [x01; x02] /\ dirty_chunks (cache s3) !! 3 = Some ∅.
Proof.
  apply (@cached_write_back t remote laws (fun _ => true) (mkFc empty_cache ∅) path_g 0x1FF 3 (<[3 := []]> ∅) [x01; x02]);
    [reflexivity|by apply lookup_insert_eq|reflexivity|reflexivity|vm_decide|vm_decide].
Defined.

Lemma fallocate_sends_heap_witness :
  exists s1 s2, bfs_fallocate false (fun _ => true) (fun n => replicate (Z.to_nat n) x41) path_g 0x1FF 2 3 (mkFc empty_cache ∅) = Ok 0 s1 /\
    bfs_flush false 3 s1 = Ok rc_success s2 /\ net s2 !! 3 = Some [x41; x41; x41; x41; x41].
Proof.
  apply (@fallocate_sends_heap t remote laws (fun _ => true) (fun n => replicate (Z.to_nat n) x41) (mkFc empty_cache ∅) path_g
    0x1FF 3 (<[3 := []]> ∅) 2 3); [reflexivity|by apply lookup_insert_eq|reflexivity|reflexivity|vm_decide..].
Defined.

(** Two chunks, the second of them dirty. *)
Definition two : bytes := zeros (2 * chunk_size).
Lemma two_zlen : zlen two = 2 * chunk_size.
Proof. unfold two. apply zlen_zeros. vm_decide. Qed.

Lemma sparse_flush_sends_zeros_witness :
  exists s', bfs_flush false 3 (holding two {[1]} {[3 := [x01]]}) = Ok rc_success s' /\
    cached s' 3 p_g two ∅ /\ net s' !! 3 = Some (pwrite (1 * chunk_size) (zeros chunk_size) [x01]).
Proof.
  apply (@sparse_flush_sends_zeros t remote laws (holding two {[1]} {[3 := [x01]]}) 3 p_g two 1 [x01]);
    [apply holding_cached|lia|rewrite two_zlen; lia|vm_decide|apply lookup_singleton_eq].
Defined.

(** Two bytes across the first boundary. *)
Lemma straddling_write_unmarked_witness :
  exists s', bfs_write false 3 [x01; x02] (chunk_size - 1) (holding [] ∅ ∅) = Ok 2 s' /\
    cached s' 3 p_g (pwrite (chunk_size - 1) [x01; x02] []) ({[0]} ∪ ∅) /\
    (0 + 1) * chunk_size < chunk_size - 1 + 2 /\ 0 + 1 ∉ ({[0]} ∪ ∅ : gset Z).
Proof.
  change 0 with ((chunk_size - 1) / chunk_size).
  apply (@straddling_write_unmarked t remote (holding [] ∅ ∅) 3 p_g [] ∅ [x01; x02] (chunk_size - 1));
    [apply holding_cached|vm_decide|vm_decide|vm_decide|set_solver].
Defined.

Lemma opened_file_reads_empty_witness :
  exists s1, bfs_open (fun _ => true) path_g (mkFc empty_cache {[3 := [x01]]}) = Ok (rc_success, Some 3) s1 /\
    bfs_read false 3 10 0 s1 = Ok (0, []) s1.
Proof.
  apply (@opened_file_reads_empty t remote (fun _ => true) (mkFc empty_cache {[3 := [x01]]}) path_g 3 {[3 := [x01]]} 10 0);
    [reflexivity..|lia|lia].
Defined.

(** The file was cut to nothing while its second chunk was dirty. *)
Lemma flush_past_end_hangs_witness :
  bfs_flush false 3 (holding [] {[1]} ∅) = Crash Out_of_fuel /\
  forall fuel total, collect fuel false [] 0 (zeros 0) {[1]} [] total = None.
Proof.
  apply (@flush_past_end_hangs t remote (holding [] {[1]} ∅) 3 p_g [] {[1]} 1); [apply holding_cached|set_solver|vm_decide].
Defined.

(** Through the cache, the network and the encrypted volume. *)
Lemma cached_data_reaches_volume_witness :
  let _ := sec_store false Mounted.rnd in let _ := sec_volume false Mounted.rnd in
  let _ := net_remote true rnd rnd skernel ckernel sa 0 7 10 in
  exists s0 w1 s1 s2 s3,
    worker_start true rnd skernel sa 0 7 10 idle sec_srv = Ok () s0 /\
    rpc true rnd skernel sa 0 7 10 (Client.bfs_init rnd ckernel true) (mkWorld cl s0) = Ok (Some rc_success) w1 /\
    bfs_create (fun _ => true) path_g 0x1FF (mkFc empty_cache w1) = Ok (rc_success, Some START_FD) s1 /\
    bfs_write false START_FD [x01; x02; x03] 0 s1 = Ok 3 s2 /\
    bfs_flush false START_FD s2 = Ok rc_success s3 /\
    forall size off, 0 <= size < 2 ^ 30 -> 0 <= off < 2 ^ 64 ->
      exists w, rpc true rnd skernel sa 0 7 10 (Client.bfs_read rnd ckernel START_FD size off) (net s3) =
        Ok (zlen (pread off size [x01; x02; x03]), pread off size [x01; x02; x03]) w.
Proof.
  apply (@cached_data_reaches_volume _ _ (sec_volume false Mounted.rnd) _ _ true rnd rnd skernel ckernel sa 0 7 10
    Mounted.rnd_zlen Mounted.rnd_zlen shealthy chealthy _ (sec_volume_laws false Mounted.rnd Mounted.rnd_zlen) eq_refl
    (fun _ => true) empty_cache key [] idle cl sec_srv [x67] 0x1FF [x01; x02; x03]);
    [reflexivity|by split|reflexivity|exact raw_sec_ok|vm_decide|reflexivity|vm_decide|reflexivity|reflexivity|exact cl_ready|
     done|vm_decide|split; vm_decide|vm_decide|vm_compute; reflexivity|vm_decide|reflexivity|reflexivity].
Defined.
