(* ===== verification/NetDeviceInstances.v ===== *)
(** * Devices

    A remote device and the process with its storage, at which the theorems of
    [NetDeviceSpec] are applied. *)
From Stdlib Require Import Init.Byte.
From S2P Require Import Prelude Layout BfsUtil CoreTypes FlexBuffer SecAssoc Wire BlockLayer FsLayer BlockStore Volume SecBlock SecStore Instances FsAlloc Acl FsDir FsDirSpec FsFile FsOps Mkfs SecVolume Server NetDevice Client Rpc NetDeviceSpec RpcSpec Remote RemoteFaults FsInstances MkfsInstances RemoteInstances.
Import FlexBuffer DeviceLayer Net.

Definition dev_sa : sassoc := mkSa (Some sa) FlexBuffer.empty.
Lemma dev_sa_ok : sa_ok key dev_sa.
Proof. split; [by exists []|done]. Qed.

Definition blk_x : bytes := replicate (Z.to_nat BLK_SZ) x41.
Lemma blk_x_zlen : zlen blk_x = BLK_SZ.
Proof. vm_decide. Qed.

(** A block object with no room around its data. *)
Definition obj_x : FlexBuffer.t := FlexBuffer.mk (Some blk_x) BLK_SZ 0 BLK_SZ 0 false.

Lemma obj_x_ok : block_obj obj_x.
Proof. split; [vm_decide|]. split; [discriminate|vm_decide]. Qed.
Lemma obj_x_zlen : zlen (content obj_x) = BLK_SZ.
Proof. vm_decide. Qed.

Definition ops : list dev_op := [DPut 2 obj_x; DGet 2; DPuts [(0, blk_x); (3, blk_x)]; DGets [0; 1; 2]; DGet 1].

Lemma remote_device_is_local_witness :
  exists d w xs l w', device_up rnd skernel 10 dev_sa 4 idle (NetworkDevice.ctor 7 0) = Ok None d /\
    exchange rnd skernel 10 (RemoteDevice.bfsDeviceInitialize rnd ckernel (Some idle)) (mkDworld (RemoteDevice.ctor (Some dev_sa) 0) d) = Ok 0 w /\
    RemoteDevice.deviceID (dw_remote w) = 7 /\ RemoteDevice.numBlocks (dw_remote w) = 4 /\
    local_run ops (LocalDevice.bfsDeviceInitialize (LocalDevice.mk 7 4 None)) = Some (xs, l) /\
    remote_run rnd rnd ckernel skernel 10 ops w = Ok (Some <$> xs) w' /\ NetworkDevice.storage (dw_device w') = LocalDevice.storage l.
Proof.
  apply (remote_device_is_local rnd rnd ckernel skernel 10 Mounted.rnd_zlen Mounted.rnd_zlen chealthy shealthy dev_sa dev_sa key 7 4 idle idle ops 0 0).
  - apply dev_sa_ok.
  - apply dev_sa_ok.
  - vm_decide.
  - lia.
  - done.
  - done.
  - repeat constructor; try apply obj_x_ok; try exact obj_x_zlen; vm_decide.
Defined.

(** A session that is under way. *)
Definition busy (inb : bytes) : NetConn.t := NetConn.mk (RawNet.mk inb [] 0) NetConn.SCH_CONNECTED.
Definition small : DeviceStorage.t := DeviceStorage.mk 7 4 (Some {[ 2 := blk_x ]}).
Definition rem : RemoteDevice.t := RemoteDevice.mk BFSDEV_UKNOWN 7 4 (Some idle) (mkChan (Some dev_sa) 3) 3 3.
Definition dev (inb : bytes) : NetworkDevice.t :=
  NetworkDevice.mk BFSDEV_READY 7 (mkChan (Some dev_sa) 3) (Some small) 3 3 {[10 := busy inb]}.

Lemma dev_ready inb : dready (dev inb) 10 key 7 small 3 3 inb [].
Proof. constructor; try done; [exists dev_sa; split; [done|apply dev_sa_ok]|]. exists (busy inb). split; [apply lookup_singleton_eq|done]. Qed.

Lemma in_session : joined 10 key 7 small (mkDworld rem (dev [])).
Proof.
  exists 3, 3. split; [|apply dev_ready]. constructor; try done; [exists dev_sa; split; [done|apply dev_sa_ok]|]. by exists idle.
Qed.

Lemma small_ok : st_ok 4 small.
Proof.
  split; [done|by eexists|]. intros i x. unfold DeviceStorage.getBlock, DeviceStorage.getBlockAddress.
  cbn [DeviceStorage.blockStorage DeviceStorage.numBlocks small]. case_match; [done|]. intros Hx. injection Hx as <-.
  destruct (decide (i = 2)) as [->|]; [rewrite lookup_singleton_eq; apply blk_x_zlen|by rewrite lookup_singleton_ne].
Qed.

Lemma remote_range_unchecked_witness :
  local_op (DGet 4) (LocalDevice.mk 7 4 (Some small)) = None /\ local_op (DPut 4 obj_x) (LocalDevice.mk 7 4 (Some small)) = None /\
  exists w1 w2, remote_op rnd rnd ckernel skernel 10 (DGet 4) (mkDworld rem (dev [])) = Ok (Some (RBlock zero_blk)) w1 /\
    remote_op rnd rnd ckernel skernel 10 (DPut 4 obj_x) w1 = Ok (Some RDone) w2 /\
    NetworkDevice.storage (dw_device w2) = Some small.
Proof.
  apply (remote_range_unchecked rnd rnd ckernel skernel 10 Mounted.rnd_zlen Mounted.rnd_zlen chealthy shealthy 4 4 obj_x key 7 small
    (mkDworld rem (dev [])) (LocalDevice.mk 7 4 (Some small)));
    [apply in_session|apply small_ok|reflexivity|vm_decide|lia|lia|apply obj_x_ok|apply obj_x_zlen].
Defined.

Lemma remote_put_empties_block_witness :
  exists b' w', exchange rnd skernel 10 (RemoteDevice.putBlock rnd ckernel 1 obj_x) (mkDworld rem (dev [])) = Ok (0, b') w' /\
    content b' = [] /\ joined 10 key 7 (stored small 1 (content obj_x)) w'.
Proof.
  apply (remote_put_empties_block rnd rnd ckernel skernel 10 Mounted.rnd_zlen Mounted.rnd_zlen chealthy shealthy 1 obj_x key 7 small
    (mkDworld rem (dev [])));
    [apply in_session|vm_decide|vm_decide|apply obj_x_ok|apply obj_x_zlen].
Defined.

Lemma inauthentic_packet_ends_device_witness :
  exists d', NetworkDevice.execute_turn rnd skernel None true false (Some [NetworkDevice.EClient 10]) (dev (NetConn.frame bad)) =
      Throw (bfsCryptoError "gcrypt MAC verification failure: ") d' /\
    NetworkDevice.storage d' = Some small.
Proof.
  apply (inauthentic_packet_ends_device rnd skernel 10 shealthy None (dev (NetConn.frame bad)) key 7 small 3 3
    (zeros 12) [x01] (zeros 16) []); [apply dev_ready|reflexivity|reflexivity|reflexivity|vm_decide|].
  vm_compute. congruence.
Defined.

(** The device sets itself up, accepts a connection, and gets a bad packet. *)
Definition turns : list (bool * option (list NetworkDevice.event)) :=
  [(false, None); (false, Some [NetworkDevice.EServer (Some (10, busy (NetConn.frame bad)))]);
   (false, Some [NetworkDevice.EClient 10])].

Lemma device_storage_typed_witness :
  match NetworkDevice.execute rnd skernel (Some (dev_sa, 4)) true turns (NetworkDevice.ctor 7 0) with
  | Ok _ d | Throw _ d => typed 4 d
  | Crash _ => True
  end.
Proof. apply (device_storage_typed rnd skernel 7 0 dev_sa 4 true turns). lia. Defined.

Example bad_packet_ends_execute :
  result (NetworkDevice.execute rnd skernel (Some (dev_sa, 4)) true turns (NetworkDevice.ctor 7 0)) =
    Some (inr (bfsCryptoError "gcrypt MAC verification failure: ")).
Proof. vm_compute. reflexivity. Qed.
