(* ===== verification/RegExp.v ===== *)
(** * Regular expressions of the configuration grammar

    Models [bfs_utils/bfsRegExpression.cpp] and [.h]: the parser of an
    expression into atoms, the generator of the transitions of an automaton
    and the recursive matcher that walks them.  A state is a [nat]; the
    expression and the text are byte lists, and reading an expression at its
    length gives the terminating zero, as [std::string::operator[]] does. *)
From S2P Require Import Prelude.
From Stdlib Require Strings.String.
Import Init.Byte.

(** The bytes of a C string literal. *)
Abbreviation str := String.list_byte_of_string.

Module RegExp.

(** ** Data *)

Inductive re_atommodifier :=
  | RE_NOMODIFER
  | RE_ZEROORMORE
  | RE_ONEORMORE
  | RE_ZEROORONE.

(** [re_literal_t]: the character is read of a normal literal only. *)
Inductive re_literal :=
  | RE_NORMAL_LITERAL (ch : byte)
  | RE_ANY_LITERAL
  | RE_WORD_LITERAL
  | RE_SPACE_LITERAL
  | RE_DIGIT_LITERAL
  | RE_NIL_LITERAL
  | RE_OR_LITERAL.

(** [atom_t], tagged by its [atype]; the literal of an or-list is
    [RE_OR_LITERAL]. *)
Inductive atom :=
  | RE_LITERAL (literal : re_literal) (modifier : re_atommodifier)
  | RE_ORLIST (invert : bool) (orlist : list re_literal) (modifier : re_atommodifier)
  | RE_GROUP (group : list atom) (modifier : re_atommodifier).

(** [re_transition_t].  A NIL transition keeps an older or-list in the source,
    which is never read. *)
Record re_transition := mkTransition {
  fromstate : nat;
  tostate : nat;
  literal : re_literal;
  orlist : list re_literal;
  invert : bool;
}.

#[export] Instance re_literal_eq_dec : EqDecision re_literal.
Proof. solve_decision. Defined.
#[export] Instance re_atommodifier_eq_dec : EqDecision re_atommodifier.
Proof. solve_decision. Defined.

Definition re_special_chars : bytes := Eval vm_compute in str ".*+?^[]()".
Definition re_WordChars : bytes := Eval vm_compute in
  str "abcdefghijklmnopqrstuvwxyzABCDEFGHIJKLMNOPQRSTUVWXYZ0123456789_".
Definition re_SpaceChars : bytes := [" "%byte; x09; x0a; x0d; x0c; x0b].
Definition re_DigitChars : bytes := Eval vm_compute in str "0123456789".

(** [s.find(ch) != string::npos] *)
Definition has_char (s : bytes) (ch : byte) : bool := bool_decide (ch ∈ s).

(** ** Parsing an expression *)

(** Length of the literal "Syntax error in regular expression at : ".  Its
    message is [literal + ch], the address [ch] bytes into the literal: past
    the terminating zero it is read outside the array. *)
Definition syntax_error_len : Z := 40.

Definition nextLiteral (ch : byte) (escaped : bool) : M () re_literal :=
  if escaped then
    mret (if decide (ch = "w"%byte) then RE_WORD_LITERAL
          else if decide (ch = "s"%byte) then RE_SPACE_LITERAL
          else if decide (ch = "d"%byte) then RE_DIGIT_LITERAL
          else RE_NORMAL_LITERAL ch)
  else if decide (ch = "."%byte) then mret RE_ANY_LITERAL
  else if has_char re_special_chars ch then
    if b2z ch <=? syntax_error_len then throw (bfsRegExpressionError "")
    else die Undefined_behaviour
  else mret (RE_NORMAL_LITERAL ch).

Section parse.
Variable regexp : bytes.

Definition char_at (pos : nat) : byte := default x00 (regexp !! pos).

Definition past (pos : nat) : bool := (length regexp <=? pos)%nat.

(** One literal, escaped or not, at [pos]. *)
Definition parse_literal (pos : nat) : M () (re_literal * nat) :=
  let escaped := bool_decide (char_at pos = x5c) in
  let pos := if escaped then S pos else pos in
  if past pos then throw (bfsRegExpressionError "Syntax error, missing literal")
  else lit ← nextLiteral (char_at pos) escaped; mret (lit, S pos).

(** [while ( (pos < regexp.length()) && (!done) )] of an or-list; [Some] when
    the closing bracket was found. *)
Fixpoint parse_orlist (fuel : nat) (lits : list re_literal) (pos : nat)
    : M () (list re_literal * nat) :=
  match fuel with
  | O => die Out_of_fuel
  | S fuel =>
      if past pos then throw (bfsRegExpressionError "Syntax error in regular expression")
      else if decide (char_at pos = "]"%byte) then mret (lits, S pos)
      else '(lit, pos) ← parse_literal pos; parse_orlist fuel (lits ++ [lit]) pos
  end.

Definition parse_modifier (pos : nat) : re_atommodifier * nat :=
  if decide (char_at pos = "*"%byte) then (RE_ZEROORMORE, S pos)
  else if decide (char_at pos = "+"%byte) then (RE_ONEORMORE, S pos)
  else if decide (char_at pos = "?"%byte) then (RE_ZEROORONE, S pos)
  else (RE_NOMODIFER, pos).

(** The walk over the expression; [fuel] bounds the characters left. *)
Fixpoint parseExpression (fuel : nat) (atomlist : list atom) (pos : nat)
    : M () (list atom * nat) :=
  match fuel with
  | O => die Out_of_fuel
  | S fuel =>
      let push mk pos :=
        let '(m, pos) := parse_modifier pos in
        parseExpression fuel (atomlist ++ [mk m]) pos in
      if past pos then mret (atomlist, pos)
      else if decide (char_at pos = "("%byte) then
        '(group, pos) ← parseExpression fuel [] (S pos);
        if decide (char_at pos = ")"%byte) then push (RE_GROUP group) (S pos)
        else throw (bfsRegExpressionError "Syntax error in regular expression")
      else if decide (char_at pos = ")"%byte) then mret (atomlist, pos)
      else if decide (char_at pos = "["%byte) then
        let inv := bool_decide (char_at (S pos) = "^"%byte) in
        '(lits, pos) ← parse_orlist (S (length regexp)) [] (if inv then S (S pos) else S pos);
        push (RE_ORLIST inv lits) pos
      else if decide (char_at pos = "]"%byte) then
        throw (bfsRegExpressionError "Syntax error in regular expression, unexpected or close")
      else
        '(lit, pos) ← parse_literal pos;
        push (RE_LITERAL lit) pos
  end.
End parse.

(** [createRegexpStateMachine]: where the walk stopped is not looked at. *)
Definition createRegexpStateMachine (regexp : bytes) : M () (list atom) :=
  '(atoms, _) ← parseExpression regexp (S (length regexp)) [] 0; mret atoms.

(** ** Generating the automaton *)

Record generator := mkGenerator {
  states : nat;
  smachine : list re_transition;
}.

Definition next_state : M generator nat :=
  s ← gets states; modify (fun g => mkGenerator (S (states g)) (smachine g)) ;; mret s.

Definition push_transition (t : re_transition) : M generator () :=
  modify (fun g => mkGenerator (states g) (smachine g ++ [t])).

Definition nil_transition (from to : nat) : re_transition :=
  mkTransition from to RE_NIL_LITERAL [] false.

Definition ADD_NIL_TRANSITION (from to : nat) : M generator () :=
  push_transition (nil_transition from to).

(** What a transition takes from an atom: its literal, or-list and inversion. *)
Definition lit_transition (lit : re_literal) (ors : list re_literal) (inv : bool) (from to : nat)
    : re_transition := mkTransition from to lit ors inv.

(** The transitions of a literal or an or-list atom. *)
Definition add_literal (tr : nat -> nat -> re_transition) (m : re_atommodifier) (from next : nat)
    : M generator () :=
  match m with
  | RE_NOMODIFER => push_transition (tr from next)
  | RE_ZEROORMORE =>
      push_transition (tr from next) ;; push_transition (tr from from) ;;
      ADD_NIL_TRANSITION from next
  | RE_ONEORMORE => push_transition (tr from next) ;; push_transition (tr from from)
  | RE_ZEROORONE => push_transition (tr from next) ;; ADD_NIL_TRANSITION from next
  end.

(** The transitions around a group that ends in [last]. *)
Definition add_group (m : re_atommodifier) (from last next : nat) : M generator () :=
  match m with
  | RE_NOMODIFER => ADD_NIL_TRANSITION last next
  | RE_ZEROORMORE =>
      ADD_NIL_TRANSITION last next ;; ADD_NIL_TRANSITION last from ;;
      ADD_NIL_TRANSITION from next
  | RE_ONEORMORE => ADD_NIL_TRANSITION last next ;; ADD_NIL_TRANSITION last from
  | RE_ZEROORONE => ADD_NIL_TRANSITION last next ;; ADD_NIL_TRANSITION from next
  end.

(** The loop over a list of atoms.  [next] is uninitialised before the first
    one: it is what an empty list returns. *)
Section generate.
Variable gen : atom -> nat -> M generator nat.

Fixpoint generate_loop (atms : list atom) (from : nat) (next : option nat) : M generator nat :=
  match atms with
  | [] => of_opt next
  | a :: atms => next ← gen a from; generate_loop atms next (Some next)
  end.
End generate.

Fixpoint generate_atom (a : atom) (from : nat) : M generator nat :=
  next ← next_state;
  match a with
  | RE_LITERAL lit m => add_literal (lit_transition lit [] false) m from next
  | RE_ORLIST inv ors m => add_literal (lit_transition RE_OR_LITERAL ors inv) m from next
  | RE_GROUP group m =>
      last ← generate_loop generate_atom group from None;
      add_group m from last next
  end ;;
  mret next.

Definition generateStateMachine (atms : list atom) (from : nat) : M generator nat :=
  generate_loop generate_atom atms from None.

(** ** Matching *)

Definition matchLiteral (lit : re_literal) (ch : byte) : M () bool :=
  match lit with
  | RE_NORMAL_LITERAL c => mret (bool_decide (c = ch))
  | RE_ANY_LITERAL => mret true
  | RE_WORD_LITERAL => mret (has_char re_WordChars ch)
  | RE_SPACE_LITERAL => mret (has_char re_SpaceChars ch)
  | RE_DIGIT_LITERAL => mret (has_char re_DigitChars ch)
  | RE_NIL_LITERAL | RE_OR_LITERAL =>
      throw (bfsRegExpressionError "Bad literal type in state machine, matching failed")
  end.

(** [for ( orit ...; (orit != end) && (!found); orit++ )] *)
Fixpoint or_found (ors : list re_literal) (ch : byte) : M () bool :=
  match ors with
  | [] => mret false
  | l :: ors => found ← matchLiteral l ch; if (found : bool) then mret true else or_found ors ch
  end.

Section matcher.
Variables (machine : list re_transition) (last_state : nat) (matchstr : bytes).

(** What the transition consumes of the character at [pos], if any. *)
Definition consumes (t : re_transition) (pos : nat) : M () bool :=
  match matchstr !! pos with
  | None => mret false
  | Some ch =>
      match literal t with
      | RE_OR_LITERAL => found ← or_found (orlist t) ch; mret (negb (Bool.eqb found (invert t)))
      | l => matchLiteral l ch
      end
  end.

(** The switch of [match] on a transition out of [state]: [rec] is the
    recursive call, [nils] the states a NIL transition was taken from since
    the last character. *)
Definition try_transition (rec : nat -> nat -> list nat -> M () bool) (state pos : nat)
    (nils : list nat) (t : re_transition) : M () bool :=
  match literal t with
  | RE_NIL_LITERAL =>
      if decide (state ∈ nils) then mret false else rec (tostate t) pos (nils ++ [state])
  | _ =>
      c ← consumes t pos;
      if (c : bool) then rec (tostate t) (S pos) [] else mret false
  end.

(** The loop of [match] over the transitions. *)
Fixpoint match_walk (rec : nat -> nat -> list nat -> M () bool) (state pos : nat) (nils : list nat)
    (ts : list re_transition) : M () bool :=
  match ts with
  | [] => mret ((length matchstr <=? pos)%nat && (state =? last_state)%nat)
  | t :: ts =>
      if (fromstate t =? state)%nat then
        ok ← try_transition rec state pos nils t;
        if (ok : bool) then mret true else match_walk rec state pos nils ts
      else match_walk rec state pos nils ts
  end.

(** [match(state, matchstr, pos, depth, nils)] *)
Fixpoint match_state (fuel : nat) (state pos : nat) (nils : list nat) : M () bool :=
  match fuel with
  | O => die Out_of_fuel
  | S fuel => match_walk (match_state fuel) state pos nils machine
  end.
End matcher.

(** ** The object *)

Record bfsRegExpression := mkRegExpression {
  machine : list atom;
  last_state : nat;
  re_states : nat;
  re_smachine : list re_transition;
}.

Definition setExpression (re : bytes) : M () bfsRegExpression := fun s =>
  match createRegexpStateMachine re s with
  | Ok atoms s =>
      match generateStateMachine atoms 0 (mkGenerator 1 []) with
      | Ok last g => Ok (mkRegExpression atoms last (states g) (smachine g)) s
      | Throw e _ => Throw e s
      | Crash c => Crash c
      end
  | Throw e s => Throw e s
  | Crash c => Crash c
  end.

(** Calls nest at most once per state and per character left. *)
Definition match_fuel (e : bfsRegExpression) (matchstr : bytes) : nat :=
  (S (length matchstr) * S (re_states e))%nat.

Definition match_ (e : bfsRegExpression) (matchstr : bytes) : M () bool :=
  match_state (re_smachine e) (last_state e) matchstr (match_fuel e matchstr) 0 0 [].

(** ** Examples *)

Definition matches_string (re s : bytes) : option bool :=
  match (e ← setExpression re; match_ e s) () with Ok b _ => Some b | _ => None end.

Example unit_test_1 :
  matches_string (str "a*bc[^d]+e?.*") (str "aabcZef") = Some true /\
  matches_string (str "hiyw+v+way*(u[^k\(f]+va*)\[?") (str "hiywwwwwvvwayyyyutwhlv[") = Some true /\
  matches_string (str "(m)+(s?)+") (str "mmm") = Some true /\
  matches_string (str "[\w\.\+\/=]+") (str "a/b.c+d=e_1") = Some true /\
  matches_string (str "[\w\.\+\/=]+") (str "a[0]") = Some false.
Proof. by vm_compute. Qed.
End RegExp.
