(* ===== verification/BfsLog.v ===== *)
(** * Logging

    Models [bfs_utils/bfs_log.cpp]: the table of log levels, switching levels
    on and off, and the entry that a message becomes.  The text that
    [vsnprintf] makes of a message, the time and the results of [open] and
    [write] are parameters of the calls; entries go to the list [written]. *)
From S2P Require Import Prelude RegExp BfsUtil.
Import Init.Byte.

Module BfsLog.

Definition MAX_LOG_LEVEL : nat := 32.
Definition MAX_LOG_MESSAGE_SIZE : Z := 1024.
Definition LOG_ERROR_LEVEL : Z := 1.
Definition DEFAULT_LOG_LEVEL : Z := Z.lor (Z.lor 1 2) 8.
Definition LOG_SERVICE_NAME : bytes := str "bfs.log".
Definition STDOUT_FILENO : Z := 1.

(** The globals of the file, and what was written to which handle. *)
Record t := mkLog {
  loggingInitialzed : bool;
  logLevel : Z;
  descriptors : list (option bytes);
  logFilename : option bytes;
  fileHandle : Z;
  echoHandle : Z;
  errored : Z;
  written : list (Z * bytes);
}.

Definition set_level (l : Z) (s : t) : t :=
  mkLog (loggingInitialzed s) l (descriptors s) (logFilename s) (fileHandle s) (echoHandle s) (errored s) (written s).
Definition set_descriptors (d : list (option bytes)) (s : t) : t :=
  mkLog (loggingInitialzed s) (logLevel s) d (logFilename s) (fileHandle s) (echoHandle s) (errored s) (written s).
Definition set_file (f : option bytes) (h : Z) (s : t) : t :=
  mkLog (loggingInitialzed s) (logLevel s) (descriptors s) f h (echoHandle s) (errored s) (written s).
Definition set_echo (h : Z) (s : t) : t :=
  mkLog (loggingInitialzed s) (logLevel s) (descriptors s) (logFilename s) (fileHandle s) h (errored s) (written s).
Definition set_errored (e : Z) (s : t) : t :=
  mkLog (loggingInitialzed s) (logLevel s) (descriptors s) (logFilename s) (fileHandle s) (echoHandle s) e (written s).
Definition write_to (h : Z) (d : bytes) (s : t) : t :=
  mkLog (loggingInitialzed s) (logLevel s) (descriptors s) (logFilename s) (fileHandle s) (echoHandle s) (errored s)
    (written s ++ [(h, d)]).

(** Static storage before the first call. *)
Definition start : t := mkLog false 0 (replicate MAX_LOG_LEVEL None) None (-1) (-1) 0 [].

(** [lvl = 1 << i] of type [int], then converted to [unsigned long]. *)
Definition level_bit (i : Z) : Z :=
  let v := u32 (Z.shiftl 1 i) in u64 (if v <? 2 ^ 31 then v else v - 2 ^ 32).

(** ** Levels *)

Fixpoint free_slot (ds : list (option bytes)) (i : nat) : option nat :=
  match ds with
  | [] => None
  | None :: _ => Some i
  | Some _ :: ds => free_slot ds (S i)
  end.

(** [registerLogLevel] once logging is set up; [-1] is the largest
    [unsigned long]. *)
Definition register_level (descriptor : bytes) (enable : bool) : M t Z :=
  ds ← gets descriptors;
  match free_slot ds 0 with
  | None => mret (u64 (-1))
  | Some i =>
      let lvl := level_bit (Z.of_nat i) in
      (if enable then modify (fun s => set_level (Z.lor (logLevel s) lvl) s) else mret ()) ;;
      modify (fun s => set_descriptors (<[i := Some descriptor]> (descriptors s)) s) ;;
      mret lvl
  end.

Definition initializeLogging : M t Z :=
  s ← get;
  if loggingInitialzed s then mret 0 else
  modify (fun s => mkLog true (logLevel s) (replicate MAX_LOG_LEVEL None) (Some LOG_SERVICE_NAME)
                     STDOUT_FILENO (-1) 0 (written s)) ;;
  register_level (str "ERROR") true ;;
  register_level (str "WARNING") true ;;
  register_level (str "INFO") false ;;
  register_level (str "OUTPUT") true ;;
  modify (set_level DEFAULT_LOG_LEVEL) ;;
  mret 0.

Definition registerLogLevel (descriptor : bytes) (enable : bool) : M t Z :=
  initializeLogging ;; register_level descriptor enable.

Definition enableLogLevels (lvl : Z) : M t () :=
  initializeLogging ;; modify (fun s => set_level (Z.lor (logLevel s) lvl) s).

Definition disableLogLevels (lvl : Z) : M t () :=
  initializeLogging ;; modify (fun s => set_level (Z.land (logLevel s) (Z.lxor lvl 0xffffffff)) s).

Definition levelEnabled (lvl : Z) : M t bool :=
  initializeLogging ;; l ← gets logLevel; mret (negb (Z.land l lvl =? 0)).

Definition setEchoDescriptor (eh : Z) : M t () := initializeLogging ;; modify (set_echo eh).

Definition initializeLogWithFilename (logname : option bytes) : M t Z :=
  initializeLogging ;;
  modify (set_file (Some (default LOG_SERVICE_NAME logname)) (-1)) ;; mret 0.

Definition initializeLogWithFilehandle (out : Z) : M t Z :=
  initializeLogging ;; modify (fun s => set_file (logFilename s) out s) ;; mret 0.

Definition freeLogRegistrations : M t Z :=
  initializeLogging ;; modify (fun s => set_descriptors (map (fun _ => None) (descriptors s)) s) ;; mret 0.

(** ** Buffers in hexadecimal *)

Definition hex_digit (n : Z) : byte := z2b (if n <? 10 then 48 + n else 87 + n).

(** ["0x%02x%s"] *)
Definition hex_byte (b : byte) (more : bool) : bytes :=
  str "0x" ++ [hex_digit (b2z b / 16); hex_digit (b2z b mod 16)] ++ (if more then str " " else []).

(** The bytes from [i] on; [strncat] may take [slen - strlen(str)] characters,
    more than the piece has. *)
Fixpoint hex_loop (buf : bytes) (i : Z) (s : bytes) (slen : Z) : bytes :=
  match buf with
  | [] => s
  | b :: buf =>
      if (i <? 128) && (zlen s + 5 <? slen)
      then hex_loop buf (i + 1) (s ++ take (Z.to_nat (slen - zlen s)) (hex_byte b (negb (zlen buf =? 0)))) slen
      else s
  end.

(** The characters before the terminating zero; the length is compared as an
    [int]. *)
Definition bufToString (buf : bytes) (slen : Z) : bytes :=
  if zlen buf <? 2 ^ 31 then hex_loop buf 0 [] slen else [].

(** ** Messages *)

(** The size of [tbuf] and [msg]. *)
Definition entry_size : Z := MAX_LOG_MESSAGE_SIZE + 256.

(** [strncat(tbuf, d, n)]: with its terminating zero the result has to fit. *)
Definition strncat (n : Z) (d tbuf : bytes) : option bytes :=
  let r := tbuf ++ take (Z.to_nat n) d in
  if zlen r <? entry_size then Some r else None.

Fixpoint level_names (ds : list (option bytes)) (i : Z) (on : Z) (first : bool) (tbuf : bytes) : option bytes :=
  match ds with
  | [] => Some tbuf
  | d :: ds =>
      if Z.land on (level_bit i) =? 0 then level_names ds (i + 1) on first tbuf
      else
        tbuf ← if first then Some tbuf else strncat (MAX_LOG_MESSAGE_SIZE - 1) (str ",") tbuf;
        tbuf ← strncat (MAX_LOG_MESSAGE_SIZE - 1) (default (str "*BAD LEVEL*") d) tbuf;
        level_names ds (i + 1) on false tbuf
  end.

(** The entry of a message: [now] is [ctime] without its newline, [msg] what
    [vsnprintf] would print, of which 1023 characters are kept. *)
Definition log_entry (ds : list (option bytes)) (on : Z) (now msg : bytes) : option bytes :=
  tbuf ← strncat (MAX_LOG_MESSAGE_SIZE - 1) (str " [") now;
  tbuf ← level_names ds 0 on true tbuf;
  tbuf ← strncat (MAX_LOG_MESSAGE_SIZE - 1) (str "] ") tbuf;
  tbuf ← strncat MAX_LOG_MESSAGE_SIZE (take (Z.to_nat (MAX_LOG_MESSAGE_SIZE - 1)) msg) tbuf;
  if bool_decide (last tbuf = Some x0a) then Some tbuf
  else strncat (MAX_LOG_MESSAGE_SIZE - 1) [x0a] tbuf.

(** [openLog]; [opened] is the result of [open]. *)
Definition openLog (opened : Z) : M t Z :=
  initializeLogging ;;
  f ← gets logFilename;
  match f with
  | None => modify (set_file None 2)
  | Some f =>
      modify (set_file (Some f) opened) ;;
      if opened =? -1 then modify (set_errored 1) else mret ()
  end ;;
  gets errored.

(** [vlogMessage]; [ret] is the result of the last [write], which is returned
    whether it is the whole entry or not. *)
Definition vlogMessage (lvl : Z) (now msg : bytes) (opened ret : Z) : M t Z :=
  initializeLogging ;;
  on ← levelEnabled lvl;
  if negb on then mret 0 else
  h ← gets fileHandle;
  (if h =? -1 then openLog opened ;; mret () else mret ()) ;;
  e ← gets errored;
  if negb (e =? 0) then mret e else
  s ← get;
  tbuf ← of_opt (log_entry (descriptors s) (Z.land (logLevel s) lvl) now msg);
  (if echoHandle s =? -1 then mret () else modify (write_to (echoHandle s) tbuf)) ;;
  modify (write_to (fileHandle s) tbuf) ;;
  mret ret.

Definition logMessage (lvl : Z) (now msg : bytes) (opened ret : Z) : M t Z :=
  initializeLogging ;; vlogMessage lvl now msg opened ret.

(** [logAssert]: a false expression is logged twice and ends the process. *)
Definition logAssert (expr : bool) (now place msg : bytes) (opened ret : Z) : M t Z :=
  if expr then mret 0 else
  initializeLogging ;;
  logMessage LOG_ERROR_LEVEL now place opened ret ;;
  vlogMessage LOG_ERROR_LEVEL now msg opened ret ;;
  die Assertion_failed.

Definition logBufferMessage (lvl : Z) (label buf now : bytes) (opened ret : Z) : M t Z :=
  initializeLogging ;;
  on ← levelEnabled lvl;
  if negb on then mret 0
  else logMessage lvl now (label ++ str " : " ++ bufToString buf 128) opened ret.

(** [closeLog]: the descriptors are freed but stay in the table. *)
Definition closeLog : M t Z :=
  initializeLogging ;; modify (fun s => set_file (logFilename s) (-1) s) ;; mret 0.

(** ** Levels are bits *)

Lemma level_bit_small i : 0 <= i < 31 -> level_bit i = 2 ^ i.
Proof.
  intros Hi. unfold level_bit. rewrite Z.shiftl_1_l.
  assert (0 < 2 ^ i < 2 ^ 31) as Hb by (split; [apply Z.pow_pos_nonneg; lia|apply Z.pow_lt_mono_r; lia]).
  rewrite u32_small by lia. assert (2 ^ i <? 2 ^ 31 = true) as -> by lia. apply u64_small. lia.
Qed.

Lemma level_bit_last : level_bit 31 = 2 ^ 64 - 2 ^ 31.
Proof. by vm_compute. Qed.

(** Is the level of slot [j] on? *)
Definition enabled (s : t) (j : Z) : bool := negb (Z.land (logLevel s) (level_bit j) =? 0).

Lemma enabled_testbit s j : 0 <= j < 31 -> enabled s j = Z.testbit (logLevel s) j.
Proof.
  intros Hj. unfold enabled. rewrite level_bit_small, Z.land_comm, <-Z.shiftl_1_l by done. apply test_mask. lia.
Qed.

Lemma initialized_done s : loggingInitialzed s = true -> initializeLogging s = Ok 0 s.
Proof. intros Hs. unfold initializeLogging. rewrite bind_get. by rewrite Hs. Qed.

(** A level bit below bit 32, and the mask [disableLogLevels] makes of it. *)
Lemma level_bit_testbit i j : 0 <= i < 31 -> 0 <= j < 31 -> Z.testbit (level_bit i) j = (j =? i).
Proof.
  intros Hi Hj. rewrite level_bit_small by done. destruct (Z.eqb_spec j i) as [->|Hne].
  - apply Z.pow2_bits_true. lia.
  - apply Z.pow2_bits_false. lia.
Qed.

Lemma disable_mask_testbit i j : 0 <= i < 31 -> 0 <= j < 31 ->
  Z.testbit (Z.lxor (level_bit i) 0xffffffff) j = negb (j =? i).
Proof.
  intros Hi Hj. rewrite Z.lxor_spec, level_bit_testbit by done.
  change 0xffffffff with (Z.ones 32). rewrite Z.ones_spec_low by lia. apply xorb_true_r.
Qed.

Lemma level_bits_disjoint i j : 0 <= i <= 31 -> 0 <= j <= 31 -> i <> j -> Z.land (level_bit i) (level_bit j) = 0.
Proof.
  intros Hi Hj Hne. 
  assert (forall i j, 0 <= i < 31 -> 0 <= j <= 31 -> i <> j -> Z.land (level_bit i) (level_bit j) = 0) as Hlow.
  { clear. intros i j Hi Hj Hne. rewrite (level_bit_small i), <-Z.shiftl_1_l by done.
    assert (Z.testbit (level_bit j) i = false) as Ht.
    { destruct (decide (j = 31)) as [->|Hj'].
      - rewrite level_bit_last. replace (2 ^ 64 - 2 ^ 31) with (Z.shiftl (2 ^ 33 - 1) 31) by done.
        apply Z.shiftl_spec_low. lia.
      - rewrite level_bit_testbit by lia. lia. }
    pose proof (test_mask i (level_bit j) ltac:(lia)) as Hm. rewrite Ht in Hm.
    apply negb_false_iff, Z.eqb_eq in Hm. done. }
  destruct (decide (i = 31)) as [->|Hi31]; [rewrite Z.land_comm|]; apply Hlow; lia.
Qed.

(** Log levels.  Switching one of the first 31 levels on or off changes this
    level and none of the other 30.  The last level, whose bit is the sign of
    an [int], stays on when it is switched off. *)
Theorem log_levels_independent s i j :
  loggingInitialzed s = true -> 0 <= i < 31 -> 0 <= j < 31 ->
  (exists s', enableLogLevels (level_bit i) s = Ok () s' /\ enabled s' j = (j =? i) || enabled s j) /\
  (exists s', disableLogLevels (level_bit i) s = Ok () s' /\ enabled s' j = negb (j =? i) && enabled s j) /\
  (exists s', (enableLogLevels (level_bit 31) ;; disableLogLevels (level_bit 31)) s = Ok () s' /\ enabled s' 31 = true).
Proof.
  intros Hs Hi Hj. unfold enableLogLevels, disableLogLevels.
  rewrite !(bind_Ok _ _ _ _ _ (initialized_done s Hs)). split_and!.
  - eexists. split; [done|]. rewrite !enabled_testbit by done. cbn. rewrite Z.lor_spec, level_bit_testbit by done.
    apply orb_comm.
  - eexists. split; [done|]. rewrite !enabled_testbit by done. cbn. rewrite Z.land_spec, disable_mask_testbit by done.
    apply andb_comm.
  - rewrite bind_assoc, (bind_Ok _ _ _ _ _ (initialized_done s Hs)), bind_modify.
    rewrite (bind_Ok _ _ _ _ _ (initialized_done (set_level _ s) Hs)). eexists. split; [done|].
    unfold enabled. cbn [logLevel set_level]. rewrite <-Z.land_assoc.
    set (m := Z.land (Z.lxor (level_bit 31) 4294967295) (level_bit 31)).
    apply negb_true_iff, Z.eqb_neq. intros H0. apply (f_equal (fun z => Z.testbit z 40)) in H0.
    rewrite Z.land_spec, Z.lor_spec, Z.bits_0 in H0. replace (Z.testbit m 40) with true in H0 by done.
    replace (Z.testbit (level_bit 31) 40) with true in H0 by done. rewrite orb_true_r in H0. done.
Qed.

Lemma log_levels_independent_witness :
  exists s, initializeLogging start = Ok 0 s /\ enabled s 2 = false /\
  (exists s', enableLogLevels (level_bit 2) s = Ok () s' /\ enabled s' 2 = (2 =? 2) || enabled s 2) /\
  (exists s', disableLogLevels (level_bit 2) s = Ok () s' /\ enabled s' 2 = negb (2 =? 2) && enabled s 2) /\
  (exists s', (enableLogLevels (level_bit 31) ;; disableLogLevels (level_bit 31)) s = Ok () s' /\ enabled s' 31 = true).
Proof.
  eexists. split; [vm_compute; reflexivity|]. split; [done|]. apply log_levels_independent; [done|lia|lia].
Defined.

(** ** Registering a level *)

Lemma level_slot_Some ds i k :
  free_slot ds i = Some k -> exists n, k = (i + n)%nat /\ ds !! n = Some None /\ forall m, (m < n)%nat -> exists d, ds !! m = Some (Some d).
Proof.
  revert i. induction ds as [|[d|] ds IH]; intros i; cbn; [done| |].
  - intros (n & -> & Hn & Hm)%IH. exists (S n). split_and!; [lia|done|].
    intros [|m] Hlt; [by eexists|]. apply Hm. lia.
  - intros [= <-]. exists O. split_and!; [lia|done|]. intros. lia.
Qed.

(** A registered level is a bit no registered level has. *)
Lemma registerLogLevel_fresh s name en i :
  loggingInitialzed s = true -> free_slot (descriptors s) 0 = Some i -> (i < MAX_LOG_LEVEL)%nat ->
  exists s', registerLogLevel name en s = Ok (level_bit (Z.of_nat i)) s' /\
    descriptors s' = <[i := Some name]> (descriptors s) /\
    forall j d, descriptors s !! j = Some (Some d) -> (j < MAX_LOG_LEVEL)%nat ->
      Z.land (level_bit (Z.of_nat i)) (level_bit (Z.of_nat j)) = 0.
Proof.
  intros Hs Hi Hlt. unfold registerLogLevel. rewrite (bind_Ok _ _ _ _ _ (initialized_done s Hs)).
  unfold register_level. rewrite bind_gets, Hi.
  apply level_slot_Some in Hi as (n & -> & Hn & _). cbn [Nat.add] in *. unfold MAX_LOG_LEVEL in *.
  destruct en; (eexists; split; [done|]); (split; [done|]); intros j d Hj Hj'; apply level_bits_disjoint; try lia;
    intros ->%Nat2Z.inj; congruence.
Qed.

(** ** Entries *)

(** A buffer in hexadecimal fits with its terminating zero. *)
Lemma bufToString_fits buf slen : 0 < slen -> zlen (bufToString buf slen) < slen.
Proof.
  intros Hs. unfold bufToString. destruct (_ <? _); [|done].
  assert (forall i s, zlen s < slen -> zlen (hex_loop buf i s slen) < slen) as Hl; [|by apply Hl].
  induction buf as [|b buf IH]; intros i s Hz; [done|]. cbn [hex_loop].
  destruct ((i <? 128) && (zlen s + 5 <? slen)) eqn:Hc; [|done]. apply andb_true_iff in Hc as [_ Hc].
  apply IH. rewrite zlen_app.
  assert (zlen (hex_byte b (negb (zlen buf =? 0))) <= 5) as Hh by (unfold hex_byte; by destruct (negb _)).
  unfold zlen in *. rewrite length_take. lia.
Qed.

Lemma strncat_fits n d tbuf : zlen d <= n -> zlen tbuf + zlen d < entry_size -> strncat n d tbuf = Some (tbuf ++ d).
Proof.
  intros Hn Hf. unfold strncat. rewrite take_ge by (unfold zlen in *; lia). rewrite zlen_app.
  by assert (zlen tbuf + zlen d <? entry_size = true) as -> by lia.
Qed.

(** Append a piece whose length is known by computation or from the context. *)
Ltac append_fits :=
  rewrite strncat_fits;
    [ cbn [mbind option_bind]
    | first [unfold MAX_LOG_MESSAGE_SIZE; lia|by vm_compute]
    | repeat rewrite zlen_app; try change (zlen (str " [")) with 2; try change (zlen (str "] ")) with 2;
      try change (zlen [x0a]) with 1; unfold entry_size, MAX_LOG_MESSAGE_SIZE; lia ].

Lemma level_names_none ds k on first tbuf :
  (forall m, (m < length ds)%nat -> Z.land on (level_bit (k + Z.of_nat m)) = 0) -> level_names ds k on first tbuf = Some tbuf.
Proof.
  revert k. induction ds as [|d ds IH]; intros k Hm; [done|]. cbn [level_names].
  pose proof (Hm O ltac:(cbn; lia)) as H0. rewrite Z.add_0_r in H0. rewrite H0. cbn [Z.eqb].
  apply IH. intros m Hlt. specialize (Hm (S m) ltac:(cbn; lia)). by replace (k + 1 + Z.of_nat m) with (k + Z.of_nat (S m)) by lia.
Qed.

Lemma level_names_one ds k on n d tbuf :
  ds !! n = Some d -> Z.land on (level_bit (k + Z.of_nat n)) <> 0 ->
  (forall m, (m < length ds)%nat -> m <> n -> Z.land on (level_bit (k + Z.of_nat m)) = 0) ->
  level_names ds k on true tbuf = strncat (MAX_LOG_MESSAGE_SIZE - 1) (default (str "*BAD LEVEL*") d) tbuf.
Proof.
  revert k n. induction ds as [|d' ds IH]; intros k n Hn Hon Hoff; [done|]. cbn [level_names].
  destruct n as [|n].
  - cbn in Hn. simplify_eq. rewrite Z.add_0_r in Hon. destruct (Z.eqb_spec (Z.land on (level_bit k)) 0); [done|].
    cbn [mbind option_bind]. destruct (strncat _ _ tbuf) as [tb|]; [|done]. cbn [mbind option_bind]. apply level_names_none.
    intros m Hlt. specialize (Hoff (S m) ltac:(cbn; lia) ltac:(lia)). by replace (k + 1 + Z.of_nat m) with (k + Z.of_nat (S m)) by lia.
  - pose proof (Hoff O ltac:(cbn; lia) ltac:(lia)) as H0. rewrite Z.add_0_r in H0. rewrite H0. cbn [Z.eqb].
    apply (IH (k + 1) n Hn); [by replace (k + 1 + Z.of_nat n) with (k + Z.of_nat (S n)) by lia|].
    intros m Hlt Hne. specialize (Hoff (S m) ltac:(cbn; lia) ltac:(lia)). by replace (k + 1 + Z.of_nat m) with (k + Z.of_nat (S m)) by lia.
Qed.

(** The entry of a message at one registered level: the time, the name of the
    level and the first 1023 characters of the message fit into the buffer when
    the name has at most 227 characters. *)
Theorem log_entry_one_level ds i d now msg :
  length ds = MAX_LOG_LEVEL -> ds !! i = Some (Some d) -> zlen d <= 227 -> zlen now = 24 ->
  exists nl, log_entry ds (level_bit (Z.of_nat i)) now msg =
    Some (now ++ str " [" ++ d ++ str "] " ++ take 1023 msg ++ nl) /\ (nl = [] \/ nl = [x0a]).
Proof.
  intros Hl Hi Hd Hnow. pose proof (lookup_lt_Some _ _ _ Hi) as Hlt. rewrite Hl in Hlt. unfold MAX_LOG_LEVEL in *.
  assert (zlen (take 1023 msg) <= 1023) as Hm by (unfold zlen; rewrite length_take; lia).
  unfold log_entry. unfold MAX_LOG_MESSAGE_SIZE, entry_size in *. pose proof (zlen_nonneg d).
  change (Z.to_nat (1024 - 1)) with 1023%nat.
  append_fits.
  rewrite (level_names_one ds 0 _ i (Some d)); [|done| |].
  2: { rewrite Z.add_0_l, Z.land_diag. intros H0.
       destruct (decide (Z.of_nat i = 31)) as [He|]; [by rewrite He in H0|].
       rewrite level_bit_small in H0 by lia. pose proof (Z.pow_pos_nonneg 2 (Z.of_nat i)). lia. }
  2: { intros m Hlm Hne. rewrite Z.add_0_l. apply level_bits_disjoint; lia. }
  change (default (str "*BAD LEVEL*") (Some d)) with d.
  append_fits.
  append_fits.
  append_fits.
  case_bool_decide.
  - exists []. split; [|by left]. by rewrite app_nil_r, <-!app_assoc.
  - exists [x0a]. split; [|by right].
    append_fits. by rewrite <-!app_assoc.
Qed.

(** All levels at once and a long message do not fit: [strncat] bounds what is
    appended, not the whole. *)
Example log_entry_overflow :
  log_entry (replicate 32 (Some (str "A_LEVEL"))) (u64 (-1)) (replicate 24 "t"%byte) (replicate 1023 "m"%byte) = None.
Proof. by vm_compute. Qed.
End BfsLog.
