(* ===== verification/RegExpSpec.v ===== *)
(** * What the regular expressions mean and what the automaton accepts

    The language of an expression ([seq_lang]), the paths of an automaton
    ([run]), the automaton of an expression as a pure function ([frag_list]),
    and the theorems that connect them: the matcher decides the existence of a
    path, every word of the language has one, and no other word has one when
    no optional group starts with a loop. *)
From S2P Require Import Prelude RegExp.
Import Init.Byte RegExp.

Module RegExpSpec.

(** ** Words and languages *)

Abbreviation lang := (bytes -> Prop).

Definition cat (K L : lang) : lang := fun w => exists u v, w = u ++ v /\ K u /\ L v.

Inductive star (L : lang) : lang :=
  | star_nil : star L []
  | star_app u v : L u -> star L v -> star L (u ++ v).

Definition modified (m : re_atommodifier) (L : lang) : lang :=
  match m with
  | RE_NOMODIFER => L
  | RE_ZEROORMORE => star L
  | RE_ONEORMORE => cat L (star L)
  | RE_ZEROORONE => fun w => w = [] \/ L w
  end.

(** The characters of a literal. *)
Definition lit_char (l : re_literal) (c : byte) : bool :=
  match l with
  | RE_NORMAL_LITERAL d => bool_decide (d = c)
  | RE_ANY_LITERAL => true
  | RE_WORD_LITERAL => has_char re_WordChars c
  | RE_SPACE_LITERAL => has_char re_SpaceChars c
  | RE_DIGIT_LITERAL => has_char re_DigitChars c
  | RE_NIL_LITERAL | RE_OR_LITERAL => false
  end.

Definition or_char (inv : bool) (ors : list re_literal) (c : byte) : bool :=
  negb (Bool.eqb (existsb (fun l => lit_char l c) ors) inv).

Definition one_char (p : byte -> bool) : lang := fun w => exists c, w = [c] /\ p c = true.

Fixpoint atom_lang (a : atom) : lang :=
  match a with
  | RE_LITERAL l m => modified m (one_char (lit_char l))
  | RE_ORLIST inv ors m => modified m (one_char (or_char inv ors))
  | RE_GROUP g m => modified m (foldr (fun a L => cat (atom_lang a) L) (fun w => w = []) g)
  end.

Definition seq_lang (g : list atom) : lang := foldr (fun a L => cat (atom_lang a) L) (fun w => w = []) g.

Lemma atom_lang_group g m : atom_lang (RE_GROUP g m) = modified m (seq_lang g).
Proof. done. Qed.

(** Induction over atoms, with the hypothesis for every member of a group. *)
Section atom_ind.
Variable P : atom -> Prop.
Hypothesis P_lit : forall l m, P (RE_LITERAL l m).
Hypothesis P_or : forall inv ors m, P (RE_ORLIST inv ors m).
Hypothesis P_group : forall g m, Forall P g -> P (RE_GROUP g m).

Fixpoint atom_rect' (a : atom) : P a :=
  match a with
  | RE_LITERAL l m => P_lit l m
  | RE_ORLIST inv ors m => P_or inv ors m
  | RE_GROUP g m =>
      P_group g m ((fix go (g : list atom) : Forall P g :=
        match g with
        | [] => List.Forall_nil P
        | a :: g => List.Forall_cons P a g (atom_rect' a) (go g)
        end) g)
  end.
End atom_ind.

(** ** Well-formed atoms

    The literals an expression can hold; an empty group has no state to
    return to. *)
Definition simple_lit (l : re_literal) : bool :=
  match l with RE_NIL_LITERAL | RE_OR_LITERAL => false | _ => true end.

Fixpoint wf_atom (a : atom) : bool :=
  match a with
  | RE_LITERAL l _ => simple_lit l
  | RE_ORLIST _ ors _ => forallb simple_lit ors
  | RE_GROUP g _ => forallb wf_atom g
  end.

Fixpoint no_empty_group (a : atom) : bool :=
  match a with
  | RE_GROUP g _ => match g with [] => false | _ => forallb no_empty_group g end
  | _ => true
  end.

Definition nonempty_atoms (g : list atom) : bool :=
  match g with [] => false | _ => forallb no_empty_group g end.

(** ** Paths of an automaton *)

Definition consumes_char (t : re_transition) (c : byte) : bool :=
  match literal t with
  | RE_NIL_LITERAL => false
  | RE_OR_LITERAL => or_char (invert t) (orlist t) c
  | l => lit_char l c
  end.

Definition is_nil (t : re_transition) : bool :=
  match literal t with RE_NIL_LITERAL => true | _ => false end.

Inductive run (E : list re_transition) : nat -> bytes -> nat -> Prop :=
  | run_refl s : run E s [] s
  | run_nil t w s' : t ∈ E -> is_nil t = true -> run E (tostate t) w s' -> run E (fromstate t) w s'
  | run_char t c w s' : t ∈ E -> consumes_char t c = true -> run E (tostate t) w s' ->
      run E (fromstate t) (c :: w) s'.

Lemma run_app E s u t v r : run E s u t -> run E t v r -> run E s (u ++ v) r.
Proof.
  induction 1 as [s|tr w s' Hin Hn Hr IH|tr c w s' Hin Hn Hr IH]; intros Hv; cbn.
  - done.
  - by apply run_nil; [| |apply IH].
  - by apply run_char; [| |apply IH].
Qed.

Lemma run_mono E E' s w t : E ⊆ E' -> run E s w t -> run E' s w t.
Proof. intros Hsub. induction 1; [apply run_refl|apply run_nil|apply run_char]; by auto. Qed.

Lemma run_step_nil E from to : nil_transition from to ∈ E -> run E from [] to.
Proof. intros Hin. apply (run_nil E _ [] to Hin eq_refl), run_refl. Qed.

Lemma run_step_char E t c : t ∈ E -> consumes_char t c = true -> run E (fromstate t) [c] (tostate t).
Proof. intros Hin Hc. by apply run_char, run_refl. Qed.

(** A path is followed by the transitions of a part of the automaton as long
    as it stays in the states of that part. *)
Lemma run_closed E1 E2 (S2 : nat -> Prop) s w t :
  (forall tr, tr ∈ E1 -> S2 (fromstate tr) -> False) ->
  (forall tr, tr ∈ E2 -> S2 (tostate tr)) ->
  run (E1 ++ E2) s w t -> S2 s -> run E2 s w t.
Proof.
  intros H1 H2. induction 1 as [s|tr w s' Hin Hn Hr IH|tr c w s' Hin Hn Hr IH]; intros Hs.
  - apply run_refl.
  - apply elem_of_app in Hin as [Hin|Hin]; [by destruct (H1 _ Hin Hs)|].
    apply run_nil; [done..|]. by apply IH, H2.
  - apply elem_of_app in Hin as [Hin|Hin]; [by destruct (H1 _ Hin Hs)|].
    apply run_char; [done..|]. by apply IH, H2.
Qed.

(** Two parts joined in the state [x] split every path that crosses. *)
Lemma run_split E1 E2 (S1 S2 : nat -> Prop) x s w t :
  (forall n, S1 n -> S2 n -> False) -> S2 x ->
  (forall tr, tr ∈ E1 -> S1 (fromstate tr) /\ (S1 (tostate tr) \/ tostate tr = x)) ->
  (forall tr, tr ∈ E2 -> S2 (fromstate tr) /\ S2 (tostate tr)) ->
  run (E1 ++ E2) s w t -> S1 s -> S2 t -> cat (fun u => run E1 s u x) (fun v => run E2 x v t) w.
Proof.
  intros Hd Hx H1 H2. 
  assert (forall s' w', run (E1 ++ E2) s' w' t -> S2 s' -> run E2 s' w' t) as Hright.
  { intros. eapply run_closed; [..|done|done].
    - intros tr Htr ?. by eapply Hd; [apply H1, Htr|].
    - intros tr Htr. by apply H2. }
  assert (forall tr w', tr ∈ E1 -> run (E1 ++ E2) (tostate tr) w' t ->
    (S1 (tostate tr) -> cat (fun u => run E1 (tostate tr) u x) (fun v => run E2 x v t) w') ->
    cat (fun u => run E1 (tostate tr) u x) (fun v => run E2 x v t) w') as Hcross.
  { intros tr w' Hin Hr IH. destruct (H1 _ Hin) as [_ [Ht1|Heq]]; [by apply IH|].
    exists [], w'. rewrite Heq in Hr |- *. split; [done|]. split; [apply run_refl|by apply Hright]. }
  clear Hright. induction 1 as [s|tr w s' Hin Hn Hr IH|tr c w s' Hin Hn Hr IH]; intros Hs Ht.
  - by destruct (Hd s).
  - apply elem_of_app in Hin as [Hin|Hin]; [|by destruct (Hd (fromstate tr)); [|apply H2]].
    destruct (Hcross tr w Hin Hr) as (u & v & -> & Hu & Hv); [by auto|].
    exists u, v. split; [done|]. split; [by apply run_nil|done].
  - apply elem_of_app in Hin as [Hin|Hin]; [|by destruct (Hd (fromstate tr)); [|apply H2]].
    destruct (Hcross tr w Hin Hr) as (u & v & -> & Hu & Hv); [by auto|].
    exists (c :: u), v. split; [done|]. split; [by apply run_char|done].
Qed.

Definition loops (m : re_atommodifier) : bool :=
  match m with RE_ZEROORMORE | RE_ONEORMORE => true | _ => false end.

Definition skips (m : re_atommodifier) : bool :=
  match m with RE_ZEROORMORE | RE_ZEROORONE => true | _ => false end.

(** ** The automaton as a pure function

    [frag_atom a from n]: the transitions generated for [a] when it is entered
    in state [from] and [n] is the first unused state, which becomes the state
    it ends in, and the first state unused afterwards. *)
Definition lit_edges (tr : nat -> nat -> re_transition) (m : re_atommodifier) (from next : nat)
    : list re_transition :=
  match m with
  | RE_NOMODIFER => [tr from next]
  | RE_ZEROORMORE => [tr from next; tr from from; nil_transition from next]
  | RE_ONEORMORE => [tr from next; tr from from]
  | RE_ZEROORONE => [tr from next; nil_transition from next]
  end.

Definition group_edges (m : re_atommodifier) (from last next : nat) : list re_transition :=
  match m with
  | RE_NOMODIFER => [nil_transition last next]
  | RE_ZEROORMORE => [nil_transition last next; nil_transition last from; nil_transition from next]
  | RE_ONEORMORE => [nil_transition last next; nil_transition last from]
  | RE_ZEROORONE => [nil_transition last next; nil_transition from next]
  end.

Lemma elem_of_lit_edges t tr m from next :
  t ∈ lit_edges tr m from next <->
  t = tr from next \/ loops m = true /\ t = tr from from \/ skips m = true /\ t = nil_transition from next.
Proof. destruct m; cbn; rewrite ?elem_of_cons, elem_of_nil; naive_solver. Qed.

Lemma elem_of_group_edges t m from last next :
  t ∈ group_edges m from last next <->
  t = nil_transition last next \/ loops m = true /\ t = nil_transition last from \/
  skips m = true /\ t = nil_transition from next.
Proof. destruct m; cbn; rewrite ?elem_of_cons, elem_of_nil; naive_solver. Qed.

Section frag.
Variable frag : atom -> nat -> nat -> nat * list re_transition.

Fixpoint frag_loop (atms : list atom) (from n : nat) : nat * nat * list re_transition :=
  match atms with
  | [] => (from, n, [])
  | a :: atms =>
      let '(n1, E1) := frag a from n in
      let '(last, n2, E2) := frag_loop atms n n1 in (last, n2, E1 ++ E2)
  end.
End frag.

Fixpoint frag_atom (a : atom) (from n : nat) : nat * list re_transition :=
  match a with
  | RE_LITERAL l m => (S n, lit_edges (lit_transition l [] false) m from n)
  | RE_ORLIST inv ors m => (S n, lit_edges (lit_transition RE_OR_LITERAL ors inv) m from n)
  | RE_GROUP g m =>
      let '(last, n', E) := frag_loop frag_atom g from (S n) in
      (n', E ++ group_edges m from last n)
  end.

Abbreviation frag_list := (frag_loop frag_atom).

Lemma add_literal_Ok tr m from next g :
  add_literal tr m from next g =
    Ok () (mkGenerator (states g) (smachine g ++ lit_edges tr m from next)).
Proof.
  destruct m; unfold add_literal, ADD_NIL_TRANSITION, push_transition; msteps;
    unfold modify; cbn [states smachine]; by rewrite <-?app_assoc.
Qed.

Lemma add_group_Ok m from last next g :
  add_group m from last next g =
    Ok () (mkGenerator (states g) (smachine g ++ group_edges m from last next)).
Proof.
  destruct m; unfold add_group, ADD_NIL_TRANSITION, push_transition; msteps;
    unfold modify; cbn [states smachine]; by rewrite <-?app_assoc.
Qed.

(** The outcome of the generator for a fragment [(n', E)] ending in [last]. *)
Definition generated (g : generator) (last n' : nat) (E : list re_transition) : outcome generator nat :=
  Ok last (mkGenerator n' (smachine g ++ E)).

Lemma generate_loop_Ok atms from next g :
  Forall (fun a => forall from g, no_empty_group a = true ->
    let '(n', E) := frag_atom a from (states g) in
    generate_atom a from g = generated g (states g) n' E) atms ->
  forallb no_empty_group atms = true -> (next = None -> atms <> []) -> (next = None \/ next = Some from) ->
  let '(last, n', E) := frag_list atms from (states g) in
  generate_loop generate_atom atms from next g = generated g last n' E.
Proof.
  intros Hall. revert from next g. induction Hall as [|a atms Ha Hall IH]; intros from next g Hne Hn Hf; cbn.
  - destruct Hf as [->| ->]; [by destruct Hn|]. cbn. unfold generated, mret, M_ret.
    rewrite app_nil_r. by destruct g.
  - cbn in Hne. apply andb_true_iff in Hne as [Hea Hes].
    specialize (Ha from g Hea). destruct (frag_atom a from (states g)) as [n1 E1].
    unfold mbind, M_bind. rewrite Ha. unfold generated at 1.
    specialize (IH (states g) (Some (states g)) (mkGenerator n1 (smachine g ++ E1)) Hes).
    cbn [states] in IH. destruct (frag_list atms (states g) n1) as [[last n2] E2].
    rewrite IH; [|done|by right]. unfold generated. cbn. by rewrite <-app_assoc.
Qed.

Lemma generate_atom_Ok a from g :
  no_empty_group a = true ->
  let '(n', E) := frag_atom a from (states g) in
  generate_atom a from g = generated g (states g) n' E.
Proof.
  revert from g. induction a as [l m|inv ors m|gr m IH] using atom_rect'; intros from g Hne.
  1,2: cbn [frag_atom generate_atom]; unfold next_state; msteps;
    by rewrite (bind_Ok _ _ _ _ _ (add_literal_Ok _ _ _ _ _)).
  cbn [frag_atom generate_atom]. unfold next_state. msteps.
  set (g1 := mkGenerator (S (states g)) (smachine g)).
  assert (forallb no_empty_group gr = true) as Hs by (by destruct gr).
  pose proof (generate_loop_Ok gr from None g1 IH Hs) as Hl.
  change (states g1) with (S (states g)) in Hl.
  destruct (frag_list gr from (S (states g))) as [[last n'] E].
  specialize (Hl (fun _ H => ltac:(by rewrite H in Hne)) (or_introl eq_refl)).
  rewrite (bind_Ok _ _ _ _ _ Hl). cbn beta.
  rewrite (bind_Ok _ _ _ _ _ (add_group_Ok _ _ _ _ _)). unfold generated, g1. cbn.
  by rewrite <-app_assoc.
Qed.

(** The generator computes the fragment. *)
Lemma generateStateMachine_Ok atms from g :
  nonempty_atoms atms = true ->
  let '(last, n', E) := frag_list atms from (states g) in
  generateStateMachine atms from g = generated g last n' E.
Proof.
  intros Hne. apply generate_loop_Ok; [| |by intros _ ->|by left].
  - apply Forall_forall. intros a _. apply generate_atom_Ok.
  - by destruct atms.
Qed.

(** ** Every word of the language has a path *)

Lemma lit_edges_complete tr m p from next w :
  (forall s t, fromstate (tr s t) = s /\ tostate (tr s t) = t /\
    forall c, p c = true -> consumes_char (tr s t) c = true) ->
  modified m (one_char p) w -> run (lit_edges tr m from next) from w next.
Proof.
  intros Htr. set (E := lit_edges tr m from next).
  assert (forall s t c, tr s t ∈ E -> p c = true -> run E s [c] t) as Hc.
  { intros s t c Hin Hp. destruct (Htr s t) as (Hs & Ht & Hcs).
    pose proof (run_step_char E _ c Hin (Hcs c Hp)) as Hr. by rewrite Hs, Ht in Hr. }
  assert (tr from next ∈ E) as Hnext by (destruct m; left).
  destruct m; cbn [modified].
  - intros (c & -> & Hp). by apply Hc.
  - induction 1 as [|u v (c & -> & Hp) Hv IH].
    + apply run_step_nil. do 2 right. left.
    + eapply run_app; [|exact IH]. apply Hc; [|done]. right. left.
  - intros (u & v & -> & (c & -> & Hp) & Hv). revert c Hp.
    induction Hv as [|u v (d & -> & Hd) Hv IH]; intros c Hp.
    + by apply Hc.
    + eapply run_app; [|by apply IH]. apply Hc; [|done]. right. left.
  - intros [->|(c & -> & Hp)]; [|by apply Hc]. apply run_step_nil. right. left.
Qed.

Lemma group_edges_complete E m L from last next w :
  (forall u, L u -> run E from u last) ->
  modified m L w -> run (E ++ group_edges m from last next) from w next.
Proof.
  intros HL. set (E' := E ++ group_edges m from last next).
  assert (forall u, L u -> run E' from u last) as HL'.
  { intros u Hu. eapply run_mono; [|by apply HL]. intros t ?. apply elem_of_app. by left. }
  assert (forall a b, nil_transition a b ∈ group_edges m from last next -> run E' a [] b) as Hnil.
  { intros a b Hin. apply run_step_nil, elem_of_app. by right. }
  assert (run E' last [] next) as Hend by (apply Hnil; destruct m; left).
  assert (forall u, L u -> run E' from u next) as Hone.
  { intros u Hu. rewrite <-(app_nil_r u). eapply run_app; [by apply HL'|done]. }
  assert (forall u v, nil_transition last from ∈ group_edges m from last next ->
    L u -> run E' from v next -> run E' from (u ++ v) next) as Hloop.
  { intros u v Hin Hu Hv. eapply run_app; [by apply HL'|]. by apply (run_app _ _ [] from), Hv; apply Hnil. }
  destruct m; cbn [modified].
  - apply Hone.
  - induction 1 as [|u v Hu Hv IH]; [apply Hnil; do 2 right; left|]. apply Hloop; [right; left|done..].
  - intros (u & v & -> & Hu & Hv). revert u Hu.
    induction Hv as [|u' v Hu' Hv IH]; intros u Hu; [rewrite app_nil_r; by apply Hone|].
    apply Hloop; [right; left|done|by apply IH].
  - intros [->|Hw]; [|by apply Hone]. apply Hnil. right. left.
Qed.

Lemma frag_list_complete atms from n w :
  Forall (fun a => forall from n w, atom_lang a w -> run (frag_atom a from n).2 from w n) atms ->
  seq_lang atms w -> run (frag_list atms from n).2 from w (frag_list atms from n).1.1.
Proof.
  intros Hall. revert from n w. induction Hall as [|a atms Ha Hall IH]; intros from n w.
  - cbn. intros ->. apply run_refl.
  - intros (u & v & -> & Hu & Hv). cbn [frag_loop].
    specialize (Ha from n u Hu). destruct (frag_atom a from n) as [n1 E1].
    specialize (IH n n1 v Hv). destruct (frag_list atms n n1) as [[last n2] E2]. cbn in *.
    eapply run_app; (eapply run_mono; [|done]); intros t ?; apply elem_of_app; auto.
Qed.

Lemma frag_atom_complete a from n w :
  atom_lang a w -> run (frag_atom a from n).2 from w n.
Proof.
  revert from n w. induction a as [l m|inv ors m|g m IH] using atom_rect'; intros from n w.
  - apply lit_edges_complete. intros s t. split_and!; [done..|]. intros c. unfold consumes_char.
    by destruct l.
  - by apply lit_edges_complete.
  - rewrite atom_lang_group. cbn [frag_atom].
    pose proof (fun u => frag_list_complete g from (S n) u IH) as Hg.
    destruct (frag_list g from (S n)) as [[last n'] E]. by apply group_edges_complete.
Qed.

(** ** The states of a fragment

    A fragment entered in [from] with fresh states [n], ..., [n' - 1] stays in
    these; the state it ends in is left by no transition of its own. *)
Definition atom_shape (from n : nat) (f : nat * list re_transition) : Prop :=
  (n < f.1)%nat /\
  Forall (fun t => (fromstate t = from \/ n < fromstate t < f.1)%nat /\
                   (tostate t = from \/ n <= tostate t < f.1)%nat) f.2.

Definition list_shape (atms : list atom) (from n : nat) (f : nat * nat * list re_transition) : Prop :=
  let '(last, n', E) := f in
  (n <= n')%nat /\
  Forall (fun t => (fromstate t = from \/ n <= fromstate t < n')%nat /\
                   (tostate t = from \/ n <= tostate t < n')%nat) E /\
  (atms = [] /\ last = from /\ E = [] \/ (n <= last < n')%nat /\ Forall (fun t => fromstate t <> last) E).

Lemma lit_edges_shape l ors inv m from n :
  (from < n)%nat -> atom_shape from n (S n, lit_edges (lit_transition l ors inv) m from n).
Proof.
  intros Hf. split; [cbn; lia|]. apply Forall_forall. intros t Ht. cbn [snd fst] in *.
  apply elem_of_lit_edges in Ht as [->|[[_ ->]|[_ ->]]]; cbn; lia.
Qed.

Lemma frag_list_shape atms from n :
  Forall (fun a => forall from n, (from < n)%nat -> atom_shape from n (frag_atom a from n)) atms ->
  (from < n)%nat -> list_shape atms from n (frag_list atms from n).
Proof.
  intros Hall. revert from n. induction Hall as [|a atms Ha Hall IH]; intros from n Hf.
  { cbn. split_and!; [lia|constructor|left; by split_and!]. }
  specialize (Ha from n Hf). cbn [frag_loop]. destruct (frag_atom a from n) as [n1 E1].
  destruct Ha as [Hn1 HE1]. cbn [fst snd] in Hn1, HE1.
  specialize (IH n n1 Hn1). destruct (frag_list atms n n1) as [[last n2] E2].
  destruct IH as (Hn2 & HE2 & Hlast). cbn. split_and!; [lia| |right].
  - apply Forall_app. split; (eapply Forall_impl; [eassumption|cbn; intros t; lia]).
  - destruct Hlast as [(-> & -> & ->)|[Hl Hx]].
    + rewrite app_nil_r. split; [lia|]. eapply Forall_impl; [exact HE1|cbn; intros t; lia].
    + split; [lia|]. apply Forall_app. split; [|done].
      eapply Forall_impl; [exact HE1|cbn; intros t; lia].
Qed.

Lemma frag_atom_shape a from n : (from < n)%nat -> atom_shape from n (frag_atom a from n).
Proof.
  revert from n. induction a as [l m|inv ors m|g m IH] using atom_rect'; intros from n Hf.
  1,2: by apply lit_edges_shape.
  pose proof (frag_list_shape g from (S n) IH) as Hg. cbn [frag_atom].
  destruct (frag_list g from (S n)) as [[last n'] E]. destruct Hg as (Hn & HE & Hl); [lia|].
  split; cbn [fst snd]; [lia|]. apply Forall_app. split.
  - eapply Forall_impl; [exact HE|cbn; intros t; lia].
  - apply Forall_forall. intros t Ht.
    apply elem_of_group_edges in Ht as [->|[[_ ->]|[_ ->]]]; cbn; lia.
Qed.

(** Does the fragment return to the state it is entered in? *)
Fixpoint entry_loops (a : atom) : bool :=
  match a with
  | RE_LITERAL _ m | RE_ORLIST _ _ m => loops m
  | RE_GROUP g m => loops m || match g with [] => false | a :: _ => entry_loops a end
  end.

Definition seq_entry_loops (g : list atom) : bool :=
  match g with [] => false | a :: _ => entry_loops a end.

(** No group that may be skipped starts with a loop. *)
Fixpoint separated (a : atom) : bool :=
  match a with
  | RE_GROUP g m => negb (skips m && match g with [] => false | a :: _ => entry_loops a end)
                    && forallb separated g
  | _ => true
  end.

Lemma frag_list_no_entry atms from n :
  Forall (fun a => forall from n, (from < n)%nat -> entry_loops a = false ->
    Forall (fun t => tostate t <> from) (frag_atom a from n).2) atms ->
  (from < n)%nat -> seq_entry_loops atms = false ->
  Forall (fun t => tostate t <> from) (frag_list atms from n).2.
Proof.
  intros Hall Hf He. destruct atms as [|a atms]; [constructor|]. cbn [frag_loop].
  apply Forall_cons in Hall as [Ha _]. specialize (Ha from n Hf He).
  pose proof (frag_atom_shape a from n Hf) as [Hn1 _]. destruct (frag_atom a from n) as [n1 E1]. cbn in Hn1, Ha.
  pose proof (frag_list_shape atms n n1) as HE2. destruct (frag_list atms n n1) as [[last n2] E2].
  apply Forall_app. split; [done|].
  destruct HE2 as (_ & HE2 & _); [apply Forall_forall; intros; by apply frag_atom_shape|done|].
  eapply Forall_impl; [exact HE2|cbn; intros t; lia].
Qed.

Lemma frag_atom_no_entry a from n :
  (from < n)%nat -> entry_loops a = false -> Forall (fun t => tostate t <> from) (frag_atom a from n).2.
Proof.
  revert from n. induction a as [l m|inv ors m|g m IH] using atom_rect'; intros from n Hf He; cbn in He.
  1,2: apply Forall_forall; intros t Ht; cbn in Ht;
    apply elem_of_lit_edges in Ht as [->|[[? ->]|[_ ->]]]; cbn; [lia|congruence|lia].
  apply orb_false_iff in He as [Hm Hg].
  pose proof (frag_list_no_entry g from (S n) IH ltac:(lia) Hg) as HE. cbn [frag_atom].
  destruct (frag_list g from (S n)) as [[last n'] E]. apply Forall_app. split; [done|].
  apply Forall_forall. intros t Ht.
  apply elem_of_group_edges in Ht as [->|[[? ->]|[_ ->]]]; cbn; [lia|congruence|lia].
Qed.

(** ** No other word has a path *)

Lemma modified_one m (L : lang) w : L w -> modified m L w.
Proof.
  intros Hw. destruct m; cbn; [done| | |by right].
  - rewrite <-(app_nil_r w). by apply star_app, star_nil.
  - exists w, []. rewrite app_nil_r. split_and!; [done..|apply star_nil].
Qed.

Lemma modified_none m (L : lang) : skips m = true -> modified m L [].
Proof. destruct m; intros [=]; [apply star_nil|by left]. Qed.

Lemma modified_more m (L : lang) u v : loops m = true -> L u -> modified m L v -> modified m L (u ++ v).
Proof.
  destruct m; intros [=] Hu; cbn.
  - by apply star_app.
  - intros (u' & v' & -> & Hu' & Hv'). exists u, (u' ++ v'). split_and!; [done..|by apply star_app].
Qed.

Lemma lit_edges_sound tr m p from next w :
  (forall s t, fromstate (tr s t) = s /\ tostate (tr s t) = t /\ is_nil (tr s t) = false /\
    forall c, consumes_char (tr s t) c = p c) ->
  from <> next -> run (lit_edges tr m from next) from w next -> modified m (one_char p) w.
Proof.
  intros Htr Hne Hrun.
  enough (forall s w e, run (lit_edges tr m from next) s w e -> e = next ->
    (s = next -> w = []) /\ (s = from -> modified m (one_char p) w)) as Hall by (by eapply Hall).
  clear w Hrun. intros s w e Hrun.
  induction Hrun as [s|t w e Hin Hn Hr IH|t c w e Hin Hc Hr IH]; intros He.
  - naive_solver.
  - specialize (IH He) as [IH _].
    apply elem_of_lit_edges in Hin as [->|[[_ ->]|[Hm ->]]];
      [destruct (Htr from next) as (_ & _ & Hx & _); congruence|
       destruct (Htr from from) as (_ & _ & Hx & _); congruence|].
    cbn in *. split; [naive_solver|]. intros _. rewrite IH by done. by apply modified_none.
  - specialize (IH He) as [IHn IHf].
    apply elem_of_lit_edges in Hin as [->|[[Hm ->]|[_ ->]]]; [| |discriminate].
    + destruct (Htr from next) as (Hs & Ht & _ & Hp). rewrite Hs, Ht in *. split; [naive_solver|].
      intros _. rewrite IHn by done. apply modified_one. exists c. by rewrite <-Hp.
    + destruct (Htr from from) as (Hs & Ht & _ & Hp). rewrite Hs, Ht in *. split; [naive_solver|].
      intros _. apply (modified_more _ _ [c]); [done| |by apply IHf]. exists c. by rewrite <-Hp.
Qed.

Section group_sound.
Variables (E : list re_transition) (m : re_atommodifier) (L : lang) (from last next : nat).
Hypothesis next_apart : from <> next /\ last <> next.
Hypothesis inner_apart : forall t, t ∈ E -> fromstate t <> next /\ tostate t <> next.
Hypothesis inner_sound : forall w, run E from w last -> L w.
Hypothesis no_entry : skips m = true -> forall t, t ∈ E -> tostate t <> from.

(** What is left of a path to [next]: the rest of the body, then the end or
    more rounds; or nothing, when the group may be skipped. *)
Definition rest (s : nat) (w : bytes) : Prop :=
  cat (fun u => run E s u last) (fun v => v = [] \/ loops m = true /\ modified m L v) w \/
  skips m = true /\ run E s w from.

Lemma rest_from w : rest from w -> modified m L w.
Proof.
  intros [(u & v & -> & Hu & [->|[Hm Hv]])|[Hm Hr]].
  - rewrite app_nil_r. by apply modified_one, inner_sound.
  - apply modified_more; [done| |done]. by apply inner_sound.
  - enough (w = []) as -> by (by apply modified_none).
    enough (forall s w e, run E s w e -> e = from -> s = from /\ w = []) as Hno by (by eapply Hno).
    clear w Hr. intros s w e Hr. induction Hr as [s|t w e Hin Hn Hr IH|t c w e Hin Hn Hr IH]; intros He.
    + done.
    + by destruct (no_entry Hm t Hin), (IH He).
    + by destruct (no_entry Hm t Hin), (IH He).
Qed.

Lemma rest_inner t c w : t ∈ E -> (forall w s, run E (tostate t) w s -> run E (fromstate t) (c ++ w) s) ->
  rest (tostate t) w -> rest (fromstate t) (c ++ w).
Proof.
  intros Hin Ht [(u & v & -> & Hu & Hv)|[Hm Hr]]; [left|right; by auto].
  exists (c ++ u), v. rewrite app_assoc. auto.
Qed.

Lemma group_run_rest s w e :
  run (E ++ group_edges m from last next) s w e -> e = next -> (s = next /\ w = []) \/ (s <> next /\ rest s w).
Proof.
  destruct next_apart as [Hfn Hln].
  induction 1 as [s|t w e Hin Hn Hr IH|t c w e Hin Hn Hr IH]; intros He.
  - by left.
  - apply elem_of_app in Hin as [Hin|Hin]; right.
    + destruct (inner_apart t Hin) as [??]. split; [done|]. destruct (IH He) as [[? _]|[_ Hrest]]; [done|].
      apply (rest_inner t [] w Hin); [|done]. intros. by apply run_nil.
    + apply elem_of_group_edges in Hin as [->|[[Hm ->]|[Hm ->]]]; cbn in *; split; try done.
      * destruct (IH He) as [[_ ->]|[[] _]]; [|done]. left. exists [], []. split_and!; [done|apply run_refl|by left].
      * destruct (IH He) as [[? _]|[_ Hrest]]; [done|]. left. exists [], w.
        split_and!; [done|apply run_refl|]. right. split; [done|]. by apply rest_from.
      * destruct (IH He) as [[_ ->]|[[] _]]; [|done]. right. split; [done|apply run_refl].
  - apply elem_of_app in Hin as [Hin|Hin]; right.
    + destruct (inner_apart t Hin) as [??]. split; [done|]. destruct (IH He) as [[? _]|[_ Hrest]]; [done|].
      apply (rest_inner t [c] w Hin); [|done]. intros. by apply run_char.
    + by apply elem_of_group_edges in Hin as [->|[[Hm ->]|[Hm ->]]].
Qed.

Lemma group_edges_sound w : run (E ++ group_edges m from last next) from w next -> modified m L w.
Proof.
  intros Hr. destruct next_apart as [? _]. destruct (group_run_rest _ _ _ Hr eq_refl) as [[? _]|[_ Hrest]]; [done|].
  by apply rest_from.
Qed.
End group_sound.

Lemma run_empty s w e : run [] s w e -> s = e /\ w = [].
Proof. inversion 1 as [|? ? ? Hin|? ? ? ? Hin]; [done|by apply not_elem_of_nil in Hin..]. Qed.

Lemma frag_list_sound atms from n w :
  Forall (fun a => forall from n w, (from < n)%nat -> wf_atom a = true -> separated a = true ->
    run (frag_atom a from n).2 from w n -> atom_lang a w) atms ->
  (from < n)%nat -> forallb wf_atom atms = true -> forallb separated atms = true ->
  run (frag_list atms from n).2 from w (frag_list atms from n).1.1 -> seq_lang atms w.
Proof.
  intros Hall. revert from n w. induction Hall as [|a atms Ha Hall IH]; intros from n w Hf Hw Hs Hr.
  { by apply run_empty in Hr as [_ ->]. }
  cbn in Hw, Hs. apply andb_true_iff in Hw as [Hwa Hw], Hs as [Hsa Hs]. cbn [frag_loop] in Hr.
  specialize (fun w => Ha from n w Hf Hwa Hsa).
  pose proof (frag_atom_shape a from n Hf) as [Hn1 HE1].
  destruct (frag_atom a from n) as [n1 E1]. cbn [fst snd] in *.
  specialize (fun w => IH n n1 w Hn1 Hw Hs).
  pose proof (frag_list_shape atms n n1) as HE2. destruct (frag_list atms n n1) as [[last n2] E2].
  destruct HE2 as (Hn2 & HE2 & Hlast); [apply Forall_forall; intros; by apply frag_atom_shape|done|].
  cbn [fst snd] in *. rewrite Forall_forall in HE1, HE2.
  destruct (run_split E1 E2 (fun s => s = from \/ n < s < n1)%nat (fun s => s = n \/ n1 <= s < n2)%nat
    n from w last) as (u & v & -> & Hu & Hv); [lia|by left| | |done|by left|lia|].
  - intros t Ht. specialize (HE1 t Ht). cbn in HE1. lia.
  - intros t Ht. specialize (HE2 t Ht). cbn in HE2. lia.
  - exists u, v. auto.
Qed.

Lemma frag_atom_sound a from n w :
  (from < n)%nat -> wf_atom a = true -> separated a = true -> run (frag_atom a from n).2 from w n -> atom_lang a w.
Proof.
  revert from n w. induction a as [l m|inv ors m|g m IH] using atom_rect'; intros from n w Hf Hw Hs.
  - apply lit_edges_sound; [|lia]. intros s t. by destruct l.
  - by apply lit_edges_sound; [|lia].
  - cbn in Hs. apply andb_true_iff in Hs as [Hm Hs]. rewrite atom_lang_group. cbn [frag_atom].
    pose proof (fun u => frag_list_sound g from (S n) u IH ltac:(lia) Hw Hs) as Hg.
    pose proof (frag_list_no_entry g from (S n)) as Hno.
    pose proof (frag_list_shape g from (S n)) as HE.
    destruct (frag_list g from (S n)) as [[last n'] E].
    destruct HE as (Hn & HE & Hl); [apply Forall_forall; intros; by apply frag_atom_shape|lia|].
    rewrite Forall_forall in HE. apply group_edges_sound; [lia| |done|].
    + intros t Ht. specialize (HE t Ht). cbn in HE. lia.
    + intros Hsk t Ht. rewrite Hsk in Hm. apply negb_true_iff in Hm.
      revert t Ht. apply Forall_forall, Hno; [|lia|done].
      apply Forall_forall. intros. by apply frag_atom_no_entry.
Qed.

(** ** The matcher finds the paths *)

Definition wf_transition (t : re_transition) : bool :=
  match literal t with RE_OR_LITERAL => forallb simple_lit (orlist t) | _ => true end.

Lemma matchLiteral_Ok l c s : simple_lit l = true -> matchLiteral l c s = Ok (lit_char l c) s.
Proof. by destruct l. Qed.

Lemma or_found_Ok ors c s :
  forallb simple_lit ors = true -> or_found ors c s = Ok (existsb (fun l => lit_char l c) ors) s.
Proof.
  induction ors as [|l ors IH]; [done|]. cbn. intros [Hl Hs]%andb_true_iff.
  rewrite (bind_Ok _ _ _ _ _ (matchLiteral_Ok l c s Hl)). cbn.
  destruct (lit_char l c); [done|by apply IH].
Qed.

Lemma consumes_Ok w t pos s :
  wf_transition t = true -> is_nil t = false ->
  consumes w t pos s = Ok (match w !! pos with Some c => consumes_char t c | None => false end) s.
Proof.
  unfold wf_transition, is_nil, consumes, consumes_char. destruct (w !! pos) as [c|]; [|done].
  destruct (literal t); try done. intros Hs _. by rewrite (bind_Ok _ _ _ _ _ (or_found_Ok _ c s Hs)).
Qed.

(** Paths that take no NIL transition out of the states [N] before their first
    character. *)
Inductive fresh_run (E : list re_transition) (N : list nat) : nat -> bytes -> nat -> Prop :=
  | fresh_refl s : fresh_run E N s [] s
  | fresh_nil t w e : t ∈ E -> is_nil t = true -> fromstate t ∉ N ->
      fresh_run E N (tostate t) w e -> fresh_run E N (fromstate t) w e
  | fresh_char t c w e : t ∈ E -> consumes_char t c = true -> run E (tostate t) w e ->
      fresh_run E N (fromstate t) (c :: w) e.

Lemma fresh_run_run E N s w e : fresh_run E N s w e -> run E s w e.
Proof. induction 1; [apply run_refl|by apply run_nil|by apply run_char]. Qed.

Lemma run_fresh_run E s w e : run E s w e -> fresh_run E [] s w e.
Proof.
  induction 1; [apply fresh_refl|apply fresh_nil; [done..|apply not_elem_of_nil|done]|by eapply fresh_char].
Qed.

Lemma fresh_run_mono E N N' s w e :
  (forall x, x ∈ N -> x ∈ N') -> fresh_run E N' s w e -> fresh_run E N s w e.
Proof. intros HN. induction 1; [apply fresh_refl|apply fresh_nil; by auto|by apply fresh_char]. Qed.

(** The last visit to [s] before the first character is left for good. *)
Lemma fresh_run_last E N u w e s :
  fresh_run E N u w e ->
  fresh_run E (s :: N) u w e \/
  exists t, t ∈ E /\ fromstate t = s /\ is_nil t = true /\ s ∉ N /\ fresh_run E (s :: N) (tostate t) w e.
Proof.
  induction 1 as [u|t w e Hin Hn Hu Hr IH|t c w e Hin Hc Hr].
  - left. apply fresh_refl.
  - destruct IH as [IH|IH]; [|by right]. destruct (decide (fromstate t = s)) as [<-|Hne].
    + right. by exists t.
    + left. apply fresh_nil; [done..| |done]. by intros [?|?]%elem_of_cons.
  - left. by apply fresh_char.
Qed.

(** The choices of the matcher in state [s] at the rest [w] of the text. *)
Definition takes (E : list re_transition) (N : list nat) (s : nat) (w : bytes) (e : nat) (t : re_transition) : Prop :=
  fromstate t = s /\
  (if is_nil t then s ∉ N /\ fresh_run E (N ++ [s]) (tostate t) w e
   else exists c v, w = c :: v /\ consumes_char t c = true /\ fresh_run E [] (tostate t) v e).

Lemma fresh_run_takes E N s w e :
  fresh_run E N s w e <-> (w = [] /\ s = e) \/ exists t, t ∈ E /\ takes E N s w e t.
Proof.
  split.
  - intros Hr. destruct (fresh_run_last E N s w e s Hr) as [Hr'|(t & Hin & <- & Hn & HN & Hr')].
    + inversion Hr' as [|t w' e' Hin Hn Hs _|t c w' e' Hin Hc Hrest]; subst.
      * by left.
      * by destruct Hs; left.
      * right. exists t. split; [done|]. split; [done|].
        assert (is_nil t = false) as -> by (unfold is_nil, consumes_char in *; by destruct (literal t)).
        exists c, w'. split_and!; [done..|by apply run_fresh_run].
    + right. exists t. split; [done|]. split; [done|]. rewrite Hn. split; [done|].
      eapply fresh_run_mono; [|exact Hr']. set_solver.
  - intros [[-> ->]|(t & Hin & <- & Ht)]; [apply fresh_refl|].
    destruct (is_nil t) eqn:Hn.
    + destruct Ht as [HN Hr]. apply fresh_nil; [done..|]. eapply fresh_run_mono; [|done]. set_solver.
    + destruct Ht as (c & v & -> & Hc & Hr). apply fresh_char; [done..|]. by eapply fresh_run_run.
Qed.

Section matcher.
Variables (E : list re_transition) (N last : nat) (w : bytes).
Hypothesis E_ok : forall t, t ∈ E -> wf_transition t = true /\ (fromstate t < N)%nat.

(** A call that returns, and returns whether there is such a path. *)
Definition decides (nils : list nat) (s pos : nat) (m : M () bool) : Prop :=
  exists b, m () = Ok b () /\ (b = true <-> fresh_run E nils s (drop pos w) last).

(** Calls that may still nest: one per character and per state left. *)
Definition call_bound (pos : nat) (nils : list nat) : nat :=
  ((length w - pos) * S N + (N - length nils))%nat.

Definition ok_nils (nils : list nat) : Prop := NoDup nils /\ forall x, x ∈ nils -> (x < N)%nat.

Lemma ok_nils_snoc nils s : ok_nils nils -> s ∉ nils -> (s < N)%nat ->
  ok_nils (nils ++ [s]) /\ (length nils < N)%nat.
Proof.
  intros [Hnd Hlt] Hs HsN.
  assert (ok_nils (nils ++ [s])) as Hok.
  { split; [apply NoDup_app; set_solver by eauto using NoDup_singleton|].
    intros x [Hx| ->%list_elem_of_singleton]%elem_of_app; by auto. }
  split; [done|]. destruct Hok as [Hnd' Hlt'].
  enough (length (nils ++ [s]) <= length (seq 0 N))%nat as Hle by (rewrite length_app, length_seq in Hle; cbn in Hle; lia).
  apply submseteq_length, NoDup_submseteq; [done|]. intros x Hx. apply elem_of_seq. specialize (Hlt' x Hx). lia.
Qed.


Lemma try_transition_Ok rec s pos nils t :
  t ∈ E -> fromstate t = s ->
  (is_nil t = true -> s ∉ nils -> decides (nils ++ [s]) (tostate t) pos (rec (tostate t) pos (nils ++ [s]))) ->
  ((pos < length w)%nat -> decides [] (tostate t) (S pos) (rec (tostate t) (S pos) [])) ->
  exists ok, try_transition w rec s pos nils t () = Ok ok () /\
    (ok = true <-> takes E nils s (drop pos w) last t).
Proof.
  intros Hin Hs Hnil Hchar. destruct (E_ok t Hin) as [Hwf _]. unfold takes.
  destruct (is_nil t) eqn:Hn.
  - specialize (Hnil eq_refl). unfold try_transition. unfold is_nil in Hn. destruct (literal t); try discriminate Hn.
    destruct (decide (s ∈ nils)) as [Hsn|Hsn]; [exists false; naive_solver|].
    destruct (Hnil Hsn) as (ok & -> & Hok). exists ok. naive_solver.
  - assert (try_transition w rec s pos nils t =
      (c ← consumes w t pos; if (c : bool) then rec (tostate t) (S pos) [] else mret false)) as ->.
    { unfold try_transition. unfold is_nil in Hn. by destruct (literal t). }
    rewrite (bind_Ok _ _ _ _ _ (consumes_Ok w t pos () Hwf Hn)).
    destruct (w !! pos) as [c|] eqn:Hc.
    + rewrite (drop_S _ _ _ Hc). destruct (consumes_char t c) eqn:Hcc; [|exists false; naive_solver].
      destruct (Hchar (lookup_lt_Some _ _ _ Hc)) as (ok & -> & Hok). exists ok. naive_solver.
    + exists false. rewrite drop_ge by (by apply lookup_ge_None). naive_solver.
Qed.

(** The loop tries the transitions one after the other. *)
Lemma match_walk_Ok rec s pos nils ts :
  (forall t, t ∈ E -> fromstate t = s -> is_nil t = true -> s ∉ nils ->
     decides (nils ++ [s]) (tostate t) pos (rec (tostate t) pos (nils ++ [s]))) ->
  (forall t, t ∈ E -> (pos < length w)%nat -> decides [] (tostate t) (S pos) (rec (tostate t) (S pos) [])) ->
  ts ⊆ E ->
  exists b, match_walk last w rec s pos nils ts () = Ok b () /\
    (b = true <-> ((length w <= pos)%nat /\ s = last) \/ exists t, t ∈ ts /\ takes E nils s (drop pos w) last t).
Proof.
  intros Hnil Hchar. induction ts as [|t ts IH]; intros Hsub; cbn [match_walk].
  { eexists. split; [done|]. rewrite andb_true_iff, Nat.leb_le, Nat.eqb_eq. set_solver. }
  destruct IH as (b & Hb & Hiff); [set_solver|].
  destruct (Nat.eqb_spec (fromstate t) s) as [Hs|Hs].
  - destruct (try_transition_Ok rec s pos nils t) as (ok & Hok & Ht); [set_solver|done|set_solver|set_solver|].
    rewrite (bind_Ok _ _ _ _ _ Hok). exists (ok || b). split; [by destruct ok|].
    rewrite orb_true_iff, Ht, Hiff. set_solver.
  - exists b. split; [done|]. rewrite Hiff. split; [set_solver|].
    intros [?|(t' & [->|?]%elem_of_cons & Ht')]; [by left|by destruct Ht' as [? _]|]. right. by exists t'.
Qed.

Lemma match_state_Ok fuel s pos nils :
  (call_bound pos nils < fuel)%nat -> (pos <= length w)%nat -> ok_nils nils ->
  decides nils s pos (match_state E last w fuel s pos nils).
Proof.
  revert s pos nils. induction fuel as [|fuel IH]; intros s pos nils Hf Hpos Hnils; [lia|]. cbn [match_state].
  destruct (match_walk_Ok (match_state E last w fuel) s pos nils E) as (b & Hb & Hiff); [| |done|].
  - intros t Hin Hs Hn HN. destruct (E_ok t Hin) as [_ Hlt].
    destruct (ok_nils_snoc nils s Hnils HN) as [Hok Hlen]; [lia|].
    apply IH; [|done..]. unfold call_bound in *. rewrite length_app. cbn. lia.
  - intros t Hin Hlt. apply IH; [|lia|split; [constructor|set_solver]]. unfold call_bound in *. cbn [length].
    replace (length w - pos)%nat with (S (length w - S pos)) in Hf by lia. lia.
  - exists b. split; [done|]. rewrite Hiff, fresh_run_takes.
    assert (drop pos w = [] <-> (length w <= pos)%nat) as ->; [|done].
    rewrite <-length_zero_iff_nil, length_drop. lia.
Qed.
End matcher.

(** [match]: enough calls for every text, and true exactly for a path. *)
Lemma match_run e w :
  (forall t, t ∈ re_smachine e -> wf_transition t = true /\ (fromstate t < re_states e)%nat) ->
  exists b, match_ e w () = Ok b () /\ (b = true <-> run (re_smachine e) 0 w (last_state e)).
Proof.
  intros HE. destruct (match_state_Ok (re_smachine e) (re_states e) (last_state e) w HE
    (match_fuel e w) 0 0 []) as (b & Hb & Hiff).
  - unfold call_bound, match_fuel. cbn [length]. lia.
  - lia.
  - split; [constructor|set_solver].
  - exists b. split; [done|]. rewrite Hiff, drop_0. split; [apply fresh_run_run|apply run_fresh_run].
Qed.

(** ** The transitions of a parsed expression *)

Lemma lit_edges_wf tr m from next :
  (forall s t, wf_transition (tr s t) = true) -> Forall (fun t => wf_transition t = true) (lit_edges tr m from next).
Proof.
  intros Htr. apply Forall_forall. intros t Ht. by apply elem_of_lit_edges in Ht as [->|[[_ ->]|[_ ->]]].
Qed.

Lemma frag_list_wf atms from n :
  Forall (fun a => forall from n, wf_atom a = true ->
    Forall (fun t => wf_transition t = true) (frag_atom a from n).2) atms ->
  forallb wf_atom atms = true -> Forall (fun t => wf_transition t = true) (frag_list atms from n).2.
Proof.
  intros Hall. revert from n. induction Hall as [|a atms Ha Hall IH]; intros from n; [constructor|].
  cbn. intros [Hw Hws]%andb_true_iff. specialize (Ha from n Hw). destruct (frag_atom a from n) as [n1 E1].
  specialize (IH n n1 Hws). destruct (frag_list atms n n1) as [[last n2] E2]. by apply Forall_app.
Qed.

Lemma frag_atom_wf a from n :
  wf_atom a = true -> Forall (fun t => wf_transition t = true) (frag_atom a from n).2.
Proof.
  revert from n. induction a as [l m|inv ors m|g m IH] using atom_rect'; intros from n Hw; cbn in Hw.
  - apply lit_edges_wf. by destruct l.
  - by apply lit_edges_wf.
  - pose proof (frag_list_wf g from (S n) IH Hw) as HE. cbn [frag_atom].
    destruct (frag_list g from (S n)) as [[last n'] E]. apply Forall_app. split; [done|].
    apply Forall_forall. intros t Ht. by apply elem_of_group_edges in Ht as [->|[[_ ->]|[_ ->]]].
Qed.

(** The object built for a list of atoms. *)
Definition object_of (atms : list atom) : bfsRegExpression :=
  let '(last, n, E) := frag_list atms 0 1 in mkRegExpression atms last n E.

Lemma machine_object_of atms : machine (object_of atms) = atms.
Proof. unfold object_of. by destruct (frag_list atms 0 1) as [[last n] E]. Qed.

Lemma setExpression_object re atms :
  createRegexpStateMachine re () = Ok atms () -> nonempty_atoms atms = true ->
  setExpression re () = Ok (object_of atms) ().
Proof.
  intros Hc Hne. unfold setExpression, object_of. rewrite Hc.
  pose proof (generateStateMachine_Ok atms 0 (mkGenerator 1 []) Hne) as Hg. cbn [states] in Hg.
  destruct (frag_list atms 0 1) as [[last n] E]. by rewrite Hg.
Qed.

Lemma object_of_match atms w :
  forallb wf_atom atms = true -> exists b, match_ (object_of atms) w () = Ok b () /\
    (seq_lang atms w -> b = true) /\
    (forallb separated atms = true -> b = true -> seq_lang atms w).
Proof.
  intros Hw. destruct (match_run (object_of atms) w) as (b & Hb & Hiff).
  - unfold object_of.
    pose proof (frag_list_wf atms 0 1) as Hwf. pose proof (frag_list_shape atms 0 1) as Hs.
    destruct (frag_list atms 0 1) as [[last n] E]. cbn [re_smachine re_states snd] in *.
    destruct Hs as (Hn & Hs & _); [apply Forall_forall; intros; by apply frag_atom_shape|lia|].
    rewrite Forall_forall in Hs. assert (E <> [] -> (1 <= n)%nat) by lia.
    intros t Ht. split.
    + revert t Ht. apply Forall_forall, Hwf; [|done]. apply Forall_forall. intros. by apply frag_atom_wf.
    + specialize (Hs t Ht). cbn in Hs. lia.
  - exists b. split; [done|]. rewrite Hiff.
    pose proof (frag_list_complete atms 0 1 w) as Hc. pose proof (frag_list_sound atms 0 1 w) as Hs.
    unfold object_of. destruct (frag_list atms 0 1) as [[last n] E]. cbn in Hc, Hs |- *. split.
    + apply Hc, Forall_forall. intros. by apply frag_atom_complete.
    + intros Hsep. apply Hs; [|lia|done..]. apply Forall_forall. intros. by eapply frag_atom_sound.
Qed.

(** ** The parser ends

    What a step of the parser may end in: a value, a syntax error, or the read
    outside the literal of [nextLiteral]; not the end of the fuel. *)
Definition parses {A} (Q : A -> Prop) (m : M () A) : Prop :=
  match m () with
  | Ok a _ => Q a
  | Throw e _ => exists msg, e = bfsRegExpressionError msg
  | Crash c => c = Undefined_behaviour
  end.

Lemma parses_bind {A B} (P : A -> Prop) (Q : B -> Prop) (m : M () A) k :
  parses P m -> (forall a, P a -> parses Q (k a)) -> parses Q (m ≫= k).
Proof.
  unfold parses, mbind, M_bind. destruct (m ()) as [a []|e []|c] eqn:Hm; intros HP Hk; [|done..].
  by specialize (Hk a HP).
Qed.

Lemma nextLiteral_parses c esc : parses (fun l => simple_lit l = true) (nextLiteral c esc).
Proof.
  unfold nextLiteral. destruct esc.
  - unfold parses, mret, M_ret. by repeat case_decide.
  - case_decide; [done|]. case_match; [|done]. case_match; [by eexists|done].
Qed.

Section parse.
Variable regexp : bytes.
Abbreviation len := (length regexp).

Lemma char_at_in pos c : c <> x00 -> char_at regexp pos = c -> (pos < len)%nat.
Proof.
  unfold char_at. intros Hc. destruct (regexp !! pos) eqn:Hl; [|by intros <-].
  intros _. by eapply lookup_lt_Some.
Qed.

Lemma past_false pos : past regexp pos = false -> (pos < len)%nat.
Proof. unfold past. by intros ?%Nat.leb_gt. Qed.

Lemma past_true pos : past regexp pos = true -> (len <= pos)%nat.
Proof. unfold past. by intros ?%Nat.leb_le. Qed.

(** A part that starts at [pos] ends after it, inside the expression. *)
Definition advances {A} (pos : nat) (Q : A -> Prop) (r : A * nat) : Prop :=
  Q r.1 /\ (pos < r.2 <= len)%nat.

Lemma parse_literal_parses pos :
  parses (advances pos (fun l => simple_lit l = true)) (parse_literal regexp pos).
Proof.
  unfold parse_literal. case_bool_decide; cbn zeta; cbv iota;
    (destruct (past regexp _) eqn:Hp; [by eexists|apply past_false in Hp]);
    (eapply parses_bind; [apply nextLiteral_parses|]); intros l Hl; (split; [done|cbn; lia]).
Qed.

Lemma parse_orlist_parses fuel lits pos :
  (len - pos < fuel)%nat -> forallb simple_lit lits = true ->
  parses (advances pos (fun ls => forallb simple_lit ls = true)) (parse_orlist regexp fuel lits pos).
Proof.
  revert lits pos. induction fuel as [|fuel IH]; intros lits pos Hf Hs; [lia|]. cbn [parse_orlist].
  destruct (past regexp pos) eqn:Hp; [by eexists|]. apply past_false in Hp.
  destruct (decide _) as [_|_]; [by split; [|cbn; lia]|].
  eapply parses_bind; [apply parse_literal_parses|]. intros [l pos'] [Hl Hpos]. cbn in Hl, Hpos.
  unfold parses. specialize (IH (lits ++ [l]) pos' ltac:(lia)).
  rewrite forallb_app in IH. cbn in IH. rewrite Hs, Hl in IH. specialize (IH eq_refl). unfold parses in IH.
  destruct (parse_orlist regexp fuel (lits ++ [l]) pos' ()) as [[ls p]| |]; [|done..].
  destruct IH as [??]. split; [done|cbn in *; lia].
Qed.

Lemma parse_modifier_bound pos : (pos <= len)%nat ->
  (pos <= (parse_modifier regexp pos).2 <= len)%nat.
Proof.
  intros Hp. unfold parse_modifier.
  repeat case_decide; cbn; try lia; match goal with H : char_at _ _ = _ |- _ => apply char_at_in in H; [lia|done] end.
Qed.

Lemma parseExpression_parses fuel atms pos :
  (len - pos < fuel)%nat -> (pos <= len)%nat -> forallb wf_atom atms = true ->
  parses (fun r => forallb wf_atom r.1 = true /\ (pos <= r.2 <= len)%nat) (parseExpression regexp fuel atms pos).
Proof.
  revert atms pos. induction fuel as [|fuel IH]; intros atms pos Hf Hpos Hw; [lia|]. cbn [parseExpression].
  assert (forall mk p, (forall m, wf_atom (mk m) = true) -> (pos < p <= len)%nat ->
    parses (fun r => forallb wf_atom r.1 = true /\ (pos <= r.2 <= len)%nat)
      (let '(m, p) := parse_modifier regexp p in parseExpression regexp fuel (atms ++ [mk m]) p)) as Hpush.
  { intros mk p Hmk Hp. pose proof (parse_modifier_bound p ltac:(lia)) as Hb.
    destruct (parse_modifier regexp p) as [m q]. cbn in Hb.
    specialize (IH (atms ++ [mk m]) q ltac:(lia) ltac:(lia)). rewrite forallb_app in IH. cbn in IH.
    rewrite Hw, Hmk in IH. specialize (IH eq_refl). unfold parses in *.
    destruct (parseExpression regexp fuel (atms ++ [mk m]) q ()) as [[ls p']| |]; [|done..]. cbn in *. split; [tauto|lia]. }
  destruct (past regexp pos) eqn:Hp; [by split; [|cbn; lia]|]. apply past_false in Hp.
  destruct (decide _) as [_|_].
  { eapply parses_bind; [apply (IH [] (S pos)); [lia|lia|done]|]. intros [g p] [Hg Hpp]. cbn in Hg, Hpp.
    destruct (decide _) as [Hc|_]; [|by eexists]. apply char_at_in in Hc; [|done]. apply Hpush; [done|lia]. }
  destruct (decide _) as [_|_]; [by split; [|cbn; lia]|].
  destruct (decide _) as [_|_].
  { eapply parses_bind; [apply parse_orlist_parses; [lia|done]|]. intros [ls p] [Hl Hpp]. cbn in Hl, Hpp.
    apply Hpush; [done|]. case_bool_decide; lia. }
  destruct (decide _) as [_|_]; [by eexists|].
  eapply parses_bind; [apply parse_literal_parses|]. intros [l p] [Hl Hpp]. cbn in Hl, Hpp. apply Hpush; [done|lia].
Qed.
End parse.

Lemma createRegexpStateMachine_parses re :
  parses (fun atms => forallb wf_atom atms = true) (createRegexpStateMachine re).
Proof.
  unfold createRegexpStateMachine. eapply parses_bind; [by apply parseExpression_parses; [lia|lia|]|].
  intros [atms p] [Hw _]. done.
Qed.
End RegExpSpec.
