(* ===== verification/RegExpPrint.v ===== *)
(** * Printed expressions parse back, and what matching them gives

    A printer of atoms ([print_atoms]) and the round trip through
    [parseExpression]; the theorems about [setExpression] and [match]. *)
From S2P Require Import Prelude RegExp RegExpSpec.
Import Init.Byte RegExp RegExpSpec.

Module RegExpPrint.

Definition backslash : byte := x5c.

Definition print_lit (l : re_literal) : bytes :=
  match l with
  | RE_NORMAL_LITERAL c => if has_char re_special_chars c || bool_decide (c = backslash) then [backslash; c] else [c]
  | RE_ANY_LITERAL => ["."%byte]
  | RE_WORD_LITERAL => [backslash; "w"%byte]
  | RE_SPACE_LITERAL => [backslash; "s"%byte]
  | RE_DIGIT_LITERAL => [backslash; "d"%byte]
  | RE_NIL_LITERAL | RE_OR_LITERAL => []
  end.

Definition print_modifier (m : re_atommodifier) : bytes :=
  match m with
  | RE_NOMODIFER => []
  | RE_ZEROORMORE => ["*"%byte]
  | RE_ONEORMORE => ["+"%byte]
  | RE_ZEROORONE => ["?"%byte]
  end.

Definition print_lits (ls : list re_literal) : bytes := concat (map print_lit ls).

Fixpoint print_atom (a : atom) : bytes :=
  match a with
  | RE_LITERAL l m => print_lit l ++ print_modifier m
  | RE_ORLIST inv ors m =>
      "["%byte :: (if inv then ["^"%byte] else []) ++ print_lits ors ++ "]"%byte :: print_modifier m
  | RE_GROUP g m => "("%byte :: concat (map print_atom g) ++ ")"%byte :: print_modifier m
  end.

Definition print_atoms (g : list atom) : bytes := concat (map print_atom g).

(** ** One literal *)

Lemma nextLiteral_plain c : has_char re_special_chars c = false ->
  nextLiteral c false () = Ok (RE_NORMAL_LITERAL c) ().
Proof.
  intros Hc. unfold nextLiteral. rewrite decide_False, Hc; [done|]. by intros ->.
Qed.

Lemma nextLiteral_escaped c : has_char re_special_chars c || bool_decide (c = backslash) = true ->
  nextLiteral c true () = Ok (RE_NORMAL_LITERAL c) ().
Proof. intros Hc. unfold nextLiteral. rewrite !decide_False; [done|by intros ->..]. Qed.

(** First characters that announce no literal. *)
Definition plain_start (c : byte) : bool :=
  negb (has_char re_special_chars c) || bool_decide (c = "."%byte).

Lemma print_lit_start l : simple_lit l = true -> exists c r, print_lit l = c :: r /\ plain_start c = true.
Proof.
  destruct l as [c| | | | | |]; intros [=]; cbn; try (eexists _, _; split; [done|by vm_compute]).
  destruct (has_char re_special_chars c) eqn:Hc; [eexists _, _; split; [done|by vm_compute]|].
  case_bool_decide; (eexists _, _; split; [done|]); [by vm_compute|]. unfold plain_start. by rewrite Hc.
Qed.

Lemma plain_start_not c d : plain_start c = true -> plain_start d = false -> c <> d.
Proof. by intros H1 H2 ->; rewrite H1 in H2. Qed.

Section parse.
Variable regexp : bytes.

(** Reading the expression through what is left of it. *)
Lemma at_cons pos c r : drop pos regexp = c :: r ->
  char_at regexp pos = c /\ past regexp pos = false /\ drop (S pos) regexp = r.
Proof.
  intros Hd. assert (regexp !! pos = Some c) as Hl.
  { rewrite <-(Nat.add_0_r pos), <-lookup_drop, Hd. done. }
  unfold char_at, past. rewrite Hl. split_and!; [done| |].
  - apply Nat.leb_gt. by eapply lookup_lt_Some.
  - rewrite <-Nat.add_1_r, <-drop_drop, Hd. done.
Qed.

Lemma at_nil pos : drop pos regexp = [] -> char_at regexp pos = x00 /\ past regexp pos = true.
Proof.
  intros Hd. assert (length regexp <= pos)%nat as Hl.
  { apply (f_equal length) in Hd. rewrite length_drop in Hd. cbn in Hd. lia. }
  unfold char_at, past. rewrite lookup_ge_None_2 by lia. split; [done|]. by apply Nat.leb_le.
Qed.

Lemma drop_app_rest pos u r : drop pos regexp = u ++ r -> drop (pos + length u) regexp = r.
Proof. intros Hd. by rewrite <-drop_drop, Hd, drop_app_length. Qed.

Lemma parse_literal_print l pos r :
  simple_lit l = true -> drop pos regexp = print_lit l ++ r ->
  parse_literal regexp pos () = Ok (l, (pos + length (print_lit l))%nat) ().
Proof.
  intros Hl Hd. 
  assert (forall c d, drop pos regexp = backslash :: c :: d -> forall l, nextLiteral c true () = Ok l () ->
    parse_literal regexp pos () = Ok (l, (pos + 2)%nat) ()) as Hesc.
  { intros c d Hd' l' Hn. apply at_cons in Hd' as (Hc & _ & Hd'). apply at_cons in Hd' as (Hc' & Hp' & _).
    unfold parse_literal. rewrite Hc, bool_decide_eq_true_2 by done. cbv zeta iota. rewrite Hp', Hc'.
    rewrite (bind_Ok _ _ _ _ _ Hn). cbn. do 2 f_equal. lia. }
  assert (forall c d, drop pos regexp = c :: d -> c <> backslash -> forall l, nextLiteral c false () = Ok l () ->
    parse_literal regexp pos () = Ok (l, (pos + 1)%nat) ()) as Hplain.
  { intros c d Hd' Hne l' Hn. apply at_cons in Hd' as (Hc & Hp & _).
    unfold parse_literal. rewrite Hc, bool_decide_eq_false_2 by done. cbv zeta iota. rewrite Hp, Hc.
    rewrite (bind_Ok _ _ _ _ _ Hn). cbn. do 2 f_equal. lia. }
  destruct l as [c| | | | | |]; try discriminate Hl; cbn [print_lit] in *.
  2-5: first [eapply Hesc; [exact Hd|done]|eapply Hplain; [exact Hd|done|done]].
  destruct (has_char re_special_chars c || bool_decide (c = backslash)) eqn:Hc.
  - eapply Hesc; [exact Hd|by apply nextLiteral_escaped].
  - apply orb_false_iff in Hc as [Hs Hb]. eapply Hplain; [done| |by apply nextLiteral_plain].
    by apply bool_decide_eq_false in Hb.
Qed.

Lemma parse_orlist_print ors lits pos r fuel :
  forallb simple_lit ors = true -> drop pos regexp = print_lits ors ++ "]"%byte :: r ->
  (length ors < fuel)%nat ->
  parse_orlist regexp fuel lits pos () = Ok (lits ++ ors, (pos + length (print_lits ors) + 1)%nat) ().
Proof.
  revert lits pos fuel. induction ors as [|l ors IH]; intros lits pos fuel Hs Hd Hf;
    (destruct fuel as [|fuel]; [cbn in Hf; lia|]); cbn [parse_orlist].
  - apply at_cons in Hd as (Hc & Hp & _). rewrite Hp, Hc, decide_True by done. rewrite app_nil_r. cbn.
    unfold mret, M_ret. do 2 f_equal. lia.
  - cbn in Hs. apply andb_true_iff in Hs as [Hl Hs]. unfold print_lits in Hd. cbn in Hd.
    rewrite <-app_assoc in Hd.
    destruct (print_lit_start l Hl) as (c & t & Hpl & Hst).
    assert (drop pos regexp = c :: t ++ print_lits ors ++ "]"%byte :: r) as Hd' by (by rewrite Hd, Hpl).
    apply at_cons in Hd' as (Hc & Hp & _). rewrite Hp, Hc, decide_False by (by eapply plain_start_not).
    rewrite (bind_Ok _ _ _ _ _ (parse_literal_print l pos _ Hl Hd)). cbn beta iota.
    apply drop_app_rest in Hd. rewrite (IH _ _ _ Hs Hd) by (cbn in Hf; lia).
    rewrite <-app_assoc. cbn. unfold print_lits. cbn. rewrite length_app. do 2 f_equal. lia.
Qed.

(** ** Modifiers *)

Definition calm (r : bytes) : bool :=
  match r with [] => true | c :: _ => negb (has_char [("*"%byte); ("+"%byte); ("?"%byte)] c) end.

Lemma parse_modifier_print m pos r :
  drop pos regexp = print_modifier m ++ r -> calm r = true ->
  parse_modifier regexp pos = (m, (pos + length (print_modifier m))%nat).
Proof.
  intros Hd Hr. unfold parse_modifier. destruct m; cbn in Hd |- *.
  2-4: apply at_cons in Hd as (Hc & _); rewrite Hc, ?Nat.add_1_r; by repeat case_decide.
  rewrite Nat.add_0_r. destruct r as [|c r].
  - apply at_nil in Hd as [-> _]. by repeat case_decide.
  - apply at_cons in Hd as (-> & _). cbn in Hr. by repeat (case_decide; [by subst|]).
Qed.

Lemma calm_atoms atms r : forallb wf_atom atms = true -> calm r = true -> calm (print_atoms atms ++ r) = true.
Proof.
  destruct atms as [|[l m|inv ors m|g m] atms]; cbn; try done. intros [Hl _]%andb_true_iff _.
  destruct (print_lit_start l Hl) as (c & t & -> & Hst). cbn.
  apply negb_true_iff. apply bool_decide_eq_false_2. intros Hin.
  apply (plain_start_not c c Hst); [|done]. 
  repeat (apply elem_of_cons in Hin as [->|Hin]; [by vm_compute|]). by apply not_elem_of_nil in Hin.
Qed.

(** ** A list of atoms *)

(** Where a list of atoms ends: at the end of the text or at a closing
    parenthesis. *)
Definition stop (r : bytes) : bool :=
  match r with [] => true | c :: _ => bool_decide (c = ")"%byte) end.

Lemma stop_calm r : stop r = true -> calm r = true.
Proof. destruct r as [|c r]; cbn; [done|]. by intros ->%bool_decide_eq_true. Qed.

Lemma length_print_lits ors : forallb simple_lit ors = true -> (length ors <= length (print_lits ors))%nat.
Proof.
  induction ors as [|l ors IH]; cbn; [lia|]. intros [Hl Hs]%andb_true_iff. specialize (IH Hs).
  destruct (print_lit_start l Hl) as (c & t & Hp & _). unfold print_lits in *. cbn.
  rewrite Hp, length_app. cbn. lia.
Qed.

Lemma orlist_start (inv : bool) ors pos t :
  forallb simple_lit ors = true ->
  drop pos regexp = (if inv then ["^"%byte] else []) ++ print_lits ors ++ "]"%byte :: t ->
  bool_decide (char_at regexp pos = "^"%byte) = inv /\
  drop (if inv then S pos else pos) regexp = print_lits ors ++ "]"%byte :: t.
Proof.
  intros Hs Hd. destruct inv.
  - apply at_cons in Hd as (-> & _ & Hd). by rewrite bool_decide_eq_true_2.
  - split; [|done]. apply bool_decide_eq_false_2. destruct ors as [|l ors]; cbn in Hd.
    + by apply at_cons in Hd as (-> & _).
    + cbn in Hs. apply andb_true_iff in Hs as [Hl _]. unfold print_lits in Hd. cbn in Hd.
      destruct (print_lit_start l Hl) as (c & u & Hp & Hst). rewrite Hp in Hd. cbn in Hd.
      apply at_cons in Hd as (-> & _). by eapply plain_start_not.
Qed.

Lemma parseExpression_print fuel atms acc pos r :
  forallb wf_atom atms = true -> drop pos regexp = print_atoms atms ++ r -> stop r = true ->
  (length (print_atoms atms) < fuel)%nat ->
  parseExpression regexp fuel acc pos () = Ok (acc ++ atms, (pos + length (print_atoms atms))%nat) ().
Proof.
  revert atms acc pos r. induction fuel as [|fuel IH]; intros atms acc pos r Hw Hd Hr Hf; [lia|].
  cbn [parseExpression]. destruct atms as [|a atms].
  { rewrite app_nil_r, Nat.add_0_r. cbn in Hd. destruct r as [|c r].
    - apply at_nil in Hd as [_ ->]. done.
    - apply at_cons in Hd as (-> & -> & _). apply bool_decide_eq_true in Hr as ->. done. }
  cbn in Hw. apply andb_true_iff in Hw as [Hwa Hw].
  assert (print_atoms (a :: atms) = print_atom a ++ print_atoms atms) as Hpa by done.
  rewrite Hpa, <-app_assoc in Hd. rewrite Hpa, length_app in *.
  assert (forall mk p m, a = mk m -> drop p regexp = print_modifier m ++ print_atoms atms ++ r ->
    (pos < p)%nat -> (pos + length (print_atom a) = p + length (print_modifier m))%nat ->
    (let '(m, q) := parse_modifier regexp p in parseExpression regexp fuel (acc ++ [mk m]) q) () =
      Ok (acc ++ a :: atms, (pos + (length (print_atom a) + length (print_atoms atms)))%nat) ()) as Hpush.
  { intros mk p m -> Hdp Hlt Hlen.
    rewrite (parse_modifier_print m p _ Hdp) by (by apply calm_atoms, stop_calm).
    apply drop_app_rest in Hdp. rewrite (IH atms _ _ r Hw Hdp Hr) by lia.
    rewrite <-app_assoc. do 2 f_equal. lia. }
  destruct a as [l m|inv ors m|g m]; cbn [wf_atom print_atom] in *.
  - rewrite <-app_assoc in Hd. destruct (print_lit_start l Hwa) as (c & t & Hpl & Hst).
    pose proof Hd as Hd'. rewrite Hpl in Hd'. apply at_cons in Hd' as (Hc & Hp & _). rewrite Hp, Hc.
    rewrite !decide_False by (by eapply plain_start_not).
    rewrite (bind_Ok _ _ _ _ _ (parse_literal_print l pos _ Hwa Hd)). cbn beta iota.
    apply drop_app_rest in Hd. apply (Hpush (RE_LITERAL l) _ m); [done|done| |]; rewrite ?length_app, ?Hpl; cbn; lia.
  - cbn [app] in Hd. rewrite <-!app_assoc in Hd. cbn [app] in Hd. apply at_cons in Hd as (Hc & Hp & Hd). rewrite Hp, Hc.
    rewrite !(decide_False (P := "["%byte = _)) by done. rewrite decide_True by done. cbn zeta.
    apply (orlist_start inv ors) in Hd as [Hinv Hd]; [|done]. rewrite Hinv.
    pose proof (length_print_lits ors Hwa) as Hlen. pose proof (f_equal length Hd) as Hld.
    rewrite length_drop, length_app in Hld.
    rewrite (bind_Ok _ _ _ _ _ (parse_orlist_print ors [] _ _ (S (length regexp)) Hwa Hd ltac:(lia))). cbn beta iota zeta.
    apply drop_app_rest in Hd. apply at_cons in Hd as (_ & _ & Hd).
    apply (Hpush (RE_ORLIST inv ors) _ m); [done|by rewrite Nat.add_1_r|destruct inv; lia|].
    cbn [length]. rewrite !length_app. destruct inv; cbn; lia.
  - cbn [app] in Hd. rewrite <-app_assoc in Hd. cbn [app] in Hd. fold (print_atoms g) in *.
    apply at_cons in Hd as (Hc & Hp & Hd). rewrite Hp, Hc, decide_True by done. cbn [length] in Hf.
    rewrite !length_app in Hf. cbn [length] in Hf.
    rewrite (bind_Ok _ _ _ _ _ (IH g [] (S pos) _ Hwa Hd eq_refl ltac:(lia))). cbn beta iota zeta.
    apply drop_app_rest in Hd. apply at_cons in Hd as (Hc2 & _ & Hd). rewrite Hc2, decide_True by done.
    apply (Hpush (RE_GROUP g) _ m); [done|done|lia|]. cbn [length]. rewrite length_app. cbn. lia.
Qed.
End parse.

(** ** Empty lists of atoms

    The generator returns an uninitialised state for them. *)
Lemma generate_loop_empty atms from next g :
  Forall (fun a => forall from g, no_empty_group a = false -> generate_atom a from g = Crash Undefined_behaviour) atms ->
  (next = None /\ atms = []) \/ forallb no_empty_group atms = false ->
  generate_loop generate_atom atms from next g = Crash Undefined_behaviour.
Proof.
  intros Hall. revert from next g. induction Hall as [|a atms Ha Hall IH]; intros from next g Hne.
  { by destruct Hne as [[-> _]|]. }
  destruct Hne as [[_ ?]|Hne]; [done|]. cbn in Hne |- *.
  destruct (no_empty_group a) eqn:Hea; [|by rewrite (bind_Crash _ _ _ _ (Ha from g eq_refl))].
  pose proof (generate_atom_Ok a from g Hea) as Hg. destruct (frag_atom a from (states g)) as [n E].
  rewrite (bind_Ok _ _ _ _ _ Hg). apply IH. by right.
Qed.

Lemma generate_atom_empty a from g :
  no_empty_group a = false -> generate_atom a from g = Crash Undefined_behaviour.
Proof.
  revert from g. induction a as [l m|inv ors m|gr m IH] using atom_rect'; intros from g Hne; [done..|].
  cbn [generate_atom]. unfold next_state. msteps. rewrite bind_Crash with (x := Undefined_behaviour); [done|].
  apply generate_loop_empty; [done|]. destruct gr; [by left|by right].
Qed.

Lemma setExpression_empty re atms :
  createRegexpStateMachine re () = Ok atms () -> nonempty_atoms atms = false ->
  setExpression re () = Crash Undefined_behaviour.
Proof.
  intros Hc Hne. unfold setExpression. rewrite Hc. unfold generateStateMachine. rewrite generate_loop_empty; [done| |].
  - apply Forall_forall. intros. by apply generate_atom_empty.
  - destruct atms; [by left|by right].
Qed.

Lemma setExpression_Ok_inv re e :
  setExpression re () = Ok e () ->
  exists atms, createRegexpStateMachine re () = Ok atms () /\ forallb wf_atom atms = true /\
    nonempty_atoms atms = true /\ e = object_of atms.
Proof.
  intros He. pose proof (createRegexpStateMachine_parses re) as Hp. unfold parses in Hp.
  destruct (createRegexpStateMachine re ()) as [atms []| |] eqn:Hc.
  2,3: unfold setExpression in He; by rewrite Hc in He.
  exists atms. destruct (nonempty_atoms atms) eqn:Hne.
  - rewrite (setExpression_object re atms Hc Hne) in He. by simplify_eq.
  - by rewrite (setExpression_empty re atms Hc Hne) in He.
Qed.

Lemma createRegexpStateMachine_print atms r :
  forallb wf_atom atms = true -> stop r = true ->
  createRegexpStateMachine (print_atoms atms ++ r) () = Ok atms ().
Proof.
  intros Hw Hr. unfold createRegexpStateMachine.
  rewrite (bind_Ok _ _ _ _ _ (parseExpression_print (print_atoms atms ++ r) (S (length (print_atoms atms ++ r))) atms [] 0 r Hw eq_refl Hr
    ltac:(rewrite length_app; lia))). done.
Qed.

(** ** The theorems *)

(** C21. The matcher decides the expression.  An object that [setExpression]
    built answers on every text; it accepts every text of the language of its
    atoms, and nothing else when no group that may be skipped begins with a
    repetition. *)
Theorem regexp_match_decides re e w :
  setExpression re () = Ok e () ->
  exists b, match_ e w () = Ok b () /\
    (seq_lang (machine e) w -> b = true) /\
    (forallb separated (machine e) = true -> b = true -> seq_lang (machine e) w).
Proof.
  intros (atms & _ & Hw & _ & ->)%setExpression_Ok_inv. rewrite machine_object_of. by apply object_of_match.
Qed.

Lemma regexp_match_decides_witness :
  let re := str "a*bc[^d]+(e?f)*" in
  exists e, setExpression re () = Ok e () /\ forallb separated (machine e) = true /\
    exists b, match_ e (str "aabcZfef") () = Ok b () /\
      (seq_lang (machine e) (str "aabcZfef") -> b = true) /\
      (forallb separated (machine e) = true -> b = true -> seq_lang (machine e) (str "aabcZfef")).
Proof.
  intros re. eexists. split; [by vm_compute|]. split; [done|]. apply (regexp_match_decides re). by vm_compute.
Defined.

(** Printing and parsing.  The text of a non-empty list of atoms builds the
    object of exactly these atoms; whatever follows an unmatched closing
    parenthesis is ignored. *)
Theorem regexp_print_parse atms r :
  forallb wf_atom atms = true -> nonempty_atoms atms = true -> stop r = true ->
  exists e, setExpression (print_atoms atms ++ r) () = Ok e () /\ machine e = atms.
Proof.
  intros Hw Hne Hr. exists (object_of atms). split; [|apply machine_object_of].
  apply setExpression_object; [by apply createRegexpStateMachine_print|done].
Qed.

Lemma regexp_print_parse_witness :
  let atms := [RE_ORLIST true [RE_NORMAL_LITERAL "]"%byte; RE_DIGIT_LITERAL] RE_ONEORMORE;
               RE_GROUP [RE_LITERAL RE_ANY_LITERAL RE_NOMODIFER; RE_LITERAL (RE_NORMAL_LITERAL "w"%byte) RE_ZEROORMORE] RE_ZEROORONE] in
  print_atoms atms = str "[^\]\d]+(.w*)?" /\
  exists e, setExpression (print_atoms atms ++ str ") ignored (") () = Ok e () /\ machine e = atms.
Proof. intros atms. split; [by vm_compute|]. by apply (regexp_print_parse atms). Defined.

(** Setting an expression ends.  Every text is accepted, refused with a
    regular expression error, or reaches undefined behaviour; an expression
    without atoms always does the last. *)
Theorem setExpression_ends re :
  match setExpression re () with
  | Ok e _ => machine e <> []
  | Throw x _ => exists msg, x = bfsRegExpressionError msg
  | Crash c => c = Undefined_behaviour
  end.
Proof.
  pose proof (createRegexpStateMachine_parses re) as Hp. unfold parses in Hp.
  destruct (createRegexpStateMachine re ()) as [atms []|x []|c] eqn:Hc.
  2,3: unfold setExpression; by rewrite Hc.
  destruct (nonempty_atoms atms) eqn:Hne.
  - rewrite (setExpression_object re atms Hc Hne), machine_object_of. by intros ->.
  - by rewrite (setExpression_empty re atms Hc Hne).
Qed.

(** A group that may be skipped and starts with a repetition can be left in
    the middle: [(a*b)?] accepts "a", which is not in its language. *)
Theorem optional_group_left_early :
  let re := str "(a*b)?" in
  matches_string re (str "a") = Some true /\
  exists e, setExpression re () = Ok e () /\ ~ seq_lang (machine e) (str "a").
Proof.
  intros re. split; [by vm_compute|]. eexists. split; [by vm_compute|].
  cbn. intros (u & v & Hw & Hu & ->). rewrite app_nil_r in Hw. subst u. destruct Hu as [Hu|Hu]; [done|].
  destruct Hu as (u & v & Hw & _ & (u' & v' & -> & (c & -> & Hc) & ->)).
  change ([c] ++ []) with [c] in Hw. apply (f_equal last) in Hw. rewrite last_snoc in Hw. cbn in Hw. by simplify_eq.
Qed.
End RegExpPrint.
