(* ===== verification/CfgParser.v ===== *)
(** * The configuration parser

    Models [bfs_utils/bfsCfgParserSymbol.{h,cpp}], [bfsCfgParserProduction.h]
    and [bfsCfgParser.{h,cpp}]: symbols with their matchers, grammars, the
    tokenizer and the recursive parser.  A symbol is a value instead of a
    pointer: the code compares symbols by their names.  Exceptions of this part
    of the program are thrown as pointers. *)
From S2P Require Import Prelude RegExp.
Import Init.Byte RegExp.

Module CfgParser.

(** ** Symbols *)

Inductive bfsCfgParserSymbolType := CFG_TERMINAL | CFG_NONTERMINAL | CFG_UNKNOWN.

#[export] Instance bfsCfgParserSymbolType_eq_dec : EqDecision bfsCfgParserSymbolType.
Proof. solve_decision. Defined.

(** [symbolMatcher] is [None] when it was default-constructed; then [noMatch]
    is set and it is never asked. *)
Record bfsCfgParserSymbol := mkSymbol {
  symType : bfsCfgParserSymbolType;
  symName : string;
  symbolMatcher : option bfsRegExpression;
  noMatch : bool;
}.

Definition nonterminal (sym : string) : bfsCfgParserSymbol := mkSymbol CFG_NONTERMINAL sym None true.

Definition unmatched_terminal (sym : string) (nomatch : bool) : bfsCfgParserSymbol :=
  mkSymbol CFG_TERMINAL sym None nomatch.

(** A computation without state inside one with state. *)
Definition stateless {S A} (m : M () A) : M S A := fun s =>
  match m () with
  | Ok a _ => Ok a s
  | Throw e _ => Throw e s
  | Crash c => Crash c
  end.

Definition terminal (sym : string) (re : bytes) : M () bfsCfgParserSymbol :=
  e ← setExpression re; mret (mkSymbol CFG_TERMINAL sym (Some e) false).

Definition isSymbol (s : bfsCfgParserSymbol) (w : bytes) : M () bool :=
  if noMatch s then mret false else e ← of_opt (symbolMatcher s); match_ e w.

(** ** Grammars *)

Record bfsCfgParserProduction := mkProduction {
  left : bfsCfgParserSymbol;
  right : list bfsCfgParserSymbol;
}.

Record bfsCfgParser := mkParser {
  symbolTable : list bfsCfgParserSymbol;
  startSymbol : bfsCfgParserSymbol;
  endSymbol : bfsCfgParserSymbol;
  productions : list bfsCfgParserProduction;
}.

(** The constructor. *)
Definition new_parser : bfsCfgParser :=
  let start := nonterminal "START" in
  let end_ := unmatched_terminal "END" true in
  mkParser [start; end_] start end_ [].

Definition getSymbolDef (snm : string) (table : list bfsCfgParserSymbol) : option bfsCfgParserSymbol :=
  List.find (fun s => bool_decide (symName s = snm)) table.

Definition push_symbol (s : bfsCfgParserSymbol) : M bfsCfgParser () :=
  modify (fun p => mkParser (symbolTable p ++ [s]) (startSymbol p) (endSymbol p) (productions p)).

Definition addNonTerminalSymbol (sym : string) : M bfsCfgParser () := push_symbol (nonterminal sym).

(** The handler names [bfsRegExpressionError &], which does not catch the
    pointer that is thrown: the error passes through. *)
Definition addTerminalSymbol (sym : string) (regexp : bytes) : M bfsCfgParser () :=
  psym ← stateless (terminal sym regexp); push_symbol psym.

Fixpoint add_right (rhs : list string) (right : list bfsCfgParserSymbol) : M bfsCfgParser (list bfsCfgParserSymbol) :=
  match rhs with
  | [] => mret right
  | r :: rhs =>
      table ← gets symbolTable;
      match getSymbolDef r table with
      | None => throw (bfsCfgParserError "Parser error adding production, not defined.")
      | Some sym => add_right rhs (right ++ [sym])
      end
  end.

Definition addProduction (lhs : string) (rhs : list string) : M bfsCfgParser () :=
  table ← gets symbolTable;
  match getSymbolDef lhs table with
  | None => throw (bfsCfgParserError "Parser error adding production, not defined.")
  | Some sym =>
      if decide (symType sym = CFG_NONTERMINAL) then
        right ← add_right rhs [];
        modify (fun p => mkParser (symbolTable p) (startSymbol p) (endSymbol p)
                           (productions p ++ [mkProduction sym right]))
      else throw (bfsCfgParserError "Parser error left hand side of production not non-termainl")
  end.

(** ** Tokens *)

(** [isspace] of the C locale. *)
Definition isspace (ch : byte) : bool := has_char [" "%byte; x09; x0a; x0b; x0c; x0d] ch.

Abbreviation token := (bytes * bfsCfgParserSymbol)%type.

Definition tok_name (t : token) : string := symName t.2.

(** The first symbol of the table that matches. *)
Fixpoint find_symbol (working : bytes) (table : list bfsCfgParserSymbol) : M () (option bfsCfgParserSymbol) :=
  match table with
  | [] => mret None
  | s :: table =>
      b ← isSymbol s working;
      if (b : bool) then mret (Some s) else find_symbol working table
  end.

(** [while (... && rawdata.at(idx) != '\n') idx++]: what is left from there. *)
Fixpoint skip_comment (rest : bytes) : bytes :=
  match rest with
  | [] => []
  | ch :: rest' => if decide (ch = x0a) then rest else skip_comment rest'
  end.

Definition nonempty (w : bytes) : bool := match w with [] => false | _ => true end.

Section tokenize.
Variables (symbolTable : list bfsCfgParserSymbol) (endSymbol : bfsCfgParserSymbol).

(** The end of a round: [rest] is what is left after the character at [idx],
    so [idx+1 >= length] when it is empty. *)
Definition end_token (tokReady : bool) (working rest : bytes) (toked : list token)
    : M () (bytes * list token) :=
  let tokReady := match rest with [] => nonempty working | _ => tokReady end in
  if tokReady then
    sym ← find_symbol working symbolTable;
    match sym with
    | None => throw (bfsCfgParserError "Parse error : symbol does not match any symbol in grammar.")
    | Some sym => mret ([], toked ++ [(working, sym)])
    end
  else mret (working, toked).

(** The loop over [rawdata], of which [rest] is left from [idx] on; a round
    takes a character or a comment with the end of its line.  The index of the
    code is an [int]: texts of 2 GiB and more are outside the model. *)
Fixpoint tokenize_loop (fuel : nat) (rest working : bytes) (toked : list token) : M () (list token) :=
  match rest with
  | [] => mret toked
  | ch :: rest' =>
      match fuel with
      | O => die Out_of_fuel
      | S fuel =>
          let '(working, tokReady, rest) :=
            if isspace ch then (working, nonempty working, rest')
            else if decide (ch = "#"%byte) then (working, nonempty working, tail (skip_comment rest))
            else (working ++ [ch], false, rest') in
          '(working, toked) ← end_token tokReady working rest toked;
          tokenize_loop fuel rest working toked
      end
  end.

Definition tokenizeData (rawdata : bytes) : M () (list token) :=
  toked ← tokenize_loop (length rawdata) rawdata [] [];
  mret (toked ++ [(str "END", endSymbol)]).
End tokenize.

(** ** Parsing *)

(** [parseTree_t]; [matched] is the text of a terminal. *)
Inductive parseTree := PTree (symbol : bfsCfgParserSymbol) (ntmatch : list parseTree) (matched : bytes).

Definition symbol (t : parseTree) := let 'PTree s _ _ := t in s.
Definition ntmatch (t : parseTree) := let 'PTree _ l _ := t in l.
Definition matched (t : parseTree) := let 'PTree _ _ w := t in w.

Definition MAX_bfsCfgParser_RECURSION_DEPTH : nat := 100.

(** The right hand side of a production from [nidx] on; [None] is [failed].
    A symbol that takes no token counts as failed. *)
Section try.
Variable exec : bfsCfgParserSymbol -> nat -> M () (nat * option parseTree).

Fixpoint try_right (right : list bfsCfgParserSymbol) (nidx : nat) (submatches : list parseTree)
    : M () (option (nat * list parseTree)) :=
  match right with
  | [] => mret (Some (nidx, submatches))
  | s :: right =>
      '(syms, submatch) ← exec s nidx;
      if (0 <? syms)%nat
      then sub ← of_opt submatch; try_right right (nidx + syms) (submatches ++ [sub])
      else mret None
  end.

Fixpoint try_productions (res : bfsCfgParserSymbol) (prods : list bfsCfgParserProduction) (idx : nat)
    : M () (nat * option parseTree) :=
  match prods with
  | [] => mret (O, None)
  | p :: prods =>
      if decide (symName res = symName (left p)) then
        r ← try_right (right p) idx [];
        match r with
        | Some (nidx, submatches) => mret ((nidx - idx)%nat, Some (PTree res submatches []))
        | None => try_productions res prods idx
        end
      else try_productions res prods idx
  end.
End try.

Section execute.
Variables (productions : list bfsCfgParserProduction) (toks : list token).

(** [executeParser]: the tokens taken and the tree, [None] for [NULL] or a
    [match] that was not assigned.  The depth stops the recursion. *)
Fixpoint executeParser (fuel : nat) (res : bfsCfgParserSymbol) (idx dep : nat) : M () (nat * option parseTree) :=
  match fuel with
  | O => die Out_of_fuel
  | S fuel =>
      if (MAX_bfsCfgParser_RECURSION_DEPTH <? dep)%nat
      then throw (bfsCfgParserError "Max recursion depth reached in parser, aborting parser.")
      else match symType res with
      | CFG_NONTERMINAL => try_productions (fun s i => executeParser fuel s i (S dep)) res productions idx
      | CFG_UNKNOWN => throw (bfsCfgParserError "Bad symbol type in parser")
      | CFG_TERMINAL =>
          t ← vec_at toks (Z.of_nat idx);
          if decide (tok_name t = symName res) then mret (1%nat, Some (PTree res [] t.1))
          else mret (O, None)
      end
  end.
End execute.

(** Enough for a recursion from depth 0. *)
Definition parser_fuel : nat := S (S MAX_bfsCfgParser_RECURSION_DEPTH).

(** [parseData]: the count is not looked at. *)
Definition parseData (p : bfsCfgParser) (inp : bytes) : M () (option parseTree) :=
  toked ← tokenizeData (symbolTable p) (endSymbol p) inp;
  '(_, ptree) ← executeParser (productions p) toked parser_fuel (startSymbol p) 0 0;
  mret ptree.

(** [parseDataFile]: what opening and reading the file gave. *)
Definition parseDataFile (p : bfsCfgParser) (file : option bytes) : M () (option parseTree) :=
  match file with
  | None => throw (bfsCfgParserError "Parse error: file open failed")
  | Some data => parseData p data
  end.

(** [parseTreeToString], which the loader calls on every tree. *)
Definition spaces (n : nat) : bytes := replicate n " "%byte.

Fixpoint parseTreeToString (tree : parseTree) (dep : nat) : bytes :=
  let 'PTree s l w := tree in
  if decide (symType s = CFG_TERMINAL)
  then spaces (dep * 2) ++ str (symName s) ++ str " -> " ++ w ++ [x0a]
  else spaces (dep * 2) ++ str (symName s) ++ [x0a] ++
       concat (map (fun t => parseTreeToString t (S dep)) l).
End CfgParser.
