(* ===== verification/CfgItem.v ===== *)
(** * Configuration items and the store

    Models [bfs_utils/bfsCfgItem.{h,cpp}], [bfsCfgStore.{h,cpp}] and the
    configuration layer of [bfsConfigLayer.cpp]: the tree of items, queries by
    tag, the construction of the tree from a parse, loading a file. *)
From S2P Require Import Prelude RegExp CfgParser.
Import Init.Byte RegExp CfgParser.

Module CfgItem.

(** ** Numbers in text *)

Definition digit (n : Z) : byte := z2b (48 + n).

Definition digit_value (c : byte) : option Z :=
  if (48 <=? b2z c) && (b2z c <=? 57) then Some (b2z c - 48) else None.

(** [std::to_string]; [fuel] bounds the number of digits. *)
Fixpoint decimal (fuel : nat) (n : Z) : bytes :=
  match fuel with
  | O => []
  | S fuel => (if n <? 10 then [] else decimal fuel (n / 10)) ++ [digit (n mod 10)]
  end.

Definition to_string (n : Z) : bytes := decimal 20 n.

(** The digits at the start of a text, read into [acc]; [true] when there was
    one. *)
Fixpoint digits (acc : Z) (seen : bool) (s : bytes) : Z * bool :=
  match s with
  | [] => (acc, seen)
  | c :: s' => match digit_value c with
               | Some d => digits (10 * acc + d) true s'
               | None => (acc, seen)
               end
  end.

Fixpoint skip_spaces (s : bytes) : bytes :=
  match s with
  | c :: s' => if isspace c then skip_spaces s' else s
  | [] => []
  end.

(** The number [strtol] and [strtoul] read in base 10, with its sign; [None]
    when there are no digits. *)
Definition read_number (s : bytes) : option (bool * Z) :=
  let s := skip_spaces s in
  let '(neg, s) := match s with
                   | c :: s' => if decide (c = "-"%byte) then (true, s')
                                else if decide (c = "+"%byte) then (false, s') else (false, s)
                   | [] => (false, [])
                   end in
  let '(n, seen) := digits 0 false s in
  if seen then Some (neg, n) else None.

(** [strtol] stops at the bounds of [long]. *)
Definition strtol (s : bytes) : option Z :=
  match read_number s with
  | None => None
  | Some (neg, n) => Some (if neg then Z.max (- 2 ^ 63) (- n) else Z.min (2 ^ 63 - 1) n)
  end.

(** [strtoul] stops at the bound of [unsigned long], then takes the negative. *)
Definition strtoul (s : bytes) : option Z :=
  match read_number s with
  | None => None
  | Some (neg, n) => Some (if 2 ^ 64 - 1 <? n then 2 ^ 64 - 1 else if neg then u64 (- n) else n)
  end.

(** [std::stoi] *)
Definition stoi (s : bytes) : M () Z :=
  match strtol s with
  | None => throw std_invalid_argument
  | Some n => if (- 2 ^ 31 <=? n) && (n <=? 2 ^ 31 - 1) then mret n else throw std_out_of_range
  end.

(** ** Items *)

Inductive bfsCfgItemType := bfsCfgItem_VALUE | bfsCfgItem_LIST | bfsCfgItem_STRUCT.

#[export] Instance bfsCfgItemType_eq_dec : EqDecision bfsCfgItemType.
Proof. solve_decision. Defined.

Inductive bfsCfgItem := CfgItem (itype : bfsCfgItemType) (configName value : bytes) (subItems : list bfsCfgItem).

Definition itype (i : bfsCfgItem) := let 'CfgItem t _ _ _ := i in t.
Definition configName (i : bfsCfgItem) := let 'CfgItem _ n _ _ := i in n.
Definition value (i : bfsCfgItem) := let 'CfgItem _ _ v _ := i in v.
Definition subItems (i : bfsCfgItem) := let 'CfgItem _ _ _ l := i in l.

Definition new_item (t : bfsCfgItemType) (name val : bytes) : M () bfsCfgItem :=
  if decide (t <> bfsCfgItem_VALUE /\ val <> [])
  then throw (bfsCfgError "Setting value in compount configuation")
  else mret (CfgItem t name val []).

Definition bfsCfgItemValueLong (i : bfsCfgItem) : M () Z :=
  match strtol (value i) with
  | None => throw (bfsCfgError "Getting non-integer value as long")
  | Some n => mret n
  end.

Definition bfsCfgItemValueUnsigned (i : bfsCfgItem) : M () Z :=
  match strtoul (value i) with
  | None => throw (bfsCfgError "Getting non-integer value as unsigned")
  | Some n => mret n
  end.

(** [context->addSubItem(itm)] gives the context with the new item. *)
Definition addSubItem (i itm : bfsCfgItem) : M () bfsCfgItem :=
  if decide (itype i = bfsCfgItem_VALUE) then throw (bfsCfgError "Adding sub-item to value config")
  else mret (CfgItem (itype i) (configName i) (value i) (subItems i ++ [itm])).

Definition getSubItemByName (i : bfsCfgItem) (cfgnm : bytes) : M () bfsCfgItem :=
  match List.find (fun s => bool_decide (configName s = cfgnm)) (subItems i) with
  | Some s => mret s
  | None => throw (bfsCfgError "Subvalue name not found getSubItem")
  end.

Definition getSubItemByIndex (i : bfsCfgItem) (idx : Z) : M () bfsCfgItem :=
  if (idx <? 0) || (zlen (subItems i) <=? idx)
  then throw (bfsCfgError "Index out of range in getSubItem")
  else vec_at (subItems i) idx.

(** ** Queries *)

(** [find_first_of(cs)]: what is before, the character found, what is after. *)
Fixpoint find_first_of (cs s : bytes) : option (bytes * byte * bytes) :=
  match s with
  | [] => None
  | c :: s' =>
      if has_char cs c then Some ([], c, s')
      else '(pre, d, post) ← find_first_of cs s'; Some (c :: pre, d, post)
  end.

(** [cfgtag.substr(cfgtag.find("]") + 1)]: without a bracket [npos + 1] is 0. *)
Definition after_bracket (cfgtag : bytes) : bytes :=
  match find_first_of ["]"%byte] cfgtag with
  | Some (_, _, post) => post
  | None => cfgtag
  end.

Fixpoint strip_prefix (p s : bytes) : option bytes :=
  match p, s with
  | [], _ => Some s
  | c :: p, d :: s => if decide (c = d) then strip_prefix p s else None
  | _ :: _, [] => None
  end.

(** The rest of the tag after an index: [inl] when the item itself is asked
    for, [inr] the tag to look up in it. *)
Definition index_rest (indexitem : bfsCfgItem) (cfgtag : bytes) : M () (() + bytes) :=
  match cfgtag with
  | [] => mret (inl ())
  | c :: cfgtag' =>
      if decide (c = "."%byte) then
        match strip_prefix (configName indexitem) cfgtag' with
        | None => throw (bfsCfgError "Name mismatch in array index")
        | Some [] => mret (inl ())
        | Some (d :: rest) => mret (inr (if decide (d = "."%byte) then rest else d :: rest))
        end
      else if decide (c = "["%byte) then throw (bfsCfgError "Next arrays not currently supported.")
      else mret (inr cfgtag)
  end.

(** [queryConfig]: every call descends to an item inside. *)
Fixpoint queryConfig (fuel : nat) (i : bfsCfgItem) (cfgtag : bytes) : M () bfsCfgItem :=
  match fuel with
  | O => die Out_of_fuel
  | S fuel =>
      match find_first_of ["."%byte; "["%byte] cfgtag with
      | None => getSubItemByName i cfgtag
      | Some (search, c, post) =>
          if decide (c = "."%byte) then
            subitem ← getSubItemByName i search;
            match post with
            | [] => mret subitem
            | _ => queryConfig fuel subitem post
            end
          else
            idx ← stoi post;
            subitem ← getSubItemByName i search;
            indexitem ← getSubItemByIndex subitem idx;
            r ← index_rest indexitem (after_bracket cfgtag);
            match r with
            | inl _ => mret indexitem
            | inr cfgtag => queryConfig fuel indexitem cfgtag
            end
      end
  end.

Fixpoint depth (i : bfsCfgItem) : nat :=
  let 'CfgItem _ _ _ l := i in S (foldr (fun i n => Nat.max (depth i) n) O l).

Definition query (i : bfsCfgItem) (cfgtag : bytes) : M () bfsCfgItem := queryConfig (depth i) i cfgtag.

(** [toString]; the indent never is -1 here. *)
Fixpoint toString (i : bfsCfgItem) (indent : nat) : bytes :=
  let 'CfgItem t n v l := i in
  let padding := spaces (indent * 2) in
  let subs := concat (map (fun i => toString i (S indent)) l) in
  match t with
  | bfsCfgItem_VALUE => padding ++ n ++ str " : " ++ v ++ [x0a]
  | bfsCfgItem_LIST => padding ++ n ++ str " [ " ++ [x0a] ++ subs ++ padding ++ str "]" ++ [x0a]
  | bfsCfgItem_STRUCT => padding ++ n ++ str " {" ++ [x0a] ++ subs ++ padding ++ str "}" ++ [x0a]
  end.

(** ** Building the items of a parse tree *)

Definition tree_name (t : parseTree) : string := symName (symbol t).

(** The loop over a word list, from its element [el] on. *)
Fixpoint word_items (tag : bytes) (item : bfsCfgItem) (idx : Z) (el : parseTree) : M () bfsCfgItem :=
  match el with
  | PTree _ [] _ => throw std_out_of_range
  | PTree _ (w :: rest) _ =>
      litem ← new_item bfsCfgItem_VALUE (tag ++ str "[" ++ to_string idx ++ str "]") (matched w);
      item ← addSubItem item litem;
      match rest with
      | [] => mret item
      | el :: _ => word_items tag item (idx + 1) el
      end
  end.

(** [createConfiguration(tree, context)] gives the context with the items of
    the tree; a compound item is added once it is complete.  What the function
    returns is not used. *)
Fixpoint createConfiguration (tree : parseTree) (context : bfsCfgItem) : M () bfsCfgItem :=
  match tree with
  | PTree s l _ =>
      if decide (symName s = "CONFIG") then
        match l with
        | [] => die Undefined_behaviour
        | t0 :: l' =>
            if decide (tree_name t0 = "WORD") then
              let tag := matched t0 in
              match l' with
              | [] => die Undefined_behaviour
              | t1 :: l'' =>
                  if decide (tree_name t1 = ":") then
                    match l'' with
                    | [t2] => item ← new_item bfsCfgItem_VALUE tag (matched t2); addSubItem context item
                    | _ => throw (bfsCfgParserError "Bad parse tree")
                    end
                  else if decide (tree_name t1 = "CFGLIST") then
                    el ← vec_at (ntmatch t1) 1;
                    item ← new_item bfsCfgItem_LIST tag [];
                    item ← (if decide (tree_name el = "WORDLIST") then word_items tag item 0 el
                            else createConfiguration t1 item);
                    addSubItem context item
                  else if decide (tree_name t1 = "CFGSTRUCT") then
                    item ← new_item bfsCfgItem_STRUCT tag [];
                    item ← createConfiguration t1 item;
                    addSubItem context item
                  else throw (bfsCfgParserError "Bad parse tree, weird config")
              end
            else throw (bfsCfgParserError "Bad parse tree")
        end
      else
        (fix walk (l : list parseTree) (context : bfsCfgItem) : M () bfsCfgItem :=
           match l with
           | [] => mret context
           | t :: l => context ← createConfiguration t context; walk l context
           end) l context
  end.

(** ** The store *)

(** The grammar of [createParser]. *)
Definition configuration_grammar : M bfsCfgParser () :=
  addTerminalSymbol ":" (str ":") ;;
  addTerminalSymbol "[" (str "\[") ;;
  addTerminalSymbol "]" (str "\]") ;;
  addTerminalSymbol "{" (str "\{") ;;
  addTerminalSymbol "}" (str "\}") ;;
  addTerminalSymbol "WORD" (str "[\w\.\+\/=]+") ;;
  addNonTerminalSymbol "CONFIGS" ;;
  addNonTerminalSymbol "CONFIG" ;;
  addNonTerminalSymbol "CFGLIST" ;;
  addNonTerminalSymbol "CFGSTRUCT" ;;
  addNonTerminalSymbol "WORDLIST" ;;
  addProduction "START" ["CONFIGS"; "END"] ;;
  addProduction "CONFIGS" ["CONFIG"; "CONFIGS"] ;;
  addProduction "CONFIGS" ["CONFIG"] ;;
  addProduction "CONFIG" ["WORD"; "CFGLIST"] ;;
  addProduction "CONFIG" ["WORD"; "CFGSTRUCT"] ;;
  addProduction "CONFIG" ["WORD"; ":"; "WORD"] ;;
  addProduction "CFGLIST" ["["; "WORDLIST"; "]"] ;;
  addProduction "CFGLIST" ["["; "CONFIGS"; "]"] ;;
  addProduction "CFGSTRUCT" ["{"; "CONFIGS"; "}"] ;;
  addProduction "WORDLIST" ["WORD"; "WORDLIST"] ;;
  addProduction "WORDLIST" ["WORD"].

Record bfsCfgStore := mkStore {
  parser : option bfsCfgParser;
  configs : option bfsCfgItem;
}.

Definition new_store : bfsCfgStore := mkStore None None.

(** [createParser]; a [bfsCfgParserError] is caught, the parser deleted and
    [-1], which is [true], returned: the next use is of a dangling pointer. *)
Definition createParser : M bfsCfgStore () := fun s =>
  match parser s with
  | Some _ => Ok () s
  | None =>
      match configuration_grammar new_parser with
      | Ok _ p => Ok () (mkStore (Some p) (configs s))
      | Throw (bfsCfgParserError _) _ => Ok () (mkStore None (configs s))
      | Throw e _ => Throw e s
      | Crash c => Crash c
      end
  end.

(** [loadConfigurationFile]: [parseTreeToString] and [createConfiguration]
    read the tree, which is [NULL] when the text does not parse. *)
Definition loadConfigurationFile (file : option bytes) : M bfsCfgStore bool :=
  createParser ;;
  p ← gets parser;
  p ← of_opt p;
  ptree ← stateless (parseDataFile p file);
  ptree ← of_opt ptree;
  cfg ← stateless (new_item bfsCfgItem_STRUCT (str "START") []);
  cfg ← stateless (createConfiguration ptree cfg);
  modify (fun s => mkStore (parser s) (Some cfg)) ;;
  mret true.

Definition store_query (s : bfsCfgStore) (cfgtag : bytes) : M () bfsCfgItem :=
  c ← of_opt (configs s); query c cfgtag.

(** ** The configuration layer *)

(** [getConfigItem]: a [bfsCfgError] gives [NULL], other exceptions pass. *)
Definition getConfigItem (systemConfig : option bfsCfgStore) (cfgtag : bytes) : M () (option bfsCfgItem) :=
  s ← of_opt systemConfig;
  catch (i ← store_query s cfgtag; mret (Some i))
    (fun e => match e with bfsCfgError _ => Some (mret None) | _ => None end).

(** [getConfigItemValue]: [None] is the result -1. *)
Definition getConfigItemValue (systemConfig : option bfsCfgStore) (cfgtag : bytes) : M () (option bytes) :=
  item ← getConfigItem systemConfig cfgtag;
  match item with
  | None => mret None
  | Some i => if decide (itype i = bfsCfgItem_VALUE) then mret (Some (value i)) else mret None
  end.

(** [loadSystemConfiguration]: [base] is the environment variable, [file] what
    reading the configuration file gives.  The result and the new
    [systemConfig]. *)
Definition loadSystemConfiguration (systemConfig : option bfsCfgStore) (base : bool) (file : option bytes)
    : M () (Z * option bfsCfgStore) := fun s =>
  match systemConfig with
  | Some c => Ok (0, Some c) s
  | None =>
      if base then
        match loadConfigurationFile file new_store with
        | Ok _ c => Ok (0, Some c) s
        | Throw (bfsCfgParserError _) _ | Throw (bfsCfgError _) _ => Ok (-1, None) s
        | Throw e _ => Throw e s
        | Crash c => Crash c
        end
      else Ok (-1, None) s
  end.
End CfgItem.
