(* ===== verification/FlexTest.v ===== *)
(** * Random values, typed fields of flexible buffers, and their unit test

    Models the random functions of [bfs_utils/bfs_util.cpp], the typed header and
    trailer operations of [bfs_utils/bfsFlexibleBuffer.h], copying, comparing and
    printing of buffers, and [flexBufferUTest] of [bfsFlexibleBuffer.cpp].  The
    bytes that libgcrypt draws are a parameter; the unit test is proved to
    succeed for all of them. *)
From S2P Require Import Prelude FlexBuffer Wire RegExp BfsLog CfgItem.
Import Init.Byte RegExp.

(** ** Random values *)
Module Random.
Section random.

(** What the [i]th call of [gcry_randomize] puts into a buffer of [n] bytes. *)
Variable gcry_randomize : nat -> Z -> bytes.

Definition randomize (n : Z) : M nat bytes := fun i => Ok (gcry_randomize i n) (S i).

(** All arithmetic is in 64 bits, the result is cut to 32. *)
Definition get_random_value (min max : Z) : M nat Z :=
  b ← randomize 8;
  let val := le_combine b in
  let range_length := u64 (max - min + 1) in
  mret (u32 (if range_length =? 0 then val else u64 (val mod range_length + min))).

(** The remainder of C has the sign of the dividend; a difference outside of
    32 bits is undefined. *)
Definition get_random_signed_value (min max : Z) : M nat Z :=
  b ← randomize 4;
  let val := FlexStream.signed 4 (le_combine b) in
  let range_length := max - min + 1 in
  if (- 2 ^ 31 <=? max - min) && (range_length <? 2 ^ 31) then
    mret (if range_length =? 0 then val else Z.rem val range_length + min)
  else die Undefined_behaviour.

Definition get_random_data (sz : Z) : M nat bytes := randomize sz.

Definition BFSUTIL_ALLCHARS : bytes := Eval vm_compute in
  str " !#$%&()*+,-./0123456789:;<=>?@ABCDEFGHIJKLMNOPQRSTUVWXYZ[]^_abcdefghijklmnopqrstuvwxyz{".

Fixpoint get_random_alphanumeric_data (sz : nat) : M nat bytes :=
  match sz with
  | O => mret []
  | S sz =>
      k ← get_random_value 0 (zlen BFSUTIL_ALLCHARS - 1);
      c ← of_opt (BFSUTIL_ALLCHARS !! Z.to_nat k);
      r ← get_random_alphanumeric_data sz;
      mret (c :: r)
  end.

Context (randomize_zlen : forall i n, 0 <= n -> zlen (gcry_randomize i n) = n).

Lemma randomize_bound i : 0 <= le_combine (gcry_randomize i 8) < 2 ^ 64.
Proof.
  pose proof (le_combine_fits (gcry_randomize i 8)) as Hf. unfold fits in Hf.
  pose proof (randomize_zlen i 8 ltac:(lia)) as Hl. unfold zlen in Hl. rewrite Hl in Hf. exact Hf.
Qed.

Lemma get_random_value_range min max i :
  0 <= min <= max -> max < 2 ^ 32 ->
  exists v, get_random_value min max i = Ok v (S i) /\ min <= v <= max.
Proof.
  intros Hm Hx. eexists. split; [done|]. pose proof (randomize_bound i). rewrite (u64_small (max - min + 1)) by lia.
  destruct (Z.eqb_spec (max - min + 1) 0); [lia|].
  pose proof (Z.mod_pos_bound (le_combine (gcry_randomize i 8)) (max - min + 1) ltac:(lia)).
  rewrite u64_small, u32_small by lia. lia.
Qed.

(** Only printable characters are drawn, and as many as asked for. *)
Theorem alphanumeric_chars sz i :
  exists d j, get_random_alphanumeric_data sz i = Ok d j /\ length d = sz /\ Forall (.∈ BFSUTIL_ALLCHARS) d.
Proof.
  revert i. induction sz as [|sz IH]; intros i; [by exists [], i|]. cbn [get_random_alphanumeric_data].
  destruct (get_random_value_range 0 (zlen BFSUTIL_ALLCHARS - 1) i) as (v & Hv & Hr); [vm_compute; split; congruence|done|].
  rewrite (bind_Ok _ _ _ _ _ Hv).
  destruct (lookup_lt_is_Some_2 BFSUTIL_ALLCHARS (Z.to_nat v)) as [c Hc]; [unfold zlen in Hr; lia|]. rewrite Hc, bind_of_opt.
  destruct (IH (S i)) as (d & j & Hd & Hl & Hf). rewrite (bind_Ok _ _ _ _ _ Hd). exists (c :: d), j.
  split_and!; [done|cbn; by rewrite Hl|]. constructor; [by eapply list_elem_of_lookup_2|done].
Qed.
End random.

(** The signed variant leaves its range when the bytes drawn are negative. *)
Lemma signed_value_below_min :
  exists gcry, (forall i n, 0 <= n -> zlen (gcry i n) = n) /\ get_random_signed_value gcry 0 9 0%nat = Ok (-1) 1%nat.
Proof.
  exists (fun _ n => replicate (Z.to_nat n) xff). split; [|by vm_compute].
  intros _ n Hn. unfold zlen. rewrite length_replicate. lia.
Qed.
End Random.

(** ** Typed headers and trailers *)
Module FlexTyped.
Import FlexBuffer Random.

Inductive bfs_flexbuf_dtypes_t :=
  | BFS_FLEXBUF_BYTE | BFS_FLEXBUF_BOOL | BFS_FLEXBUF_UI16 | BFS_FLEXBUF_I16 | BFS_FLEXBUF_UI32 | BFS_FLEXBUF_I32
  | BFS_FLEXBUF_UI64 | BFS_FLEXBUF_I64 | BFS_FLEXBUF_DATA.

Definition dtypes : list bfs_flexbuf_dtypes_t :=
  [BFS_FLEXBUF_BYTE; BFS_FLEXBUF_BOOL; BFS_FLEXBUF_UI16; BFS_FLEXBUF_I16; BFS_FLEXBUF_UI32; BFS_FLEXBUF_I32;
   BFS_FLEXBUF_UI64; BFS_FLEXBUF_I64; BFS_FLEXBUF_DATA].

Definition bfs_flexbuf_dtypes_strings : list string :=
  ["BFS_FLEXBUF_BYTE"; "BFS_FLEXBUF_BOOL"; "BFS_FLEXBUF_UI16"; "BFS_FLEXBUF_I16"; "BFS_FLEXBUF_UI32"; "BFS_FLEXBUF_I32";
   "BFS_FLEXBUF_UI64"; "BFS_FLEXBUF_I64"; "BFS_FLEXBUF_DATA"]%string.

Definition getDataTypeString (ty : Z) : string :=
  if (ty <? 0) || (8 <? ty) then "BAD DATA TYPE"%string else default ""%string (bfs_flexbuf_dtypes_strings !! Z.to_nat ty).

(** [sizeof] and signedness of the scalar types; [char] is signed. *)
Definition size_of (ty : bfs_flexbuf_dtypes_t) : nat :=
  match ty with
  | BFS_FLEXBUF_BYTE | BFS_FLEXBUF_BOOL => 1
  | BFS_FLEXBUF_UI16 | BFS_FLEXBUF_I16 => 2
  | BFS_FLEXBUF_UI32 | BFS_FLEXBUF_I32 => 4
  | BFS_FLEXBUF_UI64 | BFS_FLEXBUF_I64 => 8
  | BFS_FLEXBUF_DATA => 0
  end.

Definition is_signed (ty : bfs_flexbuf_dtypes_t) : bool :=
  match ty with BFS_FLEXBUF_BYTE | BFS_FLEXBUF_I16 | BFS_FLEXBUF_I32 | BFS_FLEXBUF_I64 => true | _ => false end.

(** The value of the type that has these bits. *)
Definition cast (ty : bfs_flexbuf_dtypes_t) (z : Z) : Z :=
  let n := size_of ty in
  let u := z mod 2 ^ (8 * Z.of_nat n) in
  if is_signed ty then FlexStream.signed n u else u.

(** [addHeader(val)] and the others on a scalar of type [ty]. *)
Definition addHeader_val (ty : bfs_flexbuf_dtypes_t) (v : Z) : M t Z := addHeader (le_split (size_of ty) v).
Definition addTrailer_val (ty : bfs_flexbuf_dtypes_t) (v : Z) : M t Z := addTrailer (le_split (size_of ty) v).
Definition removeHeader_val (ty : bfs_flexbuf_dtypes_t) : M t Z :=
  r ← removeHeader (Z.of_nat (size_of ty)); mret (cast ty (le_combine r.1)).
Definition removeTrailer_val (ty : bfs_flexbuf_dtypes_t) : M t Z :=
  r ← removeTrailer (Z.of_nat (size_of ty)); mret (cast ty (le_combine r.1)).

(** Copying, comparing and printing. *)
Definition copy_ctor (cpy : t) : t :=
  mk (Some (take (Z.to_nat (allocation cpy)) (mem cpy))) (allocation cpy) (hlength cpy) (length cpy) (tlength cpy) (burnOnFree cpy).

Definition assign (fb : t) : M t () := setData (content fb) ;; mret ().

Definition equals (a b : t) : bool := (length a =? length b) && bool_decide (content a = content b).

Definition toString (maxdigits : Z) (b : t) : bytes :=
  let len := if maxdigits =? -1 then length b else if maxdigits <? FlexStream.signed 4 (length b) then u32 maxdigits else length b in
  str "bfsFlexBuf (len=" ++ CfgItem.to_string (length b) ++ str ") : " ++
  (if len <? 2 ^ 31 then BfsLog.bufToString (take (Z.to_nat len) (drop (Z.to_nat (hlength b)) (mem b))) 128 else []).

(** A value on one of the stacks of the unit test. *)
Inductive entry := Scalar (ty : bfs_flexbuf_dtypes_t) (v : Z) | Data (d : bytes).

Definition raw (x : entry) : bytes :=
  match x with Scalar ty v => le_split (size_of ty) v | Data d => d end.

(** ** [flexBufferUTest] *)

Definition BFS_FLEX_UTEST_ITERATIONS : nat := 10.
Definition BFS_FLEX_UTEST_STACKSZ : nat := 10.
Definition BFS_FLEX_HDTR_UTEST_ITERATIONS : nat := 100.
Definition BFS_FLEX_UTEST_BASESZ : Z := 256.

Section utest.
Variable gcry_randomize : nat -> Z -> bytes.
Abbreviation get_random_value := (get_random_value gcry_randomize).
Abbreviation get_random_data := (get_random_data gcry_randomize).

Definition on_buf {A} (m : M t A) (b : t) : M nat (A * t) := fun i =>
  match m b with
  | Ok a b' => Ok (a, b') i
  | Throw e _ => Throw e i
  | Crash c => Crash c
  end.

(** The value to add, by its type. *)
Definition random_entry (ty : bfs_flexbuf_dtypes_t) : M nat entry :=
  match ty with
  | BFS_FLEXBUF_BYTE => v ← get_random_value 0 255; mret (Scalar ty (cast ty v))
  | BFS_FLEXBUF_BOOL => v ← get_random_value 0 1; mret (Scalar ty v)
  | BFS_FLEXBUF_UI16 => v ← get_random_value 0 65535; mret (Scalar ty (cast ty v))
  | BFS_FLEXBUF_I16 => v ← get_random_value 0 32767; mret (Scalar ty (cast ty v))
  | BFS_FLEXBUF_UI32 => v ← get_random_value 0 4294967295; mret (Scalar ty v)
  | BFS_FLEXBUF_I32 => v ← get_random_value 0 2147483647; mret (Scalar ty (cast ty v))
  | BFS_FLEXBUF_UI64 | BFS_FLEXBUF_I64 => d ← get_random_data 8; mret (Scalar ty (cast ty (le_combine d)))
  | BFS_FLEXBUF_DATA => sz ← get_random_value 1 BFS_FLEX_UTEST_BASESZ; d ← get_random_data sz; mret (Data d)
  end.

Definition add_entry (doheader : bool) (x : entry) : M t Z :=
  match x with
  | Scalar ty v => if doheader then addHeader_val ty v else addTrailer_val ty v
  | Data d => if doheader then addHeader d else addTrailer d
  end.

(** Removing the value on top; whether it is the one that was added. *)
Definition remove_entry (doheader : bool) (x : entry) : M t bool :=
  match x with
  | Scalar ty v =>
      w ← (if doheader then removeHeader_val ty else removeTrailer_val ty);
      mret (bool_decide (w = v))
  | Data d =>
      r ← (if doheader then removeHeader (zlen d) else removeTrailer (zlen d));
      mret (bool_decide (r.1 = d))
  end.

Record test := mkTest { buf : t; headerStack : list entry; trailerStack : list entry }.

Definition stack_of (doheader : bool) (s : test) : list entry := if doheader then headerStack s else trailerStack s.
Definition with_stack (doheader : bool) (l : list entry) (b : t) (s : test) : test :=
  if doheader then mkTest b l (trailerStack s) else mkTest b (headerStack s) l.

(** Whether to add or remove, at which end. *)
Definition choose (iter : nat) (s : test) : M nat (bool * bool) :=
  if decide (BFS_FLEX_HDTR_UTEST_ITERATIONS <= iter)%nat then
    mret (match headerStack s with [] => false | _ => true end, false)
  else
    v ← get_random_value 0 100;
    let doheader := v <=? 50 in
    let ptr := List.length (stack_of doheader s) in
    adddat ← (if decide (ptr = 0%nat) then mret true
              else if decide (ptr < BFS_FLEX_UTEST_STACKSZ)%nat then v ← get_random_value 0 100; mret (v <=? 50)
              else mret false);
    mret (doheader, adddat).

(** One round of the loop; [None] is the result -1.  The stacks are arrays. *)
Definition test_round (iter : nat) (s : test) : M nat (option test) :=
  '(doheader, adddat) ← choose iter s;
  if (adddat : bool) then
    n ← get_random_value 0 8;
    ty ← of_opt (dtypes !! Z.to_nat n);
    x ← random_entry ty;
    if decide (List.length (stack_of doheader s) < BFS_FLEX_UTEST_STACKSZ)%nat then
      '(_, b) ← on_buf (add_entry doheader x) (buf s);
      mret (Some (with_stack doheader (x :: stack_of doheader s) b s))
    else die Undefined_behaviour
  else
    match stack_of doheader s with
    | [] => die Undefined_behaviour
    | x :: stack =>
        '(ok, b) ← on_buf (remove_entry doheader x) (buf s);
        mret (if (ok : bool) then Some (with_stack doheader stack b s) else None)
    end.

Fixpoint test_loop (fuel : nat) (iter : nat) (s : test) : M nat Z :=
  match fuel with
  | O => die Out_of_fuel
  | S fuel =>
      r ← test_round iter s;
      match r with
      | None => mret (-1)
      | Some s =>
          if decide (BFS_FLEX_HDTR_UTEST_ITERATIONS <= S iter /\ headerStack s = [] /\ trailerStack s = [])%nat
          then mret 0 else test_loop fuel (S iter) s
      end
  end.

(** An empty or a filled buffer. *)
Definition test_buffer : M nat t :=
  v ← get_random_value 0 100;
  if v <=? 50 then mret empty
  else
    sz ← get_random_value 1 BFS_FLEX_UTEST_BASESZ;
    d ← get_random_data sz;
    '(_, b) ← on_buf (setData d) empty;
    mret b.

Definition utest_fuel : nat := BFS_FLEX_HDTR_UTEST_ITERATIONS + 2 * BFS_FLEX_UTEST_STACKSZ.

Fixpoint test_iterations (n : nat) : M nat Z :=
  match n with
  | O => mret 0
  | S n =>
      b ← test_buffer;
      r ← test_loop utest_fuel 0 (mkTest b [] []);
      if r =? 0 then test_iterations n else mret (-1)
  end.

Definition flexBufferUTest : M nat Z := test_iterations BFS_FLEX_UTEST_ITERATIONS.

(** ** The unit test succeeds *)

Context (randomize_zlen : forall i n, 0 <= n -> zlen (gcry_randomize i n) = n).

(** Entries as the test makes them: scalars of their type, data of up to the
    size of a block. *)
Definition good (x : entry) : Prop :=
  match x with
  | Scalar ty v => ty <> BFS_FLEXBUF_DATA /\ cast ty v = v
  | Data d => 0 < zlen d <= BFS_FLEX_UTEST_BASESZ
  end.

Lemma raw_size x : good x -> 0 < zlen (raw x) <= BFS_FLEX_UTEST_BASESZ.
Proof.
  destruct x as [ty v|d]; [|done]. intros [Hty _]. cbn [raw]. rewrite zlen_le_split. destruct ty; (done || cbn; lia).
Qed.

Lemma cast_cast ty z : cast ty (cast ty z) = cast ty z.
Proof.
  assert (forall n z, (0 < n)%nat -> FlexStream.signed n (z mod 2 ^ (8 * Z.of_nat n)) mod 2 ^ (8 * Z.of_nat n) =
    z mod 2 ^ (8 * Z.of_nat n)) as Hs.
  { intros n y Hn. unfold FlexStream.signed. assert (0 < 2 ^ (8 * Z.of_nat n)) by (apply Z.pow_pos_nonneg; lia).
    destruct (_ <? _); [by apply Z.mod_mod; lia|]. rewrite Zminus_mod, Z.mod_same by lia. rewrite Z.sub_0_r. by rewrite !Z.mod_mod by lia. }
  unfold cast. destruct ty; cbn [is_signed]; rewrite ?Hs by (cbn; lia); try done; apply Z.mod_mod; done.
Qed.

(** A scalar is read back from its bytes. *)
Lemma cast_bytes ty v : cast ty v = v -> cast ty (le_combine (le_split (size_of ty) v)) = v.
Proof.
  intros Hv. rewrite le_combine_split, Z.mul_comm. rewrite <-Hv at 2. unfold cast. by rewrite Z.mod_mod by (apply Z.pow_nonzero; lia).
Qed.

(** Headers, data and trailers lie in the buffer one after the other. *)
Definition layout (base : bytes) (s : test) : bytes :=
  concat (map raw (headerStack s)) ++ base ++ concat (map raw (reverse (trailerStack s))).

Record holds (base : bytes) (s : test) : Prop := {
  h_wf : wf (buf s);
  h_content : content (buf s) = layout base s;
  h_buffer : headerStack s <> [] \/ trailerStack s <> [] -> buffer (buf s) <> None;
  h_headers : Forall good (headerStack s);
  h_trailers : Forall good (trailerStack s);
}.

Lemma layout_trailer base hs x ts b :
  layout base (mkTest b hs (x :: ts)) = layout base (mkTest b hs ts) ++ raw x.
Proof. unfold layout. cbn [headerStack trailerStack]. rewrite reverse_cons, map_app, concat_app, !app_assoc. cbn. by rewrite app_nil_r. Qed.

Lemma add_entry_raw dh x : add_entry dh x = if dh then addHeader (raw x) else addTrailer (raw x).
Proof. by destruct x, dh. Qed.

Lemma add_holds base s dh x :
  holds base s -> good x -> allocation (buf s) + 288 < 2 ^ 32 ->
  exists n b, add_entry dh x (buf s) = Ok n b /\ holds base (with_stack dh (x :: stack_of dh s) b s) /\
    allocation b <= allocation (buf s) + 288.
Proof.
  intros [Hw Hc Hb Hh Ht] Hx Ha. pose proof (raw_size x Hx) as Hr. unfold BFS_FLEX_UTEST_BASESZ in Hr. rewrite add_entry_raw.
  assert (raw x <> []) as Hne by (intros E; rewrite E in Hr; by destruct Hr as [? _]). destruct s as [b0 hs ts]. cbn [buf headerStack trailerStack] in *.
  destruct dh; cbn [with_stack stack_of headerStack trailerStack].
  - destruct (addHeader_spec b0 (raw x) Hw) as (b & Hrun & Hw' & Hc' & Hb' & Hal); [unfold BFSFLEXBUF_DEFAULT_PAD; lia|].
    unfold BFSFLEXBUF_DEFAULT_PAD in Hal. eexists _, b. split; [exact Hrun|]. split; [|lia].
    constructor; cbn [buf headerStack trailerStack]; [done| |auto|by constructor|done]. rewrite Hc', Hc. unfold layout. cbn. by rewrite <-!app_assoc.
  - destruct (addTrailer_spec b0 (raw x) Hw) as (b & Hrun & Hw' & Hc' & Hb' & Hal); [unfold BFSFLEXBUF_DEFAULT_PAD; lia|].
    unfold BFSFLEXBUF_DEFAULT_PAD in Hal. eexists _, b. split; [exact Hrun|]. split; [|lia].
    constructor; cbn [buf headerStack trailerStack]; [done| |auto|done|by constructor]. by rewrite layout_trailer, Hc', Hc.
Qed.

Lemma take_front (a b : bytes) : take (Z.to_nat (zlen a)) (a ++ b) = a.
Proof. unfold zlen. by rewrite Nat2Z.id, take_app_length. Qed.

Lemma drop_front (a b : bytes) : drop (Z.to_nat (zlen a)) (a ++ b) = b.
Proof. unfold zlen. by rewrite Nat2Z.id, drop_app_length. Qed.

(** Removing gives the bytes of the entry on top. *)
Lemma remove_bytes base s dh x stack :
  holds base s -> stack_of dh s = x :: stack ->
  exists n b, (if dh then removeHeader (zlen (raw x)) else removeTrailer (zlen (raw x))) (buf s) = Ok (raw x, n) b /\
    holds base (with_stack dh stack b s) /\ allocation b = allocation (buf s).
Proof.
  intros [Hw Hc Hb Hh Ht] Hs. pose proof (content_zlen _ Hw) as Hl. destruct s as [b0 hs ts]. cbn [buf headerStack trailerStack] in *.
  destruct dh; cbn [stack_of with_stack headerStack trailerStack] in *; subst.
  - change (content b0 = (raw x ++ concat (map raw stack)) ++ base ++ concat (map raw (reverse ts))) in Hc.
    rewrite <-app_assoc in Hc. rewrite Hc, zlen_app in Hl. pose proof (zlen_nonneg (raw x)).
    match type of Hl with _ + zlen ?r = _ => pose proof (zlen_nonneg r) end.
    destruct (removeHeader_spec b0 (zlen (raw x)) Hw) as (b & Hr & Hw' & Hc' & Hb' & Ha); [apply Hb; by left|lia|].
    rewrite Hc in Hr, Hc'. rewrite take_front in Hr. rewrite drop_front in Hc'.
    eexists _, b. split; [exact Hr|]. split; [|done]. apply Forall_cons in Hh as [_ Hh]. by constructor.
  - rewrite layout_trailer in Hc. rewrite Hc, zlen_app in Hl. pose proof (zlen_nonneg (raw x)).
    match type of Hl with zlen ?r + _ = _ => pose proof (zlen_nonneg r) end.
    destruct (removeTrailer_spec b0 (zlen (raw x)) Hw) as (b & Hr & Hw' & Hc' & Hb' & Ha); [apply Hb; by right|lia|].
    rewrite <-Hl, Z.add_simpl_r, Hc in Hr, Hc'. rewrite drop_front in Hr. rewrite take_front in Hc'.
    eexists _, b. split; [exact Hr|]. split; [|done]. apply Forall_cons in Ht as [_ Ht]. by constructor.
Qed.

Lemma remove_holds base s dh x stack :
  holds base s -> stack_of dh s = x :: stack ->
  exists b, remove_entry dh x (buf s) = Ok true b /\ holds base (with_stack dh stack b s) /\ allocation b = allocation (buf s).
Proof.
  intros Hh Hs. assert (good x) as Hx.
  { destruct Hh as [_ _ _ Hh Ht]. destruct dh; cbn in Hs; rewrite Hs in *; by eapply Forall_inv. }
  destruct (remove_bytes base s dh x stack Hh Hs) as (n & b & Hr & Hb & Ha). exists b. split; [|done].
  destruct x as [ty v|d]; cbn [remove_entry raw good] in *.
  - rewrite zlen_le_split in Hr. destruct Hx as [_ Hx]. unfold removeHeader_val, removeTrailer_val.
    destruct dh; rewrite bind_assoc, (bind_Ok _ _ _ _ _ Hr), bind_ret; cbn [fst]; by rewrite cast_bytes, bool_decide_eq_true_2.
  - destruct dh; rewrite (bind_Ok _ _ _ _ _ Hr); cbn [fst]; by rewrite bool_decide_eq_true_2.
Qed.

(** *** The random choices *)

Lemma draw min max i : 0 <= min <= max -> max < 2 ^ 32 -> exists v, get_random_value min max i = Ok v (S i) /\ min <= v <= max.
Proof. apply (get_random_value_range _ randomize_zlen). Qed.

Lemma random_entry_Ok ty i : exists x j, random_entry ty i = Ok x j /\ good x.
Proof.
  assert (forall hi, 0 <= hi < 2 ^ 32 -> exists v, get_random_value 0 hi i = Ok v (S i) /\ 0 <= v <= hi) as Hd
    by (intros hi Hhi; apply draw; lia).
  destruct ty; cbn [random_entry].
  all: match goal with
    | |- context [get_random_value 0 ?hi] => destruct (Hd hi ltac:(lia)) as (v & Hv & Hr); rewrite (bind_Ok _ _ _ _ _ Hv)
    | |- context [get_random_value 1 _] => idtac
    | _ => idtac
    end.
  all: try (eexists _, _; split; [reflexivity|]; split; [done|]; first [apply cast_cast|unfold cast; cbn [is_signed]; apply Z.mod_small; cbn; lia]).
  destruct (draw 1 BFS_FLEX_UTEST_BASESZ i) as (sz & Hv & Hr); [unfold BFS_FLEX_UTEST_BASESZ; lia|done|].
  rewrite (bind_Ok _ _ _ _ _ Hv). eexists _, _. split; [reflexivity|]. cbn [good]. rewrite randomize_zlen by lia. lia.
Qed.

(** The test may add only where there is room, and remove only where there is
    something. *)
Lemma choose_Ok iter s i :
  (iter < 100)%nat \/ headerStack s <> [] \/ trailerStack s <> [] ->
  exists dh ad j, choose iter s i = Ok (dh, ad) j /\
    (if ad then (List.length (stack_of dh s) < BFS_FLEX_UTEST_STACKSZ)%nat /\ (iter < 100)%nat else stack_of dh s <> []).
Proof.
  intros Hit. unfold choose, BFS_FLEX_HDTR_UTEST_ITERATIONS. case_decide as Hc.
  { eexists _, false, i. split; [done|]. destruct Hit as [|Hne]; [lia|]. destruct (headerStack s) eqn:E; cbn; [|by rewrite E].
    by destruct Hne. }
  destruct (draw 0 100 i) as (v & Hv & Hr); [lia..|]. rewrite (bind_Ok _ _ _ _ _ Hv).
  set (dh := v <=? 50). destruct (decide (List.length (stack_of dh s) = 0%nat)) as [Hz|Hz].
  { eexists dh, true, _. split; [done|]. rewrite Hz. unfold BFS_FLEX_UTEST_STACKSZ. lia. }
  assert (stack_of dh s <> []) as Hne by (intros E; by rewrite E in Hz).
  case_decide as Hs; [|by eexists dh, false, _].
  destruct (draw 0 100 (S i)) as (w & Hw & _); [lia..|]. rewrite bind_assoc, (bind_Ok _ _ _ _ _ Hw), bind_ret.
  exists dh, (w <=? 50). eexists. split; [done|]. destruct (w <=? 50); [split; [done|lia]|done].
Qed.

(** *** The loop *)

Definition size (s : test) : nat := List.length (headerStack s) + List.length (trailerStack s).

Definition within (s : test) : Prop :=
  (List.length (headerStack s) <= BFS_FLEX_UTEST_STACKSZ /\ List.length (trailerStack s) <= BFS_FLEX_UTEST_STACKSZ)%nat.

Lemma round_Ok base iter s i :
  holds base s -> within s -> (iter < 100)%nat \/ headerStack s <> [] \/ trailerStack s <> [] ->
  allocation (buf s) + 288 * Z.of_nat (100 - iter) <= 2 ^ 20 ->
  exists s' j, test_round iter s i = Ok (Some s') j /\ holds base s' /\ within s' /\
    allocation (buf s') + 288 * Z.of_nat (100 - S iter) <= 2 ^ 20 /\ ((100 <= iter)%nat -> S (size s') = size s).
Proof.
  intros Hh Hin Hit Ha. destruct (choose_Ok iter s i Hit) as (dh & ad & j & Hc & Hcase). unfold test_round.
  rewrite (bind_Ok _ _ _ _ _ Hc). destruct ad.
  - destruct Hcase as [Hroom Hlt]. destruct (draw 0 8 j) as (n & Hn & Hr); [lia..|]. rewrite (bind_Ok _ _ _ _ _ Hn).
    destruct (lookup_lt_is_Some_2 dtypes (Z.to_nat n)) as [ty Hty]; [cbn; lia|]. rewrite Hty, bind_of_opt.
    destruct (random_entry_Ok ty (S j)) as (x & k & Hx & Hg). rewrite (bind_Ok _ _ _ _ _ Hx), decide_True by done.
    destruct (add_holds base s dh x Hh Hg) as (m & b & Hadd & Hh' & Hal); [lia|].
    rewrite (bind_Ok _ _ _ (m, b) k) by (unfold on_buf; by rewrite Hadd).
    eexists _, _. split; [reflexivity|]. split; [done|]. destruct Hin. unfold within, size, BFS_FLEX_UTEST_STACKSZ in *.
    destruct dh; cbn in *; split_and!; lia.
  - destruct (stack_of dh s) as [|x stack] eqn:Hs; [done|].
    destruct (remove_holds base s dh x stack Hh Hs) as (b & Hrem & Hh' & Hal).
    rewrite (bind_Ok _ _ _ (true, b) j) by (unfold on_buf; by rewrite Hrem).
    eexists _, _. split; [reflexivity|]. split; [done|]. destruct Hin. unfold within, size in *.
    destruct dh; cbn in *; rewrite Hs in *; cbn in *; split_and!; lia.
Qed.

(** Rounds that are left: the random ones and one for every entry. *)
Definition rounds (iter : nat) (s : test) : nat := if decide (iter < 100)%nat then 120 - iter else size s.

Lemma loop_Ok base fuel iter s i :
  holds base s -> within s -> (iter < 100)%nat \/ headerStack s <> [] \/ trailerStack s <> [] ->
  allocation (buf s) + 288 * Z.of_nat (100 - iter) <= 2 ^ 20 -> (rounds iter s <= fuel)%nat ->
  exists j, test_loop fuel iter s i = Ok 0 j.
Proof.
  revert iter s i. induction fuel as [|fuel IH]; intros iter s i Hh Hin Hit Ha Hf.
  { unfold rounds, size in Hf. case_decide; [lia|]. destruct Hit as [|[Hne|Hne]]; [lia|destruct (headerStack s)|destruct (trailerStack s)];
      (done || cbn in Hf; lia). }
  cbn [test_loop]. destruct (round_Ok base iter s i Hh Hin Hit Ha) as (s' & j & Hr & Hh' & Hin' & Ha' & Hsz).
  rewrite (bind_Ok _ _ _ _ _ Hr). case_decide as Hend; [by eexists|].
  apply IH; try done.
  - destruct (decide (S iter < 100)%nat); [by left|right]. unfold BFS_FLEX_HDTR_UTEST_ITERATIONS in Hend.
    destruct (headerStack s'); [|by left]. destruct (trailerStack s'); [|by right]. exfalso. apply Hend. split_and!; (done || lia).
  - unfold rounds, within, size, BFS_FLEX_UTEST_STACKSZ in *. repeat case_decide; lia.
Qed.

Lemma test_buffer_Ok i : exists b j, test_buffer i = Ok b j /\ wf b /\ allocation b <= 256.
Proof.
  unfold test_buffer. destruct (draw 0 100 i) as (v & Hv & _); [lia..|]. rewrite (bind_Ok _ _ _ _ _ Hv).
  destruct (v <=? 50); [eexists empty, _; split_and!; [done|vm_decide|done]|].
  destruct (draw 1 BFS_FLEX_UTEST_BASESZ (S i)) as (sz & Hz & Hr); [unfold BFS_FLEX_UTEST_BASESZ; lia|done|].
  rewrite (bind_Ok _ _ _ _ _ Hz). unfold BFS_FLEX_UTEST_BASESZ in Hr.
  rewrite (bind_Ok _ _ _ (gcry_randomize (S (S i)) sz) (S (S (S i)))) by done.
  pose proof (randomize_zlen (S (S i)) sz ltac:(lia)) as Hl.
  destruct (setData_spec empty (gcry_randomize (S (S i)) sz)) as (b & Hs & Hw & _ & Ha); [vm_decide|cbn; lia|].
  rewrite (bind_Ok _ _ _ (zlen (gcry_randomize (S (S i)) sz), b) (S (S (S i)))) by (unfold on_buf; by rewrite Hs).
  exists b. eexists. split_and!; [done|done|]. rewrite Ha. cbn. lia.
Qed.

(** C24. The unit test of the flexible buffer succeeds, and within its rounds,
    whatever the random source returns: values of all types that are put in
    front and behind in any order come back unchanged. *)
Theorem flexBufferUTest_passes i : exists j, flexBufferUTest i = Ok 0 j.
Proof.
  unfold flexBufferUTest. generalize BFS_FLEX_UTEST_ITERATIONS as n. intros n. revert i.
  induction n as [|n IH]; intros i; [by exists i|]. cbn [test_iterations].
  destruct (test_buffer_Ok i) as (b & j & Hb & Hw & Ha). rewrite (bind_Ok _ _ _ _ _ Hb).
  destruct (loop_Ok (content b) utest_fuel 0 (mkTest b [] []) j) as (k & Hk); [| |left; lia| |vm_decide|].
  - constructor; cbn; [done|unfold layout; cbn; by rewrite app_nil_r|by intros [?|?]|constructor|constructor].
  - split; cbn; lia.
  - cbn [buf]. change (100 - 0)%nat with 100%nat. lia.
  - rewrite (bind_Ok _ _ _ _ _ Hk). cbn [Z.eqb]. apply IH.
Qed.
End utest.

Lemma flexBufferUTest_passes_witness :
  exists j, flexBufferUTest (fun i n => replicate (Z.to_nat n) (z2b (Z.of_nat i))) 0%nat = Ok 0 j.
Proof.
  apply (flexBufferUTest_passes (fun i n => replicate (Z.to_nat n) (z2b (Z.of_nat i)))).
  intros i n Hn. unfold zlen. rewrite length_replicate. lia.
Defined.
End FlexTyped.
