(* ===== verification/CfgTokens.v ===== *)
(** * The tokens of a configuration text

    Which symbol a piece of text is, and a reference definition of the
    tokenizer: take the comments out, split at white space, classify the
    pieces.  [tokenizeData] computes it on every text. *)
From S2P Require Import Prelude RegExp RegExpSpec CfgParser CfgItem.
Import Init.Byte RegExp RegExpSpec CfgParser CfgItem.

Module CfgTokens.

(** ** The grammar that [createParser] builds *)

Definition literal_atoms (c : byte) : list atom := [RE_LITERAL (RE_NORMAL_LITERAL c) RE_NOMODIFER].
Definition word_literals : list re_literal :=
  RE_WORD_LITERAL :: map RE_NORMAL_LITERAL ["."%byte; "+"%byte; "/"%byte; "="%byte].
Definition word_atoms : list atom := [RE_ORLIST false word_literals RE_ONEORMORE].

Definition matching (sym : string) (atms : list atom) : bfsCfgParserSymbol :=
  mkSymbol CFG_TERMINAL sym (Some (object_of atms)) false.

Definition sCOLON := matching ":" (literal_atoms ":"%byte).
Definition sLBRACK := matching "[" (literal_atoms "["%byte).
Definition sRBRACK := matching "]" (literal_atoms "]"%byte).
Definition sLBRACE := matching "{" (literal_atoms "{"%byte).
Definition sRBRACE := matching "}" (literal_atoms "}"%byte).
Definition sWORD := matching "WORD" word_atoms.
Definition sSTART := nonterminal "START".
Definition sEND := unmatched_terminal "END" true.
Definition sCONFIGS := nonterminal "CONFIGS".
Definition sCONFIG := nonterminal "CONFIG".
Definition sCFGLIST := nonterminal "CFGLIST".
Definition sCFGSTRUCT := nonterminal "CFGSTRUCT".
Definition sWORDLIST := nonterminal "WORDLIST".

Definition grammar_productions : list bfsCfgParserProduction :=
  [mkProduction sSTART [sCONFIGS; sEND];
   mkProduction sCONFIGS [sCONFIG; sCONFIGS];
   mkProduction sCONFIGS [sCONFIG];
   mkProduction sCONFIG [sWORD; sCFGLIST];
   mkProduction sCONFIG [sWORD; sCFGSTRUCT];
   mkProduction sCONFIG [sWORD; sCOLON; sWORD];
   mkProduction sCFGLIST [sLBRACK; sWORDLIST; sRBRACK];
   mkProduction sCFGLIST [sLBRACK; sCONFIGS; sRBRACK];
   mkProduction sCFGSTRUCT [sLBRACE; sCONFIGS; sRBRACE];
   mkProduction sWORDLIST [sWORD; sWORDLIST];
   mkProduction sWORDLIST [sWORD]].

Definition grammar_symbols : list bfsCfgParserSymbol :=
  [sSTART; sEND; sCOLON; sLBRACK; sRBRACK; sLBRACE; sRBRACE; sWORD;
   sCONFIGS; sCONFIG; sCFGLIST; sCFGSTRUCT; sWORDLIST].

Definition grammar : bfsCfgParser := mkParser grammar_symbols sSTART sEND grammar_productions.

Lemma configuration_grammar_Ok : configuration_grammar new_parser = Ok () grammar.
Proof. by vm_compute. Qed.

(** ** Which symbol a text is *)

Definition word_char (c : byte) : bool :=
  has_char re_WordChars c || has_char ["."%byte; "+"%byte; "/"%byte; "="%byte] c.

Definition is_word (w : bytes) : bool := nonempty w && forallb word_char w.

Definition classify (w : bytes) : option bfsCfgParserSymbol :=
  if decide (w = [":"%byte]) then Some sCOLON
  else if decide (w = ["["%byte]) then Some sLBRACK
  else if decide (w = ["]"%byte]) then Some sRBRACK
  else if decide (w = ["{"%byte]) then Some sLBRACE
  else if decide (w = ["}"%byte]) then Some sRBRACE
  else if is_word w then Some sWORD else None.

(** The matcher of a symbol decides the language of its expression. *)
Lemma matching_decides sym atms w :
  forallb wf_atom atms = true -> forallb separated atms = true ->
  exists b, isSymbol (matching sym atms) w () = Ok b () /\ (b = true <-> seq_lang atms w).
Proof.
  intros Hw Hs. destruct (object_of_match atms w Hw) as (b & Hb & Hc & Hd).
  exists b. split; [exact Hb|]. naive_solver.
Qed.

Lemma literal_lang c w : seq_lang (literal_atoms c) w <-> w = [c].
Proof.
  split.
  - intros (u & v & -> & (d & -> & Hd) & ->). by apply bool_decide_eq_true in Hd as ->.
  - intros ->. exists [c], []. split_and!; [done| |done]. exists c. split; [done|].
    by apply bool_decide_eq_true_2.
Qed.

Lemma or_char_word c : or_char false word_literals c = word_char c.
Proof.
  assert (forall b, negb (Bool.eqb b false) = b) as Hn by (by intros []).
  unfold or_char, word_char. rewrite Hn. apply eq_true_iff_eq. unfold has_char.
  rewrite existsb_exists, orb_true_iff, !bool_decide_eq_true. split.
  - intros (l & Hin & Hl). cbn in Hin.
    destruct Hin as [<-|Hin]; [left; by apply bool_decide_eq_true in Hl|right].
    repeat (destruct Hin as [<-|Hin]; [apply bool_decide_eq_true in Hl; set_solver|]). done.
  - intros [Hc|Hc].
    + exists RE_WORD_LITERAL. split; [by left|]. by apply bool_decide_eq_true_2.
    + exists (RE_NORMAL_LITERAL c). split; [right; by apply in_map, list_elem_of_In|]. by apply bool_decide_eq_true_2.
Qed.

Lemma star_one_char p w : star (one_char p) w <-> forallb p w = true.
Proof.
  split.
  - induction 1 as [|u v (c & -> & Hc) Hv IH]; [done|]. cbn. by rewrite Hc.
  - induction w as [|c w IH]; [intros _; apply star_nil|]. cbn. intros [Hc Hw]%andb_true_iff.
    apply (star_app _ [c] w); [by exists c|by apply IH].
Qed.

Lemma forallb_same {A} (p q : A -> bool) l : (forall x, p x = q x) -> forallb p l = forallb q l.
Proof. intros Hpq. induction l as [|x l IH]; [done|]. cbn. by rewrite Hpq, IH. Qed.

Lemma word_lang w : seq_lang word_atoms w <-> is_word w = true.
Proof.
  unfold is_word. rewrite andb_true_iff. split.
  - intros (u & v & -> & (u1 & v1 & -> & (c & -> & Hc) & Hs) & ->). rewrite app_nil_r. split; [done|].
    cbn. rewrite <-or_char_word, Hc. cbn. apply star_one_char in Hs.
    by rewrite (forallb_same _ _ _ or_char_word) in Hs.
  - intros [Hn Hf]. destruct w as [|c w]; [done|]. cbn in Hf. apply andb_true_iff in Hf as [Hc Hf].
    exists (c :: w), []. split_and!; [by rewrite app_nil_r| |done]. exists [c], w. split_and!; [done| |].
    + exists c. by rewrite or_char_word.
    + apply star_one_char. by rewrite (forallb_same _ _ _ or_char_word).
Qed.

Lemma is_literal sym c w :
  isSymbol (matching sym (literal_atoms c)) w () = Ok (bool_decide (w = [c])) ().
Proof.
  destruct (matching_decides sym (literal_atoms c) w) as (b & -> & Hb); [done..|]. do 2 f_equal.
  apply eq_true_iff_eq. by rewrite Hb, literal_lang, bool_decide_eq_true.
Qed.

Lemma is_word_symbol w : isSymbol sWORD w () = Ok (is_word w) ().
Proof.
  destruct (matching_decides "WORD" word_atoms w) as (b & Hb & Hiff); [done..|].
  unfold sWORD. rewrite Hb. f_equal. apply eq_true_iff_eq. by rewrite Hiff, word_lang.
Qed.

Lemma find_symbol_cons s b w table :
  isSymbol s w () = Ok b () ->
  find_symbol w (s :: table) () = if b then Ok (Some s) () else find_symbol w table ().
Proof. intros Hs. cbn. rewrite (bind_Ok _ _ _ _ _ Hs). by destruct b. Qed.

Lemma find_literal sym c w table :
  find_symbol w (matching sym (literal_atoms c) :: table) () =
    if decide (w = [c]) then Ok (Some (matching sym (literal_atoms c))) () else find_symbol w table ().
Proof.
  rewrite (find_symbol_cons _ _ _ _ (is_literal sym c w)). by case_bool_decide; case_decide.
Qed.

Lemma find_symbol_classify w : find_symbol w grammar_symbols () = Ok (classify w) ().
Proof.
  unfold grammar_symbols, classify.
  do 2 (rewrite find_symbol_cons with (b := false) by done; cbv iota).
  unfold sCOLON, sLBRACK, sRBRACK, sLBRACE, sRBRACE. rewrite !find_literal. repeat (case_decide; [done|]).
  rewrite (find_symbol_cons _ _ _ _ (is_word_symbol w)). by destruct (is_word w).
Qed.

(** ** The reference tokenizer *)

(** Without comments; a comment ends before the end of its line. *)
Fixpoint uncomment (inside : bool) (s : bytes) : bytes :=
  match s with
  | [] => []
  | c :: s =>
      if decide (c = x0a) then c :: uncomment false s
      else if inside then uncomment true s
      else if decide (c = "#"%byte) then uncomment true s
      else c :: uncomment false s
  end.

(** The maximal pieces without white space; [working] is the one begun. *)
Fixpoint pieces (working s : bytes) : list bytes :=
  match s with
  | [] => if nonempty working then [working] else []
  | c :: s =>
      if isspace c then (if nonempty working then [working] else []) ++ pieces [] s
      else pieces (working ++ [c]) s
  end.

Definition words_of (text : bytes) : list bytes := pieces [] (uncomment false text).

Definition unknown_symbol : exn := bfsCfgParserError "Parse error : symbol does not match any symbol in grammar.".

(** The tokens of the pieces, up to the first that is no symbol. *)
Fixpoint tokens_of (ws : list bytes) : option (list token) :=
  match ws with
  | [] => Some []
  | w :: ws => s ← classify w; ts ← tokens_of ws; Some ((w, s) :: ts)
  end.

Definition tokenized (toked : list token) (ws : list bytes) : outcome () (list token) :=
  match tokens_of ws with
  | Some ts => Ok (toked ++ ts) ()
  | None => Throw unknown_symbol ()
  end.

Lemma end_token_flush tokReady working rest toked :
  working <> [] -> rest = [] \/ tokReady = true ->
  end_token grammar_symbols tokReady working rest toked () =
    match classify working with
    | Some s => Ok ([], toked ++ [(working, s)]) ()
    | None => Throw unknown_symbol ()
    end.
Proof.
  intros Hw Hr. unfold end_token.
  assert (match rest with [] => nonempty working | _ => tokReady end = true) as ->.
  { destruct Hr as [->| ->]; [by destruct working|]. destruct rest; [by destruct working|done]. }
  rewrite (bind_Ok _ _ _ _ _ (find_symbol_classify working)). by destruct (classify working).
Qed.

Lemma end_token_keep working rest toked :
  rest <> [] \/ working = [] -> end_token grammar_symbols false working rest toked () = Ok (working, toked) ().
Proof. intros Hr. unfold end_token. destruct rest; [|done]. by destruct Hr as [[]| ->]. Qed.

Lemma tokenized_cons toked w ws s :
  classify w = Some s -> tokenized toked (w :: ws) = tokenized (toked ++ [(w, s)]) ws.
Proof.
  intros Hw. unfold tokenized. cbn. rewrite Hw. cbn. destruct (tokens_of ws); [|done]. cbn. by rewrite <-app_assoc.
Qed.

Lemma tokenized_none toked w ws : classify w = None -> tokenized toked (w :: ws) = Throw unknown_symbol ().
Proof. intros Hw. unfold tokenized. cbn. by rewrite Hw. Qed.

Lemma skip_comment_length s : (length (skip_comment s) <= length s)%nat.
Proof. induction s as [|c s IH]; cbn; [lia|]. case_decide; cbn; lia. Qed.

Lemma uncomment_skip s :
  uncomment true s = match skip_comment s with [] => [] | c :: s => x0a :: uncomment false s end.
Proof. induction s as [|c s IH]; [done|]. cbn. case_decide as Hc; [by subst|done]. Qed.

Lemma tokenize_loop_Ok fuel rest working toked :
  (length rest <= fuel)%nat -> (rest = [] -> working = []) ->
  tokenize_loop grammar_symbols fuel rest working toked () =
    tokenized toked (pieces working (uncomment false rest)).
Proof.
  revert rest working toked. induction fuel as [|fuel IH]; intros rest working toked Hf Hw.
  { destruct rest; [|cbn in Hf; lia]. rewrite Hw by done. cbn. unfold tokenized. by rewrite app_nil_r. }
  destruct rest as [|c rest]; [rewrite Hw by done; cbn; unfold tokenized; by rewrite app_nil_r|].
  cbn [tokenize_loop]. cbn in Hf.
  assert (forall rest' tail, (length rest' <= fuel)%nat -> pieces [] tail = pieces [] (uncomment false rest') ->
    ('(working, toked) ← end_token grammar_symbols (nonempty working) working rest' toked;
       tokenize_loop grammar_symbols fuel rest' working toked) () =
    tokenized toked ((if nonempty working then [working] else []) ++ pieces [] tail)) as Hsep.
  { intros rest' tail Hl ->. destruct working as [|d working].
    - rewrite (bind_Ok _ _ _ _ _ (end_token_keep [] rest' toked (or_intror eq_refl))). by apply IH.
    - cbn [nonempty]. set (w := d :: working).
      assert (end_token grammar_symbols true w rest' toked () =
        match classify w with Some s => Ok ([], toked ++ [(w, s)]) () | None => Throw unknown_symbol () end) as He.
      { apply end_token_flush; [done|by right]. }
      destruct (classify w) as [s|] eqn:Hc.
      + rewrite (bind_Ok _ _ _ _ _ He). cbn [app]. rewrite (tokenized_cons _ _ _ _ Hc). by apply IH.
      + rewrite (bind_Throw _ _ _ _ _ He). cbn [app]. by rewrite (tokenized_none _ _ _ Hc). }
  destruct (decide (c = "#"%byte)) as [->|Hc].
  - assert (skip_comment ("#"%byte :: rest) = skip_comment rest) as Hsk by done.
    assert (uncomment false ("#"%byte :: rest) = uncomment true rest) as -> by done.
    change (isspace "#"%byte) with false. cbv iota. rewrite Hsk, uncomment_skip.
    pose proof (skip_comment_length rest) as Hl. destruct (skip_comment rest) as [|d r].
    + etransitivity; [by apply (Hsep [] []); [cbn; lia|]|]. cbn. by rewrite app_nil_r.
    + by apply (Hsep r (uncomment false r)); [cbn in *; lia|].
  - assert (uncomment false (c :: rest) = c :: uncomment false rest) as ->.
    { cbn. rewrite (decide_False (P := c = "#"%byte)) by done. by case_decide. }
    cbn [pieces]. destruct (isspace c) eqn:Hsp; [apply Hsep; [lia|done]|].
    cbn beta iota zeta.
    destruct rest as [|d rest].
    + assert (working ++ [c] <> []) as Hne by (by destruct working).
      pose proof (end_token_flush false (working ++ [c]) [] toked Hne (or_introl eq_refl)) as He.
      assert (nonempty (working ++ [c]) = true) as Hn by (by destruct working).
      cbn [uncomment pieces]. rewrite Hn.
      destruct (classify (working ++ [c])) as [s|] eqn:Hcl.
      * rewrite (bind_Ok _ _ _ _ _ He), (tokenized_cons _ _ _ _ Hcl). apply (IH []); [cbn; lia|done].
      * by rewrite (bind_Throw _ _ _ _ _ He), (tokenized_none _ _ _ Hcl).
    + assert (d :: rest <> [] \/ working ++ [c] = []) as Hk by (by left).
      rewrite (bind_Ok _ _ _ _ _ (end_token_keep _ _ toked Hk)).
      by apply IH; [lia|].
Qed.

Lemma tokenizeData_Ok text :
  tokenizeData grammar_symbols sEND text () =
    match tokens_of (words_of text) with
    | Some ts => Ok (ts ++ [(str "END", sEND)]) ()
    | None => Throw unknown_symbol ()
    end.
Proof.
  unfold tokenizeData. pose proof (tokenize_loop_Ok (length text) text [] [] ltac:(lia) ltac:(done)) as Hl.
  unfold tokenized in Hl. fold (words_of text) in Hl. destruct (tokens_of (words_of text)) as [ts|].
  - by rewrite (bind_Ok _ _ _ _ _ Hl).
  - by rewrite (bind_Throw _ _ _ _ _ Hl).
Qed.
End CfgTokens.
