(* ===== verification/CfgParse.v ===== *)
(** * Derivations and the recursive parser

    Parse trees that derive a list of tokens ([derives]); for any grammar,
    [executeParser] returns only such trees and ends with a tree, without one,
    or with the error for the depth; then the trees of the configuration
    grammar as configurations ([cfg]). *)
From S2P Require Import Prelude RegExp CfgParser CfgItem CfgTokens.
Import Init.Byte RegExp CfgParser CfgItem CfgTokens.

Module CfgParse.

(** ** Derivations *)

Inductive derives (prods : list bfsCfgParserProduction) : bfsCfgParserSymbol -> list token -> parseTree -> Prop :=
  | der_terminal s t : symType s = CFG_TERMINAL -> tok_name t = symName s ->
      derives prods s [t] (PTree s [] t.1)
  | der_nonterminal s p ts l : symType s = CFG_NONTERMINAL -> p ∈ prods -> symName s = symName (left p) ->
      derives_all prods (right p) ts l -> derives prods s ts (PTree s l [])
with derives_all (prods : list bfsCfgParserProduction) : list bfsCfgParserSymbol -> list token -> list parseTree -> Prop :=
  | der_nil : derives_all prods [] [] []
  | der_cons s ss ts ts' t l : derives prods s ts t -> derives_all prods ss ts' l ->
      derives_all prods (s :: ss) (ts ++ ts') (t :: l).

Lemma derives_all_snoc prods ss ts l s ts' t :
  derives_all prods ss ts l -> derives prods s ts' t -> derives_all prods (ss ++ [s]) (ts ++ ts') (l ++ [t]).
Proof.
  induction 1 as [|s0 ss ts0 ts1 t0 l H0 Hl IH]; intros Ht; cbn.
  - rewrite <-(app_nil_r ts'). by apply der_cons, der_nil.
  - rewrite <-app_assoc. by apply der_cons; [|apply IH].
Qed.

Section sound.
Variables (prods : list bfsCfgParserProduction) (body : list token) (last : token).
Abbreviation toks := (body ++ [last]).

(** The symbols in use, none of which is the last token. *)
Variable used : bfsCfgParserSymbol -> Prop.
Hypothesis used_known : forall s, used s -> symType s <> CFG_UNKNOWN /\ symName s <> tok_name last.
Hypothesis used_closed : forall s p, used s -> p ∈ prods -> symName s = symName (left p) -> Forall used (right p).

(** What a call for [s] at [idx] may end in. *)
Definition exec_ok (s : bfsCfgParserSymbol) (idx : nat) (o : outcome () (nat * option parseTree)) : Prop :=
  match o with
  | Ok (n, Some t) _ => (idx + n <= length body)%nat /\ derives prods s (take n (drop idx toks)) t
  | Ok (n, None) _ => n = O
  | Throw e _ => exists msg, e = bfsCfgParserError msg
  | Crash _ => False
  end.

Lemma try_right_ok exec done_ ss idx nidx l :
  (forall s i, used s -> (i <= length body)%nat -> exec_ok s i (exec s i ())) ->
  Forall used ss -> (idx <= nidx <= length body)%nat ->
  derives_all prods done_ (take (nidx - idx) (drop idx toks)) l ->
  match try_right exec ss nidx l () with
  | Ok (Some (n, l')) _ => (idx <= n <= length body)%nat /\
      derives_all prods (done_ ++ ss) (take (n - idx) (drop idx toks)) l'
  | Ok None _ => True
  | Throw e _ => exists msg, e = bfsCfgParserError msg
  | Crash _ => False
  end.
Proof.
  intros Hexec. revert done_ nidx l. induction ss as [|s ss IH]; intros done_ nidx l Hu Hi Hd; cbn [try_right].
  { cbn. rewrite app_nil_r. done. }
  apply Forall_cons in Hu as [Hs Hu]. specialize (Hexec s nidx Hs ltac:(lia)).
  unfold mbind, M_bind. destruct (exec s nidx ()) as [[n [t|]] []|e []|c]; cbn in Hexec; [| |done..].
  2: by subst n.
  destruct (Nat.ltb_spec 0 n) as [Hn|Hn]; [|done]. destruct Hexec as [Hle Ht]. cbn [of_opt mret M_ret].
  specialize (IH (done_ ++ [s]) (nidx + n)%nat (l ++ [t]) Hu ltac:(lia)). rewrite <-app_assoc in IH. apply IH.
  replace (take (nidx + n - idx) (drop idx toks))
    with (take (nidx - idx) (drop idx toks) ++ take n (drop nidx toks)); [by apply derives_all_snoc|].
  replace (nidx + n - idx)%nat with ((nidx - idx) + n)%nat by lia.
  rewrite <-take_take_drop, drop_drop. by replace (idx + (nidx - idx))%nat with nidx by lia.
Qed.

Lemma try_productions_ok exec s idx ps :
  (forall s i, used s -> (i <= length body)%nat -> exec_ok s i (exec s i ())) ->
  ps ⊆ prods -> used s -> symType s = CFG_NONTERMINAL -> (idx <= length body)%nat ->
  exec_ok s idx (try_productions exec s ps idx ()).
Proof.
  intros Hexec Hsub Hs Hnt Hi. induction ps as [|p ps IH]; [done|]. cbn [try_productions].
  destruct (decide _) as [Hp|_]; [|apply IH; set_solver].
  pose proof (try_right_ok exec [] (right p) idx idx [] Hexec) as Hr. rewrite Nat.sub_diag in Hr.
  specialize (Hr (used_closed s p Hs ltac:(set_solver) Hp) ltac:(lia) (der_nil _)).
  unfold mbind, M_bind. destruct (try_right exec (right p) idx [] ()) as [[[n l]|] []|e []|c]; [| |done..].
  - destruct Hr as [Hn Hd]. cbn. split; [lia|]. eapply der_nonterminal; [done| |done|done]. set_solver.
  - apply IH. set_solver.
Qed.

Lemma executeParser_ok fuel s idx dep :
  used s -> (idx <= length body)%nat -> (MAX_bfsCfgParser_RECURSION_DEPTH + 2 <= fuel + dep)%nat -> (0 < fuel)%nat ->
  exec_ok s idx (executeParser prods toks fuel s idx dep ()).
Proof.
  revert s idx dep. induction fuel as [|fuel IH]; intros s idx dep Hs Hi Hf Hpos; [lia|]. cbn [executeParser].
  destruct (Nat.ltb_spec MAX_bfsCfgParser_RECURSION_DEPTH dep) as [_|Hdep]; [by eexists|].
  destruct (used_known s Hs) as [Hk Hl]. destruct (symType s) eqn:Ht; [| |done].
  - destruct (lookup_lt_is_Some_2 toks idx) as [t Hlook]; [rewrite length_app; cbn; lia|].
    rewrite (bind_Ok _ _ _ _ _ (vec_at_Ok toks (Z.of_nat idx) t () ltac:(lia) ltac:(by rewrite Nat2Z.id))).
    destruct (decide _) as [Hn|_]; [|done]. cbn.
    assert (idx < length body)%nat as Hlt.
    { destruct (decide (idx = length body)) as [->|]; [|lia].
      rewrite lookup_app_r, Nat.sub_diag in Hlook by lia. cbn in Hlook. simplify_eq. }
    split; [lia|]. rewrite (drop_S _ _ _ Hlook). cbn. by apply der_terminal.
  - apply try_productions_ok; [|done..]. intros. apply IH; [done..|lia|lia].
Qed.
End sound.

(** ** Configurations

    The abstract syntax of a configuration file: a value, a list of words, a
    list or a structure of configurations. *)
Inductive cfg :=
  | CValue (name val : bytes)
  | CWords (name : bytes) (vals : list bytes)
  | CList (name : bytes) (cs : list cfg)
  | CStruct (name : bytes) (cs : list cfg).

Section cfg_ind.
Variable P : cfg -> Prop.
Hypothesis P_value : forall n v, P (CValue n v).
Hypothesis P_words : forall n ws, P (CWords n ws).
Hypothesis P_list : forall n cs, Forall P cs -> P (CList n cs).
Hypothesis P_struct : forall n cs, Forall P cs -> P (CStruct n cs).

Fixpoint cfg_rect' (c : cfg) : P c :=
  let go := fix go (cs : list cfg) : Forall P cs :=
    match cs with
    | [] => List.Forall_nil P
    | c :: cs => List.Forall_cons P c cs (cfg_rect' c) (go cs)
    end in
  match c with
  | CValue n v => P_value n v
  | CWords n ws => P_words n ws
  | CList n cs => P_list n cs (go cs)
  | CStruct n cs => P_struct n cs (go cs)
  end.
End cfg_ind.

Definition some {A} (l : list A) : bool := match l with [] => false | _ => true end.

Fixpoint wf_cfg (c : cfg) : bool :=
  match c with
  | CValue n v => is_word n && is_word v
  | CWords n ws => is_word n && some ws && forallb is_word ws
  | CList n cs | CStruct n cs => is_word n && some cs && forallb wf_cfg cs
  end.

Definition wf_cfgs (cs : list cfg) : bool := some cs && forallb wf_cfg cs.

Fixpoint cfg_words (c : cfg) : list bytes :=
  match c with
  | CValue n v => [n; [":"%byte]; v]
  | CWords n ws => n :: ["["%byte] :: ws ++ [["]"%byte]]
  | CList n cs => n :: ["["%byte] :: concat (map cfg_words cs) ++ [["]"%byte]]
  | CStruct n cs => n :: ["{"%byte] :: concat (map cfg_words cs) ++ [["}"%byte]]
  end.

Definition cfgs_words (cs : list cfg) : list bytes := concat (map cfg_words cs).

(** Their parse trees. *)
Definition leaf (s : bfsCfgParserSymbol) (w : bytes) : parseTree := PTree s [] w.

Fixpoint wordlist_tree (ws : list bytes) : parseTree :=
  match ws with
  | [] => leaf sWORDLIST []
  | w :: ws => PTree sWORDLIST (leaf sWORD w :: match ws with [] => [] | _ => [wordlist_tree ws] end) []
  end.

Fixpoint configs_tree (l : list parseTree) : parseTree :=
  match l with
  | [] => leaf sCONFIGS []
  | t :: l => PTree sCONFIGS (t :: match l with [] => [] | _ => [configs_tree l] end) []
  end.

Fixpoint cfg_tree (c : cfg) : parseTree :=
  match c with
  | CValue n v => PTree sCONFIG [leaf sWORD n; leaf sCOLON [":"%byte]; leaf sWORD v] []
  | CWords n ws =>
      PTree sCONFIG [leaf sWORD n;
        PTree sCFGLIST [leaf sLBRACK ["["%byte]; wordlist_tree ws; leaf sRBRACK ["]"%byte]] []] []
  | CList n cs =>
      PTree sCONFIG [leaf sWORD n;
        PTree sCFGLIST [leaf sLBRACK ["["%byte]; configs_tree (map cfg_tree cs); leaf sRBRACK ["]"%byte]] []] []
  | CStruct n cs =>
      PTree sCONFIG [leaf sWORD n;
        PTree sCFGSTRUCT [leaf sLBRACE ["{"%byte]; configs_tree (map cfg_tree cs); leaf sRBRACE ["}"%byte]] []] []
  end.

Definition cfgs_tree (cs : list cfg) : parseTree := configs_tree (map cfg_tree cs).

Definition start_tree (cs : list cfg) : parseTree := PTree sSTART [cfgs_tree cs; leaf sEND (str "END")] [].

(** ** Every derivation is one of a configuration *)

Definition classified (t : token) : Prop := classify t.1 = Some t.2.

Lemma classify_cases w s : classify w = Some s ->
  (s = sCOLON /\ w = [":"%byte]) \/ (s = sLBRACK /\ w = ["["%byte]) \/ (s = sRBRACK /\ w = ["]"%byte]) \/
  (s = sLBRACE /\ w = ["{"%byte]) \/ (s = sRBRACE /\ w = ["}"%byte]) \/ (s = sWORD /\ is_word w = true).
Proof.
  unfold classify. repeat (case_decide; [intros; simplify_eq; tauto|]).
  destruct (is_word w); intros; simplify_eq. tauto.
Qed.

Definition rhs_of (s : bfsCfgParserSymbol) : list (list bfsCfgParserSymbol) :=
  map right (List.filter (fun p => bool_decide (symName s = symName (left p))) grammar_productions).

Abbreviation deriv := (derives grammar_productions).
Abbreviation derivs := (derives_all grammar_productions).

Lemma derives_rhs s ts t : symType s = CFG_NONTERMINAL -> deriv s ts t ->
  exists l rhs, t = PTree s l [] /\ rhs ∈ rhs_of s /\ derivs rhs ts l.
Proof.
  intros Hs Hd. inversion Hd as [? tk Ht|? p ? l ? Hp Hn Hl]; subst; [by rewrite Hs in Ht|].
  exists l, (right p). split_and!; [done| |done]. apply list_elem_of_In, in_map, filter_In.
  split; [by apply list_elem_of_In|]. by apply bool_decide_eq_true_2.
Qed.

Lemma derives_leaf s ts t : symType s = CFG_TERMINAL -> deriv s ts t ->
  exists tk, ts = [tk] /\ tok_name tk = symName s /\ t = leaf s tk.1.
Proof.
  intros Hs Hd. inversion Hd as [? tk Ht Hn|? ? ? ? Ht]; subst; [|by rewrite Hs in Ht]. by exists tk.
Qed.

Lemma derives_all_cons_inv s ss ts l : derivs (s :: ss) ts l ->
  exists ts1 ts2 t l', ts = ts1 ++ ts2 /\ l = t :: l' /\ deriv s ts1 t /\ derivs ss ts2 l'.
Proof. inversion 1; subst. by eexists _, _, _, _. Qed.

Lemma derives_all_nil_inv ts l : derivs [] ts l -> ts = [] /\ l = [].
Proof. by inversion 1. Qed.

Lemma derives_word ts t : deriv sWORD ts t -> Forall classified ts ->
  exists w, is_word w = true /\ ts.*1 = [w] /\ t = leaf sWORD w.
Proof.
  intros (tk & -> & Hn & ->)%derives_leaf; [|done]. intros [Hc _]%Forall_cons.
  exists tk.1. split_and!; [|done..].
  apply classify_cases in Hc. unfold tok_name in Hn.
  destruct Hc as [[Hs _]|[[Hs _]|[[Hs _]|[[Hs _]|[[Hs _]|[Hs Hw]]]]]]; [rewrite Hs in Hn; discriminate Hn..|done].
Qed.

Lemma derives_literal s c ts t :
  (s, c) ∈ [(sCOLON, ":"%byte); (sLBRACK, "["%byte); (sRBRACK, "]"%byte); (sLBRACE, "{"%byte); (sRBRACE, "}"%byte)] ->
  deriv s ts t -> Forall classified ts -> ts.*1 = [[c]] /\ t = leaf s [c].
Proof.
  intros Hin Hd Hc.
  assert (symType s = CFG_TERMINAL /\ forall w s', classify w = Some s' -> symName s' = symName s -> w = [c]) as [Hs Hw].
  { repeat (apply elem_of_cons in Hin as [[= -> ->]|Hin];
      [split; [done|]; intros w s' Hcl Hn; apply classify_cases in Hcl; 
       destruct Hcl as [[-> Hw]|[[-> Hw]|[[-> Hw]|[[-> Hw]|[[-> Hw]|[-> Hw]]]]]]; first [discriminate Hn|done]|]).
    by apply not_elem_of_nil in Hin. }
  apply derives_leaf in Hd as (tk & -> & Hn & ->); [|done]. apply Forall_cons in Hc as [Hc _].
  rewrite <-(Hw tk.1 tk.2 Hc Hn). done.
Qed.

Fixpoint tsize (t : parseTree) : nat := let 'PTree _ l _ := t in S (foldr (fun t n => tsize t + n)%nat O l).

(** Split the derivation [H] of an explicit right hand side. *)
Ltac derivs_inv H :=
  cbn [right] in H;
  lazymatch type of H with
  | derives_all _ [] _ _ => apply derives_all_nil_inv in H as [-> ->]
  | derives_all _ (_ :: _) _ _ =>
      let ts1 := fresh "ts" in let ts2 := fresh "ts" in let t := fresh "t" in let l := fresh "l" in
      let Hd := fresh "Hd" in
      apply derives_all_cons_inv in H as (ts1 & ts2 & t & l & -> & -> & Hd & H); derivs_inv H
  end.

Lemma derives_wordlist n ts t :
  (tsize t < n)%nat -> deriv sWORDLIST ts t -> Forall classified ts ->
  exists ws, some ws = true /\ forallb is_word ws = true /\ ts.*1 = ws /\ t = wordlist_tree ws.
Proof.
  revert ts t. induction n as [|n IH]; intros ts t Hn Hd Hc; [lia|].
  apply derives_rhs in Hd as (l & rhs & -> & Hr & Hl); [|done]. cbn in Hr.
  apply elem_of_cons in Hr as [->|Hr].
  - derivs_inv Hl. rewrite app_nil_r in Hc |- *. apply Forall_app in Hc as [Hc1 Hc2].
    destruct (derives_word _ _ Hd Hc1) as (w & Hw & Hts & ->).
    destruct (fun H => IH _ _ H Hd0 Hc2) as (ws & Hs & Hws & Hts0 & ->); [cbn in Hn; lia|].
    exists (w :: ws). split_and!; [done|cbn; by rewrite Hw|by rewrite fmap_app, Hts, Hts0|by destruct ws].
  - apply list_elem_of_singleton in Hr as ->. derivs_inv Hl. rewrite app_nil_r in Hc |- *.
    destruct (derives_word _ _ Hd Hc) as (w & Hw & Hts & ->). exists [w].
    split_and!; [done|cbn; by rewrite Hw|done..].
Qed.

Definition is_configs (ts : list token) (t : parseTree) : Prop :=
  exists cs, wf_cfgs cs = true /\ ts.*1 = cfgs_words cs /\ t = cfgs_tree cs.

Definition is_config (ts : list token) (t : parseTree) : Prop :=
  exists c, wf_cfg c = true /\ ts.*1 = cfg_words c /\ t = cfg_tree c.

Lemma derives_configs n ts t :
  (forall ts t, (tsize t < n)%nat -> deriv sCONFIG ts t -> Forall classified ts -> is_config ts t) ->
  (tsize t <= n)%nat -> deriv sCONFIGS ts t -> Forall classified ts -> is_configs ts t.
Proof.
  intros Hcfg. revert ts. induction t as [t IH] using (induction_ltof1 _ tsize). unfold ltof in IH.
  intros ts Hn Hd Hc. apply derives_rhs in Hd as (l & rhs & -> & Hr & Hl); [|done]. cbn in Hr.
  apply elem_of_cons in Hr as [->|Hr].
  - derivs_inv Hl. rewrite app_nil_r in Hc |- *. apply Forall_app in Hc as [Hc1 Hc2]. cbn in Hn.
    destruct (fun H => Hcfg _ _ H Hd Hc1) as (c & Hw & Hts & ->); [lia|].
    destruct (fun H H' => IH _ H _ H' Hd0 Hc2) as (cs & [Hs Hws]%andb_true_iff & Hts0 & ->); [cbn; lia|lia|].
    exists (c :: cs). split_and!; [|by rewrite fmap_app, Hts, Hts0|by destruct cs].
    unfold wf_cfgs. cbn. by rewrite Hw, Hws.
  - apply list_elem_of_singleton in Hr as ->. derivs_inv Hl. rewrite app_nil_r in Hc |- *. cbn in Hn.
    destruct (fun H => Hcfg _ _ H Hd Hc) as (c & Hw & Hts & ->); [lia|]. exists [c].
    split_and!; [unfold wf_cfgs; cbn; by rewrite Hw|by rewrite Hts; cbn; rewrite app_nil_r|done].
Qed.

(** A bracketed list of configurations between its brackets. *)
Lemma derives_brackets n sl cl sr cr ts l :
  (sl, cl) ∈ [(sCOLON, ":"%byte); (sLBRACK, "["%byte); (sRBRACK, "]"%byte); (sLBRACE, "{"%byte); (sRBRACE, "}"%byte)] ->
  (sr, cr) ∈ [(sCOLON, ":"%byte); (sLBRACK, "["%byte); (sRBRACK, "]"%byte); (sLBRACE, "{"%byte); (sRBRACE, "}"%byte)] ->
  (forall ts t, (tsize t < n)%nat -> deriv sCONFIG ts t -> Forall classified ts -> is_config ts t) ->
  derivs [sl; sCONFIGS; sr] ts l -> Forall classified ts -> (foldr (fun t n => tsize t + n) O l <= n)%nat ->
  exists cs, wf_cfgs cs = true /\ ts.*1 = [cl] :: cfgs_words cs ++ [[cr]] /\
    l = [leaf sl [cl]; cfgs_tree cs; leaf sr [cr]].
Proof.
  intros Hsl Hsr Hcfg Hl Hc Hn. derivs_inv Hl. rewrite app_nil_r in *.
  apply Forall_app in Hc as [Hc1 [Hc2 Hc3]%Forall_app].
  destruct (derives_literal _ _ _ _ Hsl Hd Hc1) as [H1 ->], (derives_literal _ _ _ _ Hsr Hd1 Hc3) as [H3 ->].
  cbn in Hn. destruct (fun H => derives_configs n _ _ Hcfg H Hd0 Hc2) as (cs & Hw & Hts & ->); [lia|].
  exists cs. split_and!; [done| |done]. by rewrite !fmap_app, H1, Hts, H3.
Qed.

Lemma derives_config n ts t :
  (tsize t < n)%nat -> deriv sCONFIG ts t -> Forall classified ts -> is_config ts t.
Proof.
  revert ts t. induction n as [|n IH]; intros ts t Hn Hd Hc; [lia|].
  apply derives_rhs in Hd as (l & rhs & -> & Hr & Hl); [|done]. cbn in Hr.
  apply elem_of_cons in Hr as [->|Hr]; [|apply elem_of_cons in Hr as [->|Hr]; [|apply list_elem_of_singleton in Hr as ->]].
  - derivs_inv Hl. rewrite app_nil_r in *. apply Forall_app in Hc as [Hc1 Hc2].
    destruct (derives_word _ _ Hd Hc1) as (w & Hw & Hts & ->).
    apply derives_rhs in Hd0 as (l & rhs & -> & Hr & Hl); [|done]. cbn in Hr, Hn.
    apply elem_of_cons in Hr as [->|Hr]; [|apply list_elem_of_singleton in Hr as ->].
    + derivs_inv Hl. rewrite app_nil_r in *. apply Forall_app in Hc2 as [Hc2 [Hc3 Hc4]%Forall_app].
      destruct (derives_literal sLBRACK "["%byte _ _ ltac:(set_solver) Hd0 Hc2) as [H2 ->].
      destruct (derives_literal sRBRACK "]"%byte _ _ ltac:(set_solver) Hd2 Hc4) as [H4 ->].
      destruct (derives_wordlist _ _ _ (Nat.lt_succ_diag_r _) Hd1 Hc3) as (ws & Hs & Hws & H3 & ->).
      exists (CWords w ws). split_and!; [cbn; by rewrite Hw, Hs, Hws|by rewrite !fmap_app, Hts, H2, H3, H4|done].
    + destruct (derives_brackets n sLBRACK "["%byte sRBRACK "]"%byte _ _ ltac:(set_solver) ltac:(set_solver)
        IH Hl Hc2 ltac:(lia)) as (cs & Hwf & Hts2 & ->).
      exists (CList w cs). split_and!; [cbn; rewrite Hw; exact Hwf|by rewrite fmap_app, Hts, Hts2|done].
  - derivs_inv Hl. rewrite app_nil_r in *. apply Forall_app in Hc as [Hc1 Hc2].
    destruct (derives_word _ _ Hd Hc1) as (w & Hw & Hts & ->).
    apply derives_rhs in Hd0 as (l & rhs & -> & Hr & Hl); [|done]. cbn in Hr, Hn.
    apply list_elem_of_singleton in Hr as ->.
    destruct (derives_brackets n sLBRACE "{"%byte sRBRACE "}"%byte _ _ ltac:(set_solver) ltac:(set_solver)
        IH Hl Hc2 ltac:(lia)) as (cs & Hwf & Hts2 & ->).
    exists (CStruct w cs). split_and!; [cbn; rewrite Hw; exact Hwf|by rewrite fmap_app, Hts, Hts2|done].
  - derivs_inv Hl. rewrite app_nil_r in *. apply Forall_app in Hc as [Hc1 [Hc2 Hc3]%Forall_app].
    destruct (derives_word _ _ Hd Hc1) as (w & Hw & Hts & ->), (derives_word _ _ Hd1 Hc3) as (v & Hv & Hts3 & ->).
    destruct (derives_literal sCOLON ":"%byte _ _ ltac:(set_solver) Hd0 Hc2) as [H2 ->].
    exists (CValue w v). split_and!; [cbn; by rewrite Hw, Hv|by rewrite !fmap_app, Hts, H2, Hts3|done].
Qed.
End CfgParse.
