(* ===== verification/CfgLoad.v ===== *)
(** * Loading a configuration

    The parser finds the tree of every configuration that is not too deep, the
    items built from it, and the theorems about loading a text: it builds the
    items of the configuration the text spells, and ends on every text. *)
From S2P Require Import Prelude RegExp CfgParser CfgItem CfgTokens CfgParse.
Import Init.Byte RegExp CfgParser CfgItem CfgTokens CfgParse.

Module CfgLoad.

Section complete.
Variable toks : list token.
Abbreviation exec := (executeParser grammar_productions toks).
Abbreviation MAX := MAX_bfsCfgParser_RECURSION_DEPTH.

(** ** How the parser runs

    A call for [s] at token [idx] and depth [dep] returns [n] tokens and a
    tree, or none, whatever fuel is enough. *)
Definition goes (s : bfsCfgParserSymbol) (idx dep n : nat) (t : parseTree) : Prop :=
  forall fuel, (MAX + 2 <= fuel + dep)%nat -> exec fuel s idx dep () = Ok (n, Some t) ().

Definition stops (s : bfsCfgParserSymbol) (idx dep : nat) : Prop :=
  forall fuel, (MAX + 2 <= fuel + dep)%nat -> exec fuel s idx dep () = Ok (O, None) ().

Inductive right_goes (dep : nat) : list bfsCfgParserSymbol -> nat -> nat -> list parseTree -> Prop :=
  | rg_nil idx : right_goes dep [] idx 0 []
  | rg_cons s ss idx k n t l : goes s idx dep k t -> (0 < k)%nat -> right_goes dep ss (idx + k) n l ->
      right_goes dep (s :: ss) idx (k + n) (t :: l).

Inductive right_stops (dep : nat) : list bfsCfgParserSymbol -> nat -> Prop :=
  | rs_here s ss idx : stops s idx dep -> right_stops dep (s :: ss) idx
  | rs_there s ss idx k t : goes s idx dep k t -> (0 < k)%nat -> right_stops dep ss (idx + k) ->
      right_stops dep (s :: ss) idx.

Lemma try_right_goes fuel dep ss idx n l sub :
  right_goes dep ss idx n l -> (MAX + 2 <= fuel + dep)%nat ->
  try_right (fun s i => exec fuel s i dep) ss idx sub () = Ok (Some ((idx + n)%nat, sub ++ l)) ().
Proof.
  intros Hr Hf. revert sub. induction Hr as [idx|s ss idx k n t l Hg Hk Hr IH]; intros sub; cbn [try_right].
  - by rewrite Nat.add_0_r, app_nil_r.
  - rewrite (bind_Ok _ _ _ _ _ (Hg fuel Hf)). cbn beta iota.
    destruct (Nat.ltb_spec 0 k) as [_|]; [|lia]. rewrite bind_of_opt, IH, <-app_assoc.
    by rewrite Nat.add_assoc.
Qed.

Lemma try_right_stops fuel dep ss idx sub :
  right_stops dep ss idx -> (MAX + 2 <= fuel + dep)%nat ->
  try_right (fun s i => exec fuel s i dep) ss idx sub () = Ok None ().
Proof.
  intros Hr Hf. revert sub. induction Hr as [s ss idx Hs|s ss idx k t Hg Hk Hr IH]; intros sub; cbn [try_right].
  - by rewrite (bind_Ok _ _ _ _ _ (Hs fuel Hf)).
  - rewrite (bind_Ok _ _ _ _ _ (Hg fuel Hf)). cbn beta iota.
    destruct (Nat.ltb_spec 0 k) as [_|]; [|lia]. by rewrite bind_of_opt.
Qed.

(** The productions of [s], in order. *)
Fixpoint try_rhs (ex : bfsCfgParserSymbol -> nat -> M () (nat * option parseTree)) (s : bfsCfgParserSymbol)
    (rs : list (list bfsCfgParserSymbol)) (idx : nat) : M () (nat * option parseTree) :=
  match rs with
  | [] => mret (O, None)
  | r :: rs =>
      o ← try_right ex r idx [];
      match o with
      | Some (nidx, l) => mret ((nidx - idx)%nat, Some (PTree s l []))
      | None => try_rhs ex s rs idx
      end
  end.

Lemma try_productions_rhs ex s idx u :
  try_productions ex s grammar_productions idx u = try_rhs ex s (rhs_of s) idx u.
Proof.
  unfold rhs_of. generalize grammar_productions. intros ps. revert u. induction ps as [|p ps IH]; intros u; [done|].
  cbn [try_productions List.filter]. destruct (decide _) as [Hp|Hp].
  - rewrite bool_decide_eq_true_2 by done. cbn [map try_rhs]. unfold mbind, M_bind.
    destruct (try_right ex (right p) idx [] u) as [[[n l]|] u'| |]; [done|apply IH|done..].
  - by rewrite bool_decide_eq_false_2.
Qed.

Lemma exec_nonterminal fuel s idx dep :
  symType s = CFG_NONTERMINAL -> (dep <= MAX)%nat ->
  exec (S fuel) s idx dep () = try_rhs (fun s i => exec fuel s i (S dep)) s (rhs_of s) idx ().
Proof.
  intros Hs Hd. cbn [executeParser]. destruct (Nat.ltb_spec MAX dep) as [|_]; [lia|].
  rewrite Hs. apply try_productions_rhs.
Qed.

Lemma try_rhs_goes ex s pre r post idx n l :
  Forall (fun r => try_right ex r idx [] () = Ok None ()) pre ->
  try_right ex r idx [] () = Ok (Some ((idx + n)%nat, l)) () ->
  try_rhs ex s (pre ++ r :: post) idx () = Ok (n, Some (PTree s l [])) ().
Proof.
  intros Hpre Hr. induction Hpre as [|r0 pre H0 Hpre IH]; cbn [app try_rhs].
  - rewrite (bind_Ok _ _ _ _ _ Hr). cbn. unfold mret, M_ret. do 2 f_equal. lia.
  - by rewrite (bind_Ok _ _ _ _ _ H0).
Qed.

Lemma try_rhs_stops ex s rs idx :
  Forall (fun r => try_right ex r idx [] () = Ok None ()) rs -> try_rhs ex s rs idx () = Ok (O, None) ().
Proof. induction 1 as [|r0 rs H0 Hrs IH]; cbn [try_rhs]; [done|]. by rewrite (bind_Ok _ _ _ _ _ H0). Qed.

(** ** Rules *)

Lemma goes_leaf s idx dep tk :
  symType s = CFG_TERMINAL -> (dep <= MAX)%nat -> toks !! idx = Some tk -> tok_name tk = symName s ->
  goes s idx dep 1 (leaf s tk.1).
Proof.
  intros Hs Hd Hl Hn [|fuel] Hf; [lia|]. cbn [executeParser]. destruct (Nat.ltb_spec MAX dep) as [|_]; [lia|].
  rewrite Hs, (bind_Ok _ _ _ _ _ (vec_at_Ok toks (Z.of_nat idx) tk () ltac:(lia) ltac:(by rewrite Nat2Z.id))).
  by rewrite decide_True.
Qed.

Lemma stops_leaf s idx dep tk :
  symType s = CFG_TERMINAL -> (dep <= MAX)%nat -> toks !! idx = Some tk -> tok_name tk <> symName s ->
  stops s idx dep.
Proof.
  intros Hs Hd Hl Hn [|fuel] Hf; [lia|]. cbn [executeParser]. destruct (Nat.ltb_spec MAX dep) as [|_]; [lia|].
  rewrite Hs, (bind_Ok _ _ _ _ _ (vec_at_Ok toks (Z.of_nat idx) tk () ltac:(lia) ltac:(by rewrite Nat2Z.id))).
  by rewrite decide_False.
Qed.

Lemma goes_rhs s pre r post idx dep n l :
  symType s = CFG_NONTERMINAL -> (dep <= MAX)%nat -> rhs_of s = pre ++ r :: post ->
  Forall (fun r => right_stops (S dep) r idx) pre -> right_goes (S dep) r idx n l ->
  goes s idx dep n (PTree s l []).
Proof.
  intros Hs Hd Hrhs Hpre Hr [|fuel] Hf; [lia|]. rewrite exec_nonterminal, Hrhs by done.
  apply try_rhs_goes; [|by apply (try_right_goes _ _ _ _ _ _ [] Hr); lia].
  eapply Forall_impl; [exact Hpre|]. intros r0 H0. by apply try_right_stops; [|lia].
Qed.

Lemma stops_rhs s idx dep :
  symType s = CFG_NONTERMINAL -> (dep <= MAX)%nat -> Forall (fun r => right_stops (S dep) r idx) (rhs_of s) ->
  stops s idx dep.
Proof.
  intros Hs Hd Hrs [|fuel] Hf; [lia|]. rewrite exec_nonterminal by done. apply try_rhs_stops.
  eapply Forall_impl; [exact Hrs|]. intros r0 H0. by apply try_right_stops; [|lia].
Qed.

(** ** The configuration grammar

    The tokens from [idx] on, and the depth below a symbol that its parse
    reaches. *)
Definition tok (w : bytes) (s : bfsCfgParserSymbol) : token := (w, s).

Definition starts (idx : nat) (ts : list token) : Prop := exists rest, drop idx toks = ts ++ rest.

Lemma starts_cons idx t ts : starts idx (t :: ts) <-> toks !! idx = Some t /\ starts (S idx) ts.
Proof.
  split.
  - intros (r & Hd). assert (toks !! idx = Some t) as Hl.
    { rewrite <-(Nat.add_0_r idx), <-lookup_drop, Hd. done. }
    split; [done|]. exists r. rewrite (drop_S _ _ _ Hl) in Hd. cbn in Hd. by injection Hd.
  - intros (Hl & r & Hd). exists r. by rewrite (drop_S _ _ _ Hl), Hd.
Qed.

Lemma starts_app idx ts ts' : starts idx (ts ++ ts') <-> starts idx ts /\ starts (idx + length ts) ts'.
Proof.
  split.
  - intros (r & Hd). rewrite <-app_assoc in Hd. split; [by eexists|]. exists r.
    by rewrite <-drop_drop, Hd, drop_app_length.
  - intros ((r & Hd) & (r' & Hd')). exists r'. rewrite <-drop_drop, Hd, drop_app_length in Hd'. subst r.
    by rewrite Hd, app_assoc.
Qed.

(** The token at [idx] is none of a configuration's first. *)
Definition ends (idx : nat) : Prop := exists tk, toks !! idx = Some tk /\ tok_name tk <> "WORD"%string.

Lemma goes_tok idx dep w s : symType s = CFG_TERMINAL -> (dep <= MAX)%nat -> toks !! idx = Some (w, s) ->
  goes s idx dep 1 (leaf s w).
Proof. intros. by apply (goes_leaf s idx dep (w, s)). Qed.

Lemma stops_tok idx dep w s s' : symType s' = CFG_TERMINAL -> (dep <= MAX)%nat -> toks !! idx = Some (w, s) ->
  symName s <> symName s' -> stops s' idx dep.
Proof. intros. by apply (stops_leaf s' idx dep (w, s)). Qed.

Lemma word_stops idx dep : ends idx -> (dep <= MAX)%nat -> stops sWORD idx dep.
Proof. intros (tk & Hl & Hn) Hd. by apply (stops_leaf _ _ _ tk). Qed.

Lemma wordlist_stops idx dep : ends idx -> (dep + 1 <= MAX)%nat -> stops sWORDLIST idx dep.
Proof.
  intros He Hd. apply stops_rhs; [done|lia|]. repeat constructor; apply word_stops; [done|lia|done|lia].
Qed.

Lemma config_stops idx dep : ends idx -> (dep + 1 <= MAX)%nat -> stops sCONFIG idx dep.
Proof.
  intros He Hd. apply stops_rhs; [done|lia|].
  apply Forall_forall. intros r Hr. cbn in Hr.
  repeat (apply elem_of_cons in Hr as [->|Hr]; [cbn; apply rs_here, word_stops; [done|lia]|]).
  by apply not_elem_of_nil in Hr.
Qed.

Lemma configs_stops idx dep : ends idx -> (dep + 2 <= MAX)%nat -> stops sCONFIGS idx dep.
Proof.
  intros He Hd. apply stops_rhs; [done|lia|].
  apply Forall_forall. intros r Hr. cbn in Hr.
  repeat (apply elem_of_cons in Hr as [->|Hr]; [cbn; apply rs_here, config_stops; [done|lia]|]).
  by apply not_elem_of_nil in Hr.
Qed.

Definition word_toks (ws : list bytes) : list token := map (fun w => (w, sWORD)) ws.

Lemma wordlist_goes ws idx dep :
  some ws = true -> starts idx (word_toks ws) -> ends (idx + length ws) -> (dep + length ws + 1 <= MAX)%nat ->
  goes sWORDLIST idx dep (length ws) (wordlist_tree ws).
Proof.
  revert idx dep. induction ws as [|w ws IH]; intros idx dep Hs Hst He Hd; [done|].
  cbn in Hst. apply starts_cons in Hst as [Hl Hst]. cbn [length] in *.
  assert (goes sWORD idx (S dep) 1 (leaf sWORD w)) as Hw by (apply goes_tok; [done|lia|done]).
  destruct ws as [|w' ws].
  - apply (goes_rhs _ [[sWORD; sWORDLIST]] [sWORD] []); [done|lia|done| |].
    + apply Forall_singleton, (rs_there _ _ _ _ _ _ Hw); [lia|]. apply rs_here, wordlist_stops; [|lia].
      cbn in He. by rewrite Nat.add_1_r in *.
    + apply (rg_cons _ _ _ _ 1 0 _ _ Hw); [lia|]. apply rg_nil.
  - apply (goes_rhs _ [] [sWORD; sWORDLIST] [[sWORD]]); [done|lia|done|constructor|].
    apply (rg_cons _ _ _ _ 1 _ _ _ Hw); [lia|]. rewrite <-(Nat.add_0_r (length (w' :: ws))).
    apply (rg_cons _ _ _ _ (length (w' :: ws)) 0 _ _); [|cbn; lia|apply rg_nil].
    rewrite Nat.add_1_r. apply IH; [done|done| |cbn in *; lia].
    by replace (S idx + length (w' :: ws))%nat with (idx + S (length (w' :: ws)))%nat by lia.
Qed.

Lemma right_goes_one dep s idx k t : goes s idx dep k t -> (0 < k)%nat -> right_goes dep [s] idx k [t].
Proof. intros Hg Hk. rewrite <-(Nat.add_0_r k). apply (rg_cons _ _ _ _ _ _ _ _ Hg Hk), rg_nil. Qed.

Lemma right_goes_two dep s1 s2 idx k t1 t2 :
  goes s1 idx dep 1 t1 -> goes s2 (S idx) dep k t2 -> (0 < k)%nat -> right_goes dep [s1; s2] idx (S k) [t1; t2].
Proof.
  intros H1 H2 Hk. apply (rg_cons _ _ _ _ 1 k _ _ H1); [lia|]. rewrite Nat.add_1_r. by apply right_goes_one.
Qed.

Lemma right_goes_three dep s1 s2 s3 idx k t1 t2 t3 :
  goes s1 idx dep 1 t1 -> goes s2 (S idx) dep k t2 -> (0 < k)%nat -> goes s3 (S idx + k) dep 1 t3 ->
  right_goes dep [s1; s2; s3] idx (S (k + 1)) [t1; t2; t3].
Proof.
  intros H1 H2 Hk H3. apply (rg_cons _ _ _ _ 1 (k + 1) _ _ H1); [lia|]. rewrite Nat.add_1_r.
  apply (rg_cons _ _ _ _ _ _ _ _ H2 Hk). by apply right_goes_one; [|lia].
Qed.

Lemma right_stops_second dep s1 s2 ss idx t1 :
  goes s1 idx dep 1 t1 -> stops s2 (S idx) dep -> right_stops dep (s1 :: s2 :: ss) idx.
Proof.
  intros H1 H2. apply (rs_there _ _ _ _ _ _ H1); [lia|]. rewrite Nat.add_1_r. by apply rs_here.
Qed.

(** ** The tokens of a configuration and the depth its parse needs *)

Fixpoint cfg_toks (c : cfg) : list token :=
  match c with
  | CValue n v => [(n, sWORD); ([":"%byte], sCOLON); (v, sWORD)]
  | CWords n ws => (n, sWORD) :: (["["%byte], sLBRACK) :: word_toks ws ++ [(["]"%byte], sRBRACK)]
  | CList n cs => (n, sWORD) :: (["["%byte], sLBRACK) :: concat (map cfg_toks cs) ++ [(["]"%byte], sRBRACK)]
  | CStruct n cs => (n, sWORD) :: (["{"%byte], sLBRACE) :: concat (map cfg_toks cs) ++ [(["}"%byte], sRBRACE)]
  end.

Definition cfgs_toks (cs : list cfg) : list token := concat (map cfg_toks cs).

(** One level per member of a list, and the attempt to read one more. *)
Fixpoint need (c : cfg) : nat :=
  match c with
  | CValue _ _ => 2
  | CWords _ ws => 3 + length ws
  | CList _ cs | CStruct _ cs => 2 + foldr (fun c n => S (Nat.max (need c) n)) 2 cs
  end%nat.

Definition needs (cs : list cfg) : nat := foldr (fun c n => S (Nat.max (need c) n)) 2%nat cs.

Lemma cfg_toks_head c : exists n x s rest, cfg_toks c = (n, sWORD) :: (x, s) :: rest /\
  symName s <> "WORD"%string /\ symName s <> "]"%string.
Proof. destruct c; by eexists _, _, _, _. Qed.

Lemma cfglist_stops idx dep w s : toks !! idx = Some (w, s) -> symName s <> "["%string -> (dep + 1 <= MAX)%nat ->
  stops sCFGLIST idx dep.
Proof.
  intros Hl Hn Hd. apply stops_rhs; [done|lia|]. repeat constructor; apply (stops_tok _ _ w s); first [done|lia].
Qed.

Lemma cfgstruct_stops idx dep w s : toks !! idx = Some (w, s) -> symName s <> "{"%string -> (dep + 1 <= MAX)%nat ->
  stops sCFGSTRUCT idx dep.
Proof.
  intros Hl Hn Hd. apply stops_rhs; [done|lia|]. repeat constructor; apply (stops_tok _ _ w s); first [done|lia].
Qed.

(** ** The tree of a configuration is found *)

Definition config_found (c : cfg) : Prop := forall idx dep,
  wf_cfg c = true -> starts idx (cfg_toks c) -> (dep + need c <= MAX)%nat ->
  goes sCONFIG idx dep (length (cfg_toks c)) (cfg_tree c).

Lemma cfg_toks_some c : (0 < length (cfg_toks c))%nat.
Proof. destruct c; cbn; lia. Qed.

Lemma configs_goes cs idx dep :
  Forall config_found cs -> wf_cfgs cs = true -> starts idx (cfgs_toks cs) -> ends (idx + length (cfgs_toks cs)) ->
  (dep + needs cs <= MAX)%nat -> goes sCONFIGS idx dep (length (cfgs_toks cs)) (cfgs_tree cs).
Proof.
  intros Hall [Hs Hw]%andb_true_iff. revert idx dep Hs Hw. 
  induction Hall as [|c cs Hc Hall IH]; intros idx dep Hs Hw Hst He Hd; [done|].
  cbn in Hw. apply andb_true_iff in Hw as [Hwc Hw].
  assert (cfgs_toks (c :: cs) = cfg_toks c ++ cfgs_toks cs) as Ht by done.
  rewrite Ht, length_app in *. apply starts_app in Hst as [Hst Hst']. cbn in Hd. fold (needs cs) in Hd.
  assert (goes sCONFIG idx (S dep) (length (cfg_toks c)) (cfg_tree c)) as Hg by (apply Hc; [done..|lia]).
  pose proof (cfg_toks_some c) as Hpos. destruct cs as [|c' cs].
  - rewrite Nat.add_0_r in *. apply (goes_rhs _ [[sCONFIG; sCONFIGS]] [sCONFIG] []); [done|lia|done| |].
    + apply Forall_singleton, (rs_there _ _ _ _ _ _ Hg); [done|]. apply rs_here, configs_stops; [done|cbn in Hd; lia].
    + by apply right_goes_one.
  - apply (goes_rhs _ [] [sCONFIG; sCONFIGS] [[sCONFIG]]); [done|lia|done|constructor|].
    apply (rg_cons _ _ _ _ _ _ _ _ Hg Hpos), right_goes_one.
    + apply IH; [done|done|done| |lia]. by rewrite <-Nat.add_assoc.
    + pose proof (cfg_toks_some c'). cbn. rewrite length_app. lia.
Qed.

Lemma needs_some cs : some cs = true -> (3 <= needs cs)%nat.
Proof.
  destruct cs as [|c cs]; [done|]. intros _. cbn.
  assert (2 <= foldr (fun c n => S (Nat.max (need c) n)) 2 cs)%nat; [|lia].
  induction cs as [|d cs IH]; cbn; lia.
Qed.

(** The attempt to read a list of configurations as a list of words. *)
Lemma not_words cs idx dep :
  wf_cfgs cs = true -> starts (S idx) (cfgs_toks cs) -> toks !! idx = Some (["["%byte], sLBRACK) -> (dep + 2 <= MAX)%nat ->
  right_stops dep [sLBRACK; sWORDLIST; sRBRACK] idx.
Proof.
  intros [Hs _]%andb_true_iff Hst Hl Hd. destruct cs as [|c cs]; [done|].
  destruct (cfg_toks_head c) as (n & x & s & r & Hc & Hx & Hx').
  assert (starts (S idx) ((n, sWORD) :: (x, s) :: r ++ cfgs_toks cs)) as Hst'.
  { unfold cfgs_toks in Hst. cbn in Hst. by rewrite Hc in Hst. }
  apply starts_cons in Hst' as [Hn [Hxl _]%starts_cons].
  apply (rs_there _ _ _ _ 1 (leaf sLBRACK ["["%byte])); [by apply goes_tok; [|lia|]|lia|].
  rewrite Nat.add_1_r. apply (rs_there _ _ _ _ 1 (wordlist_tree [n])); [|lia|].
  - apply (wordlist_goes [n]); [done| | |cbn; lia].
    + apply starts_cons. split; [done|]. by exists (drop (S (S idx)) toks).
    + exists (x, s). cbn. by rewrite Nat.add_1_r.
  - rewrite Nat.add_1_r. apply rs_here, (stops_tok _ _ x s); [done|lia|done..].
Qed.

(** Configurations between brackets. *)
Lemma brackets_go sl cl sr cr cs idx dep :
  symType sl = CFG_TERMINAL -> symType sr = CFG_TERMINAL -> symName sr <> "WORD"%string ->
  Forall config_found cs -> wf_cfgs cs = true ->
  toks !! idx = Some (cl, sl) -> starts (S idx) (cfgs_toks cs ++ [(cr, sr)]) -> (dep + needs cs <= MAX)%nat ->
  right_goes dep [sl; sCONFIGS; sr] idx (S (length (cfgs_toks cs) + 1)) [leaf sl cl; cfgs_tree cs; leaf sr cr].
Proof.
  intros Hsl Hsr Hn Hall Hcs H1 [Hst [Hr _]%starts_cons]%starts_app Hd.
  apply right_goes_three; [by apply goes_tok; [|lia|]| | |by apply goes_tok; [|lia|]].
  - apply configs_goes; [done|done|done| |lia]. by eexists.
  - apply andb_true_iff in Hcs as [Hs _]. destruct cs as [|c cs]; [done|].
    pose proof (cfg_toks_some c). cbn. rewrite length_app. lia.
Qed.

(** The part of [CONFIG] after the name: a list or a structure. *)
Lemma cfglist_goes cs idx dep :
  Forall config_found cs -> wf_cfgs cs = true ->
  toks !! idx = Some (["["%byte], sLBRACK) -> starts (S idx) (cfgs_toks cs ++ [(["]"%byte], sRBRACK)]) ->
  (dep + 1 + needs cs <= MAX)%nat ->
  goes sCFGLIST idx dep (S (length (cfgs_toks cs) + 1))
    (PTree sCFGLIST [leaf sLBRACK ["["%byte]; cfgs_tree cs; leaf sRBRACK ["]"%byte]] []).
Proof.
  intros Hall Hcs H1 Hst Hd. pose proof Hcs as [Hs _]%andb_true_iff. pose proof (needs_some cs Hs) as H3.
  apply (goes_rhs _ [[sLBRACK; sWORDLIST; sRBRACK]] [sLBRACK; sCONFIGS; sRBRACK] []); [done|lia|done| |].
  - apply Forall_singleton. apply starts_app in Hst as [Hst _]. by apply (not_words cs); [..|lia].
  - by apply brackets_go; [..|lia].
Qed.

Lemma cfgstruct_goes cs idx dep :
  Forall config_found cs -> wf_cfgs cs = true ->
  toks !! idx = Some (["{"%byte], sLBRACE) -> starts (S idx) (cfgs_toks cs ++ [(["}"%byte], sRBRACE)]) ->
  (dep + 1 + needs cs <= MAX)%nat ->
  goes sCFGSTRUCT idx dep (S (length (cfgs_toks cs) + 1))
    (PTree sCFGSTRUCT [leaf sLBRACE ["{"%byte]; cfgs_tree cs; leaf sRBRACE ["}"%byte]] []).
Proof.
  intros Hall Hcs H1 Hst Hd. apply (goes_rhs _ [] [sLBRACE; sCONFIGS; sRBRACE] []); [done|lia|done|constructor|].
  by apply brackets_go; [..|lia].
Qed.

Lemma cfgwords_goes ws idx dep :
  some ws = true -> toks !! idx = Some (["["%byte], sLBRACK) ->
  starts (S idx) (word_toks ws ++ [(["]"%byte], sRBRACK)]) -> (dep + 2 + length ws <= MAX)%nat ->
  goes sCFGLIST idx dep (S (length (word_toks ws) + 1))
    (PTree sCFGLIST [leaf sLBRACK ["["%byte]; wordlist_tree ws; leaf sRBRACK ["]"%byte]] []).
Proof.
  intros Hs H1 [Hst [Hr _]%starts_cons]%starts_app Hd. unfold word_toks in *. rewrite length_map in *.
  apply (goes_rhs _ [] [sLBRACK; sWORDLIST; sRBRACK] [[sLBRACK; sCONFIGS; sRBRACK]]); [done|lia|done|constructor|].
  apply right_goes_three; [by apply goes_tok; [|lia|]| |by destruct ws; [|cbn; lia]|by apply goes_tok; [|lia|]].
  apply wordlist_goes; [done|done| |lia]. by eexists.
Qed.

Lemma config_goes c : config_found c.
Proof.
  induction c as [n v|n ws|n cs IH|n cs IH] using cfg_rect'; intros idx dep Hw Hst Hd;
    cbn in Hst; apply starts_cons in Hst as [Hn [H1 Hst]%starts_cons];
    (assert (goes sWORD idx (S dep) 1 (leaf sWORD n)) as Hg by (apply goes_tok; [done|cbn in Hd; lia|done])).
  - apply starts_cons in Hst as [H2 _]. cbn in Hd.
    apply (goes_rhs _ [[sWORD; sCFGLIST]; [sWORD; sCFGSTRUCT]] [sWORD; sCOLON; sWORD] []); [done|lia|done| |].
    + repeat apply Forall_cons_2; [| |constructor];
        (eapply right_stops_second; [exact Hg|first [eapply cfglist_stops|eapply cfgstruct_stops]; [exact H1|done|lia]]).
    + apply (right_goes_three _ _ _ _ _ 1); [done|by apply goes_tok; [|lia|]|lia|].
      rewrite Nat.add_1_r. by apply goes_tok; [|lia|].
  - cbn in Hw. apply andb_true_iff in Hw as [[_ Hs]%andb_true_iff _]. cbn [need] in Hd.
    apply (goes_rhs _ [] [sWORD; sCFGLIST] [[sWORD; sCFGSTRUCT]; [sWORD; sCOLON; sWORD]]); [done|lia|done|constructor|].
    cbn [cfg_toks length]. rewrite length_app. by apply right_goes_two; [|apply cfgwords_goes; [..|lia]|lia].
  - cbn in Hw. apply andb_true_iff in Hw as [[_ Hs]%andb_true_iff Hwf]. cbn [need] in Hd.
    apply (goes_rhs _ [] [sWORD; sCFGLIST] [[sWORD; sCFGSTRUCT]; [sWORD; sCOLON; sWORD]]); [done|lia|done|constructor|].
    cbn [cfg_toks length]. rewrite length_app.
    apply right_goes_two; [done|apply cfglist_goes; [done| |done|done|unfold needs; lia]|lia]. unfold wf_cfgs. by rewrite Hs.
  - cbn in Hw. apply andb_true_iff in Hw as [[_ Hs]%andb_true_iff Hwf]. cbn [need] in Hd.
    apply (goes_rhs _ [[sWORD; sCFGLIST]] [sWORD; sCFGSTRUCT] [[sWORD; sCOLON; sWORD]]); [done|lia|done| |].
    { apply Forall_singleton. eapply right_stops_second; [exact Hg|]. by eapply cfglist_stops; [exact H1| |lia]. }
    cbn [cfg_toks length]. rewrite length_app.
    apply right_goes_two; [done|apply cfgstruct_goes; [done| |done|done|unfold needs; lia]|lia]. unfold wf_cfgs. by rewrite Hs.
Qed.
End complete.

(** ** Tokens of a whole text *)

Definition end_tok : token := (str "END", sEND).

Lemma classify_word w : is_word w = true -> classify w = Some sWORD.
Proof.
  intros Hw. unfold classify. repeat (case_decide; [subst; discriminate Hw|]). by rewrite Hw.
Qed.

Lemma tokens_of_app ws ws' ts ts' :
  tokens_of ws = Some ts -> tokens_of ws' = Some ts' -> tokens_of (ws ++ ws') = Some (ts ++ ts').
Proof.
  revert ts. induction ws as [|w ws IH]; cbn; intros ts Hts Hts'; [by simplify_eq|].
  destruct (classify w); [|done]. cbn in *. destruct (tokens_of ws) as [ts1|]; [|done]. cbn in *. simplify_eq.
  by rewrite (IH ts1).
Qed.

Lemma tokens_of_words ws : forallb is_word ws = true -> tokens_of ws = Some (word_toks ws).
Proof.
  induction ws as [|w ws IH]; [done|]. cbn. intros [Hw Hws]%andb_true_iff.
  rewrite (classify_word w Hw), (IH Hws). done.
Qed.

Lemma tokens_of_concat cs :
  Forall (fun c => wf_cfg c = true -> tokens_of (cfg_words c) = Some (cfg_toks c)) cs ->
  forallb wf_cfg cs = true -> tokens_of (cfgs_words cs) = Some (cfgs_toks cs).
Proof.
  induction 1 as [|c cs Hc Hall IH]; [done|]. cbn. intros [Hw Hws]%andb_true_iff.
  by apply tokens_of_app; [apply Hc|apply IH].
Qed.

Lemma tokens_of_cons w s ws ts : classify w = Some s -> tokens_of ws = Some ts -> tokens_of (w :: ws) = Some ((w, s) :: ts).
Proof. intros Hw Hs. cbn. by rewrite Hw, Hs. Qed.

Lemma tokens_of_cfg c : wf_cfg c = true -> tokens_of (cfg_words c) = Some (cfg_toks c).
Proof.
  induction c as [n v|n ws|n cs IH|n cs IH] using cfg_rect'; cbn [wf_cfg cfg_words cfg_toks].
  - intros [Hn Hv]%andb_true_iff.
    by repeat (apply tokens_of_cons; [first [by apply classify_word|done]|]).
  - intros [[Hn _]%andb_true_iff Hws]%andb_true_iff.
    do 2 (apply tokens_of_cons; [first [by apply classify_word|done]|]).
    by apply tokens_of_app; [apply tokens_of_words|].
  - intros [[Hn _]%andb_true_iff Hws]%andb_true_iff.
    do 2 (apply tokens_of_cons; [first [by apply classify_word|done]|]).
    by apply tokens_of_app; [apply tokens_of_concat|].
  - intros [[Hn _]%andb_true_iff Hws]%andb_true_iff.
    do 2 (apply tokens_of_cons; [first [by apply classify_word|done]|]).
    by apply tokens_of_app; [apply tokens_of_concat|].
Qed.

Lemma tokens_of_cfgs cs : wf_cfgs cs = true -> tokens_of (cfgs_words cs) = Some (cfgs_toks cs).
Proof.
  intros [_ Hw]%andb_true_iff. apply tokens_of_concat; [|done]. apply Forall_forall. intros. by apply tokens_of_cfg.
Qed.

Lemma tokens_of_inv ws ts : tokens_of ws = Some ts -> ts.*1 = ws /\ Forall classified ts.
Proof.
  revert ts. induction ws as [|w ws IH]; cbn; intros ts Hts; [by simplify_eq|].
  destruct (classify w) as [s|] eqn:Hw; [|done]. cbn in Hts. destruct (tokens_of ws) as [ts1|]; [|done].
  cbn in Hts. simplify_eq. destruct (IH ts1 eq_refl) as [<- Hf]. split; [done|]. by constructor.
Qed.

(** ** The start symbol *)

Lemma start_goes cs :
  wf_cfgs cs = true -> (S (needs cs) <= MAX_bfsCfgParser_RECURSION_DEPTH)%nat ->
  goes (cfgs_toks cs ++ [end_tok]) sSTART 0 0 (length (cfgs_toks cs) + 1) (start_tree cs).
Proof.
  intros Hw Hd. apply (goes_rhs _ _ [] [sCONFIGS; sEND] []); [done|lia|done|constructor|].
  assert ((cfgs_toks cs ++ [end_tok]) !! length (cfgs_toks cs) = Some end_tok) as Hl.
  { by rewrite lookup_app_r, Nat.sub_diag by lia. }
  apply rg_cons.
  - apply configs_goes; [|done| | |cbn; lia].
    + apply Forall_forall. intros. apply config_goes.
    + by exists [end_tok].
    + by exists end_tok.
  - apply andb_true_iff in Hw as [Hs _]. destruct cs as [|c cs]; [done|]. pose proof (cfg_toks_some c).
    cbn. rewrite length_app. lia.
  - apply right_goes_one; [|lia]. apply (goes_leaf _ _ _ _ end_tok); [done|lia|done|done].
Qed.

(** The symbols below the start symbol. *)
Definition inner (s : bfsCfgParserSymbol) : Prop :=
  s ∈ [sCONFIGS; sCONFIG; sCFGLIST; sCFGSTRUCT; sWORDLIST; sCOLON; sLBRACK; sRBRACK; sLBRACE; sRBRACE; sWORD].

Lemma inner_known s : inner s -> symType s <> CFG_UNKNOWN /\ symName s <> tok_name end_tok /\ symName s <> "START"%string.
Proof.
  intros Hs. unfold inner in Hs. repeat (apply elem_of_cons in Hs as [->|Hs]; [done|]). by apply not_elem_of_nil in Hs.
Qed.

Lemma inner_closed s p : inner s -> p ∈ grammar_productions -> symName s = symName (left p) -> Forall inner (right p).
Proof.
  intros Hs Hp Hn. apply inner_known in Hs as (_ & _ & Hst).
  apply elem_of_cons in Hp as [->|Hp]; [done|].
  unfold inner. repeat (apply elem_of_cons in Hp as [->|Hp]; [cbn; repeat constructor|]).
  by apply not_elem_of_nil in Hp.
Qed.

(** What the parser makes of classified tokens. *)
Definition parsed (body : list token) (o : outcome () (nat * option parseTree)) : Prop :=
  match o with
  | Ok (_, Some t) _ => exists cs, wf_cfgs cs = true /\ body.*1 = cfgs_words cs /\ t = start_tree cs
  | Ok (n, None) _ => n = O
  | Throw e _ => exists msg, e = bfsCfgParserError msg
  | Crash _ => False
  end.

Lemma end_goes body idx :
  Forall classified body -> (idx <= length body)%nat ->
  if decide (idx = length body) then goes (body ++ [end_tok]) sEND idx 1 1 (leaf sEND (str "END"))
  else stops (body ++ [end_tok]) sEND idx 1.
Proof.
  intros Hc Hi. destruct (decide (idx = length body)) as [->|Hne].
  - apply (goes_leaf _ _ _ _ end_tok); [done|unfold MAX_bfsCfgParser_RECURSION_DEPTH; lia| |done].
    by rewrite lookup_app_r, Nat.sub_diag by lia.
  - destruct (lookup_lt_is_Some_2 body idx) as [tk Hl]; [lia|].
    apply (stops_leaf _ _ _ _ tk); [done|unfold MAX_bfsCfgParser_RECURSION_DEPTH; lia|by rewrite lookup_app_l by lia|].
    rewrite Forall_lookup in Hc. specialize (Hc idx tk Hl). apply classify_cases in Hc. unfold tok_name.
    destruct Hc as [[-> _]|[[-> _]|[[-> _]|[[-> _]|[[-> _]|[-> _]]]]]]; done.
Qed.

Lemma start_ok body fuel :
  Forall classified body -> (MAX_bfsCfgParser_RECURSION_DEPTH + 2 <= S fuel)%nat ->
  parsed body (executeParser grammar_productions (body ++ [end_tok]) (S fuel) sSTART 0 0 ()).
Proof.
  intros Hc Hf. rewrite exec_nonterminal by (done || lia).
  change (rhs_of sSTART) with [[sCONFIGS; sEND]]. cbn [try_rhs try_right].
  pose proof (executeParser_ok grammar_productions body end_tok inner) as Hok.
  specialize (Hok ltac:(intros s Hs; apply inner_known in Hs; tauto) inner_closed fuel sCONFIGS O 1%nat
    ltac:(by left) ltac:(lia) ltac:(lia) ltac:(lia)).
  unfold mbind, M_bind.
  destruct (executeParser grammar_productions (body ++ [end_tok]) fuel sCONFIGS 0 1 ()) as [[n [t|]] []|e []|c];
    cbn in Hok; [| |done..].
  2: by subst n.
  destruct Hok as [Hn Hd]. destruct (Nat.ltb_spec 0 n) as [Hpos|]; [|done]. cbn [of_opt mret M_ret].
  pose proof (end_goes body n Hc Hn) as He. change (0 + n)%nat with n.
  destruct (decide (n = length body)) as [->|_].
  - rewrite (He fuel) by lia. cbn.
    rewrite drop_0, take_app_length in Hd.
    destruct (fun H => derives_configs (tsize t) _ _ H (le_n _) Hd Hc) as (cs & Hw & Hts & ->);
      [intros; by eapply derives_config|]. by exists cs.
  - rewrite (He fuel) by lia. done.
Qed.

(** ** Items *)

Definition value_item (n v : bytes) : bfsCfgItem := CfgItem bfsCfgItem_VALUE n v [].

(** The name of the member [i] of a list of words. *)
Definition member_name (n : bytes) (i : Z) : bytes := n ++ str "[" ++ to_string i ++ str "]".

Fixpoint members (n : bytes) (i : Z) (ws : list bytes) : list bfsCfgItem :=
  match ws with
  | [] => []
  | w :: ws => value_item (member_name n i) w :: members n (i + 1) ws
  end.

Fixpoint item_of (c : cfg) : bfsCfgItem :=
  match c with
  | CValue n v => value_item n v
  | CWords n ws => CfgItem bfsCfgItem_LIST n [] (members n 0 ws)
  | CList n cs => CfgItem bfsCfgItem_LIST n [] (map item_of cs)
  | CStruct n cs => CfgItem bfsCfgItem_STRUCT n [] (map item_of cs)
  end.

Definition root_of (cs : list cfg) : bfsCfgItem := CfgItem bfsCfgItem_STRUCT (str "START") [] (map item_of cs).

(** An item with more sub-items. *)
Definition add_items (i : bfsCfgItem) (l : list bfsCfgItem) : bfsCfgItem :=
  CfgItem (itype i) (configName i) (value i) (subItems i ++ l).

Lemma addSubItem_Ok i itm : itype i <> bfsCfgItem_VALUE -> addSubItem i itm () = Ok (add_items i [itm]) ().
Proof. intros Hi. unfold addSubItem. by rewrite decide_False. Qed.

Lemma add_items_app i l l' : add_items (add_items i l) l' = add_items i (l ++ l').
Proof. unfold add_items. cbn. by rewrite app_assoc. Qed.

Lemma add_items_nil i : add_items i [] = i.
Proof. unfold add_items. rewrite app_nil_r. by destruct i. Qed.

Lemma word_items_Ok n i idx ws :
  some ws = true -> itype i <> bfsCfgItem_VALUE ->
  word_items n i idx (wordlist_tree ws) () = Ok (add_items i (members n idx ws)) ().
Proof.
  revert i idx. induction ws as [|w ws IH]; intros i idx Hs Hi; [done|]. cbn [wordlist_tree word_items].
  assert (new_item bfsCfgItem_VALUE (n ++ str "[" ++ to_string idx ++ str "]") w () =
    Ok (value_item (member_name n idx) w) ()) as Hn by (unfold new_item; by rewrite decide_False by tauto).
  cbn [matched leaf]. rewrite (bind_Ok _ _ _ _ _ Hn), (bind_Ok _ _ _ _ _ (addSubItem_Ok i _ Hi)).
  destruct ws as [|w' ws]; [done|]. rewrite IH by done. by rewrite add_items_app.
Qed.

(** The walk over the children of a tree that is no configuration. *)
Fixpoint create_all (l : list parseTree) (context : bfsCfgItem) : M () bfsCfgItem :=
  match l with
  | [] => mret context
  | t :: l => context ← createConfiguration t context; create_all l context
  end.

Lemma create_walk s l w ctx : symName s <> "CONFIG"%string ->
  createConfiguration (PTree s l w) ctx () = create_all l ctx ().
Proof.
  intros Hs. cbn [createConfiguration]. rewrite decide_False by done. revert ctx.
  induction l as [|t l IH]; intros ctx; [done|]. cbn [create_all]. unfold mbind, M_bind.
  destruct (createConfiguration t ctx ()) as [c []| |]; [apply IH|done..].
Qed.

Lemma create_leaf s w ctx : symName s <> "CONFIG"%string -> createConfiguration (leaf s w) ctx () = Ok ctx ().
Proof. intros Hs. unfold leaf. by rewrite create_walk. Qed.

Definition created (c : cfg) : Prop := forall ctx,
  wf_cfg c = true -> itype ctx <> bfsCfgItem_VALUE ->
  createConfiguration (cfg_tree c) ctx () = Ok (add_items ctx [item_of c]) ().

Lemma create_configs cs ctx :
  Forall created cs -> wf_cfgs cs = true -> itype ctx <> bfsCfgItem_VALUE ->
  createConfiguration (cfgs_tree cs) ctx () = Ok (add_items ctx (map item_of cs)) ().
Proof.
  intros Hall [Hs Hw]%andb_true_iff. revert ctx Hs Hw.
  induction Hall as [|c cs Hc Hall IH]; intros ctx Hs Hw Hi; [done|].
  cbn in Hw. apply andb_true_iff in Hw as [Hwc Hw]. unfold cfgs_tree. cbn [map configs_tree].
  rewrite create_walk by done. cbn [create_all]. rewrite (bind_Ok _ _ _ _ _ (Hc ctx Hwc Hi)).
  destruct cs as [|c' cs]; [done|]. cbn [map create_all].
  assert (createConfiguration (configs_tree (map cfg_tree (c' :: cs))) (add_items ctx [item_of c]) () =
    Ok (add_items (add_items ctx [item_of c]) (map item_of (c' :: cs))) ()) as Hr by (by apply IH).
  cbn [map] in Hr. rewrite (bind_Ok _ _ _ _ _ Hr). cbn. by rewrite add_items_app.
Qed.

Lemma create_brackets s sl cl sr cr cs ctx w :
  symName s <> "CONFIG"%string -> symName sl <> "CONFIG"%string -> symName sr <> "CONFIG"%string ->
  Forall created cs -> wf_cfgs cs = true -> itype ctx <> bfsCfgItem_VALUE ->
  createConfiguration (PTree s [leaf sl cl; cfgs_tree cs; leaf sr cr] w) ctx () = Ok (add_items ctx (map item_of cs)) ().
Proof.
  intros Hs Hl Hr Hall Hw Hi. rewrite create_walk by done. cbn [create_all].
  rewrite (bind_Ok _ _ _ _ _ (create_leaf sl cl ctx Hl)), (bind_Ok _ _ _ _ _ (create_configs cs ctx Hall Hw Hi)).
  by rewrite (bind_Ok _ _ _ _ _ (create_leaf sr cr _ Hr)).
Qed.

Lemma new_item_Ok t n v : t = bfsCfgItem_VALUE \/ v = [] -> new_item t n v () = Ok (CfgItem t n v []) ().
Proof. intros Hv. unfold new_item. rewrite decide_False; [done|]. intros [??]. by destruct Hv. Qed.

(** The list and the structure branch of [createConfiguration]. *)
Lemma create_list_branch n a el b ctx :
  createConfiguration (PTree sCONFIG [leaf sWORD n; PTree sCFGLIST [a; el; b] []] []) ctx () =
  (item ← new_item bfsCfgItem_LIST n [];
   item ← (if decide (tree_name el = "WORDLIST"%string) then word_items n item 0 el
           else createConfiguration (PTree sCFGLIST [a; el; b] []) item);
   addSubItem ctx item) ().
Proof. reflexivity. Qed.

Lemma create_struct_branch n l ctx :
  createConfiguration (PTree sCONFIG [leaf sWORD n; PTree sCFGSTRUCT l []] []) ctx () =
  (item ← new_item bfsCfgItem_STRUCT n [];
   item ← createConfiguration (PTree sCFGSTRUCT l []) item;
   addSubItem ctx item) ().
Proof. reflexivity. Qed.

Lemma wordlist_name ws : tree_name (wordlist_tree ws) = "WORDLIST"%string.
Proof. by destruct ws. Qed.

Lemma configs_name l : tree_name (configs_tree l) = "CONFIGS"%string.
Proof. by destruct l. Qed.

Lemma create_cfg c : created c.
Proof.
  induction c as [n v|n ws|n cs IH|n cs IH] using cfg_rect'; intros ctx Hw Hi; cbn [cfg_tree].
  - transitivity ((item ← new_item bfsCfgItem_VALUE n v; addSubItem ctx item) ()); [reflexivity|].
    rewrite (bind_Ok _ _ _ _ _ (new_item_Ok bfsCfgItem_VALUE n v (or_introl eq_refl))). by apply addSubItem_Ok.
  - cbn in Hw. apply andb_true_iff in Hw as [[_ Hs]%andb_true_iff _]. rewrite create_list_branch.
    rewrite (bind_Ok _ _ _ _ _ (new_item_Ok bfsCfgItem_LIST n [] (or_intror eq_refl))).
    rewrite decide_True by apply wordlist_name.
    rewrite (bind_Ok _ _ _ _ _ (word_items_Ok n (CfgItem bfsCfgItem_LIST n [] []) 0 ws Hs ltac:(done))). by apply addSubItem_Ok.
  - cbn in Hw. apply andb_true_iff in Hw as [[_ Hs]%andb_true_iff Hwf]. rewrite create_list_branch.
    rewrite (bind_Ok _ _ _ _ _ (new_item_Ok bfsCfgItem_LIST n [] (or_intror eq_refl))).
    rewrite decide_False by (by rewrite configs_name).
    assert (wf_cfgs cs = true) as Hcs by (unfold wf_cfgs; by rewrite Hs).
    rewrite (bind_Ok _ _ _ _ _ (create_brackets sCFGLIST sLBRACK ["["%byte] sRBRACK ["]"%byte] cs
      (CfgItem bfsCfgItem_LIST n [] []) []
      ltac:(done) ltac:(done) ltac:(done) IH Hcs ltac:(done))). by apply addSubItem_Ok.
  - cbn in Hw. apply andb_true_iff in Hw as [[_ Hs]%andb_true_iff Hwf]. rewrite create_struct_branch.
    rewrite (bind_Ok _ _ _ _ _ (new_item_Ok bfsCfgItem_STRUCT n [] (or_intror eq_refl))).
    assert (wf_cfgs cs = true) as Hcs by (unfold wf_cfgs; by rewrite Hs).
    rewrite (bind_Ok _ _ _ _ _ (create_brackets sCFGSTRUCT sLBRACE ["{"%byte] sRBRACE ["}"%byte] cs
      (CfgItem bfsCfgItem_STRUCT n [] []) []
      ltac:(done) ltac:(done) ltac:(done) IH Hcs ltac:(done))). by apply addSubItem_Ok.
Qed.

Lemma create_start cs :
  wf_cfgs cs = true ->
  createConfiguration (start_tree cs) (CfgItem bfsCfgItem_STRUCT (str "START") [] []) () = Ok (root_of cs) ().
Proof.
  intros Hw. unfold start_tree. rewrite create_walk by done. cbn [create_all].
  rewrite (bind_Ok _ _ _ _ _ (create_configs cs (CfgItem bfsCfgItem_STRUCT (str "START") [] [])
    ltac:(apply Forall_forall; intros; apply create_cfg) Hw ltac:(done))).
  by rewrite (bind_Ok _ _ _ _ _ (create_leaf sEND _ _ ltac:(done))).
Qed.

(** ** Loading *)

Definition loaded (cs : list cfg) : outcome bfsCfgStore bool :=
  Ok true (mkStore (Some grammar) (Some (root_of cs))).

Lemma load_parsed text :
  loadConfigurationFile (Some text) new_store =
  match parseData grammar text () with
  | Ok (Some t) _ =>
      match createConfiguration t (CfgItem bfsCfgItem_STRUCT (str "START") [] []) () with
      | Ok c _ => Ok true (mkStore (Some grammar) (Some c))
      | Throw e _ => Throw e (mkStore (Some grammar) None)
      | Crash c => Crash c
      end
  | Ok None _ => Crash Undefined_behaviour
  | Throw e _ => Throw e (mkStore (Some grammar) None)
  | Crash c => Crash c
  end.
Proof.
  unfold loadConfigurationFile.
  assert (createParser new_store = Ok () (mkStore (Some grammar) None)) as Hp.
  { unfold createParser. cbn [parser new_store]. by rewrite configuration_grammar_Ok. }
  rewrite (bind_Ok _ _ _ _ _ Hp). msteps. cbn [parser]. msteps.
  unfold stateless, mbind, M_bind. cbn [parseDataFile].
  destruct (parseData grammar text ()) as [[t|] []| |]; [|done..].
  cbn [of_opt mret M_ret]. rewrite new_item_Ok by (by right).
  by destruct (createConfiguration t _ ()) as [c []| |].
Qed.

Lemma parseData_tokens text :
  parseData grammar text () =
  match tokens_of (words_of text) with
  | Some ts =>
      match executeParser grammar_productions (ts ++ [end_tok]) parser_fuel sSTART 0 0 () with
      | Ok (_, t) _ => Ok t ()
      | Throw e _ => Throw e ()
      | Crash c => Crash c
      end
  | None => Throw unknown_symbol ()
  end.
Proof.
  unfold parseData. unfold mbind at 1, M_bind at 1. cbn [symbolTable endSymbol grammar]. rewrite tokenizeData_Ok.
  destruct (tokens_of (words_of text)) as [ts|]; [|done].
  unfold mbind, M_bind. cbn [productions startSymbol grammar].
  change (ts ++ [(str "END", sEND)]) with (ts ++ [end_tok]).
  destruct (executeParser _ _ _ _ _ _ _) as [[n t] []|e []|c]; done.
Qed.

Lemma load_complete_Ok cs text :
  wf_cfgs cs = true -> (S (needs cs) <= MAX_bfsCfgParser_RECURSION_DEPTH)%nat -> words_of text = cfgs_words cs ->
  loadConfigurationFile (Some text) new_store = loaded cs.
Proof.
  intros Hw Hd Ht. rewrite load_parsed, parseData_tokens, Ht, (tokens_of_cfgs cs Hw).
  rewrite (start_goes cs Hw Hd) by (unfold parser_fuel, MAX_bfsCfgParser_RECURSION_DEPTH; lia).
  by rewrite (create_start cs Hw).
Qed.

(** C10. Loading a configuration.  Every text that spells a configuration, in
    any layout and with any comments, is loaded as the items of that
    configuration, unless its lists need more than the hundred levels of the
    parser. *)
Theorem load_configuration cs text :
  wf_cfgs cs = true -> (S (needs cs) <= MAX_bfsCfgParser_RECURSION_DEPTH)%nat -> words_of text = cfgs_words cs ->
  exists s, loadConfigurationFile (Some text) new_store = Ok true s /\ configs s = Some (root_of cs).
Proof. intros Hw Hd Ht. rewrite (load_complete_Ok cs text Hw Hd Ht). by eexists. Qed.

(** C20. What loading a text ends in.  The items of a configuration that the
    text spells; a parser error, for a piece of text that is no symbol or too
    many levels; or, when the text is no configuration, the use of a null parse
    tree. *)
Theorem load_ends text :
  match loadConfigurationFile (Some text) new_store with
  | Ok b s => b = true /\ exists cs, wf_cfgs cs = true /\ words_of text = cfgs_words cs /\ configs s = Some (root_of cs)
  | Throw e _ => exists msg, e = bfsCfgParserError msg
  | Crash c => c = Undefined_behaviour /\
      forall cs, wf_cfgs cs = true -> (S (needs cs) <= MAX_bfsCfgParser_RECURSION_DEPTH)%nat -> words_of text <> cfgs_words cs
  end.
Proof.
  assert (forall cs, wf_cfgs cs = true -> (S (needs cs) <= MAX_bfsCfgParser_RECURSION_DEPTH)%nat ->
    words_of text = cfgs_words cs -> loadConfigurationFile (Some text) new_store = loaded cs) as Hall
    by (intros; by apply load_complete_Ok).
  rewrite load_parsed, parseData_tokens in *. destruct (tokens_of (words_of text)) as [ts|] eqn:Hts; [|by eexists].
  apply tokens_of_inv in Hts as [Hts Hc].
  pose proof (start_ok ts (S MAX_bfsCfgParser_RECURSION_DEPTH) Hc ltac:(lia)) as Hp. fold parser_fuel in Hp.
  destruct (executeParser grammar_productions (ts ++ [end_tok]) parser_fuel sSTART 0 0 ()) as [[n [t|]] []|e []|c];
    cbn in Hp; [| |done..].
  - destruct Hp as (cs & Hw & Hcs & ->). rewrite (create_start cs Hw). split; [done|]. exists cs.
    split_and!; [done|by rewrite <-Hcs|done].
  - split; [done|]. intros cs Hw Hd Heq. by specialize (Hall cs Hw Hd Heq).
Qed.
End CfgLoad.
