(* ===== verification/CfgQuery.v ===== *)
(** * Queries by tag, numbers, and the whole configuration path

    The item a path of names and indices leads to, the tag that spells the
    path, and the theorem that a query by the tag returns the item; numbers in
    text; loading a text and asking for a value; the files shipped with the
    program. *)
From S2P Require Import Prelude RegExp CfgParser CfgItem CfgTokens CfgParse CfgLoad.
Import Init.Byte RegExp CfgParser CfgItem CfgTokens CfgParse CfgLoad.

Module CfgQuery.

(** ** Numbers *)

Lemma digit_value_digit d : 0 <= d < 10 -> digit_value (digit d) = Some d.
Proof.
  intros Hd. unfold digit_value, digit. rewrite b2z_z2b by lia.
  assert (((48 <=? 48 + d) && (48 + d <=? 57)) = true) as -> by (apply andb_true_iff; lia). f_equal. lia.
Qed.

(** The digits of a number are read back, whatever was read before. *)
Lemma digits_decimal fuel n acc seen s :
  0 <= n < 10 ^ Z.of_nat fuel -> (0 < fuel)%nat ->
  exists k, 0 <= k /\ digits acc seen (decimal fuel n ++ s) = digits (acc * 10 ^ k + n) true s.
Proof.
  revert n acc seen s. induction fuel as [|fuel IH]; intros n acc seen s Hn Hf; [lia|].
  cbn [decimal]. rewrite <-app_assoc. pose proof (Z.mod_pos_bound n 10 ltac:(lia)) as Hm.
  destruct (Z.ltb_spec n 10) as [Hlt|Hge].
  - exists 1. split; [lia|]. cbn. rewrite digit_value_digit by done. f_equal. rewrite Z.mod_small by lia. lia.
  - assert (0 < fuel)%nat as Hf'.
    { destruct fuel; [|lia]. cbn in Hn. lia. }
    rewrite Nat2Z.inj_succ, Z.pow_succ_r in Hn by lia.
    destruct (IH (n / 10) acc seen ([digit (n mod 10)] ++ s)) as (k & Hk & ->); [|done|].
    { split; [apply Z.div_pos; lia|]. apply Z.div_lt_upper_bound; lia. }
    exists (k + 1). split; [lia|]. cbn. rewrite digit_value_digit by done. f_equal.
    rewrite Z.pow_add_r by lia. pose proof (Z.div_mod n 10 ltac:(lia)). lia.
Qed.

Lemma decimal_head fuel n : (0 < fuel)%nat -> exists d r, decimal fuel n = digit d :: r /\ 0 <= d < 10.
Proof.
  revert n. induction fuel as [|fuel IH]; intros n Hf; [lia|]. cbn [decimal].
  pose proof (Z.mod_pos_bound n 10 ltac:(lia)). destruct (n <? 10); [by eexists _, _|].
  destruct fuel as [|fuel]; [by eexists _, _|]. destruct (IH (n / 10)) as (d & r & -> & Hd); [lia|].
  by eexists _, _.
Qed.

Lemma digit_class d : 0 <= d < 10 ->
  isspace (digit d) = false /\ digit d <> "-"%byte /\ digit d <> "+"%byte /\ digit d <> "]"%byte.
Proof.
  intros Hd. assert (d = 0 \/ d = 1 \/ d = 2 \/ d = 3 \/ d = 4 \/ d = 5 \/ d = 6 \/ d = 7 \/ d = 8 \/ d = 9) as Hc by lia.
  by repeat destruct Hc as [->|Hc]; [..|subst d].
Qed.

(** The text after a number does not begin with a digit. *)
Definition no_digit (s : bytes) : Prop := match s with [] => True | c :: _ => digit_value c = None end.

Lemma read_number_to_string n s : 0 <= n < 10 ^ 20 -> no_digit s -> read_number (to_string n ++ s) = Some (false, n).
Proof.
  intros Hn Hs. unfold read_number.
  destruct (decimal_head 20 n ltac:(lia)) as (d & r & Hd & Hdr). destruct (digit_class d Hdr) as (H1 & H2 & H3 & _).
  assert (skip_spaces (to_string n ++ s) = to_string n ++ s) as ->.
  { unfold to_string. rewrite Hd. cbn [app skip_spaces]. by rewrite H1. }
  destruct (digits_decimal 20 n 0 false s Hn ltac:(lia)) as (k & _ & Hk).
  unfold to_string in *. rewrite Hd in *. cbn [app] in *. rewrite !decide_False by done. rewrite Hk.
  assert (digits (0 * 10 ^ k + n) true s = (n, true)) as ->; [|done].
  destruct s as [|c s]; cbn; [done|]. cbn in Hs. by rewrite Hs.
Qed.

Lemma stoi_to_string n s : 0 <= n < 2 ^ 31 -> no_digit s -> stoi (to_string n ++ s) () = Ok n ().
Proof.
  intros Hn Hs. unfold stoi, strtol. rewrite read_number_to_string by (done || lia).
  rewrite Z.min_r by lia. assert (((- 2 ^ 31 <=? n) && (n <=? 2 ^ 31 - 1)) = true) as -> by (apply andb_true_iff; lia).
  done.
Qed.

(** Numbers.  The text [to_string] makes of a number of 64 bits is read back
    by [bfsCfgItemValueUnsigned], and of a non-negative [long] by
    [bfsCfgItemValueLong]. *)
Theorem config_number_roundtrip n i :
  0 <= n < 2 ^ 64 -> value i = to_string n ->
  bfsCfgItemValueUnsigned i () = Ok n () /\ (n < 2 ^ 63 -> bfsCfgItemValueLong i () = Ok n ()).
Proof.
  intros Hn Hv. unfold bfsCfgItemValueUnsigned, bfsCfgItemValueLong, strtol, strtoul. rewrite Hv.
  rewrite <-(app_nil_r (to_string n)), read_number_to_string by (done || lia). split.
  - destruct (Z.ltb_spec (2 ^ 64 - 1) n); [lia|done].
  - intros Hl. by rewrite Z.min_r by lia.
Qed.

Lemma config_number_roundtrip_witness :
  let i := value_item (str "bfs_server_port") (str "50000") in
  bfsCfgItemValueUnsigned i () = Ok 50000 () /\ (50000 < 2 ^ 63 -> bfsCfgItemValueLong i () = Ok 50000 ()).
Proof. intros i. apply (config_number_roundtrip 50000 i); [lia|by vm_compute]. Defined.

(** ** Sub-items *)

Lemma depth_sub i it : it ∈ subItems i -> (depth it < depth i)%nat.
Proof.
  destruct i as [t n v l]. cbn. intros Hin. induction Hin as [x l|x y l Hin IH]; cbn; lia.
Qed.

Lemma getSubItemByName_cases i n :
  (exists it, it ∈ subItems i /\ configName it = n /\ getSubItemByName i n () = Ok it ()) \/
  exists msg, getSubItemByName i n () = Throw (bfsCfgError msg) ().
Proof.
  unfold getSubItemByName. destruct (List.find _ _) as [it|] eqn:Hf; [left|right; by eexists].
  apply find_some in Hf as [Hin Hn]. exists it. split_and!; [by apply list_elem_of_In|by apply bool_decide_eq_true in Hn|done].
Qed.

Lemma getSubItemByIndex_cases i idx :
  (exists it, it ∈ subItems i /\ getSubItemByIndex i idx () = Ok it ()) \/
  exists msg, getSubItemByIndex i idx () = Throw (bfsCfgError msg) ().
Proof.
  unfold getSubItemByIndex. destruct (_ || _) eqn:Hb; [right; by eexists|left].
  apply orb_false_iff in Hb as [Hl Hr]. unfold zlen in Hr.
  destruct (lookup_lt_is_Some_2 (subItems i) (Z.to_nat idx)) as [it Hit]; [lia|].
  exists it. split; [by eapply list_elem_of_lookup_2|]. apply vec_at_Ok; [lia|done].
Qed.

Definition config_exn (e : exn) : Prop :=
  (exists msg, e = bfsCfgError msg) \/ e = std_invalid_argument \/ e = std_out_of_range.

(** A query ends in an item or an exception. *)
Definition answers (o : outcome () bfsCfgItem) : Prop :=
  match o with Ok _ _ => True | Throw e _ => config_exn e | Crash _ => False end.

Lemma queryConfig_answers fuel i tag : (depth i <= fuel)%nat -> answers (queryConfig fuel i tag ()).
Proof.
  revert i tag. induction fuel as [|fuel IH]; intros i tag Hf; [destruct i; cbn in Hf; lia|]. cbn [queryConfig].
  destruct (find_first_of _ tag) as [[[search c] post]|].
  2: { destruct (getSubItemByName_cases i tag) as [(it & _ & _ & ->)|(msg & ->)]; [done|]. left. by eexists. }
  destruct (decide (c = "."%byte)) as [_|_].
  - destruct (getSubItemByName_cases i search) as [(it & Hin & _ & Hg)|(msg & Hg)].
    + rewrite (bind_Ok _ _ _ _ _ Hg). apply depth_sub in Hin. destruct post; [done|]. apply IH. lia.
    + rewrite (bind_Throw _ _ _ _ _ Hg). left. by eexists.
  - unfold stoi. destruct (strtol post) as [n|].
    2: { right. by left. }
    destruct (_ && _); [|by right; right]. rewrite bind_ret.
    destruct (getSubItemByName_cases i search) as [(it & Hin & _ & Hg)|(msg & Hg)].
    2: { rewrite (bind_Throw _ _ _ _ _ Hg). left. by eexists. }
    rewrite (bind_Ok _ _ _ _ _ Hg). apply depth_sub in Hin.
    destruct (getSubItemByIndex_cases it n) as [(it' & Hin' & Hg')|(msg & Hg')].
    2: { rewrite (bind_Throw _ _ _ _ _ Hg'). left. by eexists. }
    rewrite (bind_Ok _ _ _ _ _ Hg'). apply depth_sub in Hin'.
    unfold index_rest. destruct (after_bracket tag) as [|d rest]; [done|].
    destruct (decide _) as [_|_].
    + destruct (strip_prefix _ _) as [[|d' rest']|]; [done| |left; by eexists].
      rewrite bind_ret. apply IH. lia.
    + destruct (decide _) as [_|_]; [left; by eexists|]. rewrite bind_ret. apply IH. lia.
Qed.

(** ** Paths *)

Inductive step :=
  | Field (n : bytes)
  | Elem (n : bytes) (k : nat) (m : bytes).

Definition by_name (i : bfsCfgItem) (n : bytes) : option bfsCfgItem :=
  List.find (fun s => bool_decide (configName s = n)) (subItems i).

(** The member [k] of the list [n], which is called [m]. *)
Definition follow_step (i : bfsCfgItem) (s : step) : option bfsCfgItem :=
  match s with
  | Field n => by_name i n
  | Elem n k m => l ← by_name i n; it ← subItems l !! k; if decide (configName it = m) then Some it else None
  end.

Fixpoint follow (i : bfsCfgItem) (p : list step) : option bfsCfgItem :=
  match p with
  | [] => Some i
  | s :: p => it ← follow_step i s; follow it p
  end.

(** The tag of a path: [a.b], [a[0]], [a[0].m.b]. *)
Fixpoint tag (p : list step) : bytes :=
  match p with
  | [] => []
  | Field n :: p => n ++ match p with [] => [] | _ => "."%byte :: tag p end
  | Elem n k m :: p =>
      n ++ "["%byte :: to_string (Z.of_nat k) ++ "]"%byte ::
      match p with [] => [] | _ => "."%byte :: m ++ "."%byte :: tag p end
  end.

Definition plain (n : bytes) : bool :=
  nonempty n && forallb (fun c => negb (has_char ["."%byte; "["%byte; "]"%byte] c)) n.

Definition plain_step (s : step) : bool :=
  match s with
  | Field n => plain n
  | Elem n k _ => plain n && (Z.of_nat k <? 2 ^ 31)
  end.

Lemma find_first_of_app cs u c v :
  forallb (fun c => negb (has_char cs c)) u = true -> has_char cs c = true ->
  find_first_of cs (u ++ c :: v) = Some (u, c, v).
Proof.
  intros Hu Hc. induction u as [|d u IH]; cbn in *; [by rewrite Hc|].
  apply andb_true_iff in Hu as [Hd%negb_true_iff Hu]. rewrite Hd, (IH Hu). done.
Qed.

Lemma find_first_of_none cs u :
  forallb (fun c => negb (has_char cs c)) u = true -> find_first_of cs u = None.
Proof.
  intros Hu. induction u as [|d u IH]; [done|]. cbn in *.
  apply andb_true_iff in Hu as [Hd%negb_true_iff Hu]. by rewrite Hd, (IH Hu).
Qed.

(** The characters [cs] do not occur in a text without the characters [cs']. *)
Lemma avoids_sub cs cs' u : cs ⊆ cs' ->
  forallb (fun c => negb (has_char cs' c)) u = true -> forallb (fun c => negb (has_char cs c)) u = true.
Proof.
  intros Hsub. rewrite !forallb_forall. intros Hu c Hc. specialize (Hu c Hc). unfold has_char in *.
  apply negb_true_iff, bool_decide_eq_false. apply negb_true_iff, bool_decide_eq_false in Hu. set_solver.
Qed.

Lemma plain_avoids n : plain n = true ->
  forallb (fun c => negb (has_char ["."%byte; "["%byte] c)) n = true /\
  forallb (fun c => negb (has_char ["]"%byte] c)) n = true.
Proof. intros [_ Hn]%andb_true_iff. split; (eapply avoids_sub; [|exact Hn]); set_solver. Qed.

Lemma to_string_avoids n : forallb (fun c => negb (has_char ["]"%byte] c)) (to_string n) = true.
Proof.
  unfold to_string. generalize 20%nat. intros fuel. revert n. induction fuel as [|fuel IH]; intros n; [done|].
  cbn [decimal]. rewrite forallb_app. apply andb_true_iff. split; [by destruct (n <? 10)|].
  destruct (digit_class (n mod 10)) as (_ & _ & _ & Hd); [apply Z.mod_pos_bound; lia|].
  cbn. rewrite andb_true_r. apply negb_true_iff, bool_decide_eq_false_2. set_solver.
Qed.

Lemma strip_prefix_app p s : strip_prefix p (p ++ s) = Some s.
Proof. induction p as [|c p IH]; [by destruct s|]. cbn. by rewrite decide_True. Qed.

Lemma by_name_Ok i n it : by_name i n = Some it -> getSubItemByName i n () = Ok it ().
Proof. unfold by_name, getSubItemByName. by intros ->. Qed.

Lemma getSubItemByIndex_Ok i k it : subItems i !! k = Some it -> getSubItemByIndex i (Z.of_nat k) () = Ok it ().
Proof.
  intros Hk. unfold getSubItemByIndex. pose proof (lookup_lt_Some _ _ _ Hk) as Hlt.
  assert ((Z.of_nat k <? 0) || (zlen (subItems i) <=? Z.of_nat k) = false) as ->
    by (apply orb_false_iff; unfold zlen; lia).
  apply vec_at_Ok; [lia|by rewrite Nat2Z.id].
Qed.

(** One index step: the list, its member, and what is left of the tag. *)
Lemma query_elem fuel i l n k it rest :
  plain n = true -> Z.of_nat k < 2 ^ 31 -> by_name i n = Some l -> subItems l !! k = Some it ->
  queryConfig (S fuel) i (n ++ "["%byte :: to_string (Z.of_nat k) ++ "]"%byte :: rest) () =
  (r ← index_rest it rest;
   match r with inl _ => mret it | inr t => queryConfig fuel it t end) ().
Proof.
  intros Hn Hk Hl Hit. destruct (plain_avoids n Hn) as [H1 H2]. cbn [queryConfig].
  rewrite (find_first_of_app _ n "["%byte) by done. rewrite decide_False by done.
  rewrite (bind_Ok _ _ _ _ _ (stoi_to_string (Z.of_nat k) ("]"%byte :: rest) ltac:(lia) ltac:(done))).
  rewrite (bind_Ok _ _ _ _ _ (by_name_Ok i n l Hl)), (bind_Ok _ _ _ _ _ (getSubItemByIndex_Ok l k it Hit)).
  assert (after_bracket (n ++ "["%byte :: to_string (Z.of_nat k) ++ "]"%byte :: rest) = rest) as ->; [|done].
  unfold after_bracket. rewrite (cons_middle "["%byte n), !app_assoc, find_first_of_app; [done| |done].
  rewrite !forallb_app, H2, to_string_avoids. done.
Qed.

Lemma tag_some s p : plain_step s = true -> tag (s :: p) <> [].
Proof.
  destruct s as [n|n k m]; cbn; intros Hs Ht.
  - apply app_eq_nil in Ht as [-> _]. done.
  - by apply app_eq_nil in Ht as [_ Ht].
Qed.

Lemma queryConfig_follow fuel p i it :
  (length p <= fuel)%nat -> p <> [] -> forallb plain_step p = true -> follow i p = Some it ->
  queryConfig fuel i (tag p) () = Ok it ().
Proof.
  revert p i. induction fuel as [|fuel IH]; intros [|s p] i Hf Hne Hp Hfol; try done; [cbn in Hf; lia|].
  cbn in Hp, Hf. apply andb_true_iff in Hp as [Hs Hp]. cbn [follow] in Hfol.
  destruct (follow_step i s) as [j|] eqn:Hj; [|done]. cbn in Hfol.
  destruct s as [n|n k m]; cbn [plain_step follow_step] in *.
  - destruct (plain_avoids n Hs) as [H1 _]. destruct p as [|s' p].
    + cbn in Hfol. simplify_eq. cbn [tag]. rewrite app_nil_r. cbn [queryConfig].
      rewrite find_first_of_none by done. by apply by_name_Ok.
    + change (tag (Field n :: s' :: p)) with (n ++ "."%byte :: tag (s' :: p)). cbn [queryConfig].
      rewrite (find_first_of_app _ n "."%byte) by done. rewrite decide_True by done.
      rewrite (bind_Ok _ _ _ _ _ (by_name_Ok i n j Hj)).
      cbn [forallb] in Hp. pose proof Hp as [Hs' _]%andb_true_iff.
      pose proof (tag_some s' p Hs') as Hnil. pose proof (IH (s' :: p) j ltac:(lia) ltac:(done) Hp Hfol) as Hq.
      revert Hq Hnil. by destruct (tag (s' :: p)).
  - apply andb_true_iff in Hs as [Hn Hk]. destruct (by_name i n) as [l|] eqn:Hl; [|done]. cbn in Hj.
    destruct (subItems l !! k) as [j'|] eqn:Hlk; [|done]. cbn in Hj. case_decide as Hm; [|done]. simplify_eq.
    cbn [tag]. rewrite (query_elem fuel i l n k j) by (done || lia). destruct p as [|s' p]; [by cbn in Hfol; simplify_eq|].
    unfold index_rest. rewrite decide_True, strip_prefix_app by done. rewrite decide_True by done.
    rewrite bind_ret. by apply IH; [lia|..].
Qed.

Lemma by_name_depth i n it : by_name i n = Some it -> (depth it < depth i)%nat.
Proof. unfold by_name. intros [Hin _]%find_some. by apply depth_sub, list_elem_of_In. Qed.

Lemma follow_depth i p it : follow i p = Some it -> (length p <= depth i)%nat.
Proof.
  revert i. induction p as [|s p IH]; intros i Hf; cbn in *; [lia|].
  destruct (follow_step i s) as [j|] eqn:Hj; [|done]. cbn in Hf. specialize (IH j Hf).
  enough (depth j < depth i)%nat by lia. destruct s as [n|n k m]; cbn in Hj; [by eapply by_name_depth|].
  destruct (by_name i n) as [l|] eqn:Hl; [|done]. cbn in Hj. apply by_name_depth in Hl.
  destruct (subItems l !! k) as [j'|] eqn:Hk; [|done]. cbn in Hj. case_decide; [|done]. simplify_eq.
  apply list_elem_of_lookup_2, depth_sub in Hk. lia.
Qed.

(** ** Theorems *)

Lemma query_follow_Ok p i it :
  p <> [] -> forallb plain_step p = true -> follow i p = Some it -> query i (tag p) () = Ok it ().
Proof. intros Hne Hp Hf. apply queryConfig_follow; [by eapply follow_depth|done..]. Qed.

(** Every query ends: with an item, a configuration error, or the
    exceptions of [stoi] that no caller catches. *)
Theorem query_ends i t : answers (query i t ()).
Proof. by apply queryConfig_answers. Qed.

(** C19. Configured values are found.  In a configuration that was loaded from
    a text, the tag of a path of plain names gives the item at the end of the
    path; of several items of one name the first counts. *)
Theorem configured_item_found cs text p it :
  wf_cfgs cs = true -> (S (needs cs) <= MAX_bfsCfgParser_RECURSION_DEPTH)%nat -> words_of text = cfgs_words cs ->
  p <> [] -> forallb plain_step p = true -> follow (root_of cs) p = Some it ->
  exists s, loadConfigurationFile (Some text) new_store = Ok true s /\
    getConfigItem (Some s) (tag p) () = Ok (Some it) ().
Proof.
  intros Hw Hd Ht Hne Hp Hf. rewrite (load_complete_Ok cs text Hw Hd Ht). eexists. split; [done|].
  unfold getConfigItem. rewrite bind_of_opt. apply catch_Ok.
  unfold store_query. cbn [configs]. rewrite bind_assoc, bind_of_opt.
  by rewrite (bind_Ok _ _ _ _ _ (query_follow_Ok p _ _ Hne Hp Hf)).
Qed.

(** ** The sample configuration and its unit test *)

Definition sample_cfg : bytes := Eval vm_compute in str "# Long comment
#
#
config1 : value1
config2 [ value2 value3 ]
# Comment
config3 {
    config4 : value4
    config5 [ value5 value6 value7 ]
    config6 {
        config7 : value8
    }
}

config9 { config10 : value9 }

config11 [ 
    config12 : value10
    config13 : value11
    config14 {
        config15 : value12
        config16 : value13
                                # Comment
        config20 [ value14 value15 ]
        config17 { # Comment
            config18 : value16
            config19 : value17
        }
    }
]".

Definition sample_configs : list cfg :=
  [CValue (str "config1") (str "value1");
   CWords (str "config2") [str "value2"; str "value3"];
   CStruct (str "config3") [
     CValue (str "config4") (str "value4");
     CWords (str "config5") [str "value5"; str "value6"; str "value7"];
     CStruct (str "config6") [CValue (str "config7") (str "value8")]];
   CStruct (str "config9") [CValue (str "config10") (str "value9")];
   CList (str "config11") [
     CValue (str "config12") (str "value10");
     CValue (str "config13") (str "value11");
     CStruct (str "config14") [
       CValue (str "config15") (str "value12");
       CValue (str "config16") (str "value13");
       CWords (str "config20") [str "value14"; str "value15"];
       CStruct (str "config17") [CValue (str "config18") (str "value16"); CValue (str "config19") (str "value17")]]]].

Lemma configured_item_found_witness :
  let p := [Elem (str "config11") 2 (str "config14"); Elem (str "config20") 1 (str "config20[1]")] in
  let it := value_item (str "config20[1]") (str "value15") in
  tag p = str "config11[2].config14.config20[1]" /\
  exists s, loadConfigurationFile (Some sample_cfg) new_store = Ok true s /\
    getConfigItem (Some s) (tag p) () = Ok (Some it) ().
Proof.
  intros p it. split; [by vm_compute|].
  apply (configured_item_found sample_configs sample_cfg p it);
    [by vm_compute|by vm_decide|by vm_compute|done|by vm_compute|by vm_compute].
Defined.

Lemma load_configuration_witness :
  exists s, loadConfigurationFile (Some sample_cfg) new_store = Ok true s /\ configs s = Some (root_of sample_configs).
Proof. apply (load_configuration sample_configs sample_cfg); [by vm_compute|by vm_decide|by vm_compute]. Defined.

(** The value of a tag after loading a text. *)
Definition ask (text : bytes) (t : string) : option (option bytes) :=
  match loadConfigurationFile (Some text) new_store with
  | Ok _ s => match getConfigItemValue (Some s) (str t) () with Ok v _ => Some v | _ => None end
  | _ => None
  end.

Example sample_unit_test :
  map (ask sample_cfg)
    ["config1"; "config2[0]"; "config2[1]"; "config3.config4"; "config3.config5[2]"; "config3.config6.config7";
     "config9.config10"; "config11[0].config12"; "config11[1].config13"; "config11[2].config14.config15";
     "config11[2].config14.config20[0]"; "config11[2].config14.config17.config19"]%string =
  map (fun v => Some (Some (str v)))
    ["value1"; "value2"; "value3"; "value4"; "value7"; "value8"; "value9"; "value10"; "value11"; "value12";
     "value14"; "value17"]%string.
Proof. by vm_compute. Qed.

(** Limits of the loader.  Ninety-seven top level values are loaded,
    ninety-eight reach the depth limit of the parser; a word alone, which is no
    configuration, ends in the use of a null tree; and a name with a dot is
    loaded but no tag finds it. *)
Theorem loader_limits :
  let flat n := concat (replicate n (str "a : b ")) in
  (exists s, loadConfigurationFile (Some (flat 97%nat)) new_store = Ok true s) /\
  (exists msg s, loadConfigurationFile (Some (flat 98%nat)) new_store = Throw (bfsCfgParserError msg) s) /\
  loadConfigurationFile (Some (str "word")) new_store = Crash Undefined_behaviour /\
  (exists s, loadConfigurationFile (Some (str "a.b : c")) new_store = Ok true s /\
     getConfigItem (Some s) (str "a.b") () = Ok None ()).
Proof.
  intros flat. split_and!.
  - eexists. vm_compute. reflexivity.
  - eexists _, _. vm_compute. reflexivity.
  - vm_compute. reflexivity.
  - eexists. split; [vm_compute; reflexivity|]. vm_compute. reflexivity.
Qed.
End CfgQuery.
