(* ===== verification/Startup.v ===== *)
(** * Start-up from the system configuration

    Models how the layers are brought up from the configuration file, in the
    build without SGX: [bfsConfigLayerInit], [bfsUtilLayerInit],
    [bfsCryptoLayerInit], [BfsACLayer_init], [bfsDeviceLayerInit] and
    [getDeviceManifest], [bfsDeviceStorageInitialize], [bfsBlockLayerInit],
    [bfsFsLayerInit], the configuration constructor of [bfsSecAssociation],
    [enclave_init] of the server and [server_init].

    The static data members of the layer classes are kept by name, in [flags]
    and [numbers]; the files behind the devices are in [host].  Log messages
    are not recorded, the table of levels is. *)
From S2P Require Import Prelude Layout FlexBuffer Base64 SecAssoc BlockLayer RegExp BfsLog CfgParser CfgItem.
Import Init.Byte RegExp CfgParser CfgItem.

Module Startup.
Section startup.
Context {C : Type}.

(** ** State *)

Record assoc := mkAssoc { initiator : bytes; responder : bytes; saKey : CryptoKey.t }.

(** The class of a device object, with what its constructor was given. *)
Inductive dev_kind := Local (storagePath : bytes) | Remote (ipaddr : bytes) (port : Z).

Record device := mkDevice { kind : dev_kind; dev : LocalDevice.t; secContext : option assoc }.

(** What the process meets outside the program:
    - [home]: [BFS_HOME] is set; [file]: the text of the configuration file;
    - [setkey_ok]: whether libgcrypt takes some bytes as a key of the cipher;
    - [opens], [maps]: whether a file can be opened and mapped; [writes]: how many
      of a number of block writes to it succeed;
    - [zeroblk]: what the stack holds where the block of that name is, which is
      never set;
    - [remote]: the device process at an address, as a remote device sees it
      after its initialisation, [None] when that fails;
    - [do_lwext4_init]: the result of the initialisation of lwext4. *)
Record env := mkEnv {
  home : bool;
  file : option bytes;
  setkey_ok : bytes -> bool;
  opens : bytes -> bool;
  writes : bytes -> nat -> nat;
  maps : bytes -> bool;
  zeroblk : bytes;
  remote : bytes -> Z -> assoc -> option LocalDevice.t;
  do_lwext4_init : Z;
}.

Record t := mk {
  log : BfsLog.t;
  systemConfig : option bfsCfgStore;
  flags : string -> bool;
  numbers : string -> Z;
  host : gmap bytes bytes;
  bfsMasterDeviceList : list (Z * device);
  fsContext : option assoc;
  vbc : option (VBC.t C);
}.

(** Static initialisers: everything is 0 or [false] except the allocation
    algorithm. *)
Definition fresh (host : gmap bytes bytes) : t :=
  mk BfsLog.start None (fun _ => false)
    (fun n => if decide (n = "bfsBlockAllocAlgorithm"%string) then BlockLayerInit.BFSBLK_MAX_ALLOC else 0)
    host [] None None.

Definition upd {A} (n : string) (v : A) (f : string -> A) : string -> A :=
  fun m => if decide (m = n) then v else f m.

Definition set_log (l : BfsLog.t) (s : t) : t :=
  mk l (systemConfig s) (flags s) (numbers s) (host s) (bfsMasterDeviceList s) (fsContext s) (vbc s).
Definition set_config (c : option bfsCfgStore) (s : t) : t :=
  mk (log s) c (flags s) (numbers s) (host s) (bfsMasterDeviceList s) (fsContext s) (vbc s).
Definition set_flag (n : string) (b : bool) (s : t) : t :=
  mk (log s) (systemConfig s) (upd n b (flags s)) (numbers s) (host s) (bfsMasterDeviceList s) (fsContext s) (vbc s).
Definition set_number (n : string) (v : Z) (s : t) : t :=
  mk (log s) (systemConfig s) (flags s) (upd n v (numbers s)) (host s) (bfsMasterDeviceList s) (fsContext s) (vbc s).
Definition set_host (h : gmap bytes bytes) (s : t) : t :=
  mk (log s) (systemConfig s) (flags s) (numbers s) h (bfsMasterDeviceList s) (fsContext s) (vbc s).
Definition set_devices (l : list (Z * device)) (s : t) : t :=
  mk (log s) (systemConfig s) (flags s) (numbers s) (host s) l (fsContext s) (vbc s).
Definition set_context (a : option assoc) (s : t) : t :=
  mk (log s) (systemConfig s) (flags s) (numbers s) (host s) (bfsMasterDeviceList s) a (vbc s).
Definition set_cluster (v : option (VBC.t C)) (s : t) : t :=
  mk (log s) (systemConfig s) (flags s) (numbers s) (host s) (bfsMasterDeviceList s) (fsContext s) v.

(** ** Reading the configuration *)

Definition on_log {A} (m : M BfsLog.t A) : M t A := fun s =>
  match m (log s) with
  | Ok a l => Ok a (set_log l s)
  | Throw e l => Throw e (set_log l s)
  | Crash c => Crash c
  end.

Definition registerLogLevel (name : string) (enable : bool) : M t Z :=
  on_log (BfsLog.registerLogLevel (str name) enable).

Definition config_item (cfgtag : string) : M t (option bfsCfgItem) :=
  s ← gets systemConfig; stateless (CfgItem.getConfigItem s (str cfgtag)).

(** [config = getConfigItem(tag)], used without a test for [NULL], and the
    test of its type. *)
Definition with_item (cfgtag : string) (ty : bfsCfgItemType) (k : bfsCfgItem -> M t Z) : M t Z :=
  config ← config_item cfgtag;
  config ← of_opt config;
  if decide (itype config = ty) then k config else mret (-1).

Definition sub_item (config : bfsCfgItem) (name : string) : M t bfsCfgItem :=
  stateless (getSubItemByName config (str name)).

Definition sub_value (config : bfsCfgItem) (name : string) : M t bytes :=
  i ← sub_item config name; mret (value i).

(** [getSubItemByName(name)->bfsCfgItemValue() == "true"] *)
Definition sub_flag (config : bfsCfgItem) (name : string) : M t bool :=
  v ← sub_value config name; mret (bool_decide (v = str "true")).

Definition sub_long (config : bfsCfgItem) (name : string) : M t Z :=
  i ← sub_item config name; stateless (bfsCfgItemValueLong i).

Definition sub_unsigned (config : bfsCfgItem) (name : string) : M t Z :=
  i ← sub_item config name; stateless (bfsCfgItemValueUnsigned i).

(** The two log levels of a layer: [lvl = registerLogLevel(desc, flag)]. *)
Definition set_level (config : bfsCfgItem) (item var desc : string) : M t () :=
  b ← sub_flag config item; l ← registerLogLevel desc b; modify (set_number var l).

(** The same where the level is registered only once. *)
Definition set_level_once (config : bfsCfgItem) (item var desc : string) : M t () :=
  l ← gets (fun s => numbers s var);
  if l =? 0 then set_level config item var desc else mret ().

(** ** Configuration, utility, crypto and access control layers *)

Section environment.
Variable e : env.

Definition loadSystemConfiguration : M t Z := fun s =>
  match CfgItem.loadSystemConfiguration (systemConfig s) (home e) (file e) () with
  | Ok (r, c) _ => Ok r (set_config c s)
  | Throw x _ => Throw x s
  | Crash c => Crash c
  end.

Definition register_once (var desc : string) (enable : bool) : M t () :=
  l ← gets (fun s => numbers s var);
  if l =? 0 then l ← registerLogLevel desc enable; modify (set_number var l) else mret ().

(** [if (flag) enableLogLevels(lvl) else disableLogLevels(lvl)] *)
Definition switch_level (b : bool) (lvl : Z) : M t () :=
  on_log (if b then BfsLog.enableLogLevels lvl else BfsLog.disableLogLevels lvl).

Definition bfsConfigLayerInit : M t Z :=
  register_once "bfsConfigLogLevel" "CONFIG_LOG_LEVEL" true ;;
  register_once "bfsVerboseConfigLogLevel" "CONFIG_VRBLOG_LEVEL" false ;;
  r ← loadSystemConfiguration;
  if negb (r =? 0) then mret (-1) else
  with_item "bfsConfigLayer" bfsCfgItem_STRUCT (fun config =>
    b ← sub_flag config "log_enabled";
    l ← gets (fun s => numbers s "bfsConfigLogLevel"%string); switch_level b l ;;
    b ← sub_flag config "log_verbose";
    l ← gets (fun s => numbers s "bfsVerboseConfigLogLevel"%string); switch_level b l ;;
    modify (set_flag "bfsConfigLayerInitialized" true) ;; mret 0).

Definition bfsCryptoLayerInit : M t Z :=
  with_item "bfsCryptoLayer" bfsCfgItem_STRUCT (fun config =>
    set_level config "log_enabled" "bfsCryptoLogLevel" "CRYPTO_LOG_LEVEL" ;;
    set_level config "log_verbose" "bfsVerboseCryptoLogLevel" "CRYPTO_LOG_LEVEL" ;;
    modify (set_flag "bfsCryptoLayerInitialized" true) ;; mret 0).

Definition bfsUtilLayerInit : M t Z :=
  up ← gets (fun s => flags s "bfsUtilLayerInitialized"%string);
  if (up : bool) then mret 0 else
  r ← bfsConfigLayerInit;
  if negb (r =? 0) then mret (-1) else
  with_item "bfsUtilLayer" bfsCfgItem_STRUCT (fun config =>
    set_level config "log_enabled" "bfsUtilLogLevel" "UTIL_LOG_LEVEL" ;;
    set_level config "log_verbose" "bfsVerboseUtilLogLevel" "UTIL_VRBLOG_LEVEL" ;;
    n ← sub_long config "cache_sz_limit"; modify (set_number "bfs_cache_sz_limit" n) ;;
    b ← sub_flag config "cache_enabled"; modify (set_flag "bfs_cache_enabled" b) ;;
    with_item "bfsCommon" bfsCfgItem_STRUCT (fun config =>
      b ← sub_flag config "perf_test"; modify (set_flag "bfs_perf_test" b) ;;
      b ← sub_flag config "merkle_tree"; modify (set_flag "use_merkle_tree" b) ;;
      b ← sub_flag config "journal"; modify (set_flag "_journal_enabled" b) ;;
      r ← bfsCryptoLayerInit;
      if negb (r =? 0) then mret (-1) else
      modify (set_flag "bfsUtilLayerInitialized" true) ;; mret 0)).

Definition BfsACLayer_init : M t Z :=
  r ← bfsUtilLayerInit;
  if negb (r =? 0) then mret (-1) else
  l ← registerLogLevel "AC_LOG_LEVEL" true; modify (set_number "bfs_aclayer_log_level" l) ;;
  modify (set_number "next_uid" 1001) ;;
  modify (set_flag "ACLayerInitialized" true) ;; mret 0.

(** ** Security associations *)

Definition new_key (d : bytes) : M t CryptoKey.t :=
  if setkey_ok e d then mret (CryptoKey.setKeyData d)
  else throw (bfsCryptoError "gcrypt failure setting cipher key: ").

(** [bfs_fromBase64(enc, keybuf)] into an empty buffer, of which the key takes
    the contents. *)
Definition decode_key (enc : bytes) : M t bytes := fun s =>
  match Base64.bfs_fromBase64 enc FlexBuffer.empty with
  | Ok _ keybuf => Ok (FlexBuffer.content keybuf) s
  | Throw x _ => Throw x s
  | Crash c => Crash c
  end.

Definition bfsSecAssociation (config : bfsCfgItem) : M t assoc :=
  initiator ← sub_value config "initiator";
  responder ← sub_value config "responder";
  enc ← sub_value config "key";
  d ← decode_key enc;
  saKey ← new_key d;
  mret (mkAssoc initiator responder saKey).

(** ** Storage of a device *)

Definition block_at (d : bytes) (k : nat) : bytes :=
  take (Z.to_nat BLK_SZ) (drop (k * Z.to_nat BLK_SZ) d).

Definition blocks_of (d : bytes) (n : nat) : gmap Z bytes :=
  list_to_map ((fun k => (Z.of_nat k, block_at d k)) <$> seq 0 n).

(** [(int)numBlocks], the bound of the loop that creates the file. *)
Definition as_int (n : Z) : Z := if u32 n <? 2 ^ 31 then u32 n else u32 n - 2 ^ 32.

(** A missing file, or one of another size, is created with blocks. *)
Definition create_file (storagePath : bytes) (numBlocks : Z) : M t bool :=
  modify (fun s => set_host (delete storagePath (host s)) s) ;;
  if opens e storagePath then
    let n := Z.to_nat (as_int numBlocks) in
    let done := Nat.min n (writes e storagePath n) in
    modify (fun s => set_host (<[storagePath := concat (replicate done (zeroblk e))]> (host s)) s) ;;
    mret (bool_decide (done = n))
  else mret false.

(** [__createDiskStorage]; blocks of the mapping behind the end of the file
    cannot be accessed, which here already fails the mapping. *)
Definition createDiskStorage (storagePath : bytes) (numBlocks : Z) : M t (option (gmap Z bytes)) :=
  let mapsz := u64 (numBlocks * BLK_SZ) in
  f ← gets (fun s => host s !! storagePath);
  ok ← (if decide (zlen <$> f = Some mapsz) then mret true else create_file storagePath numBlocks);
  if negb ok then mret None else
  if opens e storagePath && maps e storagePath then
    f ← gets (fun s => host s !! storagePath);
    d ← of_opt f;
    if zlen d <? mapsz then die Undefined_behaviour
    else mret (Some (blocks_of d (Z.to_nat numBlocks)))
  else mret None.

(** The loop over the device list: the first device whose number, cut to 16
    bits, is that of this device. *)
Fixpoint find_path (items : list bfsCfgItem) (deviceID : Z) : M t (option bytes) :=
  match items with
  | [] => mret None
  | devcfg :: items =>
      did ← sub_long devcfg "did";
      if did mod 2 ^ 16 =? deviceID then p ← sub_value devcfg "path"; mret (Some p)
      else find_path items deviceID
  end.

Definition catch_config (m : M t Z) : M t Z :=
  catch m (fun x => match x with bfsCfgError _ => Some (mret (-1)) | _ => None end).

(** The first part of [bfsDeviceStorageInitialize]: the path of the storage file;
    [None] is the result -1. *)
Definition storage_path (deviceID : Z) : M t (option bytes) :=
  catch (config ← config_item "bfsDeviceLayer.devices";
         config ← of_opt config;
         if decide (itype config = bfsCfgItem_LIST) then
           p ← find_path (subItems config) deviceID;
           match p with
           | Some p => mret (Some p)
           | None => throw (bfsDeviceError "Unable to find config for device, aborting")
           end
         else mret None)
    (fun x => match x with bfsCfgError _ => Some (mret None) | _ => None end).

Definition bfsDeviceStorage (deviceID numBlocks : Z) : M t DeviceStorage.t :=
  p ← storage_path deviceID;
  m ← match p with Some p => createDiskStorage p numBlocks | None => mret None end;
  match m with
  | Some m => mret (DeviceStorage.mk deviceID numBlocks (Some m))
  | None => throw (bfsDeviceError "Cannot initialize device storage")
  end.

(** ** The device layer *)

Definition bfsDeviceLayerInit : M t Z :=
  up ← gets (fun s => flags s "bfsDeviceLayerInitialized"%string);
  if (up : bool) then mret 0 else
  r ← bfsUtilLayerInit;
  if negb (r =? 0) then mret (-1) else
  with_item "bfsDeviceLayer" bfsCfgItem_STRUCT (fun config =>
    set_level config "log_enabled" "bfsDeviceLogLevel" "DEVICE_LOG_LEVEL" ;;
    set_level config "log_verbose" "bfsVerboseDeviceLogLevel" "DEVICE_VRBLOG_LEVEL" ;;
    modify (set_flag "bfsDeviceLayerInitialized" true) ;; mret 0).

(** [bfsDeviceInitialize]; [None] is a code other than 0. *)
Definition initialize (d : device) (sa : assoc) : M t (option device) :=
  match kind d with
  | Local p =>
      let i := LocalDevice.deviceID (dev d) in
      let n := LocalDevice.numBlocks (dev d) in
      st ← bfsDeviceStorage i n;
      mret (Some (mkDevice (Local p) (LocalDevice.mk i n (Some st)) (Some sa)))
  | Remote ip port =>
      mret (r ← remote e ip port sa; Some (mkDevice (Remote ip port) r (Some sa)))
  end.

(** [list[id] = device] of a [std::map]. *)
Fixpoint insert_device (i : Z) (d : device) (l : list (Z * device)) : list (Z * device) :=
  match l with
  | [] => [(i, d)]
  | (j, e) :: l =>
      if i <? j then (i, d) :: (j, e) :: l
      else if i =? j then (i, d) :: l
      else (j, e) :: insert_device i d l
  end.

(** The device object of a configuration; [old] is what the variable holds from
    the round before, uninitialised in the first. *)
Definition make_device (devcfg : bfsCfgItem) (old : option device) : M t (option device) :=
  devtype ← sub_value devcfg "type";
  if decide (devtype = str "local") then
    did ← sub_unsigned devcfg "did";
    path ← sub_value devcfg "path";
    devsize ← sub_long devcfg "size";
    mret (Some (mkDevice (Local path) (LocalDevice.mk (u32 did) (u64 devsize) None) None))
  else if decide (devtype = str "remote") then
    ipaddr ← sub_value devcfg "ip";
    port ← sub_long devcfg "port";
    mret (Some (mkDevice (Remote ipaddr (port mod 2 ^ 16)) (LocalDevice.mk 0 0 None) None))
  else mret old.

Fixpoint walk_devices (items : list bfsCfgItem) (old : option device) : M t Z :=
  match items with
  | [] => mret 0
  | devcfg :: items =>
      d ← make_device devcfg old;
      sacfg ← sub_item devcfg "sa";
      sa ← bfsSecAssociation sacfg;
      d ← of_opt d;
      d ← initialize d sa;
      match d with
      | None => mret (-1)
      | Some d =>
          modify (fun s => set_devices (insert_device (LocalDevice.deviceID (dev d)) d (bfsMasterDeviceList s)) s) ;;
          walk_devices items (Some d)
      end
  end.

(** [getDeviceManifest]: on success the list of the caller is the master list. *)
Definition getDeviceManifest : M t Z :=
  l ← gets bfsMasterDeviceList;
  match l with
  | _ :: _ => mret 0
  | [] =>
      r ← catch_config (with_item "bfsDeviceLayer.devices" bfsCfgItem_LIST (fun config =>
            walk_devices (subItems config) None));
      if negb (r =? 0) then mret (-1) else
      modify (set_flag "bfsDeviceLayerInitialized" true) ;; mret 0
  end.

(** ** The block layer and the file system layer *)

(** The block cache of a given size. *)
Variable new_cache : Z -> C.

Definition bfsClusterFactory : M t (option (VBC.t C)) :=
  n ← gets (fun s => numbers s "bfs_cache_sz_limit"%string);
  r ← getDeviceManifest;
  if negb (r =? 0) then mret None else
  l ← gets bfsMasterDeviceList;
  mret (VBC.bfsClusterFactory (map (fun p => dev p.2) l) (new_cache n)).

Definition set_vbc (v : option (VBC.t C)) : M t Z :=
  match v with
  | None => mret (-1)
  | Some v =>
      modify (set_cluster (Some v)) ;;
      modify (set_number "num_blocks" (VBC.maxBlockID v)) ;; mret 0
  end.

Definition bfsBlockLayerInit : M t Z :=
  up ← gets (fun s => flags s "bfsBlockLayerInitialized"%string);
  if (up : bool) then mret 0 else
  r ← bfsDeviceLayerInit;
  if negb (r =? 0) then mret (-1) else
  with_item "bfsBlockLayer" bfsCfgItem_STRUCT (fun config =>
    n ← gets (fun s => numbers s "num_blocks"%string);
    (if n =? 0 then n ← sub_long config "num_blocks"; modify (set_number "num_blocks" (u64 n)) else mret ()) ;;
    set_level_once config "log_enabled" "bfsBlockLogLevel" "BLOCK_LOG_LEVEL" ;;
    set_level_once config "log_verbose" "bfsVerboseBlockLogLevel" "BLOCK_VRBLOG_LEVEL" ;;
    v ← sub_value config "allocation_discipline";
    alg ← gets (fun s => numbers s "bfsBlockAllocAlgorithm"%string);
    let '(alg, i) := BlockLayerInit.search (String.string_of_list_byte v) BlockLayerInit.alloc_strings 0 alg in
    modify (set_number "bfsBlockAllocAlgorithm" alg) ;;
    if BlockLayerInit.BFSBLK_MAX_ALLOC <=? i
    then throw (bfsBlockError "Unknown block allocation algorithm in config : ")
    else modify (set_flag "bfsBlockLayerInitialized" true) ;; mret 0).

Definition bfsFsLayerInit : M t Z :=
  up ← gets (fun s => flags s "bfsFsLayerInitialized"%string);
  if (up : bool) then mret 0 else
  r ← BfsACLayer_init;
  if negb (r =? 0) then mret (-1) else
  r ← bfsBlockLayerInit;
  if negb (r =? 0) then mret (-1) else
  with_item "bfsFsLayer" bfsCfgItem_STRUCT (fun config =>
    b ← sub_flag config "use_lwext4_impl"; modify (set_flag "use_lwext4_impl" b) ;;
    set_level config "log_enabled" "bfs_core_log_level" "FS_LOG_LEVEL" ;;
    set_level config "log_verbose" "bfs_vrb_core_log_level" "FS_VRB_LOG_LEVEL" ;;
    sacfg ← sub_item config "fs_sa";
    sa ← bfsSecAssociation sacfg;
    modify (set_context (Some sa)) ;;
    modify (set_flag "bfsFsLayerInitialized" true) ;; mret 0).

Definition enclave_init : M t Z :=
  r ← bfsFsLayerInit;
  if negb (r =? 0) then mret (-1) else
  ext4 ← gets (fun s => flags s "use_lwext4_impl"%string);
  if (ext4 : bool) then mret (if do_lwext4_init e =? 0 then 0 else -1)
  else
    v ← bfsClusterFactory;
    r ← set_vbc v;
    mret (if r =? 0 then 0 else -1).

(** ** The server outside the enclave *)

(** Where the log goes. *)
Definition log_target (config : bfsCfgItem) : M t () :=
  to_file ← sub_flag config "log_to_file";
  if (to_file : bool) then
    f ← sub_value config "logfile"; on_log (BfsLog.initializeLogWithFilename (Some f)) ;; mret ()
  else on_log (BfsLog.initializeLogWithFilehandle BfsLog.STDOUT_FILENO) ;; mret ().

Definition server_init : M t Z :=
  catch_config (
    r ← bfsUtilLayerInit;
    if negb (r =? 0) then mret (-1) else
    with_item "bfsServer" bfsCfgItem_STRUCT (fun config =>
      set_level config "log_enabled" "bfs_server_log_level" "SERVER_LOG_LEVEL" ;;
      set_level config "log_verbose" "bfs_server_vrb_log_level" "SERVER_VRB_LOG_LEVEL" ;;
      log_target config ;;
      n ← sub_long config "bfs_server_port"; modify (set_number "bfs_server_port" (n mod 2 ^ 16)) ;;
      n ← sub_long config "num_file_worker_threads"; modify (set_number "num_file_worker_threads" n) ;;
      mret 0)).

(** [main] of the server up to [start_server]. *)
Definition server_main : M t () :=
  r ← server_init; if r =? 0 then mret () else die Abort_called.

(** The first steps of [ecall_bfs_handle_in_msg]: the file system side is brought
    up with the first message, in the process that called [server_init]. *)
Definition ensure_enclave : M t () :=
  up ← gets (fun s => flags s "enclave_initialized"%string);
  if (up : bool) then mret () else
  r ← enclave_init;
  if r =? 0 then modify (set_flag "enclave_initialized" true) else die Abort_called.

(** What [BfsACLayer::add_user_context] reads for a new connection: the
    association of clients and server; [None] is the result [NULL]. *)
Definition user_association : M t (option assoc) :=
  config ← config_item "bfsServer";
  config ← of_opt config;
  if decide (itype config = bfsCfgItem_STRUCT) then
    sacfg ← sub_item config "cl_serv_sa";
    sa ← bfsSecAssociation sacfg;
    mret (Some sa)
  else mret None.

(** ** The client process *)

(** The static data of the layers and of [bfs_client.cpp]. *)
Record process := mkProcess { sys : t; clientContext : option assoc; bfs_server_ip : bytes }.

Definition new_process (host : gmap bytes bytes) : process := mkProcess (fresh host) None [].

Definition set_sys (s : t) (p : process) : process := mkProcess s (clientContext p) (bfs_server_ip p).
Definition set_client_context (a : option assoc) (p : process) : process := mkProcess (sys p) a (bfs_server_ip p).
Definition set_server_ip (ip : bytes) (p : process) : process := mkProcess (sys p) (clientContext p) ip.

Definition on_sys {A} (m : M t A) : M process A := fun p =>
  match m (sys p) with
  | Ok a s => Ok a (set_sys s p)
  | Throw x s => Throw x (set_sys s p)
  | Crash c => Crash c
  end.

(** Log levels, log file and flags. *)
Definition client_flags (config : bfsCfgItem) : M t () :=
  set_level config "log_enabled" "bfs_client_log_level" "CLIENT_LOG_LEVEL" ;;
  set_level config "log_verbose" "bfs_client_vrb_log_level" "CLIENT_VRB_LOG_LEVEL" ;;
  log_target config ;;
  b ← sub_flag config "do_mkfs"; modify (set_flag "do_mkfs" b) ;;
  b ← sub_flag config "direct_io"; modify (set_flag "direct_io_flag" b).

(** The result of [bfsUtilLayerInit] is not looked at. *)
Definition client_init : M process Z :=
  catch (
    _ ← on_sys bfsUtilLayerInit;
    config ← on_sys (config_item "bfsClientLayer");
    config ← of_opt config;
    if decide (itype config = bfsCfgItem_STRUCT) then
      on_sys (client_flags config) ;;
      ip ← on_sys (sub_value config "bfs_server_ip"); modify (set_server_ip ip) ;;
      on_sys (n ← sub_long config "bfs_server_port"; modify (set_number "bfs_server_port" (n mod 2 ^ 16))) ;;
      sa ← on_sys (sacfg ← sub_item config "cl_serv_sa"; bfsSecAssociation sacfg);
      modify (set_client_context (Some sa)) ;;
      config ← on_sys (config_item "bfsCommon");
      config ← of_opt config;
      if decide (itype config = bfsCfgItem_STRUCT) then mret 0 else mret (-1)
    else mret (-1))
  (fun x => match x with bfsCfgError _ => Some (mret (-1)) | _ => None end).
End environment.
End startup.
Arguments t : clear implicits.
Arguments process : clear implicits.
End Startup.
