(* ===== verification/StartupSpec.v ===== *)
(** * Start-up brings up what the configuration describes

    A configuration is described by a record of settings and devices; the
    layers that come up from a text that spells such a configuration have these
    settings, these log levels, this key, and a cluster of these devices. *)
From S2P Require Import Prelude Layout BfsUtil FlexBuffer Base64 SecAssoc BlockLayer RegExp BfsLog CfgParser CfgItem CfgTokens CfgParse CfgLoad CfgQuery Startup.
From Stdlib Require Import Permutation Sorted.
Import Init.Byte RegExp CfgParser CfgItem CfgTokens CfgParse CfgLoad CfgQuery Startup.

Module StartupSpec.

(** ** Log levels *)

(** The levels in use, in the order of registration: the slot of each is taken
    and its bit is its state. *)
Definition levels (l : BfsLog.t) (on : list bool) : Prop :=
  BfsLog.loggingInitialzed l = true /\
  (exists names, length names = length on /\
     BfsLog.descriptors l = map Some names ++ replicate (BfsLog.MAX_LOG_LEVEL - length on) None) /\
  forall i, Z.testbit (BfsLog.logLevel l) (Z.of_nat i) = default false (on !! i).

Lemma free_slot_used names k i :
  BfsLog.free_slot (map Some names ++ replicate (S k) None) i = Some (i + length names)%nat.
Proof.
  revert i. induction names as [|n names IH]; intros i; cbn; [by rewrite Nat.add_0_r|]. rewrite IH. f_equal. lia.
Qed.

Lemma level_bit_of_nat n : (n < 31)%nat -> BfsLog.level_bit (Z.of_nat n) = 2 ^ Z.of_nat n.
Proof. intros. apply BfsLog.level_bit_small. lia. Qed.

Lemma testbit_pow2_nat n i : Z.testbit (2 ^ Z.of_nat n) (Z.of_nat i) = bool_decide (i = n).
Proof.
  case_bool_decide as Hi; [subst; apply Z.pow2_bits_true; lia|apply Z.pow2_bits_false; lia].
Qed.

(** A new level takes the next bit. *)
Lemma levels_register l on name b :
  levels l on -> (length on < 31)%nat ->
  exists l', BfsLog.registerLogLevel name b l = Ok (2 ^ Z.of_nat (length on)) l' /\ levels l' (on ++ [b]).
Proof.
  intros (Hi & (names & Hn & Hd) & Hb) Hlt. unfold BfsLog.registerLogLevel.
  rewrite (bind_Ok _ _ _ _ _ (BfsLog.initialized_done l Hi)). unfold BfsLog.register_level. rewrite bind_gets, Hd.
  replace (BfsLog.MAX_LOG_LEVEL - length on)%nat with (S (31 - length on)) by (unfold BfsLog.MAX_LOG_LEVEL; lia).
  rewrite free_slot_used, Nat.add_0_l, Hn, level_bit_of_nat by done.
  set (l1 := if b then BfsLog.set_level (Z.lor (BfsLog.logLevel l) (2 ^ Z.of_nat (length on))) l else l).
  exists (BfsLog.set_descriptors (<[length on := Some name]> (BfsLog.descriptors l)) l1).
  split; [by destruct b|]. split; [by destruct b|]. split.
  - exists (names ++ [name]). rewrite !length_app, Hn. split; [done|]. cbn [BfsLog.descriptors BfsLog.set_descriptors].
    rewrite Hd, <-Hn, map_app. replace (length names) with (length (map Some names) + 0)%nat by (rewrite length_map; lia).
    rewrite insert_app_r. cbn. rewrite length_map, Nat.add_0_r, <-app_assoc. cbn.
    replace (32 - length names)%nat with (S (32 - (length names + 1))) by lia. done.
  - intros i. cbn [BfsLog.logLevel BfsLog.set_descriptors]. 
    assert (Z.testbit (BfsLog.logLevel l1) (Z.of_nat i) = (b && bool_decide (i = length on)) || default false (on !! i)) as ->.
    { destruct b; cbn; [|apply Hb]. by rewrite Z.lor_spec, testbit_pow2_nat, Hb, orb_comm. }
    rewrite (lookup_app on). destruct (on !! i) as [c|] eqn:Hc.
    + apply lookup_lt_Some in Hc. rewrite bool_decide_eq_false_2 by lia. by destruct b.
    + apply lookup_ge_None in Hc. cbn. rewrite orb_false_r. case_bool_decide as Hl.
      * subst. rewrite Nat.sub_diag. by destruct b.
      * rewrite andb_false_r. by destruct (i - length on)%nat eqn:?; [lia|].
Qed.

(** Switching a level. *)
Lemma levels_switch l on k (b : bool) :
  levels l on -> (k < length on)%nat -> (length on <= 31)%nat ->
  exists l', (if b then BfsLog.enableLogLevels (2 ^ Z.of_nat k) else BfsLog.disableLogLevels (2 ^ Z.of_nat k)) l = Ok () l' /\
    levels l' (<[k := b]> on).
Proof.
  intros (Hi & (names & Hn & Hd) & Hb) Hk Hlt.
  exists (BfsLog.set_level (if b then Z.lor (BfsLog.logLevel l) (2 ^ Z.of_nat k)
                            else Z.land (BfsLog.logLevel l) (Z.lxor (2 ^ Z.of_nat k) 0xffffffff)) l). split.
  { destruct b; unfold BfsLog.enableLogLevels, BfsLog.disableLogLevels;
      by rewrite (bind_Ok _ _ _ _ _ (BfsLog.initialized_done l Hi)). }
  split; [done|]. split; [by exists names; rewrite length_insert|]. intros i. cbn [BfsLog.logLevel BfsLog.set_level].
  destruct (decide (i = k)) as [->|Hne].
  - rewrite list_lookup_insert_eq by done. destruct b.
    + by rewrite Z.lor_spec, testbit_pow2_nat, bool_decide_eq_true_2, orb_true_r.
    + rewrite Z.land_spec, Z.lxor_spec, testbit_pow2_nat, bool_decide_eq_true_2 by done.
      change 0xffffffff with (Z.ones 32). rewrite Z.ones_spec_low by lia. apply andb_false_r.
  - rewrite list_lookup_insert_ne by done. rewrite <-Hb. destruct b.
    + by rewrite Z.lor_spec, testbit_pow2_nat, bool_decide_eq_false_2, orb_false_r.
    + rewrite Z.land_spec, Z.lxor_spec, testbit_pow2_nat, bool_decide_eq_false_2 by done.
      change 0xffffffff with (Z.ones 32). destruct (decide (i < 32)%nat) as [Hi'|Hi'].
      * rewrite Z.ones_spec_low by lia. apply andb_true_r.
      * rewrite Hb. rewrite lookup_ge_None_2 by lia. done.
Qed.

Lemma levels_start l : BfsLog.initializeLogging BfsLog.start = Ok 0 l -> levels l [true; true; false; true].
Proof.
  intros Hl. vm_compute in Hl. injection Hl as <-. split; [done|]. split; [by exists [str "ERROR"; str "WARNING"; str "INFO"; str "OUTPUT"]|].
  intros i. do 4 (destruct i as [|i]; [done|]). cbn [lookup list_lookup default].
  apply Z.bits_above_log2; [done|]. change (Z.log2 _) with 3. lia.
Qed.

(** The level a variable names is on. *)
Definition level_on {C} (s : t C) (var : string) : bool :=
  negb (Z.land (BfsLog.logLevel (log s)) (numbers s var) =? 0).

Lemma level_on_levels {C} (s : t C) on k var b :
  levels (log s) on -> numbers s var = 2 ^ Z.of_nat k -> on !! k = Some b -> level_on s var = b.
Proof.
  intros (_ & _ & Hb) Hv Hk. unfold level_on. rewrite Hv, Z.land_comm, <-Z.shiftl_1_l, test_mask by lia.
  by rewrite Hb, Hk.
Qed.

(** ** Reading items *)

Definition field (i : bfsCfgItem) (n : string) : option bytes := value <$> by_name i (str n).
Definition flag_of (i : bfsCfgItem) (n : string) : option bool := (fun v => bool_decide (v = str "true")) <$> field i n.
Definition long_of (i : bfsCfgItem) (n : string) : option Z := field i n ≫= strtol.
Definition unsigned_of (i : bfsCfgItem) (n : string) : option Z := field i n ≫= strtoul.

Section run.
Context {C : Type}.
Implicit Types s : t C.

Lemma stateless_Ok {A} (m : M () A) a s : m () = Ok a () -> stateless m s = Ok a s.
Proof. unfold stateless. by intros ->. Qed.

Lemma sub_item_Ok i n j s : by_name i (str n) = Some j -> sub_item i n s = Ok j s.
Proof. intros Hj. by apply stateless_Ok, by_name_Ok. Qed.

Lemma sub_value_Ok i n v s : field i n = Some v -> sub_value i n s = Ok v s.
Proof.
  unfold field. intros (j & Hj & ->)%fmap_Some. unfold sub_value. by rewrite (bind_Ok _ _ _ _ _ (sub_item_Ok i n j s Hj)).
Qed.

Lemma sub_flag_Ok i n b s : flag_of i n = Some b -> sub_flag i n s = Ok b s.
Proof.
  unfold flag_of. intros (v & Hv & ->)%fmap_Some. unfold sub_flag. by rewrite (bind_Ok _ _ _ _ _ (sub_value_Ok i n v s Hv)).
Qed.

Lemma sub_long_Ok i n z s : long_of i n = Some z -> sub_long i n s = Ok z s.
Proof.
  unfold long_of, field. intros (v & (j & Hj & ->)%fmap_Some & Hv)%bind_Some. unfold sub_long.
  rewrite (bind_Ok _ _ _ _ _ (sub_item_Ok i n j s Hj)). apply stateless_Ok. unfold bfsCfgItemValueLong. by rewrite Hv.
Qed.

Lemma sub_unsigned_Ok i n z s : unsigned_of i n = Some z -> sub_unsigned i n s = Ok z s.
Proof.
  unfold unsigned_of, field. intros (v & (j & Hj & ->)%fmap_Some & Hv)%bind_Some. unfold sub_unsigned.
  rewrite (bind_Ok _ _ _ _ _ (sub_item_Ok i n j s Hj)). apply stateless_Ok. unfold bfsCfgItemValueUnsigned. by rewrite Hv.
Qed.

(** The configuration that is loaded. *)
Definition loaded_as (root : bfsCfgItem) (c : option bfsCfgStore) : Prop :=
  exists st, c = Some st /\ configs st = Some root.

Lemma config_item_Ok root p cfgtag it s :
  loaded_as root (systemConfig s) -> p <> [] -> forallb plain_step p = true -> tag p = str cfgtag ->
  follow root p = Some it -> config_item cfgtag s = Ok (Some it) s.
Proof.
  intros (st & Hs & Hc) Hne Hp Ht Hf. unfold config_item. rewrite bind_gets, Hs. apply stateless_Ok.
  unfold getConfigItem. rewrite bind_of_opt. apply catch_Ok. unfold store_query. rewrite Hc, bind_assoc, bind_of_opt, <-Ht.
  by rewrite (bind_Ok _ _ _ _ _ (query_follow_Ok p _ _ Hne Hp Hf)).
Qed.

Lemma with_item_Ok root p cfgtag it ty k s :
  loaded_as root (systemConfig s) -> p <> [] -> forallb plain_step p = true -> tag p = str cfgtag ->
  follow root p = Some it -> itype it = ty -> with_item cfgtag ty k s = k it s.
Proof.
  intros Hl Hne Hp Ht Hf Hty. unfold with_item. rewrite (bind_Ok _ _ _ _ _ (config_item_Ok root p cfgtag it s Hl Hne Hp Ht Hf)).
  by rewrite bind_of_opt, decide_True.
Qed.

(** The section of a layer. *)
Definition section (root : bfsCfgItem) (n : string) (i : bfsCfgItem) : Prop :=
  by_name root (str n) = Some i /\ itype i = bfsCfgItem_STRUCT.

Lemma section_item_Ok root n i s :
  loaded_as root (systemConfig s) -> plain (str n) = true -> section root n i -> config_item n s = Ok (Some i) s.
Proof.
  intros Hl Hp [Hi Ht]. apply (config_item_Ok root [Field (str n)]); try done.
  - cbn. by rewrite Hp.
  - cbn. by rewrite app_nil_r.
  - cbn. by rewrite Hi.
Qed.

Lemma with_section_Ok root n i k s :
  loaded_as root (systemConfig s) -> plain (str n) = true -> section root n i ->
  with_item n bfsCfgItem_STRUCT k s = k i s.
Proof.
  intros Hl Hp Hi. unfold with_item. rewrite (bind_Ok _ _ _ _ _ (section_item_Ok root n i s Hl Hp Hi)).
  destruct Hi as [_ Ht]. by rewrite bind_of_opt, decide_True.
Qed.

(** ** Levels of a layer *)

Lemma register_Ok l on desc b :
  levels l on -> (length on < 31)%nat ->
  exists l', levels l' (on ++ [b]) /\
    forall c fl nm h ds x v,
    registerLogLevel desc b (mk l c fl nm h ds x v) = Ok (2 ^ Z.of_nat (length on)) (mk (C := C) l' c fl nm h ds x v).
Proof.
  intros Hl Hn. destruct (levels_register l on (str desc) b Hl Hn) as (l' & Hr & Hl'). exists l'. split; [done|].
  intros. unfold registerLogLevel, on_log. cbn [log]. by rewrite Hr.
Qed.

Lemma set_level_Ok l on i item var desc b :
  levels l on -> (length on < 31)%nat -> flag_of i item = Some b ->
  exists l', levels l' (on ++ [b]) /\
    forall c fl nm h ds x v, set_level i item var desc (mk l c fl nm h ds x v) =
    Ok () (mk (C := C) l' c fl (upd var (2 ^ Z.of_nat (length on)) nm) h ds x v).
Proof.
  intros Hl Hn Hb. destruct (register_Ok l on desc b Hl Hn) as (l' & Hl' & Hr). exists l'. split; [done|].
  intros. unfold set_level. rewrite (bind_Ok _ _ _ _ _ (sub_flag_Ok i item b _ Hb)). by rewrite (bind_Ok _ _ _ _ _ (Hr _ _ _ _ _ _ _)).
Qed.

(** Both levels of a layer, one after the other. *)
Lemma set_levels_Ok l on i var1 desc1 var2 desc2 a b :
  levels l on -> (length on < 30)%nat -> flag_of i "log_enabled" = Some a -> flag_of i "log_verbose" = Some b ->
  exists l1 l2, levels l2 (on ++ [a; b]) /\
    (forall c fl nm h ds x v, set_level i "log_enabled" var1 desc1 (mk l c fl nm h ds x v) =
       Ok () (mk (C := C) l1 c fl (upd var1 (2 ^ Z.of_nat (length on)) nm) h ds x v)) /\
    (forall c fl nm h ds x v, set_level i "log_verbose" var2 desc2 (mk l1 c fl nm h ds x v) =
       Ok () (mk (C := C) l2 c fl (upd var2 (2 ^ Z.of_nat (S (length on))) nm) h ds x v)).
Proof.
  intros Hl Hn Ha Hb.
  destruct (set_level_Ok l on i "log_enabled" var1 desc1 a Hl ltac:(lia) Ha) as (l1 & Hl1 & H1).
  assert (length (on ++ [a]) = S (length on)) as Hlen by (rewrite length_app; cbn; lia).
  destruct (set_level_Ok l1 (on ++ [a]) i "log_verbose" var2 desc2 b Hl1 ltac:(lia) Hb) as (l2 & Hl2 & H2).
  exists l1, l2. rewrite <-app_assoc in Hl2. rewrite Hlen in H2. done.
Qed.
End run.

(** ** What a configuration describes *)

Record dev_cfg := mkDevCfg { dc_id : Z; dc_path : bytes; dc_blocks : Z; dc_key : bytes }.

Record sysconfig := mkSysconfig {
  sc_logs : string -> bool * bool;
  sc_cache_limit : Z;
  sc_cache : bool;
  sc_perf : bool;
  sc_merkle : bool;
  sc_journal : bool;
  sc_num_blocks : Z;
  sc_ext4 : bool;
  sc_fs_key : bytes;
  sc_devices : list dev_cfg;
  sc_port : Z;
  sc_workers : Z;
  sc_logfile : option bytes;
}.

(** The structure [n] of an item passes a test. *)
Definition has_section (root : bfsCfgItem) (n : string) (f : bfsCfgItem -> bool) : bool :=
  match by_name root (str n) with
  | Some i => bool_decide (itype i = bfsCfgItem_STRUCT) && f i
  | None => false
  end.

Definition logs (sc : sysconfig) (n : string) (i : bfsCfgItem) : bool :=
  bool_decide (flag_of i "log_enabled" = Some (sc_logs sc n).1) &&
  bool_decide (flag_of i "log_verbose" = Some (sc_logs sc n).2).

(** A security association with a key, in base 64. *)
Definition assoc_is (i : bfsCfgItem) (n : string) (key : bytes) : bool :=
  match by_name i (str n) with
  | Some a =>
      bool_decide (is_Some (field a "initiator")) && bool_decide (is_Some (field a "responder")) &&
      bool_decide (field a "key" = Some (Base64.rfc4648 key))
  | None => false
  end.

Definition device_is (i : bfsCfgItem) (dc : dev_cfg) : bool :=
  bool_decide (field i "type" = Some (str "local")) &&
  bool_decide (long_of i "did" = Some (dc_id dc)) && bool_decide (unsigned_of i "did" = Some (dc_id dc)) &&
  bool_decide (field i "path" = Some (dc_path dc)) && bool_decide (long_of i "size" = Some (dc_blocks dc)) &&
  assoc_is i "sa" (dc_key dc).

Fixpoint devices_are (items : list bfsCfgItem) (dcs : list dev_cfg) : bool :=
  match items, dcs with
  | [], [] => true
  | i :: items, dc :: dcs => device_is i dc && devices_are items dcs
  | _, _ => false
  end.

(** Where the log of the server goes: to a file or to standard output. *)
Definition log_goes_to (i : bfsCfgItem) (f : option bytes) : bool :=
  match f with
  | Some f => bool_decide (flag_of i "log_to_file" = Some true) && bool_decide (field i "logfile" = Some f)
  | None => bool_decide (flag_of i "log_to_file" = Some false)
  end.

Definition describes (root : bfsCfgItem) (sc : sysconfig) : bool :=
  has_section root "bfsConfigLayer" (logs sc "bfsConfigLayer") &&
  has_section root "bfsServer" (fun i =>
    logs sc "bfsServer" i && log_goes_to i (sc_logfile sc) && bool_decide (long_of i "bfs_server_port" = Some (sc_port sc)) &&
    bool_decide (long_of i "num_file_worker_threads" = Some (sc_workers sc))) &&
  has_section root "bfsUtilLayer" (fun i =>
    logs sc "bfsUtilLayer" i && bool_decide (long_of i "cache_sz_limit" = Some (sc_cache_limit sc)) &&
    bool_decide (flag_of i "cache_enabled" = Some (sc_cache sc))) &&
  has_section root "bfsCommon" (fun i =>
    bool_decide (flag_of i "perf_test" = Some (sc_perf sc)) && bool_decide (flag_of i "merkle_tree" = Some (sc_merkle sc)) &&
    bool_decide (flag_of i "journal" = Some (sc_journal sc))) &&
  has_section root "bfsCryptoLayer" (logs sc "bfsCryptoLayer") &&
  has_section root "bfsDeviceLayer" (fun i =>
    logs sc "bfsDeviceLayer" i &&
    match by_name i (str "devices") with
    | Some d => bool_decide (itype d = bfsCfgItem_LIST) && devices_are (subItems d) (sc_devices sc)
    | None => false
    end) &&
  has_section root "bfsBlockLayer" (fun i =>
    logs sc "bfsBlockLayer" i && bool_decide (long_of i "num_blocks" = Some (sc_num_blocks sc)) &&
    bool_decide (field i "allocation_discipline" = Some (str "linear"))) &&
  has_section root "bfsFsLayer" (fun i =>
    logs sc "bfsFsLayer" i && bool_decide (flag_of i "use_lwext4_impl" = Some (sc_ext4 sc)) &&
    assoc_is i "fs_sa" (sc_fs_key sc)).

(** Usable keys and devices. *)
Definition valid_device (dc : dev_cfg) : bool :=
  (0 <=? dc_id dc) && (dc_id dc <? 2 ^ 16) && (0 <=? dc_blocks dc) && (dc_blocks dc <? 2 ^ 31) &&
  (zlen (dc_key dc) =? 16).

Definition sum_blocks (dcs : list dev_cfg) : Z := foldr (fun dc z => dc_blocks dc + z) 0 dcs.

Definition valid (sc : sysconfig) : bool :=
  forallb valid_device (sc_devices sc) && bool_decide (NoDup (map dc_id (sc_devices sc))) &&
  bool_decide (NoDup (map dc_path (sc_devices sc))) && (sum_blocks (sc_devices sc) <? 2 ^ 64) &&
  (zlen (sc_fs_key sc) =? 16) && (0 <=? sc_port sc) && (sc_port sc <? 2 ^ 16).

(** The environment works: the text is read, 16 bytes are a key, files can be
    opened, written and mapped. *)
Definition works (e : env) (text : bytes) : Prop :=
  home e = true /\ file e = Some text /\ (forall d, zlen d = 16 -> setkey_ok e d = true) /\
  (forall p, opens e p = true /\ maps e p = true) /\ (forall p n, writes e p n = n) /\ zlen (zeroblk e) = BLK_SZ.

Lemma has_section_Ok root n f :
  has_section root n f = true -> exists i, section root n i /\ f i = true.
Proof.
  unfold has_section. destruct (by_name root (str n)) as [i|] eqn:Hi; [|done].
  intros [Ht%bool_decide_eq_true Hf]%andb_true_iff. by exists i.
Qed.

Lemma logs_Ok sc n i : logs sc n i = true ->
  flag_of i "log_enabled" = Some (sc_logs sc n).1 /\ flag_of i "log_verbose" = Some (sc_logs sc n).2.
Proof. by intros [?%bool_decide_eq_true ?%bool_decide_eq_true]%andb_true_iff. Qed.

(** ** The layers below the devices *)

(** Splits a conjunction of tests. *)
Ltac split_tests H :=
  repeat match type of H with
         | _ && _ = true => let H' := fresh H in apply andb_true_iff in H as [H H']; try apply bool_decide_eq_true in H'
         end; try apply bool_decide_eq_true in H.

(** Reduces updates of a state that is written out. *)
Ltac state_step :=
  cbv delta [set_number set_flag set_host set_devices set_context set_cluster];
  cbn [log systemConfig flags numbers host bfsMasterDeviceList fsContext vbc].

Lemma upd_eq {A} n (v : A) f : upd n v f n = v.
Proof. unfold upd. by rewrite decide_True. Qed.

Lemma upd_ne {A} n m (v : A) f : m <> n -> upd n v f m = f m.
Proof. intros. unfold upd. by rewrite decide_False. Qed.

Ltac look_up := repeat (rewrite upd_eq || rewrite upd_ne by discriminate).

(** Runs the steps of a monadic program whose results are hypotheses. *)
Ltac run :=
  repeat (first
    [ rewrite bind_assoc | rewrite bind_gets | rewrite bind_modify | rewrite bind_ret
    | match goal with
      | Hr : ?m ?s = Ok _ _ |- context [(?m ≫= _) ?s] => rewrite (bind_Ok _ _ _ _ _ Hr)
      | Hr : forall c fl nm h ds x v, ?m _ = Ok _ _ |- context [(?m ≫= _) _] => rewrite (bind_Ok _ _ _ _ _ (Hr _ _ _ _ _ _ _))
      | Hr : forall fl nm h ds x v, ?m _ = Ok _ _ |- context [(?m ≫= _) _] => rewrite (bind_Ok _ _ _ _ _ (Hr _ _ _ _ _ _))
      | Hf : flag_of ?i ?n = Some _ |- context [(sub_flag ?i ?n ≫= _) ?s] => rewrite (bind_Ok _ _ _ _ _ (sub_flag_Ok i n _ s Hf))
      | Hf : long_of ?i ?n = Some _ |- context [(sub_long ?i ?n ≫= _) ?s] => rewrite (bind_Ok _ _ _ _ _ (sub_long_Ok i n _ s Hf))
      | Hf : unsigned_of ?i ?n = Some _ |- context [(sub_unsigned ?i ?n ≫= _) ?s] => rewrite (bind_Ok _ _ _ _ _ (sub_unsigned_Ok i n _ s Hf))
      | Hf : field ?i ?n = Some _ |- context [(sub_value ?i ?n ≫= _) ?s] => rewrite (bind_Ok _ _ _ _ _ (sub_value_Ok i n _ s Hf))
      | Hf : by_name ?i (str ?n) = Some _ |- context [(sub_item ?i ?n ≫= _) ?s] => rewrite (bind_Ok _ _ _ _ _ (sub_item_Ok i n _ s Hf))
      | Hi : section ?root ?n ?i, Hl : loaded_as ?root ?c |- context [with_item ?n bfsCfgItem_STRUCT _ ?s] =>
          rewrite (with_section_Ok root n i _ s) by (done || exact Hl)
      end ]; state_step).

Section layers.
Context {C : Type} (e : env) (root : bfsCfgItem) (sc : sysconfig) (st : bfsCfgStore).
Context (load : CfgItem.loadSystemConfiguration None (home e) (file e) () = Ok (0, Some st) ()).
Context (st_root : configs st = Some root) (described : describes root sc = true).

Abbreviation on0 := [true; true; false; true].
Definition logs_of (n : string) : list bool := [(sc_logs sc n).1; (sc_logs sc n).2].

Lemma st_loaded : loaded_as root (Some st).
Proof. by exists st. Qed.

Lemma register_start l0 name b :
  BfsLog.initializeLogging BfsLog.start = Ok 0 l0 ->
  BfsLog.registerLogLevel name b BfsLog.start = BfsLog.registerLogLevel name b l0.
Proof.
  intros Hl. unfold BfsLog.registerLogLevel. rewrite (bind_Ok _ _ _ _ _ Hl).
  destruct (levels_start l0 Hl) as (Hi & _). by rewrite (bind_Ok _ _ _ _ _ (BfsLog.initialized_done l0 Hi)).
Qed.

Lemma switch_Ok l on k b :
  levels l on -> (k < length on)%nat -> (length on <= 31)%nat ->
  exists l', levels l' (<[k := b]> on) /\
    forall c fl nm h ds x v, switch_level b (2 ^ Z.of_nat k) (mk l c fl nm h ds x v) = Ok () (mk (C := C) l' c fl nm h ds x v).
Proof.
  intros Hl Hk Hn. destruct (levels_switch l on k b Hl Hk Hn) as (l' & Hr & Hl'). exists l'. split; [done|].
  intros. unfold switch_level, on_log. cbn [log]. by rewrite Hr.
Qed.

Lemma config_init_Ok h ds x v nm :
  nm "bfsConfigLogLevel"%string = 0 -> nm "bfsVerboseConfigLogLevel"%string = 0 ->
  exists l, levels l (on0 ++ logs_of "bfsConfigLayer") /\
    bfsConfigLayerInit e (mk BfsLog.start None (fun _ => false) nm h ds x v) =
    Ok 0 (mk (C := C) l (Some st) (upd "bfsConfigLayerInitialized" true (fun _ => false))
            (upd "bfsVerboseConfigLogLevel" (2 ^ Z.of_nat 5) (upd "bfsConfigLogLevel" (2 ^ Z.of_nat 4) nm)) h ds x v).
Proof.
  intros Hn1 Hn2. destruct (BfsLog.initializeLogging BfsLog.start) as [z l0| |] eqn:Hl; [|done..].
  assert (z = 0) as -> by (vm_compute in Hl; congruence). pose proof (levels_start l0 Hl) as Hl0.
  unfold describes in described. pose proof described as Hd. split_tests Hd. clear -Hd st_root load Hl Hl0 Hn1 Hn2.
  apply has_section_Ok in Hd as (i & Hi & [Ha Hb]%logs_Ok).
  destruct (levels_register l0 on0 (str "CONFIG_LOG_LEVEL") true Hl0 ltac:(cbn; lia)) as (l1 & Hr1 & Hl1).
  destruct (register_Ok (C := C) l1 _ "CONFIG_VRBLOG_LEVEL" false Hl1 ltac:(cbn; lia)) as (l2 & Hl2 & Hr2).
  set (nm2 := upd "bfsVerboseConfigLogLevel" (2 ^ Z.of_nat 5) (upd "bfsConfigLogLevel" (2 ^ Z.of_nat 4) nm)).
  destruct (switch_Ok l2 _ 4 (sc_logs sc "bfsConfigLayer").1 Hl2 ltac:(cbn; lia) ltac:(cbn; lia)) as (l3 & Hl3 & Hr3).
  destruct (switch_Ok l3 _ 5 (sc_logs sc "bfsConfigLayer").2 Hl3 ltac:(cbn; lia) ltac:(cbn; lia)) as (l4 & Hl4 & Hr4).
  exists l4. split; [exact Hl4|]. unfold bfsConfigLayerInit, register_once.
  assert (registerLogLevel "CONFIG_LOG_LEVEL" true (mk BfsLog.start None (fun _ => false) nm h ds x v) =
    Ok (2 ^ Z.of_nat 4) (mk (C := C) l1 None (fun _ => false) nm h ds x v)) as Hr0.
  { unfold registerLogLevel, on_log. cbn [log]. rewrite (register_start l0 _ _ Hl), Hr1. done. }
  assert (loadSystemConfiguration e (mk l2 None (fun _ => false) nm2 h ds x v) = Ok 0 (mk (C := C) l2 (Some st) (fun _ => false) nm2 h ds x v)) as Hload.
  { unfold loadSystemConfiguration. cbn [systemConfig]. by rewrite load. }
  pose proof st_loaded as Hst. run. rewrite Hn1, Z.eqb_refl. run.
  change (upd "bfsConfigLogLevel" (2 ^ Z.of_nat 4) nm "bfsVerboseConfigLogLevel"%string) with (nm "bfsVerboseConfigLogLevel"%string).
  rewrite Hn2, Z.eqb_refl. run. fold nm2. run. cbn [Z.eqb negb]. run.
  change (nm2 "bfsConfigLogLevel"%string) with (2 ^ Z.of_nat 4). run.
  change (nm2 "bfsVerboseConfigLogLevel"%string) with (2 ^ Z.of_nat 5). run. done.
Qed.

Lemma crypto_init_Ok l on :
  levels l on -> (length on < 30)%nat ->
  exists l', levels l' (on ++ logs_of "bfsCryptoLayer") /\
    forall fl nm h ds x v, bfsCryptoLayerInit (mk l (Some st) fl nm h ds x v) =
    Ok 0 (mk (C := C) l' (Some st) (upd "bfsCryptoLayerInitialized" true fl)
            (upd "bfsVerboseCryptoLogLevel" (2 ^ Z.of_nat (S (length on)))
              (upd "bfsCryptoLogLevel" (2 ^ Z.of_nat (length on)) nm)) h ds x v).
Proof.
  intros Hl Hn. pose proof described as Hd. unfold describes in Hd. split_tests Hd.
  apply has_section_Ok in Hd3 as (i & Hi & [Ha Hb]%logs_Ok).
  destruct (set_levels_Ok (C := C) l on i "bfsCryptoLogLevel" "CRYPTO_LOG_LEVEL" "bfsVerboseCryptoLogLevel" "CRYPTO_LOG_LEVEL"
    _ _ Hl Hn Ha Hb) as (l1 & l2 & Hl2 & H1 & H2).
  exists l2. split; [done|]. intros. pose proof st_loaded as Hst. unfold bfsCryptoLayerInit. run. done.
Qed.

(** The static data once the utility layer is up. *)
Definition util_flags : string -> bool :=
  upd "bfsUtilLayerInitialized" true (upd "bfsCryptoLayerInitialized" true
    (upd "_journal_enabled" (sc_journal sc) (upd "use_merkle_tree" (sc_merkle sc) (upd "bfs_perf_test" (sc_perf sc)
      (upd "bfs_cache_enabled" (sc_cache sc) (upd "bfsConfigLayerInitialized" true (fun _ => false))))))).

Definition util_numbers (nm : string -> Z) : string -> Z :=
  upd "bfsVerboseCryptoLogLevel" (2 ^ Z.of_nat 9) (upd "bfsCryptoLogLevel" (2 ^ Z.of_nat 8)
    (upd "bfs_cache_sz_limit" (sc_cache_limit sc)
      (upd "bfsVerboseUtilLogLevel" (2 ^ Z.of_nat 7) (upd "bfsUtilLogLevel" (2 ^ Z.of_nat 6)
        (upd "bfsVerboseConfigLogLevel" (2 ^ Z.of_nat 5) (upd "bfsConfigLogLevel" (2 ^ Z.of_nat 4) nm)))))).

Definition util_on : list bool :=
  on0 ++ logs_of "bfsConfigLayer" ++ logs_of "bfsUtilLayer" ++ logs_of "bfsCryptoLayer".

Lemma util_init_Ok h ds x v nm :
  nm "bfsConfigLogLevel"%string = 0 -> nm "bfsVerboseConfigLogLevel"%string = 0 ->
  exists l, levels l util_on /\
    bfsUtilLayerInit e (mk BfsLog.start None (fun _ => false) nm h ds x v) =
    Ok 0 (mk (C := C) l (Some st) util_flags (util_numbers nm) h ds x v).
Proof.
  intros Hn1 Hn2. pose proof described as Hd. unfold describes in Hd. split_tests Hd.
  apply has_section_Ok in Hd5 as (i & Hi & Hu). split_tests Hu. apply logs_Ok in Hu as [Ha Hb].
  apply has_section_Ok in Hd4 as (j & Hj & Hc). split_tests Hc.
  destruct (config_init_Ok h ds x v nm Hn1 Hn2) as (l0 & Hl0 & H0).
  destruct (set_levels_Ok (C := C) l0 _ i "bfsUtilLogLevel" "UTIL_LOG_LEVEL" "bfsVerboseUtilLogLevel" "UTIL_VRBLOG_LEVEL"
    _ _ Hl0 ltac:(cbn; lia) Ha Hb) as (l1 & l2 & Hl2 & H1 & H2).
  destruct (crypto_init_Ok l2 _ Hl2 ltac:(cbn; lia)) as (l3 & Hl3 & H3).
  exists l3. split; [exact Hl3|]. pose proof st_loaded as Hst. unfold bfsUtilLayerInit. run. cbn [Z.eqb negb]. run. done.
Qed.

(** *** The server outside the enclave *)

Definition server_numbers (nm : string -> Z) : string -> Z :=
  upd "num_file_worker_threads" (sc_workers sc) (upd "bfs_server_port" (sc_port sc mod 2 ^ 16)
    (upd "bfs_server_vrb_log_level" (2 ^ Z.of_nat 11) (upd "bfs_server_log_level" (2 ^ Z.of_nat 10) (util_numbers nm)))).

Definition server_on : list bool := util_on ++ logs_of "bfsServer".

(** Choosing where the log goes keeps the levels. *)
Lemma log_target_Ok l on i f :
  levels l on -> log_goes_to i f = true ->
  exists l', levels l' on /\
    forall c fl nm h ds x v, log_target i (mk l c fl nm h ds x v) = Ok () (mk (C := C) l' c fl nm h ds x v).
Proof.
  intros Hl Hf. unfold log_goes_to in Hf. pose proof Hl as (Hi & _).
  assert (forall (m : M BfsLog.t Z) l' c fl nm h ds x v, m l = Ok 0 l' ->
    (on_log m ;; mret ()) (mk l c fl nm h ds x v) = Ok () (mk (C := C) l' c fl nm h ds x v)) as Hon.
  { intros m l' c fl nm h ds x v Hm. rewrite (bind_Ok _ _ _ 0 (mk l' c fl nm h ds x v)); [done|].
    unfold on_log. cbn [log]. by rewrite Hm. }
  unfold log_target. destruct f as [f|]; split_tests Hf.
  - exists (BfsLog.set_file (Some f) (-1) l). split; [exact Hl|]. intros. run. apply Hon.
    unfold BfsLog.initializeLogWithFilename. by rewrite (bind_Ok _ _ _ _ _ (BfsLog.initialized_done l Hi)).
  - exists (BfsLog.set_file (BfsLog.logFilename l) BfsLog.STDOUT_FILENO l). split; [exact Hl|]. intros. run. apply Hon.
    unfold BfsLog.initializeLogWithFilehandle. by rewrite (bind_Ok _ _ _ _ _ (BfsLog.initialized_done l Hi)).
Qed.

Lemma server_init_Ok h :
  exists l, levels l server_on /\
    server_init e (fresh h) =
    Ok 0 (mk (C := C) l (Some st) util_flags (server_numbers (numbers (fresh (C := C) h))) h [] None None).
Proof.
  pose proof described as Hd. unfold describes in Hd. split_tests Hd.
  apply has_section_Ok in Hd6 as (i & Hi & Hs). split_tests Hs. apply logs_Ok in Hs as [Ha Hb].
  destruct (util_init_Ok h [] None None (numbers (fresh (C := C) h)) eq_refl eq_refl) as (l & Hl & Hu).
  destruct (set_levels_Ok (C := C) l _ i "bfs_server_log_level" "SERVER_LOG_LEVEL" "bfs_server_vrb_log_level" "SERVER_VRB_LOG_LEVEL"
    _ _ Hl ltac:(cbn; lia) Ha Hb) as (l1 & l2 & Hl2 & H1 & H2).
  destruct (log_target_Ok l2 _ i _ Hl2 Hs2) as (l3 & Hl3 & H3).
  exists l3. split; [exact Hl3|]. pose proof st_loaded as Hst. unfold server_init, catch_config. apply catch_Ok.
  change (fresh h) with (mk (C := C) BfsLog.start None (fun _ => false) (numbers (fresh (C := C) h)) h [] None None) at 1.
  run. cbn [Z.eqb negb]. run. done.
Qed.

(** *** The layers above, with the utility layer up *)

Lemma ac_init_Ok s0 l on fl nm h ds x v :
  bfsUtilLayerInit e s0 = Ok 0 (mk (C := C) l (Some st) fl nm h ds x v) -> levels l on -> (length on < 31)%nat ->
  exists l', levels l' (on ++ [true]) /\
    BfsACLayer_init e s0 =
    Ok 0 (mk l' (Some st) (upd "ACLayerInitialized" true fl)
            (upd "next_uid" 1001 (upd "bfs_aclayer_log_level" (2 ^ Z.of_nat (length on)) nm)) h ds x v).
Proof.
  intros Hu Hl Hn. destruct (register_Ok (C := C) l _ "AC_LOG_LEVEL" true Hl Hn) as (l1 & Hl1 & H1).
  exists l1. split; [done|]. unfold BfsACLayer_init. run. cbn [Z.eqb negb]. run. done.
Qed.

Lemma device_init_Ok l on fl :
  levels l on -> (length on < 30)%nat ->
  fl "bfsUtilLayerInitialized"%string = true -> fl "bfsDeviceLayerInitialized"%string = false ->
  exists l', levels l' (on ++ logs_of "bfsDeviceLayer") /\
    forall nm h ds x v, bfsDeviceLayerInit e (mk l (Some st) fl nm h ds x v) =
    Ok 0 (mk (C := C) l' (Some st) (upd "bfsDeviceLayerInitialized" true fl)
            (upd "bfsVerboseDeviceLogLevel" (2 ^ Z.of_nat (S (length on)))
              (upd "bfsDeviceLogLevel" (2 ^ Z.of_nat (length on)) nm)) h ds x v).
Proof.
  intros Hl Hn Hf1 Hf2. pose proof described as Hd. unfold describes in Hd. split_tests Hd.
  apply has_section_Ok in Hd2 as (i & Hi & [[Ha Hb]%logs_Ok _]%andb_true_iff).
  destruct (set_levels_Ok (C := C) l on i "bfsDeviceLogLevel" "DEVICE_LOG_LEVEL" "bfsVerboseDeviceLogLevel" "DEVICE_VRBLOG_LEVEL"
    _ _ Hl Hn Ha Hb) as (l1 & l2 & Hl2 & H1 & H2).
  exists l2. split; [done|]. intros. pose proof st_loaded as Hst. unfold bfsDeviceLayerInit, bfsUtilLayerInit. run.
  rewrite Hf2. run. rewrite Hf1. run. cbn [Z.eqb negb]. run. done.
Qed.

Lemma block_init_Ok l on fl nm h ds x v :
  levels l on -> (length on < 28)%nat ->
  fl "bfsUtilLayerInitialized"%string = true -> fl "bfsDeviceLayerInitialized"%string = false -> fl "bfsBlockLayerInitialized"%string = false ->
  nm "num_blocks"%string = 0 -> nm "bfsBlockLogLevel"%string = 0 -> nm "bfsVerboseBlockLogLevel"%string = 0 ->
  nm "bfsBlockAllocAlgorithm"%string = BlockLayerInit.BFSBLK_MAX_ALLOC ->
  exists l', levels l' (on ++ logs_of "bfsDeviceLayer" ++ logs_of "bfsBlockLayer") /\
    bfsBlockLayerInit e (mk l (Some st) fl nm h ds x v) =
    Ok 0 (mk (C := C) l' (Some st) (upd "bfsBlockLayerInitialized" true (upd "bfsDeviceLayerInitialized" true fl))
            (upd "bfsBlockAllocAlgorithm" 0 (upd "bfsVerboseBlockLogLevel" (2 ^ Z.of_nat (3 + length on))
              (upd "bfsBlockLogLevel" (2 ^ Z.of_nat (2 + length on)) (upd "num_blocks" (u64 (sc_num_blocks sc))
                (upd "bfsVerboseDeviceLogLevel" (2 ^ Z.of_nat (S (length on)))
                  (upd "bfsDeviceLogLevel" (2 ^ Z.of_nat (length on)) nm)))))) h ds x v).
Proof.
  intros Hl Hn Hf1 Hf2 Hf3 Hm1 Hm2 Hm3 Hm4. pose proof described as Hd. unfold describes in Hd. split_tests Hd.
  apply has_section_Ok in Hd1 as (i & Hi & Hb). split_tests Hb. apply logs_Ok in Hb as [Ha Hv].
  destruct (device_init_Ok l on fl Hl ltac:(lia) Hf1 Hf2) as (l0 & Hl0 & H0).
  assert (length (on ++ logs_of "bfsDeviceLayer") = 2 + length on)%nat as Hlen by (rewrite length_app; cbn; lia).
  destruct (set_levels_Ok (C := C) l0 _ i "bfsBlockLogLevel" "BLOCK_LOG_LEVEL" "bfsVerboseBlockLogLevel" "BLOCK_VRBLOG_LEVEL"
    _ _ Hl0 ltac:(lia) Ha Hv) as (l1 & l2 & Hl2 & H1 & H2). rewrite Hlen in H1, H2.
  exists l2. rewrite <-app_assoc in Hl2. split; [done|]. pose proof st_loaded as Hst. unfold bfsBlockLayerInit, set_level_once.
  run. rewrite Hf3. rewrite (bind_Ok _ _ _ _ _ (H0 _ _ _ _ _)). cbn [Z.eqb negb]. run.
  look_up. rewrite Hm1. cbn [Z.eqb]. run. look_up. rewrite Hm2. cbn [Z.eqb]. run. look_up. rewrite Hm3. cbn [Z.eqb]. run.
  look_up. rewrite Hm4. run. done.
Qed.

(** ** Security associations *)

Context (text : bytes) (env_works : works e text).

Lemma decode_key_Ok key (s : t C) : zlen key = 16 -> decode_key (Base64.rfc4648 key) s = Ok key s.
Proof.
  intros Hk. destruct (FlexBuffer.setData_spec FlexBuffer.empty key) as (buf & _ & Hw & Hc & _);
    [vm_decide|cbn [FlexBuffer.empty FlexBuffer.hlength FlexBuffer.tlength]; lia|].
  pose proof (FlexBuffer.content_zlen buf Hw) as Hl. rewrite Hc in Hl.
  destruct (Base64.base64_roundtrip buf FlexBuffer.empty) as (_ & tgt & Hr & _ & Ht); [done|vm_decide|lia| |].
  { left. cbn [FlexBuffer.empty FlexBuffer.length]. unfold FlexBuffer.BFSFLEXBUF_DEFAULT_PAD. lia. }
  rewrite Hc in Hr, Ht. unfold decode_key. by rewrite Hr, Ht.
Qed.

Lemma assoc_Ok i n key :
  assoc_is i n key = true -> zlen key = 16 ->
  exists a sa, by_name i (str n) = Some a /\ saKey sa = CryptoKey.setKeyData key /\
    forall s : t C, bfsSecAssociation e a s = Ok sa s.
Proof.
  unfold assoc_is. destruct (by_name i (str n)) as [a|]; [|done]. intros Ha Hk. split_tests Ha.
  destruct Ha as [ini Hini], Ha1 as [res Hres].
  exists a, (mkAssoc ini res (CryptoKey.setKeyData key)). split_and!; [done|done|]. intros s.
  destruct env_works as (_ & _ & Hset & _). unfold bfsSecAssociation. run.
  rewrite (bind_Ok _ _ _ _ _ (decode_key_Ok key s Hk)). unfold new_key. by rewrite Hset.
Qed.

(** ** The file system layer *)

Definition fs_flags (fl : string -> bool) : string -> bool :=
  upd "bfsFsLayerInitialized" true (upd "use_lwext4_impl" (sc_ext4 sc)
    (upd "bfsBlockLayerInitialized" true (upd "bfsDeviceLayerInitialized" true (upd "ACLayerInitialized" true fl)))).

(** The levels of these layers follow the [n] that are there. *)
Definition fs_numbers (n : nat) (nm : string -> Z) : string -> Z :=
  upd "bfs_vrb_core_log_level" (2 ^ Z.of_nat (6 + n)) (upd "bfs_core_log_level" (2 ^ Z.of_nat (5 + n))
    (upd "bfsBlockAllocAlgorithm" 0 (upd "bfsVerboseBlockLogLevel" (2 ^ Z.of_nat (4 + n))
      (upd "bfsBlockLogLevel" (2 ^ Z.of_nat (3 + n)) (upd "num_blocks" (u64 (sc_num_blocks sc))
        (upd "bfsVerboseDeviceLogLevel" (2 ^ Z.of_nat (2 + n)) (upd "bfsDeviceLogLevel" (2 ^ Z.of_nat (1 + n))
          (upd "next_uid" 1001 (upd "bfs_aclayer_log_level" (2 ^ Z.of_nat n) nm))))))))).

Definition fs_on (on : list bool) : list bool :=
  on ++ [true] ++ logs_of "bfsDeviceLayer" ++ logs_of "bfsBlockLayer" ++ logs_of "bfsFsLayer".

(** Nothing above the utility layer is up. *)
Definition only_util (fl : string -> bool) (nm : string -> Z) : Prop :=
  fl "bfsUtilLayerInitialized"%string = true /\ fl "bfsDeviceLayerInitialized"%string = false /\
  fl "bfsBlockLayerInitialized"%string = false /\ fl "bfsFsLayerInitialized"%string = false /\
  nm "num_blocks"%string = 0 /\ nm "bfsBlockLogLevel"%string = 0 /\ nm "bfsVerboseBlockLogLevel"%string = 0 /\
  nm "bfsBlockAllocAlgorithm"%string = BlockLayerInit.BFSBLK_MAX_ALLOC.

Lemma fs_init_Ok l on fl nm h ds :
  levels l on -> (length on < 24)%nat -> only_util fl nm -> zlen (sc_fs_key sc) = 16 ->
  exists l' sa, levels l' (fs_on on) /\ saKey sa = CryptoKey.setKeyData (sc_fs_key sc) /\
    bfsFsLayerInit e (mk (C := C) l (Some st) fl nm h ds None None) =
    Ok 0 (mk l' (Some st) (fs_flags fl) (fs_numbers (length on) nm) h ds (Some sa) None).
Proof.
  intros Hl Hn (F1 & F2 & F3 & F4 & N1 & N2 & N3 & N4) Hk. pose proof described as Hd. unfold describes in Hd. split_tests Hd.
  apply has_section_Ok in Hd0 as (i & Hi & Hf). split_tests Hf. apply logs_Ok in Hf as [Ha Hv].
  destruct (assoc_Ok i "fs_sa" _ Hf0 Hk) as (a & sa & Hna & Hsa & Hra).
  set (s0 := mk (C := C) l (Some st) fl nm h ds None None).
  assert (bfsUtilLayerInit e s0 = Ok 0 s0) as Hu by (unfold bfsUtilLayerInit, s0; run; by rewrite F1).
  destruct (ac_init_Ok s0 l on fl nm h ds None None Hu Hl ltac:(lia)) as (l0 & Hl0 & H0).
  assert (length (on ++ [true]) = S (length on)) as L0 by (rewrite length_app; cbn; lia).
  edestruct (block_init_Ok l0 _ (upd "ACLayerInitialized" true fl)
    (upd "next_uid" 1001 (upd "bfs_aclayer_log_level" (2 ^ Z.of_nat (length on)) nm)) h ds None None Hl0)
    as (l1 & Hl1 & H1); [lia|look_up; assumption..|]. rewrite L0 in H1.
  assert (length ((on ++ [true]) ++ logs_of "bfsDeviceLayer" ++ logs_of "bfsBlockLayer") = 5 + length on)%nat as L1
    by (rewrite !length_app; cbn; lia).
  destruct (set_levels_Ok (C := C) l1 _ i "bfs_core_log_level" "FS_LOG_LEVEL" "bfs_vrb_core_log_level" "FS_VRB_LOG_LEVEL"
    _ _ Hl1 ltac:(lia) Ha Hv) as (l2 & l3 & Hl3 & H2 & H3). rewrite L1 in H2, H3.
  exists l3, sa. split; [by rewrite <-!app_assoc in Hl3|]. split; [done|]. pose proof st_loaded as Hst.
  unfold bfsFsLayerInit, s0 in *. run. rewrite F4. run. cbn [Z.eqb negb]. rewrite (bind_Ok _ _ _ _ _ H1). cbn [Z.eqb negb]. run.
  rewrite (bind_Ok _ _ _ _ _ (Hra _)). run. done.
Qed.

(** ** Storage *)

(** The contents of the file of a device: what it was if it has the right size. *)
Definition file_after (h : gmap bytes bytes) (dc : dev_cfg) : bytes :=
  match h !! dc_path dc with
  | Some d => if decide (zlen d = dc_blocks dc * BLK_SZ) then d else concat (replicate (Z.to_nat (dc_blocks dc)) (zeroblk e))
  | None => concat (replicate (Z.to_nat (dc_blocks dc)) (zeroblk e))
  end.

Lemma zlen_concat_replicate n (b : bytes) : zlen (concat (replicate n b)) = Z.of_nat n * zlen b.
Proof. induction n as [|n IH]; [done|]. cbn [replicate concat]. rewrite zlen_app, IH. lia. Qed.

Lemma file_after_zlen h dc : 0 <= dc_blocks dc -> zlen (file_after h dc) = dc_blocks dc * BLK_SZ.
Proof.
  intros Hb. destruct env_works as (_ & _ & _ & _ & _ & Hz). unfold file_after.
  destruct (h !! dc_path dc) as [d|]; [case_decide; [done|]|]; rewrite zlen_concat_replicate, Hz, Z2Nat.id; done.
Qed.

Lemma as_int_small n : 0 <= n < 2 ^ 31 -> as_int n = n.
Proof. intros Hn. unfold as_int. rewrite u32_small by lia. by rewrite (proj2 (Z.ltb_lt _ _)) by lia. Qed.

Lemma createDiskStorage_Ok l c fl nm h ds x v dc :
  0 <= dc_blocks dc < 2 ^ 31 ->
  createDiskStorage e (dc_path dc) (dc_blocks dc) (mk (C := C) l c fl nm h ds x v) =
  Ok (Some (blocks_of (file_after h dc) (Z.to_nat (dc_blocks dc))))
     (mk l c fl nm (<[dc_path dc := file_after h dc]> h) ds x v).
Proof.
  intros Hb. pose proof env_works as (_ & _ & _ & Hop & Hwr & Hz). destruct (Hop (dc_path dc)) as [Ho Hm].
  assert (u64 (dc_blocks dc * BLK_SZ) = dc_blocks dc * BLK_SZ) as Hsz by (apply u64_small; unfold BLK_SZ; lia).
  pose proof (file_after_zlen h dc ltac:(lia)) as Hlen. unfold createDiskStorage. rewrite Hsz. run.
  rewrite Ho, Hm. cbn [andb].
  assert (forall k, (if decide (zlen <$> h !! dc_path dc = Some (dc_blocks dc * BLK_SZ)) then mret true
                     else create_file e (dc_path dc) (dc_blocks dc)) (mk l c fl nm h ds x v) = k ->
    k = Ok true (mk (C := C) l c fl nm (<[dc_path dc := file_after h dc]> h) ds x v)) as Hc.
  { intros k <-. case_decide as Hd.
    - apply fmap_Some in Hd as (d & Hd & Hl). unfold file_after. rewrite Hd, decide_True by done. by rewrite insert_id.
    - assert (file_after h dc = concat (replicate (Z.to_nat (dc_blocks dc)) (zeroblk e))) as ->.
      { unfold file_after. destruct (h !! dc_path dc) as [d|]; [|done]. rewrite decide_False; [done|]. intros E. apply Hd. cbn. by rewrite E. }
      unfold create_file. rewrite bind_modify, Ho, bind_modify. rewrite Hwr, Nat.min_id, bool_decide_eq_true_2 by done.
      rewrite as_int_small by lia. unfold set_host. cbn. by rewrite insert_delete_eq. }
  rewrite (bind_Ok _ _ _ _ _ (Hc _ eq_refl)). cbn [negb]. run. rewrite lookup_insert_eq. run.
  rewrite bind_of_opt. rewrite Hlen, Z.ltb_irrefl. done.
Qed.

(** The path of a device is found by its number. *)
Lemma find_path_Ok items dcs dc (s : t C) :
  devices_are items dcs = true -> forallb valid_device dcs = true -> NoDup (map dc_id dcs) -> dc ∈ dcs ->
  find_path items (dc_id dc) s = Ok (Some (dc_path dc)) s.
Proof.
  revert items. induction dcs as [|dc' dcs IH]; intros [|i items] Hd Hv Hn Hin; try done; [by apply elem_of_nil in Hin|].
  cbn [devices_are forallb] in Hd, Hv. apply andb_true_iff in Hd as [Hi Hd], Hv as [Hv' Hv]. cbn [map] in Hn. apply NoDup_cons in Hn as [Hni Hn].
  unfold device_is in Hi. split_tests Hi. unfold valid_device in Hv'. cbn [find_path].
  rewrite (bind_Ok _ _ _ _ _ (sub_long_Ok i "did" _ s Hi4)). split_tests Hv'. rewrite Z.mod_small by lia.
  apply elem_of_cons in Hin as [-> |Hin].
  - rewrite Z.eqb_refl. by rewrite (bind_Ok _ _ _ _ _ (sub_value_Ok i "path" _ s Hi2)).
  - rewrite (proj2 (Z.eqb_neq _ _)); [by apply IH|]. intros E. apply Hni. rewrite E. by apply (list_elem_of_fmap_2 dc_id).
Qed.

(** ** The devices *)

Definition devs_item (d : bfsCfgItem) : Prop :=
  follow root [Field (str "bfsDeviceLayer"); Field (str "devices")] = Some d /\ itype d = bfsCfgItem_LIST /\
  devices_are (subItems d) (sc_devices sc) = true.

Lemma devs_item_Ok : exists d, devs_item d.
Proof.
  pose proof described as Hd. unfold describes in Hd. split_tests Hd.
  apply has_section_Ok in Hd2 as (i & [Hi _] & [_ Hf]%andb_true_iff).
  destruct (by_name i (str "devices")) as [d|] eqn:Hdv; [|done]. split_tests Hf. exists d. split_and!; [|done|done].
  unfold follow, follow_step, mbind, option_bind. by rewrite Hi, Hdv.
Qed.

Lemma devs_config (s : t C) d : devs_item d -> loaded_as root (systemConfig s) ->
  config_item "bfsDeviceLayer.devices" s = Ok (Some d) s.
Proof. 
  intros (Hf & _) Hl. by apply (config_item_Ok root [Field (str "bfsDeviceLayer"); Field (str "devices")]).
 Qed.

(** The local device of a configuration, its storage mapped. *)
Definition local_dev (h : gmap bytes bytes) (dc : dev_cfg) : LocalDevice.t :=
  LocalDevice.mk (dc_id dc) (dc_blocks dc)
    (Some (DeviceStorage.mk (dc_id dc) (dc_blocks dc) (Some (blocks_of (file_after h dc) (Z.to_nat (dc_blocks dc)))))).

Definition built (h : gmap bytes bytes) (dc : dev_cfg) (p : Z * device) : Prop :=
  p.1 = dc_id dc /\ kind p.2 = Local (dc_path dc) /\ dev p.2 = local_dev h dc /\
  exists sa, secContext p.2 = Some sa /\ saKey sa = CryptoKey.setKeyData (dc_key dc).

Definition insert_all (ps ds : list (Z * device)) : list (Z * device) :=
  foldl (fun acc p => insert_device p.1 p.2 acc) ds ps.

Context (is_valid : valid sc = true).

Lemma valid_parts :
  forallb valid_device (sc_devices sc) = true /\ NoDup (map dc_id (sc_devices sc)) /\ NoDup (map dc_path (sc_devices sc)) /\
  sum_blocks (sc_devices sc) < 2 ^ 64 /\ zlen (sc_fs_key sc) = 16 /\ 0 <= sc_port sc < 2 ^ 16.
Proof. pose proof is_valid as Hv. unfold valid in Hv. split_tests Hv. split_and!; (done || lia). Qed.

Lemma valid_dc dc : dc ∈ sc_devices sc ->
  0 <= dc_id dc < 2 ^ 16 /\ 0 <= dc_blocks dc < 2 ^ 31 /\ zlen (dc_key dc) = 16.
Proof.
  intros Hin. destruct valid_parts as (Hv & _). rewrite forallb_forall in Hv.
  specialize (Hv dc ltac:(by apply list_elem_of_In)). unfold valid_device in Hv. split_tests Hv. lia.
Qed.

Lemma storage_Ok l fl nm h ds x v dc :
  dc ∈ sc_devices sc ->
  bfsDeviceStorage e (dc_id dc) (dc_blocks dc) (mk (C := C) l (Some st) fl nm h ds x v) =
  Ok (DeviceStorage.mk (dc_id dc) (dc_blocks dc) (Some (blocks_of (file_after h dc) (Z.to_nat (dc_blocks dc)))))
     (mk l (Some st) fl nm (<[dc_path dc := file_after h dc]> h) ds x v).
Proof.
  intros Hin. destruct devs_item_Ok as (d & Hd). destruct valid_parts as (Hv & Hn & _).
  destruct (valid_dc dc Hin) as (_ & Hb & _). unfold bfsDeviceStorage.
  set (s := mk l (Some st) fl nm h ds x v).
  assert (storage_path (dc_id dc) s = Ok (Some (dc_path dc)) s) as Hp.
  { unfold storage_path. apply catch_Ok. rewrite (bind_Ok _ _ _ _ _ (devs_config s d Hd st_loaded)), bind_of_opt.
    destruct Hd as (_ & Ht & Hda). rewrite decide_True by done.
    by rewrite (bind_Ok _ _ _ _ _ (find_path_Ok _ _ dc s Hda Hv Hn Hin)). }
  rewrite (bind_Ok _ _ _ _ _ Hp), (bind_Ok _ _ _ _ _ (createDiskStorage_Ok l (Some st) fl nm h ds x v dc Hb)). done.
Qed.

Lemma one_device_Ok l fl nm h ds x v i dc old :
  device_is i dc = true -> dc ∈ sc_devices sc ->
  exists p, built h dc p /\
    forall items, walk_devices e (i :: items) old (mk (C := C) l (Some st) fl nm h ds x v) =
    walk_devices e items (Some p.2)
      (mk l (Some st) fl nm (<[dc_path dc := file_after h dc]> h) (insert_device p.1 p.2 ds) x v).
Proof.
  intros Hi Hin. destruct (valid_dc dc Hin) as (Hid & Hb & Hk). unfold device_is in Hi. split_tests Hi.
  destruct (assoc_Ok i "sa" _ Hi0 Hk) as (a & sa & Hna & Hsa & Hra).
  exists (dc_id dc, mkDevice (Local (dc_path dc)) (local_dev h dc) (Some sa)). split.
  { split_and!; try done. by exists sa. }
  intros items. cbn [walk_devices]. unfold make_device. run. rewrite decide_True by done. run.
  rewrite (bind_Ok _ _ _ _ _ (Hra _)), bind_of_opt. unfold initialize. cbn [kind dev LocalDevice.deviceID LocalDevice.numBlocks].
  rewrite u32_small, u64_small by lia. run.
  rewrite (bind_Ok _ _ _ _ _ (storage_Ok l fl nm h ds x v dc Hin)). run. done.
Qed.

Lemma file_after_insert h dc dc' f : dc_path dc <> dc_path dc' ->
  file_after (<[dc_path dc := f]> h) dc' = file_after h dc'.
Proof. intros Hne. unfold file_after. by rewrite lookup_insert_ne. Qed.

Lemma built_insert h dc dc' f p : dc_path dc <> dc_path dc' ->
  built (<[dc_path dc := f]> h) dc' p -> built h dc' p.
Proof. intros Hne (H1 & H2 & H3 & H4). split_and!; try done. unfold local_dev. by rewrite H3, <-(file_after_insert h dc dc' f). Qed.

Lemma built_insert_all h dc dcs ps f : dc_path dc ∉ map dc_path dcs ->
  Forall2 (built (<[dc_path dc := f]> h)) dcs ps -> Forall2 (built h) dcs ps.
Proof.
  intros Hni Hall. induction Hall as [|dc' p dcs ps Hp Hall IH]; [constructor|]. cbn [map] in Hni. rewrite not_elem_of_cons in Hni.
  destruct Hni as [Hne Hni]. constructor; [by eapply built_insert|by apply IH].
Qed.

Lemma device_walk_Ok l fl nm h ds x v items dcs old :
  devices_are items dcs = true -> (forall dc, dc ∈ dcs -> dc ∈ sc_devices sc) -> NoDup (map dc_path dcs) ->
  exists ps h', Forall2 (built h) dcs ps /\
    (forall p, p ∉ map dc_path dcs -> h' !! p = h !! p) /\
    (forall dc, dc ∈ dcs -> h' !! dc_path dc = Some (file_after h dc)) /\
    walk_devices e items old (mk (C := C) l (Some st) fl nm h ds x v) =
    Ok 0 (mk l (Some st) fl nm h' (insert_all ps ds) x v).
Proof.
  revert items h ds old. induction dcs as [|dc dcs IH]; intros [|i items] h ds old Hd Hin Hn; try done.
  { exists [], h. split_and!; try done. intros dc Hdc. by apply elem_of_nil in Hdc. }
  cbn [devices_are] in Hd. apply andb_true_iff in Hd as [Hi Hd]. cbn [map] in Hn. apply NoDup_cons in Hn as [Hni Hn].
  destruct (one_device_Ok l fl nm h ds x v i dc old Hi (Hin dc ltac:(left))) as (p & Hp & Hw).
  destruct (IH items (<[dc_path dc := file_after h dc]> h) (insert_device p.1 p.2 ds) (Some p.2) Hd) as (ps & h' & Hps & Hout & Hins & Hr);
    [intros; apply Hin; by right|done|].
  exists (p :: ps), h'. split_and!.
  - constructor; [done|]. by eapply built_insert_all.
  - intros q Hq. cbn [map] in Hq. apply not_elem_of_cons in Hq as [Hq1 Hq2]. rewrite Hout by done. by apply lookup_insert_ne.
  - intros dc' [-> |Hdc']%elem_of_cons.
    + rewrite Hout by done. apply lookup_insert_eq.
    + rewrite Hins by done. f_equal. apply file_after_insert. intros E. apply Hni. rewrite E. by apply (list_elem_of_fmap_2 dc_path).
  - rewrite Hw, Hr. done.
Qed.

Lemma manifest_Ok l fl nm h x v :
  exists ps h', Forall2 (built h) (sc_devices sc) ps /\
    (forall p, p ∉ map dc_path (sc_devices sc) -> h' !! p = h !! p) /\
    (forall dc, dc ∈ sc_devices sc -> h' !! dc_path dc = Some (file_after h dc)) /\
    getDeviceManifest e (mk (C := C) l (Some st) fl nm h [] x v) =
    Ok 0 (mk l (Some st) (upd "bfsDeviceLayerInitialized" true fl) nm h' (insert_all ps []) x v).
Proof.
  destruct devs_item_Ok as (d & Hd). pose proof Hd as (Hf & Hty & Hda). destruct valid_parts as (_ & _ & Hn & _).
  destruct (device_walk_Ok l fl nm h [] x v (subItems d) (sc_devices sc) None Hda ltac:(done) Hn) as (ps & h' & Hps & Hout & Hins & Hr).
  exists ps, h'. split_and!; try done. unfold getDeviceManifest. run. unfold catch_config.
  set (s0 := mk l (Some st) fl nm h [] x v) in *.
  assert (with_item "bfsDeviceLayer.devices" bfsCfgItem_LIST (fun config => walk_devices e (subItems config) None) s0 =
    walk_devices e (subItems d) None s0) as Hw.
  { rewrite (with_item_Ok root [Field (str "bfsDeviceLayer"); Field (str "devices")] _ d); try done. apply st_loaded. }
  rewrite Hr in Hw. by rewrite (bind_Ok _ _ _ _ _ (catch_Ok _ _ _ _ _ Hw)).
Qed.
End layers.

(** ** The order of the devices *)

Lemma insert_device_perm i d l : i ∉ l.*1 -> insert_device i d l ≡ₚ (i, d) :: l.
Proof.
  induction l as [|[j b] l IH]; intros Hi; [done|]. cbn in *. apply not_elem_of_cons in Hi as [Hne Hi].
  destruct (i <? j); [done|]. rewrite (proj2 (Z.eqb_neq i j)) by done. rewrite IH by done. apply Permutation_swap.
Qed.

Lemma insert_device_sorted i d l :
  i ∉ l.*1 -> StronglySorted Z.lt l.*1 -> StronglySorted Z.lt (insert_device i d l).*1.
Proof.
  induction l as [|[j b] l IH]; intros Hi Hs; [by repeat constructor|]. cbn in *. apply not_elem_of_cons in Hi as [Hne Hi].
  apply StronglySorted_inv in Hs as [Hs Hj]. destruct (Z.ltb_spec i j) as [Hlt|Hge].
  - cbn. constructor; [by constructor|]. constructor; [done|]. eapply Forall_impl; [exact Hj|]. cbn. lia.
  - rewrite (proj2 (Z.eqb_neq i j)) by done. cbn. constructor; [by apply IH|].
    rewrite (insert_device_perm i d l Hi). cbn. constructor; [lia|done].
Qed.

Lemma insert_all_spec ps ds :
  NoDup (ps.*1 ++ ds.*1) -> StronglySorted Z.lt ds.*1 ->
  insert_all ps ds ≡ₚ ps ++ ds /\ StronglySorted Z.lt (insert_all ps ds).*1.
Proof.
  revert ds. induction ps as [|[i d] ps IH]; intros ds Hn Hs; [done|]. cbn in *. apply NoDup_cons in Hn as [Hi Hn].
  apply not_elem_of_app in Hi as [Hi1 Hi2]. pose proof (insert_device_perm i d ds Hi2) as Hp.
  destruct (IH (insert_device i d ds)) as [Hp' Hs'].
  - rewrite Hp. cbn. rewrite <-Permutation_middle. constructor; [|done]. by apply not_elem_of_app.
  - by apply insert_device_sorted.
  - split; [|done]. rewrite Hp', Hp. by rewrite <-Permutation_middle.
Qed.

(** ** The cluster *)

Section cluster.
Context `{BlkCacheLaws C}.

Lemma add_devices ms (s : VBC.t C) :
  Forall LocalDevice.ready ms -> 0 <= VBC.maxBlockID s -> VBC.maxBlockID s + VBC.total ms < 2 ^ 64 ->
  let s' := foldl (fun s d => VBC.addBlockDevice d s) s ms in
  VBC.devices s' = VBC.devices s ++ ms /\ VBC.maxBlockID s' = VBC.maxBlockID s + VBC.total ms /\
  VBC.blk_cache s' = VBC.blk_cache s.
Proof.
  revert s. induction ms as [|m ms IH]; intros s Hr Hmin Ht; cbn zeta.
  { cbn. rewrite app_nil_r. split_and!; [done|lia|done]. }
  apply Forall_cons in Hr as [[Hm _] Hr]. rewrite VBC.total_cons in Ht |- *. pose proof (VBC.total_nonneg ms Hr).
  assert (VBC.maxBlockID (VBC.addBlockDevice m s) = VBC.maxBlockID s + LocalDevice.numBlocks m) as Hmax
    by (cbn; apply u64_small; lia).
  cbn [foldl]. destruct (IH (VBC.addBlockDevice m s) Hr) as (Hd & Hb & Hc); [lia..|].
  rewrite Hd, Hb, Hc, Hmax. cbn. rewrite <-app_assoc. split_and!; [done|lia|done].
Qed.

Lemma factory_Ok ms c ce :
  Forall LocalDevice.ready ms -> VBC.total ms < 2 ^ 64 -> c_map c = ∅ ->
  exists cl, VBC.bfsClusterFactory ms c = Some cl /\ VBC.devices cl = ms /\ VBC.maxBlockID cl = VBC.total ms /\ VBC.inv ce cl.
Proof.
  intros Hr Ht Hc. unfold VBC.bfsClusterFactory, VBC.bfsVertBlockClusterInitialize. cbn [VBC.clusterState].
  destruct (add_devices ms (VBC.mk VBC.BFSBLK_UNINITIALIZED 0 [] [] c) Hr ltac:(cbn; lia) ltac:(cbn; lia)) as (Hd & Hb & Hca).
  eexists. split; [done|]. cbn [VBC.changeClusterState VBC.devices VBC.maxBlockID]. rewrite Hd, Hb. cbn [VBC.devices VBC.maxBlockID app].
  split_and!; [done|lia|]. split.
  - split_and!; cbn [VBC.changeClusterState VBC.devices VBC.maxBlockID]; rewrite ?Hd, ?Hb; (done || cbn; lia).
  - intros k o Hk. unfold VBC.cached in Hk. cbn [VBC.changeClusterState VBC.blk_cache] in Hk. rewrite Hca in Hk. cbn in Hk.
    destruct ce; [rewrite Hc in Hk|]; by rewrite lookup_empty in Hk.
Qed.

Lemma built_devs e h dcs ps : Forall2 (built e h) dcs ps -> map (fun p => dev p.2) ps = map (local_dev e h) dcs.
Proof. induction 1 as [|dc p dcs ps (_ & _ & Hd & _) _ IH]; [done|]. cbn. by rewrite Hd, IH. Qed.

Lemma built_ids e h dcs ps : Forall2 (built e h) dcs ps ->
  ps.*1 = map dc_id dcs /\ Forall (fun p => p.1 = LocalDevice.deviceID (dev p.2)) ps.
Proof.
  induction 1 as [|dc p dcs ps (Hi & _ & Hd & _) _ [IH1 IH2]]; [done|]. cbn. rewrite Hi, IH1. split; [done|].
  constructor; [by rewrite Hi, Hd|done].
Qed.

Lemma local_devs_ready e h dcs : forallb valid_device dcs = true -> Forall LocalDevice.ready (map (local_dev e h) dcs).
Proof.
  intros Hv. apply Forall_map, Forall_forall. intros dc Hdc. rewrite forallb_forall in Hv.
  specialize (Hv dc ltac:(by apply list_elem_of_In)). unfold valid_device in Hv. split_tests Hv. split; [cbn; lia|]. by split.
Qed.

Lemma local_devs_total e h dcs : VBC.total (map (local_dev e h) dcs) = sum_blocks dcs.
Proof. induction dcs as [|dc dcs IH]; [done|]. cbn [map]. rewrite VBC.total_cons, IH. done. Qed.

Lemma total_perm ms ms' : ms ≡ₚ ms' -> VBC.total ms = VBC.total ms'.
Proof. induction 1; rewrite ?VBC.total_cons; lia. Qed.

(** The levels of the layers, and the layers they belong to. *)
Definition level_vars : list string :=
  ["bfsConfigLogLevel"; "bfsVerboseConfigLogLevel"; "bfsUtilLogLevel"; "bfsVerboseUtilLogLevel";
   "bfsCryptoLogLevel"; "bfsVerboseCryptoLogLevel"; "bfs_server_log_level"; "bfs_server_vrb_log_level";
   "bfsDeviceLogLevel"; "bfsVerboseDeviceLogLevel"; "bfsBlockLogLevel"; "bfsVerboseBlockLogLevel";
   "bfs_core_log_level"; "bfs_vrb_core_log_level"]%string.

Definition layer_names : list string :=
  ["bfsConfigLayer"; "bfsUtilLayer"; "bfsCryptoLayer"; "bfsServer"; "bfsDeviceLayer"; "bfsBlockLayer"; "bfsFsLayer"]%string.

(** The cluster consists of the configured devices, in the order of their
    numbers, each over its file. *)
Definition cluster_of (e : env) (h : gmap bytes bytes) (sc : sysconfig) (cl : VBC.t C) : Prop :=
  VBC.inv (sc_cache sc) cl /\ VBC.maxBlockID cl = sum_blocks (sc_devices sc) /\
  VBC.devices cl ≡ₚ map (local_dev e h) (sc_devices sc) /\
  StronglySorted Z.lt (map LocalDevice.deviceID (VBC.devices cl)).

(** The server is up as described: its settings and log levels, the key of the
    file system, and a cluster of the configured devices. *)
Definition running (e : env) (h : gmap bytes bytes) cs (sc : sysconfig) (s : t C) : Prop :=
  systemConfig s = Some (mkStore (Some grammar) (Some (root_of cs))) /\
  flags s "ACLayerInitialized"%string = true /\ numbers s "next_uid"%string = 1001 /\
  flags s "bfs_cache_enabled"%string = sc_cache sc /\ flags s "use_merkle_tree"%string = sc_merkle sc /\
  flags s "_journal_enabled"%string = sc_journal sc /\ flags s "bfs_perf_test"%string = sc_perf sc /\
  numbers s "bfs_cache_sz_limit"%string = sc_cache_limit sc /\
  numbers s "bfs_server_port"%string = sc_port sc /\ numbers s "num_file_worker_threads"%string = sc_workers sc /\
  numbers s "num_blocks"%string = sum_blocks (sc_devices sc) /\
  map (level_on s) level_vars = concat (map (logs_of sc) layer_names) /\
  (exists sa, fsContext s = Some sa /\ saKey sa = CryptoKey.setKeyData (sc_fs_key sc)) /\
  (forall dc, dc ∈ sc_devices sc -> host s !! dc_path dc = Some (file_after e h dc)) /\
  exists cl, vbc s = Some cl /\ cluster_of e h sc cl.

(** The slots of the levels. *)
Lemma levels_map (s : t C) on vars ks :
  levels (log s) on -> Forall2 (fun var k => numbers s var = 2 ^ Z.of_nat k) vars ks ->
  (forall k, k ∈ ks -> (k < length on)%nat) ->
  map (level_on s) vars = map (fun k => default false (on !! k)) ks.
Proof.
  intros Hl Hall. induction Hall as [|var k vars ks Hv _ IH]; intros Hk; [done|]. cbn.
  destruct (lookup_lt_is_Some_2 on k) as [b Hb]; [apply Hk; left|]. rewrite Hb. cbn.
  f_equal; [by eapply level_on_levels|]. apply IH. intros. apply Hk. by right.
Qed.

Definition level_slots : list nat := [4; 5; 6; 7; 8; 9; 10; 11; 13; 14; 15; 16; 17; 18]%nat.

(** The devices of a configuration, collected and put together to a cluster. *)
Lemma cluster_up e h sc ps (new_cache : Z -> C) :
  valid sc = true -> Forall2 (built e h) (sc_devices sc) ps -> (forall n, c_map (new_cache n) = ∅) ->
  exists cl, VBC.bfsClusterFactory (map (fun p => dev p.2) (insert_all ps [])) (new_cache (sc_cache_limit sc)) = Some cl /\
    cluster_of e h sc cl.
Proof.
  intros Hv Hps Hc. destruct (valid_parts sc Hv) as (Hvd & Hnid & Hnp & Hsum & Hk).
  destruct (built_ids e h _ ps Hps) as [Hids Hdid].
  destruct (insert_all_spec ps [] ltac:(by rewrite app_nil_r, Hids) ltac:(constructor)) as [Hperm Hsort].
  rewrite app_nil_r in Hperm. set (ms := map (fun p => dev p.2) (insert_all ps [])).
  assert (ms ≡ₚ map (local_dev e h) (sc_devices sc)) as Hms by (unfold ms; by rewrite Hperm, (built_devs e h _ ps Hps)).
  assert (VBC.total ms = sum_blocks (sc_devices sc)) as Htot by (rewrite (total_perm _ _ Hms); apply local_devs_total).
  destruct (factory_Ok ms (new_cache (sc_cache_limit sc)) (sc_cache sc)) as (cl & Hcl & Hdev & Hmax & Hinv);
    [rewrite Hms; by apply local_devs_ready|lia|apply Hc|].
  exists cl. unfold cluster_of. rewrite Hdev. split_and!; [done|done|by rewrite Hmax|done|].
  assert (map LocalDevice.deviceID ms = (insert_all ps []).*1) as ->; [|done].
  unfold ms. rewrite map_map. apply map_ext_Forall. rewrite Hperm. eapply Forall_impl; [exact Hdid|]. by cbn.
Qed.

(** [enclave_init] after the configuration is loaded and the utility layer up. *)
Lemma enclave_init_Ok (e : env) (new_cache : Z -> C) root st text sc l on fl nm h :
  configs st = Some root -> describes root sc = true -> valid sc = true -> sc_ext4 sc = false -> works e text ->
  (forall n, c_map (new_cache n) = ∅) ->
  levels l on -> (length on < 24)%nat -> only_util fl nm -> nm "bfs_cache_sz_limit"%string = sc_cache_limit sc ->
  exists l' sa h' ds cl, levels l' (fs_on sc on) /\ saKey sa = CryptoKey.setKeyData (sc_fs_key sc) /\
    (forall dc, dc ∈ sc_devices sc -> h' !! dc_path dc = Some (file_after e h dc)) /\ cluster_of e h sc cl /\
    enclave_init e new_cache (mk l (Some st) fl nm h [] None None) =
    Ok 0 (mk l' (Some st) (upd "bfsDeviceLayerInitialized" true (fs_flags sc fl))
            (upd "num_blocks" (VBC.maxBlockID cl) (fs_numbers sc (length on) nm)) h' ds (Some sa) (Some cl)).
Proof.
  intros Hroot Hdesc Hv Hext Henv Hc Hl Hn Hup Hlim. destruct (valid_parts sc Hv) as (_ & _ & _ & _ & Hk & _).
  destruct (fs_init_Ok (C := C) e root sc st Hroot Hdesc text Henv l on fl nm h [] Hl Hn Hup Hk) as (l' & sa & Hl' & Hsa & Hfs).
  destruct (manifest_Ok (C := C) e root sc st Hroot Hdesc text Henv Hv l' (fs_flags sc fl) (fs_numbers sc (length on) nm) h (Some sa) None)
    as (ps & h' & Hps & _ & Hh' & Hm).
  destruct (cluster_up e h sc ps new_cache Hv Hps Hc) as (cl & Hcl & Hof).
  exists l', sa, h', (insert_all ps []), cl. split_and!; try done.
  unfold enclave_init. rewrite (bind_Ok _ _ _ _ _ Hfs). cbn [Z.eqb negb]. run. unfold fs_flags at 1. look_up. rewrite Hext.
  unfold bfsClusterFactory. run. cbn [Z.eqb negb]. run. unfold fs_numbers at 1. look_up. rewrite Hlim, Hcl.
  unfold set_vbc. run. reflexivity.
Qed.

(** The loader, on a text that spells a configuration. *)
Lemma load_text_Ok (e : env) cs text :
  wf_cfgs cs = true -> (S (needs cs) <= MAX_bfsCfgParser_RECURSION_DEPTH)%nat -> words_of text = cfgs_words cs -> works e text ->
  CfgItem.loadSystemConfiguration None (home e) (file e) () = Ok (0, Some (mkStore (Some grammar) (Some (root_of cs)))) ().
Proof.
  intros Hw Hd Ht (Hh & Hf & _). unfold CfgItem.loadSystemConfiguration. rewrite Hh, Hf. by rewrite (load_complete_Ok cs text Hw Hd Ht).
Qed.

(** The server, from its start to the first message. *)
Lemma server_up (e : env) (new_cache : Z -> C) cs text sc h :
  wf_cfgs cs = true -> (S (needs cs) <= MAX_bfsCfgParser_RECURSION_DEPTH)%nat -> words_of text = cfgs_words cs ->
  describes (root_of cs) sc = true -> valid sc = true -> sc_ext4 sc = false -> works e text ->
  (forall n, c_map (new_cache n) = ∅) ->
  exists s, (server_main e ;; ensure_enclave e new_cache) (fresh h) = Ok () s /\ running e h cs sc s.
Proof.
  intros Hw Hd Ht Hdesc Hv Hext Henv Hc. pose proof (load_text_Ok e cs text Hw Hd Ht Henv) as Hload.
  set (st := mkStore (Some grammar) (Some (root_of cs))) in *. destruct (valid_parts sc Hv) as (_ & _ & _ & _ & _ & Hport).
  destruct (server_init_Ok (C := C) e (root_of cs) sc st Hload eq_refl Hdesc h) as (l & Hl & Hs).
  destruct (enclave_init_Ok e new_cache (root_of cs) st text sc l (server_on sc) (util_flags sc)
    (server_numbers sc (numbers (fresh (C := C) h))) h eq_refl Hdesc Hv Hext Henv Hc Hl ltac:(cbn; lia) ltac:(by split_and!) eq_refl)
    as (l' & sa & h' & ds & cl & Hl' & Hsa & Hh' & Hcl & Hr).
  eexists. split.
  { unfold server_main, ensure_enclave. run. cbn [Z.eqb]. run. change (util_flags sc "enclave_initialized"%string) with false.
    etransitivity; [exact (bind_Ok _ _ _ _ _ Hr)|]. cbn [Z.eqb]. unfold modify. state_step. reflexivity. }
  pose proof Hcl as (_ & Hmax & _).
  unfold running. cbn [flags numbers log host vbc fsContext systemConfig]. split_and!; try reflexivity.
  - change (sc_port sc mod 2 ^ 16 = sc_port sc). apply Z.mod_small. lia.
  - by rewrite upd_eq.
  - rewrite (levels_map _ (fs_on sc (server_on sc)) level_vars level_slots); [done|exact Hl'|by repeat constructor|].
    intros k Hk'. unfold level_slots in Hk'. repeat (apply elem_of_cons in Hk' as [->|Hk']; [cbn; lia|]). by apply elem_of_nil in Hk'.
  - by exists sa.
  - exact Hh'.
  - by exists cl.
Qed.

(** C9. Start-up.  From a text that spells a configuration, the server brings up
    what the configuration describes: its port and settings, the log levels that
    are switched on, the key of the file system, and a cluster over exactly the
    configured devices, in the order of their numbers and not of the text, each
    mapped on its file, which is kept if it has the configured size. *)
Theorem configured_startup (e : env) (new_cache : Z -> C) cs text sc h :
  wf_cfgs cs = true -> (S (needs cs) <= MAX_bfsCfgParser_RECURSION_DEPTH)%nat -> words_of text = cfgs_words cs ->
  describes (root_of cs) sc = true -> valid sc = true -> sc_ext4 sc = false -> works e text ->
  (forall n, c_map (new_cache n) = ∅) ->
  exists s, (server_main e ;; ensure_enclave e new_cache) (fresh h) = Ok () s /\ running e h cs sc s.
Proof. exact (server_up e new_cache cs text sc h). Qed.
End cluster.
End StartupSpec.
