(* ===== verification/StartupVolume.v ===== *)
(** * The volume of a server that has started

    The cluster and the key that start-up leaves behind meet what formatting and
    mounting need. *)
From Stdlib Require Import Init.Byte.
From S2P Require Import Prelude Layout BfsUtil CoreTypes SecAssoc BlockLayer FsLayer BlockStore Volume SecBlock SecStore FsAlloc Acl FsDir FsFile FsOps Mkfs SecVolume Instances MkfsInstances RegExp BfsLog CfgParser CfgItem CfgTokens CfgParse CfgLoad CfgQuery Startup StartupSpec.
Import RegExp CfgParser CfgItem CfgTokens CfgParse CfgLoad CfgQuery Startup StartupSpec.

Section volume.
Context `{Cipher} {claws : CipherLaws} {C : Type} `{BlkCacheLaws C}.
Context (rnd : nat -> bytes) (rnd_zlen : forall n, zlen (rnd n) = BFS_IV_LEN).

(** The static data of the file system over the cluster and the key that
    start-up has set; the Merkle tree is not there yet. *)
Definition volume_of (s : Startup.t C) (sb : SuperBlock.t) : option (fs (sec C)) :=
  cl ← Startup.vbc s;
  sa ← fsContext s;
  Some (mkFs (mkSec cl (Some (saKey sa)) empty_mt None UNINITIALIZED 0) sb 0 ∅).

(** ** Blocks of the devices *)

Lemma blocks_of_lookup d n k : (k < n)%nat -> blocks_of d n !! Z.of_nat k = Some (block_at d k).
Proof.
  intros Hk. unfold blocks_of. apply elem_of_list_to_map_1.
  - rewrite <-list_fmap_compose. apply NoDup_fmap_2; [|apply NoDup_seq]. intros a b E. cbn in E. lia.
  - apply list_elem_of_fmap. exists k. split; [done|]. apply elem_of_seq. lia.
Qed.

Lemma block_at_zlen d k n : zlen d = n * BLK_SZ -> 0 <= Z.of_nat k < n -> zlen (block_at d k) = BLK_SZ.
Proof.
  intros Hd Hk. unfold zlen, block_at in *. rewrite length_take, length_drop. unfold BLK_SZ in *. lia.
Qed.

Lemma local_content e text h dc p :
  works e text -> 0 <= p < dc_blocks dc -> zlen (LocalDevice.content p (local_dev e h dc)) = BLK_SZ.
Proof.
  intros He Hp. unfold LocalDevice.content, local_dev, DeviceStorage.content. cbn [LocalDevice.storage DeviceStorage.blockStorage default from_option id].
  replace p with (Z.of_nat (Z.to_nat p)) by lia. rewrite blocks_of_lookup by lia. cbn [default from_option id].
  apply (block_at_zlen _ _ (dc_blocks dc)); [|lia]. apply (file_after_zlen e text He). lia.
Qed.

(** Every block of the cluster is a whole block. *)
Lemma started_blocks e text h sc (cl : VBC.t C) j :
  works e text -> VBC.inv (sc_cache sc) cl -> VBC.devices cl ≡ₚ map (local_dev e h) (sc_devices sc) ->
  0 <= j < VBC.maxBlockID cl -> zlen (VBC.vget (sc_cache sc) cl j) = BLK_SZ.
Proof.
  intros He [Hwf Hinv] Hdev Hj. destruct (VBC.phys_is_Some cl j Hwf Hj) as [a Ha].
  assert (zlen (VBC.dcontent (VBC.devices cl) a) = BLK_SZ) as Hz.
  { destruct (VBC.phys_phys_ok cl j a Hwf ltac:(lia) Ha) as (d & Hd & _ & Hp). unfold VBC.dcontent. rewrite Hd.
    apply list_elem_of_lookup_2 in Hd. rewrite Hdev in Hd. apply list_elem_of_fmap in Hd as (dc & -> & _).
    by apply (local_content e text h). }
  unfold VBC.vget. destruct (VBC.cached _ cl !! j) as [o|] eqn:Ho; [|by rewrite Ha].
  destruct (Hinv j o Ho) as (_ & Hph & Hdirty & Hclean). destruct (p_dirty o); [by apply Hdirty|].
  rewrite Hclean by done. rewrite Ha in Hph. by injection Hph as <-.
Qed.

(** The volume that start-up leaves is one that can be formatted. *)
Lemma running_volume e text h cs sc s h2 sb0 :
  running e h cs sc s -> works e text -> sum_blocks (sc_devices sc) = 2 ^ h2 -> 0 < h2 <= 30 -> room (2 ^ h2) ->
  exists f, volume_of s sb0 = Some f /\ sec_raw (sc_cache sc) (store f) /\ NB (store f) = 2 ^ h2 /\ open_file_tab f = ∅.
Proof.
  intros (_ & _ & _ & _ & _ & _ & _ & _ & _ & _ & _ & _ & (sa & Hsa & Hk) & _ & cl & Hcl & Hinv & Hmax & Hdev & _) He Hsum Hh Hroom.
  unfold volume_of. rewrite Hcl, Hsa, !some_bind. eexists. split; [done|]. cbn [store open_file_tab NB].
  assert (VBC.maxBlockID cl = 2 ^ h2) as HN by congruence. split_and!; [|exact HN|done].
  split; [split_and!|split_and!]; unfold NB, bget; cbn [FsLayer.vbc].
  - done.
  - intros j Hj. by eapply started_blocks.
  - rewrite HN. unfold room in Hroom. change META_PER_BLK with 146 in Hroom. lia.
  - exists (saKey sa). by rewrite Hk.
  - done.
  - by exists h2.
Qed.

End volume.
