(* ===== verification/StartupClient.v ===== *)
(** * Client and server from one configuration

    The client reads its settings from the same text as the server, both find the
    same key for the messages between them, and the two processes carry a file
    system: from the text of a configuration to the bytes that a client reads
    back from a file. *)
From Stdlib Require Import Init.Byte.
From S2P Require Import Prelude Layout BfsUtil CoreTypes FlexBuffer SecAssoc Wire BlockLayer FsLayer BlockStore Volume SecBlock SecStore FsAlloc Acl FsDir FsFile FsOps Mkfs SecVolume Server Client Rpc RpcSpec Remote RegExp BfsLog CfgParser CfgItem CfgTokens CfgParse CfgLoad CfgQuery Startup StartupSpec StartupVolume.
Import RegExp CfgParser CfgItem CfgTokens CfgParse CfgLoad CfgQuery Startup StartupSpec.

(** ** The settings of a client *)

Record client_cfg := mkClientCfg {
  cc_logs : bool * bool;
  cc_logfile : option bytes;
  cc_mkfs : bool;
  cc_direct_io : bool;
  cc_ip : bytes;
  cc_port : Z;
  cc_key : bytes;
}.

Definition client_is (root : bfsCfgItem) (cc : client_cfg) : bool :=
  has_section root "bfsClientLayer" (fun i =>
    bool_decide (flag_of i "log_enabled" = Some (cc_logs cc).1) && bool_decide (flag_of i "log_verbose" = Some (cc_logs cc).2) &&
    log_goes_to i (cc_logfile cc) && bool_decide (flag_of i "do_mkfs" = Some (cc_mkfs cc)) &&
    bool_decide (flag_of i "direct_io" = Some (cc_direct_io cc)) && bool_decide (field i "bfs_server_ip" = Some (cc_ip cc)) &&
    bool_decide (long_of i "bfs_server_port" = Some (cc_port cc)) && assoc_is i "cl_serv_sa" (cc_key cc)).

(** The server has the same key for its clients. *)
Definition server_key_is (root : bfsCfgItem) (key : bytes) : bool :=
  has_section root "bfsServer" (fun i => assoc_is i "cl_serv_sa" key).

(** The client is configured as described. *)
Definition client_up {C} (cc : client_cfg) (p : process C) : Prop :=
  flags (sys p) "do_mkfs"%string = cc_mkfs cc /\ flags (sys p) "direct_io_flag"%string = cc_direct_io cc /\
  numbers (sys p) "bfs_server_port"%string = cc_port cc mod 2 ^ 16 /\ bfs_server_ip p = cc_ip cc /\
  level_on (sys p) "bfs_client_log_level" = (cc_logs cc).1 /\ level_on (sys p) "bfs_client_vrb_log_level" = (cc_logs cc).2 /\
  exists sa, clientContext p = Some sa /\ saKey sa = CryptoKey.setKeyData (cc_key cc).

Section client.
Context {C : Type} (e : env) (root : bfsCfgItem) (sc : sysconfig) (st : bfsCfgStore) (text : bytes).
Context (load : CfgItem.loadSystemConfiguration None (home e) (file e) () = Ok (0, Some st) ()).
Context (st_root : configs st = Some root) (described : describes root sc = true) (env_works : works e text).

Lemma on_sys_Ok {A} (m : M (t C) A) a s s' x ip :
  m s = Ok a s' -> on_sys m (mkProcess s x ip) = Ok a (mkProcess s' x ip).
Proof. intros Hm. unfold on_sys. cbn [sys]. by rewrite Hm. Qed.

Definition client_numbers (port : Z) (nm : string -> Z) : string -> Z :=
  upd "bfs_server_port" (port mod 2 ^ 16)
    (upd "bfs_client_vrb_log_level" (2 ^ Z.of_nat 11) (upd "bfs_client_log_level" (2 ^ Z.of_nat 10) (util_numbers sc nm))).

Lemma client_init_Ok cc h :
  client_is root cc = true -> zlen (cc_key cc) = 16 ->
  exists p, client_init e (new_process (C := C) h) = Ok 0 p /\ client_up cc p.
Proof.
  intros Hc Hk. unfold client_is in Hc. apply has_section_Ok in Hc as (i & Hi & Ht). split_tests Ht.
  pose proof described as Hd. unfold describes in Hd. split_tests Hd. apply has_section_Ok in Hd4 as (j & Hj & _).
  destruct (util_init_Ok (C := C) e root sc st load st_root described h [] None None (numbers (fresh (C := C) h)) eq_refl eq_refl) as (l & Hl & Hu).
  destruct (set_levels_Ok (C := C) l _ i "bfs_client_log_level" "CLIENT_LOG_LEVEL" "bfs_client_vrb_log_level" "CLIENT_VRB_LOG_LEVEL"
    _ _ Hl ltac:(cbn; lia) Ht Ht6) as (l1 & l2 & Hl2 & H1 & H2).
  destruct (log_target_Ok (C := C) l2 _ i _ Hl2 Ht5) as (l3 & Hl3 & H3).
  destruct (assoc_Ok (C := C) e text env_works i "cl_serv_sa" _ Ht0 Hk) as (a & sa & Hna & Hsa & Hra).
  pose proof (st_loaded root st st_root) as Hst.
  pose proof (proj2 Hi) as Hti. pose proof (proj2 Hj) as Htj.
  set (nm := numbers (fresh (C := C) h)) in *. set (s0 := mk BfsLog.start None (fun _ => false) nm h [] None None) in *.
  set (s1 := mk l (Some st) (util_flags sc) (util_numbers sc nm) h [] None None) in *.
  set (s2 := mk (C := C) l3 (Some st) (upd "direct_io_flag" (cc_direct_io cc) (upd "do_mkfs" (cc_mkfs cc) (util_flags sc)))
    (upd "bfs_client_vrb_log_level" (2 ^ Z.of_nat 11) (upd "bfs_client_log_level" (2 ^ Z.of_nat 10) (util_numbers sc nm))) h [] None None).
  set (s3 := mk (C := C) l3 (Some st) (flags s2) (client_numbers (cc_port cc) nm) h [] None None).
  assert (client_flags i s1 = Ok () s2) as Hfl by (unfold client_flags, s1; run; reflexivity).
  assert ((n ← sub_long i "bfs_server_port"; modify (set_number "bfs_server_port" (n mod 2 ^ 16))) s2 = Ok () s3) as Hpo
    by (unfold s2; run; reflexivity).
  assert ((sacfg ← sub_item i "cl_serv_sa"; bfsSecAssociation e sacfg) s3 = Ok sa s3) as Has by (unfold s3; run; apply Hra).
  exists (mkProcess s3 (Some sa) (cc_ip cc)). split.
  { unfold client_init. apply catch_Ok. change (new_process h) with (mkProcess s0 None []).
    rewrite (bind_Ok _ _ _ _ _ (on_sys_Ok _ _ s0 s1 None [] Hu)).
    rewrite (bind_Ok _ _ _ _ _ (on_sys_Ok _ _ s1 s1 None [] (section_item_Ok root "bfsClientLayer" i s1 Hst eq_refl Hi))).
    rewrite bind_of_opt, decide_True by done.
    rewrite (bind_Ok _ _ _ _ _ (on_sys_Ok _ _ s1 s2 None [] Hfl)).
    rewrite (bind_Ok _ _ _ _ _ (on_sys_Ok _ _ s2 s2 None [] (sub_value_Ok i _ _ s2 Ht2))), bind_modify.
    change (set_server_ip (cc_ip cc) (mkProcess s2 None [])) with (mkProcess s2 None (cc_ip cc)).
    rewrite (bind_Ok _ _ _ _ _ (on_sys_Ok _ _ s2 s3 None (cc_ip cc) Hpo)).
    rewrite (bind_Ok _ _ _ _ _ (on_sys_Ok _ _ s3 s3 None (cc_ip cc) Has)), bind_modify.
    change (set_client_context (Some sa) (mkProcess s3 None (cc_ip cc))) with (mkProcess s3 (Some sa) (cc_ip cc)).
    rewrite (bind_Ok _ _ _ _ _ (on_sys_Ok _ _ s3 s3 (Some sa) (cc_ip cc) (section_item_Ok root "bfsCommon" j s3 Hst eq_refl Hj))).
    by rewrite bind_of_opt, decide_True. }
  split_and!; try reflexivity.
  - eapply (level_on_levels _ _ 10); [exact Hl3|reflexivity|done].
  - eapply (level_on_levels _ _ 11); [exact Hl3|reflexivity|done].
  - by exists sa.
Qed.

(** The association of a new connection. *)
Lemma user_association_Ok key (s : t C) :
  loaded_as root (systemConfig s) -> server_key_is root key = true -> zlen key = 16 ->
  exists a, user_association e s = Ok (Some a) s /\ saKey a = CryptoKey.setKeyData key.
Proof.
  intros Hl Hs Hk. apply has_section_Ok in Hs as (i & Hi & Ha).
  destruct (assoc_Ok (C := C) e text env_works i "cl_serv_sa" _ Ha Hk) as (a & sa & Hna & Hsa & Hra).
  exists sa. split; [|done]. unfold user_association.
  rewrite (bind_Ok _ _ _ _ _ (section_item_Ok root "bfsServer" i s Hl eq_refl Hi)).
  destruct Hi as [_ Hti]. rewrite bind_of_opt, decide_True by done.
  rewrite (bind_Ok _ _ _ _ _ (sub_item_Ok i _ _ s Hna)). by rewrite (bind_Ok _ _ _ _ _ (Hra s)).
Qed.
End client.

(** ** The two processes *)

(** The server at its first connection, over the volume that start-up made. *)
Definition server_of {C} (s : Startup.t C) (f : fs (sec C)) : srv (sec C) :=
  mkSrv f false false (ACLayer.mk (flags s "ACLayerInitialized"%string) (numbers s "next_uid"%string) ∅) ∅ ∅ 0.

(** The client once it is connected. *)
Definition client_of {C} (p : process C) (n : NetConn.t) : option client :=
  sa ← clientContext p;
  Some (mkClient n (mkSa (Some (saKey sa)) FlexBuffer.empty) 0 0 false true 0).

Section system.
Context `{Cipher} {claws : CipherLaws} {C : Type} `{BlkCacheLaws C}.
Context (rnd srnd crnd : nat -> bytes) (skernel : Z -> nat -> Z) (ckernel : nat -> Z) (uninit indet : Z).
Context (rnd_zlen : forall n, zlen (rnd n) = BFS_IV_LEN).
Context (srnd_zlen : forall n, zlen (srnd n) = BFS_IV_LEN) (crnd_zlen : forall n, zlen (crnd n) = BFS_IV_LEN).
Context (shealthy : forall cn i, 0 <= skernel cn i) (chealthy : forall i, 0 <= ckernel i).

Lemma client_of_Ok cc (p : process C) n :
  client_up cc p -> RawNet.inbox (NetConn.socket n) = [] -> RawNet.outbox (NetConn.socket n) = [] ->
  exists c, client_of p n = Some c /\ ready c (cc_key cc) 0 0 [] [] false.
Proof.
  intros (_ & _ & _ & _ & _ & _ & sa & Hsa & Hk) Hin Hout. unfold client_of. rewrite Hsa, some_bind. eexists. split; [done|].
  constructor; cbn; try done. rewrite Hk. split; [by eexists|done].
Qed.

(** C4. The whole system from one configuration file.  Server and client start
    from a text that spells a configuration; when the client connects to the
    port it was given, it has the volume formatted and mounted, creates a file
    of any valid name, writes to it at any offset up to the largest file size
    and reads the same bytes back, over any network that delivers the bytes in
    order and with every block sealed on the configured devices. *)
Theorem configured_system (e ec : env) (new_cache : Z -> C) cs text sc cc h hc h2 sb0 conn n nc name mode (buf : bytes) off :
  wf_cfgs cs = true -> (S (needs cs) <= MAX_bfsCfgParser_RECURSION_DEPTH)%nat -> words_of text = cfgs_words cs ->
  describes (root_of cs) sc = true -> valid sc = true -> sc_ext4 sc = false -> sc_merkle sc = true ->
  client_is (root_of cs) cc = true -> server_key_is (root_of cs) (cc_key cc) = true -> zlen (cc_key cc) = 16 ->
  cc_mkfs cc = true -> cc_port cc = sc_port sc ->
  works e text -> works ec text -> (forall n, c_map (new_cache n) = ∅) ->
  sum_blocks (sc_devices sc) = 2 ^ h2 -> 0 < h2 <= 30 -> room (2 ^ h2) ->
  RawNet.inbox (NetConn.socket n) = [] -> RawNet.outbox (NetConn.socket n) = [] ->
  RawNet.inbox (NetConn.socket nc) = [] -> RawNet.outbox (NetConn.socket nc) = [] ->
  name <> [] -> slash ∉ name -> DirEntry.name_ok (root_path name) -> 0 <= mode < 2 ^ 32 ->
  ACLayer.denied true (Some (User.ctor 1001)) 1001 (Z.lor BFS__S_IFREG mode) = false ->
  0 <= off -> off + zlen buf <= MAX_FILE_SIZE ->
  exists s a (p : process C) f c,
    (server_main e ;; ensure_enclave e new_cache) (fresh h) = Ok () s /\ user_association e s = Ok (Some a) s /\
    client_init ec (new_process hc) = Ok 0 p /\
    numbers (sys p) "bfs_server_port"%string = numbers s "bfs_server_port"%string /\
    volume_of s sb0 = Some f /\ client_of p nc = Some c /\
    let _ := sec_store (C := C) (flags s "bfs_cache_enabled"%string) rnd in
    let _ := sec_volume (C := C) (flags s "bfs_cache_enabled"%string) rnd in
    let mt := flags s "use_merkle_tree"%string in
    exists s0 w1 w2 w3 w4,
      worker_start mt srnd skernel (saKey a) uninit indet conn n (server_of s f) = Ok () s0 /\
      rpc mt srnd skernel (saKey a) uninit indet conn (Client.bfs_init crnd ckernel (flags (sys p) "do_mkfs"%string)) (mkWorld c s0) = Ok (Some Msg.rc_success) w1 /\
      rpc mt srnd skernel (saKey a) uninit indet conn (Client.bfs_create crnd ckernel (root_path name) mode) w1 = Ok (Msg.rc_success, Some START_FD) w2 /\
      rpc mt srnd skernel (saKey a) uninit indet conn (Client.bfs_write crnd ckernel START_FD buf off) w2 = Ok (zlen buf) w3 /\
      rpc mt srnd skernel (saKey a) uninit indet conn (Client.bfs_read crnd ckernel START_FD (zlen buf) off) w3 = Ok (zlen buf, buf) w4.
Proof.
  intros Hw Hd Ht Hdesc Hv Hext Hmt Hcl Hsk Hk Hmk Hpt Henv Hcenv Hc Hsum Hh Hroom Hni Hno Hci Hco Hne Hsl Hnm Hm Hac Ho Hb.
  destruct (server_up e new_cache cs text sc h Hw Hd Ht Hdesc Hv Hext Henv Hc) as (s & Hs & Hr).
  pose proof (load_text_Ok ec cs text Hw Hd Ht Hcenv) as Hload. set (st := mkStore (Some grammar) (Some (root_of cs))) in *.
  destruct (client_init_Ok (C := C) ec (root_of cs) sc st text Hload eq_refl Hdesc Hcenv cc hc Hcl Hk) as (p & Hp & Hup).
  pose proof Hr as (Hst & Hai & Huid & Hce & Hm' & _ & _ & _ & Hport & _).
  destruct (user_association_Ok (C := C) e (root_of cs) text Henv (cc_key cc) s) as (a & Ha & Hka); [by exists st|done|done|].
  destruct (running_volume e text h cs sc s h2 sb0 Hr Henv Hsum Hh Hroom) as (f & Hf & Hraw & HN & Hop).
  destruct (client_of_Ok cc p nc Hup Hci Hco) as (c & Hcp & Hrd). destruct Hup as (Hdm & _ & Hpp & _).
  exists s, a, p, f, c. split_and!; try done.
  { rewrite Hpp, Hport, Hpt. destruct (valid_parts sc Hv) as (_ & _ & _ & _ & _ & Hpr). apply Z.mod_small. lia. }
  rewrite Hce, Hm', Hmt, Hdm, Hmk. cbv zeta.
  apply (remote_session_Ok (vlaws := sec_volume_laws (sc_cache sc) rnd rnd_zlen) true srnd crnd skernel ckernel (saKey a) uninit indet
    srnd_zlen crnd_zlen shealthy chealthy eq_refl (cc_key cc) [] conn n c (server_of s f)); try done.
  - change (room (NB (store f))). by rewrite HN.
  - cbn. rewrite Huid. lia.
  - cbn. by rewrite Huid.
Qed.
End system.
