(* ===== verification/StartupInstances.v ===== *)
(** * The shipped configuration

    The text of [config/bfs_system_config.cfg], with the file system's own
    backend selected instead of lwext4, what it spells and what it describes;
    the theorems about start-up are applied to it. *)
From Stdlib Require Import Init.Byte.
From S2P Require Import Prelude Layout BfsUtil CoreTypes SecAssoc Wire BlockLayer FsLayer BlockStore Volume SecBlock SecStore FsAlloc Acl FsDir FsFile FsOps Mkfs SecVolume Server Client Rpc RpcSpec Instances MkfsInstances RemoteInstances RegExp BfsLog CfgParser CfgItem CfgTokens CfgParse CfgLoad CfgQuery Startup StartupSpec StartupVolume StartupClient.
Import RegExp CfgParser CfgItem CfgTokens CfgParse CfgLoad CfgQuery Startup StartupSpec.

Module Shipped.
Definition text : bytes := Eval vm_compute in str "#   BFS system configuration

bfsClientLayer {
    log_enabled : false
    log_verbose : false
    log_to_file : false
    logfile : bfs_client.log

    # Format file system on mount
    do_mkfs : true

    # Enable direct io (toggles caching in client FUSE)
    direct_io : false

    # Server connection settings (used by bechmark script)
    bfs_server_ip : 192.168.86.69
    bfs_server_port : 50000

    # Client/server security association
    # Note: For simplicity, both directions use same SA
    cl_serv_sa {
        initiator : client
        responder : server
        key : 4n2HhXKloX3OohFjQyBj+A==
    }
}

bfsServer {
    log_enabled : true
    log_verbose : false
    log_to_file : false
    logfile : bfs_server.log

    # Server listener settings
    bfs_server_port : 50000

    # [WIP]
    # Number of threads handling file operations. A positive values indicates that
    # the server is multithreaded (i.e., a main dispatcher thread and at least one
    # worker), and a zero value indicates that the server is single threaded (main
    # thread handles everything).
    # Note: Leave single threaded for now to avoid concurrent cache access issues
    # at fs/block layers.
    # Note: Make sure to modify enclave config to reflect this number.
    num_file_worker_threads : 1

    # Server->client security association
    # Note: For simplicity, both directions use same SA
    cl_serv_sa {
        initiator : client
        responder : server
        key : 4n2HhXKloX3OohFjQyBj+A==
    }
}

bfsFsLayer {
    log_enabled : true
    log_verbose : false

    use_lwext4_impl : false

    # TEE->TEE security association for block data
    fs_sa {
        initiator : server
        responder : server
        key : H7Q2f8BsDTDq/qIDytZMxg==
    }
}

bfsCommon {
    # Collect timer measurements
    perf_test : false

    # Enable merkle tree for block layer
    merkle_tree : true

    journal : false
}

bfsUtilLayer {
    log_enabled : false
    log_verbose : false

    # Cache configuration (the flag toggles the bfs fs layer cache, 
    # but the size is used by either the bfs or lwext4 impl).
    cache_enabled : false
    cache_sz_limit : 256
}

bfsBlockLayer {
    log_enabled : false
    log_verbose : false

    # for lwext4 backend
    num_blocks : 524288

    # Block allocation scheme
    allocation_discipline : linear
}

bfsFsLayerTest {
    log_enabled : false
    log_verbose : false
    log_to_file : false
    logfile : bfs_core_test.log

    # Format file system on mount
    do_mkfs : true

    # Test parameters (used mainly by non-enclave test methods)
    num_files : 1
    num_test_iterations : 500
    min_op_sz : 131072
    max_op_sz : 131072
}

bfsDeviceLayer {
    log_enabled : false
    log_verbose : false

    # Note: This contains some redundant fields for the benchmark scripts
    devices [

        device1 {
            type : local
            ip : 192.168.1.92
            d1_type : local
            d1_ip : 192.168.1.92

            path : /tmp/bfs_ci/bfs_data_1.bin
            port : 50001
            did : 1       
            size : 131072  
            sa {
                initiator : server
                responder : device1
                key : 2rIpKNl3XnCLx+/wWSmypg==
            }
        }

        device2 {
            type : local
            ip : 192.168.1.92
            d2_type : local
            d2_ip : 192.168.1.92

            path : /tmp/bfs_ci/bfs_data_2.bin
            port : 50002
            did : 2       
            size : 131072  
            sa {
                initiator : server
                responder : device2
                key : h5zSPPDS1JJwKMhdCYhRog==
            }
        }

        device3 {
            type : local
            ip : 192.168.1.92
            d3_type : local
            d3_ip : 192.168.1.92

            path : /tmp/bfs_ci/bfs_data_3.bin
            port : 50003
            did : 3      
            size : 131072 
            sa {
                initiator : server
                responder : device3
                key : z+uhMXO6HRJFNU6Gwgma9g==
            }
        }

        device4 {
            type : local
            ip : 192.168.1.92
            d4_type : local
            d4_ip : 192.168.1.92

            path : /tmp/bfs_ci/bfs_data_4.bin
            port : 50004
            did : 4     
            size : 131072 
            sa {
                initiator : server
                responder : device4
                key : CdNloYZmE0ZUPKevQZ+UYA==
            }
        }
    ]
}

bfsCryptoLayer {
    log_enabled : false
    log_verbose : false
}

bfsConfigLayer {
    log_enabled : false
    log_verbose : false
}
".

Definition configs : list cfg := [
   CStruct (str "bfsClientLayer") [
     CValue (str "log_enabled") (str "false");
     CValue (str "log_verbose") (str "false");
     CValue (str "log_to_file") (str "false");
     CValue (str "logfile") (str "bfs_client.log");
     CValue (str "do_mkfs") (str "true");
     CValue (str "direct_io") (str "false");
     CValue (str "bfs_server_ip") (str "192.168.86.69");
     CValue (str "bfs_server_port") (str "50000");
     CStruct (str "cl_serv_sa") [
       CValue (str "initiator") (str "client");
       CValue (str "responder") (str "server");
       CValue (str "key") (str "4n2HhXKloX3OohFjQyBj+A==")]];
   CStruct (str "bfsServer") [
     CValue (str "log_enabled") (str "true");
     CValue (str "log_verbose") (str "false");
     CValue (str "log_to_file") (str "false");
     CValue (str "logfile") (str "bfs_server.log");
     CValue (str "bfs_server_port") (str "50000");
     CValue (str "num_file_worker_threads") (str "1");
     CStruct (str "cl_serv_sa") [
       CValue (str "initiator") (str "client");
       CValue (str "responder") (str "server");
       CValue (str "key") (str "4n2HhXKloX3OohFjQyBj+A==")]];
   CStruct (str "bfsFsLayer") [
     CValue (str "log_enabled") (str "true");
     CValue (str "log_verbose") (str "false");
     CValue (str "use_lwext4_impl") (str "false");
     CStruct (str "fs_sa") [
       CValue (str "initiator") (str "server");
       CValue (str "responder") (str "server");
       CValue (str "key") (str "H7Q2f8BsDTDq/qIDytZMxg==")]];
   CStruct (str "bfsCommon") [
     CValue (str "perf_test") (str "false");
     CValue (str "merkle_tree") (str "true");
     CValue (str "journal") (str "false")];
   CStruct (str "bfsUtilLayer") [
     CValue (str "log_enabled") (str "false");
     CValue (str "log_verbose") (str "false");
     CValue (str "cache_enabled") (str "false");
     CValue (str "cache_sz_limit") (str "256")];
   CStruct (str "bfsBlockLayer") [
     CValue (str "log_enabled") (str "false");
     CValue (str "log_verbose") (str "false");
     CValue (str "num_blocks") (str "524288");
     CValue (str "allocation_discipline") (str "linear")];
   CStruct (str "bfsFsLayerTest") [
     CValue (str "log_enabled") (str "false");
     CValue (str "log_verbose") (str "false");
     CValue (str "log_to_file") (str "false");
     CValue (str "logfile") (str "bfs_core_test.log");
     CValue (str "do_mkfs") (str "true");
     CValue (str "num_files") (str "1");
     CValue (str "num_test_iterations") (str "500");
     CValue (str "min_op_sz") (str "131072");
     CValue (str "max_op_sz") (str "131072")];
   CStruct (str "bfsDeviceLayer") [
     CValue (str "log_enabled") (str "false");
     CValue (str "log_verbose") (str "false");
     CList (str "devices") [
       CStruct (str "device1") [
         CValue (str "type") (str "local");
         CValue (str "ip") (str "192.168.1.92");
         CValue (str "d1_type") (str "local");
         CValue (str "d1_ip") (str "192.168.1.92");
         CValue (str "path") (str "/tmp/bfs_ci/bfs_data_1.bin");
         CValue (str "port") (str "50001");
         CValue (str "did") (str "1");
         CValue (str "size") (str "131072");
         CStruct (str "sa") [
           CValue (str "initiator") (str "server");
           CValue (str "responder") (str "device1");
           CValue (str "key") (str "2rIpKNl3XnCLx+/wWSmypg==")]];
       CStruct (str "device2") [
         CValue (str "type") (str "local");
         CValue (str "ip") (str "192.168.1.92");
         CValue (str "d2_type") (str "local");
         CValue (str "d2_ip") (str "192.168.1.92");
         CValue (str "path") (str "/tmp/bfs_ci/bfs_data_2.bin");
         CValue (str "port") (str "50002");
         CValue (str "did") (str "2");
         CValue (str "size") (str "131072");
         CStruct (str "sa") [
           CValue (str "initiator") (str "server");
           CValue (str "responder") (str "device2");
           CValue (str "key") (str "h5zSPPDS1JJwKMhdCYhRog==")]];
       CStruct (str "device3") [
         CValue (str "type") (str "local");
         CValue (str "ip") (str "192.168.1.92");
         CValue (str "d3_type") (str "local");
         CValue (str "d3_ip") (str "192.168.1.92");
         CValue (str "path") (str "/tmp/bfs_ci/bfs_data_3.bin");
         CValue (str "port") (str "50003");
         CValue (str "did") (str "3");
         CValue (str "size") (str "131072");
         CStruct (str "sa") [
           CValue (str "initiator") (str "server");
           CValue (str "responder") (str "device3");
           CValue (str "key") (str "z+uhMXO6HRJFNU6Gwgma9g==")]];
       CStruct (str "device4") [
         CValue (str "type") (str "local");
         CValue (str "ip") (str "192.168.1.92");
         CValue (str "d4_type") (str "local");
         CValue (str "d4_ip") (str "192.168.1.92");
         CValue (str "path") (str "/tmp/bfs_ci/bfs_data_4.bin");
         CValue (str "port") (str "50004");
         CValue (str "did") (str "4");
         CValue (str "size") (str "131072");
         CStruct (str "sa") [
           CValue (str "initiator") (str "server");
           CValue (str "responder") (str "device4");
           CValue (str "key") (str "CdNloYZmE0ZUPKevQZ+UYA==")]]]];
   CStruct (str "bfsCryptoLayer") [
     CValue (str "log_enabled") (str "false");
     CValue (str "log_verbose") (str "false")];
   CStruct (str "bfsConfigLayer") [
     CValue (str "log_enabled") (str "false");
     CValue (str "log_verbose") (str "false")]].

Definition settings : sysconfig :=
  mkSysconfig (fun n => (bool_decide (n = "bfsFsLayer"%string \/ n = "bfsServer"%string), false)) 256 false false true false 524288 false
    [x1f; xb4; x36; x7f; xc0; x6c; x0d; x30; xea; xfe; xa2; x03; xca; xd6; x4c; xc6]
    [mkDevCfg 1 (str "/tmp/bfs_ci/bfs_data_1.bin") 131072
       [xda; xb2; x29; x28; xd9; x77; x5e; x70; x8b; xc7; xef; xf0; x59; x29; xb2; xa6];
     mkDevCfg 2 (str "/tmp/bfs_ci/bfs_data_2.bin") 131072
       [x87; x9c; xd2; x3c; xf0; xd2; xd4; x92; x70; x28; xc8; x5d; x09; x88; x51; xa2];
     mkDevCfg 3 (str "/tmp/bfs_ci/bfs_data_3.bin") 131072
       [xcf; xeb; xa1; x31; x73; xba; x1d; x12; x45; x35; x4e; x86; xc2; x09; x9a; xf6];
     mkDevCfg 4 (str "/tmp/bfs_ci/bfs_data_4.bin") 131072
       [x09; xd3; x65; xa1; x86; x66; x13; x46; x54; x3c; xa7; xaf; x41; x9f; x94; x60]] 50000 1 None.

Definition client_settings : client_cfg :=
  mkClientCfg (false, false) None true false (str "192.168.86.69") 50000
    [xe2; x7d; x87; x85; x72; xa5; xa1; x7d; xce; xa2; x11; x63; x43; x20; x63; xf8].

(** A host on which every call succeeds. *)
Definition host_env : env :=
  mkEnv true (Some text) (fun d => zlen d =? 16) (fun _ => true) (fun _ n => n) (fun _ => true) zero_blk (fun _ _ _ => None) 0.

Lemma host_works : works host_env text.
Proof.
  split_and!; try done. intros d Hd. by apply Z.eqb_eq.
Qed.

Definition new_cache (n : Z) : BoundedCache.t := ∅.
End Shipped.

Lemma configured_startup_witness :
  exists s, (server_main Shipped.host_env ;; ensure_enclave Shipped.host_env Shipped.new_cache) (fresh ∅) = Ok () s /\
    running Shipped.host_env ∅ Shipped.configs Shipped.settings s.
Proof.
  apply (configured_startup Shipped.host_env Shipped.new_cache Shipped.configs Shipped.text Shipped.settings ∅);
    [vm_compute; reflexivity|vm_decide|vm_compute; reflexivity|vm_compute; reflexivity|vm_compute; reflexivity|reflexivity
    |exact Shipped.host_works|reflexivity].
Defined.

(** The same host runs both processes; the kernels move a few bytes at a time. *)
Lemma configured_system_witness :
  exists s a (p : process BoundedCache.t) f c,
    (server_main Shipped.host_env ;; ensure_enclave Shipped.host_env Shipped.new_cache) (fresh ∅) = Ok () s /\
    user_association Shipped.host_env s = Ok (Some a) s /\
    client_init Shipped.host_env (new_process ∅) = Ok 0 p /\
    numbers (sys p) "bfs_server_port"%string = numbers s "bfs_server_port"%string /\
    volume_of s sb0 = Some f /\ client_of p Net.idle = Some c /\
    let _ := sec_store (C := BoundedCache.t) (flags s "bfs_cache_enabled"%string) Mounted.rnd in
    let _ := sec_volume (C := BoundedCache.t) (flags s "bfs_cache_enabled"%string) Mounted.rnd in
    let mt := flags s "use_merkle_tree"%string in
    exists s0 w1 w2 w3 w4,
      worker_start mt Mounted.rnd Net.skernel (saKey a) 0 7 10 Net.idle (server_of s f) = Ok () s0 /\
      rpc mt Mounted.rnd Net.skernel (saKey a) 0 7 10 (Client.bfs_init Mounted.rnd Net.ckernel (flags (sys p) "do_mkfs"%string)) (mkWorld c s0)
        = Ok (Some Msg.rc_success) w1 /\
      rpc mt Mounted.rnd Net.skernel (saKey a) 0 7 10 (Client.bfs_create Mounted.rnd Net.ckernel path_g 0x1FF) w1
        = Ok (Msg.rc_success, Some START_FD) w2 /\
      rpc mt Mounted.rnd Net.skernel (saKey a) 0 7 10 (Client.bfs_write Mounted.rnd Net.ckernel START_FD [x01; x02; x03] 70000) w2 = Ok 3 w3 /\
      rpc mt Mounted.rnd Net.skernel (saKey a) 0 7 10 (Client.bfs_read Mounted.rnd Net.ckernel START_FD 3 70000) w3 = Ok (3, [x01; x02; x03]) w4.
Proof.
  apply (configured_system Mounted.rnd Mounted.rnd Mounted.rnd Net.skernel Net.ckernel 0 7 Mounted.rnd_zlen Mounted.rnd_zlen Mounted.rnd_zlen
    Net.shealthy Net.chealthy Shipped.host_env Shipped.host_env Shipped.new_cache Shipped.configs Shipped.text
    Shipped.settings Shipped.client_settings ∅ ∅ 19 sb0 10 Net.idle Net.idle [x67] 0x1FF [x01; x02; x03] 70000);
    [vm_compute; reflexivity|vm_decide|vm_compute; reflexivity|vm_compute; reflexivity|vm_compute; reflexivity|reflexivity|reflexivity
    |vm_compute; reflexivity|vm_compute; reflexivity|reflexivity|reflexivity|reflexivity
    |exact Shipped.host_works|exact Shipped.host_works|reflexivity|vm_compute; reflexivity|lia|vm_decide
    |reflexivity|reflexivity|reflexivity|reflexivity
    |done|vm_decide|split; vm_decide|vm_decide|vm_compute; reflexivity|vm_decide|vm_decide].
Defined.
